(* ===== verification/_CoqProject ===== *)
-Q . S2P
Prelude.v
PyStr.v
IpAddress.v
Base64.v
PyDecimal.v
TimeModel.v
Calendar.v
Schema.v
Canonical.v
Json.v
Runtime.v
Sample.v
Turnstile.v
Passwords.v
Identity.v
Integrity.v
SessionPayload.v
AuditLog.v
MfaCrypto.v
AuditChain.v
SessionRisk.v
BankingPolicy.v
PasswordHistory.v
Notifications.v
Sessions.v
SessionStore.v
StateCleanup.v
Idempotency.v
RateLimits.v
Mfa.v
RecoveryCodes.v
Devices.v
LoginFrame.v
RegistrationOtp.v
LedgerSpec.v
Transfers.v
TransferSafety.v
TransferTokens.v
Registration.v
SignIn.v
Account.v
Profile.v
PasswordReset.v
ResetSafety.v
ManualRecovery.v
AdminAccess.v
AdminActions.v
AdminSafety.v
StaffInvites.v
StaffUsernames.v
InviteSafety.v
StaffWork.v
StaffSafety.v
Browser.v
TopUp.v
TopUpSafety.v
Settings.v
Statement.v
Guards.v
ConfigRules.v
CloudflareAccess.v
AccessTokens.v
Alerts.v
AlertDelivery.v
AlertReport.v
AlertSafety.v
ProductionGuard.v
ProductionSafety.v
BankingViews.v
TransferJourney.v
PayeeFrame.v
PayeeVetting.v
System.v
