(* ===== verification/Prelude.v ===== *)
(** * SITBank: a verification library for the banking core

    SITBank is a Flask application over a PostgreSQL database (SQLAlchemy).
    Customers move money by local transfers (to payees) and PayUp transfers (to
    phone numbers), top up from a second device, read statements and change
    their settings; every sensitive step is behind an authenticator code, every
    money row is signed, and every security event is chained in an audit log.
    This library models that core as executable functions and proves what makes
    it correct.

    ** How the code is modelled

    A Python call is a function in the error and state monad [M St A] of this
    file: it returns a value or raises an exception ([res], [exn]) and threads
    the state [St] of [Runtime]: the durable database, the session's pending
    view of it (writes go there; [commit] makes it durable if the constraints
    [db_ok] of [Schema] hold and raises [IntegrityError] otherwise; [rollback]
    discards it), the clock, the Flask session dict and the mail outbox.  An ORM
    object is its primary key.  Everything outside the repository (HMAC and
    SHA-256, random values, how far the clock advances between two readings,
    which audit inserts and mail deliveries fail, configuration, the client) is
    a field of the class [Env]; theorems hold for every [Env].  Assumptions on
    the HMAC are stated where used, as [hmac_separates] for the messages at
    hand.  Money is [Z] cents ([Numeric(12, 2)]), with [PyDecimal] for the
    [Decimal] arithmetic before quantization; instants are [Z] microseconds; a
    string is a sequence of bytes, so lengths and case folding agree with
    Python on ASCII text.  Calls are total functions: loops run over finite
    data.  Fuel appears twice: [Json.parse_value] gets the length of the text,
    and the search for a free staff name one round per account, which
    [staff_username_terminates] proves enough.

    ** Files

    - [Prelude] (this file): exceptions, results, the monad with its frame rules
      ([preserves]) and Hoare triples ([triple]), tables as finite maps, sums,
      sorting, primary keys; the hint database [pres].
    - [PyStr], [PyDecimal], [TimeModel]: the Python strings, JSON, decimals and
      calendar the code uses; [TimeModel] also models app/time_display.py and
      the Singapore day and month bounds of app/banking/services.py.
    - [Calendar]: months tile the time line.
    - [Schema]: app/models.py, one record per table, and the constraints.
    - [Runtime]: the environment, the request state and app/security/email.py.
    - [Sample]: the concrete deployment the witnesses run in.
    - [Canonical]: injectivity of the canonical JSON and of the printers.
    - [Integrity]: app/security/session_hmac.py and
      app/security/transaction_integrity.py.
    - [AuditLog], [AuditChain]: app/security/audit.py and
      app/security/sensitive_values.py (writers; verification and anchors).
    - [IpAddress]: the part of the ipaddress module the code uses.
    - [SessionRisk], [Sessions], [SessionStore]: app/security/sessions.py (risk
      context; session records; the Flask session interface and the hook that
      runs before every request).
    - [RateLimits]: app/security/rate_limits.py.
    - [BankingPolicy], [Notifications]: the helpers and e-mails of
      app/banking/services.py, app/banking/limits.py, app/banking/schemas.py.
    - [Mfa], [RecoveryCodes]: the authenticator and lock code of
      app/auth/services.py, and app/auth/recovery_codes.py.
    - [LedgerSpec]: the abstract ledger, the specification of money movement.
    - [Transfers], [TransferSafety], [TransferTokens]: execute_local_transfer
      and execute_payup_transfer, their refinement of the ledger, and the single
      use of confirmation tokens.
    - [Base64], [Json]: base64 and the json reader of the standard library.
    - [Passwords], [PasswordHistory]: app/security/passwords.py and
      app/security/password_history.py.
    - [Identity]: app/security/identity_policy.py.
    - [SessionPayload], [MfaCrypto]: the signed payloads of
      app/security/session_hmac.py and app/security/crypto.py.
    - [RegistrationOtp], [Registration]: app/auth/registration_otp.py and
      register_user in app/auth/services.py.
    - [LoginFrame], [SignIn], [Account], [Profile]: the rest of
      app/auth/services.py (who the session says is signed in; password and
      second factor; authenticators, password change, sessions; profile).
    - [Devices]: app/security/device_recognition.py.
    - [PasswordReset], [ResetSafety]: the password reset of
      app/auth/password_reset.py and its histories.
    - [ManualRecovery]: the manual recovery requests of
      app/auth/password_reset.py and their histories.
    - [Turnstile]: app/security/turnstile.py.
    - [AdminAccess], [AdminActions], [AdminSafety]: the staff roles, portal
      sign-in and separation of duties of app/admin/services.py and
      app/admin/separation.py; the maker-checker requests; their histories.
    - [StaffInvites], [StaffUsernames], [InviteSafety]: staff invites of
      app/admin/services.py, the names they give, who becomes staff.
    - [StaffWork], [StaffSafety]: issue reports, support tickets and freezes
      (app/web/routes.py and app/admin/services.py), and what staff can do.
    - [Browser]: the histories of one browser's session.
    - [TopUp], [TopUpSafety]: app/banking/topup_tokens.py, credit_account_topup
      and the top-up views of app/banking/routes.py.
    - [Settings]: payee removal and limit changes of app/banking/routes.py.
    - [Statement]: statement_for_period, the statement page and its export.
    - [Guards]: the current-user loader of app/__init__.py and the decorators of
      app/web/routes.py in front of the banking views.
    - [BankingViews], [TransferJourney], [PayeeFrame], [PayeeVetting]: the views
      of payees, local transfers and PayUp in app/banking/routes.py with the
      validators of app/banking/forms.py; their histories; what each of them
      leaves alone; how a payee comes and goes.
    - [Idempotency]: the public transaction requests of app/banking/services.py
      and app/banking/schemas.py.
    - [StateCleanup]: app/security/state_cleanup.py, app/security/retention.py
      and the retention command of app/ops/commands.py.
    - [Alerts], [AlertDelivery], [AlertReport], [AlertSafety]:
      app/security/alerts.py (detection; sanitising, deduplication and delivery;
      the baselines and the report; what they promise).
    - [CloudflareAccess], [AccessTokens]: app/security/cloudflare_access.py, the
      gate in front of a staging deployment, and the tokens it accepts.
    - [ConfigRules], [ProductionGuard], [ProductionSafety]: the validators of
      config.py; app/security/production_guard.py with the readiness probes and
      the production-check command; what a process that started was checked for.
    - [System]: runs of the bank as sequences of requests.

    ** What the theorems show

    - Money: each operation that moves money is atomic and refines one step of
      [LedgerSpec.ledger_step] ([local_transfer_atomic],
      [payup_transfer_atomic], [topup_approval_atomic], [registration_atomic],
      [limit_change_refines], [payee_removal_refines]); along every run balances
      are what the ledger says, never negative, add up to the credits
      granted, and respect the daily cap ([bank_conserves_money],
      [bank_caps_daily_spend]).
    - Journeys: every local transfer belongs to one submission with a verified
      code ([transfers_were_stepped_up]); a payee is stored
      only by a confirmation after a stepped-up submission of its owner in the
      same browser, and only its owner removes it ([payees_are_vetted]); an idempotency key is accepted once
      ([accepted_keys_are_first_uses], [accepted_is_well_formed]).
    - Operation: alerts are raised exactly when the audit log warrants them
      ([alerts_are_exact]), delivered once ([dedupe_is_exact]) and clean
      ([webhook_bodies_are_clean]); a table that shrinks is reported
      ([shrinking_is_reported]); cleanup drains what has expired and spares the
      rest ([expired_state_is_drained], [retention_spares_live_state]); the
      staging gate admits exactly the holders of valid assertions
      ([gate_needs_an_assertion], [proxy_tokens_are_accepted]); a production
      process that starts is hardened ([production_start_is_hardened]).
    - Single use: confirmation tokens, approval tokens, TOTP steps and recovery
      codes take effect at most once.
    - Gates: frozen or locked accounts send nothing, the failure that reaches
      the threshold locks, durable limits hold, views run only for the admitted
      customer and act on their own payees, revocation leaves no session.
    - Sign-in: a session that names a signed-in user was earned with the password
      and a second factor ([signed_in_after_both_factors]); a saved session reads
      back, an opened one comes from a live record, and the hook lets a request
      through only within the lifetimes and without a high-risk change of client;
      a password change ends every session; a device that signs in without a
      notice was announced before ([known_device_was_announced]).
    - Reset and recovery: a reset sets a password only for the customer whose
      e-mailed link was exchanged and who gave a second factor
      ([reset_needs_link_and_factor]); a recovery is completed only after the
      review steps were taken in order ([recovery_needs_review]).
    - The portal: no administrator changes another account alone ([four_eyes]);
      nobody becomes staff without the mailed link, the browser that started, an
      authenticator code and the workplace code
      ([staff_activation_needs_both_codes]); reports and tickets move one
      recorded step at a time ([reviews_are_recorded]); staff never lifts a lock
      ([staff_freezes_are_narrow]); a production deployment fails closed on
      challenges ([turnstile_fails_closed]).  [started_invite_cannot_be_reset]
      states a defect: on PostgreSQL two operations on invites always fail.
    - Registration and credentials: an account is opened once, stored under the
      address verified in the session, with a free account number found in at most ten
      draws; a challenge allows five guesses; password hashes, the password
      history, sealed authenticator secrets and signed session payloads read
      back and are bound to what they were made for.
    - Evidence: signatures round-trip, ledger rows and the audit log are tamper
      evident, the writers keep the chain verifiable, anchors pin history.
    - Statements: consecutive statements fit together, list the period in order;
      [statement_balances] and [payee_removal_voids_signatures] state exactly
      where the code departs from what it means to do (top-ups counted as
      debits; payee removal voiding signatures).

    ** What is not modelled

    Requests are served one after another: row locks, isolation anomalies and
    the identity map are not modelled.  Foreign keys are not modelled except
    pending_transfers.payee_id and, when a setup account is deleted, those to
    users.  Of the banking views, the bodies, the form
    validators and the login and frozen guards are modelled; Flask-Limiter, the
    CSRF check (its verdict is an argument) and template rendering are not.
    Floats are decimals, and JSON floats are refused.  The reader of ISO
    timestamps, the field types and validators of
    marshmallow (the schema over them is modelled), RSA verification, the key
    endpoint, the webhook, the monotonic clock and the probes of the database are
    parameters.  Whether the
    session object was modified is an argument of [save_session]; the JSON codec
    Flask uses for sessions is a parameter.  Not modelled: the audit log
    viewer and the dashboards, which only read; the views of the portal, of
    app/auth/routes.py and the other pages of app/web/routes.py, which parse
    forms, call the modelled services and render; reading the environment and the
    key files into the settings (config.py); the provisioning of database roles
    and the other operator commands.  [Json]
    refuses floats and escapes above U+00FF, which the payloads read here do not
    contain; [IpAddress] refuses IPv6 scope ids. *)

From Stdlib Require Export ZArith Lia.
From stdpp Require Export base gmap strings list fin_maps sorting.

(** ** Exceptions and results

    Python code signals failure by raising.  [exn] lists the exception
    classes the modelled code raises or catches; [res A] is the outcome of a
    call, a returned value or a raised exception. *)

Inductive exn : Type :=
  | AuthError (message : string) (status_code : Z) (retry_after : option Z)
  | FrozenAccountError (message : string) (status_code : Z)
  | AuditWriteError (message : string)
  | IntegrityError
  | MultipleResultsFound
  | NoResultFound
  | NotFound
  | RuntimeError (message : string)
  | ValueError (message : string)
  | TypeError
  | KeyError (key : string)
  | InvalidOperation
  | OverflowError
  | AuthBackoffRequired (backoff_retry_after : Z)
  | DurableRateLimitExceeded (limit_retry_after : Z)
  | MailError
  | PasswordPolicyError (message : string)
  | PasswordReuseError (reason : string)
  | LivePasswordCheckUnavailable (message : string)
  | IdentityPolicyError (reason : string)
  | RegistrationOtpError (message : string) (status_code : Z) (retry_after : option Z)
  | MFASecretEnvelopeError (message : string)
  | SessionPayloadIntegrityError (reason : string)
  | InvalidTag
  | TurnstileError (message : string)
  | ProgrammingError
  | OSError (class_name : string)
  | Forbidden
  | AlertConfigurationError (message : string)
  | RetentionCleanupError (message : string)
  | CloudflareAccessConfigurationError (message : string)
  | CloudflareAccessVerificationError (message : string) (reason : string)
  | ProductionStartupSecurityError (message : string)
  | ClickException (message : string).

(** [except AuthError]: [FrozenAccountError] is a subclass. *)
Definition is_auth_error (e : exn) : bool :=
  match e with AuthError _ _ _ | FrozenAccountError _ _ => true | _ => false end.

(** [except AuditWriteError]. *)
Definition is_audit_write_error (e : exn) : bool :=
  match e with AuditWriteError _ => true | _ => false end.

(** [except ValueError], with the subclasses the application declares. *)
Definition is_value_error (e : exn) : bool :=
  match e with
  | ValueError _ | AuthError _ _ _ | FrozenAccountError _ _ | PasswordPolicyError _
  | PasswordReuseError _ | IdentityPolicyError _ | RegistrationOtpError _ _ _
  | MFASecretEnvelopeError _ | SessionPayloadIntegrityError _ | TurnstileError _
  | RetentionCleanupError _ | CloudflareAccessVerificationError _ _ => true
  | _ => false
  end.

(** [except ArithmeticError, KeyError, SQLAlchemyError, TypeError, ValueError]. *)
Definition is_risk_state_error (e : exn) : bool :=
  match e with
  | InvalidOperation | OverflowError | KeyError _ | TypeError | IntegrityError
  | MultipleResultsFound | NoResultFound | ProgrammingError => true
  | _ => is_value_error e
  end.

(** [type(exc).__name__]. *)
Definition exn_class (e : exn) : string := (
  match e with
  | AuthError _ _ _ => "AuthError"
  | FrozenAccountError _ _ => "FrozenAccountError"
  | AuditWriteError _ => "AuditWriteError"
  | IntegrityError => "IntegrityError"
  | MultipleResultsFound => "MultipleResultsFound"
  | NoResultFound => "NoResultFound"
  | NotFound => "NotFound"
  | RuntimeError _ => "RuntimeError"
  | ValueError _ => "ValueError"
  | TypeError => "TypeError"
  | KeyError _ => "KeyError"
  | InvalidOperation => "InvalidOperation"
  | OverflowError => "OverflowError"
  | AuthBackoffRequired _ => "AuthBackoffRequired"
  | DurableRateLimitExceeded _ => "DurableRateLimitExceeded"
  | MailError => "SMTPException"
  | PasswordPolicyError _ => "PasswordPolicyError"
  | PasswordReuseError _ => "PasswordReuseError"
  | LivePasswordCheckUnavailable _ => "LivePasswordCheckUnavailable"
  | IdentityPolicyError _ => "IdentityPolicyError"
  | RegistrationOtpError _ _ _ => "RegistrationOtpError"
  | MFASecretEnvelopeError _ => "MFASecretEnvelopeError"
  | SessionPayloadIntegrityError _ => "SessionPayloadIntegrityError"
  | InvalidTag => "InvalidTag"
  | TurnstileError _ => "TurnstileError"
  | ProgrammingError => "ProgrammingError"
  | OSError class_name => class_name
  | Forbidden => "Forbidden"
  | AlertConfigurationError _ => "AlertConfigurationError"
  | RetentionCleanupError _ => "RetentionCleanupError"
  | CloudflareAccessConfigurationError _ => "CloudflareAccessConfigurationError"
  | CloudflareAccessVerificationError _ _ => "CloudflareAccessVerificationError"
  | ProductionStartupSecurityError _ => "ProductionStartupSecurityError"
  | ClickException _ => "ClickException"
  end)%string.

Inductive res (A : Type) : Type :=
  | Ok (a : A)
  | Raise (e : exn).
Arguments Ok {A} a.
Arguments Raise {A} e.

#[export] Instance exn_eq_dec : EqDecision exn.
Proof. solve_decision. Defined.
#[export] Instance res_eq_dec `{EqDecision A} : EqDecision (res A).
Proof. solve_decision. Defined.

Definition is_ok {A} (r : res A) : bool :=
  match r with Ok _ => true | Raise _ => false end.

Definition rbind {A B} (r : res A) (k : A → res B) : res B :=
  match r with Ok a => k a | Raise e => Raise e end.

(** A list comprehension over a call that may raise. *)
Fixpoint mapR {A B} (f : A → res B) (l : list A) : res (list B) :=
  match l with
  | [] => Ok []
  | x :: l' => rbind (f x) (λ y, rbind (mapR f l') (λ ys, Ok (y :: ys)))
  end.

(** ** The state-and-exception monad

    [M S A] is a Python call with access to a state of type [S].  The state
    survives an exception, as it does in Python. *)

Definition M (S A : Type) : Type := S → res A * S.

Definition ret {S A} (a : A) : M S A := λ s, (Ok a, s).
Definition raise {S A} (e : exn) : M S A := λ s, (Raise e, s).
Definition bind {S A B} (c : M S A) (k : A → M S B) : M S B := λ s,
  match c s with
  | (Ok a, s') => k a s'
  | (Raise e, s') => (Raise e, s')
  end.
Definition get {S} : M S S := λ s, (Ok s, s).
Definition modify {S} (f : S → S) : M S unit := λ s, (Ok tt, f s).
Definition gets {S A} (f : S → A) : M S A := λ s, (Ok (f s), s).
Definition lift {S A} (r : res A) : M S A := λ s, (r, s).

(** [try: c except <classes>: h]: [sel] selects the exceptions [h] handles. *)
Definition try_except {S A} (c : M S A) (sel : exn → bool) (h : exn → M S A) : M S A :=
  λ s, match c s with
       | (Raise e, s') => if sel e then h e s' else (Raise e, s')
       | r => r
       end.

Definition any_exn (_ : exn) : bool := true.

Declare Scope py_scope.
Delimit Scope py_scope with py.
Notation "x <- c ;; k" := (bind c (λ x, k))
  (at level 100, c at next level, right associativity) : py_scope.
Notation "'let*' p := c 'in' k" := (bind c (λ x, match x with p => k end))
  (at level 100, p pattern, c at next level, right associativity) : py_scope.
Notation "c ;; k" := (bind c (λ _, k))
  (at level 100, right associativity) : py_scope.
Open Scope py_scope.

(** A raising helper never returns: code after it is reached only when the
    guard did not fire. *)
Definition guard {S} (b : bool) (c : M S unit) : M S unit := if b then c else ret tt.

Fixpoint mapM_ {S A} (f : A → M S unit) (l : list A) : M S unit :=
  match l with
  | [] => ret tt
  | x :: l' => f x ;; mapM_ f l'
  end.

(** ** Symbolic execution lemmas *)

Section MonadLemmas.
Context {S : Type}.

Lemma bind_Ok {A B} (c : M S A) (k : A → M S B) s a s' :
  c s = (Ok a, s') → bind c k s = k a s'.
Proof. intros H. unfold bind. by rewrite H. Qed.

Lemma bind_Raise {A B} (c : M S A) (k : A → M S B) s e s' :
  c s = (Raise e, s') → bind c k s = (Raise e, s').
Proof. intros H. unfold bind. by rewrite H. Qed.

Lemma bind_ret_l {A B} (a : A) (k : A → M S B) : bind (ret a) k = k a.
Proof. done. Qed.

Lemma bind_assoc {A B C} (c : M S A) (k : A → M S B) (h : B → M S C) s :
  bind (bind c k) h s = bind c (λ a, bind (k a) h) s.
Proof. unfold bind. by destruct (c s) as [[a|e] s1]. Qed.

Lemma bind_inv_Ok {A B} (c : M S A) (k : A → M S B) s b s' :
  bind c k s = (Ok b, s') → ∃ a s1, c s = (Ok a, s1) ∧ k a s1 = (Ok b, s').
Proof.
  unfold bind. destruct (c s) as [[a|e] s1] eqn:E; [eauto | done].
Qed.

Lemma bind_inv_Raise {A B} (c : M S A) (k : A → M S B) s e s' :
  bind c k s = (Raise e, s') →
  c s = (Raise e, s') ∨ ∃ a s1, c s = (Ok a, s1) ∧ k a s1 = (Raise e, s').
Proof.
  unfold bind. destruct (c s) as [[a|e'] s1] eqn:E; [eauto | naive_solver].
Qed.

(** *** State invariants kept by a call, whatever its outcome *)

Definition preserves (I : S → Prop) {A} (c : M S A) : Prop :=
  ∀ s, I s → I (c s).2.

(** *** Postconditions of a normal return *)

Definition returns (I : S → Prop) {A} (c : M S A) (Q : A → S → Prop) : Prop :=
  ∀ s a s', I s → c s = (Ok a, s') → Q a s'.

Context (I : S → Prop).

Lemma pres_ret {A} (a : A) : preserves I (ret a).
Proof. by intros s Hs. Qed.
Lemma pres_raise {A} e : preserves I (raise (A:=A) e).
Proof. by intros s Hs. Qed.
Lemma pres_lift {A} (r : res A) : preserves I (lift r).
Proof. by intros s Hs. Qed.
Lemma pres_get : preserves I get.
Proof. by intros s Hs. Qed.
Lemma pres_gets {A} (f : S → A) : preserves I (gets f).
Proof. by intros s Hs. Qed.
Lemma pres_modify f : (∀ s, I s → I (f s)) → preserves I (modify f).
Proof. intros H s Hs. by apply H. Qed.
Lemma pres_bind {A B} (c : M S A) (k : A → M S B) :
  preserves I c → (∀ a, preserves I (k a)) → preserves I (bind c k).
Proof.
  intros Hc Hk s Hs. unfold bind. specialize (Hc s Hs).
  destruct (c s) as [[a|e] s1]; [by apply Hk | done].
Qed.
Lemma pres_try {A} (c : M S A) sel h :
  preserves I c → (∀ e, preserves I (h e)) → preserves I (try_except c sel h).
Proof.
  intros Hc Hh s Hs. unfold try_except. specialize (Hc s Hs).
  destruct (c s) as [[a|e] s1]; [done |]. destruct (sel e); [by apply Hh | done].
Qed.
Lemma pres_if {A} (b : bool) (c1 c2 : M S A) :
  preserves I c1 → preserves I c2 → preserves I (if b then c1 else c2).
Proof. by destruct b. Qed.
Lemma pres_guard b c : preserves I c → preserves I (guard b c).
Proof. intros H. apply pres_if; [done | apply pres_ret]. Qed.
Lemma pres_mapM {A} (f : A → M S unit) l :
  (∀ x, preserves I (f x)) → preserves I (mapM_ f l).
Proof.
  intros H. induction l as [|x l IH]; [apply pres_ret |].
  apply pres_bind; auto.
Qed.
End MonadLemmas.

(** *** Calls that never raise *)

Definition total {S A} (c : M S A) : Prop := ∀ s, ∃ a s', c s = (Ok a, s').

Lemma total_ret {S A} (a : A) : total (S:=S) (ret a).
Proof. intros s. by eexists _, _. Qed.
Lemma total_bind {S A B} (c : M S A) (k : A → M S B) :
  total c → (∀ a, total (k a)) → total (bind c k).
Proof.
  intros Hc Hk s. destruct (Hc s) as (a & s1 & E). rewrite (bind_Ok _ _ _ _ _ E). apply Hk.
Qed.
Lemma total_mapM {S A} (f : A → M S unit) l : (∀ x, total (f x)) → total (mapM_ f l).
Proof.
  intros Hf. induction l as [|x l IH]; [apply total_ret|]. apply total_bind; auto.
Qed.

Create HintDb pres discriminated.
#[export] Hint Resolve pres_ret pres_raise pres_lift pres_get pres_gets
  pres_if pres_guard : pres.

(** Walks through a monadic body, keeping the invariant at every call. *)
Ltac pres_step :=
  match goal with
  | |- preserves _ (bind _ _) => apply pres_bind; [| intros ?]
  | |- preserves _ (try_except _ _ _) => apply pres_try; [| intros ?]
  | |- preserves _ (mapM_ _ _) => apply pres_mapM; intros ?
  | |- preserves _ (if ?b then _ else _) => apply pres_if
  | |- preserves _ (guard _ _) => apply pres_guard
  | |- preserves _ (match ?x with _ => _ end) => destruct x
  | |- preserves _ (let '(_, _) := ?x in _) => destruct x
  | |- ∀ _, preserves _ _ => intros ?
  | |- preserves _ _ => solve [eauto with pres]
  end.
Ltac solve_pres := repeat pres_step.

(** Runs one step of a monadic computation in hypothesis [H]. *)
Ltac inv_bind H :=
  match type of H with
  | bind _ _ _ = (Ok _, _) =>
      let a := fresh "a" in let s1 := fresh "s" in
      let E := fresh "E" in
      apply bind_inv_Ok in H as (a & s1 & E & H)
  end.

(** ** Hoare triples with a normal and an exceptional postcondition

    [triple P c Q X]: started in a state satisfying [P], the call returns a
    value [a] in a state satisfying [Q a], or raises in a state satisfying
    [X].  Calls are total functions, so this is total correctness. *)

Section Triples.
Context {S : Type}.

Definition triple {A} (P : S → Prop) (c : M S A) (Q : A → S → Prop) (X : exn → S → Prop)
    : Prop :=
  ∀ s, P s → match c s with (Ok a, s') => Q a s' | (Raise e, s') => X e s' end.

Lemma triple_bind {A B} P (c : M S A) (k : A → M S B) R Q X :
  triple P c R X → (∀ a, triple (R a) (k a) Q X) → triple P (bind c k) Q X.
Proof.
  intros Hc Hk s Hs. unfold bind. specialize (Hc s Hs).
  destruct (c s) as [[a|e] s1]; [by apply Hk | done].
Qed.

Lemma triple_conseq {A} P P' (c : M S A) Q Q' X X' :
  triple P' c Q' X' → (∀ s, P s → P' s) → (∀ a s, Q' a s → Q a s) →
  (∀ e s, X' e s → X e s) → triple P c Q X.
Proof.
  intros Hc HP HQ HX s Hs. specialize (Hc s (HP s Hs)).
  destruct (c s) as [[a|e] s1]; auto.
Qed.

Lemma triple_pres {A} (I : S → Prop) (c : M S A) :
  preserves I c → triple I c (λ _, I) (λ _, I).
Proof. intros Hc s Hs. specialize (Hc s Hs). by destruct (c s) as [[a|e] s1]. Qed.

(** A state invariant, together with a fact about the value returned. *)
Lemma triple_returns {A} (I : S → Prop) (c : M S A) (F : A → Prop) :
  preserves I c → returns I c (λ a _, F a) → triple I c (λ a s, I s ∧ F a) (λ _, I).
Proof.
  intros Hc HF s Hs. pose proof (Hc s Hs) as HI. pose proof (HF s) as HF'.
  destruct (c s) as [[a|e] s1]; [eauto | done].
Qed.

Lemma triple_pure {A} (F : Prop) (I : S → Prop) (c : M S A) Q X :
  (F → triple I c Q X) → triple (λ s, I s ∧ F) c Q X.
Proof. intros H s [Hs HF]. by apply H. Qed.

Lemma triple_ret {A} (a : A) P (Q : A → S → Prop) X :
  (∀ s, P s → Q a s) → triple P (ret a) Q X.
Proof. intros H s Hs. by apply H. Qed.

Lemma triple_raise {A} e P (Q : A → S → Prop) (X : exn → S → Prop) :
  (∀ s, P s → X e s) → triple P (raise e) Q X.
Proof. intros H s Hs. by apply H. Qed.

Lemma triple_try {A} P (c : M S A) sel h Q X X' :
  triple P c Q X' → (∀ e, triple (X' e) (h e) Q X) → (∀ e s, X' e s → X e s) →
  triple P (try_except c sel h) Q X.
Proof.
  intros Hc Hh HX s Hs. unfold try_except. specialize (Hc s Hs).
  destruct (c s) as [[a|e] s1]; [done|]. destruct (sel e); [by apply Hh | by apply HX].
Qed.

(** A call that keeps [I] runs before [k]; [I] implies the exceptional
    postcondition. *)
Lemma triple_step {A B} (I : S → Prop) (c : M S A) (k : A → M S B) Q (X : exn → S → Prop) :
  preserves I c → (∀ e s, I s → X e s) → (∀ a, triple I (k a) Q X) → triple I (bind c k) Q X.
Proof.
  intros Hc HX Hk. eapply triple_bind; [|exact Hk].
  eapply triple_conseq; [by apply triple_pres|done|done|]. intros; by apply HX.
Qed.

(** The same, with a pure fact about the value returned. *)
Lemma triple_step_fact {A B} (I : S → Prop) (c : M S A) (k : A → M S B) (F : A → Prop) Q
    (X : exn → S → Prop) :
  preserves I c → returns I c (λ a _, F a) → (∀ e s, I s → X e s) →
  (∀ a, F a → triple I (k a) Q X) → triple I (bind c k) Q X.
Proof.
  intros Hc HF HX Hk. eapply triple_bind with (R := λ a s, I s ∧ F a).
  - eapply triple_conseq; [by apply triple_returns|done|done|]. intros; by apply HX.
  - intros a. apply triple_pure, Hk.
Qed.

(** A check: it returns without touching the state, or fails keeping [I]. *)
Lemma triple_check {A B} (I J : S → Prop) (c : M S A) (k : A → M S B) (F : A → Prop) Q
    (X : exn → S → Prop) :
  preserves I c → (∀ s a s', c s = (Ok a, s') → s' = s ∧ F a) → (∀ e s, I s → X e s) →
  (∀ a, F a → triple (λ s, I s ∧ J s) (k a) Q X) → triple (λ s, I s ∧ J s) (bind c k) Q X.
Proof.
  intros Hc Hr HX Hk s [HI HJ]. unfold bind. specialize (Hc s HI). specialize (Hr s).
  destruct (c s) as [[a|e] s1]; [|by apply HX].
  destruct (Hr a s1 eq_refl) as [-> HF]. by apply (Hk a HF).
Qed.

Lemma pres_and (I J : S → Prop) {A} (c : M S A) :
  preserves I c → preserves J c → preserves (λ s, I s ∧ J s) c.
Proof. intros HI HJ s [? ?]. split; auto. Qed.

(** A state invariant and a fact about the value returned; failures may weaken
    the invariant. *)
Lemma triple_fact {A} (I : S → Prop) (c : M S A) (F : A → Prop) (X : exn → S → Prop) :
  preserves I c → returns I c (λ a _, F a) → (∀ e s, I s → X e s) →
  triple I c (λ a s, I s ∧ F a) X.
Proof.
  intros Hc HF HX s Hs. pose proof (Hc s Hs) as HI. pose proof (HF s) as HF'.
  destruct (c s) as [[a|e] s1]; [eauto | by apply HX].
Qed.

(** Calls that never return. *)
Definition raises {A} (c : M S A) : Prop := ∀ s a s', c s ≠ (Ok a, s').

Lemma raises_raise {A} e : raises (raise (A:=A) e).
Proof. by intros s a s'. Qed.
Lemma raises_bind {A B} (c : M S A) (k : A → M S B) : (∀ a, raises (k a)) → raises (bind c k).
Proof. intros Hk s b s' E. apply bind_inv_Ok in E as (a & s1 & _ & E). by eapply Hk. Qed.
Lemma raises_match_pair {A B C} (p : A * B) (k : A → B → M S C) :
  (∀ a b, raises (k a b)) → raises (let '(a, b) := p in k a b).
Proof. destruct p. auto. Qed.

Lemma triple_raises {A} (I J : S → Prop) (c : M S A) (Q : A → S → Prop) :
  raises c → preserves J c → (∀ s, I s → J s) → triple I c Q (λ _, J).
Proof.
  intros Hr Hp HI s Hs. specialize (Hp s (HI s Hs)). specialize (Hr s).
  destruct (c s) as [[a|e] s1]; [by destruct (Hr a s1)|done].
Qed.

(** A handler that always raises lets a value through only from the body. *)
Lemma try_raises_inv {A} (c : M S A) sel h s a s' :
  (∀ e, raises (h e)) → try_except c sel h s = (Ok a, s') → c s = (Ok a, s').
Proof.
  intros Hh. unfold try_except. destruct (c s) as [[x|e] s1]; [done|]. destruct (sel e); [|done].
  intros E. by destruct (Hh e s1 a s').
Qed.

Lemma guard_raises_inv b (c : M S unit) s u s' :
  raises c → guard b c s = (Ok u, s') → b = false ∧ s' = s.
Proof. intros Hc. destruct b; simpl; [by intros E%Hc|by intros [= _ <-]]. Qed.

(** A preserved invariant can be read off either outcome. *)
Lemma triple_preserves {A} (I : S → Prop) (c : M S A) :
  triple I c (λ _, I) (λ _, I) → preserves I c.
Proof. intros H s Hs. specialize (H s Hs). by destruct (c s) as [[a|e] s1]. Qed.
End Triples.

(** Walks to the exception a call ends in. *)
Ltac solve_raises :=
  repeat first [apply raises_bind; intros ? | apply raises_raise
    | match goal with |- raises (if ?b then _ else _) => destruct b end
    | match goal with |- raises (match ?x with _ => _ end) => destruct x end].

(** ** Integers and lists *)

Definition sumZ (l : list Z) : Z := foldr Z.add 0%Z l.

Lemma sumZ_app l1 l2 : sumZ (l1 ++ l2) = (sumZ l1 + sumZ l2)%Z.
Proof. induction l1 as [|x l1 IH]; simpl in *; lia. Qed.

Lemma sumZ_nonneg l : Forall (λ x, 0 ≤ x)%Z l → (0 ≤ sumZ l)%Z.
Proof. induction 1; simpl; lia. Qed.

Lemma sumZ_perm l1 l2 : l1 ≡ₚ l2 → sumZ l1 = sumZ l2.
Proof. induction 1; simpl; lia. Qed.

#[export] Instance sumZ_proper : Proper ((≡ₚ) ==> (=)) sumZ.
Proof. intros l1 l2. apply sumZ_perm. Qed.

(** The sum of [f] over the rows of a table. *)
Definition sum_table {V} (f : V → Z) (t : gmap Z V) : Z :=
  sumZ (f <$> (map_to_list t).*2).

Lemma sum_table_empty {V} (f : V → Z) : sum_table f ∅ = 0%Z.
Proof. unfold sum_table. by rewrite map_to_list_empty. Qed.

Lemma sum_table_insert_None {V} (f : V → Z) t k v :
  t !! k = None → sum_table f (<[k:=v]> t) = (f v + sum_table f t)%Z.
Proof.
  intros H. unfold sum_table.
  rewrite (sumZ_perm _ (f <$> ((k, v) :: map_to_list t).*2)); [done |].
  by rewrite (map_to_list_insert t k v H).
Qed.

Lemma sum_table_delete {V} (f : V → Z) t k v :
  t !! k = Some v → sum_table f t = (f v + sum_table f (delete k t))%Z.
Proof.
  intros H. rewrite <- (insert_id t k v) at 1 by done.
  rewrite <- insert_delete_eq.
  by rewrite sum_table_insert_None by apply lookup_delete_eq.
Qed.

Lemma sum_table_insert {V} (f : V → Z) t k v w :
  t !! k = Some v → sum_table f (<[k:=w]> t) = (sum_table f t - f v + f w)%Z.
Proof.
  intros H. rewrite <- insert_delete_eq.
  rewrite sum_table_insert_None by apply lookup_delete_eq.
  rewrite (sum_table_delete f t k v H). lia.
Qed.

(** Rows a [SELECT ... WHERE P] returns, with their primary keys. *)
Definition rows_where {V} (P : V → bool) (t : gmap Z V) : list (Z * V) :=
  filter (λ kv, P kv.2 = true) (map_to_list t).

Lemma rows_where_spec {V} (P : V → bool) t k v :
  (k, v) ∈ rows_where P t ↔ t !! k = Some v ∧ P v = true.
Proof.
  unfold rows_where. rewrite list_elem_of_filter, elem_of_map_to_list. simpl. tauto.
Qed.

(** [Query.first()]. *)
Definition first_where {V} (P : V → bool) (t : gmap Z V) : option (Z * V) :=
  head (rows_where P t).

Lemma first_where_Some {V} (P : V → bool) t k v :
  first_where P t = Some (k, v) → t !! k = Some v ∧ P v = true.
Proof.
  unfold first_where. intros H. apply rows_where_spec.
  destruct (rows_where P t); simplify_eq/=. left.
Qed.

Lemma first_where_None {V} (P : V → bool) t k v :
  first_where P t = None → t !! k = Some v → P v = false.
Proof.
  unfold first_where. intros H Hk. destruct (P v) eqn:E; [|done].
  assert ((k, v) ∈ rows_where P t) as Hin by by apply rows_where_spec.
  destruct (rows_where P t); [by apply not_elem_of_nil in Hin | done].
Qed.

(** [Result.scalar_one_or_none()]. *)
Definition one_or_none {V} (P : V → bool) (t : gmap Z V) : res (option (Z * V)) :=
  match rows_where P t with
  | [] => Ok None
  | [kv] => Ok (Some kv)
  | _ => Raise MultipleResultsFound
  end.

Lemma one_or_none_Some {V} (P : V → bool) t k v :
  one_or_none P t = Ok (Some (k, v)) → t !! k = Some v ∧ P v = true.
Proof.
  unfold one_or_none. intros H. apply rows_where_spec.
  destruct (rows_where P t) as [|? [|]]; simplify_eq. left.
Qed.

Lemma one_or_none_None {V} (P : V → bool) t k v : one_or_none P t = Ok None → t !! k = Some v → P v = false.
Proof.
  unfold one_or_none. intros E Hk. apply (first_where_None P t k v); [|done]. unfold first_where.
  by destruct (rows_where P t) as [|? []].
Qed.

Lemma one_or_none_only {V} (P : V → bool) t i v j w :
  one_or_none P t = Ok (Some (i, v)) → t !! j = Some w → P w = true → w = v.
Proof.
  unfold one_or_none. intros E Hj Hw.
  assert ((j, w) ∈ rows_where P t) as Hin by (by apply rows_where_spec).
  destruct (rows_where P t) as [|? [|]]; simplify_eq. apply list_elem_of_singleton in Hin. by simplify_eq.
Qed.

(** [ORDER BY] and [sorted(key=...)]: a stable insertion sort. *)
Fixpoint insert_by {A} (before : A → A → bool) (x : A) (l : list A) : list A :=
  match l with
  | [] => [x]
  | y :: l' => if before x y then x :: l else y :: insert_by before x l'
  end.
Definition sort_by {A} (before : A → A → bool) (l : list A) : list A :=
  foldr (insert_by before) [] l.

Lemma insert_by_perm {A} (before : A → A → bool) x l : insert_by before x l ≡ₚ x :: l.
Proof.
  induction l as [|y l IH]; simpl; [done|]. destruct (before x y); [done|].
  rewrite IH. apply perm_swap.
Qed.
Lemma sort_by_perm {A} (before : A → A → bool) l : sort_by before l ≡ₚ l.
Proof. induction l as [|x l IH]; simpl; [done|]. by rewrite insert_by_perm, IH. Qed.

Section SortBy.
Context {A} (before : A → A → bool).
Hypothesis before_total : ∀ x y, before x y = false → before y x = true.
Hypothesis before_trans : ∀ x y z, before x y = true → before y z = true → before x z = true.

Lemma insert_by_sorted x l :
  StronglySorted (λ a b, before a b = true) l →
  StronglySorted (λ a b, before a b = true) (insert_by before x l).
Proof using All.
  induction 1 as [|y l Hl IH Hy]; simpl; [by repeat constructor|].
  destruct (before x y) eqn:E.
  - constructor; [by constructor|]. constructor; [done|]. eapply Forall_impl; [exact Hy|]. eauto.
  - constructor; [done|]. rewrite insert_by_perm. constructor; [by apply before_total|done].
Qed.
Lemma sort_by_sorted l : StronglySorted (λ a b, before a b = true) (sort_by before l).
Proof using All. induction l; simpl; [constructor|by apply insert_by_sorted]. Qed.
End SortBy.

(** An [ORDER BY] that ends in the primary key determines the order. *)
Lemma sort_rows_unique {V} (before : Z * V → Z * V → bool) (P : V → bool) t l :
  (∀ x y, before x y = false → before y x = true) →
  (∀ x y z, before x y = true → before y z = true → before x z = true) →
  (∀ x y, before x y = true → before y x = true → x.1 = y.1) →
  StronglySorted (λ a b, before a b = true) l → l ≡ₚ rows_where P t →
  sort_by before (rows_where P t) = l.
Proof.
  intros Htotal Htrans Hanti Hl Hp.
  assert (sort_by before (rows_where P t) ≡ₚ l) as E by by rewrite Hp, sort_by_perm.
  apply (StronglySorted_unique_strong (λ a b, before a b = true));
    [|by apply sort_by_sorted|done|done].
  intros [i v] [j w] Hi Hj H1 H2. assert (i = j) as <- by exact (Hanti _ _ H1 H2).
  rewrite E, Hp in Hi. rewrite Hp in Hj. apply rows_where_spec in Hi as [Hi _], Hj as [Hj _].
  congruence.
Qed.

Lemma rows_where_insert {V} (P : V → bool) t k v :
  t !! k = None → P v = true → rows_where P (<[k:=v]> t) ≡ₚ (k, v) :: rows_where P t.
Proof.
  intros Hk Hv. unfold rows_where. rewrite map_to_list_insert by done.
  by rewrite filter_cons_True.
Qed.
Lemma rows_where_NoDup {V} (P : V → bool) (t : gmap Z V) : NoDup (rows_where P t).*1.
Proof.
  apply NoDup_fmap_fst; [|apply NoDup_filter, NoDup_map_to_list].
  intros k v w Hv Hw. apply rows_where_spec in Hv as [Hv _], Hw as [Hw _]. congruence.
Qed.

(** Rows left after deleting [gone] from a table whose rows are [kept ++ gone]. *)
Lemma rows_where_delete_all {V} (P : V → bool) (t : gmap Z V) kept gone :
  rows_where P t ≡ₚ kept ++ gone →
  rows_where P (foldl (λ t kv, delete kv.1 t) t gone) ≡ₚ kept.
Proof.
  revert t. induction gone as [|[k v] gone IH]; intros t E; simpl; [by rewrite app_nil_r in E|].
  apply IH. assert ((k, v) ∈ rows_where P t) as [Hk Hv]%rows_where_spec
    by (rewrite E; apply elem_of_app; right; left).
  rewrite <- (insert_delete_id t k v Hk) in E.
  rewrite rows_where_insert in E by (done || apply lookup_delete_eq).
  rewrite <- Permutation_middle in E. by apply Permutation_cons_inv in E.
Qed.

(** The primary key a [SERIAL] column hands out next. *)
Definition next_id {V} (t : gmap Z V) : Z :=
  (1 + foldr Z.max 0 (map_to_list t).*1)%Z.

Lemma foldr_max_ge x l : x ∈ l → (x ≤ foldr Z.max 0 l)%Z.
Proof. induction 1; simpl; lia. Qed.

Lemma next_id_fresh {V} (t : gmap Z V) : t !! next_id t = None.
Proof.
  destruct (t !! next_id t) as [v|] eqn:E; [|done]. exfalso.
  assert (next_id t ∈ (map_to_list t).*1) as Hin.
  { apply list_elem_of_fmap. exists (next_id t, v). split; [done|].
    by apply elem_of_map_to_list. }
  apply foldr_max_ge in Hin. unfold next_id in Hin at 1. lia.
Qed.

Lemma next_id_above {V} (t : gmap Z V) k v : t !! k = Some v → (k < next_id t)%Z.
Proof.
  intros Hk. assert (k ∈ (map_to_list t).*1) as Hin.
  { apply list_elem_of_fmap. exists (k, v). split; [done|]. by apply elem_of_map_to_list. }
  apply foldr_max_ge in Hin. unfold next_id. lia.
Qed.
