(* ===== verification/PyStr.v ===== *)
(** * Python strings and JSON values

    [str] values are Coq [string]s of ASCII characters.  The file holds the
    string methods the sources call ([strip], [casefold], [split], [partition],
    slicing, [isdigit], ...), the JSON values that travel through the Flask
    session and the audit metadata, and [json.dumps] with
    [separators=(",", ":")] and [sort_keys=True], together with the facts that
    make its output an injective encoding. *)

From stdpp Require Export pretty.
From S2P Require Export Prelude.
From Stdlib Require Import Ascii.
Open Scope string_scope.
Open Scope list_scope.
Open Scope Z_scope.
Abbreviation slen := String.length.

(** ** Characters *)

Definition code (c : ascii) : Z := Z.of_nat (nat_of_ascii c).

(** [str.isspace] on ASCII: tab, newline, vertical tab, form feed, carriage
    return, the four separators, space. *)
Definition is_space (c : ascii) : bool :=
  let n := code c in ((9 <=? n) && (n <=? 13)) || ((28 <=? n) && (n <=? 32)).
Definition is_digit (c : ascii) : bool := let n := code c in (48 <=? n) && (n <=? 57).
Definition is_upper (c : ascii) : bool := let n := code c in (65 <=? n) && (n <=? 90).
Definition is_lower (c : ascii) : bool := let n := code c in (97 <=? n) && (n <=? 122).
Definition is_alnum (c : ascii) : bool := is_digit c || is_upper c || is_lower c.
Definition lower_char (c : ascii) : ascii :=
  if is_upper c then ascii_of_nat (nat_of_ascii c + 32) else c.
Definition upper_char (c : ascii) : ascii :=
  if is_lower c then ascii_of_nat (nat_of_ascii c - 32) else c.

(** ** Strings as lists of characters *)

Fixpoint chars (s : string) : list ascii :=
  match s with EmptyString => [] | String c s' => c :: chars s' end.
Fixpoint of_chars (l : list ascii) : string :=
  match l with [] => EmptyString | c :: l' => String c (of_chars l') end.

Lemma of_chars_chars s : of_chars (chars s) = s.
Proof. induction s as [|c s IH]; simpl; congruence. Qed.
Lemma chars_of_chars l : chars (of_chars l) = l.
Proof. induction l as [|c l IH]; simpl; congruence. Qed.
Lemma chars_app s t : chars (s +:+ t) = (chars s ++ chars t)%list.
Proof. induction s as [|c s IH]; simpl; [done | by rewrite IH]. Qed.
Lemma of_chars_app l k : of_chars (l ++ k)%list = of_chars l +:+ of_chars k.
Proof. induction l as [|c l IH]; simpl; [done | by rewrite IH]. Qed.
Lemma length_chars s : length (chars s) = slen s.
Proof. induction s as [|c s IH]; simpl; congruence. Qed.
Lemma chars_inj s t : chars s = chars t → s = t.
Proof. intros H. by rewrite <- (of_chars_chars s), H, of_chars_chars. Qed.

Fixpoint drop_while {A} (f : A → bool) (l : list A) : list A :=
  match l with
  | [] => []
  | x :: l' => if f x then drop_while f l' else l
  end.

Definition casefold (s : string) : string := of_chars (lower_char <$> chars s).
Definition upper (s : string) : string := of_chars (upper_char <$> chars s).
Definition strip (s : string) : string :=
  of_chars (rev (drop_while is_space (rev (drop_while is_space (chars s))))).
Definition startswith (p s : string) : bool := bool_decide (String.prefix p s = true).
Definition endswith (p s : string) : bool :=
  bool_decide (firstn (slen p) (rev (chars s)) = rev (chars p)).

(** [s[:n]] and [s[-n:]] for a literal [n > 0]. *)
Definition str_take (n : nat) (s : string) : string := of_chars (firstn n (chars s)).
Definition str_last (n : nat) (s : string) : string :=
  of_chars (skipn (slen s - n) (chars s)).

(** [needle in s]. *)
Fixpoint str_contains (needle s : string) : bool :=
  startswith needle s ||
  match s with EmptyString => false | String _ s' => str_contains needle s' end.

(** [s.split()]: maximal runs of non-space characters. *)
Fixpoint split_ws_aux (acc : list ascii) (l : list ascii) : list string :=
  match l with
  | [] => if acc is [] then [] else [of_chars (rev acc)]
  | c :: l' =>
      if is_space c
      then if acc is [] then split_ws_aux [] l' else of_chars (rev acc) :: split_ws_aux [] l'
      else split_ws_aux (c :: acc) l'
  end.
Definition split_ws (s : string) : list string := split_ws_aux [] (chars s).

(** [sep.join(parts)]. *)
Fixpoint join (sep : string) (parts : list string) : string :=
  match parts with
  | [] => ""
  | [p] => p
  | p :: ps => p +:+ sep +:+ join sep ps
  end.

(** [s.partition(c)] for a one-character separator: [None] when absent. *)
Fixpoint partition_char (c : ascii) (l : list ascii) : option (list ascii * list ascii) :=
  match l with
  | [] => None
  | d :: l' =>
      if bool_decide (c = d) then Some ([], l')
      else match partition_char c l' with
           | Some (a, b) => Some (d :: a, b)
           | None => None
           end
  end.

Lemma partition_char_Some c l a b :
  partition_char c l = Some (a, b) → l = (a ++ c :: b)%list ∧ c ∉ a.
Proof.
  revert a b. induction l as [|d l IH]; intros a b H; [done|]. simpl in H.
  case_bool_decide; simplify_eq.
  { split; [done | apply not_elem_of_nil]. }
  destruct (partition_char c l) as [[a' b']|] eqn:E; simplify_eq.
  destruct (IH _ _ eq_refl) as [-> ?]. set_solver.
Qed.

(** [s.split(c)] for a one-character separator. *)
Fixpoint split_on (c : ascii) (l : list ascii) : list (list ascii) :=
  match l with
  | [] => [[]]
  | d :: l' =>
      if bool_decide (c = d) then [] :: split_on c l'
      else match split_on c l' with
           | part :: parts => (d :: part) :: parts
           | [] => [[d]]
           end
  end.

Lemma split_on_app c a b : c ∉ a → split_on c (a ++ c :: b)%list = a :: split_on c b.
Proof.
  induction a as [|d a IH]; intros Ha; simpl.
  - by rewrite bool_decide_eq_true_2.
  - rewrite bool_decide_eq_false_2 by set_solver. rewrite IH by set_solver. done.
Qed.
Lemma split_on_none c a : c ∉ a → split_on c a = [a].
Proof.
  induction a as [|d a IH]; intros Ha; [done|]. simpl.
  rewrite bool_decide_eq_false_2 by set_solver. by rewrite IH by set_solver.
Qed.

(** [s.partition(c)], as the text before, whether [c] occurs, the text after. *)
Definition partition_at (c : ascii) (s : string) : string * bool * string :=
  match partition_char c (chars s) with
  | Some (a, b) => (of_chars a, true, of_chars b)
  | None => (s, false, "")
  end.
Lemma partition_at_app c a b :
  c ∉ chars a → partition_at c (a +:+ String c b) = (a, true, b).
Proof.
  intros Ha. unfold partition_at. rewrite chars_app. simpl.
  assert (partition_char c (chars a ++ c :: chars b)%list = Some (chars a, chars b)) as ->.
  { induction (chars a) as [|d l IH]; simpl; [by rewrite bool_decide_eq_true_2|].
    rewrite bool_decide_eq_false_2 by set_solver. by rewrite IH by set_solver. }
  by rewrite !of_chars_chars.
Qed.

(** A character does not occur in a string: by computation. *)
Lemma not_in_chars c s : forallb (λ d, negb (Ascii.eqb d c)) (chars s) = true → c ∉ chars s.
Proof.
  rewrite forallb_forall. intros H Hc%list_elem_of_In. specialize (H _ Hc).
  by rewrite Ascii.eqb_refl in H.
Qed.

(** [s[n:]]. *)
Definition str_drop (n : nat) (s : string) : string := of_chars (skipn n (chars s)).
(** [needle] removed from the front, when it is there. *)
Definition strip_prefix (p s : string) : option string :=
  if String.prefix p s then Some (str_drop (slen p) s) else None.

Lemma strip_prefix_app p s : strip_prefix p (p +:+ s) = Some s.
Proof.
  unfold strip_prefix, str_drop. assert (String.prefix p (p +:+ s) = true) as ->.
  { induction p as [|c p IH]; [by destruct s|]. simpl. by destruct (ascii_dec c c). }
  rewrite chars_app, <- length_chars, drop_app_length. by rewrite of_chars_chars.
Qed.

(** [s.splitlines()] on ASCII text. *)
Definition is_line_break (c : ascii) : bool :=
  let n := code c in ((10 <=? n) && (n <=? 13)) || ((28 <=? n) && (n <=? 30)).
Fixpoint splitlines_aux (acc : list ascii) (l : list ascii) : list string :=
  match l with
  | [] => if acc is [] then [] else [of_chars (rev acc)]
  | c :: l' =>
      if is_line_break c then
        of_chars (rev acc)
          :: match l' with
             | d :: l2 => if (code c =? 13) && (code d =? 10) then splitlines_aux [] l2
                          else splitlines_aux [] l'
             | [] => []
             end
      else splitlines_aux (c :: acc) l'
  end.
Definition splitlines (s : string) : list string := splitlines_aux [] (chars s).

Definition is_ascii (s : string) : bool := forallb (λ c, code c <? 128) (chars s).

Definition py_str_Z (z : Z) : string := pretty z.

(** [f"{n:02d}"]-style zero padding of a non-negative integer. *)
Definition pad (w : nat) (z : Z) : string :=
  let s := pretty z in of_chars (repeat "0"%char (w - slen s)) +:+ s.

Definition nonempty (s : string) : bool := negb (bool_decide (s = "")).

(** ** JSON values *)

Inductive jval : Type :=
  | JNull
  | JBool (b : bool)
  | JInt (z : Z)
  | JStr (s : string)
  | JList (l : list jval)
  | JObj (kvs : list (string * jval)).

(** Python truthiness of a decoded JSON value. *)
Definition truthy (v : jval) : bool :=
  match v with
  | JNull => false
  | JBool b => b
  | JInt z => negb (z =? 0)
  | JStr s => nonempty s
  | JList l => if l is [] then false else true
  | JObj l => if l is [] then false else true
  end.

(** Truthiness of [d.get(k)]. *)
Definition otruthy (v : option jval) : bool :=
  match v with Some v => truthy v | None => false end.

(** Optional sign and decimal digits, as [int(str)] reads them. *)
Fixpoint digits_val (acc : Z) (l : list ascii) : option Z :=
  match l with
  | [] => Some acc
  | c :: l' => if is_digit c then digits_val (10 * acc + (code c - 48)) l' else None
  end.
Definition parse_int (s : string) : option Z :=
  match chars (strip s) with
  | [] => None
  | c :: l =>
      if bool_decide (c = "-"%char) then
        if l is [] then None else Z.opp <$> digits_val 0 l
      else if bool_decide (c = "+"%char) then
        if l is [] then None else digits_val 0 l
      else digits_val 0 (c :: l)
  end.

(** [int(v)] of a value read from a dict: [int(None)], [int([])] raise
    [TypeError], a malformed string [ValueError]. *)
Definition py_int (v : option jval) : res Z :=
  match v with
  | Some (JInt z) => Ok z
  | Some (JBool b) => Ok (if b then 1 else 0)
  | Some (JStr s) =>
      match parse_int s with
      | Some z => Ok z
      | None => Raise (ValueError "invalid literal for int()")
      end
  | _ => Raise TypeError
  end.

(** [dict] lookup in a keyring. *)
Fixpoint assoc {V} (k : string) (l : list (string * V)) : option V :=
  match l with
  | [] => None
  | (k', v) :: l' => if bool_decide (k = k') then Some v else assoc k l'
  end.

(** [dict.get] on an association list. *)
Fixpoint obj_get (k : string) (kvs : list (string * jval)) : option jval :=
  match kvs with
  | [] => None
  | (k', v) :: kvs' => if bool_decide (k = k') then Some v else obj_get k kvs'
  end.

(** [dict[k] = v]: replaces in place, or adds at the end. *)
Fixpoint obj_set (k : string) (v : jval) (kvs : list (string * jval)) : list (string * jval) :=
  match kvs with
  | [] => [(k, v)]
  | (k', v') :: kvs' =>
      if bool_decide (k = k') then (k', v) :: kvs' else (k', v') :: obj_set k v kvs'
  end.

Lemma obj_get_set k v kvs : obj_get k (obj_set k v kvs) = Some v.
Proof.
  induction kvs as [|[k' v'] kvs IH]; simpl.
  - by rewrite bool_decide_eq_true_2.
  - case_bool_decide as E; simpl.
    + by rewrite bool_decide_eq_true_2.
    + by rewrite bool_decide_eq_false_2.
Qed.

(** ** [json.dumps] *)

Definition hex_digit (n : Z) : ascii :=
  ascii_of_nat (Z.to_nat (if n <? 10 then 48 + n else 87 + n)).

(** One character of a JSON string literal with [ensure_ascii=True]. *)
Definition json_char (c : ascii) : list ascii :=
  let n := code c in
  if n =? 34 then ["\"; ascii_of_nat 34]%char
  else if n =? 92 then ["\"; "\"]%char
  else if n =? 10 then ["\"; "n"]%char
  else if n =? 13 then ["\"; "r"]%char
  else if n =? 9 then ["\"; "t"]%char
  else if n =? 8 then ["\"; "b"]%char
  else if n =? 12 then ["\"; "f"]%char
  else if (32 <=? n) && (n <=? 126) then [c]
  else ["\"; "u"; "0"; "0"; hex_digit (n / 16); hex_digit (n mod 16)]%char.

Definition quote : ascii := ascii_of_nat 34.

Fixpoint json_chars (l : list ascii) : list ascii :=
  match l with [] => [] | c :: l' => (json_char c ++ json_chars l')%list end.
Definition json_string (s : string) : string :=
  of_chars ((quote :: json_chars (chars s)) ++ [quote])%list.

Definition str_leb (a b : string) : bool :=
  match String.compare a b with Gt => false | _ => true end.

Fixpoint insert_kv (kv : string * string) (l : list (string * string)) :=
  match l with
  | [] => [kv]
  | kv' :: l' => if str_leb kv.1 kv'.1 then kv :: l else kv' :: insert_kv kv l'
  end.
Definition sort_kvs (l : list (string * string)) := foldr insert_kv [] l.

Fixpoint json_dumps (v : jval) : string :=
  match v with
  | JNull => "null"
  | JBool true => "true"
  | JBool false => "false"
  | JInt z => pretty z
  | JStr s => json_string s
  | JList l => "[" +:+ join "," (json_dumps <$> l) +:+ "]"
  | JObj kvs =>
      "{" +:+ join ","
        ((λ kv, json_string kv.1 +:+ ":" +:+ kv.2) <$>
           sort_kvs ((λ kv, (kv.1, json_dumps kv.2)) <$> kvs)) +:+ "}"
  end.

(** ** [json.dumps] is an injective encoding

    [unjson_char] reads one character back from a string literal; it undoes
    [json_char] whatever follows, so two literals followed by any text agree
    only when the strings and the texts agree. *)

Definition hex_val (c : ascii) : Z :=
  let n := code c in if n <? 58 then n - 48 else n - 87.

Definition unjson_char (l : list ascii) : option (ascii * list ascii) :=
  match l with
  | [] => None
  | c :: l' =>
      if code c =? 34 then None
      else if code c =? 92 then
        match l' with
        | d :: l2 =>
            let n := code d in
            if n =? 34 then Some (d, l2)
            else if n =? 92 then Some (d, l2)
            else if n =? 110 then Some (ascii_of_nat 10, l2)
            else if n =? 114 then Some (ascii_of_nat 13, l2)
            else if n =? 116 then Some (ascii_of_nat 9, l2)
            else if n =? 98 then Some (ascii_of_nat 8, l2)
            else if n =? 102 then Some (ascii_of_nat 12, l2)
            else match l2 with
                 | _ :: _ :: h :: k :: l6 =>
                     Some (ascii_of_nat (Z.to_nat (16 * hex_val h + hex_val k)), l6)
                 | _ => None
                 end
        | [] => None
        end
      else Some (c, l')
  end.

Lemma unjson_json_char c t : unjson_char (json_char c ++ t)%list = Some (c, t).
Proof.
  destruct c as [b0 b1 b2 b3 b4 b5 b6 b7].
  destruct b0, b1, b2, b3, b4, b5, b6, b7; reflexivity.
Qed.

Lemma json_chars_inj l1 l2 t1 t2 :
  (json_chars l1 ++ quote :: t1)%list = (json_chars l2 ++ quote :: t2)%list →
  l1 = l2 ∧ t1 = t2.
Proof.
  revert l2. induction l1 as [|c1 l1 IH]; intros [|c2 l2] H; simpl in H.
  - by simplify_eq.
  - apply (f_equal unjson_char) in H. rewrite <- app_assoc, unjson_json_char in H. done.
  - apply (f_equal unjson_char) in H. rewrite <- app_assoc, unjson_json_char in H. done.
  - rewrite <- !app_assoc in H.
    assert (Some (c1, (json_chars l1 ++ quote :: t1)%list)
      = Some (c2, (json_chars l2 ++ quote :: t2)%list)) as H'.
    { rewrite <- !unjson_json_char. by rewrite H. }
    simplify_eq. destruct (IH l2) as [-> ->]; done.
Qed.

Lemma json_string_inj s1 s2 t1 t2 :
  json_string s1 +:+ t1 = json_string s2 +:+ t2 → s1 = s2 ∧ t1 = t2.
Proof.
  unfold json_string. intros H. apply (f_equal chars) in H.
  rewrite !chars_app, !chars_of_chars in H. simpl in H. simplify_eq.
  rewrite <- !app_assoc in H. apply json_chars_inj in H as [H1 H2].
  split; by apply chars_inj.
Qed.

Lemma app_sep_inj (c : ascii) (a b t1 t2 : list ascii) :
  c ∉ a → c ∉ b → (a ++ c :: t1)%list = (b ++ c :: t2)%list → a = b ∧ t1 = t2.
Proof.
  revert b. induction a as [|x a IH]; intros [|y b] Ha Hb H; simplify_eq/=; try set_solver.
  destruct (IH b) as [-> ->]; set_solver.
Qed.

Lemma str_sep_inj (c : ascii) a b t1 t2 :
  c ∉ chars a → c ∉ chars b → a +:+ String c t1 = b +:+ String c t2 → a = b ∧ t1 = t2.
Proof.
  intros Ha Hb H. apply (f_equal chars) in H. rewrite !chars_app in H.
  apply app_sep_inj in H as [H1 H2]; [|done..]. split; by apply chars_inj.
Qed.

Lemma str_app_inv_head a b c : a +:+ b = a +:+ c → b = c.
Proof.
  intros E. apply (f_equal chars) in E. rewrite !chars_app in E.
  apply app_inv_head in E. by apply chars_inj.
Qed.

(** Characters of a printed integer. *)
Definition int_char (c : ascii) : Prop := is_digit c = true ∨ c = "-"%char.

Lemma pretty_N_char_digit n : is_digit (pretty_N_char n) = true.
Proof.
  destruct n as [|p]; [done|].
  do 4 (destruct p as [p|p|]; try done).
Qed.

Lemma pretty_N_go_digits x s :
  Forall int_char (chars s) → Forall int_char (chars (pretty_N_go x s)).
Proof.
  revert s. induction (N.lt_wf_0 x) as [x _ IH]; intros s Hs.
  destruct (decide (0 < x)%N) as [Hx|Hx].
  - rewrite pretty_N_go_step by done. apply IH; [apply N.div_lt; lia|].
    simpl. constructor; [left; apply pretty_N_char_digit | done].
  - assert (x = 0%N) as -> by lia. by rewrite pretty_N_go_0.
Qed.

Lemma pretty_N_digits (n : N) : Forall int_char (chars (pretty n)).
Proof.
  unfold pretty, pretty_N. case_decide.
  - simpl. repeat constructor.
  - apply pretty_N_go_digits. constructor.
Qed.

Lemma pretty_Z_chars (z : Z) : Forall int_char (chars (pretty z)).
Proof.
  unfold pretty, pretty_Z. destruct z as [|p|p].
  - simpl. repeat constructor.
  - apply (pretty_N_digits (N.pos p)).
  - rewrite chars_app. apply Forall_app. split.
    + simpl. constructor; [by right | constructor].
    + apply (pretty_N_digits (N.pos p)).
Qed.

Lemma not_int_char_pretty c (z : Z) : ¬ int_char c → c ∉ chars (pretty z).
Proof.
  intros Hc Hin. apply Hc. pose proof (pretty_Z_chars z) as HF.
  rewrite Forall_forall in HF. by apply HF.
Qed.

Lemma casefold_app a b : casefold (a +:+ b) = casefold a +:+ casefold b.
Proof. unfold casefold. by rewrite chars_app, fmap_app, of_chars_app. Qed.
(** [int(str(n))] is [n]. *)
Lemma digits_val_app acc l k : digits_val acc (l ++ k)%list =
  match digits_val acc l with Some v => digits_val v k | None => None end.
Proof.
  revert acc. induction l as [|c l IH]; intros acc; simpl; [done|]. by destruct (is_digit c).
Qed.
Lemma pretty_N_char_code n : (n < 10)%N → code (pretty_N_char n) - 48 = Z.of_N n.
Proof.
  intros Hn. assert (n ∈ (N.of_nat <$> seq 0 10)) as Hin.
  { apply list_elem_of_fmap. exists (N.to_nat n). rewrite elem_of_seq. lia. }
  clear Hn. revert n Hin. apply Forall_forall. repeat constructor.
Qed.
Lemma digits_val_pretty_go x s :
  digits_val 0 (chars (pretty_N_go x s)) = digits_val (Z.of_N x) (chars s).
Proof.
  revert s. induction (N.lt_wf_0 x) as [x _ IH]; intros s.
  destruct (decide (0 < x)%N) as [Hx|Hx].
  - rewrite pretty_N_go_step by done. rewrite IH by (apply N.div_lt; lia).
    cbn [chars digits_val]. rewrite pretty_N_char_digit, pretty_N_char_code by (apply N.mod_lt; lia).
    f_equal. pose proof (N.div_mod x 10). lia.
  - assert (x = 0%N) as -> by lia. by rewrite pretty_N_go_0.
Qed.
Lemma drop_while_space_digits l : Forall int_char l → drop_while is_space l = l.
Proof.
  destruct l as [|c l]; [done|]. intros [Hc _]%Forall_cons. simpl.
  destruct (is_space c) eqn:E; [|done]. exfalso.
  unfold is_space in E. destruct Hc as [Hd| ->]; [|done]. unfold is_digit in Hd. lia.
Qed.
Lemma strip_pretty (z : Z) : strip (pretty z) = pretty z.
Proof.
  unfold strip. pose proof (pretty_Z_chars z) as Hz. 
  rewrite (drop_while_space_digits (chars (pretty z))) by done.
  rewrite drop_while_space_digits, rev_involutive, of_chars_chars; [done|].
  apply Forall_forall. intros c Hc%list_elem_of_In%in_rev%list_elem_of_In.
  by apply (proj1 (Forall_forall _ _) Hz).
Qed.
(** The first digit of a printed number is zero only for zero. *)
Lemma pretty_N_head (n : N) : ∃ c l,
  chars (pretty n) = c :: l ∧ is_digit c = true ∧ (c = "0"%char → l = []).
Proof.
  unfold pretty, pretty_N. case_decide as E; [by eexists _, _|].
  assert (∀ x s, (0 < x)%N →
    ∃ c l, chars (pretty_N_go x s) = c :: l ∧ is_digit c = true ∧ c ≠ "0"%char) as Hg.
  { intros x. induction (N.lt_wf_0 x) as [x _ IH]; intros s Hx. rewrite pretty_N_go_step by done.
    destruct (decide (0 < x `div` 10)%N) as [Hd|Hd]; [apply IH; [apply N.div_lt; lia|done]|].
    assert (x `div` 10 = 0)%N as Hz by (apply N.le_0_r, N.nlt_ge, Hd). rewrite Hz, pretty_N_go_0.
    eexists _, _. split; [done|]. split; [apply pretty_N_char_digit|]. intros H0.
    pose proof (N.div_mod x 10) as Hdm. pose proof (N.mod_lt x 10) as Hlt.
    pose proof (pretty_N_char_code (x `mod` 10)) as Hc. rewrite H0 in Hc. simpl in Hc.
    change (code "0") with 48 in Hc. lia. }
  destruct (Hg n "" ltac:(lia)) as (c & l & Hc & Hd & Hne). exists c, l. naive_solver.
Qed.
Lemma digits_val_pretty_N (n : N) : digits_val 0 (chars (pretty n)) = Some (Z.of_N n).
Proof.
  unfold pretty, pretty_N. case_decide as E; [by subst|]. by rewrite digits_val_pretty_go.
Qed.
Lemma pretty_N_all_digits (n : N) : Forall (λ c, is_digit c = true) (chars (pretty n)).
Proof.
  pose proof (digits_val_pretty_N n) as E. revert E. generalize 0 at 1.
  induction (chars (pretty n)) as [|c l IH]; intros acc E; [constructor|].
  simpl in E. destruct (is_digit c) eqn:Ec; [|done]. constructor; eauto.
Qed.
Lemma parse_int_pretty (z : Z) : parse_int (pretty z) = Some z.
Proof.
  unfold parse_int. rewrite strip_pretty. destruct z as [|p|p]; [done|..].
  - change (pretty (Z.pos p)) with (pretty (N.pos p)).
    destruct (pretty_N_head (N.pos p)) as (c & l & E & Hc & _).
    pose proof (digits_val_pretty_N (N.pos p)) as Hv. rewrite E in *.
    rewrite !bool_decide_eq_false_2 by (intros ->; done). done.
  - change (pretty (Z.neg p)) with ("-" +:+ pretty (N.pos p)). rewrite chars_app. simpl.
    destruct (pretty_N_head (N.pos p)) as (c & l & E & Hc & _).
    pose proof (digits_val_pretty_N (N.pos p)) as Hv. rewrite E in *. by rewrite Hv.
Qed.
