(* ===== verification/IpAddress.v ===== *)
(** * The standard library's [ipaddress]

    Reading IPv4 and IPv6 addresses, their network addresses and their
    compressed spelling, as app/security/sessions.py uses them.  A value with a
    scope id ([%]) is refused here; Python accepts it for IPv6. *)

From S2P Require Import Prelude PyStr.
From Stdlib Require Import Ascii.
Open Scope string_scope.
Open Scope Z_scope.

Module IpAddress.

Inductive Address : Type :=
  | IPv4 (octets : list Z)
  | IPv6 (hextets : list Z).

Definition all_some {A} (l : list (option A)) : option (list A) := mapM id l.

(** ** IPv4 *)

(** At most three decimal digits, no leading zero, at most 255. *)
Definition parse_octet (l : list ascii) : option Z :=
  match l with
  | [] => None
  | c :: rest =>
      if negb (forallb is_digit l) || (3 <? length l)%nat
         || (bool_decide (c = "0"%char) && negb (bool_decide (rest = [])))
      then None
      else
        let value := foldl (λ acc d, acc * 10 + (code d - 48)) 0 l in
        if 255 <? value then None else Some value
  end.

Definition parse_ipv4 (l : list ascii) : option (list Z) :=
  let parts := split_on "." l in
  if (length parts =? 4)%nat then all_some (parse_octet <$> parts) else None.

Definition show_ipv4 (octets : list Z) : string := join "." (pretty <$> octets).

(** ** IPv6 *)

Definition is_hex (c : ascii) : bool :=
  is_digit c || let n := code (lower_char c) in (97 <=? n) && (n <=? 102).

Definition parse_hextet (l : list ascii) : option Z :=
  if bool_decide (l = []) || negb (forallb is_hex l) || (4 <? length l)%nat then None
  else Some (foldl (λ acc d, acc * 16 + hex_val (lower_char d)) 0 l).

(** A dotted quad in last position stands for two hextets. *)
Definition expand_tail (parts : list (list ascii)) : option (list (option Z) * list (list ascii)) :=
  match rev parts with
  | last :: front =>
      if existsb (λ c, bool_decide (c = "."%char)) last then
        match parse_ipv4 last with
        | Some [a; b; c; d] => Some ([Some (a * 256 + b); Some (c * 256 + d)], rev front)
        | _ => None
        end
      else Some ([], parts)
  | [] => None
  end.

Definition empty_part (l : list ascii) : bool := bool_decide (l = []).

(** The hextets before and after [::], or all eight. *)
Definition parse_ipv6 (l : list ascii) : option (list Z) :=
  let parts := split_on ":" l in
  if (length parts <? 3)%nat || (9 <? length parts)%nat then None
  else
    match expand_tail parts with
    | None => None
    | Some (tail, parts) =>
        let count := (length parts + length tail)%nat in
        let hextets ps := all_some ((parse_hextet <$> ps) ++ tail)%list in
        let interior := List.filter (λ i, match parts !! i with Some p => empty_part p | None => false end)
          (seq 1 (count - 2)) in
        match interior with
        | [] => if (count =? 8)%nat then hextets parts else None
        | [skip] =>
            let front := firstn skip parts in
            let back := skipn (S skip) parts in
            let trim_front := match front with [p] => if empty_part p then Some [] else Some front
                              | p :: _ => if empty_part p then None else Some front | [] => None end in
            let trim_back := match back with [p] => if empty_part p && bool_decide (tail = []) then Some [] else Some back
                             | _ => Some back end in
            match trim_front, trim_back with
            | Some front, Some back =>
                match all_some (parse_hextet <$> front), hextets back with
                | Some high, Some low =>
                    let skipped := (8 - length high - length low)%nat in
                    if (8 <=? length high + length low)%nat then None
                    else Some (high ++ repeat 0 skipped ++ low)%list
                | _, _ => None
                end
            | _, _ => None
            end
        | _ => None
        end
    end.

Fixpoint hex_digits (fuel : nat) (z : Z) : list ascii :=
  match fuel with
  | O => []
  | S n => (hex_digits n (z / 16) ++ [hex_digit (z mod 16)])%list
  end.
(** [f"{z:x}"] of a hextet. *)
Definition show_hextet (z : Z) : string :=
  let digits := drop_while (λ c, bool_decide (c = "0"%char)) (hex_digits 4 z) in
  if bool_decide (digits = []) then "0" else of_chars digits.

(** The leftmost longest run of zero hextets, as start and length. *)
Fixpoint zero_run (l : list Z) : nat :=
  match l with 0 :: rest => S (zero_run rest) | _ => O end.
Definition longest_zero_run (hextets : list Z) : nat * nat :=
  foldl (λ best i, let n := zero_run (skipn i hextets) in if (best.2 <? n)%nat then (i, n) else best)
    (O, O) (seq 0 (length hextets)).

Definition show_ipv6 (hextets : list Z) : string :=
  let '(start, n) := longest_zero_run hextets in
  if (n <? 2)%nat then join ":" (show_hextet <$> hextets)
  else join ":" (show_hextet <$> firstn start hextets) +:+ "::"
         +:+ join ":" (show_hextet <$> skipn (start + n) hextets).

(** ** [ipaddress.ip_address] *)

Definition ip_address (value : string) : option Address :=
  let l := chars value in
  match parse_ipv4 l with
  | Some octets => Some (IPv4 octets)
  | None => IPv6 <$> parse_ipv6 l
  end.

Definition compressed (address : Address) : string :=
  match address with IPv4 octets => show_ipv4 octets | IPv6 hextets => show_ipv6 hextets end.

(** The address of the /24 or /64 network. *)
Definition network_24_64 (address : Address) : Address :=
  match address with
  | IPv4 octets => IPv4 (firstn 3 octets ++ [0])
  | IPv6 hextets => IPv6 (firstn 4 hextets ++ [0; 0; 0; 0])
  end.

Example ipv4_read : ip_address "203.0.113.7" = Some (IPv4 [203; 0; 113; 7]).
Proof. reflexivity. Qed.
Example ipv4_leading_zero : ip_address "203.0.113.07" = None.
Proof. reflexivity. Qed.
Example ipv6_read : compressed <$> ip_address "2001:DB8:0:0:1:0:0:1" = Some "2001:db8::1:0:0:1".
Proof. vm_compute. reflexivity. Qed.
Example ipv6_mapped : compressed <$> ip_address "::ffff:192.0.2.1" = Some "::ffff:c000:201".
Proof. vm_compute. reflexivity. Qed.
Example ipv6_any : compressed <$> ip_address "::" = Some "::".
Proof. vm_compute. reflexivity. Qed.
Example ipv6_refused : (ip_address "1::2::3", ip_address ":1", ip_address "12345::") = (None, None, None).
Proof. vm_compute. reflexivity. Qed.
Example ipv6_network : (λ a, compressed (network_24_64 a)) <$> ip_address "2001:db8:1:2:3::4" = Some "2001:db8:1:2::".
Proof. vm_compute. reflexivity. Qed.
End IpAddress.
