(* ===== verification/Base64.v ===== *)
(** * Base64

    [base64.b64encode] and [urlsafe_b64encode] of the standard library, and the
    decoder [binascii.a2b_base64] with its strict mode ([b64decode(validate=True)])
    and its lenient one, as the state machine it is: the position in the group
    of four characters, the bits left over, the padding seen.  Decoding undoes
    encoding, also when the padding is stripped and restored. *)

From S2P Require Import Prelude PyStr.
From Stdlib Require Import Ascii.
Open Scope string_scope.
Open Scope Z_scope.

Definition byte_of (z : Z) : ascii := ascii_of_nat (Z.to_nat z).
Definition pad_char : ascii := "="%char.

(** ** The alphabets *)

(** The character of a 6-bit value; [c62] and [c63] are the last two. *)
Definition b64_char (c62 c63 : ascii) (v : Z) : ascii :=
  if v <? 26 then byte_of (65 + v)
  else if v <? 52 then byte_of (71 + v)
  else if v <? 62 then byte_of (v - 4)
  else if v =? 62 then c62 else c63.
(** The value of a character of the standard alphabet. *)
Definition b64_value (c : ascii) : option Z :=
  let n := code c in
  if is_upper c then Some (n - 65)
  else if is_lower c then Some (n - 71)
  else if is_digit c then Some (n + 4)
  else if n =? 43 then Some 62
  else if n =? 47 then Some 63
  else None.

(** ** Encoding *)

Fixpoint b64_encode_chars (c62 c63 : ascii) (l : list ascii) : list ascii :=
  let enc := b64_char c62 c63 in
  match l with
  | a :: b :: c :: l' =>
      enc (code a / 4) :: enc (code a mod 4 * 16 + code b / 16)
        :: enc (code b mod 16 * 4 + code c / 64) :: enc (code c mod 64)
        :: b64_encode_chars c62 c63 l'
  | [a; b] =>
      [enc (code a / 4); enc (code a mod 4 * 16 + code b / 16); enc (code b mod 16 * 4); pad_char]
  | [a] => [enc (code a / 4); enc (code a mod 4 * 16); pad_char; pad_char]
  | [] => []
  end.

(** [base64.b64encode] and [base64.urlsafe_b64encode]. *)
Definition b64encode (value : string) : string :=
  of_chars (b64_encode_chars "+" "/" (chars value)).
Definition urlsafe_b64encode (value : string) : string :=
  of_chars (b64_encode_chars "-" "_" (chars value)).

(** ** Decoding *)

(** The decoder after some input: how many characters of the group are read,
    the bits they left over, the padding characters since, whether any was. *)
Record Quad : Type := mkQuad { quad_pos : Z; leftchar : Z; pads : Z; padding_started : bool }.
Definition quad_start : Quad := mkQuad 0 0 0 false.

(** The byte the next value completes, if any, and the decoder after it. *)
Definition quad_step (q : Quad) (v : Z) : list ascii * Quad :=
  if quad_pos q =? 0 then ([], mkQuad 1 v 0 (padding_started q))
  else if quad_pos q =? 1 then
    ([byte_of (leftchar q * 4 + v / 16)], mkQuad 2 (v mod 16) 0 (padding_started q))
  else if quad_pos q =? 2 then
    ([byte_of (leftchar q * 16 + v / 4)], mkQuad 3 (v mod 4) 0 (padding_started q))
  else ([byte_of (leftchar q * 64 + v)], mkQuad 0 0 0 (padding_started q)).

(** [binascii.a2b_base64]; [None] is [binascii.Error]. *)
Fixpoint a2b_base64 (strict : bool) (q : Quad) (l : list ascii) : option (list ascii) :=
  match l with
  | [] => if quad_pos q =? 0 then Some [] else None
  | c :: l' =>
      if bool_decide (c = pad_char) then
        if strict && (quad_pos q =? 0) then None
        else
          let pads' := if 2 <=? quad_pos q then pads q + 1 else pads q in
          if (2 <=? quad_pos q) && (4 <=? quad_pos q + pads') then
            if strict && negb (bool_decide (l' = [])) then None else Some []
          else a2b_base64 strict (mkQuad (quad_pos q) (leftchar q) pads' true) l'
      else
        match b64_value c with
        | None => if strict then None else a2b_base64 strict q l'
        | Some v =>
            if strict && padding_started q then None
            else let '(out, q') := quad_step q v in
                 match a2b_base64 strict q' l' with
                 | Some rest => Some (out ++ rest)%list
                 | None => None
                 end
        end
  end.

(** [base64.b64decode(value, validate=validate)]. *)
Definition b64decode (validate : bool) (value : string) : option string :=
  of_chars <$> a2b_base64 validate quad_start (chars value).

(** [base64.urlsafe_b64decode]: ["-"] and ["_"] are translated first. *)
Definition from_urlsafe (c : ascii) : ascii :=
  if bool_decide (c = "-"%char) then "+"%char
  else if bool_decide (c = "_"%char) then "/"%char else c.
Definition urlsafe_b64decode (value : string) : option string :=
  of_chars <$> a2b_base64 false quad_start (from_urlsafe <$> chars value).

(** [text.rstrip("=")], and the padding that [-len(text) % 4] restores. *)
Definition rstrip_pad (l : list ascii) : list ascii :=
  rev (drop_while (λ c, bool_decide (c = pad_char)) (rev l)).
Definition restore_pad (l : list ascii) : list ascii :=
  (l ++ repeat pad_char (Z.to_nat (- Z.of_nat (length l) mod 4)))%list.

(** ** Decoding undoes encoding *)

Lemma code_range c : 0 ≤ code c < 256.
Proof. unfold code. pose proof (nat_ascii_bounded c). lia. Qed.
Lemma byte_of_code c : byte_of (code c) = c.
Proof. unfold byte_of, code. by rewrite Nat2Z.id, ascii_nat_embedding. Qed.

(** The 64 values, checked one by one. *)
Lemma b64_values (P : Z → bool) :
  forallb (λ n, P (Z.of_nat n)) (seq 0 64) = true → ∀ v, 0 ≤ v < 64 → P v = true.
Proof.
  rewrite forallb_forall. intros H v Hv. rewrite <- (Z2Nat.id v) by lia.
  apply H, in_seq. lia.
Qed.

Lemma b64_value_char v : 0 ≤ v < 64 →
  b64_value (b64_char "+" "/" v) = Some v ∧ b64_char "+" "/" v ≠ pad_char
  ∧ from_urlsafe (b64_char "-" "_" v) = b64_char "+" "/" v ∧ b64_char "-" "_" v ≠ pad_char.
Proof.
  intros Hv.
  enough (∀ v, 0 ≤ v < 64 → bool_decide (b64_value (b64_char "+" "/" v) = Some v
      ∧ b64_char "+" "/" v ≠ pad_char ∧ from_urlsafe (b64_char "-" "_" v) = b64_char "+" "/" v
      ∧ b64_char "-" "_" v ≠ pad_char) = true) as H.
  { by apply (bool_decide_eq_true_1 _ (H v Hv)). }
  apply b64_values. by vm_compute.
Qed.

(** A list, three elements at a time. *)
Lemma triples_ind {A} (P : list A → Prop) :
  P [] → (∀ a, P [a]) → (∀ a b, P [a; b]) → (∀ a b c l, P l → P (a :: b :: c :: l)) → ∀ l, P l.
Proof.
  intros H0 H1 H2 H3. enough (∀ l, P l ∧ (∀ a, P (a :: l)) ∧ ∀ a b, P (a :: b :: l)) by firstorder.
  induction l as [|c l (IH1 & IH2 & IH3)]; [auto|]. repeat split; auto.
Qed.

Lemma a2b_value strict q v l : 0 ≤ v < 64 → strict && padding_started q = false →
  a2b_base64 strict q (b64_char "+" "/" v :: l)
  = (λ rest, (quad_step q v).1 ++ rest)%list <$> a2b_base64 strict (quad_step q v).2 l.
Proof.
  intros Hv Hp. destruct (b64_value_char v Hv) as (Ev & Hne & _). simpl.
  rewrite bool_decide_eq_false_2, Ev, Hp by done. destruct (quad_step q v) as [out q']. simpl.
  by destruct (a2b_base64 strict q' l).
Qed.

Ltac six_bits := repeat match goal with
  | c : ascii |- _ => lazymatch goal with
      | _ : 0 ≤ code c < 256 |- _ => fail
      | _ => pose proof (code_range c)
      end
  end; Z.to_euclidean_division_equations; lia.

(** The value a whole group puts back. *)
Lemma byte_back a z : z = code a → byte_of z = a.
Proof. intros ->. apply byte_of_code. Qed.

Lemma a2b_b64_encode strict l :
  a2b_base64 strict quad_start (b64_encode_chars "+" "/" l) = Some l.
Proof.
  induction l as [|a|a b|a b c l IH] using triples_ind; [done|..];
    cbn [b64_encode_chars]; rewrite !a2b_value by (by rewrite ?andb_false_r || six_bits);
    cbn [quad_step quad_pos leftchar pads padding_started quad_start fst snd Z.eqb Pos.eqb].
  - simpl. rewrite !andb_false_r. simpl.
    rewrite (byte_back a) by six_bits. done.
  - simpl. rewrite !andb_false_r. simpl.
    rewrite (byte_back a), (byte_back b) by six_bits. done.
  - fold quad_start. rewrite IH. simpl.
    by rewrite (byte_back a), (byte_back b), (byte_back c) by six_bits.
Qed.

(** Strict and lenient decoding of standard Base64. *)
Lemma b64decode_encode validate value : b64decode validate (b64encode value) = Some value.
Proof.
  unfold b64decode, b64encode. rewrite chars_of_chars, a2b_b64_encode. simpl.
  by rewrite of_chars_chars.
Qed.

(** A character of the URL-safe alphabet. *)
Definition is_b64_data (c : ascii) : Prop := ∃ v, 0 ≤ v < 64 ∧ c = b64_char "-" "_" v.

(** What holds of the 64 characters holds of each. *)
Lemma b64_data_forall (P : ascii → bool) :
  forallb (λ n, P (b64_char "-" "_" (Z.of_nat n))) (seq 0 64) = true →
  ∀ c, is_b64_data c → P c = true.
Proof. intros Hp c (v & Hv & ->). revert v Hv. by apply b64_values. Qed.

Lemma b64encode_ascii value : is_ascii (b64encode value) = true.
Proof.
  unfold is_ascii, b64encode. rewrite chars_of_chars. apply forallb_forall.
  assert (∀ v, 0 ≤ v < 64 → (code (b64_char "+" "/" v) <? 128) = true) as Hv
    by (apply b64_values; by vm_compute).
  assert (Forall (λ c, (code c <? 128) = true) (b64_encode_chars "+" "/" (chars value))) as Hf.
  { induction (chars value) as [|a|a b|a b c l IH] using triples_ind; [constructor|..];
      cbn [b64_encode_chars]; repeat constructor; try done; apply Hv; six_bits. }
  intros c Hc%list_elem_of_In. by apply (proj1 (Forall_forall _ _) Hf).
Qed.

(** The encoding is data characters followed by the padding its length needs. *)
Lemma b64_shape l : ∃ data,
  b64_encode_chars "-" "_" l = restore_pad data ∧ Forall is_b64_data data.
Proof.
  unfold restore_pad. induction l as [|a|a b|a b c l (data & E & Hd)] using triples_ind.
  - by exists [].
  - exists [b64_char "-" "_" (code a / 4); b64_char "-" "_" (code a mod 4 * 16)].
    split; [done|]. repeat constructor; eexists; (split; [|done]); six_bits.
  - exists [b64_char "-" "_" (code a / 4); b64_char "-" "_" (code a mod 4 * 16 + code b / 16);
            b64_char "-" "_" (code b mod 16 * 4)].
    split; [done|]. repeat constructor; eexists; (split; [|done]); six_bits.
  - exists (b64_char "-" "_" (code a / 4) :: b64_char "-" "_" (code a mod 4 * 16 + code b / 16)
        :: b64_char "-" "_" (code b mod 16 * 4 + code c / 64)
        :: b64_char "-" "_" (code c mod 64) :: data).
    cbn [b64_encode_chars]. rewrite E. split.
    + simpl length. replace (- Z.of_nat (S (S (S (S (length data))))) mod 4)
        with (- Z.of_nat (length data) mod 4); [done|].
      replace (- Z.of_nat (S (S (S (S (length data))))))
        with (- Z.of_nat (length data) + -1 * 4) by lia. by rewrite Z_mod_plus_full.
    + repeat constructor; [eexists; (split; [|done]); six_bits..|done].
Qed.

Lemma drop_while_pads k l :
  drop_while (λ c, bool_decide (c = pad_char)) (repeat pad_char k ++ l)%list
  = drop_while (λ c, bool_decide (c = pad_char)) l.
Proof. by induction k. Qed.

Lemma rstrip_restore data :
  Forall is_b64_data data → rstrip_pad (restore_pad data) = data.
Proof.
  intros Hd. unfold rstrip_pad, restore_pad.
  rewrite rev_app_distr, rev_repeat, drop_while_pads. rewrite <- (rev_involutive data) at 2.
  f_equal. destruct (rev data) as [|c r] eqn:E; [done|]. simpl.
  assert (is_b64_data c) as (v & Hv & ->).
  { apply (proj1 (Forall_forall _ _) Hd), list_elem_of_In, in_rev. rewrite E. by left. }
  rewrite bool_decide_eq_false_2; [done|]. by apply b64_value_char.
Qed.

(** URL-safe Base64 with the padding stripped and restored. *)
Lemma urlsafe_unpadded_roundtrip value :
  urlsafe_b64decode (of_chars (restore_pad (rstrip_pad (chars (urlsafe_b64encode value)))))
  = Some value.
Proof.
  unfold urlsafe_b64decode, urlsafe_b64encode. rewrite !chars_of_chars.
  destruct (b64_shape (chars value)) as (data & E & Hd).
  rewrite E, rstrip_restore, <- E by done.
  assert (∀ l, from_urlsafe <$> b64_encode_chars "-" "_" l = b64_encode_chars "+" "/" l) as ->.
  { intros l. induction l as [|a|a b|a b c l IH] using triples_ind; [done|..];
      cbn [b64_encode_chars]; rewrite ?fmap_cons, ?IH; repeat f_equal;
      apply b64_value_char; six_bits. }
  rewrite a2b_b64_encode. simpl. by rewrite of_chars_chars.
Qed.

(** The unpadded encoding consists of data characters. *)
Lemma urlsafe_unpadded_data value :
  Forall is_b64_data (rstrip_pad (chars (urlsafe_b64encode value))).
Proof.
  unfold urlsafe_b64encode. rewrite chars_of_chars.
  destruct (b64_shape (chars value)) as (data & -> & Hd). by rewrite rstrip_restore.
Qed.
