(* ===== verification/PyDecimal.v ===== *)
(** * Python [decimal.Decimal] as the banking code uses it

    A finite decimal is [coeff * 10^expo] with the sign in [coeff] (the sign
    of a zero is not kept); [DInf] and [DNaN] are the special values.  The
    context is Python's default: precision 28, rounding half to even.
    Monetary columns are [Numeric(12, 2)], so an amount that has been
    quantized to ["0.01"] is an integer number of cents. *)

From S2P Require Import Prelude PyStr.
From Stdlib Require Import Ascii.
Open Scope string_scope.
Open Scope Z_scope.

Inductive pydec : Type :=
  | DFin (coeff expo : Z)
  | DInf (negative : bool)
  | DNaN.

#[export] Instance pydec_eq_dec : EqDecision pydec.
Proof. solve_decision. Defined.

Definition dec_prec : Z := 28.

(** Number of decimal digits of the coefficient ([len(self._int)]). *)
Definition ndigits (c : Z) : Z := Z.of_nat (slen (pretty (Z.abs c))).

(** [c / 10^k] rounded half to even. *)
Definition round_half_even (c k : Z) : Z :=
  let m := 10 ^ k in
  let q := c / m in let r := c mod m in
  if 2 * r <? m then q
  else if m <? 2 * r then q + 1
  else if Z.even q then q else q + 1.

(** [Decimal._fix]: round to the context's precision. *)
Definition dec_fix (d : pydec) : pydec :=
  match d with
  | DFin c e =>
      let extra := ndigits c - dec_prec in
      if extra <=? 0 then DFin c e
      else
        let c' := round_half_even c extra in
        if dec_prec <? ndigits c' then DFin (c' / 10) (e + extra + 1)
        else DFin c' (e + extra)
  | _ => d
  end.

(** Trailing zeros, at most [fuel] of them. *)
Fixpoint strip_zeros (fuel : nat) (c e : Z) : Z * Z :=
  match fuel with
  | O => (c, e)
  | S fuel' => if c mod 10 =? 0 then strip_zeros fuel' (c / 10) (e + 1) else (c, e)
  end.

(** [Decimal.normalize]: a zero becomes [0], otherwise trailing zeros go.  A
    coefficient of at most 28 digits has fewer than 28 of them. *)
Definition normalize (d : pydec) : pydec :=
  match dec_fix d with
  | DFin c e =>
      if c =? 0 then DFin 0 0
      else let '(c', e') := strip_zeros 28 c e in DFin c' e'
  | d' => d'
  end.

Definition is_finite (d : pydec) : bool :=
  match d with DFin _ _ => true | _ => false end.

(** [Decimal.as_tuple().exponent] of a finite value. *)
Definition exponent (d : pydec) : Z := match d with DFin _ e => e | _ => 0 end.

(** [Decimal.quantize(Decimal("0.01"))]. *)
Definition quantize_cents (d : pydec) : res pydec :=
  match d with
  | DNaN => Ok DNaN
  | DInf _ => Raise InvalidOperation
  | DFin c e =>
      if c =? 0 then Ok (DFin 0 (-2))
      else if dec_prec <? (e + ndigits c - 1) + 2 + 1 then Raise InvalidOperation
      else
        let c' := if -2 <=? e then c * 10 ^ (e + 2) else round_half_even c (-2 - e) in
        if dec_prec <? ndigits c' then Raise InvalidOperation
        else Ok (DFin c' (-2))
  end.

(** The cents of a value quantized to ["0.01"]. *)
Definition cents (d : pydec) : Z := match d with DFin c _ => c | _ => 0 end.
Definition of_cents (z : Z) : pydec := DFin z (-2).

(** Ordering comparisons raise [InvalidOperation] on a NaN. *)
Definition dec_compare (a b : pydec) : res comparison :=
  match a, b with
  | DNaN, _ | _, DNaN => Raise InvalidOperation
  | DInf x, DInf y =>
      Ok (if Bool.eqb x y then Eq else if x then Lt else Gt)
  | DInf true, _ | _, DInf false => Ok Lt
  | DInf false, _ | _, DInf true => Ok Gt
  | DFin c e, DFin c' e' =>
      let m := Z.min e e' in Ok (c * 10 ^ (e - m) ?= c' * 10 ^ (e' - m))
  end.

Definition dec_lt (a b : pydec) : res bool :=
  rbind (dec_compare a b) (λ r, Ok (if r is Lt then true else false)).
Definition dec_gt (a b : pydec) : res bool :=
  rbind (dec_compare a b) (λ r, Ok (if r is Gt then true else false)).

(** ** Arithmetic of finite values *)

(** Trailing zeros go while the exponent is below the ideal one. *)
Fixpoint to_ideal (fuel : nat) (ideal c e : Z) : Z * Z :=
  match fuel with
  | O => (c, e)
  | S fuel' =>
      if (e <? ideal) && (c mod 10 =? 0) then to_ideal fuel' ideal (c / 10) (e + 1) else (c, e)
  end.

(** [Decimal.__truediv__] of finite values, the divisor not zero: one digit
    more than the precision is computed, made sticky when the quotient is not
    exact, and rounded. *)
Definition dec_div (c1 e1 c2 e2 : Z) : pydec :=
  if c1 =? 0 then DFin 0 (e1 - e2)
  else
    let shift := ndigits c2 - ndigits c1 + dec_prec + 1 in
    let op1 := if 0 <=? shift then Z.abs c1 * 10 ^ shift else Z.abs c1 in
    let op2 := if 0 <=? shift then Z.abs c2 else Z.abs c2 * 10 ^ (- shift) in
    let e := e1 - e2 - shift in
    let q := op1 / op2 in
    let '(c, e) :=
      if op1 mod op2 =? 0 then to_ideal 60 (e1 - e2) q e
      else ((if q mod 5 =? 0 then q + 1 else q), e) in
    dec_fix (DFin (Z.sgn c1 * Z.sgn c2 * c) e).

Definition dec_mul (a b : pydec) : pydec :=
  match a, b with
  | DFin c e, DFin c' e' => dec_fix (DFin (c * c') (e + e'))
  | _, _ => DNaN
  end.

(** ** [Decimal(str)] *)

Definition all_digits (l : list ascii) : bool := forallb is_digit l.

(** [digits[.digits]] or [.digits]: coefficient digits and exponent. *)
Definition parse_mantissa (l : list ascii) : option (Z * Z) :=
  match partition_char "."%char l with
  | None =>
      if l is [] then None else if all_digits l then (λ v, (v, 0)) <$> digits_val 0 l else None
  | Some (ip, fp) =>
      if (ip ++ fp)%list is [] then None
      else if all_digits ip && all_digits fp
      then (λ v, (v, - Z.of_nat (length fp))) <$> digits_val 0 (ip ++ fp)%list
      else None
  end.

Definition parse_unsigned (l : list ascii) : option pydec :=
  let s := of_chars l in
  if bool_decide (s = "inf") || bool_decide (s = "infinity") then Some (DInf false)
  else if bool_decide (s = "nan") then Some DNaN
  else
    match partition_char "e"%char l with
    | None => (λ '(c, e), DFin c e) <$> parse_mantissa l
    | Some (m, x) =>
        match parse_mantissa m, parse_int (of_chars x) with
        | Some (c, e), Some k => Some (DFin c (e + k))
        | _, _ => None
        end
    end.

Definition dec_neg (d : pydec) : pydec :=
  match d with DFin c e => DFin (- c) e | DInf b => DInf (negb b) | DNaN => DNaN end.

(** [Decimal(text)]: surrounding whitespace and underscores are dropped, case
    is ignored; anything else that is not a numeral raises
    [InvalidOperation]. *)
Definition decimal_of_str (text : string) : res pydec :=
  let l := List.filter (λ c, negb (bool_decide (c = "_"%char))) (chars (casefold (strip text))) in
  let parsed :=
    match l with
    | c :: l' =>
        if bool_decide (c = "-"%char) then dec_neg <$> parse_unsigned l'
        else if bool_decide (c = "+"%char) then parse_unsigned l'
        else parse_unsigned l
    | [] => None
    end in
  match parsed with Some d => Ok d | None => Raise InvalidOperation end.

(** ** Printing *)

(** [format(cents, "f")] and [str] of a value quantized to ["0.01"]. *)
Definition fixed2 (z : Z) : string :=
  (if z <? 0 then "-" else "") +:+ pretty (Z.abs z / 100) +:+ "." +:+ pad 2 (Z.abs z mod 100).

(** Thousands separators, from the least significant digit. *)
Fixpoint group3 (n : nat) (l : list ascii) : list ascii :=
  match l with
  | [] => []
  | c :: l' =>
      match n with
      | O => ","%char :: c :: group3 2 l'
      | S n' => c :: group3 n' l'
      end
  end.
Definition grouped (z : Z) : string := of_chars (rev (group3 3 (rev (chars (pretty z))))).

(** ** Quantizing keeps values that already have two decimals *)

Lemma round_half_even_exact c k : 0 ≤ k → round_half_even (c * 10 ^ k) k = c.
Proof.
  intros Hk. unfold round_half_even.
  assert (10 ^ k ≠ 0) by (apply Z.pow_nonzero; lia).
  rewrite Z.div_mul, Z.mod_mul by done.
  assert (0 < 10 ^ k) by (apply Z.pow_pos_nonneg; lia).
  by replace (2 * 0 <? 10 ^ k) with true by (symmetry; apply Z.ltb_lt; lia).
Qed.

(** [strip_zeros] keeps the value. *)
Lemma strip_zeros_value fuel c e c' e' :
  strip_zeros fuel c e = (c', e') → e ≤ e' ∧ c = c' * 10 ^ (e' - e).
Proof.
  revert c e. induction fuel as [|fuel IH]; intros c e H; simpl in H.
  - simplify_eq. split; [lia|]. rewrite Z.sub_diag. simpl. lia.
  - destruct (Z.eqb_spec (c mod 10) 0) as [Hm|Hm].
    + apply IH in H as [He Hc]. split; [lia|].
      replace (e' - e) with (1 + (e' - (e + 1))) by lia.
      rewrite Z.pow_add_r by lia. rewrite (Z.div_mod c 10) by lia. rewrite Hm, Hc.
      change (10 ^ 1) with 10. ring.
    + simplify_eq. split; [lia|]. rewrite Z.sub_diag. simpl. lia.
Qed.
