(* ===== verification/TimeModel.v ===== *)
(** * Dates and times

    Instants are microseconds since 1970-01-01T00:00:00Z in [Z].  The calendar
    is the proleptic Gregorian one of Python's [datetime], with its ordinal
    arithmetic.  The file models [app/time_display.py], the timestamp printers
    of the integrity and audit code, and the Singapore-time day and month
    boundaries of [app/banking/services.py]. *)

From S2P Require Import Prelude PyStr.
From Stdlib Require Import Ascii.
Open Scope string_scope.
Open Scope Z_scope.

(** ** The calendar of the [datetime] module *)

Definition is_leap (y : Z) : bool :=
  (y mod 4 =? 0) && (negb (y mod 100 =? 0) || (y mod 400 =? 0)).
Definition days_before_year (y : Z) : Z :=
  let y := y - 1 in y * 365 + y / 4 - y / 100 + y / 400.
Definition days_before_month_common (m : Z) : Z :=
  nth (Z.to_nat m) [0; 0; 31; 59; 90; 120; 151; 181; 212; 243; 273; 304; 334] 0.
Definition days_before_month (y m : Z) : Z :=
  days_before_month_common m + (if (2 <? m) && is_leap y then 1 else 0).
Definition days_in_month_common (m : Z) : Z :=
  nth (Z.to_nat m) [0; 31; 28; 31; 30; 31; 30; 31; 31; 30; 31; 30; 31] 0.
Definition days_in_month (y m : Z) : Z :=
  days_in_month_common m + (if (m =? 2) && is_leap y then 1 else 0).
Definition ymd2ord (y m d : Z) : Z := days_before_year y + days_before_month y m + d.

(** [datetime._ord2ymd]. *)
Definition ord2ymd (ordinal : Z) : Z * Z * Z :=
  let n := ordinal - 1 in
  let n400 := n / 146097 in let n := n mod 146097 in
  let year := n400 * 400 + 1 in
  let n100 := n / 36524 in let n := n mod 36524 in
  let n4 := n / 1461 in let n := n mod 1461 in
  let n1 := n / 365 in let n := n mod 365 in
  let year := year + n100 * 100 + n4 * 4 + n1 in
  if (n1 =? 4) || (n100 =? 4) then (year - 1, 12, 31)
  else
    let leapyear := (n1 =? 3) && (negb (n4 =? 24) || (n100 =? 3)) in
    let month := Z.shiftr (n + 50) 5 in
    let preceding := days_before_month_common month +
                     (if (2 <? month) && leapyear then 1 else 0) in
    if n <? preceding then
      let month := month - 1 in
      let preceding := preceding - (days_in_month_common month +
                       (if (month =? 2) && leapyear then 1 else 0)) in
      (year, month, n - preceding + 1)
    else (year, month, n - preceding + 1).

(** *** [ord2ymd] undoes [ymd2ord]

    The day-in-year part has 366 cases and is checked by evaluation; the
    400/100/4/1-year decomposition is linear arithmetic. *)

Definition tail_month (leapyear : bool) (n : Z) : Z * Z :=
  let month := Z.shiftr (n + 50) 5 in
  let preceding := days_before_month_common month +
                   (if (2 <? month) && leapyear then 1 else 0) in
  if n <? preceding then
    let month := month - 1 in
    let preceding := preceding - (days_in_month_common month +
                     (if (month =? 2) && leapyear then 1 else 0)) in
    (month, n - preceding + 1)
  else (month, n - preceding + 1).

Definition tail_ok (leapyear : bool) (n : Z) : bool :=
  let '(m, d) := tail_month leapyear n in
  (days_before_month_common m + (if (2 <? m) && leapyear then 1 else 0) + d =? n + 1)
  && (1 <=? m) && (m <=? 12) && (1 <=? d)
  && (d <=? days_in_month_common m + (if (m =? 2) && leapyear then 1 else 0)).

(** Checks [f] on 0, 1, ... in turn. *)
Definition check_step (f : Z → bool) (st : Z * bool) : Z * bool :=
  (st.1 + 1, st.2 && f st.1).

Lemma check_iter f p :
  let st := Pos.iter (check_step f) (0, true) p in
  st.1 = Zpos p ∧ (st.2 = true → ∀ z, 0 ≤ z < Zpos p → f z = true).
Proof.
  induction p as [|p IH] using Pos.peano_ind; simpl.
  - split; [done|]. intros H z Hz. by assert (z = 0) as -> by lia.
  - rewrite Pos.iter_succ. cbv zeta in IH. destruct IH as [IH1 IH2]. split.
    + simpl. rewrite IH1. lia.
    + simpl. intros H z Hz. apply andb_prop in H as [H1 H2]. rewrite IH1 in H2.
      destruct (decide (z = Zpos p)) as [->|]; [done|]. apply IH2; [done | lia].
Qed.

Lemma tail_month_spec leap n :
  0 ≤ n < 365 →
  let '(m, d) := tail_month leap n in
  days_before_month_common m + (if (2 <? m) && leap then 1 else 0) + d = n + 1
  ∧ 1 ≤ m ≤ 12
  ∧ 1 ≤ d ≤ days_in_month_common m + (if (m =? 2) && leap then 1 else 0).
Proof.
  intros Hn.
  assert (tail_ok leap n = true) as Hok.
  { apply (proj2 (check_iter (tail_ok leap) 365)); [by destruct leap; vm_compute | done]. }
  unfold tail_ok in Hok. destruct (tail_month leap n) as [m d].
  rewrite !andb_true_iff in Hok. destruct Hok as [[[[H1 H2] H3] H4] H5].
  apply Z.eqb_eq in H1. apply Z.leb_le in H2, H3, H4, H5. lia.
Qed.

(** A year counted in 400-, 100-, 4- and 1-year cycles. *)
Lemma days_before_year_cycles a b c d :
  0 ≤ b ≤ 3 → 0 ≤ c ≤ 24 → 0 ≤ d ≤ 3 →
  days_before_year (400 * a + 100 * b + 4 * c + d + 1)
  = 146097 * a + 36524 * b + 1461 * c + 365 * d.
Proof.
  intros Hb Hc Hd. unfold days_before_year.
  set (y := 400 * a + 100 * b + 4 * c + d + 1 - 1).
  assert (y / 4 = 100 * a + 25 * b + c) as ->
    by (symmetry; apply Z.div_unique with d; lia).
  assert (y / 100 = 4 * a + b) as ->
    by (symmetry; apply Z.div_unique with (4 * c + d); lia).
  assert (y / 400 = a) as ->
    by (symmetry; apply Z.div_unique with (100 * b + 4 * c + d); lia).
  lia.
Qed.

Lemma is_leap_cycles a b c d :
  0 ≤ b ≤ 3 → 0 ≤ c ≤ 24 → 0 ≤ d ≤ 3 →
  is_leap (400 * a + 100 * b + 4 * c + d + 1)
  = (d =? 3) && (negb (c =? 24) || (b =? 3)).
Proof.
  intros Hb Hc Hd. unfold is_leap.
  set (y := 400 * a + 100 * b + 4 * c + d + 1).
  assert ((y mod 4 =? 0) = (d =? 3)) as ->.
  { unfold y. replace (400 * a + 100 * b + 4 * c + d + 1)
      with (d + 1 + (100 * a + 25 * b + c) * 4) by lia.
    rewrite Z.mod_add by lia. assert (d = 0 ∨ d = 1 ∨ d = 2 ∨ d = 3) by lia.
    naive_solver. }
  destruct (Z.eqb_spec d 3) as [->|]; [|done]. simpl.
  assert ((y mod 100 =? 0) = (c =? 24)) as ->.
  { unfold y. replace (400 * a + 100 * b + 4 * c + 3 + 1)
      with (4 * (c + 1) + (4 * a + b) * 100) by lia.
    rewrite Z.mod_add by lia.
    destruct (Z.eqb_spec c 24) as [->|]; [done|]. apply Z.eqb_neq.
    rewrite Z.mod_small by lia. lia. }
  destruct (Z.eqb_spec c 24) as [->|]; [|done]. simpl.
  unfold y. replace (400 * a + 100 * b + 4 * 24 + 3 + 1)
    with (100 * (b + 1) + a * 400) by lia.
  rewrite Z.mod_add by lia. assert (b = 0 ∨ b = 1 ∨ b = 2 ∨ b = 3) by lia.
  naive_solver.
Qed.

Lemma ord2ymd_valid n :
  let '(y, m, d) := ord2ymd n in
  ymd2ord y m d = n ∧ 1 ≤ m ≤ 12 ∧ 1 ≤ d ≤ days_in_month y m.
Proof.
  unfold ord2ymd.
  set (a := (n - 1) / 146097). set (r := (n - 1) mod 146097).
  set (b := r / 36524). set (r1 := r mod 36524).
  set (c := r1 / 1461). set (r2 := r1 mod 1461).
  set (d := r2 / 365). set (r3 := r2 mod 365).
  assert (n - 1 = 146097 * a + r ∧ 0 ≤ r < 146097) as [Hn Hr]
    by (unfold a, r; pose proof (Z.div_mod (n - 1) 146097);
        pose proof (Z.mod_pos_bound (n - 1) 146097); lia).
  assert (r = 36524 * b + r1 ∧ 0 ≤ r1 < 36524) as [Hb Hr1]
    by (unfold b, r1; pose proof (Z.div_mod r 36524);
        pose proof (Z.mod_pos_bound r 36524); lia).
  assert (r1 = 1461 * c + r2 ∧ 0 ≤ r2 < 1461) as [Hc Hr2]
    by (unfold c, r2; pose proof (Z.div_mod r1 1461);
        pose proof (Z.mod_pos_bound r1 1461); lia).
  assert (r2 = 365 * d + r3 ∧ 0 ≤ r3 < 365) as [Hd Hr3]
    by (unfold d, r3; pose proof (Z.div_mod r2 365);
        pose proof (Z.mod_pos_bound r2 365); lia).
  clearbody a b c d r r1 r2 r3.
  destruct ((d =? 4) || (b =? 4)) eqn:Elast.
  - split; [|unfold days_in_month; simpl; change (days_in_month_common 12) with 31; lia].
    apply orb_true_iff in Elast. rewrite !Z.eqb_eq in Elast.
    unfold ymd2ord, days_before_month. simpl.
    destruct Elast as [-> | ->].
    + replace (a * 400 + 1 + b * 100 + c * 4 + 4 - 1)
        with (400 * a + 100 * b + 4 * c + 3 + 1) by lia.
      rewrite days_before_year_cycles, is_leap_cycles by lia.
      assert ((c =? 24) = false) as -> by (apply Z.eqb_neq; lia).
      change (days_before_month_common 12) with 334. simpl. lia.
    + assert (c = 0 ∧ d = 0 ∧ r3 = 0) as (-> & -> & ->) by lia.
      replace (a * 400 + 1 + 4 * 100 + 0 * 4 + 0 - 1)
        with (400 * a + 100 * 3 + 4 * 24 + 3 + 1) by lia.
      rewrite days_before_year_cycles, is_leap_cycles by lia.
      change (days_before_month_common 12) with 334. simpl. lia.
  - apply orb_false_iff in Elast as [E1 E2]. apply Z.eqb_neq in E1, E2.
    set (leap := (d =? 3) && (negb (c =? 24) || (b =? 3))).
    pose proof (tail_month_spec leap r3 Hr3) as Ht. unfold tail_month in Ht.
    replace (a * 400 + 1 + b * 100 + c * 4 + d)
      with (400 * a + 100 * b + 4 * c + d + 1) by lia.
    destruct (r3 <? _); destruct Ht as (Ht & Hm & Hdd);
      unfold days_in_month, ymd2ord, days_before_month;
      rewrite days_before_year_cycles, is_leap_cycles by lia; fold leap; (split; [|done]); lia.
Qed.

Lemma days_in_month_le y m : 1 ≤ m ≤ 12 → 28 ≤ days_in_month y m ≤ 31.
Proof.
  intros Hm. assert (m = 1 ∨ m = 2 ∨ m = 3 ∨ m = 4 ∨ m = 5 ∨ m = 6 ∨ m = 7 ∨ m = 8 ∨ m = 9
    ∨ m = 10 ∨ m = 11 ∨ m = 12) as Hc by lia.
  unfold days_in_month. destruct (is_leap y); destruct_or! Hc; subst m; by vm_compute.
Qed.

Lemma ymd_of_ordinal n :
  let '(y, m, d) := ord2ymd n in
  ymd2ord y m d = n ∧ 1 ≤ m ≤ 12 ∧ 1 ≤ d ≤ 31.
Proof.
  pose proof (ord2ymd_valid n) as Hv. destruct (ord2ymd n) as [[y m] d].
  destruct Hv as (? & Hm & ?). pose proof (days_in_month_le y m Hm). lia.
Qed.

(** ** Wall clock *)

Definition US_SECOND : Z := 1000000.
Definition US_DAY : Z := 86400 * US_SECOND.
Definition EPOCH_ORDINAL : Z := 719163.
Definition SGT_OFFSET : Z := 8 * 3600 * US_SECOND.

Definition date_of (wall : Z) : Z * Z * Z := ord2ymd (wall / US_DAY + EPOCH_ORDINAL).
Definition hour_of (wall : Z) : Z := wall mod US_DAY / (3600 * US_SECOND).
Definition minute_of (wall : Z) : Z := wall mod US_DAY / (60 * US_SECOND) mod 60.
Definition second_of (wall : Z) : Z := wall mod US_DAY / US_SECOND mod 60.
Definition micro_of (wall : Z) : Z := wall mod US_SECOND.
Definition midnight_of (y m d : Z) : Z := (ymd2ord y m d - EPOCH_ORDINAL) * US_DAY.

(** A [datetime] value: naive wall-clock time, or wall-clock time with an
    offset from UTC. *)
Inductive datetime : Type :=
  | Naive (wall : Z)
  | Aware (wall offset : Z).

(** [as_utc]: a naive value is UTC wall-clock time; the result is an instant. *)
Definition as_utc (value : datetime) : Z :=
  match value with
  | Naive wall => wall
  | Aware wall offset => wall - offset
  end.

Definition month_abbr (m : Z) : string :=
  nth (Z.to_nat m)
    [""; "Jan"; "Feb"; "Mar"; "Apr"; "May"; "Jun"; "Jul"; "Aug"; "Sep"; "Oct"; "Nov"; "Dec"] "".

(** [strftime("%d %b %Y")]. *)
Definition strf_date (wall : Z) : string :=
  let '(y, m, d) := date_of wall in
  pad 2 d +:+ " " +:+ month_abbr m +:+ " " +:+ pretty y.

(** [datetime.isoformat(timespec="microseconds")] of a naive value. *)
Definition iso_date (wall : Z) : string :=
  let '(y, m, d) := date_of wall in pad 4 y +:+ "-" +:+ pad 2 m +:+ "-" +:+ pad 2 d.
Definition iso_seconds (wall : Z) : string :=
  iso_date wall +:+ "T" +:+ pad 2 (hour_of wall) +:+ ":" +:+ pad 2 (minute_of wall)
    +:+ ":" +:+ pad 2 (second_of wall).
Definition iso_micro (wall : Z) : string :=
  iso_seconds wall +:+ "." +:+ pad 6 (micro_of wall).
(** [datetime.isoformat()] of the UTC value: the fraction is printed when it
    is not zero. *)
Definition iso_auto (wall : Z) : string :=
  if micro_of wall =? 0 then iso_seconds wall else iso_micro wall.

Module TimeDisplay.

Definition utc_iso (value : option datetime) : string :=
  match value with
  | None => ""
  | Some v => iso_auto (as_utc v) +:+ "+00:00"
  end.

Definition to_singapore_time (value : option datetime) : option datetime :=
  match value with
  | None => None
  | Some v => Some (Aware (as_utc v + SGT_OFFSET) SGT_OFFSET)
  end.

Definition sgt_datetime (value : option datetime) : string :=
  match value with
  | None => ""
  | Some v =>
      let wall := as_utc v + SGT_OFFSET in
      strf_date wall +:+ ", " +:+ pad 2 (hour_of wall) +:+ ":" +:+ pad 2 (minute_of wall)
        +:+ ":" +:+ pad 2 (second_of wall) +:+ " SGT"
  end.

Definition sgt_date (value : option datetime) : string :=
  match value with
  | None => ""
  | Some v => strf_date (as_utc v + SGT_OFFSET)
  end.

(** [%I] is the hour on a 12-hour clock; its leading zero is stripped. *)
Definition hour_12 (wall : Z) : Z :=
  let h := hour_of wall mod 12 in if h =? 0 then 12 else h.
Definition sgt_time (value : option datetime) : string :=
  match value with
  | None => ""
  | Some v =>
      let wall := as_utc v + SGT_OFFSET in
      pretty (hour_12 wall) +:+ ":" +:+ pad 2 (minute_of wall) +:+
        (if hour_of wall <? 12 then " AM" else " PM") +:+ " SGT"
  end.

End TimeDisplay.

(** ** Singapore-time boundaries of the banking services *)

Definition sgt_day_start_utc (reference : Z) : Z :=
  let local := reference + SGT_OFFSET in
  local - local mod US_DAY - SGT_OFFSET.

(** [datetime(year, month, 1)], the [replace(day=28) + 4 days] step and
    [replace(day=1)], for a month in 1..12. *)
Definition sgt_month_bounds_utc (year month : Z) : res (Z * Z) :=
  if (year <? 1) || (9999 <? year) then Raise (ValueError "year is out of range")
  else if bool_decide ((year, month) = (1, 1)) || bool_decide ((year, month) = (9999, 12))
  then Raise OverflowError
  else
    let start_sgt := midnight_of year month 1 in
    let next := midnight_of year month 28 + 4 * US_DAY in
    let '(y, m, _) := date_of next in
    let end_sgt := midnight_of y m 1 in
    Ok (start_sgt - SGT_OFFSET, end_sgt - SGT_OFFSET).

Lemma day_start_le t : sgt_day_start_utc t ≤ t < sgt_day_start_utc t + US_DAY.
Proof.
  unfold sgt_day_start_utc.
  pose proof (Z.mod_pos_bound (t + SGT_OFFSET) US_DAY ltac:(unfold US_DAY, US_SECOND; lia)).
  lia.
Qed.

Lemma day_start_mono t u : t ≤ u → sgt_day_start_utc t ≤ sgt_day_start_utc u.
Proof.
  intros H. unfold sgt_day_start_utc.
  rewrite !Z.mod_eq by (unfold US_DAY, US_SECOND; lia).
  assert ((t + SGT_OFFSET) / US_DAY ≤ (u + SGT_OFFSET) / US_DAY)
    by (apply Z.div_le_mono; [unfold US_DAY, US_SECOND; lia | lia]).
  assert (0 < US_DAY) by (unfold US_DAY, US_SECOND; lia). nia.
Qed.

Lemma day_start_same t u :
  sgt_day_start_utc t ≤ u < sgt_day_start_utc t + US_DAY →
  sgt_day_start_utc u = sgt_day_start_utc t.
Proof.
  intros H. unfold sgt_day_start_utc in *.
  assert (0 < US_DAY) by (unfold US_DAY, US_SECOND; lia).
  rewrite !Z.mod_eq in * by lia.
  set (q := (t + SGT_OFFSET) / US_DAY) in *.
  assert ((u + SGT_OFFSET) / US_DAY = q) as ->; [|lia].
  symmetry. apply Z.div_unique with (u + SGT_OFFSET - US_DAY * q); lia.
Qed.
