(* ===== verification/Calendar.v ===== *)
(** * Calendar months

    The calendar of [TimeModel] is a bijection between ordinals and valid
    dates, and the month boundaries of the banking services tile the time line:
    the end of a month is the start of the next one. *)

From S2P Require Import Prelude PyStr TimeModel.
Open Scope Z_scope.

Definition valid_date (y m d : Z) : Prop := 1 ≤ m ≤ 12 ∧ 1 ≤ d ≤ days_in_month y m.

(** The month after month [m] of year [y]. *)
Definition next_month (y m : Z) : Z * Z := if m =? 12 then (y + 1, 1) else (y, m + 1).

(** Case analysis on a month number. *)
Ltac month_cases m :=
  let Hc := fresh in
  assert (m = 1 ∨ m = 2 ∨ m = 3 ∨ m = 4 ∨ m = 5 ∨ m = 6 ∨ m = 7 ∨ m = 8 ∨ m = 9
    ∨ m = 10 ∨ m = 11 ∨ m = 12) as Hc by lia;
  destruct_or! Hc; subst m.

Lemma div_step y k : 0 < k → y / k = (y - 1) / k + (if y mod k =? 0 then 1 else 0).
Proof.
  intros Hk. pose proof (Z.div_mod y k ltac:(lia)) as E. pose proof (Z.mod_pos_bound y k Hk) as Hm.
  destruct (Z.eqb_spec (y mod k) 0) as [E0|E0].
  - assert ((y - 1) / k = y / k - 1) as ->; [|lia].
    symmetry. apply Z.div_unique with (k - 1); lia.
  - assert ((y - 1) / k = y / k) as ->; [|lia].
    symmetry. apply Z.div_unique with (y mod k - 1); lia.
Qed.

Lemma days_before_next_year y :
  days_before_year (y + 1) = days_before_year y + 365 + (if is_leap y then 1 else 0).
Proof.
  unfold days_before_year, is_leap. replace (y + 1 - 1) with y by lia.
  rewrite (div_step y 4), (div_step y 100), (div_step y 400) by lia.
  assert (y mod 100 = 0 → y mod 4 = 0) by (Z.to_euclidean_division_equations; lia).
  assert (y mod 400 = 0 → y mod 100 = 0) by (Z.to_euclidean_division_equations; lia).
  destruct (Z.eqb_spec (y mod 4) 0), (Z.eqb_spec (y mod 100) 0), (Z.eqb_spec (y mod 400) 0);
    simpl; lia.
Qed.

Lemma days_before_year_mono y z : y ≤ z → days_before_year y ≤ days_before_year z.
Proof. unfold days_before_year. intros. Z.to_euclidean_division_equations. lia. Qed.

Lemma days_before_next_month y m :
  1 ≤ m ≤ 11 → days_before_month y (m + 1) = days_before_month y m + days_in_month y m.
Proof.
  intros Hm. unfold days_before_month, days_in_month.
  destruct (is_leap y); month_cases m; try lia; by vm_compute.
Qed.

Lemma days_before_month_mono y m n :
  1 ≤ m → m < n ≤ 12 → days_before_month y m + days_in_month y m ≤ days_before_month y n.
Proof.
  intros Hm Hn. rewrite <- days_before_next_month by lia.
  unfold days_before_month. destruct (is_leap y); month_cases m; try lia; month_cases n; try lia;
    by vm_compute.
Qed.

Lemma year_length y :
  days_before_month y 12 + days_in_month y 12 = 365 + (if is_leap y then 1 else 0).
Proof. unfold days_before_month, days_in_month. by destruct (is_leap y). Qed.

Lemma day_of_year_le y m d :
  valid_date y m d → 1 ≤ days_before_month y m + d ≤ 365 + (if is_leap y then 1 else 0).
Proof.
  intros [Hm Hd]. rewrite <- year_length. split.
  - assert (0 ≤ days_before_month y m); [|lia].
    unfold days_before_month. destruct (is_leap y); month_cases m; by vm_compute.
  - destruct (decide (m = 12)) as [->|]; [lia|].
    pose proof (days_before_month_mono y m 12). pose proof (days_in_month_le y 12). lia.
Qed.

Lemma ymd2ord_year y m d y' m' d' :
  valid_date y m d → valid_date y' m' d' → ymd2ord y m d ≤ ymd2ord y' m' d' → y ≤ y'.
Proof.
  intros H1%day_of_year_le H2%day_of_year_le E. unfold ymd2ord in E.
  destruct (Z.le_gt_cases y y') as [|Hlt]; [done|].
  pose proof (days_before_year_mono (y' + 1) y ltac:(lia)).
  rewrite days_before_next_year in *. lia.
Qed.

(** Different dates have different ordinals. *)
Lemma ymd2ord_inj y m d y' m' d' :
  valid_date y m d → valid_date y' m' d' → ymd2ord y m d = ymd2ord y' m' d' →
  (y, m, d) = (y', m', d').
Proof.
  intros H1 H2 E.
  assert (y = y') as <-.
  { pose proof (ymd2ord_year _ _ _ _ _ _ H1 H2). pose proof (ymd2ord_year _ _ _ _ _ _ H2 H1). lia. }
  destruct H1 as [Hm Hd], H2 as [Hm' Hd']. unfold ymd2ord in E.
  destruct (Z.lt_trichotomy m m') as [Hlt|[->|Hlt]]; [|f_equal; lia|].
  - pose proof (days_before_month_mono y m m'). lia.
  - pose proof (days_before_month_mono y m' m). lia.
Qed.

Lemma ord2ymd_of_ymd y m d : valid_date y m d → ord2ymd (ymd2ord y m d) = (y, m, d).
Proof.
  intros Hv. pose proof (ord2ymd_valid (ymd2ord y m d)) as Ho.
  destruct (ord2ymd (ymd2ord y m d)) as [[y' m'] d']. destruct Ho as (E & Hm & Hd).
  by apply ymd2ord_inj.
Qed.

(** Four days after the 28th lies in the next month. *)
Lemma next_month_ord y m :
  1 ≤ m ≤ 12 →
  let '(y', m') := next_month y m in
  ymd2ord y m 28 + 4 = ymd2ord y' m' (32 - days_in_month y m)
  ∧ valid_date y' m' (32 - days_in_month y m).
Proof.
  intros Hm. pose proof (days_in_month_le y m Hm). unfold next_month, ymd2ord, valid_date.
  destruct (Z.eqb_spec m 12) as [->|].
  - rewrite days_before_next_year. pose proof (year_length y).
    change (days_before_month (y + 1) 1) with 0. pose proof (days_in_month_le (y + 1) 1). lia.
  - rewrite days_before_next_month by lia. pose proof (days_in_month_le y (m + 1)). lia.
Qed.

Lemma month_bounds_spec y m s e :
  1 ≤ m ≤ 12 → sgt_month_bounds_utc y m = Ok (s, e) →
  s = midnight_of y m 1 - SGT_OFFSET
  ∧ e = midnight_of (next_month y m).1 (next_month y m).2 1 - SGT_OFFSET.
Proof.
  intros Hm. unfold sgt_month_bounds_utc. destruct (_ || _); [done|]. destruct (_ || _); [done|].
  cbv zeta. change (midnight_of y m 28) with ((ymd2ord y m 28 - EPOCH_ORDINAL) * US_DAY).
  unfold date_of. rewrite <- Z.mul_add_distr_r, Z.div_mul by (unfold US_DAY, US_SECOND; lia).
  replace (ymd2ord y m 28 - EPOCH_ORDINAL + 4 + EPOCH_ORDINAL) with (ymd2ord y m 28 + 4) by lia.
  pose proof (next_month_ord y m Hm) as Hn. destruct (next_month y m) as [y' m'].
  destruct Hn as [-> Hv]. rewrite ord2ymd_of_ymd by done. by intros [= <- <-].
Qed.

(** The end of a month is the start of the next. *)
Lemma months_tile y m s e s' e' :
  1 ≤ m ≤ 12 → sgt_month_bounds_utc y m = Ok (s, e) →
  sgt_month_bounds_utc (next_month y m).1 (next_month y m).2 = Ok (s', e') → s' = e.
Proof.
  intros Hm E E'. apply month_bounds_spec in E as [_ ->]; [|done].
  apply month_bounds_spec in E' as [-> _]; [done|].
  unfold next_month. destruct (Z.eqb_spec m 12); simpl; lia.
Qed.

Lemma month_positive y m s e : 1 ≤ m ≤ 12 → sgt_month_bounds_utc y m = Ok (s, e) → s < e.
Proof.
  intros Hm [-> ->]%month_bounds_spec; [|done]. pose proof (next_month_ord y m Hm) as Hn.
  destruct (next_month y m) as [y' m']. destruct Hn as [E _]. simpl.
  pose proof (days_in_month_le y m Hm). unfold midnight_of, ymd2ord in *.
  unfold US_DAY, US_SECOND. lia.
Qed.
