(* ===== verification/Schema.v ===== *)
(** * The relational schema of [app/models.py]

    One record per table, with the columns of the SQLAlchemy model: money
    columns ([Numeric(12, 2)]) hold cents, [DateTime] columns hold instants
    (microseconds since the epoch), nullable columns are options.  A table maps
    primary keys to rows; the audit log, which is append-only, is the list of
    its rows by ascending id.  [db_ok] is the conjunction of the declared CHECK
    and UNIQUE constraints and of the [Numeric] ranges: the database refuses to
    make a state that violates it durable.  Column defaults are supplied where a
    row is created; [onupdate] timestamps are not modelled. *)

From S2P Require Import Prelude PyStr.
From Stdlib Require Import Ascii.
Open Scope string_scope.
Open Scope Z_scope.

(** A row of [users]. *)
Record User : Type := mkUser {
  u_username : string;
  u_email : string;
  u_registration_email_canonical : option string;
  u_password_hash : string;
  u_account_type : string;
  u_account_status : string;
  u_full_name : string;
  u_phone_number : option string;
  u_payup_nickname : option string;
  u_account_number : option string;
  u_staff_personal_email : option string;
  u_workplace_email_verified_at : option Z;
  u_password_changed_at : Z;
  u_force_password_change : bool;
  u_force_password_change_reason : option string;
  u_force_password_change_at : option Z;
  u_mfa_secret_ciphertext : option string;
  u_mfa_secret_nonce : option string;
  u_mfa_enabled : bool;
  u_mfa_pending_started_at : option Z;
  u_mfa_pending_session_hash : option string;
  u_balance : Z;
  u_payup_daily_limit : Z;
  u_payup_enabled : bool;
  u_transfer_activity_email_enabled : bool;
  u_local_transfer_daily_limit : Z;
  u_is_frozen : bool;
  u_failed_login_count : Z;
  u_security_locked_at : option Z;
  u_security_lock_reason : option string;
  u_created_at : Z;
  u_updated_at : Z;
  u_last_login_at : option Z
}.

Definition set_u_balance (v : Z) (r : User) : User :=
  mkUser (u_username r) (u_email r) (u_registration_email_canonical r) (u_password_hash r)
    (u_account_type r) (u_account_status r) (u_full_name r) (u_phone_number r)
    (u_payup_nickname r) (u_account_number r) (u_staff_personal_email r)
    (u_workplace_email_verified_at r) (u_password_changed_at r) (u_force_password_change r)
    (u_force_password_change_reason r) (u_force_password_change_at r) (u_mfa_secret_ciphertext
    r) (u_mfa_secret_nonce r) (u_mfa_enabled r) (u_mfa_pending_started_at r)
    (u_mfa_pending_session_hash r) v (u_payup_daily_limit r) (u_payup_enabled r)
    (u_transfer_activity_email_enabled r) (u_local_transfer_daily_limit r) (u_is_frozen r)
    (u_failed_login_count r) (u_security_locked_at r) (u_security_lock_reason r) (u_created_at
    r) (u_updated_at r) (u_last_login_at r).
Definition set_u_payup_daily_limit (v : Z) (r : User) : User :=
  mkUser (u_username r) (u_email r) (u_registration_email_canonical r) (u_password_hash r)
    (u_account_type r) (u_account_status r) (u_full_name r) (u_phone_number r)
    (u_payup_nickname r) (u_account_number r) (u_staff_personal_email r)
    (u_workplace_email_verified_at r) (u_password_changed_at r) (u_force_password_change r)
    (u_force_password_change_reason r) (u_force_password_change_at r) (u_mfa_secret_ciphertext
    r) (u_mfa_secret_nonce r) (u_mfa_enabled r) (u_mfa_pending_started_at r)
    (u_mfa_pending_session_hash r) (u_balance r) v (u_payup_enabled r)
    (u_transfer_activity_email_enabled r) (u_local_transfer_daily_limit r) (u_is_frozen r)
    (u_failed_login_count r) (u_security_locked_at r) (u_security_lock_reason r) (u_created_at
    r) (u_updated_at r) (u_last_login_at r).
Definition set_u_local_transfer_daily_limit (v : Z) (r : User) : User :=
  mkUser (u_username r) (u_email r) (u_registration_email_canonical r) (u_password_hash r)
    (u_account_type r) (u_account_status r) (u_full_name r) (u_phone_number r)
    (u_payup_nickname r) (u_account_number r) (u_staff_personal_email r)
    (u_workplace_email_verified_at r) (u_password_changed_at r) (u_force_password_change r)
    (u_force_password_change_reason r) (u_force_password_change_at r) (u_mfa_secret_ciphertext
    r) (u_mfa_secret_nonce r) (u_mfa_enabled r) (u_mfa_pending_started_at r)
    (u_mfa_pending_session_hash r) (u_balance r) (u_payup_daily_limit r) (u_payup_enabled r)
    (u_transfer_activity_email_enabled r) v (u_is_frozen r) (u_failed_login_count r)
    (u_security_locked_at r) (u_security_lock_reason r) (u_created_at r) (u_updated_at r)
    (u_last_login_at r).
Definition set_u_payup_nickname (v : option string) (r : User) : User :=
  mkUser (u_username r) (u_email r) (u_registration_email_canonical r) (u_password_hash r)
    (u_account_type r) (u_account_status r) (u_full_name r) (u_phone_number r) v
    (u_account_number r) (u_staff_personal_email r) (u_workplace_email_verified_at r)
    (u_password_changed_at r) (u_force_password_change r) (u_force_password_change_reason r)
    (u_force_password_change_at r) (u_mfa_secret_ciphertext r) (u_mfa_secret_nonce r)
    (u_mfa_enabled r) (u_mfa_pending_started_at r) (u_mfa_pending_session_hash r) (u_balance
    r) (u_payup_daily_limit r) (u_payup_enabled r) (u_transfer_activity_email_enabled r)
    (u_local_transfer_daily_limit r) (u_is_frozen r) (u_failed_login_count r)
    (u_security_locked_at r) (u_security_lock_reason r) (u_created_at r) (u_updated_at r)
    (u_last_login_at r).
Definition set_u_is_frozen (v : bool) (r : User) : User :=
  mkUser (u_username r) (u_email r) (u_registration_email_canonical r) (u_password_hash r)
    (u_account_type r) (u_account_status r) (u_full_name r) (u_phone_number r)
    (u_payup_nickname r) (u_account_number r) (u_staff_personal_email r)
    (u_workplace_email_verified_at r) (u_password_changed_at r) (u_force_password_change r)
    (u_force_password_change_reason r) (u_force_password_change_at r) (u_mfa_secret_ciphertext
    r) (u_mfa_secret_nonce r) (u_mfa_enabled r) (u_mfa_pending_started_at r)
    (u_mfa_pending_session_hash r) (u_balance r) (u_payup_daily_limit r) (u_payup_enabled r)
    (u_transfer_activity_email_enabled r) (u_local_transfer_daily_limit r) v
    (u_failed_login_count r) (u_security_locked_at r) (u_security_lock_reason r) (u_created_at
    r) (u_updated_at r) (u_last_login_at r).
Definition set_u_security_locked_at (v : option Z) (r : User) : User :=
  mkUser (u_username r) (u_email r) (u_registration_email_canonical r) (u_password_hash r)
    (u_account_type r) (u_account_status r) (u_full_name r) (u_phone_number r)
    (u_payup_nickname r) (u_account_number r) (u_staff_personal_email r)
    (u_workplace_email_verified_at r) (u_password_changed_at r) (u_force_password_change r)
    (u_force_password_change_reason r) (u_force_password_change_at r) (u_mfa_secret_ciphertext
    r) (u_mfa_secret_nonce r) (u_mfa_enabled r) (u_mfa_pending_started_at r)
    (u_mfa_pending_session_hash r) (u_balance r) (u_payup_daily_limit r) (u_payup_enabled r)
    (u_transfer_activity_email_enabled r) (u_local_transfer_daily_limit r) (u_is_frozen r)
    (u_failed_login_count r) v (u_security_lock_reason r) (u_created_at r) (u_updated_at r)
    (u_last_login_at r).
Definition set_u_security_lock_reason (v : option string) (r : User) : User :=
  mkUser (u_username r) (u_email r) (u_registration_email_canonical r) (u_password_hash r)
    (u_account_type r) (u_account_status r) (u_full_name r) (u_phone_number r)
    (u_payup_nickname r) (u_account_number r) (u_staff_personal_email r)
    (u_workplace_email_verified_at r) (u_password_changed_at r) (u_force_password_change r)
    (u_force_password_change_reason r) (u_force_password_change_at r) (u_mfa_secret_ciphertext
    r) (u_mfa_secret_nonce r) (u_mfa_enabled r) (u_mfa_pending_started_at r)
    (u_mfa_pending_session_hash r) (u_balance r) (u_payup_daily_limit r) (u_payup_enabled r)
    (u_transfer_activity_email_enabled r) (u_local_transfer_daily_limit r) (u_is_frozen r)
    (u_failed_login_count r) (u_security_locked_at r) v (u_created_at r) (u_updated_at r)
    (u_last_login_at r).
Definition set_u_failed_login_count (v : Z) (r : User) : User :=
  mkUser (u_username r) (u_email r) (u_registration_email_canonical r) (u_password_hash r)
    (u_account_type r) (u_account_status r) (u_full_name r) (u_phone_number r)
    (u_payup_nickname r) (u_account_number r) (u_staff_personal_email r)
    (u_workplace_email_verified_at r) (u_password_changed_at r) (u_force_password_change r)
    (u_force_password_change_reason r) (u_force_password_change_at r) (u_mfa_secret_ciphertext
    r) (u_mfa_secret_nonce r) (u_mfa_enabled r) (u_mfa_pending_started_at r)
    (u_mfa_pending_session_hash r) (u_balance r) (u_payup_daily_limit r) (u_payup_enabled r)
    (u_transfer_activity_email_enabled r) (u_local_transfer_daily_limit r) (u_is_frozen r) v
    (u_security_locked_at r) (u_security_lock_reason r) (u_created_at r) (u_updated_at r)
    (u_last_login_at r).
Definition set_u_email (v : string) (r : User) : User :=
  mkUser (u_username r) v (u_registration_email_canonical r) (u_password_hash r) (u_account_type r)
    (u_account_status r) (u_full_name r) (u_phone_number r) (u_payup_nickname r)
    (u_account_number r) (u_staff_personal_email r) (u_workplace_email_verified_at r)
    (u_password_changed_at r) (u_force_password_change r) (u_force_password_change_reason r)
    (u_force_password_change_at r) (u_mfa_secret_ciphertext r) (u_mfa_secret_nonce r)
    (u_mfa_enabled r) (u_mfa_pending_started_at r) (u_mfa_pending_session_hash r) (u_balance
    r) (u_payup_daily_limit r) (u_payup_enabled r) (u_transfer_activity_email_enabled r)
    (u_local_transfer_daily_limit r) (u_is_frozen r) (u_failed_login_count r)
    (u_security_locked_at r) (u_security_lock_reason r) (u_created_at r) (u_updated_at r)
    (u_last_login_at r).
Definition set_u_registration_email_canonical (v : option string) (r : User) : User :=
  mkUser (u_username r) (u_email r) v (u_password_hash r) (u_account_type r) (u_account_status r)
    (u_full_name r) (u_phone_number r) (u_payup_nickname r) (u_account_number r)
    (u_staff_personal_email r) (u_workplace_email_verified_at r) (u_password_changed_at r)
    (u_force_password_change r) (u_force_password_change_reason r) (u_force_password_change_at
    r) (u_mfa_secret_ciphertext r) (u_mfa_secret_nonce r) (u_mfa_enabled r)
    (u_mfa_pending_started_at r) (u_mfa_pending_session_hash r) (u_balance r)
    (u_payup_daily_limit r) (u_payup_enabled r) (u_transfer_activity_email_enabled r)
    (u_local_transfer_daily_limit r) (u_is_frozen r) (u_failed_login_count r)
    (u_security_locked_at r) (u_security_lock_reason r) (u_created_at r) (u_updated_at r)
    (u_last_login_at r).
Definition set_u_phone_number (v : option string) (r : User) : User :=
  mkUser (u_username r) (u_email r) (u_registration_email_canonical r) (u_password_hash r)
    (u_account_type r) (u_account_status r) (u_full_name r) v (u_payup_nickname r)
    (u_account_number r) (u_staff_personal_email r) (u_workplace_email_verified_at r)
    (u_password_changed_at r) (u_force_password_change r) (u_force_password_change_reason r)
    (u_force_password_change_at r) (u_mfa_secret_ciphertext r) (u_mfa_secret_nonce r)
    (u_mfa_enabled r) (u_mfa_pending_started_at r) (u_mfa_pending_session_hash r) (u_balance
    r) (u_payup_daily_limit r) (u_payup_enabled r) (u_transfer_activity_email_enabled r)
    (u_local_transfer_daily_limit r) (u_is_frozen r) (u_failed_login_count r)
    (u_security_locked_at r) (u_security_lock_reason r) (u_created_at r) (u_updated_at r)
    (u_last_login_at r).
Definition set_u_password_hash (v : string) (r : User) : User :=
  mkUser (u_username r) (u_email r) (u_registration_email_canonical r) v (u_account_type r)
    (u_account_status r) (u_full_name r) (u_phone_number r) (u_payup_nickname r)
    (u_account_number r) (u_staff_personal_email r) (u_workplace_email_verified_at r)
    (u_password_changed_at r) (u_force_password_change r) (u_force_password_change_reason r)
    (u_force_password_change_at r) (u_mfa_secret_ciphertext r) (u_mfa_secret_nonce r)
    (u_mfa_enabled r) (u_mfa_pending_started_at r) (u_mfa_pending_session_hash r) (u_balance
    r) (u_payup_daily_limit r) (u_payup_enabled r) (u_transfer_activity_email_enabled r)
    (u_local_transfer_daily_limit r) (u_is_frozen r) (u_failed_login_count r)
    (u_security_locked_at r) (u_security_lock_reason r) (u_created_at r) (u_updated_at r)
    (u_last_login_at r).
Definition set_u_password_changed_at (v : Z) (r : User) : User :=
  mkUser (u_username r) (u_email r) (u_registration_email_canonical r) (u_password_hash r)
    (u_account_type r) (u_account_status r) (u_full_name r) (u_phone_number r)
    (u_payup_nickname r) (u_account_number r) (u_staff_personal_email r)
    (u_workplace_email_verified_at r) v (u_force_password_change r)
    (u_force_password_change_reason r) (u_force_password_change_at r) (u_mfa_secret_ciphertext
    r) (u_mfa_secret_nonce r) (u_mfa_enabled r) (u_mfa_pending_started_at r)
    (u_mfa_pending_session_hash r) (u_balance r) (u_payup_daily_limit r) (u_payup_enabled r)
    (u_transfer_activity_email_enabled r) (u_local_transfer_daily_limit r) (u_is_frozen r)
    (u_failed_login_count r) (u_security_locked_at r) (u_security_lock_reason r) (u_created_at
    r) (u_updated_at r) (u_last_login_at r).
Definition set_u_force_password_change (v : bool) (r : User) : User :=
  mkUser (u_username r) (u_email r) (u_registration_email_canonical r) (u_password_hash r)
    (u_account_type r) (u_account_status r) (u_full_name r) (u_phone_number r)
    (u_payup_nickname r) (u_account_number r) (u_staff_personal_email r)
    (u_workplace_email_verified_at r) (u_password_changed_at r) v
    (u_force_password_change_reason r) (u_force_password_change_at r) (u_mfa_secret_ciphertext
    r) (u_mfa_secret_nonce r) (u_mfa_enabled r) (u_mfa_pending_started_at r)
    (u_mfa_pending_session_hash r) (u_balance r) (u_payup_daily_limit r) (u_payup_enabled r)
    (u_transfer_activity_email_enabled r) (u_local_transfer_daily_limit r) (u_is_frozen r)
    (u_failed_login_count r) (u_security_locked_at r) (u_security_lock_reason r) (u_created_at
    r) (u_updated_at r) (u_last_login_at r).
Definition set_u_force_password_change_reason (v : option string) (r : User) : User :=
  mkUser (u_username r) (u_email r) (u_registration_email_canonical r) (u_password_hash r)
    (u_account_type r) (u_account_status r) (u_full_name r) (u_phone_number r)
    (u_payup_nickname r) (u_account_number r) (u_staff_personal_email r)
    (u_workplace_email_verified_at r) (u_password_changed_at r) (u_force_password_change r) v
    (u_force_password_change_at r) (u_mfa_secret_ciphertext r) (u_mfa_secret_nonce r)
    (u_mfa_enabled r) (u_mfa_pending_started_at r) (u_mfa_pending_session_hash r) (u_balance
    r) (u_payup_daily_limit r) (u_payup_enabled r) (u_transfer_activity_email_enabled r)
    (u_local_transfer_daily_limit r) (u_is_frozen r) (u_failed_login_count r)
    (u_security_locked_at r) (u_security_lock_reason r) (u_created_at r) (u_updated_at r)
    (u_last_login_at r).
Definition set_u_force_password_change_at (v : option Z) (r : User) : User :=
  mkUser (u_username r) (u_email r) (u_registration_email_canonical r) (u_password_hash r)
    (u_account_type r) (u_account_status r) (u_full_name r) (u_phone_number r)
    (u_payup_nickname r) (u_account_number r) (u_staff_personal_email r)
    (u_workplace_email_verified_at r) (u_password_changed_at r) (u_force_password_change r)
    (u_force_password_change_reason r) v (u_mfa_secret_ciphertext r) (u_mfa_secret_nonce r)
    (u_mfa_enabled r) (u_mfa_pending_started_at r) (u_mfa_pending_session_hash r) (u_balance
    r) (u_payup_daily_limit r) (u_payup_enabled r) (u_transfer_activity_email_enabled r)
    (u_local_transfer_daily_limit r) (u_is_frozen r) (u_failed_login_count r)
    (u_security_locked_at r) (u_security_lock_reason r) (u_created_at r) (u_updated_at r)
    (u_last_login_at r).
Definition set_u_mfa_secret_ciphertext (v : option string) (r : User) : User :=
  mkUser (u_username r) (u_email r) (u_registration_email_canonical r) (u_password_hash r)
    (u_account_type r) (u_account_status r) (u_full_name r) (u_phone_number r)
    (u_payup_nickname r) (u_account_number r) (u_staff_personal_email r)
    (u_workplace_email_verified_at r) (u_password_changed_at r) (u_force_password_change r)
    (u_force_password_change_reason r) (u_force_password_change_at r) v (u_mfa_secret_nonce r)
    (u_mfa_enabled r) (u_mfa_pending_started_at r) (u_mfa_pending_session_hash r) (u_balance
    r) (u_payup_daily_limit r) (u_payup_enabled r) (u_transfer_activity_email_enabled r)
    (u_local_transfer_daily_limit r) (u_is_frozen r) (u_failed_login_count r)
    (u_security_locked_at r) (u_security_lock_reason r) (u_created_at r) (u_updated_at r)
    (u_last_login_at r).
Definition set_u_mfa_secret_nonce (v : option string) (r : User) : User :=
  mkUser (u_username r) (u_email r) (u_registration_email_canonical r) (u_password_hash r)
    (u_account_type r) (u_account_status r) (u_full_name r) (u_phone_number r)
    (u_payup_nickname r) (u_account_number r) (u_staff_personal_email r)
    (u_workplace_email_verified_at r) (u_password_changed_at r) (u_force_password_change r)
    (u_force_password_change_reason r) (u_force_password_change_at r) (u_mfa_secret_ciphertext
    r) v (u_mfa_enabled r) (u_mfa_pending_started_at r) (u_mfa_pending_session_hash r)
    (u_balance r) (u_payup_daily_limit r) (u_payup_enabled r)
    (u_transfer_activity_email_enabled r) (u_local_transfer_daily_limit r) (u_is_frozen r)
    (u_failed_login_count r) (u_security_locked_at r) (u_security_lock_reason r) (u_created_at
    r) (u_updated_at r) (u_last_login_at r).
Definition set_u_mfa_enabled (v : bool) (r : User) : User :=
  mkUser (u_username r) (u_email r) (u_registration_email_canonical r) (u_password_hash r)
    (u_account_type r) (u_account_status r) (u_full_name r) (u_phone_number r)
    (u_payup_nickname r) (u_account_number r) (u_staff_personal_email r)
    (u_workplace_email_verified_at r) (u_password_changed_at r) (u_force_password_change r)
    (u_force_password_change_reason r) (u_force_password_change_at r) (u_mfa_secret_ciphertext
    r) (u_mfa_secret_nonce r) v (u_mfa_pending_started_at r) (u_mfa_pending_session_hash r)
    (u_balance r) (u_payup_daily_limit r) (u_payup_enabled r)
    (u_transfer_activity_email_enabled r) (u_local_transfer_daily_limit r) (u_is_frozen r)
    (u_failed_login_count r) (u_security_locked_at r) (u_security_lock_reason r) (u_created_at
    r) (u_updated_at r) (u_last_login_at r).
Definition set_u_mfa_pending_started_at (v : option Z) (r : User) : User :=
  mkUser (u_username r) (u_email r) (u_registration_email_canonical r) (u_password_hash r)
    (u_account_type r) (u_account_status r) (u_full_name r) (u_phone_number r)
    (u_payup_nickname r) (u_account_number r) (u_staff_personal_email r)
    (u_workplace_email_verified_at r) (u_password_changed_at r) (u_force_password_change r)
    (u_force_password_change_reason r) (u_force_password_change_at r) (u_mfa_secret_ciphertext
    r) (u_mfa_secret_nonce r) (u_mfa_enabled r) v (u_mfa_pending_session_hash r) (u_balance r)
    (u_payup_daily_limit r) (u_payup_enabled r) (u_transfer_activity_email_enabled r)
    (u_local_transfer_daily_limit r) (u_is_frozen r) (u_failed_login_count r)
    (u_security_locked_at r) (u_security_lock_reason r) (u_created_at r) (u_updated_at r)
    (u_last_login_at r).
Definition set_u_mfa_pending_session_hash (v : option string) (r : User) : User :=
  mkUser (u_username r) (u_email r) (u_registration_email_canonical r) (u_password_hash r)
    (u_account_type r) (u_account_status r) (u_full_name r) (u_phone_number r)
    (u_payup_nickname r) (u_account_number r) (u_staff_personal_email r)
    (u_workplace_email_verified_at r) (u_password_changed_at r) (u_force_password_change r)
    (u_force_password_change_reason r) (u_force_password_change_at r) (u_mfa_secret_ciphertext
    r) (u_mfa_secret_nonce r) (u_mfa_enabled r) (u_mfa_pending_started_at r) v (u_balance r)
    (u_payup_daily_limit r) (u_payup_enabled r) (u_transfer_activity_email_enabled r)
    (u_local_transfer_daily_limit r) (u_is_frozen r) (u_failed_login_count r)
    (u_security_locked_at r) (u_security_lock_reason r) (u_created_at r) (u_updated_at r)
    (u_last_login_at r).
Definition set_u_last_login_at (v : option Z) (r : User) : User :=
  mkUser (u_username r) (u_email r) (u_registration_email_canonical r) (u_password_hash r)
    (u_account_type r) (u_account_status r) (u_full_name r) (u_phone_number r)
    (u_payup_nickname r) (u_account_number r) (u_staff_personal_email r)
    (u_workplace_email_verified_at r) (u_password_changed_at r) (u_force_password_change r)
    (u_force_password_change_reason r) (u_force_password_change_at r) (u_mfa_secret_ciphertext
    r) (u_mfa_secret_nonce r) (u_mfa_enabled r) (u_mfa_pending_started_at r)
    (u_mfa_pending_session_hash r) (u_balance r) (u_payup_daily_limit r) (u_payup_enabled r)
    (u_transfer_activity_email_enabled r) (u_local_transfer_daily_limit r) (u_is_frozen r)
    (u_failed_login_count r) (u_security_locked_at r) (u_security_lock_reason r) (u_created_at
    r) (u_updated_at r) v.
Definition set_u_full_name (v : string) (r : User) : User :=
  mkUser (u_username r) (u_email r) (u_registration_email_canonical r) (u_password_hash r)
    (u_account_type r) (u_account_status r) v (u_phone_number r) (u_payup_nickname r)
    (u_account_number r) (u_staff_personal_email r) (u_workplace_email_verified_at r)
    (u_password_changed_at r) (u_force_password_change r) (u_force_password_change_reason r)
    (u_force_password_change_at r) (u_mfa_secret_ciphertext r) (u_mfa_secret_nonce r)
    (u_mfa_enabled r) (u_mfa_pending_started_at r) (u_mfa_pending_session_hash r) (u_balance
    r) (u_payup_daily_limit r) (u_payup_enabled r) (u_transfer_activity_email_enabled r)
    (u_local_transfer_daily_limit r) (u_is_frozen r) (u_failed_login_count r)
    (u_security_locked_at r) (u_security_lock_reason r) (u_created_at r) (u_updated_at r)
    (u_last_login_at r).
Definition set_u_staff_personal_email (v : option string) (r : User) : User :=
  mkUser (u_username r) (u_email r) (u_registration_email_canonical r) (u_password_hash r)
    (u_account_type r) (u_account_status r) (u_full_name r) (u_phone_number r)
    (u_payup_nickname r) (u_account_number r) v (u_workplace_email_verified_at r)
    (u_password_changed_at r) (u_force_password_change r) (u_force_password_change_reason r)
    (u_force_password_change_at r) (u_mfa_secret_ciphertext r) (u_mfa_secret_nonce r)
    (u_mfa_enabled r) (u_mfa_pending_started_at r) (u_mfa_pending_session_hash r) (u_balance
    r) (u_payup_daily_limit r) (u_payup_enabled r) (u_transfer_activity_email_enabled r)
    (u_local_transfer_daily_limit r) (u_is_frozen r) (u_failed_login_count r)
    (u_security_locked_at r) (u_security_lock_reason r) (u_created_at r) (u_updated_at r)
    (u_last_login_at r).
Definition set_u_account_status (v : string) (r : User) : User :=
  mkUser (u_username r) (u_email r) (u_registration_email_canonical r) (u_password_hash r)
    (u_account_type r) v (u_full_name r) (u_phone_number r) (u_payup_nickname r)
    (u_account_number r) (u_staff_personal_email r) (u_workplace_email_verified_at r)
    (u_password_changed_at r) (u_force_password_change r) (u_force_password_change_reason r)
    (u_force_password_change_at r) (u_mfa_secret_ciphertext r) (u_mfa_secret_nonce r)
    (u_mfa_enabled r) (u_mfa_pending_started_at r) (u_mfa_pending_session_hash r) (u_balance
    r) (u_payup_daily_limit r) (u_payup_enabled r) (u_transfer_activity_email_enabled r)
    (u_local_transfer_daily_limit r) (u_is_frozen r) (u_failed_login_count r)
    (u_security_locked_at r) (u_security_lock_reason r) (u_created_at r) (u_updated_at r)
    (u_last_login_at r).
Definition set_u_workplace_email_verified_at (v : option Z) (r : User) : User :=
  mkUser (u_username r) (u_email r) (u_registration_email_canonical r) (u_password_hash r)
    (u_account_type r) (u_account_status r) (u_full_name r) (u_phone_number r)
    (u_payup_nickname r) (u_account_number r) (u_staff_personal_email r) v
    (u_password_changed_at r) (u_force_password_change r) (u_force_password_change_reason r)
    (u_force_password_change_at r) (u_mfa_secret_ciphertext r) (u_mfa_secret_nonce r)
    (u_mfa_enabled r) (u_mfa_pending_started_at r) (u_mfa_pending_session_hash r) (u_balance
    r) (u_payup_daily_limit r) (u_payup_enabled r) (u_transfer_activity_email_enabled r)
    (u_local_transfer_daily_limit r) (u_is_frozen r) (u_failed_login_count r)
    (u_security_locked_at r) (u_security_lock_reason r) (u_created_at r) (u_updated_at r)
    (u_last_login_at r).

(** A row of [recovery_codes]. *)
Record RecoveryCode : Type := mkRecoveryCode {
  rc_user_id : Z;
  rc_code_hmac : string;
  rc_hmac_version : Z;
  rc_purpose : string;
  rc_created_at : Z;
  rc_used_at : option Z
}.

Definition set_rc_used_at (v : option Z) (r : RecoveryCode) : RecoveryCode :=
  mkRecoveryCode (rc_user_id r) (rc_code_hmac r) (rc_hmac_version r) (rc_purpose r) (rc_created_at r) v.

(** A row of [server_side_sessions]; the payload is opaque. *)
Record ServerSideSession : Type := mkServerSideSession {
  ss_component : string;
  ss_session_lookup_hash : string;
  ss_session_ref : option string;
  ss_payload : option string;
  ss_payload_format : string;
  ss_user_id : option Z;
  ss_created_at : Z;
  ss_last_activity_at : Z;
  ss_expires_at : Z;
  ss_revoked_at : option Z;
  ss_ended_at : option Z;
  ss_ended_reason : option string;
  ss_ip_address : string;
  ss_user_agent : string;
  ss_risk_fingerprint : string
}.

Definition set_ss_user_id (v : option Z) (r : ServerSideSession) : ServerSideSession :=
  mkServerSideSession (ss_component r) (ss_session_lookup_hash r) (ss_session_ref r) (ss_payload r)
    (ss_payload_format r) v (ss_created_at r) (ss_last_activity_at r) (ss_expires_at r)
    (ss_revoked_at r) (ss_ended_at r) (ss_ended_reason r) (ss_ip_address r) (ss_user_agent r)
    (ss_risk_fingerprint r).
Definition set_ss_risk_fingerprint (v : string) (r : ServerSideSession) : ServerSideSession :=
  mkServerSideSession (ss_component r) (ss_session_lookup_hash r) (ss_session_ref r) (ss_payload r)
    (ss_payload_format r) (ss_user_id r) (ss_created_at r) (ss_last_activity_at r)
    (ss_expires_at r) (ss_revoked_at r) (ss_ended_at r) (ss_ended_reason r) (ss_ip_address r)
    (ss_user_agent r) v.

(** A row of [auth_attempt_counters]. *)
Record AuthAttemptCounter : Type := mkAuthAttemptCounter {
  ac_scope : string;
  ac_principal_hash : string;
  ac_user_id : option Z;
  ac_ip_hash : option string;
  ac_failure_count : Z;
  ac_window_started_at : Z;
  ac_window_expires_at : Z;
  ac_locked_until : option Z;
  ac_last_failed_at : option Z;
  ac_created_at : Z;
  ac_updated_at : Z
}.

Definition set_ac_user_id (v : option Z) (r : AuthAttemptCounter) : AuthAttemptCounter :=
  mkAuthAttemptCounter (ac_scope r) (ac_principal_hash r) v (ac_ip_hash r) (ac_failure_count r)
    (ac_window_started_at r) (ac_window_expires_at r) (ac_locked_until r) (ac_last_failed_at
    r) (ac_created_at r) (ac_updated_at r).
Definition set_ac_failure_count (v : Z) (r : AuthAttemptCounter) : AuthAttemptCounter :=
  mkAuthAttemptCounter (ac_scope r) (ac_principal_hash r) (ac_user_id r) (ac_ip_hash r) v (ac_window_started_at
    r) (ac_window_expires_at r) (ac_locked_until r) (ac_last_failed_at r) (ac_created_at r)
    (ac_updated_at r).
Definition set_ac_window_expires_at (v : Z) (r : AuthAttemptCounter) : AuthAttemptCounter :=
  mkAuthAttemptCounter (ac_scope r) (ac_principal_hash r) (ac_user_id r) (ac_ip_hash r) (ac_failure_count r)
    (ac_window_started_at r) v (ac_locked_until r) (ac_last_failed_at r) (ac_created_at r)
    (ac_updated_at r).
Definition set_ac_last_failed_at (v : option Z) (r : AuthAttemptCounter) : AuthAttemptCounter :=
  mkAuthAttemptCounter (ac_scope r) (ac_principal_hash r) (ac_user_id r) (ac_ip_hash r) (ac_failure_count r)
    (ac_window_started_at r) (ac_window_expires_at r) (ac_locked_until r) v (ac_created_at r)
    (ac_updated_at r).
Definition set_ac_updated_at (v : Z) (r : AuthAttemptCounter) : AuthAttemptCounter :=
  mkAuthAttemptCounter (ac_scope r) (ac_principal_hash r) (ac_user_id r) (ac_ip_hash r) (ac_failure_count r)
    (ac_window_started_at r) (ac_window_expires_at r) (ac_locked_until r) (ac_last_failed_at
    r) (ac_created_at r) v.

(** A row of [totp_replay_records]. *)
Record TotpReplayRecord : Type := mkTotpReplayRecord {
  tr_user_id : Z;
  tr_scope : string;
  tr_time_step : Z;
  tr_code_digest : string;
  tr_expires_at : Z;
  tr_created_at : Z
}.


(** A row of [security_audit_events]; [ev_id] is the primary key. *)
Record SecurityAuditEvent : Type := mkSecurityAuditEvent {
  ev_id : Z;
  ev_event_type : string;
  ev_outcome : string;
  ev_user_id : option Z;
  ev_ip_address : string;
  ev_user_agent : string;
  ev_correlation_id : string;
  ev_session_ref : option string;
  ev_event_metadata : list (string * jval);
  ev_previous_event_hash : option string;
  ev_event_hash : option string;
  ev_hash_algorithm : option string;
  ev_created_at : Z
}.

Definition set_ev_event_hash (v : option string) (r : SecurityAuditEvent) : SecurityAuditEvent :=
  mkSecurityAuditEvent (ev_id r) (ev_event_type r) (ev_outcome r) (ev_user_id r) (ev_ip_address r) (ev_user_agent
    r) (ev_correlation_id r) (ev_session_ref r) (ev_event_metadata r) (ev_previous_event_hash
    r) v (ev_hash_algorithm r) (ev_created_at r).

(** A row of [payees]. *)
Record Payee : Type := mkPayee {
  py_user_id : Z;
  py_nickname : string;
  py_account_number : string;
  py_recipient_name : string;
  py_created_at : Z
}.


(** A row of [transactions]; [tx_amount] is in cents. *)
Record Transaction : Type := mkTransaction {
  tx_transaction_ref : string;
  tx_transaction_hash : string;
  tx_transaction_integrity_key_id : option string;
  tx_transaction_integrity_algorithm : option string;
  tx_transaction_integrity_version : option Z;
  tx_sender_id : Z;
  tx_recipient_id : Z;
  tx_payee_id : option Z;
  tx_amount : Z;
  tx_reference : string;
  tx_status : string;
  tx_transaction_type : string;
  tx_created_at : Z
}.

Definition set_tx_payee_id (v : option Z) (r : Transaction) : Transaction :=
  mkTransaction (tx_transaction_ref r) (tx_transaction_hash r) (tx_transaction_integrity_key_id r)
    (tx_transaction_integrity_algorithm r) (tx_transaction_integrity_version r) (tx_sender_id
    r) (tx_recipient_id r) v (tx_amount r) (tx_reference r) (tx_status r) (tx_transaction_type
    r) (tx_created_at r).

(** The columns [RegistrationCredit] and [TopUpCredit] share. *)
Record CreditLedgerRow : Type := mkCreditLedgerRow {
  cr_credit_ref : string;
  cr_credit_hash : string;
  cr_credit_integrity_key_id : option string;
  cr_credit_integrity_algorithm : option string;
  cr_credit_integrity_version : option Z;
  cr_user_id : Z;
  cr_amount : Z;
  cr_status : string;
  cr_created_at : Z
}.


(** A row of [topup_approval_requests]. *)
Record TopUpApprovalRequest : Type := mkTopUpApprovalRequest {
  tu_selector : string;
  tu_verifier_hmac : string;
  tu_user_id : Z;
  tu_amount : Z;
  tu_status : string;
  tu_failure_count : Z;
  tu_expires_at : Z;
  tu_approved_at : option Z;
  tu_credit_ref : option string;
  tu_created_at : Z
}.

Definition set_tu_status (v : string) (r : TopUpApprovalRequest) : TopUpApprovalRequest :=
  mkTopUpApprovalRequest (tu_selector r) (tu_verifier_hmac r) (tu_user_id r) (tu_amount r) v (tu_failure_count r)
    (tu_expires_at r) (tu_approved_at r) (tu_credit_ref r) (tu_created_at r).
Definition set_tu_failure_count (v : Z) (r : TopUpApprovalRequest) : TopUpApprovalRequest :=
  mkTopUpApprovalRequest (tu_selector r) (tu_verifier_hmac r) (tu_user_id r) (tu_amount r) (tu_status r) v
    (tu_expires_at r) (tu_approved_at r) (tu_credit_ref r) (tu_created_at r).
Definition set_tu_approved_at (v : option Z) (r : TopUpApprovalRequest) : TopUpApprovalRequest :=
  mkTopUpApprovalRequest (tu_selector r) (tu_verifier_hmac r) (tu_user_id r) (tu_amount r) (tu_status r)
    (tu_failure_count r) (tu_expires_at r) v (tu_credit_ref r) (tu_created_at r).
Definition set_tu_credit_ref (v : option string) (r : TopUpApprovalRequest) : TopUpApprovalRequest :=
  mkTopUpApprovalRequest (tu_selector r) (tu_verifier_hmac r) (tu_user_id r) (tu_amount r) (tu_status r)
    (tu_failure_count r) (tu_expires_at r) (tu_approved_at r) v (tu_created_at r).

(** A row of [public_transaction_idempotency]. *)
Record PublicTransactionIdempotency : Type := mkPublicTransactionIdempotency {
  pi_user_id : Z;
  pi_hmac_key_id : string;
  pi_key_fingerprint : string;
  pi_key_verifier : string;
  pi_payload_verifier : string;
  pi_status : string;
  pi_result_reference : option string;
  pi_created_at : Z;
  pi_updated_at : Z;
  pi_expires_at : Z
}.


(** A row of [pending_transfers]; the amount column is [Numeric(12, 5)], so it is
    kept in units of 10^-5 dollars. *)
Record PendingTransfer : Type := mkPendingTransfer {
  pt_token : string;
  pt_amount : Z;
  pt_reference : string;
  pt_expires_at : Z;
  pt_consumed_at : option Z;
  pt_consumed_transaction_ref : option string;
  pt_created_at : Z;
  pt_user_id : Z;
  pt_payee_id : Z
}.

Definition set_pt_consumed_at (v : option Z) (r : PendingTransfer) : PendingTransfer :=
  mkPendingTransfer (pt_token r) (pt_amount r) (pt_reference r) (pt_expires_at r) v
    (pt_consumed_transaction_ref r) (pt_created_at r) (pt_user_id r) (pt_payee_id r).
Definition set_pt_consumed_transaction_ref (v : option string) (r : PendingTransfer) : PendingTransfer :=
  mkPendingTransfer (pt_token r) (pt_amount r) (pt_reference r) (pt_expires_at r) (pt_consumed_at r) v
    (pt_created_at r) (pt_user_id r) (pt_payee_id r).

(** A row of [payup_pending_transfers]; amounts as in [PendingTransfer]. *)
Record PayupPendingTransfer : Type := mkPayupPendingTransfer {
  pp_token : string;
  pp_amount : Z;
  pp_reference : string;
  pp_expires_at : Z;
  pp_consumed_at : option Z;
  pp_consumed_transaction_ref : option string;
  pp_created_at : Z;
  pp_user_id : Z;
  pp_recipient_user_id : Z
}.

Definition set_pp_consumed_at (v : option Z) (r : PayupPendingTransfer) : PayupPendingTransfer :=
  mkPayupPendingTransfer (pp_token r) (pp_amount r) (pp_reference r) (pp_expires_at r) v
    (pp_consumed_transaction_ref r) (pp_created_at r) (pp_user_id r) (pp_recipient_user_id r).
Definition set_pp_consumed_transaction_ref (v : option string) (r : PayupPendingTransfer) : PayupPendingTransfer :=
  mkPayupPendingTransfer (pp_token r) (pp_amount r) (pp_reference r) (pp_expires_at r) (pp_consumed_at r) v
    (pp_created_at r) (pp_user_id r) (pp_recipient_user_id r).

(** A row of [password_history]. *)
Record PasswordHistory : Type := mkPasswordHistory {
  ph_user_id : Z;
  ph_password_hash : string;
  ph_created_at : Z
}.


(** A row of [registration_otp_challenges]. *)
Record RegistrationOtpChallenge : Type := mkRegistrationOtpChallenge {
  ro_session_binding_hash : string;
  ro_email_hash : string;
  ro_otp_hmac : string;
  ro_attempt_count : Z;
  ro_resend_available_at : Z;
  ro_expires_at : Z;
  ro_used_at : option Z;
  ro_created_at : Z;
  ro_updated_at : Z
}.

Definition set_ro_attempt_count (v : Z) (r : RegistrationOtpChallenge) : RegistrationOtpChallenge :=
  mkRegistrationOtpChallenge (ro_session_binding_hash r) (ro_email_hash r) (ro_otp_hmac r) v (ro_resend_available_at r)
    (ro_expires_at r) (ro_used_at r) (ro_created_at r) (ro_updated_at r).
Definition set_ro_updated_at (v : Z) (r : RegistrationOtpChallenge) : RegistrationOtpChallenge :=
  mkRegistrationOtpChallenge (ro_session_binding_hash r) (ro_email_hash r) (ro_otp_hmac r) (ro_attempt_count r)
    (ro_resend_available_at r) (ro_expires_at r) (ro_used_at r) (ro_created_at r) v.

(** A row of [security_circuit_breakers]. *)
Record SecurityCircuitBreaker : Type := mkSecurityCircuitBreaker {
  cb_service_name : string;
  cb_state : string;
  cb_failure_count : Z;
  cb_opened_until : option Z;
  cb_last_failure_at : option Z;
  cb_last_success_at : option Z;
  cb_created_at : Z;
  cb_updated_at : Z
}.


(** A row of [security_alert_dedupe]. *)
Record SecurityAlertDedupe : Type := mkSecurityAlertDedupe {
  ad_dedupe_key_hash : string;
  ad_event_type : string;
  ad_first_seen_at : Z;
  ad_last_seen_at : Z;
  ad_expires_at : Z;
  ad_count : Z
}.


(** A row of [password_reset_tokens]. *)
Record PasswordResetToken : Type := mkPasswordResetToken {
  prt_selector : string;
  prt_verifier_hmac : string;
  prt_user_id : Z;
  prt_purpose : string;
  prt_created_at : Z;
  prt_expires_at : Z;
  prt_used_at : option Z;
  prt_exchanged_at : option Z;
  prt_requested_ip : string;
  prt_requested_user_agent : string
}.

Definition set_prt_used_at (v : option Z) (r : PasswordResetToken) : PasswordResetToken :=
  mkPasswordResetToken (prt_selector r) (prt_verifier_hmac r) (prt_user_id r) (prt_purpose r) (prt_created_at r)
    (prt_expires_at r) v (prt_exchanged_at r) (prt_requested_ip r) (prt_requested_user_agent
    r).
Definition set_prt_exchanged_at (v : option Z) (r : PasswordResetToken) : PasswordResetToken :=
  mkPasswordResetToken (prt_selector r) (prt_verifier_hmac r) (prt_user_id r) (prt_purpose r) (prt_created_at r)
    (prt_expires_at r) (prt_used_at r) v (prt_requested_ip r) (prt_requested_user_agent r).

(** A row of [password_reset_transactions]. *)
Record PasswordResetTransaction : Type := mkPasswordResetTransaction {
  prx_transaction_lookup_hash : string;
  prx_token_id : Z;
  prx_user_id : Z;
  prx_purpose : string;
  prx_mfa_required : string;
  prx_available_mfa_methods : list string;
  prx_preferred_mfa_method : option string;
  prx_default_mfa_method : option string;
  prx_mfa_verified : bool;
  prx_recovery_code_verified : bool;
  prx_no_mfa_user : bool;
  prx_failure_count : Z;
  prx_last_failure_reason : option string;
  prx_mfa_verified_at : option Z;
  prx_expires_at : Z;
  prx_used_at : option Z;
  prx_created_at : Z;
  prx_updated_at : Z
}.

Definition set_prx_mfa_verified (v : bool) (r : PasswordResetTransaction) : PasswordResetTransaction :=
  mkPasswordResetTransaction (prx_transaction_lookup_hash r) (prx_token_id r) (prx_user_id r) (prx_purpose r)
    (prx_mfa_required r) (prx_available_mfa_methods r) (prx_preferred_mfa_method r)
    (prx_default_mfa_method r) v (prx_recovery_code_verified r) (prx_no_mfa_user r)
    (prx_failure_count r) (prx_last_failure_reason r) (prx_mfa_verified_at r) (prx_expires_at
    r) (prx_used_at r) (prx_created_at r) (prx_updated_at r).
Definition set_prx_recovery_code_verified (v : bool) (r : PasswordResetTransaction) : PasswordResetTransaction :=
  mkPasswordResetTransaction (prx_transaction_lookup_hash r) (prx_token_id r) (prx_user_id r) (prx_purpose r)
    (prx_mfa_required r) (prx_available_mfa_methods r) (prx_preferred_mfa_method r)
    (prx_default_mfa_method r) (prx_mfa_verified r) v (prx_no_mfa_user r) (prx_failure_count
    r) (prx_last_failure_reason r) (prx_mfa_verified_at r) (prx_expires_at r) (prx_used_at r)
    (prx_created_at r) (prx_updated_at r).
Definition set_prx_failure_count (v : Z) (r : PasswordResetTransaction) : PasswordResetTransaction :=
  mkPasswordResetTransaction (prx_transaction_lookup_hash r) (prx_token_id r) (prx_user_id r) (prx_purpose r)
    (prx_mfa_required r) (prx_available_mfa_methods r) (prx_preferred_mfa_method r)
    (prx_default_mfa_method r) (prx_mfa_verified r) (prx_recovery_code_verified r)
    (prx_no_mfa_user r) v (prx_last_failure_reason r) (prx_mfa_verified_at r) (prx_expires_at
    r) (prx_used_at r) (prx_created_at r) (prx_updated_at r).
Definition set_prx_last_failure_reason (v : option string) (r : PasswordResetTransaction) : PasswordResetTransaction :=
  mkPasswordResetTransaction (prx_transaction_lookup_hash r) (prx_token_id r) (prx_user_id r) (prx_purpose r)
    (prx_mfa_required r) (prx_available_mfa_methods r) (prx_preferred_mfa_method r)
    (prx_default_mfa_method r) (prx_mfa_verified r) (prx_recovery_code_verified r)
    (prx_no_mfa_user r) (prx_failure_count r) v (prx_mfa_verified_at r) (prx_expires_at r)
    (prx_used_at r) (prx_created_at r) (prx_updated_at r).
Definition set_prx_mfa_verified_at (v : option Z) (r : PasswordResetTransaction) : PasswordResetTransaction :=
  mkPasswordResetTransaction (prx_transaction_lookup_hash r) (prx_token_id r) (prx_user_id r) (prx_purpose r)
    (prx_mfa_required r) (prx_available_mfa_methods r) (prx_preferred_mfa_method r)
    (prx_default_mfa_method r) (prx_mfa_verified r) (prx_recovery_code_verified r)
    (prx_no_mfa_user r) (prx_failure_count r) (prx_last_failure_reason r) v (prx_expires_at r)
    (prx_used_at r) (prx_created_at r) (prx_updated_at r).
Definition set_prx_used_at (v : option Z) (r : PasswordResetTransaction) : PasswordResetTransaction :=
  mkPasswordResetTransaction (prx_transaction_lookup_hash r) (prx_token_id r) (prx_user_id r) (prx_purpose r)
    (prx_mfa_required r) (prx_available_mfa_methods r) (prx_preferred_mfa_method r)
    (prx_default_mfa_method r) (prx_mfa_verified r) (prx_recovery_code_verified r)
    (prx_no_mfa_user r) (prx_failure_count r) (prx_last_failure_reason r) (prx_mfa_verified_at
    r) (prx_expires_at r) v (prx_created_at r) (prx_updated_at r).
Definition set_prx_updated_at (v : Z) (r : PasswordResetTransaction) : PasswordResetTransaction :=
  mkPasswordResetTransaction (prx_transaction_lookup_hash r) (prx_token_id r) (prx_user_id r) (prx_purpose r)
    (prx_mfa_required r) (prx_available_mfa_methods r) (prx_preferred_mfa_method r)
    (prx_default_mfa_method r) (prx_mfa_verified r) (prx_recovery_code_verified r)
    (prx_no_mfa_user r) (prx_failure_count r) (prx_last_failure_reason r) (prx_mfa_verified_at
    r) (prx_expires_at r) (prx_used_at r) (prx_created_at r) v.

(** A row of [manual_recovery_requests]. *)
Record ManualRecoveryRequest : Type := mkManualRecoveryRequest {
  mr_identifier_ref : string;
  mr_user_id : option Z;
  mr_reason : option string;
  mr_status : string;
  mr_requested_ip : string;
  mr_requested_user_agent : string;
  mr_request_count : Z;
  mr_created_at : Z;
  mr_updated_at : Z;
  mr_last_submitted_at : Z;
  mr_expires_at : Z;
  mr_status_changed_at : Z;
  mr_completed_at : option Z
}.

Definition set_mr_user_id (v : option Z) (r : ManualRecoveryRequest) : ManualRecoveryRequest :=
  mkManualRecoveryRequest (mr_identifier_ref r) v (mr_reason r) (mr_status r) (mr_requested_ip r)
    (mr_requested_user_agent r) (mr_request_count r) (mr_created_at r) (mr_updated_at r)
    (mr_last_submitted_at r) (mr_expires_at r) (mr_status_changed_at r) (mr_completed_at r).

(** A row of [support_tickets]. *)
Record SupportTicket : Type := mkSupportTicket {
  st_user_id : Z;
  st_category : string;
  st_subject : string;
  st_description : string;
  st_status : string;
  st_resolved_by_user_id : option Z;
  st_resolution_note : option string;
  st_created_at : Z;
  st_updated_at : Z;
  st_resolved_at : option Z
}.

Definition set_st_resolved_by_user_id (v : option Z) (r : SupportTicket) : SupportTicket :=
  mkSupportTicket (st_user_id r) (st_category r) (st_subject r) (st_description r) (st_status r) v
    (st_resolution_note r) (st_created_at r) (st_updated_at r) (st_resolved_at r).

(** A row of [known_devices]. *)
Record KnownDevice : Type := mkKnownDevice {
  kd_user_id : Z;
  kd_device_token_hash : string;
  kd_created_at : Z;
  kd_last_seen_at : Z;
  kd_expires_at : Z
}.

Definition set_kd_last_seen_at (v : Z) (r : KnownDevice) : KnownDevice :=
  mkKnownDevice (kd_user_id r) (kd_device_token_hash r) (kd_created_at r) v (kd_expires_at r).
Definition set_kd_expires_at (v : Z) (r : KnownDevice) : KnownDevice :=
  mkKnownDevice (kd_user_id r) (kd_device_token_hash r) (kd_created_at r) (kd_last_seen_at r) v.

(** A row of [admin_action_requests]. *)
Record AdminActionRequest : Type := mkAdminActionRequest {
  ar_operation_type : string;
  ar_target_type : string;
  ar_target_id : string;
  ar_operation_payload : list (string * string);
  ar_requester_id : Z;
  ar_requester_role : string;
  ar_approver_id : option Z;
  ar_status : string;
  ar_reason_present : bool;
  ar_reason_length : Z;
  ar_metadata_hmac : string;
  ar_created_at : Z;
  ar_updated_at : Z;
  ar_expires_at : Z;
  ar_decided_at : option Z;
  ar_executed_at : option Z
}.

Definition set_ar_approver_id (v : option Z) (r : AdminActionRequest) : AdminActionRequest :=
  mkAdminActionRequest (ar_operation_type r) (ar_target_type r) (ar_target_id r) (ar_operation_payload r)
    (ar_requester_id r) (ar_requester_role r) v (ar_status r) (ar_reason_present r)
    (ar_reason_length r) (ar_metadata_hmac r) (ar_created_at r) (ar_updated_at r)
    (ar_expires_at r) (ar_decided_at r) (ar_executed_at r).
Definition set_ar_status (v : string) (r : AdminActionRequest) : AdminActionRequest :=
  mkAdminActionRequest (ar_operation_type r) (ar_target_type r) (ar_target_id r) (ar_operation_payload r)
    (ar_requester_id r) (ar_requester_role r) (ar_approver_id r) v (ar_reason_present r)
    (ar_reason_length r) (ar_metadata_hmac r) (ar_created_at r) (ar_updated_at r)
    (ar_expires_at r) (ar_decided_at r) (ar_executed_at r).
Definition set_ar_metadata_hmac (v : string) (r : AdminActionRequest) : AdminActionRequest :=
  mkAdminActionRequest (ar_operation_type r) (ar_target_type r) (ar_target_id r) (ar_operation_payload r)
    (ar_requester_id r) (ar_requester_role r) (ar_approver_id r) (ar_status r)
    (ar_reason_present r) (ar_reason_length r) v (ar_created_at r) (ar_updated_at r)
    (ar_expires_at r) (ar_decided_at r) (ar_executed_at r).
Definition set_ar_decided_at (v : option Z) (r : AdminActionRequest) : AdminActionRequest :=
  mkAdminActionRequest (ar_operation_type r) (ar_target_type r) (ar_target_id r) (ar_operation_payload r)
    (ar_requester_id r) (ar_requester_role r) (ar_approver_id r) (ar_status r)
    (ar_reason_present r) (ar_reason_length r) (ar_metadata_hmac r) (ar_created_at r)
    (ar_updated_at r) (ar_expires_at r) v (ar_executed_at r).
Definition set_ar_executed_at (v : option Z) (r : AdminActionRequest) : AdminActionRequest :=
  mkAdminActionRequest (ar_operation_type r) (ar_target_type r) (ar_target_id r) (ar_operation_payload r)
    (ar_requester_id r) (ar_requester_role r) (ar_approver_id r) (ar_status r)
    (ar_reason_present r) (ar_reason_length r) (ar_metadata_hmac r) (ar_created_at r)
    (ar_updated_at r) (ar_expires_at r) (ar_decided_at r) v.

(** A row of [person_identity_links]. *)
Record PersonIdentityLink : Type := mkPersonIdentityLink {
  il_staff_user_id : Z;
  il_customer_user_id : Z;
  il_created_by_user_id : option Z;
  il_created_at : Z;
  il_verified_at : option Z;
  il_revoked_at : option Z;
  il_notes : string
}.


(** A row of [transaction_disputes]. *)
Record TransactionDispute : Type := mkTransactionDispute {
  td_transaction_id : Z;
  td_reporter_id : Z;
  td_issue_type : string;
  td_reason : string;
  td_status : string;
  td_resolver_id : option Z;
  td_resolution_note : option string;
  td_created_at : Z;
  td_updated_at : Z;
  td_decided_at : option Z
}.

Definition set_td_resolver_id (v : option Z) (r : TransactionDispute) : TransactionDispute :=
  mkTransactionDispute (td_transaction_id r) (td_reporter_id r) (td_issue_type r) (td_reason r) (td_status r) v
    (td_resolution_note r) (td_created_at r) (td_updated_at r) (td_decided_at r).

(** A row of [staff_invites]. *)
Record StaffInvite : Type := mkStaffInvite {
  si_token_hash : string;
  si_workplace_email_normalized : string;
  si_role : string;
  si_status : string;
  si_delivery_status : string;
  si_created_by_user_id : Z;
  si_setup_user_id : option Z;
  si_used_by_user_id : option Z;
  si_revoked_by_user_id : option Z;
  si_created_at : Z;
  si_expires_at : Z;
  si_used_at : option Z;
  si_revoked_at : option Z;
  si_last_attempt_at : option Z;
  si_acceptance_session_hash : option string;
  si_acceptance_started_at : option Z;
  si_acceptance_start_count : Z;
  si_acceptance_locked_at : option Z;
  si_workplace_verification_code_hmac : option string;
  si_workplace_verification_sent_at : option Z;
  si_workplace_verification_expires_at : option Z;
  si_workplace_verified_at : option Z;
  si_acceptance_verify_count : Z;
  si_acceptance_verify_locked_at : option Z
}.

Definition set_si_token_hash (v : string) (r : StaffInvite) : StaffInvite :=
  mkStaffInvite v (si_workplace_email_normalized r) (si_role r) (si_status r) (si_delivery_status r)
    (si_created_by_user_id r) (si_setup_user_id r) (si_used_by_user_id r)
    (si_revoked_by_user_id r) (si_created_at r) (si_expires_at r) (si_used_at r)
    (si_revoked_at r) (si_last_attempt_at r) (si_acceptance_session_hash r)
    (si_acceptance_started_at r) (si_acceptance_start_count r) (si_acceptance_locked_at r)
    (si_workplace_verification_code_hmac r) (si_workplace_verification_sent_at r)
    (si_workplace_verification_expires_at r) (si_workplace_verified_at r)
    (si_acceptance_verify_count r) (si_acceptance_verify_locked_at r).
Definition set_si_status (v : string) (r : StaffInvite) : StaffInvite :=
  mkStaffInvite (si_token_hash r) (si_workplace_email_normalized r) (si_role r) v (si_delivery_status r)
    (si_created_by_user_id r) (si_setup_user_id r) (si_used_by_user_id r)
    (si_revoked_by_user_id r) (si_created_at r) (si_expires_at r) (si_used_at r)
    (si_revoked_at r) (si_last_attempt_at r) (si_acceptance_session_hash r)
    (si_acceptance_started_at r) (si_acceptance_start_count r) (si_acceptance_locked_at r)
    (si_workplace_verification_code_hmac r) (si_workplace_verification_sent_at r)
    (si_workplace_verification_expires_at r) (si_workplace_verified_at r)
    (si_acceptance_verify_count r) (si_acceptance_verify_locked_at r).
Definition set_si_delivery_status (v : string) (r : StaffInvite) : StaffInvite :=
  mkStaffInvite (si_token_hash r) (si_workplace_email_normalized r) (si_role r) (si_status r) v
    (si_created_by_user_id r) (si_setup_user_id r) (si_used_by_user_id r)
    (si_revoked_by_user_id r) (si_created_at r) (si_expires_at r) (si_used_at r)
    (si_revoked_at r) (si_last_attempt_at r) (si_acceptance_session_hash r)
    (si_acceptance_started_at r) (si_acceptance_start_count r) (si_acceptance_locked_at r)
    (si_workplace_verification_code_hmac r) (si_workplace_verification_sent_at r)
    (si_workplace_verification_expires_at r) (si_workplace_verified_at r)
    (si_acceptance_verify_count r) (si_acceptance_verify_locked_at r).
Definition set_si_setup_user_id (v : option Z) (r : StaffInvite) : StaffInvite :=
  mkStaffInvite (si_token_hash r) (si_workplace_email_normalized r) (si_role r) (si_status r)
    (si_delivery_status r) (si_created_by_user_id r) v (si_used_by_user_id r)
    (si_revoked_by_user_id r) (si_created_at r) (si_expires_at r) (si_used_at r)
    (si_revoked_at r) (si_last_attempt_at r) (si_acceptance_session_hash r)
    (si_acceptance_started_at r) (si_acceptance_start_count r) (si_acceptance_locked_at r)
    (si_workplace_verification_code_hmac r) (si_workplace_verification_sent_at r)
    (si_workplace_verification_expires_at r) (si_workplace_verified_at r)
    (si_acceptance_verify_count r) (si_acceptance_verify_locked_at r).
Definition set_si_used_by_user_id (v : option Z) (r : StaffInvite) : StaffInvite :=
  mkStaffInvite (si_token_hash r) (si_workplace_email_normalized r) (si_role r) (si_status r)
    (si_delivery_status r) (si_created_by_user_id r) (si_setup_user_id r) v
    (si_revoked_by_user_id r) (si_created_at r) (si_expires_at r) (si_used_at r)
    (si_revoked_at r) (si_last_attempt_at r) (si_acceptance_session_hash r)
    (si_acceptance_started_at r) (si_acceptance_start_count r) (si_acceptance_locked_at r)
    (si_workplace_verification_code_hmac r) (si_workplace_verification_sent_at r)
    (si_workplace_verification_expires_at r) (si_workplace_verified_at r)
    (si_acceptance_verify_count r) (si_acceptance_verify_locked_at r).
Definition set_si_revoked_by_user_id (v : option Z) (r : StaffInvite) : StaffInvite :=
  mkStaffInvite (si_token_hash r) (si_workplace_email_normalized r) (si_role r) (si_status r)
    (si_delivery_status r) (si_created_by_user_id r) (si_setup_user_id r) (si_used_by_user_id
    r) v (si_created_at r) (si_expires_at r) (si_used_at r) (si_revoked_at r)
    (si_last_attempt_at r) (si_acceptance_session_hash r) (si_acceptance_started_at r)
    (si_acceptance_start_count r) (si_acceptance_locked_at r)
    (si_workplace_verification_code_hmac r) (si_workplace_verification_sent_at r)
    (si_workplace_verification_expires_at r) (si_workplace_verified_at r)
    (si_acceptance_verify_count r) (si_acceptance_verify_locked_at r).
Definition set_si_expires_at (v : Z) (r : StaffInvite) : StaffInvite :=
  mkStaffInvite (si_token_hash r) (si_workplace_email_normalized r) (si_role r) (si_status r)
    (si_delivery_status r) (si_created_by_user_id r) (si_setup_user_id r) (si_used_by_user_id
    r) (si_revoked_by_user_id r) (si_created_at r) v (si_used_at r) (si_revoked_at r)
    (si_last_attempt_at r) (si_acceptance_session_hash r) (si_acceptance_started_at r)
    (si_acceptance_start_count r) (si_acceptance_locked_at r)
    (si_workplace_verification_code_hmac r) (si_workplace_verification_sent_at r)
    (si_workplace_verification_expires_at r) (si_workplace_verified_at r)
    (si_acceptance_verify_count r) (si_acceptance_verify_locked_at r).
Definition set_si_used_at (v : option Z) (r : StaffInvite) : StaffInvite :=
  mkStaffInvite (si_token_hash r) (si_workplace_email_normalized r) (si_role r) (si_status r)
    (si_delivery_status r) (si_created_by_user_id r) (si_setup_user_id r) (si_used_by_user_id
    r) (si_revoked_by_user_id r) (si_created_at r) (si_expires_at r) v (si_revoked_at r)
    (si_last_attempt_at r) (si_acceptance_session_hash r) (si_acceptance_started_at r)
    (si_acceptance_start_count r) (si_acceptance_locked_at r)
    (si_workplace_verification_code_hmac r) (si_workplace_verification_sent_at r)
    (si_workplace_verification_expires_at r) (si_workplace_verified_at r)
    (si_acceptance_verify_count r) (si_acceptance_verify_locked_at r).
Definition set_si_revoked_at (v : option Z) (r : StaffInvite) : StaffInvite :=
  mkStaffInvite (si_token_hash r) (si_workplace_email_normalized r) (si_role r) (si_status r)
    (si_delivery_status r) (si_created_by_user_id r) (si_setup_user_id r) (si_used_by_user_id
    r) (si_revoked_by_user_id r) (si_created_at r) (si_expires_at r) (si_used_at r) v
    (si_last_attempt_at r) (si_acceptance_session_hash r) (si_acceptance_started_at r)
    (si_acceptance_start_count r) (si_acceptance_locked_at r)
    (si_workplace_verification_code_hmac r) (si_workplace_verification_sent_at r)
    (si_workplace_verification_expires_at r) (si_workplace_verified_at r)
    (si_acceptance_verify_count r) (si_acceptance_verify_locked_at r).
Definition set_si_last_attempt_at (v : option Z) (r : StaffInvite) : StaffInvite :=
  mkStaffInvite (si_token_hash r) (si_workplace_email_normalized r) (si_role r) (si_status r)
    (si_delivery_status r) (si_created_by_user_id r) (si_setup_user_id r) (si_used_by_user_id
    r) (si_revoked_by_user_id r) (si_created_at r) (si_expires_at r) (si_used_at r)
    (si_revoked_at r) v (si_acceptance_session_hash r) (si_acceptance_started_at r)
    (si_acceptance_start_count r) (si_acceptance_locked_at r)
    (si_workplace_verification_code_hmac r) (si_workplace_verification_sent_at r)
    (si_workplace_verification_expires_at r) (si_workplace_verified_at r)
    (si_acceptance_verify_count r) (si_acceptance_verify_locked_at r).
Definition set_si_acceptance_session_hash (v : option string) (r : StaffInvite) : StaffInvite :=
  mkStaffInvite (si_token_hash r) (si_workplace_email_normalized r) (si_role r) (si_status r)
    (si_delivery_status r) (si_created_by_user_id r) (si_setup_user_id r) (si_used_by_user_id
    r) (si_revoked_by_user_id r) (si_created_at r) (si_expires_at r) (si_used_at r)
    (si_revoked_at r) (si_last_attempt_at r) v (si_acceptance_started_at r)
    (si_acceptance_start_count r) (si_acceptance_locked_at r)
    (si_workplace_verification_code_hmac r) (si_workplace_verification_sent_at r)
    (si_workplace_verification_expires_at r) (si_workplace_verified_at r)
    (si_acceptance_verify_count r) (si_acceptance_verify_locked_at r).
Definition set_si_acceptance_started_at (v : option Z) (r : StaffInvite) : StaffInvite :=
  mkStaffInvite (si_token_hash r) (si_workplace_email_normalized r) (si_role r) (si_status r)
    (si_delivery_status r) (si_created_by_user_id r) (si_setup_user_id r) (si_used_by_user_id
    r) (si_revoked_by_user_id r) (si_created_at r) (si_expires_at r) (si_used_at r)
    (si_revoked_at r) (si_last_attempt_at r) (si_acceptance_session_hash r) v
    (si_acceptance_start_count r) (si_acceptance_locked_at r)
    (si_workplace_verification_code_hmac r) (si_workplace_verification_sent_at r)
    (si_workplace_verification_expires_at r) (si_workplace_verified_at r)
    (si_acceptance_verify_count r) (si_acceptance_verify_locked_at r).
Definition set_si_acceptance_start_count (v : Z) (r : StaffInvite) : StaffInvite :=
  mkStaffInvite (si_token_hash r) (si_workplace_email_normalized r) (si_role r) (si_status r)
    (si_delivery_status r) (si_created_by_user_id r) (si_setup_user_id r) (si_used_by_user_id
    r) (si_revoked_by_user_id r) (si_created_at r) (si_expires_at r) (si_used_at r)
    (si_revoked_at r) (si_last_attempt_at r) (si_acceptance_session_hash r)
    (si_acceptance_started_at r) v (si_acceptance_locked_at r)
    (si_workplace_verification_code_hmac r) (si_workplace_verification_sent_at r)
    (si_workplace_verification_expires_at r) (si_workplace_verified_at r)
    (si_acceptance_verify_count r) (si_acceptance_verify_locked_at r).
Definition set_si_acceptance_locked_at (v : option Z) (r : StaffInvite) : StaffInvite :=
  mkStaffInvite (si_token_hash r) (si_workplace_email_normalized r) (si_role r) (si_status r)
    (si_delivery_status r) (si_created_by_user_id r) (si_setup_user_id r) (si_used_by_user_id
    r) (si_revoked_by_user_id r) (si_created_at r) (si_expires_at r) (si_used_at r)
    (si_revoked_at r) (si_last_attempt_at r) (si_acceptance_session_hash r)
    (si_acceptance_started_at r) (si_acceptance_start_count r) v
    (si_workplace_verification_code_hmac r) (si_workplace_verification_sent_at r)
    (si_workplace_verification_expires_at r) (si_workplace_verified_at r)
    (si_acceptance_verify_count r) (si_acceptance_verify_locked_at r).
Definition set_si_workplace_verification_code_hmac (v : option string) (r : StaffInvite) : StaffInvite :=
  mkStaffInvite (si_token_hash r) (si_workplace_email_normalized r) (si_role r) (si_status r)
    (si_delivery_status r) (si_created_by_user_id r) (si_setup_user_id r) (si_used_by_user_id
    r) (si_revoked_by_user_id r) (si_created_at r) (si_expires_at r) (si_used_at r)
    (si_revoked_at r) (si_last_attempt_at r) (si_acceptance_session_hash r)
    (si_acceptance_started_at r) (si_acceptance_start_count r) (si_acceptance_locked_at r) v
    (si_workplace_verification_sent_at r) (si_workplace_verification_expires_at r)
    (si_workplace_verified_at r) (si_acceptance_verify_count r)
    (si_acceptance_verify_locked_at r).
Definition set_si_workplace_verification_sent_at (v : option Z) (r : StaffInvite) : StaffInvite :=
  mkStaffInvite (si_token_hash r) (si_workplace_email_normalized r) (si_role r) (si_status r)
    (si_delivery_status r) (si_created_by_user_id r) (si_setup_user_id r) (si_used_by_user_id
    r) (si_revoked_by_user_id r) (si_created_at r) (si_expires_at r) (si_used_at r)
    (si_revoked_at r) (si_last_attempt_at r) (si_acceptance_session_hash r)
    (si_acceptance_started_at r) (si_acceptance_start_count r) (si_acceptance_locked_at r)
    (si_workplace_verification_code_hmac r) v (si_workplace_verification_expires_at r)
    (si_workplace_verified_at r) (si_acceptance_verify_count r)
    (si_acceptance_verify_locked_at r).
Definition set_si_workplace_verification_expires_at (v : option Z) (r : StaffInvite) : StaffInvite :=
  mkStaffInvite (si_token_hash r) (si_workplace_email_normalized r) (si_role r) (si_status r)
    (si_delivery_status r) (si_created_by_user_id r) (si_setup_user_id r) (si_used_by_user_id
    r) (si_revoked_by_user_id r) (si_created_at r) (si_expires_at r) (si_used_at r)
    (si_revoked_at r) (si_last_attempt_at r) (si_acceptance_session_hash r)
    (si_acceptance_started_at r) (si_acceptance_start_count r) (si_acceptance_locked_at r)
    (si_workplace_verification_code_hmac r) (si_workplace_verification_sent_at r) v
    (si_workplace_verified_at r) (si_acceptance_verify_count r)
    (si_acceptance_verify_locked_at r).
Definition set_si_workplace_verified_at (v : option Z) (r : StaffInvite) : StaffInvite :=
  mkStaffInvite (si_token_hash r) (si_workplace_email_normalized r) (si_role r) (si_status r)
    (si_delivery_status r) (si_created_by_user_id r) (si_setup_user_id r) (si_used_by_user_id
    r) (si_revoked_by_user_id r) (si_created_at r) (si_expires_at r) (si_used_at r)
    (si_revoked_at r) (si_last_attempt_at r) (si_acceptance_session_hash r)
    (si_acceptance_started_at r) (si_acceptance_start_count r) (si_acceptance_locked_at r)
    (si_workplace_verification_code_hmac r) (si_workplace_verification_sent_at r)
    (si_workplace_verification_expires_at r) v (si_acceptance_verify_count r)
    (si_acceptance_verify_locked_at r).
Definition set_si_acceptance_verify_count (v : Z) (r : StaffInvite) : StaffInvite :=
  mkStaffInvite (si_token_hash r) (si_workplace_email_normalized r) (si_role r) (si_status r)
    (si_delivery_status r) (si_created_by_user_id r) (si_setup_user_id r) (si_used_by_user_id
    r) (si_revoked_by_user_id r) (si_created_at r) (si_expires_at r) (si_used_at r)
    (si_revoked_at r) (si_last_attempt_at r) (si_acceptance_session_hash r)
    (si_acceptance_started_at r) (si_acceptance_start_count r) (si_acceptance_locked_at r)
    (si_workplace_verification_code_hmac r) (si_workplace_verification_sent_at r)
    (si_workplace_verification_expires_at r) (si_workplace_verified_at r) v
    (si_acceptance_verify_locked_at r).
Definition set_si_acceptance_verify_locked_at (v : option Z) (r : StaffInvite) : StaffInvite :=
  mkStaffInvite (si_token_hash r) (si_workplace_email_normalized r) (si_role r) (si_status r)
    (si_delivery_status r) (si_created_by_user_id r) (si_setup_user_id r) (si_used_by_user_id
    r) (si_revoked_by_user_id r) (si_created_at r) (si_expires_at r) (si_used_at r)
    (si_revoked_at r) (si_last_attempt_at r) (si_acceptance_session_hash r)
    (si_acceptance_started_at r) (si_acceptance_start_count r) (si_acceptance_locked_at r)
    (si_workplace_verification_code_hmac r) (si_workplace_verification_sent_at r)
    (si_workplace_verification_expires_at r) (si_workplace_verified_at r)
    (si_acceptance_verify_count r) v.

(** ** The database *)

Record Db : Type := mkDb {
  users : gmap Z User;
  payees : gmap Z Payee;
  transactions : gmap Z Transaction;
  registration_credits : gmap Z CreditLedgerRow;
  topup_credits : gmap Z CreditLedgerRow;
  topup_approval_requests : gmap Z TopUpApprovalRequest;
  pending_transfers : gmap Z PendingTransfer;
  payup_pending_transfers : gmap Z PayupPendingTransfer;
  public_transaction_idempotency : gmap Z PublicTransactionIdempotency;
  auth_attempt_counters : gmap Z AuthAttemptCounter;
  totp_replay_records : gmap Z TotpReplayRecord;
  recovery_codes : gmap Z RecoveryCode;
  server_side_sessions : gmap Z ServerSideSession;
  password_history : gmap Z PasswordHistory;
  registration_otp_challenges : gmap Z RegistrationOtpChallenge;
  security_circuit_breakers : gmap Z SecurityCircuitBreaker;
  security_alert_dedupe : gmap Z SecurityAlertDedupe;
  password_reset_tokens : gmap Z PasswordResetToken;
  password_reset_transactions : gmap Z PasswordResetTransaction;
  manual_recovery_requests : gmap Z ManualRecoveryRequest;
  known_devices : gmap Z KnownDevice;
  support_tickets : gmap Z SupportTicket;
  admin_action_requests : gmap Z AdminActionRequest;
  person_identity_links : gmap Z PersonIdentityLink;
  transaction_disputes : gmap Z TransactionDispute;
  staff_invites : gmap Z StaffInvite;
  security_audit_events : list SecurityAuditEvent
}.

Definition upd_users (f : gmap Z User → gmap Z User) (d : Db) : Db :=
  mkDb (f (users d)) (payees d) (transactions d) (registration_credits d) (topup_credits d)
    (topup_approval_requests d) (pending_transfers d) (payup_pending_transfers d)
    (public_transaction_idempotency d) (auth_attempt_counters d) (totp_replay_records d)
    (recovery_codes d) (server_side_sessions d) (password_history d)
    (registration_otp_challenges d) (security_circuit_breakers d) (security_alert_dedupe d)
    (password_reset_tokens d) (password_reset_transactions d) (manual_recovery_requests d)
    (known_devices d) (support_tickets d) (admin_action_requests d) (person_identity_links d)
    (transaction_disputes d) (staff_invites d) (security_audit_events d).
Definition upd_payees (f : gmap Z Payee → gmap Z Payee) (d : Db) : Db :=
  mkDb (users d) (f (payees d)) (transactions d) (registration_credits d) (topup_credits d)
    (topup_approval_requests d) (pending_transfers d) (payup_pending_transfers d)
    (public_transaction_idempotency d) (auth_attempt_counters d) (totp_replay_records d)
    (recovery_codes d) (server_side_sessions d) (password_history d)
    (registration_otp_challenges d) (security_circuit_breakers d) (security_alert_dedupe d)
    (password_reset_tokens d) (password_reset_transactions d) (manual_recovery_requests d)
    (known_devices d) (support_tickets d) (admin_action_requests d) (person_identity_links d)
    (transaction_disputes d) (staff_invites d) (security_audit_events d).
Definition upd_transactions (f : gmap Z Transaction → gmap Z Transaction) (d : Db) : Db :=
  mkDb (users d) (payees d) (f (transactions d)) (registration_credits d) (topup_credits d)
    (topup_approval_requests d) (pending_transfers d) (payup_pending_transfers d)
    (public_transaction_idempotency d) (auth_attempt_counters d) (totp_replay_records d)
    (recovery_codes d) (server_side_sessions d) (password_history d)
    (registration_otp_challenges d) (security_circuit_breakers d) (security_alert_dedupe d)
    (password_reset_tokens d) (password_reset_transactions d) (manual_recovery_requests d)
    (known_devices d) (support_tickets d) (admin_action_requests d) (person_identity_links d)
    (transaction_disputes d) (staff_invites d) (security_audit_events d).
Definition upd_registration_credits (f : gmap Z CreditLedgerRow → gmap Z CreditLedgerRow) (d : Db) : Db :=
  mkDb (users d) (payees d) (transactions d) (f (registration_credits d)) (topup_credits d)
    (topup_approval_requests d) (pending_transfers d) (payup_pending_transfers d)
    (public_transaction_idempotency d) (auth_attempt_counters d) (totp_replay_records d)
    (recovery_codes d) (server_side_sessions d) (password_history d)
    (registration_otp_challenges d) (security_circuit_breakers d) (security_alert_dedupe d)
    (password_reset_tokens d) (password_reset_transactions d) (manual_recovery_requests d)
    (known_devices d) (support_tickets d) (admin_action_requests d) (person_identity_links d)
    (transaction_disputes d) (staff_invites d) (security_audit_events d).
Definition upd_topup_credits (f : gmap Z CreditLedgerRow → gmap Z CreditLedgerRow) (d : Db) : Db :=
  mkDb (users d) (payees d) (transactions d) (registration_credits d) (f (topup_credits d))
    (topup_approval_requests d) (pending_transfers d) (payup_pending_transfers d)
    (public_transaction_idempotency d) (auth_attempt_counters d) (totp_replay_records d)
    (recovery_codes d) (server_side_sessions d) (password_history d)
    (registration_otp_challenges d) (security_circuit_breakers d) (security_alert_dedupe d)
    (password_reset_tokens d) (password_reset_transactions d) (manual_recovery_requests d)
    (known_devices d) (support_tickets d) (admin_action_requests d) (person_identity_links d)
    (transaction_disputes d) (staff_invites d) (security_audit_events d).
Definition upd_topup_approval_requests (f : gmap Z TopUpApprovalRequest → gmap Z TopUpApprovalRequest) (d : Db) : Db :=
  mkDb (users d) (payees d) (transactions d) (registration_credits d) (topup_credits d) (f
    (topup_approval_requests d)) (pending_transfers d) (payup_pending_transfers d)
    (public_transaction_idempotency d) (auth_attempt_counters d) (totp_replay_records d)
    (recovery_codes d) (server_side_sessions d) (password_history d)
    (registration_otp_challenges d) (security_circuit_breakers d) (security_alert_dedupe d)
    (password_reset_tokens d) (password_reset_transactions d) (manual_recovery_requests d)
    (known_devices d) (support_tickets d) (admin_action_requests d) (person_identity_links d)
    (transaction_disputes d) (staff_invites d) (security_audit_events d).
Definition upd_pending_transfers (f : gmap Z PendingTransfer → gmap Z PendingTransfer) (d : Db) : Db :=
  mkDb (users d) (payees d) (transactions d) (registration_credits d) (topup_credits d)
    (topup_approval_requests d) (f (pending_transfers d)) (payup_pending_transfers d)
    (public_transaction_idempotency d) (auth_attempt_counters d) (totp_replay_records d)
    (recovery_codes d) (server_side_sessions d) (password_history d)
    (registration_otp_challenges d) (security_circuit_breakers d) (security_alert_dedupe d)
    (password_reset_tokens d) (password_reset_transactions d) (manual_recovery_requests d)
    (known_devices d) (support_tickets d) (admin_action_requests d) (person_identity_links d)
    (transaction_disputes d) (staff_invites d) (security_audit_events d).
Definition upd_payup_pending_transfers (f : gmap Z PayupPendingTransfer → gmap Z PayupPendingTransfer) (d : Db) : Db :=
  mkDb (users d) (payees d) (transactions d) (registration_credits d) (topup_credits d)
    (topup_approval_requests d) (pending_transfers d) (f (payup_pending_transfers d))
    (public_transaction_idempotency d) (auth_attempt_counters d) (totp_replay_records d)
    (recovery_codes d) (server_side_sessions d) (password_history d)
    (registration_otp_challenges d) (security_circuit_breakers d) (security_alert_dedupe d)
    (password_reset_tokens d) (password_reset_transactions d) (manual_recovery_requests d)
    (known_devices d) (support_tickets d) (admin_action_requests d) (person_identity_links d)
    (transaction_disputes d) (staff_invites d) (security_audit_events d).
Definition upd_public_transaction_idempotency (f : gmap Z PublicTransactionIdempotency → gmap Z PublicTransactionIdempotency) (d : Db) : Db :=
  mkDb (users d) (payees d) (transactions d) (registration_credits d) (topup_credits d)
    (topup_approval_requests d) (pending_transfers d) (payup_pending_transfers d) (f
    (public_transaction_idempotency d)) (auth_attempt_counters d) (totp_replay_records d)
    (recovery_codes d) (server_side_sessions d) (password_history d)
    (registration_otp_challenges d) (security_circuit_breakers d) (security_alert_dedupe d)
    (password_reset_tokens d) (password_reset_transactions d) (manual_recovery_requests d)
    (known_devices d) (support_tickets d) (admin_action_requests d) (person_identity_links d)
    (transaction_disputes d) (staff_invites d) (security_audit_events d).
Definition upd_auth_attempt_counters (f : gmap Z AuthAttemptCounter → gmap Z AuthAttemptCounter) (d : Db) : Db :=
  mkDb (users d) (payees d) (transactions d) (registration_credits d) (topup_credits d)
    (topup_approval_requests d) (pending_transfers d) (payup_pending_transfers d)
    (public_transaction_idempotency d) (f (auth_attempt_counters d)) (totp_replay_records d)
    (recovery_codes d) (server_side_sessions d) (password_history d)
    (registration_otp_challenges d) (security_circuit_breakers d) (security_alert_dedupe d)
    (password_reset_tokens d) (password_reset_transactions d) (manual_recovery_requests d)
    (known_devices d) (support_tickets d) (admin_action_requests d) (person_identity_links d)
    (transaction_disputes d) (staff_invites d) (security_audit_events d).
Definition upd_totp_replay_records (f : gmap Z TotpReplayRecord → gmap Z TotpReplayRecord) (d : Db) : Db :=
  mkDb (users d) (payees d) (transactions d) (registration_credits d) (topup_credits d)
    (topup_approval_requests d) (pending_transfers d) (payup_pending_transfers d)
    (public_transaction_idempotency d) (auth_attempt_counters d) (f (totp_replay_records d))
    (recovery_codes d) (server_side_sessions d) (password_history d)
    (registration_otp_challenges d) (security_circuit_breakers d) (security_alert_dedupe d)
    (password_reset_tokens d) (password_reset_transactions d) (manual_recovery_requests d)
    (known_devices d) (support_tickets d) (admin_action_requests d) (person_identity_links d)
    (transaction_disputes d) (staff_invites d) (security_audit_events d).
Definition upd_recovery_codes (f : gmap Z RecoveryCode → gmap Z RecoveryCode) (d : Db) : Db :=
  mkDb (users d) (payees d) (transactions d) (registration_credits d) (topup_credits d)
    (topup_approval_requests d) (pending_transfers d) (payup_pending_transfers d)
    (public_transaction_idempotency d) (auth_attempt_counters d) (totp_replay_records d) (f
    (recovery_codes d)) (server_side_sessions d) (password_history d)
    (registration_otp_challenges d) (security_circuit_breakers d) (security_alert_dedupe d)
    (password_reset_tokens d) (password_reset_transactions d) (manual_recovery_requests d)
    (known_devices d) (support_tickets d) (admin_action_requests d) (person_identity_links d)
    (transaction_disputes d) (staff_invites d) (security_audit_events d).
Definition upd_server_side_sessions (f : gmap Z ServerSideSession → gmap Z ServerSideSession) (d : Db) : Db :=
  mkDb (users d) (payees d) (transactions d) (registration_credits d) (topup_credits d)
    (topup_approval_requests d) (pending_transfers d) (payup_pending_transfers d)
    (public_transaction_idempotency d) (auth_attempt_counters d) (totp_replay_records d)
    (recovery_codes d) (f (server_side_sessions d)) (password_history d)
    (registration_otp_challenges d) (security_circuit_breakers d) (security_alert_dedupe d)
    (password_reset_tokens d) (password_reset_transactions d) (manual_recovery_requests d)
    (known_devices d) (support_tickets d) (admin_action_requests d) (person_identity_links d)
    (transaction_disputes d) (staff_invites d) (security_audit_events d).
Definition upd_password_history (f : gmap Z PasswordHistory → gmap Z PasswordHistory) (d : Db) : Db :=
  mkDb (users d) (payees d) (transactions d) (registration_credits d) (topup_credits d)
    (topup_approval_requests d) (pending_transfers d) (payup_pending_transfers d)
    (public_transaction_idempotency d) (auth_attempt_counters d) (totp_replay_records d)
    (recovery_codes d) (server_side_sessions d) (f (password_history d))
    (registration_otp_challenges d) (security_circuit_breakers d) (security_alert_dedupe d)
    (password_reset_tokens d) (password_reset_transactions d) (manual_recovery_requests d)
    (known_devices d) (support_tickets d) (admin_action_requests d) (person_identity_links d)
    (transaction_disputes d) (staff_invites d) (security_audit_events d).
Definition upd_registration_otp_challenges (f : gmap Z RegistrationOtpChallenge → gmap Z RegistrationOtpChallenge) (d : Db) : Db :=
  mkDb (users d) (payees d) (transactions d) (registration_credits d) (topup_credits d)
    (topup_approval_requests d) (pending_transfers d) (payup_pending_transfers d)
    (public_transaction_idempotency d) (auth_attempt_counters d) (totp_replay_records d)
    (recovery_codes d) (server_side_sessions d) (password_history d) (f
    (registration_otp_challenges d)) (security_circuit_breakers d) (security_alert_dedupe d)
    (password_reset_tokens d) (password_reset_transactions d) (manual_recovery_requests d)
    (known_devices d) (support_tickets d) (admin_action_requests d) (person_identity_links d)
    (transaction_disputes d) (staff_invites d) (security_audit_events d).
Definition upd_security_circuit_breakers (f : gmap Z SecurityCircuitBreaker → gmap Z SecurityCircuitBreaker) (d : Db) : Db :=
  mkDb (users d) (payees d) (transactions d) (registration_credits d) (topup_credits d)
    (topup_approval_requests d) (pending_transfers d) (payup_pending_transfers d)
    (public_transaction_idempotency d) (auth_attempt_counters d) (totp_replay_records d)
    (recovery_codes d) (server_side_sessions d) (password_history d)
    (registration_otp_challenges d) (f (security_circuit_breakers d)) (security_alert_dedupe
    d) (password_reset_tokens d) (password_reset_transactions d) (manual_recovery_requests d)
    (known_devices d) (support_tickets d) (admin_action_requests d) (person_identity_links d)
    (transaction_disputes d) (staff_invites d) (security_audit_events d).
Definition upd_security_alert_dedupe (f : gmap Z SecurityAlertDedupe → gmap Z SecurityAlertDedupe) (d : Db) : Db :=
  mkDb (users d) (payees d) (transactions d) (registration_credits d) (topup_credits d)
    (topup_approval_requests d) (pending_transfers d) (payup_pending_transfers d)
    (public_transaction_idempotency d) (auth_attempt_counters d) (totp_replay_records d)
    (recovery_codes d) (server_side_sessions d) (password_history d)
    (registration_otp_challenges d) (security_circuit_breakers d) (f (security_alert_dedupe
    d)) (password_reset_tokens d) (password_reset_transactions d) (manual_recovery_requests d)
    (known_devices d) (support_tickets d) (admin_action_requests d) (person_identity_links d)
    (transaction_disputes d) (staff_invites d) (security_audit_events d).
Definition upd_password_reset_tokens (f : gmap Z PasswordResetToken → gmap Z PasswordResetToken) (d : Db) : Db :=
  mkDb (users d) (payees d) (transactions d) (registration_credits d) (topup_credits d)
    (topup_approval_requests d) (pending_transfers d) (payup_pending_transfers d)
    (public_transaction_idempotency d) (auth_attempt_counters d) (totp_replay_records d)
    (recovery_codes d) (server_side_sessions d) (password_history d)
    (registration_otp_challenges d) (security_circuit_breakers d) (security_alert_dedupe d) (f
    (password_reset_tokens d)) (password_reset_transactions d) (manual_recovery_requests d)
    (known_devices d) (support_tickets d) (admin_action_requests d) (person_identity_links d)
    (transaction_disputes d) (staff_invites d) (security_audit_events d).
Definition upd_password_reset_transactions (f : gmap Z PasswordResetTransaction → gmap Z PasswordResetTransaction) (d : Db) : Db :=
  mkDb (users d) (payees d) (transactions d) (registration_credits d) (topup_credits d)
    (topup_approval_requests d) (pending_transfers d) (payup_pending_transfers d)
    (public_transaction_idempotency d) (auth_attempt_counters d) (totp_replay_records d)
    (recovery_codes d) (server_side_sessions d) (password_history d)
    (registration_otp_challenges d) (security_circuit_breakers d) (security_alert_dedupe d)
    (password_reset_tokens d) (f (password_reset_transactions d)) (manual_recovery_requests d)
    (known_devices d) (support_tickets d) (admin_action_requests d) (person_identity_links d)
    (transaction_disputes d) (staff_invites d) (security_audit_events d).
Definition upd_manual_recovery_requests (f : gmap Z ManualRecoveryRequest → gmap Z ManualRecoveryRequest) (d : Db) : Db :=
  mkDb (users d) (payees d) (transactions d) (registration_credits d) (topup_credits d)
    (topup_approval_requests d) (pending_transfers d) (payup_pending_transfers d)
    (public_transaction_idempotency d) (auth_attempt_counters d) (totp_replay_records d)
    (recovery_codes d) (server_side_sessions d) (password_history d)
    (registration_otp_challenges d) (security_circuit_breakers d) (security_alert_dedupe d)
    (password_reset_tokens d) (password_reset_transactions d) (f (manual_recovery_requests d))
    (known_devices d) (support_tickets d) (admin_action_requests d) (person_identity_links d)
    (transaction_disputes d) (staff_invites d) (security_audit_events d).
Definition upd_known_devices (f : gmap Z KnownDevice → gmap Z KnownDevice) (d : Db) : Db :=
  mkDb (users d) (payees d) (transactions d) (registration_credits d) (topup_credits d)
    (topup_approval_requests d) (pending_transfers d) (payup_pending_transfers d)
    (public_transaction_idempotency d) (auth_attempt_counters d) (totp_replay_records d)
    (recovery_codes d) (server_side_sessions d) (password_history d)
    (registration_otp_challenges d) (security_circuit_breakers d) (security_alert_dedupe d)
    (password_reset_tokens d) (password_reset_transactions d) (manual_recovery_requests d) (f
    (known_devices d)) (support_tickets d) (admin_action_requests d) (person_identity_links d)
    (transaction_disputes d) (staff_invites d) (security_audit_events d).
Definition upd_support_tickets (f : gmap Z SupportTicket → gmap Z SupportTicket) (d : Db) : Db :=
  mkDb (users d) (payees d) (transactions d) (registration_credits d) (topup_credits d)
    (topup_approval_requests d) (pending_transfers d) (payup_pending_transfers d)
    (public_transaction_idempotency d) (auth_attempt_counters d) (totp_replay_records d)
    (recovery_codes d) (server_side_sessions d) (password_history d)
    (registration_otp_challenges d) (security_circuit_breakers d) (security_alert_dedupe d)
    (password_reset_tokens d) (password_reset_transactions d) (manual_recovery_requests d)
    (known_devices d) (f (support_tickets d)) (admin_action_requests d) (person_identity_links
    d) (transaction_disputes d) (staff_invites d) (security_audit_events d).
Definition upd_admin_action_requests (f : gmap Z AdminActionRequest → gmap Z AdminActionRequest) (d : Db) : Db :=
  mkDb (users d) (payees d) (transactions d) (registration_credits d) (topup_credits d)
    (topup_approval_requests d) (pending_transfers d) (payup_pending_transfers d)
    (public_transaction_idempotency d) (auth_attempt_counters d) (totp_replay_records d)
    (recovery_codes d) (server_side_sessions d) (password_history d)
    (registration_otp_challenges d) (security_circuit_breakers d) (security_alert_dedupe d)
    (password_reset_tokens d) (password_reset_transactions d) (manual_recovery_requests d)
    (known_devices d) (support_tickets d) (f (admin_action_requests d)) (person_identity_links
    d) (transaction_disputes d) (staff_invites d) (security_audit_events d).
Definition upd_person_identity_links (f : gmap Z PersonIdentityLink → gmap Z PersonIdentityLink) (d : Db) : Db :=
  mkDb (users d) (payees d) (transactions d) (registration_credits d) (topup_credits d)
    (topup_approval_requests d) (pending_transfers d) (payup_pending_transfers d)
    (public_transaction_idempotency d) (auth_attempt_counters d) (totp_replay_records d)
    (recovery_codes d) (server_side_sessions d) (password_history d)
    (registration_otp_challenges d) (security_circuit_breakers d) (security_alert_dedupe d)
    (password_reset_tokens d) (password_reset_transactions d) (manual_recovery_requests d)
    (known_devices d) (support_tickets d) (admin_action_requests d) (f (person_identity_links
    d)) (transaction_disputes d) (staff_invites d) (security_audit_events d).
Definition upd_transaction_disputes (f : gmap Z TransactionDispute → gmap Z TransactionDispute) (d : Db) : Db :=
  mkDb (users d) (payees d) (transactions d) (registration_credits d) (topup_credits d)
    (topup_approval_requests d) (pending_transfers d) (payup_pending_transfers d)
    (public_transaction_idempotency d) (auth_attempt_counters d) (totp_replay_records d)
    (recovery_codes d) (server_side_sessions d) (password_history d)
    (registration_otp_challenges d) (security_circuit_breakers d) (security_alert_dedupe d)
    (password_reset_tokens d) (password_reset_transactions d) (manual_recovery_requests d)
    (known_devices d) (support_tickets d) (admin_action_requests d) (person_identity_links d)
    (f (transaction_disputes d)) (staff_invites d) (security_audit_events d).
Definition upd_staff_invites (f : gmap Z StaffInvite → gmap Z StaffInvite) (d : Db) : Db :=
  mkDb (users d) (payees d) (transactions d) (registration_credits d) (topup_credits d)
    (topup_approval_requests d) (pending_transfers d) (payup_pending_transfers d)
    (public_transaction_idempotency d) (auth_attempt_counters d) (totp_replay_records d)
    (recovery_codes d) (server_side_sessions d) (password_history d)
    (registration_otp_challenges d) (security_circuit_breakers d) (security_alert_dedupe d)
    (password_reset_tokens d) (password_reset_transactions d) (manual_recovery_requests d)
    (known_devices d) (support_tickets d) (admin_action_requests d) (person_identity_links d)
    (transaction_disputes d) (f (staff_invites d)) (security_audit_events d).
Definition upd_security_audit_events (f : list SecurityAuditEvent → list SecurityAuditEvent) (d : Db) : Db :=
  mkDb (users d) (payees d) (transactions d) (registration_credits d) (topup_credits d)
    (topup_approval_requests d) (pending_transfers d) (payup_pending_transfers d)
    (public_transaction_idempotency d) (auth_attempt_counters d) (totp_replay_records d)
    (recovery_codes d) (server_side_sessions d) (password_history d)
    (registration_otp_challenges d) (security_circuit_breakers d) (security_alert_dedupe d)
    (password_reset_tokens d) (password_reset_transactions d) (manual_recovery_requests d)
    (known_devices d) (support_tickets d) (admin_action_requests d) (person_identity_links d)
    (transaction_disputes d) (staff_invites d) (f (security_audit_events d)).

Definition empty_db : Db :=
  mkDb ∅ ∅ ∅ ∅ ∅ ∅ ∅ ∅ ∅ ∅ ∅ ∅ ∅ ∅ ∅ ∅ ∅ ∅ ∅ ∅ ∅ ∅ ∅ ∅ ∅ ∅ [].

(** ** Declared constraints *)

Definition MIN_TRANSACTION_AMOUNT : Z := 1.
Definition MAX_TRANSACTION_AMOUNT : Z := 5000000.
Definition PAYUP_DAILY_LIMIT_MIN : Z := 10000.
Definition PAYUP_DAILY_LIMIT_MAX : Z := 1000000.
Definition PAYUP_DAILY_LIMIT_DEFAULT : Z := 50000.
Definition PAYUP_DAILY_LIMIT_PRESETS : list string := ["100"; "500"; "1000"; "3000"; "5000"; "10000"].
Definition LOCAL_TRANSFER_DAILY_LIMIT_MIN : Z := 10000.
Definition LOCAL_TRANSFER_DAILY_LIMIT_MAX : Z := 1000000.
Definition LOCAL_TRANSFER_DAILY_LIMIT_DEFAULT : Z := 50000.
Definition LOCAL_TRANSFER_DAILY_LIMIT_PRESETS : list string := ["100"; "500"; "1000"; "3000"; "5000"; "10000"].

Definition str_in (s : string) (l : list string) : bool := bool_decide (s ∈ l).
Definition between (lo x hi : Z) : bool := (lo <=? x) && (x <=? hi).

(** [Numeric(12, 2)]: at most ten digits before the point. *)
Definition numeric_12_2 (cents : Z) : bool := Z.abs cents <? 10 ^ 12.

Definition account_number_format (s : string) : bool :=
  (slen s =? 12)%nat && forallb is_digit (chars s).

Definition integrity_metadata_ok (key_id algorithm : option string) (version : option Z) : bool :=
  (if key_id is Some _ then true else false)
  && bool_decide (algorithm = Some "hmac-sha256") && bool_decide (version = Some 1).

Definition user_ok (u : User) : bool :=
  str_in (u_account_type u) ["customer"; "staff"; "admin"; "root_admin"]
  && str_in (u_account_status u) ["active"; "setup_pending"; "revoked"; "locked"]
  && (0 <=? u_balance u) && numeric_12_2 (u_balance u)
  && between PAYUP_DAILY_LIMIT_MIN (u_payup_daily_limit u) PAYUP_DAILY_LIMIT_MAX
  && between LOCAL_TRANSFER_DAILY_LIMIT_MIN (u_local_transfer_daily_limit u)
       LOCAL_TRANSFER_DAILY_LIMIT_MAX
  && match u_account_number u with Some a => account_number_format a | None => true end.

Definition payee_ok (p : Payee) : bool := account_number_format (py_account_number p).

Definition transaction_ok (t : Transaction) : bool :=
  str_in (tx_status t) ["completed"; "failed"]
  && (0 <? tx_amount t) && numeric_12_2 (tx_amount t)
  && str_in (tx_transaction_type t) ["local_transfer"; "payup"; "topup"]
  && integrity_metadata_ok (tx_transaction_integrity_key_id t)
       (tx_transaction_integrity_algorithm t) (tx_transaction_integrity_version t).

Definition credit_integrity_ok (c : CreditLedgerRow) : bool :=
  str_in (cr_status c) ["completed"]
  && integrity_metadata_ok (cr_credit_integrity_key_id c) (cr_credit_integrity_algorithm c)
       (cr_credit_integrity_version c).
Definition registration_credit_ok (c : CreditLedgerRow) : bool :=
  (cr_amount c =? 10000) && credit_integrity_ok c.
Definition topup_credit_ok (c : CreditLedgerRow) : bool :=
  between MIN_TRANSACTION_AMOUNT (cr_amount c) MAX_TRANSACTION_AMOUNT && credit_integrity_ok c.
Definition topup_request_ok (r : TopUpApprovalRequest) : bool :=
  str_in (tu_status r) ["pending"; "completed"; "expired"; "failed"]
  && between MIN_TRANSACTION_AMOUNT (tu_amount r) MAX_TRANSACTION_AMOUNT.
Definition idempotency_ok (r : PublicTransactionIdempotency) : bool :=
  str_in (pi_status r) ["reserved"; "completed"; "failed"].

Definition ticket_ok (t : SupportTicket) : bool :=
  str_in (st_category t) ["enquiry"; "security_concern"; "other"; "account_recovery"]
  && str_in (st_status t) ["open"; "in_review"; "resolved"; "closed"].

Definition action_request_ok (r : AdminActionRequest) : bool :=
  str_in (ar_operation_type r)
    ["staff_deactivate"; "staff_reactivate"; "staff_reset_activation"; "manual_recovery_approve";
     "manual_recovery_deny"; "manual_recovery_complete"; "customer_security_unlock"]
  && str_in (ar_target_type r) ["staff_user"; "manual_recovery_request"; "customer_user"]
  && str_in (ar_requester_role r) ["root_admin"]
  && str_in (ar_status r) ["pending"; "rejected"; "cancelled"; "expired"; "executed"; "execution_failed"].
Definition DISPUTE_OPEN_STATUSES : list string := ["open"; "under_review"].
Definition dispute_ok (t : TransactionDispute) : bool :=
  str_in (td_issue_type t)
    ["unauthorized_transaction"; "duplicate_charge"; "incorrect_amount"; "recipient_service_issue"; "other"]
  && str_in (td_status t) ["open"; "under_review"; "resolved"; "rejected"].
Definition invite_ok (i : StaffInvite) : bool :=
  str_in (si_role i) ["staff"; "admin"]
  && str_in (si_status i) ["pending"; "totp_pending"; "accepted"; "revoked"; "expired"]
  && str_in (si_delivery_status i) ["unconfirmed"; "queued"; "failed"].

(** A UNIQUE constraint or unique index on the key [f]; rows whose key is
    [None] (SQL NULL) are not compared. *)
Definition unique_on {V K} `{EqDecision K} (f : V → option K) (t : gmap Z V) : bool :=
  bool_decide (NoDup (omap f (map_to_list t).*2)).

Definition all_rows {V} (P : V → bool) (t : gmap Z V) : bool := forallb P (map_to_list t).*2.

Definition db_ok (d : Db) : bool :=
  all_rows user_ok (users d) && all_rows payee_ok (payees d)
  && all_rows transaction_ok (transactions d)
  && all_rows registration_credit_ok (registration_credits d)
  && all_rows topup_credit_ok (topup_credits d)
  && all_rows topup_request_ok (topup_approval_requests d)
  && all_rows idempotency_ok (public_transaction_idempotency d)
  && all_rows ticket_ok (support_tickets d)
  && all_rows action_request_ok (admin_action_requests d)
  && all_rows dispute_ok (transaction_disputes d)
  && all_rows invite_ok (staff_invites d)
  && unique_on (λ l, Some (il_staff_user_id l, il_customer_user_id l)) (person_identity_links d)
  && unique_on (λ t, if str_in (td_status t) DISPUTE_OPEN_STATUSES then Some (td_transaction_id t) else None)
       (transaction_disputes d)
  && unique_on (λ i, Some (si_token_hash i)) (staff_invites d)
  && unique_on (λ u, Some (casefold (u_username u))) (users d)
  && unique_on (λ u, Some (casefold (u_email u))) (users d)
  && unique_on u_registration_email_canonical (users d)
  && unique_on u_phone_number (users d)
  && unique_on u_account_number (users d)
  && unique_on (λ p, Some (py_user_id p, py_account_number p)) (payees d)
  && unique_on (λ t, Some (tx_transaction_ref t)) (transactions d)
  && unique_on (λ t, Some (tx_transaction_hash t)) (transactions d)
  && unique_on (λ c, Some (cr_credit_ref c)) (registration_credits d)
  && unique_on (λ c, Some (cr_credit_hash c)) (registration_credits d)
  && unique_on (λ c, Some (cr_user_id c)) (registration_credits d)
  && unique_on (λ c, Some (cr_credit_ref c)) (topup_credits d)
  && unique_on (λ c, Some (cr_credit_hash c)) (topup_credits d)
  && unique_on (λ r, Some (tu_selector r)) (topup_approval_requests d)
  && unique_on (λ p, Some (pt_token p)) (pending_transfers d)
  && unique_on (λ p, Some (pp_token p)) (payup_pending_transfers d)
  && unique_on (λ r, Some (pi_user_id r, pi_key_fingerprint r)) (public_transaction_idempotency d)
  && unique_on (λ c, Some (ac_scope c, ac_principal_hash c)) (auth_attempt_counters d)
  && unique_on (λ r, Some (tr_user_id r, tr_scope r, tr_time_step r, tr_code_digest r))
       (totp_replay_records d)
  && unique_on (λ c, Some (rc_code_hmac c)) (recovery_codes d)
  && unique_on (λ r, Some (ss_component r, ss_session_lookup_hash r)) (server_side_sessions d)
  && unique_on (λ r, Some (ro_session_binding_hash r, ro_email_hash r))
       (registration_otp_challenges d)
  && unique_on (λ r, Some (cb_service_name r)) (security_circuit_breakers d)
  && unique_on (λ r, Some (ad_dedupe_key_hash r)) (security_alert_dedupe d)
  && unique_on (λ r, Some (prt_selector r)) (password_reset_tokens d)
  && unique_on (λ r, Some (prx_transaction_lookup_hash r)) (password_reset_transactions d)
  && all_rows (λ p, bool_decide (is_Some (payees d !! pt_payee_id p))) (pending_transfers d).

Lemma all_rows_lookup {V} (P : V → bool) t k v :
  all_rows P t = true → t !! k = Some v → P v = true.
Proof.
  unfold all_rows. rewrite forallb_forall. intros H Hk. apply H.
  apply list_elem_of_In, list_elem_of_fmap. exists (k, v). split; [done|].
  by apply elem_of_map_to_list.
Qed.

(** Two rows of a table with a unique key do not share it. *)
Lemma unique_on_inj {V K} `{EqDecision K} (f : V → option K) t i j v w x :
  unique_on f t = true → t !! i = Some v → t !! j = Some w →
  f v = Some x → f w = Some x → i = j.
Proof.
  unfold unique_on. rewrite bool_decide_eq_true. intros Hu Hi Hj Hv Hw.
  destruct (decide (i = j)) as [|Hne]; [done|]. exfalso.
  rewrite <- (insert_delete_id t i v Hi) in Hu.
  rewrite (map_to_list_insert _ _ _ (lookup_delete_eq t i)) in Hu. simpl in Hu.
  rewrite Hv in Hu. apply NoDup_cons in Hu as [Hn _]. apply Hn.
  apply list_elem_of_omap. exists w. split; [|done].
  apply list_elem_of_fmap. exists (j, w). split; [done|].
  apply elem_of_map_to_list. by rewrite lookup_delete_ne.
Qed.

(** The query by a unique key finds the row. *)
Lemma one_or_none_unique {V K} `{EqDecision K} (f : V → option K) (P : V → bool) t i v x :
  unique_on f t = true → (∀ w, P w = true → f w = Some x) → t !! i = Some v → P v = true →
  one_or_none P t = Ok (Some (i, v)).
Proof.
  intros Hu HP Hi Hv. unfold one_or_none.
  assert ((i, v) ∈ rows_where P t) as Hin by by apply rows_where_spec.
  assert (∀ jw, jw ∈ rows_where P t → jw = (i, v)) as Hall.
  { intros [j w] Hjw. apply rows_where_spec in Hjw as [Hj Hw].
    assert (i = j) as <- by (eapply (unique_on_inj f); eauto). congruence. }
  assert (NoDup (rows_where P t)) as Hnd by apply NoDup_filter, NoDup_map_to_list.
  destruct (rows_where P t) as [|a [|b l]]; [set_solver| |].
  - by rewrite (Hall a) by set_solver.
  - assert (a = b) as -> by (rewrite (Hall a), (Hall b) by set_solver; done).
    apply NoDup_cons in Hnd as [Hnd _]. set_solver.
Qed.

(** Deleting a row, or replacing it by one with the same key, keeps keys unique. *)
Lemma unique_on_delete {V K} `{EqDecision K} (f : V → option K) t i :
  unique_on f t = true → unique_on f (delete i t) = true.
Proof.
  unfold unique_on. rewrite !bool_decide_eq_true. destruct (t !! i) as [v|] eqn:E.
  - rewrite <- (insert_delete_id t i v E) at 1.
    rewrite (map_to_list_insert _ _ _ (lookup_delete_eq t i)). simpl.
    destruct (f v); [|done]. by intros [_ ?]%NoDup_cons.
  - by rewrite delete_id.
Qed.
Lemma unique_on_update {V K} `{EqDecision K} (f : V → option K) t i v w :
  t !! i = Some v → f w = f v → unique_on f t = true → unique_on f (<[i := w]> t) = true.
Proof.
  intros Hi Hf. unfold unique_on. rewrite !bool_decide_eq_true.
  rewrite <- (insert_delete_id t i v Hi) at 1. rewrite <- (insert_delete_eq t i w).
  rewrite !(map_to_list_insert _ _ _ (lookup_delete_eq t i)). simpl. by rewrite Hf.
Qed.

(** A fact that is one, or several, of the constraints. *)
Ltac by_constraints :=
  unfold db_ok; intros;
  repeat match goal with H : andb _ _ = true |- _ => apply andb_prop in H; destruct H end;
  repeat (apply andb_true_intro; split); simpl; split_and?; assumption.

Lemma db_ok_counters d :
  db_ok d = true →
  unique_on (λ c, Some (ac_scope c, ac_principal_hash c)) (auth_attempt_counters d) = true.
Proof. by_constraints. Qed.
Lemma db_ok_replay d :
  db_ok d = true →
  unique_on (λ r, Some (tr_user_id r, tr_scope r, tr_time_step r, tr_code_digest r))
    (totp_replay_records d) = true.
Proof. by_constraints. Qed.
Lemma db_ok_users d : db_ok d = true → all_rows user_ok (users d) = true.
Proof. by_constraints. Qed.
Lemma db_ok_recovery d :
  db_ok d = true → unique_on (λ c, Some (rc_code_hmac c)) (recovery_codes d) = true.
Proof. by_constraints. Qed.
Lemma db_ok_topups d : db_ok d = true → all_rows topup_credit_ok (topup_credits d) = true.
Proof. by_constraints. Qed.
Lemma db_ok_requests d :
  db_ok d = true → unique_on (λ r, Some (tu_selector r)) (topup_approval_requests d) = true.
Proof. by_constraints. Qed.
Lemma db_ok_pending d :
  db_ok d = true → unique_on (λ p, Some (pt_token p)) (pending_transfers d) = true.
Proof. by_constraints. Qed.
Lemma db_ok_payup_pending d :
  db_ok d = true → unique_on (λ p, Some (pp_token p)) (payup_pending_transfers d) = true.
Proof. by_constraints. Qed.

Lemma db_ok_sessions d :
  db_ok d = true →
  unique_on (λ r, Some (ss_component r, ss_session_lookup_hash r)) (server_side_sessions d) = true.
Proof. by_constraints. Qed.
Lemma db_ok_otp d :
  db_ok d = true →
  unique_on (λ r, Some (ro_session_binding_hash r, ro_email_hash r))
    (registration_otp_challenges d) = true.
Proof. by_constraints. Qed.
Lemma db_ok_upd_otp f d :
  db_ok d = true →
  unique_on (λ r, Some (ro_session_binding_hash r, ro_email_hash r))
    (f (registration_otp_challenges d)) = true →
  db_ok (upd_registration_otp_challenges f d) = true.
Proof. by_constraints. Qed.
Lemma db_ok_account_numbers d : db_ok d = true → unique_on u_account_number (users d) = true.
Proof. by_constraints. Qed.
Lemma db_ok_append f d : db_ok (upd_security_audit_events f d) = db_ok d.
Proof. done. Qed.

(** A query that selects rows by a unique key and excludes the one row that
    has it finds nothing. *)
Lemma one_or_none_excluded {V K} `{EqDecision K} (f : V → option K) (P : V → bool) t i v x :
  unique_on f t = true → (∀ w, P w = true → f w = Some x) → t !! i = Some v → f v = Some x →
  P v = false → one_or_none P t = Ok None.
Proof.
  intros Hu HP Hi Hf Hv. unfold one_or_none. destruct (rows_where P t) as [|[j w] l] eqn:E; [done|].
  assert ((j, w) ∈ rows_where P t) as [Hj Hw]%rows_where_spec by (rewrite E; left).
  assert (i = j) as -> by (eapply (unique_on_inj f); eauto). congruence.
Qed.
