(* ===== verification/Canonical.v ===== *)
(** * Canonical encodings are injective

    The ledger signatures and the audit hash chain authenticate a row through
    [json.dumps(payload, separators=(",", ":"), sort_keys=True)].  This file
    shows that the encoding loses nothing: two values with sorted keys print
    to the same text only when they are equal, whatever text follows.  It also
    shows that zero-padded decimal fields and ISO timestamps determine the
    numbers they print. *)

From S2P Require Import Prelude PyStr TimeModel.
From Stdlib Require Import Ascii.
Open Scope string_scope.
Open Scope Z_scope.

(** ** Induction over JSON values *)

Section JvalInd.
Context (P : jval → Prop).
Context (Hnull : P JNull) (Hbool : ∀ b, P (JBool b)) (Hint : ∀ z, P (JInt z))
  (Hstr : ∀ s, P (JStr s)) (Hlist : ∀ l, Forall P l → P (JList l))
  (Hobj : ∀ kvs, Forall (λ kv : string * jval, P kv.2) kvs → P (JObj kvs)).

Fixpoint jval_nested_ind (v : jval) : P v :=
  match v with
  | JNull => Hnull
  | JBool b => Hbool b
  | JInt z => Hint z
  | JStr s => Hstr s
  | JList l =>
      Hlist l ((fix go (l : list jval) : Forall P l :=
        match l with
        | [] => Forall_nil_2 P
        | x :: l' => Forall_cons_2 P x l' (jval_nested_ind x) (go l')
        end) l)
  | JObj kvs =>
      Hobj kvs ((fix go (l : list (string * jval)) : Forall (λ kv, P kv.2) l :=
        match l with
        | [] => Forall_nil_2 _
        | x :: l' => Forall_cons_2 _ x l' (jval_nested_ind x.2) (go l')
        end) kvs)
  end.
End JvalInd.

(** ** Sorted objects *)

Fixpoint keys_sorted (ks : list string) : bool :=
  match ks with
  | k :: ((k' :: _) as ks') => str_leb k k' && keys_sorted ks'
  | _ => true
  end.

(** A canonical value: every object lists its keys in order. *)
Fixpoint canonical (v : jval) : bool :=
  match v with
  | JList l => forallb canonical l
  | JObj kvs => keys_sorted kvs.*1 && forallb (λ kv, canonical kv.2) kvs
  | _ => true
  end.

Lemma sort_kvs_sorted l : keys_sorted l.*1 = true → sort_kvs l = l.
Proof.
  induction l as [|[k v] l IH]; [done|]. intros Hs. simpl.
  destruct l as [|[k' v'] l]; [done|].
  simpl in Hs. apply andb_prop in Hs as [Hle Hs].
  rewrite IH by done. simpl. by rewrite Hle.
Qed.

(** ** Reading a prefix *)

Definition delim (c : ascii) : bool :=
  bool_decide (c = ","%char) || bool_decide (c = "}"%char) || bool_decide (c = "]"%char).
(** What may follow a value inside a larger text: nothing, or a delimiter. *)
Definition tail_ok (t : string) : bool :=
  match t with EmptyString => true | String c _ => delim c end.

Lemma str_app_cons c s t : String c s +:+ t = String c (s +:+ t).
Proof. done. Qed.
Lemma str_app_nil s : "" +:+ s = s.
Proof. done. Qed.
Lemma str_app_assoc a b c : (a +:+ b) +:+ c = a +:+ (b +:+ c).
Proof. apply chars_inj. rewrite !chars_app. by rewrite app_assoc. Qed.
Lemma str_app_nil_r a : a +:+ "" = a.
Proof. apply chars_inj. rewrite chars_app. simpl. by rewrite app_nil_r. Qed.

Lemma span_inj {A} (Q : A → Prop) (a b x y : list A) :
  Forall Q a → Forall Q b →
  (∀ h x', x = h :: x' → ¬ Q h) → (∀ h y', y = h :: y' → ¬ Q h) →
  (a ++ x)%list = (b ++ y)%list → a = b ∧ x = y.
Proof.
  revert b. induction a as [|h a IH]; intros [|k b] Ha Hb Hx Hy E; simpl in E.
  - done.
  - exfalso. eapply (Hx k); [done | by inversion Hb].
  - exfalso. eapply (Hy h); [done | by inversion Ha].
  - inversion Ha; inversion Hb; subst. simplify_eq.
    destruct (IH b) as [-> ->]; done.
Qed.

Lemma delim_not_int c : delim c = true → ¬ int_char c.
Proof.
  unfold delim. intros Hd [Hi|Hi].
  - destruct (decide (c = ","%char)) as [->|]; [done|].
    destruct (decide (c = "}"%char)) as [->|]; [done|].
    destruct (decide (c = "]"%char)) as [->|]; [done|].
    by rewrite !bool_decide_eq_false_2 in Hd.
  - subst. by vm_compute in Hd.
Qed.

Lemma pretty_tail_inj (z1 z2 : Z) t1 t2 :
  tail_ok t1 = true → tail_ok t2 = true →
  pretty z1 +:+ t1 = pretty z2 +:+ t2 → z1 = z2 ∧ t1 = t2.
Proof.
  intros H1 H2 E. apply (f_equal chars) in E. rewrite !chars_app in E.
  apply (span_inj int_char) in E as [Ez Et]; [| apply pretty_Z_chars..| |].
  - split; [by apply (inj pretty), chars_inj | by apply chars_inj].
  - intros h x' Hx. destruct t1; simplify_eq/=. by apply delim_not_int.
  - intros h x' Hx. destruct t2; simplify_eq/=. by apply delim_not_int.
Qed.

(** ** The first character tells the kind of value *)

Inductive kind := KNull | KTrue | KFalse | KInt | KStr | KList | KObj.
Definition kind_of (v : jval) : kind :=
  match v with
  | JNull => KNull | JBool true => KTrue | JBool false => KFalse
  | JInt _ => KInt | JStr _ => KStr | JList _ => KList | JObj _ => KObj
  end.
Definition kind_of_char (c : ascii) : option kind :=
  if bool_decide (c = "n"%char) then Some KNull
  else if bool_decide (c = "t"%char) then Some KTrue
  else if bool_decide (c = "f"%char) then Some KFalse
  else if bool_decide (c = quote) then Some KStr
  else if bool_decide (c = "["%char) then Some KList
  else if bool_decide (c = "{"%char) then Some KObj
  else if is_digit c || bool_decide (c = "-"%char) then Some KInt
  else None.

(** *** Printed digits read back *)

Lemma digits_val_pretty z : 0 ≤ z → digits_val 0 (chars (pretty z)) = Some z.
Proof. intros Hz. destruct z as [|p|p]; [done| |lia]. apply (digits_val_pretty_N (N.pos p)). Qed.

Lemma digits_val_zeros n l : digits_val 0 (repeat "0"%char n ++ l)%list = digits_val 0 l.
Proof. induction n as [|n IH]; simpl; [done|]. exact IH. Qed.

(** A zero-padded number determines the number. *)
Lemma digits_val_pad w z : 0 ≤ z → digits_val 0 (chars (pad w z)) = Some z.
Proof.
  intros Hz. unfold pad. rewrite chars_app, chars_of_chars, digits_val_zeros.
  by apply digits_val_pretty.
Qed.

Lemma pad_inj w x y : 0 ≤ x → 0 ≤ y → pad w x = pad w y → x = y.
Proof.
  intros Hx Hy E. apply (f_equal (λ s, digits_val 0 (chars s))) in E.
  rewrite !digits_val_pad in E by done. by simplify_eq.
Qed.

Lemma pad_digits w z : 0 ≤ z → Forall (λ c, is_digit c = true) (chars (pad w z)).
Proof.
  intros Hz. pose proof (digits_val_pad w z Hz) as E. revert E. generalize 0 at 1.
  induction (chars (pad w z)) as [|c l IH]; intros acc E; [constructor|].
  simpl in E. destruct (is_digit c) eqn:Ec; [|done]. constructor; eauto.
Qed.

Lemma pretty_head (z : Z) : ∃ c s, pretty z = String c s ∧ int_char c.
Proof.
  pose proof (pretty_Z_chars z) as HF. destruct (pretty z) as [|c s] eqn:E.
  - exfalso. destruct (decide (0 ≤ z)) as [Hz|Hz].
    + pose proof (digits_val_pretty z Hz) as Hd. rewrite E in Hd. simplify_eq/=.
    + destruct z as [|p|p]; [lia | lia | discriminate E].
  - exists c, s. split; [done|]. by inversion HF.
Qed.

Lemma kind_of_int_char c : int_char c → kind_of_char c = Some KInt.
Proof.
  intros [Hd| ->]; [|done]. unfold kind_of_char.
  destruct c as [[] [] [] [] [] [] [] []]; done.
Qed.

Lemma dumps_head v t :
  ∃ c s, json_dumps v +:+ t = String c s ∧ kind_of_char c = Some (kind_of v).
Proof.
  destruct v as [|[]|z|s|l|kvs].
  - by exists "n"%char, ("ull" +:+ t).
  - by exists "t"%char, ("rue" +:+ t).
  - by exists "f"%char, ("alse" +:+ t).
  - destruct (pretty_head z) as (c & s & E & Hc). exists c, (s +:+ t).
    simpl. rewrite E. split; [done|]. by apply kind_of_int_char.
  - by eexists quote, _.
  - by eexists "["%char, _.
  - by eexists "{"%char, _.
Qed.

Lemma dumps_not_delim v t c s :
  json_dumps v +:+ t = String c s → delim c = false.
Proof.
  intros E. destruct (dumps_head v t) as (c' & s' & E' & Hk). rewrite E in E'.
  simplify_eq. destruct (delim c') eqn:Ed; [|done]. exfalso. revert Hk.
  destruct c' as [[] [] [] [] [] [] [] []]; done.
Qed.

(** ** The encoding is injective *)

Definition dumps_inj_at (v1 : jval) : Prop := ∀ v2 t1 t2,
  tail_ok t1 = true → tail_ok t2 = true → canonical v1 = true → canonical v2 = true →
  json_dumps v1 +:+ t1 = json_dumps v2 +:+ t2 → v1 = v2 ∧ t1 = t2.

(** A comma-separated sequence and its closing delimiter. *)
Fixpoint seq_text (close : ascii) (parts : list string) (t : string) : string :=
  match parts with
  | [] => String close t
  | [p] => p +:+ String close t
  | p :: ps => p +:+ String ","%char (seq_text close ps t)
  end.

Lemma seq_text_join close parts t :
  join "," parts +:+ String close t = seq_text close parts t.
Proof.
  induction parts as [|p [|q ps] IH]; [done|done|].
  change (join "," (p :: q :: ps)) with (p +:+ "," +:+ join "," (q :: ps)).
  rewrite !str_app_assoc, IH. done.
Qed.

Definition seq_rest (close : ascii) (ps : list string) (t : string) : string :=
  match ps with [] => String close t | _ => String ","%char (seq_text close ps t) end.
Lemma seq_text_cons close p ps t : seq_text close (p :: ps) t = p +:+ seq_rest close ps t.
Proof. by destruct ps. Qed.
Lemma seq_rest_ok close ps t : delim close = true → tail_ok (seq_rest close ps t) = true.
Proof. by destruct ps. Qed.

Lemma list_dumps_inj l1 :
  Forall dumps_inj_at l1 → ∀ l2 t1 t2,
  forallb canonical l1 = true → forallb canonical l2 = true →
  seq_text "]"%char (json_dumps <$> l1) t1 = seq_text "]"%char (json_dumps <$> l2) t2 →
  l1 = l2 ∧ t1 = t2.
Proof.
  induction 1 as [|v1 l1 Hv _ IH]; intros [|v2 l2] t1 t2 C1 C2 E.
  - by simplify_eq/=.
  - rewrite fmap_cons, seq_text_cons in E. simpl in E. symmetry in E.
    by apply dumps_not_delim in E.
  - rewrite fmap_cons, seq_text_cons in E. simpl in E. by apply dumps_not_delim in E.
  - simpl in C1, C2. apply andb_prop in C1 as [C1 C1'], C2 as [C2 C2'].
    rewrite !fmap_cons, !seq_text_cons in E.
    apply Hv in E as [-> E]; [|by apply seq_rest_ok..|done|done].
    destruct l1 as [|w1 l1], l2 as [|w2 l2]; simpl in E; simplify_eq; [done|].
    destruct (IH (w2 :: l2) t1 t2) as [-> ->]; done.
Qed.

Definition field_text (kv : string * jval) : string :=
  json_string kv.1 +:+ ":" +:+ json_dumps kv.2.

Lemma obj_dumps_inj k1 :
  Forall (λ kv, dumps_inj_at kv.2) k1 → ∀ k2 t1 t2,
  forallb (λ kv, canonical kv.2) k1 = true → forallb (λ kv, canonical kv.2) k2 = true →
  seq_text "}"%char (field_text <$> k1) t1 = seq_text "}"%char (field_text <$> k2) t2 →
  k1 = k2 ∧ t1 = t2.
Proof.
  induction 1 as [|[n1 v1] k1 Hv _ IH]; intros [|[n2 v2] k2] t1 t2 C1 C2 E.
  - by simplify_eq/=.
  - rewrite fmap_cons, seq_text_cons in E. done.
  - rewrite fmap_cons, seq_text_cons in E. done.
  - simpl in C1, C2. apply andb_prop in C1 as [C1 C1'], C2 as [C2 C2'].
    rewrite !fmap_cons, !seq_text_cons in E. unfold field_text at 1 3 in E. simpl in E.
    rewrite !str_app_assoc in E. apply json_string_inj in E as [-> E].
    rewrite !str_app_cons, !str_app_nil in E. injection E as E. simpl in Hv.
    apply Hv in E as [-> E]; [|by apply seq_rest_ok..|done|done].
    destruct k1 as [|w1 k1], k2 as [|w2 k2]; simpl in E; simplify_eq; [done|].
    destruct (IH (w2 :: k2) t1 t2) as [-> ->]; done.
Qed.

Lemma dumps_obj_text kvs t :
  keys_sorted kvs.*1 = true →
  json_dumps (JObj kvs) +:+ t = String "{"%char (seq_text "}"%char (field_text <$> kvs) t).
Proof.
  intros Hs. simpl json_dumps.
  rewrite sort_kvs_sorted.
  - rewrite <- list_fmap_compose. change (("{" +:+ join "," (((λ kv, json_string kv.1 +:+ ":"
      +:+ kv.2) ∘ (λ kv, (kv.1, json_dumps kv.2))) <$> kvs) +:+ "}") +:+ t)
      with (String "{"%char ((join "," (field_text <$> kvs) +:+ "}") +:+ t)).
    f_equal. rewrite str_app_assoc. apply seq_text_join.
  - rewrite <- list_fmap_compose. done.
Qed.

Lemma json_dumps_tail_inj v : dumps_inj_at v.
Proof.
  induction v as [|b|z|s|l IHl|kvs IHk] using jval_nested_ind;
    intros v2 t1 t2 T1 T2 C1 C2 E.
  all: match type of E with json_dumps ?a +:+ _ = json_dumps ?b +:+ _ =>
    pose proof (dumps_head a t1) as (c1 & s1 & E1 & K1);
    pose proof (dumps_head b t2) as (c2 & s2 & E2 & K2) end;
    rewrite E, E2 in E1; injection E1 as -> ->; rewrite K2 in K1;
    apply (inj Some) in K1; clear K2 E2.
  all: destruct v2 as [|[]|z2|s2'|l2|k2]; try destruct b; try discriminate K1; clear K1.
  - by simplify_eq/=.
  - by simplify_eq/=.
  - by simplify_eq/=.
  - by apply pretty_tail_inj in E as [-> ->].
  - change (json_string s +:+ t1 = json_string s2' +:+ t2) in E.
    by apply json_string_inj in E as [-> ->].
  - change (String "[" ((join "," (json_dumps <$> l) +:+ "]") +:+ t1)
      = String "[" ((join "," (json_dumps <$> l2) +:+ "]") +:+ t2)) in E.
    injection E as E. rewrite !str_app_assoc in E.
    change ("]" +:+ ?t) with (String "]" t) in E. rewrite !seq_text_join in E.
    by apply list_dumps_inj in E as [-> ->].
  - apply andb_prop in C1 as [S1 C1], C2 as [S2 C2].
    rewrite !dumps_obj_text in E by done. injection E as E.
    by apply obj_dumps_inj in E as [-> ->].
Qed.

(** [json.dumps(_, separators=(",", ":"), sort_keys=True)] is injective on
    canonical values. *)
Lemma json_dumps_inj v1 v2 :
  canonical v1 = true → canonical v2 = true → json_dumps v1 = json_dumps v2 → v1 = v2.
Proof.
  intros C1 C2 E. apply (json_dumps_tail_inj v1 v2 "" ""); [done..|].
  by rewrite E.
Qed.

(** ** ISO timestamps *)

Definition digit_char (c : ascii) : Prop := is_digit c = true.
(** The text that follows a number does not continue it. *)
Definition nondigit_head (t : string) : bool :=
  match t with EmptyString => true | String c _ => negb (is_digit c) end.

Lemma pad_tail_inj w x y t1 t2 :
  0 ≤ x → 0 ≤ y → nondigit_head t1 = true → nondigit_head t2 = true →
  pad w x +:+ t1 = pad w y +:+ t2 → x = y ∧ t1 = t2.
Proof.
  intros Hx Hy H1 H2 E. apply (f_equal chars) in E. rewrite !chars_app in E.
  apply (span_inj digit_char) in E as [Ep Et]; [|by apply pad_digits..| |].
  - split; [by apply (pad_inj w), chars_inj | by apply chars_inj].
  - intros h x' Hh. destruct t1; simplify_eq/=. unfold digit_char.
    by destruct (is_digit h).
  - intros h x' Hh. destruct t2; simplify_eq/=. unfold digit_char.
    by destruct (is_digit h).
Qed.

Lemma year_nonneg wall y m d : 0 ≤ wall → date_of wall = (y, m, d) → 0 ≤ y.
Proof.
  intros Hw E. pose proof (ymd_of_ordinal (wall / US_DAY + EPOCH_ORDINAL)) as Ho.
  unfold date_of in E. rewrite E in Ho. destruct Ho as (Ho & Hm & Hd).
  assert (0 ≤ wall / US_DAY) by (apply Z.div_pos; [done | unfold US_DAY, US_SECOND; lia]).
  destruct (decide (0 ≤ y)); [done|]. exfalso.
  assert (days_before_month y m ≤ 335) as Hb.
  { unfold days_before_month, days_before_month_common.
    assert (m = 1 ∨ m = 2 ∨ m = 3 ∨ m = 4 ∨ m = 5 ∨ m = 6 ∨ m = 7 ∨ m = 8 ∨ m = 9
      ∨ m = 10 ∨ m = 11 ∨ m = 12) as Hcase by lia.
    destruct (is_leap y); naive_solver (simpl; lia). }
  unfold ymd2ord, EPOCH_ORDINAL, days_before_year in Ho.
  pose proof (Z.div_le_upper_bound (y - 1) 4 0).
  pose proof (Z.mul_div_le (y - 1) 4). pose proof (Z.mul_succ_div_gt (y - 1) 100).
  pose proof (Z.mul_div_le (y - 1) 400). lia.
Qed.

Lemma iso_seconds_inj w1 w2 t1 t2 :
  0 ≤ w1 → 0 ≤ w2 → nondigit_head t1 = true → nondigit_head t2 = true →
  iso_seconds w1 +:+ t1 = iso_seconds w2 +:+ t2 →
  w1 / US_SECOND = w2 / US_SECOND ∧ t1 = t2.
Proof.
  intros H1 H2 T1 T2 E. unfold iso_seconds, iso_date in E.
  destruct (date_of w1) as [[y1 m1] d1] eqn:D1, (date_of w2) as [[y2 m2] d2] eqn:D2.
  pose proof (year_nonneg _ _ _ _ H1 D1). pose proof (year_nonneg _ _ _ _ H2 D2).
  unfold date_of in D1, D2.
  pose proof (ymd_of_ordinal (w1 / US_DAY + EPOCH_ORDINAL)) as O1. rewrite D1 in O1.
  pose proof (ymd_of_ordinal (w2 / US_DAY + EPOCH_ORDINAL)) as O2. rewrite D2 in O2.
  destruct O1 as (O1 & Hm1 & Hd1), O2 as (O2 & Hm2 & Hd2).
  assert (0 < US_SECOND) as HS by (unfold US_SECOND; lia).
  assert (US_DAY = 86400 * US_SECOND) as HD by done.
  pose proof (Z.mod_pos_bound w1 US_DAY ltac:(lia)) as R1.
  pose proof (Z.mod_pos_bound w2 US_DAY ltac:(lia)) as R2.
  rewrite !str_app_assoc in E.
  apply pad_tail_inj in E as [-> E]; [|lia|lia|done|done]. injection E as E.
  apply pad_tail_inj in E as [-> E]; [|lia|lia|done|done]. injection E as E.
  apply pad_tail_inj in E as [-> E]; [|lia|lia|done|done]. injection E as E.
  apply pad_tail_inj in E as [Eh E];
    [|unfold hour_of; apply Z.div_pos; lia|unfold hour_of; apply Z.div_pos; lia|done|done].
  injection E as E.
  apply pad_tail_inj in E as [Em E];
    [|unfold minute_of; apply Z.mod_pos_bound; lia|unfold minute_of; apply Z.mod_pos_bound; lia
     |done|done].
  injection E as E.
  apply pad_tail_inj in E as [Es E];
    [|unfold second_of; apply Z.mod_pos_bound; lia|unfold second_of; apply Z.mod_pos_bound; lia
     |done|done].
  split; [|done].
  assert (w1 / US_DAY = w2 / US_DAY) as Eday by lia.
  unfold hour_of, minute_of, second_of in *.
  pose proof (Z.div_mod w1 US_DAY ltac:(lia)) as Q1.
  pose proof (Z.div_mod w2 US_DAY ltac:(lia)) as Q2.
  set (r1 := w1 mod US_DAY) in *. set (r2 := w2 mod US_DAY) in *.
  assert (∀ r, 0 ≤ r → r / US_SECOND
    = 3600 * (r / (3600 * US_SECOND)) + 60 * (r / (60 * US_SECOND) mod 60)
      + r / US_SECOND mod 60) as Hdec.
  { intros r Hr.
    assert (r / (3600 * US_SECOND) = r / US_SECOND / 60 / 60) as ->
      by (rewrite !Z.div_div by lia; f_equal; lia).
    assert (r / (60 * US_SECOND) = r / US_SECOND / 60) as ->
      by (rewrite !Z.div_div by lia; f_equal; lia).
    set (q := r / US_SECOND).
    pose proof (Z.div_mod q 60). pose proof (Z.div_mod (q / 60) 60). lia. }
  assert (r1 / US_SECOND = r2 / US_SECOND) as Er
    by (rewrite (Hdec r1), (Hdec r2) by lia; rewrite Eh, Em, Es; done).
  rewrite Q1, Q2, Eday, HD.
  replace (86400 * US_SECOND * (w2 / (86400 * US_SECOND)) + r1)
    with (r1 + (86400 * (w2 / (86400 * US_SECOND))) * US_SECOND) by ring.
  replace (86400 * US_SECOND * (w2 / (86400 * US_SECOND)) + r2)
    with (r2 + (86400 * (w2 / (86400 * US_SECOND))) * US_SECOND) by ring.
  rewrite !Z.div_add by lia. by rewrite Er.
Qed.

Lemma micro_split w : w = US_SECOND * (w / US_SECOND) + micro_of w.
Proof. apply Z.div_mod. done. Qed.
Lemma micro_nonneg w : 0 ≤ micro_of w.
Proof. apply Z.mod_pos_bound. done. Qed.

Lemma iso_micro_inj w1 w2 :
  0 ≤ w1 → 0 ≤ w2 → iso_micro w1 = iso_micro w2 → w1 = w2.
Proof.
  intros H1 H2 E. unfold iso_micro in E.
  apply iso_seconds_inj in E as [Eq E]; [|done..]. injection E as E.
  apply pad_inj in E; [|apply micro_nonneg..].
  rewrite (micro_split w1), (micro_split w2). by rewrite Eq, E.
Qed.

Lemma iso_auto_inj w1 w2 z :
  0 ≤ w1 → 0 ≤ w2 → nondigit_head z = true → (∀ t, z ≠ String "." t) →
  iso_auto w1 +:+ z = iso_auto w2 +:+ z → w1 = w2.
Proof.
  intros H1 H2 Hz Hdot E. unfold iso_auto, iso_micro in E.
  rewrite (micro_split w1), (micro_split w2).
  destruct (Z.eqb_spec (micro_of w1) 0) as [M1|M1], (Z.eqb_spec (micro_of w2) 0) as [M2|M2];
    rewrite ?str_app_assoc in E; apply iso_seconds_inj in E as [Eq E]; try done.
  - by rewrite Eq, M1, M2.
  - by apply Hdot in E.
  - symmetry in E. by apply Hdot in E.
  - injection E as E. apply pad_tail_inj in E as [E _]; [|apply micro_nonneg..|done|done].
    by rewrite Eq, E.
Qed.
