(* ===== verification/Json.v ===== *)
(** * [json.loads]

    The recursive-descent decoder of the standard library, for documents over
    the values of [jval]: a number with a fraction or an exponent, or an escape
    above [U+00FF], is not represented and is refused.  A repeated key keeps its
    first place and its last value, as in a Python dict.  The fuel is one more
    than the length of the text: every call consumes a character or nests inside
    brackets that consume two.  Decoding undoes [json.dumps]. *)

From S2P Require Import Prelude PyStr Canonical.
From Stdlib Require Import Ascii.
Open Scope string_scope.
Open Scope Z_scope.

(** ** The decoder *)

Definition json_space (c : ascii) : bool :=
  let n := code c in (n =? 32) || (n =? 9) || (n =? 10) || (n =? 13).
Fixpoint skip_ws (s : string) : string :=
  match s with
  | String c t => if json_space c then skip_ws t else s
  | EmptyString => EmptyString
  end.

Definition hex_digit_val (c : ascii) : option Z :=
  let n := code c in
  if is_digit c then Some (n - 48)
  else if (97 <=? n) && (n <=? 102) then Some (n - 87)
  else if (65 <=? n) && (n <=? 70) then Some (n - 55)
  else None.
Definition hex4 (a b c d : ascii) : option Z :=
  match hex_digit_val a, hex_digit_val b, hex_digit_val c, hex_digit_val d with
  | Some w, Some x, Some y, Some z => Some (4096 * w + 256 * x + 16 * y + z)
  | _, _, _, _ => None
  end.
Definition unescape (c : ascii) : option ascii :=
  let n := code c in
  if (n =? 34) || (n =? 92) || (n =? 47) then Some c
  else if n =? 98 then Some (ascii_of_nat 8)
  else if n =? 102 then Some (ascii_of_nat 12)
  else if n =? 110 then Some (ascii_of_nat 10)
  else if n =? 114 then Some (ascii_of_nat 13)
  else if n =? 116 then Some (ascii_of_nat 9)
  else None.

Definition cons_char (c : ascii) (r : option (list ascii * string)) : option (list ascii * string) :=
  match r with Some (l, t) => Some (c :: l, t) | None => None end.

(** The characters of a string literal after its opening quote, and the text
    after its closing quote. *)
Fixpoint string_body (s : string) : option (list ascii * string) :=
  match s with
  | EmptyString => None
  | String c t =>
      if code c =? 34 then Some ([], t)
      else if code c =? 92 then
        match t with
        | String d u =>
            if code d =? 117 then
              match u with
              | String h1 (String h2 (String h3 (String h4 rest))) =>
                  match hex4 h1 h2 h3 h4 with
                  | Some n => if n <? 256 then cons_char (ascii_of_nat (Z.to_nat n)) (string_body rest)
                              else None
                  | None => None
                  end
              | _ => None
              end
            else match unescape d with
                 | Some e => cons_char e (string_body u)
                 | None => None
                 end
        | EmptyString => None
        end
      else if code c <? 32 then None
      else cons_char c (string_body t)
  end.

Fixpoint take_digits (s : string) : list ascii * string :=
  match s with
  | String c t => if is_digit c then let '(ds, r) := take_digits t in (c :: ds, r) else ([], s)
  | EmptyString => ([], s)
  end.
Definition continues_number (s : string) : bool :=
  match s with
  | String c _ => (code c =? 46) || (code c =? 69) || (code c =? 101)
  | EmptyString => false
  end.
Definition natural (s : string) : option (Z * string) :=
  let '(ds, r) := take_digits s in
  match ds with
  | [] => None
  | d :: ds' =>
      if (bool_decide (d = "0"%char) && negb (bool_decide (ds' = []))) || continues_number r
      then None
      else match digits_val 0 ds with Some n => Some (n, r) | None => None end
  end.
Definition parse_number (s : string) : option (jval * string) :=
  match s with
  | String c t =>
      if bool_decide (c = "-"%char)
      then match natural t with Some (n, r) => Some (JInt (- n), r) | None => None end
      else match natural s with Some (n, r) => Some (JInt n, r) | None => None end
  | EmptyString => None
  end.

Definition literal (rest : string) (v : jval) (s : string) : option (jval * string) :=
  match strip_prefix rest s with Some t => Some (v, t) | None => None end.

Fixpoint parse_value (fuel : nat) (s : string) {struct fuel} : option (jval * string) :=
  match fuel with
  | O => None
  | S f =>
      match skip_ws s with
      | EmptyString => None
      | String c t =>
          if bool_decide (c = quote) then
            match string_body t with Some (l, r) => Some (JStr (of_chars l), r) | None => None end
          else if bool_decide (c = "{"%char) then
            match skip_ws t with
            | String d r =>
                if bool_decide (d = "}"%char) then Some (JObj [], r)
                else match parse_members f [] (String d r) with
                     | Some (kvs, r') => Some (JObj kvs, r')
                     | None => None
                     end
            | EmptyString => None
            end
          else if bool_decide (c = "["%char) then
            match skip_ws t with
            | String d r =>
                if bool_decide (d = "]"%char) then Some (JList [], r)
                else match parse_elements f (String d r) with
                     | Some (l, r') => Some (JList l, r')
                     | None => None
                     end
            | EmptyString => None
            end
          else if bool_decide (c = "n"%char) then literal "ull" JNull t
          else if bool_decide (c = "t"%char) then literal "rue" (JBool true) t
          else if bool_decide (c = "f"%char) then literal "alse" (JBool false) t
          else parse_number (String c t)
      end
  end
with parse_members (fuel : nat) (acc : list (string * jval)) (s : string) {struct fuel}
    : option (list (string * jval) * string) :=
  match fuel, s with
  | S f, String q t =>
      if negb (bool_decide (q = quote)) then None
      else match string_body t with
      | None => None
      | Some (k, r) =>
          match skip_ws r with
          | String c r1 =>
              if negb (bool_decide (c = ":"%char)) then None
              else match parse_value f r1 with
              | None => None
              | Some (v, r2) =>
                  match skip_ws r2 with
                  | String d r3 =>
                      let acc' := obj_set (of_chars k) v acc in
                      if bool_decide (d = ","%char) then parse_members f acc' (skip_ws r3)
                      else if bool_decide (d = "}"%char) then Some (acc', r3)
                      else None
                  | EmptyString => None
                  end
              end
          | EmptyString => None
          end
      end
  | _, _ => None
  end
with parse_elements (fuel : nat) (s : string) {struct fuel} : option (list jval * string) :=
  match fuel with
  | O => None
  | S f =>
      match parse_value f s with
      | None => None
      | Some (v, r) =>
          match skip_ws r with
          | String d r1 =>
              if bool_decide (d = ","%char) then
                match parse_elements f r1 with
                | Some (l, r2) => Some (v :: l, r2)
                | None => None
                end
              else if bool_decide (d = "]"%char) then Some ([v], r1)
              else None
          | EmptyString => None
          end
      end
  end.

(** [json.loads(text)]; [None] is [json.JSONDecodeError]. *)
Definition json_loads (text : string) : option jval :=
  match parse_value (S (slen text)) text with
  | Some (v, rest) => if bool_decide (skip_ws rest = "") then Some v else None
  | None => None
  end.

(** [d.get(key) == n] for an integer [n]: a Python [bool] is an integer. *)
Definition equals_int (n : Z) (v : option jval) : bool :=
  match v with
  | Some (JInt z) => z =? n
  | Some (JBool b) => (if b then 1 else 0) =? n
  | _ => false
  end.

(** ** Decoding undoes encoding *)

Lemma string_body_char c t :
  string_body (of_chars (json_char c) +:+ t) = cons_char c (string_body t).
Proof. by destruct c as [[] [] [] [] [] [] [] []]. Qed.
Lemma string_body_json l t :
  string_body (of_chars (json_chars l) +:+ String quote t) = Some (l, t).
Proof.
  induction l as [|c l IH]; [done|]. cbn [json_chars].
  by rewrite of_chars_app, str_app_assoc, string_body_char, IH.
Qed.
Lemma string_body_literal s t :
  ∃ u, json_string s +:+ t = String quote u ∧ string_body u = Some (chars s, t).
Proof.
  exists (of_chars (json_chars (chars s)) +:+ String quote t). split; [|apply string_body_json].
  unfold json_string. rewrite of_chars_app, str_app_assoc. done.
Qed.

(** A number stops where the text after it does. *)
Lemma take_digits_app l t :
  Forall (λ c, is_digit c = true) l → nondigit_head t = true →
  take_digits (of_chars l +:+ t) = (l, t).
Proof.
  intros Hl Ht. induction Hl as [|c l Hc _ IH]; simpl.
  - destruct t as [|c t]; [done|]. simpl in Ht. simpl. by rewrite (proj1 (negb_true_iff _) Ht).
  - by rewrite Hc, IH.
Qed.
Lemma tail_not_number t : tail_ok t = true → nondigit_head t = true ∧ continues_number t = false.
Proof.
  destruct t as [|c t]; [done|]. simpl. unfold delim. intros Hd.
  destruct (decide (c = ","%char)) as [->|]; [done|].
  destruct (decide (c = "}"%char)) as [->|]; [done|].
  destruct (decide (c = "]"%char)) as [->|]; [done|]. by rewrite !bool_decide_eq_false_2 in Hd.
Qed.

Lemma natural_pretty (n : N) t :
  tail_ok t = true → natural (pretty n +:+ t) = Some (Z.of_N n, t).
Proof.
  intros [Hn Hc]%tail_not_number. unfold natural.
  destruct (pretty_N_head n) as (c & l & E & Hd & Hz).
  rewrite <- (of_chars_chars (pretty n)), take_digits_app by (done || apply pretty_N_all_digits).
  rewrite E, <- E, digits_val_pretty_N, Hc, orb_false_r. destruct (bool_decide_reflect (c = "0"%char)).
  - by rewrite (Hz e).
  - done.
Qed.

(** Every object lists a key once. *)
Fixpoint distinct_keys (v : jval) : bool :=
  match v with
  | JList l => forallb distinct_keys l
  | JObj kvs => bool_decide (NoDup kvs.*1) && forallb (λ kv, distinct_keys kv.2) kvs
  | _ => true
  end.

(** A printed value is read back, whatever follows it. *)
Definition loads_at (v : jval) : Prop := ∀ f t,
  (slen (json_dumps v) < f)%nat → tail_ok t = true → canonical v = true →
  distinct_keys v = true → parse_value f (json_dumps v +:+ t) = Some (v, t).

Lemma slen_app a b : slen (a +:+ b) = (slen a + slen b)%nat.
Proof. by rewrite <- !length_chars, chars_app, length_app. Qed.
Lemma skip_ws_dumps v t : skip_ws (json_dumps v +:+ t) = json_dumps v +:+ t.
Proof.
  destruct (dumps_head v t) as (c & s & -> & Hk). simpl. revert Hk.
  by destruct c as [[] [] [] [] [] [] [] []].
Qed.
Lemma seq_rest_cons close ps t : delim close = true →
  ∃ c s, seq_rest close ps t = String c s ∧ skip_ws (String c s) = String c s.
Proof.
  destruct ps as [|p ps]; intros Hd; [|by eexists _, _]. exists close, t. split; [done|].
  simpl. revert Hd. by destruct close as [[] [] [] [] [] [] [] []].
Qed.
Lemma slen_seq_rest close ps : (1 ≤ slen (seq_rest close ps ""))%nat.
Proof. destruct ps; simpl; lia. Qed.

Lemma parse_elements_text l : Forall loads_at l → ∀ f t, l ≠ [] →
  (slen (seq_text "]"%char (json_dumps <$> l) "") < f)%nat →
  forallb canonical l = true → forallb distinct_keys l = true →
  parse_elements f (seq_text "]"%char (json_dumps <$> l) t) = Some (l, t).
Proof.
  induction 1 as [|v l Hv _ IH]; intros f t Hne Hf Hc Hd; [done|]. clear Hne.
  rewrite fmap_cons, seq_text_cons in *. rewrite slen_app in Hf.
  simpl in Hc, Hd. apply andb_prop in Hc as [Hc Hcl], Hd as [Hd Hdl].
  pose proof (slen_seq_rest "]"%char (json_dumps <$> l)). destruct f as [|f]; [lia|].
  cbn [parse_elements]. rewrite (Hv f) by (done || lia || by apply seq_rest_ok).
  destruct l as [|w l]; [done|]. rewrite fmap_cons in *. cbn [seq_rest skip_ws].
  assert (json_space "," = false) as -> by done. rewrite bool_decide_eq_true_2 by done.
  rewrite <- fmap_cons, IH; [done|done| |done|done]. simpl in Hf. simpl. lia.
Qed.

Lemma obj_set_fresh k v acc : k ∉ acc.*1 → obj_set k v acc = (acc ++ [(k, v)])%list.
Proof.
  induction acc as [|[k' v'] acc IH]; intros Hk; simpl; [done|].
  rewrite bool_decide_eq_false_2 by set_solver. by rewrite IH by set_solver.
Qed.

Lemma field_text_head kv t : ∃ u, field_text kv +:+ t = String quote u.
Proof.
  unfold field_text. rewrite !str_app_assoc.
  destruct (string_body_literal kv.1 (":" +:+ json_dumps kv.2 +:+ t)) as (u & -> & _). eauto.
Qed.

Lemma parse_members_text kvs : Forall (λ kv, loads_at kv.2) kvs → ∀ f (acc : list (string * jval)) t, kvs ≠ [] →
  (slen (seq_text "}"%char (field_text <$> kvs) "") < f)%nat →
  forallb (λ kv, canonical kv.2) kvs = true → forallb (λ kv, distinct_keys kv.2) kvs = true →
  NoDup (acc ++ kvs)%list.*1 →
  parse_members f acc (seq_text "}"%char (field_text <$> kvs) t) = Some ((acc ++ kvs)%list, t).
Proof.
  induction 1 as [|[k v] kvs Hv _ IH]; intros f acc t Hne Hf Hc Hd Hn; [done|]. clear Hne.
  rewrite fmap_cons, seq_text_cons in *. rewrite slen_app in Hf.
  simpl in Hc, Hd. apply andb_prop in Hc as [Hc Hcl], Hd as [Hd Hdl].
  pose proof (slen_seq_rest "}"%char (field_text <$> kvs)).
  unfold field_text in Hf at 1. rewrite !slen_app in Hf. simpl fst in Hf. simpl snd in Hf.
  destruct f as [|f]; [lia|]. unfold field_text at 1. simpl fst. simpl snd. rewrite !str_app_assoc.
  destruct (string_body_literal k (":" +:+ json_dumps v +:+ seq_rest "}"%char (field_text <$> kvs) t))
    as (u & -> & Eu).
  cbn [parse_members]. rewrite bool_decide_eq_true_2, Eu by done. cbn [negb].
  change (":" +:+ ?x) with (String ":" x). cbn [skip_ws].
  assert (json_space ":" = false) as -> by done. rewrite bool_decide_eq_true_2 by done. cbn [negb].
  simpl in Hv. rewrite Hv by (done || lia || by apply seq_rest_ok). rewrite of_chars_chars.
  rewrite fmap_app, fmap_cons in Hn. apply NoDup_app in Hn as Hn'. destruct Hn' as (_ & Hk & _).
  rewrite obj_set_fresh by (intros Hin; apply (Hk _ Hin); left).
  destruct kvs as [|kv kvs]; [done|]. rewrite fmap_cons in *. cbn [seq_rest skip_ws].
  assert (json_space "," = false) as -> by done. rewrite bool_decide_eq_true_2 by done.
  assert (∀ x, skip_ws (seq_text "}" (field_text kv :: (field_text <$> kvs)) x)
    = seq_text "}" (field_text kv :: (field_text <$> kvs)) x) as ->.
  { intros x. rewrite seq_text_cons. by destruct (field_text_head kv
      (seq_rest "}"%char (field_text <$> kvs) x)) as [? ->]. }
  rewrite <- fmap_cons, IH; [by rewrite <- app_assoc|done| |done|done|].
  - simpl in Hf. simpl. lia.
  - by rewrite <- app_assoc, fmap_app.
Qed.

Lemma parse_number_N (n : N) t :
  tail_ok t = true → parse_number (pretty n +:+ t) = Some (JInt (Z.of_N n), t).
Proof.
  intros Ht. pose proof (natural_pretty n t Ht) as E.
  destruct (pretty_N_head n) as (d & l & El & Hd & _).
  destruct (pretty n) as [|c s]; [done|]. simplify_eq/=. rewrite bool_decide_eq_false_2, E; [done|].
  by intros ->.
Qed.
Lemma literal_app rest v t : literal rest v (rest +:+ t) = Some (v, t).
Proof. unfold literal. by rewrite strip_prefix_app. Qed.

Lemma parse_value_list f d r : d ≠ "]"%char → skip_ws (String d r) = String d r →
  parse_value (S f) (String "[" (String d r)) = match parse_elements f (String d r) with
    | Some (l, r') => Some (JList l, r')
    | None => None
    end.
Proof.
  intros Hd Hw. change (parse_value (S f) (String "[" (String d r))) with
    (match skip_ws (String d r) with
     | String d r => if bool_decide (d = "]"%char) then Some (JList [], r)
                     else match parse_elements f (String d r) with
                          | Some (l, r') => Some (JList l, r')
                          | None => None
                          end
     | EmptyString => None
     end).
  by rewrite Hw, bool_decide_eq_false_2.
Qed.
Lemma parse_value_obj f r :
  parse_value (S f) (String "{" (String quote r)) = match parse_members f [] (String quote r) with
    | Some (kvs, r') => Some (JObj kvs, r')
    | None => None
    end.
Proof. done. Qed.

(** A printed object ends at its brace, so anything may follow it. *)
Lemma parse_object kvs : Forall (λ kv, loads_at kv.2) kvs → ∀ f t,
  (slen (json_dumps (JObj kvs)) < f)%nat → canonical (JObj kvs) = true →
  distinct_keys (JObj kvs) = true →
  parse_value f (json_dumps (JObj kvs) +:+ t) = Some (JObj kvs, t).
Proof.
  intros IHk f t Hf Hc Hd. destruct f as [|f]; [lia|].
  apply andb_prop in Hc as [Hs Hc]. simpl in Hd. apply andb_prop in Hd as [Hn Hd].
  apply bool_decide_eq_true in Hn.
  assert (slen (seq_text "}" (field_text <$> kvs) "") < f)%nat as Hf'.
  { pose proof (dumps_obj_text kvs "" Hs) as Ht'. rewrite str_app_nil_r in Ht'.
    rewrite Ht' in Hf. simpl in Hf. lia. }
  rewrite dumps_obj_text by done. destruct kvs as [|kv kvs]; [done|].
  pose proof (parse_members_text (kv :: kvs) IHk f [] t ltac:(done) Hf' Hc Hd Hn) as E.
  rewrite fmap_cons, seq_text_cons in *.
  destruct (field_text_head kv (seq_rest "}" (field_text <$> kvs) t)) as (u & Es).
  rewrite Es in *. by rewrite parse_value_obj, E.
Qed.

Lemma parse_dumps v : loads_at v.
Proof.
  induction v as [|b|z|s|l IHl|kvs IHk] using jval_nested_ind; intros f t Hf Ht Hc Hd;
    (destruct f as [|f]; [lia|]).
  1-4: cbn [parse_value]; rewrite skip_ws_dumps.
  - by apply literal_app.
  - destruct b; by apply literal_app.
  - destruct (dumps_head (JInt z) t) as (c & s & E & Hk). rewrite E.
    rewrite !bool_decide_eq_false_2 by (intros ->; done). rewrite <- E. simpl json_dumps.
    destruct z as [|p|p].
    + exact (parse_number_N 0 t Ht).
    + exact (parse_number_N (N.pos p) t Ht).
    + change (pretty (Z.neg p)) with (String "-" (pretty (N.pos p))). simpl.
      by rewrite natural_pretty.
  - destruct (string_body_literal s t) as (u & E & Eu). simpl json_dumps. rewrite E.
    rewrite bool_decide_eq_true_2, Eu by done. by rewrite of_chars_chars.
  - change (json_dumps (JList l) +:+ t)
      with (String "[" ((join "," (json_dumps <$> l) +:+ "]") +:+ t)).
    rewrite str_app_assoc. change ("]" +:+ t) with (String "]" t). rewrite seq_text_join.
    assert (slen (seq_text "]" (json_dumps <$> l) "") < f)%nat as Hf'.
    { rewrite <- seq_text_join. simpl in Hf. rewrite !slen_app in *. simpl in *. lia. }
    destruct l as [|v l]; [done|].
    pose proof (parse_elements_text (v :: l) IHl f t ltac:(done) Hf' Hc Hd) as E.
    rewrite fmap_cons, seq_text_cons in *.
    pose proof (skip_ws_dumps v (seq_rest "]" (json_dumps <$> l) t)) as Hw.
    destruct (dumps_head v (seq_rest "]" (json_dumps <$> l) t)) as (c & s & Es & Hk).
    rewrite Es in *. rewrite parse_value_list, E; [done|by intros ->|done].
  - by apply parse_object.
Qed.

(** [json.loads(json.dumps(v))] is [v], for a value with sorted distinct keys. *)
Lemma json_loads_dumps v :
  canonical v = true → distinct_keys v = true → json_loads (json_dumps v) = Some v.
Proof.
  intros Hc Hd. unfold json_loads. rewrite <- (str_app_nil_r (json_dumps v)) at 2.
  by rewrite parse_dumps by (done || lia).
Qed.

(** The same for a file: an object and white space after it. *)
Lemma json_loads_file kvs t :
  canonical (JObj kvs) = true → distinct_keys (JObj kvs) = true → skip_ws t = "" →
  json_loads (json_dumps (JObj kvs) +:+ t) = Some (JObj kvs).
Proof.
  intros Hc Hd Ht. unfold json_loads. rewrite parse_object; [by rewrite Ht| | |done|done].
  - apply Forall_forall. intros kv _. apply parse_dumps.
  - rewrite slen_app. lia.
Qed.
