(* ===== verification/Runtime.v ===== *)
(** * The runtime the request handlers execute in

    [Env] is what the deployment and the outside world supply: configuration,
    the HMAC and SHA-256 primitives, the sequences of random values and clock
    advances, which audit inserts and mail deliveries fail, and the attributes
    of the current request.  [St] is what a request changes: the durable
    database, the session's pending view of it, the clock, the Flask session
    dict, the mail outbox, the files the program writes and the process's cache
    of Access signing keys.

    The [n]-th effect of a request reads the [n]-th element of the oracles, so
    every behaviour of the outside world is covered by some [Env]. *)

From S2P Require Import Prelude PyStr PyDecimal TimeModel Schema.
From Stdlib Require Import Ascii.
Open Scope string_scope.
Open Scope Z_scope.

(** What [pathlib] tells of a path besides the contents of a regular file: it is
    a symbolic link; it is there but not a regular file; its directory is not a
    plain directory or lies behind a symbolic link; others than the owner have
    access. *)
Record PathFacts : Type := mkPathFacts {
  pf_symlink : bool; pf_special : bool; pf_parent_unsafe : bool; pf_shared : bool
}.

Class Env : Type := {
  (** [current_app.config], scalars. *)
  config : string → option jval;
  (** [TRANSACTION_LEDGER_HMAC_KEYS] ([None]: not a dict) and its active id. *)
  ledger_hmac_keys : option (list (string * string));
  (** [SESSION_HMAC_KEYS]. *)
  session_hmac_keys : list (string * string);
  (** [SESSION_LOOKUP_HMAC_KEY] ([None]: not configured as bytes). *)
  session_lookup_hmac_key : option string;
  (** [hashlib] and [hmac]: [hmac.new(key, message, sha256)]. *)
  hmac_sha256 : string → string → string;
  hmac_sha256_hex : string → string → string;
  sha256_hex : string → string;
  sha1_hex : string → string;
  pbkdf2_hmac_sha256 : string → string → Z → string;
  (** [AESGCM(key).encrypt(nonce, data, aad)] and [.decrypt(nonce, data, aad)],
      which may raise, and the keyring [MFA_KEK_KEYS]. *)
  aesgcm_encrypt : string → string → string → string → res string;
  aesgcm_decrypt : string → string → string → string → res string;
  mfa_kek_keys : list (string * string);
  (** [unicodedata.normalize("NFC", text)]. *)
  nfc : string → string;
  (** [uuid.uuid4], [secrets.token_urlsafe], [secrets.token_hex], [os.urandom(n)],
      [secrets.randbelow(n)] and [pyotp.random_base32]. *)
  uuid4 : nat → string;
  token_urlsafe : nat → string;
  urandom_hex : nat → string;
  urandom : nat → nat → string;
  randbelow : nat → Z → Z;
  random_base32 : nat → string;
  (** [datetime.fromisoformat], as an instant ([None]: [ValueError]). *)
  datetime_fromisoformat : string → option Z;
  (** The code [pyotp.TOTP(secret).at(time)] expects, its [provisioning_uri]
      and the PNG image of its QR code. *)
  totp_at : string → Z → string;
  provisioning_uri : string → string → string → string;
  qr_png : string → string;
  (** The answer of the breached-password range service to a prefix: the HTTP
      status and the body ([None]: the connection failed). *)
  hibp_response : nat → string → option (Z * string);
  (** The answer of the challenge service to a POST: host, port, path and body
      ([None]: the connection failed). *)
  siteverify_response : nat → string → option Z → string → string → option string;
  (** The answer of the alert webhook to a POST of a body to a URL: the status
      code, or the class of the exception. *)
  webhook_response : nat → string → string → string + Z;
  (** The answer of the Access signing-key endpoint ([None]: [OSError]). *)
  jwks_response : nat → string → option string;
  (** The size in bits of the RSA key with this exponent and modulus ([None]: the
      numbers are refused), and PKCS#1 v1.5 verification with SHA-256 of a
      signature over a message. *)
  rsa_key_size : Z → Z → option Z;
  rsa_verify : Z * Z → string → string → bool;
  (** Flask's [url_for(endpoint, token=token, _external=True)]. *)
  url_for_token : string → string → string;
  (** The lines of the common-password file at a path ([None]: no such file). *)
  common_password_lines : string → option (list string);
  (** Why an access to the file at a path fails, if it does: the class of the
      [OSError]. *)
  file_fault : nat → string → option string;
  path_facts : string → PathFacts;
  (** [os.getpid()]. *)
  getpid : Z;
  (** [time.monotonic()], in microseconds. *)
  monotonic : nat → Z;
  (** Microseconds that pass before a clock reading. *)
  tick : nat → N;
  (** Whether an audit insert, or an SMTP delivery, fails. *)
  audit_fault : nat → bool;
  smtp_fault : nat → bool;
  (** [db.engine.dialect.name == "postgresql"]. *)
  postgresql : bool;
  (** The Flask request. *)
  has_request_context : bool;
  request_remote_addr : option string;
  request_user_agent : string;
  request_path : string;
  request_method : string;
  request_correlation_id : string;
  request_cookie : string → option string;
  request_endpoint : string;
  (** [request.get_json(silent=True)] of a JSON request and [request.form.get]. *)
  request_json : option jval;
  request_form : string → option string;
  request_header : string → option string;
  (** Flask's [session_json_serializer]; [loads] may raise. *)
  session_json_dumps : list (string * jval) → string;
  session_json_loads : string → res jval
}.

Record Mail : Type := mkMail { to_address : string; subject : string; body : string }.

Record St : Type := mkSt {
  committed : Db;
  working : Db;
  clock : Z;
  effects : nat;
  session : gmap string jval;
  session_sid : option string;
  outbox : list Mail;
  files : gmap string string;
  jwks_cache : gmap string (Z * list (string * (Z * Z)))
}.

Definition set_committed (d : Db) (s : St) : St :=
  mkSt d (working s) (clock s) (effects s) (session s) (session_sid s)
    (outbox s) (files s) (jwks_cache s).
Definition set_working (d : Db) (s : St) : St :=
  mkSt (committed s) d (clock s) (effects s) (session s) (session_sid s)
    (outbox s) (files s) (jwks_cache s).
Definition set_clock (t : Z) (s : St) : St :=
  mkSt (committed s) (working s) t (effects s) (session s) (session_sid s)
    (outbox s) (files s) (jwks_cache s).
Definition next_effect (s : St) : St :=
  mkSt (committed s) (working s) (clock s) (S (effects s)) (session s) (session_sid s)
    (outbox s) (files s) (jwks_cache s).
Definition set_session (m : gmap string jval) (s : St) : St :=
  mkSt (committed s) (working s) (clock s) (effects s) m (session_sid s)
    (outbox s) (files s) (jwks_cache s).
Definition set_session_sid (sid : option string) (s : St) : St :=
  mkSt (committed s) (working s) (clock s) (effects s) (session s) sid (outbox s) (files s) (jwks_cache s).
Definition add_mail (m : Mail) (s : St) : St :=
  mkSt (committed s) (working s) (clock s) (effects s) (session s) (session_sid s)
    (outbox s ++ [m])%list (files s) (jwks_cache s).
Definition set_files (m : gmap string string) (s : St) : St :=
  mkSt (committed s) (working s) (clock s) (effects s) (session s) (session_sid s)
    (outbox s) m (jwks_cache s).
Definition set_jwks_cache (m : gmap string (Z * list (string * (Z * Z)))) (s : St) : St :=
  mkSt (committed s) (working s) (clock s) (effects s) (session s) (session_sid s)
    (outbox s) (files s) m.

(** What the integrity theorems assume of HMAC-SHA-256: no collision among the
    messages at hand, under any key. *)
Definition hmac_separates `{Env} (messages : list string) : Prop :=
  ∀ k m m', m ∈ messages → m' ∈ messages →
    hmac_sha256_hex k m = hmac_sha256_hex k m' → m = m'.

(** ** Effects *)

Section Effects.
Context `{Env}.

(** [datetime.now(timezone.utc)]. *)
Definition now_utc : M St Z := λ s,
  let t := clock s + Z.of_N (tick (effects s)) in
  (Ok t, next_effect (set_clock t s)).

(** [int(time.time())]. *)
Definition time_seconds : M St Z :=
  t <- now_utc ;; ret (t / US_SECOND).

Definition fresh {A} (f : nat → A) : M St A := λ s, (Ok (f (effects s)), next_effect s).

(** The database session: reads and pending writes go to [working]. *)
Definition db_get {A} (f : Db → A) : M St A := gets (λ s, f (working s)).
Definition db_write (f : Db → Db) : M St unit := modify (λ s, set_working (f (working s)) s).
Definition db_query {A} (f : Db → res A) : M St A := λ s, (f (working s), s).

(** [db.session.commit()]: durable when the constraints hold, otherwise the
    database reports the violation. *)
Definition commit : M St unit := λ s,
  if db_ok (working s) then (Ok tt, set_committed (working s) s)
  else (Raise IntegrityError, s).
(** [db.session.flush()]. *)
Definition flush : M St unit := λ s,
  if db_ok (working s) then (Ok tt, s) else (Raise IntegrityError, s).
(** [db.session.rollback()]. *)
Definition rollback : M St unit := modify (λ s, set_working (committed s) s).

(** [current_app.config[name]] and [current_app.config.get(name)]. *)
Definition config_item (name : string) : res jval :=
  match config name with Some v => Ok v | None => Raise (KeyError name) end.

(** [str(v)] of a configuration value. *)
Definition py_str (v : jval) : string :=
  match v with
  | JStr s => s
  | JInt z => pretty z
  | JBool true => "True"
  | JBool false => "False"
  | JNull => "None"
  | JList _ | JObj _ => json_dumps v
  end.

(** [int(current_app.config[name])]. *)
Definition config_int (name : string) : res Z :=
  rbind (config_item name) (λ v, py_int (Some v)).
(** [int(current_app.config.get(name, default))]. *)
Definition config_int_default (name : string) (default : Z) : res Z :=
  match config name with Some v => py_int (Some v) | None => Ok default end.
(** [str(current_app.config.get(name) or "")]. *)
Definition config_str_or_empty (name : string) : string :=
  match config name with Some v => if truthy v then py_str v else "" | None => "" end.
(** [current_app.config[name]] where a number is compared with it. *)
Definition config_number (name : string) : res Z :=
  rbind (config_item name) (λ v,
    match v with
    | JInt z => Ok z
    | JBool b => Ok (if b then 1 else 0)
    | _ => Raise TypeError
    end).
(** [Decimal(str(current_app.config[name]))]. *)
Definition config_decimal (name : string) : res pydec :=
  rbind (config_item name) (λ v, decimal_of_str (py_str v)).

(** The Flask session dict. *)
Definition session_get (k : string) : M St (option jval) := gets (λ s, session s !! k).
Definition session_put (k : string) (v : jval) : M St unit :=
  modify (λ s, set_session (<[k:=v]> (session s)) s).
Definition session_pop (k : string) : M St (option jval) := λ s,
  (Ok (session s !! k), set_session (delete k (session s)) s).
Definition session_clear : M St unit := modify (set_session ∅).
Definition current_session_id : M St (option string) :=
  gets (λ s, if has_request_context then session_sid s else None).

End Effects.

(** ** Mail ([app/security/email.py]) *)

Definition EMAIL_GREETING : string := "Dear Valued Customer,".
Definition EMAIL_CLOSING : string :=
  "Thank you for banking with us. We look forward to serving you again.".
Definition newline : string := String (ascii_of_nat 10) "".
Definition EMAIL_SIGN_OFF : string :=
  "Yours sincerely," +:+ newline +:+ "Digital Banking Services" +:+ newline +:+ "SITBank".
Definition EMAIL_UNRECOGNIZED_ACTIVITY_NOTICE : string :=
  "If you did not request or expect this activity, contact SITBank support " +:+
  "through the approved recovery path.".

Section Email.
Context `{Env}.

Definition _ensure_secure_smtp_mode (use_tls : bool) : res unit :=
  let app_env := casefold (strip (config_str_or_empty "APP_ENV")) in
  let deployment_target := casefold (strip (config_str_or_empty "DEPLOYMENT_TARGET")) in
  if (bool_decide (app_env = "production")
      || str_in deployment_target ["staging"; "production"]) && negb use_tls
  then Raise (RuntimeError "SMTP_USE_TLS=true is required for staging and production SMTP")
  else Ok tt.

Definition _deliver_to_outbox (delivery : Mail) : M St unit :=
  if bool_decide (config_str_or_empty "APP_ENV" = "production")
  then raise (RuntimeError "Console email backend is not allowed in production")
  else modify (add_mail delivery).

(** The SMTP exchange itself is the oracle's: the message is accepted, or the
    attempt raises. *)
Definition _deliver_smtp (delivery : Mail) : M St unit :=
  let use_tls := match config "SMTP_USE_TLS" with Some v => truthy v | None => true end in
  _ <- lift (_ensure_secure_smtp_mode use_tls) ;;
  failed <- fresh smtp_fault ;;
  if (failed : bool) then raise MailError else modify (add_mail delivery).

Definition send_security_email (to_addr subj text : string) : M St unit :=
  let delivery := mkMail to_addr subj text in
  let backend := casefold (match config "PASSWORD_RESET_EMAIL_BACKEND" with
                           | Some v => py_str v
                           | None => "console"
                           end) in
  if bool_decide (backend = "console") then _deliver_to_outbox delivery
  else if bool_decide (backend = "smtp") then _deliver_smtp delivery
  else raise (RuntimeError "Unsupported password reset email backend").

End Email.

(** ** Invariants of the database part of the state

    [on_db P] lifts a property of the durable and the pending database. *)

Definition on_db (P : Db → Db → Prop) (s : St) : Prop := P (committed s) (working s).

Section DbInvariants.
Context `{Env}.
Context (P : Db → Db → Prop).

Lemma pres_now : preserves (on_db P) now_utc.
Proof. by intros s Hs. Qed.
Lemma pres_time_seconds : preserves (on_db P) time_seconds.
Proof. by intros s Hs. Qed.
Lemma pres_fresh {A} (f : nat → A) : preserves (on_db P) (fresh f).
Proof. by intros s Hs. Qed.
Lemma pres_db_get {A} (f : Db → A) : preserves (on_db P) (db_get f).
Proof. by intros s Hs. Qed.
Lemma pres_db_query {A} (f : Db → res A) : preserves (on_db P) (db_query f).
Proof. by intros s Hs. Qed.
Lemma pres_flush : preserves (on_db P) flush.
Proof. intros s Hs. unfold flush. by destruct (db_ok _). Qed.
Lemma pres_session_get k : preserves (on_db P) (session_get k).
Proof. by intros s Hs. Qed.
Lemma pres_session_put k v : preserves (on_db P) (session_put k v).
Proof. by intros s Hs. Qed.
Lemma pres_session_pop k : preserves (on_db P) (session_pop k).
Proof. by intros s Hs. Qed.
Lemma pres_session_clear : preserves (on_db P) session_clear.
Proof. by intros s Hs. Qed.
Lemma pres_set_sid sid : preserves (on_db P) (modify (set_session_sid sid)).
Proof. by intros s Hs. Qed.
Lemma pres_current_session_id : preserves (on_db P) current_session_id.
Proof. by intros s Hs. Qed.
Lemma pres_commit :
  (∀ c w, P c w → db_ok w = true → P w w) → preserves (on_db P) commit.
Proof.
  intros HP s Hs. unfold commit. destruct (db_ok (working s)) eqn:E; [|done].
  unfold on_db in *; simpl. by eapply HP.
Qed.
Lemma pres_rollback : (∀ c w, P c w → P c c) → preserves (on_db P) rollback.
Proof. intros HP s Hs. unfold on_db in *; simpl. by eapply HP. Qed.
Lemma pres_db_write f : (∀ c w, P c w → P c (f w)) → preserves (on_db P) (db_write f).
Proof. intros HP s Hs. unfold on_db in *; simpl. by apply HP. Qed.
Lemma pres_add_mail m : preserves (on_db P) (modify (add_mail m)).
Proof. by intros s Hs. Qed.

Lemma pres_send_security_email a b c : preserves (on_db P) (send_security_email a b c).
Proof.
  unfold send_security_email, _deliver_to_outbox, _deliver_smtp.
  repeat case_match; solve_pres; auto using pres_add_mail, pres_fresh, pres_raise.
Qed.
End DbInvariants.

#[export] Hint Resolve pres_now pres_time_seconds pres_fresh pres_db_get pres_db_query
  pres_flush pres_session_get pres_session_put pres_session_pop pres_session_clear
  pres_set_sid pres_current_session_id
  pres_add_mail pres_send_security_email : pres.

(** A loop of writes is one write. *)
Lemma mapM_db_write {A} (f : A → Db → Db) l s :
  mapM_ (λ x, db_write (f x)) l s = (Ok tt, set_working (foldl (λ d x, f x d) (working s) l) s).
Proof.
  revert s. induction l as [|x l IH]; intros s; simpl; [by destruct s|].
  erewrite bind_Ok by done. rewrite IH. done.
Qed.

(** ** Requests

    When a request ends, whatever it did, its database session is removed:
    pending changes are gone. *)

Definition serve {A} (c : M St A) : M St (res A) := λ s,
  let '(r, s') := c s in (Ok r, set_working (committed s') s').

(** ** The clock never runs backwards *)

Definition not_before (t : Z) (s : St) : Prop := t ≤ clock s.

Section ClockInvariants.
Context `{Env} (t : Z).
Lemma nb_now : preserves (not_before t) now_utc.
Proof. intros s Hs. unfold not_before in *. simpl. lia. Qed.
Lemma nb_time_seconds : preserves (not_before t) time_seconds.
Proof. intros s Hs. unfold not_before in *. simpl. lia. Qed.
Lemma nb_db_get {A} (f : Db → A) : preserves (not_before t) (db_get f).
Proof. by intros s Hs. Qed.
Lemma nb_db_query {A} (f : Db → res A) : preserves (not_before t) (db_query f).
Proof. by intros s Hs. Qed.
Lemma nb_session_get k : preserves (not_before t) (session_get k).
Proof. by intros s Hs. Qed.
Lemma nb_session_id : preserves (not_before t) current_session_id.
Proof. by intros s Hs. Qed.
Lemma nb_fresh {A} (f : nat → A) : preserves (not_before t) (fresh f).
Proof. by intros s Hs. Qed.
Lemma nb_db_write f : preserves (not_before t) (db_write f).
Proof. by intros s. Qed.
Lemma nb_commit : preserves (not_before t) commit.
Proof. intros s Hs. unfold commit. by case_match. Qed.
Lemma nb_flush : preserves (not_before t) flush.
Proof. intros s Hs. unfold flush. by case_match. Qed.
Lemma nb_rollback : preserves (not_before t) rollback.
Proof. by intros s. Qed.
End ClockInvariants.
#[export] Hint Resolve nb_now nb_time_seconds nb_db_get nb_db_query nb_session_get nb_session_id
  nb_fresh nb_db_write nb_commit nb_flush nb_rollback : pres.

(** ** Entries of the session dict *)

Definition session_key (k : string) (v : option jval) (s : St) : Prop := session s !! k = v.

Section SessionInvariants.
Context `{Env} (k : string) (v : option jval).
Lemma sk_now : preserves (session_key k v) now_utc.
Proof. by intros s. Qed.
Lemma sk_time_seconds : preserves (session_key k v) time_seconds.
Proof. by intros s. Qed.
Lemma sk_fresh {A} (f : nat → A) : preserves (session_key k v) (fresh f).
Proof. by intros s. Qed.
Lemma sk_db_get {A} (f : Db → A) : preserves (session_key k v) (db_get f).
Proof. by intros s. Qed.
Lemma sk_db_query {A} (f : Db → res A) : preserves (session_key k v) (db_query f).
Proof. by intros s. Qed.
Lemma sk_db_write f : preserves (session_key k v) (db_write f).
Proof. by intros s. Qed.
Lemma sk_commit : preserves (session_key k v) commit.
Proof. intros s Hs. unfold commit. by case_match. Qed.
Lemma sk_flush : preserves (session_key k v) flush.
Proof. intros s Hs. unfold flush. by case_match. Qed.
Lemma sk_rollback : preserves (session_key k v) rollback.
Proof. by intros s. Qed.
Lemma sk_set_working d : preserves (session_key k v) (modify (set_working d)).
Proof. by intros s. Qed.
Lemma sk_set_sid sid : preserves (session_key k v) (modify (set_session_sid sid)).
Proof. by intros s. Qed.
Lemma sk_session_get k' : preserves (session_key k v) (session_get k').
Proof. by intros s. Qed.
Lemma sk_current_session_id : preserves (session_key k v) current_session_id.
Proof. by intros s. Qed.
Lemma sk_session_put k' v' :
  bool_decide (k' = k) = false → preserves (session_key k v) (session_put k' v').
Proof.
  intros Hk%bool_decide_eq_false s Hs. unfold session_key in *. simpl. by rewrite lookup_insert_ne.
Qed.
Lemma sk_session_pop k' : bool_decide (k' = k) = false → preserves (session_key k v) (session_pop k').
Proof.
  intros Hk%bool_decide_eq_false s Hs. unfold session_key in *. simpl. by rewrite lookup_delete_ne.
Qed.
Lemma sk_send_security_email a b c : preserves (session_key k v) (send_security_email a b c).
Proof.
  unfold send_security_email, _deliver_to_outbox, _deliver_smtp.
  repeat case_match; solve_pres; try apply sk_fresh; by intros s.
Qed.
End SessionInvariants.
#[export] Hint Resolve sk_now sk_time_seconds sk_fresh sk_db_get sk_db_query sk_db_write sk_commit
  sk_flush sk_rollback sk_set_working sk_set_sid sk_session_get sk_current_session_id
  sk_send_security_email : pres.
#[export] Hint Extern 1 (preserves (session_key _ _) (session_put _ _)) =>
  apply sk_session_put; reflexivity : pres.
#[export] Hint Extern 1 (preserves (session_key _ _) (session_pop _)) =>
  apply sk_session_pop; reflexivity : pres.

Lemma now_utc_mono `{Env} s t s' : now_utc s = (Ok t, s') → clock s ≤ t ∧ clock s' = t.
Proof. unfold now_utc. intros [= <- <-]. simpl. lia. Qed.
