(* ===== verification/Sample.v ===== *)
(** * A concrete deployment

    The instantiation the witnesses evaluate: a configuration, two customers
    with opening credits, a payee and a pending transfer.  The HMAC of this
    deployment is the (injective) concatenation of key and message. *)

From S2P Require Import Prelude PyStr Base64 TimeModel Schema Json Runtime.
From Stdlib Require Import Ascii.
Open Scope string_scope.
Open Scope Z_scope.

Module Sample.

Definition key32 (c : ascii) : string := of_chars (repeat c 32).

Definition sample_config (name : string) : option jval :=
  assoc name
    [("SESSION_HMAC_ACTIVE_KEY_ID", JStr "s1");
     ("TRANSACTION_LEDGER_HMAC_ACTIVE_KEY_ID", JStr "l1");
     ("SECURITY_AUDIT_HMAC_KEY", JStr (key32 "a"%char));
     ("PAYEE_COOLDOWN_SECONDS", JInt 60);
     ("PAYUP_QUICK_TRANSFER_CAP", JStr "100.00");
     ("PAYUP_QUICK_DAILY_CAP", JStr "200.00");
     ("PAYUP_QUICK_SESSION_MAX_AGE_SECONDS", JInt 900);
     ("PAYUP_SENSITIVE_EVENT_COOLDOWN_SECONDS", JInt 3600);
     ("SESSION_INACTIVITY_SECONDS", JInt 600);
     ("SESSION_ABSOLUTE_LIFETIME_SECONDS", JInt 28800);
     ("PUBLIC_TRANSACTION_IDEMPOTENCY_TTL_SECONDS", JInt 3600);
     ("TOPUP_APPROVAL_TTL_SECONDS", JInt 300);
     ("PASSWORD_PEPPER_B64", JStr "cHBwcHBwcHBwcHBwcHBwcHBwcHBwcHBwcHBwcHBwcHA=");
     ("COMMON_PASSWORDS_PATH", JStr "common.txt");
     ("COMMON_PASSWORDS_MIN_ENTRIES", JInt 1);
     ("MFA_KEK_ACTIVE_ID", JStr "k1");
     ("MFA_ISSUER_NAME", JStr "SITBank");
     ("PENDING_MFA_MAX_AGE_SECONDS", JInt 300);
     ("CUSTOMER_MFA_FAILURE_LIMIT", JInt 5);
     ("CUSTOMER_MFA_FAILURE_WINDOW_SECONDS", JInt 900);
     ("PROFILE_EMAIL_CHANGE_TTL_SECONDS", JInt 300);
     ("FRESH_MFA_SECONDS", JInt 300);
     ("SESSION_COOKIE_NAME", JStr "session");
     ("DEVICE_COOKIE_NAME", JStr "device");
     ("DEVICE_COOKIE_MAX_AGE_SECONDS", JInt 31536000);
     ("PASSWORD_RESET_TOKEN_TTL_SECONDS", JInt 900);
     ("PASSWORD_RESET_TRANSACTION_TTL_SECONDS", JInt 900);
     ("PASSWORD_RESET_BASE_URL", JStr "https://bank.example/");
     ("MANUAL_RECOVERY_REQUEST_TTL_SECONDS", JInt 86400);
     ("ADMIN_ALLOWED_EMAIL_DOMAINS", JStr "bank.example");
     ("ROOT_ADMIN_EMAILS", JList [JStr "ruth@bank.example"; JStr "rita@bank.example"]);
     ("ADMIN_MFA_FAILURE_LIMIT", JInt 5);
     ("ADMIN_MFA_FAILURE_WINDOW_SECONDS", JInt 900);
     ("APP_MODE", JStr "customer")].

(** What the deployments of the witnesses differ in. *)
Record Outside : Type := mkOutside {
  o_config : string → option jval; o_hmac : string → string → string; o_tokens : nat → string;
  o_challenge : option string; o_parse_time : string → option Z;
  o_jwks : option string; o_rsa_verify : Z * Z → string → string → bool;
  o_header : string → option string;
  o_dictionary : list string;
  o_postgresql : bool
}.
Definition deployment_of (o : Outside) : Env := {|
  config := o_config o;
  ledger_hmac_keys := Some [("l1", key32 "k"%char)];
  session_hmac_keys := [("s1", key32 "s"%char)];
  session_lookup_hmac_key := Some (key32 "l"%char);
  hmac_sha256 := o_hmac o;
  hmac_sha256_hex := o_hmac o;
  sha256_hex := λ m, m;
  sha1_hex := λ m, m;
  pbkdf2_hmac_sha256 := λ p s i, s +:+ p;
  aesgcm_encrypt := λ key nonce data aad, Ok (key +:+ nonce +:+ aad +:+ data);
  aesgcm_decrypt := λ key nonce data aad,
    match strip_prefix key data with
    | Some rest => match strip_prefix nonce rest with
                   | Some rest => match strip_prefix aad rest with
                                  | Some text => Ok text
                                  | None => Raise InvalidTag
                                  end
                   | None => Raise InvalidTag
                   end
    | None => Raise InvalidTag
    end;
  mfa_kek_keys := [("k1", key32 "m"%char)];
  nfc := λ m, m;
  uuid4 := λ n, "uuid-" +:+ pretty (N.of_nat n);
  token_urlsafe := o_tokens o;
  urandom_hex := λ n, of_chars (repeat "a"%char n);
  urandom := λ _ n, of_chars (repeat "u"%char n);
  randbelow := λ n k, Z.of_nat n mod k;
  random_base32 := λ _, "SECRET";
  datetime_fromisoformat := o_parse_time o;
  totp_at := λ _ t, pad 6 (t / 30 mod 1000000);
  provisioning_uri := λ secret name issuer, "otpauth://totp/" +:+ issuer +:+ ":" +:+ name;
  qr_png := λ uri, uri;
  hibp_response := λ _ _, Some (200, "");
  siteverify_response := λ _ _ _ _ _, o_challenge o;
  webhook_response := λ _ _ _, inr 204;
  jwks_response := λ _ _, o_jwks o;
  rsa_key_size := λ _ _, Some 2048;
  rsa_verify := o_rsa_verify o;
  url_for_token := λ _ token, "https://staff.sitbank.example/invites/" +:+ token;
  common_password_lines := λ _, Some (o_dictionary o);
  file_fault := λ _ _, None;
  path_facts := λ _, mkPathFacts false false false false;
  getpid := 41;
  monotonic := λ n, Z.of_nat n;
  tick := λ _, 1000000%N;
  audit_fault := λ _, false;
  smtp_fault := λ _, false;
  postgresql := o_postgresql o;
  has_request_context := true;
  request_remote_addr := Some "203.0.113.7";
  request_user_agent := "Browser/1.0";
  request_path := "/transfer";
  request_method := "POST";
  request_correlation_id := "c-1";
  request_cookie := λ name, if bool_decide (name = "session") then Some "sid-1" else None;
  request_endpoint := "web.transfer_submit";
  request_json := None;
  request_form := λ _, None;
  request_header := o_header o;
  session_json_dumps := λ kvs, json_dumps (JObj kvs);
  session_json_loads := λ text, match json_loads text with Some v => Ok v | None => Raise (ValueError "") end
|}.

(** The deployment, given its configuration, its HMAC, its random tokens and what
    the challenge service answers. *)
Definition deployment_with (settings : string → option jval) (hmac : string → string → string)
    (tokens : nat → string) (challenge : option string) : Env :=
  deployment_of (mkOutside settings hmac tokens challenge (λ _, None) None (λ _ _ _, false) (λ _, None)
    ["password"] true).

Definition deployment (hmac : string → string → string) : Env :=
  deployment_with sample_config hmac (λ n, "token-" +:+ pretty (N.of_nat n)) None.

#[local] Instance sample_env : Env := deployment (λ k m, k +:+ m).

(** A deployment whose digests are 64 hexadecimal digits, as SHA-256 digests
    are: they separate messages of different lengths only. *)
Definition hex_env : Env := deployment (λ _ m, "0" +:+ pad 63 (Z.of_nat (slen m))).

(** A deployment whose digests keep the last 64 characters of key and message. *)
Definition tail_env : Env := deployment (λ k m, str_last 64 (k +:+ m)).

Lemma hex_digest_nonempty k m : @hmac_sha256_hex hex_env k m ≠ "".
Proof. done. Qed.

Lemma hex_separates ms :
  Forall (λ m, Forall (λ m',
    @hmac_sha256_hex hex_env "" m = @hmac_sha256_hex hex_env "" m' → m = m') ms) ms →
  @hmac_separates hex_env ms.
Proof.
  intros Hs k m m' Hm Hm' E. rewrite Forall_forall in Hs. specialize (Hs m Hm).
  rewrite Forall_forall in Hs. by apply Hs.
Qed.

(** The sample HMAC is collision free, not empty and never the chain's start
    value. *)
Lemma sample_hmac_collision_free k m m' :
  @hmac_sha256_hex sample_env k m = @hmac_sha256_hex sample_env k m' → m = m'.
Proof.
  simpl. intros E. apply (f_equal chars) in E. rewrite !chars_app in E.
  apply chars_inj. by eapply app_inv_head.
Qed.

(** 1 March 2026, 12:00:00 UTC. *)
Definition noon : Z := 1772366400 * US_SECOND.
Definition opened : Z := noon - 30 * US_DAY.

(** The envelope of the authenticator secret ["SECRET"], under data key and
    nonces of this deployment's random source. *)
Definition sealed_secret (user_id : string) : string :=
  let bytes n := of_chars (repeat "u"%char n) in
  let aad := "sitbank:mfa-secret:v1:user:" +:+ user_id in
  json_dumps (JObj
    [("alg", JStr "AES-256-GCM"); ("dek_nonce", JStr (b64encode (bytes 12%nat)));
     ("dek_wrapped", JStr (b64encode (key32 "m"%char +:+ bytes 12%nat +:+ aad
                                        +:+ ":kek:k1:part:dek" +:+ bytes 32%nat)));
     ("kek_id", JStr "k1");
     ("secret_ciphertext", JStr (b64encode (bytes 32%nat +:+ bytes 12%nat +:+ aad
                                              +:+ ":part:secret" +:+ "SECRET")));
     ("secret_nonce", JStr (b64encode (bytes 12%nat))); ("v", JInt 1)]).

Definition customer (user_id name account phone : string) (balance : Z) : User :=
  mkUser name (name +:+ "@example.com") (Some (name +:+ "@example.com")) "hash" "customer"
    "active" name (Some phone) (Some name) (Some account) None None opened false None None
    (Some (sealed_secret user_id)) (Some "SITMFAENV001") true None None balance 50000 true true 50000 false 0 None None
    opened opened None.

(** An employee, with a verified workplace address. *)
Definition employee (user_id name role phone : string) : User :=
  mkUser name (name +:+ "@bank.example") None "hash" role "active" name (Some phone) None None None
    (Some opened) opened false None None (Some (sealed_secret user_id)) (Some "SITMFAENV001") true None None
    0 50000 true true 50000 false 0 None None opened opened None.

Definition alice : User := customer "1" "alice" "111111111111" "91111111" 10000.
Definition bob : User := customer "2" "bob" "222222222222" "92222222" 10000.

Definition credit (ref : string) (user : Z) : CreditLedgerRow :=
  mkCreditLedgerRow ref ("h-" +:+ ref) (Some "l1") (Some "hmac-sha256") (Some 1) user 10000
    "completed" opened.

(** The token ["tok"] of a pending transfer of 25.00 to bob. *)
Definition sample_verifier : string :=
  str_take 64 (key32 "s"%char +:+ "local-transfer-confirmation:tok").
Definition sample_payup_verifier : string :=
  str_take 64 (key32 "s"%char +:+ "payup-transfer-confirmation:tok").

(** Alice's signed-in browser session ["sid-1"]. *)
Definition alice_session : ServerSideSession :=
  mkServerSideSession "customer" (key32 "l"%char +:+ "sid-1") None (Some "payload") "json" (Some 1)
    (noon - 60 * US_SECOND) noon (noon + 600 * US_SECOND) None None None "203.0.113.7"
    "Browser/1.0" "risk".

Definition sample_db : Db :=
  mkDb (<[1 := alice]> (<[2 := bob]> ∅))
    {[ 7 := mkPayee 1 "Bob" "222222222222" "bob" (noon - US_DAY) ]}
    ∅
    (<[1 := credit "c1" 1]> (<[2 := credit "c2" 2]> ∅))
    ∅ ∅
    {[ 3 := mkPendingTransfer sample_verifier 2500000 "rent" (noon + US_DAY) None None noon 1 7 ]}
    {[ 4 := mkPayupPendingTransfer sample_payup_verifier 1000000 "lunch" (noon + US_DAY) None None
              noon 1 2 ]}
    ∅ ∅ ∅ ∅ {[ 11 := alice_session ]} ∅ ∅ ∅ ∅ ∅ ∅ ∅ ∅ ∅ ∅ ∅ ∅ ∅ [].

(** The same bank with two root administrators and a clerk. *)
Definition portal_db : Db :=
  upd_users (λ t, <[3 := employee "3" "ruth" "root_admin" "93333333"]>
    (<[4 := employee "4" "rita" "root_admin" "94444444"]>
      (<[5 := employee "5" "sam" "staff" "95555555"]> t))) sample_db.

(** Signed in one minute ago from the same network and browser. *)
Definition sample_session : gmap string jval :=
  <["user_id" := JInt 1]> (<["auth_created_at" := JInt (noon / US_SECOND - 60)]>
    (<["risk_context" := JObj [("version", JInt 1); ("ip_network_hash", JStr (key32 "s"%char));
       ("user_agent_family_hash", JStr (key32 "s"%char));
       ("user_agent_hash", JStr (key32 "s"%char))]]> ∅)).

Definition sample_state : St :=
  mkSt sample_db sample_db noon 0 sample_session
    (Some "sid-1") [] ∅ ∅.

End Sample.
