(* ===== verification/Turnstile.v ===== *)
(** * Challenges ([app/security/turnstile.py])

    The forms a stranger can post are behind a challenge whose answer the service
    confirms.  A production deployment refuses a request it cannot confirm. *)

From S2P Require Import Prelude PyStr IpAddress TimeModel Json Schema Runtime Sample.
From Stdlib Require Import Ascii.
Open Scope string_scope.
Open Scope Z_scope.

Module Turnstile.
Import IpAddress.

(** ** [urllib.parse] *)

Record SplitResult : Type := mkSplitResult {
  us_scheme : string;
  us_netloc : string;
  us_path : string;
  us_query : string;
  us_fragment : string
}.

Definition scheme_char (c : ascii) : bool := is_alnum c || bool_decide (c ∈ chars "+-.").
Definition is_alpha (c : ascii) : bool := is_upper c || is_lower c.

(** The text from the first of the characters [stop] on. *)
Fixpoint break_at (stop : ascii → bool) (l : list ascii) : list ascii * list ascii :=
  match l with
  | [] => ([], [])
  | c :: l' => if stop c then ([], l) else let '(a, b) := break_at stop l' in (c :: a, b)
  end.

(** [s.rpartition("@")], as the text before (if ["@"] occurs) and the text after. *)
Definition rpartition_user (l : list ascii) : option (list ascii) * list ascii :=
  match partition_char "@" (rev l) with
  | Some (a, b) => (Some (rev b), rev a)
  | None => (None, l)
  end.

(** [_check_bracketed_host]. *)
Definition bracketed_host_ok (host : list ascii) : bool :=
  match host with
  | "v"%char :: rest =>
      match partition_char "." rest with
      | Some (digits, label) => negb (bool_decide (digits = [])) && forallb is_hex digits && negb (bool_decide (label = []))
      | None => false
      end
  | _ => bool_decide (is_Some (parse_ipv6 host))
  end.
(** [_check_bracketed_netloc]. *)
Definition bracketed_netloc_ok (netloc : list ascii) : bool :=
  let host_and_port := (rpartition_user netloc).2 in
  match partition_char "[" host_and_port with
  | Some (before, bracketed) =>
      match before with
      | [] => match partition_char "]" bracketed with
              | Some (host, port) =>
                  match port with [] | ":"%char :: _ => bracketed_host_ok host | _ => false end
              | None => bracketed_host_ok bracketed
              end
      | _ => false
      end
  | None => bracketed_host_ok (break_at (λ c, bool_decide (c = ":"%char)) host_and_port).1
  end.

Definition has_char (c : ascii) (l : list ascii) : bool := bool_decide (c ∈ l).

(** [urlsplit(url)] of an ASCII text. *)
Definition urlsplit (text : string) : res SplitResult :=
  let url := List.filter (λ c, negb (bool_decide (code c = 9) || bool_decide (code c = 10) || bool_decide (code c = 13)))
               (drop_while (λ c, code c <=? 32) (chars text)) in
  let '(scheme, url) :=
    match partition_char ":" url with
    | Some ((c :: _) as before, after) =>
        if is_alpha c && forallb scheme_char before then (lower_char <$> before, after) else ([], url)
    | _ => ([], url)
    end in
  let '(netloc, url) :=
    match url with
    | "/"%char :: "/"%char :: rest => break_at (λ c, bool_decide (c ∈ chars "/?#")) rest
    | _ => ([], url)
    end in
  if negb (Bool.eqb (has_char "[" netloc) (has_char "]" netloc)) then Raise (ValueError "Invalid IPv6 URL")
  else if has_char "[" netloc && negb (bracketed_netloc_ok netloc) then Raise (ValueError "Invalid IPv6 URL")
  else
    let '(url, fragment) := match partition_char "#" url with Some (a, b) => (a, b) | None => (url, []) end in
    let '(path, query) := match partition_char "?" url with Some (a, b) => (a, b) | None => (url, []) end in
    Ok (mkSplitResult (of_chars scheme) (of_chars netloc) (of_chars path) (of_chars query) (of_chars fragment)).

(** [result.username] and [result.password]. *)
Definition us_username (u : SplitResult) : option string :=
  match (rpartition_user (chars (us_netloc u))).1 with
  | Some userinfo => Some (of_chars (break_at (λ c, bool_decide (c = ":"%char)) userinfo).1)
  | None => None
  end.
Definition us_password (u : SplitResult) : option string :=
  match (rpartition_user (chars (us_netloc u))).1 with
  | Some userinfo => match partition_char ":" userinfo with Some (_, p) => Some (of_chars p) | None => None end
  | None => None
  end.
(** The host and the port as they are written. *)
Definition hostinfo (u : SplitResult) : list ascii * list ascii :=
  let host_and_port := (rpartition_user (chars (us_netloc u))).2 in
  let after_colon l := match partition_char ":" l with Some (_, p) => p | None => [] end in
  match partition_char "[" host_and_port with
  | Some (_, bracketed) =>
      match partition_char "]" bracketed with
      | Some (host, port) => (host, after_colon port)
      | None => (bracketed, [])
      end
  | None => ((break_at (λ c, bool_decide (c = ":"%char)) host_and_port).1, after_colon host_and_port)
  end.
Definition us_hostname (u : SplitResult) : option string :=
  match (hostinfo u).1 with
  | [] => None
  | host => let '(name, zone) := break_at (λ c, bool_decide (c = "%"%char)) host in
            Some (of_chars ((lower_char <$> name) ++ zone)%list)
  end.
Definition us_port (u : SplitResult) : res (option Z) :=
  match (hostinfo u).2 with
  | [] => Ok None
  | digits =>
      if forallb is_digit digits then
        match digits_val 0 digits with
        | Some n => if n <=? 65535 then Ok (Some n) else Raise (ValueError "Port out of range 0-65535")
        | None => Raise (ValueError "Port could not be cast to integer value")
        end
      else Raise (ValueError "Port could not be cast to integer value")
  end.

(** [urlencode(pairs)]: [quote_plus] of the names and values. *)
Definition plus_char (c : ascii) : list ascii :=
  if is_alnum c || bool_decide (c ∈ chars "_.-~") then [c]
  else if bool_decide (c = " "%char) then ["+"%char]
  else let n := code c in ["%"%char; upper_char (hex_digit (n / 16)); upper_char (hex_digit (n mod 16))].
Definition quote_plus (text : string) : string := of_chars (flat_map plus_char (chars text)).
Definition urlencode (pairs : list (string * string)) : string :=
  join "&" ((λ '(k, v), quote_plus k +:+ "=" +:+ quote_plus v) <$> pairs).

(** ** The challenge *)

Definition _CHALLENGE_FAILED_MESSAGE : string := "Challenge verification failed".
Definition OFFICIAL_TURNSTILE_VERIFY_URL : string := "https://challenges.cloudflare.com/turnstile/v0/siteverify".
Definition TURNSTILE_TEST_SITE_KEY : string := "1x00000000000000000000AA".
Definition TURNSTILE_TEST_SECRET_KEY : string := "1x0000000000000000000000000000000AA".
Definition TURNSTILE_TEST_TOKEN : string := "XXXX.DUMMY.TOKEN.XXXX".
Definition TURNSTILE_TEST_ACTION : string := "test".
Definition _TURNSTILE_TOKEN_FIELDS : list string := ["cf-turnstile-response"; "turnstile_token"].
Definition _ACTION_CONFIG : list (string * string) :=
  [("customer_login", "TURNSTILE_CUSTOMER_LOGIN_ENABLED");
   ("customer_register_otp", "TURNSTILE_CUSTOMER_REGISTER_OTP_ENABLED");
   ("customer_register", "TURNSTILE_CUSTOMER_REGISTER_ENABLED");
   ("customer_password_reset", "TURNSTILE_CUSTOMER_PASSWORD_RESET_ENABLED");
   ("customer_manual_recovery", "TURNSTILE_CUSTOMER_MANUAL_RECOVERY_ENABLED");
   ("admin_login", "TURNSTILE_ADMIN_LOGIN_ENABLED");
   ("admin_invite_accept", "TURNSTILE_ADMIN_INVITE_ACCEPT_ENABLED")].
Definition challenge_failed : exn := TurnstileError _CHALLENGE_FAILED_MESSAGE.

(** [d.get(key) is True] and [d.get(key) == text]. *)
Definition is_true (v : option jval) : bool := match v with Some (JBool b) => b | _ => false end.
Definition is_text (text : string) (v : option jval) : bool :=
  match v with Some (JStr s) => bool_decide (s = text) | _ => false end.

Section Challenge.
Context `{Env}.

Definition _production_like : bool :=
  let app_env := casefold (strip (config_str_or_empty "APP_ENV")) in
  let deployment_target := casefold (strip (config_str_or_empty "DEPLOYMENT_TARGET")) in
  bool_decide (app_env = "production") || str_in deployment_target ["staging"; "production"].

Definition _turnstile_required_for_config (config_key : string) : bool :=
  otruthy (config "TURNSTILE_ENABLED") && otruthy (config config_key).

Definition _turnstile_action_config_key (action : string) : res string :=
  match assoc (strip action) _ACTION_CONFIG with
  | Some key => Ok key
  | None => Raise challenge_failed
  end.

Definition turnstile_required_for_action (action : string) : res bool :=
  rbind (_turnstile_action_config_key action) (λ key, Ok (_turnstile_required_for_config key)).
Definition turnstile_widget_enabled (action : string) : res bool :=
  rbind (turnstile_required_for_action action) (λ required,
    Ok (required && nonempty (strip (config_str_or_empty "TURNSTILE_SITE_KEY")))).

Definition _accepts_test_action (token : string) (result : list (string * jval)) : bool :=
  is_true (config "TURNSTILE_ALLOW_TEST_ACTION")
  && bool_decide (token = TURNSTILE_TEST_TOKEN)
  && is_text TURNSTILE_TEST_ACTION (obj_get "action" result)
  && bool_decide (casefold (strip (config_str_or_empty "DEPLOYMENT_TARGET")) = "smoke")
  && bool_decide (strip (config_str_or_empty "TURNSTILE_SITE_KEY") = TURNSTILE_TEST_SITE_KEY)
  && bool_decide (strip (config_str_or_empty "TURNSTILE_SECRET_KEY") = TURNSTILE_TEST_SECRET_KEY).

(** [str(v or "")] of an entry of a decoded object. *)
Definition entry_text (k : string) (result : list (string * jval)) : string :=
  match obj_get k result with Some v => if truthy v then py_str v else "" | None => "" end.
Definition allowed_hostnames : list string :=
  match config "TURNSTILE_ALLOWED_HOSTNAMES" with
  | Some (JList l) => omap (λ v, match v with JStr s => Some s | _ => None end) l
  | _ => []
  end.

Definition _verify_turnstile_hostname (result : list (string * jval)) : res unit :=
  if negb (bool_decide (allowed_hostnames = [])) then
    let provided_hostname := casefold (strip (entry_text "hostname" result)) in
    if str_in provided_hostname allowed_hostnames then Ok tt else Raise challenge_failed
  else if _production_like then Raise challenge_failed
  else Ok tt.

Definition _turnstile_verify_target : res (string * option Z * string) :=
  rbind (config_item "TURNSTILE_VERIFY_URL") (λ v,
    let raw_url := py_str v in
    rbind (urlsplit raw_url) (λ parsed,
      match us_hostname parsed with
      | Some hostname =>
          if negb (bool_decide (us_scheme parsed = "https")) then Raise challenge_failed
          else if nonempty (default "" (us_username parsed)) || nonempty (default "" (us_password parsed))
                  || nonempty (us_query parsed) || nonempty (us_fragment parsed) then Raise challenge_failed
          else if _production_like && negb (bool_decide (raw_url = OFFICIAL_TURNSTILE_VERIFY_URL))
          then Raise challenge_failed
          else
            let path := if nonempty (us_path parsed) then us_path parsed else "/" in
            rbind (us_port parsed) (λ port, Ok (hostname, port, path))
      | None => Raise challenge_failed
      end)).

Definition validate_turnstile_runtime_config (action : string) : res unit :=
  rbind (if nonempty action then _turnstile_action_config_key action else Ok "") (λ _,
  if negb (otruthy (config "TURNSTILE_ENABLED")) then Ok tt
  else if negb (nonempty (strip (config_str_or_empty "TURNSTILE_SECRET_KEY"))) then Raise challenge_failed
  else if nonempty action && _production_like && negb (nonempty (strip (config_str_or_empty "TURNSTILE_SITE_KEY")))
  then Raise challenge_failed
  else rbind _turnstile_verify_target (λ _, Ok tt)).

(** What the service answered, decoded: at most 16 KiB of it. *)
Definition decode_answer (body : option string) : option (list (string * jval)) :=
  match body with
  | Some text => match json_loads (str_take (Z.to_nat 16384) text) with Some (JObj kvs) => Some kvs | _ => None end
  | None => None
  end.

(** Whether the answer confirms the token for the action. *)
Definition confirms (token expected_action : string) (result : list (string * jval)) : bool :=
  is_true (obj_get "success" result)
  && (negb (nonempty expected_action) || is_text expected_action (obj_get "action" result)
      || _accepts_test_action token result).

Definition verify_turnstile_token (token : option string) (expected_action : string) : M St unit :=
  if negb (otruthy (config "TURNSTILE_ENABLED")) then ret tt
  else
    let token_text := strip (default "" token) in
    let secret_key := strip (config_str_or_empty "TURNSTILE_SECRET_KEY") in
    if negb (nonempty token_text) || negb (nonempty secret_key) then raise challenge_failed
    else
      let payload := urlencode [("secret", secret_key); ("response", token_text);
                                ("remoteip", default "" request_remote_addr)] in
      result <- match _turnstile_verify_target with
                | Ok (host, port, target) =>
                    body <- fresh (λ n, siteverify_response n host port target payload) ;;
                    ret (decode_answer body)
                | Raise _ => ret None
                end ;;
      match result with
      | Some kvs => if confirms token_text expected_action kvs then lift (_verify_turnstile_hostname kvs)
                    else raise challenge_failed
      | None => raise challenge_failed
      end.

(** The first non-empty token field of the JSON body, then of the form. *)
Definition turnstile_token_from_request : option string :=
  let from_json :=
    match request_json with
    | Some (JObj kvs) => head (omap (λ f, match obj_get f kvs with
                                          | Some v => if truthy v then Some (py_str v) else None
                                          | None => None
                                          end) _TURNSTILE_TOKEN_FIELDS)
    | _ => None
    end in
  match from_json with
  | Some t => Some t
  | None => head (omap (λ f, match request_form f with
                             | Some v => if nonempty v then Some v else None
                             | None => None
                             end) _TURNSTILE_TOKEN_FIELDS)
  end.

Definition require_turnstile (action : string) (token : option string) : M St unit :=
  config_key <- lift (_turnstile_action_config_key action) ;;
  if _production_like
     && match config "TURNSTILE_FAIL_CLOSED_IN_PRODUCTION" with Some v => truthy v | None => true end
     && (negb (otruthy (config "TURNSTILE_ENABLED")) || negb (otruthy (config config_key)))
  then raise challenge_failed
  else if negb (_turnstile_required_for_config config_key) then ret tt
  else
    _ <- lift (validate_turnstile_runtime_config action) ;;
    verify_turnstile_token (match token with Some t => Some t | None => turnstile_token_from_request end) action.


(** ** What production asks for *)

(** A confirmed answer of the official service, for the token and the action. *)
Definition confirmed (n : nat) (token : option string) (action : string) : Prop :=
  ∃ payload body kvs, siteverify_response n "challenges.cloudflare.com" None "/turnstile/v0/siteverify" payload = Some body
    ∧ payload = urlencode [("secret", strip (config_str_or_empty "TURNSTILE_SECRET_KEY"));
                           ("response", strip (default "" token)); ("remoteip", default "" request_remote_addr)]
    ∧ decode_answer (Some body) = Some kvs ∧ confirms (strip (default "" token)) action kvs = true
    ∧ str_in (casefold (strip (entry_text "hostname" kvs))) allowed_hostnames = true.

Lemma production_target target :
  _production_like = true → _turnstile_verify_target = Ok target →
  target = ("challenges.cloudflare.com", None, "/turnstile/v0/siteverify").
Proof.
  unfold _turnstile_verify_target. intros -> E. destruct (config_item _) as [v|]; [|done]. simpl in E.
  assert (py_str v = OFFICIAL_TURNSTILE_VERIFY_URL) as Hurl.
  { destruct (urlsplit (py_str v)) as [u|]; [|done]. simpl in E. destruct (us_hostname u); [|done].
    destruct (negb (bool_decide (us_scheme u = "https"))); [done|]. destruct (_ || _ || _ || _); [done|].
    by destruct (bool_decide_reflect (py_str v = OFFICIAL_TURNSTILE_VERIFY_URL)). }
  rewrite Hurl in E. vm_compute in E. congruence.
Qed.

Lemma production_hostname kvs :
  _production_like = true → _verify_turnstile_hostname kvs = Ok tt →
  str_in (casefold (strip (entry_text "hostname" kvs))) allowed_hostnames = true.
Proof.
  unfold _verify_turnstile_hostname. intros ->. destruct (negb _); [|done]. by destruct (str_in _ _).
Qed.

Lemma verified_token token action s s' :
  _production_like = true → otruthy (config "TURNSTILE_ENABLED") = true →
  verify_turnstile_token token action s = (Ok tt, s') → confirmed (effects s) token action ∧ s' = next_effect s.
Proof.
  unfold verify_turnstile_token. intros Hp -> E. simpl in E. destruct (_ || _); [done|].
  inv_bind E. destruct _turnstile_verify_target as [[[host port] target]|] eqn:Et;
    [|unfold ret in E0; injection E0 as <- <-; done].
  apply production_target in Et as [= -> -> ->]; [|done]. inv_bind E0. unfold fresh in E1. injection E1 as <- <-.
  unfold ret in E0. injection E0 as <- <-. destruct (decode_answer _) as [kvs|] eqn:Ed; [|done].
  destruct (confirms _ _ _) eqn:Ec; [|done]. unfold lift in E. injection E as Eh <-. split; [|done].
  destruct (siteverify_response _ _ _ _ _) as [body|] eqn:Eb; [|done].
  eexists _, body, kvs. split_and!; [exact Eb|done..|]. by apply production_hostname.
Qed.

Lemma required_is_confirmed action token s s' :
  _production_like = true →
  match config "TURNSTILE_FAIL_CLOSED_IN_PRODUCTION" with Some v => truthy v | None => true end = true →
  require_turnstile action token s = (Ok tt, s') →
  confirmed (effects s) (match token with Some t => Some t | None => turnstile_token_from_request end) action
  ∧ s' = next_effect s.
Proof.
  intros Hp Hf E. unfold require_turnstile in E. inv_bind E. unfold lift in E0. injection E0 as _ <-.
  rewrite Hp, Hf in E. unfold _turnstile_required_for_config in E.
  destruct (otruthy (config "TURNSTILE_ENABLED")) eqn:Een; [|done].
  destruct (otruthy (config a)); [|done]. simpl in E. inv_bind E. unfold lift in E0. injection E0 as _ <-.
  by apply verified_token.
Qed.
End Challenge.
End Turnstile.
Import Turnstile.

(** A production deployment that fails closed lets a guarded form through only
    when the official challenge service confirmed the token for that action and
    reported a host name that is allowed; nothing else of the state changes. *)
Theorem turnstile_fails_closed `{Env} action token s s' :
  _production_like = true →
  match config "TURNSTILE_FAIL_CLOSED_IN_PRODUCTION" with Some v => truthy v | None => true end = true →
  require_turnstile action token s = (Ok tt, s') →
  confirmed (effects s) (match token with Some t => Some t | None => turnstile_token_from_request end) action
  ∧ s' = next_effect s.
Proof. apply required_is_confirmed. Qed.

(** ** Witness: a login form in production *)

Definition production_config (name : string) : option jval :=
  match assoc name
    [("APP_ENV", JStr "production"); ("TURNSTILE_ENABLED", JBool true);
     ("TURNSTILE_CUSTOMER_LOGIN_ENABLED", JBool true); ("TURNSTILE_SECRET_KEY", JStr "secret");
     ("TURNSTILE_SITE_KEY", JStr "site"); ("TURNSTILE_VERIFY_URL", JStr OFFICIAL_TURNSTILE_VERIFY_URL);
     ("TURNSTILE_ALLOWED_HOSTNAMES", JList [JStr "bank.example"])] with
  | Some v => Some v
  | None => Sample.sample_config name
  end.
Definition confirmation : string :=
  json_dumps (JObj [("success", JBool true); ("action", JStr "customer_login"); ("hostname", JStr "Bank.example")]).
Definition production_env : Env :=
  Sample.deployment_with production_config (λ k m, k +:+ m) (λ _, "token") (Some confirmation).

Lemma turnstile_witness :
  (@require_turnstile production_env "customer_login" (Some " answer ") Sample.sample_state).1 = Ok tt
  ∧ @confirmed production_env (effects Sample.sample_state) (Some " answer ") "customer_login".
Proof.
  assert (@require_turnstile production_env "customer_login" (Some " answer ") Sample.sample_state
    = (Ok tt, next_effect Sample.sample_state)) as E by (vm_compute; reflexivity).
  split; [exact (f_equal fst E)|].
  exact (proj1 (@turnstile_fails_closed production_env "customer_login" (Some " answer ") Sample.sample_state
    (next_effect Sample.sample_state) eq_refl eq_refl E)).
Defined.
