(* ===== verification/Passwords.v ===== *)
(** * Password hashing and screening ([app/security/passwords.py])

    A stored hash is [osp-pbkdf2-sha256$v1$i=<iterations>$s=<salt>$h=<digest>]:
    PBKDF2 of the peppered, normalised password.  New passwords are screened by
    length, against a local dictionary, and against a breached-password service
    behind a circuit breaker kept in the database: after enough failures the
    service is not asked until the breaker closes again. *)

From S2P Require Import Prelude PyStr Base64 TimeModel Schema Runtime Sample.
From Stdlib Require Import Ascii.
Open Scope string_scope.
Open Scope Z_scope.

Module Passwords.

Definition HIBP_RANGE_API_URL : string := "https://api.pwnedpasswords.com/range".
Definition HIBP_MAX_RESPONSE_BYTES : nat := 256 * 1024.
Definition HIBP_FALLBACK_WARNING : string :=
  "Live breached-password screening was unavailable; the local password blocklist was applied.".
Definition COMMON_PASSWORD_ERROR : string := "Password is too common. Please try again".
Definition HIBP_CIRCUIT_SERVICE : string := "hibp_password_check".
Definition PASSWORD_MIN_LENGTH : Z := 8.
Definition PASSWORD_MAX_CHARS : Z := 256.
Definition PBKDF2_PREFIX : string := "osp-pbkdf2-sha256".
Definition PBKDF2_VERSION : string := "v1".
Definition PBKDF2_SALT_BYTES : nat := 32.

(** [except (AttributeError, TypeError, ValueError): return <default>]. *)
Definition or_on_malformed {A} (default : A) (r : res A) : res A :=
  match r with
  | Raise TypeError => Ok default
  | Raise e => if is_value_error e then Ok default else Raise e
  | Ok a => Ok a
  end.

Definition _b64encode (value : string) : string :=
  of_chars (rstrip_pad (chars (urlsafe_b64encode value))).
Definition _b64decode (value : string) : res string :=
  if negb (is_ascii value) then Raise (ValueError "ordinal not in range(128)")
  else match urlsafe_b64decode (of_chars (restore_pad (chars value))) with
       | Some bytes => Ok bytes
       | None => Raise (ValueError "Incorrect padding")
       end.

Definition _parse_iterations (value : string) : res Z :=
  let '(label, separator, text) := partition_at "=" value in
  if negb (bool_decide (label = "i") && separator)
  then Raise (ValueError "Invalid PBKDF2 iteration field")
  else match parse_int text with
       | None => Raise (ValueError "invalid literal for int()")
       | Some iterations =>
           if iterations <? 600000 then Raise (ValueError "PBKDF2 iteration count is too low")
           else Ok iterations
       end.

Definition _parse_b64_part (value label : string) : res string :=
  let '(actual_label, separator, text) := partition_at "=" value in
  if negb (bool_decide (actual_label = label) && separator)
  then Raise (ValueError "Invalid PBKDF2 field")
  else _b64decode text.

(** The five ["$"]-separated parts of a hash of this format. *)
Definition hash_parts (password_hash : string) : option (string * string * string) :=
  match of_chars <$> split_on "$" (chars password_hash) with
  | [prefix; version; i; s; h] =>
      if bool_decide (prefix = PBKDF2_PREFIX) && bool_decide (version = PBKDF2_VERSION)
      then Some (i, s, h) else None
  | _ => None
  end.

Definition put_breaker (id : Z) (b : SecurityCircuitBreaker) : Db → Db :=
  upd_security_circuit_breakers (insert id b).
Definition is_hibp_breaker (b : SecurityCircuitBreaker) : bool :=
  bool_decide (cb_service_name b = HIBP_CIRCUIT_SERVICE).
Definition close_breaker (success : option Z) (now : Z) (b : SecurityCircuitBreaker)
    : SecurityCircuitBreaker :=
  mkSecurityCircuitBreaker (cb_service_name b) "closed" 0 None (cb_last_failure_at b) success
    (cb_created_at b) now.

Section Passwords.
Context `{Env}.

Definition _normalize_password (password : string) : string := nfc password.

(** ** Configuration *)

Definition password_min_length : res Z :=
  rbind (config_int_default "PASSWORD_MIN_LENGTH" PASSWORD_MIN_LENGTH) (λ configured,
    if (configured <? 1) || (1024 <? configured)
    then Raise (RuntimeError "PASSWORD_MIN_LENGTH must be between 1 and 1024")
    else Ok configured).

Definition password_max_chars : res Z :=
  rbind (config_int_default "PASSWORD_MAX_CHARS" PASSWORD_MAX_CHARS) (λ configured,
  rbind password_min_length (λ minimum_length,
    if (configured <? 64) || (1024 <? configured)
    then Raise (RuntimeError "PASSWORD_MAX_CHARS must be between 64 and 1024")
    else if configured <? minimum_length
    then Raise (RuntimeError "PASSWORD_MAX_CHARS must be at least PASSWORD_MIN_LENGTH")
    else Ok configured)).

Definition _pbkdf2_iterations : res Z :=
  rbind (config_int_default "PASSWORD_PBKDF2_ITERATIONS" 600000) (λ iterations,
    if iterations <? 600000
    then Raise (RuntimeError "PASSWORD_PBKDF2_ITERATIONS must be 600000 or higher")
    else Ok iterations).

Definition _password_pepper : res string :=
  let value := config_str_or_empty "PASSWORD_PEPPER_B64" in
  if negb (nonempty value) then Raise (RuntimeError "PASSWORD_PEPPER_B64 is required")
  else if negb (is_ascii value)
  then Raise (ValueError "string argument should contain only ASCII characters")
  else match b64decode true value with
       | None => Raise (RuntimeError "PASSWORD_PEPPER_B64 must be valid base64")
       | Some decoded =>
           if negb (slen decoded =? 32)%nat
           then Raise (RuntimeError "PASSWORD_PEPPER_B64 must decode to exactly 32 bytes")
           else Ok decoded
       end.

Definition validate_password_hash_config : res unit :=
  rbind _password_pepper (λ _, rbind _pbkdf2_iterations (λ _, Ok tt)).

Definition fits (password : string) : res bool :=
  rbind password_max_chars (λ maximum, Ok (Z.of_nat (slen password) <=? maximum)).

Definition is_password_raw_length_safe (password : string) : res bool := fits password.

Definition too_long {A} : res A :=
  rbind password_max_chars (λ maximum,
    Raise (PasswordPolicyError ("Password must be at most " +:+ pretty maximum +:+ " characters"))).

Definition _ensure_raw_password_length (password : string) : res unit :=
  rbind (is_password_raw_length_safe password) (λ ok, if ok : bool then Ok tt else too_long).
Definition _ensure_normalized_password_length (password : string) : res unit :=
  rbind (fits password) (λ ok, if ok : bool then Ok tt else too_long).

Definition _safe_normalized_password (password : string) : res string :=
  rbind (fits password) (λ raw_ok,
    if negb raw_ok then Raise (ValueError "Password exceeds maximum length")
    else
      let normalized := _normalize_password password in
      rbind (fits normalized) (λ ok,
        if negb ok then Raise (ValueError "Password exceeds maximum length after normalization")
        else Ok normalized)).

(** ** Hashing *)

Definition _pbkdf2_digest (password salt : string) (iterations : Z) : res string :=
  rbind (_safe_normalized_password password) (λ normalized_password,
  rbind _password_pepper (λ pepper,
    Ok (pbkdf2_hmac_sha256 (hmac_sha256 pepper normalized_password) salt iterations))).

Definition stored_hash (iterations : Z) (salt digest : string) : string :=
  PBKDF2_PREFIX +:+ "$" +:+ PBKDF2_VERSION +:+ "$i=" +:+ pretty iterations
    +:+ "$s=" +:+ _b64encode salt +:+ "$h=" +:+ _b64encode digest.

Definition hash_password (password : string) : M St string :=
  iterations <- lift _pbkdf2_iterations ;;
  salt <- fresh (λ n, urandom n PBKDF2_SALT_BYTES) ;;
  digest <- lift (_pbkdf2_digest password salt iterations) ;;
  ret (stored_hash iterations salt digest).

Definition verify_password (password password_hash : string) : res bool :=
  or_on_malformed false
    (rbind (is_password_raw_length_safe password) (λ safe,
       if negb safe then Ok false
       else match hash_parts password_hash with
            | None => Ok false
            | Some (i, s, h) =>
                rbind (_parse_iterations i) (λ iterations,
                rbind (_parse_b64_part s "s") (λ salt,
                rbind (_parse_b64_part h "h") (λ expected,
                rbind (_pbkdf2_digest password salt iterations) (λ candidate,
                  Ok (bool_decide (candidate = expected))))))
            end)).

Definition password_hash_needs_rehash (password_hash : string) : res bool :=
  or_on_malformed true
    match hash_parts password_hash with
    | None => Ok true
    | Some (i, _, _) =>
        rbind (_parse_iterations i) (λ iterations,
        rbind _pbkdf2_iterations (λ configured, Ok (iterations <? configured)))
    end.

(** ** Screening *)

(** The dictionary, as a list without duplicates. *)
Definition _load_common_passwords (path : string) : res (list string) :=
  match common_password_lines path with
  | None => Raise (RuntimeError ("Common password dictionary does not exist: " +:+ path))
  | Some lines =>
      let passwords := remove_dups ((λ line, casefold (_normalize_password (strip line)))
        <$> List.filter (λ line, nonempty (strip line) && negb (startswith "#" line)) lines) in
      rbind (config_int "COMMON_PASSWORDS_MIN_ENTRIES") (λ minimum_entries,
        if Z.of_nat (length passwords) <? minimum_entries
        then Raise (RuntimeError ("Common password dictionary is too small: "
                +:+ pretty (Z.of_nat (length passwords)) +:+ " entries loaded, "
                +:+ pretty minimum_entries +:+ " required"))
        else Ok passwords)
  end.

Definition common_passwords : res (list string) :=
  rbind (config_item "COMMON_PASSWORDS_PATH") (λ path, _load_common_passwords (py_str path)).

Definition validate_common_password_dictionary : res Z :=
  rbind common_passwords (λ passwords, Ok (Z.of_nat (length passwords))).

(** The lines of the service's answer: is the suffix listed with a positive
    count?  A malformed line met before it makes the answer unusable. *)
Fixpoint suffix_listed (hash_suffix : string) (lines : list string) : res bool :=
  match lines with
  | [] => Ok false
  | line :: rest =>
      let '(candidate_suffix, separator, count_text) := partition_at ":" line in
      match (if separator : bool then parse_int (strip count_text) else None) with
      | None => Raise (LivePasswordCheckUnavailable "HIBP response could not be parsed")
      | Some count =>
          if bool_decide (upper (strip candidate_suffix) = hash_suffix) && (0 <? count)
          then Ok true else suffix_listed hash_suffix rest
      end
  end.

Definition read_hibp_response (hash_suffix : string) (response : option (Z * string)) : res bool :=
  match response with
  | None => Raise (LivePasswordCheckUnavailable "HIBP request failed")
  | Some (status, text) =>
      if negb (status =? 200)
      then Raise (LivePasswordCheckUnavailable ("HIBP returned HTTP " +:+ pretty status))
      else
        let payload := str_take (HIBP_MAX_RESPONSE_BYTES + 1) text in
        if (HIBP_MAX_RESPONSE_BYTES <? slen payload)%nat
        then Raise (LivePasswordCheckUnavailable "HIBP response exceeded size limit")
        else if negb (is_ascii payload)
        then Raise (LivePasswordCheckUnavailable "HIBP response could not be parsed")
        else suffix_listed hash_suffix (splitlines payload)
  end.

Definition _is_password_pwned_by_hibp (password : string) : M St bool :=
  let password_hash := upper (sha1_hex password) in
  response <- fresh (λ n, hibp_response n (HIBP_RANGE_API_URL +:+ "/" +:+ str_take 5 password_hash)) ;;
  lift (read_hibp_response (str_drop 5 password_hash) response).

(** ** The circuit breaker *)

Definition _hibp_breaker : M St (option (Z * SecurityCircuitBreaker)) :=
  db_query (λ d, one_or_none is_hibp_breaker (security_circuit_breakers d)).

Definition _hibp_circuit_is_open : M St bool :=
  now <- now_utc ;;
  try_except
    (breaker <- _hibp_breaker ;;
     match breaker with
     | None => ret false
     | Some (id, b) =>
         if negb (bool_decide (cb_state b = "open")) then ret false
         else match cb_opened_until b with
              | None => ret false
              | Some opened_until =>
                  if now <? opened_until then ret true
                  else
                    _ <- db_write (put_breaker id (close_breaker (cb_last_success_at b) now b)) ;;
                    _ <- commit ;;
                    ret false
              end
     end)
    any_exn (λ _, _ <- rollback ;; ret true).

(** The breaker after one more failure. *)
Definition count_failure (now threshold open_seconds : Z) (b : SecurityCircuitBreaker)
    : SecurityCircuitBreaker :=
  let failures := cb_failure_count b + 1 in
  mkSecurityCircuitBreaker (cb_service_name b)
    (if threshold <=? failures then "open" else cb_state b) failures
    (if threshold <=? failures then Some (now + open_seconds * US_SECOND) else cb_opened_until b)
    (Some now) (cb_last_success_at b) (cb_created_at b) now.
Definition new_breaker (now : Z) : SecurityCircuitBreaker :=
  mkSecurityCircuitBreaker HIBP_CIRCUIT_SERVICE "closed" 0 None None None now now.

Definition _record_hibp_failure : M St unit :=
  now <- now_utc ;;
  try_except
    (breaker <- _hibp_breaker ;;
     fresh_id <- db_get (λ d, next_id (security_circuit_breakers d)) ;;
     let '(id, b) := default (fresh_id, new_breaker now) breaker in
     threshold <- lift (config_int_default "HIBP_CIRCUIT_FAILURE_THRESHOLD" 3) ;;
     open_seconds <- lift (if threshold <=? cb_failure_count b + 1
                           then config_int_default "HIBP_CIRCUIT_OPEN_SECONDS" 300 else Ok 0) ;;
     _ <- db_write (put_breaker id (count_failure now threshold open_seconds b)) ;;
     commit)
    any_exn (λ _, rollback).

Definition _clear_hibp_failures : M St unit :=
  now <- now_utc ;;
  try_except
    (breaker <- _hibp_breaker ;;
     match breaker with
     | None => ret tt
     | Some (id, b) =>
         _ <- db_write (put_breaker id (close_breaker (Some now) now b)) ;;
         commit
     end)
    any_exn (λ _, rollback).

Definition is_live_check_unavailable (e : exn) : bool :=
  match e with LivePasswordCheckUnavailable _ => true | _ => false end.

(** The outcome of asking the service, or [None] when it is unavailable. *)
Definition live_check (normalized_password : string) : M St (option bool) :=
  try_except
    (is_pwned <- _is_password_pwned_by_hibp normalized_password ;; ret (Some is_pwned))
    is_live_check_unavailable
    (λ _, _ <- _record_hibp_failure ;; ret None).

Definition validate_password_policy (password : string) : M St (list string) :=
  _ <- lift (_ensure_raw_password_length password) ;;
  let normalized_password := _normalize_password password in
  _ <- lift (_ensure_normalized_password_length normalized_password) ;;
  minimum_length <- lift password_min_length ;;
  _ <- guard (Z.of_nat (slen normalized_password) <? minimum_length)
         (raise (PasswordPolicyError ("Password must be at least " +:+ pretty minimum_length
                                        +:+ " characters"))) ;;
  dictionary <- lift common_passwords ;;
  _ <- guard (str_in (casefold normalized_password) dictionary)
         (raise (PasswordPolicyError COMMON_PASSWORD_ERROR)) ;;
  is_open <- _hibp_circuit_is_open ;;
  if (is_open : bool) then ret [HIBP_FALLBACK_WARNING]
  else
    is_pwned <- live_check normalized_password ;;
    match is_pwned with
    | None => ret [HIBP_FALLBACK_WARNING]
    | Some is_pwned =>
        _ <- _clear_hibp_failures ;;
        if (is_pwned : bool) then raise (PasswordPolicyError COMMON_PASSWORD_ERROR) else ret []
    end.

(** ** A stored hash reads back *)

Lemma b64decode_b64encode value : _b64decode (_b64encode value) = Ok value.
Proof.
  unfold _b64decode, _b64encode. pose proof (urlsafe_unpadded_data value) as Hd.
  rewrite chars_of_chars, urlsafe_unpadded_roundtrip.
  assert (is_ascii (of_chars (rstrip_pad (chars (urlsafe_b64encode value)))) = true) as ->; [|done].
  unfold is_ascii. rewrite chars_of_chars. apply forallb_forall. intros c Hc%list_elem_of_In.
  apply (b64_data_forall (λ c, code c <? 128)); [by vm_compute|].
  by apply (proj1 (Forall_forall _ _) Hd).
Qed.

Lemma b64encode_no_dollar value : "$"%char ∉ chars (_b64encode value).
Proof.
  unfold _b64encode. rewrite chars_of_chars. intros Hin.
  pose proof (urlsafe_unpadded_data value) as Hd. rewrite Forall_forall in Hd.
  assert (negb (code "$" =? 36) = true) as E; [|done].
  apply (b64_data_forall (λ c, negb (code c =? 36))); [by vm_compute|]. by apply Hd.
Qed.

Lemma hash_parts_stored iterations salt digest :
  hash_parts (stored_hash iterations salt digest)
  = Some ("i=" +:+ pretty iterations, "s=" +:+ _b64encode salt, "h=" +:+ _b64encode digest).
Proof.
  unfold hash_parts, stored_hash.
  assert ("$"%char ∉ chars (pretty iterations)) as Hi by (apply not_int_char_pretty; by intros [|]).
  pose proof (b64encode_no_dollar salt) as Hs. pose proof (b64encode_no_dollar digest) as Hd.
  assert (split_on "$" (chars (PBKDF2_PREFIX +:+ "$" +:+ PBKDF2_VERSION +:+ "$i="
      +:+ pretty iterations +:+ "$s=" +:+ _b64encode salt +:+ "$h=" +:+ _b64encode digest))
    = [chars PBKDF2_PREFIX; chars PBKDF2_VERSION; chars ("i=" +:+ pretty iterations);
       chars ("s=" +:+ _b64encode salt); chars ("h=" +:+ _b64encode digest)]) as ->.
  { rewrite !chars_app.
    change (chars "$i=") with ("$" :: chars "i=")%char. change (chars "$s=") with ("$" :: chars "s=")%char.
    change (chars "$h=") with ("$" :: chars "h=")%char. change (chars "$") with ["$"]%char.
    rewrite <- !app_comm_cons, !app_nil_l.
    rewrite !split_on_app by (by apply not_in_chars).
    rewrite (app_assoc (chars "i=")), split_on_app by set_solver.
    rewrite (app_assoc (chars "s=")), split_on_app by set_solver.
    rewrite split_on_none by set_solver. done. }
  rewrite !fmap_cons, !of_chars_chars. done.
Qed.

Lemma parse_iterations_stored iterations :
  600000 ≤ iterations → _parse_iterations ("i=" +:+ pretty iterations) = Ok iterations.
Proof.
  intros Hi. unfold _parse_iterations.
  change ("i=" +:+ pretty iterations) with ("i" +:+ String "=" (pretty iterations)).
  rewrite partition_at_app, parse_int_pretty by (by apply not_in_chars).
  rewrite bool_decide_eq_true_2 by done. simpl. by rewrite (proj2 (Z.ltb_ge _ _)).
Qed.

(** Checking a stored hash is comparing digests. *)
Lemma verify_stored password iterations salt digest :
  600000 ≤ iterations →
  verify_password password (stored_hash iterations salt digest)
  = or_on_malformed false
      (rbind (fits password) (λ safe, if negb safe then Ok false
       else rbind (_pbkdf2_digest password salt iterations) (λ candidate,
              Ok (bool_decide (candidate = digest))))).
Proof.
  intros Hi. unfold verify_password, is_password_raw_length_safe. rewrite hash_parts_stored.
  rewrite parse_iterations_stored by done. unfold _parse_b64_part.
  change ("s=" +:+ _b64encode salt) with ("s" +:+ String "=" (_b64encode salt)).
  change ("h=" +:+ _b64encode digest) with ("h" +:+ String "=" (_b64encode digest)).
  rewrite !partition_at_app by (by apply not_in_chars).
  rewrite !bool_decide_eq_true_2 by done. simpl. by rewrite !b64decode_b64encode.
Qed.

(** What a hash was made of. *)
Lemma hash_password_inv password s h s' :
  hash_password password s = (Ok h, s') →
  ∃ iterations salt digest, h = stored_hash iterations salt digest ∧ 600000 ≤ iterations
    ∧ _pbkdf2_iterations = Ok iterations ∧ _pbkdf2_digest password salt iterations = Ok digest.
Proof.
  unfold hash_password, bind, lift, ret. destruct _pbkdf2_iterations as [iterations|] eqn:Ei; [|done].
  simpl. destruct (_pbkdf2_digest _ _ _) as [digest|] eqn:Ed; [|done]. intros [= <- <-].
  eexists iterations, _, digest. split_and!; try done. revert Ei.
  unfold _pbkdf2_iterations. destruct (config_int_default _ _) as [i|]; simpl; [|done].
  destruct (i <? 600000) eqn:E; [done|]. intros [= ->]. lia.
Qed.

(** Hashing only draws a salt. *)
Lemma hash_password_state password s : (hash_password password s).2 = s
  ∨ (hash_password password s).2 = next_effect s.
Proof.
  unfold hash_password, bind, lift. destruct _pbkdf2_iterations; [|by left]. simpl.
  right. by destruct (_pbkdf2_digest _ _ _).
Qed.

Lemma digest_inv password salt iterations digest :
  _pbkdf2_digest password salt iterations = Ok digest →
  fits password = Ok true ∧ ∃ pepper, _password_pepper = Ok pepper ∧
    digest = pbkdf2_hmac_sha256 (hmac_sha256 pepper (nfc password)) salt iterations.
Proof.
  unfold _pbkdf2_digest, _safe_normalized_password, _normalize_password.
  destruct (fits password) as [[]|]; simpl; [|done..].
  destruct (fits (nfc password)) as [[]|]; simpl; [|done..].
  destruct _password_pepper as [pepper|]; simpl; [|done]. intros [= <-]. eauto.
Qed.

Lemma hash_password_verifies password s h s' :
  hash_password password s = (Ok h, s') → verify_password password h = Ok true.
Proof.
  intros (iterations & salt & digest & -> & Hi & _ & Ed)%hash_password_inv.
  destruct (digest_inv _ _ _ _ Ed) as (Hf & _). rewrite verify_stored, Hf by done. simpl.
  rewrite Ed. simpl. by rewrite bool_decide_eq_true_2.
Qed.
End Passwords.

(** A stored password hash reads back: the password it was made from is
    accepted and the hash is not due for renewal; any other password is accepted
    only if the key derivation, under the configured pepper and the stored salt
    and iteration count, collides on the two normalised passwords. *)
Theorem password_roundtrip `{Env} password s h s' :
  hash_password password s = (Ok h, s') →
  verify_password password h = Ok true
  ∧ password_hash_needs_rehash h = Ok false
  ∧ ∀ other, verify_password other h = Ok true →
      ∃ pepper salt iterations,
        let derived text := pbkdf2_hmac_sha256 (hmac_sha256 pepper (nfc text)) salt iterations in
        _password_pepper = Ok pepper ∧ h = stored_hash iterations salt (derived password)
        ∧ derived other = derived password.
Proof.
  intros E. split; [by eapply hash_password_verifies|].
  apply hash_password_inv in E as (iterations & salt & digest & -> & Hi & Ei & Ed).
  destruct (digest_inv _ _ _ _ Ed) as (Hf & pepper & Hp & Hd). split.
  - unfold password_hash_needs_rehash. rewrite hash_parts_stored, parse_iterations_stored by done.
    simpl. rewrite Ei. simpl. by rewrite Z.ltb_irrefl.
  - intros other. rewrite verify_stored by done. destruct (fits other) as [[]|e]; simpl; [|done|].
    2: by destruct e.
    destruct (_pbkdf2_digest other salt iterations) as [c|e] eqn:E; simpl; [|by destruct e].
    intros [= Hc%bool_decide_eq_true]. destruct (digest_inv _ _ _ _ E) as (_ & p2 & Hp2 & Hc2).
    rewrite Hp in Hp2. simplify_eq. exists p2, salt, iterations. by split_and!.
Qed.

(** A hash made in the sample deployment. *)
Definition sample_hashed := @hash_password Sample.sample_env "correct horse" Sample.sample_state.
Definition sample_hash_text : string := match sample_hashed.1 with Ok h => h | Raise _ => "" end.

Lemma password_roundtrip_witness :
  @verify_password Sample.sample_env "correct horse" sample_hash_text = Ok true
  ∧ @verify_password Sample.sample_env "incorrect horse" sample_hash_text = Ok false.
Proof.
  split; [|by vm_compute].
  apply (@password_roundtrip Sample.sample_env "correct horse" Sample.sample_state
           sample_hash_text sample_hashed.2).
  by vm_compute.
Defined.
End Passwords.
