(* ===== verification/Identity.v ===== *)
(** * Identity policy ([app/security/identity_policy.py])

    E-mail addresses are normalised, checked against the staff and disposable
    domains, and reduced to the mailbox they reach: providers that ignore a
    [+tag] or dots map every alias of a mailbox to one canonical address, which
    registration keeps unique. *)

From S2P Require Import Prelude PyStr Schema Runtime Sample.
From Stdlib Require Import Ascii.
Open Scope string_scope.
Open Scope Z_scope.

Module Identity.

Definition GMAIL_DOMAIN : string := "gmail.com".
Definition GOOGLEMAIL_DOMAIN : string := "googlemail.com".
Definition GOOGLE_CUSTOMER_EMAIL_DOMAINS : list string := [GMAIL_DOMAIN; GOOGLEMAIL_DOMAIN].
Definition DEFAULT_CUSTOMER_TEMP_EMAIL_DOMAINS : list string :=
  ["10minutemail.com"; "guerrillamail.com"; "mailinator.com"; "temp-mail.org"; "yopmail.com"].
Definition CUSTOMER_EMAIL_DOMAIN_ALIASES : list (string * string) :=
  [(GOOGLEMAIL_DOMAIN, GMAIL_DOMAIN)].

Definition invalid_email {A} : res A := Raise (IdentityPolicyError "invalid_email").

(** [EMAIL_RE.fullmatch(f"{local}@{domain}")] for a [local] without ["@"]: both
    parts free of ["@"], whitespace and control characters, at most 128 and 253
    characters long. *)
Definition email_char (c : ascii) : bool :=
  let n := code c in
  negb (bool_decide (c = "@"%char)) && negb (is_space c) && (32 <=? n) && negb (n =? 127).
Definition email_part (limit : nat) (l : list ascii) : bool :=
  (1 <=? length l)%nat && (length l <=? limit)%nat && forallb email_char l.

Definition hyphen : ascii := "-"%char.
Definition label_ok (label : list ascii) : bool :=
  negb (bool_decide (label = [])) && negb (bool_decide (head label = Some hyphen))
  && negb (bool_decide (last label = Some hyphen)).

Definition _valid_email_parts (local : string) (separator : bool) (domain : string) : bool :=
  let domain := strip domain in
  separator && nonempty local && nonempty domain
  && email_part 128 (chars local) && email_part 253 (chars domain)
  && forallb label_ok (split_on "." (chars domain)).

Definition has_char (n : Z) (s : string) : bool := existsb (λ c, code c =? n) (chars s).

Definition normalize_identity_email (email : string) : res string :=
  let text := strip email in
  if has_char 0 text || has_char 13 text || has_char 10 text || (255 <? slen text)%nat
  then invalid_email
  else
    let '(local, separator, domain) := partition_at "@" text in
    if negb (_valid_email_parts local separator domain) then invalid_email
    else Ok (casefold local +:+ "@" +:+ casefold (strip domain)).

(** [text.rpartition("@")]: the text before and after the last ["@"]. *)
Definition rpartition_at (c : ascii) (s : string) : string * string :=
  match partition_char c (rev (chars s)) with
  | Some (after, before) => (of_chars (rev before), of_chars (rev after))
  | None => ("", s)
  end.

Definition _email_domain (email : string) : string := casefold (rpartition_at "@" email).2.

(** [tuple(item.strip().casefold() for item in items if item.strip())]. *)
Definition clean_items (items : list string) : list string :=
  (λ item, casefold (strip item)) <$> List.filter (λ item, nonempty (strip item)) items.

Definition _iter_config_values `{Env} (value : jval) : res (list string) :=
  match value with
  | JNull => Ok []
  | JStr s => Ok (clean_items (of_chars <$> split_on "," (chars s)))
  | JList l => Ok (clean_items (py_str <$> l))
  | JObj kvs => Ok (clean_items kvs.*1)
  | JBool _ | JInt _ => Raise TypeError
  end.

Definition _normalized_domain_set (values : list string) : list string := clean_items values.

Section Identity.
Context `{Env}.

(** [current_app.config.get(name)], with [None] for both an absent and a null
    setting. *)
Definition config_value (name : string) : option jval :=
  match config name with Some JNull | None => None | Some v => Some v end.

Definition _config_set (name : string) (fallback_name : option string) (default : list string)
    : res (list string) :=
  match config_value name, (match fallback_name with Some f => config_value f | None => None end) with
  | Some v, _ | None, Some v => _iter_config_values v
  | None, None => Ok (clean_items default)
  end.

Definition admin_allowed_email_domains : res (list string) :=
  _config_set "ADMIN_ALLOWED_EMAIL_DOMAINS" (Some "SIT_WORKPLACE_EMAIL_DOMAINS") [].
Definition privileged_allowed_email_domains : res (list string) := admin_allowed_email_domains.
Definition root_admin_emails : res (list string) := _config_set "ROOT_ADMIN_EMAILS" None [].
Definition customer_temp_email_domains : res (list string) :=
  _config_set "CUSTOMER_TEMP_EMAIL_DOMAINS" None DEFAULT_CUSTOMER_TEMP_EMAIL_DOMAINS.

Definition is_privileged_workplace_email (email : string) : res bool :=
  match normalize_identity_email email with
  | Ok normalized =>
      rbind privileged_allowed_email_domains (λ domains,
        Ok (str_in (_email_domain normalized) domains))
  | Raise _ => Ok false
  end.
Definition is_admin_workplace_email (email : string) : res bool := is_privileged_workplace_email email.

Definition customer_email_policy_violation (email : string) : res (option string) :=
  match normalize_identity_email email with
  | Raise _ => Ok (Some "invalid_email")
  | Ok normalized =>
      rbind root_admin_emails (λ roots,
        if str_in normalized roots then Ok (Some "root_admin_allowlisted_email")
        else
          let domain := _email_domain normalized in
          rbind admin_allowed_email_domains (λ admin,
            if str_in domain admin then Ok (Some "admin_email_domain")
            else rbind customer_temp_email_domains (λ temporary,
                   if str_in domain temporary then Ok (Some "temporary_email_domain")
                   else Ok None)))
  end.

Definition require_customer_email (email : string) : res string :=
  rbind (customer_email_policy_violation email) (λ reason,
    match reason with
    | Some reason => Raise (IdentityPolicyError reason)
    | None => normalize_identity_email email
    end).

Definition require_privileged_workplace_email (email : string) : res string :=
  rbind (normalize_identity_email email) (λ normalized,
  rbind privileged_allowed_email_domains (λ domains,
    if str_in (_email_domain normalized) domains then Ok normalized
    else Raise (IdentityPolicyError "admin_email_domain_not_allowed"))).
Definition require_admin_workplace_email (email : string) : res string :=
  require_privileged_workplace_email email.

Definition before_plus (local : string) : string := (partition_at "+" local).1.1.
Definition without_dots (local : string) : string :=
  of_chars (List.filter (λ c, negb (bool_decide (c = "."%char))) (chars local)).
Definition canonical_domain (domain : string) : string :=
  default domain (assoc domain CUSTOMER_EMAIL_DOMAIN_ALIASES).

Definition plus_alias_domains : res (list string) :=
  rbind (_config_set "CUSTOMER_EMAIL_PLUS_ALIAS_DOMAINS" None GOOGLE_CUSTOMER_EMAIL_DOMAINS)
    (λ l, Ok (_normalized_domain_set l)).
Definition dot_insensitive_domains : res (list string) :=
  rbind (_config_set "CUSTOMER_EMAIL_DOT_INSENSITIVE_DOMAINS" None GOOGLE_CUSTOMER_EMAIL_DOMAINS)
    (λ l, Ok (_normalized_domain_set l)).

(** With the configured domain sets; no caller overrides them. *)
Definition canonicalize_customer_email (email : string) : res string :=
  rbind (normalize_identity_email email) (λ normalized,
    let '(local, domain) := rpartition_at "@" normalized in
    rbind plus_alias_domains (λ plus_domains,
    rbind dot_insensitive_domains (λ dot_domains,
      let local := if str_in domain plus_domains then before_plus local else local in
      let local := if str_in domain dot_domains then without_dots local else local in
      if negb (nonempty local) then invalid_email
      else Ok (local +:+ "@" +:+ canonical_domain domain)))).
End Identity.
End Identity.
