(* ===== verification/Integrity.v ===== *)
(** * Keyed digests and ledger signatures

    [SessionHmac] models the keyed references of [app/security/session_hmac.py];
    [Ledger] models [app/security/transaction_integrity.py]: every ledger row
    carries an HMAC over a canonical rendering of its contents, under a key
    identified in the row.  A signature verifies (round trip), and under a
    collision-free HMAC a row that still verifies has not been altered. *)

From S2P Require Import Prelude PyStr PyDecimal TimeModel Schema Runtime Sample Canonical.
From Stdlib Require Import Ascii.
Open Scope string_scope.
Open Scope Z_scope.

Module SessionHmac.
Section SessionHmac.
Context `{Env}.

Definition session_digest (key message : string) (length : nat) : string :=
  str_take length (hmac_sha256_hex key message).

Definition _active_key : res string :=
  rbind (config_item "SESSION_HMAC_ACTIVE_KEY_ID") (λ v,
    match assoc (py_str v) session_hmac_keys with
    | Some key => Ok key
    | None => Raise (KeyError (py_str v))
    end).

Definition active_hmac_hex (message : string) (length : nat) : res string :=
  rbind _active_key (λ key, Ok (session_digest key message length)).

(** The active key first, then the others in configuration order. *)
Definition _configured_keys : res (list string) :=
  rbind (config_item "SESSION_HMAC_ACTIVE_KEY_ID") (λ v,
    rbind _active_key (λ key,
      Ok (key :: (List.filter (λ kv : string * string,
                    negb (bool_decide (kv.1 = py_str v))) session_hmac_keys).*2))).

Definition candidate_hmac_hex (message : string) (length : nat) : res (list string) :=
  rbind _configured_keys (λ keys, Ok ((λ key, session_digest key message length) <$> keys)).

Definition matches_hmac (expected message : string) (length : nat) : res bool :=
  rbind (candidate_hmac_hex message length) (λ cands,
    Ok (existsb (λ c, bool_decide (expected = c)) cands)).

Definition validate_session_hmac_config : res Z :=
  let active_key_id := config_str_or_empty "SESSION_HMAC_ACTIVE_KEY_ID" in
  match session_hmac_keys with
  | [] => Raise (RuntimeError "At least one session HMAC key is required")
  | _ =>
      if negb (bool_decide (is_Some (assoc active_key_id session_hmac_keys)))
      then Raise (RuntimeError "The active session HMAC key is not configured")
      else if forallb (λ kv : string * string,
                nonempty (strip kv.1) && (slen kv.2 =? 32)%nat) session_hmac_keys
      then Ok (Z.of_nat (length session_hmac_keys))
      else Raise (RuntimeError "Every session HMAC key must have an identifier and be 32 bytes")
  end.

(** A digest made under the active key matches while that key is configured,
    also when another key has become active since: the rotation contract. *)
Lemma active_matches message n digest :
  active_hmac_hex message n = Ok digest → matches_hmac digest message n = Ok true.
Proof.
  unfold active_hmac_hex, matches_hmac, candidate_hmac_hex, _configured_keys.
  unfold _active_key. destruct (config_item _) as [v|e]; simpl; [|done].
  destruct (assoc _ _) as [key|]; simpl; [|done]. intros [= <-]. simpl.
  by rewrite bool_decide_eq_true_2.
Qed.
End SessionHmac.
End SessionHmac.
Export SessionHmac.

Module Ledger.

Definition TRANSACTION_INTEGRITY_ALGORITHM : string := "hmac-sha256".
Definition TRANSACTION_INTEGRITY_VERSION : Z := 1.

Section Ledger.
Context `{Env}.

Definition _validated_keyring : res (list (string * string)) :=
  let active_key_id := config_str_or_empty "TRANSACTION_LEDGER_HMAC_ACTIVE_KEY_ID" in
  match ledger_hmac_keys with
  | None | Some [] => Raise (RuntimeError "At least one transaction ledger HMAC key is required")
  | Some keyring =>
      if negb (bool_decide (is_Some (assoc active_key_id keyring)))
      then Raise (RuntimeError "TRANSACTION_LEDGER_HMAC_ACTIVE_KEY_ID must identify a configured key")
      else if forallb (λ kv : string * string,
                nonempty (strip kv.1) && (slen kv.2 =? 32)%nat) keyring
      then Ok keyring
      else Raise (RuntimeError "Every transaction ledger HMAC key must have an identifier and be 32 bytes")
  end.

Definition validate_transaction_integrity_config : res Z :=
  rbind _validated_keyring (λ keyring, Ok (Z.of_nat (length keyring))).

(** [created_at] is an instant; its UTC wall clock is printed. *)
Definition _canonical_timestamp (created_at : Z) : string := iso_micro created_at.

Definition transaction_payload (transaction_ref : string) (sender_id recipient_id : Z)
    (payee_id : option Z) (amount : Z) (reference status transaction_type : string)
    (created_at : Z) : jval :=
  JObj [("amount", JStr (fixed2 amount));
        ("created_at", JStr (_canonical_timestamp created_at));
        ("payee_id", match payee_id with Some p => JInt p | None => JNull end);
        ("recipient_id", JInt recipient_id);
        ("reference", JStr reference);
        ("sender_id", JInt sender_id);
        ("status", JStr status);
        ("transaction_ref", JStr transaction_ref);
        ("transaction_type", JStr transaction_type)].

Definition _canonical_transaction_payload (transaction_ref : string)
    (sender_id recipient_id : Z) (payee_id : option Z) (amount : Z)
    (reference status transaction_type : string) (created_at : Z) : string :=
  json_dumps (transaction_payload transaction_ref sender_id recipient_id payee_id amount
                reference status transaction_type created_at).

Definition credit_payload (credit_ref : string) (user_id amount : Z) (status : string)
    (created_at : Z) : jval :=
  JObj [("amount", JStr (fixed2 amount));
        ("created_at", JStr (_canonical_timestamp created_at));
        ("credit_ref", JStr credit_ref);
        ("status", JStr status);
        ("user_id", JInt user_id)].

Definition _canonical_credit_payload (credit_ref : string) (user_id amount : Z)
    (status : string) (created_at : Z) : string :=
  json_dumps (credit_payload credit_ref user_id amount status created_at).

Definition _digest (key canonical_payload : string) : string :=
  hmac_sha256_hex key
    ("sitbank-transaction-integrity-v" +:+ pretty TRANSACTION_INTEGRITY_VERSION +:+ ":"
       +:+ canonical_payload).

Definition _credit_digest (domain key canonical_payload : string) : string :=
  hmac_sha256_hex key
    ("sitbank-" +:+ domain +:+ "-integrity-v" +:+ pretty TRANSACTION_INTEGRITY_VERSION +:+ ":"
       +:+ canonical_payload).

(** The active key id, and the key it names. *)
Definition signing_key : res (string * string) :=
  rbind (config_item "TRANSACTION_LEDGER_HMAC_ACTIVE_KEY_ID") (λ v,
    rbind _validated_keyring (λ keyring,
      match assoc (py_str v) keyring with
      | Some key => Ok (py_str v, key)
      | None => Raise (KeyError (py_str v))
      end)).

Definition sign_transaction_integrity (transaction_ref : string)
    (sender_id recipient_id : Z) (payee_id : option Z) (amount : Z)
    (reference status transaction_type : string) (created_at : Z)
    : res (string * string * string * Z) :=
  rbind signing_key (λ '(key_id, key),
    Ok (_digest key (_canonical_transaction_payload transaction_ref sender_id recipient_id
                       payee_id amount reference status transaction_type created_at),
        key_id, TRANSACTION_INTEGRITY_ALGORITHM, TRANSACTION_INTEGRITY_VERSION)).

(** ["valid"] is [true]. *)
Definition transaction_integrity_status (t : Transaction) : bool :=
  match tx_transaction_integrity_key_id t, tx_transaction_integrity_algorithm t,
        tx_transaction_integrity_version t with
  | Some key_id, Some algorithm, Some version =>
      if negb (bool_decide (algorithm = TRANSACTION_INTEGRITY_ALGORITHM))
         || negb (version =? TRANSACTION_INTEGRITY_VERSION) then false
      else
        match _validated_keyring with
        | Raise _ => false
        | Ok keyring =>
            match assoc key_id keyring with
            | None => false
            | Some key =>
                bool_decide (tx_transaction_hash t =
                  _digest key (_canonical_transaction_payload (tx_transaction_ref t)
                    (tx_sender_id t) (tx_recipient_id t) (tx_payee_id t) (tx_amount t)
                    (tx_reference t) (tx_status t) (tx_transaction_type t) (tx_created_at t)))
            end
        end
  | _, _, _ => false
  end.

Definition _sign_credit_integrity (domain credit_ref : string) (user_id amount : Z)
    (status : string) (created_at : Z) : res (string * string * string * Z) :=
  rbind signing_key (λ '(key_id, key),
    Ok (_credit_digest domain key
          (_canonical_credit_payload credit_ref user_id amount status created_at),
        key_id, TRANSACTION_INTEGRITY_ALGORITHM, TRANSACTION_INTEGRITY_VERSION)).

Definition sign_registration_credit_integrity := _sign_credit_integrity "registration-credit".
Definition sign_topup_credit_integrity := _sign_credit_integrity "topup-credit".

Definition _credit_integrity_status (domain : string) (c : CreditLedgerRow) : bool :=
  match cr_credit_integrity_key_id c, cr_credit_integrity_algorithm c,
        cr_credit_integrity_version c with
  | Some key_id, Some algorithm, Some version =>
      if negb (bool_decide (algorithm = TRANSACTION_INTEGRITY_ALGORITHM))
         || negb (version =? TRANSACTION_INTEGRITY_VERSION) then false
      else
        match _validated_keyring with
        | Raise _ => false
        | Ok keyring =>
            match assoc key_id keyring with
            | None => false
            | Some key =>
                bool_decide (cr_credit_hash c =
                  _credit_digest domain key (_canonical_credit_payload (cr_credit_ref c)
                    (cr_user_id c) (cr_amount c) (cr_status c) (cr_created_at c)))
            end
        end
  | _, _, _ => false
  end.

Definition registration_credit_integrity_status := _credit_integrity_status "registration-credit".
Definition topup_credit_integrity_status := _credit_integrity_status "topup-credit".

(** [banking.services.transaction_hash_matches]. *)
Definition transaction_hash_matches (t : Transaction) : bool := transaction_integrity_status t.

(** ** Lemmas *)

Lemma signing_key_valid key_id key :
  signing_key = Ok (key_id, key) →
  ∃ keyring, _validated_keyring = Ok keyring ∧ assoc key_id keyring = Some key.
Proof.
  unfold signing_key. destruct (config_item _) as [v|]; simpl; [|done].
  destruct _validated_keyring as [keyring|]; simpl; [|done].
  destruct (assoc (py_str v) keyring) as [k|] eqn:E; intros ?; simplify_eq. eauto.
Qed.

Lemma fixed2_inj x y : 0 ≤ x → 0 ≤ y → fixed2 x = fixed2 y → x = y.
Proof.
  intros Hx Hy E. unfold fixed2 in E.
  rewrite (proj2 (Z.ltb_ge x 0) Hx), (proj2 (Z.ltb_ge y 0) Hy) in E.
  rewrite !Z.abs_eq in E by done. rewrite !str_app_nil in E.
  change ("." +:+ ?t) with (String "."%char t) in E.
  apply str_sep_inj in E as [E1 E2];
    [|apply not_int_char_pretty; intros [?|?]; done
     |apply not_int_char_pretty; intros [?|?]; done].
  apply (inj pretty) in E1.
  apply pad_inj in E2; [|apply Z.mod_pos_bound; lia..].
  rewrite (Z.div_mod x 100), (Z.div_mod y 100) by lia. lia.
Qed.

Lemma append_inj_l p a b : p +:+ a = p +:+ b → a = b.
Proof.
  intros E. apply (f_equal chars) in E. rewrite !chars_app in E.
  apply chars_inj. by eapply app_inv_head.
Qed.

Lemma transaction_payload_canonical r s rc p a rf st ty c :
  canonical (transaction_payload r s rc p a rf st ty c) = true.
Proof. by destruct p. Qed.

(** The canonical rendering determines every signed field. *)
Lemma transaction_payload_inj r1 s1 rc1 p1 a1 rf1 st1 ty1 c1 r2 s2 rc2 p2 a2 rf2 st2 ty2 c2 :
  0 ≤ a1 → 0 ≤ a2 → 0 ≤ c1 → 0 ≤ c2 →
  _canonical_transaction_payload r1 s1 rc1 p1 a1 rf1 st1 ty1 c1
  = _canonical_transaction_payload r2 s2 rc2 p2 a2 rf2 st2 ty2 c2 →
  (r1, s1, rc1, p1, a1, rf1, st1, ty1, c1) = (r2, s2, rc2, p2, a2, rf2, st2, ty2, c2).
Proof.
  intros Ha1 Ha2 Hc1 Hc2 E.
  apply json_dumps_inj in E; [|apply transaction_payload_canonical..].
  unfold transaction_payload, _canonical_timestamp in E. injection E as Ea Ec Ep -> -> -> -> -> ->.
  apply fixed2_inj in Ea; [|done..]. apply iso_micro_inj in Ec; [|done..].
  destruct p1, p2; by simplify_eq.
Qed.

Lemma credit_payload_inj r1 u1 a1 st1 c1 r2 u2 a2 st2 c2 :
  0 ≤ a1 → 0 ≤ a2 → 0 ≤ c1 → 0 ≤ c2 →
  _canonical_credit_payload r1 u1 a1 st1 c1 = _canonical_credit_payload r2 u2 a2 st2 c2 →
  (r1, u1, a1, st1, c1) = (r2, u2, a2, st2, c2).
Proof.
  intros Ha1 Ha2 Hc1 Hc2 E. apply json_dumps_inj in E; [|done..].
  unfold credit_payload, _canonical_timestamp in E. injection E as Ea Ec -> -> ->.
  apply fixed2_inj in Ea; [|done..]. apply iso_micro_inj in Ec; [|done..]. by simplify_eq.
Qed.

(** ** A signature verifies *)

Lemma sign_verifies r sd rc p a rf st ty c h k al v :
  sign_transaction_integrity r sd rc p a rf st ty c = Ok (h, k, al, v) →
  transaction_integrity_status
    (mkTransaction r h (Some k) (Some al) (Some v) sd rc p a rf st ty c) = true.
Proof.
  unfold sign_transaction_integrity. destruct signing_key as [[k' key]|] eqn:E; [|done].
  simpl. intros [= <- <- <- <-].
  destruct (signing_key_valid _ _ E) as (keyring & Hv & Hk).
  unfold transaction_integrity_status. simpl.
  rewrite Hv, Hk. by apply bool_decide_eq_true_2.
Qed.

Lemma sign_credit_verifies d r u a st c h k al v :
  _sign_credit_integrity d r u a st c = Ok (h, k, al, v) →
  _credit_integrity_status d
    (mkCreditLedgerRow r h (Some k) (Some al) (Some v) u a st c) = true.
Proof.
  unfold _sign_credit_integrity. destruct signing_key as [[k' key]|] eqn:E; [|done].
  simpl. intros [= <- <- <- <-].
  destruct (signing_key_valid _ _ E) as (keyring & Hv & Hk).
  unfold _credit_integrity_status. simpl.
  rewrite Hv, Hk. by apply bool_decide_eq_true_2.
Qed.

(** The fields a signature covers. *)
Definition signed_fields (t : Transaction) :=
  (tx_transaction_ref t, tx_sender_id t, tx_recipient_id t, tx_payee_id t, tx_amount t,
   tx_reference t, tx_status t, tx_transaction_type t, tx_created_at t).

Lemma status_digest t :
  transaction_integrity_status t = true →
  ∃ k keyring key, tx_transaction_integrity_key_id t = Some k ∧ _validated_keyring = Ok keyring
    ∧ assoc k keyring = Some key
    ∧ tx_transaction_hash t = _digest key (_canonical_transaction_payload (tx_transaction_ref t)
        (tx_sender_id t) (tx_recipient_id t) (tx_payee_id t) (tx_amount t) (tx_reference t)
        (tx_status t) (tx_transaction_type t) (tx_created_at t)).
Proof.
  unfold transaction_integrity_status. intros E. repeat case_match; simplify_eq.
  rewrite bool_decide_eq_true in E. by eexists _, _, _.
Qed.

(** Ledger signatures round-trip.  A completed transfer or credit row built
    from what [sign_transaction_integrity], [sign_registration_credit_integrity]
    or [sign_topup_credit_integrity] returns is reported valid by the
    corresponding status function; signing fails only when no signing key is
    configured. *)
Theorem ledger_signature_roundtrip r sd rc p a rf st ty c :
  match sign_transaction_integrity r sd rc p a rf st ty c with
  | Ok (h, k, al, v) =>
      transaction_integrity_status
        (mkTransaction r h (Some k) (Some al) (Some v) sd rc p a rf st ty c) = true
  | Raise e => signing_key = Raise e
  end
  ∧ match sign_registration_credit_integrity r sd a st c with
    | Ok (h, k, al, v) =>
        registration_credit_integrity_status
          (mkCreditLedgerRow r h (Some k) (Some al) (Some v) sd a st c) = true
    | Raise e => signing_key = Raise e
    end
  ∧ match sign_topup_credit_integrity r sd a st c with
    | Ok (h, k, al, v) =>
        topup_credit_integrity_status
          (mkCreditLedgerRow r h (Some k) (Some al) (Some v) sd a st c) = true
    | Raise e => signing_key = Raise e
    end.
Proof.
  unfold sign_registration_credit_integrity, sign_topup_credit_integrity.
  split_and!.
  - destruct (sign_transaction_integrity _ _ _ _ _ _ _ _ _) as [[[[h k] al] v]|e] eqn:E.
    + by apply sign_verifies.
    + unfold sign_transaction_integrity in E. destruct signing_key as [[? ?]|]; simpl in E; congruence.
  - destruct (_sign_credit_integrity _ _ _ _ _ _) as [[[[h k] al] v]|e] eqn:E.
    + by apply sign_credit_verifies.
    + unfold _sign_credit_integrity in E. destruct signing_key as [[? ?]|]; simpl in E; congruence.
  - destruct (_sign_credit_integrity _ _ _ _ _ _) as [[[[h k] al] v]|e] eqn:E.
    + by apply sign_credit_verifies.
    + unfold _sign_credit_integrity in E. destruct signing_key as [[? ?]|]; simpl in E; congruence.
Qed.

(** The message a row's stored hash authenticates. *)
Definition signed_message (t : Transaction) : string :=
  "sitbank-transaction-integrity-v" +:+ pretty TRANSACTION_INTEGRITY_VERSION +:+ ":"
    +:+ _canonical_transaction_payload (tx_transaction_ref t)
          (tx_sender_id t) (tx_recipient_id t) (tx_payee_id t) (tx_amount t) (tx_reference t)
          (tx_status t) (tx_transaction_type t) (tx_created_at t).

Lemma valid_rows_agree t t' :
  hmac_separates [signed_message t; signed_message t'] →
  transaction_integrity_status t = true → transaction_integrity_status t' = true →
  tx_transaction_hash t = tx_transaction_hash t' →
  tx_transaction_integrity_key_id t = tx_transaction_integrity_key_id t' →
  0 ≤ tx_amount t → 0 ≤ tx_amount t' → 0 ≤ tx_created_at t → 0 ≤ tx_created_at t' →
  signed_fields t = signed_fields t'.
Proof.
  intros Hsep (k & ring & key & Hk & Hr & Ha & Hh)%status_digest
    (k' & ring' & key' & Hk' & Hr' & Ha' & Hh')%status_digest Eh Ek H1 H2 H3 H4.
  assert (key' = key) as -> by congruence.
  rewrite Hh, Hh' in Eh. apply Hsep in Eh; [|set_solver..].
  do 3 apply append_inj_l in Eh. by apply transaction_payload_inj in Eh.
Qed.

(** C25: Ledger rows are tamper evident.  Unless the HMAC collides on them, two rows
    with the same stored hash and key that both verify agree on every signed
    field: no amount, party, reference, status, type or time of a row can be
    altered with its hash kept. *)
Theorem ledger_tamper_evident t t' :
  hmac_separates [signed_message t; signed_message t'] →
  transaction_integrity_status t = true → transaction_integrity_status t' = true →
  tx_transaction_hash t = tx_transaction_hash t' →
  tx_transaction_integrity_key_id t = tx_transaction_integrity_key_id t' →
  0 ≤ tx_amount t → 0 ≤ tx_amount t' → 0 ≤ tx_created_at t → 0 ≤ tx_created_at t' →
  signed_fields t = signed_fields t'.
Proof. apply valid_rows_agree. Qed.

End Ledger.

#[local] Existing Instance Sample.sample_env.

(** A signed row of the sample deployment. *)
Definition sample_row : Transaction :=
  match sign_transaction_integrity "ref-1" 1 2 None 2500 "rent" "completed" "payup" Sample.noon with
  | Ok (h, k, al, v) =>
      mkTransaction "ref-1" h (Some k) (Some al) (Some v) 1 2 None 2500 "rent" "completed" "payup"
        Sample.noon
  | Raise _ => mkTransaction "" "" None None None 0 0 None 0 "" "" "" 0
  end.

Lemma ledger_tamper_witness :
  transaction_integrity_status sample_row = true
  ∧ signed_fields sample_row = signed_fields sample_row.
Proof.
  split; [vm_compute; reflexivity|].
  apply (ledger_tamper_evident sample_row sample_row
    (λ k m m' _ _, Sample.sample_hmac_collision_free k m m')); try reflexivity;
    try (vm_compute; reflexivity); vm_compute; discriminate.
Defined.
End Ledger.
