(* ===== verification/SessionPayload.v ===== *)
(** * Signed session payloads ([app/security/session_hmac.py])

    The server-side session row stores an envelope: the payload in Base64, the
    id of the signing key, and an HMAC over both and the binding context (which
    names the component and the session).  An envelope that verifies was signed
    for that very payload and context. *)

From S2P Require Import Prelude PyStr Base64 Schema Runtime Sample Canonical Json Integrity.
From Stdlib Require Import Ascii.
Open Scope string_scope.
Open Scope Z_scope.

Module SessionPayload.
Import SessionHmac.

Definition SESSION_PAYLOAD_FORMAT_VERSION : Z := 2.

Definition _binding_context (binding_context : string) : res string :=
  if nonempty binding_context then Ok binding_context
  else Raise (SessionPayloadIntegrityError "missing_binding_context").

(** The text the signature covers. *)
Definition signing_input (key_id encoded_payload binding_context : string) : string :=
  json_dumps (JObj [("ctx", JStr binding_context); ("kid", JStr key_id);
                    ("payload", JStr encoded_payload); ("v", JInt SESSION_PAYLOAD_FORMAT_VERSION)]).
Definition envelope_of (key_id encoded_payload signature : string) : jval :=
  JObj [("kid", JStr key_id); ("payload", JStr encoded_payload); ("sig", JStr signature);
        ("v", JInt SESSION_PAYLOAD_FORMAT_VERSION)].

(** A field of an envelope, and the text its signature should cover. *)
Definition envelope_field (name envelope_bytes : string) : option jval :=
  match json_loads envelope_bytes with Some (JObj envelope) => obj_get name envelope | _ => None end.
Definition signed_text (envelope_bytes context : string) : string :=
  match envelope_field "kid" envelope_bytes, envelope_field "payload" envelope_bytes with
  | Some (JStr key_id), Some (JStr encoded) => signing_input key_id encoded context
  | _, _ => ""
  end.

Section SessionPayload.
Context `{Env}.

Definition _payload_signature (key_id encoded_payload binding_context : string) : res string :=
  match assoc key_id session_hmac_keys with
  | None => Raise (KeyError key_id)
  | Some key => Ok (hmac_sha256_hex key (signing_input key_id encoded_payload binding_context))
  end.

Definition sign_session_payload (payload binding_context : string) : res string :=
  rbind (_binding_context binding_context) (λ context,
  rbind (config_item "SESSION_HMAC_ACTIVE_KEY_ID") (λ v,
    let active_key_id := py_str v in
    let encoded_payload := b64encode payload in
    rbind (_payload_signature active_key_id encoded_payload context) (λ signature,
      Ok (json_dumps (envelope_of active_key_id encoded_payload signature))))).

Definition refuse {A} (reason : string) : res A := Raise (SessionPayloadIntegrityError reason).

Definition verify_session_payload (envelope_bytes binding_context : string) : res string :=
  rbind (_binding_context binding_context) (λ context,
    match json_loads envelope_bytes with
    | Some (JObj envelope) =>
        if negb (equals_int SESSION_PAYLOAD_FORMAT_VERSION (obj_get "v" envelope))
        then refuse "stale_or_unsupported_format"
        else match obj_get "kid" envelope, obj_get "payload" envelope with
        | Some (JStr key_id), Some (JStr encoded_payload) =>
            match obj_get "sig" envelope with
            | Some (JStr signature) =>
                if negb (nonempty signature) then refuse "missing_signature"
                else if negb (bool_decide (is_Some (assoc key_id session_hmac_keys)))
                then refuse "unknown_key_id"
                else
                  rbind (_payload_signature key_id encoded_payload context) (λ expected_signature,
                    if negb (bool_decide (signature = expected_signature))
                    then refuse "invalid_signature"
                    else match b64decode true encoded_payload with
                         | Some payload => Ok payload
                         | None => refuse "malformed_payload"
                         end)
            | _ => refuse "missing_signature"
            end
        | _, _ => refuse "malformed_payload"
        end
    | _ => refuse "unsupported_format"
    end).

(** What an accepted envelope looks like. *)
Lemma verify_inv envelope_bytes context payload :
  verify_session_payload envelope_bytes context = Ok payload →
  ∃ key_id encoded key, envelope_field "kid" envelope_bytes = Some (JStr key_id)
    ∧ envelope_field "payload" envelope_bytes = Some (JStr encoded)
    ∧ assoc key_id session_hmac_keys = Some key ∧ b64decode true encoded = Some payload
    ∧ envelope_field "sig" envelope_bytes
      = Some (JStr (hmac_sha256_hex key (signing_input key_id encoded context))).
Proof.
  unfold verify_session_payload, _binding_context, _payload_signature, refuse, envelope_field.
  destruct (nonempty context); simpl; [|done].
  destruct (json_loads envelope_bytes) as [[| | | | |envelope]|] eqn:El; try done.
  destruct (equals_int _ _); simpl; [|done].
  destruct (obj_get "kid" envelope) as [[| | |key_id| |]|] eqn:Ek; try done.
  destruct (obj_get "payload" envelope) as [[| | |encoded| |]|] eqn:Ep; try done.
  destruct (obj_get "sig" envelope) as [[| | |signature| |]|] eqn:Es; try done.
  destruct (nonempty signature); simpl; [|done].
  destruct (assoc key_id session_hmac_keys) as [key|] eqn:Ea; simpl; [|done].
  case_bool_decide as Hs; simpl; [|done]. subst.
  destruct (b64decode true encoded) as [p|] eqn:Eb; [|done]. intros [= ->].
  by exists key_id, encoded, key.
Qed.

Lemma envelope_reads_back key_id encoded signature :
  json_loads (json_dumps (envelope_of key_id encoded signature))
  = Some (envelope_of key_id encoded signature).
Proof. by apply json_loads_dumps. Qed.

(** A signature that is not empty verifies. *)
Lemma verify_signed key_id key payload context :
  assoc key_id session_hmac_keys = Some key → context ≠ "" →
  (∀ m, hmac_sha256_hex key m ≠ "") →
  verify_session_payload (json_dumps (envelope_of key_id (b64encode payload)
    (hmac_sha256_hex key (signing_input key_id (b64encode payload) context)))) context = Ok payload.
Proof.
  intros Ek Hc Hne. unfold verify_session_payload, _binding_context.
  rewrite envelope_reads_back. unfold nonempty. rewrite (bool_decide_eq_false_2 (context = "")) by done.
  simpl. rewrite bool_decide_eq_false_2 by done. simpl. rewrite Ek. simpl.
  unfold _payload_signature. rewrite Ek. simpl. rewrite bool_decide_eq_true_2 by done. simpl.
  by rewrite b64decode_encode.
Qed.

Lemma signed_verifies payload context envelope :
  (∀ k m, hmac_sha256_hex k m ≠ "") →
  sign_session_payload payload context = Ok envelope →
  verify_session_payload envelope context = Ok payload.
Proof.
  intros Hne. unfold sign_session_payload, _binding_context, _payload_signature.
  destruct (nonempty context) eqn:Hc; simpl; [|done].
  destruct (config_item _) as [v|]; simpl; [|done].
  destruct (assoc (py_str v) session_hmac_keys) as [key|] eqn:Ek; simpl; [|done].
  intros [= <-]. apply verify_signed; [done| |done]. by intros ->.
Qed.

Lemma verify_empty context text : verify_session_payload "" context ≠ Ok text.
Proof. unfold verify_session_payload. by destruct (_binding_context context). Qed.

Lemma signing_input_inj k1 e1 c1 k2 e2 c2 :
  signing_input k1 e1 c1 = signing_input k2 e2 c2 → k1 = k2 ∧ e1 = e2 ∧ c1 = c2.
Proof. intros E. apply json_dumps_inj in E; [|done..]. by simplify_eq. Qed.
End SessionPayload.

(** A signed session payload reads back under its binding context, and the
    signature is bound to both: an envelope that carries the same key id and
    signature verifies only for the same payload and context, unless the HMAC
    collides on the two signed texts. *)
Theorem session_payload_roundtrip `{Env} payload context envelope :
  (∀ k m, hmac_sha256_hex k m ≠ "") →
  sign_session_payload payload context = Ok envelope →
  verify_session_payload envelope context = Ok payload
  ∧ ∀ forged context' payload',
      verify_session_payload forged context' = Ok payload' →
      envelope_field "kid" forged = envelope_field "kid" envelope →
      envelope_field "sig" forged = envelope_field "sig" envelope →
      hmac_separates [signed_text envelope context; signed_text forged context'] →
      payload' = payload ∧ context' = context.
Proof.
  intros Hne Hs. pose proof (signed_verifies _ _ _ Hne Hs) as Hv.
  split; [done|]. intros forged context' payload' Hv' Ek Es Hsep.
  destruct (verify_inv _ _ _ Hv) as (k & e & key & Hk & He & Ha & Hd & Hg).
  destruct (verify_inv _ _ _ Hv') as (k' & e' & key' & Hk' & He' & Ha' & Hd' & Hg').
  rewrite Hk, Hk' in Ek. injection Ek as ->. rewrite Ha in Ha'. injection Ha' as <-.
  rewrite Hg, Hg' in Es. injection Es as Es.
  unfold signed_text in Hsep. rewrite Hk, Hk', He, He' in Hsep.
  apply Hsep, signing_input_inj in Es as (_ & -> & ->); [|set_solver..]. split; congruence.
Qed.

Lemma session_payload_roundtrip_witness :
  @verify_session_payload Sample.hex_env
    (match @sign_session_payload Sample.hex_env "data" "customer:sid" with
     | Ok e => e | Raise _ => "" end) "customer:sid" = Ok "data".
Proof.
  apply (@session_payload_roundtrip Sample.hex_env "data" "customer:sid").
  - exact Sample.hex_digest_nonempty.
  - by vm_compute.
Defined.
End SessionPayload.
