(* ===== verification/AuditLog.v ===== *)
(** * The security audit log: sanitizing and writing events

    [Sensitive] models [app/security/sensitive_values.py]; [Audit] models the
    redaction and the writers of [app/security/audit.py].  A required event is
    flushed into the caller's transaction and raises when it cannot be written;
    a best-effort event commits (or, failing, rolls back) the session. *)

From S2P Require Import Prelude PyStr PyDecimal TimeModel Schema Runtime Canonical Integrity.
From Stdlib Require Import Ascii.
Open Scope string_scope.
Open Scope Z_scope.

Module Sensitive.

Definition _CREDENTIAL_SCHEMES : list string := ["postgres://"; "postgresql://"; "redis://"].
Definition _WEBHOOK_HOSTS : list string := ["discord.com"; "discordapp.com"].
Definition _WEBHOOK_PATH_PREFIXES : list string := ["webhooks/"; "services/"].

Definition _is_word_character (c : ascii) : bool := bool_decide (c = "_"%char) || is_alnum c.

Fixpoint has_prefix (p l : list ascii) : bool :=
  match p, l with
  | [], _ => true
  | c :: p', d :: l' => bool_decide (c = d) && has_prefix p' l'
  | _, _ => false
  end.

(** Scans every position: [f prev rest] sees the character before it. *)
Fixpoint any_position (f : option ascii → list ascii → bool) (prev : option ascii)
    (l : list ascii) : bool :=
  f prev l || match l with [] => false | c :: l' => any_position f (Some c) l' end.

Fixpoint _authority_contains_password (has_sep : bool) (l : list ascii) : bool :=
  match l with
  | [] => false
  | c :: l' =>
      if is_space c || bool_decide (c = "/"%char) then false
      else if bool_decide (c = "@"%char) then has_sep
      else _authority_contains_password (has_sep || bool_decide (c = ":"%char)) l'
  end.

Definition contains_credential_url (text : string) : bool :=
  existsb (λ scheme,
    any_position (λ prev rest,
      has_prefix (chars scheme) (lower_char <$> rest)
      && negb (match prev with Some c => _is_word_character c | None => false end)
      && _authority_contains_password false (skipn (slen scheme) rest)) None (chars text))
    _CREDENTIAL_SCHEMES.

(** The authority up to the first slash, and what follows it. *)
Fixpoint _path_start (l : list ascii) : option (list ascii * list ascii) :=
  match l with
  | [] => None
  | c :: l' =>
      if is_space c then None
      else if bool_decide (c = "/"%char) then Some ([], l')
      else match _path_start l' with
           | Some (h, p) => Some (c :: h, p)
           | None => None
           end
  end.

Definition _is_webhook_host (host : string) : bool :=
  str_contains "hooks" host || str_in host _WEBHOOK_HOSTS.

Definition _has_webhook_path (path : list ascii) : bool :=
  let path := if has_prefix (chars "api/") (lower_char <$> path) then skipn 4 path else path in
  match List.find (λ p, has_prefix (chars p) (lower_char <$> path)) _WEBHOOK_PATH_PREFIXES with
  | Some p => match skipn (slen p) path with c :: _ => negb (is_space c) | [] => false end
  | None => false
  end.

Definition contains_webhook_url (text : string) : bool :=
  any_position (λ _ rest,
    has_prefix (chars "https://") (lower_char <$> rest)
    && match _path_start (skipn 8 rest) with
       | None => false
       | Some (host, path) =>
           _is_webhook_host (casefold (of_chars host)) && _has_webhook_path path
       end) None (chars text).

Definition contains_sensitive_url (text : string) : bool :=
  contains_credential_url text || contains_webhook_url text.

End Sensitive.

(** [repr] of the JSON values that can appear in audit metadata. *)
Definition repr_char (q c : ascii) : list ascii :=
  let n := code c in
  if bool_decide (c = q) || (n =? 92) then ["\"%char; c]
  else if n =? 10 then ["\"; "n"]%char
  else if n =? 13 then ["\"; "r"]%char
  else if n =? 9 then ["\"; "t"]%char
  else if (32 <=? n) && (n <=? 126) then [c]
  else ["\"; "x"; hex_digit (n / 16); hex_digit (n mod 16)]%char.
Definition repr_str (s : string) : string :=
  let q := if bool_decide ("'"%char ∈ chars s) && negb (bool_decide (quote ∈ chars s))
           then quote else "'"%char in
  of_chars (q :: (mjoin (repr_char q <$> chars s)) ++ [q])%list.
Fixpoint py_repr (v : jval) : string :=
  match v with
  | JNull => "None"
  | JBool true => "True"
  | JBool false => "False"
  | JInt z => pretty z
  | JStr s => repr_str s
  | JList l => "[" +:+ join ", " (py_repr <$> l) +:+ "]"
  | JObj kvs => "{" +:+ join ", " ((λ kv, repr_str kv.1 +:+ ": " +:+ py_repr kv.2) <$> kvs) +:+ "}"
  end.
(** [str(v)]: a string is itself, anything else its [repr]. *)
Definition py_text (v : jval) : string := match v with JStr s => s | _ => py_repr v end.

Module Audit.
Import Sensitive.

Definition SENSITIVE_KEY_PARTS : list string :=
  ["api_key"; "apikey"; "authorization"; "bearer"; "challenge"; "ciphertext"; "cookie"; "csrf";
   "full_account"; "iban"; "mfa_secret"; "nonce"; "passwd"; "password"; "private_key";
   "public_key"; "raw_redis"; "redis_payload"; "session_id"; "sessionid"; "secret"; "totp";
   "code"; "token"; "uri"; "url"].
Definition SENSITIVE_EXACT_KEYS : list string := ["credential"; "sid"].
Definition ACCOUNT_KEY_PARTS : list string := ["account_number"; "account_no"; "payee_account"; "pan"].
Definition AUDIT_HASH_ALGORITHM : string := "hmac-sha256-v1".
Definition LEGACY_AUDIT_HASH_ALGORITHM : string := "sha256-v1".
Definition SUPPORTED_AUDIT_HASH_ALGORITHMS : list string :=
  [AUDIT_HASH_ALGORITHM; LEGACY_AUDIT_HASH_ALGORITHM].
Definition AUDIT_HMAC_KEY_MIN_LENGTH : nat := 32.
Definition AUDIT_CHAIN_START_HASH : string := of_chars (repeat "0"%char 64).
Definition REDACTED_VALUE : string := "[redacted]".

Definition _clean_audit_text (value : string) (limit : nat) : string :=
  let cleaned := of_chars ((λ c, if (32 <=? code c) && negb (code c =? 127) then c else " "%char)
                             <$> chars value) in
  str_take limit (join " " (split_ws cleaned)).

Definition _is_sensitive_key (key_lower : string) : bool :=
  if endswith "_ref" key_lower || str_in key_lower ["principal_ref"; "session_ref"] then false
  else
    let normalized_key :=
      of_chars ((λ c, if bool_decide (c = "-"%char) then "_"%char else c) <$> chars key_lower) in
    str_in normalized_key SENSITIVE_EXACT_KEYS
    || existsb (λ part, str_contains part normalized_key) SENSITIVE_KEY_PARTS.

Definition token_char (c : ascii) : bool :=
  is_alnum c || str_in (String c "") ["_"; "+"; "/"; "="; "-"].
(** [SENSITIVE_LONG_TOKEN_RE.fullmatch]. *)
Definition long_token (text : string) : bool :=
  let l := chars text in
  (48 <=? length l)%nat && forallb token_char l
  && existsb (λ c, is_upper c || is_lower c) l && existsb is_digit l.

Definition _looks_like_sensitive_value (text : string) : bool :=
  let lowered := casefold text in
  existsb (λ p, startswith p lowered) ["bearer "; "basic "; "token "]
  || existsb (λ p, str_contains p lowered)
       ["begin private key"; "begin rsa private key"; "begin ec private key";
        "begin openssh private key"]
  || long_token (strip text).

Definition _looks_like_account_value (key_lower text : string) : bool :=
  if endswith "_ref" key_lower then false
  else if negb (existsb (λ part, str_contains part key_lower) ACCOUNT_KEY_PARTS) then false
  else (8 <=? length (List.filter is_digit (chars text)))%nat.

(** The last branch of [_sanitize_metadata_value]: a value seen as text. *)
Definition sanitize_text (raw_text key_lower : string) : jval :=
  if contains_sensitive_url raw_text then JStr REDACTED_VALUE
  else
    let text := _clean_audit_text raw_text 256 in
    if _looks_like_sensitive_value text || _looks_like_account_value key_lower text
    then JStr REDACTED_VALUE else JStr text.

Fixpoint _sanitize_metadata_value (value : jval) (key_lower : string) (depth : nat) : jval :=
  match value with
  | JNull | JBool _ | JInt _ => value
  | JStr s => sanitize_text s key_lower
  | JObj kvs =>
      if (depth <? 4)%nat then
        JObj (foldl (λ acc kv, obj_set kv.1 kv.2 acc) []
          (firstn 20 ((λ kv,
             let nested_key_text := _clean_audit_text kv.1 64 in
             let nested_key_lower := casefold nested_key_text in
             (nested_key_text,
              if _is_sensitive_key nested_key_lower then JStr REDACTED_VALUE
              else _sanitize_metadata_value kv.2 nested_key_lower (S depth))) <$> kvs)))
      else sanitize_text (py_text value) key_lower
  | JList l =>
      if (depth <? 4)%nat then
        JList (firstn 20 ((λ item, _sanitize_metadata_value item key_lower (S depth)) <$> l))
      else sanitize_text (py_text value) key_lower
  end.

Definition _sanitize_metadata (metadata : list (string * jval)) : list (string * jval) :=
  foldl (λ acc kv,
    let key_text := _clean_audit_text kv.1 64 in
    let key_lower := casefold key_text in
    obj_set key_text
      (if _is_sensitive_key key_lower then JStr REDACTED_VALUE
       else _sanitize_metadata_value kv.2 key_lower 0) acc) [] metadata.

(** ** Event hashes *)

(** [sorted(value, key=str)] on an object's items. *)
Fixpoint insert_item (kv : string * jval) (l : list (string * jval)) : list (string * jval) :=
  match l with
  | [] => [kv]
  | kv' :: l' => if str_leb kv.1 kv'.1 then kv :: l else kv' :: insert_item kv l'
  end.
Definition sort_items (l : list (string * jval)) := foldr insert_item [] l.

Fixpoint _canonical_json_value (value : jval) : jval :=
  match value with
  | JObj kvs => JObj (sort_items ((λ kv, (kv.1, _canonical_json_value kv.2)) <$> kvs))
  | JList l => JList (_canonical_json_value <$> l)
  | _ => value
  end.

Definition jopt_str (o : option string) : jval :=
  match o with Some s => JStr s | None => JNull end.
Definition jopt_int (o : option Z) : jval := match o with Some z => JInt z | None => JNull end.

(** [audit._utc_iso]: ["+00:00"] is written ["Z"]. *)
Definition _utc_iso (value : Z) : string := iso_auto value +:+ "Z".

Definition audit_payload (event : SecurityAuditEvent) : jval :=
  JObj [("correlation_id", JStr (ev_correlation_id event));
        ("created_at", JStr (_utc_iso (ev_created_at event)));
        ("event_metadata", _canonical_json_value (JObj (ev_event_metadata event)));
        ("event_type", JStr (ev_event_type event));
        ("ip_address", JStr (ev_ip_address event));
        ("outcome", JStr (ev_outcome event));
        ("previous_event_hash", jopt_str (ev_previous_event_hash event));
        ("session_ref", jopt_str (ev_session_ref event));
        ("user_agent", JStr (ev_user_agent event));
        ("user_id", jopt_int (ev_user_id event))].

Definition _canonical_audit_event_payload (event : SecurityAuditEvent) : string :=
  json_dumps (audit_payload event).

Section Audit.
Context `{Env}.

Definition session_fingerprint (session_id : option string) : res (option string) :=
  match session_id with
  | None => Ok None
  | Some s => if nonempty s then rbind (active_hmac_hex s 16) (λ h, Ok (Some h)) else Ok None
  end.

(** [audit_reference(namespace, value)] for a value with text [value]. *)
Definition audit_reference (namespace value : string) : res (option string) :=
  let text := strip value in
  if nonempty text then
    let cleaned := casefold (_clean_audit_text namespace 48) in
    let clean_namespace := if nonempty cleaned then cleaned else "audit" in
    rbind (active_hmac_hex ("audit-ref:" +:+ clean_namespace +:+ ":" +:+ casefold text) 32)
      (λ h, Ok (Some h))
  else Ok None.

Definition principal_reference (identifier : string) : res (option string) :=
  audit_reference "principal" identifier.

Definition _audit_hmac_key_bytes : res string :=
  let value := config_str_or_empty "SECURITY_AUDIT_HMAC_KEY" in
  if (slen value <? AUDIT_HMAC_KEY_MIN_LENGTH)%nat
  then Raise (RuntimeError "SECURITY_AUDIT_HMAC_KEY must be at least 32 characters")
  else Ok value.

Definition validate_audit_integrity_config : res Z :=
  rbind _audit_hmac_key_bytes (λ k, Ok (Z.of_nat (slen k))).

(** [event.hash_algorithm or LEGACY_AUDIT_HASH_ALGORITHM]. *)
Definition algorithm_of (event : SecurityAuditEvent) : string :=
  match ev_hash_algorithm event with
  | Some a => if nonempty a then a else LEGACY_AUDIT_HASH_ALGORITHM
  | None => LEGACY_AUDIT_HASH_ALGORITHM
  end.

Definition _compute_audit_event_hash (event : SecurityAuditEvent) : res string :=
  let payload := _canonical_audit_event_payload event in
  let algorithm := algorithm_of event in
  if bool_decide (algorithm = AUDIT_HASH_ALGORITHM)
  then rbind _audit_hmac_key_bytes (λ key, Ok (hmac_sha256_hex key payload))
  else if bool_decide (algorithm = LEGACY_AUDIT_HASH_ALGORITHM) then Ok (sha256_hex payload)
  else Raise (ValueError "Unsupported audit hash algorithm").

(** [event.event_hash] with Python truthiness. *)
Definition event_hash_text (event : SecurityAuditEvent) : option string :=
  match ev_event_hash event with
  | Some h => if nonempty h then Some h else None
  | None => None
  end.

Definition has_event_hash (event : SecurityAuditEvent) : bool :=
  match ev_event_hash event with Some _ => true | None => false end.

(** The newest event whose hash is not NULL. *)
Definition _latest_audit_event_hash (events : list SecurityAuditEvent) : string :=
  match List.find has_event_hash (rev events) with
  | Some e => match event_hash_text e with Some h => h | None => AUDIT_CHAIN_START_HASH end
  | None => AUDIT_CHAIN_START_HASH
  end.

Definition next_event_id (events : list SecurityAuditEvent) : Z :=
  match last events with Some e => ev_id e + 1 | None => 1 end.

Definition append_event (event : SecurityAuditEvent) : Db → Db :=
  upd_security_audit_events (λ l, l ++ [event])%list.

(** [_audit_event].  [user_id] is [user.id if user is not None else user_id];
    the oracle decides whether the database accepts the insert. *)
Definition _audit_event (event_type outcome : string) (user_id : option Z)
    (metadata : list (string * jval)) (session_id : option string) (required : bool)
    : M St unit :=
  if negb has_request_context then
    if required then raise (AuditWriteError "Required audit events need a request context")
    else ret tt
  else
    sid <- gets session_sid ;;
    session_ref <- lift (session_fingerprint
      (match session_id with Some x => if nonempty x then Some x else sid | None => sid end)) ;;
    created_at <- now_utc ;;
    try_except
      (failed <- fresh audit_fault ;;
       _ <- (if (failed : bool) then raise IntegrityError else ret tt) ;;
       events <- db_get security_audit_events ;;
       let event := mkSecurityAuditEvent (next_event_id events)
         (_clean_audit_text event_type 80) (_clean_audit_text outcome 24) user_id
         (_clean_audit_text (match request_remote_addr with
            Some a => if nonempty a then a else "unknown" | None => "unknown" end) 64)
         (_clean_audit_text
            (if nonempty request_user_agent then request_user_agent else "unknown") 256)
         (_clean_audit_text request_correlation_id 36) session_ref
         (_sanitize_metadata metadata) (Some (_latest_audit_event_hash events)) None
         (Some AUDIT_HASH_ALGORITHM) created_at in
       event_hash <- lift (_compute_audit_event_hash event) ;;
       _ <- db_write (append_event (set_ev_event_hash (Some event_hash) event)) ;;
       if required then ret tt else (_ <- flush ;; commit))
      any_exn
      (λ _, if required
            then raise (AuditWriteError "Required audit event could not be recorded")
            else rollback).

Definition audit_event (event_type outcome : string) (user_id : option Z)
    (metadata : list (string * jval)) : M St unit :=
  _audit_event event_type outcome user_id metadata None false.

Definition audit_event_required (event_type outcome : string) (user_id : option Z)
    (metadata : list (string * jval)) : M St unit :=
  _audit_event event_type outcome user_id metadata None true.

(** Events outside a request.  [{**metadata, "actor": "system"}]. *)
Definition as_system (metadata : list (string * jval)) : list (string * jval) :=
  if bool_decide ("actor" ∈ metadata.*1)
  then (λ '(k, v), (k, if bool_decide (k = "actor") then JStr "system" else v)) <$> metadata
  else (metadata ++ [("actor", JStr "system")])%list.

(** [_write_system_audit_event]: the event the caller may log, or [None]. *)
Definition _write_system_audit_event (event_type outcome : string) (user_id : option Z)
    (metadata : list (string * jval)) (required commits : bool)
    : M St (option SecurityAuditEvent) :=
  correlation_id <- fresh uuid4 ;;
  created_at <- now_utc ;;
  try_except
    (failed <- fresh audit_fault ;;
     _ <- (if (failed : bool) then raise IntegrityError else ret tt) ;;
     events <- db_get security_audit_events ;;
     let event := mkSecurityAuditEvent (next_event_id events)
       (_clean_audit_text event_type 80) (_clean_audit_text outcome 24) user_id
       "system" "system" correlation_id None (as_system (_sanitize_metadata metadata))
       (Some (_latest_audit_event_hash events)) None (Some AUDIT_HASH_ALGORITHM) created_at in
     event_hash <- lift (_compute_audit_event_hash event) ;;
     let event := set_ev_event_hash (Some event_hash) event in
     _ <- db_write (append_event event) ;;
     _ <- flush ;;
     _ <- (if commits then commit else ret tt) ;;
     ret (Some event))
    any_exn
    (λ _, _ <- (if commits then rollback else ret tt) ;;
          if required
          then raise (AuditWriteError "Required system audit event could not be recorded")
          else ret None).

Definition audit_system_event (event_type outcome : string) (user_id : option Z)
    (metadata : list (string * jval)) : M St unit :=
  _ <- _write_system_audit_event event_type outcome user_id metadata false true ;; ret tt.

Definition audit_system_event_required (event_type outcome : string) (user_id : option Z)
    (metadata : list (string * jval)) : M St unit :=
  _ <- _write_system_audit_event event_type outcome user_id metadata true true ;; ret tt.

Definition audit_system_event_in_transaction_required (event_type outcome : string)
    (user_id : option Z) (metadata : list (string * jval)) : M St SecurityAuditEvent :=
  event <- _write_system_audit_event event_type outcome user_id metadata true false ;;
  match event with
  | Some event => ret event
  | None => raise (AuditWriteError "Required system audit event could not be recorded")
  end.

(** ** What a write does to the database *)

(** An event written after [events]: it names the newest hash, and carries its
    own. *)
Definition linked (events : list SecurityAuditEvent) (event : SecurityAuditEvent) : Prop :=
  ev_id event = next_event_id events
  ∧ ev_previous_event_hash event = Some (_latest_audit_event_hash events)
  ∧ ev_hash_algorithm event = Some AUDIT_HASH_ALGORITHM
  ∧ ∃ h, ev_event_hash event = Some h ∧ _compute_audit_event_hash event = Ok h.

(** The pending database with one more audit event. *)
Definition one_more_event (d d' : Db) : Prop :=
  ∃ event, linked (security_audit_events d) event ∧ d' = append_event event d.

Lemma optional_write_cases ty out u md sid s r s' :
  _audit_event ty out u md sid false s = (r, s') →
  (committed s' = working s' ∧ one_more_event (working s) (working s'))
  ∨ (committed s' = committed s ∧ working s' = committed s)
  ∨ (committed s' = committed s ∧ working s' = working s).
Proof.
  unfold _audit_event. destruct (negb has_request_context).
  { intros [= <- <-]. by right; right. }
  unfold bind at 1, gets. unfold bind at 1, lift.
  destruct (session_fingerprint _) as [sr|e]; [|intros [= <- <-]; by right; right].
  unfold bind at 1. destruct (now_utc s) as [[t|?] s1] eqn:Et;
    [|unfold now_utc in Et; simplify_eq].
  unfold now_utc in Et. injection Et as <- <-.
  unfold try_except. unfold bind at 1, fresh at 1.
  set (f := audit_fault _). unfold bind at 1. destruct f.
  { simpl. intros [= <- <-]. by right; left. }
  unfold bind, lift, db_get, gets, db_write, modify, flush, commit, ret. cbn -[_compute_audit_event_hash].
  match goal with |- context [_compute_audit_event_hash ?e] =>
    destruct (_compute_audit_event_hash e) as [h|e'] eqn:Eh end.
  2:{ simpl. intros [= <- <-]. by right; left. }
  cbn -[db_ok append_event]. destruct (db_ok _) eqn:Eok.
  - cbn -[db_ok append_event]. rewrite Eok. intros [= <- <-]. left. simpl.
    split; [done|]. eexists. split; [|done]. by split_and!; [| | |exists h].
  - intros [= <- <-]. by right; left.
Qed.

Lemma required_write_cases ty out u md sid s r s' :
  _audit_event ty out u md sid true s = (r, s') →
  committed s' = committed s ∧
  ((r = Ok tt ∧ one_more_event (working s) (working s'))
   ∨ ((∃ e, r = Raise e) ∧ working s' = working s)).
Proof.
  unfold _audit_event. destruct (negb has_request_context).
  { intros [= <- <-]. eauto. }
  unfold bind at 1, gets. unfold bind at 1, lift.
  destruct (session_fingerprint _) as [sr|e]; [|intros [= <- <-]; eauto].
  unfold bind at 1. destruct (now_utc s) as [[t|?] s1] eqn:Et;
    [|unfold now_utc in Et; simplify_eq].
  unfold now_utc in Et. injection Et as <- <-.
  unfold try_except. unfold bind at 1, fresh at 1.
  set (f := audit_fault _). unfold bind at 1. destruct f.
  { simpl. intros [= <- <-]. eauto. }
  unfold bind, lift, db_get, gets, db_write, modify, flush, commit, ret. cbn -[_compute_audit_event_hash].
  match goal with |- context [_compute_audit_event_hash ?e] =>
    destruct (_compute_audit_event_hash e) as [h|e'] eqn:Eh end.
  2:{ simpl. intros [= <- <-]. eauto. }
  intros [= <- <-]. split; [done|]. left.
  split; [done|]. eexists. split; [|done]. by split_and!; [| | |exists h].
Qed.

(** A required event that was written says what happened and who did it. *)
Definition names_event (event_type outcome : string) (user_id : option Z) (event : SecurityAuditEvent) : Prop :=
  ev_event_type event = _clean_audit_text event_type 80
  ∧ ev_outcome event = _clean_audit_text outcome 24 ∧ ev_user_id event = user_id.

Lemma required_event ty out u md s s' :
  audit_event_required ty out u md s = (Ok tt, s') →
  committed s' = committed s ∧ ∃ event, names_event ty out u event ∧ working s' = append_event event (working s).
Proof.
  unfold audit_event_required, _audit_event. destruct (negb has_request_context); [done|].
  unfold bind at 1, gets. unfold bind at 1, lift. destruct (session_fingerprint _) as [sr|e]; [|done].
  unfold bind at 1. destruct (now_utc s) as [[t|?] s1] eqn:Et; [|done]. unfold now_utc in Et. injection Et as <- <-.
  unfold try_except. unfold bind at 1, fresh at 1. set (f := audit_fault _). unfold bind at 1. destruct f; [done|].
  unfold bind, lift, db_get, gets, db_write, modify, ret. cbn -[_compute_audit_event_hash].
  match goal with |- context [_compute_audit_event_hash ?e] =>
    destruct (_compute_audit_event_hash e) as [h|e'] eqn:Eh end; [|done].
  intros [= <-]. split; [done|]. eexists. split; [|reflexivity]. by split_and!.
Qed.

Lemma audit_event_cases ty out u md s r s' :
  audit_event ty out u md s = (r, s') →
  (committed s' = working s' ∧ one_more_event (working s) (working s'))
  ∨ (committed s' = committed s ∧ working s' = committed s)
  ∨ (committed s' = committed s ∧ working s' = working s).
Proof. apply optional_write_cases. Qed.

Lemma audit_event_required_cases ty out u md s r s' :
  audit_event_required ty out u md s = (r, s') →
  committed s' = committed s ∧
  ((r = Ok tt ∧ one_more_event (working s) (working s'))
   ∨ ((∃ e, r = Raise e) ∧ working s' = working s)).
Proof. apply required_write_cases. Qed.

(** A system event that fails inside the caller's transaction may stay pending:
    the caller raises. *)
Lemma system_write_cases ty out u md required commits s r s' :
  _write_system_audit_event ty out u md required commits s = (r, s') →
  (one_more_event (working s) (working s')
     ∧ (committed s' = committed s ∨ committed s' = working s'))
  ∨ (committed s' = committed s ∧ (working s' = committed s ∨ working s' = working s)).
Proof.
  unfold _write_system_audit_event. unfold bind at 1, fresh at 1. unfold bind at 1, now_utc at 1.
  unfold try_except. unfold bind at 1, fresh at 1.
  set (f := audit_fault _). unfold bind at 1. destruct f.
  { destruct commits, required; simpl; intros [= <- <-]; right; auto. }
  unfold bind, lift, db_get, gets, db_write, modify, flush, commit, ret. cbn -[_compute_audit_event_hash].
  match goal with |- context [_compute_audit_event_hash ?e] =>
    destruct (_compute_audit_event_hash e) as [h|e'] eqn:Eh end.
  2:{ destruct commits, required; simpl; intros [= <- <-]; right; auto. }
  assert (∀ e, _compute_audit_event_hash e = Ok h → ev_id e = next_event_id (security_audit_events (working s)) →
    ev_previous_event_hash e = Some (_latest_audit_event_hash (security_audit_events (working s))) →
    ev_hash_algorithm e = Some AUDIT_HASH_ALGORITHM →
    one_more_event (working s) (append_event (set_ev_event_hash (Some h) e) (working s))) as Hone.
  { intros e He Hid Hp Ha. eexists. split; [|done]. split_and!; [done..|]. by exists h. }
  specialize (Hone _ Eh eq_refl eq_refl eq_refl).
  cbn -[db_ok append_event]. destruct (db_ok _) eqn:Eok.
  - destruct commits; cbn -[db_ok append_event]; rewrite ?Eok; intros [= <- <-]; left; simpl; auto.
  - destruct commits, required; simpl; intros [= <- <-]; auto.
Qed.

(** An invariant that does not look at the audit log survives the writers. *)
Lemma pres_system_write (P : Db → Db → Prop) ty out u md required commits :
  (∀ c w, P c w → P c c) → (∀ c w, P c w → P w w) →
  (∀ e c w, P c w → P c (append_event e w)) →
  preserves (on_db P) (_write_system_audit_event ty out u md required commits).
Proof.
  intros Hc Hw Ha s Hs.
  destruct (_write_system_audit_event ty out u md required commits s) as [r s'] eqn:E.
  unfold on_db in *. simpl.
  apply system_write_cases in E as [[(e & _ & ->) [-> | ->]]|[-> [-> | ->]]]; [by apply Ha| |eauto..].
  eapply Hw, Ha, Hs.
Qed.

Lemma pres_audit_write (P : Db → Db → Prop) ty out u md sid required :
  (∀ c w, P c w → P c c) → (∀ c w, P c w → P w w) →
  (∀ e c w, P c w → P c (append_event e w)) →
  preserves (on_db P) (_audit_event ty out u md sid required).
Proof.
  intros Hc Hw Ha s Hs. destruct (_audit_event ty out u md sid required s) as [r s'] eqn:E.
  unfold on_db in *. simpl. destruct required.
  - apply required_write_cases in E as [-> [[_ (e & _ & ->)]|[_ ->]]]; auto.
  - apply optional_write_cases in E as [[-> (e & _ & ->)]|[[-> ->]|[-> ->]]]; [|eauto..].
    eapply Hw, Ha, Hs.
Qed.
Lemma pres_audit_event (P : Db → Db → Prop) ty out u md :
  (∀ c w, P c w → P c c) → (∀ c w, P c w → P w w) →
  (∀ e c w, P c w → P c (append_event e w)) →
  preserves (on_db P) (audit_event ty out u md).
Proof. apply pres_audit_write. Qed.

Lemma pres_audit_event_required (P : Db → Db → Prop) ty out u md :
  (∀ e c w, P c w → P c (append_event e w)) →
  preserves (on_db P) (audit_event_required ty out u md).
Proof.
  intros Ha s Hs. destruct (audit_event_required ty out u md s) as [r s'] eqn:E.
  unfold on_db in *. simpl.
  apply audit_event_required_cases in E as [-> [[_ (e & _ & ->)]|[_ ->]]]; auto.
Qed.

Lemma nb_audit_event t ty out u md : preserves (not_before t) (audit_event ty out u md).
Proof. unfold audit_event, _audit_event. solve_pres. Qed.
Lemma nb_audit_required t ty out u md : preserves (not_before t) (audit_event_required ty out u md).
Proof. unfold audit_event_required, _audit_event. solve_pres. Qed.
Lemma sk_audit_write k v ty out u md sid b :
  preserves (session_key k v) (_audit_event ty out u md sid b).
Proof. unfold _audit_event. solve_pres. Qed.
Lemma sk_audit_event k v ty out u md : preserves (session_key k v) (audit_event ty out u md).
Proof. apply sk_audit_write. Qed.
Lemma sk_audit_required k v ty out u md : preserves (session_key k v) (audit_event_required ty out u md).
Proof. apply sk_audit_write. Qed.
Lemma sk_system_write k v ty out u md b c :
  preserves (session_key k v) (_write_system_audit_event ty out u md b c).
Proof. unfold _write_system_audit_event. solve_pres. Qed.
End Audit.
#[export] Hint Resolve sk_system_write nb_audit_event nb_audit_required sk_audit_write sk_audit_event sk_audit_required : pres.
End Audit.
