(* ===== verification/MfaCrypto.v ===== *)
(** * Authenticator secrets at rest ([app/security/crypto.py])

    A secret is encrypted under a fresh data key, and the data key under the
    active key-encryption key; both ciphertexts and their nonces travel in a JSON
    envelope.  The envelope opens to the secret, still does after the data key is
    rewrapped under another key, and opens for no other user. *)

From S2P Require Import Prelude PyStr Base64 Schema Runtime Sample Canonical Json AuditLog.
From Stdlib Require Import Ascii.
Open Scope string_scope.
Open Scope Z_scope.

Module MfaCrypto.
Import Audit.

Definition ENVELOPE_NONCE_MARKER : string := "SITMFAENV001".
Definition ENVELOPE_VERSION : Z := 1.
Definition ENVELOPE_ALGORITHM : string := "AES-256-GCM".

Definition _associated_data (user_id : Z) (kek_id part : string) : string :=
  if bool_decide (part = "secret")
  then "sitbank:mfa-secret:v" +:+ pretty ENVELOPE_VERSION +:+ ":user:" +:+ pretty user_id
         +:+ ":part:secret"
  else "sitbank:mfa-secret:v" +:+ pretty ENVELOPE_VERSION +:+ ":user:" +:+ pretty user_id
         +:+ ":kek:" +:+ kek_id +:+ ":part:" +:+ part.

Definition envelope_error {A} (message : string) : res A := Raise (MFASecretEnvelopeError message).

Definition _b64decode (value : option jval) (field : string) : res string :=
  match value with
  | None => Raise (KeyError field)
  | Some (JStr text) =>
      if negb (is_ascii text) then envelope_error (field +:+ " must be valid base64")
      else match b64decode true text with
           | Some bytes => Ok bytes
           | None => envelope_error (field +:+ " must be valid base64")
           end
  | Some _ => envelope_error (field +:+ " must be base64 text")
  end.

Definition is_enveloped_mfa_secret (nonce ciphertext : string) : bool :=
  bool_decide (nonce = ENVELOPE_NONCE_MARKER) && nonempty ciphertext.

Definition envelope_fields : list string :=
  ["alg"; "dek_nonce"; "dek_wrapped"; "kek_id"; "secret_ciphertext"; "secret_nonce"; "v"].
Definition same_keys (keys required : list string) : bool :=
  forallb (λ k, str_in k required) keys && forallb (λ k, str_in k keys) required.

Definition str_field (name : string) (envelope : list (string * jval)) : string :=
  match obj_get name envelope with Some (JStr s) => s | _ => "" end.

Definition _load_envelope (ciphertext : string) : res (list (string * jval)) :=
  match json_loads ciphertext with
  | None => envelope_error "MFA envelope must be valid JSON"
  | Some (JObj envelope) =>
      if negb (same_keys envelope.*1 envelope_fields)
      then envelope_error "MFA envelope fields are invalid"
      else if negb (equals_int ENVELOPE_VERSION (obj_get "v" envelope)
                    && bool_decide (str_field "alg" envelope = ENVELOPE_ALGORITHM))
      then envelope_error "MFA envelope version or algorithm is unsupported"
      else if negb (nonempty (str_field "kek_id" envelope))
      then envelope_error "MFA envelope KEK identifier is invalid"
      else Ok envelope
  | Some _ => envelope_error "MFA envelope must be a JSON object"
  end.

Definition mfa_envelope_kek_id (nonce ciphertext : string) : res (option string) :=
  if negb (is_enveloped_mfa_secret nonce ciphertext) then Ok None
  else rbind (_load_envelope ciphertext) (λ envelope, Ok (Some (str_field "kek_id" envelope))).

(** The envelope as written: [json.dumps] sorts the keys. *)
Definition envelope_json (kek_id dek_wrapped dek_nonce secret_ciphertext secret_nonce : string)
    : list (string * jval) :=
  [("alg", JStr ENVELOPE_ALGORITHM); ("dek_nonce", JStr (b64encode dek_nonce));
   ("dek_wrapped", JStr (b64encode dek_wrapped)); ("kek_id", JStr kek_id);
   ("secret_ciphertext", JStr (b64encode secret_ciphertext));
   ("secret_nonce", JStr (b64encode secret_nonce)); ("v", JInt ENVELOPE_VERSION)].

(** [type(exc).__name__] of the errors [_decrypt_envelope] catches. *)
Definition decrypt_error_name (e : exn) : option string :=
  match e with
  | InvalidTag => Some "InvalidTag"
  | MFASecretEnvelopeError _ => Some "MFASecretEnvelopeError"
  | KeyError _ => Some "KeyError"
  | _ => None
  end.

Section MfaCrypto.
Context `{Env}.

Definition _audit_mfa_crypto (action outcome : string) (user_id : option Z)
    (metadata : list (string * jval)) : M St unit :=
  try_except (audit_event ("mfa_secret_" +:+ action) outcome user_id metadata) any_exn
    (λ _, ret tt).

Definition _kek (kek_id : string) : M St string :=
  match assoc kek_id mfa_kek_keys with
  | Some key => ret key
  | None =>
      _ <- _audit_mfa_crypto "decrypt" "failure" None
             [("reason", JStr "unknown_kek_id"); ("kek_id", JStr kek_id)] ;;
      raise (MFASecretEnvelopeError "Unknown MFA KEK identifier")
  end.

Definition _active_kek : M St (string * string) :=
  kek_id <- lift (config_item "MFA_KEK_ACTIVE_ID") ;;
  key <- _kek (py_str kek_id) ;;
  ret (py_str kek_id, key).

Definition encrypt_mfa_secret (secret : string) (user_id : Z) (kek_id : option string)
    : M St (string * string) :=
  let* (selected_kek_id, kek) :=
    match kek_id with
    | None => _active_kek
    | Some id => key <- _kek id ;; ret (id, key)
    end in
  dek <- fresh (λ n, urandom n 32) ;;
  dek_nonce <- fresh (λ n, urandom n 12) ;;
  secret_nonce <- fresh (λ n, urandom n 12) ;;
  secret_ciphertext <- lift (aesgcm_encrypt dek secret_nonce secret
                               (_associated_data user_id selected_kek_id "secret")) ;;
  wrapped_dek <- lift (aesgcm_encrypt kek dek_nonce dek
                         (_associated_data user_id selected_kek_id "dek")) ;;
  let envelope := envelope_json selected_kek_id wrapped_dek dek_nonce secret_ciphertext
                    secret_nonce in
  _ <- _audit_mfa_crypto "encrypt" "success" (Some user_id) [("kek_id", JStr selected_kek_id)] ;;
  ret (ENVELOPE_NONCE_MARKER, json_dumps (JObj envelope)).

Definition _unwrap_dek (envelope : list (string * jval)) (user_id : Z) : M St string :=
  let kek_id := str_field "kek_id" envelope in
  key <- _kek kek_id ;;
  dek_nonce <- lift (_b64decode (obj_get "dek_nonce" envelope) "dek_nonce") ;;
  dek_wrapped <- lift (_b64decode (obj_get "dek_wrapped" envelope) "dek_wrapped") ;;
  try_except
    (lift (aesgcm_decrypt key dek_nonce dek_wrapped (_associated_data user_id kek_id "dek")))
    (λ e, bool_decide (e = InvalidTag))
    (λ e, _ <- _audit_mfa_crypto "decrypt" "failure" (Some user_id)
                 [("reason", JStr "dek_invalid_tag"); ("kek_id", JStr kek_id)] ;;
          raise e).

Definition _decrypt_envelope (ciphertext : string) (user_id : Z) : M St string :=
  envelope <- lift (_load_envelope ciphertext) ;;
  let kek_id := str_field "kek_id" envelope in
  try_except
    (dek <- _unwrap_dek envelope user_id ;;
     secret_nonce <- lift (_b64decode (obj_get "secret_nonce" envelope) "secret_nonce") ;;
     secret_ciphertext <- lift (_b64decode (obj_get "secret_ciphertext" envelope)
                                  "secret_ciphertext") ;;
     lift (aesgcm_decrypt dek secret_nonce secret_ciphertext
             (_associated_data user_id kek_id "secret")))
    (λ e, bool_decide (is_Some (decrypt_error_name e)))
    (λ e, _ <- _audit_mfa_crypto "decrypt" "failure" (Some user_id)
                 [("reason", JStr (default "" (decrypt_error_name e))); ("kek_id", JStr kek_id)] ;;
          raise e).

Definition decrypt_mfa_secret (nonce ciphertext : string) (user_id : Z) : M St string :=
  if is_enveloped_mfa_secret nonce ciphertext then _decrypt_envelope ciphertext user_id
  else
    _ <- _audit_mfa_crypto "decrypt" "failure" (Some user_id)
           [("reason", JStr "unsupported_format")] ;;
    raise (MFASecretEnvelopeError "MFA secret envelope is required").

Definition rewrap_mfa_dek (nonce ciphertext : string) (user_id : Z) (to_kek_id : string)
    (from_kek_id : option string) : M St (string * string) :=
  if negb (is_enveloped_mfa_secret nonce ciphertext)
  then raise (MFASecretEnvelopeError "Legacy MFA secret must be re-encrypted, not rewrapped")
  else
    envelope <- lift (_load_envelope ciphertext) ;;
    let current_kek_id := str_field "kek_id" envelope in
    if match from_kek_id with Some id => negb (bool_decide (current_kek_id = id)) | None => false end
    then raise (MFASecretEnvelopeError "Envelope KEK identifier does not match from_kek_id")
    else if bool_decide (current_kek_id = to_kek_id) then ret (nonce, ciphertext)
    else
      dek <- _unwrap_dek envelope user_id ;;
      new_dek_nonce <- fresh (λ n, urandom n 12) ;;
      key <- _kek to_kek_id ;;
      wrapped_dek <- lift (aesgcm_encrypt key new_dek_nonce dek
                             (_associated_data user_id to_kek_id "dek")) ;;
      let envelope := obj_set "dek_wrapped" (JStr (b64encode wrapped_dek))
        (obj_set "dek_nonce" (JStr (b64encode new_dek_nonce))
           (obj_set "kek_id" (JStr to_kek_id) envelope)) in
      _ <- _audit_mfa_crypto "rewrap" "success" (Some user_id)
             [("from_kek_id", JStr current_kek_id); ("to_kek_id", JStr to_kek_id)] ;;
      ret (ENVELOPE_NONCE_MARKER, json_dumps (JObj envelope)).

(** ** Envelopes open *)

(** AES-GCM as documented: a ciphertext decrypts to its plaintext under the same
    key, nonce and associated data, and under no other associated data. *)
Definition aead_correct : Prop := ∀ key nonce data aad c,
  aesgcm_encrypt key nonce data aad = Ok c → aesgcm_decrypt key nonce c aad = Ok data.
Definition aead_binds : Prop := ∀ key nonce data data' aad aad' c,
  aesgcm_encrypt key nonce data aad = Ok c → aesgcm_decrypt key nonce c aad' = Ok data' →
  aad' = aad.

(** Decryption returns the secret, in any state and without effects. *)
Definition opens_to (nonce ciphertext : string) (user_id : Z) (secret : string) : Prop :=
  ∀ s, decrypt_mfa_secret nonce ciphertext user_id s = (Ok secret, s).

Lemma load_envelope_json kek_id dek_wrapped dek_nonce secret_ciphertext secret_nonce :
  kek_id ≠ "" →
  let envelope := envelope_json kek_id dek_wrapped dek_nonce secret_ciphertext secret_nonce in
  _load_envelope (json_dumps (JObj envelope)) = Ok envelope.
Proof.
  intros Hk envelope. unfold _load_envelope. rewrite json_loads_dumps by done. simpl.
  unfold str_field. simpl. unfold nonempty. by rewrite (bool_decide_eq_false_2 (kek_id = "")).
Qed.

(** The fields of a written envelope. *)
Section Fields.
Context (kek_id dek_wrapped dek_nonce sc sn : string).
Let envelope := envelope_json kek_id dek_wrapped dek_nonce sc sn.
Lemma is_enveloped_json :
  is_enveloped_mfa_secret ENVELOPE_NONCE_MARKER (json_dumps (JObj envelope)) = true.
Proof. done. Qed.
Lemma kek_id_json : str_field "kek_id" envelope = kek_id.
Proof. done. Qed.
Lemma dek_nonce_json : obj_get "dek_nonce" envelope = Some (JStr (b64encode dek_nonce)).
Proof. done. Qed.
Lemma dek_wrapped_json : obj_get "dek_wrapped" envelope = Some (JStr (b64encode dek_wrapped)).
Proof. done. Qed.
End Fields.

Lemma b64decode_field bytes field : _b64decode (Some (JStr (b64encode bytes))) field = Ok bytes.
Proof.
  unfold _b64decode. by rewrite b64encode_ascii, b64decode_encode.
Qed.

Lemma lift_field bytes field s :
  lift (S:=St) (_b64decode (Some (JStr (b64encode bytes))) field) s = (Ok bytes, s).
Proof. unfold lift. by rewrite b64decode_field. Qed.

Lemma kek_known kek_id key s : assoc kek_id mfa_kek_keys = Some key → _kek kek_id s = (Ok key, s).
Proof. intros E. unfold _kek. by rewrite E. Qed.

Lemma kek_inv kek_id key s s' :
  _kek kek_id s = (Ok key, s') → assoc kek_id mfa_kek_keys = Some key.
Proof.
  unfold _kek. destruct (assoc kek_id mfa_kek_keys) as [k|]; unfold ret; [by intros [= ->]|].
  unfold bind. by destruct (_audit_mfa_crypto _ _ _ _ s) as [[]].
Qed.

Lemma unwrap_dek_json user_id kek_id kek dek dek_wrapped dek_nonce sc sn s :
  assoc kek_id mfa_kek_keys = Some kek →
  aesgcm_decrypt kek dek_nonce dek_wrapped (_associated_data user_id kek_id "dek") = Ok dek →
  _unwrap_dek (envelope_json kek_id dek_wrapped dek_nonce sc sn) user_id s = (Ok dek, s).
Proof.
  intros Hk Hd. unfold _unwrap_dek. erewrite bind_Ok by by apply kek_known.
  do 2 (erewrite bind_Ok by apply lift_field). unfold try_except, lift.
  change (str_field "kek_id" _) with kek_id. by rewrite Hd.
Qed.

Lemma envelope_opens user_id kek_id kek dek secret dek_wrapped dek_nonce sc sn :
  assoc kek_id mfa_kek_keys = Some kek → kek_id ≠ "" →
  aesgcm_decrypt kek dek_nonce dek_wrapped (_associated_data user_id kek_id "dek") = Ok dek →
  aesgcm_decrypt dek sn sc (_associated_data user_id kek_id "secret") = Ok secret →
  opens_to ENVELOPE_NONCE_MARKER
    (json_dumps (JObj (envelope_json kek_id dek_wrapped dek_nonce sc sn))) user_id secret.
Proof.
  intros Hk Hne Hd Hs s. unfold decrypt_mfa_secret.
  change (is_enveloped_mfa_secret ENVELOPE_NONCE_MARKER _) with true. cbn iota.
  unfold _decrypt_envelope. erewrite bind_Ok by (unfold lift; by rewrite load_envelope_json).
  unfold try_except. erewrite bind_Ok by by eapply unwrap_dek_json.
  do 2 (erewrite bind_Ok by apply lift_field). unfold lift.
  change (str_field "kek_id" _) with kek_id. by rewrite Hs.
Qed.

(** Decryption that returns has opened the wrapped data key. *)
Lemma decrypt_unwraps user_id kek_id dek_wrapped dek_nonce sc sn s secret s' :
  kek_id ≠ "" →
  decrypt_mfa_secret ENVELOPE_NONCE_MARKER
    (json_dumps (JObj (envelope_json kek_id dek_wrapped dek_nonce sc sn))) user_id s
    = (Ok secret, s') →
  ∃ kek dek, assoc kek_id mfa_kek_keys = Some kek
    ∧ aesgcm_decrypt kek dek_nonce dek_wrapped (_associated_data user_id kek_id "dek") = Ok dek.
Proof.
  intros Hne. unfold decrypt_mfa_secret. rewrite is_enveloped_json. unfold _decrypt_envelope.
  erewrite bind_Ok by (unfold lift; by rewrite load_envelope_json).
  rewrite kek_id_json. intros E.
  assert (∀ e, (∃ s1, bind (_audit_mfa_crypto "decrypt" "failure" (Some user_id)
    [("reason", JStr (default "" (decrypt_error_name e))); ("kek_id", JStr kek_id)])
    (λ _, raise (A:=string) e) s1 = (Ok secret, s')) → False) as Hraise.
  { intros e [s1 E1]. apply bind_inv_Ok in E1 as (? & ? & _ & E1). done. }
  unfold try_except at 1 in E. destruct (bind _ _ s) as [[r|e] s1] eqn:Eb.
  2:{ destruct (bool_decide _); [|done]. exfalso. by eapply Hraise; eexists. }
  clear E Hraise. apply bind_inv_Ok in Eb as (dek & s2 & Eu & _).
  unfold _unwrap_dek in Eu. apply bind_inv_Ok in Eu as (kek & s3 & Hk & Eu).
  rewrite kek_id_json in Hk. apply kek_inv in Hk.
  exists kek, dek. split; [done|]. rewrite kek_id_json in Eu.
  erewrite bind_Ok in Eu by (rewrite dek_nonce_json; apply lift_field).
  erewrite bind_Ok in Eu by (rewrite dek_wrapped_json; apply lift_field).
  unfold try_except, lift in Eu. destruct (aesgcm_decrypt _ _ _ _) as [d|e]; [congruence|].
  destruct (bool_decide _); [|done]. apply bind_inv_Ok in Eu as (? & ? & _ & Eu). done.
Qed.

(** What encryption produced. *)
Lemma encrypt_inv secret user_id kek_id s nonce ciphertext s' :
  encrypt_mfa_secret secret user_id kek_id s = (Ok (nonce, ciphertext), s') →
  ∃ id kek dek dek_wrapped dek_nonce sc sn, assoc id mfa_kek_keys = Some kek
    ∧ nonce = ENVELOPE_NONCE_MARKER
    ∧ ciphertext = json_dumps (JObj (envelope_json id dek_wrapped dek_nonce sc sn))
    ∧ aesgcm_encrypt kek dek_nonce dek (_associated_data user_id id "dek") = Ok dek_wrapped
    ∧ aesgcm_encrypt dek sn secret (_associated_data user_id id "secret") = Ok sc.
Proof.
  unfold encrypt_mfa_secret. intros E. inv_bind E. destruct a as [id kek].
  assert (assoc id mfa_kek_keys = Some kek) as Hk.
  { destruct kek_id; unfold _active_kek in E0; repeat inv_bind E0; unfold ret in E0; simplify_eq;
      eauto using kek_inv. }
  clear E0. do 6 (inv_bind E). unfold ret in E. injection E as <- <- <-.
  repeat match goal with H : fresh _ _ = _ |- _ => clear H end.
  unfold lift in *.
  repeat match goal with H : (_, _) = (Ok _, _) |- _ => injection H as H _ end.
  eexists id, kek, _, _, _, _, _. split_and!; done.
Qed.

Lemma associated_data_user u1 u2 id : _associated_data u1 id "dek" = _associated_data u2 id "dek" → u1 = u2.
Proof.
  unfold _associated_data. rewrite bool_decide_eq_false_2 by done. intros E.
  do 3 apply str_app_inv_head in E.
  apply (str_sep_inj ":") in E as [E _]; [by apply (inj pretty)|..];
    (apply not_int_char_pretty; by intros [|]).
Qed.
End MfaCrypto.

(** An encrypted authenticator secret opens to itself, before and after its
    data key is rewrapped under another key-encryption key, and it opens for no
    other user. *)
Theorem mfa_secret_roundtrip `{Env} secret user_id kek_id s nonce ciphertext s' :
  aead_correct → assoc "" mfa_kek_keys = None →
  encrypt_mfa_secret secret user_id kek_id s = (Ok (nonce, ciphertext), s') →
  opens_to nonce ciphertext user_id secret
  ∧ (∀ to_kek_id from_kek_id s1 nonce' ciphertext' s1',
       rewrap_mfa_dek nonce ciphertext user_id to_kek_id from_kek_id s1
         = (Ok (nonce', ciphertext'), s1') →
       opens_to nonce' ciphertext' user_id secret)
  ∧ (aead_binds → ∀ user_id' secret' s2 s2',
       decrypt_mfa_secret nonce ciphertext user_id' s2 = (Ok secret', s2') → user_id' = user_id).
Proof.
  intros Hc Hempty (id & kek & dek & wd & dn & sc & sn & Hk & -> & -> & Ed & Es)%encrypt_inv.
  assert (∀ i k, assoc i mfa_kek_keys = Some k → i ≠ "") as Hne by (intros i k Hi ->; congruence).
  split_and!.
  - eapply envelope_opens; eauto.
  - intros to from s1 nonce' ciphertext' s1'. unfold rewrap_mfa_dek.
    change (is_enveloped_mfa_secret ENVELOPE_NONCE_MARKER _) with true. cbn [negb].
    erewrite bind_Ok by (unfold lift; by rewrite load_envelope_json by eauto).
    change (str_field "kek_id" _) with id. destruct (match from with Some _ => _ | None => _ end); [done|].
    case_bool_decide as Hid.
    { intros [= <- <- <-]. eapply envelope_opens; eauto. }
    erewrite bind_Ok by (eapply unwrap_dek_json; eauto). intros E.
    inv_bind E. inv_bind E. apply kek_inv in E1. do 2 (inv_bind E).
    unfold lift, ret in *. injection E as <- <- <-.
    match goal with H : (aesgcm_encrypt _ _ _ _, _) = _ |- _ => injection H as H _ end.
    apply (envelope_opens user_id to a0 dek secret a1 a sc sn); eauto.
  - intros Hb uid secret' s2 s2' E. apply (associated_data_user _ _ id).
    eapply decrypt_unwraps in E as (k & d & Hk' & Hd); [|by eauto]. rewrite Hk in Hk'.
    simplify_eq. eapply Hb; eauto.
Qed.

(** The sample deployment encrypts and opens a secret. *)
Definition sample_sealed := @encrypt_mfa_secret Sample.sample_env "SECRET" 1 None Sample.sample_state.
Definition sample_envelope : string :=
  match sample_sealed.1 with Ok (_, c) => c | Raise _ => "" end.

Lemma sample_aead_correct : @aead_correct Sample.sample_env.
Proof.
  intros key nonce data aad c [= <-]. simpl. by rewrite !strip_prefix_app.
Qed.

Lemma mfa_secret_roundtrip_witness :
  @opens_to Sample.sample_env ENVELOPE_NONCE_MARKER sample_envelope 1 "SECRET".
Proof.
  apply (@mfa_secret_roundtrip Sample.sample_env "SECRET" 1 None Sample.sample_state
           ENVELOPE_NONCE_MARKER sample_envelope sample_sealed.2).
  - exact sample_aead_correct.
  - done.
  - by vm_compute.
Defined.
End MfaCrypto.
