(* ===== verification/AuditChain.v ===== *)
(** * The audit hash chain and its anchors ([app/security/audit.py])

    Verification of the chain of event hashes, the anchor a deployment stores
    outside the database, and the comparison of the two. *)

From S2P Require Import Prelude PyStr PyDecimal TimeModel Schema Runtime Canonical Integrity.
From S2P Require Import AuditLog Sample.
From Stdlib Require Import Ascii.
Open Scope string_scope.
Open Scope Z_scope.

Module AuditChain.
Import Audit.

Record ChainError : Type := mkChainError {
  ce_event_id : Z; ce_reason : string; ce_extra : list (string * string)
}.

(** The dict [verify_audit_hash_chain] returns, its two constants aside. *)
Record Verification : Type := mkVerification {
  vr_valid : bool;
  vr_event_count : Z;
  vr_verified_event_count : Z;
  vr_legacy_unhashed_event_count : Z;
  vr_latest_event_id : option Z;
  vr_latest_event_hash : option string;
  vr_errors : list ChainError;
  vr_anchor_validated : option bool;
  vr_anchor_errors : list ChainError;
  vr_anchor_status : string;
  vr_anchor_stale : bool;
  vr_anchor_event_id : option Z;
  vr_events_since_anchor : option Z;
  vr_anchor_refresh_required : bool
}.

Definition _append_chain_error (errors : list ChainError) (event_id : Z) (reason : string)
    (extra : list (string * string)) : list ChainError :=
  if (20 <=? length errors)%nat then errors
  else (errors ++ [mkChainError event_id reason
         ((λ kv, (_clean_audit_text kv.1 48, _clean_audit_text kv.2 80)) <$> extra)])%list.

Section AuditChain.
Context `{Env}.

Definition _record_missing_event_hash (event : SecurityAuditEvent) (chain_started : bool)
    (errors : list ChainError) : Z * list ChainError :=
  if chain_started then (0, _append_chain_error errors (ev_id event) "missing_event_hash" [])
  else (1, errors).

Definition _verify_hashed_audit_event (event : SecurityAuditEvent) (event_hash previous_hash : string)
    (errors : list ChainError) : list ChainError :=
  let event_algorithm := algorithm_of event in
  let errors :=
    if str_in event_algorithm SUPPORTED_AUDIT_HASH_ALGORITHMS then errors
    else _append_chain_error errors (ev_id event) "unsupported_hash_algorithm"
           [("algorithm", event_algorithm)] in
  let errors :=
    if bool_decide (ev_previous_event_hash event = Some previous_hash) then errors
    else _append_chain_error errors (ev_id event) "previous_hash_mismatch" [] in
  match _compute_audit_event_hash event with
  | Raise e =>
      _append_chain_error errors (ev_id event) "hash_compute_failed" [("error_type", exn_class e)]
  | Ok expected_hash =>
      if bool_decide (event_hash = expected_hash) then errors
      else _append_chain_error errors (ev_id event) "event_hash_mismatch" []
  end.

(** The loop variables of [verify_audit_hash_chain]. *)
Record ChainState : Type := mkChainState {
  cs_previous_hash : string;
  cs_chain_started : bool;
  cs_verified : Z;
  cs_legacy : Z;
  cs_latest_id : option Z;
  cs_latest_hash : option string;
  cs_errors : list ChainError
}.
Definition chain_start : ChainState :=
  mkChainState AUDIT_CHAIN_START_HASH false 0 0 None None [].

Definition chain_step (st : ChainState) (event : SecurityAuditEvent) : ChainState :=
  match event_hash_text event with
  | None =>
      let '(n, errors) := _record_missing_event_hash event (cs_chain_started st) (cs_errors st) in
      mkChainState (cs_previous_hash st) (cs_chain_started st) (cs_verified st)
        (cs_legacy st + n) (cs_latest_id st) (cs_latest_hash st) errors
  | Some h =>
      mkChainState h true (cs_verified st + 1) (cs_legacy st) (Some (ev_id event)) (Some h)
        (_verify_hashed_audit_event event h (cs_previous_hash st) (cs_errors st))
  end.

Definition run_chain (events : list SecurityAuditEvent) : ChainState :=
  foldl chain_step chain_start events.

(** The result before an anchor is compared. *)
Definition verify_events (events : list SecurityAuditEvent) : Verification :=
  let st := run_chain events in
  mkVerification (match cs_errors st with [] => true | _ => false end)
    (Z.of_nat (length events)) (cs_verified st) (cs_legacy st) (cs_latest_id st)
    (cs_latest_hash st) (cs_errors st) None [] "not_configured" false None None false.

(** ** Anchors *)

Definition anchor_of_verification (v : Verification) (generated_at : Z) : list (string * jval) :=
  [("message", JStr "security_audit_anchor");
   ("generated_at", JStr (_utc_iso generated_at));
   ("hash_algorithm", JStr AUDIT_HASH_ALGORITHM);
   ("chain_start", JStr AUDIT_CHAIN_START_HASH);
   ("event_count", JInt (vr_event_count v));
   ("verified_event_count", JInt (vr_verified_event_count v));
   ("legacy_unhashed_event_count", JInt (vr_legacy_unhashed_event_count v));
   ("latest_event_id", jopt_int (vr_latest_event_id v));
   ("latest_event_hash", jopt_str (vr_latest_event_hash v));
   ("valid", JBool (vr_valid v))].

Definition audit_log_anchor : M St (list (string * jval)) :=
  events <- db_get security_audit_events ;;
  now <- now_utc ;;
  ret (anchor_of_verification (verify_events events) now).

(** [result.get(field)] for the fields an anchor is compared on. *)
Definition result_field (v : Verification) (field : string) : jval :=
  if bool_decide (field = "hash_algorithm") then JStr AUDIT_HASH_ALGORITHM
  else if bool_decide (field = "chain_start") then JStr AUDIT_CHAIN_START_HASH
  else if bool_decide (field = "event_count") then JInt (vr_event_count v)
  else if bool_decide (field = "verified_event_count") then JInt (vr_verified_event_count v)
  else if bool_decide (field = "legacy_unhashed_event_count")
  then JInt (vr_legacy_unhashed_event_count v)
  else if bool_decide (field = "latest_event_id") then jopt_int (vr_latest_event_id v)
  else if bool_decide (field = "latest_event_hash") then jopt_str (vr_latest_event_hash v)
  else JNull.

(** Python's [==] between a JSON value and a result field: a bool equals the
    int of the same value. *)
Definition py_eq (a b : jval) : bool :=
  match a, b with
  | JNull, JNull => true
  | JStr x, JStr y => bool_decide (x = y)
  | JInt x, JInt y => x =? y
  | JBool x, JInt y | JInt y, JBool x => (if x then 1 else 0) =? y
  | JBool x, JBool y => Bool.eqb x y
  | _, _ => false
  end.
Definition anchor_get (anchor : list (string * jval)) (field : string) : jval :=
  default JNull (obj_get field anchor).
Definition field_matches (v : Verification) (anchor : list (string * jval)) (field : string)
    : bool := py_eq (anchor_get anchor field) (result_field v field).

Definition _ANCHOR_CURRENT_HEAD_FIELDS : list string :=
  ["hash_algorithm"; "chain_start"; "event_count"; "verified_event_count";
   "legacy_unhashed_event_count"; "latest_event_id"; "latest_event_hash"].
Definition anchor_count_fields : list string :=
  ["event_count"; "verified_event_count"; "legacy_unhashed_event_count"].

Definition _anchor_non_negative_int (anchor : list (string * jval)) (field : string)
    (event_id_for_error : Z) (errors : list ChainError) : option Z * list ChainError :=
  match anchor_get anchor field with
  | JInt z =>
      if z <? 0
      then (None, _append_chain_error errors event_id_for_error "anchor_malformed" [("field", field)])
      else (Some z, errors)
  | _ => (None, _append_chain_error errors event_id_for_error "anchor_malformed" [("field", field)])
  end.

Definition _anchor_latest_event_id (v : Verification) (anchor : list (string * jval))
    (event_id_for_error : Z) (errors : list ChainError) : option Z * list ChainError :=
  match anchor_get anchor "latest_event_id", vr_latest_event_id v with
  | JNull, None => (None, errors)
  | _, _ => _anchor_non_negative_int anchor "latest_event_id" event_id_for_error errors
  end.

Definition is_hex_char (c : ascii) : bool :=
  is_digit c || ((97 <=? code c) && (code c <=? 102)).
(** [re.fullmatch(r"[0-9a-f]{64}", value)]. *)
Definition is_sha256_hex (s : string) : bool :=
  (slen s =? 64)%nat && forallb is_hex_char (chars s).

Definition _anchor_latest_event_hash (v : Verification) (anchor : list (string * jval))
    (event_id_for_error : Z) (errors : list ChainError) : option string * list ChainError :=
  let malformed := (None, _append_chain_error errors event_id_for_error "anchor_malformed"
                            [("field", "latest_event_hash")]) in
  match anchor_get anchor "latest_event_hash", vr_latest_event_hash v with
  | JNull, None => (None, errors)
  | JStr h, _ => if is_sha256_hex h then (Some h, errors) else malformed
  | _, _ => malformed
  end.

(** The values read from the anchor. *)
Record AnchorValues : Type := mkAnchorValues {
  av_event_count : option Z;
  av_verified_event_count : option Z;
  av_legacy_unhashed_event_count : option Z;
  av_latest_event_id : option Z;
  av_latest_event_hash : option string
}.

(** The three counts of the anchor with the current ones. *)
Definition count_pairs (v : Verification) (av : AnchorValues) : list (string * option Z * Z) :=
  [("event_count", av_event_count av, vr_event_count v);
   ("verified_event_count", av_verified_event_count av, vr_verified_event_count v);
   ("legacy_unhashed_event_count", av_legacy_unhashed_event_count av,
    vr_legacy_unhashed_event_count v)].

Definition exceeds (a : option Z) (b : Z) : bool :=
  match a with Some x => b <? x | None => false end.

Definition _validate_anchor_position (v : Verification) (av : AnchorValues)
    (errors : list ChainError) : list ChainError :=
  let event_id_for_error := default 0 (vr_latest_event_id v) in
  let behind field errors :=
    _append_chain_error errors event_id_for_error "anchor_current_behind" [("field", field)] in
  let errors :=
    match vr_latest_event_id v with
    | Some id => if exceeds (av_latest_event_id av) id then behind "latest_event_id" errors else errors
    | None => errors
    end in
  foldl (λ errors '(field, a, b), if exceeds a b then behind field errors else errors) errors
    (count_pairs v av).

Definition event_by_id (events : list SecurityAuditEvent) (id : Z) : option SecurityAuditEvent :=
  List.find (λ e, ev_id e =? id) events.

Definition _validate_anchor_event_hash (events : list SecurityAuditEvent) (av : AnchorValues)
    (errors : list ChainError) : list ChainError :=
  match av_latest_event_id av, av_latest_event_hash av with
  | None, None => errors
  | id, hash =>
      let event_id_for_error := default 0 id in
      match (match id with Some i => event_by_id events i | None => None end) ≫= event_hash_text with
      | None => _append_chain_error errors event_id_for_error "anchor_event_missing" []
      | Some h =>
          if bool_decide (h = default "None" hash) then errors
          else _append_chain_error errors event_id_for_error "anchor_event_hash_mismatch" []
      end
  end.

Definition _validated_anchor_values (events : list SecurityAuditEvent) (v : Verification)
    (anchor : list (string * jval)) : AnchorValues * list ChainError :=
  let event_id_for_error := default 0 (vr_latest_event_id v) in
  let errors := foldl (λ errors field,
    if field_matches v anchor field then errors
    else _append_chain_error errors event_id_for_error "anchor_mismatch" [("field", field)])
    [] ["hash_algorithm"; "chain_start"] in
  let errors :=
    match anchor_get anchor "valid" with
    | JBool true => errors
    | _ => _append_chain_error errors event_id_for_error "anchor_malformed" [("field", "valid")]
    end in
  let '(count, errors) := _anchor_non_negative_int anchor "event_count" event_id_for_error errors in
  let '(verified, errors) :=
    _anchor_non_negative_int anchor "verified_event_count" event_id_for_error errors in
  let '(legacy, errors) :=
    _anchor_non_negative_int anchor "legacy_unhashed_event_count" event_id_for_error errors in
  let '(latest_id, errors) := _anchor_latest_event_id v anchor event_id_for_error errors in
  let '(latest_hash, errors) := _anchor_latest_event_hash v anchor event_id_for_error errors in
  let values := mkAnchorValues count verified legacy latest_id latest_hash in
  match errors with
  | _ :: _ => (values, errors)
  | [] =>
      match _validate_anchor_position v values [] with
      | (_ :: _) as errors => (values, errors)
      | [] => (values, _validate_anchor_event_hash events values [])
      end
  end.

Definition _anchor_matches_current_head (v : Verification) (anchor : list (string * jval)) : bool :=
  forallb (field_matches v anchor) _ANCHOR_CURRENT_HEAD_FIELDS.

Definition _anchor_is_append_only_stale (v : Verification) (av : AnchorValues) : bool :=
  match av_latest_event_id av, vr_latest_event_id v, av_event_count av with
  | Some a, Some b, Some count =>
      (a <? b) && (count <? vr_event_count v)
      && forallb (λ '(_, x, y), negb (exceeds x y)) (count_pairs v av)
  | _, _, _ => false
  end.

(** The result with its anchor fields set. *)
Definition with_anchor (v : Verification) (valid : bool) (errors : list ChainError)
    (validated : bool) (anchor_errors : list ChainError) (status : string) (stale : bool)
    (anchor_event_id since : option Z) (refresh : bool) : Verification :=
  mkVerification valid (vr_event_count v) (vr_verified_event_count v)
    (vr_legacy_unhashed_event_count v) (vr_latest_event_id v) (vr_latest_event_hash v) errors
    (Some validated) anchor_errors status stale anchor_event_id since refresh.

Definition _set_critical_anchor_errors (v : Verification) (anchor_event_id : option Z)
    (anchor_errors : list ChainError) : Verification :=
  with_anchor v false (vr_errors v ++ anchor_errors)%list false anchor_errors "critical" false
    anchor_event_id None false.

Definition _compare_audit_anchor (events : list SecurityAuditEvent) (v : Verification)
    (anchor : list (string * jval)) : Verification :=
  let '(values, anchor_errors) := _validated_anchor_values events v anchor in
  let id := av_latest_event_id values in
  match anchor_errors with
  | _ :: _ => _set_critical_anchor_errors v id anchor_errors
  | [] =>
      if negb (vr_valid v) then
        with_anchor v (vr_valid v) (vr_errors v) false [] "not_checked_due_chain_failure" false
          id None false
      else if _anchor_matches_current_head v anchor then
        with_anchor v (vr_valid v) (vr_errors v) true [] "validated" false id (Some 0) false
      else if _anchor_is_append_only_stale v values then
        with_anchor v (vr_valid v) (vr_errors v) false [] "stale" true id
          (Some (vr_event_count v - default 0 (av_event_count values))) true
      else
        match foldl (λ errors field,
                if field_matches v anchor field then errors
                else _append_chain_error errors (default 0 (vr_latest_event_id v))
                       "anchor_mismatch" [("field", field)]) [] _ANCHOR_CURRENT_HEAD_FIELDS with
        | [] => with_anchor v (vr_valid v) (vr_errors v) false [] "checking" false id None false
        | errors => _set_critical_anchor_errors v id errors
        end
  end.

Definition verify_audit_hash_chain (anchor : option (list (string * jval)))
    (events : list SecurityAuditEvent) : Verification :=
  let result := verify_events events in
  match anchor with
  | None => result
  | Some a => _compare_audit_anchor events result a
  end.


(** ** Writers extend the chain *)

Definition chain_valid (events : list SecurityAuditEvent) : Prop :=
  vr_valid (verify_audit_hash_chain None events) = true.

Lemma chain_valid_errors events : chain_valid events ↔ cs_errors (run_chain events) = [].
Proof. unfold chain_valid. simpl. by destruct (cs_errors (run_chain events)). Qed.

Lemma run_chain_snoc events e : run_chain (events ++ [e]) = chain_step (run_chain events) e.
Proof. unfold run_chain. by rewrite foldl_app. Qed.

Lemma append_error_not_nil errors id r x : _append_chain_error errors id r x ≠ [].
Proof.
  unfold _append_chain_error. case_match eqn:E.
  - intros ->. by apply Nat.leb_le in E; simpl in E; lia.
  - by destruct errors.
Qed.

(** Without errors the event is linked, hashed with a supported algorithm, and
    its hash is right. *)
Lemma verify_hashed_nil e h p errors :
  _verify_hashed_audit_event e h p errors = [] ↔
  errors = [] ∧ str_in (algorithm_of e) SUPPORTED_AUDIT_HASH_ALGORITHMS = true
  ∧ ev_previous_event_hash e = Some p ∧ _compute_audit_event_hash e = Ok h.
Proof.
  unfold _verify_hashed_audit_event. split.
  - intros E. destruct (_compute_audit_event_hash e) as [h'|]; [|by apply append_error_not_nil in E].
    case_bool_decide as Eh; [|by apply append_error_not_nil in E]. subst h'.
    case_bool_decide as Ep; [|by apply append_error_not_nil in E].
    destruct (str_in _ _); [done|]. by apply append_error_not_nil in E.
  - intros (-> & -> & Hp & ->). by rewrite !bool_decide_eq_true_2.
Qed.

Lemma chain_step_nil st e :
  cs_errors (chain_step st e) = [] → cs_errors st = [].
Proof.
  unfold chain_step, _record_missing_event_hash.
  destruct (event_hash_text e); simpl.
  - by intros [? _]%verify_hashed_nil.
  - destruct (cs_chain_started st); simpl; [|done]. by intros ?%append_error_not_nil.
Qed.

Lemma chain_valid_prefix events more : chain_valid (events ++ more) → chain_valid events.
Proof.
  induction more as [|e more IH] using rev_ind; [by rewrite app_nil_r|].
  rewrite app_assoc, !chain_valid_errors, run_chain_snoc. intros E%chain_step_nil.
  apply chain_valid_errors in E. by apply chain_valid_errors, IH.
Qed.

(** The hash a new event is linked to is the one verification expects. *)
Lemma chain_head events :
  chain_valid events →
  cs_previous_hash (run_chain events) = _latest_audit_event_hash events
  ∧ (cs_chain_started (run_chain events) = false →
     cs_previous_hash (run_chain events) = AUDIT_CHAIN_START_HASH).
Proof.
  induction events as [|e events IH] using rev_ind; [done|]. intros Hv.
  pose proof (chain_valid_prefix _ _ Hv) as Hp. destruct (IH Hp) as [IH1 IH2].
  rewrite chain_valid_errors, run_chain_snoc in Hv. rewrite run_chain_snoc.
  unfold _latest_audit_event_hash. rewrite rev_app_distr. simpl.
  unfold chain_step, _record_missing_event_hash, event_hash_text, has_event_hash in *.
  destruct (ev_event_hash e) as [h|] eqn:Eh; simpl in *; rewrite ?Eh.
  - destruct (nonempty h); [done|]. destruct (cs_chain_started (run_chain events)); simpl in *.
    + by apply append_error_not_nil in Hv.
    + split; [|done]. by apply IH2.
  - destruct (cs_chain_started (run_chain events)); simpl in *; [|done].
    by apply append_error_not_nil in Hv.
Qed.

Lemma nonempty_true s : s ≠ "" → nonempty s = true.
Proof. intros Hs. unfold nonempty. by rewrite bool_decide_eq_false_2. Qed.

Lemma chain_valid_linked events e :
  (∀ h, ev_event_hash e = Some h → h ≠ "") →
  chain_valid events → linked events e → chain_valid (events ++ [e]).
Proof.
  intros Hne Hv (_ & Hp & Ha & h & Hh & Hc). destruct (chain_head _ Hv) as [Hhead _].
  rewrite chain_valid_errors in *. rewrite run_chain_snoc. unfold chain_step, event_hash_text.
  rewrite Hh, (nonempty_true h) by by apply Hne. simpl. apply verify_hashed_nil.
  split_and!; [done| |by rewrite Hhead|done]. unfold algorithm_of. by rewrite Ha.
Qed.

Context (hmac_hex_nonempty : ∀ k m, hmac_sha256_hex k m ≠ "").

Lemma linked_nonempty events e h : linked events e → ev_event_hash e = Some h → h ≠ "".
Proof using hmac_hex_nonempty.
  intros (_ & _ & Ha & h' & Hh & Hc) E. rewrite E in Hh. simplify_eq.
  unfold _compute_audit_event_hash, algorithm_of in Hc. rewrite Ha in Hc. simpl in Hc.
  destruct _audit_hmac_key_bytes; simpl in Hc; [|done]. simplify_eq. apply hmac_hex_nonempty.
Qed.

Lemma append_valid d d' :
  one_more_event d d' → chain_valid (security_audit_events d) →
  chain_valid (security_audit_events d').
Proof using hmac_hex_nonempty.
  intros (e & Hl & ->) Hv. simpl. apply chain_valid_linked; eauto using linked_nonempty.
Qed.

(** Both logs, the durable one and the session's, verify. *)
Definition chains_valid : St → Prop :=
  on_db (λ c w, chain_valid (security_audit_events c) ∧ chain_valid (security_audit_events w)).

(** C14: The audit log stays verifiable.  Whatever the event, the request and
    the outcome of the insert, writing an audit event (best effort or
    required, in a request or by the system) from a state whose durable and pending logs verify leads to one
    where both verify: the writer links the event to the head the verifier
    expects and hashes it the way the verifier does. *)
Theorem audit_writers_keep_chain ty out u md :
  preserves chains_valid (audit_event ty out u md)
  ∧ preserves chains_valid (audit_event_required ty out u md)
  ∧ ∀ required commits, preserves chains_valid (_write_system_audit_event ty out u md required commits).
Proof using hmac_hex_nonempty.
  split_and!; [| |intros required commits]; intros s [Hc Hw].
  - destruct (audit_event ty out u md s) as [r s'] eqn:E. unfold chains_valid, on_db. simpl.
    apply audit_event_cases in E as [[-> Ho]|[[-> ->]|[-> ->]]]; [|done..].
    split; by eapply append_valid.
  - destruct (audit_event_required ty out u md s) as [r s'] eqn:E. unfold chains_valid, on_db.
    simpl. apply audit_event_required_cases in E as [-> [[_ Ho]|[_ ->]]]; [|done].
    split; [done|]. by eapply append_valid.
  - destruct (_write_system_audit_event ty out u md required commits s) as [r s'] eqn:E.
    unfold chains_valid, on_db. simpl.
    apply system_write_cases in E as [[Ho [-> | ->]]|[-> [-> | ->]]]; [split..|split|split]; try done;
      by eapply append_valid.
Qed.

End AuditChain.

(** ** Tampering is evident *)

(** The recorded facts of an event; metadata up to the order of its keys. *)
Definition same_record (a b : SecurityAuditEvent) : Prop :=
  (ev_event_type a, ev_outcome a, ev_user_id a, ev_ip_address a, ev_user_agent a,
   ev_correlation_id a, ev_session_ref a, ev_created_at a, ev_previous_event_hash a)
  = (ev_event_type b, ev_outcome b, ev_user_id b, ev_ip_address b, ev_user_agent b,
     ev_correlation_id b, ev_session_ref b, ev_created_at b, ev_previous_event_hash b)
  ∧ _canonical_json_value (JObj (ev_event_metadata a))
    = _canonical_json_value (JObj (ev_event_metadata b)).

Lemma str_leb_total a b : str_leb a b = false → str_leb b a = true.
Proof. unfold str_leb. rewrite (String.compare_antisym b a). by destruct (String.compare a b). Qed.

Lemma insert_item_sorted kv l :
  keys_sorted l.*1 = true → keys_sorted (insert_item kv l).*1 = true.
Proof.
  induction l as [|kv1 l IH]; intros Hs; [done|]. cbn [insert_item].
  destruct (str_leb kv.1 kv1.1) eqn:E1; [simpl in *; by rewrite E1|].
  apply str_leb_total in E1. destruct l as [|kv2 l]; [simpl; by rewrite E1|].
  simpl in Hs. apply andb_true_iff in Hs as [H12 Hs]. specialize (IH Hs).
  cbn [insert_item] in *. destruct (str_leb kv.1 kv2.1); simpl in *; by rewrite ?E1, ?H12, ?IH.
Qed.

Lemma sort_items_sorted l : keys_sorted (sort_items l).*1 = true.
Proof. induction l as [|kv l IH]; [done|]. by apply insert_item_sorted. Qed.

Lemma insert_item_forallb (f : jval → bool) kv l :
  forallb (λ x, f x.2) (insert_item kv l) = f kv.2 && forallb (λ x, f x.2) l.
Proof.
  induction l as [|kv1 l IH]; simpl; [done|]. case_match; simpl; [done|]. rewrite IH.
  by destruct (f kv.2), (f kv1.2).
Qed.

Lemma sort_items_forallb (f : jval → bool) l :
  forallb (λ x, f x.2) (sort_items l) = forallb (λ x, f x.2) l.
Proof. induction l as [|kv l IH]; simpl; [done|]. by rewrite insert_item_forallb, IH. Qed.

Lemma canonical_value v : canonical (_canonical_json_value v) = true.
Proof.
  induction v as [| | | |l IH|kvs IH] using jval_nested_ind; simpl; try done.
  - induction IH as [|x l Hx _ IHl]; simpl; [done|]. by rewrite Hx.
  - rewrite sort_items_sorted, sort_items_forallb. simpl.
    induction IH as [|x l Hx _ IHl]; simpl; [done|]. by rewrite Hx.
Qed.

Lemma payload_canonical e : canonical (audit_payload e) = true.
Proof.
  pose proof (canonical_value (JObj (ev_event_metadata e))) as Hc.
  unfold audit_payload. cbn -[_canonical_json_value]. rewrite Hc.
  by destruct (ev_previous_event_hash e), (ev_session_ref e), (ev_user_id e).
Qed.

Lemma payload_text_inj a b :
  0 ≤ ev_created_at a → 0 ≤ ev_created_at b →
  _canonical_audit_event_payload a = _canonical_audit_event_payload b → same_record a b.
Proof.
  intros Ha Hb E. apply json_dumps_inj in E; [|apply payload_canonical..].
  unfold audit_payload in E. injection E as Ec Et Em Ety Eip Eo Ep Es Eua Eu.
  apply iso_auto_inj in Et; [|done..]. split; [|by simpl; f_equal].
  destruct (ev_previous_event_hash a), (ev_previous_event_hash b), (ev_session_ref a),
    (ev_session_ref b), (ev_user_id a), (ev_user_id b); simplify_eq/=; congruence.
Qed.

(** A log the current software wrote: every event is hashed with the keyed
    algorithm, after the epoch. *)
Definition hashed_log (events : list SecurityAuditEvent) : Prop :=
  Forall (λ e, is_Some (event_hash_text e) ∧ algorithm_of e = AUDIT_HASH_ALGORITHM
               ∧ 0 ≤ ev_created_at e) events.

Section Tamper.
Context `{Env}.

(** The texts the hashes of a log are computed over. *)
Definition payloads (events : list SecurityAuditEvent) : list string :=
  _canonical_audit_event_payload <$> events.

Lemma same_hash_same_record a b h :
  hmac_separates (payloads [a; b]) →
  algorithm_of a = AUDIT_HASH_ALGORITHM → algorithm_of b = AUDIT_HASH_ALGORITHM →
  0 ≤ ev_created_at a → 0 ≤ ev_created_at b →
  _compute_audit_event_hash a = Ok h → _compute_audit_event_hash b = Ok h → same_record a b.
Proof.
  unfold _compute_audit_event_hash. intros Hsep -> -> Ha Hb. simpl.
  destruct _audit_hmac_key_bytes as [key|]; simpl; [|done]. intros [= <-] [= E].
  apply payload_text_inj; [done..|]. eapply Hsep; [..|exact (eq_sym E)]; simpl; set_solver.
Qed.

(** A valid, fully hashed log that ends in an event. *)
Lemma chain_last events e :
  chain_valid (events ++ [e]) → is_Some (event_hash_text e) →
  ∃ h, event_hash_text e = Some h ∧ _compute_audit_event_hash e = Ok h
    ∧ ev_previous_event_hash e = Some (cs_previous_hash (run_chain events))
    ∧ cs_previous_hash (run_chain (events ++ [e])) = h ∧ chain_valid events.
Proof.
  intros Hv [h Hh]. exists h. pose proof (chain_valid_prefix _ _ Hv) as Hp.
  rewrite chain_valid_errors, run_chain_snoc in Hv. rewrite run_chain_snoc.
  unfold chain_step in *. rewrite Hh in *. simpl in *.
  apply verify_hashed_nil in Hv as (_ & _ & Hprev & Hc). done.
Qed.

(** The HMAC of none of the messages is the chain's start value. *)
Definition start_unreachable (messages : list string) : Prop :=
  ∀ k m, m ∈ messages → hmac_sha256_hex k m ≠ AUDIT_CHAIN_START_HASH.

Lemma hashed_not_start e h :
  start_unreachable (payloads [e]) → algorithm_of e = AUDIT_HASH_ALGORITHM → _compute_audit_event_hash e = Ok h →
  h ≠ AUDIT_CHAIN_START_HASH.
Proof.
  unfold _compute_audit_event_hash. intros Hs ->. simpl.
  destruct _audit_hmac_key_bytes as [key|]; simpl; [|done]. intros [= <-].
  apply Hs. simpl. set_solver.
Qed.

Lemma separates_sub (ms ms' : list string) : hmac_separates ms → ms' ⊆ ms → hmac_separates ms'.
Proof. intros Hs Hsub k m m' ? ?. apply Hs; by apply Hsub. Qed.
Lemma unreachable_sub ms ms' : start_unreachable ms → ms' ⊆ ms → start_unreachable ms'.
Proof. intros Hs Hsub k m ?. by apply Hs, Hsub. Qed.

Lemma chain_determines_log es1 : ∀ es2,
  hmac_separates (payloads (es1 ++ es2)) → start_unreachable (payloads (es1 ++ es2)) →
  hashed_log es1 → hashed_log es2 → chain_valid es1 → chain_valid es2 →
  cs_previous_hash (run_chain es1) = cs_previous_hash (run_chain es2) →
  Forall2 same_record es1 es2.
Proof.
  induction es1 as [|e1 es1 IH] using rev_ind; intros es2 Hsep Hst H1 H2 V1 V2 Hhead.
  { destruct es2 as [|e2 es2 _] using rev_ind; [constructor|]. exfalso.
    apply Forall_app in H2 as [_ [(S2 & A2 & _) _]%Forall_cons].
    destruct (chain_last _ _ V2 S2) as (h & _ & C2 & _ & L2 & _).
    rewrite L2 in Hhead. apply (hashed_not_start e2 h); [|done..].
    eapply unreachable_sub; [exact Hst|]. unfold payloads. rewrite !fmap_app. set_solver. }
  apply Forall_app in H1 as [H1 [(S1 & A1 & T1) _]%Forall_cons].
  destruct (chain_last _ _ V1 S1) as (h1 & _ & C1 & P1 & L1 & V1').
  destruct es2 as [|e2 es2 _] using rev_ind.
  { exfalso. rewrite L1 in Hhead. apply (hashed_not_start e1 h1); [|done..].
    eapply unreachable_sub; [exact Hst|]. unfold payloads. rewrite !fmap_app. set_solver. }
  apply Forall_app in H2 as [H2 [(S2 & A2 & T2) _]%Forall_cons].
  destruct (chain_last _ _ V2 S2) as (h2 & _ & C2 & P2 & L2 & V2').
  rewrite Hhead, L2 in L1. subst h2.
  assert (same_record e1 e2) as Hs.
  { eapply same_hash_same_record; [|done..].
    eapply separates_sub; [exact Hsep|]. unfold payloads. rewrite !fmap_app. set_solver. }
  apply Forall2_app; [|constructor; [exact Hs|constructor]]. apply IH; try done.
  1: eapply separates_sub; [exact Hsep|].
  2: eapply unreachable_sub; [exact Hst|].
  1,2: unfold payloads; rewrite !fmap_app; set_solver.
  destruct Hs as [Hs _]. congruence.
Qed.

Lemma latest_hash_previous es :
  hashed_log es → cs_latest_hash (run_chain es) =
    match es with [] => None | _ => Some (cs_previous_hash (run_chain es)) end.
Proof.
  intros Hes. destruct es as [|e es _] using rev_ind; [done|].
  apply Forall_app in Hes as [_ [([h Hh] & _ & _) _]%Forall_cons].
  rewrite run_chain_snoc. unfold chain_step. rewrite Hh. by destruct es.
Qed.

(** C24: Tampering with the audit log is evident.  Unless the HMAC collides on
    the events of the two logs or maps one to the chain's start value, two logs
    that both verify and report the same head hash record the same events in the
    same order: whoever can rewrite the table but must keep the head hash can
    change, add or remove no event. *)
Theorem audit_log_tamper_evident es1 es2 :
  hmac_separates (payloads (es1 ++ es2)) → start_unreachable (payloads (es1 ++ es2)) →
  hashed_log es1 → hashed_log es2 → chain_valid es1 → chain_valid es2 →
  vr_latest_event_hash (verify_audit_hash_chain None es1)
  = vr_latest_event_hash (verify_audit_hash_chain None es2) →
  Forall2 same_record es1 es2.
Proof.
  intros Hsep Hst H1 H2 V1 V2 E. simpl in E. rewrite !latest_hash_previous in E by done.
  destruct es1 as [|a es1], es2 as [|b es2]; simplify_eq; [constructor|].
  by apply chain_determines_log.
Qed.
End Tamper.

(** ** Anchors *)

Section Anchors.
Context `{Env}.

Lemma hashed_run es e h :
  hashed_log es → event_hash_text e = Some h →
  let st := run_chain (es ++ [e]) in
  cs_verified st = Z.of_nat (length (es ++ [e])) ∧ cs_legacy st = 0
  ∧ cs_latest_id st = Some (ev_id e) ∧ cs_latest_hash st = Some h.
Proof.
  intros Hes Hh. rewrite run_chain_snoc, length_app. unfold chain_step. rewrite Hh. simpl.
  assert (cs_verified (run_chain es) = Z.of_nat (length es) ∧ cs_legacy (run_chain es) = 0)
    as [-> ->]; [|split_and!; [lia|done..]].
  clear e h Hh. induction es as [|e es IH] using rev_ind; [done|].
  apply Forall_app in Hes as [Hes [([h Hh] & _ & _) _]%Forall_cons].
  destruct (IH Hes) as [IH1 IH2]. rewrite run_chain_snoc, length_app. unfold chain_step.
  rewrite Hh. simpl. lia.
Qed.

(** Ids ascend, from a positive one. *)
Definition ids_ascend (es : list SecurityAuditEvent) : Prop :=
  StronglySorted Z.lt (ev_id <$> es) ∧ Forall (λ e, 0 ≤ ev_id e) es.

Lemma find_last es e more :
  StronglySorted Z.lt (ev_id <$> (es ++ e :: more)%list) →
  event_by_id (es ++ e :: more)%list (ev_id e) = Some e.
Proof.
  unfold event_by_id. induction es as [|x es IH]; intros Hs; simpl.
  - by rewrite Z.eqb_refl.
  - simpl in Hs. apply StronglySorted_inv in Hs as [Hs Hlt]. rewrite Forall_fmap in Hlt.
    apply Forall_app in Hlt as [_ Hlt]. apply Forall_cons in Hlt as [Hlt _].
    rewrite (proj2 (Z.eqb_neq _ _)) by (simpl in Hlt; lia). by apply IH.
Qed.

Lemma find_last_lt es e more x :
  StronglySorted Z.lt (ev_id <$> (es ++ e :: more)%list) → x ∈ more → ev_id e < ev_id x.
Proof.
  intros Hs Hx. induction es as [|y es IH]; simpl in Hs; apply StronglySorted_inv in Hs as [Hs Hlt].
  - rewrite Forall_fmap, Forall_forall in Hlt. by apply Hlt.
  - by apply IH.
Qed.

Lemma anchor_fields v t :
  anchor_get (anchor_of_verification v t) "valid" = JBool (vr_valid v)
  ∧ anchor_get (anchor_of_verification v t) "event_count" = JInt (vr_event_count v)
  ∧ anchor_get (anchor_of_verification v t) "verified_event_count"
    = JInt (vr_verified_event_count v)
  ∧ anchor_get (anchor_of_verification v t) "legacy_unhashed_event_count"
    = JInt (vr_legacy_unhashed_event_count v)
  ∧ anchor_get (anchor_of_verification v t) "latest_event_id" = jopt_int (vr_latest_event_id v)
  ∧ anchor_get (anchor_of_verification v t) "latest_event_hash"
    = jopt_str (vr_latest_event_hash v).
Proof. by repeat split. Qed.

Lemma anchor_constants v v0 t f :
  f = "hash_algorithm" ∨ f = "chain_start" →
  field_matches v (anchor_of_verification v0 t) f = true.
Proof. intros [-> | ->]; reflexivity. Qed.

(** Reading an anchor of a log from the log itself or one that extends it. *)
Lemma anchor_values v es v0 t n0 m0 id0 h0 e :
  vr_valid v0 = true → vr_event_count v0 = n0 → vr_verified_event_count v0 = m0 →
  vr_legacy_unhashed_event_count v0 = 0 → vr_latest_event_id v0 = Some id0 →
  vr_latest_event_hash v0 = Some h0 → is_sha256_hex h0 = true →
  0 ≤ n0 ≤ vr_event_count v → 0 ≤ m0 ≤ vr_verified_event_count v →
  vr_legacy_unhashed_event_count v = 0 →
  (∃ id, vr_latest_event_id v = Some id ∧ 0 ≤ id0 ≤ id) →
  event_by_id es id0 = Some e → event_hash_text e = Some h0 →
  _validated_anchor_values es v (anchor_of_verification v0 t)
  = (mkAnchorValues (Some n0) (Some m0) (Some 0) (Some id0) (Some h0), []).
Proof.
  intros Hv Hn Hm Hl Hid Hh Hhex Hnn Hmm Hll (id & Hvid & Hid0) He Het.
  destruct (anchor_fields v0 t) as (F1 & F2 & F3 & F4 & F5 & F6).
  rewrite Hv in F1. rewrite Hn in F2. rewrite Hm in F3. rewrite Hl in F4. rewrite Hid in F5.
  rewrite Hh in F6. simpl in F5, F6. unfold _validated_anchor_values. cbn [foldl].
  rewrite (anchor_constants v v0 t "hash_algorithm"), (anchor_constants v v0 t "chain_start") by auto.
  rewrite F1. unfold _anchor_latest_event_id, _anchor_latest_event_hash, _anchor_non_negative_int.
  rewrite F2, F3, F4, F5, F6, Hvid, Hhex, !(proj2 (Z.ltb_ge _ 0)) by lia.
  unfold _validate_anchor_position, count_pairs.
  cbn -[_append_chain_error _validate_anchor_event_hash]. rewrite Hvid, Hll.
  cbn -[_append_chain_error _validate_anchor_event_hash].
  rewrite (proj2 (Z.ltb_ge id id0)), (proj2 (Z.ltb_ge (vr_event_count v) n0)),
    (proj2 (Z.ltb_ge (vr_verified_event_count v) m0)) by lia.
  cbn -[_append_chain_error]. rewrite He. cbn -[_append_chain_error event_hash_text]. rewrite Het.
  by rewrite bool_decide_eq_true_2.
Qed.

(** The head of a log that extends [es ++ [e]]. *)
Lemma extended_head es e more :
  hashed_log (es ++ e :: more) → ids_ascend (es ++ e :: more) →
  let v := verify_events (es ++ e :: more) in
  vr_verified_event_count v = Z.of_nat (length (es ++ e :: more))
  ∧ vr_legacy_unhashed_event_count v = 0
  ∧ ∃ id, vr_latest_event_id v = Some id ∧ ev_id e ≤ id ∧ (more ≠ [] → ev_id e < id).
Proof.
  intros Hall [Hids _]. destruct more as [|x mid _] using rev_ind.
  - apply Forall_app in Hall as [Hes [([h Hh] & _ & _) _]%Forall_cons].
    destruct (hashed_run es e h Hes Hh) as (R1 & R2 & R3 & R4).
    split_and!; [done..|]. exists (ev_id e). split_and!; [done|lia|done].
  - assert (ev_id e < ev_id x) as Hlt by (apply (find_last_lt es e (mid ++ [x])); set_solver).
    assert ((es ++ e :: mid ++ [x]) = (es ++ e :: mid) ++ [x])%list as E by by rewrite <- app_assoc.
    rewrite E in *. apply Forall_app in Hall as [Hes [([h Hh] & _ & _) _]%Forall_cons].
    destruct (hashed_run _ x h Hes Hh) as (R1 & R2 & R3 & R4).
    split_and!; [done..|]. exists (ev_id x). split_and!; [done|lia|done].
Qed.

(** A non-empty valid log and an extension of it, seen through the last event
    the anchor covers. *)
Lemma anchor_values_prefix es e more t :
  let log := (es ++ [e])%list in
  (∀ x h, event_hash_text x = Some h → x ∈ log → is_sha256_hex h = true) →
  hashed_log (log ++ more) → ids_ascend (log ++ more) → chain_valid log →
  ∃ h, event_hash_text e = Some h ∧
    _validated_anchor_values (log ++ more) (verify_events (log ++ more))
      (anchor_of_verification (verify_events log) t)
    = (mkAnchorValues (Some (Z.of_nat (length log))) (Some (Z.of_nat (length log))) (Some 0)
         (Some (ev_id e)) (Some h), []).
Proof.
  intros log Hhex Hall Hids Hv. subst log.
  assert (((es ++ [e]) ++ more) = es ++ e :: more)%list as E by by rewrite <- app_assoc.
  rewrite E in *. destruct (extended_head es e more Hall Hids) as (V1 & V2 & id & V3 & V4 & _).
  destruct Hids as [Hids Hpos].
  apply Forall_app in Hall as [Hes [([h Hh] & _ & _) _]%Forall_cons].
  destruct (hashed_run es e h Hes Hh) as (R1 & R2 & R3 & R4). exists h. split; [done|].
  rewrite Forall_forall in Hpos. assert (0 ≤ ev_id e) by (apply Hpos; set_solver).
  assert (length (es ++ [e]) ≤ length (es ++ e :: more))%nat as Hlen
    by (rewrite !length_app; simpl; lia).
  eapply (anchor_values _ _ _ _ _ _ _ _ e); try done.
  - apply (Hhex e); [done|set_solver].
  - cbn -[run_chain]. lia.
  - rewrite V1. lia.
  - eauto with lia.
  - by apply find_last.
Qed.

Lemma py_eq_refl_field v t f :
  f ∈ _ANCHOR_CURRENT_HEAD_FIELDS → field_matches v (anchor_of_verification v t) f = true.
Proof.
  intros Hf%list_elem_of_In. simpl in Hf. repeat destruct Hf as [<-|Hf]; try done;
    unfold field_matches; simpl; try reflexivity; try apply Z.eqb_refl.
  - change (py_eq (jopt_int (vr_latest_event_id v)) (jopt_int (vr_latest_event_id v)) = true).
    destruct (vr_latest_event_id v); [apply Z.eqb_refl|done].
  - change (py_eq (jopt_str (vr_latest_event_hash v)) (jopt_str (vr_latest_event_hash v)) = true).
    by destruct (vr_latest_event_hash v); [apply bool_decide_eq_true_2|].
Qed.

(** The life of an anchor.  An anchor taken of a valid log is accepted as
    [validated] while the log is unchanged; once more events have been
    appended, and the longer log verifies, it is reported [stale] (and only
    that), with the number of events since. *)
Theorem anchor_lifecycle es e more t :
  let log := (es ++ [e])%list in
  (∀ x h, event_hash_text x = Some h → x ∈ log → is_sha256_hex h = true) →
  hashed_log (log ++ more) → ids_ascend (log ++ more) → chain_valid (log ++ more) →
  let v := verify_audit_hash_chain (Some (anchor_of_verification (verify_events log) t))
             (log ++ more) in
  vr_valid v = true
  ∧ vr_anchor_status v = (match more with [] => "validated" | _ => "stale" end)
  ∧ vr_anchor_stale v = (match more with [] => false | _ => true end)
  ∧ vr_events_since_anchor v = Some (Z.of_nat (length more)).
Proof.
  intros log Hhex Hall Hids Hv.
  destruct (anchor_values_prefix es e more t Hhex Hall Hids (chain_valid_prefix _ _ Hv))
    as (h & Hh & Ha). fold log in Ha. unfold verify_audit_hash_chain. cbv zeta.
  unfold _compare_audit_anchor. rewrite Ha.
  assert (vr_valid (verify_events (log ++ more)) = true) as Hvv by exact Hv.
  rewrite Hvv. cbn [negb]. destruct more as [|x more].
  { rewrite app_nil_r in *. unfold _anchor_matches_current_head.
    rewrite (proj2 (forallb_forall _ _));
      [by split_and!|intros f Hf; by apply py_eq_refl_field, list_elem_of_In]. }
  assert (_anchor_matches_current_head (verify_events (log ++ x :: more))
    (anchor_of_verification (verify_events log) t) = false) as ->.
  { apply not_true_is_false. unfold _anchor_matches_current_head. rewrite forallb_forall.
    intros Hf. specialize (Hf "event_count" ltac:(simpl; tauto)).
    unfold field_matches in Hf. rewrite (proj1 (proj2 (anchor_fields _ _))) in Hf.
    apply Z.eqb_eq in Hf. simpl in Hf. rewrite length_app in Hf. simpl in Hf. lia. }
  assert (_anchor_is_append_only_stale (verify_events (log ++ x :: more))
    (mkAnchorValues (Some (Z.of_nat (length log))) (Some (Z.of_nat (length log))) (Some 0)
       (Some (ev_id e)) (Some h)) = true) as ->; [|split_and!; [done..|]].
  - unfold log in *. rewrite <- app_assoc in *. simpl app in *.
    destruct (extended_head es e (x :: more) Hall Hids) as (V1 & V2 & id & V3 & _ & V4).
    unfold _anchor_is_append_only_stale, count_pairs. rewrite V3, V1, V2.
    cbn -[run_chain Z.of_nat app]. specialize (V4 ltac:(done)).
    rewrite !length_app. simpl length. rewrite !andb_true_iff, !Z.ltb_lt, !negb_true_iff, !Z.ltb_ge.
    lia.
  - change (Some (Z.of_nat (length (log ++ x :: more)%list) - Z.of_nat (length log))
      = Some (Z.of_nat (length (x :: more)))). rewrite length_app. f_equal. lia.
Qed.

Lemma read_count anchor field id errors z :
  anchor_get anchor field = JInt z → 0 ≤ z →
  _anchor_non_negative_int anchor field id errors = (Some z, errors).
Proof.
  intros E Hz. unfold _anchor_non_negative_int. by rewrite E, (proj2 (Z.ltb_ge z 0)).
Qed.

Lemma behind_not_nil v n m l i h :
  vr_event_count v < n →
  _validate_anchor_position v (mkAnchorValues (Some n) m l i h) [] ≠ [].
Proof.
  intros Hn. unfold _validate_anchor_position, count_pairs. cbn -[_append_chain_error].
  rewrite (proj2 (Z.ltb_lt _ _) Hn).
  repeat case_match; apply append_error_not_nil.
Qed.

(** Truncation is critical.  An anchor taken of a longer log (and nothing
    else about either log) makes the verification of a shorter log fail with
    status [critical]. *)
Theorem anchor_detects_truncation es es' t :
  (length es < length es')%nat →
  let v := verify_audit_hash_chain (Some (anchor_of_verification (verify_events es') t)) es in
  vr_valid v = false ∧ vr_anchor_status v = "critical".
Proof.
  intros Hlen v. subst v. unfold verify_audit_hash_chain, _compare_audit_anchor.
  destruct (_validated_anchor_values es (verify_events es)
    (anchor_of_verification (verify_events es') t)) as [av [|err errors]] eqn:E; [|done].
  exfalso. revert E. unfold _validated_anchor_values.
  set (errs := match anchor_get _ "valid" with JBool true => _ | _ => _ end). clearbody errs.
  rewrite (read_count _ _ _ _ _ (proj1 (proj2 (anchor_fields _ _)))) by (simpl; lia).
  destruct (_anchor_non_negative_int _ "verified_event_count" _ _) as [m e1].
  destruct (_anchor_non_negative_int _ "legacy_unhashed_event_count" _ _) as [l e2].
  destruct (_anchor_latest_event_id _ _ _ _) as [i e3].
  destruct (_anchor_latest_event_hash _ _ _ _) as [h e4]. destruct e4; [|done].
  destruct (_validate_anchor_position _ _ _) eqn:Ep; [|done]. intros _. revert Ep.
  apply behind_not_nil. simpl. lia.
Qed.

(** An accepted anchor: the chain verifies and the anchored event is there. *)
Lemma anchor_accepted anchor es id h :
  let v := verify_audit_hash_chain (Some anchor) es in
  vr_anchor_status v = "validated" ∨ vr_anchor_status v = "stale" →
  anchor_get anchor "latest_event_id" = JInt id → 0 ≤ id →
  anchor_get anchor "latest_event_hash" = JStr h → is_sha256_hex h = true →
  chain_valid es ∧ ∃ e, event_by_id es id = Some e ∧ event_hash_text e = Some h.
Proof.
  intros v Hst Hid Hpos Hh Hhex. subst v. unfold verify_audit_hash_chain, _compare_audit_anchor in Hst.
  destruct (_validated_anchor_values es (verify_events es) anchor) as [av [|err errors]] eqn:E;
    [|by destruct Hst].
  assert (chain_valid es) as Hv.
  { unfold chain_valid. simpl. destruct (vr_valid (verify_events es)) eqn:Ev; [done|].
    by destruct Hst. }
  split; [done|]. clear Hst. revert E. unfold _validated_anchor_values.
  set (errs := match anchor_get _ "valid" with JBool true => _ | _ => _ end). clearbody errs.
  destruct (_anchor_non_negative_int _ "event_count" _ _) as [c e0].
  destruct (_anchor_non_negative_int _ "verified_event_count" _ _) as [m e1].
  destruct (_anchor_non_negative_int _ "legacy_unhashed_event_count" _ _) as [l e2].
  unfold _anchor_latest_event_id, _anchor_latest_event_hash. rewrite Hid, Hh, Hhex.
  rewrite (read_count _ _ _ _ _ Hid Hpos). destruct e2; [|done].
  destruct (_validate_anchor_position _ _ _); [|done]. intros [= _ E]. revert E.
  cbn -[_append_chain_error event_hash_text].
  destruct (event_by_id es id) as [e|]; cbn -[_append_chain_error event_hash_text];
    [|by intros ?%append_error_not_nil].
  destruct (event_hash_text e) as [h'|] eqn:Ee; [|by intros ?%append_error_not_nil].
  case_bool_decide as Eh; [|by intros ?%append_error_not_nil]. subst h'. by exists e.
Qed.
End Anchors.

Section AnchoredHistory.
Context `{Env}.

(** An accepted anchor pins history.  If the anchor taken of a valid log
    is accepted ([validated] or [stale]) against the current table, then the
    table starts with exactly the events of that log: everything recorded up
    to the anchor is unchanged, in place and complete. *)
Theorem accepted_anchor_pins_history old e h t current :
  let log := (old ++ [e])%list in
  hmac_separates (payloads (log ++ current)) → start_unreachable (payloads (log ++ current)) →
  hashed_log log → chain_valid log → event_hash_text e = Some h → is_sha256_hex h = true →
  0 ≤ ev_id e → hashed_log current →
  let v := verify_audit_hash_chain (Some (anchor_of_verification (verify_events log) t)) current in
  vr_anchor_status v = "validated" ∨ vr_anchor_status v = "stale" →
  ∃ kept later, current = (kept ++ later)%list ∧ Forall2 same_record log kept.
Proof.
  intros log Hsep Hst0 Hlog Hv Hh Hhex Hid Hcur v Hst. subst log v.
  pose proof Hlog as Hold. apply Forall_app in Hold as [Hold He].
  destruct (hashed_run old e h Hold Hh) as (_ & _ & R3 & R4).
  destruct (anchor_fields (verify_events (old ++ [e])) t) as (_ & _ & _ & _ & F5 & F6).
  simpl in F5, F6. rewrite R3 in F5. rewrite R4 in F6.
  destruct (anchor_accepted _ _ _ _ Hst F5 Hid F6 Hhex) as (Vcur & e' & Hfind & Hh').
  unfold event_by_id in Hfind. apply List.find_some in Hfind as [Hin _].
  apply list_elem_of_In, list_elem_of_split in Hin as (kept & later & ->).
  exists (kept ++ [e'])%list, later. split; [by rewrite <- app_assoc|].
  assert (hashed_log (kept ++ [e'])) as Hk.
  { change (kept ++ e' :: later)%list with (kept ++ [e'] ++ later)%list in Hcur.
    rewrite app_assoc in Hcur. by apply Forall_app in Hcur as [Hcur _]. }
  assert (chain_valid (kept ++ [e'])) as Vk.
  { apply (chain_valid_prefix _ later). by rewrite <- app_assoc. }
  apply chain_determines_log; try done.
  1: eapply separates_sub; [exact Hsep|].
  2: eapply unreachable_sub; [exact Hst0|].
  1,2: unfold payloads; rewrite !fmap_app; set_solver.
  rewrite !run_chain_snoc. unfold chain_step. by rewrite Hh, Hh'.
Qed.
End AnchoredHistory.

(** ** Witnesses: a log of two events, written by the code itself *)

#[local] Existing Instance Sample.hex_env.

Definition write_sample : M St unit :=
  _ <- audit_event_required "login" "success" (Some 1) [] ;;
  audit_event_required "login_mfa" "failure" (Some 1) [].
Definition sample_event (n : nat) : SecurityAuditEvent :=
  List.nth n (security_audit_events (working (write_sample Sample.sample_state).2))
    (mkSecurityAuditEvent 0 "" "" None "" "" "" None [] None None None 0).
Definition sample_first : SecurityAuditEvent := Eval vm_compute in sample_event 0.
Definition sample_second : SecurityAuditEvent := Eval vm_compute in sample_event 1.

(** Decides a closed proposition by evaluation. *)
Ltac by_evaluation := apply (bool_decide_eq_true_1 _); vm_compute; reflexivity.

Lemma hex_unreachable ms :
  Forall (λ m, hmac_sha256_hex "" m ≠ AUDIT_CHAIN_START_HASH) ms → start_unreachable ms.
Proof. rewrite Forall_forall. intros Hs k m. apply (Hs m). Qed.

Lemma audit_writers_witness :
  chains_valid (audit_event "login" "success" (Some 1) [] Sample.sample_state).2.
Proof.
  refine (proj1 (audit_writers_keep_chain Sample.hex_digest_nonempty "login" "success" (Some 1) [])
    Sample.sample_state _).
  split; vm_compute; reflexivity.
Defined.

Lemma audit_log_tamper_witness :
  Forall2 same_record [sample_first; sample_second] [sample_first; sample_second].
Proof.
  apply audit_log_tamper_evident.
  - apply Sample.hex_separates. by_evaluation.
  - apply hex_unreachable. by_evaluation.
  - by_evaluation.
  - by_evaluation.
  - vm_compute; reflexivity.
  - vm_compute; reflexivity.
  - reflexivity.
Defined.

Lemma anchor_lifecycle_witness :
  vr_anchor_status (verify_audit_hash_chain
    (Some (anchor_of_verification (verify_events [sample_first]) 0))
    [sample_first; sample_second]) = "stale".
Proof.
  refine (proj1 (proj2 (anchor_lifecycle [] sample_first [sample_second] 0 _ _ _ _))).
  - intros x h Hx Hin%list_elem_of_singleton. subst x. revert Hx. vm_compute. by intros [= <-].
  - by_evaluation.
  - split; by_evaluation.
  - vm_compute; reflexivity.
Defined.

Lemma anchor_truncation_witness :
  vr_anchor_status (verify_audit_hash_chain
    (Some (anchor_of_verification (verify_events [sample_first; sample_second]) 0))
    [sample_first]) = "critical".
Proof.
  refine (proj2 (anchor_detects_truncation [sample_first] [sample_first; sample_second] 0 _)).
  simpl. lia.
Defined.

Lemma anchor_pins_witness :
  ∃ kept later, [sample_first; sample_second] = (kept ++ later)%list
    ∧ Forall2 same_record [sample_first] kept.
Proof.
  refine (accepted_anchor_pins_history [] sample_first _ 0 [sample_first; sample_second]
    _ _ _ _ eq_refl _ _ _ _).
  - apply Sample.hex_separates. by_evaluation.
  - apply hex_unreachable. by_evaluation.
  - by_evaluation.
  - vm_compute; reflexivity.
  - vm_compute; reflexivity.
  - vm_compute; discriminate.
  - by_evaluation.
  - right. vm_compute. reflexivity.
Defined.
End AuditChain.
