(* ===== verification/SessionRisk.v ===== *)
(** * Session age and session risk ([app/security/sessions.py])

    The policy that decides whether the current authenticated session is
    stable: keyed hashes of the client's network and user agent are stored in
    the Flask session at sign-in and compared on later requests, under any
    configured session key. *)

From S2P Require Import Prelude PyStr IpAddress TimeModel Schema Runtime Integrity.
From Stdlib Require Import Ascii.
Open Scope string_scope.
Open Scope Z_scope.

Module SessionRisk.

Definition SESSION_RISK_REAUTH_REQUIRED_KEY : string := "risk_reauth_required".
Definition SESSION_RISK_FINGERPRINT_KEY : string := "risk_fingerprint".
Definition SESSION_RISK_CONTEXT_KEY : string := "risk_context".
Definition SESSION_RISK_CONTEXT_VERSION : Z := 1.
Definition AUTH_CREATED_AT_KEY : string := "auth_created_at".

(** ** The client *)

Definition _normalized_ip_context (value : string) : string :=
  match IpAddress.ip_address value with
  | None => "unknown"
  | Some address =>
      IpAddress.compressed (IpAddress.network_24_64 address)
        +:+ match address with IpAddress.IPv4 _ => "/24" | IpAddress.IPv6 _ => "/64" end
  end.

Definition _normalized_user_agent (value : string) : string :=
  str_take 256 (casefold (join " " (split_ws (if nonempty value then value else "unknown")))).

(** [\b]: a word character on exactly one side. *)
Definition word_char (c : ascii) : bool := is_alnum c || bool_decide (c = "_"%char).
Definition starts_word (l : list ascii) : bool := match l with c :: _ => word_char c | [] => false end.
Definition boundary (before : bool) (l : list ascii) : bool := xorb before (starts_word l).

(** [re.search] of a pattern that starts with [\b]: the leftmost position where
    [match_at] succeeds. *)
Fixpoint search_word {A} (match_at : list ascii → option A) (before : bool) (l : list ascii)
    : option A :=
  match (if boundary before l then match_at l else None) with
  | Some a => Some a
  | None => match l with
            | [] => None
            | c :: l' => search_word match_at (word_char c) l'
            end
  end.

Definition one_of (spellings : list string) (l : list ascii) : option unit :=
  if existsb (λ p, startswith p (of_chars l)) spellings then Some tt else None.

(** [[a-z][a-z0-9._-]{1,31}]: the longest match. *)
Definition product_char (c : ascii) : bool :=
  is_lower c || is_digit c || str_in (of_chars [c]) ["."; "_"; "-"].
Fixpoint take_product (n : nat) (l : list ascii) : list ascii :=
  match n, l with
  | S n', c :: l' => if product_char c then c :: take_product n' l' else []
  | _, _ => []
  end.
Definition product_run (l : list ascii) : option (list ascii) :=
  match l with
  | c :: rest => if is_lower c then Some (c :: take_product 31 rest) else None
  | [] => None
  end.
(** Followed by ["/"]: the longest run only, since no shorter one is. *)
Definition product_at (l : list ascii) : option string :=
  match product_run l with
  | Some run => if (2 <=? length run)%nat && startswith "/" (of_chars (skipn (length run) l))
                then Some (of_chars run) else None
  | None => None
  end.
(** Followed by [\b]: the longest prefix of the run that ends at a boundary. *)
Definition token_at (l : list ascii) : option string :=
  match product_run l with
  | Some run =>
      match List.find (λ n, boundary (match last (firstn n l) with Some c => word_char c | None => false end)
                       (skipn n l))
              (rev (seq 2 (length run - 1))) with
      | Some n => Some (of_chars (firstn n l))
      | None => None
      end
  | None => None
  end.

Definition known_families : list (string * list string) :=
  [("edge", ["edg/"; "edge/"; "edga/"; "edgios/"]); ("opera", ["opr/"; "opera/"]);
   ("chrome", ["chrome/"; "crios/"]); ("firefox", ["firefox/"; "fxios/"]); ("safari", ["safari/"])].

Definition user_agent_family (value : string) : string :=
  let l := chars (_normalized_user_agent value) in
  match List.find (λ family : string * list string, bool_decide (is_Some (search_word (one_of family.2) false l)))
          known_families with
  | Some (family, _) => family
  | None =>
      match search_word product_at false l with
      | Some product => product
      | None => match search_word token_at false l with Some token => token | None => "unknown" end
      end
  end.

Example family_edge : user_agent_family "Mozilla/5.0 Chrome/120 Safari/537 Edg/120" = "edge".
Proof. vm_compute. reflexivity. Qed.
Example family_product : user_agent_family "  curl/8.4.0 " = "curl".
Proof. vm_compute. reflexivity. Qed.
Example family_token : user_agent_family "9 my-bot." = "my-bot".
Proof. vm_compute. reflexivity. Qed.

Section SessionRisk.
Context `{Env}.

Definition remote_addr_text : string := match request_remote_addr with Some a => a | None => "" end.
Definition user_agent_text : string :=
  if nonempty request_user_agent then request_user_agent else "unknown".
Definition request_ip_network : string := _normalized_ip_context remote_addr_text.
Definition request_normalized_user_agent : string := _normalized_user_agent user_agent_text.
Definition request_user_agent_family : string := user_agent_family request_normalized_user_agent.

Definition _now : M St Z := time_seconds.

Definition is_signed_in : M St bool :=
  uid <- session_get "user_id" ;;
  sid <- current_session_id ;;
  ret (otruthy uid && match sid with Some s => nonempty s | None => false end).

(** Seconds since sign-in, [None] when the session state is not usable. *)
Definition authenticated_session_age_seconds : M St (option Z) :=
  signed_in <- is_signed_in ;;
  if negb (signed_in : bool) then ret None
  else
    created_at <- session_get AUTH_CREATED_AT_KEY ;;
    match created_at with
    | Some (JBool _) => ret None
    | _ =>
        now <- _now ;;
        match py_int created_at with
        | Raise _ => ret None
        | Ok created =>
            let age := now - created in
            if age <? 0 then ret None
            else
              lifetime <- lift (config_int "SESSION_ABSOLUTE_LIFETIME_SECONDS") ;;
              if lifetime <? age then ret None else ret (Some age)
        end
    end.

Definition risk_context_message (label value : string) : string :=
  "session-risk-context:" +:+ label +:+ ":" +:+ value.

Definition _risk_context_hash (label value : string) : res string :=
  active_hmac_hex (risk_context_message label value) 32.

Definition _risk_context_hash_matches (stored : option jval) (label value : string) : res bool :=
  match stored with
  | Some v =>
      if truthy v then matches_hmac (py_str v) (risk_context_message label value) 32
      else Ok false
  | None => Ok false
  end.

Definition _current_session_risk_context : M St jval :=
  ip_hash <- lift (_risk_context_hash "ip_network" request_ip_network) ;;
  family_hash <- lift (_risk_context_hash "user_agent_family" request_user_agent_family) ;;
  agent_hash <- lift (_risk_context_hash "user_agent" request_normalized_user_agent) ;;
  now <- _now ;;
  ret (JObj [("version", JInt SESSION_RISK_CONTEXT_VERSION);
             ("ip_network_hash", JStr ip_hash);
             ("user_agent_family_hash", JStr family_hash);
             ("user_agent_hash", JStr agent_hash);
             ("last_checked_at", JInt now)]).

(** [stored.get("version") != 1]: [True == 1] in Python. *)
Definition version_is_current (v : option jval) : bool :=
  match v with
  | Some (JInt z) => z =? SESSION_RISK_CONTEXT_VERSION
  | Some (JBool b) => b
  | _ => false
  end.

(** The set of changed signals, as a duplicate-free list. *)
Definition context_changes (kvs : list (string * jval)) : res (list string) :=
  rbind (_risk_context_hash_matches (obj_get "ip_network_hash" kvs) "ip_network"
           request_ip_network) (λ same_ip,
  rbind (_risk_context_hash_matches (obj_get "user_agent_family_hash" kvs) "user_agent_family"
           request_user_agent_family) (λ same_family,
  rbind (_risk_context_hash_matches (obj_get "user_agent_hash" kvs) "user_agent"
           request_normalized_user_agent) (λ same_agent,
  Ok ((if (same_ip : bool) then [] else ["ip_network"])
      ++ (if (same_family : bool) then [] else ["user_agent_family"])
      ++ (if (same_agent : bool) then [] else ["user_agent"]))%list))).

Definition _session_risk_context_changes : M St (list string) :=
  stored <- session_get SESSION_RISK_CONTEXT_KEY ;;
  match stored with
  | Some (JObj kvs) =>
      if version_is_current (obj_get "version" kvs) then lift (context_changes kvs)
      else ret ["session_context"]
  | _ => ret ["session_context"]
  end.

Definition _session_risk_severity (changes : list string) : string :=
  match changes with
  | [] => "stable"
  | _ =>
      if match config "APP_MODE" with Some (JStr m) => bool_decide (m = "admin") | _ => false end
      then "high"
      else if bool_decide (changes = ["user_agent"]) then "low"
      else if str_in "ip_network" changes && str_in "user_agent_family" changes then "high"
      else "medium"
  end.

Definition authenticated_session_risk_is_stable : M St bool :=
  signed_in <- is_signed_in ;;
  if negb (signed_in : bool) then ret false
  else
    reauth <- session_get SESSION_RISK_REAUTH_REQUIRED_KEY ;;
    if otruthy reauth then ret false
    else
      changes <- _session_risk_context_changes ;;
      ret (bool_decide (_session_risk_severity changes = "stable")).

Definition _user_agent_fingerprint (value : string) : string :=
  str_take 16 (sha256_hex (str_take 256
    (join " " (split_ws (if nonempty value then value else "unknown"))))).

Definition _current_session_risk_message : M St string :=
  auth_context <- session_get "auth_context" ;;
  ret (join "|" [request_ip_network; _user_agent_fingerprint user_agent_text;
                 match auth_context with
                 | Some v => if truthy v then py_str v else ""
                 | None => ""
                 end]).

Definition current_session_risk_fingerprint : M St string :=
  message <- _current_session_risk_message ;;
  lift (active_hmac_hex message 32).

Definition _store_current_session_risk_context (clear_reauth : bool) : M St unit :=
  fingerprint <- current_session_risk_fingerprint ;;
  _ <- session_put SESSION_RISK_FINGERPRINT_KEY (JStr fingerprint) ;;
  context <- _current_session_risk_context ;;
  _ <- session_put SESSION_RISK_CONTEXT_KEY context ;;
  if clear_reauth then (_ <- session_pop SESSION_RISK_REAUTH_REQUIRED_KEY ;; ret tt) else ret tt.

Definition _touch_session_risk_context : M St unit :=
  stored <- session_get SESSION_RISK_CONTEXT_KEY ;;
  match stored with
  | Some (JObj kvs) =>
      if version_is_current (obj_get "version" kvs) then
        now <- _now ;;
        session_put SESSION_RISK_CONTEXT_KEY (JObj (obj_set "last_checked_at" (JInt now) kvs))
      else _store_current_session_risk_context false
  | _ => _store_current_session_risk_context false
  end.

(** ** Lemmas *)

Lemma pres_age P : preserves (on_db P) authenticated_session_age_seconds.
Proof.
  unfold authenticated_session_age_seconds, is_signed_in, _now. solve_pres.
Qed.

Lemma pres_stable P : preserves (on_db P) authenticated_session_risk_is_stable.
Proof.
  unfold authenticated_session_risk_is_stable, is_signed_in, _session_risk_context_changes.
  solve_pres.
Qed.

End SessionRisk.
#[export] Hint Resolve pres_age pres_stable : pres.
End SessionRisk.
