(* ===== verification/BankingPolicy.v ===== *)
(** * Banking policy helpers ([app/banking/services.py], [app/banking/limits.py])

    Amount bands and formatting, the freeze gate, transfer risk classes, the
    daily-limit selections, the daily usage sums, and the audit writer of the
    banking actions.  ORM objects are identified by their primary key: reading
    an attribute reads the row of the session's view. *)

From S2P Require Import Prelude PyStr PyDecimal TimeModel Schema Runtime Canonical Integrity.
From S2P Require Import AuditLog.
From Stdlib Require Import Ascii.
Open Scope string_scope.
Open Scope Z_scope.

Module Policy.
Import Audit.

Definition _TRANSFER_CONFIRMATION_EXPIRED_MESSAGE : string :=
  "Transfer confirmation has expired or was already used.".
Definition LOCAL_TRANSFER_CHANNEL : string := "Local Transfer".
Definition PAYUP_CHANNEL : string := "PayUp".
Definition TOPUP_CHANNEL : string := "Top Up".
Definition TRANSFER_RISK_NORMAL : string := "normal".
Definition TRANSFER_RISK_NEW_PAYEE : string := "new_payee".
Definition TRANSFER_RISK_LARGE_TRANSFER : string := "large_transfer".
Definition TRANSFER_STEP_UP_MFA : string := "mfa".
Definition TRANSFER_RISKS : list string :=
  [TRANSFER_RISK_NORMAL; TRANSFER_RISK_NEW_PAYEE; TRANSFER_RISK_LARGE_TRANSFER].

(** ** Pure helpers *)

(** Whole dollars as a [Decimal]. *)
Definition dollars (n : Z) : pydec := DFin n 0.

Definition dec_abs (d : pydec) : pydec :=
  match d with DFin c e => DFin (Z.abs c) e | DInf _ => DInf false | DNaN => DNaN end.

Definition _amount_audit_band (amount : pydec) : res string :=
  let normalized := dec_abs amount in
  rbind (dec_lt normalized (dollars 100)) (λ b1,
    if (b1 : bool) then Ok "under_100" else
  rbind (dec_lt normalized (dollars 1000)) (λ b2,
    if (b2 : bool) then Ok "100_to_999" else
  rbind (dec_lt normalized (dollars 10000)) (λ b3,
    if (b3 : bool) then Ok "1000_to_9999" else Ok "10000_or_more"))).

(** [_format_money] of a number of cents. *)
Definition _format_money (amount : Z) : string :=
  (if amount <? 0 then "-" else "") +:+ grouped (Z.abs amount / 100) +:+ "."
    +:+ pad 2 (Z.abs amount mod 100).

(** [str(value or "")]. *)
Definition or_empty (o : option string) : string := default "" o.

Definition _masked_account_suffix (account_number : option string) : string :=
  let digits := or_empty account_number in
  if nonempty digits then "-" +:+ str_last 6 digits else "-000000".

Definition _masked_phone_suffix (phone_number : option string) : string :=
  let digits := or_empty phone_number in
  if nonempty digits then "xxxx" +:+ str_last 4 digits else "xxxx0000".

Definition _masked_account_number (account_number : string) : string :=
  "•••-•••-" +:+ str_last 3 account_number.

Definition _normalize_transfer_risk (value : string) : res string :=
  let normalized := casefold (strip value) in
  if str_in normalized TRANSFER_RISKS then Ok normalized
  else Raise (AuthError "Invalid transfer risk classification" 400 None).

Definition transfer_step_up_requirement (transfer_risk : string) : res string :=
  rbind (_normalize_transfer_risk transfer_risk) (λ _, Ok TRANSFER_STEP_UP_MFA).

Definition classify_transfer_risk (new_payee large_transfer : bool) : string :=
  if new_payee then TRANSFER_RISK_NEW_PAYEE
  else if large_transfer then TRANSFER_RISK_LARGE_TRANSFER
  else TRANSFER_RISK_NORMAL.

(** Text after the last dot ([rsplit(".", 1)[1]]), when there is a dot. *)
Fixpoint after_last_dot (l : list ascii) : option (list ascii) :=
  match l with
  | [] => None
  | c :: l' =>
      match after_last_dot l' with
      | Some r => Some r
      | None => if bool_decide (c = "."%char) then Some l' else None
      end
  end.

(** Limits are cents; the result is an amount in cents. *)
Definition _resolve_custom_daily_limit (custom_value : option string) (minimum maximum : Z)
    : res Z :=
  let custom_text := strip (or_empty custom_value) in
  if negb (nonempty custom_text) then Raise (AuthError "Enter a custom amount." 400 None)
  else if match after_last_dot (chars custom_text) with
          | Some fraction => (2 <? length fraction)%nat
          | None => false
          end
  then Raise (AuthError "Custom amount must use cents precision." 400 None)
  else
    match decimal_of_str custom_text with
    | Raise InvalidOperation => Raise (AuthError "Enter a valid custom amount." 400 None)
    | Raise e => Raise e
    | Ok amount =>
        if negb (is_finite amount)
        then Raise (AuthError "Enter a valid custom amount." 400 None)
        else
          rbind (quantize_cents amount) (λ amount,
            if cents amount <? minimum
            then Raise (AuthError ("Custom amount must be at least SGD " +:+ fixed2 minimum
                                     +:+ ".") 400 None)
            else if maximum <? cents amount
            then Raise (AuthError ("Custom amount must not exceed SGD " +:+ fixed2 maximum
                                     +:+ ".") 400 None)
            else Ok (cents amount))
    end.

Definition _resolve_daily_limit_choice (choice : string) (custom_value : option string)
    (presets : list string) (minimum maximum : Z) : res Z :=
  let choice_text := strip choice in
  if str_in choice_text presets
  then rbind (decimal_of_str choice_text) (λ d, rbind (quantize_cents d) (λ q, Ok (cents q)))
  else if bool_decide (choice_text = "custom")
  then _resolve_custom_daily_limit custom_value minimum maximum
  else Raise (AuthError "Invalid limit selection." 400 None).

Definition resolve_transfer_limit_choice (choice : string) (custom_value : option string) : res Z :=
  _resolve_daily_limit_choice choice custom_value PAYUP_DAILY_LIMIT_PRESETS
    PAYUP_DAILY_LIMIT_MIN PAYUP_DAILY_LIMIT_MAX.

Definition resolve_local_transfer_limit_choice (choice : string) (custom_value : option string)
    : res Z :=
  _resolve_daily_limit_choice choice custom_value LOCAL_TRANSFER_DAILY_LIMIT_PRESETS
    LOCAL_TRANSFER_DAILY_LIMIT_MIN LOCAL_TRANSFER_DAILY_LIMIT_MAX.

Definition has_enrolled_mfa_method (user : User) : bool := u_mfa_enabled user.

Definition _requires_durable_audit (action outcome : string) : bool :=
  str_in (casefold (strip action))
    ["outbound_transfer"; "scheduled_transfer_execution"; "transaction_authorization"]
  && str_in (casefold (strip outcome)) ["success"; "approved"; "completed"; "executed"].

Definition ensure_account_not_frozen (user : User) (action : string) : res unit :=
  if u_is_frozen user || bool_decide (is_Some (u_security_locked_at user))
  then Raise (FrozenAccountError ("Account is frozen; " +:+ action +:+ " is blocked") 403)
  else Ok tt.

(** ** Daily usage *)

(** Completed transfers of one type by one sender since [day_start]. *)
Definition counts_today (ty : string) (sender : Z) (day_start : Z) (t : Transaction) : bool :=
  (tx_sender_id t =? sender) && bool_decide (tx_transaction_type t = ty)
  && bool_decide (tx_status t = "completed") && (day_start <=? tx_created_at t).

Definition used_since (ty : string) (sender day_start : Z) (d : Db) : Z :=
  sum_table (λ t, if counts_today ty sender day_start t then tx_amount t else 0) (transactions d).

Section Policy.
Context `{Env}.

Definition local_transfer_token_verifier (token : string) : res string :=
  active_hmac_hex ("local-transfer-confirmation:" +:+ token) 64.
Definition payup_transfer_token_verifier (token : string) : res string :=
  active_hmac_hex ("payup-transfer-confirmation:" +:+ token) 64.

(** The row behind an ORM object; a vanished row raises. *)
Definition load_user (user_id : Z) : M St User :=
  db_query (λ d, match users d !! user_id with Some u => Ok u | None => Raise NoResultFound end).
Definition load_payee (payee_id : Z) : M St Payee :=
  db_query (λ d, match payees d !! payee_id with Some p => Ok p | None => Raise NoResultFound end).

Definition payup_amount_used_today (user_id : Z) : M St Z :=
  now <- now_utc ;;
  db_get (used_since "payup" user_id (sgt_day_start_utc now)).
Definition local_transfer_amount_used_today (user_id : Z) : M St Z :=
  now <- now_utc ;;
  db_get (used_since "local_transfer" user_id (sgt_day_start_utc now)).

(** ** Audit of banking actions *)

(** [event_metadata[key] = audit_reference(namespace, value)] for a value that
    is not [None]. *)
Definition add_reference (key namespace : string) (value : option string)
    (metadata : list (string * jval)) : res (list (string * jval)) :=
  match value with
  | None => Ok metadata
  | Some v => rbind (audit_reference namespace v) (λ r, Ok (obj_set key (jopt_str r) metadata))
  end.

Definition audit_banking_action (action outcome : string) (user : option Z)
    (metadata : list (string * jval)) (transaction_reference payee_account idempotency_key
    : option string) (required : bool) : M St unit :=
  let event_metadata :=
    foldl (λ acc kv, obj_set kv.1 kv.2 acc) [("action", JStr action)] metadata in
  event_metadata <- lift (add_reference "transaction_ref" "transaction_reference"
                            transaction_reference event_metadata) ;;
  event_metadata <- lift (add_reference "payee_account_ref" "payee_account"
                            payee_account event_metadata) ;;
  event_metadata <- lift (add_reference "idempotency_key_ref" "idempotency_key"
                            idempotency_key event_metadata) ;;
  if required || _requires_durable_audit action outcome then
    _ <- audit_event_required ("banking_" +:+ action) outcome user event_metadata ;;
    commit
  else audit_event ("banking_" +:+ action) outcome user event_metadata.

Definition audit_outbound_transfer (user : Z) (outcome : string) (metadata : list (string * jval))
    (transaction_reference payee_account : option string) : M St unit :=
  audit_banking_action "outbound_transfer" outcome (Some user) metadata transaction_reference
    payee_account None false.

Definition audit_scheduled_transfer_execution (user : Z) (outcome : string)
    (metadata : list (string * jval)) (transaction_reference payee_account : option string)
    : M St unit :=
  audit_banking_action "scheduled_transfer_execution" outcome (Some user) metadata
    transaction_reference payee_account None false.

Definition audit_transaction_authorization (user : Z) (outcome : string)
    (metadata : list (string * jval)) (transaction_reference payee_account : option string)
    : M St unit :=
  audit_banking_action "transaction_authorization" outcome (Some user) metadata
    transaction_reference payee_account None false.

Definition audit_public_transaction_validation (outcome : string) (user : option Z)
    (metadata : list (string * jval)) (idempotency_key payee_account : option string)
    (required : bool) : M St unit :=
  audit_banking_action "public_transaction_validation" outcome user metadata None payee_account
    idempotency_key required.

(** [value or default] for an optional string. *)
Definition str_or (o : option string) (d : string) : string :=
  match o with Some s => if nonempty s then s else d | None => d end.

Definition _ensure_banking_action_allowed (user_id : Z) (action label : string) : M St unit :=
  user <- load_user user_id ;;
  try_except (lift (ensure_account_not_frozen user label)) is_auth_error
    (λ e, _ <- audit_banking_action action "blocked" (Some user_id)
                 [("reason", JStr (str_or (u_security_lock_reason user) "account_frozen"))]
                 None None None false ;;
          raise e).

Definition ensure_outbound_transfer_allowed (user_id : Z) : M St unit :=
  _ensure_banking_action_allowed user_id "outbound_transfer" "outbound transfers".
Definition ensure_scheduled_transfer_execution_allowed (user_id : Z) : M St unit :=
  _ensure_banking_action_allowed user_id "scheduled_transfer_execution"
    "scheduled transfer execution".
Definition ensure_sensitive_profile_change_allowed (user_id : Z) : M St unit :=
  _ensure_banking_action_allowed user_id "sensitive_profile_change" "sensitive profile changes".

Definition before_outbound_transfer := ensure_outbound_transfer_allowed.
Definition before_scheduled_transfer_execution := ensure_scheduled_transfer_execution_allowed.
Definition before_sensitive_profile_change := ensure_sensitive_profile_change_allowed.

End Policy.
End Policy.
