(* ===== verification/PasswordHistory.v ===== *)
(** * Password history ([app/security/password_history.py])

    Replacing a password files the old hash and prunes the history to the
    newest entries; a new password may match neither the current hash nor one of
    these.  Together they behave as a bounded queue of the most recent hashes. *)

From S2P Require Import Prelude PyStr TimeModel Schema Runtime Sample BankingPolicy Passwords.
From Stdlib Require Import Ascii.
Open Scope string_scope.
Open Scope Z_scope.

Module PasswordHistory.
Import Policy Passwords.

Definition DEFAULT_PASSWORD_HISTORY_RETENTION_COUNT : Z := 3.

(** [order_by(created_at.desc(), id.desc())]. *)
Definition newer (x y : Z * PasswordHistory) : bool :=
  (ph_created_at y.2 <? ph_created_at x.2)
  || ((ph_created_at x.2 =? ph_created_at y.2) && (y.1 <=? x.1)).
Definition history_of (user_id : Z) (r : PasswordHistory) : bool := ph_user_id r =? user_id.
Definition history_rows (user_id : Z) (d : Db) : list (Z * PasswordHistory) :=
  sort_by newer (rows_where (history_of user_id) (password_history d)).

Definition add_history (r : PasswordHistory) : Db → Db :=
  upd_password_history (λ t, <[next_id t := r]> t).
Definition set_password (hash : string) (now : Z) (u : User) : User :=
  set_u_password_changed_at now (set_u_password_hash hash u).
Definition clear_forced_password_change (u : User) : User :=
  set_u_force_password_change_at None
    (set_u_force_password_change_reason None (set_u_force_password_change false u)).

Section PasswordHistory.
Context `{Env}.

Definition validate_password_history_config : res unit :=
  let enabled := match config "PASSWORD_HISTORY_ENABLED" with Some v => truthy v | None => true end in
  if negb enabled then Raise (RuntimeError "PASSWORD_HISTORY_ENABLED must be true")
  else match config_int_default "PASSWORD_HISTORY_RETENTION_COUNT"
               DEFAULT_PASSWORD_HISTORY_RETENTION_COUNT with
       | Raise _ => Raise (RuntimeError "PASSWORD_HISTORY_RETENTION_COUNT must be an integer")
       | Ok retention_count =>
           if retention_count <? DEFAULT_PASSWORD_HISTORY_RETENTION_COUNT
           then Raise (RuntimeError "PASSWORD_HISTORY_RETENTION_COUNT must be at least 3")
           else Ok tt
       end.

Definition _retention_count : Z :=
  match config_int_default "PASSWORD_HISTORY_RETENTION_COUNT"
          DEFAULT_PASSWORD_HISTORY_RETENTION_COUNT with
  | Ok configured => Z.max DEFAULT_PASSWORD_HISTORY_RETENTION_COUNT configured
  | Raise _ => DEFAULT_PASSWORD_HISTORY_RETENTION_COUNT
  end.

Definition _history_entries (user_id limit : Z) : M St (list (Z * PasswordHistory)) :=
  db_get (λ d, firstn (Z.to_nat limit) (history_rows user_id d)).

Fixpoint refuse_match (candidate_password : string) (entries : list (Z * PasswordHistory))
    : M St unit :=
  match entries with
  | [] => ret tt
  | (_, entry) :: rest =>
      matched <- lift (verify_password candidate_password (ph_password_hash entry)) ;;
      if (matched : bool) then raise (PasswordReuseError "password_history")
      else refuse_match candidate_password rest
  end.

Definition assert_password_not_reused (user_id : Z) (candidate_password : string) : M St unit :=
  user <- load_user user_id ;;
  matched <- lift (verify_password candidate_password (u_password_hash user)) ;;
  if (matched : bool) then raise (PasswordReuseError "current_password")
  else
    entries <- _history_entries user_id _retention_count ;;
    refuse_match candidate_password entries.

Definition _prune_password_history (user_id retention_count : Z) : M St unit :=
  rows <- db_get (history_rows user_id) ;;
  mapM_ (λ stale_entry : Z * PasswordHistory,
           db_write (upd_password_history (delete stale_entry.1)))
    (skipn (Z.to_nat retention_count) rows).

Definition replace_user_password (user_id : Z) (new_password : string) (changed_at : option Z)
    (clear_forced_change : bool) : M St unit :=
  now <- match changed_at with Some t => ret t | None => now_utc end ;;
  user <- load_user user_id ;;
  _ <- guard (nonempty (u_password_hash user))
         (db_write (add_history (mkPasswordHistory user_id (u_password_hash user) now))) ;;
  hash <- hash_password new_password ;;
  _ <- db_write (upd_users (alter (set_password hash now) user_id)) ;;
  _ <- guard clear_forced_change (db_write (upd_users (alter clear_forced_password_change user_id))) ;;
  _prune_password_history user_id _retention_count.

Definition mark_password_changed (changed_at : option Z) (u : User) : M St User :=
  now <- match changed_at with Some t => ret t | None => now_utc end ;;
  ret (clear_forced_password_change (set_u_password_changed_at now u)).

Definition require_forced_password_change (user_id : Z) (reason : string) : M St unit :=
  let reason := if nonempty reason then reason else "security_event" in
  let normalized_reason := str_take 80 (casefold (strip reason)) in
  now <- now_utc ;;
  db_write (upd_users (alter (λ u,
    set_u_force_password_change_at (Some now)
      (set_u_force_password_change_reason
         (Some (if nonempty normalized_reason then normalized_reason else "security_event"))
         (set_u_force_password_change true u))) user_id)).

(** ** The bounded queue of recent hashes *)

(** The hashes a new password is compared with, newest first: the current one,
    then the history. *)
Definition recent_hashes (user_id : Z) (d : Db) : list string :=
  (match users d !! user_id with Some u => [u_password_hash u] | None => [] end
   ++ ((λ r : Z * PasswordHistory, ph_password_hash r.2) <$> history_rows user_id d))%list.

(** The specification: a queue of the last [S n] hashes. *)
Definition push (n : nat) (hash : string) (queue : list string) : list string :=
  firstn (S n) (hash :: queue).

Lemma newer_total x y : newer x y = false → newer y x = true.
Proof. unfold newer. lia. Qed.
Lemma newer_trans x y z : newer x y = true → newer y z = true → newer x z = true.
Proof. unfold newer. lia. Qed.
Lemma newer_anti x y : newer x y = true → newer y x = true → x.1 = y.1.
Proof. unfold newer. lia. Qed.

Lemma history_rows_sorted user_id d :
  StronglySorted (λ a b, newer a b = true) (history_rows user_id d).
Proof. apply sort_by_sorted; [apply newer_total|apply newer_trans]. Qed.

Lemma history_rows_unique user_id d l :
  StronglySorted (λ a b, newer a b = true) l →
  l ≡ₚ rows_where (history_of user_id) (password_history d) → history_rows user_id d = l.
Proof. apply sort_rows_unique; [apply newer_total|apply newer_trans|apply newer_anti]. Qed.

(** Filing an entry that is not older than the others puts it first. *)
Lemma history_rows_add user_id hash now d :
  (∀ id r, password_history d !! id = Some r → ph_user_id r = user_id → ph_created_at r ≤ now) →
  history_rows user_id (add_history (mkPasswordHistory user_id hash now) d)
  = (next_id (password_history d), mkPasswordHistory user_id hash now) :: history_rows user_id d.
Proof.
  intros Hold. apply history_rows_unique.
  - constructor; [apply history_rows_sorted|]. apply Forall_forall. intros [id r] Hr.
    unfold history_rows in Hr. rewrite sort_by_perm in Hr.
    apply rows_where_spec in Hr as [Hr Hu]. unfold history_of in Hu.
    pose proof (next_id_above _ _ _ Hr). specialize (Hold id r Hr ltac:(lia)).
    unfold newer. simpl. lia.
  - simpl. rewrite rows_where_insert.
    + unfold history_rows. by rewrite sort_by_perm.
    + apply next_id_fresh.
    + unfold history_of. simpl. lia.
Qed.

(** Pruning keeps the newest entries. *)
Lemma history_rows_prune user_id n d :
  history_rows user_id (foldl (λ d kv, upd_password_history (delete kv.1) d) d
                          (skipn n (history_rows user_id d)))
  = firstn n (history_rows user_id d).
Proof.
  set (gone := skipn n _).
  assert (∀ d, password_history (foldl (λ (d : Db) (kv : Z * PasswordHistory),
      upd_password_history (delete kv.1) d) d gone)
    = foldl (λ t kv, delete kv.1 t) (password_history d) gone) as E.
  { clearbody gone. induction gone as [|kv gone IH]; intros d0; [done|]. simpl. by rewrite IH. }
  apply history_rows_unique.
  - pose proof (history_rows_sorted user_id d) as Hs.
    rewrite <- (firstn_skipn n (history_rows user_id d)) in Hs.
    by apply StronglySorted_app_1_l in Hs.
  - symmetry. rewrite E. apply rows_where_delete_all.
    unfold gone. rewrite firstn_skipn. unfold history_rows. by rewrite sort_by_perm.
Qed.

Lemma refuse_match_ok candidate entries s :
  refuse_match candidate entries s = (Ok tt, s)
  ↔ Forall (λ r : Z * PasswordHistory, verify_password candidate (ph_password_hash r.2) = Ok false)
      entries.
Proof.
  induction entries as [|[id r] entries IH]; simpl; [done|]. rewrite Forall_cons. simpl.
  unfold bind, lift. destruct (verify_password _ _) as [[]|]; simpl; naive_solver.
Qed.

(** The users the rest of the change leaves behind. *)
Definition changed_user (hash : string) (now : Z) (clear : bool) (u : User) : User :=
  let u := set_password hash now u in if clear then clear_forced_password_change u else u.

Lemma prune_users d (gone : list (Z * PasswordHistory)) :
  users (foldl (λ d x, upd_password_history (delete x.1) d) d gone) = users d.
Proof. revert d. induction gone as [|x gone IH]; intros d; [done|]. simpl. by rewrite IH. Qed.

Lemma replace_user_password_inv user_id new_password changed_at clear s s' u :
  users (working s) !! user_id = Some u →
  replace_user_password user_id new_password changed_at clear s = (Ok tt, s') →
  ∃ now hash s1 s2, hash_password new_password s1 = (Ok hash, s2)
    ∧ default (clock s) changed_at ≤ now
    ∧ users (working s') !! user_id = Some (changed_user hash now clear u)
    ∧ history_rows user_id (working s') = firstn (Z.to_nat _retention_count)
        (history_rows user_id
           (if nonempty (u_password_hash u)
            then add_history (mkPasswordHistory user_id (u_password_hash u) now) (working s)
            else working s)).
Proof.
  intros Hu E. unfold replace_user_password in E. inv_bind E.
  assert (working s0 = working s ∧ default (clock s) changed_at ≤ a) as [Hw Ha].
  { destruct changed_at; unfold ret, now_utc in E0; simplify_eq; simpl; split; done || lia. }
  erewrite bind_Ok in E by (unfold load_user, db_query; by rewrite Hw, Hu).
  set (w1 := if nonempty (u_password_hash u)
    then add_history (mkPasswordHistory user_id (u_password_hash u) a) (working s) else working s).
  inv_bind E. assert (working s1 = w1 ∧ users w1 !! user_id = Some u) as [Hw1 Hu1].
  { unfold w1, guard, ret, db_write, modify in *. destruct (nonempty _); simplify_eq; simpl;
      rewrite ?Hw; done. }
  inv_bind E. pose proof (hash_password_state new_password s1) as Hh.
  match goal with H : hash_password _ _ = (Ok ?h, ?t) |- _ =>
    rename H into Eh; rename h into hash; rename t into s2 end.
  assert (working s2 = w1) as Hw2 by (rewrite Eh in Hh; simpl in Hh; destruct Hh as [-> | ->]; done).
  exists a, hash, s1, s2. split; [done|]. split; [done|].
  unfold _prune_password_history, guard in E.
  destruct clear; repeat (erewrite bind_Ok in E by done); rewrite (mapM_db_write
    (λ x : Z * PasswordHistory, upd_password_history (delete x.1))) in E; simplify_eq;
    cbn [working set_working]; rewrite Hw2, prune_users, history_rows_prune; (split; [|done]);
    cbn [users upd_users]; rewrite ?lookup_alter_eq, Hu1; done.
Qed.

Lemma refuse_match_state candidate entries s r s' : refuse_match candidate entries s = (r, s') → s' = s.
Proof.
  induction entries as [|[i x] l IH]; cbn [refuse_match]; [by intros [= _ <-]|]. unfold bind, lift.
  destruct (verify_password candidate _) as [[]|]; [by intros [= _ <-]|exact IH|by intros [= _ <-]].
Qed.
Lemma not_reused_state user_id candidate s r s' :
  assert_password_not_reused user_id candidate s = (r, s') → s' = s.
Proof.
  unfold assert_password_not_reused, bind, load_user, db_query, lift.
  destruct (users (working s) !! user_id) as [u|]; [|by intros [= _ <-]].
  destruct (verify_password _ _) as [[]|]; [by intros [= _ <-]|apply refuse_match_state|by intros [= _ <-]].
Qed.
(** The check for reuse compares with the newest [S n] hashes. *)
Lemma not_reused_iff user_id candidate s u :
  users (working s) !! user_id = Some u →
  assert_password_not_reused user_id candidate s = (Ok tt, s)
  ↔ Forall (λ hash, verify_password candidate hash = Ok false)
      (firstn (S (Z.to_nat _retention_count)) (recent_hashes user_id (working s))).
Proof.
  intros Hu. unfold recent_hashes, assert_password_not_reused. rewrite Hu. cbn [app firstn].
  erewrite bind_Ok by (unfold load_user, db_query; by rewrite Hu).
  rewrite Forall_cons, <- fmap_take, Forall_fmap. unfold bind at 1, lift.
  destruct (verify_password candidate (u_password_hash u)) as [[]|]; [naive_solver|..|naive_solver].
  unfold _history_entries. erewrite bind_Ok by done. rewrite refuse_match_ok. naive_solver.
Qed.
End PasswordHistory.

(** C38: The password history is a bounded queue of the most recent hashes.
    Replacing a password pushes the hash of the new password, which verifies
    against it, and drops what falls beyond the retention count.  The check for
    reuse, which is a call of its own that the caller makes before replacing, lets
    a candidate through exactly when it matches none of the hashes in that queue. *)
Theorem password_history_is_queue `{Env} user_id new_password changed_at clear s s' u :
  users (working s) !! user_id = Some u → u_password_hash u ≠ "" →
  (∀ id r, password_history (working s) !! id = Some r → ph_user_id r = user_id →
     ph_created_at r ≤ default (clock s) changed_at) →
  replace_user_password user_id new_password changed_at clear s = (Ok tt, s') →
  let retained := Z.to_nat _retention_count in
  (∃ hash, verify_password new_password hash = Ok true
     ∧ recent_hashes user_id (working s')
       = push retained hash (recent_hashes user_id (working s)))
  ∧ ∀ candidate, assert_password_not_reused user_id candidate s' = (Ok tt, s')
      ↔ Forall (λ hash, verify_password candidate hash = Ok false)
          (recent_hashes user_id (working s')).
Proof.
  intros Hu Hne Hold E retained.
  destruct (replace_user_password_inv _ _ _ _ _ _ _ Hu E) as (now & hash & s1 & s2 & Eh & Hnow & Hu' & Hh).
  assert (nonempty (u_password_hash u) = true) as Hn
    by (unfold nonempty; by rewrite bool_decide_eq_false_2).
  rewrite Hn in Hh.
  rewrite history_rows_add in Hh by (intros; etrans; [by eapply Hold|done]).
  assert (u_password_hash (changed_user hash now clear u) = hash) as Hc by by destruct clear.
  split.
  - exists hash. split; [by eapply hash_password_verifies|].
    unfold recent_hashes, push. rewrite Hu, Hu', Hh, Hc. simpl. f_equal.
    fold retained. destruct retained; [done|]. simpl. f_equal. by rewrite <- fmap_take.
  - intros candidate. rewrite (not_reused_iff _ _ _ _ Hu'), firstn_all2; [done|].
    unfold recent_hashes. rewrite Hu', Hh. cbn [app length]. rewrite length_fmap, length_take. lia.
Qed.

(** Alice changes her password. *)
Definition change_run :=
  @replace_user_password Sample.sample_env 1 "correct horse" None true Sample.sample_state.

Lemma password_history_is_queue_witness :
  length (recent_hashes 1 (working change_run.2)) = 2%nat
  ∧ @assert_password_not_reused Sample.sample_env 1 "correct horse" change_run.2
    ≠ (Ok tt, change_run.2).
Proof.
  pose proof (@password_history_is_queue Sample.sample_env 1 "correct horse" None true
    Sample.sample_state change_run.2 Sample.alice) as T.
  split; [by vm_compute|].
  destruct T as [(hash & Hv & Hq) Hiff].
  - by vm_compute.
  - by vm_compute.
  - intros id r Hr. exfalso. by vm_compute in Hr.
  - by vm_compute.
  - rewrite Hiff, Hq. unfold push. simpl. intros [Hf _]%Forall_cons. congruence.
Defined.
End PasswordHistory.
