(* ===== verification/Notifications.v ===== *)
(** * Customer notifications ([app/banking/services.py])

    The emails of the banking services.  Delivery failures are caught and
    audited; [safe_send_notification] lets nothing escape.  None of it touches
    balances, ledger rows or confirmation tokens ([pres_*] lemmas): an
    invariant on the database that ignores the audit log survives. *)

From S2P Require Import Prelude PyStr PyDecimal TimeModel Schema Runtime Canonical Integrity.
From S2P Require Import AuditLog BankingPolicy.
Open Scope string_scope.
Open Scope Z_scope.

Module Notifications.
Import Audit Policy TimeDisplay.

Definition lines (l : list string) : string := join newline l.

(** Details of a completed transfer; the amount is in cents. *)
Record TransferDetails : Type := mkDetails {
  td_amount : option Z;
  td_transaction_reference : option string;
  td_counterparty_label : option string;
  td_own_account_number : option string;
  td_counterparty_account_number : option string;
  td_counterparty_phone_number : option string;
  td_reference : option string;
  td_occurred_at : option Z
}.
Definition no_details : TransferDetails := mkDetails None None None None None None None None.

Definition amount_line (amount : option Z) : string :=
  match amount with Some a => "SGD " +:+ _format_money a | None => "SGD 0.00" end.

Definition description_line (reference : option string) : string :=
  match reference with
  | Some r => if nonempty r && nonempty (strip r) then strip r else "—"
  | None => "—"
  end.

Definition _build_transfer_success_email_body (channel direction : string) (td : TransferDetails)
    (reference_number : string) (when : Z) : string :=
  let w := Some (Naive when) in
  let amount := "Amount: " +:+ amount_line (td_amount td) in
  let ref_no := "Reference number: " +:+ reference_number in
  let from_account := "From your account: Savings Account ("
    +:+ _masked_account_suffix (td_own_account_number td) +:+ ")" in
  let description := "Description: " +:+ description_line (td_reference td) in
  let label := str_or (td_counterparty_label td) "the recipient" in
  if bool_decide (channel = PAYUP_CHANNEL) && bool_decide (direction = "withdrawal") then
    lines [EMAIL_GREETING; "";
           "The following PayUp transfer has been made to " +:+ label
             +:+ " using their phone number."; "";
           "Date: " +:+ sgt_date w; "Time: " +:+ sgt_time w; amount; from_account; description;
           ref_no; ""; EMAIL_CLOSING; ""; EMAIL_SIGN_OFF]
  else if bool_decide (channel = PAYUP_CHANNEL) && bool_decide (direction = "deposit") then
    lines [EMAIL_GREETING; "";
           "A deposit was made in your account via PayUp. Here are the details:"; "";
           "Time of deposit: " +:+ sgt_time w; amount;
           "Phone number that money was deposited in: ("
             +:+ _masked_phone_suffix (td_counterparty_phone_number td) +:+ ")";
           ref_no; ""; EMAIL_SIGN_OFF]
  else if bool_decide (channel = LOCAL_TRANSFER_CHANNEL) && bool_decide (direction = "withdrawal")
  then
    lines [EMAIL_GREETING; "";
           "We have received your request to make the following transfer:"; "";
           "Date of Transfer: " +:+ sgt_date w; "Time of Transfer: " +:+ sgt_time w; amount;
           from_account;
           "To account: " +:+ label +:+ " savings account ("
             +:+ _masked_account_suffix (td_counterparty_account_number td) +:+ ") at SITBank";
           description; ref_no; ""; EMAIL_CLOSING; ""; EMAIL_SIGN_OFF]
  else if bool_decide (channel = LOCAL_TRANSFER_CHANNEL) && bool_decide (direction = "deposit")
  then
    lines [EMAIL_GREETING; "";
           "A deposit was made in your account via Local Transfer. Here are the details:"; "";
           "Time of deposit: " +:+ sgt_time w; amount;
           "Account that money was deposited in: ("
             +:+ _masked_account_suffix (td_own_account_number td) +:+ ")";
           ref_no; ""; EMAIL_SIGN_OFF]
  else
    lines [EMAIL_GREETING; "";
           "A deposit was made in your account via " +:+ channel +:+ ". Here are the details:"; "";
           "Time of deposit: " +:+ sgt_time w; amount; ref_no; ""; EMAIL_SIGN_OFF].

(** The two ratios of the daily-limit alert, and whether it fires; arguments
    in cents. *)
Definition warning_ratio (used limit : Z) : pydec := dec_div used (-2) limit (-2).
Definition _DAILY_LIMIT_WARNING_RATIO : pydec := DFin 80 (-2).
Definition warning_suppressed (used_before amount limit : Z) : res bool :=
  rbind (dec_lt (warning_ratio used_before limit) _DAILY_LIMIT_WARNING_RATIO) (λ below,
    if negb below then Ok true
    else dec_lt (warning_ratio (used_before + amount) limit) _DAILY_LIMIT_WARNING_RATIO).

Section Notifications.
Context `{Env}.

Definition _send_banking_email (user_id : Z) (subject body event_type : string)
    (metadata : list (string * jval)) : M St unit :=
  outcome <- try_except
    (user <- load_user user_id ;;
     _ <- send_security_email (u_email user) subject body ;;
     ret true) any_exn (λ _, ret false) ;;
  if (outcome : bool)
  then audit_event event_type "queued" (Some user_id) metadata
  else audit_event event_type "failure" (Some user_id)
         (foldl (λ acc kv, obj_set kv.1 kv.2 acc) [("reason", JStr "email_delivery_failed")]
            metadata).

(** [str.title] of the two directions. *)
Definition direction_label (direction : string) : string :=
  if bool_decide (direction = "withdrawal") then "Withdrawal" else "Deposit".

Definition send_transfer_notification (user_id : Z) (direction outcome channel : string)
    (td : TransferDetails) : M St unit :=
  let direction := casefold (strip direction) in
  let outcome := casefold (strip outcome) in
  if negb (str_in direction ["withdrawal"; "deposit"])
  then raise (ValueError "Unsupported transfer notification direction")
  else if negb (str_in outcome ["success"; "failure"])
  then raise (ValueError "Unsupported transfer notification outcome")
  else
    user <- load_user user_id ;;
    if negb (u_transfer_activity_email_enabled user) then ret tt
    else
      let succeeded := bool_decide (outcome = "success") in
      let subject := "SITBank " +:+ direction_label direction +:+ " "
        +:+ (if succeeded then "successful" else "unsuccessful") in
      let reference_number :=
        match td_transaction_reference td with
        | Some r => if nonempty r then upper (str_take 8 r) else ""
        | None => ""
        end in
      when <- match td_occurred_at td with Some t => ret t | None => now_utc end ;;
      let body :=
        if succeeded
        then _build_transfer_success_email_body channel direction td reference_number when
        else lines [EMAIL_GREETING; "";
                    "We were unable to process your recent " +:+ channel +:+ " " +:+ direction
                      +:+ " request."; "";
                    EMAIL_UNRECOGNIZED_ACTIVITY_NOTICE; ""; EMAIL_SIGN_OFF] in
      _send_banking_email user_id subject body "banking_transfer_notification"
        [("direction", JStr direction); ("outcome", JStr outcome); ("channel", JStr channel)].

Definition maybe_send_daily_limit_warning (user_id : Z) (channel : string)
    (used_before amount daily_limit : Z) : M St unit :=
  if daily_limit <=? 0 then ret tt
  else
    suppressed <- lift (warning_suppressed used_before amount daily_limit) ;;
    if (suppressed : bool) then ret tt
    else
      let after_amount := used_before + amount in
      percent_used <- lift (quantize_cents
                              (dec_mul (warning_ratio after_amount daily_limit) (dollars 100))) ;;
      let body := lines
        ["Your " +:+ channel +:+ " daily transfer usage has reached "
           +:+ fixed2 (cents percent_used) +:+ "% of your limit.";
         "Used today: SGD " +:+ _format_money after_amount;
         "Daily limit: SGD " +:+ _format_money daily_limit;
         "If this activity was not yours, contact SITBank support through the approved recovery path."] in
      _send_banking_email user_id ("SITBank " +:+ channel +:+ " daily limit 80% alert") body
        "banking_daily_limit_notification"
        [("channel", JStr channel); ("threshold", JStr "80_percent")].

(** One line per limit that was given and differs from the previous one; a
    missing previous value cannot be formatted. *)
Definition limit_change (name : string) (old new : option Z) (when_label : string)
    : res (list string) :=
  match new with
  | Some n =>
      if bool_decide (new = old) then Ok []
      else match old with
           | Some o =>
               Ok ["As you instructed, we updated your daily limit for " +:+ name +:+ " from SGD "
                     +:+ _format_money o +:+ " to SGD " +:+ _format_money n +:+ " at "
                     +:+ when_label +:+ "."]
           | None => Raise InvalidOperation
           end
  | None => Ok []
  end.

Definition send_transfer_limit_change_notification (user_id : Z) (outcome : string)
    (payup_limit local_transfer_limit previous_payup_limit previous_local_transfer_limit
     changed_at : option Z) : M St unit :=
  let outcome := casefold (strip outcome) in
  if negb (str_in outcome ["success"; "failure"])
  then raise (ValueError "Unsupported transfer limit notification outcome")
  else
    let succeeded := bool_decide (outcome = "success") in
    let subject := "SITBank transfer limit change "
      +:+ (if succeeded then "successful" else "unsuccessful") in
    body <- (if succeeded then
       when <- match changed_at with Some t => ret t | None => now_utc end ;;
       let when_label := sgt_time (Some (Naive when)) +:+ " on " +:+ sgt_date (Some (Naive when)) in
       payup_changes <- lift (limit_change "PayUp" previous_payup_limit payup_limit when_label) ;;
       local_changes <- lift (limit_change "Local Transfer" previous_local_transfer_limit
                                local_transfer_limit when_label) ;;
       let changes := (payup_changes ++ local_changes)%list in
       let change_lines := match changes with
         | [] => ["As you instructed, we reviewed your daily transfer limit settings at "
                    +:+ when_label +:+ "."]
         | _ => changes
         end in
       ret (lines ([EMAIL_GREETING; ""] ++ change_lines
                     ++ [""; EMAIL_CLOSING; ""; EMAIL_SIGN_OFF])%list)
     else ret (lines [EMAIL_GREETING; "";
                      "Your recent daily transfer limit change request was unsuccessful."; "";
                      EMAIL_UNRECOGNIZED_ACTIVITY_NOTICE; ""; EMAIL_SIGN_OFF])) ;;
    _send_banking_email user_id subject body "banking_transfer_limit_notification"
      [("outcome", JStr outcome)].

Definition send_payee_add_processing_notification (user_id : Z) (nickname account_number : string)
    : M St unit :=
  account_ref <- lift (audit_reference "payee_account" account_number) ;;
  _send_banking_email user_id "SITBank payee request received"
    (lines ["Your request to add " +:+ nickname +:+ " as a payee is being processed.";
            "Account: " +:+ _masked_account_number account_number;
            "You will receive another email once this request is complete."])
    "payee_add_processing_notification" [("account_ref", jopt_str account_ref)].

Definition send_payee_add_result_notification (user_id : Z) (nickname account_number outcome : string)
    : M St unit :=
  let outcome := casefold (strip outcome) in
  if negb (str_in outcome ["success"; "cancelled"; "expired"])
  then raise (ValueError "Unsupported payee add result outcome")
  else
    let account := "Account: " +:+ _masked_account_number account_number in
    let '(subject, body) :=
      if bool_decide (outcome = "success") then
        ("SITBank payee added successfully",
         lines [nickname +:+ " has been added as a payee."; account;
                "A cooldown period applies before transfers to this payee become available."])
      else if bool_decide (outcome = "cancelled") then
        ("SITBank payee request canceled",
         lines ["You have canceled the request to add " +:+ nickname +:+ " as a payee."; account;
                "No payee was added. If you did not do this, contact SITBank support through the approved recovery path."])
      else
        ("SITBank payee request not completed",
         lines ["Your request to add " +:+ nickname
                  +:+ " as a payee expired before it was confirmed."; account;
                "No payee was added. You can start a new request at any time."]) in
    account_ref <- lift (audit_reference "payee_account" account_number) ;;
    _send_banking_email user_id subject body "payee_add_result_notification"
      [("outcome", JStr outcome); ("account_ref", jopt_str account_ref)].

(** [safe_send_notification(description, func, ...)]: [c] is the call.  Python
    evaluates the arguments before the guard; a caller that takes them from rows
    it has just used reads those rows again inside [c]. *)
Definition safe_send_notification (c : M St unit) : M St unit :=
  try_except c any_exn (λ _, ret tt).

Definition send_topup_deposit_notification (user_id amount : Z) (credit_ref : string)
    (occurred_at : option Z) : M St unit :=
  safe_send_notification
    (send_transfer_notification user_id "deposit" "success" TOPUP_CHANNEL
       (mkDetails (Some amount) (Some credit_ref) None None None None None occurred_at)).

(** A guarded notification always returns. *)
Lemma safe_send_returns c s : ∃ s', safe_send_notification c s = (Ok tt, s').
Proof.
  unfold safe_send_notification, try_except.
  destruct (c s) as [[[]|e] s1]; simpl; eauto.
Qed.

End Notifications.

(** ** Invariants that ignore the audit log

    [audit_blind P]: [P] survives an audit append, a commit and a rollback. *)

Class audit_blind (P : Db → Db → Prop) : Prop := {
  blind_rollback c w : P c w → P c c;
  blind_commit c w : P c w → P w w;
  blind_append e c w : P c w → P c (append_event e w)
}.
#[export] Hint Extern 0 (audit_blind _) => apply _ : pres.

Section Blind.
Context `{Env} (P : Db → Db → Prop) `{!audit_blind P}.

Lemma pres_rollback_blind : preserves (on_db P) rollback.
Proof. apply pres_rollback, blind_rollback. Qed.
Lemma pres_commit_blind : preserves (on_db P) commit.
Proof. apply pres_commit. intros. by eapply blind_commit. Qed.
Lemma pres_audit_blind ty out u md : preserves (on_db P) (audit_event ty out u md).
Proof.
  apply pres_audit_event; [apply blind_rollback | apply blind_commit | intros; by apply blind_append].
Qed.
Lemma pres_audit_write_blind ty out u md sid b : preserves (on_db P) (_audit_event ty out u md sid b).
Proof.
  apply pres_audit_write; [apply blind_rollback | apply blind_commit | intros; by apply blind_append].
Qed.
Lemma pres_audit_required_blind ty out u md :
  preserves (on_db P) (audit_event_required ty out u md).
Proof. apply pres_audit_event_required. intros; by apply blind_append. Qed.
Lemma pres_load_user u : preserves (on_db P) (load_user u).
Proof. apply pres_db_query. Qed.
Lemma pres_load_payee u : preserves (on_db P) (load_payee u).
Proof. apply pres_db_query. Qed.

Hint Resolve pres_rollback_blind pres_commit_blind pres_audit_blind pres_audit_write_blind pres_audit_required_blind
  pres_load_user pres_load_payee : pres.

Lemma pres_audit_banking_action a o u md r p i q :
  preserves (on_db P) (audit_banking_action a o u md r p i q).
Proof. unfold audit_banking_action. solve_pres. Qed.
Hint Resolve pres_audit_banking_action : pres.

Lemma pres_banking_allowed u a l : preserves (on_db P) (_ensure_banking_action_allowed u a l).
Proof. unfold _ensure_banking_action_allowed. solve_pres. Qed.

Lemma pres_send_banking_email u s b e md : preserves (on_db P) (_send_banking_email u s b e md).
Proof. unfold _send_banking_email. solve_pres. Qed.
Hint Resolve pres_send_banking_email : pres.

Lemma pres_transfer_notification u d o c td :
  preserves (on_db P) (send_transfer_notification u d o c td).
Proof. unfold send_transfer_notification. solve_pres. Qed.

Lemma pres_daily_limit_warning u c b a l :
  preserves (on_db P) (maybe_send_daily_limit_warning u c b a l).
Proof. unfold maybe_send_daily_limit_warning. solve_pres. Qed.

Lemma pres_limit_change_notification u o a b c d t :
  preserves (on_db P) (send_transfer_limit_change_notification u o a b c d t).
Proof. unfold send_transfer_limit_change_notification. solve_pres. Qed.

Lemma pres_payee_processing u n a :
  preserves (on_db P) (send_payee_add_processing_notification u n a).
Proof. unfold send_payee_add_processing_notification. solve_pres. Qed.

Lemma pres_payee_result u n a o :
  preserves (on_db P) (send_payee_add_result_notification u n a o).
Proof.
  unfold send_payee_add_result_notification. cbv zeta.
  repeat case_bool_decide; solve_pres.
Qed.

Lemma pres_safe c : preserves (on_db P) c → preserves (on_db P) (safe_send_notification c).
Proof. intros. unfold safe_send_notification. solve_pres. Qed.
End Blind.
#[export] Hint Resolve pres_rollback_blind pres_commit_blind pres_audit_blind pres_audit_write_blind
  pres_audit_required_blind pres_load_user pres_load_payee pres_audit_banking_action
  pres_banking_allowed pres_send_banking_email pres_transfer_notification
  pres_daily_limit_warning pres_limit_change_notification pres_payee_processing
  pres_payee_result pres_safe : pres.
End Notifications.
