(* ===== verification/Sessions.v ===== *)
(** * Server-side session records ([app/security/sessions.py])

    The rows of [server_side_sessions]: looking them up by keyed hash, ending
    and revoking them, the cap on active sessions, and the session-id rotation
    after an MFA step-up. *)

From S2P Require Import Prelude PyStr TimeModel Schema Runtime Sample Canonical Integrity.
From S2P Require Import AuditLog SessionRisk BankingPolicy Notifications.
From Stdlib Require Import Ascii.
Open Scope string_scope.
Open Scope Z_scope.

Module Sessions.
Import Audit SessionRisk.

Definition SESSION_END_REASON_LABELS : list (string * string) :=
  [("logout", "Logged out"); ("terminated", "Terminated"); ("revoked", "Revoked");
   ("expired", "Expired"); ("absolute_lifetime", "Session lifetime expired");
   ("risk_change", "Session context changed"); ("rotated", "Session refreshed");
   ("integrity_failure", "Session integrity failure");
   ("session_cap", "Replaced by a new sign-in"); ("password_change", "Password changed");
   ("password_reset", "Password reset"); ("manual_recovery", "Manual recovery completed");
   ("security_unlock", "Security lock cleared"); ("ended", "Ended")].

Definition _normalize_session_end_reason (value : string) : string :=
  match assoc value SESSION_END_REASON_LABELS with Some _ => value | None => "ended" end.

Definition put_session (id : Z) (r : ServerSideSession) : Db → Db :=
  upd_server_side_sessions (<[id := r]>).

(** A record whose columns the login form metadata fills in. *)
Definition set_metadata (user_id : option Z) (session_ref : option string) (ip agent risk : string)
    (created last_activity expires : Z) (r : ServerSideSession) : ServerSideSession :=
  mkServerSideSession (ss_component r) (ss_session_lookup_hash r) session_ref (ss_payload r)
    (ss_payload_format r) user_id created last_activity expires (ss_revoked_at r) (ss_ended_at r)
    (ss_ended_reason r) ip agent risk.

Definition end_record (session_ref reason : string) (now : Z) (r : ServerSideSession)
    : ServerSideSession :=
  mkServerSideSession (ss_component r) (ss_session_lookup_hash r) (Some session_ref) None
    (ss_payload_format r) (ss_user_id r) (ss_created_at r) (ss_last_activity_at r)
    (ss_expires_at r) (Some now) (Some now) (Some reason) (ss_ip_address r) (ss_user_agent r)
    (ss_risk_fingerprint r).

(** Neither revoked nor ended. *)
Definition is_open (r : ServerSideSession) : bool :=
  bool_decide (ss_revoked_at r = None) && bool_decide (ss_ended_at r = None).
Definition owned (component : string) (user_id : Z) (r : ServerSideSession) : bool :=
  bool_decide (ss_component r = component) && bool_decide (ss_user_id r = Some user_id).
Definition is_active (component : string) (user_id now : Z) (r : ServerSideSession) : bool :=
  owned component user_id r && is_open r && (now <? ss_expires_at r)
  && bool_decide (is_Some (ss_payload r)).
Definition is_stale (component : string) (user_id now : Z) (r : ServerSideSession) : bool :=
  owned component user_id r && is_open r && (ss_expires_at r <=? now).

(** [ORDER BY created_at DESC, id DESC]. *)
Definition newest_first (x y : Z * ServerSideSession) : bool :=
  (ss_created_at y.2 <? ss_created_at x.2)
  || ((ss_created_at x.2 =? ss_created_at y.2) && (y.1 <=? x.1)).

Section Sessions.
Context `{Env}.

Definition session_lookup_hash (session_id : string) : res string :=
  match session_lookup_hmac_key with
  | Some key => Ok (hmac_sha256_hex key session_id)
  | None => Raise (RuntimeError "SESSION_LOOKUP_HMAC_KEY must be configured as 32 bytes")
  end.

Definition _public_reference_from_lookup_hash (lookup_hash : string) : res string :=
  active_hmac_hex ("session-reference:" +:+ lookup_hash) 32.

Definition public_session_reference (session_id : option string) : res string :=
  match session_id with
  | Some s => if nonempty s then rbind (session_lookup_hash s) _public_reference_from_lookup_hash
              else Ok ""
  | None => Ok ""
  end.

Definition _session_component : string :=
  match config "APP_MODE" with Some v => if truthy v then py_str v else "customer"
  | None => "customer" end.

(** The record of a lookup hash: revoked ones first, then ended ones, then
    the newest id. *)
Definition record_before (x y : Z * ServerSideSession) : bool :=
  let rank (r : ServerSideSession) :=
    ((if ss_revoked_at r then 2 else 0) + (if ss_ended_at r then 1 else 0))%Z in
  (rank y.2 <? rank x.2) || ((rank x.2 =? rank y.2) && (y.1 <=? x.1)).

Definition _session_record_for_lookup_hash (lookup_hash : string)
    : M St (option (Z * ServerSideSession)) :=
  db_get (λ d, head (sort_by record_before (rows_where
    (λ r, bool_decide (ss_component r = _session_component)
          && bool_decide (ss_session_lookup_hash r = lookup_hash)) (server_side_sessions d)))).

Definition _session_record_for_sid (session_id : string) : M St (option (Z * ServerSideSession)) :=
  hash <- lift (session_lookup_hash session_id) ;; _session_record_for_lookup_hash hash.

Definition _current_session_record : M St (option (Z * ServerSideSession)) :=
  sid <- current_session_id ;;
  match sid with
  | Some s => if nonempty s then _session_record_for_sid s else ret None
  | None => ret None
  end.

Definition _session_expires_at (now : Z) : res Z :=
  rbind (config_int "SESSION_INACTIVITY_SECONDS") (λ s, Ok (now + s * US_SECOND)).

Definition _end_session_record (id : Z) (record : ServerSideSession) (ended_reason : string)
    (now : Z) : M St unit :=
  if bool_decide (is_Some (ss_ended_at record)) then ret tt
  else
    ref <- match ss_session_ref record with
           | Some r => if nonempty r then ret r
                       else lift (_public_reference_from_lookup_hash (ss_session_lookup_hash record))
           | None => lift (_public_reference_from_lookup_hash (ss_session_lookup_hash record))
           end ;;
    db_write (put_session id
      (end_record ref (_normalize_session_end_reason ended_reason) now record)).

Definition _end_session_id (session_id ended_reason : string) : M St unit :=
  record <- _session_record_for_sid session_id ;;
  match record with
  | Some (id, r) => now <- now_utc ;; _end_session_record id r ended_reason now
  | None => ret tt
  end.

Definition _expire_stale_sessions (user_id now : Z) : M St unit :=
  stale <- db_get (λ d, rows_where (is_stale _session_component user_id now)
                          (server_side_sessions d)) ;;
  mapM_ (λ '(id, r), _end_session_record id r "expired" now) stale.

Definition _active_session_records (user_id : Z) (component : option string)
    : M St (list (Z * ServerSideSession)) :=
  now <- now_utc ;;
  let session_component := Policy.str_or component _session_component in
  records <- db_get (λ d, sort_by newest_first
    (rows_where (is_active session_component user_id now) (server_side_sessions d))) ;;
  _ <- _expire_stale_sessions user_id now ;;
  ret records.

(** Ends each record with a fresh timestamp. *)
Definition end_each (ended_reason : string) (records : list (Z * ServerSideSession)) : M St unit :=
  mapM_ (λ '(id, r), now <- now_utc ;; _end_session_record id r ended_reason now) records.

Definition revoke_all_sessions (user_id : Z) (ended_reason : string) (component : option string)
    : M St Z :=
  records <- _active_session_records user_id component ;;
  _ <- end_each ended_reason records ;;
  ret (Z.of_nat (length records)).

Definition current_lookup_hash : M St string :=
  sid <- current_session_id ;;
  match sid with
  | Some s => if nonempty s then lift (session_lookup_hash s) else ret ""
  | None => ret ""
  end.

Definition revoke_other_sessions (user_id : Z) (ended_reason : string) : M St Z :=
  hash <- current_lookup_hash ;;
  records <- _active_session_records user_id None ;;
  let others := List.filter
    (λ kv : Z * ServerSideSession, negb (bool_decide (ss_session_lookup_hash kv.2 = hash))) records in
  _ <- end_each ended_reason others ;;
  ret (Z.of_nat (length others)).

(** [_session_row_from_identifier]. *)
Definition _session_row_from_identifier (identifier : string)
    : M St (option (Z * ServerSideSession)) :=
  if startswith "lookup:" identifier
  then _session_record_for_lookup_hash (of_chars (skipn 7 (chars identifier)))
  else _session_record_for_sid identifier.

Definition revoke_session (session_id : string) (user_id : option Z) (ended_reason : string)
    : M St unit :=
  found <- _session_row_from_identifier session_id ;;
  match found with
  | None => ret tt
  | Some (id, r) =>
      if match user_id, ss_user_id r with
         | Some u, Some owner => negb (u =? owner)
         | _, _ => false
         end
      then ret tt
      else now <- now_utc ;; _end_session_record id r ended_reason now
  end.

Definition _session_user_id : M St (option Z) :=
  a <- session_get "user_id" ;;
  b <- session_get "pending_mfa_user_id" ;;
  let v := if otruthy a then a else b in
  ret (if otruthy v then match py_int v with Ok z => Some z | Raise _ => None end else None).

Definition revoke_current_session (ended_reason : string) : M St unit :=
  sid <- current_session_id ;;
  a <- session_get "user_id" ;;
  b <- session_get "pending_mfa_user_id" ;;
  let v := if otruthy a then a else b in
  _ <- match sid with
       | Some s =>
           if nonempty s then
             uid <- (if otruthy v then z <- lift (py_int v) ;; ret (Some z) else ret None) ;;
             revoke_session s uid ended_reason
           else ret tt
       | None => ret tt
       end ;;
  session_clear.

Definition _configured_active_session_cap : Z := 1.

(** The current session first, then by age. *)
Definition cap_order (hash : string) (x y : Z * ServerSideSession) : bool :=
  let other (r : ServerSideSession) := if bool_decide (ss_session_lookup_hash r = hash) then 0 else 1 in
  (other x.2 <? other y.2)
  || ((other x.2 =? other y.2)
      && ((ss_created_at x.2 <? ss_created_at y.2)
          || ((ss_created_at x.2 =? ss_created_at y.2) && (x.1 <=? y.1)))).

Definition enforce_active_session_cap (user_id : Z) : M St Z :=
  let max_active_sessions := _configured_active_session_cap in
  hash <- current_lookup_hash ;;
  now <- now_utc ;;
  records <- _active_session_records user_id None ;;
  current <- _current_session_record ;;
  let records :=
    match current with
    | Some (id, r) =>
        if bool_decide (ss_user_id r = Some user_id) && is_open r
           && negb (bool_decide (id ∈ records.*1))
        then (records ++ [(id, r)])%list else records
    | None => records
    end in
  let ordered := sort_by (cap_order hash) records in
  let excess := skipn (Z.to_nat max_active_sessions) ordered in
  _ <- mapM_ (λ '(id, r), _end_session_record id r "session_cap" now) excess ;;
  _ <- (match excess with [] => ret tt | _ => commit end) ;;
  ret (Z.of_nat (length excess)).

(** ** The Flask session *)

Definition rotate_session_id : M St unit :=
  dict <- gets session ;;
  if bool_decide (dict = ∅) then ret tt
  else
    sid <- gets session_sid ;;
    _ <- match sid with
         | Some s => if nonempty s then _end_session_id s "rotated" else ret tt
         | None => ret tt
         end ;;
    new <- fresh uuid4 ;;
    modify (set_session_sid (Some new)).

Definition utc_now_iso : M St string := now <- now_utc ;; ret (iso_auto now +:+ "+00:00").

Definition mark_fresh_mfa : M St unit :=
  now <- _now ;;
  _ <- session_put "mfa_verified_at" (JInt now) ;;
  _ <- session_put "fresh_mfa_verified_at" (JInt now) ;;
  session_put "last_activity_at" (JInt now).

Definition has_recent_fresh_mfa : M St bool :=
  v <- session_get "fresh_mfa_verified_at" ;;
  verified_at <- lift (if otruthy v then py_int v else Ok 0) ;;
  if verified_at =? 0 then ret false
  else
    now <- _now ;;
    limit <- lift (config_number "FRESH_MFA_SECONDS") ;;
    ret (now - verified_at <=? limit).

Definition refresh_session_risk_fingerprint : M St unit :=
  sid <- current_session_id ;;
  if negb (nonempty (Policy.or_empty sid)) then ret tt
  else
    fingerprint <- current_session_risk_fingerprint ;;
    _ <- session_put SESSION_RISK_FINGERPRINT_KEY (JStr fingerprint) ;;
    context <- _current_session_risk_context ;;
    _ <- session_put SESSION_RISK_CONTEXT_KEY context ;;
    _ <- session_pop SESSION_RISK_REAUTH_REQUIRED_KEY ;;
    record <- _current_session_record ;;
    match record with
    | Some (id, r) => db_write (put_session id (set_ss_risk_fingerprint fingerprint r))
    | None => ret tt
    end.

Definition register_session_metadata (user_id : Z) (login_time : string) : M St unit :=
  sid <- current_session_id ;;
  match sid with
  | None => ret tt
  | Some s =>
      if negb (nonempty s) then ret tt
      else
        found <- _current_session_record ;;
        now <- now_utc ;;
        expires <- lift (_session_expires_at now) ;;
        let* (id, record) :=
          match found with
          | Some kv => ret kv
          | None =>
              hash <- lift (session_lookup_hash s) ;;
              id <- db_get (λ d, next_id (server_side_sessions d)) ;;
              ret (id, mkServerSideSession _session_component hash None None "session-hmac-v2" None
                         now now expires None None None "" "" "")
          end in
        ref <- lift (public_session_reference sid) ;;
        risk <- session_get SESSION_RISK_FINGERPRINT_KEY ;;
        let agent := str_take 256 request_user_agent in
        db_write (put_session id (set_metadata (Some user_id) (Some ref)
          (Policy.str_or request_remote_addr (ss_ip_address record))
          (if nonempty agent then agent
           else if nonempty (ss_user_agent record) then ss_user_agent record else "unknown")
          (match risk with Some v => if truthy v then py_str v else "" | None => "" end)
          (default now (datetime_fromisoformat login_time)) now expires record))
  end.

Definition rotate_authenticated_session_after_mfa (user_id : Z) : M St string :=
  stored <- session_get "login_at" ;;
  login_time <- match stored with
                | Some v => if truthy v then ret (py_str v) else utc_now_iso
                | None => utc_now_iso
                end ;;
  _ <- mark_fresh_mfa ;;
  _ <- rotate_session_id ;;
  _ <- refresh_session_risk_fingerprint ;;
  _ <- register_session_metadata user_id login_time ;;
  sid <- current_session_id ;;
  ret (Policy.or_empty sid).

Definition _mark_session_risk_reauthentication_required : M St unit :=
  session_put SESSION_RISK_REAUTH_REQUIRED_KEY (JBool true).

Definition _raise_session_risk_reauthentication {A} (action : string) (audit : bool) : M St A :=
  _ <- (if audit then
          uid <- _session_user_id ;;
          audit_event "session_risk" "step_up_required" uid [("action", JStr action)]
        else ret tt) ;;
  raise (AuthError "Session verification required. Please sign in again." 401 None).

Definition require_stable_session_for_sensitive_action (action : string) : M St unit :=
  sid <- current_session_id ;;
  if negb (nonempty (Policy.or_empty sid)) then ret tt
  else
    reauth <- session_get SESSION_RISK_REAUTH_REQUIRED_KEY ;;
    _ <- (if otruthy reauth then _raise_session_risk_reauthentication action false else ret tt) ;;
    current <- current_session_risk_fingerprint ;;
    stored <- session_get SESSION_RISK_FINGERPRINT_KEY ;;
    match stored with
    | Some v =>
        if negb (truthy v) then refresh_session_risk_fingerprint
        else if bool_decide (py_str v = current) then ret tt
        else
          message <- _current_session_risk_message ;;
          same <- lift (matches_hmac (py_str v) message 32) ;;
          if (same : bool) then refresh_session_risk_fingerprint
          else
            _ <- _mark_session_risk_reauthentication_required ;;
            _raise_session_risk_reauthentication action true
    | None => refresh_session_risk_fingerprint
    end.


(** ** Revocation *)

Definition session_row (s : St) (id : Z) : option ServerSideSession :=
  server_side_sessions (working s) !! id.
Definition ended (r : ServerSideSession) : Prop := is_Some (ss_ended_at r).

(** Every row of [s'] is ended, or was there before and is none of [ids]. *)
Definition only_ends (ids : list Z) (s s' : St) : Prop :=
  ∀ id r, session_row s' id = Some r → ended r ∨ (session_row s id = Some r ∧ id ∉ ids).

Lemma only_ends_trans ids1 ids2 s1 s2 s3 :
  only_ends ids1 s1 s2 → only_ends ids2 s2 s3 → only_ends (ids1 ++ ids2) s1 s3.
Proof.
  intros H12 H23 id r Hr. destruct (H23 id r Hr) as [|[H2 Hn]]; [by left|].
  destruct (H12 id r H2) as [|[H1 Hn1]]; [by left|]. right. set_solver.
Qed.

Lemma end_record_step id r reason now s u s' :
  is_open r = true → _end_session_record id r reason now s = (Ok u, s') → only_ends [id] s s'.
Proof.
  unfold is_open. rewrite andb_true_iff, !bool_decide_eq_true. intros [_ Ho] E.
  unfold _end_session_record in E. rewrite bool_decide_eq_false_2 in E by (rewrite Ho; by intros [? ?]).
  inv_bind E. assert (s0 = s) as ->.
  { destruct (ss_session_ref r) as [ref|]; [destruct (nonempty ref)|]; unfold ret, lift in E0;
      by simplify_eq. }
  unfold db_write, modify in E. simplify_eq. intros j r'. unfold session_row. simpl.
  rewrite lookup_insert. case_decide; [intros [= <-]; left; eexists; reflexivity|].
  intros Hj. right. set_solver.
Qed.

Lemma end_list_step (f : Z * ServerSideSession → M St unit) l s u s' :
  (∀ x s1 u s2, x ∈ l → f x s1 = (Ok u, s2) → only_ends [x.1] s1 s2) →
  mapM_ f l s = (Ok u, s') → only_ends l.*1 s s'.
Proof.
  revert s. induction l as [|x l IH]; intros s Hf E; simpl in E.
  - unfold ret in E. simplify_eq. intros id r Hr. right. set_solver.
  - inv_bind E. change (x :: l).*1 with ([x.1] ++ l.*1)%list. eapply only_ends_trans.
    + eapply Hf; [left | done].
    + eapply IH; [|done]. intros. eapply Hf; [by right | done].
Qed.

Lemma end_list_clock reason now l s u s' :
  mapM_ (λ '(id, r), _end_session_record id r reason now) l s = (Ok u, s') → clock s' = clock s.
Proof.
  intros E. assert (preserves (λ x, clock x = clock s)
    (mapM_ (λ '(id, r), _end_session_record id r reason now) l)) as Hp.
  { apply pres_mapM. intros [id r]. unfold _end_session_record. solve_pres. all: by intros x Hx. }
  specialize (Hp s eq_refl). by rewrite E in Hp.
Qed.

(** The records the sweep returns were the active ones; stale ones are ended. *)
Lemma active_records_spec user component s records s' :
  _active_session_records user component s = (Ok records, s') →
  let now := clock (now_utc s).2 in
  only_ends [] s s' ∧ clock s' = now ∧
  (∀ id r, (id, r) ∈ records ↔
     session_row s id = Some r
     ∧ is_active (Policy.str_or component _session_component) user now r = true).
Proof.
  intros E now. unfold _active_session_records in E. inv_bind E.
  injection E0 as <- <-. inv_bind E. unfold db_get, gets in E0. simplify_eq. inv_bind E.
  unfold ret in E. simplify_eq. unfold _expire_stale_sessions in E0. inv_bind E0.
  unfold db_get, gets in E. simplify_eq.
  assert (only_ends (rows_where (is_stale _session_component user now)
    (server_side_sessions (working s))).*1 (now_utc s).2 s') as Ho.
  { eapply end_list_step; [|exact E0]. intros [id r] s1 u s2 Hin E.
    eapply end_record_step; [|exact E]. apply rows_where_spec in Hin as [_ Hin].
    unfold is_stale in Hin. rewrite !andb_true_iff in Hin. tauto. }
  split_and!.
  - intros id r Hr. destruct (Ho id r Hr) as [|[Hs _]]; [by left|]. right. set_solver.
  - by apply end_list_clock in E0.
  - intros id r. rewrite sort_by_perm, rows_where_spec. done.
Qed.

Lemma revoke_component_none user reason component s n s' :
  revoke_all_sessions user reason component s = (Ok n, s') →
  ∀ id r now, session_row s' id = Some r → clock s' ≤ now →
    is_active (Policy.str_or component _session_component) user now r = false.
Proof.
  intros E id r now Hr Hnow. unfold revoke_all_sessions in E. inv_bind E. rename E0 into Ea.
  inv_bind E. unfold ret in E. simplify_eq.
  destruct (active_records_spec _ _ _ _ _ Ea) as (Ho1 & Hc & Hspec).
  assert (only_ends a.*1 s0 s') as Ho2.
  { eapply end_list_step; [|exact E0]. intros [i x] s1 u s2 Hin E. inv_bind E.
    unfold now_utc in E1. injection E1 as <- <-.
    assert (is_open x = true) as Hx.
    { apply Hspec in Hin as [_ Hin]. unfold is_active in Hin. rewrite !andb_true_iff in Hin. tauto. }
    intros j y Hj. destruct (end_record_step _ _ _ _ _ _ _ Hx E j y Hj); auto. }
  apply not_true_is_false. intros Hact.
  assert (¬ ended r) as Hne.
  { unfold is_active, is_open in Hact. rewrite !andb_true_iff, !bool_decide_eq_true in Hact.
    intros [x Hx]. destruct Hact as [[[_ [_ Hn]] _] _]. congruence. }
  destruct (Ho2 id r Hr) as [|[Hr0 Hn]]; [done|]. destruct (Ho1 id r Hr0) as [|[Hrs _]]; [done|].
  apply Hn, list_elem_of_fmap. exists (id, r). split; [done|]. apply Hspec. split; [done|].
  assert (clock s0 ≤ clock s') as Hclk.
  { assert (preserves (not_before (clock s0)) (end_each reason a)) as Hp.
    { apply pres_mapM. intros [i x]. unfold _end_session_record. solve_pres. all: by intros y Hy. }
    specialize (Hp s0 (Z.le_refl _)). by rewrite E0 in Hp. }
  unfold is_active in *. rewrite !andb_true_iff, Z.ltb_lt in *. rewrite <- Hc.
  destruct Hact as [[? Hlt] ?]. split_and!; try tauto. lia.
Qed.

Lemma revoke_all_none user reason s n s' :
  revoke_all_sessions user reason None s = (Ok n, s') →
  ∀ id r now, session_row s' id = Some r → clock s' ≤ now →
    is_active _session_component user now r = false.
Proof. exact (revoke_component_none user reason None s n s'). Qed.

(** With a session key configured, ending a record cannot fail. *)
Lemma end_record_total key id r reason now :
  _active_key = Ok key → total (_end_session_record id r reason now).
Proof.
  intros Hk s. unfold _end_session_record, _public_reference_from_lookup_hash, active_hmac_hex.
  rewrite Hk. repeat case_match; unfold bind, lift, ret, db_write, modify; simpl; eauto.
Qed.

Lemma revoke_all_total key user reason component :
  _active_key = Ok key → total (revoke_all_sessions user reason component).
Proof.
  intros Hk. unfold revoke_all_sessions, _active_session_records, _expire_stale_sessions, end_each.
  repeat (apply total_bind; [|intros ?]); try apply total_ret; try apply total_mapM; try done.
  all: try (intros s; by eexists _, _); intros [id r].
  - eauto using end_record_total.
  - apply total_bind; [intros s; by eexists _, _|]. eauto using end_record_total.
Qed.

(** Revocation is complete.  With a session HMAC key configured,
    [revoke_all_sessions] returns, and then the session view holds no active
    session of the user for this component, now or at any later time. *)
Theorem revoke_all_leaves_none key user reason s :
  _active_key = Ok key →
  ∃ n s', revoke_all_sessions user reason None s = (Ok n, s') ∧
    ∀ id r now, session_row s' id = Some r → clock s' ≤ now →
      is_active _session_component user now r = false.
Proof.
  intros Hk. destruct (revoke_all_total key user reason None Hk s) as (n & s' & E).
  exists n, s'. split; [done|]. by eapply revoke_all_none.
Qed.
End Sessions.

(** ** Frame: session records are invisible to an invariant that ignores them *)

Section Frame.
Context `{Env} (P : Db → Db → Prop) `{!Notifications.audit_blind P}.
Context (session_blind : ∀ f c w, P c w → P c (upd_server_side_sessions f w)).

Lemma pres_put_session id r : preserves (on_db P) (db_write (put_session id r)).
Proof using session_blind. apply pres_db_write. intros. by apply session_blind. Qed.
Hint Resolve pres_put_session Notifications.pres_commit_blind Notifications.pres_audit_blind : pres.

Lemma pres_end_record id r reason now : preserves (on_db P) (_end_session_record id r reason now).
Proof using session_blind. unfold _end_session_record. solve_pres. Qed.
Hint Resolve pres_end_record : pres.
Lemma pres_revoke_all u reason comp : preserves (on_db P) (revoke_all_sessions u reason comp).
Proof using session_blind.
  unfold revoke_all_sessions, _active_session_records, _expire_stale_sessions, end_each. solve_pres.
Qed.
Lemma pres_record_for_sid sid : preserves (on_db P) (_session_record_for_sid sid).
Proof. unfold _session_record_for_sid, _session_record_for_lookup_hash. solve_pres. Qed.
Hint Resolve pres_record_for_sid : pres.
Lemma pres_current_record : preserves (on_db P) _current_session_record.
Proof. unfold _current_session_record. solve_pres. Qed.
Hint Resolve pres_current_record : pres.
Lemma pres_mark_fresh : preserves (on_db P) mark_fresh_mfa.
Proof. unfold mark_fresh_mfa, _now. solve_pres. Qed.
Hint Resolve pres_mark_fresh : pres.
Lemma pres_risk_message : preserves (on_db P) _current_session_risk_message.
Proof. unfold _current_session_risk_message. solve_pres. Qed.
Hint Resolve pres_risk_message : pres.
Lemma pres_refresh_risk : preserves (on_db P) refresh_session_risk_fingerprint.
Proof using session_blind.
  unfold refresh_session_risk_fingerprint, current_session_risk_fingerprint,
    _current_session_risk_context, _now. solve_pres.
Qed.
Hint Resolve pres_refresh_risk : pres.
Lemma pres_rotate u : preserves (on_db P) (rotate_authenticated_session_after_mfa u).
Proof using session_blind.
  unfold rotate_authenticated_session_after_mfa, rotate_session_id, register_session_metadata,
    _end_session_id, utc_now_iso. solve_pres.
Qed.
Lemma pres_require_stable a :
  preserves (on_db P) (require_stable_session_for_sensitive_action a).
Proof using All.
  unfold require_stable_session_for_sensitive_action, current_session_risk_fingerprint,
    _raise_session_risk_reauthentication, _mark_session_risk_reauthentication_required,
    _session_user_id. solve_pres.
Qed.
End Frame.

#[local] Existing Instance Sample.sample_env.

Lemma revoke_all_witness :
  (revoke_all_sessions 1 "terminated" None Sample.sample_state).1 = Ok 1
  ∧ ∃ n s', revoke_all_sessions 1 "terminated" None Sample.sample_state = (Ok n, s') ∧
      ∀ id r now, session_row s' id = Some r → clock s' ≤ now →
        is_active _session_component 1 now r = false.
Proof.
  split; [vm_compute; reflexivity|].
  apply (revoke_all_leaves_none (Sample.key32 "s"%char)). reflexivity.
Defined.
End Sessions.
