(* ===== verification/SessionStore.v ===== *)
(** * The session store ([app/security/sessions.py])

    The Flask session interface over [server_side_sessions]: opening the session
    a cookie names, saving it signed and bound to its row, the hook that runs
    before every request, and the two ways a session becomes authenticated.

    The session object is the [session] and [session_sid] of the request state;
    its [modified] flag is an argument of [save_session].  How a refusal is
    rendered (JSON or a redirect) is left out. *)

From S2P Require Import Prelude PyStr IpAddress TimeModel Schema Runtime Sample Canonical Json Integrity.
From S2P Require Import SessionPayload AuditLog SessionRisk BankingPolicy Notifications Sessions.
From Stdlib Require Import Ascii.
Open Scope string_scope.
Open Scope Z_scope.

Module SessionStore.
Import SessionHmac SessionPayload Audit SessionRisk Policy Notifications Sessions TimeDisplay.

Definition SESSION_PAYLOAD_FORMAT : string := "session-hmac-v2".
Definition SESSION_HISTORY_LIMIT_DEFAULT : Z := 20.
Definition ACTIVITY_EXEMPT_ENDPOINTS : list string := ["auth.session_status"].
Definition ACTIVITY_EXEMPT_PATHS : list string := ["/auth/session/status"].
Definition ADMIN_LOGIN_ENDPOINT : string := "admin.login_form".
Definition WEB_LOGIN_ENDPOINT : string := "web.login".

Definition is_payload_integrity_error (e : exn) : bool :=
  match e with SessionPayloadIntegrityError _ => true | _ => false end.
Definition payload_failure_reason (e : exn) : string :=
  match e with SessionPayloadIntegrityError reason => reason | _ => "malformed_payload" end.

(** What [save_session] tells the browser. *)
Inductive CookieAction : Type :=
  | LeaveCookie
  | DeleteCookie
  | SetCookie (sid : string).

(** How the hook before a request answers it. *)
Inductive HookResponse : Type :=
  | Proceed
  | SessionExpired (message : string)
  | SessionRevoked
  | MfaChallengeExpired.

Definition set_last_activity (now : Z) (r : ServerSideSession) : ServerSideSession :=
  set_metadata (ss_user_id r) (ss_session_ref r) (ss_ip_address r) (ss_user_agent r)
    (ss_risk_fingerprint r) (ss_created_at r) now (ss_expires_at r) r.

Section SessionStore.
Context `{Env}.

Definition is_session_activity_exempt : bool :=
  has_request_context
  && (str_in request_endpoint ACTIVITY_EXEMPT_ENDPOINTS || str_in request_path ACTIVITY_EXEMPT_PATHS).

Definition _payload_binding_context (lookup_hash : string) : string :=
  "db-session:" +:+ _session_component +:+ ":" +:+ lookup_hash.

Definition _commit_quietly : M St unit :=
  try_except commit any_exn
    (λ e, _ <- rollback ;; if bool_decide (e = IntegrityError) then ret tt else raise e).

(** ** Opening *)

(** [self.session_class(sid=_new_session_id(), new=True)]. *)
Definition new_session : M St unit :=
  sid <- fresh uuid4 ;;
  _ <- modify (set_session ∅) ;;
  modify (set_session_sid (Some sid)).

Definition _handle_integrity_failure (id : Z) (record : ServerSideSession) (reason : string)
    : M St unit :=
  now <- now_utc ;;
  store_ref <- lift (active_hmac_hex ("session-store:" +:+ ss_session_lookup_hash record) 16) ;;
  _ <- _end_session_record id record "integrity_failure" now ;;
  try_except
    (_audit_event "session_integrity" "failure" None
       [("reason", JStr reason); ("store_ref", JStr store_ref)] (Some store_ref) false)
    any_exn (λ _, _commit_quietly).

(** The session data of a signed payload. *)
Definition decode_payload (record : ServerSideSession) (payload : string)
    : res (list (string * jval)) :=
  rbind (verify_session_payload payload
           (_payload_binding_context (ss_session_lookup_hash record))) (λ text,
  rbind (session_json_loads text) (λ decoded,
    match decoded with
    | JObj kvs => Ok kvs
    | _ => Raise (ValueError "Session payload must decode to an object")
    end)).

(** [open_session]; returns the reason stashed when the session was replaced. *)
Definition open_session : M St (option string) :=
  cookie_name <- lift (config_item "SESSION_COOKIE_NAME") ;;
  let start {A} (a : A) := _ <- new_session ;; ret a in
  match request_cookie (py_str cookie_name) with
  | None => start None
  | Some session_id =>
      if negb (nonempty session_id) then start None
      else
        found <- _session_record_for_sid session_id ;;
        match found with
        | None => start None
        | Some (id, record) =>
            now <- now_utc ;;
            if bool_decide (is_Some (ss_revoked_at record)) then start (ss_ended_reason record)
            else if ss_expires_at record <=? now then
              _ <- _end_session_record id record "expired" now ;;
              _ <- _commit_quietly ;; start None
            else
              match ss_payload record with
              | None | Some "" =>
                  _ <- _end_session_record id record "ended" now ;;
                  _ <- _commit_quietly ;; start None
              | Some payload =>
                  match decode_payload record payload with
                  | Raise e =>
                      _ <- _handle_integrity_failure id record (payload_failure_reason e) ;;
                      start None
                  | Ok session_data =>
                      _ <- (if is_session_activity_exempt then ret tt
                            else db_write (put_session id (set_last_activity now record))) ;;
                      _ <- modify (set_session (list_to_map session_data)) ;;
                      _ <- modify (set_session_sid (Some session_id)) ;;
                      ret None
                  end
              end
        end
  end.

(** ** Saving *)

(** The row after [save_session]. *)
Definition saved_record (payload session_ref : string) (user_id : option Z) (now expires_at : Z)
    (risk : string) (r : ServerSideSession) : ServerSideSession :=
  let agent := str_take 256 request_user_agent in
  mkServerSideSession (ss_component r) (ss_session_lookup_hash r) (Some session_ref) (Some payload)
    SESSION_PAYLOAD_FORMAT user_id (ss_created_at r)
    (if is_session_activity_exempt then ss_last_activity_at r else now)
    (if is_session_activity_exempt then ss_expires_at r else expires_at)
    None None None
    (str_or request_remote_addr (ss_ip_address r))
    (if nonempty agent then agent
     else if nonempty (ss_user_agent r) then ss_user_agent r else "unknown") risk.

Definition save_session (modified : bool) : M St CookieAction :=
  dict <- gets session ;;
  sid <- gets session_sid ;;
  let sid := or_empty sid in
  if bool_decide (dict = ∅) then
    if modified then
      _ <- _end_session_id sid "ended" ;;
      _ <- _commit_quietly ;;
      ret DeleteCookie
    else ret LeaveCookie
  else
    _ <- session_put "_permanent" (JBool true) ;;
    now <- now_utc ;;
    expires_at <- lift (_session_expires_at now) ;;
    lookup_hash <- lift (session_lookup_hash sid) ;;
    session_data <- gets (λ s, map_to_list (session s)) ;;
    signed_payload <- lift (sign_session_payload (session_json_dumps session_data)
                              (_payload_binding_context lookup_hash)) ;;
    user_id <- _session_user_id ;;
    found <- _session_record_for_lookup_hash lookup_hash ;;
    fresh_id <- db_get (λ d, next_id (server_side_sessions d)) ;;
    let '(id, record) := default (fresh_id,
      mkServerSideSession _session_component lookup_hash None None SESSION_PAYLOAD_FORMAT None now now
        expires_at None None None "" "" "") found in
    session_ref <- lift (_public_reference_from_lookup_hash lookup_hash) ;;
    risk <- session_get SESSION_RISK_FINGERPRINT_KEY ;;
    _ <- db_write (put_session id (saved_record signed_payload session_ref user_id now expires_at
           (match risk with Some v => if truthy v then py_str v else "" | None => "" end) record)) ;;
    _ <- _commit_quietly ;;
    ret (SetCookie sid).

(** ** Becoming authenticated *)

Definition begin_password_authenticated_session (user_id : Z) : M St unit :=
  _ <- session_clear ;;
  _ <- session_put "_permanent" (JBool true) ;;
  _ <- session_put "pending_mfa_user_id" (JInt user_id) ;;
  authenticated_at <- _now ;;
  _ <- session_put "password_authenticated_at" (JInt authenticated_at) ;;
  active_at <- _now ;;
  _ <- session_put "last_activity_at" (JInt active_at) ;;
  rotate_session_id.

Definition establish_authenticated_session (user_id : Z) (mfa_verified : bool)
    (auth_context : string) : M St string :=
  login_time <- utc_now_iso ;;
  now <- _now ;;
  _ <- session_clear ;;
  _ <- session_put "_permanent" (JBool true) ;;
  _ <- session_put "user_id" (JInt user_id) ;;
  _ <- session_put "auth_context" (JStr auth_context) ;;
  _ <- session_put "login_at" (JStr login_time) ;;
  _ <- session_put AUTH_CREATED_AT_KEY (JInt now) ;;
  _ <- session_put "last_activity_at" (JInt now) ;;
  _ <- (if mfa_verified then
          _ <- session_put "mfa_verified_at" (JInt now) ;;
          session_put "fresh_mfa_verified_at" (JInt now)
        else ret tt) ;;
  _ <- rotate_session_id ;;
  _ <- refresh_session_risk_fingerprint ;;
  _ <- register_session_metadata user_id login_time ;;
  _ <- enforce_active_session_cap user_id ;;
  sid <- current_session_id ;;
  ret (or_empty sid).
(** ** The hook before a request *)

Definition _login_endpoint : string :=
  if match config "APP_MODE" with Some (JStr m) => bool_decide (m = "admin") | _ => false end
  then ADMIN_LOGIN_ENDPOINT else WEB_LOGIN_ENDPOINT.

Definition public_endpoints : list string :=
  [_login_endpoint; "admin.login"; "main.index"; WEB_LOGIN_ENDPOINT; "web.login_submit";
   "web.register_form"; "web.register_submit"].

Definition update_session_activity : M St unit :=
  sid <- current_session_id ;;
  user_id <- session_get "user_id" ;;
  if negb (nonempty (or_empty sid)) || negb (otruthy user_id) then ret tt
  else
    found <- _current_session_record ;;
    match found with
    | None => ret tt
    | Some (id, record) =>
        now <- now_utc ;;
        expires_at <- lift (_session_expires_at now) ;;
        uid <- lift (py_int user_id) ;;
        ref <- lift (public_session_reference sid) ;;
        risk <- session_get SESSION_RISK_FINGERPRINT_KEY ;;
        db_write (put_session id (set_metadata (Some uid) (Some ref) (ss_ip_address record)
          (ss_user_agent record)
          (match risk with Some v => if truthy v then py_str v else "" | None => "" end)
          (ss_created_at record) now expires_at record))
    end.

Definition enforce_authenticated_session_context : M St HookResponse :=
  signed_in <- is_signed_in ;;
  if negb (signed_in : bool) then ret Proceed
  else
    changes <- _session_risk_context_changes ;;
    let severity := _session_risk_severity changes in
    if bool_decide (severity = "stable") then
      stored <- session_get SESSION_RISK_CONTEXT_KEY ;;
      _ <- match stored with
           | Some (JObj _) => _touch_session_risk_context
           | _ => _store_current_session_risk_context false
           end ;;
      ret Proceed
    else
      let metadata := [("app_mode", JStr _session_component); ("severity", JStr severity);
                       ("signals", JList (JStr <$> sort_by str_leb changes))] in
      uid <- _session_user_id ;;
      if bool_decide (severity = "low") then
        _ <- audit_event "session_risk" "changed" uid metadata ;;
        _ <- _store_current_session_risk_context true ;;
        ret Proceed
      else if bool_decide (severity = "medium") then
        reauth <- session_get SESSION_RISK_REAUTH_REQUIRED_KEY ;;
        _ <- (if otruthy reauth then ret tt
              else audit_event "session_risk" "reauth_required" uid metadata) ;;
        _ <- _mark_session_risk_reauthentication_required ;;
        _ <- _touch_session_risk_context ;;
        ret Proceed
      else
        _ <- audit_event "session_risk" "revoked" uid metadata ;;
        _ <- revoke_current_session "risk_change" ;;
        ret (SessionExpired "Session verification required").

Definition _revoked_session_response_if_required : M St HookResponse :=
  sid <- current_session_id ;;
  dict <- gets session ;;
  if negb (nonempty (or_empty sid)) || bool_decide (dict = ∅) then ret Proceed
  else
    found <- _session_record_for_sid (or_empty sid) ;;
    match found with
    | Some (_, record) =>
        if bool_decide (is_Some (ss_revoked_at record)) then
          _ <- session_clear ;;
          if str_in request_endpoint public_endpoints then ret Proceed else ret SessionRevoked
        else ret Proceed
    | None => ret Proceed
    end.

(** [flash(message, category)]. *)
Definition flash (message category : string) : M St unit :=
  stored <- session_get "_flashes" ;;
  let flashes := match stored with Some (JList l) => l | _ => [] end in
  session_put "_flashes" (JList (flashes ++ [JList [JStr category; JStr message]])).

Definition _pending_mfa_expiry_response (now : Z) : M St HookResponse :=
  pending <- session_get "pending_mfa_user_id" ;;
  if negb (otruthy pending) then ret Proceed
  else
    stored <- session_get "password_authenticated_at" ;;
    authenticated_at <- lift (if otruthy stored then py_int stored else Ok 0) ;;
    max_age <- lift (config_number "PENDING_MFA_MAX_AGE_SECONDS") ;;
    if negb (authenticated_at =? 0) && (now - authenticated_at <=? max_age) then ret Proceed
    else
      sid <- current_session_id ;;
      _ <- revoke_current_session "expired" ;;
      uid <- lift (py_int pending) ;;
      _ <- _audit_event "mfa_login_expired" "expired" (Some uid) [] sid false ;;
      if startswith "/auth/" request_path then ret MfaChallengeExpired
      else
        _ <- flash "MFA challenge expired. Please log in again." "warning" ;;
        _ <- rotate_session_id ;;
        ret MfaChallengeExpired.

Definition lifetime_expired : M St HookResponse :=
  _ <- revoke_current_session "absolute_lifetime" ;; ret (SessionExpired "Session expired").

Definition _absolute_lifetime_expiry_response (now : Z) : M St HookResponse :=
  user_id <- session_get "user_id" ;;
  if negb (otruthy user_id) then ret Proceed
  else
    match config_int "SESSION_ABSOLUTE_LIFETIME_SECONDS" with
    | Raise _ => lifetime_expired
    | Ok absolute_lifetime =>
        raw <- session_get AUTH_CREATED_AT_KEY ;;
        match raw with
        | None | Some JNull =>
            _ <- session_put AUTH_CREATED_AT_KEY (JInt now) ;; ret Proceed
        | Some _ =>
            match py_int raw with
            | Raise _ => lifetime_expired
            | Ok auth_created_at =>
                if (0 <? auth_created_at) && (now - auth_created_at <=? absolute_lifetime)
                then ret Proceed
                else
                  sid <- current_session_id ;;
                  uid <- lift (py_int user_id) ;;
                  _ <- _audit_event "session_absolute_lifetime" "expired" (Some uid)
                         [("app_mode", default (JStr "customer") (config "APP_MODE"));
                          ("age_seconds", JInt (Z.max 0 (now - auth_created_at)));
                          ("lifetime_seconds", JInt absolute_lifetime)] sid false ;;
                  lifetime_expired
            end
        end
    end.

(** Runs [k] when [c] lets the request through. *)
Definition unless_refused (c : M St HookResponse) (k : M St HookResponse) : M St HookResponse :=
  answer <- c ;; match answer with Proceed => k | _ => ret answer end.

Definition _enforce_session_activity : M St HookResponse :=
  unless_refused _revoked_session_response_if_required
    (a <- session_get "user_id" ;;
     b <- session_get "pending_mfa_user_id" ;;
     if negb (otruthy a) && negb (otruthy b) then ret Proceed
     else
       now <- _now ;;
       unless_refused (_pending_mfa_expiry_response now)
       (unless_refused (_absolute_lifetime_expiry_response now)
         (stored <- session_get "last_activity_at" ;;
          last_activity <- lift (if otruthy stored then py_int stored else Ok now) ;;
          limit <- lift (config_number "SESSION_INACTIVITY_SECONDS") ;;
          if limit <? now - last_activity then
            _ <- revoke_current_session "expired" ;; ret (SessionExpired "Session expired")
          else
            unless_refused enforce_authenticated_session_context
              (if is_session_activity_exempt then ret Proceed
               else
                 _ <- session_put "last_activity_at" (JInt now) ;;
                 _ <- update_session_activity ;;
                 ret Proceed)))).

(** ** The lists of sessions a customer sees *)

Definition display_ip_address (value : string) : string :=
  if negb (nonempty value) then "unknown"
  else match IpAddress.ip_address value with
       | Some address => IpAddress.compressed address
       | None => "unknown"
       end.

Definition summarize_user_agent (value : string) : string :=
  let normalized := join " " (split_ws (if nonempty value then value else "unknown")) in
  if (slen normalized <=? 120)%nat then normalized else str_take 117 normalized +:+ "...".

(** [_format_session_time(_utc_iso(value))]: the text of an instant reads back
    as that instant. *)
Definition _format_session_time (value : option Z) : string :=
  match value with Some t => sgt_datetime (Some (Naive t)) | None => "Unknown" end.

Record SessionView : Type := mkSessionView {
  sv_session_ref : string; sv_current : bool; sv_ip_address : string; sv_user_agent : string;
  sv_login_time : Z; sv_last_activity : Z; sv_ended_at : option Z; sv_ended_reason : string
}.

Definition list_active_sessions (user_id : Z) : M St (list SessionView) :=
  hash <- current_lookup_hash ;;
  records <- _active_session_records user_id None ;;
  lift (mapR (λ kv : Z * ServerSideSession,
    rbind (_public_reference_from_lookup_hash (ss_session_lookup_hash kv.2)) (λ ref,
      Ok (mkSessionView ref (bool_decide (ss_session_lookup_hash kv.2 = hash))
            (display_ip_address (ss_ip_address kv.2)) (summarize_user_agent (ss_user_agent kv.2))
            (ss_created_at kv.2) (ss_last_activity_at kv.2) None ""))) records).

Definition _session_history_limit (limit : option Z) : Z :=
  let bounded v := Z.max 0 (Z.min v 100) in
  match limit with
  | Some v => bounded v
  | None =>
      match config_int_default "SESSION_HISTORY_LIMIT" SESSION_HISTORY_LIMIT_DEFAULT with
      | Ok v => bounded v
      | Raise _ => SESSION_HISTORY_LIMIT_DEFAULT
      end
  end.

(** [ORDER BY ended_at DESC, id DESC]. *)
Definition latest_ended (x y : Z * ServerSideSession) : bool :=
  let t (r : ServerSideSession) := default 0 (ss_ended_at r) in
  (t y.2 <? t x.2) || ((t x.2 =? t y.2) && (y.1 <=? x.1)).

Definition list_past_sessions (user_id : Z) (limit : option Z) : M St (list SessionView) :=
  let count := _session_history_limit limit in
  if count <=? 0 then ret []
  else
    rows <- db_get (λ d, firstn (Z.to_nat count) (sort_by latest_ended (rows_where
      (λ r, owned _session_component user_id r && bool_decide (is_Some (ss_ended_at r)))
      (server_side_sessions d)))) ;;
    lift (mapR (λ kv : Z * ServerSideSession,
      rbind (match ss_session_ref kv.2 with
             | Some ref => if nonempty ref then Ok ref
                           else _public_reference_from_lookup_hash (ss_session_lookup_hash kv.2)
             | None => _public_reference_from_lookup_hash (ss_session_lookup_hash kv.2)
             end) (λ ref,
        Ok (mkSessionView ref false
              (display_ip_address (ss_ip_address kv.2)) (summarize_user_agent (ss_user_agent kv.2))
              (ss_created_at kv.2) (ss_last_activity_at kv.2) (ss_ended_at kv.2)
              (_normalize_session_end_reason (or_empty (ss_ended_reason kv.2)))))) rows).

(** The first active record one of whose public references is the given one. *)
Fixpoint find_reference (session_reference : string) (records : list (Z * ServerSideSession))
    : res (option ServerSideSession) :=
  match records with
  | [] => Ok None
  | (_, r) :: rest =>
      rbind (matches_hmac session_reference
               ("session-reference:" +:+ ss_session_lookup_hash r) 32) (λ same,
        if same : bool then Ok (Some r) else find_reference session_reference rest)
  end.

Definition resolve_session_reference_for_user (user_id : Z) (session_reference : string)
    : M St (option string) :=
  sid <- current_session_id ;;
  hash <- current_lookup_hash ;;
  records <- _active_session_records user_id None ;;
  found <- lift (find_reference session_reference records) ;;
  ret match found with
      | None => None
      | Some r =>
          if bool_decide (ss_session_lookup_hash r = hash) && nonempty (or_empty sid) then sid
          else Some ("lookup:" +:+ ss_session_lookup_hash r)
      end.
End SessionStore.
(** ** What a cookie opens *)

Section Opening.
Context `{Env}.

(** The live record behind a session id, with session data signed for it. *)
Definition live_record (sid : string) (d : Db) (now : Z) (kvs : list (string * jval)) : Prop :=
  ∃ id r payload text,
    server_side_sessions d !! id = Some r
    ∧ ss_component r = _session_component ∧ session_lookup_hash sid = Ok (ss_session_lookup_hash r)
    ∧ ss_revoked_at r = None ∧ now < ss_expires_at r ∧ ss_payload r = Some payload
    ∧ verify_session_payload payload (_payload_binding_context (ss_session_lookup_hash r)) = Ok text
    ∧ session_json_loads text = Ok (JObj kvs).

Lemma new_session_empty {A} (a b : A) s s' :
  (_ <- new_session ;; ret a) s = (Ok b, s') → session s' = ∅.
Proof. unfold new_session, bind, fresh, modify, ret. by intros [= _ <-]. Qed.

Lemma record_for_hash hash s found s' :
  _session_record_for_lookup_hash hash s = (Ok found, s') →
  s' = s ∧ ∀ id r, found = Some (id, r) → server_side_sessions (working s) !! id = Some r
    ∧ ss_component r = _session_component ∧ ss_session_lookup_hash r = hash.
Proof.
  unfold _session_record_for_lookup_hash, db_get, gets. intros [= <- <-]. split; [done|].
  intros id r Hh. assert ((id, r) ∈ sort_by record_before (rows_where
    (λ r, bool_decide (ss_component r = _session_component)
          && bool_decide (ss_session_lookup_hash r = hash)) (server_side_sessions (working s)))) as Hin.
  { by apply head_Some_elem_of. }
  rewrite sort_by_perm in Hin. apply rows_where_spec in Hin as [Hr Hb].
  rewrite andb_true_iff, !bool_decide_eq_true in Hb. tauto.
Qed.

Lemma record_for_sid sid s found s' :
  _session_record_for_sid sid s = (Ok found, s') →
  s' = s ∧ ∀ id r, found = Some (id, r) → server_side_sessions (working s) !! id = Some r
    ∧ ss_component r = _session_component ∧ session_lookup_hash sid = Ok (ss_session_lookup_hash r).
Proof.
  unfold _session_record_for_sid. intros E. inv_bind E. unfold lift in E0. injection E0 as Eh <-.
  apply record_for_hash in E as [-> Hf]. split; [done|]. intros id r Hr.
  destruct (Hf id r Hr) as (? & ? & <-). done.
Qed.

Lemma decode_payload_inv r payload kvs :
  decode_payload r payload = Ok kvs →
  ∃ text, verify_session_payload payload (_payload_binding_context (ss_session_lookup_hash r)) = Ok text
    ∧ session_json_loads text = Ok (JObj kvs).
Proof.
  unfold decode_payload. destruct (verify_session_payload _ _) as [text|]; simpl; [|done].
  destruct (session_json_loads text) as [[]|] eqn:E; simpl; try done. intros [= <-]. by exists text.
Qed.
End Opening.

(** A cookie opens session data only from a live record.  After opening,
    the session is empty, or the cookie named a record of this component that is
    neither revoked nor expired, and the data is what was signed for that
    record. *)
Theorem opened_session_is_live `{Env} s r s' :
  open_session s = (Ok r, s') →
  session s' = ∅
  ∨ ∃ sid kvs, session_sid s' = Some sid ∧ session s' = list_to_map kvs
      ∧ live_record sid (working s) (clock s') kvs.
Proof.
  unfold open_session. intros E. inv_bind E. unfold lift in E0. injection E0 as _ <-.
  cbv zeta in E. destruct (request_cookie _) as [sid|]; [|left; by eapply new_session_empty].
  destruct (negb (nonempty sid)); [left; by eapply new_session_empty|].
  inv_bind E. apply record_for_sid in E0 as [-> Hf].
  destruct a0 as [[id rec]|]; [|left; by eapply new_session_empty].
  destruct (Hf id rec eq_refl) as (Hrow & Hc & Hh). inv_bind E. injection E0 as <- <-.
  set (now := clock s + _) in *.
  case_bool_decide as Hrev; [left; by eapply new_session_empty|].
  destruct (ss_expires_at rec <=? now) eqn:Hexp;
    [left; do 2 inv_bind E; by eapply new_session_empty|].
  assert (∀ s1, (x <- _end_session_record id rec "ended" now ;; y <- _commit_quietly ;;
    z <- new_session ;; ret None) s1 = (Ok r, s') → session s' = ∅) as Hended
    by (intros s1 E1; do 2 inv_bind E1; by eapply new_session_empty).
  destruct (ss_payload rec) as [payload|] eqn:Ep; [|left; by eapply Hended].
  destruct (decode_payload rec payload) as [kvs|e] eqn:Ed; destruct payload as [|c payload];
    try (left; by eapply Hended); [|left; inv_bind E; by eapply new_session_empty].
  right. exists sid, kvs. inv_bind E. do 2 inv_bind E. unfold modify, ret in *. simplify_eq. simpl.
  apply decode_payload_inv in Ed as (text & Hv & Hl).
  assert (clock s0 = now) as Hclock by (destruct is_session_activity_exempt;
    unfold ret, db_write, modify in *; by simplify_eq).
  split; [done|]. split; [done|]. rewrite Hclock. exists id, rec, (String c payload), text.
  split_and!; try done; [|lia]. destruct (ss_revoked_at rec) eqn:Er; [|done]. by destruct Hrev.
Qed.
(** ** A saved session opens again *)

(** Two requests of one deployment: the same configuration, keys and digests. *)
Record same_deployment (E1 E2 : Env) : Prop := {
  same_config : @config E2 = @config E1;
  same_session_keys : @session_hmac_keys E2 = @session_hmac_keys E1;
  same_lookup_key : @session_lookup_hmac_key E2 = @session_lookup_hmac_key E1;
  same_hmac : @hmac_sha256_hex E2 = @hmac_sha256_hex E1;
  same_loads : @session_json_loads E2 = @session_json_loads E1
}.

(** The serializer reads this session back. *)
Definition serializes `{Env} (m : gmap string jval) : Prop :=
  ∃ kvs, session_json_loads (session_json_dumps (map_to_list m)) = Ok (JObj kvs)
    ∧ list_to_map kvs = m.

Section RoundTrip.
Context `{Env}.

Lemma commit_quietly_cases s a s' :
  _commit_quietly s = (Ok a, s') →
  (db_ok (working s) = true ∧ s' = set_committed (working s) s)
  ∨ (s' = set_working (committed s) s).
Proof.
  unfold _commit_quietly, try_except, commit. destruct (db_ok (working s)) eqn:E.
  - intros [= _ <-]. by left.
  - unfold any_exn, bind, rollback, modify, ret. rewrite bool_decide_eq_true_2 by done.
    intros [= _ <-]. by right.
Qed.

(** The record [save_session] stores. *)
Record saved_as (sid : string) (s s1 : St) (id : Z) (r : ServerSideSession) : Prop := {
  sv_row : server_side_sessions (working s1) !! id = Some r;
  sv_ok : db_ok (working s1) = true;
  sv_component : ss_component r = _session_component;
  sv_hash : session_lookup_hash sid = Ok (ss_session_lookup_hash r);
  sv_revoked : ss_revoked_at r = None;
  sv_expires : is_session_activity_exempt = false → _session_expires_at (clock s1) = Ok (ss_expires_at r);
  sv_payload : ∃ payload, ss_payload r = Some payload
    ∧ sign_session_payload (session_json_dumps (map_to_list (session s1)))
        (_payload_binding_context (ss_session_lookup_hash r)) = Ok payload
}.

Lemma save_session_inv modified sid s s1 :
  save_session modified s = (Ok (SetCookie sid), s1) →
  sid = or_empty (session_sid s) ∧ session s1 = <["_permanent" := JBool true]> (session s)
  ∧ ((committed s1 = committed s ∧ working s1 = committed s)
     ∨ (committed s1 = working s1 ∧ ∃ id r, saved_as sid s s1 id r)).
Proof.
  unfold save_session. intros E. do 2 (inv_bind E; unfold gets in E0; injection E0 as <- <-).
  case_bool_decide; [destruct modified; [by do 2 inv_bind E|done]|].
  inv_bind E. injection E0 as _ <-. inv_bind E. injection E0 as <- <-.
  set (now := clock _ + _) in *. inv_bind E. unfold lift in E0. injection E0 as Hexp <-.
  inv_bind E. unfold lift in E0. injection E0 as Hhash <-. inv_bind E. injection E0 as <- <-.
  inv_bind E. unfold lift in E0. injection E0 as Hsign <-. inv_bind E.
  assert (s0 = next_effect (set_clock now (set_session (<["_permanent" := JBool true]> (session s)) s)))
    as -> by (unfold _session_user_id, session_get, gets, bind, ret in E0; by simplify_eq).
  inv_bind E. apply record_for_hash in E1 as [-> Hf]. inv_bind E. injection E1 as <- <-.
  destruct (default _ a4) as [id rec] eqn:Erec.
  assert (ss_component rec = _session_component ∧ ss_session_lookup_hash rec = a1) as [Hc Hl].
  { destruct a4 as [[i r]|]; simpl in Erec; [|by simplify_eq]. injection Erec as -> ->.
    by destruct (Hf id rec eq_refl) as (_ & ? & ?). }
  inv_bind E. unfold lift in E1. injection E1 as _ <-. inv_bind E. injection E1 as <- <-.
  inv_bind E. unfold db_write, modify in E1. injection E1 as _ <-. inv_bind E.
  unfold ret in E. injection E as <- ->. split; [done|].
  apply commit_quietly_cases in E1 as [[Hok ->]| ->]; (split; [done|]); [right|by left].
  split; [done|]. eexists id, _. constructor; [apply lookup_insert_eq|exact Hok|exact Hc|..]; simpl.
  - by rewrite Hl.
  - done.
  - by intros ->.
  - eexists. split; [reflexivity|]. by rewrite Hl.
Qed.

Lemma find_saved id r d :
  db_ok d = true → server_side_sessions d !! id = Some r → ss_component r = _session_component →
  head (sort_by record_before (rows_where
    (λ x, bool_decide (ss_component x = _session_component)
          && bool_decide (ss_session_lookup_hash x = ss_session_lookup_hash r)) (server_side_sessions d)))
  = Some (id, r).
Proof.
  intros Hok Hr Hc.
  assert (one_or_none (λ x, bool_decide (ss_component x = _session_component)
    && bool_decide (ss_session_lookup_hash x = ss_session_lookup_hash r)) (server_side_sessions d)
    = Ok (Some (id, r))) as E.
  { eapply (one_or_none_unique (λ x, Some (ss_component x, ss_session_lookup_hash x)));
      [by apply db_ok_sessions| |done|].
    - intros w. rewrite andb_true_iff, !bool_decide_eq_true. intros [-> ->]. reflexivity.
    - by rewrite Hc, !bool_decide_eq_true_2. }
  unfold one_or_none in E. destruct (rows_where _ _) as [|x [|]]; [done| |done]. by injection E as ->.
Qed.

(** Opening a live, well-signed record. *)
Lemma open_live sid id r payload text kvs s :
  (∃ v, config_item "SESSION_COOKIE_NAME" = Ok v ∧ request_cookie (py_str v) = Some sid) → sid ≠ "" →
  db_ok (working s) = true → server_side_sessions (working s) !! id = Some r →
  ss_component r = _session_component → session_lookup_hash sid = Ok (ss_session_lookup_hash r) →
  ss_revoked_at r = None → clock (now_utc s).2 < ss_expires_at r →
  ss_payload r = Some payload →
  verify_session_payload payload (_payload_binding_context (ss_session_lookup_hash r)) = Ok text →
  session_json_loads text = Ok (JObj kvs) →
  ∃ s', open_session s = (Ok None, s') ∧ session s' = list_to_map kvs ∧ session_sid s' = Some sid.
Proof.
  intros (v & Hv & Hcookie) Hsid Hok Hr Hc Hh Hrev Hexp Hp Hverify Hload. unfold open_session.
  erewrite bind_Ok by (unfold lift; by rewrite Hv). cbv zeta. rewrite Hcookie.
  unfold nonempty. rewrite bool_decide_eq_false_2 by done. cbn [negb].
  assert (_session_record_for_sid sid s = (Ok (Some (id, r)), s)) as Hfound.
  { unfold _session_record_for_sid. erewrite bind_Ok by (unfold lift; by rewrite Hh).
    unfold _session_record_for_lookup_hash, db_get, gets. by rewrite (find_saved id r). }
  rewrite (bind_Ok _ _ _ _ _ Hfound). erewrite bind_Ok by reflexivity. rewrite Hrev, Hp.
  rewrite (bool_decide_eq_false_2 (is_Some None)) by (by intros [? ?]).
  change (clock (now_utc s).2) with (clock s + Z.of_N (tick (effects s))) in Hexp.
  rewrite (proj2 (Z.leb_gt _ _) Hexp). unfold decode_payload. rewrite Hverify. simpl. rewrite Hload.
  destruct payload as [|c payload]; [by apply verify_empty in Hverify|]. simpl.
  destruct is_session_activity_exempt; eexists; (split; [reflexivity|]); done.
Qed.
End RoundTrip.

(** C29: A session that was saved opens again.  When the response sets the cookie,
    either the database refused the row and nothing changed, or the next request
    of the deployment that presents the cookie, before the inactivity limit
    passes, gets exactly the saved session data back. *)
Theorem session_roundtrip E1 E2 modified sid s s1 s2 lifetime v :
  same_deployment E1 E2 → (∀ k m, @hmac_sha256_hex E1 k m ≠ "") →
  @save_session E1 modified s = (Ok (SetCookie sid), s1) → sid ≠ "" →
  @serializes E1 (session s1) → @is_session_activity_exempt E1 = false →
  @config_int E1 "SESSION_INACTIVITY_SECONDS" = Ok lifetime →
  @config_item E2 "SESSION_COOKIE_NAME" = Ok v → @request_cookie E2 (py_str v) = Some sid →
  working s2 = committed s1 → clock (@now_utc E2 s2).2 < clock s1 + lifetime * US_SECOND →
  committed s1 = committed s
  ∨ ∃ s3, @open_session E2 s2 = (Ok None, s3) ∧ session s3 = session s1 ∧ session_sid s3 = Some sid.
Proof.
  intros HE Hne Hsave Hsid (kvs & Hload & Hdict) Hex Hlife Hv Hcookie Hw Hclock.
  apply save_session_inv in Hsave as (_ & _ & [[Hc _]|(Hc & id & r & [Hrow Hok Hcomp Hh Hrev Hexp Hpay])]);
    [by left|right].
  destruct Hpay as (payload & Hp & Hsign). specialize (Hexp Hex).
  unfold _session_expires_at in Hexp. rewrite Hlife in Hexp. injection Hexp as Hexp.
  destruct HE as [HE1 HE2 HE3 HE4 HE5].
  edestruct (@open_live E2 sid id r payload (@session_json_dumps E1 (map_to_list (session s1))) kvs s2) as (s3 & Ho & Hs3 & Hsid3); try done.
  - by exists v.
  - by rewrite Hw, Hc.
  - by rewrite Hw, Hc.
  - unfold _session_component. by rewrite HE1.
  - unfold session_lookup_hash. rewrite HE3, HE4. exact Hh.
  - lia.
  - apply signed_verifies in Hsign; [|done]. revert Hsign.
    unfold verify_session_payload, _payload_signature, _payload_binding_context, _session_component.
    by rewrite HE1, HE2, HE4.
  - by rewrite HE5.
  - exists s3. by rewrite Hs3, Hdict.
Qed.
(** ** The hook before a request *)

Section Hook.
Context `{Env}.

(** The session id the request runs under. *)
Definition sid_of (s : St) : string := or_empty (if has_request_context then session_sid s else None).

Lemma unless_refused_inv c k s s' :
  unless_refused c k s = (Ok Proceed, s') → ∃ s1, c s = (Ok Proceed, s1) ∧ k s1 = (Ok Proceed, s').
Proof. unfold unless_refused. intros E. inv_bind E. destruct a; [eauto|done..]. Qed.

Lemma not_revoked_inv s s1 :
  sid_of s ≠ "" → _revoked_session_response_if_required s = (Ok Proceed, s1) →
  session s1 = ∅
  ∨ s1 = s ∧ ∀ found, _session_record_for_sid (sid_of s) s = (Ok found, s) →
      ∀ id r, found = Some (id, r) → ss_revoked_at r = None.
Proof.
  intros Hsid. unfold _revoked_session_response_if_required. intros E.
  do 2 (inv_bind E; injection E0 as <- <-). fold (sid_of s) in E.
  unfold nonempty in E. rewrite (bool_decide_eq_false_2 (sid_of s = "")) in E by done. simpl in E.
  case_bool_decide as Hd; [unfold ret in E; simplify_eq; by left|].
  inv_bind E. pose proof (record_for_sid _ _ _ _ E0) as [-> _].
  destruct a as [[id r]|].
  - case_bool_decide as Hrev.
    + inv_bind E. unfold session_clear, modify in E1. injection E1 as _ <-. left.
      destruct (str_in _ _); [|done]. unfold ret in E. by simplify_eq.
    + unfold ret in E. simplify_eq. right. split; [done|]. intros found E id' r' ->.
      rewrite E0 in E. simplify_eq. destruct (ss_revoked_at r'); [|done]. by destruct Hrev.
  - unfold ret in E. simplify_eq. right. split; [done|]. intros found E id' r' ->. by rewrite E0 in E.
Qed.

Lemma pending_inv now s s1 :
  _pending_mfa_expiry_response now s = (Ok Proceed, s1) → s1 = s.
Proof.
  unfold _pending_mfa_expiry_response. intros E. inv_bind E. injection E0 as <- <-.
  destruct (negb _); [unfold ret in E; by simplify_eq|].
  inv_bind E. injection E0 as <- <-. do 2 (inv_bind E; unfold lift in E0; injection E0 as _ <-).
  destruct (_ && _); [unfold ret in E; by simplify_eq|].
  do 4 inv_bind E. destruct (startswith _ _); [unfold ret in E; by simplify_eq|].
  do 2 inv_bind E. unfold ret in E. by simplify_eq.
Qed.

(** Signed in for at most the configured lifetime. *)
Definition within_lifetime (now : Z) (m : gmap string jval) : Prop :=
  m !! AUTH_CREATED_AT_KEY = None ∨ m !! AUTH_CREATED_AT_KEY = Some JNull
  ∨ ∃ t lifetime, py_int (m !! AUTH_CREATED_AT_KEY) = Ok t
      ∧ config_int "SESSION_ABSOLUTE_LIFETIME_SECONDS" = Ok lifetime ∧ 0 < t ∧ now - t ≤ lifetime.

Lemma lifetime_expired_inv s s1 : lifetime_expired s ≠ (Ok Proceed, s1).
Proof. unfold lifetime_expired. intros E. inv_bind E. unfold ret in E. by simplify_eq. Qed.

Lemma lifetime_inv now s s1 :
  otruthy (session s !! "user_id") = true →
  _absolute_lifetime_expiry_response now s = (Ok Proceed, s1) →
  within_lifetime now (session s) ∧ session_sid s1 = session_sid s
  ∧ ∀ key, key ≠ AUTH_CREATED_AT_KEY → session s1 !! key = session s !! key.
Proof.
  intros Hu. unfold _absolute_lifetime_expiry_response. intros E. inv_bind E. injection E0 as <- <-.
  rewrite Hu in E. simpl in E. destruct (config_int _) as [lifetime|] eqn:El;
    [|by apply lifetime_expired_inv in E].
  inv_bind E. injection E0 as <- <-. unfold within_lifetime.
  assert (∀ s', (_ <- session_put AUTH_CREATED_AT_KEY (JInt now) ;; ret Proceed) s = (Ok Proceed, s') →
    session_sid s' = session_sid s
    ∧ ∀ key, key ≠ AUTH_CREATED_AT_KEY → session s' !! key = session s !! key) as Hput.
  { intros s' E'. inv_bind E'. injection E0 as _ <-. unfold ret in E'. simplify_eq. simpl.
    split; [done|]. intros key Hk. by rewrite lookup_insert_ne. }
  destruct (session s !! AUTH_CREATED_AT_KEY) as [v|] eqn:Ev; [|by split; [left|apply Hput]].
  assert (v = JNull ∨ match py_int (Some v) with
    | Raise _ => lifetime_expired s = (Ok Proceed, s1)
    | Ok t => if (0 <? t) && (now - t <=? lifetime) then s1 = s else False
    end) as [-> |Hv].
  { destruct v as [|b|z|t|l|l]; [by left|right..].
    all: match type of E with context [py_int ?x] => destruct (py_int x) as [t'|] end; [|done].
    all: destruct (_ && _); [unfold ret in E; by simplify_eq|].
    all: do 3 inv_bind E; by apply lifetime_expired_inv in E. }
  { split; [by right; left|by apply Hput]. }
  destruct (py_int (Some v)) as [t|] eqn:Et; [|by apply lifetime_expired_inv in Hv].
  destruct ((0 <? t) && (now - t <=? lifetime)) eqn:Eb; [subst s1|done].
  apply andb_true_iff in Eb. split; [|done]. right; right. exists t, lifetime. split_and!; [done..|lia|lia].
Qed.

Lemma sk_store_risk k v clear_reauth :
  bool_decide (SESSION_RISK_FINGERPRINT_KEY = k) = false → bool_decide (SESSION_RISK_CONTEXT_KEY = k) = false →
  bool_decide (SESSION_RISK_REAUTH_REQUIRED_KEY = k) = false →
  preserves (session_key k v) (_store_current_session_risk_context clear_reauth).
Proof.
  intros ???. unfold _store_current_session_risk_context, current_session_risk_fingerprint,
    _current_session_risk_message, _current_session_risk_context, _now.
  solve_pres; by (apply sk_session_put || apply sk_session_pop).
Qed.
Lemma sk_touch_risk k v :
  bool_decide (SESSION_RISK_FINGERPRINT_KEY = k) = false → bool_decide (SESSION_RISK_CONTEXT_KEY = k) = false →
  bool_decide (SESSION_RISK_REAUTH_REQUIRED_KEY = k) = false →
  preserves (session_key k v) _touch_session_risk_context.
Proof.
  intros ???. unfold _touch_session_risk_context, _now.
  solve_pres; (by apply sk_session_put) || (by apply sk_store_risk).
Qed.

(** The risk signals of the request, as the session records them. *)
Lemma context_inv s s1 :
  sid_of s ≠ "" → otruthy (session s !! "user_id") = true →
  enforce_authenticated_session_context s = (Ok Proceed, s1) →
  session s1 !! "user_id" = session s !! "user_id"
  ∧ ∃ changes, _session_risk_context_changes s = (Ok changes, s)
      ∧ _session_risk_severity changes ≠ "high".
Proof.
  intros Hsid Hu. unfold enforce_authenticated_session_context. intros E. inv_bind E.
  unfold is_signed_in in E0. do 2 (inv_bind E0; injection E1 as <- <-). unfold ret in E0.
  injection E0 as <- <-. rewrite Hu in E.
  assert (match (if has_request_context then session_sid s else None) with
    | Some x => nonempty x | None => false end = true) as Hne.
  { unfold sid_of, nonempty in *. destruct (if has_request_context then _ else _); simpl in *; [|done].
    by rewrite bool_decide_eq_false_2. }
  rewrite Hne in E. simpl in E. inv_bind E.
  assert (s0 = s) as ->.
  { unfold _session_risk_context_changes in E0. inv_bind E0. injection E1 as <- <-.
    repeat case_match; unfold ret, lift in E0; by simplify_eq. }
  assert (∀ (c : M St HookResponse) s2 r, preserves (session_key "user_id" (session s !! "user_id")) c →
    c s = (r, s2) → session s2 !! "user_id" = session s !! "user_id") as Hkeep.
  { intros c s2 r Hc E2. specialize (Hc s eq_refl). by rewrite E2 in Hc. }
  assert (∀ x, _session_risk_severity a = x → x ≠ "high" → session s1 !! "user_id" = session s !! "user_id" →
    session s1 !! "user_id" = session s !! "user_id" ∧ ∃ changes, _session_risk_context_changes s = (Ok changes, s)
      ∧ _session_risk_severity changes ≠ "high") as Hdone by (intros x <- Hx ?; eauto).
  case_bool_decide as Hst; [apply (Hdone _ Hst); [done|]|].
  { eapply Hkeep; [|exact E]. solve_pres; (by apply sk_touch_risk) || (by apply sk_store_risk). }
  inv_bind E. assert (s0 = s) as -> by (unfold _session_user_id, session_get, gets, bind, ret in E1; by simplify_eq).
  case_bool_decide as Hlow; [apply (Hdone _ Hlow); [done|]|].
  { eapply Hkeep; [|exact E]. solve_pres; by apply sk_store_risk. }
  case_bool_decide as Hmed; [apply (Hdone _ Hmed); [done|]|].
  { eapply Hkeep; [|exact E]. unfold _mark_session_risk_reauthentication_required.
    solve_pres; by apply sk_touch_risk. }
  do 2 inv_bind E. unfold ret in E. by simplify_eq.
Qed.

(** The signals depend only on the recorded context. *)
Lemma changes_frame s s1 changes :
  session s1 !! SESSION_RISK_CONTEXT_KEY = session s !! SESSION_RISK_CONTEXT_KEY →
  _session_risk_context_changes s1 = (Ok changes, s1) → _session_risk_context_changes s = (Ok changes, s).
Proof.
  unfold _session_risk_context_changes, bind, session_get, gets. intros ->.
  repeat case_match; unfold lift, ret; by intros [= ->].
Qed.

(** A session without a user stays without one. *)
Lemma no_user_inv now s s1 s2 :
  otruthy (session s !! "user_id") = false →
  _absolute_lifetime_expiry_response now s = (Ok Proceed, s1) →
  enforce_authenticated_session_context s1 = (Ok Proceed, s2) → s1 = s ∧ s2 = s.
Proof.
  intros Hu. unfold _absolute_lifetime_expiry_response. intros E. inv_bind E. injection E0 as <- <-.
  rewrite Hu in E. unfold ret in E. simplify_eq. simpl in E. simplify_eq.
  unfold enforce_authenticated_session_context. intros E. inv_bind E.
  unfold is_signed_in in E0. do 2 (inv_bind E0; injection E1 as <- <-). unfold ret in E0.
  injection E0 as <- <-. rewrite Hu in E. simpl in E. unfold ret in E. by simplify_eq.
Qed.

Lemma sk_update_activity k v : preserves (session_key k v) update_session_activity.
Proof.
  unfold update_session_activity, _current_session_record, _session_record_for_sid,
    _session_record_for_lookup_hash. solve_pres.
Qed.

Lemma touched_user now s s1 :
  (if is_session_activity_exempt then ret Proceed
   else _ <- session_put "last_activity_at" (JInt now) ;; _ <- update_session_activity ;; ret Proceed) s
  = (Ok Proceed, s1) → session s1 !! "user_id" = session s !! "user_id".
Proof.
  intros E. assert (preserves (session_key "user_id" (session s !! "user_id"))
    (if is_session_activity_exempt then ret Proceed
     else _ <- session_put "last_activity_at" (JInt now) ;; _ <- update_session_activity ;; ret Proceed)) as Hp.
  { solve_pres. apply sk_update_activity. }
  specialize (Hp s eq_refl). by rewrite E in Hp.
Qed.
End Hook.

(** C28: A signed-in request is served only in a session that is still good.  When
    the hook lets a request with a user through, the session record of its
    cookie is not revoked, the sign-in is not older than the absolute lifetime,
    the last activity is within the inactivity limit, and the client's network
    and browser have not changed to the point of high risk; the user is the one
    the session named before. *)
Theorem session_hook_admits `{Env} s s' :
  sid_of s ≠ "" → _enforce_session_activity s = (Ok Proceed, s') →
  otruthy (session s' !! "user_id") = true →
  let now := clock (now_utc s).2 / US_SECOND in
  session s' !! "user_id" = session s !! "user_id"
  ∧ (∀ found, _session_record_for_sid (sid_of s) s = (Ok found, s) →
       ∀ id r, found = Some (id, r) → ss_revoked_at r = None)
  ∧ within_lifetime now (session s)
  ∧ (∃ last_activity limit,
       (if otruthy (session s !! "last_activity_at") then py_int (session s !! "last_activity_at")
        else Ok now) = Ok last_activity
       ∧ config_number "SESSION_INACTIVITY_SECONDS" = Ok limit ∧ now - last_activity ≤ limit)
  ∧ ∃ changes, _session_risk_context_changes s = (Ok changes, s) ∧ _session_risk_severity changes ≠ "high".
Proof.
  intros Hsid E Hu now. unfold _enforce_session_activity in E.
  apply unless_refused_inv in E as (s0 & E0 & E).
  do 2 (inv_bind E; injection E1 as <- <-).
  apply not_revoked_inv in E0 as [Hempty|[-> Hrev]]; [|..|done].
  { rewrite Hempty, !lookup_empty in E. simpl in E. unfold ret in E. simplify_eq.
    by rewrite Hempty, lookup_empty in Hu. }
  destruct (negb _ && negb _) eqn:Eu.
  { unfold ret in E. simplify_eq. by rewrite Hu in Eu. }
  inv_bind E. unfold _now, time_seconds in E0. inv_bind E0. injection E1 as <- <-.
  unfold ret in E0. injection E0 as <- <-. set (s0 := next_effect (set_clock _ s)) in *.
  change ((clock s + Z.of_N (tick (effects s))) / US_SECOND) with now in E.
  apply unless_refused_inv in E as (s1 & ->%pending_inv & E).
  apply unless_refused_inv in E as (s1 & El & E).
  inv_bind E. injection E0 as <- <-. do 2 (inv_bind E; unfold lift in E0; injection E0 as ? <-).
  destruct (a0 <? now - a) eqn:Elim; [inv_bind E; unfold ret in E; by simplify_eq|].
  apply unless_refused_inv in E as (s2 & Ec & E). apply touched_user in E as Ht.
  destruct (otruthy (session s !! "user_id")) eqn:Hu0.
  2:{ destruct (no_user_inv now s0 s1 s2 Hu0 El Ec) as [-> ->]. rewrite Ht in Hu. simpl in Hu. congruence. }
  destruct (lifetime_inv now s0 s1 Hu0 El) as (Hw & Hsid1 & Hkeys).
  destruct (context_inv s1 s2) as (Huser & changes & Hch & Hsev); [| |done|].
  { unfold sid_of in *. by rewrite Hsid1. }
  { rewrite Hkeys by done. exact Hu0. }
  split; [by rewrite Ht, Huser, Hkeys|]. split; [exact Hrev|]. split; [exact Hw|].
  split; [|exists changes; split; [|done]; by eapply changes_frame; [|exact Hch]; apply Hkeys].
  exists a, a0. rewrite Hkeys in H0 by done. split; [exact H0|]. split; [done|lia].
Qed.

(** ** Witnesses: Alice's session is saved, opened and checked *)

Definition plain_state : St := set_session (<["user_id" := JInt 1]> ∅) Sample.sample_state.
Definition saved_run := @save_session Sample.hex_env true plain_state.
Definition reopened_run := @open_session Sample.hex_env (set_working (committed saved_run.2) saved_run.2).

Lemma session_roundtrip_witness :
  ∃ s3, @open_session Sample.hex_env (set_working (committed saved_run.2) saved_run.2) = (Ok None, s3)
    ∧ session s3 = session saved_run.2 ∧ session_sid s3 = Some "sid-1".
Proof.
  assert (same_deployment Sample.hex_env Sample.hex_env) as HE by done.
  assert (@serializes Sample.hex_env (session saved_run.2)) as Hs.
  { eexists. split; vm_compute; reflexivity. }
  set (s2 := set_working (committed saved_run.2) saved_run.2).
  assert (saved_run = (Ok (SetCookie "sid-1"), saved_run.2)) as E1 by (vm_compute; reflexivity).
  assert (clock (@now_utc Sample.hex_env s2).2 < clock saved_run.2 + 600 * US_SECOND) as E2
    by (vm_compute; reflexivity).
  destruct (session_roundtrip Sample.hex_env Sample.hex_env true "sid-1" plain_state saved_run.2 s2 600
    (JStr "session") HE Sample.hex_digest_nonempty E1 (ltac:(discriminate)) Hs eq_refl eq_refl eq_refl
    eq_refl eq_refl E2) as [Hc|Ho]; [|exact Ho].
  apply (f_equal (λ d, length (map_to_list (server_side_sessions d)))) in Hc. vm_compute in Hc.
  discriminate Hc.
Defined.

Lemma opened_session_witness :
  session reopened_run.2 !! "user_id" = Some (JInt 1)
  ∧ ∃ kvs, @live_record Sample.hex_env "sid-1" (committed saved_run.2) (clock reopened_run.2) kvs.
Proof.
  assert (session reopened_run.2 !! "user_id" = Some (JInt 1)) as Hu by (vm_compute; reflexivity).
  split; [exact Hu|].
  destruct (@opened_session_is_live Sample.hex_env (set_working (committed saved_run.2) saved_run.2)
    None reopened_run.2) as [Hd|(sid & kvs & Hsid & _ & Hl)].
  - vm_compute. reflexivity.
  - rewrite Hd in Hu. discriminate Hu.
  - vm_compute in Hsid. injection Hsid as <-. by exists kvs.
Defined.

Definition hook_run := @_enforce_session_activity Sample.sample_env Sample.sample_state.
Lemma session_hook_witness :
  hook_run.1 = Ok Proceed
  ∧ @within_lifetime Sample.sample_env ((Sample.noon + US_SECOND) / US_SECOND) Sample.sample_session.
Proof.
  split; [vm_compute; reflexivity|].
  apply (@session_hook_admits Sample.sample_env Sample.sample_state hook_run.2); [done|..];
    vm_compute; reflexivity.
Defined.
End SessionStore.
