(* ===== verification/StateCleanup.v ===== *)
(** * Retention cleanup ([app/security/state_cleanup.py],
    [app/security/retention.py] and the operator command that audits it)

    A cleanup deletes, table by table and in batches, the temporary security
    state that is past its expiry or its retention period; it marks expired
    sessions as ended.  A dry run counts and rolls back. *)

From S2P Require Import Prelude PyStr TimeModel Schema Runtime Sample.
From S2P Require Import AuditLog Notifications.
From Stdlib Require Import Ascii.
Open Scope string_scope.
Open Scope Z_scope.

Module StateCleanup.
Import Audit Notifications.

Section Cleanup.
Context `{Env}.

Definition _batch_limit (limit : option Z) : res Z :=
  let bounded value := Z.max 1 (Z.min value 5000) in
  match limit with
  | Some value => Ok (bounded value)
  | None => rbind (config_item "SECURITY_STATE_CLEANUP_BATCH_SIZE") (λ configured,
      match py_int (Some configured) with
      | Ok value => Ok (bounded value)
      | Raise e =>
          if is_value_error e || bool_decide (e = TypeError)
          then rbind (config_int "SECURITY_STATE_CLEANUP_BATCH_SIZE") (λ value, Ok (bounded value))
          else Raise e
      end)
  end.

(** The primary keys of the rows that meet the criteria, in ascending order, at
    most [limit] of them. *)
Definition matching {V} (criteria : Z → V → bool) (t : gmap Z V) : list Z :=
  (filter (λ kv : Z * V, criteria kv.1 kv.2 = true) (map_to_list t)).*1.
Definition selected {V} (criteria : Z → V → bool) (limit : Z) (t : gmap Z V) : list Z :=
  firstn (Z.to_nat limit) (sort_by Z.leb (matching criteria t)).
Definition purge {V} (ids : list Z) (t : gmap Z V) : gmap Z V := foldr delete t ids.

Definition _delete_rows {V} (table : Db → gmap Z V) (upd : (gmap Z V → gmap Z V) → Db → Db)
    (criteria : Db → Z → V → bool) (limit : Z) (dry_run : bool) : M St Z :=
  ids <- db_get (λ d, selected (criteria d) limit (table d)) ;;
  match ids with
  | [] => ret 0
  | _ =>
      if dry_run then ret (Z.of_nat (length ids))
      else _ <- db_write (upd (purge ids)) ;; ret (Z.of_nat (length ids))
  end.

Definition expired_session (now : Z) (r : ServerSideSession) : bool :=
  bool_decide (ss_revoked_at r = None) && bool_decide (ss_ended_at r = None)
  && (ss_expires_at r <=? now).

(** [ORDER BY expires_at ASC, id ASC]. *)
Definition expires_first (x y : Z * ServerSideSession) : bool :=
  (ss_expires_at x.2 <? ss_expires_at y.2)
  || ((ss_expires_at x.2 =? ss_expires_at y.2) && (x.1 <=? y.1)).

Definition end_expired (now : Z) (r : ServerSideSession) : ServerSideSession :=
  mkServerSideSession (ss_component r) (ss_session_lookup_hash r) (ss_session_ref r) None
    (ss_payload_format r) (ss_user_id r) (ss_created_at r) (ss_last_activity_at r)
    (ss_expires_at r) (Some now) (Some now) (Some "expired") (ss_ip_address r) (ss_user_agent r)
    (ss_risk_fingerprint r).

Definition _mark_expired_sessions (now limit : Z) (dry_run : bool) : M St Z :=
  records <- db_get (λ d, firstn (Z.to_nat limit)
    (sort_by expires_first (rows_where (expired_session now) (server_side_sessions d)))) ;;
  if dry_run then ret (Z.of_nat (length records))
  else
    _ <- mapM_ (λ kv : Z * ServerSideSession,
           db_write (upd_server_side_sessions (alter (end_expired now) kv.1))) records ;;
    ret (Z.of_nat (length records)).

(** ** The criteria of the deletions *)

Definition old_session (cutoff : Z) (r : ServerSideSession) : bool :=
  match ss_ended_at r with Some t => t <? cutoff | None => false end.
(** Expired, and no transaction uses it. *)
Definition unused_token (now : Z) (d : Db) (id : Z) (r : PasswordResetToken) : bool :=
  (prt_expires_at r <=? now)
  && negb (bool_decide (id ∈ prx_token_id <$> (map_to_list (password_reset_transactions d)).*2)).
Definition closed_breaker (cutoff : Z) (r : SecurityCircuitBreaker) : bool :=
  negb (bool_decide (cb_state r = "open")) && (cb_updated_at r <? cutoff).
Definition terminal_topup (cutoff : Z) (r : TopUpApprovalRequest) : bool :=
  str_in (tu_status r) ["completed"; "expired"; "failed"] && (tu_expires_at r <? cutoff).

Definition cleanup_expired_security_state (now limit : option Z) (dry_run commits : bool)
    : M St (list (string * Z)) :=
  current_time <- match now with Some t => ret t | None => now_utc end ;;
  batch_limit <- lift (_batch_limit limit) ;;
  days <- lift (config_int "SECURITY_STATE_RETENTION_DAYS") ;;
  let retention_cutoff := current_time - days * US_DAY in
  marked <- _mark_expired_sessions current_time batch_limit dry_run ;;
  old_sessions <- _delete_rows server_side_sessions upd_server_side_sessions
    (λ _ _ r, old_session retention_cutoff r) batch_limit dry_run ;;
  counters <- _delete_rows auth_attempt_counters upd_auth_attempt_counters
    (λ _ _ r, ac_window_expires_at r <=? current_time) batch_limit dry_run ;;
  replays <- _delete_rows totp_replay_records upd_totp_replay_records
    (λ _ _ r, tr_expires_at r <=? current_time) batch_limit dry_run ;;
  challenges <- _delete_rows registration_otp_challenges upd_registration_otp_challenges
    (λ _ _ r, ro_expires_at r <=? current_time) batch_limit dry_run ;;
  transactions <- _delete_rows password_reset_transactions upd_password_reset_transactions
    (λ _ _ r, prx_expires_at r <=? current_time) batch_limit dry_run ;;
  tokens <- _delete_rows password_reset_tokens upd_password_reset_tokens
    (unused_token current_time) batch_limit dry_run ;;
  dedupe <- _delete_rows security_alert_dedupe upd_security_alert_dedupe
    (λ _ _ r, ad_expires_at r <=? current_time) batch_limit dry_run ;;
  breakers <- _delete_rows security_circuit_breakers upd_security_circuit_breakers
    (λ _ _ r, closed_breaker retention_cutoff r) batch_limit dry_run ;;
  reservations <- _delete_rows public_transaction_idempotency upd_public_transaction_idempotency
    (λ _ _ r, pi_expires_at r <=? current_time) batch_limit dry_run ;;
  devices <- _delete_rows known_devices upd_known_devices
    (λ _ _ r, kd_expires_at r <=? current_time) batch_limit dry_run ;;
  topups <- _delete_rows topup_approval_requests upd_topup_approval_requests
    (λ _ _ r, terminal_topup retention_cutoff r) batch_limit dry_run ;;
  _ <- (if dry_run then rollback else if commits then commit else flush) ;;
  ret [("expired_sessions_marked", marked);
       ("old_sessions_deleted", old_sessions);
       ("auth_attempt_counters_deleted", counters);
       ("totp_replay_records_deleted", replays);
       ("registration_otp_challenges_deleted", challenges);
       ("password_reset_transactions_deleted", transactions);
       ("password_reset_tokens_deleted", tokens);
       ("security_alert_dedupe_deleted", dedupe);
       ("security_circuit_breakers_deleted", breakers);
       ("public_transaction_idempotency_deleted", reservations);
       ("expired_known_devices_deleted", devices);
       ("terminal_topup_approval_requests_deleted", topups)].

(** ** The operator workflow *)

Definition APPROVED_SECURITY_STATE_CATEGORIES : list string :=
  ["expired_server_side_sessions"; "expired_auth_attempt_counters";
   "expired_totp_replay_records"; "expired_registration_otp_challenges";
   "expired_password_reset_transactions"; "expired_password_reset_tokens_without_transactions";
   "expired_security_alert_dedupe_state"; "closed_security_circuit_breakers_past_retention";
   "expired_public_transaction_idempotency"; "expired_known_devices";
   "terminal_topup_approval_requests_past_retention"].

Definition PRESERVED_RETENTION_CATEGORIES : list string :=
  ["customer_accounts"; "staff_admin_accounts"; "payees"; "transactions";
   "security_audit_events"; "manual_recovery_requests"; "support_tickets";
   "manual_recovery_context"; "staff_invites"; "alert_reports";
   "investigation_or_held_records"; "encrypted_backup_archives"].

Definition _configured_int (name : string) (minimum maximum : Z) : res Z :=
  match config_int name with
  | Raise _ => Raise (RetentionCleanupError (name +:+ " must be an integer"))
  | Ok value =>
      if (value <? minimum) || (maximum <? value)
      then Raise (RetentionCleanupError (name +:+ " must be between " +:+ pretty minimum
                                           +:+ " and " +:+ pretty maximum))
      else Ok value
  end.

Definition _validated_limit (limit : option Z) : res (option Z) :=
  match limit with
  | None => Ok None
  | Some value =>
      if (value <? 1) || (5000 <? value)
      then Raise (RetentionCleanupError "--limit must be between 1 and 5000")
      else Ok (Some value)
  end.

Record Retention : Type := mkRetention {
  rt_mode : string;
  rt_dry_run : bool;
  rt_retention_days : Z;
  rt_batch_limit : Z;
  rt_category_counts : list (string * Z);
  rt_scheduling : string
}.

Definition run_retention_cleanup (now limit : option Z) (dry_run confirm commits : bool)
    : M St Retention :=
  retention_days <- lift (_configured_int "SECURITY_STATE_RETENTION_DAYS" 1 365) ;;
  configured_batch_limit <- lift (_configured_int "SECURITY_STATE_CLEANUP_BATCH_SIZE" 1 5000) ;;
  requested_limit <- lift (_validated_limit limit) ;;
  let batch_limit := match requested_limit with Some v => v | None => configured_batch_limit end in
  if negb dry_run && negb confirm
  then raise (RetentionCleanupError "State-changing retention cleanup requires --confirm")
  else
    counts <- cleanup_expired_security_state now requested_limit dry_run commits ;;
    ret (mkRetention (if dry_run then "dry_run" else "confirmed") dry_run retention_days
           batch_limit counts "weekly_operator_reviewed_dry_run").

Definition requested_metadata (limit : option Z) (confirm : bool) : list (string * jval) :=
  [("mode", JStr (if confirm then "confirmed" else "dry_run"));
   ("dry_run", JBool (negb confirm)); ("batch_limit_requested", jopt_int limit)].

Definition completed_metadata (result : Retention) : list (string * jval) :=
  [("mode", JStr (rt_mode result)); ("dry_run", JBool (rt_dry_run result));
   ("retention_days", JInt (rt_retention_days result));
   ("batch_limit", JInt (rt_batch_limit result));
   ("category_counts", JObj ((λ kv, (kv.1, JInt kv.2)) <$> rt_category_counts result));
   ("scheduling", JStr (rt_scheduling result))].

(** The failure is audited after a rollback, and reported to the operator. *)
Definition cleanup_failed (limit : option Z) (confirm : bool) (e : exn) (message : string)
    : M St Retention :=
  _ <- rollback ;;
  _ <- guard confirm (audit_system_event "retention_cleanup" "failed" None
         (requested_metadata limit confirm ++ [("error_type", JStr (exn_class e))])%list) ;;
  raise (ClickException message).

Definition _run_audited_retention_cleanup (limit : option Z) (confirm : bool) : M St Retention :=
  _ <- guard confirm
         (try_except (audit_system_event_required "retention_cleanup" "started" None
                        (requested_metadata limit confirm))
            is_audit_write_error
            (λ _, raise (ClickException
               "Retention cleanup refused because audit evidence is unavailable"))) ;;
  result <- try_except
    (run_retention_cleanup None limit (negb confirm) confirm (negb confirm)) any_exn
    (λ e, cleanup_failed limit confirm e
            (match e with
             | RetentionCleanupError message => message
             | _ => "Retention cleanup failed and no cleanup changes were committed"
             end)) ;;
  if confirm then
    try_except
      (_ <- audit_system_event_in_transaction_required "retention_cleanup" "completed" None
              (completed_metadata result) ;;
       _ <- commit ;;
       ret result) any_exn
      (λ e, cleanup_failed limit confirm e
         ("Retention cleanup rolled back because completion audit " +:+
          "evidence could not be recorded"))
  else
    _ <- audit_system_event "retention_cleanup" "dry_run" None (completed_metadata result) ;;
    ret result.

End Cleanup.

(** ** What a table keeps *)

Definition drop_rows {V} (criteria : Z → V → bool) (limit : Z) (t : gmap Z V) : gmap Z V :=
  purge (selected criteria limit t) t.

Lemma purge_lookup {V} ids (t : gmap Z V) k :
  purge ids t !! k = if decide (k ∈ ids) then None else t !! k.
Proof.
  induction ids as [|i ids IH]; [by case_decide; set_solver|].
  change (purge (i :: ids) t) with (delete i (purge ids t)). rewrite lookup_delete, IH.
  repeat case_decide; set_solver.
Qed.

Lemma matching_spec {V} (c : Z → V → bool) t k :
  k ∈ matching c t ↔ ∃ v, t !! k = Some v ∧ c k v = true.
Proof.
  unfold matching. rewrite list_elem_of_fmap. split.
  - intros ([i v] & -> & [Hc Hi]%list_elem_of_filter). exists v.
    split; [by apply elem_of_map_to_list|done].
  - intros (v & Hv & Hc). exists (k, v). split; [done|].
    apply list_elem_of_filter. split; [done|]. by apply elem_of_map_to_list.
Qed.

Lemma matching_NoDup {V} (c : Z → V → bool) t : NoDup (matching c t).
Proof.
  unfold matching. apply NoDup_fmap_fst; [|apply NoDup_filter, NoDup_map_to_list].
  intros i v w [_ Hv]%list_elem_of_filter [_ Hw]%list_elem_of_filter.
  apply elem_of_map_to_list in Hv, Hw. congruence.
Qed.

Lemma selected_NoDup {V} (c : Z → V → bool) limit t : NoDup (selected c limit t).
Proof.
  unfold selected. eapply sublist_NoDup; [|apply sublist_take].
  rewrite sort_by_perm. apply matching_NoDup.
Qed.

Lemma selected_matching {V} (c : Z → V → bool) limit t k :
  k ∈ selected c limit t → k ∈ matching c t.
Proof.
  unfold selected. intros Hk. rewrite <- (sort_by_perm Z.leb).
  apply elem_of_take in Hk as (i & Hi & _). by eapply list_elem_of_lookup_2.
Qed.

(** Rows that do not meet the criteria stay ... *)
Lemma drop_rows_keeps {V} (c : Z → V → bool) limit t k v :
  t !! k = Some v → c k v = false → drop_rows c limit t !! k = Some v.
Proof.
  intros Hk Hc. unfold drop_rows. rewrite purge_lookup. rewrite decide_False; [done|].
  intros Hs%selected_matching%matching_spec. destruct Hs as (w & Hw & ?). simplify_eq. congruence.
Qed.

(** ... and no row appears. *)
Lemma drop_rows_sub {V} (c : Z → V → bool) limit t : drop_rows c limit t ⊆ t.
Proof.
  apply map_subseteq_spec. intros k v. unfold drop_rows. rewrite purge_lookup. by case_decide.
Qed.

Lemma matching_drop {V} (c : Z → V → bool) limit t :
  matching c (drop_rows c limit t) ⊆+ drop (Z.to_nat limit) (sort_by Z.leb (matching c t)).
Proof.
  apply NoDup_submseteq; [apply matching_NoDup|].
  intros k (v & Hv & Hc)%matching_spec. unfold drop_rows in Hv. rewrite purge_lookup in Hv.
  case_decide as Hk; [done|].
  assert (k ∈ matching c t) as Hm by (apply matching_spec; by exists v).
  rewrite <- (sort_by_perm Z.leb) in Hm.
  rewrite <- (take_drop (Z.to_nat limit) (sort_by Z.leb (matching c t))) in Hm.
  apply elem_of_app in Hm as [Hm|Hm]; [|done]. by destruct Hk.
Qed.

(** A batch removes [limit] matching rows, or all of them. *)
Lemma drop_rows_progress {V} (c : Z → V → bool) limit t :
  (length (matching c (drop_rows c limit t)) ≤ length (matching c t) - Z.to_nat limit)%nat.
Proof.
  rewrite (submseteq_length _ _ (matching_drop c limit t)).
  by rewrite length_drop, sort_by_perm.
Qed.

Lemma unique_purge {V K} `{EqDecision K} (f : V → option K) ids t :
  unique_on f t = true → unique_on f (purge ids t) = true.
Proof. intros Hu. induction ids; simpl; [done|]. by apply unique_on_delete. Qed.

Lemma all_rows_sub {V} (P : V → bool) (t t' : gmap Z V) :
  t' ⊆ t → all_rows P t = true → all_rows P t' = true.
Proof.
  intros Hs Ht. unfold all_rows. apply forallb_forall. intros v Hv%list_elem_of_In.
  apply list_elem_of_fmap in Hv as ([k w] & -> & Hk%elem_of_map_to_list).
  eapply all_rows_lookup; [exact Ht|]. by eapply map_subseteq_spec.
Qed.

(** ** The whole cleanup as a function of the database *)

Section Tidy.
Context (now cutoff limit : Z).

Definition end_sessions (t : gmap Z ServerSideSession) : gmap Z ServerSideSession :=
  foldl (λ t (kv : Z * ServerSideSession), alter (end_expired now) kv.1 t) t
    (firstn (Z.to_nat limit) (sort_by expires_first (rows_where (expired_session now) t))).

Definition sessions_after (t : gmap Z ServerSideSession) : gmap Z ServerSideSession :=
  drop_rows (λ _ r, old_session cutoff r) limit (end_sessions t).

Definition tidy (d : Db) : Db :=
  let d1 := upd_password_reset_transactions (drop_rows (λ _ r, prx_expires_at r <=? now) limit)
    (upd_registration_otp_challenges (drop_rows (λ _ r, ro_expires_at r <=? now) limit)
    (upd_totp_replay_records (drop_rows (λ _ r, tr_expires_at r <=? now) limit)
    (upd_auth_attempt_counters (drop_rows (λ _ r, ac_window_expires_at r <=? now) limit)
    (upd_server_side_sessions sessions_after d)))) in
  upd_topup_approval_requests (drop_rows (λ _ r, terminal_topup cutoff r) limit)
    (upd_known_devices (drop_rows (λ _ r, kd_expires_at r <=? now) limit)
    (upd_public_transaction_idempotency (drop_rows (λ _ r, pi_expires_at r <=? now) limit)
    (upd_security_circuit_breakers (drop_rows (λ _ r, closed_breaker cutoff r) limit)
    (upd_security_alert_dedupe (drop_rows (λ _ r, ad_expires_at r <=? now) limit)
    (upd_password_reset_tokens (drop_rows (unused_token now d1) limit) d1))))).

Lemma unique_alter {V K} `{EqDecision K} (f : V → option K) g i t :
  (∀ v, f (g v) = f v) → unique_on f t = true → unique_on f (alter g i t) = true.
Proof.
  intros Hf Hu. destruct (t !! i) as [v|] eqn:E.
  - assert (alter g i t = <[i := g v]> t) as ->; [|by apply (unique_on_update f t i v)].
    apply map_eq. intros j. rewrite lookup_alter, lookup_insert. case_decide; subst; by rewrite ?E.
  - assert (alter g i t = t) as ->; [|done].
    apply map_eq. intros j. rewrite lookup_alter. case_decide; subst; by rewrite ?E.
Qed.

Lemma unique_sessions_after t :
  unique_on (λ r, Some (ss_component r, ss_session_lookup_hash r)) t = true →
  unique_on (λ r, Some (ss_component r, ss_session_lookup_hash r)) (sessions_after t) = true.
Proof.
  intros Hu. apply unique_purge. unfold end_sessions.
  generalize (take (Z.to_nat limit) (sort_by expires_first (rows_where (expired_session now) t))).
  intros l. revert t Hu. induction l as [|kv l IH]; intros t Hu; simpl; [done|].
  apply IH. by apply unique_alter.
Qed.

(** The constraints survive: rows are deleted, or keep their keys. *)
Lemma db_ok_tidy d : db_ok d = true → db_ok (tidy d) = true.
Proof.
  unfold db_ok. intros Hd. repeat (apply andb_prop in Hd as [Hd ?]).
  repeat (apply andb_true_intro; split); try assumption;
    solve [by apply unique_purge | by apply unique_sessions_after
          | eapply all_rows_sub; [apply drop_rows_sub|assumption]].
Qed.

(** The records a retention cleanup must not touch; the audit log may grow. *)
Definition preserved (d : Db) :=
  (users d, payees d, transactions d, registration_credits d, topup_credits d,
   (pending_transfers d, payup_pending_transfers d, recovery_codes d, password_history d),
   (manual_recovery_requests d, support_tickets d, staff_invites d, admin_action_requests d),
   (person_identity_links d, transaction_disputes d)).

(** A session survives as it was, or as an expired session that was ended. *)
Definition survives (r : ServerSideSession) (o : option ServerSideSession) : Prop :=
  o = Some r ∨ (expired_session now r = true ∧ o = Some (end_expired now r)).

Lemma end_each_survives k r (l : list (Z * ServerSideSession)) (t : gmap Z ServerSideSession) :
  Forall (λ kv, kv.1 = k → expired_session now r = true) l → survives r (t !! k) →
  survives r (foldl (λ t (kv : Z * ServerSideSession), alter (end_expired now) kv.1 t) t l !! k).
Proof.
  intros HF. revert t. induction HF as [|[i v] l Hv _ IH]; intros t Ht; simpl; [done|].
  apply IH. simpl in Hv. destruct (decide (i = k)) as [->|Hne]; [|by rewrite lookup_alter_ne].
  rewrite lookup_alter_eq. right. split; [by apply Hv|]. by destruct Ht as [->|[_ ->]].
Qed.

Lemma sessions_after_keeps t k r :
  t !! k = Some r → cutoff ≤ now → old_session cutoff r = false →
  survives r (sessions_after t !! k).
Proof.
  intros Hk Hcut Hold. unfold sessions_after.
  assert (survives r (end_sessions t !! k)) as [E|[Hx E]].
  { apply end_each_survives; [|by left]. apply Forall_take. rewrite sort_by_perm.
    apply Forall_forall. intros [i v] [Hi Hx]%rows_where_spec. simpl. intros ->. by simplify_eq. }
  - left. by apply drop_rows_keeps.
  - right. split; [done|]. apply drop_rows_keeps; [done|]. simpl. by apply Z.ltb_ge.
Qed.
End Tidy.

(** ** Runs *)

Section Runs.
Context `{Env}.

(** [upd] replaces [table] and nothing else. *)
Definition updates {V} (table : Db → gmap Z V) (upd : (gmap Z V → gmap Z V) → Db → Db) : Prop :=
  ∀ f g d, f (table d) = g (table d) → upd f d = upd g d.

Lemma delete_rows_run {V} (table : Db → gmap Z V) upd criteria limit d s :
  (∀ d, upd (λ t, t) d = d) → updates table upd →
  ∃ n, _delete_rows table upd criteria limit false (set_working d s)
    = (Ok n, set_working (upd (drop_rows (criteria d) limit) d) s).
Proof.
  intros Hid Hup. unfold _delete_rows. erewrite bind_Ok by reflexivity.
  cbn [working set_working].
  rewrite (Hup _ (purge (selected (criteria d) limit (table d))) d) by done.
  destruct (selected _ _ _) as [|i ids] eqn:E; [|by eexists].
  exists 0. by rewrite (Hid d : upd (purge []) d = d).
Qed.

Lemma delete_rows_dry {V} (table : Db → gmap Z V) upd criteria limit s :
  ∃ n, _delete_rows table upd criteria limit true s = (Ok n, s).
Proof.
  unfold _delete_rows. erewrite bind_Ok by reflexivity. by destruct (selected _ _ _); eexists.
Qed.

Lemma fold_upd_sessions (f : Z * ServerSideSession → gmap Z ServerSideSession → gmap Z ServerSideSession) l d :
  foldl (λ d kv, upd_server_side_sessions (f kv) d) d l
  = upd_server_side_sessions (λ t, foldl (λ t kv, f kv t) t l) d.
Proof. revert d. induction l as [|kv l IH]; intros d; simpl; [by destruct d|]. by rewrite IH. Qed.

Lemma mark_run now limit d s :
  ∃ n, _mark_expired_sessions now limit false (set_working d s)
    = (Ok n, set_working (upd_server_side_sessions (end_sessions now limit) d) s).
Proof.
  unfold _mark_expired_sessions. erewrite bind_Ok by reflexivity.
  eexists. erewrite bind_Ok by apply mapM_db_write. 
  cbn beta. rewrite (fold_upd_sessions (λ kv, alter (end_expired now) kv.1)). reflexivity.
Qed.

Lemma mark_dry now limit s : ∃ n, _mark_expired_sessions now limit true s = (Ok n, s).
Proof. by eexists. Qed.

Ltac one_sweep :=
  match goal with
  | |- context [_delete_rows ?tb ?upd ?c ?l false] =>
      match goal with |- context [bind (_delete_rows tb upd c l false) _ (set_working ?d ?st)] =>
        let n := fresh "n" in let E := fresh "E" in
        destruct (delete_rows_run tb upd c l d st ltac:(by intros [])
                    ltac:(intros ? ? []; cbv; by intros ->)) as [n E];
        rewrite (bind_Ok _ _ _ _ _ E); clear E end
  | |- context [_delete_rows ?tb ?upd ?c ?l true] =>
      match goal with |- context [bind (_delete_rows tb upd c l true) _ ?st] =>
        let n := fresh "n" in let E := fresh "E" in
        destruct (delete_rows_dry tb upd c l st) as [n E];
        rewrite (bind_Ok _ _ _ _ _ E); clear E end
  end.

(** A confirmed cleanup tidies the pending database, then commits or flushes. *)
Lemma cleanup_run t limit commits L days s :
  _batch_limit limit = Ok L → config_int "SECURITY_STATE_RETENTION_DAYS" = Ok days →
  ∃ counts, cleanup_expired_security_state (Some t) limit false commits s
    = bind (if commits then commit else flush) (λ _, ret counts)
        (set_working (tidy t (t - days * US_DAY) L (working s)) s).
Proof.
  intros HL Hd. unfold cleanup_expired_security_state. erewrite bind_Ok by reflexivity.
  rewrite HL, Hd. do 2 (erewrite bind_Ok by reflexivity). cbv zeta.
  assert (s = set_working (working s) s) as Es by by destruct s.
  destruct (mark_run t L (working s) s) as [n E]. rewrite <- Es in E.
  rewrite (bind_Ok _ _ _ _ _ E). clear E.
  do 11 one_sweep. eexists. reflexivity.
Qed.

(** A dry run changes nothing. *)
Lemma cleanup_dry t limit commits L days s :
  _batch_limit limit = Ok L → config_int "SECURITY_STATE_RETENTION_DAYS" = Ok days →
  ∃ counts, cleanup_expired_security_state (Some t) limit true commits s
    = (Ok counts, set_working (committed s) s).
Proof.
  intros HL Hd. unfold cleanup_expired_security_state. erewrite bind_Ok by reflexivity.
  rewrite HL, Hd. do 2 (erewrite bind_Ok by reflexivity). cbv zeta.
  match goal with |- context [bind (_mark_expired_sessions ?a ?b true) _ ?st] =>
    destruct (mark_dry a b st) as [n E]; rewrite (bind_Ok _ _ _ _ _ E); clear E end.
  do 11 one_sweep. eexists. reflexivity.
Qed.
End Runs.

(** ** What the operator's cleanup does to the durable database *)

(** Some rows went, none of those that do not meet the criteria. *)
Definition kept {V} (criteria : Z → V → bool) (t t' : gmap Z V) : Prop :=
  t' ⊆ t ∧ ∀ k v, t !! k = Some v → criteria k v = false → t' !! k = Some v.

Lemma drop_rows_kept {V} (c : Z → V → bool) limit t : kept c t (drop_rows c limit t).
Proof. split; [apply drop_rows_sub|intros; by apply drop_rows_keeps]. Qed.

Definition log_grows (d d' : Db) : Prop :=
  ∃ es, d' = upd_security_audit_events (λ l, l ++ es)%list d.

#[export] Instance log_grows_blind d : audit_blind (λ c w, log_grows d c ∧ log_grows d w).
Proof.
  split; try by intros * [? ?]. intros e c w [Hc (es & ->)]. split; [done|].
  exists (es ++ [e])%list. unfold append_event. destruct d. simpl. unfold upd_security_audit_events.
  simpl. by rewrite (assoc_L (++)).
Qed.

(** Nothing that is still live at [t], or younger than [cutoff], is lost. *)
Record spares (t cutoff : Z) (d d' : Db) : Prop := {
  sp_records : preserved d' = preserved d;
  sp_log : ∃ es, security_audit_events d' = (security_audit_events d ++ es)%list;
  sp_sessions k r : server_side_sessions d !! k = Some r → old_session cutoff r = false →
    survives t r (server_side_sessions d' !! k);
  sp_counters : kept (λ _ r, ac_window_expires_at r <=? t) (auth_attempt_counters d)
    (auth_attempt_counters d');
  sp_replays : kept (λ _ r, tr_expires_at r <=? t) (totp_replay_records d) (totp_replay_records d');
  sp_challenges : kept (λ _ r, ro_expires_at r <=? t) (registration_otp_challenges d)
    (registration_otp_challenges d');
  sp_transactions : kept (λ _ r, prx_expires_at r <=? t) (password_reset_transactions d)
    (password_reset_transactions d');
  sp_tokens : kept (unused_token t d') (password_reset_tokens d) (password_reset_tokens d');
  sp_dedupe : kept (λ _ r, ad_expires_at r <=? t) (security_alert_dedupe d) (security_alert_dedupe d');
  sp_breakers : kept (λ _ r, closed_breaker cutoff r) (security_circuit_breakers d)
    (security_circuit_breakers d');
  sp_reservations : kept (λ _ r, pi_expires_at r <=? t) (public_transaction_idempotency d)
    (public_transaction_idempotency d');
  sp_devices : kept (λ _ r, kd_expires_at r <=? t) (known_devices d) (known_devices d');
  sp_topups : kept (λ _ r, terminal_topup cutoff r) (topup_approval_requests d)
    (topup_approval_requests d')
}.

Lemma tidy_spares t cutoff L d d' :
  cutoff ≤ t → log_grows (tidy t cutoff L d) d' → spares t cutoff d d'.
Proof.
  intros Hc (es & ->). split; try apply drop_rows_kept; [done|by exists es|].
  intros k r Hk Hr. by apply sessions_after_keeps.
Qed.

Section Retention.
Context `{Env}.

Lemma cleanup_now limit dry_run commits s t s1 :
  now_utc s = (Ok t, s1) →
  cleanup_expired_security_state None limit dry_run commits s
  = cleanup_expired_security_state (Some t) limit dry_run commits s1.
Proof. intros Et. unfold cleanup_expired_security_state at 1, bind at 1. by rewrite Et. Qed.

Lemma retention_confirmed limit s r s' :
  run_retention_cleanup None limit false true false s = (r, s') →
  committed s' = committed s ∧ clock s ≤ clock s' ∧
  (is_ok r = true → ∃ t days L, 1 ≤ days ≤ 365 ∧ clock s ≤ t ≤ clock s'
     ∧ working s' = tidy t (t - days * US_DAY) L (working s)).
Proof.
  unfold run_retention_cleanup, bind at 1, lift at 1, _configured_int at 1.
  destruct (config_int "SECURITY_STATE_RETENTION_DAYS") as [days|] eqn:Hd; [|by intros [= <- <-]].
  destruct ((days <? 1) || (365 <? days)) eqn:Hr; [by intros [= <- <-]|].
  apply orb_false_iff in Hr as [H1%Z.ltb_ge H2%Z.ltb_ge].
  unfold bind at 1, lift at 1. destruct (_configured_int _ _ _) as [size|]; [|by intros [= <- <-]].
  unfold bind at 1, lift at 1. destruct (_validated_limit limit) as [lim|]; [|by intros [= <- <-]].
  cbn [negb andb]. cbv zeta. unfold bind at 1.
  destruct (now_utc s) as [[t|e] s1] eqn:Et; [|by unfold now_utc in Et; simplify_eq].
  rewrite (cleanup_now _ _ _ _ _ _ Et).
  destruct (now_utc_mono _ _ _ Et) as [Hm Hcl].
  assert (committed s1 = committed s ∧ working s1 = working s) as [Hcm Hw]
    by (unfold now_utc in Et; by simplify_eq).
  destruct (_batch_limit lim) as [L|] eqn:HL.
  2:{ unfold cleanup_expired_security_state, bind at 1 2, lift at 1. cbn [ret]. rewrite HL.
      intros [= <- <-]. split_and!; [done|lia|done]. }
  destruct (cleanup_run t lim false L days s1 HL Hd) as [counts ->].
  unfold bind, flush. cbn [working set_working]. destruct (db_ok _); intros [= <- <-]; cbn.
  - split_and!; [done|lia|]. intros _. exists t, days, L. rewrite Hw. split_and!; done || lia.
  - split_and!; [done|lia|done].
Qed.

Lemma retention_dry limit confirm commits s r s' :
  run_retention_cleanup None limit true confirm commits s = (r, s') →
  committed s' = committed s ∧ clock s ≤ clock s' ∧ (working s' = committed s ∨ working s' = working s).
Proof.
  unfold run_retention_cleanup, bind at 1, lift at 1, _configured_int at 1.
  destruct (config_int "SECURITY_STATE_RETENTION_DAYS") as [days|] eqn:Hd; [|intros [= <- <-]; auto with lia].
  destruct ((days <? 1) || (365 <? days)) eqn:Hr; [intros [= <- <-]; auto with lia|].
  unfold bind at 1, lift at 1. destruct (_configured_int _ _ _) as [size|]; [|intros [= <- <-]; auto with lia].
  unfold bind at 1, lift at 1. destruct (_validated_limit limit) as [lim|]; [|intros [= <- <-]; auto with lia].
  cbn [negb andb]. cbv zeta. unfold bind at 1.
  destruct (now_utc s) as [[t|e] s1] eqn:Et; [|by unfold now_utc in Et; simplify_eq].
  rewrite (cleanup_now _ _ _ _ _ _ Et).
  destruct (now_utc_mono _ _ _ Et) as [Hm Hcl].
  assert (committed s1 = committed s ∧ working s1 = working s) as [Hcm Hw]
    by (unfold now_utc in Et; by simplify_eq).
  destruct (_batch_limit lim) as [L|] eqn:HL.
  2:{ unfold cleanup_expired_security_state, bind at 1 2, lift at 1. cbn [ret]. rewrite HL.
      intros [= <- <-]. rewrite Hcm, Hw. split_and!; auto with lia. }
  destruct (cleanup_dry t lim commits L days s1 HL Hd) as [counts ->].
  intros [= <- <-]. cbn. rewrite Hcm. split_and!; auto with lia.
Qed.

Section Invariant.
Context (d0 : Db).
Definition grown : Db → Db → Prop := λ c w, log_grows d0 c ∧ log_grows d0 w.
#[local] Instance grown_blind : audit_blind grown := log_grows_blind d0.

Lemma pres_system_grown ty out u md b c :
  preserves (on_db grown) (_write_system_audit_event ty out u md b c).
Proof.
  apply pres_system_write; [apply blind_rollback|apply blind_commit|intros; by apply blind_append].
Qed.
Hint Resolve pres_system_grown : pres.
Lemma pres_failed limit confirm e m : preserves (on_db grown) (cleanup_failed limit confirm e m).
Proof. unfold cleanup_failed, audit_system_event. solve_pres. Qed.
Hint Resolve pres_failed : pres.

(** A failed run is rolled back. *)
Lemma failed_grows limit confirm e m s :
  log_grows d0 (committed s) → on_db grown (cleanup_failed limit confirm e m s).2.
Proof.
  intros Hs. unfold cleanup_failed. erewrite bind_Ok by reflexivity.
  match goal with |- on_db grown (?c ?st).2 =>
    assert (preserves (on_db grown) c) as Hp by (unfold audit_system_event; solve_pres); by apply Hp end.
Qed.

Lemma pres_dry limit confirm commits :
  preserves (on_db grown) (run_retention_cleanup None limit true confirm commits).
Proof.
  intros s [Hc Hw]. destruct (run_retention_cleanup _ _ _ _ _ s) as [r s'] eqn:E.
  apply retention_dry in E as (E & _ & Ew). unfold on_db. simpl. rewrite E.
  split; [done|]. by destruct Ew as [->| ->].
Qed.
End Invariant.

Lemma nb_system t ty out u md b c :
  preserves (not_before t) (_write_system_audit_event ty out u md b c).
Proof. unfold _write_system_audit_event. solve_pres. Qed.
Hint Resolve nb_system : pres.

Lemma nb_audited_cleanup t limit confirm :
  preserves (not_before t) (_run_audited_retention_cleanup limit confirm).
Proof.
  unfold _run_audited_retention_cleanup, run_retention_cleanup, cleanup_expired_security_state,
    _mark_expired_sessions, _delete_rows, cleanup_failed, audit_system_event_required,
    audit_system_event, audit_system_event_in_transaction_required. solve_pres.
Qed.

Lemma raises_failed limit confirm e m : raises (cleanup_failed limit confirm e m).
Proof. do 2 (apply raises_bind; intros ?). apply raises_raise. Qed.

Lemma log_grows_append d d' e : log_grows d d' → log_grows d (append_event e d').
Proof. intros Hg. exact (proj2 (blind_append e d' d' (conj Hg Hg))). Qed.

(** The completion event goes to the pending database; the commit that follows
    makes all of it durable, or none. *)
Definition complete_cleanup (result : Retention) : M St Retention :=
  _ <- audit_system_event_in_transaction_required "retention_cleanup" "completed" None
         (completed_metadata result) ;;
  _ <- commit ;;
  ret result.

Lemma completion_pending d c0 ty out u md :
  preserves (on_db (λ c w, c = c0 ∧ log_grows d w))
    (audit_system_event_in_transaction_required ty out u md).
Proof.
  unfold audit_system_event_in_transaction_required, _write_system_audit_event. cbn iota.
  solve_pres. apply pres_db_write. intros c w [-> Hw]. split; [done|]. by apply log_grows_append.
Qed.

Lemma completion_cases d result s r s' :
  complete_cleanup result s = (r, s') → log_grows d (working s) →
  (is_ok r = true ∧ log_grows d (committed s')) ∨ (is_ok r = false ∧ committed s' = committed s).
Proof.
  unfold complete_cleanup. intros E Hw.
  pose proof (completion_pending d (committed s) "retention_cleanup" "completed" None
    (completed_metadata result) s (conj eq_refl Hw)) as Hp.
  unfold bind at 1 in E. destruct (audit_system_event_in_transaction_required _ _ _ _ s) as [[e|e] s1].
  2:{ injection E as <- <-. right. split; [done|]. apply Hp. }
  destruct Hp as [Hc1 Hw1]. simpl in Hc1, Hw1.
  unfold bind, commit in E. destruct (db_ok _); injection E as <- <-; [left|right]; split; done || exact Hc1.
Qed.

Lemma grown_start s : working s = committed s → on_db (grown (committed s)) s.
Proof.
  intros Hw. split; [|rewrite Hw]; exists []; unfold upd_security_audit_events; rewrite app_nil_r;
    by destruct (committed s).
Qed.

Lemma audited_cleanup_confirmed limit s r s' :
  working s = committed s → _run_audited_retention_cleanup limit true s = (r, s') →
  log_grows (committed s) (committed s')
  ∨ (is_ok r = true ∧ ∃ t days L, 1 ≤ days ≤ 365 ∧ clock s ≤ t ≤ clock s'
     ∧ log_grows (tidy t (t - days * US_DAY) L (committed s)) (committed s')).
Proof.
  intros Hw. set (d0 := committed s).
  pose proof (grown_start s Hw) as Hs. fold d0 in Hs.
  unfold _run_audited_retention_cleanup. unfold bind at 1.
  match goal with |- (let '(_, _) := ?c s in _) = _ → _ =>
    assert (preserves (on_db (grown d0)) c) as Hp1
      by (unfold audit_system_event_required; solve_pres; apply pres_system_grown);
    assert (preserves (not_before (clock s)) c) as Hn1 by (unfold audit_system_event_required; solve_pres);
    specialize (Hp1 s Hs); specialize (Hn1 s (Z.le_refl _)); destruct (c s) as [[[]|e] s1] end.
  2:{ intros [= <- <-]. left. by destruct Hp1. }
  simpl in Hp1, Hn1. destruct Hp1 as [Hc1 Hw1]. unfold bind at 1, try_except at 1.
  destruct (run_retention_cleanup _ _ _ _ _ s1) as [[result|e] s2] eqn:E2;
    apply retention_confirmed in E2 as (Hc2 & Hm2 & Hok).
  2:{ cbn [any_exn]. pose proof (failed_grows d0 limit true e) as Hf.
      match goal with |- context [cleanup_failed _ _ _ ?m s2] =>
        specialize (Hf m s2 ltac:(by rewrite Hc2)); pose proof (raises_failed limit true e m s2) as Hr end.
      destruct (cleanup_failed _ _ _ _ s2) as [[x|x] s3]; [by destruct (Hr x s3)|].
      intros [= <- <-]. left. by destruct Hf. }
  destruct (Hok eq_refl) as (t & days & L & Hdays & Ht & Hw2). cbn iota. fold (complete_cleanup result).
  unfold try_except.
  assert (log_grows (tidy t (t - days * US_DAY) L d0) (working s2)) as Hg.
  { rewrite Hw2. destruct Hw1 as (es & ->). by exists es. }
  destruct (complete_cleanup result s2) as [[x|x] s3] eqn:E3.
  - pose proof (completion_cases _ _ _ _ _ E3 Hg) as [[_ Hg3]|[? _]]; [|done].
    intros [= <- <-]. right. split; [done|]. exists t, days, L. split_and!; [lia..| | |done].
    + unfold not_before in Hn1. lia.
    + assert (preserves (not_before (clock s2)) (complete_cleanup result)) as Hp.
      { unfold complete_cleanup, audit_system_event_in_transaction_required. solve_pres. }
      specialize (Hp s2 (Z.le_refl _)). rewrite E3 in Hp. unfold not_before in Hp. simpl in Hp. lia.
  - pose proof (completion_cases _ _ _ _ _ E3 Hg) as [[? _]|[_ Hc3]]; [done|]. cbn [any_exn].
    pose proof (failed_grows d0 limit true x) as Hf.
    match goal with |- context [cleanup_failed _ _ _ ?m s3] =>
      specialize (Hf m s3 ltac:(by rewrite Hc3, Hc2)) end.
    destruct (cleanup_failed _ _ _ _ s3) as [y s4]. intros [= <- <-]. left. by destruct Hf.
Qed.

Lemma audited_cleanup_dry limit s r s' :
  working s = committed s → _run_audited_retention_cleanup limit false s = (r, s') →
  log_grows (committed s) (committed s').
Proof.
  intros Hw E. set (d0 := committed s).
  pose proof (grown_start s Hw) as Hs. fold d0 in Hs.
  assert (preserves (on_db (grown d0)) (_run_audited_retention_cleanup limit false)) as Hp.
  { unfold _run_audited_retention_cleanup, audit_system_event, audit_system_event_required. cbn iota.
    solve_pres; try apply pres_dry; try apply pres_failed; apply pres_system_grown. }
  specialize (Hp s Hs). rewrite E in Hp. by destruct Hp.
Qed.

(** C17: the operator's retention cleanup loses nothing that is live.  Without
    confirmation, and whenever it fails, the durable database only gains audit
    events; a confirmed run that succeeds keeps every account, payee, ledger and
    case record, every session that has not been over for the retention period,
    and every counter, replay record, challenge, reset, reservation, device and
    top-up request that has not expired at an instant the run spans. *)
Theorem retention_spares_live_state limit confirm s r s' :
  working s = committed s → _run_audited_retention_cleanup limit confirm s = (r, s') →
  log_grows (committed s) (committed s')
  ∨ (confirm = true ∧ is_ok r = true ∧ ∃ t days, 1 ≤ days ≤ 365 ∧ clock s ≤ t ≤ clock s'
     ∧ spares t (t - days * US_DAY) (committed s) (committed s')).
Proof.
  intros Hw E. destruct confirm; [|left; by eapply audited_cleanup_dry].
  destruct (audited_cleanup_confirmed _ _ _ _ Hw E) as [Hg|(Hok & t & days & L & Hd & Ht & Hg)];
    [by left|right]. split_and!; [done|done|]. exists t, days. split_and!; [lia..|].
  eapply tidy_spares; [|exact Hg]. unfold US_DAY, US_SECOND. lia.
Qed.

(** ** Expired state does not linger *)

(** State that is deleted once it expires. *)
Inductive Category : Type :=
  | AttemptCounters | ReplayRecords | OtpChallenges | ResetTransactions | AlertDedupe
  | Reservations | KnownDevices.

Definition backlog (c : Category) (t : Z) (d : Db) : nat :=
  match c with
  | AttemptCounters => length (matching (λ _ r, ac_window_expires_at r <=? t) (auth_attempt_counters d))
  | ReplayRecords => length (matching (λ _ r, tr_expires_at r <=? t) (totp_replay_records d))
  | OtpChallenges => length (matching (λ _ r, ro_expires_at r <=? t) (registration_otp_challenges d))
  | ResetTransactions =>
      length (matching (λ _ r, prx_expires_at r <=? t) (password_reset_transactions d))
  | AlertDedupe => length (matching (λ _ r, ad_expires_at r <=? t) (security_alert_dedupe d))
  | Reservations =>
      length (matching (λ _ r, pi_expires_at r <=? t) (public_transaction_idempotency d))
  | KnownDevices => length (matching (λ _ r, kd_expires_at r <=? t) (known_devices d))
  end.

Lemma tidy_progress c t cutoff L d :
  (backlog c t (tidy t cutoff L d) ≤ backlog c t d - Z.to_nat L)%nat.
Proof. destruct c; apply drop_rows_progress. Qed.

(** [n] cleanups, each committed. *)
Fixpoint cleanups (n : nat) (t : Z) (limit : option Z) : M St unit :=
  match n with
  | O => ret tt
  | S n => _ <- cleanup_expired_security_state (Some t) limit false true ;; cleanups n t limit
  end.

Lemma batch_limit_bounds limit L : _batch_limit limit = Ok L → 1 ≤ L ≤ 5000.
Proof.
  unfold _batch_limit. destruct limit as [v|]; [intros [= <-]; lia|].
  destruct (config_item _) as [v|]; cbn [rbind]; [|done]. destruct (py_int (Some v)).
  - intros [= <-]. lia.
  - case_match; [|done]. destruct (config_int _); cbn [rbind]; [intros [= <-]; lia|done].
Qed.

Lemma cleanups_drain n t limit L days :
  _batch_limit limit = Ok L → config_int "SECURITY_STATE_RETENTION_DAYS" = Ok days →
  ∀ s, db_ok (working s) = true →
  ∃ s', cleanups n t limit s = (Ok tt, s') ∧ db_ok (working s') = true ∧
    ∀ c, (backlog c t (working s') ≤ backlog c t (working s) - n * Z.to_nat L)%nat.
Proof.
  intros HL Hd. induction n as [|n IH]; intros s Hok.
  { exists s. split_and!; [done|done|]. intros c. lia. }
  destruct (cleanup_run t limit true L days s HL Hd) as [counts E].
  set (d1 := tidy t (t - days * US_DAY) L (working s)) in E.
  assert (db_ok d1 = true) as Hok1 by by apply db_ok_tidy.
  destruct (IH (set_committed d1 (set_working d1 s)) Hok1) as (s' & E' & Hok' & Hb).
  exists s'. split; [|split; [done|]].
  - simpl. unfold bind at 1. rewrite E. unfold bind at 1, commit. cbn [working set_working].
    by rewrite Hok1.
  - intros c. specialize (Hb c). simpl in Hb.
    pose proof (tidy_progress c t (t - days * US_DAY) L (working s)). fold d1 in H0. lia.
Qed.

(** C16: expired state does not linger: from any database that meets its
    constraints, every one of the repeated confirmed cleanups succeeds, and once
    the batches cover the backlog of a kind of state, no row of it that had
    expired at the cleanup's instant is left. *)
Theorem expired_state_is_drained n t limit L days s :
  _batch_limit limit = Ok L → config_int "SECURITY_STATE_RETENTION_DAYS" = Ok days →
  db_ok (working s) = true →
  ∃ s', cleanups n t limit s = (Ok tt, s') ∧ 1 ≤ L ∧
    ∀ c, (backlog c t (working s) ≤ n * Z.to_nat L)%nat → backlog c t (working s') = 0%nat.
Proof.
  intros HL Hd Hok. destruct (cleanups_drain n t limit L days HL Hd s Hok) as (s' & E & _ & Hb).
  exists s'. split_and!; [done|by apply batch_limit_bounds in HL as [? _]|].
  intros c Hc. specialize (Hb c). lia.
Qed.
End Retention.

(** ** A run on the sample bank *)

Definition cleanup_config (name : string) : option jval :=
  if bool_decide (name = "SECURITY_STATE_RETENTION_DAYS") then Some (JInt 30)
  else if bool_decide (name = "SECURITY_STATE_CLEANUP_BATCH_SIZE") then Some (JInt 500)
  else Sample.sample_config name.

Definition cleanup_env : Env :=
  Sample.deployment_with cleanup_config (λ k m, k +:+ m) (λ _, "token") None.

(** Alice has an expired and a current device. *)
Definition cleanup_db : Db :=
  upd_known_devices (λ _, <[1 := mkKnownDevice 1 "old" Sample.opened Sample.opened (Sample.noon - 1)]>
    {[ 2 := mkKnownDevice 1 "new" Sample.opened Sample.opened (Sample.noon + US_DAY) ]}) Sample.sample_db.
Definition cleanup_start : St := set_committed cleanup_db (set_working cleanup_db Sample.sample_state).

Lemma retention_spares_live_state_witness :
  let run := @_run_audited_retention_cleanup cleanup_env (Some 10) true cleanup_start in
  is_ok run.1 = true ∧ backlog KnownDevices Sample.noon (committed run.2) = 0%nat ∧
  (log_grows (committed cleanup_start) (committed run.2)
   ∨ (true = true ∧ is_ok run.1 = true ∧ ∃ t days, 1 ≤ days ≤ 365
      ∧ clock cleanup_start ≤ t ≤ clock run.2
      ∧ spares t (t - days * US_DAY) (committed cleanup_start) (committed run.2))).
Proof.
  intros run. split; [vm_compute; reflexivity|]. split; [vm_compute; reflexivity|].
  exact (@retention_spares_live_state cleanup_env (Some 10) true cleanup_start run.1 run.2 eq_refl
           (surjective_pairing run)).
Defined.

Lemma expired_state_is_drained_witness :
  backlog KnownDevices Sample.noon cleanup_db = 1%nat ∧
  ∃ s', @cleanups cleanup_env 1 Sample.noon None cleanup_start = (Ok tt, s') ∧ 1 ≤ 500 ∧
    ∀ c, (backlog c Sample.noon cleanup_db ≤ 1 * Z.to_nat 500)%nat →
      backlog c Sample.noon (working s') = 0%nat.
Proof.
  split; [vm_compute; reflexivity|].
  apply (@expired_state_is_drained cleanup_env 1 Sample.noon None 500 30 cleanup_start);
    vm_compute; reflexivity.
Defined.
End StateCleanup.
