(* ===== verification/Idempotency.v ===== *)
(** * Public transaction requests ([app/banking/schemas.py],
    [app/banking/services.py])

    [validate_public_transaction_payload] checks a request and durably reserves
    its idempotency key.  The data the request carries is a JSON object.  The
    field types and validators of the validation library are the class
    [Marshmallow]; [load_fields] are the declarations of the schema over them.

    The module [Idempotency] holds the schema and the reservation protocol;
    [FirstUse] shows that in any run of requests shorter than the reservation's
    lifetime no key of a user is accepted twice. *)

From S2P Require Import Prelude PyStr PyDecimal TimeModel Schema Runtime Sample Integrity.
From S2P Require Import AuditLog BankingPolicy Notifications StateCleanup.
From Stdlib Require Import Ascii.
Open Scope string_scope.
Open Scope Z_scope.

Module Idempotency.
Import SessionHmac Audit Ledger Policy Notifications StateCleanup.

(** ** The schema *)

Definition MIN_TRANSACTION_AMOUNT : pydec := DFin 1 (-2).
Definition MAX_TRANSACTION_AMOUNT : pydec := DFin 5000000 (-2).
Definition SUPPORTED_TRANSACTION_CURRENCIES : list string := ["SGD"].

Definition is_hex (c : ascii) : bool :=
  is_digit c || (65 <=? code c) && (code c <=? 70) || (97 <=? code c) && (code c <=? 102).

(** The groups of a UUID: the first character of the third and of the fourth
    group are the version and the variant. *)
Definition IDEMPOTENCY_KEY_PATTERN (s : string) : bool :=
  match split_on "-"%char (chars s) with
  | [a; b; v :: c; w :: d; e] =>
      (length a =? 8)%nat && forallb is_hex a && (length b =? 4)%nat && forallb is_hex b
      && (49 <=? code v) && (code v <=? 53) && (length c =? 3)%nat && forallb is_hex c
      && str_in (String w "") ["8"; "9"; "a"; "b"; "A"; "B"] && (length d =? 3)%nat
      && forallb is_hex d && (length e =? 12)%nat && forallb is_hex e
  | _ => false
  end.

Definition payee_char (c : ascii) : bool :=
  is_upper c || is_digit c
  || str_in (String c "") [" "; "."; "_"; ":"; "/"; "+"; "-"].

Definition PAYEE_IDENTIFIER_PATTERN (s : string) : bool :=
  match chars s with
  | c :: rest => (is_upper c || is_digit c) && forallb payee_char rest
                 && (2 <=? length rest)%nat && (length rest <=? 79)%nat
  | [] => false
  end.

Definition drop_sign (l : list ascii) : list ascii :=
  match l with
  | c :: l' => if bool_decide (c = "+"%char) || bool_decide (c = "-"%char) then l' else l
  | [] => []
  end.

(** [DECIMAL_AMOUNT_PATTERN.fullmatch(text)]: the decimals of the match, if the
    text is a plain decimal numeral. *)
Definition DECIMAL_AMOUNT_PATTERN (text : string) : option nat :=
  let l := drop_sign (chars text) in
  match partition_char "."%char l with
  | None => if nonempty (of_chars l) && forallb is_digit l then Some 0%nat else None
  | Some (whole, decimals) =>
      if nonempty (of_chars whole) && forallb is_digit whole
         && nonempty (of_chars decimals) && forallb is_digit decimals
      then Some (length decimals) else None
  end.

(** What the loader returns, and what [load] hands to the caller. *)
Record PublicTransaction : Type := mkPublicTransaction {
  px_idempotency_key : string;
  px_amount : pydec;
  px_currency : string;
  px_payee : string
}.

(** [str(value).strip()] of an entry that is present and not [None]. *)
Definition strip_entry (key : string) (data : list (string * jval)) : list (string * jval) :=
  match obj_get key data with
  | Some JNull | None => data
  | Some v => obj_set key (JStr (strip (py_str v))) data
  end.

Definition map_entry (key : string) (f : string → string) (data : list (string * jval))
    : list (string * jval) :=
  match obj_get key data with
  | Some JNull | None => data
  | Some v => obj_set key (JStr (f (py_str v))) data
  end.

(** [PublicTransactionSchema.normalize_input]; [None]: [ValidationError]. *)
Definition normalize_input (data : list (string * jval)) : option (list (string * jval)) :=
  let normalized := foldl (λ d k, strip_entry k d) data ["idempotency_key"; "currency"; "payee"] in
  let normalized := map_entry "currency" upper normalized in
  let normalized := map_entry "payee" (λ t, join " " (split_ws (upper t))) normalized in
  match obj_get "amount" normalized with
  | Some JNull | None => Some normalized
  | Some v =>
      match DECIMAL_AMOUNT_PATTERN (strip (py_str v)) with
      | Some decimals => if (2 <? decimals)%nat then None else Some normalized
      | None => Some normalized
      end
  end.

(** [PublicTransactionSchema.validate_business_rules]; [false]:
    [ValidationError]. *)
Definition validate_business_rules (data : PublicTransaction) : bool :=
  let currency := upper (strip (px_currency data)) in
  is_finite (px_amount data) && (-2 <=? exponent (px_amount data))
  && (negb (nonempty currency) || str_in currency SUPPORTED_TRANSACTION_CURRENCIES).

(** [PublicTransactionSchema.normalize]. *)
Definition normalize (data : PublicTransaction) : PublicTransaction :=
  mkPublicTransaction (strip (px_idempotency_key data)) (px_amount data)
    (upper (px_currency data)) (upper (px_payee data)).

(** What the schema takes from the validation library: the conversions of
    [fields.Str] and of [fields.Decimal(places=_, allow_nan=False)], and the
    validators [Length], [Regexp] (given which texts the pattern matches in full)
    and [Range]. *)
Class Marshmallow : Type := {
  Str : jval → option string;
  Decimal (places : Z) : jval → option pydec;
  Length (minimum maximum : nat) : string → bool;
  Regexp (pattern : string → bool) : string → bool;
  Range (minimum maximum : pydec) : pydec → bool
}.
(** Their documented behaviour.  [Regexp] uses [re.match], where [$] also matches
    before a final newline. *)
Class MarshmallowLaws (m : Marshmallow) : Prop := {
  str_keeps text : Str (JStr text) = Some text;
  decimal_places places v d : Decimal places v = Some d → ∃ c, d = DFin c (- places);
  length_between minimum maximum text :
    Length minimum maximum text = true → (minimum ≤ slen text ≤ maximum)%nat;
  regexp_matches pattern text : Regexp pattern text = true →
    pattern text = true ∨ ∃ line, text = line +:+ newline ∧ pattern line = true;
  range_between minimum maximum d : Range minimum maximum d = true →
    dec_lt d minimum = Ok false ∧ dec_gt d maximum = Ok false
}.

Definition CURRENCY_PATTERN (s : string) : bool :=
  (slen s =? 3)%nat && forallb (λ c, is_upper c || is_lower c) (chars s).

(** The fields of [PublicTransactionSchema]. *)
Section Fields.
Context `{Marshmallow}.

Definition idempotency_key_valid (text : string) : bool :=
  Length 36 36 text && Regexp IDEMPOTENCY_KEY_PATTERN text.
Definition amount_valid (amount : pydec) : bool := Range MIN_TRANSACTION_AMOUNT MAX_TRANSACTION_AMOUNT amount.
Definition currency_valid (text : string) : bool := Length 3 3 text && Regexp CURRENCY_PATTERN text.
Definition payee_valid (text : string) : bool := Length 3 80 text && Regexp PAYEE_IDENTIFIER_PATTERN text.

(** A field with [required=True]; [None] is not a value of it. *)
Definition required_field {A} (convert : jval → option A) (valid : A → bool) (name : string)
    (data : list (string * jval)) : option A :=
  match obj_get name data with
  | Some JNull | None => None
  | Some v => x ← convert v; if valid x then Some x else None
  end.

(** [unknown = RAISE] and the four fields; [None]: [ValidationError]. *)
Definition load_fields (data : list (string * jval)) : option PublicTransaction :=
  if forallb (λ kv, str_in kv.1 ["idempotency_key"; "amount"; "currency"; "payee"]) data then
    idempotency_key ← required_field Str idempotency_key_valid "idempotency_key" data;
    amount ← required_field (Decimal 2) amount_valid "amount" data;
    currency ← required_field Str currency_valid "currency" data;
    payee ← required_field Str payee_valid "payee" data;
    Some (mkPublicTransaction idempotency_key amount currency payee)
  else None.
End Fields.

(** ** [str(Decimal)] *)

Definition dec_str (d : pydec) : string :=
  match d with
  | DNaN => "NaN"
  | DInf b => (if b then "-" else "") +:+ "Infinity"
  | DFin c e =>
      let digits := chars (pretty (Z.abs c)) in
      let len := Z.of_nat (length digits) in
      let leftdigits := e + len in
      let dotplace := if (e <=? 0) && (-6 <? leftdigits) then leftdigits else 1 in
      (if c <? 0 then "-" else "") +:+
      (if dotplace <=? 0
       then "0." +:+ of_chars (repeat "0"%char (Z.to_nat (- dotplace)) ++ digits)%list
       else if len <=? dotplace
       then of_chars (digits ++ repeat "0"%char (Z.to_nat (dotplace - len)))%list
       else of_chars (firstn (Z.to_nat dotplace) digits) +:+ "."
            +:+ of_chars (skipn (Z.to_nat dotplace) digits)) +:+
      (if leftdigits =? dotplace then ""
       else "E" +:+ (if leftdigits - dotplace <? 0 then "" else "+")
            +:+ pretty (leftdigits - dotplace))
  end.

Definition _PUBLIC_TRANSACTION_UNAVAILABLE_MESSAGE : string :=
  "Transaction request cannot be processed.".
Definition _PUBLIC_TRANSACTION_REPLAY_MESSAGE : string :=
  "Transaction request has already been accepted.".

Definition unavailable : exn := AuthError _PUBLIC_TRANSACTION_UNAVAILABLE_MESSAGE 503 None.
Definition replayed : exn := AuthError _PUBLIC_TRANSACTION_REPLAY_MESSAGE 409 None.
Definition conflicting : exn :=
  AuthError "Idempotency key conflicts with an earlier request." 409 None.

(** [except IntegrityError] and [except (AuditWriteError, SQLAlchemyError)]. *)
Definition is_integrity_error (e : exn) : bool :=
  match e with IntegrityError => true | _ => false end.
Definition is_audit_or_sql_error (e : exn) : bool :=
  match e with
  | AuditWriteError _ | IntegrityError | MultipleResultsFound | NoResultFound
  | ProgrammingError => true
  | _ => false
  end.

(** An object handed to the audit log: [None] is left out, and
    [str(value or "")] is printed. *)
Definition audit_object (value : option jval) : option string :=
  match value with
  | Some JNull | None => None
  | Some v => Some (if truthy v then py_str v else "")
  end.

Definition _safe_field_name (value : string) : string := str_take 64 (strip value).

(** Distinct keys, in the order of Python's [sorted]. *)
Definition sorted_names (l : list string) : list string := sort_by str_leb l.

Section Reservation.
Context `{Env}.

Definition _public_transaction_idempotency_ttl_seconds : res Z :=
  match config_int "PUBLIC_TRANSACTION_IDEMPOTENCY_TTL_SECONDS" with
  | Raise _ => Raise unavailable
  | Ok value => if (value <? 60) || (7 * 24 * 60 * 60 <? value) then Raise unavailable else Ok value
  end.

Definition _public_transaction_hmac_keyring : res (string * list (string * string)) :=
  let active_key_id := config_str_or_empty "TRANSACTION_LEDGER_HMAC_ACTIVE_KEY_ID" in
  match ledger_hmac_keys with
  | None => Raise unavailable
  | Some configured =>
      if negb (bool_decide (is_Some (assoc active_key_id configured))) then Raise unavailable
      else
        let keyring := List.filter (λ kv : string * string,
          nonempty (strip kv.1) && (slen kv.2 =? 32)%nat) configured in
        if negb (bool_decide (is_Some (assoc active_key_id keyring)))
           || negb (length keyring =? length configured)%nat
        then Raise unavailable
        else Ok (active_key_id, keyring)
  end.

Definition _public_transaction_hmac_hex (message key_id : string) : res string :=
  rbind _public_transaction_hmac_keyring (λ '(_, keyring),
    match assoc key_id keyring with
    | None => Raise unavailable
    | Some key =>
        Ok (hmac_sha256_hex (hmac_sha256 key "sitbank-public-transaction-idempotency-v1") message)
    end).

Definition _public_transaction_payload_message (payload : PublicTransaction) : string :=
  "payload:" +:+ json_dumps (JObj
    [("amount", JStr (dec_str (px_amount payload)));
     ("currency", JStr (upper (px_currency payload)));
     ("payee", JStr (upper (px_payee payload)))]).

Definition public_transaction_payload_hash (payload : PublicTransaction) : res string :=
  rbind _public_transaction_hmac_keyring (λ '(active_key_id, _),
    _public_transaction_hmac_hex (_public_transaction_payload_message payload) active_key_id).

Definition _audit_public_idempotency_failure (user : option Z) (reason : string)
    (idempotency_key : option string) : M St unit :=
  _ <- rollback ;;
  audit_public_transaction_validation "blocked" user [("reason", JStr reason)]
    idempotency_key None false.

(** The session holds objects that are not flushed. *)
Definition _require_clean_public_transaction_session (unflushed : bool) (user : option Z)
    (idempotency_key : option string) : M St unit :=
  if unflushed then
    _ <- _audit_public_idempotency_failure user "pending_database_state_rejected" idempotency_key ;;
    raise unavailable
  else ret tt.

Definition key_fingerprint_of (user_id : Z) (idempotency_key : string) : string :=
  sha256_hex ("public-transaction-key-fingerprint:user:" +:+ pretty user_id
              +:+ ":key:" +:+ idempotency_key).

Definition refuse (user_id : Z) (reason : string) (idempotency_key : string) (e : exn)
    : M St Z :=
  _ <- _audit_public_idempotency_failure (Some user_id) reason (Some idempotency_key) ;;
  raise e.

(** The reservation [record], stored under [id]; an expired one is taken over. *)
Definition _reuse_or_reject_public_transaction_reservation (id : Z)
    (record : PublicTransactionIdempotency) (payload_message active_key_id key_verifier : string)
    (current_time ttl_seconds : Z) (user_id : Z) (idempotency_key : string) : M St Z :=
  if pi_expires_at record <=? current_time then
    payload_verifier <- lift (_public_transaction_hmac_hex payload_message active_key_id) ;;
    _ <- db_write (upd_public_transaction_idempotency
           (insert id (mkPublicTransactionIdempotency (pi_user_id record) active_key_id
              (pi_key_fingerprint record) key_verifier payload_verifier "reserved" None
              current_time current_time (current_time + ttl_seconds * US_SECOND)))) ;;
    _ <- flush ;;
    ret id
  else
    active_keyring <- lift _public_transaction_hmac_keyring ;;
    let keyring := snd active_keyring in
    if negb (bool_decide (is_Some (assoc (pi_hmac_key_id record) keyring)))
    then refuse user_id "idempotency_hmac_key_unavailable" idempotency_key unavailable
    else
      expected_key_verifier <- lift (_public_transaction_hmac_hex
        ("key:" +:+ idempotency_key) (pi_hmac_key_id record)) ;;
      if negb (bool_decide (pi_key_verifier record = expected_key_verifier))
      then refuse user_id "idempotency_key_verifier_invalid" idempotency_key unavailable
      else
        expected_payload_verifier <- lift (_public_transaction_hmac_hex
          payload_message (pi_hmac_key_id record)) ;;
        if bool_decide (pi_payload_verifier record = expected_payload_verifier)
        then refuse user_id "same_payload_replay_blocked" idempotency_key replayed
        else refuse user_id "idempotency_payload_conflict" idempotency_key conflicting.

Definition reservation_for (user_id : Z) (fingerprint : string)
    (r : PublicTransactionIdempotency) : bool :=
  (pi_user_id r =? user_id) && bool_decide (pi_key_fingerprint r = fingerprint).

Definition find_reservation (user_id : Z) (fingerprint : string)
    : M St (option (Z * PublicTransactionIdempotency)) :=
  db_query (λ d, one_or_none (reservation_for user_id fingerprint)
                   (public_transaction_idempotency d)).

Definition add_reservation (record : PublicTransactionIdempotency) (d : Db) : Db :=
  upd_public_transaction_idempotency (λ t, <[next_id t := record]> t) d.

(** The body of [_reserve_public_transaction_idempotency] for a known customer,
    once the time is read. *)
Definition reserve_at (user_id : Z) (idempotency_key payload_message : string)
    (current_time : Z) : M St Z :=
  ttl_seconds <- lift _public_transaction_idempotency_ttl_seconds ;;
  active_keyring <- lift _public_transaction_hmac_keyring ;;
  let active_key_id := fst active_keyring in
  let key_fingerprint := key_fingerprint_of user_id idempotency_key in
  key_verifier <- lift (_public_transaction_hmac_hex ("key:" +:+ idempotency_key)
                          active_key_id) ;;
  payload_verifier <- lift (_public_transaction_hmac_hex payload_message active_key_id) ;;
  record <- find_reservation user_id key_fingerprint ;;
  match record with
  | Some (id, record) =>
      _reuse_or_reject_public_transaction_reservation id record payload_message
        active_key_id key_verifier current_time ttl_seconds user_id idempotency_key
  | None =>
      id <- db_get (λ d, next_id (public_transaction_idempotency d)) ;;
      _ <- db_write (add_reservation (mkPublicTransactionIdempotency user_id active_key_id
             key_fingerprint key_verifier payload_verifier "reserved" None current_time
             current_time (current_time + ttl_seconds * US_SECOND))) ;;
      try_except (_ <- flush ;; ret id) is_integrity_error (λ _,
        _ <- rollback ;;
        record <- find_reservation user_id key_fingerprint ;;
        match record with
        | None => raise unavailable
        | Some (id, record) =>
            _reuse_or_reject_public_transaction_reservation id record payload_message
              active_key_id key_verifier current_time ttl_seconds user_id idempotency_key
        end)
  end.

(** [user] is the id of the customer, when there is one. *)
Definition _reserve_public_transaction_idempotency (user : option Z)
    (idempotency_key payload_message : string) (now : option Z) : M St Z :=
  known <- db_get (λ d, match user with
                        | Some u => bool_decide (is_Some (users d !! u))
                        | None => false
                        end) ;;
  match user, known with
  | Some user_id, true =>
      current_time <- match now with Some t => ret t | None => now_utc end ;;
      reserve_at user_id idempotency_key payload_message current_time
  | _, _ =>
      _ <- _audit_public_idempotency_failure user "authenticated_scope_required"
             (Some idempotency_key) ;;
      raise unavailable
  end.

Context `{Marshmallow}.

(** [PublicTransactionSchema().load(data)]; [None]: [ValidationError]. *)
Definition load (data : list (string * jval)) : option PublicTransaction :=
  normalized ← normalize_input data;
  fields ← load_fields normalized;
  if validate_business_rules fields then Some (normalize fields) else None.

(** [idempotency_store] tells whether the caller passed a store of its own.
    The application context is there whenever [Env] is. *)
Definition validate_public_transaction_payload (payload : list (string * jval))
    (user : option Z) (idempotency_store unflushed : bool) (now : option Z)
    : M St PublicTransaction :=
  let raw_key := audit_object (obj_get "idempotency_key" payload) in
  _ <- _require_clean_public_transaction_session unflushed user raw_key ;;
  match load payload with
  | None =>
      _ <- audit_public_transaction_validation "failure" user
             [("reason", JStr "schema_validation_failed");
              ("field_count", JInt (Z.of_nat (length payload)));
              ("rejected_fields",
                JList (JStr <$> firstn 10 (sorted_names (_safe_field_name <$> payload.*1))))]
             raw_key (audit_object (obj_get "payee" payload)) false ;;
      raise (AuthError "Invalid transaction request" 400 None)
  | Some normalized =>
      let payload_message := _public_transaction_payload_message normalized in
      payload_hash <- lift (public_transaction_payload_hash normalized) ;;
      if idempotency_store then
        _ <- _audit_public_idempotency_failure user "non_durable_store_rejected"
               (Some (px_idempotency_key normalized)) ;;
        raise unavailable
      else
        _ <- _reserve_public_transaction_idempotency user (px_idempotency_key normalized)
               payload_message now ;;
        _ <- try_except
               (payload_hash_ref <- lift (audit_reference "transaction_payload_hash" payload_hash) ;;
                audit_public_transaction_validation "success" user
                  [("transaction_amount", JStr (dec_str (px_amount normalized)));
                   ("transaction_currency", JStr (px_currency normalized));
                   ("payload_hash_ref", jopt_str payload_hash_ref);
                   ("idempotency_status", JStr "reserved")]
                  (Some (px_idempotency_key normalized)) (Some (px_payee normalized)) true)
               is_audit_or_sql_error
               (λ _, _ <- rollback ;; raise unavailable) ;;
        ret normalized
  end.

End Reservation.

(** ** Reservations are kept *)

(** The customer [u] holds the key with this fingerprint until [T] at least. *)
Definition held (u : Z) (fp : string) (T : Z) (d : Db) : Prop :=
  ∃ id r, public_transaction_idempotency d !! id = Some r
    ∧ reservation_for u fp r = true ∧ T ≤ pi_expires_at r.
Definition held_twice (u : Z) (fp : string) (T : Z) (c w : Db) : Prop :=
  held u fp T c ∧ held u fp T w.

#[export] Instance held_blind u fp T : audit_blind (held_twice u fp T).
Proof. by split; intros * [? ?]. Qed.

Section FirstUse.
Context `{Env}.

Lemma held_add u fp T r d : held u fp T d → held u fp T (add_reservation r d).
Proof.
  intros (id & r' & Hr & ?). exists id, r'. split; [|done]. simpl.
  rewrite lookup_insert_ne; [done|]. intros <-. by rewrite next_id_fresh in Hr.
Qed.

Lemma held_replace u fp T id r r' d :
  public_transaction_idempotency d !! id = Some r → pi_expires_at r < T →
  held u fp T d → held u fp T (upd_public_transaction_idempotency (insert id r') d).
Proof.
  intros Hid Hx (id' & r0 & Hr & Hf & HT). exists id', r0. split; [|done]. simpl.
  rewrite lookup_insert_ne; [done|]. intros <-. simplify_eq. lia.
Qed.

Lemma pres_failure u fp T user reason key :
  preserves (on_db (held_twice u fp T)) (_audit_public_idempotency_failure user reason key).
Proof.
  unfold _audit_public_idempotency_failure, audit_public_transaction_validation, audit_banking_action.
  solve_pres.
Qed.

Lemma raises_refuse u reason key e : raises (refuse u reason key e).
Proof. apply raises_bind. intros _. apply raises_raise. Qed.

Lemma pres_refuse_request u fp T user reason key e :
  preserves (on_db (held_twice u fp T)) (refuse user reason key e).
Proof. unfold refuse. apply pres_bind; [apply pres_failure|intros _; apply pres_raise]. Qed.
Hint Resolve pres_failure pres_refuse_request : pres.

(** A reservation that is still live is refused ... *)
Lemma live_is_refused id r msg ak kv t ttl u key :
  t < pi_expires_at r →
  raises (_reuse_or_reject_public_transaction_reservation id r msg ak kv t ttl u key).
Proof.
  intros Ht. unfold _reuse_or_reject_public_transaction_reservation.
  destruct (Z.leb_spec (pi_expires_at r) t); [lia|].
  apply raises_bind. intros a. cbv zeta. case_match; [apply raises_refuse|].
  apply raises_bind. intros ?. case_match; [apply raises_refuse|].
  apply raises_bind. intros ?. case_match; apply raises_refuse.
Qed.

(** ... and only expired ones are replaced. *)
Lemma reuse_keeps u fp T id r msg ak kv t ttl user key s :
  t < T → public_transaction_idempotency (working s) !! id = Some r →
  on_db (held_twice u fp T) s →
  on_db (held_twice u fp T)
    (_reuse_or_reject_public_transaction_reservation id r msg ak kv t ttl user key s).2.
Proof.
  intros Ht Hid Hs. unfold _reuse_or_reject_public_transaction_reservation.
  destruct (Z.leb_spec (pi_expires_at r) t).
  - unfold bind at 1, lift at 1. destruct (_public_transaction_hmac_hex _ _); [|done].
    erewrite bind_Ok by reflexivity.
    match goal with |- on_db ?Q (?c ?s1).2 => assert (preserves (on_db Q) c) as Hp by solve_pres;
      apply Hp end.
    destruct Hs as [Hc Hw]. split; [done|]. simpl. eapply held_replace; [done|lia|done].
  - match goal with |- on_db ?Q (?c ?s1).2 => assert (preserves (on_db Q) c) as Hp by solve_pres;
      by apply Hp end.
Qed.

Lemma reuse_reserves u fp id r msg ak kv t ttl user key s a s' :
  _reuse_or_reject_public_transaction_reservation id r msg ak kv t ttl user key s = (Ok a, s') →
  reservation_for u fp r = true → held u fp (t + ttl * US_SECOND) (working s').
Proof.
  intros E Hr. destruct (Z.leb_spec (pi_expires_at r) t) as [Hx|Hx].
  2:{ by apply (live_is_refused id r msg ak kv t ttl user key Hx) in E. }
  unfold _reuse_or_reject_public_transaction_reservation in E.
  apply Z.leb_le in Hx. rewrite Hx in E. inv_bind E. inv_bind E.
  unfold db_write, modify in E1. injection E1 as _ <-. inv_bind E.
  unfold flush in E1. case_match; [|done]. injection E1 as _ <-. injection E as _ <-.
  eexists id, _. simpl. rewrite lookup_insert_eq. split_and!; [done|exact Hr|done].
Qed.

Lemma find_same u fp s r s' : find_reservation u fp s = (r, s') → s' = s.
Proof. unfold find_reservation, db_query. by intros [= _ <-]. Qed.
Lemma find_row u fp s id r s' :
  find_reservation u fp s = (Ok (Some (id, r)), s') →
  public_transaction_idempotency (working s) !! id = Some r ∧ reservation_for u fp r = true.
Proof. unfold find_reservation, db_query. intros [= E _]. by apply one_or_none_Some in E. Qed.

(** The reservation that is held is the one found. *)
Lemma find_held u fp T s o s' :
  held u fp T (working s) → find_reservation u fp s = (Ok o, s') →
  ∃ id r, o = Some (id, r) ∧ T ≤ pi_expires_at r.
Proof.
  intros (j & w & Hj & Hw & HT). unfold find_reservation, db_query. intros [= E _].
  destruct o as [[id r]|].
  - exists id, r. by rewrite <- (one_or_none_only _ _ _ _ _ _ E Hj Hw).
  - by rewrite (one_or_none_None _ _ _ _ E Hj) in Hw.
Qed.

Lemma reserve_keeps u fp T user key msg t :
  t < T → preserves (on_db (held_twice u fp T)) (reserve_at user key msg t).
Proof.
  intros Ht s Hs. unfold reserve_at.
  unfold bind at 1, lift at 1. destruct _public_transaction_idempotency_ttl_seconds as [ttl|]; [|done].
  unfold bind at 1, lift at 1. destruct _public_transaction_hmac_keyring as [[ak kr]|]; [|done].
  cbv zeta. do 2 (unfold bind at 1, lift at 1; destruct (_public_transaction_hmac_hex _ _); [|done]).
  unfold bind at 1. destruct (find_reservation _ _ s) as [[[[id r]|]|] s1] eqn:Ef;
    pose proof (find_same _ _ _ _ _ Ef) as ->; [| |done].
  - apply reuse_keeps; [done|by apply find_row in Ef as [? _]|done].
  - erewrite !bind_Ok by reflexivity. unfold try_except, bind at 1, flush.
    destruct (db_ok _); simpl.
    { destruct Hs as [Hc Hw]. split; [done|]. by apply held_add. }
    unfold bind at 1, rollback at 1, modify at 1. unfold bind at 1.
    match goal with |- context [find_reservation ?a ?b ?c] =>
      destruct (find_reservation a b c) as [[[[id r]|]|] s1] eqn:Eg end;
      pose proof (find_same _ _ _ _ _ Eg) as ->; [|by destruct Hs..].
    apply reuse_keeps; [done|by apply find_row in Eg as [? _]|by destruct Hs].
Qed.

(** A key that is held is not reserved again ... *)
Lemma held_blocks T user key msg t s a s' :
  t < T → on_db (held_twice user (key_fingerprint_of user key) T) s →
  reserve_at user key msg t s ≠ (Ok a, s').
Proof.
  intros Ht [Hc Hw] E. unfold reserve_at in E. do 4 inv_bind E. inv_bind E.
  unfold lift in *. simplify_eq. pose proof (find_same _ _ _ _ _ E4) as ->.
  destruct (find_held _ _ _ _ _ _ Hw E4) as (id & r & -> & Hr).
  eapply live_is_refused; [|exact E]. lia.
Qed.

(** ... and a reservation made at [t] is held for its lifetime. *)
Lemma reserve_holds user key msg t ttl s a s' :
  _public_transaction_idempotency_ttl_seconds = Ok ttl →
  reserve_at user key msg t s = (Ok a, s') →
  held user (key_fingerprint_of user key) (t + ttl * US_SECOND) (working s').
Proof.
  intros Httl E. unfold reserve_at in E. inv_bind E. unfold lift in E0. rewrite Httl in E0.
  injection E0 as <- <-. do 3 inv_bind E. inv_bind E. destruct a3 as [[id r]|].
  { eapply reuse_reserves; [exact E|]. by apply find_row in E3 as [_ ?]. }
  inv_bind E. inv_bind E. unfold try_except, bind at 1, flush in E.
  unfold db_write, modify in E5. injection E5 as _ <-.
  destruct (db_ok _).
  - injection E as _ <-. eexists _, _. simpl. rewrite lookup_insert_eq.
    split; [done|]. unfold reservation_for. simpl.
    by rewrite Z.eqb_refl, bool_decide_eq_true_2.
  - simpl in E. inv_bind E. inv_bind E.
    match type of E with match ?o with _ => _ end _ = _ => destruct o as [[id r]|]; [|done] end.
    eapply reuse_reserves; [exact E|].
    match goal with Hf : find_reservation _ _ _ = _ |- _ => by apply find_row in Hf as [_ ?] end.
Qed.

(** *** The clock *)

Lemma nb_failure t user reason key :
  preserves (not_before t) (_audit_public_idempotency_failure user reason key).
Proof.
  unfold _audit_public_idempotency_failure, audit_public_transaction_validation,
    audit_banking_action. solve_pres.
Qed.
Hint Resolve nb_failure : pres.
Lemma nb_reuse t id r msg ak kv c ttl u key :
  preserves (not_before t) (_reuse_or_reject_public_transaction_reservation id r msg ak kv c ttl u key).
Proof. unfold _reuse_or_reject_public_transaction_reservation, refuse. solve_pres. Qed.
Hint Resolve nb_reuse : pres.
Lemma nb_reserve_at t u key msg c : preserves (not_before t) (reserve_at u key msg c).
Proof. unfold reserve_at, find_reservation. solve_pres. Qed.
Hint Resolve nb_reserve_at : pres.
Lemma nb_reserve t u key msg now :
  preserves (not_before t) (_reserve_public_transaction_idempotency u key msg now).
Proof. unfold _reserve_public_transaction_idempotency. solve_pres. Qed.
Hint Resolve nb_reserve : pres.
Lemma nb_validate `{Marshmallow} t payload user store unflushed now :
  preserves (not_before t) (validate_public_transaction_payload payload user store unflushed now).
Proof.
  unfold validate_public_transaction_payload, _require_clean_public_transaction_session,
    audit_public_transaction_validation, audit_banking_action. solve_pres.
Qed.

(** *** A request, while a reservation is held until [T] *)

Definition held_or_late (u : Z) (fp : string) (T : Z) (s : St) : Prop :=
  on_db (held_twice u fp T) s ∨ T ≤ clock s.

Lemma pres_or_late u fp T {A} (c : M St A) :
  preserves (on_db (held_twice u fp T)) c → preserves (not_before T) c →
  preserves (held_or_late u fp T) c.
Proof. intros Hh Hl s [Hs|Hs]; [left; by apply Hh|right; by apply Hl]. Qed.

Definition earlier (T : Z) (now : option Z) : Prop :=
  match now with Some t => t < T | None => True end.

Lemma reserve_keeps_held u fp T user key msg now :
  earlier T now →
  preserves (held_or_late u fp T) (_reserve_public_transaction_idempotency user key msg now).
Proof.
  intros Hn. unfold _reserve_public_transaction_idempotency.
  apply pres_bind; [apply pres_or_late; solve_pres|intros known].
  destruct user as [user|], known; try solve [apply pres_or_late; solve_pres].
  intros s Hs. destruct now as [t|].
  { erewrite bind_Ok by reflexivity. revert s Hs. apply pres_or_late; [|solve_pres].
    by apply reserve_keeps. }
  destruct (now_utc s) as [[t|e] s1] eqn:En; [|by unfold now_utc in En; simplify_eq].
  rewrite (bind_Ok _ _ _ _ _ En). destruct (now_utc_mono _ _ _ En) as [Hle Hc].
  destruct (decide (t < T)).
  - assert (held_or_late u fp T s1) as Hs1.
    { unfold now_utc in En. injection En as <- <-. destruct Hs as [Hs|Hs]; [by left|right; simpl; lia]. }
    revert s1 Hs1 En Hc. intros s1 Hs1 _ _. revert s1 Hs1. apply pres_or_late; [|solve_pres].
    by apply reserve_keeps.
  - right. apply nb_reserve_at. unfold not_before. lia.
Qed.

(** The held key itself is refused. *)
Lemma reserve_blocks_held T user key msg now s a s' :
  earlier T now → held_or_late user (key_fingerprint_of user key) T s →
  _reserve_public_transaction_idempotency (Some user) key msg now s = (Ok a, s') → T ≤ clock s'.
Proof.
  intros Hn Hs E. pose proof (λ c, nb_reserve c (Some user) key msg now s) as Hm. rewrite E in Hm.
  simpl in Hm. destruct Hs as [Hs|Hs]; [|by apply (Hm T)]. clear Hm.
  unfold _reserve_public_transaction_idempotency in E. inv_bind E. unfold db_get, gets in E0.
  injection E0 as Ek <-. destruct a0; [|by inv_bind E]. inv_bind E. destruct now as [t|].
  { injection E0 as -> ->. by eapply held_blocks in E. }
  destruct (now_utc_mono _ _ _ E0) as [Hle Hc]. destruct (decide (a0 < T)) as [Hlt|Hge].
  - eapply held_blocks in E; [done|exact Hlt|]. unfold now_utc in E0. by injection E0 as _ <-.
  - match type of E with _ ?st = _ => pose proof (nb_reserve_at T user key msg a0 st) as Hp end.
    rewrite E in Hp. apply Hp.
    unfold not_before. lia.
Qed.

Lemma reserve_holds_until t0 user key msg now ttl s a s' :
  _public_transaction_idempotency_ttl_seconds = Ok ttl → t0 ≤ clock s →
  match now with Some t => t0 ≤ t | None => True end →
  _reserve_public_transaction_idempotency (Some user) key msg now s = (Ok a, s') →
  held user (key_fingerprint_of user key) (t0 + ttl * US_SECOND) (working s').
Proof.
  intros Httl Hc Hn E. unfold _reserve_public_transaction_idempotency in E. inv_bind E.
  unfold db_get, gets in E0. injection E0 as Ek <-. destruct a0; [|by inv_bind E].
  inv_bind E. apply (reserve_holds _ _ _ _ _ _ _ _ Httl) in E as (id & r & Hr & Hf & HT).
  exists id, r. split_and!; [done..|]. destruct now as [t|].
  - unfold ret in E0. simplify_eq. lia.
  - apply now_utc_mono in E0 as [? ?]. lia.
Qed.

(** *** Whole requests *)

Context `{marshmallow : Marshmallow}.
Notation validate := validate_public_transaction_payload.

(** An accepted request is well formed, reserved its key, and is durable. *)
Lemma accepted_spec payload user store unflushed now s p s' :
  validate payload user store unflushed now s = (Ok p, s') →
  load payload = Some p ∧ committed s' = working s' ∧
  ∃ id s1, _reserve_public_transaction_idempotency user (px_idempotency_key p)
      (_public_transaction_payload_message p) now s = (Ok id, s1)
    ∧ clock s1 ≤ clock s' ∧ ∃ e, working s' = append_event e (working s1).
Proof.
  unfold validate_public_transaction_payload. intros E. inv_bind E.
  unfold _require_clean_public_transaction_session in E0.
  destruct unflushed; [by inv_bind E0|]. injection E0 as _ <-.
  destruct (load _) as [q|]; [|by inv_bind E]. inv_bind E. unfold lift in E0. injection E0 as _ <-.
  destruct store; [by inv_bind E|]. inv_bind E. inv_bind E. injection E as -> ->.
  split; [done|].
  apply try_raises_inv in E1; [|intros ?; apply raises_bind; intros ?; apply raises_raise].
  inv_bind E1. unfold lift in E. injection E as _ <-.
  unfold audit_public_transaction_validation, audit_banking_action in E1.
  do 3 (inv_bind E1; unfold lift in E; injection E as _ <-). cbn [orb] in E1. inv_bind E1.
  match type of E with audit_event_required ?ty ?out ?u ?md ?st = _ =>
    pose proof (nb_audit_required (clock st) ty out u md st (Z.le_refl _)) as Hclk;
    rewrite E in Hclk; unfold not_before in Hclk; simpl in Hclk end.
  match type of E with _ = (Ok ?v, _) => destruct v end. apply required_event in E as (_ & e & _ & Hw).
  unfold commit in E1. destruct (db_ok _); [|done]. injection E1 as _ <-. simpl.
  split; [done|]. eexists _, _. split; [exact E0|]. split; [done|]. by exists e.
Qed.

Lemma held_append u fp T e d : held u fp T d → held u fp T (append_event e d).
Proof. done. Qed.

Lemma validate_keeps_held u fp T payload user store unflushed now :
  earlier T now →
  preserves (held_or_late u fp T) (validate payload user store unflushed now).
Proof.
  intros Hn. unfold validate_public_transaction_payload.
  apply pres_bind; [apply pres_or_late; unfold _require_clean_public_transaction_session; solve_pres|].
  intros _. unfold audit_public_transaction_validation.
  destruct (load _) as [q|]; [|apply pres_or_late; unfold audit_banking_action; solve_pres].
  apply pres_bind; [apply pres_lift|intros hash]. apply pres_if; [apply pres_or_late; solve_pres|].
  apply pres_bind; [by apply reserve_keeps_held|intros _].
  apply pres_or_late; unfold audit_banking_action; solve_pres.
Qed.

(** A request as a client sends it; [rq_now] overrides the clock. *)
Record Request : Type := mkRequest {
  rq_payload : list (string * jval);
  rq_user : Z;
  rq_store : bool;
  rq_unflushed : bool;
  rq_now : option Z
}.

Definition submit (rq : Request) : M St (res PublicTransaction) :=
  serve (validate (rq_payload rq) (Some (rq_user rq)) (rq_store rq) (rq_unflushed rq) (rq_now rq)).

(** What reaches the bank: a request, or the operator's retention cleanup. *)
Inductive Event : Type :=
  | Submit (rq : Request)
  | Sweep (limit : option Z) (confirm : bool).

(** The customers and keys of the requests of a run that are accepted. *)
Fixpoint accepted (events : list Event) : M St (list (Z * string)) :=
  match events with
  | [] => ret []
  | Submit rq :: rest =>
      answer <- submit rq ;;
      later <- accepted rest ;;
      ret (match answer with
           | Ok p => (rq_user rq, px_idempotency_key p) :: later
           | Raise _ => later
           end)
  | Sweep limit confirm :: rest =>
      _ <- serve (_run_audited_retention_cleanup limit confirm) ;;
      accepted rest
  end.

Definition in_window (t0 T : Z) (rq : Request) : Prop :=
  match rq_now rq with Some t => t0 ≤ t < T | None => True end.
Definition event_in_window (t0 T : Z) (e : Event) : Prop :=
  match e with Submit rq => in_window t0 T rq | Sweep _ _ => True end.

Definition pair_held (T : Z) (s : St) (uk : Z * string) : Prop :=
  held_or_late uk.1 (key_fingerprint_of uk.1 uk.2) T s.

Lemma nb_submit t rq : preserves (not_before t) (submit rq).
Proof.
  intros s Hs. unfold submit, serve.
  pose proof (nb_validate t (rq_payload rq) (Some (rq_user rq)) (rq_store rq)
    (rq_unflushed rq) (rq_now rq) s Hs) as Hp. by destruct (validate _ _ _ _ _ s).
Qed.
Lemma nb_accepted t events : preserves (not_before t) (accepted events).
Proof.
  induction events as [|[rq|limit confirm] rest IH]; simpl; [solve_pres|..].
  - apply pres_bind; [apply nb_submit|intros ?]. apply pres_bind; [done|]. solve_pres.
  - apply pres_bind; [|done]. intros s Hs. pose proof (nb_audited_cleanup t limit confirm s Hs) as Hp.
    unfold serve. by destruct (_run_audited_retention_cleanup limit confirm s).
Qed.

Lemma window_earlier t0 T rq : in_window t0 T rq → earlier T (rq_now rq).
Proof. unfold in_window, earlier. destruct (rq_now rq); [lia|done]. Qed.

Lemma submit_keeps t0 T rq uk s answer s' :
  in_window t0 T rq → pair_held T s uk → submit rq s = (answer, s') → pair_held T s' uk.
Proof.
  intros Hw Hs. unfold submit, serve.
  pose proof (validate_keeps_held uk.1 (key_fingerprint_of uk.1 uk.2) T (rq_payload rq)
    (Some (rq_user rq)) (rq_store rq) (rq_unflushed rq) (rq_now rq) (window_earlier _ _ _ Hw) s Hs) as Hp.
  destruct (validate _ _ _ _ _ s) as [r s1]. intros [= _ <-].
  destruct Hp as [[Hc _]|Hp]; [by left|by right].
Qed.

Lemma submit_new t0 ttl rq s p s' :
  let T := t0 + ttl * US_SECOND in
  _public_transaction_idempotency_ttl_seconds = Ok ttl → in_window t0 T rq → t0 ≤ clock s →
  submit rq s = (Ok (Ok p), s') →
  let uk := (rq_user rq, px_idempotency_key p) in
  pair_held T s' uk ∧ (pair_held T s uk → T ≤ clock s').
Proof.
  intros T Httl Hw Hc. unfold submit, serve. destruct (validate _ _ _ _ _ s) as [r s1] eqn:E.
  intros [= -> <-]. apply accepted_spec in E as (_ & Hcw & id & s2 & Er & Hclk & e & He). split.
  - left. apply (reserve_holds_until t0 _ _ _ _ _ _ _ _ Httl Hc) in Er.
    + split; simpl; rewrite Hcw, He; by apply held_append.
    + unfold in_window in Hw. destruct (rq_now rq); [lia|done].
  - intros Hh. eapply reserve_blocks_held in Er; [|by eapply window_earlier|exact Hh]. simpl. lia.
Qed.

(** A cleanup before [T] spares what is held until [T]. *)
Lemma held_tidy u fp T t cutoff L d d' :
  t < T → log_grows (tidy t cutoff L d) d' → held u fp T d → held u fp T d'.
Proof.
  intros Ht (es & ->) (id & r & Hr & Hf & HT). exists id, r. split; [|done].
  apply drop_rows_keeps; [done|]. by apply Z.leb_gt; lia.
Qed.

Lemma sweep_keeps T limit confirm uk s r s' :
  working s = committed s → pair_held T s uk →
  serve (_run_audited_retention_cleanup limit confirm) s = (r, s') → pair_held T s' uk.
Proof.
  unfold serve. intros Hw Hs.
  pose proof (nb_audited_cleanup T limit confirm s) as Hm.
  destruct (_run_audited_retention_cleanup limit confirm s) as [x s1] eqn:E. intros [= _ <-].
  destruct Hs as [[Hc _]|Hs]; [|right; by apply Hm].
  assert (log_grows (committed s) (committed s1) ∨ (∃ t days L, clock s ≤ t ≤ clock s1
    ∧ log_grows (tidy t (t - days * US_DAY) L (committed s)) (committed s1))) as [(es & Hg)|Hg].
  { destruct confirm; [|left; by eapply audited_cleanup_dry].
    apply audited_cleanup_confirmed in E as [?|(_ & t & days & L & _ & ? & ?)];
      [by left|right; by exists t, days, L|done]. }
  - left. unfold on_db, held_twice. simpl. rewrite Hg. by split.
  - destruct Hg as (t & days & L & Ht & Hg). destruct (decide (t < T)); [left|right; simpl; lia].
    unfold on_db, held_twice. simpl. split; by eapply held_tidy.
Qed.

Lemma submit_settles rq s a s' : submit rq s = (a, s') → working s' = committed s'.
Proof. unfold submit, serve. destruct (validate _ _ _ _ _ s). by intros [= _ <-]. Qed.

Lemma accepted_once t0 ttl events :
  let T := t0 + ttl * US_SECOND in
  _public_transaction_idempotency_ttl_seconds = Ok ttl → Forall (event_in_window t0 T) events →
  ∀ s uks s', working s = committed s → t0 ≤ clock s → accepted events s = (Ok uks, s') →
  clock s' < T → NoDup uks ∧ ∀ uk, pair_held T s uk → uk ∉ uks.
Proof.
  intros T Httl. induction 1 as [|e rest Hw _ IH]; intros s uks s' Hset Hc E Hlt.
  { injection E as <- _. split; [constructor|]. intros uk _. apply not_elem_of_nil. }
  destruct e as [rq|limit confirm]; simpl in E; inv_bind E.
  - inv_bind E. injection E as <- <-. simpl in Hw.
    pose proof (nb_submit t0 rq s Hc) as Hc1. rewrite E0 in Hc1. simpl in Hc1.
    destruct (IH _ _ _ (submit_settles _ _ _ _ E0) Hc1 E1 Hlt) as [Hnd Hno].
    assert (∀ uk, pair_held T s uk → uk ∉ a0) as Hold
      by (intros uk Huk; eapply Hno, submit_keeps; eauto).
    destruct a as [p|e]; [|done].
    destruct (submit_new t0 ttl rq s p _ Httl Hw Hc E0) as [Hnew Hblock].
    split; [constructor; [by apply Hno|done]|]. intros uk Huk.
    apply not_elem_of_cons. split; [|by apply Hold]. intros ->. apply Hblock in Huk.
    match type of E1 with _ ?st = _ => pose proof (nb_accepted T rest st Huk) as Hp end.
    rewrite E1 in Hp. unfold not_before in Hp. simpl in Hp. fold T in Hp. lia.
  - assert (working s0 = committed s0 ∧ t0 ≤ clock s0) as [Hset0 Hc0].
    { pose proof (nb_audited_cleanup t0 limit confirm s Hc) as Hp. unfold serve in E0.
      destruct (_run_audited_retention_cleanup limit confirm s). by injection E0 as _ <-. }
    destruct (IH _ _ _ Hset0 Hc0 E Hlt) as [Hnd Hno]. split; [done|].
    intros uk Huk. apply Hno. exact (sweep_keeps T limit confirm uk s _ s0 Hset Huk E0).
Qed.

(** C10: a public transaction request is accepted at most once: whatever requests
    and retention cleanups a bank serves within the lifetime of a reservation, no
    customer has the same idempotency key accepted twice, be it with the same or
    with another payload. *)
Theorem accepted_keys_are_first_uses t0 ttl events s uks s' :
  _public_transaction_idempotency_ttl_seconds = Ok ttl →
  Forall (event_in_window t0 (t0 + ttl * US_SECOND)) events →
  working s = committed s → t0 ≤ clock s → accepted events s = (Ok uks, s') →
  clock s' < t0 + ttl * US_SECOND → NoDup uks.
Proof. intros Httl Hw Hs Hc E Hlt. by apply (accepted_once t0 ttl events Httl Hw s uks s'). Qed.

(** What the schema promises of a request that is accepted. *)
Definition well_formed (p : PublicTransaction) : Prop :=
  IDEMPOTENCY_KEY_PATTERN (px_idempotency_key p) = true
  ∧ (∃ cents, px_amount p = DFin cents (-2) ∧ 1 ≤ cents ≤ 5000000)
  ∧ px_currency p = "SGD" ∧ PAYEE_IDENTIFIER_PATTERN (px_payee p) = true.

Lemma strip_clean s : Forall (λ c, is_space c = false) (chars s) → strip s = s.
Proof.
  assert (∀ l, Forall (λ c, is_space c = false) l → drop_while is_space l = l) as Hd.
  { intros l [|c l' Hc _]; simpl; [done|]. by rewrite Hc. }
  intros Hs. unfold strip. rewrite (Hd (chars s)) by done.
  rewrite Hd by by apply Forall_rev. by rewrite rev_involutive, of_chars_chars.
Qed.

Lemma upper_clean s : Forall (λ c, upper_char c = c) (chars s) → upper s = s.
Proof.
  intros Hs. unfold upper. rewrite <- (of_chars_chars s) at 2. f_equal.
  induction Hs as [|c l Hc _ IH]; [done|]. rewrite fmap_cons, Hc. by f_equal.
Qed.

Lemma split_on_chars c l d : d ∈ l → d = c ∨ ∃ part, part ∈ split_on c l ∧ d ∈ part.
Proof.
  induction l as [|x l IH]; [by intros ?%not_elem_of_nil|]. simpl. intros Hd.
  case_bool_decide as Hx.
  - apply elem_of_cons in Hd as [->|Hd]; [by left|].
    destruct (IH Hd) as [?|(part & ? & ?)]; [by left|right]. exists part. set_solver.
  - apply elem_of_cons in Hd as [->|Hd].
    + right. destruct (split_on c l) as [|part parts]; eexists; split; by left.
    + destruct (IH Hd) as [?|(part & Hp & ?)]; [by left|right].
      destruct (split_on c l) as [|q parts]; [set_solver|].
      apply elem_of_cons in Hp as [->|Hp]; [exists (x :: q)|exists part]; set_solver.
Qed.

Lemma hex_clean c : is_hex c = true → is_space c = false.
Proof. destruct c as [[] [] [] [] [] [] [] []]; by vm_compute. Qed.
Lemma letter_clean c : is_upper c || is_lower c = true → is_space c = false.
Proof. destruct c as [[] [] [] [] [] [] [] []]; by vm_compute. Qed.
Lemma variant_clean c : str_in (String c "") ["8"; "9"; "a"; "b"; "A"; "B"] = true → is_space c = false.
Proof. destruct c as [[] [] [] [] [] [] [] []]; by vm_compute. Qed.
Lemma version_clean c : (49 <=? code c) && (code c <=? 53) = true → is_space c = false.
Proof. destruct c as [[] [] [] [] [] [] [] []]; by vm_compute. Qed.
Lemma payee_clean c : payee_char c = true → upper_char c = c.
Proof. destruct c as [[] [] [] [] [] [] [] []]; by vm_compute. Qed.

Lemma forallb_clean P l : (∀ c, P c = true → is_space c = false) → forallb P l = true →
  ∀ d, d ∈ l → is_space d = false.
Proof. intros HP Hl d Hd%list_elem_of_In. rewrite forallb_forall in Hl. auto. Qed.

(** A key of the declared form has no blanks. *)
Lemma key_blankless key : IDEMPOTENCY_KEY_PATTERN key = true → Forall (λ c, is_space c = false) (chars key).
Proof.
  intros Hk. apply Forall_forall. intros d Hd.
  destruct (split_on_chars "-"%char _ _ Hd) as [->|(part & Hp & Hin)]; [done|].
  unfold IDEMPOTENCY_KEY_PATTERN in Hk.
  destruct (split_on "-"%char (chars key)) as [|a [|b [|[|v c] [|[|w e] [|f [|]]]]]]; try done.
  rewrite !andb_true_iff in Hk. destruct_and! Hk.
  pose proof (λ l, forallb_clean _ l hex_clean) as Hhex.
  assert (is_space v = false) as Hv by (apply version_clean, andb_true_iff; done).
  assert (is_space w = false) as Hw by by apply variant_clean.
  repeat (apply elem_of_cons in Hp as [->|Hp]);
    try apply elem_of_cons in Hin as [->|Hin]; try done;
    try (by apply not_elem_of_nil in Hp); (eapply Hhex; [|exact Hin]; assumption).
Qed.
Lemma key_clean key : IDEMPOTENCY_KEY_PATTERN key = true → strip key = key.
Proof. intros Hk. by apply strip_clean, key_blankless. Qed.

Lemma payee_upper payee : PAYEE_IDENTIFIER_PATTERN payee = true → upper payee = payee.
Proof.
  intros Hp. apply upper_clean. unfold PAYEE_IDENTIFIER_PATTERN in Hp.
  destruct (chars payee) as [|c rest]; [constructor|]. rewrite !andb_true_iff in Hp.
  destruct Hp as [[[Hc Hrest] _] _].
  constructor; [apply payee_clean; unfold payee_char; by rewrite Hc|].
  apply Forall_forall. intros d Hd%list_elem_of_In. apply payee_clean.
  by eapply forallb_forall.
Qed.

Lemma required_field_Some {A} (convert : jval → option A) valid name data x :
  required_field convert valid name data = Some x →
  ∃ v, obj_get name data = Some v ∧ v ≠ JNull ∧ convert v = Some x ∧ valid x = true.
Proof.
  unfold required_field. destruct (obj_get name data) as [v|]; [|done].
  destruct v; try done; (destruct (convert _) as [y|] eqn:Ec; [|done]); cbn [mbind option_bind];
    (destruct (valid y) eqn:Ev; [|done]); intros [= <-]; eexists; split_and!; done.
Qed.

(** A joined text has no newline, and neither has a payee in normal form. *)
Lemma split_ws_words l : ∀ acc, Forall (λ c, is_space c = false) acc →
  Forall (λ w, Forall (λ c, is_space c = false) (chars w)) (split_ws_aux acc l).
Proof.
  assert (∀ acc, Forall (λ c, is_space c = false) acc →
    Forall (λ c, is_space c = false) (chars (of_chars (rev acc)))) as Hrev.
  { intros acc Ha. rewrite chars_of_chars. by apply Forall_rev. }
  induction l as [|c l IH]; intros acc Ha; cbn [split_ws_aux].
  - destruct acc; constructor; auto.
  - destruct (is_space c) eqn:Ec; [|apply IH; by constructor].
    destruct acc; [by apply IH|]. constructor; [by apply Hrev|by apply IH].
Qed.
Lemma join_words (Q : ascii → Prop) ws :
  Q " "%char → Forall (λ w, Forall Q (chars w)) ws → Forall Q (chars (join " " ws)).
Proof.
  intros Hq. induction 1 as [|w ws Hw Hws IH]; [constructor|]. destruct ws as [|w' ws]; [exact Hw|].
  cbn [join]. rewrite !chars_app. apply Forall_app. split; [exact Hw|]. by constructor.
Qed.
Lemma normal_payee_no_newline t line : join " " (split_ws t) ≠ line +:+ newline.
Proof.
  intros E. assert (Forall (λ c, c ≠ ascii_of_nat 10) (chars (join " " (split_ws t)))) as Hn.
  { apply join_words; [done|]. eapply Forall_impl; [apply (split_ws_words (chars t) []); constructor|].
    intros w Hw. eapply Forall_impl; [exact Hw|]. intros c Hc ->. by vm_compute in Hc. }
  rewrite E, chars_app in Hn. apply Forall_app in Hn as [_ Hn]. by apply Forall_cons in Hn as [? _].
Qed.

Lemma normalized_payee data data' v :
  normalize_input data = Some data' → obj_get "payee" data' = Some v → v ≠ JNull →
  ∃ t, v = JStr (join " " (split_ws t)).
Proof.
  unfold normalize_input. intros E Hv Hn. set (d1 := map_entry "currency" _ _) in E.
  assert (data' = map_entry "payee" (λ t, join " " (split_ws (upper t))) d1) as ->.
  { repeat case_match; simplify_eq; done. }
  clear E. unfold map_entry at 1 in Hv. destruct (obj_get "payee" d1) as [x|] eqn:Ex; [|congruence].
  assert (∀ t, obj_get "payee" (obj_set "payee" (JStr t) d1) = Some v → v = JStr t) as Hset.
  { intros t. rewrite obj_get_set. congruence. }
  destruct x; [congruence|..]; eexists; by apply Hset.
Qed.

Context `{!MarshmallowLaws marshmallow}.

Lemma key_normal key : idempotency_key_valid key = true → IDEMPOTENCY_KEY_PATTERN (strip key) = true.
Proof.
  unfold idempotency_key_valid. intros [_ [Hk|(k & -> & Hk)]%regexp_matches]%andb_true_iff.
  - by rewrite key_clean.
  - enough (strip (k +:+ newline) = strip k) as -> by by rewrite key_clean.
    unfold strip. rewrite chars_app. pose proof (key_blankless _ Hk) as Hb.
    destruct (chars k) as [|c l] eqn:Ek; [done|]. apply Forall_cons in Hb as [Hc _].
    cbn [app drop_while]. rewrite Hc, app_comm_cons, rev_app_distr. done.
Qed.
Lemma currency_letters text :
  currency_valid text = true → slen text = 3%nat ∧ forallb (λ c, is_upper c || is_lower c) (chars text) = true.
Proof.
  unfold currency_valid, CURRENCY_PATTERN.
  intros [Hl [Hk|(k & -> & Hk)]%regexp_matches]%andb_true_iff; apply length_between in Hl;
    apply andb_true_iff in Hk as [Hn%Nat.eqb_eq Hk]; [done|].
  rewrite <- length_chars, chars_app, length_app, length_chars, Hn in Hl. cbn in Hl. lia.
Qed.
Lemma amount_cents v d :
  Decimal 2 v = Some d → amount_valid d = true → ∃ cents, d = DFin cents (-2) ∧ 1 ≤ cents ≤ 5000000.
Proof.
  intros [c ->]%decimal_places [Hl Hg]%range_between. exists c. split; [done|].
  unfold dec_lt, dec_gt, dec_compare, MIN_TRANSACTION_AMOUNT, MAX_TRANSACTION_AMOUNT in Hl, Hg.
  change (- (2)) with (-2) in *. cbn [rbind] in Hl, Hg. change (10 ^ (-2 - Z.min (-2) (-2))) with 1 in Hl, Hg.
  destruct (Z.compare_spec (c * 1) (1 * 1)); destruct (Z.compare_spec (c * 1) (5000000 * 1)); simplify_eq; lia.
Qed.

(** C32: an accepted request is well formed.  With the declarations of the schema
    over the field types and validators of the validation library, as documented,
    the key of an accepted request is a UUID, its amount is 0.01 to 50,000.00 with
    two decimals, its currency is SGD and its payee has the declared form, in the
    normal form the fingerprint is computed from. *)
Theorem accepted_is_well_formed payload user store unflushed now s p s' :
  validate payload user store unflushed now s = (Ok p, s') →
  well_formed p ∧ upper (px_payee p) = px_payee p.
Proof.
  intros E. apply accepted_spec in E as [E _]. unfold load in E.
  destruct (normalize_input payload) as [data|] eqn:En; [|done]. simpl in E.
  destruct (load_fields data) as [f|] eqn:Ef; [|done]. simpl in E.
  destruct (validate_business_rules f) eqn:Hr; [|done]. injection E as <-.
  unfold load_fields in Ef. destruct (forallb _ data); [|done].
  destruct (required_field Str idempotency_key_valid _ _) as [key|] eqn:Ek; [|done]. cbn [mbind option_bind] in Ef.
  destruct (required_field (Decimal 2) _ _ _) as [amount|] eqn:Ea; [|done]. cbn [mbind option_bind] in Ef.
  destruct (required_field Str currency_valid _ _) as [currency|] eqn:Ec; [|done]. cbn [mbind option_bind] in Ef.
  destruct (required_field Str payee_valid _ _) as [payee|] eqn:Ep; [|done]. injection Ef as <-.
  apply required_field_Some in Ek as (_ & _ & _ & _ & Hkey).
  apply required_field_Some in Ea as (va & _ & _ & Hdec & Hamt).
  apply required_field_Some in Ec as (_ & _ & _ & _ & [Hlen Hlet]%currency_letters).
  apply required_field_Some in Ep as (vp & Hvp & Hnp & Hsp & Hpay).
  apply (normalized_payee _ _ _ En) in Hvp as [t ->]; [|done]. rewrite str_keeps in Hsp. injection Hsp as <-.
  apply andb_true_iff in Hpay as [_ [Hpay|(line & El & _)]%regexp_matches];
    [|by destruct (normal_payee_no_newline t line)].
  assert (upper currency = "SGD") as HS.
  { unfold validate_business_rules in Hr. cbn [px_currency] in Hr. rewrite !andb_true_iff in Hr.
    destruct Hr as [_ Hcur]. rewrite strip_clean in Hcur.
    2:{ apply Forall_forall. intros d Hd. eapply (forallb_clean _ _ letter_clean); eauto. }
    apply orb_true_iff in Hcur as [Hn|Hin]; [by destruct currency|].
    unfold str_in, SUPPORTED_TRANSACTION_CURRENCIES in Hin. apply bool_decide_eq_true in Hin. set_solver. }
  unfold well_formed, normalize. cbn [px_idempotency_key px_amount px_currency px_payee].
  rewrite !(payee_upper _ Hpay). split_and!; [by apply key_normal|by eapply amount_cents|done..].
Qed.
End FirstUse.

(** ** A run on the sample bank *)

Definition public_config (name : string) : option jval :=
  if bool_decide (name = "PUBLIC_TRANSACTION_IDEMPOTENCY_TTL_SECONDS") then Some (JInt 3600)
  else cleanup_config name.
Definition public_env : Env :=
  Sample.deployment_with public_config (λ k m, k +:+ m) (λ _, "token") None.

(** The field types on texts and integers. *)
Definition sample_fields : Marshmallow := {|
  Str v := match v with JStr text => Some text | _ => None end;
  Decimal places v :=
    match v with
    | JStr text => match rbind (decimal_of_str text) quantize_cents with
                   | Ok (DFin c e) => if e =? - places then Some (DFin c e) else None
                   | _ => None
                   end
    | _ => None
    end;
  Length minimum maximum text := (minimum <=? slen text)%nat && (slen text <=? maximum)%nat;
  Regexp pattern text := pattern text;
  Range minimum maximum d :=
    match dec_lt d minimum, dec_gt d maximum with Ok false, Ok false => true | _, _ => false end
|}.
Lemma sample_fields_laws : MarshmallowLaws sample_fields.
Proof.
  split.
  - done.
  - intros places v d. cbn. destruct v; try done. destruct (rbind _ _) as [[c e| |]|]; try done.
    destruct (Z.eqb_spec e (- places)) as [->|]; [|done]. intros [= <-]. by exists c.
  - intros minimum maximum text. cbn. rewrite andb_true_iff, !Nat.leb_le. done.
  - intros pattern text Hp. by left.
  - intros minimum maximum d. cbn. destruct (dec_lt d minimum) as [[]|]; try done.
    by destruct (dec_gt d maximum) as [[]|].
Qed.

Definition payload (amount : string) : list (string * jval) :=
  [("idempotency_key", JStr "123e4567-e89b-12d3-a456-426614174000"); ("amount", JStr amount);
   ("currency", JStr "sgd"); ("payee", JStr "  Acme   Pte ")].

(** The same key with one payload, a cleanup, the same and another payload. *)
Definition sample_events : list Event :=
  [Submit (mkRequest (payload "12.50") 1 false false None); Sweep None true;
   Submit (mkRequest (payload "12.50") 1 false false None);
   Submit (mkRequest (payload "99") 1 false false None);
   Submit (mkRequest (payload "12.50") 2 false false None)].

Lemma accepted_keys_are_first_uses_witness :
  let key := "123e4567-e89b-12d3-a456-426614174000" in
  (@accepted public_env sample_fields sample_events Sample.sample_state).1 = Ok [(1, key); (2, key)]
  ∧ NoDup [(1, key); (2, key)].
Proof.
  intros key.
  assert ((@accepted public_env sample_fields sample_events Sample.sample_state).1
    = Ok [(1, key); (2, key)]) as E by (vm_compute; reflexivity).
  split; [exact E|].
  apply (@accepted_keys_are_first_uses public_env sample_fields Sample.noon 3600 sample_events
    Sample.sample_state _ (@accepted public_env sample_fields sample_events Sample.sample_state).2);
    [vm_compute; reflexivity|repeat constructor|reflexivity|reflexivity| |vm_compute; reflexivity].
  exact (eq_trans (surjective_pairing _) (f_equal (λ r, (r, _)) E)).
Defined.

Lemma accepted_is_well_formed_witness :
  let p := mkPublicTransaction "123e4567-e89b-12d3-a456-426614174000" (DFin 1250 (-2)) "SGD"
             "ACME PTE" in
  let run := @validate_public_transaction_payload public_env sample_fields (payload "12.50")
               (Some 1) false false None Sample.sample_state in
  run.1 = Ok p ∧ well_formed p ∧ upper (px_payee p) = px_payee p.
Proof.
  intros p run. assert (run.1 = Ok p) as E by (vm_compute; reflexivity). split; [exact E|].
  apply (@accepted_is_well_formed public_env sample_fields sample_fields_laws (payload "12.50") (Some 1)
    false false None Sample.sample_state p run.2).
  exact (eq_trans (surjective_pairing run) (f_equal (λ r, (r, run.2)) E)).
Defined.
(** The declarations refuse what does not have the declared form. *)
Example refused_fields :
  @load sample_fields (payload "0.001") = None ∧ @load sample_fields (payload "50000.01") = None
  ∧ @load sample_fields (("note", JStr "") :: payload "12.50") = None
  ∧ @load sample_fields (obj_set "payee" (JStr "A") (payload "12.50")) = None
  ∧ @load sample_fields (obj_set "currency" (JStr "USD") (payload "12.50")) = None.
Proof. by vm_compute. Qed.
End Idempotency.
