(* ===== verification/RateLimits.v ===== *)
(** * Durable counters ([app/security/rate_limits.py])

    Failure counters and request limits kept in [auth_attempt_counters], one
    row per scope and keyed principal. *)

From S2P Require Import Prelude PyStr TimeModel Schema Runtime Canonical Integrity AuditLog.
From S2P Require Import BankingPolicy Notifications Sample.
From Stdlib Require Import Ascii.
Open Scope string_scope.
Open Scope Z_scope.

Module RateLimits.
Import Audit.

Definition LOGIN_BACKOFF_START_ATTEMPTS : Z := 3.

Definition _backoff_start_attempts (scope : string) : Z :=
  if str_in scope ["login"; "admin_login"] then LOGIN_BACKOFF_START_ATTEMPTS else 1.

(** [int(delta.total_seconds())]. *)
Definition whole_seconds (delta : Z) : Z := Z.quot delta US_SECOND.

Definition counter_for (scope hash : string) (c : AuthAttemptCounter) : bool :=
  bool_decide (ac_scope c = scope) && bool_decide (ac_principal_hash c = hash).

Definition put_counter (id : Z) (c : AuthAttemptCounter) : Db → Db :=
  upd_auth_attempt_counters (<[id := c]>).
Definition drop_counter (id : Z) : Db → Db := upd_auth_attempt_counters (delete id).

Section RateLimits.
Context `{Env}.

Definition _safe_identifier (value : string) : res string :=
  active_hmac_hex ("rate-limit-identifier:" +:+ casefold value) 32.

Definition _counter_hash (scope principal : string) : res string :=
  active_hmac_hex ("auth-counter:" +:+ scope +:+ ":" +:+ principal) 64.

Definition before_colon (s : string) : string :=
  match partition_char ":"%char (chars s) with
  | Some (a, _) => of_chars a
  | None => s
  end.

Definition _ip_hash_from_principal (principal : string) : res (option string) :=
  let ip_text := strip (before_colon principal) in
  if nonempty ip_text
  then rbind (active_hmac_hex ("auth-counter-ip:" +:+ ip_text) 64) (λ h, Ok (Some h))
  else Ok None.

(** The live counter; an expired one is deleted. *)
Definition _load_counter (scope principal : string) : M St (option (Z * AuthAttemptCounter)) :=
  now <- now_utc ;;
  hash <- lift (_counter_hash scope principal) ;;
  found <- db_query (λ d, one_or_none (counter_for scope hash) (auth_attempt_counters d)) ;;
  match found with
  | None => ret None
  | Some (id, counter) =>
      if ac_window_expires_at counter <=? now then
        _ <- db_write (drop_counter id) ;;
        _ <- flush ;;
        ret None
      else ret (Some (id, counter))
  end.

(** [with db.session.begin_nested()]: a failing insert is undone. *)
Definition nested_insert (id : Z) (c : AuthAttemptCounter) : M St bool :=
  before <- gets working ;;
  _ <- db_write (put_counter id c) ;;
  try_except (_ <- flush ;; ret true) (λ e, bool_decide (e = IntegrityError))
    (λ _, _ <- modify (set_working before) ;; ret false).

Definition _load_or_create_counter (scope principal : string) (now window_seconds : Z)
    : M St (Z * AuthAttemptCounter) :=
  loaded <- _load_counter scope principal ;;
  match loaded with
  | Some kv => ret kv
  | None =>
      hash <- lift (_counter_hash scope principal) ;;
      ip_hash <- lift (_ip_hash_from_principal principal) ;;
      id <- db_get (λ d, next_id (auth_attempt_counters d)) ;;
      let counter := mkAuthAttemptCounter scope hash None ip_hash 0 now
                       (now + window_seconds * US_SECOND) None None now now in
      if negb postgresql then
        _ <- db_write (put_counter id counter) ;; ret (id, counter)
      else
        inserted <- nested_insert id counter ;;
        if (inserted : bool) then ret (id, counter)
        else
          reloaded <- _load_counter scope principal ;;
          match reloaded with
          | Some kv => ret kv
          | None => raise IntegrityError
          end
  end.

Definition apply_exponential_backoff (scope principal : string) : M St unit :=
  counter <- _load_counter scope principal ;;
  let attempts := match counter with Some (_, c) => ac_failure_count c | None => 0 end in
  let start_attempts := _backoff_start_attempts scope in
  if attempts <? start_attempts then ret tt
  else raise (AuthBackoffRequired (Z.min (2 ^ (attempts - start_attempts)) 16)).

Definition record_failure (scope principal : string) (window_seconds : option Z) : M St Z :=
  now <- now_utc ;;
  let* (id, counter) := _load_or_create_counter scope principal now (default (5 * 60) window_seconds) in
  let attempts := ac_failure_count counter + 1 in
  let active_window_seconds :=
    match window_seconds with
    | Some w => w
    | None => if 10 <? attempts then 15 * 60 else 5 * 60
    end in
  let counter :=
    set_ac_window_expires_at (now + active_window_seconds * US_SECOND)
      (set_ac_updated_at now (set_ac_last_failed_at (Some now)
         (set_ac_failure_count attempts counter))) in
  _ <- db_write (put_counter id counter) ;;
  _ <- commit ;;
  _ <- (if str_in (pretty attempts) ["2"; "3"; "5"; "10"] || (10 <? attempts)
        then audit_event "auth_backoff" "applied" None
               [("scope", JStr scope); ("attempts", JInt attempts)]
        else ret tt) ;;
  ret attempts.

Definition enforce_durable_failure_limit (scope principal : string) (limit : Z) : M St unit :=
  if limit <? 1 then raise (ValueError "Durable failure limit must be positive")
  else
    counter <- _load_counter scope principal ;;
    match counter with
    | None => ret tt
    | Some (_, c) =>
        if ac_failure_count c <=? limit then ret tt
        else
          now <- now_utc ;;
          raise (DurableRateLimitExceeded
                   (Z.max 1 (whole_seconds (ac_window_expires_at c - now))))
    end.

Definition clear_failures (scope principal : string) : M St unit :=
  counter <- _load_counter scope principal ;;
  match counter with
  | None => ret tt
  | Some (id, _) => _ <- db_write (drop_counter id) ;; commit
  end.

Definition consume_durable_rate_limit (scope principal : string) (limit window_seconds : Z)
    : M St Z :=
  if (limit <? 1) || (window_seconds <? 1)
  then raise (ValueError "Durable rate-limit bounds must be positive")
  else
    now <- now_utc ;;
    let* (id, counter) := _load_or_create_counter scope principal now window_seconds in
    if limit <=? ac_failure_count counter then
      let retry_after := Z.max 1 (whole_seconds (ac_window_expires_at counter - now)) in
      _ <- rollback ;;
      raise (DurableRateLimitExceeded retry_after)
    else
      let counter := set_ac_updated_at now
                       (set_ac_failure_count (ac_failure_count counter + 1) counter) in
      _ <- db_write (put_counter id counter) ;;
      _ <- commit ;;
      ret (ac_failure_count counter).

(** ** Frame: counters are invisible to an invariant that ignores them *)

Section Frame.
Context (P : Db → Db → Prop) `{!Notifications.audit_blind P}.
Context (counter_blind : ∀ f c w, P c w → P c (upd_auth_attempt_counters f w)).

Lemma pres_put_counter id c : preserves (on_db P) (db_write (put_counter id c)).
Proof using counter_blind. apply pres_db_write. intros. by apply counter_blind. Qed.
Lemma pres_drop_counter id : preserves (on_db P) (db_write (drop_counter id)).
Proof using counter_blind. apply pres_db_write. intros. by apply counter_blind. Qed.
Hint Resolve pres_put_counter pres_drop_counter Notifications.pres_commit_blind
  Notifications.pres_rollback_blind Notifications.pres_audit_blind : pres.

Lemma pres_load_counter sc p : preserves (on_db P) (_load_counter sc p).
Proof using All. unfold _load_counter. solve_pres. Qed.
Hint Resolve pres_load_counter : pres.

Lemma pres_nested_insert id c : preserves (on_db P) (nested_insert id c).
Proof using All.
  intros s Hs. unfold nested_insert, gets, bind, try_except, flush, db_write, modify, ret.
  cbn -[db_ok put_counter]. destruct (db_ok _); cbn -[put_counter]; [|by unfold on_db].
  unfold on_db. simpl. by apply counter_blind.
Qed.
Hint Resolve pres_nested_insert : pres.

Lemma pres_load_or_create sc p n w : preserves (on_db P) (_load_or_create_counter sc p n w).
Proof using All. unfold _load_or_create_counter. solve_pres. Qed.
Hint Resolve pres_load_or_create : pres.

Lemma pres_backoff sc p : preserves (on_db P) (apply_exponential_backoff sc p).
Proof using All. unfold apply_exponential_backoff. solve_pres. Qed.
Lemma pres_record_failure sc p w : preserves (on_db P) (record_failure sc p w).
Proof using All. unfold record_failure. solve_pres. Qed.
Lemma pres_failure_limit sc p l : preserves (on_db P) (enforce_durable_failure_limit sc p l).
Proof using All. unfold enforce_durable_failure_limit. solve_pres. Qed.
Lemma pres_clear_failures sc p : preserves (on_db P) (clear_failures sc p).
Proof using All. unfold clear_failures. solve_pres. Qed.
Lemma pres_consume sc p l w : preserves (on_db P) (consume_durable_rate_limit sc p l w).
Proof using All. unfold consume_durable_rate_limit. solve_pres. Qed.
End Frame.

(** ** The limit holds within a window *)

(** The counter of [scope] and [hash] stands at [n] in a window that ends at
    [W]. *)
Definition counter_at (scope hash : string) (W n : Z) (d : Db) : Prop :=
  ∃ id c, auth_attempt_counters d !! id = Some c ∧ counter_for scope hash c = true
    ∧ ac_window_expires_at c = W ∧ ac_failure_count c = n.

(** Between requests: nothing pending, constraints hold. *)
Definition at_rest (s : St) : Prop := working s = committed s ∧ db_ok (committed s) = true.

(** [n] requests in a row, counting those that were let through. *)
Fixpoint admitted (n : nat) (scope principal : string) (limit window : Z) : M St Z :=
  match n with
  | O => ret 0
  | S n' =>
      r <- serve (consume_durable_rate_limit scope principal limit window) ;;
      k <- admitted n' scope principal limit window ;;
      ret (k + if is_ok r then 1 else 0)
  end.

Lemma find_counter scope hash id c d :
  db_ok d = true → auth_attempt_counters d !! id = Some c → counter_for scope hash c = true →
  one_or_none (counter_for scope hash) (auth_attempt_counters d) = Ok (Some (id, c)).
Proof.
  intros Hok Hc Hf. eapply one_or_none_unique; [by apply db_ok_counters| |done|done].
  instantiate (1 := (scope, hash)).
  intros w. unfold counter_for. rewrite andb_true_iff, !bool_decide_eq_true. by intros [-> ->].
Qed.

(** Loading a live counter reads it and lets time pass. *)
Lemma load_counter_live scope principal hash id c s :
  _counter_hash scope principal = Ok hash → db_ok (working s) = true →
  auth_attempt_counters (working s) !! id = Some c → counter_for scope hash c = true →
  clock s + Z.of_N (tick (effects s)) < ac_window_expires_at c →
  _load_counter scope principal s = (Ok (Some (id, c)), (now_utc s).2).
Proof.
  intros Hh Hok Hc Hf Ht. unfold _load_counter.
  erewrite bind_Ok by reflexivity. erewrite bind_Ok by (unfold lift; by rewrite Hh).
  erewrite bind_Ok
    by (unfold db_query; simpl; by rewrite (find_counter scope hash id c _ Hok Hc Hf)).
  simpl. by rewrite (proj2 (Z.leb_gt _ _) Ht).
Qed.

(** Between requests, the counter of the window at [n]. *)
Definition resting_at (scope hash : string) (W n : Z) (s : St) : Prop :=
  at_rest s ∧ counter_at scope hash W n (committed s).

Lemma consume_live scope principal hash limit window id c s :
  (limit <? 1) || (window <? 1) = false →
  _counter_hash scope principal = Ok hash → db_ok (working s) = true →
  auth_attempt_counters (working s) !! id = Some c → counter_for scope hash c = true →
  clock (now_utc (now_utc s).2).2 < ac_window_expires_at c →
  let s2 := (now_utc (now_utc s).2).2 in
  let now := clock (now_utc s).2 in
  consume_durable_rate_limit scope principal limit window s =
  if limit <=? ac_failure_count c
  then (_ <- rollback ;; raise (DurableRateLimitExceeded
          (Z.max 1 (whole_seconds (ac_window_expires_at c - now))))) s2
  else (_ <- db_write (put_counter id (set_ac_updated_at now
          (set_ac_failure_count (ac_failure_count c + 1) c))) ;;
        _ <- commit ;; ret (ac_failure_count c + 1)) s2.
Proof.
  intros Hb Hh Hok Hc Hf Ht s2 now. unfold consume_durable_rate_limit. rewrite Hb.
  erewrite bind_Ok by reflexivity. unfold _load_or_create_counter.
  erewrite bind_Ok; [|erewrite bind_Ok by (by apply (load_counter_live scope principal hash id c));
    reflexivity].
  subst s2 now. cbv beta iota zeta.
  destruct (Z.leb limit (ac_failure_count c)) eqn:E; rewrite ?E; reflexivity.
Qed.

Lemma serve_clock {A} (c : M St A) s r s' :
  serve c s = (Ok r, s') → clock s' = clock (c s).2 ∧ r = (c s).1.
Proof. unfold serve. destruct (c s). by intros [= <- <-]. Qed.

(** One request against a live counter. *)
Lemma consume_step scope principal hash limit window W n s r s' :
  _counter_hash scope principal = Ok hash → resting_at scope hash W n s →
  clock (now_utc (now_utc s).2).2 < W →
  serve (consume_durable_rate_limit scope principal limit window) s = (Ok r, s') →
  (is_ok r = true ∧ n < limit ∧ resting_at scope hash W (n + 1) s')
  ∨ (is_ok r = false ∧ resting_at scope hash W n s').
Proof.
  intros Hh [[Hw Hok] (id & c & Hc & Hf & HW & Hn)] Ht E. subst W n. unfold serve in E.
  assert (resting_at scope hash (ac_window_expires_at c) (ac_failure_count c)
    (set_working (committed s) s)) as Hrest by (split; [by split | by exists id, c]).
  destruct ((limit <? 1) || (window <? 1)) eqn:Hb.
  { unfold consume_durable_rate_limit in E. rewrite Hb in E. injection E as <- <-. by right. }
  rewrite (consume_live scope principal hash limit window id c) in E; rewrite ?Hw; try done.
  destruct (Z.leb_spec limit (ac_failure_count c)) as [Hl|Hl].
  { injection E as <- <-. right. by split. }
  unfold bind, db_write, modify, commit, ret in E. cbn -[db_ok put_counter] in E. rewrite Hw in E.
  destruct (db_ok _) eqn:Eok in E; injection E as <- <-; [left|right; by split].
  split; [done|]. split; [lia|]. split; [by split|].
  eexists id, _. cbn. rewrite lookup_insert_eq. by split.
Qed.

Lemma nb_restore t d : preserves (not_before t) (modify (set_working d)).
Proof. by intros s. Qed.
Hint Resolve nb_restore : pres.

(** A request reads the clock at least twice. *)
Lemma consume_clock scope principal limit window s :
  (limit <? 1) || (window <? 1) = false →
  clock (now_utc (now_utc s).2).2
  ≤ clock (consume_durable_rate_limit scope principal limit window s).2.
Proof.
  intros Hb. unfold consume_durable_rate_limit. rewrite Hb. erewrite bind_Ok by reflexivity.
  unfold _load_or_create_counter. rewrite bind_assoc. unfold _load_counter at 1.
  rewrite bind_assoc. erewrite bind_Ok by reflexivity.
  match goal with |- ?t ≤ clock (?c ?s2).2 =>
    assert (preserves (not_before t) c) as Hp; [|exact (Hp s2 (Z.le_refl _))] end.
  unfold _load_counter, nested_insert. solve_pres.
Qed.

Lemma nb_serve t {A} (c : M St A) : preserves (not_before t) c → preserves (not_before t) (serve c).
Proof. intros Hc s Hs. specialize (Hc s Hs). unfold serve. by destruct (c s). Qed.

Lemma nb_admitted t m scope principal limit window :
  preserves (not_before t) (admitted m scope principal limit window).
Proof.
  induction m as [|m IH]; simpl; [solve_pres|].
  apply pres_bind; [|intros r; apply pres_bind; [done|solve_pres]]. apply nb_serve.
  unfold consume_durable_rate_limit, _load_or_create_counter, _load_counter, nested_insert.
  solve_pres.
Qed.

Lemma admitted_bounded scope principal hash limit window W m :
  _counter_hash scope principal = Ok hash → (limit <? 1) || (window <? 1) = false →
  ∀ n s k s', resting_at scope hash W n s →
    admitted m scope principal limit window s = (Ok k, s') → clock s' < W →
    0 ≤ k ∧ n + k ≤ Z.max limit n.
Proof.
  intros Hh Hb. induction m as [|m IH]; intros n s k s' Hs E HW.
  { injection E as <- <-. lia. }
  simpl in E. inv_bind E. inv_bind E. unfold ret in E. injection E as <- <-.
  pose proof (consume_clock scope principal limit window s Hb) as Hc.
  destruct (serve_clock _ _ _ _ E0) as [Ec _]. rewrite <- Ec in Hc.
  pose proof (nb_admitted (clock s0) m scope principal limit window s0 (Z.le_refl _)) as Hm.
  rewrite E1 in Hm. unfold not_before in Hm. simpl in Hm.
  destruct (consume_step _ _ _ _ _ _ _ _ _ _ Hh Hs ltac:(lia) E0) as [(-> & Hn & Hs1)|[-> Hs1]];
    specialize (IH _ _ _ _ Hs1 E1 HW); lia.
Qed.

Lemma admitted_total m scope principal limit window :
  total (admitted m scope principal limit window).
Proof.
  induction m as [|m IH]; simpl; [apply total_ret|].
  apply total_bind; [|intros r; apply total_bind; [done|intros k; apply total_ret]].
  intros s. unfold serve. destruct (consume_durable_rate_limit _ _ _ _ s) as [r s']. eauto.
Qed.

(** C27: Durable request limits hold within a window.  Of any number [m] of
    requests made while the window of a scope and principal lasts, those that
    [consume_durable_rate_limit] lets through, added to the ones already
    counted, never exceed the limit (or the count the window started with). *)
Theorem durable_limit_holds scope principal hash limit window W n s m :
  1 ≤ limit → 1 ≤ window → _counter_hash scope principal = Ok hash →
  resting_at scope hash W n s →
  ∃ k s', admitted m scope principal limit window s = (Ok k, s')
    ∧ (clock s' < W → n + k ≤ Z.max limit n).
Proof.
  intros Hl Hw Hh Hs. destruct (admitted_total m scope principal limit window s) as (k & s' & E).
  exists k, s'. split; [done|]. intros HW. eapply admitted_bounded; try done.
  by rewrite (proj2 (Z.ltb_ge _ _) Hl), (proj2 (Z.ltb_ge _ _) Hw).
Qed.
End RateLimits.

#[local] Existing Instance Sample.sample_env.

(** A window with one counted request, open for ten minutes. *)
Definition sample_hash : string :=
  Eval vm_compute in match _counter_hash "login" "user:1" with Ok h => h | Raise _ => "" end.
Definition limited_state : St :=
  let d := put_counter 1 (mkAuthAttemptCounter "login" sample_hash None None 1 Sample.noon
             (Sample.noon + 600 * US_SECOND) None None Sample.noon Sample.noon) Sample.sample_db in
  set_committed d (set_working d Sample.sample_state).

Lemma durable_limit_witness :
  (admitted 5 "login" "user:1" 3 600 limited_state).1 = Ok 2
  ∧ ∃ k s', admitted 5 "login" "user:1" 3 600 limited_state = (Ok k, s')
      ∧ (clock s' < Sample.noon + 600 * US_SECOND → 1 + k ≤ Z.max 3 1).
Proof.
  split; [vm_compute; reflexivity|].
  apply (durable_limit_holds "login" "user:1" sample_hash); [lia|lia|vm_compute; reflexivity|].
  split; [split; [reflexivity|vm_compute; reflexivity]|].
  eexists 1, _. split; [reflexivity|]. split; [vm_compute; reflexivity|]. split; reflexivity.
Defined.
End RateLimits.
