(* ===== verification/Mfa.v ===== *)
(** * Authenticator verification ([app/auth/services.py])

    TOTP codes with their replay records, the failure counters that lock an
    account, and the step-up gate of high-risk actions. *)

From S2P Require Import Prelude PyStr TimeModel Schema Runtime Sample Canonical Integrity AuditLog MfaCrypto.
From S2P Require Import SessionRisk BankingPolicy Notifications Sessions RateLimits.
From Stdlib Require Import Ascii.
Open Scope string_scope.
Open Scope Z_scope.

Module Mfa.
Import SessionHmac Audit MfaCrypto SessionRisk Policy Notifications Sessions RateLimits.

Definition GENERIC_MFA_ERROR : string :=
  "Incorrect code. Check your authenticator and try again.".
Definition AUTH_BACKOFF_ERROR : string :=
  "Too many failed attempts. Please wait before trying again.".
Definition CUSTOMER_HIGH_RISK_TOTP_REPLAY_SCOPES : list string :=
  ["account_freeze"; "account_topup_approval"; "mfa_replace_start"; "password_change"; "payee_add";
   "payee_remove"; "payup_transfer"; "profile_email_change_commit"; "profile_email_change_request";
   "profile_update"; "recovery_codes_regenerate"; "session_revoke_others";
   "transaction_authorization"; "transfer"; "transfer_limits_change"].
Definition CUSTOMER_HIGH_RISK_TOTP_REPLAY_SCOPE : string := "customer_high_risk_action".
Definition AUTH_LOCK_THRESHOLD : Z := 10.
Definition CUSTOMER_PASSWORD_LOCK_THRESHOLD : Z := 3.
Definition PRIVILEGED_PASSWORD_LOCK_THRESHOLD : Z := 2.
Definition AUTH_LOCK_WINDOW_SECONDS : Z := 15 * 60.

Inductive TotpVerificationOutcome : Type :=
  | TOTP_VERIFICATION_VALID
  | TOTP_VERIFICATION_INVALID
  | TOTP_VERIFICATION_REPLAY.
#[export] Instance outcome_eq_dec : EqDecision TotpVerificationOutcome.
Proof. solve_decision. Defined.

(** [re.fullmatch(r"\d{6}", code or "")]. *)
Definition six_digits (code : string) : bool :=
  (slen code =? 6)%nat && forallb is_digit (chars code).
Definition _is_totp_code (code : string) : bool := six_digits code.

Definition is_backoff (e : exn) : bool :=
  match e with AuthBackoffRequired _ => true | _ => false end.
Definition is_integrity_error (e : exn) : bool :=
  match e with IntegrityError => true | _ => false end.

Definition _totp_replay_scope (scope : string) : string :=
  let normalized := strip scope in
  if str_in normalized CUSTOMER_HIGH_RISK_TOTP_REPLAY_SCOPES
  then CUSTOMER_HIGH_RISK_TOTP_REPLAY_SCOPE else normalized.

Definition lock_user (now : Z) (reason : string) (u : User) : User :=
  set_u_security_lock_reason (Some reason) (set_u_security_locked_at (Some now) (set_u_is_frozen true u)).

Definition add_replay (row : TotpReplayRecord) : Db → Db :=
  upd_totp_replay_records (λ t, <[next_id t := row]> t).

Section Mfa.
Context `{Env}.

Definition _enforce_auth_backoff (scope principal : string) : M St unit :=
  try_except (apply_exponential_backoff scope principal) is_backoff
    (λ e, match e with
          | AuthBackoffRequired retry_after =>
              _ <- audit_event "auth_backoff" "blocked" None
                     [("scope", JStr scope); ("retry_after", JInt retry_after)] ;;
              raise (AuthError AUTH_BACKOFF_ERROR 429 (Some retry_after))
          | _ => raise e
          end).

(** ** Failure counters and locking *)

Definition _user_security_lock_threshold (user : User) (scope : string) : res Z :=
  if bool_decide (scope = "password") then
    if str_in (u_account_type user) ["staff"; "admin"; "root_admin"]
    then Ok PRIVILEGED_PASSWORD_LOCK_THRESHOLD
    else Ok CUSTOMER_PASSWORD_LOCK_THRESHOLD
  else if bool_decide (scope = "mfa") then
    rbind (config_int_default "CUSTOMER_MFA_FAILURE_LIMIT" 5)
      (λ wrong_code_limit, Ok (Z.max AUTH_LOCK_THRESHOLD (wrong_code_limit + 2)))
  else Ok AUTH_LOCK_THRESHOLD.

Definition _lock_user_account (user_id : Z) (reason scope : string) (attempts : Z) : M St unit :=
  now <- now_utc ;;
  _ <- db_write (upd_users (alter (lock_user now reason) user_id)) ;;
  revoked <- revoke_all_sessions user_id "revoked" None ;;
  _ <- audit_event_required "account_lock" "locked" (Some user_id)
         [("reason", JStr reason); ("scope", JStr scope); ("attempts", JInt attempts);
          ("revoked_sessions", JInt revoked)] ;;
  commit.

Definition security_scope (scope : string) : string := "user_security:" +:+ scope.
Definition security_principal_hash (user_id : Z) (scope : string) : res string :=
  active_hmac_hex (security_scope scope +:+ ":" +:+ pretty user_id) 64.

(** The counter of the open window, or a new one in place of an expired one. *)
Definition open_security_counter (user_id : Z) (scope : string) (now : Z)
    : M St (Z * AuthAttemptCounter) :=
  hash <- lift (security_principal_hash user_id scope) ;;
  found <- db_query (λ d,
    one_or_none (counter_for (security_scope scope) hash) (auth_attempt_counters d)) ;;
  let create :=
    id <- db_get (λ d, next_id (auth_attempt_counters d)) ;;
    ret (id, mkAuthAttemptCounter (security_scope scope) hash (Some user_id) None 0 now
               (now + AUTH_LOCK_WINDOW_SECONDS * US_SECOND) None None now now) in
  match found with
  | Some (id, c) =>
      if ac_window_expires_at c <=? now then
        _ <- db_write (drop_counter id) ;; _ <- flush ;; create
      else ret (id, c)
  | None => create
  end.

Definition _record_user_security_failure (user_id : Z) (scope lock_reason : string) : M St unit :=
  now <- now_utc ;;
  let* (id, counter) := open_security_counter user_id scope now in
  let attempts := ac_failure_count counter + 1 in
  _ <- db_write (put_counter id
         (set_ac_window_expires_at (now + AUTH_LOCK_WINDOW_SECONDS * US_SECOND)
            (set_ac_updated_at now (set_ac_last_failed_at (Some now)
               (set_ac_failure_count attempts counter))))) ;;
  _ <- commit ;;
  user <- load_user user_id ;;
  threshold <- lift (_user_security_lock_threshold user scope) ;;
  if threshold <=? attempts then _lock_user_account user_id lock_reason scope attempts
  else ret tt.

Definition _clear_user_security_failures (user_id : Z) (scope : string) : M St unit :=
  hash <- lift (security_principal_hash user_id scope) ;;
  found <- db_query (λ d,
    one_or_none (counter_for (security_scope scope) hash) (auth_attempt_counters d)) ;;
  match found with
  | Some (id, _) => _ <- db_write (drop_counter id) ;; commit
  | None => ret tt
  end.

(** ** TOTP *)

Definition _mfa_secret_for_user (user_id : Z) : M St string :=
  user <- load_user user_id ;;
  match u_mfa_secret_nonce user, u_mfa_secret_ciphertext user with
  | Some n, Some c =>
      if nonempty n && nonempty c then decrypt_mfa_secret n c user_id
      else raise (AuthError "MFA is not configured" 403 None)
  | _, _ => raise (AuthError "MFA is not configured" 403 None)
  end.

Definition _totp_valid_window (scope : string) (valid_window : option Z) : res Z :=
  match valid_window with
  | Some w => Ok w
  | None =>
      if bool_decide (scope = "mfa_login") then config_int_default "TOTP_LOGIN_VALID_WINDOW" 1
      else config_int_default "TOTP_HIGH_RISK_VALID_WINDOW" 0
  end.

(** [range(-valid_window, valid_window + 1)] around the current step. *)
Definition _accepted_totp_step (secret code : string) (now valid_window : Z) : option Z :=
  List.find (λ step, (0 <=? step) && bool_decide (totp_at secret (step * 30) = code))
    (seqZ (now / 30 - valid_window) (2 * valid_window + 1)).

Definition replay_digest (user_id : Z) (replay_scope : string) (step : Z) (code : string)
    : res string :=
  active_hmac_hex ("totp-replay:" +:+ pretty user_id +:+ ":" +:+ replay_scope +:+ ":"
                     +:+ pretty step +:+ ":" +:+ code) 64.

Definition replay_ttl (valid_window : Z) : Z := Z.max 30 ((valid_window * 2 + 2) * 30).

Definition track (track_failures : bool) {A} (c : M St A) : M St unit :=
  if track_failures then _ <- c ;; ret tt else ret tt.

Definition _verify_totp_secret_for_user_outcome (user_id : Z) (secret code scope : string)
    (valid_window : option Z) (track_failures : bool) : M St TotpVerificationOutcome :=
  if negb (six_digits code) then
    _ <- track track_failures (record_failure scope (pretty user_id) None) ;;
    ret TOTP_VERIFICATION_INVALID
  else
    _ <- track track_failures
           (try_except (_enforce_auth_backoff scope (pretty user_id)) is_auth_error
              (λ e, _ <- _record_user_security_failure user_id "mfa" "mfa_failed_attempts" ;;
                    raise e)) ;;
    now <- time_seconds ;;
    window <- lift (_totp_valid_window scope valid_window) ;;
    match _accepted_totp_step secret code now window with
    | None =>
        _ <- track track_failures (record_failure scope (pretty user_id) None) ;;
        ret TOTP_VERIFICATION_INVALID
    | Some accepted_step =>
        let replay_scope := _totp_replay_scope scope in
        code_digest <- lift (replay_digest user_id replay_scope accepted_step code) ;;
        recorded_at <- now_utc ;;
        created_at <- now_utc ;;
        _ <- db_write (add_replay (mkTotpReplayRecord user_id replay_scope accepted_step code_digest
               (recorded_at + replay_ttl window * US_SECOND) created_at)) ;;
        stored <- try_except (_ <- commit ;; ret true) is_integrity_error
                    (λ _, _ <- rollback ;; ret false) ;;
        if (stored : bool) then
          _ <- track track_failures (clear_failures scope (pretty user_id)) ;;
          _ <- _clear_user_security_failures user_id "mfa" ;;
          _ <- mark_fresh_mfa ;;
          ret TOTP_VERIFICATION_VALID
        else ret TOTP_VERIFICATION_REPLAY
    end.

Definition _verify_totp_for_user_outcome (user_id : Z) (code scope : string)
    (valid_window : option Z) (track_failures : bool) : M St TotpVerificationOutcome :=
  secret <- _mfa_secret_for_user user_id ;;
  _verify_totp_secret_for_user_outcome user_id secret code scope valid_window track_failures.

Definition _verify_totp_for_user (user_id : Z) (code scope : string)
    (valid_window : option Z) (track_failures : bool) : M St bool :=
  outcome <- _verify_totp_for_user_outcome user_id code scope valid_window track_failures ;;
  ret (bool_decide (outcome = TOTP_VERIFICATION_VALID)).

Definition verify_totp_code_for_user (user_id : Z) (code scope : string) : M St bool :=
  _verify_totp_for_user user_id code scope None true.

(** ** The step-up gate *)

Definition _handle_mfa_verification_failure {A} (user_id : Z) (action : string) : M St A :=
  _ <- audit_event action "failure" (Some user_id) [] ;;
  _ <- _record_user_security_failure user_id "mfa" "mfa_failed_attempts" ;;
  raise (AuthError GENERIC_MFA_ERROR 401 None).

Definition _handle_mfa_verification_replay {A} (user_id : Z) (action : string) : M St A :=
  _ <- audit_event action "failure" (Some user_id) [("reason", JStr "totp_replay")] ;;
  raise (AuthError GENERIC_MFA_ERROR 401 None).

Definition refuse_step_up (user_id : Z) (action reason message : string) : M St unit :=
  _ <- audit_event action "failure" (Some user_id) [("reason", JStr reason)] ;;
  raise (AuthError message 403 None).

Definition verify_high_risk_authorization (user_id : Z) (code : option string) (action : string)
    (rotate_session_on_success : bool) : M St unit :=
  _ <- require_stable_session_for_sensitive_action action ;;
  user <- load_user user_id ;;
  _ <- (if negb (has_enrolled_mfa_method user) then
          refuse_step_up user_id action "mfa_not_enabled" "MFA is required for this action"
        else ret tt) ;;
  _ <- (if negb (nonempty (or_empty code)) then
          refuse_step_up user_id action "missing_mfa_step_up"
            "MFA verification is required for this action"
        else ret tt) ;;
  _ <- (if negb (u_mfa_enabled user) then
          refuse_step_up user_id action "totp_not_enabled"
            "Authenticator MFA is required for this action"
        else ret tt) ;;
  outcome <- _verify_totp_for_user_outcome user_id (or_empty code) action None true ;;
  _ <- match outcome with
       | TOTP_VERIFICATION_REPLAY => _handle_mfa_verification_replay user_id action
       | TOTP_VERIFICATION_INVALID => _handle_mfa_verification_failure user_id action
       | TOTP_VERIFICATION_VALID => ret tt
       end ;;
  _ <- audit_event action "mfa_success" (Some user_id) [] ;;
  signed_in <- session_get "user_id" ;;
  if rotate_session_on_success
     && match signed_in with Some (JInt z) => z =? user_id | _ => false end then
    _ <- rotate_authenticated_session_after_mfa user_id ;; ret tt
  else ret tt.
End Mfa.

(** ** Frame *)

(** Invariants that verification and locking leave alone. *)
Class security_blind (P : Db → Db → Prop) : Prop := {
  sb_audit :: audit_blind P;
  sb_counters f c w : P c w → P c (upd_auth_attempt_counters f w);
  sb_sessions f c w : P c w → P c (upd_server_side_sessions f w);
  sb_lock now r u c w : P c w → P c (upd_users (alter (lock_user now r) u) w);
  sb_replay row c w : P c w → P c (add_replay row w)
}.

#[export] Hint Extern 0 (security_blind _) => apply _ : pres.

Section Frame.
Context `{Env} (P : Db → Db → Prop) `{!security_blind P}.

Lemma pres_add_replay row : preserves (on_db P) (db_write (add_replay row)).
Proof using All. apply pres_db_write, sb_replay. Qed.
Lemma pres_lock_row now r u :
  preserves (on_db P) (db_write (upd_users (alter (lock_user now r) u))).
Proof using All. apply pres_db_write, sb_lock. Qed.
Lemma pres_put_counter_sb id c : preserves (on_db P) (db_write (put_counter id c)).
Proof using All. apply pres_db_write, sb_counters. Qed.
Lemma pres_drop_counter_sb id : preserves (on_db P) (db_write (drop_counter id)).
Proof using All. apply pres_db_write, sb_counters. Qed.
Lemma pres_revoke_all_sb u r c : preserves (on_db P) (revoke_all_sessions u r c).
Proof using All. apply pres_revoke_all, sb_sessions. Qed.
Lemma pres_rotate_sb u : preserves (on_db P) (rotate_authenticated_session_after_mfa u).
Proof using All. apply pres_rotate, sb_sessions. Qed.
Lemma pres_require_stable_sb a :
  preserves (on_db P) (require_stable_session_for_sensitive_action a).
Proof using All. apply pres_require_stable; [apply _|apply sb_sessions]. Qed.
Lemma pres_backoff_sb sc p : preserves (on_db P) (apply_exponential_backoff sc p).
Proof using All. apply pres_backoff; [apply _|apply sb_counters]. Qed.
Lemma pres_record_failure_sb sc p w : preserves (on_db P) (record_failure sc p w).
Proof using All. apply pres_record_failure; [apply _|apply sb_counters]. Qed.
Lemma pres_clear_failures_sb sc p : preserves (on_db P) (clear_failures sc p).
Proof using All. apply pres_clear_failures; [apply _|apply sb_counters]. Qed.
Hint Resolve pres_add_replay pres_lock_row pres_put_counter_sb pres_drop_counter_sb
  pres_revoke_all_sb pres_rotate_sb pres_require_stable_sb pres_backoff_sb
  pres_record_failure_sb pres_clear_failures_sb pres_mark_fresh : pres.

Lemma pres_enforce_backoff sc p : preserves (on_db P) (_enforce_auth_backoff sc p).
Proof using All. unfold _enforce_auth_backoff. solve_pres. Qed.
Lemma pres_record_security u sc r : preserves (on_db P) (_record_user_security_failure u sc r).
Proof using All.
  unfold _record_user_security_failure, open_security_counter, _lock_user_account. cbv zeta.
  solve_pres.
Qed.
Lemma pres_clear_security u sc : preserves (on_db P) (_clear_user_security_failures u sc).
Proof using All. unfold _clear_user_security_failures. solve_pres. Qed.
Hint Resolve pres_enforce_backoff pres_record_security pres_clear_security : pres.

Lemma pres_verify_secret u secret code sc w tf :
  preserves (on_db P) (_verify_totp_secret_for_user_outcome u secret code sc w tf).
Proof using All. unfold _verify_totp_secret_for_user_outcome, track. solve_pres. Qed.
Hint Resolve pres_verify_secret : pres.
Lemma pres_audit_crypto a o u md : preserves (on_db P) (_audit_mfa_crypto a o u md).
Proof using All. unfold _audit_mfa_crypto. solve_pres. Qed.
Hint Resolve pres_audit_crypto : pres.
Lemma pres_kek k : preserves (on_db P) (_kek k).
Proof using All. unfold _kek. solve_pres. Qed.
Hint Resolve pres_kek : pres.
Lemma pres_decrypt n c u : preserves (on_db P) (decrypt_mfa_secret n c u).
Proof using All. unfold decrypt_mfa_secret, _decrypt_envelope, _unwrap_dek. cbv zeta. solve_pres. Qed.
Lemma pres_encrypt m u k : preserves (on_db P) (encrypt_mfa_secret m u k).
Proof using All. unfold encrypt_mfa_secret, _active_kek. cbv zeta. solve_pres. Qed.
Hint Resolve pres_decrypt pres_encrypt : pres.
Lemma pres_verify_code u code sc : preserves (on_db P) (verify_totp_code_for_user u code sc).
Proof using All.
  unfold verify_totp_code_for_user, _verify_totp_for_user, _verify_totp_for_user_outcome,
    _mfa_secret_for_user. solve_pres.
Qed.
Lemma pres_high_risk u code a rot :
  preserves (on_db P) (verify_high_risk_authorization u code a rot).
Proof using All.
  unfold verify_high_risk_authorization, refuse_step_up, _handle_mfa_verification_failure,
    _handle_mfa_verification_replay, _verify_totp_for_user_outcome, _mfa_secret_for_user.
  solve_pres.
Qed.
End Frame.
#[export] Hint Resolve pres_add_replay pres_lock_row pres_put_counter_sb pres_drop_counter_sb
  pres_revoke_all_sb pres_rotate_sb pres_require_stable_sb pres_backoff_sb
  pres_record_failure_sb pres_clear_failures_sb pres_mark_fresh pres_enforce_backoff
  pres_record_security pres_clear_security pres_verify_secret pres_verify_code
  pres_audit_crypto pres_kek pres_decrypt pres_encrypt pres_high_risk : pres.

(** ** A time step is accepted once *)

Section Once.
Context `{Env}.

(** The backoff check returns only when [apply_exponential_backoff] does. *)
Lemma backoff_passes tf scope user_id s u s' :
  track tf (try_except (_enforce_auth_backoff scope (pretty user_id)) is_auth_error
    (λ e, _ <- _record_user_security_failure user_id "mfa" "mfa_failed_attempts" ;; raise e)) s
  = (Ok u, s') → clock s ≤ clock s'.
Proof.
  unfold track. destruct tf; [|intros [= _ <-]; lia]. intros E. inv_bind E.
  unfold ret in E. simplify_eq. unfold try_except at 1 in E0.
  destruct (_enforce_auth_backoff scope (pretty user_id) s) as [[x|e] s1] eqn:Eb.
  2:{ destruct (is_auth_error e); [|done]. by inv_bind E0. }
  simplify_eq. unfold _enforce_auth_backoff, try_except in Eb.
  pose proof (Z.le_refl (clock s)) as Hle.
  assert (preserves (not_before (clock s)) (apply_exponential_backoff scope (pretty user_id))) as Hp
    by (unfold apply_exponential_backoff, _load_counter; solve_pres).
  specialize (Hp s Hle).
  destruct (apply_exponential_backoff _ _ s) as [[y|e] s2]; [by simplify_eq|].
  destruct e; simplify_eq/=; try done. by inv_bind Eb.
Qed.

Definition replay_key (r : TotpReplayRecord) := (tr_user_id r, tr_scope r, tr_time_step r, tr_code_digest r).

(** [r] is stored under [id], durably and in the session's view. *)
Definition replay_row (id : Z) (r : TotpReplayRecord) (c w : Db) : Prop :=
  totp_replay_records c !! id = Some r ∧ totp_replay_records w !! id = Some r.

#[local] Instance replay_row_blind id r : security_blind (replay_row id r).
Proof.
  split; [split|..]; try by intros * [? ?].
  intros row c w [Hc Hw]. split; [done|]. simpl. rewrite lookup_insert_ne; [done|].
  intros E. pose proof (next_id_fresh (totp_replay_records w)). congruence.
Qed.

(** What an accepted code leaves behind: a new record for its step, which no
    record present before had, and which outlives the code. *)
Record accepted (user_id : Z) (secret code scope : string) (s s' : St) (step : Z) : Prop := {
  acc_code : 0 ≤ step ∧ totp_at secret (step * 30) = code;
  acc_row : ∃ id r digest window now, on_db (replay_row id r) s'
    ∧ replay_key r = (user_id, _totp_replay_scope scope, step, digest)
    ∧ replay_digest user_id (_totp_replay_scope scope) step code = Ok digest
    ∧ _totp_valid_window scope None = Ok window
    ∧ _accepted_totp_step secret code (now / US_SECOND) window = Some step
    ∧ clock s ≤ now ∧ now + replay_ttl window * US_SECOND ≤ tr_expires_at r
    ∧ ∀ id0 r0, on_db (replay_row id0 r0) s → replay_key r0 ≠ replay_key r
}.

Lemma accepted_step_code secret code now window step :
  _accepted_totp_step secret code now window = Some step →
  0 ≤ step ∧ totp_at secret (step * 30) = code
  ∧ now / 30 - window ≤ step ≤ now / 30 + window.
Proof.
  unfold _accepted_totp_step. intros Hf. apply List.find_some in Hf as [Hin Hf].
  apply andb_true_iff in Hf as [H1%Z.leb_le H2%bool_decide_eq_true].
  apply list_elem_of_In, elem_of_seqZ in Hin. split_and!; try done; lia.
Qed.

Lemma new_key_distinct row w id0 r0 :
  db_ok (add_replay row w) = true → totp_replay_records w !! id0 = Some r0 →
  replay_key r0 ≠ replay_key row.
Proof.
  intros Hok%db_ok_replay H0 E. pose proof (next_id_fresh (totp_replay_records w)) as Hf.
  assert (id0 = next_id (totp_replay_records w)) as ->; [|congruence].
  eapply (unique_on_inj _ _ id0 _ r0 row (replay_key row) Hok); cbn.
  - rewrite lookup_insert_ne by congruence. done.
  - apply lookup_insert_eq.
  - by rewrite <- E.
  - done.
Qed.

Lemma valid_accepted user_id secret code scope tf s s' :
  _verify_totp_secret_for_user_outcome user_id secret code scope None tf s
    = (Ok TOTP_VERIFICATION_VALID, s') →
  ∃ step, accepted user_id secret code scope s s' step.
Proof.
  intros E. unfold _verify_totp_secret_for_user_outcome in E.
  destruct (negb (six_digits code)); [by repeat inv_bind E|].
  inv_bind E. rename E0 into Eb, s0 into s1. pose proof (backoff_passes _ _ _ _ _ _ Eb) as Hclk.
  assert (∀ id r, on_db (replay_row id r) s → on_db (replay_row id r) s1) as Hkeep.
  { intros id r Hr. match type of Eb with ?c s = _ =>
      assert (preserves (on_db (replay_row id r)) c) as Hp end.
    { unfold track. solve_pres. }
    specialize (Hp s Hr). by rewrite Eb in Hp. }
  clear Eb. inv_bind E. unfold time_seconds in E0. inv_bind E0. unfold ret in E0. simplify_eq.
  apply now_utc_mono in E1 as Hm. unfold now_utc in E1. simplify_eq.
  inv_bind E. unfold lift in E0. simplify_eq. rename a0 into window.
  destruct (_accepted_totp_step secret code _ window) as [step|] eqn:Es; [|by repeat inv_bind E].
  inv_bind E. unfold lift in E0. simplify_eq. rename a0 into digest.
  do 2 (inv_bind E; unfold now_utc in E0; simplify_eq).
  inv_bind E. unfold db_write, modify in E0. simplify_eq. inv_bind E.
  unfold try_except, bind, commit in E0. cbn -[db_ok add_replay] in E0.
  match type of E0 with context [db_ok (add_replay ?x _)] => set (row := x) in * end.
  destruct (db_ok (add_replay row (working s1))) eqn:Hok.
  2:{ unfold ret in E0, E. cbn in E0. by simplify_eq/=. }
  unfold ret in E0. simplify_eq.
  exists step. apply accepted_step_code in Es as Hs. split; [tauto|].
  exists (next_id (totp_replay_records (working s1))), row, digest, window,
    (clock s1 + Z.of_N (tick (effects s1))).
  split_and!; try done; try lia.
  - match type of E with ?c ?s2 = _ => assert (preserves
      (on_db (replay_row (next_id (totp_replay_records (working s1))) row)) c) as Hp end.
    { unfold track. solve_pres. }
    match type of E with ?c ?s2 = _ => specialize (Hp s2) end. rewrite E in Hp. apply Hp.
    split; cbn; apply lookup_insert_eq.
  - simpl. lia.
  - intros id0 r0 [_ Hw]%Hkeep. by apply (new_key_distinct row (working s1) id0).
Qed.

(** Between the two requests only expired records may have been removed, as
    the retention job does. *)
Definition replay_records_kept (s1 s2 : St) : Prop := ∀ id r,
  totp_replay_records (committed s1) !! id = Some r → clock s2 < tr_expires_at r →
  totp_replay_records (committed s2) !! id = Some r.

(** Two scopes that share their replay records. *)
Definition shares_replay (scope scope' : string) : Prop :=
  scope' = scope ∨ (scope ∈ CUSTOMER_HIGH_RISK_TOTP_REPLAY_SCOPES
                    ∧ scope' ∈ CUSTOMER_HIGH_RISK_TOTP_REPLAY_SCOPES).

Lemma high_risk_scope scope :
  scope ∈ CUSTOMER_HIGH_RISK_TOTP_REPLAY_SCOPES →
  _totp_replay_scope scope = CUSTOMER_HIGH_RISK_TOTP_REPLAY_SCOPE
  ∧ _totp_valid_window scope None = config_int_default "TOTP_HIGH_RISK_VALID_WINDOW" 0.
Proof.
  assert (Forall (λ sc, _totp_replay_scope sc = CUSTOMER_HIGH_RISK_TOTP_REPLAY_SCOPE
    ∧ sc ≠ "mfa_login") CUSTOMER_HIGH_RISK_TOTP_REPLAY_SCOPES) as Hall
    by (apply (bool_decide_eq_true_1 _); vm_compute; reflexivity).
  rewrite Forall_forall in Hall. intros [Hr Hn]%Hall. split; [done|].
  unfold _totp_valid_window. by rewrite bool_decide_eq_false_2.
Qed.

Lemma shares_replay_spec scope scope' :
  shares_replay scope scope' →
  _totp_replay_scope scope' = _totp_replay_scope scope
  ∧ _totp_valid_window scope' None = _totp_valid_window scope None.
Proof.
  intros [->|[[-> ->]%high_risk_scope [-> ->]%high_risk_scope]]; done.
Qed.

(** While a step can still be accepted, the record of its first acceptance has
    not expired. *)
Lemma record_outlives_step secret code now now' window step :
  _accepted_totp_step secret code (now / US_SECOND) window = Some step →
  _accepted_totp_step secret code (now' / US_SECOND) window = Some step →
  now' < now + replay_ttl window * US_SECOND.
Proof.
  intros (_ & _ & H1)%accepted_step_code (_ & _ & H2)%accepted_step_code.
  unfold replay_ttl, US_SECOND in *.
  assert (now' / 1000000 / 30 ≤ now / 1000000 / 30 + 2 * window) by lia.
  assert (now' / 1000000 < (now' / 1000000 / 30 + 1) * 30)
    by (pose proof (Z.mod_pos_bound (now' / 1000000) 30); pose proof (Z_div_mod_eq_full (now' / 1000000) 30); lia).
  assert (now' < (now' / 1000000 + 1) * 1000000)
    by (pose proof (Z.mod_pos_bound now' 1000000); pose proof (Z_div_mod_eq_full now' 1000000); lia).
  assert (now / 1000000 / 30 * 30 ≤ now / 1000000)
    by (pose proof (Z.mod_pos_bound (now / 1000000) 30); pose proof (Z_div_mod_eq_full (now / 1000000) 30); lia).
  assert (now / 1000000 * 1000000 ≤ now)
    by (pose proof (Z.mod_pos_bound now 1000000); pose proof (Z_div_mod_eq_full now 1000000); lia).
  lia.
Qed.

(** C23: No time step authorises twice.  After a code has been accepted for a
    user, and whatever happened since as long as unexpired replay records were
    kept, a second verification in the same scope, or in any other high-risk
    action, accepts the same code only if it is also the genuine code of a
    different time step: a captured code cannot be replayed, across actions or
    after the retention job has run. *)
Theorem totp_step_accepted_once user_id secret code scope scope' tf tf' s s1 s2 :
  _verify_totp_secret_for_user_outcome user_id secret code scope None tf s
    = (Ok TOTP_VERIFICATION_VALID, s1) →
  shares_replay scope scope' → replay_records_kept s1 s2 → working s2 = committed s2 →
  match _verify_totp_secret_for_user_outcome user_id secret code scope' None tf' s2 with
  | (Ok TOTP_VERIFICATION_VALID, _) =>
      ∃ a b, a ≠ b ∧ 0 ≤ a ∧ 0 ≤ b ∧ totp_at secret (a * 30) = code ∧ totp_at secret (b * 30) = code
  | _ => True
  end.
Proof.
  intros [a [[Ha Hca] (id & r & dig & w & now & Hrow & Hkey & Hdig & Hw & Hst & _ & Hexp & _)]]%valid_accepted
    [Hrs Hws]%shares_replay_spec Hkept Hrest.
  destruct (_verify_totp_secret_for_user_outcome _ _ _ scope' _ _ s2) as [[o|e] s3] eqn:E; [|done].
  destruct o; try done. apply valid_accepted in E as [b [[Hb Hcb]
    (id' & r' & dig' & w' & now' & _ & Hkey' & Hdig' & Hw' & Hst' & Hclk & _ & Hnew)]].
  exists a, b. split_and!; try done. intros <-.
  rewrite Hws, Hw in Hw'. rewrite Hrs in Hkey', Hdig'. simplify_eq.
  pose proof (record_outlives_step _ _ _ _ _ _ Hst Hst') as Hlive.
  destruct Hrow as [Hc _]. apply (Hkept id r) in Hc; [|lia].
  apply (Hnew id r); [by split; rewrite ?Hrest | congruence].
Qed.

(** ** Sustained failures lock the account *)

Definition account_locked (user_id : Z) (reason : string) (d : Db) : Prop :=
  ∃ row, users d !! user_id = Some row ∧ u_is_frozen row = true
    ∧ is_Some (u_security_locked_at row) ∧ u_security_lock_reason row = Some reason.

Lemma open_live_counter user_id scope hash id c now s :
  security_principal_hash user_id scope = Ok hash → db_ok (working s) = true →
  auth_attempt_counters (working s) !! id = Some c →
  counter_for (security_scope scope) hash c = true → now < ac_window_expires_at c →
  open_security_counter user_id scope now s = (Ok (id, c), s).
Proof.
  intros Hh Hok Hc Hf Hw. unfold open_security_counter.
  erewrite bind_Ok by (unfold lift; by rewrite Hh).
  erewrite bind_Ok by (unfold db_query; by rewrite (find_counter _ _ id c _ Hok Hc Hf)).
  cbv zeta iota beta. by rewrite (proj2 (Z.leb_gt _ _) Hw).
Qed.

Lemma lock_account_spec key user_id reason scope attempts row s :
  _active_key = Ok key → users (working s) !! user_id = Some row →
  match _lock_user_account user_id reason scope attempts s with
  | (Ok _, s') => account_locked user_id reason (committed s')
      ∧ ∀ id r now, server_side_sessions (committed s') !! id = Some r → clock s' ≤ now →
          is_active _session_component user_id now r = false
  | (Raise _, s') => committed s' = committed s
  end.
Proof.
  intros Hk Hu. unfold _lock_user_account. erewrite bind_Ok by reflexivity.
  erewrite bind_Ok by reflexivity. cbn beta.
  set (s1 := set_working _ _).
  assert (account_locked user_id reason (working s1)) as Hl.
  { eexists. split; [unfold s1; simpl; rewrite lookup_alter_eq, Hu; reflexivity|]. simpl. eauto. }
  assert (committed s1 = committed s) as Hc1 by done. clearbody s1.
  destruct (revoke_all_total key user_id "revoked" None Hk s1) as (n & s2 & E2).
  rewrite (bind_Ok _ _ _ _ _ E2). cbn beta.
  pose proof (revoke_all_none _ _ _ _ _ E2) as Hnone.
  assert (committed s2 = committed s1 ∧ account_locked user_id reason (working s2)) as [Hc2 Hl2].
  { assert (preserves (on_db (λ c w, c = committed s1 ∧ account_locked user_id reason w))
      (revoke_all_sessions user_id "revoked" None)) as Hp by (apply pres_revoke_all; by intros ? ? ? [? ?]).
    specialize (Hp s1 (conj eq_refl Hl)). by rewrite E2 in Hp. }
  match goal with |- context [audit_event_required ?a ?b ?c ?d] =>
    pose proof (nb_audit_required (clock s2) a b c d s2 (Z.le_refl _)) as Hclk;
    destruct (audit_event_required a b c d s2) as [r3 s3] eqn:E3 end.
  unfold not_before in Hclk. simpl in Hclk.
  apply audit_event_required_cases in E3 as E3'. destruct E3' as [Hc3 [[-> (ev & _ & Hw3)]|[[e ->] _]]].
  2:{ rewrite (bind_Raise _ _ _ _ _ E3). congruence. }
  rewrite (bind_Ok _ _ _ _ _ E3). unfold commit. destruct (db_ok (working s3)); [|congruence].
  simpl. rewrite Hw3. split; [exact Hl2|]. intros id r now Hr Hnow. apply (Hnone id r now Hr). lia.
Qed.

Lemma principal_hash_key user_id scope hash :
  security_principal_hash user_id scope = Ok hash → ∃ key, _active_key = Ok key.
Proof. unfold security_principal_hash, active_hmac_hex. destruct _active_key; [eauto|done]. Qed.

(** The failure that reaches the threshold locks the account.  Recorded in
    an open window, it freezes the user with the given reason and leaves no
    active session of theirs, durably; when the lock itself cannot be recorded,
    the failure has still been counted (unless the database refused that too),
    so the next one meets the threshold again. *)
Theorem lock_at_threshold user_id scope reason hash W n t row s :
  security_principal_hash user_id scope = Ok hash → at_rest s →
  counter_at (security_scope scope) hash W n (committed s) → clock (now_utc s).2 < W →
  users (committed s) !! user_id = Some row →
  _user_security_lock_threshold row scope = Ok t → t ≤ n + 1 →
  match _record_user_security_failure user_id scope reason s with
  | (Ok _, s') => account_locked user_id reason (committed s')
      ∧ ∀ id r now, server_side_sessions (committed s') !! id = Some r → clock s' ≤ now →
          is_active _session_component user_id now r = false
  | (Raise e, s') => e = IntegrityError
      ∨ ∃ W', counter_at (security_scope scope) hash W' (n + 1) (committed s')
  end.
Proof.
  intros Hh [Hrest Hok] (id & c & Hc & Hf & HW & Hn) Hclk Hu Ht Hle.
  destruct (principal_hash_key _ _ _ Hh) as [key Hk].
  unfold _record_user_security_failure. erewrite bind_Ok by reflexivity.
  erewrite bind_Ok by (apply (open_live_counter user_id scope hash id c); simpl;
    rewrite ?Hrest; try done; simpl in Hclk; by rewrite HW).
  cbn beta iota. erewrite bind_Ok by reflexivity. unfold bind at 1, commit at 1.
  match goal with |- context [db_ok ?w] => destruct (db_ok w) end; [|by left].
  set (s1 := set_committed _ _).
  assert (users (working s1) !! user_id = Some row) as Hu1 by (simpl; by rewrite Hrest).
  assert (∃ W', counter_at (security_scope scope) hash W' (n + 1) (committed s1)) as [W' Hcount].
  { eexists. exists id. eexists. split; [simpl; apply lookup_insert_eq|]. subst n. by split_and!. }
  clearbody s1. erewrite bind_Ok by (unfold load_user, db_query; by rewrite Hu1).
  erewrite bind_Ok by (unfold lift; by rewrite Ht). subst n.
  rewrite (proj2 (Z.leb_le _ _) Hle).
  pose proof (lock_account_spec key user_id reason scope (ac_failure_count c + 1) row s1 Hk Hu1) as Hl.
  destruct (_lock_user_account _ _ _ _ s1) as [[u|e] s2]; [done|]. rewrite Hl. eauto.
Qed.
End Once.

#[local] Existing Instance Sample.sample_env.

Definition sample_code : string := totp_at "SECRET" (Sample.noon / US_SECOND).
Definition first_use :=
  _verify_totp_secret_for_user_outcome 1 "SECRET" sample_code "transfer" None true
    Sample.sample_state.

Lemma totp_once_witness :
  first_use.1 = Ok TOTP_VERIFICATION_VALID
  ∧ match _verify_totp_secret_for_user_outcome 1 "SECRET" sample_code "payee_add" None true
            first_use.2 with
    | (Ok TOTP_VERIFICATION_VALID, _) => ∃ a b, a ≠ b ∧ 0 ≤ a ∧ 0 ≤ b
        ∧ totp_at "SECRET" (a * 30) = sample_code ∧ totp_at "SECRET" (b * 30) = sample_code
    | _ => True
    end.
Proof.
  assert (first_use.1 = Ok TOTP_VERIFICATION_VALID) as E by (vm_compute; reflexivity).
  split; [exact E|].
  apply (totp_step_accepted_once 1 "SECRET" sample_code "transfer" "payee_add" true true
    Sample.sample_state first_use.2).
  - rewrite <- E. apply surjective_pairing.
  - right. split; apply (bool_decide_eq_true_1 _); vm_compute; reflexivity.
  - intros id r Hr _. exact Hr.
  - vm_compute. reflexivity.
Defined.

(** Nine failed codes in the open window. *)
Definition mfa_hash : string :=
  Eval vm_compute in match security_principal_hash 1 "mfa" with Ok h => h | Raise _ => "" end.
Definition failing_state : St :=
  let d := put_counter 1 (mkAuthAttemptCounter "user_security:mfa" mfa_hash (Some 1) None 9 Sample.noon
             (Sample.noon + 900 * US_SECOND) None None Sample.noon Sample.noon) Sample.sample_db in
  set_committed d (set_working d Sample.sample_state).

Lemma lock_witness :
  (_record_user_security_failure 1 "mfa" "mfa_failed_attempts" failing_state).1 = Ok tt
  ∧ account_locked 1 "mfa_failed_attempts"
      (committed (_record_user_security_failure 1 "mfa" "mfa_failed_attempts" failing_state).2).
Proof.
  assert ((_record_user_security_failure 1 "mfa" "mfa_failed_attempts" failing_state).1 = Ok tt) as E
    by (vm_compute; reflexivity).
  split; [exact E|].
  assert (security_principal_hash 1 "mfa" = Ok mfa_hash) as Hh by (vm_compute; reflexivity).
  pose proof (lock_at_threshold 1 "mfa" "mfa_failed_attempts" mfa_hash
    (Sample.noon + 900 * US_SECOND) 9 10 Sample.alice failing_state Hh) as Ht.
  destruct (_record_user_security_failure 1 "mfa" "mfa_failed_attempts" failing_state)
    as [[u|e] s']; [|discriminate].
  apply Ht; try (vm_compute; reflexivity).
  - split; [reflexivity|vm_compute; reflexivity].
  - eexists 1, _. split; [reflexivity|]. split; [vm_compute; reflexivity|]. split; reflexivity.
  - lia.
Defined.
End Mfa.
