(* ===== verification/RecoveryCodes.v ===== *)
(** * Recovery codes ([app/auth/recovery_codes.py])

    Single-use codes that stand in for the authenticator: generation, which
    retires the unused ones, and redemption. *)

From S2P Require Import Prelude PyStr TimeModel Schema Runtime Sample Canonical Integrity AuditLog.
From Stdlib Require Import Ascii.
Open Scope string_scope.
Open Scope Z_scope.

Module RecoveryCodes.
Import SessionHmac Audit.

Definition RECOVERY_CODE_COUNT : Z := 10.
Definition RECOVERY_CODE_LOW_THRESHOLD : Z := 2.
Definition RECOVERY_CODE_PURPOSE_TOTP : string := "totp_recovery".

Definition _normalize_recovery_code (code : string) : string :=
  of_chars (List.filter is_alnum (chars (casefold code))).

(** [token[0:8] + "-" + token[8:16] + ...] of 32 hexadecimal digits. *)
Definition group8 (token : string) : string :=
  let part k := of_chars (firstn 8 (skipn (8 * k) (chars token))) in
  join "-" [part 0%nat; part 1%nat; part 2%nat; part 3%nat].

Definition open_code (user_id : Z) (purpose : string) (r : RecoveryCode) : bool :=
  (rc_user_id r =? user_id) && bool_decide (rc_purpose r = purpose)
  && bool_decide (rc_used_at r = None).
Definition redeemable (user_id : Z) (purpose hmac : string) (r : RecoveryCode) : bool :=
  open_code user_id purpose r && (2 <=? rc_hmac_version r) && bool_decide (rc_code_hmac r = hmac).

Definition use_code (now : Z) (r : RecoveryCode) : RecoveryCode := set_rc_used_at (Some now) r.
Definition add_code (r : RecoveryCode) : Db → Db :=
  upd_recovery_codes (λ t, <[next_id t := r]> t).

Section RecoveryCodes.
Context `{Env}.

Definition _recovery_code_hmac (user_id : Z) (purpose code : string) : res string :=
  active_hmac_hex ("recovery-code:v2:" +:+ pretty user_id +:+ ":" +:+ casefold (strip purpose)
                     +:+ ":" +:+ _normalize_recovery_code code) 64.

Definition _new_recovery_code : M St string := token <- fresh urandom_hex ;; ret (group8 token).

Fixpoint new_codes (count : nat) : M St (list string) :=
  match count with
  | O => ret []
  | S n => code <- _new_recovery_code ;; codes <- new_codes n ;; ret (code :: codes)
  end.

Definition store_code (user_id : Z) (purpose code : string) : M St unit :=
  code_hmac <- lift (_recovery_code_hmac user_id purpose code) ;;
  created_at <- now_utc ;;
  db_write (add_code (mkRecoveryCode user_id code_hmac 2 purpose created_at None)).

Definition generate_recovery_codes_for_user (user_id count : Z) (purpose : string)
    (do_commit audit : bool) : M St (list string) :=
  if (count <? 1) || (20 <? count) then
    raise (ValueError "Recovery code count must be between 1 and 20")
  else
    now <- now_utc ;;
    _ <- db_write (upd_recovery_codes (fmap (λ r,
           if open_code user_id purpose r then use_code now r else r))) ;;
    codes <- new_codes (Z.to_nat count) ;;
    _ <- mapM_ (store_code user_id purpose) codes ;;
    _ <- (if do_commit then
            _ <- commit ;;
            if audit then
              audit_event "recovery_codes_generated" "success" (Some user_id)
                [("count", JInt count); ("purpose", JStr purpose)]
            else ret tt
          else ret tt) ;;
    ret codes.

Definition consume_recovery_code (user_id : Z) (code purpose : string) (do_commit : bool)
    : M St bool :=
  bound_hmac <- lift (_recovery_code_hmac user_id purpose code) ;;
  record <- db_query (λ d, one_or_none (redeemable user_id purpose bound_hmac) (recovery_codes d)) ;;
  match record with
  | None => _ <- (if do_commit then rollback else ret tt) ;; ret false
  | Some (id, _) =>
      now <- now_utc ;;
      _ <- db_write (upd_recovery_codes (alter (use_code now) id)) ;;
      _ <- (if do_commit then commit else ret tt) ;;
      ret true
  end.

Definition unused_recovery_code_count (user_id : Z) (purpose : string) : M St Z :=
  db_get (λ d, Z.of_nat (length (rows_where
    (λ r, open_code user_id purpose r && (2 <=? rc_hmac_version r)) (recovery_codes d)))).

Definition recovery_code_count_is_low (user_id : Z) (purpose : string) : M St bool :=
  remaining <- unused_recovery_code_count user_id purpose ;;
  ret ((0 <=? remaining) && (remaining <=? RECOVERY_CODE_LOW_THRESHOLD)).

Definition send_recovery_code_used_notification (user_id : Z) : M St unit :=
  email <- db_query (λ d, match users d !! user_id with
                          | Some u => Ok (u_email u) | None => Raise NoResultFound end) ;;
  send_security_email email "SITBank recovery code used"
    ("A SITBank recovery code was used to complete authenticator MFA. " +:+
     "If this was not you, contact support immediately. " +:+
     "This message does not contain account recovery secrets.").

(** ** Redemption *)

(** The row of a code, as far as redemption can see it. *)
Definition spent (hmac : string) (d : Db) : Prop :=
  ∃ id r, recovery_codes d !! id = Some r ∧ rc_code_hmac r = hmac ∧ is_Some (rc_used_at r).

Lemma redeemable_hmac u p h r : redeemable u p h r = true → rc_code_hmac r = h ∧ rc_used_at r = None.
Proof. unfold redeemable, open_code. rewrite !andb_true_iff, !bool_decide_eq_true. tauto. Qed.

Lemma spent_none user_id purpose hmac d :
  unique_on (λ c, Some (rc_code_hmac c)) (recovery_codes d) = true → spent hmac d →
  one_or_none (redeemable user_id purpose hmac) (recovery_codes d) = Ok None.
Proof.
  intros Hok (id & r & Hr & Hh & [t Hu]). unfold one_or_none.
  destruct (rows_where _ _) as [|[j w] l] eqn:E; [done|]. exfalso.
  assert ((j, w) ∈ rows_where (redeemable user_id purpose hmac) (recovery_codes d)) as Hin
    by (rewrite E; left).
  apply rows_where_spec in Hin as [Hj [Hw Hn]%redeemable_hmac].
  assert (id = j) as -> by (eapply (unique_on_inj _ _ id j r w hmac Hok); congruence).
  congruence.
Qed.

Lemma consume_spends user_id code purpose b s s1 :
  consume_recovery_code user_id code purpose b s = (Ok true, s1) →
  ∃ hmac, _recovery_code_hmac user_id purpose code = Ok hmac ∧ spent hmac (working s1).
Proof.
  unfold consume_recovery_code. intros E. inv_bind E. unfold lift in E0. simplify_eq.
  exists a. split; [done|]. inv_bind E. unfold db_query in E0. simplify_eq.
  destruct a0 as [[id r]|]; [|by repeat inv_bind E].
  apply one_or_none_Some in H1 as [Hr [Hh _]%redeemable_hmac].
  inv_bind E. unfold now_utc in E0. simplify_eq. inv_bind E. unfold db_write, modify in E0. simplify_eq.
  inv_bind E. unfold ret in E. simplify_eq.
  exists id, (use_code (clock s + Z.of_N (tick (effects s))) r).
  split; [|split; [reflexivity|eexists; reflexivity]].
  destruct b; [unfold commit in E0; case_match|unfold ret in E0]; simplify_eq; simpl;
    by rewrite lookup_alter_eq, Hr.
Qed.

(** Used codes are never forgotten. *)
Definition used_codes_kept (s1 s2 : St) : Prop := ∀ id r,
  recovery_codes (working s1) !! id = Some r → is_Some (rc_used_at r) →
  ∃ r', recovery_codes (working s2) !! id = Some r' ∧ rc_code_hmac r' = rc_code_hmac r
        ∧ is_Some (rc_used_at r').

(** A recovery code works once.  After a redemption succeeded, and as long
    as used codes stay recorded and the table's constraints hold, any further
    redemption of the same code returns [False]. *)
Theorem recovery_code_single_use user_id code purpose b b' s s1 s2 :
  consume_recovery_code user_id code purpose b s = (Ok true, s1) →
  used_codes_kept s1 s2 → db_ok (working s2) = true →
  (consume_recovery_code user_id code purpose b' s2).1 = Ok false.
Proof.
  intros (hmac & Hh & id & r & Hr & Hrh & Hu)%consume_spends Hkept Hok.
  destruct (Hkept id r Hr Hu) as (r' & Hr' & Hrh' & Hu').
  unfold consume_recovery_code. erewrite bind_Ok by (unfold lift; by rewrite Hh).
  erewrite bind_Ok by (unfold db_query; rewrite spent_none;
    [done|by apply db_ok_recovery|]; exists id, r'; by rewrite Hrh').
  by destruct b'.
Qed.

(** ** Generation *)

Lemma store_codes_spec user_id purpose codes s u s' :
  mapM_ (store_code user_id purpose) codes s = (Ok u, s') →
  (∀ id r, recovery_codes (working s) !! id = Some r → recovery_codes (working s') !! id = Some r)
  ∧ (∀ code, code ∈ codes → ∃ id r hmac, recovery_codes (working s') !! id = Some r
       ∧ _recovery_code_hmac user_id purpose code = Ok hmac
       ∧ redeemable user_id purpose hmac r = true)
  ∧ committed s' = committed s.
Proof.
  revert s. induction codes as [|code codes IH]; intros s E; simpl in E.
  { unfold ret in E. simplify_eq. split_and!; [done|set_solver|done]. }
  inv_bind E. unfold store_code in E0. inv_bind E0. unfold lift in E1. simplify_eq.
  inv_bind E0. unfold now_utc in E1. simplify_eq. unfold db_write, modify in E0. simplify_eq.
  destruct (IH _ E) as (Hold & Hnew & Hc). simpl in *. split_and!; [| |done].
  - intros id r Hr. apply Hold. simpl. rewrite lookup_insert_ne; [done|].
    intros <-. by rewrite next_id_fresh in Hr.
  - intros c [->|Hin]%elem_of_cons; [|by apply Hnew].
    eexists _, _, _. split_and!; [apply Hold; simpl; apply lookup_insert_eq|done|].
    unfold redeemable, open_code. simpl. by rewrite Z.eqb_refl, !bool_decide_eq_true_2.
Qed.

Lemma new_codes_db n : ∀ s codes s', new_codes n s = (Ok codes, s') →
  working s' = working s ∧ committed s' = committed s ∧ length codes = n.
Proof.
  induction n as [|n IH]; intros s codes s' E; simpl in E; [unfold ret in E; by simplify_eq|].
  inv_bind E. unfold _new_recovery_code, fresh, bind, ret in E0. simplify_eq/=.
  inv_bind E. unfold ret in E. simplify_eq. destruct (IH _ _ _ E0) as (Hw & Hc & Hl).
  simpl in *. split_and!; [done..|by rewrite Hl].
Qed.

Lemma consume_open user_id code purpose hmac id r s :
  unique_on (λ c, Some (rc_code_hmac c)) (recovery_codes (working s)) = true →
  _recovery_code_hmac user_id purpose code = Ok hmac →
  recovery_codes (working s) !! id = Some r → redeemable user_id purpose hmac r = true →
  (consume_recovery_code user_id code purpose false s).1 = Ok true.
Proof.
  intros Hu Hh Hr Hred. unfold consume_recovery_code.
  erewrite bind_Ok by (unfold lift; by rewrite Hh).
  assert (one_or_none (redeemable user_id purpose hmac) (recovery_codes (working s)) = Ok (Some (id, r)))
    as Hone.
  { eapply (one_or_none_unique _ _ _ id r hmac Hu); [|done..].
    by intros w [-> _]%redeemable_hmac. }
  by erewrite bind_Ok by (unfold db_query; by rewrite Hone).
Qed.

Lemma consume_spent user_id code purpose hmac s :
  unique_on (λ c, Some (rc_code_hmac c)) (recovery_codes (working s)) = true →
  _recovery_code_hmac user_id purpose code = Ok hmac → spent hmac (working s) →
  (consume_recovery_code user_id code purpose false s).1 = Ok false.
Proof.
  intros Hu Hh Hs. unfold consume_recovery_code.
  erewrite bind_Ok by (unfold lift; by rewrite Hh).
  by erewrite bind_Ok by (unfold db_query; by rewrite spent_none).
Qed.

Lemma audit_keeps_codes T ty out u md s :
  on_db (λ c w, recovery_codes c = T ∧ recovery_codes w = T) s →
  recovery_codes (working (audit_event ty out u md s).2) = T.
Proof.
  intros Hs. apply (pres_audit_event (λ c w, recovery_codes c = T ∧ recovery_codes w = T) ty out u md);
    [by intros ? ? [? ?]..|exact Hs].
Qed.

(** A new set of recovery codes replaces the old one.  When generation
    returns after its commit, it returns the requested number of codes, each of
    them can be redeemed, and no code of that user and purpose stored before
    can. *)
Theorem regeneration_replaces_codes user_id count purpose audit s codes s1 :
  generate_recovery_codes_for_user user_id count purpose true audit s = (Ok codes, s1) →
  Z.of_nat (length codes) = count
  ∧ (∀ code, code ∈ codes → (consume_recovery_code user_id code purpose false s1).1 = Ok true)
  ∧ (∀ code hmac id r, _recovery_code_hmac user_id purpose code = Ok hmac →
       recovery_codes (working s) !! id = Some r → rc_code_hmac r = hmac →
       rc_user_id r = user_id → rc_purpose r = purpose →
       (consume_recovery_code user_id code purpose false s1).1 = Ok false).
Proof.
  unfold generate_recovery_codes_for_user. destruct (_ || _) eqn:Hrange; [done|].
  apply orb_false_iff in Hrange as [H1%Z.ltb_ge H2%Z.ltb_ge]. intros E.
  inv_bind E. unfold now_utc in E0. simplify_eq. inv_bind E. unfold db_write, modify in E0. simplify_eq.
  inv_bind E. apply new_codes_db in E0 as (Hw & Hc & Hlen). simpl in Hw.
  inv_bind E. apply store_codes_spec in E0 as (Hold & Hnew & _). inv_bind E. unfold ret in E. simplify_eq.
  inv_bind E0. unfold commit in E. destruct (db_ok (working s2)) eqn:Hok; simplify_eq.
  assert (recovery_codes (working s1) = recovery_codes (working s2)) as Heq.
  { destruct audit; [|unfold ret in E0; by simplify_eq].
    match type of E0 with audit_event ?a ?b ?c ?d ?st = _ =>
      pose proof (audit_keeps_codes (recovery_codes (working s2)) a b c d st (conj eq_refl eq_refl))
        as Hk end. by rewrite E0 in Hk. }
  apply db_ok_recovery in Hok. split_and!; [lia| |].
  - intros code (id & r & hmac & Hr & Hh & Hred)%Hnew.
    by apply (consume_open _ _ _ hmac id r); rewrite ?Heq.
  - intros code hmac id r Hh Hr Hrh Hru Hrp. apply (consume_spent _ _ _ hmac); rewrite ?Heq; [done..|].
    unfold spent. rewrite Heq. exists id. eexists. split.
    { apply Hold. rewrite Hw. simpl. by rewrite lookup_fmap, Hr. }
    subst. unfold open_code. rewrite Z.eqb_refl, bool_decide_eq_true_2 by done. simpl.
    case_bool_decide as Hn; simpl; [eauto|]. split; [done|]. by destruct (rc_used_at r); [eauto|].
Qed.
End RecoveryCodes.

#[local] Existing Instance Sample.hex_env.

Definition issued := generate_recovery_codes_for_user 1 2 "totp_recovery" true true Sample.sample_state.
Definition issued_code : string := group8 "a".
Definition redeemed := consume_recovery_code 1 issued_code "totp_recovery" true issued.2.

Lemma single_use_witness :
  redeemed.1 = Ok true
  ∧ (consume_recovery_code 1 issued_code "totp_recovery" true redeemed.2).1 = Ok false.
Proof.
  assert (redeemed.1 = Ok true) as E by (vm_compute; reflexivity). split; [exact E|].
  apply (recovery_code_single_use 1 issued_code "totp_recovery" true true issued.2 redeemed.2).
  - rewrite <- E. apply surjective_pairing.
  - intros id r Hr Hu. exists r. split; [exact Hr|]. split; [reflexivity|exact Hu].
  - vm_compute. reflexivity.
Defined.

Lemma regeneration_witness :
  ∃ codes, issued.1 = Ok codes ∧ Z.of_nat (length codes) = 2
  ∧ ∀ code, code ∈ codes →
      (consume_recovery_code 1 code "totp_recovery" false issued.2).1 = Ok true.
Proof.
  assert (issued.1 = Ok [group8 "a"; group8 "aa"]) as E by (vm_compute; reflexivity).
  exists [group8 "a"; group8 "aa"]. split; [exact E|].
  destruct (regeneration_replaces_codes 1 2 "totp_recovery" true Sample.sample_state
    [group8 "a"; group8 "aa"] issued.2) as (Hl & Hc & _).
  - rewrite <- E. apply surjective_pairing.
  - split; [exact Hl|exact Hc].
Defined.
End RecoveryCodes.
