(* ===== verification/Devices.v ===== *)
(** * Device recognition ([app/security/device_recognition.py])

    After a sign-in the browser's device cookie is looked up among the devices
    of that user.  An unknown device is recorded, given a new cookie, and the
    user is told by e-mail; when the message cannot be delivered the record is
    withdrawn, so that the next sign-in tries again.  The cookie attributes of
    [apply_device_cookie] are a response header. *)

From S2P Require Import Prelude PyStr TimeModel Schema Runtime Sample Integrity AuditLog SessionRisk.
From S2P Require Import BankingPolicy Notifications Sessions SessionStore.
Open Scope string_scope.
Open Scope Z_scope.

Module Devices.
Import SessionHmac Audit Policy Notifications SessionStore TimeDisplay.

Record DeviceCheckResult : Type := mkDeviceCheckResult { is_new_device : bool; device_token : string }.

Definition device_message (raw_token : string) : string := "device-token:" +:+ raw_token.

Definition seen_again (now max_age : Z) (r : KnownDevice) : KnownDevice :=
  set_kd_expires_at (now + max_age) (set_kd_last_seen_at now r).

Definition new_device_body (user_agent ip_address : string) (login_at : Z) : string :=
  lines [EMAIL_GREETING; "";
         "We detected a new sign-in to your e-banking account on "
           +:+ summarize_user_agent user_agent +:+ " on " +:+ sgt_date (Some (Naive login_at))
           +:+ " at " +:+ sgt_time (Some (Naive login_at)) +:+ " from IP address "
           +:+ display_ip_address ip_address +:+ ". "
           +:+ "If this was you, you don't need to do anything. If not, log in "
           +:+ "immediately to terminate the current session and either change your "
           +:+ "password, reset your MFA, or freeze your account (with a valid reason).";
         "";
         "For your security, please do not delay in taking action if you did not initiate this sign-in.";
         ""; EMAIL_CLOSING; ""; EMAIL_SIGN_OFF].

Section Devices.
Context `{Env}.

Definition device_token_hash (raw_token : string) : res string :=
  active_hmac_hex (device_message raw_token) 64.

(** The first unexpired row the token matches. *)
Fixpoint recognised (raw_token : string) (now : Z) (candidates : list (Z * KnownDevice))
    : res (option (Z * KnownDevice)) :=
  match candidates with
  | [] => Ok None
  | (id, row) :: rest =>
      if kd_expires_at row <=? now then recognised raw_token now rest
      else rbind (matches_hmac (kd_device_token_hash row) (device_message raw_token) 64)
        (λ found, if (found : bool) then Ok (Some (id, row)) else recognised raw_token now rest)
  end.

Definition find_known (user_id : Z) (raw_token : string) (now : Z) : M St (option (Z * KnownDevice)) :=
  if nonempty raw_token then
    candidates <- db_get (λ d, rows_where (λ r, kd_user_id r =? user_id) (known_devices d)) ;;
    lift (recognised raw_token now candidates)
  else ret None.

Definition check_and_register_device (user_id : Z) (raw_cookie_token : option string)
    : M St DeviceCheckResult :=
  now <- now_utc ;;
  seconds <- lift (config_int "DEVICE_COOKIE_MAX_AGE_SECONDS") ;;
  let max_age := seconds * US_SECOND in
  let raw_token := or_empty raw_cookie_token in
  known <- find_known user_id raw_token now ;;
  match known with
  | Some (id, row) =>
      _ <- db_write (upd_known_devices (<[id := seen_again now max_age row]>)) ;;
      _ <- commit ;;
      ret (mkDeviceCheckResult false raw_token)
  | None =>
      new_token <- fresh token_urlsafe ;;
      hash <- lift (device_token_hash new_token) ;;
      _ <- db_write (upd_known_devices
             (λ t, <[next_id t := mkKnownDevice user_id hash now now (now + max_age)]> t)) ;;
      _ <- commit ;;
      ret (mkDeviceCheckResult true new_token)
  end.

Definition send_new_device_login_email (user_id : Z) (ip_address user_agent : string) (login_at : Z)
    : M St bool :=
  let body := new_device_body user_agent ip_address login_at in
  delivered <- try_except
    (user <- load_user user_id ;;
     _ <- send_security_email (u_email user) "SITBank new device sign-in" body ;; ret true)
    any_exn (λ _, ret false) ;;
  if (delivered : bool) then
    _ <- audit_event "new_device_login_notification" "queued" (Some user_id) [] ;; ret true
  else
    _ <- audit_event "new_device_login_notification" "failure" (Some user_id)
           [("reason", JStr "email_delivery_failed")] ;; ret false.

Definition forget_known_device_token (user_id : Z) (raw_token : string) : M St unit :=
  token_hash <- lift (device_token_hash raw_token) ;;
  _ <- db_write (upd_known_devices (filter (λ kv : Z * KnownDevice,
         ¬ (kd_user_id kv.2 = user_id ∧ kd_device_token_hash kv.2 = token_hash)))) ;;
  commit.

Definition resolve_freshly_authenticated_user : M St (option (Z * User)) :=
  user_id <- session_get "user_id" ;;
  if negb (otruthy user_id) then ret None
  else match user_id with
       | Some (JInt id) => db_get (λ d, (λ u, (id, u)) <$> users d !! id)
       | _ => raise TypeError
       end.

Definition handle_new_device_login (user_id : Z) (ip_address user_agent : string) : M St string :=
  cookie_name <- lift (config_item "DEVICE_COOKIE_NAME") ;;
  let raw_cookie_token := request_cookie (py_str cookie_name) in
  checked <- try_except (r <- check_and_register_device user_id raw_cookie_token ;; ret (Some r))
               any_exn (λ _, _ <- rollback ;; ret None) ;;
  match checked with
  | None => fresh token_urlsafe
  | Some result =>
      _ <- (if is_new_device result then
              login_at <- now_utc ;;
              delivered <- send_new_device_login_email user_id ip_address user_agent login_at ;;
              if negb (delivered : bool) then
                try_except (forget_known_device_token user_id (device_token result))
                  any_exn (λ _, rollback)
              else ret tt
            else ret tt) ;;
      ret (device_token result)
  end.
End Devices.
End Devices.
Import Devices SessionHmac Audit Policy Notifications SessionStore.

(** ** No device is known without a notice *)

Section Notice.
Context `{Env}.

Lemma devices_db_ok f d : db_ok (upd_known_devices f d) = db_ok d.
Proof. done. Qed.

Lemma email_cases a b c s r s' :
  send_security_email a b c s = (r, s') →
  committed s' = committed s ∧ working s' = working s
  ∧ ((r = Ok tt ∧ outbox s' = (outbox s ++ [mkMail a b c])%list)
     ∨ ((∃ e, r = Raise e) ∧ outbox s' = outbox s)).
Proof.
  unfold send_security_email, _deliver_to_outbox, _deliver_smtp. cbv zeta.
  destruct (bool_decide (_ = "console")).
  { destruct (bool_decide _); intros [= <- <-]; simpl; eauto 10. }
  destruct (bool_decide (_ = "smtp")); [|intros [= <- <-]; simpl; eauto 10].
  unfold bind, lift, fresh. destruct (_ensure_secure_smtp_mode _); [|intros [= <- <-]; simpl; eauto 10].
  destruct (smtp_fault _); intros [= <- <-]; simpl; eauto 10.
Qed.

Lemma fingerprint_ok m n h sid : active_hmac_hex m n = Ok h → ∃ v, session_fingerprint sid = Ok v.
Proof.
  unfold active_hmac_hex, session_fingerprint. destruct _active_key as [key|] eqn:E; [|done].
  intros _. destruct sid as [x|]; [|eauto]. unfold active_hmac_hex. rewrite E. simpl.
  destruct (nonempty x); eauto.
Qed.

(** A best-effort audit record returns when the session reference can be made. *)
Lemma audit_event_returns ty out u md s :
  (∀ sid, ∃ v, session_fingerprint sid = Ok v) →
  ∃ s', audit_event ty out u md s = (Ok tt, s') ∧ outbox s' = outbox s.
Proof.
  intros Hf. unfold audit_event, _audit_event. destruct has_request_context; [|by exists s]. simpl.
  unfold bind at 1, gets. unfold bind at 1, lift.
  destruct (Hf (session_sid s)) as [v Hv]. rewrite Hv. unfold bind at 1, now_utc. unfold try_except.
  unfold bind at 1, fresh at 1. set (f := audit_fault _). unfold bind at 1. destruct f.
  { by eexists. }
  unfold bind, lift, db_get, gets, db_write, modify, flush, commit, ret. cbn -[_compute_audit_event_hash].
  destruct (_compute_audit_event_hash _); [|by eexists]. cbn -[db_ok append_event].
  destruct (db_ok _) eqn:Eok; cbn -[db_ok append_event]; rewrite ?Eok; by eexists.
Qed.

Lemma recognised_row raw now l id d : recognised raw now l = Ok (Some (id, d)) → (id, d) ∈ l.
Proof.
  induction l as [|[i row] l IH]; simpl; [done|]. destruct (_ <=? _); [set_solver|].
  destruct (matches_hmac _ _ _) as [[]|]; simpl; [intros [= -> ->]; set_solver|set_solver|done].
Qed.

Lemma find_known_row u raw now s r s' :
  find_known u raw now s = (r, s') →
  s' = s ∧ ∀ id d, r = Ok (Some (id, d)) → known_devices (working s) !! id = Some d.
Proof.
  unfold find_known. destruct (nonempty raw); [|by intros [= <- <-]].
  unfold bind, db_get, gets, lift. intros [= <- <-]. split; [done|]. intros id d E%recognised_row.
  by apply rows_where_spec in E as [? _].
Qed.

(** What a check leaves behind: nothing, a refreshed row, or a new one. *)
Lemma check_cases u c s r s' :
  working s = committed s → db_ok (committed s) = true →
  check_and_register_device u c s = (r, s') →
  outbox s' = outbox s ∧
  ((∃ e, r = Raise e) ∧ committed s' = committed s
   ∨ working s' = committed s' ∧ ∃ id d,
      committed s' = upd_known_devices <[id := d]> (committed s)
      ∧ ((∃ tok d0, r = Ok (mkDeviceCheckResult false tok) ∧ known_devices (committed s) !! id = Some d0
            ∧ kd_user_id d = kd_user_id d0 ∧ kd_device_token_hash d = kd_device_token_hash d0)
         ∨ ∃ tok hash, r = Ok (mkDeviceCheckResult true tok) ∧ device_token_hash tok = Ok hash
            ∧ known_devices (committed s) !! id = None
            ∧ kd_user_id d = u ∧ kd_device_token_hash d = hash)).
Proof.
  intros Hw Hok. unfold check_and_register_device. unfold bind at 1, now_utc. unfold bind at 1, lift.
  destruct (config_int _) as [seconds|]; [|intros [= <- <-]; simpl; eauto 10]. cbv zeta.
  set (t := clock s + _). set (s1 := next_effect (set_clock t s)).
  unfold bind at 1. destruct (find_known _ _ _ s1) as [k s2] eqn:Ek.
  apply find_known_row in Ek as [-> Hk]. destruct k as [[[id d]|]|e]; [| |intros [= <- <-]; simpl; eauto 10].
  - specialize (Hk id d eq_refl). unfold bind, db_write, modify, commit. cbn -[db_ok upd_known_devices].
    rewrite devices_db_ok, Hw, Hok. intros [= <- <-]. simpl in *. split; [done|right]. split; [done|].
    eexists id, _. split; [done|]. left. rewrite Hw in Hk. eauto 10.
  - unfold bind at 1, fresh. unfold bind at 1, lift.
    destruct (device_token_hash _) as [hash|] eqn:Eh; [|intros [= <- <-]; simpl; eauto 10].
    unfold bind, db_write, modify, commit. cbn -[db_ok upd_known_devices].
    rewrite devices_db_ok, Hw, Hok. intros [= <- <-]. simpl in *. split; [done|right]. split; [done|].
    eexists _, _. split; [done|]. right. eexists _, hash. split_and!; try done. apply next_id_fresh.
Qed.

Lemma notice_cases u row ip ua t s :
  users (working s) !! u = Some row → working s = committed s → db_ok (committed s) = true →
  (∀ sid, ∃ v, session_fingerprint sid = Ok v) →
  ∃ b s', send_new_device_login_email u ip ua t s = (Ok b, s')
    ∧ working s' = committed s' ∧ db_ok (committed s') = true
    ∧ known_devices (committed s') = known_devices (committed s)
    ∧ (b = true → outbox s' = (outbox s ++ [mkMail (u_email row) "SITBank new device sign-in"
                                              (new_device_body ua ip t)])%list).
Proof.
  intros Hu Hw Hok Hf. unfold send_new_device_login_email. cbv zeta.
  unfold bind at 1. unfold try_except. unfold bind at 1, load_user, db_query. rewrite Hu.
  unfold bind at 1. destruct (send_security_email _ _ _ s) as [r s1] eqn:E.
  apply email_cases in E as (Hc1 & Hw1 & Hr).
  assert (∀ (b : bool) md, ∃ s', (_ <- audit_event "new_device_login_notification"
      (if b then "queued" else "failure") (Some u) md ;; ret b) s1 = (Ok b, s')
    ∧ working s' = committed s' ∧ db_ok (committed s') = true
    ∧ known_devices (committed s') = known_devices (committed s) ∧ outbox s' = outbox s1) as Ha.
  { intros b md. destruct (audit_event_returns "new_device_login_notification"
      (if b then "queued" else "failure") (Some u) md s1 Hf) as (s2 & E & Ho). exists s2.
    erewrite bind_Ok by done. split; [done|].
    apply audit_event_cases in E as [[E (e & _ & E2)]|[[E E2]|[E E2]]].
    - rewrite <- E in E2. rewrite <- E. split; [done|]. rewrite E2, Hw1, Hw. done.
    - rewrite E, E2, Hc1. done.
    - by rewrite E, E2, Hc1, Hw1, Hw. }
  destruct Hr as [[-> Ho]|[[e ->] Ho]].
  - destruct (Ha true []) as (s' & E & ? & ? & ? & Ho'). exists true, s'. split_and!; try done.
    intros _. by rewrite Ho', Ho.
  - destruct (Ha false [("reason", JStr "email_delivery_failed")]) as (s' & E & ? & ? & ? & Ho').
    exists false, s'. split_and!; done.
Qed.
End Notice.

(** A device becomes known only with a notice to its owner.  Whatever the
    mail server, the audit log and the clock do during a sign-in, a device that
    is on record afterwards was on record before for the same user and token, or
    it is the one just signed in from and the owner was sent the new-device
    message. *)
Theorem known_device_was_announced `{Env} u ip ua s r s' row :
  users (committed s) !! u = Some row → working s = committed s → db_ok (committed s) = true →
  handle_new_device_login u ip ua s = (r, s') →
  ∀ id d, known_devices (committed s') !! id = Some d →
  (∃ d0, known_devices (committed s) !! id = Some d0
     ∧ kd_user_id d = kd_user_id d0 ∧ kd_device_token_hash d = kd_device_token_hash d0)
  ∨ kd_user_id d = u ∧ ∃ t, outbox s' = (outbox s ++ [mkMail (u_email row)
      "SITBank new device sign-in" (new_device_body ua ip t)])%list.
Proof.
  intros Hu Hw Hok. unfold handle_new_device_login. unfold bind at 1, lift.
  destruct (config_item _) as [name|]; [|intros [= <- <-]; eauto 10]. cbv zeta.
  unfold bind at 1, try_except. unfold bind at 1.
  destruct (check_and_register_device _ _ s) as [x s1] eqn:E.
  apply check_cases in E as (Ho & [[[e ->] Hc]|(Hw1 & i & d & Hc & Hcases)]); [| |done..].
  { unfold any_exn. simpl. intros [= <- <-]. simpl. rewrite Hc. eauto 10. }
  destruct Hcases as [(tok & d0 & -> & Hd0 & Hou & Hoh)|(tok & hash & -> & Hh & Hnew & Hdu & Hdh)]; simpl.
  { intros [= <- <-] id x. rewrite Hc. simpl. destruct (decide (id = i)) as [->|Hne].
    - rewrite lookup_insert_eq. intros [= <-]. eauto 10.
    - rewrite lookup_insert_ne by done. eauto 10. }
  assert (db_ok (committed s1) = true) as Hok1 by by rewrite Hc, devices_db_ok.
  assert (∀ id x, known_devices (committed s1) !! id = Some x →
    known_devices (committed s) !! id = Some x ∨ x = d) as Hrows.
  { intros id x. rewrite Hc. simpl. destruct (decide (id = i)) as [->|Hne].
    - rewrite lookup_insert_eq. intros [= <-]. auto.
    - rewrite lookup_insert_ne by done. auto. }
  unfold bind at 1. unfold bind at 1. unfold now_utc.
  set (t := clock s1 + _). set (s2 := next_effect (set_clock t s1)). unfold bind at 1.
  destruct (notice_cases u row ip ua t s2) as (b & s3 & -> & Hw3 & Hok3 & Hk3 & Hsent);
    [simpl; by rewrite Hw1, Hc|done|done|intros; by eapply fingerprint_ok|].
  destruct b; simpl.
  - intros [= <- <-] id x. rewrite Hk3. intros [Hx | ->]%Hrows; [by eauto|].
    right. split; [done|]. exists t. rewrite (Hsent eq_refl). simpl. by rewrite Ho.
  - unfold try_except, forget_known_device_token. unfold bind at 1, lift. rewrite Hh.
    unfold bind at 1, db_write, modify, commit. cbn -[db_ok upd_known_devices].
    rewrite devices_db_ok, Hw3, Hok3. intros [= <- <-] id x. simpl.
    rewrite map_lookup_filter_Some. simpl. rewrite Hk3. intros [[Hx | ->]%Hrows Hn]; [by eauto|].
    destruct Hn. by split.
Qed.

Definition first_sign_in :=
  @handle_new_device_login Sample.sample_env 1 "203.0.113.7" "Browser/1.0" Sample.sample_state.

Lemma known_device_witness :
  is_Some (known_devices (committed first_sign_in.2) !! 1)
  ∧ ∀ d, known_devices (committed first_sign_in.2) !! 1 = Some d →
    kd_user_id d = 1 ∧ ∃ t, outbox first_sign_in.2
      = (outbox Sample.sample_state ++ [mkMail "alice@example.com" "SITBank new device sign-in"
          (new_device_body "Browser/1.0" "203.0.113.7" t)])%list.
Proof.
  split; [eexists; vm_compute; reflexivity|]. intros d Hd.
  destruct (@known_device_was_announced Sample.sample_env 1 "203.0.113.7" "Browser/1.0" Sample.sample_state
    first_sign_in.1 first_sign_in.2 Sample.alice) with (id := 1) (d := d) as [(d0 & Hd0 & _)|Hn].
  - reflexivity.
  - reflexivity.
  - vm_compute; reflexivity.
  - apply surjective_pairing.
  - exact Hd.
  - discriminate Hd0.
  - exact Hn.
Defined.
