(* ===== verification/LoginFrame.v ===== *)
(** * Who the session belongs to

    The session entries that say who is signed in, and the calls that leave
    them alone: everything but signing in, beginning a sign-in, and clearing
    the session. *)

From S2P Require Import Prelude PyStr TimeModel Schema Runtime Integrity AuditLog MfaCrypto Passwords.
From S2P Require Import PasswordHistory SessionRisk BankingPolicy Notifications Sessions SessionStore.
From S2P Require Import RateLimits Mfa RecoveryCodes.
Open Scope string_scope.
Open Scope Z_scope.

Module LoginFrame.
Import Audit MfaCrypto Passwords PasswordHistory SessionRisk Policy Notifications Sessions SessionStore.
Import RateLimits Mfa RecoveryCodes.

(** Those entries, and the payee request that waits for its confirmation. *)
Definition login_keys : list string := ["user_id"; "pending_mfa_user_id"; "auth_context"; "pending_payee"].

(** The user signed in, the user whose second factor is pending, and how the
    session was authenticated. *)
Definition Login : Type := option jval * option jval * option jval.
Definition login_of (m : gmap string jval) : Login :=
  (m !! "user_id", m !! "pending_mfa_user_id", m !! "auth_context").
Definition login_is (v : Login) (s : St) : Prop := login_of (session s) = v.

Definition nobody : Login := (None, None, None).
Definition pending_for_user (u : Z) : Login := (None, Some (JInt u), None).
Definition signed_in (u : Z) (context : string) : Login := (Some (JInt u), None, Some (JStr context)).

(** A call that keeps each entry keeps them all. *)
Lemma keeps_login {A} (c : M St A) :
  (∀ k v, k ∈ login_keys → preserves (session_key k v) c) → ∀ v, preserves (login_is v) c.
Proof.
  intros Hc v s <-. unfold login_is, login_of.
  rewrite (Hc "user_id" (session s !! "user_id")) by (set_solver || done).
  rewrite (Hc "pending_mfa_user_id" (session s !! "pending_mfa_user_id")) by (set_solver || done).
  by rewrite (Hc "auth_context" (session s !! "auth_context")) by (set_solver || done).
Qed.

(** A session entry under another key. *)
Lemma other_key k k' :
  k ∈ login_keys → str_in k' login_keys = false → bool_decide (k' = k) = false.
Proof.
  intros Hk Hk'. apply bool_decide_eq_false. intros ->. by apply bool_decide_eq_false in Hk'.
Qed.

#[export] Hint Extern 0 (_ ∈ login_keys) => first [assumption | set_solver] : pres.
#[export] Hint Extern 2 (preserves (session_key _ _) (session_put _ _)) =>
  apply sk_session_put, other_key; [assumption | reflexivity] : pres.
#[export] Hint Extern 2 (preserves (session_key _ _) (session_pop _)) =>
  apply sk_session_pop, other_key; [assumption | reflexivity] : pres.

Section Frame.
Context `{Env} (k : string) (v : option jval).
Notation keeps := (preserves (session_key k v)).

(** ** Counters, records and locks: the session dict is not touched *)

Lemma sk_load_user u : keeps (load_user u).
Proof. apply sk_db_query. Qed.
Lemma sk_load_counter sc p : keeps (_load_counter sc p).
Proof. unfold _load_counter. solve_pres. Qed.
Hint Resolve sk_load_user sk_load_counter : pres.
Lemma sk_load_or_create sc p n w : keeps (_load_or_create_counter sc p n w).
Proof. unfold _load_or_create_counter, nested_insert. solve_pres. Qed.
Hint Resolve sk_load_or_create : pres.
Lemma sk_backoff sc p : keeps (apply_exponential_backoff sc p).
Proof. unfold apply_exponential_backoff. solve_pres. Qed.
Lemma sk_record_failure sc p w : keeps (record_failure sc p w).
Proof. unfold record_failure. solve_pres. Qed.
Lemma sk_failure_limit sc p l : keeps (enforce_durable_failure_limit sc p l).
Proof. unfold enforce_durable_failure_limit. solve_pres. Qed.
Lemma sk_clear_failures sc p : keeps (clear_failures sc p).
Proof. unfold clear_failures. solve_pres. Qed.
Hint Resolve sk_backoff sk_record_failure sk_failure_limit sk_clear_failures : pres.
Lemma sk_enforce_backoff sc p : keeps (_enforce_auth_backoff sc p).
Proof. unfold _enforce_auth_backoff. solve_pres. Qed.
Lemma sk_end_record id r reason now : keeps (_end_session_record id r reason now).
Proof. unfold _end_session_record. solve_pres. Qed.
Hint Resolve sk_enforce_backoff sk_end_record : pres.
Lemma sk_active_records u c : keeps (_active_session_records u c).
Proof. unfold _active_session_records, _expire_stale_sessions. solve_pres. Qed.
Hint Resolve sk_active_records : pres.
Lemma sk_revoke_all u reason c : keeps (revoke_all_sessions u reason c).
Proof. unfold revoke_all_sessions, end_each. solve_pres. Qed.
Hint Resolve sk_revoke_all : pres.
Lemma sk_record_security u sc r : keeps (_record_user_security_failure u sc r).
Proof.
  unfold _record_user_security_failure, open_security_counter, _lock_user_account. cbv zeta. solve_pres.
Qed.
Lemma sk_clear_security u sc : keeps (_clear_user_security_failures u sc).
Proof. unfold _clear_user_security_failures. solve_pres. Qed.
Hint Resolve sk_record_security sk_clear_security : pres.
Lemma sk_current_hash : keeps current_lookup_hash.
Proof. unfold current_lookup_hash. solve_pres. Qed.
Hint Resolve sk_current_hash : pres.
Lemma sk_revoke_others u reason : keeps (revoke_other_sessions u reason).
Proof. unfold revoke_other_sessions, end_each. solve_pres. Qed.
Lemma sk_record_for_sid sid : keeps (_session_record_for_sid sid).
Proof. unfold _session_record_for_sid, _session_record_for_lookup_hash. solve_pres. Qed.
Hint Resolve sk_record_for_sid : pres.
Lemma sk_current_record : keeps _current_session_record.
Proof. unfold _current_session_record. solve_pres. Qed.
Lemma sk_rotate : keeps rotate_session_id.
Proof. unfold rotate_session_id, _end_session_id. solve_pres. Qed.
Hint Resolve sk_current_record : pres.
Lemma sk_register_metadata u t : keeps (register_session_metadata u t).
Proof. unfold register_session_metadata. solve_pres. Qed.
Lemma sk_cap u : keeps (enforce_active_session_cap u).
Proof. unfold enforce_active_session_cap. cbv zeta. solve_pres. Qed.
Lemma sk_hash_password p : keeps (hash_password p).
Proof. unfold hash_password. solve_pres. Qed.
Lemma sk_audit_crypto a o u md : keeps (_audit_mfa_crypto a o u md).
Proof. unfold _audit_mfa_crypto. solve_pres. Qed.
Hint Resolve sk_audit_crypto : pres.
Lemma sk_kek id : keeps (_kek id).
Proof. unfold _kek. solve_pres. Qed.
Hint Resolve sk_kek : pres.
Lemma sk_decrypt n c u : keeps (decrypt_mfa_secret n c u).
Proof. unfold decrypt_mfa_secret, _decrypt_envelope, _unwrap_dek. cbv zeta. solve_pres. Qed.
Lemma sk_encrypt m u id : keeps (encrypt_mfa_secret m u id).
Proof. unfold encrypt_mfa_secret, _active_kek. cbv zeta. solve_pres. Qed.
Hint Resolve sk_decrypt : pres.
Lemma sk_mfa_secret u : keeps (_mfa_secret_for_user u).
Proof. unfold _mfa_secret_for_user. solve_pres. Qed.
Hint Resolve sk_mfa_secret : pres.

(** ** Recovery codes and passwords *)

Lemma sk_consume_code u code p c : keeps (consume_recovery_code u code p c).
Proof. unfold consume_recovery_code. solve_pres. Qed.
Lemma sk_code_count u p : keeps (unused_recovery_code_count u p).
Proof. unfold unused_recovery_code_count. solve_pres. Qed.
Lemma sk_new_codes n : keeps (new_codes n).
Proof. induction n; simpl; unfold _new_recovery_code; solve_pres. Qed.
Hint Resolve sk_new_codes : pres.
Lemma sk_generate_codes u n p c a : keeps (generate_recovery_codes_for_user u n p c a).
Proof. unfold generate_recovery_codes_for_user, store_code. solve_pres. Qed.
Lemma sk_code_used u : keeps (send_recovery_code_used_notification u).
Proof. unfold send_recovery_code_used_notification. solve_pres. Qed.
Lemma sk_refuse_match p l : keeps (refuse_match p l).
Proof. induction l as [|x l IH]; simpl; solve_pres. Qed.
Hint Resolve sk_refuse_match sk_hash_password : pres.
Lemma sk_not_reused u p : keeps (assert_password_not_reused u p).
Proof. unfold assert_password_not_reused, _history_entries. solve_pres. Qed.
Hint Resolve sk_not_reused : pres.
Lemma sk_replace_password u p t c : keeps (replace_user_password u p t c).
Proof.
  unfold replace_user_password, _prune_password_history, _history_entries. cbv zeta. solve_pres.
Qed.
Lemma sk_policy p : keeps (validate_password_policy p).
Proof.
  unfold validate_password_policy, live_check, _is_password_pwned_by_hibp, _hibp_circuit_is_open,
    _record_hibp_failure, _clear_hibp_failures, _hibp_breaker. cbv zeta. solve_pres.
Qed.

(** ** The dict is touched, under other keys *)

Context (Hk : k ∈ login_keys).

Lemma sk_mark_fresh : keeps mark_fresh_mfa.
Proof using Hk. unfold mark_fresh_mfa, _now. solve_pres. Qed.
Lemma sk_risk_message : keeps _current_session_risk_message.
Proof. unfold _current_session_risk_message. solve_pres. Qed.
Hint Resolve sk_risk_message sk_mark_fresh : pres.
Lemma sk_refresh_risk : keeps refresh_session_risk_fingerprint.
Proof using Hk.
  unfold refresh_session_risk_fingerprint, current_session_risk_fingerprint,
    _current_session_risk_context, _now. solve_pres.
Qed.
Hint Resolve sk_refresh_risk sk_rotate sk_register_metadata : pres.
Lemma sk_rotate_after_mfa u : keeps (rotate_authenticated_session_after_mfa u).
Proof using Hk. unfold rotate_authenticated_session_after_mfa, utc_now_iso. solve_pres. Qed.
Lemma sk_require_stable a : keeps (require_stable_session_for_sensitive_action a).
Proof using Hk.
  unfold require_stable_session_for_sensitive_action, current_session_risk_fingerprint,
    _raise_session_risk_reauthentication, _mark_session_risk_reauthentication_required,
    _session_user_id. solve_pres.
Qed.
Lemma sk_verify_secret u secret code sc w tf :
  keeps (_verify_totp_secret_for_user_outcome u secret code sc w tf).
Proof using Hk. unfold _verify_totp_secret_for_user_outcome, track. solve_pres. Qed.
Hint Resolve sk_rotate_after_mfa sk_require_stable sk_verify_secret : pres.
Lemma sk_verify_outcome u code sc w tf : keeps (_verify_totp_for_user_outcome u code sc w tf).
Proof using Hk. unfold _verify_totp_for_user_outcome. solve_pres. Qed.
Hint Resolve sk_verify_outcome : pres.
Lemma sk_high_risk u code a r : keeps (verify_high_risk_authorization u code a r).
Proof using Hk.
  unfold verify_high_risk_authorization, refuse_step_up, _handle_mfa_verification_failure,
    _handle_mfa_verification_replay. solve_pres.
Qed.
End Frame.

#[export] Hint Resolve sk_load_user sk_load_counter sk_load_or_create sk_backoff sk_record_failure
  sk_failure_limit sk_clear_failures sk_enforce_backoff sk_end_record sk_active_records sk_revoke_all
  sk_record_security sk_clear_security sk_current_hash sk_revoke_others sk_record_for_sid
  sk_current_record sk_rotate sk_register_metadata sk_cap sk_hash_password sk_audit_crypto sk_kek
  sk_decrypt sk_encrypt sk_mfa_secret sk_consume_code sk_code_count sk_new_codes sk_generate_codes
  sk_code_used sk_not_reused sk_replace_password sk_policy sk_mark_fresh sk_risk_message
  sk_refresh_risk sk_rotate_after_mfa sk_require_stable sk_verify_secret sk_verify_outcome
  sk_high_risk : pres.
End LoginFrame.
