(* ===== verification/RegistrationOtp.v ===== *)
(** * The registration e-mail challenge ([app/auth/registration_otp.py])

    A prospective customer proves control of an address by returning the
    six-digit code mailed to it.  The challenge is bound to the browser session
    and the address, expires after five minutes, is used once and allows five
    guesses; a verified address may be registered within five minutes. *)

From S2P Require Import Prelude PyStr TimeModel Schema Runtime Sample Canonical Integrity AuditLog.
From S2P Require Import SessionRisk BankingPolicy Notifications RateLimits Identity.
From Stdlib Require Import Ascii.
Open Scope string_scope.
Open Scope Z_scope.

Module RegistrationOtp.
Import SessionHmac Audit Policy Notifications RateLimits Identity.

Definition GENERIC_OTP_SENT_MESSAGE : string :=
  "Check your inbox. If this address is valid, a verification code has been sent.".
Definition GENERIC_OTP_ERROR : string :=
  "That code has expired or is incorrect. Request a new one and try again.".
Definition GENERIC_REGISTRATION_EMAIL_ERROR : string :=
  "Registration could not be started for that email.".
Definition VERIFY_CUSTOMER_EMAIL_MESSAGE : string :=
  "Please verify your email address before continuing.".
Definition REGISTRATION_OTP_TTL_SECONDS : Z := 5 * 60.
Definition REGISTRATION_OTP_RESEND_COOLDOWN_SECONDS : Z := 60.
Definition REGISTRATION_OTP_MAX_ATTEMPTS : Z := 5.
Definition REGISTRATION_OTP_SESSION_BINDING_KEY : string := "registration_otp_session_ref".
Definition REGISTRATION_OTP_PENDING_EMAIL_KEY : string := "registration_otp_pending_email".
Definition REGISTRATION_OTP_VERIFIED_EMAIL_KEY : string := "registration_otp_verified_email".
Definition REGISTRATION_OTP_VERIFIED_AT_KEY : string := "registration_otp_verified_at".

Definition normalize_registration_email (email : string) : string := casefold (strip email).

Definition challenge_for (binding email_hash : string) (r : RegistrationOtpChallenge) : bool :=
  bool_decide (ro_session_binding_hash r = binding) && bool_decide (ro_email_hash r = email_hash)
  && bool_decide (ro_used_at r = None).
Definition put_challenge (id : Z) (r : RegistrationOtpChallenge) : Db → Db :=
  upd_registration_otp_challenges (insert id r).
Definition drop_challenge (id : Z) : Db → Db := upd_registration_otp_challenges (delete id).

Definition is_identity_error (e : exn) : bool :=
  match e with IdentityPolicyError _ => true | _ => false end.
Definition identity_reason (e : exn) : string :=
  match e with IdentityPolicyError reason => reason | _ => "" end.
Definition is_limit_exceeded (e : exn) : bool :=
  match e with DurableRateLimitExceeded _ => true | _ => false end.
(** [type(exc).__name__] of a failed delivery. *)
Definition delivery_error_type (e : exn) : string :=
  match e with RuntimeError _ => "RuntimeError" | _ => "SMTPException" end.

Section RegistrationOtp.
Context `{Env}.

(** [str(session.get(key) or "")]. *)
Definition session_str (key : string) : M St string :=
  v <- session_get key ;;
  ret (match v with Some v => if truthy v then py_str v else "" | None => "" end).

Definition is_approved_registration_email (email : string) : res bool :=
  rbind (customer_email_policy_violation email) (λ v, Ok (bool_decide (v = None))).

Definition _clear_registration_progress_state : M St unit :=
  _ <- session_pop REGISTRATION_OTP_PENDING_EMAIL_KEY ;;
  _ <- session_pop REGISTRATION_OTP_VERIFIED_EMAIL_KEY ;;
  _ <- session_pop REGISTRATION_OTP_VERIFIED_AT_KEY ;;
  ret tt.

Definition _clear_registration_session_state : M St unit :=
  _ <- _clear_registration_progress_state ;;
  _ <- session_pop REGISTRATION_OTP_SESSION_BINDING_KEY ;;
  ret tt.

Definition _session_reference (create_session_binding : bool) : M St string :=
  session_ref <- session_str REGISTRATION_OTP_SESSION_BINDING_KEY ;;
  sid <- gets session_sid ;;
  if nonempty session_ref then ret session_ref
  else if create_session_binding then
    created <- fresh token_urlsafe ;;
    _ <- session_put REGISTRATION_OTP_SESSION_BINDING_KEY (JStr created) ;;
    ret (if nonempty created then created
         else if nonempty (default "" sid) then default "" sid else "anonymous")
  else ret (if nonempty (default "" sid) then default "" sid else "anonymous").

Definition _session_binding_hash (create_session_binding : bool) : M St string :=
  reference <- _session_reference create_session_binding ;;
  lift (active_hmac_hex ("registration-otp-session:" +:+ reference) 64).

Definition _email_hash (email : string) : res string :=
  active_hmac_hex ("registration-otp-email:" +:+ normalize_registration_email email) 64.

Definition _otp_hmac (email otp_code : string) : res string :=
  active_hmac_hex ("registration-otp:v2:" +:+ normalize_registration_email email +:+ ":"
                     +:+ otp_code) 64.

Definition _load_otp_challenge (email : string) (create_session_binding : bool)
    : M St (option (Z * RegistrationOtpChallenge)) :=
  binding <- _session_binding_hash create_session_binding ;;
  email_hash <- lift (_email_hash email) ;;
  challenge <- db_query (λ d,
    one_or_none (challenge_for binding email_hash) (registration_otp_challenges d)) ;;
  match challenge with
  | None => ret None
  | Some (id, r) =>
      now <- now_utc ;;
      if ro_expires_at r <=? now then
        _ <- db_write (drop_challenge id) ;; _ <- commit ;; ret None
      else ret (Some (id, r))
  end.

Definition _user_by_email (email : string) : M St (option (Z * User)) :=
  canonical_email <- lift (canonicalize_customer_email email) ;;
  db_query (λ d, one_or_none (λ u,
    bool_decide (u_registration_email_canonical u = Some canonical_email)
    && bool_decide (u_account_type u = "customer")) (users d)).

(** [require_customer_email] with the audited refusal of the two entry points. *)
Definition require_registration_email (email event outcome message : string) : M St string :=
  try_except (lift (require_customer_email email)) is_identity_error
    (λ e,
       email_ref <- lift (audit_reference "registration_email" (normalize_registration_email email)) ;;
       _ <- audit_event event outcome None
              [("reason", JStr (identity_reason e)); ("email_ref", jopt_str email_ref)] ;;
       raise (RegistrationOtpError message 400 None)).

Definition otp_mail_body (otp_code : string) : string :=
  "Use this SITBank registration verification code:" +:+ newline +:+ newline +:+ otp_code
    +:+ newline +:+ newline
    +:+ "This code expires in 5 minutes. If you did not request it, ignore this email.".

Definition request_registration_otp (email : string) : M St string :=
  let normalized_input := normalize_registration_email email in
  let address := match request_remote_addr with
                 | Some a => if nonempty a then a else "unknown"
                 | None => "unknown"
                 end in
  _ <- try_except
    (consume_durable_rate_limit "registration_otp_request" (address +:+ ":" +:+ normalized_input)
       10 (60 * 60))
    is_limit_exceeded
    (λ e, match e with
          | DurableRateLimitExceeded retry_after =>
              _ <- audit_event "registration_otp" "blocked" None
                     [("reason", JStr "durable_rate_limit")] ;;
              raise (RegistrationOtpError "Please wait before requesting another code." 429
                       (Some retry_after))
          | _ => raise e
          end) ;;
  normalized_email <- require_registration_email email "registration_otp" "blocked"
                        GENERIC_REGISTRATION_EMAIL_ERROR ;;
  email_ref <- lift (audit_reference "registration_email" normalized_email) ;;
  existing_user <- _user_by_email normalized_email ;;
  match existing_user with
  | Some (user_id, _) =>
      _ <- audit_event "registration_otp" "requested" (Some user_id)
             [("email_ref", jopt_str email_ref); ("eligible", JBool false)] ;;
      ret GENERIC_OTP_SENT_MESSAGE
  | None =>
      now <- now_utc ;;
      challenge <- _load_otp_challenge normalized_email true ;;
      let retry_after := match challenge with
                         | Some (_, r) => whole_seconds (ro_resend_available_at r - now)
                         | None => 0
                         end in
      if 0 <? retry_after then
        _ <- audit_event "registration_otp" "failed" None
               [("reason", JStr "cooldown"); ("email_ref", jopt_str email_ref)] ;;
        raise (RegistrationOtpError "Please wait a moment before requesting a new code." 429
                 (Some retry_after))
      else
        number <- fresh (λ n, randbelow n 1000000) ;;
        let otp_code := pad 6 number in
        _ <- _clear_registration_progress_state ;;
        let* (id, binding, email_hash, created_at) :=
          match challenge with
          | Some (id, r) =>
              ret (id, ro_session_binding_hash r, ro_email_hash r, ro_created_at r)
          | None =>
              binding <- _session_binding_hash true ;;
              email_hash <- lift (_email_hash normalized_email) ;;
              id <- db_get (λ d, next_id (registration_otp_challenges d)) ;;
              created_at <- now_utc ;;
              ret (id, binding, email_hash, created_at)
          end in
        otp_hmac <- lift (_otp_hmac normalized_email otp_code) ;;
        let row := mkRegistrationOtpChallenge binding email_hash otp_hmac 0
          (now + REGISTRATION_OTP_RESEND_COOLDOWN_SECONDS * US_SECOND)
          (now + REGISTRATION_OTP_TTL_SECONDS * US_SECOND) None created_at now in
        _ <- db_write (put_challenge id row) ;;
        _ <- commit ;;
        _ <- try_except
          (send_security_email normalized_email "SITBank registration verification code"
             (otp_mail_body otp_code))
          any_exn
          (λ e,
             _ <- db_write (drop_challenge id) ;;
             _ <- commit ;;
             _ <- _clear_registration_progress_state ;;
             _ <- audit_event "registration_otp" "failed" None
                    [("reason", JStr "email_delivery_failed"); ("email_ref", jopt_str email_ref);
                     ("error_type", JStr (delivery_error_type e))] ;;
             raise (RegistrationOtpError
                      "Could not send a code right now. Please try again in a moment." 503 None)) ;;
        _ <- audit_event "registration_otp" "requested" None
               [("email_ref", jopt_str email_ref); ("eligible", JBool true)] ;;
        _ <- session_put REGISTRATION_OTP_PENDING_EMAIL_KEY (JStr normalized_email) ;;
        ret GENERIC_OTP_SENT_MESSAGE
  end.

(** A wrong code: the guess is counted, the fifth one ends the challenge. *)
Definition reject_otp (id : Z) (challenge : RegistrationOtpChallenge) (email_ref : option string)
    : M St string :=
  let attempts := ro_attempt_count challenge + 1 in
  outcome <- (if REGISTRATION_OTP_MAX_ATTEMPTS <=? attempts then
                _ <- db_write (drop_challenge id) ;; ret "locked"
              else
                now <- now_utc ;;
                _ <- db_write (put_challenge id
                       (set_ro_updated_at now (set_ro_attempt_count attempts challenge))) ;;
                ret "failed") ;;
  _ <- commit ;;
  _ <- audit_event "registration_otp" outcome None
         [("reason", JStr "invalid_code"); ("email_ref", jopt_str email_ref);
          ("attempts", JInt attempts)] ;;
  raise (RegistrationOtpError GENERIC_OTP_ERROR 400 None).

Definition accept_otp (id : Z) (normalized_email : string) (email_ref : option string)
    : M St string :=
  _ <- db_write (drop_challenge id) ;;
  _ <- commit ;;
  _ <- session_put REGISTRATION_OTP_VERIFIED_EMAIL_KEY (JStr normalized_email) ;;
  verified_at <- time_seconds ;;
  _ <- session_put REGISTRATION_OTP_VERIFIED_AT_KEY (JInt verified_at) ;;
  _ <- session_pop REGISTRATION_OTP_PENDING_EMAIL_KEY ;;
  _ <- audit_event "registration_otp" "verified" None [("email_ref", jopt_str email_ref)] ;;
  ret "Email verified. Fill in your details to finish creating your account.".

Definition verify_registration_otp (email otp_code : string) : M St string :=
  normalized_email <- require_registration_email email "registration_otp" "blocked"
                        GENERIC_OTP_ERROR ;;
  email_ref <- lift (audit_reference "registration_email" normalized_email) ;;
  challenge <- _load_otp_challenge normalized_email false ;;
  match challenge with
  | None =>
      _ <- audit_event "registration_otp" "expired" None [("email_ref", jopt_str email_ref)] ;;
      raise (RegistrationOtpError GENERIC_OTP_ERROR 400 None)
  | Some (id, r) =>
      submitted_hmac <- lift (_otp_hmac normalized_email (strip otp_code)) ;;
      if bool_decide (ro_otp_hmac r = submitted_hmac)
      then accept_otp id normalized_email email_ref
      else reject_otp id r email_ref
  end.

Definition pending_registration_email : M St (option string) :=
  text <- session_str REGISTRATION_OTP_PENDING_EMAIL_KEY ;;
  let pending_email := normalize_registration_email text in
  ret (if nonempty pending_email then Some pending_email else None).

Definition current_verified_registration_email : M St (option string) :=
  text <- session_str REGISTRATION_OTP_VERIFIED_EMAIL_KEY ;;
  let verified_email := normalize_registration_email text in
  at_value <- session_get REGISTRATION_OTP_VERIFIED_AT_KEY ;;
  verified_at <- lift (if otruthy at_value then py_int at_value else Ok 0) ;;
  if negb (nonempty verified_email) then ret None
  else
    violation <- lift (customer_email_policy_violation verified_email) ;;
    stale <- match violation with
             | Some _ => ret true
             | None => now <- time_seconds ;;
                       ret (REGISTRATION_OTP_TTL_SECONDS <? now - verified_at)
             end ;;
    if (stale : bool) then _ <- _clear_registration_session_state ;; ret None
    else ret (Some verified_email).

Definition require_current_verified_registration_email : M St string :=
  verified_email <- current_verified_registration_email ;;
  match verified_email with
  | Some e => ret e
  | None =>
      _ <- audit_event "registration" "failure" None [("reason", JStr "email_otp_required")] ;;
      raise (RegistrationOtpError VERIFY_CUSTOMER_EMAIL_MESSAGE 400 None)
  end.

Definition require_verified_registration_email (email : string) : M St string :=
  normalized_email <- require_registration_email email "registration" "blocked"
                        VERIFY_CUSTOMER_EMAIL_MESSAGE ;;
  verified_email <- current_verified_registration_email ;;
  if bool_decide (verified_email = Some normalized_email) then ret normalized_email
  else
    email_ref <- lift (audit_reference "registration_email" normalized_email) ;;
    _ <- audit_event "registration" "failure" None
           [("reason", JStr "email_otp_required"); ("email_ref", jopt_str email_ref)] ;;
    raise (RegistrationOtpError VERIFY_CUSTOMER_EMAIL_MESSAGE 400 None).

Definition consume_verified_registration_email (email : string) : M St unit :=
  text <- session_str REGISTRATION_OTP_VERIFIED_EMAIL_KEY ;;
  if bool_decide (normalize_registration_email text = normalize_registration_email email)
  then _clear_registration_session_state else ret tt.
End RegistrationOtp.

(** ** Five guesses *)

Section Guesses.
Context `{Env} (key email normalized : string).
Hypothesis active_key : _active_key = Ok key.
Hypothesis customer_email : require_customer_email email = Ok normalized.

Lemma hmac_ok message n : active_hmac_hex message n = Ok (session_digest key message n).
Proof using active_key. unfold active_hmac_hex. by rewrite active_key. Qed.
Lemma audit_reference_ok ns v : ∃ r, audit_reference ns v = Ok r.
Proof using active_key.
  unfold audit_reference. destruct (nonempty _); [|by eexists]. rewrite hmac_ok. by eexists.
Qed.

(** The reference the challenge of the current session is bound to. *)
Definition reference_of (s : St) : string :=
  let stored := match session s !! REGISTRATION_OTP_SESSION_BINDING_KEY with
                | Some v => if truthy v then py_str v else ""
                | None => ""
                end in
  let sid := default "" (session_sid s) in
  if nonempty stored then stored else if nonempty sid then sid else "anonymous".
Definition binding_of (s : St) : string :=
  session_digest key ("registration-otp-session:" +:+ reference_of s) 64.
Definition email_key : string :=
  session_digest key ("registration-otp-email:" +:+ normalize_registration_email normalized) 64.

Lemma binding_hash_eq s : _session_binding_hash false s = (Ok (binding_of s), s).
Proof using active_key.
  unfold _session_binding_hash, binding_of.
  assert (_session_reference false s = (Ok (reference_of s), s)) as E.
  { unfold _session_reference, session_str, session_get, gets, bind, ret, reference_of. cbn.
    by destruct (nonempty _). }
  erewrite bind_Ok by exact E. unfold lift. by rewrite hmac_ok.
Qed.

(** [n] guesses are left on the challenge of binding [b]. *)
Definition guesses_left (b : string) (d : Db) (n : Z) : Prop :=
  (n = 0 ∧ ∀ id r, registration_otp_challenges d !! id = Some r → challenge_for b email_key r = false)
  ∨ (0 < n ∧ ∃ id r, registration_otp_challenges d !! id = Some r ∧ challenge_for b email_key r = true
       ∧ n = REGISTRATION_OTP_MAX_ATTEMPTS - ro_attempt_count r).

(** Between requests, in the session bound to [b]. *)
Definition guessing (b : string) (n : Z) (s : St) : Prop :=
  at_rest s ∧ binding_of s = b ∧ guesses_left b (committed s) n.

Lemma binding_frame b : (∀ f, preserves (λ s, binding_of s = b) (db_write f))
  ∧ preserves (λ s, binding_of s = b) commit ∧ preserves (λ s, binding_of s = b) rollback
  ∧ preserves (λ s, binding_of s = b) flush ∧ preserves (λ s, binding_of s = b) now_utc
  ∧ (∀ A (f : nat → A), preserves (λ s, binding_of s = b) (fresh f))
  ∧ (∀ A (f : Db → A), preserves (λ s, binding_of s = b) (db_get f)).
Proof.
  split_and!.
  2, 4: intros s Hs; unfold commit, flush; destruct (db_ok _); exact Hs.
  all: intros; intros s Hs; exact Hs.
Qed.
Lemma binding_audit b ty out u md : preserves (λ s, binding_of s = b) (audit_event ty out u md).
Proof.
  destruct (binding_frame b) as (? & ? & ? & ? & ? & ? & ?).
  unfold audit_event, _audit_event. solve_pres; auto.
Qed.

Lemma guessing_audit b n ty out u md : preserves (guessing b n) (audit_event ty out u md).
Proof.
  intros s ([Hw Hok] & Hb & Hg). pose proof (binding_audit b ty out u md s Hb) as Hb'.
  destruct (audit_event ty out u md s) as [r s'] eqn:E. simpl in *.
  apply audit_event_cases in E as [[Hc (e & _ & Ha)]|[[Hc Ha]|[Hc Ha]]].
  - split_and!; [split; [done|]|done|]; rewrite Hc, Ha, Hw; [exact Hok|exact Hg].
  - split_and!; [split|done|]; rewrite ?Ha, Hc; done.
  - split_and!; [split|done|]; rewrite ?Ha, Hc; done.
Qed.

(** A write to the table, committed. *)
Lemma commit_challenges b n f s :
  at_rest s → binding_of s = b →
  unique_on (λ r, Some (ro_session_binding_hash r, ro_email_hash r))
    (f (registration_otp_challenges (committed s))) = true →
  guesses_left b (upd_registration_otp_challenges f (committed s)) n →
  ∃ s', bind (db_write (upd_registration_otp_challenges f)) (λ _, commit) s = (Ok tt, s')
    ∧ guessing b n s' ∧ session s' = session s.
Proof.
  intros [Hw Hok] Hb Hu Hg. pose proof (db_ok_upd_otp f _ Hok Hu) as Hok'.
  exists (set_committed (upd_registration_otp_challenges f (committed s))
    (set_working (upd_registration_otp_challenges f (committed s)) s)).
  unfold bind, db_write, modify, commit. cbn [working set_working]. rewrite Hw, Hok'.
  split; [reflexivity|]. split; [|reflexivity].
  split; [split; [reflexivity|exact Hok']|]. split; [exact Hb|exact Hg].
Qed.

Lemma no_challenge_query b d :
  guesses_left b d 0 → one_or_none (challenge_for b email_key) (registration_otp_challenges d) = Ok None.
Proof.
  intros [[_ Hn]|[? _]]; [|lia]. unfold one_or_none.
  destruct (rows_where _ _) as [|[id r] l] eqn:E; [done|]. exfalso.
  assert ((id, r) ∈ rows_where (challenge_for b email_key) (registration_otp_challenges d))
    as [Hr Hc]%rows_where_spec by (rewrite E; left).
  by rewrite (Hn id r Hr) in Hc.
Qed.

(** Dropping the challenge leaves none; counting a guess leaves one fewer. *)
Lemma drop_leaves_none b d id r :
  db_ok d = true → registration_otp_challenges d !! id = Some r →
  challenge_for b email_key r = true → guesses_left b (drop_challenge id d) 0.
Proof.
  intros Hok Hr Hc. left. split; [done|]. intros j w Hj. destruct (challenge_for b email_key w) eqn:E; [|done].
  exfalso. unfold challenge_for in *.
  apply andb_prop in Hc as [[Hb%bool_decide_eq_true He%bool_decide_eq_true]%andb_prop _].
  apply andb_prop in E as [[Hb'%bool_decide_eq_true He'%bool_decide_eq_true]%andb_prop _].
  change (registration_otp_challenges (drop_challenge id d))
    with (delete id (registration_otp_challenges d)) in Hj.
  apply lookup_delete_Some in Hj as [Hne Hj]. apply Hne.
  eapply (unique_on_inj _ _ _ _ _ _ (b, email_key) (db_ok_otp d Hok) Hr Hj); congruence.
Qed.
Lemma count_leaves_fewer b d id r now :
  challenge_for b email_key r = true → ro_attempt_count r + 1 < REGISTRATION_OTP_MAX_ATTEMPTS →
  guesses_left b (put_challenge id
    (set_ro_updated_at now (set_ro_attempt_count (ro_attempt_count r + 1) r)) d)
    (REGISTRATION_OTP_MAX_ATTEMPTS - ro_attempt_count r - 1).
Proof.
  intros Hc Hn. right. split; [lia|].
  exists id, (set_ro_updated_at now (set_ro_attempt_count (ro_attempt_count r + 1) r)).
  split; [apply lookup_insert_eq|]. split; [exact Hc|]. simpl. lia.
Qed.

(** The guesses left after a guess. *)
Definition fewer (n n' : Z) : Prop := n' = 0 ∨ 0 < n' < n.

Lemma fewer_none n b s : guessing b 0 s → ∃ n', fewer n n' ∧ guessing b n' s.
Proof. intros Hg. exists 0. by split; [left|]. Qed.

Lemma raise_after_audit {A} b n n' ty out md e :
  fewer n n' → triple (guessing b n')
    (bind (audit_event ty out None md) (λ _, raise (A:=A) e)) (λ _ _, False)
    (λ _ s, ∃ n', fewer n n' ∧ guessing b n' s).
Proof.
  intros Hf s Hs. pose proof (guessing_audit b n' ty out None md s Hs) as Ha.
  unfold bind. destruct (audit_event ty out None md s) as [[u|e'] s']; simpl in *; eauto.
Qed.

Lemma accept_triple b id ref :
  triple (λ s, at_rest s ∧ binding_of s = b ∧ ∃ r,
      registration_otp_challenges (committed s) !! id = Some r ∧ challenge_for b email_key r = true)
    (accept_otp id normalized ref) (λ _, guessing b 0) (λ _, guessing b 0).
Proof.
  intros s (Hr & Hb & r & Hid & Hc).
  destruct (commit_challenges b 0 (delete id) s Hr Hb) as (s1 & E1 & Hg1 & _).
  { apply unique_on_delete, db_ok_otp, Hr. }
  { eapply drop_leaves_none; [apply Hr|done..]. }
  unfold accept_otp, drop_challenge. rewrite <- (bind_assoc (db_write _) (λ _, commit)).
  erewrite bind_Ok by exact E1. clear s Hr Hb Hid E1.
  revert s1 Hg1. apply triple_pres. solve_pres; eauto using guessing_audit.
  all: intros s (Hr & Hb & Hg); (split; [exact Hr|]); (split; [rewrite <- Hb|exact Hg]).
  all: unfold binding_of, reference_of; simpl; by rewrite ?lookup_insert_ne, ?lookup_delete_ne.
Qed.

Lemma reject_triple b id r ref :
  ro_attempt_count r < REGISTRATION_OTP_MAX_ATTEMPTS → challenge_for b email_key r = true →
  triple (λ s, at_rest s ∧ binding_of s = b ∧ registration_otp_challenges (committed s) !! id = Some r)
    (reject_otp id r ref) (λ _ _, False)
    (λ _ s, ∃ n', fewer (REGISTRATION_OTP_MAX_ATTEMPTS - ro_attempt_count r) n' ∧ guessing b n' s).
Proof.
  intros Hn Hc s (Hr & Hb & Hid). unfold reject_otp. cbv zeta.
  destruct (REGISTRATION_OTP_MAX_ATTEMPTS <=? ro_attempt_count r + 1) eqn:Ea.
  - destruct (commit_challenges b 0 (delete id) s Hr Hb) as (s1 & E1 & Hg1 & _).
    { apply unique_on_delete, db_ok_otp, Hr. }
    { eapply drop_leaves_none; [apply Hr|done..]. }
    erewrite bind_Ok by reflexivity. erewrite bind_Ok by exact E1.
    by apply (raise_after_audit b _ 0); [left|].
  - destruct (now_utc s) as [[t|] s0] eqn:En; [|discriminate En].
    assert (at_rest s0 ∧ binding_of s0 = b ∧ committed s0 = committed s) as (Hr0 & Hb0 & Hc0)
      by (injection En as _ <-; done).
    set (row := set_ro_updated_at t (set_ro_attempt_count (ro_attempt_count r + 1) r)).
    destruct (commit_challenges b (REGISTRATION_OTP_MAX_ATTEMPTS - ro_attempt_count r - 1)
      (insert id row) s0 Hr0 Hb0) as (s1 & E1 & Hg1 & _).
    { rewrite Hc0. eapply unique_on_update; [exact Hid|done|apply db_ok_otp, Hr]. }
    { apply count_leaves_fewer; [done|lia]. }
    erewrite bind_Ok by (erewrite bind_Ok by exact En; reflexivity).
    erewrite bind_Ok by exact E1.
    apply (raise_after_audit b _ (REGISTRATION_OTP_MAX_ATTEMPTS - ro_attempt_count r - 1));
      [right; lia|done].
Qed.

(** One guess: it is accepted only while guesses are left, and spends one. *)
Lemma guess_triple b n code :
  triple (guessing b n) (verify_registration_otp email code)
    (λ _ s, 0 < n ∧ guessing b 0 s) (λ _ s, ∃ n', fewer n n' ∧ guessing b n' s).
Proof using active_key customer_email.
  intros s (Hr & Hb & Hg). unfold verify_registration_otp, require_registration_email.
  erewrite bind_Ok by (unfold try_except, lift; by rewrite customer_email).
  destruct (audit_reference_ok "registration_email" normalized) as [ref Eref].
  erewrite bind_Ok by (unfold lift; by rewrite Eref).
  unfold _load_otp_challenge. rewrite bind_assoc. erewrite bind_Ok by apply binding_hash_eq.
  rewrite bind_assoc. erewrite bind_Ok by (unfold lift, _email_hash; by rewrite hmac_ok).
  fold email_key. rewrite Hb, bind_assoc. pose proof Hr as [Hw Hok].
  destruct Hg as [[-> Hnone]|(Hn & id & r & Hid & Hc & ->)].
  { erewrite bind_Ok by (unfold db_query; rewrite Hw, no_challenge_query by (by left); done).
    erewrite bind_Ok by reflexivity. eapply triple_conseq;
      [apply (raise_after_audit b 0 0); by left|done|done|done|].
    split; [done|]. split; [done|]. by left. }
  erewrite bind_Ok.
  2:{ unfold db_query. rewrite Hw. erewrite one_or_none_unique; [done|apply db_ok_otp, Hok| |done..].
      intros w Hcw. unfold challenge_for in Hcw.
      apply andb_prop in Hcw as [[->%bool_decide_eq_true ->%bool_decide_eq_true]%andb_prop _]. done. }
  cbv beta iota. rewrite bind_assoc. destruct (now_utc s) as [[t|] s0] eqn:En; [|discriminate En].
  assert (at_rest s0 ∧ binding_of s0 = b ∧ committed s0 = committed s) as (Hr0 & Hb0 & Hc0)
    by (injection En as _ <-; done).
  erewrite bind_Ok by exact En. destruct (ro_expires_at r <=? t).
  - destruct (commit_challenges b 0 (delete id) s0 Hr0 Hb0) as (s1 & E1 & Hg1 & _).
    { apply unique_on_delete, db_ok_otp, Hr0. }
    { rewrite Hc0. eapply drop_leaves_none; [done..]. }
    rewrite bind_assoc. erewrite bind_Ok by reflexivity. rewrite bind_assoc.
    erewrite bind_Ok by exact E1. erewrite bind_Ok by reflexivity.
    eapply triple_conseq;
      [apply (raise_after_audit b (REGISTRATION_OTP_MAX_ATTEMPTS - ro_attempt_count r) 0); by left
      |done|done|done|done].
  - erewrite bind_Ok by reflexivity. cbv beta iota.
    erewrite bind_Ok by (unfold lift, _otp_hmac; by rewrite hmac_ok). case_bool_decide.
    + eapply triple_conseq; [apply (accept_triple b id ref)|done| |eauto using fewer_none|].
      { intros a s1 Hg1. split; [exact Hn|done]. }
      split; [done|]. split; [done|]. exists r. by rewrite Hc0.
    + eapply triple_conseq; [apply (reject_triple b id r ref); [lia|done]|done|done|done|].
      split; [done|]. split; [done|]. by rewrite Hc0.
Qed.

(** Requests that submit one code after the other: which are accepted? *)
Fixpoint guess_all (codes : list string) (s : St) : list bool :=
  match codes with
  | [] => []
  | code :: codes =>
      let '(r, s') := verify_registration_otp email code s in
      is_ok r :: guess_all codes (set_working (committed s') s')
  end.

Lemma guessing_served b n s : guessing b n s → guessing b n (set_working (committed s) s).
Proof. intros ([Hw Hok] & Hb & Hg). by split_and!; [split|..]. Qed.

Lemma guess_all_bound b codes n s k :
  guessing b n s → guess_all codes s !! k = Some true →
  Z.of_nat k < n ∧ ∀ j, guess_all codes s !! j = Some true → j = k.
Proof using active_key customer_email.
  revert n s k. induction codes as [|code codes IH]; intros n s k Hg Hk; [done|].
  simpl in *. pose proof (guess_triple b n code s Hg) as Ht.
  destruct (verify_registration_otp email code s) as [[r|e] s'].
  - destruct Ht as [Hn Hg']. apply guessing_served in Hg'.
    assert (∀ j, guess_all codes (set_working (committed s') s') !! j ≠ Some true) as Hnone.
    { intros j Hj. destruct (IH 0 _ j Hg' Hj). lia. }
    destruct k as [|k]; simpl in Hk; [|by edestruct Hnone]. split; [lia|].
    intros [|j] Hj; [done|]. simpl in Hj. by edestruct Hnone.
  - destruct Ht as (n' & Hf & Hg'). apply guessing_served in Hg'.
    destruct k as [|k]; [done|]. simpl in Hk. destruct (IH n' _ k Hg' Hk) as [Hlt Hu].
    split; [destruct Hf as [->|]; lia|]. intros [|j] Hj; [done|]. simpl in Hj. f_equal. by apply Hu.
Qed.
End Guesses.

(** C39: A registration challenge allows five guesses and one success.  However
    many codes are submitted one after the other, a code is accepted only among
    the first five, and at most one is. *)
Theorem otp_five_guesses `{Env} key email normalized codes s k :
  _active_key = Ok key → require_customer_email email = Ok normalized → at_rest s →
  (∀ id r, registration_otp_challenges (committed s) !! id = Some r →
     0 ≤ ro_attempt_count r < REGISTRATION_OTP_MAX_ATTEMPTS) →
  guess_all email codes s !! k = Some true →
  (k < 5)%nat ∧ ∀ j, guess_all email codes s !! j = Some true → j = k.
Proof.
  intros Hkey He Hr Hcount Hk.
  assert (∃ n, n ≤ 5 ∧ guessing key normalized (binding_of key s) n s) as (n & Hn & Hg).
  { destruct (rows_where (challenge_for (binding_of key s) (email_key key normalized))
      (registration_otp_challenges (committed s))) as [|[id r] l] eqn:E.
    - exists 0. split; [lia|]. split_and!; [done|done|]. left. split; [done|]. intros id r Hid.
      destruct (challenge_for _ _ r) eqn:Ec; [|done].
      assert ((id, r) ∈ []) as Hin by (rewrite <- E; by apply rows_where_spec). by apply elem_of_nil in Hin.
    - assert ((id, r) ∈ (id, r) :: l) as Hin by left. rewrite <- E in Hin.
      apply rows_where_spec in Hin as [Hid Hc]. specialize (Hcount id r Hid).
      unfold REGISTRATION_OTP_MAX_ATTEMPTS in *.
      exists (REGISTRATION_OTP_MAX_ATTEMPTS - ro_attempt_count r).
      unfold REGISTRATION_OTP_MAX_ATTEMPTS. split; [lia|]. split_and!; [done|done|]. right.
      split; [lia|]. by exists id, r. }
  destruct (guess_all_bound key email normalized Hkey He _ codes n s k Hg Hk) as [Hlt Hu].
  split; [lia|exact Hu].
Qed.

(** ** Witness: dora asks for a code and types it at the third attempt *)

#[local] Existing Instance Sample.tail_env.

Definition otp_requested : St := (request_registration_otp "dora@example.com" Sample.sample_state).2.
Definition dora_codes : list string := ["000000"; "111111"; "000004"; "000004"].

Lemma otp_five_guesses_witness :
  guess_all "dora@example.com" dora_codes otp_requested = [false; false; true; false]
  ∧ ∀ j, guess_all "dora@example.com" dora_codes otp_requested !! j = Some true → j = 2%nat.
Proof.
  assert (guess_all "dora@example.com" dora_codes otp_requested = [false; false; true; false]) as E
    by (vm_compute; reflexivity).
  split; [exact E|].
  refine (proj2 (otp_five_guesses (Sample.key32 "s") "dora@example.com" "dora@example.com"
    dora_codes otp_requested 2 _ _ _ _ _)).
  - reflexivity.
  - vm_compute. reflexivity.
  - split; vm_compute; reflexivity.
  - assert (map_to_list (ro_attempt_count <$> registration_otp_challenges (committed otp_requested))
      = [(1, 0)]) as El by (vm_compute; reflexivity).
    intros id r Hr.
    assert ((id, ro_attempt_count r) ∈ [(1, 0)]) as Hin.
    { rewrite <- El. apply elem_of_map_to_list. by rewrite lookup_fmap, Hr. }
    apply list_elem_of_singleton in Hin. injection Hin as _ ->. unfold REGISTRATION_OTP_MAX_ATTEMPTS. lia.
  - rewrite E. reflexivity.
Defined.
End RegistrationOtp.
