(* ===== verification/LedgerSpec.v ===== *)
(** * The abstract ledger

    What the bank promises about money, independently of requests, sessions
    and tables: balances, ledger entries and credits, and the moves that may
    change them.  [ledger_step] is the specification the transfer, top-up,
    registration and payee code is shown to refine; conservation of money and
    the reconciliation of balances with the ledger are proved here once, by
    induction on the steps. *)

From S2P Require Import Prelude PyStr TimeModel Schema BankingPolicy.
From Stdlib Require Import Relations.
Open Scope string_scope.
Open Scope Z_scope.

Module LedgerSpec.
Import Policy.

(** An account's daily limits, in cents. *)
Record Limits : Type := mkLimits { lim_local : Z; lim_payup : Z }.

Record Books : Type := mkBooks {
  bk_balances : gmap Z Z;
  bk_limits : gmap Z Limits;
  bk_entries : gmap Z Transaction;
  bk_registration : gmap Z CreditLedgerRow;
  bk_topups : gmap Z CreditLedgerRow
}.

(** The abstraction function. *)
Definition books (d : Db) : Books :=
  mkBooks (u_balance <$> users d)
    ((λ u, mkLimits (u_local_transfer_daily_limit u) (u_payup_daily_limit u)) <$> users d)
    (transactions d) (registration_credits d) (topup_credits d).

(** Ledger entries that move money between two accounts. *)
Definition is_transfer (t : Transaction) : bool :=
  bool_decide (tx_status t = "completed")
  && str_in (tx_transaction_type t) ["local_transfer"; "payup"].

Definition sent_by (u : Z) (t : Transaction) : Z :=
  if is_transfer t && (tx_sender_id t =? u) then tx_amount t else 0.
Definition received_by (u : Z) (t : Transaction) : Z :=
  if is_transfer t && (tx_recipient_id t =? u) then tx_amount t else 0.
Definition credited_to (u : Z) (c : CreditLedgerRow) : Z :=
  if cr_user_id c =? u then cr_amount c else 0.

(** What the ledger says an account holds. *)
Definition ledger_balance (b : Books) (u : Z) : Z :=
  sum_table (credited_to u) (bk_registration b) + sum_table (credited_to u) (bk_topups b)
  + sum_table (received_by u) (bk_entries b) - sum_table (sent_by u) (bk_entries b).

Definition total_balance (b : Books) : Z := sum_table (λ x, x) (bk_balances b).
Definition total_credits (b : Books) : Z :=
  sum_table cr_amount (bk_registration b) + sum_table cr_amount (bk_topups b).

(** Completed transfers of type [ty] sent by [u] since [start], and within
    the Singapore day that begins at [start]. *)
Definition spent_since (ty : string) (u start : Z) (entries : gmap Z Transaction) : Z :=
  sum_table (λ t, if counts_today ty u start t then tx_amount t else 0) entries.
Definition spent_in_day (ty : string) (u start : Z) (entries : gmap Z Transaction) : Z :=
  sum_table (λ t, if counts_today ty u start t && (tx_created_at t <? start + US_DAY)
                  then tx_amount t else 0) entries.

Definition limit_for (ty : string) (l : Limits) : Z :=
  if bool_decide (ty = "payup") then lim_payup l else lim_local l.
Definition limits_ok (l : Limits) : bool :=
  between LOCAL_TRANSFER_DAILY_LIMIT_MIN (lim_local l) LOCAL_TRANSFER_DAILY_LIMIT_MAX
  && between PAYUP_DAILY_LIMIT_MIN (lim_payup l) PAYUP_DAILY_LIMIT_MAX.
(** The highest daily limit the bank lets a customer choose. *)
Definition DAILY_CAP : Z := 1000000.

(** A payee that is removed leaves its entries without a payee. *)
Definition unlink_payee (p : Z) (t : Transaction) : Transaction :=
  if bool_decide (tx_payee_id t = Some p) then set_tx_payee_id None t else t.

(** ** The moves *)

Definition move_money (b : Books) (s r amount id : Z) (t : Transaction) : Books :=
  mkBooks (alter (λ x, x + amount) r (alter (λ x, x - amount) s (bk_balances b)))
    (bk_limits b) (<[id := t]> (bk_entries b)) (bk_registration b) (bk_topups b).

Record transfer_entry (s r amount : Z) (t : Transaction) : Prop := {
  te_sender : tx_sender_id t = s;
  te_recipient : tx_recipient_id t = r;
  te_amount : tx_amount t = amount;
  te_transfer : is_transfer t = true
}.

Inductive ledger_step (b : Books) : Books → Prop :=
  | step_transfer s r amount bal l id t :
      s ≠ r → bk_balances b !! s = Some bal → is_Some (bk_balances b !! r) →
      0 < amount → amount ≤ bal → bk_entries b !! id = None → transfer_entry s r amount t →
      bk_limits b !! s = Some l →
      spent_since (tx_transaction_type t) s (sgt_day_start_utc (tx_created_at t)) (bk_entries b)
        + amount ≤ limit_for (tx_transaction_type t) l →
      ledger_step b (move_money b s r amount id t)
  | step_topup u amount id cid t c :
      is_Some (bk_balances b !! u) → 0 < amount →
      bk_entries b !! id = None → bk_topups b !! cid = None →
      tx_sender_id t = u → tx_recipient_id t = u → is_transfer t = false → tx_amount t = amount →
      tx_status t = "completed" → tx_created_at t = cr_created_at c →
      cr_user_id c = u → cr_amount c = amount →
      ledger_step b (mkBooks (alter (λ x, x + amount) u (bk_balances b)) (bk_limits b)
        (<[id := t]> (bk_entries b)) (bk_registration b) (<[cid := c]> (bk_topups b)))
  | step_open u l cid c :
      bk_balances b !! u = None → bk_registration b !! cid = None →
      cr_user_id c = u → 0 ≤ cr_amount c → limits_ok l = true →
      ledger_step b (mkBooks (<[u := cr_amount c]> (bk_balances b)) (<[u := l]> (bk_limits b))
        (bk_entries b)
        (<[cid := c]> (bk_registration b)) (bk_topups b))
  | step_limits u l :
      limits_ok l = true →
      ledger_step b (mkBooks (bk_balances b) (alter (λ _, l) u (bk_limits b)) (bk_entries b)
        (bk_registration b) (bk_topups b))
  | step_unlink p :
      ledger_step b (mkBooks (bk_balances b) (bk_limits b) (unlink_payee p <$> bk_entries b)
        (bk_registration b) (bk_topups b)).

Definition ledger_steps : Books → Books → Prop := clos_refl_trans_1n Books ledger_step.

(** Top-ups of [u] from [t0] on, as credits and as ledger entries. *)
Definition credited_since (u t0 : Z) (c : CreditLedgerRow) : Z :=
  if t0 <=? cr_created_at c then credited_to u c else 0.
Definition topped_since (u t0 : Z) (t : Transaction) : Z :=
  if negb (is_transfer t) && (tx_sender_id t =? u) && (t0 <=? tx_created_at t)
  then tx_amount t else 0.

(** ** The invariant *)

Record reconciled (b : Books) : Prop := {
  rec_balance u bal : bk_balances b !! u = Some bal → bal = ledger_balance b u;
  rec_nonneg u bal : bk_balances b !! u = Some bal → 0 ≤ bal;
  rec_total : total_balance b = total_credits b;
  rec_known_entries i t : bk_entries b !! i = Some t →
    is_Some (bk_balances b !! tx_sender_id t) ∧ is_Some (bk_balances b !! tx_recipient_id t);
  rec_known_registration i c : bk_registration b !! i = Some c →
    is_Some (bk_balances b !! cr_user_id c);
  rec_known_topups i c : bk_topups b !! i = Some c → is_Some (bk_balances b !! cr_user_id c);
  rec_amounts i t : bk_entries b !! i = Some t → 0 < tx_amount t;
  rec_limits u l : bk_limits b !! u = Some l → limits_ok l = true;
  rec_parties i t : bk_entries b !! i = Some t →
    if is_transfer t then tx_recipient_id t ≠ tx_sender_id t
    else tx_status t = "completed" ∧ tx_recipient_id t = tx_sender_id t;
  rec_topup_entries u t0 :
    sum_table (credited_since u t0) (bk_topups b) = sum_table (topped_since u t0) (bk_entries b)
}.

(** No customer ever sends more than the cap through one channel in one
    Singapore day. *)
Definition capped (b : Books) : Prop := ∀ ty u t,
  str_in ty ["local_transfer"; "payup"] = true →
  spent_in_day ty u (sgt_day_start_utc t) (bk_entries b) ≤ DAILY_CAP.

Definition empty_books : Books := mkBooks ∅ ∅ ∅ ∅ ∅.

(** ** Sums *)

Lemma sum_table_zero {V} (f : V → Z) t :
  (∀ k v, t !! k = Some v → f v = 0) → sum_table f t = 0.
Proof.
  induction t as [|k v t Hk IH] using map_ind; intros Hf; [apply sum_table_empty|].
  rewrite sum_table_insert_None by done.
  rewrite (Hf k v) by apply lookup_insert_eq. rewrite IH; [done|].
  intros k' v' Hk'. apply (Hf k'). rewrite lookup_insert_ne; [done|]. intros ->. congruence.
Qed.

Lemma sum_table_fmap {V W} (f : W → Z) (g : V → W) t :
  sum_table f (g <$> t) = sum_table (λ v, f (g v)) t.
Proof.
  induction t as [|k v t Hk IH] using map_ind; [by rewrite fmap_empty, !sum_table_empty|].
  rewrite fmap_insert, !sum_table_insert_None; [by rewrite IH|done|].
  by rewrite lookup_fmap, Hk.
Qed.

Lemma sum_table_ext {V} (f g : V → Z) t :
  (∀ v, f v = g v) → sum_table f t = sum_table g t.
Proof.
  intros E. unfold sum_table. f_equal. apply list_fmap_ext. intros. by rewrite E.
Qed.

Lemma sum_table_alter (f : Z → Z) (t : gmap Z Z) k x :
  t !! k = Some x → sum_table (λ x, x) (alter f k t) = sum_table (λ x, x) t - x + f x.
Proof.
  intros Hk. rewrite <- (sum_table_insert (λ x, x) t k x (f x) Hk). f_equal.
  apply map_eq. intros i. destruct (decide (i = k)) as [->|].
  - by rewrite lookup_alter_eq, lookup_insert_eq, Hk.
  - by rewrite lookup_alter_ne, lookup_insert_ne.
Qed.

Lemma unlink_transfer p t : is_transfer (unlink_payee p t) = is_transfer t.
Proof. unfold unlink_payee. by case_bool_decide. Qed.
Lemma unlink_sent p u t : sent_by u (unlink_payee p t) = sent_by u t.
Proof. unfold unlink_payee. by case_bool_decide. Qed.
Lemma unlink_received p u t : received_by u (unlink_payee p t) = received_by u t.
Proof. unfold unlink_payee. by case_bool_decide. Qed.
Lemma unlink_sender p t : tx_sender_id (unlink_payee p t) = tx_sender_id t.
Proof. unfold unlink_payee. by case_bool_decide. Qed.
Lemma unlink_recipient p t : tx_recipient_id (unlink_payee p t) = tx_recipient_id t.
Proof. unfold unlink_payee. by case_bool_decide. Qed.

Lemma unlink_status p t : tx_status (unlink_payee p t) = tx_status t.
Proof. unfold unlink_payee. by case_bool_decide. Qed.
Lemma unlink_amount p t : tx_amount (unlink_payee p t) = tx_amount t.
Proof. unfold unlink_payee. by case_bool_decide. Qed.

(** ** Each move keeps the books reconciled *)

Lemma move_lookup b s r amount id t u :
  bk_balances (move_money b s r amount id t) !! u =
  (λ x, x + (if u =? r then amount else 0) - (if u =? s then amount else 0))
    <$> bk_balances b !! u.
Proof.
  simpl. rewrite !lookup_alter.
  repeat case_decide; subst; repeat case_match;
    destruct (bk_balances b !! _) as [x|]; simpl; try done; f_equal; lia.
Qed.

Lemma is_Some_fmap_Z (f : Z → Z) (o : option Z) : is_Some o → is_Some (f <$> o).
Proof. intros [x ->]. simpl. eauto. Qed.

Lemma reconciled_transfer b s r amount bal id t :
  reconciled b → s ≠ r → bk_balances b !! s = Some bal → is_Some (bk_balances b !! r) →
  0 < amount → amount ≤ bal → bk_entries b !! id = None → transfer_entry s r amount t →
  reconciled (move_money b s r amount id t).
Proof.
  intros R Hne Hs [balr Hr] Ha Hle Hid [Ts Tr Ta Tt]. split.
  - intros u x. rewrite move_lookup. destruct (bk_balances b !! u) as [y|] eqn:Hu; [|done].
    simpl. intros [= <-]. rewrite (rec_balance b R u y Hu) at 1.
    unfold ledger_balance. simpl. rewrite !sum_table_insert_None by done.
    unfold sent_by at 2, received_by at 2. rewrite Tt, Ts, Tr, Ta, (Z.eqb_sym s), (Z.eqb_sym r).
    simpl. repeat case_match; lia.
  - intros u x. rewrite move_lookup. destruct (bk_balances b !! u) as [y|] eqn:Hu; [|done].
    simpl. intros [= <-]. pose proof (rec_nonneg b R u y Hu).
    destruct (Z.eqb_spec u s) as [->|]; [|case_match; lia].
    rewrite Hs in Hu. simplify_eq. case_match; lia.
  - unfold total_balance, total_credits. simpl.
    rewrite (sum_table_alter _ _ r balr) by by rewrite lookup_alter_ne by done.
    rewrite (sum_table_alter _ _ s bal) by done.
    pose proof (rec_total b R). unfold total_balance, total_credits in *. lia.
  - intros i t'. simpl bk_entries. rewrite !move_lookup. destruct (decide (i = id)) as [->|].
    + rewrite lookup_insert_eq. intros [= <-]. rewrite Ts, Tr, Hs, Hr. simpl. eauto.
    + rewrite lookup_insert_ne by done. intros Hi.
      destruct (rec_known_entries b R i t' Hi). split; by apply is_Some_fmap_Z.
  - intros i c Hi. rewrite move_lookup. apply is_Some_fmap_Z.
    by apply (rec_known_registration b R i c).
  - intros i c Hi. rewrite move_lookup. apply is_Some_fmap_Z. by apply (rec_known_topups b R i c).
  - intros i t'. simpl. rewrite lookup_insert. case_decide; [intros [= <-]; lia|].
    apply (rec_amounts b R).
  - apply (rec_limits b R).
  - intros i t'. simpl. rewrite lookup_insert. case_decide; [intros [= <-]; rewrite Tt; congruence|].
    apply (rec_parties b R).
  - intros u t0. simpl. rewrite sum_table_insert_None by done. unfold topped_since at 1.
    rewrite Tt. apply (rec_topup_entries b R).
Qed.

Lemma reconciled_topup b u amount id cid t c :
  reconciled b → is_Some (bk_balances b !! u) → 0 < amount →
  bk_entries b !! id = None → bk_topups b !! cid = None →
  tx_sender_id t = u → tx_recipient_id t = u → is_transfer t = false → tx_amount t = amount →
  tx_status t = "completed" → tx_created_at t = cr_created_at c →
  cr_user_id c = u → cr_amount c = amount →
  reconciled (mkBooks (alter (λ x, x + amount) u (bk_balances b)) (bk_limits b)
    (<[id := t]> (bk_entries b)) (bk_registration b) (<[cid := c]> (bk_topups b))).
Proof.
  intros R [bal Hu] Ha Hid Hcid Ts Tr Tt Ta Tst Tc Cu Ca.
  assert (∀ v, is_Some (bk_balances b !! v) →
               is_Some (alter (λ x, x + amount) u (bk_balances b) !! v)) as Hk.
  { intros v Hv. rewrite lookup_alter. case_decide; [by apply is_Some_fmap_Z | done]. }
  split; simpl.
  - intros v x Hv. unfold ledger_balance. simpl. rewrite !sum_table_insert_None by done.
    unfold sent_by at 1, received_by at 1, credited_to at 2. rewrite Tt, Cu, Ca. simpl.
    rewrite lookup_alter in Hv. case_decide as Hvu.
    + subst v. rewrite Hu in Hv. simplify_eq/=. rewrite (rec_balance b R _ bal Hu) at 1.
      unfold ledger_balance. rewrite Z.eqb_refl. lia.
    + rewrite (rec_balance b R v x Hv) at 1. unfold ledger_balance.
      rewrite (proj2 (Z.eqb_neq u v)) by done. lia.
  - intros v x. rewrite lookup_alter. case_decide.
    + subst v. rewrite Hu. intros [= <-]. pose proof (rec_nonneg b R _ _ Hu). lia.
    + apply (rec_nonneg b R).
  - unfold total_balance, total_credits. simpl. rewrite (sum_table_alter _ _ u bal) by done.
    rewrite sum_table_insert_None by done. rewrite Ca.
    pose proof (rec_total b R). unfold total_balance, total_credits in *. lia.
  - intros i t'. destruct (decide (i = id)) as [->|].
    + rewrite lookup_insert_eq. intros [= <-]. rewrite Ts, Tr. split; apply Hk; eauto.
    + rewrite lookup_insert_ne by done. intros Hi.
      destruct (rec_known_entries b R i t' Hi). auto.
  - intros i c' Hi. apply Hk. by apply (rec_known_registration b R i).
  - intros i c'. destruct (decide (i = cid)) as [->|].
    + rewrite lookup_insert_eq. intros [= <-]. rewrite Cu. apply Hk. eauto.
    + rewrite lookup_insert_ne by done. intros Hi. apply Hk. by apply (rec_known_topups b R i).
  - intros i t'. rewrite lookup_insert. case_decide; [intros [= <-]; lia|].
    apply (rec_amounts b R).
  - apply (rec_limits b R).
  - intros i t'. rewrite lookup_insert. case_decide; [intros [= <-]; by rewrite Tt, Ts, Tr|].
    apply (rec_parties b R).
  - intros v t0. rewrite !sum_table_insert_None by done. rewrite (rec_topup_entries b R).
    f_equal. unfold credited_since, credited_to, topped_since.
    rewrite Tt, Ts, Tc, Ta, Cu, Ca. simpl. destruct (u =? v), (t0 <=? cr_created_at c); done.
Qed.

(** An account the books do not know has an empty ledger. *)
Lemma unknown_ledger_balance b u :
  reconciled b → bk_balances b !! u = None → ledger_balance b u = 0.
Proof.
  intros R Hu.
  assert (∀ v, is_Some (bk_balances b !! v) → (v =? u) = false) as Hne.
  { intros v [x Hv]. apply Z.eqb_neq. intros ->. congruence. }
  unfold ledger_balance. rewrite !sum_table_zero; [done|..].
  - intros i t Hi. unfold sent_by. rewrite Hne, andb_false_r by apply (rec_known_entries b R i t Hi).
    done.
  - intros i t Hi. unfold received_by.
    rewrite Hne, andb_false_r by apply (rec_known_entries b R i t Hi). done.
  - intros i c Hi. unfold credited_to. by rewrite Hne by apply (rec_known_topups b R i c Hi).
  - intros i c Hi. unfold credited_to. by rewrite Hne by apply (rec_known_registration b R i c Hi).
Qed.

Lemma reconciled_open b u l cid c :
  reconciled b → bk_balances b !! u = None → bk_registration b !! cid = None →
  cr_user_id c = u → 0 ≤ cr_amount c → limits_ok l = true →
  reconciled (mkBooks (<[u := cr_amount c]> (bk_balances b)) (<[u := l]> (bk_limits b))
    (bk_entries b)
    (<[cid := c]> (bk_registration b)) (bk_topups b)).
Proof.
  intros R Hu Hcid Cu Ca Hl.
  assert (∀ v, is_Some (bk_balances b !! v) →
               is_Some (<[u := cr_amount c]> (bk_balances b) !! v)) as Hk.
  { intros v Hv. rewrite lookup_insert. case_decide; eauto. }
  split; simpl.
  - intros v x Hv. unfold ledger_balance. simpl. rewrite sum_table_insert_None by done.
    unfold credited_to at 1. rewrite Cu. destruct (decide (u = v)) as [<-|Hne].
    + rewrite lookup_insert_eq in Hv. simplify_eq. rewrite Z.eqb_refl.
      pose proof (unknown_ledger_balance b (cr_user_id c) R Hu). unfold ledger_balance in *. lia.
    + rewrite lookup_insert_ne in Hv by done. rewrite (proj2 (Z.eqb_neq u v)) by done.
      rewrite (rec_balance b R v x Hv) at 1. unfold ledger_balance. lia.
  - intros v x. rewrite lookup_insert. case_decide; [by intros [= <-] | apply (rec_nonneg b R)].
  - unfold total_balance, total_credits. simpl. rewrite !sum_table_insert_None by done.
    pose proof (rec_total b R). unfold total_balance, total_credits in *. lia.
  - intros i t Hi. destruct (rec_known_entries b R i t Hi). auto.
  - intros i c'. destruct (decide (i = cid)) as [->|].
    + rewrite lookup_insert_eq. intros [= <-]. rewrite Cu, lookup_insert_eq. eauto.
    + rewrite lookup_insert_ne by done. intros Hi. apply Hk. by apply (rec_known_registration b R i).
  - intros i c' Hi. apply Hk. by apply (rec_known_topups b R i).
  - apply (rec_amounts b R).
  - intros v l'. rewrite lookup_insert. case_decide; [by intros [= <-]|apply (rec_limits b R)].
  - apply (rec_parties b R).
  - apply (rec_topup_entries b R).
Qed.

Lemma reconciled_unlink b p :
  reconciled b →
  reconciled (mkBooks (bk_balances b) (bk_limits b) (unlink_payee p <$> bk_entries b)
    (bk_registration b) (bk_topups b)).
Proof.
  intros R. split; simpl; try apply R.
  - intros u bal Hu. rewrite (rec_balance b R u bal Hu). unfold ledger_balance. simpl.
    rewrite !sum_table_fmap.
    rewrite (sum_table_ext _ _ _ (unlink_received p u)), (sum_table_ext _ _ _ (unlink_sent p u)).
    done.
  - intros i t. rewrite lookup_fmap. destruct (bk_entries b !! i) as [t0|] eqn:Hi; [|done].
    intros [= <-]. rewrite unlink_sender, unlink_recipient. by apply (rec_known_entries b R i).
  - intros i t. rewrite lookup_fmap. destruct (bk_entries b !! i) as [t0|] eqn:Hi; [|done].
    intros [= <-]. rewrite unlink_amount. by apply (rec_amounts b R i).
  - intros i t. rewrite lookup_fmap. destruct (bk_entries b !! i) as [t0|] eqn:Hi; [|done].
    intros [= <-]. rewrite unlink_transfer, unlink_recipient, unlink_sender, unlink_status.
    by apply (rec_parties b R i).
  - intros u t0. rewrite sum_table_fmap, (rec_topup_entries b R). apply sum_table_ext.
    intros t. unfold unlink_payee. by case_bool_decide.
Qed.

Lemma reconciled_limits b u l :
  reconciled b → limits_ok l = true →
  reconciled (mkBooks (bk_balances b) (alter (λ _, l) u (bk_limits b)) (bk_entries b)
    (bk_registration b) (bk_topups b)).
Proof.
  intros R Hl. split; simpl; try apply R. intros v l'. rewrite lookup_alter. case_decide.
  - subst v. destruct (bk_limits b !! u); [by intros [= <-] | done].
  - apply (rec_limits b R).
Qed.

Lemma reconciled_step b b' : reconciled b → ledger_step b b' → reconciled b'.
Proof.
  intros R [].
  - by eapply reconciled_transfer.
  - by eapply reconciled_topup.
  - by apply reconciled_open.
  - by apply reconciled_limits.
  - by apply reconciled_unlink.
Qed.

Lemma reconciled_empty : reconciled empty_books.
Proof. split; by try (intros *; rewrite lookup_empty). Qed.

Lemma reconciled_steps b b' : ledger_steps b b' → reconciled b → reconciled b'.
Proof. induction 1; eauto using reconciled_step. Qed.

(** ** Each move keeps the daily cap *)

Lemma sum_table_le {V} (f g : V → Z) t :
  (∀ k v, t !! k = Some v → f v ≤ g v) → sum_table f t ≤ sum_table g t.
Proof.
  induction t as [|k v t Hk IH] using map_ind; intros Hf; [by rewrite !sum_table_empty|].
  rewrite !sum_table_insert_None by done.
  assert (f v ≤ g v) by (apply (Hf k); apply lookup_insert_eq).
  assert (sum_table f t ≤ sum_table g t); [|lia].
  apply IH. intros k' v' Hk'. apply (Hf k'). rewrite lookup_insert_ne; [done|]. congruence.
Qed.

Lemma counts_transfer ty u start t :
  str_in ty ["local_transfer"; "payup"] = true → counts_today ty u start t = true →
  is_transfer t = true ∧ tx_transaction_type t = ty ∧ tx_sender_id t = u ∧ start ≤ tx_created_at t.
Proof.
  unfold counts_today, is_transfer. intros Hty.
  rewrite !andb_true_iff, !bool_decide_eq_true, Z.eqb_eq, Z.leb_le. naive_solver.
Qed.

Lemma spent_in_day_le ty u start entries :
  (∀ i t, entries !! i = Some t → 0 < tx_amount t) →
  spent_in_day ty u start entries ≤ spent_since ty u start entries.
Proof.
  intros Hpos. apply sum_table_le. intros k t Hk. apply Hpos in Hk.
  destruct (counts_today _ _ _ _); simpl; [case_match|]; lia.
Qed.

(** Usage since a later midnight is at most usage since an earlier one. *)
Lemma spent_since_mono ty u a b entries :
  (∀ i t, entries !! i = Some t → 0 < tx_amount t) → a ≤ b →
  spent_since ty u b entries ≤ spent_since ty u a entries.
Proof.
  intros Hpos Hab. apply sum_table_le. intros k t Hk. apply Hpos in Hk.
  assert (counts_today ty u b t = true → counts_today ty u a t = true) as Hc.
  { unfold counts_today. rewrite !andb_true_iff, !Z.leb_le. intros [? ?]. split; [done|lia]. }
  destruct (counts_today ty u b t); [by rewrite Hc | case_match; lia].
Qed.

Lemma limit_for_cap ty l : limits_ok l = true → limit_for ty l ≤ DAILY_CAP.
Proof.
  unfold limits_ok, between, limit_for, DAILY_CAP, LOCAL_TRANSFER_DAILY_LIMIT_MAX,
    PAYUP_DAILY_LIMIT_MAX. rewrite !andb_true_iff, !Z.leb_le. case_match; lia.
Qed.

Lemma spent_in_day_insert ty u start entries id t :
  entries !! id = None →
  spent_in_day ty u start (<[id := t]> entries)
  = (if counts_today ty u start t && (tx_created_at t <? start + US_DAY) then tx_amount t else 0)
    + spent_in_day ty u start entries.
Proof. apply sum_table_insert_None. Qed.

Lemma capped_transfer b s r amount l id t :
  reconciled b → capped b → bk_entries b !! id = None → transfer_entry s r amount t →
  bk_limits b !! s = Some l →
  spent_since (tx_transaction_type t) s (sgt_day_start_utc (tx_created_at t)) (bk_entries b)
    + amount ≤ limit_for (tx_transaction_type t) l →
  capped (move_money b s r amount id t).
Proof.
  intros R C Hid [Ts Tr Ta Tt] Hl Hsp ty u x Hty. simpl. rewrite spent_in_day_insert by done.
  pose proof (C ty u x Hty) as Hold. case_match eqn:E; [|lia].
  apply andb_true_iff in E as [E1 E2%Z.ltb_lt].
  destruct (counts_transfer _ _ _ _ Hty E1) as (_ & Ety & Eu & Est).
  rewrite (day_start_same x (tx_created_at t)) in Hsp by lia. subst u ty. rewrite Ts in *.
  pose proof (limit_for_cap (tx_transaction_type t) l (rec_limits b R s l Hl)).
  pose proof (spent_in_day_le (tx_transaction_type t) s (sgt_day_start_utc x) (bk_entries b)
    (rec_amounts b R)). lia.
Qed.

Lemma capped_step b b' : reconciled b → capped b → ledger_step b b' → capped b'.
Proof.
  intros R C [].
  - by eapply capped_transfer.
  - intros ty v x Hty. simpl. rewrite spent_in_day_insert by done.
    case_match eqn:E; [|apply C, Hty]. apply andb_true_iff in E as [E _].
    apply counts_transfer in E; [|done]. destruct E as [E _]. congruence.
  - done.
  - done.
  - intros ty v x Hty. simpl. unfold spent_in_day. rewrite sum_table_fmap.
    rewrite (sum_table_ext _ (λ t, if counts_today ty v (sgt_day_start_utc x) t
      && (tx_created_at t <? sgt_day_start_utc x + US_DAY) then tx_amount t else 0));
      [by apply C|]. intros t. unfold unlink_payee. by case_bool_decide.
Qed.

Lemma capped_empty : capped empty_books.
Proof. intros ty u t _. unfold spent_in_day. simpl. by rewrite sum_table_empty. Qed.

(** What holds of the books at every moment. *)
Definition sound (b : Books) : Prop := reconciled b ∧ capped b.

Lemma sound_step b b' : sound b → ledger_step b b' → sound b'.
Proof. intros [R C] Hs. split; [by eapply reconciled_step | by eapply capped_step]. Qed.

Lemma sound_empty : sound empty_books.
Proof. split; [apply reconciled_empty | apply capped_empty]. Qed.

Lemma sound_steps b b' : ledger_steps b b' → sound b → sound b'.
Proof. induction 1; eauto using sound_step. Qed.
End LedgerSpec.
