(* ===== verification/Transfers.v ===== *)
(** * Local and PayUp transfers ([app/banking/services.py])

    [execute_local_transfer] and [execute_payup_transfer] with every check,
    early rejection, audit write and notification, in the order of the code.
    Amounts are cents once quantized; a pending transfer's amount column has
    five decimals. *)

From S2P Require Import Prelude PyStr PyDecimal TimeModel Schema Runtime Canonical Integrity.
From S2P Require Import AuditLog SessionRisk BankingPolicy Notifications.
From Stdlib Require Import Ascii.
Open Scope string_scope.
Open Scope Z_scope.

Module Transfers.
Import Audit Ledger SessionRisk Policy Notifications.

Definition PAYUP_RISK_ALLOW : string := "allow".
Definition PAYUP_RISK_STEP_UP : string := "step_up".
Definition PAYUP_RISK_BLOCK : string := "block".
Definition _PAYUP_SENSITIVE_EVENT_TYPES : list string :=
  ["manual_recovery_completed"; "manual_recovery_requested"; "mfa_replace_start";
   "mfa_replace_verify"; "password_change"; "password_reset_completed";
   "recovery_codes_generated"; "recovery_codes_regenerate"].

Record PayupRiskDecision : Type := mkDecision { decision : string; reasons : list string }.
Definition requires_step_up (d : PayupRiskDecision) : bool :=
  bool_decide (decision d = PAYUP_RISK_STEP_UP).
Definition blocked (d : PayupRiskDecision) : bool := bool_decide (decision d = PAYUP_RISK_BLOCK).
Definition block (reason : string) : PayupRiskDecision := mkDecision PAYUP_RISK_BLOCK [reason].

(** The event's [updated_fields] metadata as the JSON query reads it. *)
Definition updated_fields (e : SecurityAuditEvent) : option string :=
  match obj_get "updated_fields" (ev_event_metadata e) with
  | Some (JStr s) => Some s
  | _ => None
  end.

Definition is_payup_sensitive_event (user_id cutoff : Z) (e : SecurityAuditEvent) : bool :=
  bool_decide (ev_user_id e = Some user_id) && (cutoff <=? ev_created_at e)
  && ((str_in (ev_event_type e) _PAYUP_SENSITIVE_EVENT_TYPES
       && str_in (ev_outcome e) ["approved"; "completed"; "requested"; "success"; "verified"])
      || (bool_decide (ev_event_type e = "profile_update")
          && bool_decide (ev_outcome e = "success")
          && match updated_fields e with
             | Some f => str_in f ["profile_email"; "profile_phone"; "profile_email_phone"]
             | None => false
             end)).

(** The inputs [evaluate_payup_risk] gathers; amounts in cents, caps as
    configured. *)
Record RiskInputs : Type := mkInputs {
  ri_amount : pydec; ri_daily_used : Z; ri_daily_limit : Z;
  ri_quick_transfer_cap : pydec; ri_quick_daily_cap : pydec;
  ri_session_max_age : Z; ri_session_age : option Z; ri_session_stable : bool;
  ri_recent_sensitive_event : bool; ri_payup_enabled : bool; ri_mfa_enrolled : bool
}.

(** [cap <= 0] for a configured cap. *)
Definition not_positive (d : pydec) : res bool := rbind (dec_gt d (dollars 0)) (λ b, Ok (negb b)).

(** The decision part of [evaluate_payup_risk], after the inputs are read. *)
Definition decide_payup_risk (i : RiskInputs) : res PayupRiskDecision :=
  if negb (is_finite (ri_amount i)) || (cents (ri_amount i) <=? 0) || (ri_daily_used i <? 0)
     || (ri_daily_limit i <=? 0)
  then Ok (block "risk_state_invalid")
  else
  rbind (not_positive (ri_quick_transfer_cap i)) (λ bad1,
  if (bad1 : bool) then Ok (block "risk_state_invalid") else
  rbind (not_positive (ri_quick_daily_cap i)) (λ bad2,
  if (bad2 : bool) then Ok (block "risk_state_invalid")
  else if negb (ri_payup_enabled i) then Ok (block "payup_disabled")
  else if negb (ri_mfa_enrolled i) then Ok (block "mfa_not_enrolled")
  else if negb (ri_session_stable i) then Ok (block "session_risk")
  else match ri_session_age i with
  | None => Ok (block "session_state_unavailable")
  | Some age =>
      let projected_daily := ri_daily_used i + cents (ri_amount i) in
      if ri_daily_limit i <? projected_daily then Ok (block "daily_limit_exceeded")
      else if ri_session_max_age i <? age then Ok (block "stale_session")
      else if ri_recent_sensitive_event i then Ok (block "recent_sensitive_event")
      else
        rbind (dec_gt (ri_amount i) (ri_quick_transfer_cap i)) (λ over_transfer,
        rbind (dec_gt (of_cents projected_daily) (ri_quick_daily_cap i)) (λ over_daily,
        let step_up_reasons :=
          ((if (over_daily : bool) then ["quick_daily_cap"] else [])
           ++ (if (over_transfer : bool) then ["quick_transfer_cap"] else []))%list in
        match step_up_reasons with
        | [] => Ok (mkDecision PAYUP_RISK_ALLOW [])
        | _ => Ok (mkDecision PAYUP_RISK_STEP_UP step_up_reasons)
        end))
  end)).

Definition consumable {P} (token : P → string) (user : P → Z) (consumed : P → option Z)
    (verifier : string) (user_id : Z) (p : P) : bool :=
  bool_decide (token p = verifier) && (user p =? user_id)
  && bool_decide (consumed p = None).

Definition _payup_sender_has_nickname (sender : User) : bool :=
  let nickname := strip (or_empty (u_payup_nickname sender)) in
  (2 <=? slen nickname)%nat && (slen nickname <=? 128)%nat
  && negb (existsb (λ c, (code c <? 32) || (code c =? 127)) (chars nickname)).

Definition _payup_notification_label (user : User) : string :=
  let nickname := strip (or_empty (u_payup_nickname user)) in
  if nonempty nickname then nickname
  else if nonempty (u_full_name user) then u_full_name user else u_username user.

Section Transfers.
Context `{Env}.

(** ** Rows and locks *)

Definition add_transaction (t : Transaction) : Db → Db :=
  upd_transactions (λ ts, <[next_id ts := t]> ts).
Definition adjust_balance (user_id delta : Z) : Db → Db :=
  upd_users (alter (λ u, set_u_balance (u_balance u + delta) u) user_id).
Definition update_pending (pid : Z) (f : PendingTransfer → PendingTransfer) : M St unit :=
  db_write (upd_pending_transfers (alter f pid)).
Definition update_payup_pending (pid : Z) (f : PayupPendingTransfer → PayupPendingTransfer)
    : M St unit :=
  db_write (upd_payup_pending_transfers (alter f pid)).

(** The rows of both participants, locked in ascending id order. *)
Definition _lock_transfer_participants (sender_id recipient_id : Z) : M St (User * User) :=
  db_query (λ d,
    match users d !! sender_id, users d !! recipient_id with
    | Some a, Some b => Ok (a, b)
    | None, _ => Raise (KeyError (pretty sender_id))
    | _, None => Raise (KeyError (pretty recipient_id))
    end).

(** ** Local transfers *)

Definition _reject_local_transfer {A} (sender : Z) (message : string) (status_code : Z)
    (metadata : list (string * jval)) (payee_account : option string) : M St A :=
  _ <- audit_outbound_transfer sender "failure" metadata None payee_account ;;
  _ <- commit ;;
  _ <- send_transfer_notification sender "withdrawal" "failure" LOCAL_TRANSFER_CHANNEL no_details ;;
  raise (AuthError message status_code None).

Definition _local_transfer_recipient (sender payee_id : Z) : M St Z :=
  payee <- load_payee payee_id ;;
  _ <- (if negb (py_user_id payee =? sender) then
          ref <- lift (audit_reference "payee_id" (pretty payee_id)) ;;
          _reject_local_transfer sender "Transfer denied." 403
            [("reason", JStr "payee_ownership_mismatch"); ("payee_id_ref", jopt_str ref)] None
        else ret tt) ;;
  found <- db_get (λ d, first_where
             (λ u, bool_decide (u_account_number u = Some (py_account_number payee))) (users d)) ;;
  match found with
  | None =>
      _reject_local_transfer sender "Recipient account not found." 400
        [("reason", JStr "recipient_not_found")] (Some (py_account_number payee))
  | Some (recipient_id, recipient_user) =>
      if recipient_id =? sender then
        _reject_local_transfer sender "Cannot transfer to yourself." 400
          [("reason", JStr "self_transfer")] None
      else if negb (str_in (u_account_status recipient_user) ["active"; "locked"]) then
        _reject_local_transfer sender "Recipient account is not available to receive transfers."
          400 [("reason", JStr "recipient_account_unavailable")] None
      else ret recipient_id
  end.

Definition _ensure_payee_cooldown_elapsed (sender payee_id now : Z) : M St unit :=
  cooldown_seconds <- lift (config_int_default "PAYEE_COOLDOWN_SECONDS" 60) ;;
  payee <- load_payee payee_id ;;
  if now - py_created_at payee <? cooldown_seconds * US_SECOND then
    _reject_local_transfer sender "Payee is still in cooldown." 400
      [("reason", JStr "payee_in_cooldown")] None
  else ret tt.

(** Selects the unconsumed pending transfer of the token. *)
Definition pending_for (verifier : string) (sender payee_id : Z) (p : PendingTransfer) : bool :=
  consumable pt_token pt_user_id pt_consumed_at verifier sender p && (pt_payee_id p =? payee_id).

Definition _load_pending_local_transfer (sender payee_id : Z) (confirmation_token : string)
    (now : Z) : M St (Z * PendingTransfer) :=
  verifier <- lift (local_transfer_token_verifier confirmation_token) ;;
  found <- db_query (λ d, one_or_none (pending_for verifier sender payee_id) (pending_transfers d)) ;;
  match found with
  | None =>
      _reject_local_transfer sender _TRANSFER_CONFIRMATION_EXPIRED_MESSAGE 409
        [("reason", JStr "confirmation_token_not_found")] None
  | Some (pid, p) =>
      if pt_expires_at p <? now then
        _reject_local_transfer sender _TRANSFER_CONFIRMATION_EXPIRED_MESSAGE 409
          [("reason", JStr "confirmation_token_expired")] None
      else ret (pid, p)
  end.

(** The amount in cents of a stored [Numeric(12, 5)] amount. *)
Definition _local_transfer_amount (sender : Z) (p : PendingTransfer) : M St Z :=
  let amount := normalize (DFin (pt_amount p) (-5)) in
  if negb (is_finite amount) || (exponent amount <? -2) then
    band <- lift (_amount_audit_band amount) ;;
    _reject_local_transfer sender "Transfer amount must have at most two decimal places." 400
      [("reason", JStr "invalid_amount_precision"); ("amount_band", JStr band)] None
  else
    amount <- lift (quantize_cents amount) ;;
    if (cents amount <? MIN_TRANSACTION_AMOUNT) || (MAX_TRANSACTION_AMOUNT <? cents amount) then
      band <- lift (_amount_audit_band amount) ;;
      _reject_local_transfer sender "Transfer amount is out of the allowed range." 400
        [("reason", JStr "amount_out_of_range"); ("amount_band", JStr band)] None
    else ret (cents amount).

Definition _ensure_local_transfer_balance (sender payee_id : Z) (locked_sender : User)
    (amount : Z) : M St unit :=
  if u_balance locked_sender <? amount then
    band <- lift (_amount_audit_band (of_cents amount)) ;;
    payee <- load_payee payee_id ;;
    _reject_local_transfer sender "Insufficient funds." 400
      [("reason", JStr "insufficient_funds"); ("amount_band", JStr band)]
      (Some (py_account_number payee))
  else ret tt.

Definition _ensure_local_transfer_daily_limit (sender payee_id : Z) (locked_sender : User)
    (amount : Z) : M St (Z * Z) :=
  let daily_limit := u_local_transfer_daily_limit locked_sender in
  used_today <- local_transfer_amount_used_today sender ;;
  if daily_limit <? used_today + amount then
    band <- lift (_amount_audit_band (of_cents amount)) ;;
    payee <- load_payee payee_id ;;
    _reject_local_transfer sender "This transfer would exceed your daily Local Transfer limit." 409
      [("reason", JStr "daily_limit_exceeded"); ("amount_band", JStr band)]
      (Some (py_account_number payee))
  else ret (used_today, daily_limit).

Definition reference_metadata (band reference : string) : list (string * jval) :=
  [("amount_band", JStr band); ("reference_present", JBool (nonempty reference));
   ("reference_length", JInt (Z.of_nat (slen reference)))].

Definition _audit_local_transfer_success (sender payee_id amount : Z) (reference txn_ref : string)
    : M St unit :=
  try_except
    (band <- lift (_amount_audit_band (of_cents amount)) ;;
     payee <- load_payee payee_id ;;
     audit_outbound_transfer sender "success" (reference_metadata band reference)
       (Some txn_ref) (Some (py_account_number payee)))
    is_audit_write_error
    (λ e, _ <- rollback ;; raise e).

(** Signs a completed transfer row. *)
Definition signed_transaction (txn_ref : string) (sender_id recipient_id : Z)
    (payee_id : option Z) (amount : Z) (reference transaction_type : string) (created_at : Z)
    : res Transaction :=
  rbind (sign_transaction_integrity txn_ref sender_id recipient_id payee_id amount reference
           "completed" transaction_type created_at)
    (λ '(txn_hash, key_id, algorithm, version),
       Ok (mkTransaction txn_ref txn_hash (Some key_id) (Some algorithm) (Some version)
             sender_id recipient_id payee_id amount reference "completed" transaction_type
             created_at)).

(** Signs the row, moves the money and adds the row. *)
Definition post_transfer (sender_id recipient_id : Z) (payee_id : option Z) (amount : Z)
    (reference transaction_type : string) : M St (string * Z) :=
  txn_ref <- fresh uuid4 ;;
  txn_created_at <- now_utc ;;
  txn <- lift (signed_transaction txn_ref sender_id recipient_id payee_id amount reference
                 transaction_type txn_created_at) ;;
  _ <- db_write (adjust_balance sender_id (- amount)) ;;
  _ <- db_write (adjust_balance recipient_id amount) ;;
  _ <- db_write (add_transaction txn) ;;
  ret (txn_ref, txn_created_at).

Definition notify_local_transfer (sender recipient_id payee_id amount : Z)
    (reference txn_ref : string) (txn_created_at used_today daily_limit : Z) : M St unit :=
  _ <- safe_send_notification
    (payee <- load_payee payee_id ;;
     sender_row <- load_user sender ;;
     send_transfer_notification sender "withdrawal" "success" LOCAL_TRANSFER_CHANNEL
       (mkDetails (Some amount) (Some txn_ref) (Some (py_recipient_name payee))
          (u_account_number sender_row) (Some (py_account_number payee)) None (Some reference)
          (Some txn_created_at))) ;;
  _ <- safe_send_notification
    (sender_row <- load_user sender ;;
     recipient <- load_user recipient_id ;;
     send_transfer_notification recipient_id "deposit" "success" LOCAL_TRANSFER_CHANNEL
       (mkDetails (Some amount) (Some txn_ref)
          (Some (if nonempty (u_full_name sender_row) then u_full_name sender_row
                 else u_username sender_row))
          (u_account_number recipient) None None None (Some txn_created_at))) ;;
  safe_send_notification
    (maybe_send_daily_limit_warning sender LOCAL_TRANSFER_CHANNEL used_today amount daily_limit).

Definition execute_local_transfer (sender payee_id : Z) (confirmation_token : string)
    : M St string :=
  _ <- ensure_outbound_transfer_allowed sender ;;
  recipient_id <- _local_transfer_recipient sender payee_id ;;
  now <- now_utc ;;
  _ <- _ensure_payee_cooldown_elapsed sender payee_id now ;;
  let* (pid, pending_tfr) := _load_pending_local_transfer sender payee_id confirmation_token now in
  _ <- update_pending pid (set_pt_consumed_at (Some now)) ;;
  let reference := str_take 128 (pt_reference pending_tfr) in
  amount <- _local_transfer_amount sender pending_tfr ;;
  let* (locked_sender, _) := _lock_transfer_participants sender recipient_id in
  _ <- _ensure_local_transfer_balance sender payee_id locked_sender amount ;;
  let* (used_today, daily_limit) :=
    _ensure_local_transfer_daily_limit sender payee_id locked_sender amount in
  let* (txn_ref, txn_created_at) :=
    post_transfer sender recipient_id (Some payee_id) amount reference "local_transfer" in
  _ <- update_pending pid (set_pt_consumed_transaction_ref (Some txn_ref)) ;;
  _ <- _audit_local_transfer_success sender payee_id amount reference txn_ref ;;
  _ <- commit ;;
  _ <- notify_local_transfer sender recipient_id payee_id amount reference txn_ref txn_created_at
         used_today daily_limit ;;
  ret txn_ref.

(** ** PayUp *)

Definition _has_recent_payup_sensitive_event (user_id cooldown_seconds : Z) : M St bool :=
  now <- now_utc ;;
  let cutoff := now - cooldown_seconds * US_SECOND in
  db_get (λ d, existsb (is_payup_sensitive_event user_id cutoff) (security_audit_events d)).

(** The [try] block that gathers the inputs. *)
Definition gather_risk_inputs (user_id : Z) (user : User) (amount : pydec)
    (used_today : option Z) : M St RiskInputs :=
  normalized_amount <- lift (quantize_cents amount) ;;
  daily_used <- match used_today with
                | Some u => ret u
                | None => payup_amount_used_today user_id
                end ;;
  quick_transfer_cap <- lift (config_decimal "PAYUP_QUICK_TRANSFER_CAP") ;;
  quick_daily_cap <- lift (config_decimal "PAYUP_QUICK_DAILY_CAP") ;;
  session_max_age <- lift (config_int "PAYUP_QUICK_SESSION_MAX_AGE_SECONDS") ;;
  sensitive_event_cooldown <- lift (config_int "PAYUP_SENSITIVE_EVENT_COOLDOWN_SECONDS") ;;
  session_age <- authenticated_session_age_seconds ;;
  session_stable <- authenticated_session_risk_is_stable ;;
  recent <- _has_recent_payup_sensitive_event user_id sensitive_event_cooldown ;;
  ret (mkInputs normalized_amount daily_used (u_payup_daily_limit user) quick_transfer_cap
         quick_daily_cap session_max_age session_age session_stable recent
         (u_payup_enabled user) (has_enrolled_mfa_method user)).

Definition evaluate_payup_risk (user_id : Z) (amount : pydec) (used_today : option Z)
    : M St PayupRiskDecision :=
  user <- load_user user_id ;;
  inputs <- try_except
    (i <- gather_risk_inputs user_id user amount used_today ;; ret (Some i))
    is_risk_state_error (λ _, ret None) ;;
  match inputs with
  | None => ret (block "risk_state_unavailable")
  | Some i => lift (decide_payup_risk i)
  end.

Definition payup_requires_step_up (user_id : Z) (amount : pydec) : M St bool :=
  d <- evaluate_payup_risk user_id amount None ;; ret (requires_step_up d).

(** The rejection sequence every PayUp check uses. *)
Definition reject_payup {A} (sender : Z) (metadata : list (string * jval)) (message : string)
    (status_code : Z) : M St A :=
  _ <- audit_outbound_transfer sender "failure" metadata None None ;;
  _ <- commit ;;
  raise (AuthError message status_code None).

Definition payup_reason (reason : string) : list (string * jval) :=
  [("reason", JStr reason); ("transfer_channel", JStr "payup")].

Definition _load_and_lock_payup_pending_transfer (sender : Z) (confirmation_token : string)
    : M St (Z * PayupPendingTransfer) :=
  verifier <- lift (payup_transfer_token_verifier confirmation_token) ;;
  found <- db_query (λ d,
    one_or_none (consumable pp_token pp_user_id pp_consumed_at verifier sender)
      (payup_pending_transfers d)) ;;
  match found with
  | None => reject_payup sender (payup_reason "confirmation_token_not_found")
              _TRANSFER_CONFIRMATION_EXPIRED_MESSAGE 409
  | Some (pid, p) =>
      now <- now_utc ;;
      if pp_expires_at p <? now then
        reject_payup sender (payup_reason "confirmation_token_expired")
          _TRANSFER_CONFIRMATION_EXPIRED_MESSAGE 409
      else
        _ <- update_payup_pending pid (set_pp_consumed_at (Some now)) ;;
        ret (pid, p)
  end.

Definition payup_band_reason (reason band : string) : list (string * jval) :=
  [("reason", JStr reason); ("amount_band", JStr band); ("transfer_channel", JStr "payup")].

Definition _validate_payup_amount (sender : Z) (p : PayupPendingTransfer) : M St Z :=
  let amount := normalize (DFin (pp_amount p) (-5)) in
  if negb (is_finite amount) || (exponent amount <? -2) then
    band <- lift (_amount_audit_band amount) ;;
    reject_payup sender (payup_band_reason "invalid_amount_precision" band)
      "Transfer amount must have at most two decimal places." 400
  else
    amount <- lift (quantize_cents amount) ;;
    if (cents amount <? MIN_TRANSACTION_AMOUNT) || (MAX_TRANSACTION_AMOUNT <? cents amount) then
      band <- lift (_amount_audit_band amount) ;;
      reject_payup sender (payup_band_reason "amount_out_of_range" band)
        "Transfer amount is out of the allowed range." 400
    else ret (cents amount).

Definition _validate_payup_recipient (sender recipient_user_id : Z) : M St Z :=
  found <- db_get (λ d, users d !! recipient_user_id) ;;
  match found with
  | None => reject_payup sender (payup_reason "recipient_not_found")
              "Recipient account not found." 400
  | Some recipient_user =>
      if recipient_user_id =? sender then
        reject_payup sender (payup_reason "self_transfer") "Cannot transfer to yourself." 400
      else if negb (bool_decide (u_account_status recipient_user = "active"))
              || u_is_frozen recipient_user
              || negb (nonempty (or_empty (u_phone_number recipient_user))) then
        reject_payup sender (payup_reason "recipient_account_unavailable")
          "Recipient account is not available to receive transfers." 400
      else ret recipient_user_id
  end.

Definition payup_risk_gate (sender amount : Z) (risk : PayupRiskDecision) (authorized : bool)
    : M St unit :=
  if blocked risk then
    band <- lift (_amount_audit_band (of_cents amount)) ;;
    reject_payup sender
      [("reason", JStr (hd "" (reasons risk))); ("risk_reasons", JList (JStr <$> reasons risk));
       ("amount_band", JStr band); ("transfer_channel", JStr "payup")]
      "PayUp could not authorize this transfer." 403
  else if requires_step_up risk && negb authorized then
    reject_payup sender
      [("reason", JStr "payup_step_up_required"); ("risk_reasons", JList (JStr <$> reasons risk));
       ("transfer_channel", JStr "payup")]
      "Authenticator code is required for this transfer amount." 403
  else ret tt.

Definition audit_payup_success (sender amount : Z) (reference txn_ref : string)
    (risk : PayupRiskDecision) : M St unit :=
  try_except
    (band <- lift (_amount_audit_band (of_cents amount)) ;;
     audit_outbound_transfer sender "success"
       (reference_metadata band reference
        ++ [("transfer_channel", JStr "payup"); ("step_up_used", JBool (requires_step_up risk));
            ("risk_reasons", JList (JStr <$> reasons risk))])%list
       (Some txn_ref) None)
    is_audit_write_error
    (λ e, _ <- rollback ;; raise e).

Definition notify_payup_transfer (sender recipient_id amount : Z) (reference txn_ref : string)
    (txn_created_at used_today daily_limit : Z) : M St unit :=
  _ <- safe_send_notification
    (recipient <- load_user recipient_id ;;
     sender_row <- load_user sender ;;
     send_transfer_notification sender "withdrawal" "success" PAYUP_CHANNEL
       (mkDetails (Some amount) (Some txn_ref) (Some (_payup_notification_label recipient))
          (u_account_number sender_row) None None (Some reference) (Some txn_created_at))) ;;
  _ <- safe_send_notification
    (sender_row <- load_user sender ;;
     recipient <- load_user recipient_id ;;
     send_transfer_notification recipient_id "deposit" "success" PAYUP_CHANNEL
       (mkDetails (Some amount) (Some txn_ref) (Some (_payup_notification_label sender_row))
          None None (u_phone_number recipient) None (Some txn_created_at))) ;;
  safe_send_notification
    (maybe_send_daily_limit_warning sender PAYUP_CHANNEL used_today amount daily_limit).

Definition execute_payup_transfer (sender : Z) (confirmation_token : string) (authorized : bool)
    : M St string :=
  _ <- ensure_outbound_transfer_allowed sender ;;
  sender_row <- load_user sender ;;
  _ <- (if negb (_payup_sender_has_nickname sender_row) then
          reject_payup sender (payup_reason "payup_nickname_required")
            "Set your PayUp display nickname before sending by phone number." 403
        else ret tt) ;;
  let* (pid, pending_tfr) := _load_and_lock_payup_pending_transfer sender confirmation_token in
  amount <- _validate_payup_amount sender pending_tfr ;;
  let reference := str_take 128 (pp_reference pending_tfr) in
  recipient_id <- _validate_payup_recipient sender (pp_recipient_user_id pending_tfr) ;;
  let* (locked_sender, _) := _lock_transfer_participants sender recipient_id in
  used_today <- payup_amount_used_today sender ;;
  let daily_limit := u_payup_daily_limit locked_sender in
  risk <- evaluate_payup_risk sender (of_cents amount) (Some used_today) ;;
  _ <- payup_risk_gate sender amount risk authorized ;;
  _ <- (if u_balance locked_sender <? amount then
          band <- lift (_amount_audit_band (of_cents amount)) ;;
          reject_payup sender (payup_band_reason "insufficient_funds" band)
            "Insufficient funds." 400
        else ret tt) ;;
  let* (txn_ref, txn_created_at) :=
    post_transfer sender recipient_id None amount reference "payup" in
  _ <- update_payup_pending pid (set_pp_consumed_transaction_ref (Some txn_ref)) ;;
  _ <- audit_payup_success sender amount reference txn_ref risk ;;
  _ <- commit ;;
  _ <- notify_payup_transfer sender recipient_id amount reference txn_ref txn_created_at
         used_today daily_limit ;;
  ret txn_ref.

End Transfers.
End Transfers.
