(* ===== verification/TransferSafety.v ===== *)
(** * Transfers refine the abstract ledger

    Whatever the checks, the audit writer, the mailer and the database do, a
    transfer request either leaves the durable books alone or performs exactly
    one [step_transfer] of the ledger specification. *)

From S2P Require Import Prelude PyStr PyDecimal TimeModel Schema Runtime Canonical Integrity.
From S2P Require Import AuditLog SessionRisk BankingPolicy Notifications LedgerSpec Transfers.
From S2P Require Import Sample.
Open Scope string_scope.
Open Scope Z_scope.

Module TransferSafety.
Import Audit Ledger SessionRisk Policy Notifications LedgerSpec Transfers.

(** The durable books are [B], the session's view of them [B']. *)
Notation books_are B B' := (on_db (λ c w, books c = B ∧ books w = B')).
Notation settled B := (books_are B B).
Definition durable (B : Books) (s : St) : Prop := books (committed s) = B.

#[export] Instance books_blind B : audit_blind (λ c w, books c = B ∧ books w = B).
Proof. by split; intros * [? ?]. Qed.

Lemma settled_durable B s : settled B s → durable B s.
Proof. by intros [? ?]. Qed.

Section Prefix.
Context `{Env} (B : Books).

Lemma pres_update_pending B' pid f : preserves (books_are B B') (update_pending pid f).
Proof. by apply pres_db_write. Qed.
Lemma pres_update_payup_pending B' pid f :
  preserves (books_are B B') (update_payup_pending pid f).
Proof. by apply pres_db_write. Qed.

Lemma pres_reject_local {A} s m c md p :
  preserves (settled B) (_reject_local_transfer (A:=A) s m c md p).
Proof. unfold _reject_local_transfer, audit_outbound_transfer. solve_pres. Qed.
Lemma pres_reject_payup {A} s md m c :
  preserves (settled B) (reject_payup (A:=A) s md m c).
Proof. unfold reject_payup, audit_outbound_transfer. solve_pres. Qed.
Hint Resolve pres_reject_local pres_reject_payup pres_update_pending pres_update_payup_pending
  : pres.

Lemma pres_recipient s p : preserves (settled B) (_local_transfer_recipient s p).
Proof. unfold _local_transfer_recipient. solve_pres. Qed.
Lemma pres_cooldown s p n : preserves (settled B) (_ensure_payee_cooldown_elapsed s p n).
Proof. unfold _ensure_payee_cooldown_elapsed. solve_pres. Qed.
Lemma pres_load_pending s p t n : preserves (settled B) (_load_pending_local_transfer s p t n).
Proof. unfold _load_pending_local_transfer. solve_pres. Qed.
Lemma pres_local_amount s p : preserves (settled B) (_local_transfer_amount s p).
Proof. unfold _local_transfer_amount. solve_pres. Qed.
Lemma pres_local_balance s p l a : preserves (settled B) (_ensure_local_transfer_balance s p l a).
Proof. unfold _ensure_local_transfer_balance. solve_pres. Qed.
Lemma pres_local_limit s p l a :
  preserves (settled B) (_ensure_local_transfer_daily_limit s p l a).
Proof.
  unfold _ensure_local_transfer_daily_limit, local_transfer_amount_used_today. solve_pres.
Qed.
Lemma pres_lock a b : preserves (settled B) (_lock_transfer_participants a b).
Proof. apply pres_db_query. Qed.
Lemma pres_outbound_allowed u : preserves (settled B) (ensure_outbound_transfer_allowed u).
Proof. unfold ensure_outbound_transfer_allowed. solve_pres. Qed.
Lemma pres_load_payup s t : preserves (settled B) (_load_and_lock_payup_pending_transfer s t).
Proof. unfold _load_and_lock_payup_pending_transfer. solve_pres. Qed.
Lemma pres_payup_amount s p : preserves (settled B) (_validate_payup_amount s p).
Proof. unfold _validate_payup_amount. solve_pres. Qed.
Lemma pres_payup_recipient s r : preserves (settled B) (_validate_payup_recipient s r).
Proof. unfold _validate_payup_recipient. solve_pres. Qed.
Lemma pres_payup_used u : preserves (settled B) (payup_amount_used_today u).
Proof. unfold payup_amount_used_today. solve_pres. Qed.
Hint Resolve pres_payup_used : pres.
Lemma pres_evaluate u a x : preserves (settled B) (evaluate_payup_risk u a x).
Proof.
  unfold evaluate_payup_risk, gather_risk_inputs, _has_recent_payup_sensitive_event. solve_pres.
Qed.
Lemma pres_gate s a r b : preserves (settled B) (payup_risk_gate s a r b).
Proof. unfold payup_risk_gate. solve_pres. Qed.
Lemma pres_notify_local a b c d e f g h i :
  preserves (settled B) (notify_local_transfer a b c d e f g h i).
Proof. unfold notify_local_transfer. solve_pres; apply pres_safe; solve_pres. Qed.
Lemma pres_notify_payup a b c d e f g h :
  preserves (settled B) (notify_payup_transfer a b c d e f g h).
Proof. unfold notify_payup_transfer. solve_pres; apply pres_safe; solve_pres. Qed.

(** ** What the checks establish *)

Lemma reject_local_never {A} s m c md p st (a : A) st' :
  _reject_local_transfer s m c md p st ≠ (Ok a, st').
Proof. intros E. unfold _reject_local_transfer in E. by repeat inv_bind E. Qed.
Lemma reject_payup_never {A} s md m c st (a : A) st' : reject_payup s md m c st ≠ (Ok a, st').
Proof. intros E. unfold reject_payup in E. by repeat inv_bind E. Qed.

(** Discharges the branches in which a rejection would have returned. *)
Ltac no_reject :=
  match goal with
  | E : _reject_local_transfer _ _ _ _ _ _ = (Ok _, _) |- _ => by apply reject_local_never in E
  | E : reject_payup _ _ _ _ _ = (Ok _, _) |- _ => by apply reject_payup_never in E
  | E : bind _ _ _ = (Ok _, _) |- _ => inv_bind E; no_reject
  end.

Lemma recipient_not_sender s p :
  returns (settled B) (_local_transfer_recipient s p) (λ r _, r ≠ s).
Proof.
  intros st r st' _ E. unfold _local_transfer_recipient in E. repeat inv_bind E.
  repeat case_match; try no_reject. unfold ret in E. simplify_eq. by apply Z.eqb_neq.
Qed.

Lemma local_amount_range s p :
  returns (settled B) (_local_transfer_amount s p)
    (λ a _, MIN_TRANSACTION_AMOUNT ≤ a ≤ MAX_TRANSACTION_AMOUNT).
Proof.
  intros st a st' _ E. unfold _local_transfer_amount in E. case_match; [no_reject|].
  inv_bind E. case_match eqn:Er; [no_reject|]. unfold ret in E. simplify_eq.
  apply orb_false_iff in Er as [H1%Z.ltb_ge H2%Z.ltb_ge]. lia.
Qed.

Lemma payup_amount_range s p :
  returns (settled B) (_validate_payup_amount s p)
    (λ a _, MIN_TRANSACTION_AMOUNT ≤ a ≤ MAX_TRANSACTION_AMOUNT).
Proof.
  intros st a st' _ E. unfold _validate_payup_amount in E. case_match; [no_reject|].
  inv_bind E. case_match eqn:Er; [no_reject|]. unfold ret in E. simplify_eq.
  apply orb_false_iff in Er as [H1%Z.ltb_ge H2%Z.ltb_ge]. lia.
Qed.

Lemma payup_recipient_not_sender s r :
  returns (settled B) (_validate_payup_recipient s r) (λ r' _, r' ≠ s).
Proof.
  intros st r' st' _ E. unfold _validate_payup_recipient in E. inv_bind E.
  repeat case_match; try no_reject. unfold ret in E. simplify_eq. by apply Z.eqb_neq.
Qed.

Lemma lock_reads_books a b :
  returns (settled B) (_lock_transfer_participants a b)
    (λ rows _, bk_balances B !! a = Some (u_balance rows.1) ∧ is_Some (bk_balances B !! b)
       ∧ bk_limits B !! a = Some (mkLimits (u_local_transfer_daily_limit rows.1)
                                    (u_payup_daily_limit rows.1))).
Proof.
  intros st [ua ub] st' [_ HB] E. unfold _lock_transfer_participants, db_query in E.
  subst B. simpl. rewrite !lookup_fmap.
  destruct (users (working st) !! a), (users (working st) !! b); simplify_eq. simpl. eauto.
Qed.

(** Usage since the midnight of a clock reading, within the limit. *)
Definition usage_checked (ty : string) (s amount limit : Z) (st : St) : Prop :=
  ∃ t, spent_since ty s (sgt_day_start_utc t) (bk_entries B) + amount ≤ limit ∧ not_before t st.

Lemma local_limit_triple s p l a :
  triple (settled B) (_ensure_local_transfer_daily_limit s p l a)
    (λ _ st, settled B st ∧ usage_checked "local_transfer" s a (u_local_transfer_daily_limit l) st)
    (λ _, durable B).
Proof.
  intros st Hst. pose proof (pres_local_limit s p l a st Hst) as Hp.
  destruct (_ensure_local_transfer_daily_limit s p l a st) as [[[u d]|e] st'] eqn:E;
    [|by destruct Hp].
  split; [done|]. unfold _ensure_local_transfer_daily_limit in E.
  unfold local_transfer_amount_used_today in E. unfold bind at 1 in E.
  unfold bind at 1, now_utc, db_get, gets in E. cbn -[used_since sgt_day_start_utc] in E.
  case_match eqn:Hle; [no_reject|]. unfold ret in E. simplify_eq.
  apply Z.ltb_ge in Hle. eexists. split; [|apply Z.le_refl].
  destruct Hst as [_ <-]. exact Hle.
Qed.

Lemma payup_used_triple s :
  triple (settled B) (payup_amount_used_today s)
    (λ used st, settled B st ∧ ∃ t, used = spent_since "payup" s (sgt_day_start_utc t) (bk_entries B)
       ∧ not_before t st)
    (λ _, durable B).
Proof.
  intros st Hst. unfold payup_amount_used_today, bind, now_utc, db_get, gets.
  cbn -[used_since sgt_day_start_utc]. split; [done|]. eexists. split; [|apply Z.le_refl].
  by destruct Hst as [_ <-].
Qed.

Lemma blocked_block r : blocked (block r) = true.
Proof. done. Qed.

(** A decision that does not block has the projected usage within the limit. *)
Lemma decide_within_limit i d :
  decide_payup_risk i = Ok d → blocked d = false →
  ri_daily_used i + cents (ri_amount i) ≤ ri_daily_limit i.
Proof.
  unfold decide_payup_risk, rbind. intros E Hb.
  assert (∀ r, d ≠ block r) as Hn by (intros r ->; by rewrite blocked_block in Hb).
  repeat case_match; simplify_eq; try (by exfalso; eapply Hn; eauto); by apply Z.ltb_ge.
Qed.

Lemma quantize_of_cents a c : quantize_cents (of_cents a) = Ok c → c = of_cents a.
Proof.
  unfold of_cents. simpl. destruct (Z.eqb_spec a 0) as [->|]; [by intros [= <-]|].
  change (-2 + 2) with 0. rewrite Z.pow_0_r, Z.mul_1_r. repeat case_match; by intros; simplify_eq.
Qed.

Lemma evaluate_within_limit u a used st d st' l :
  settled B st → bk_limits B !! u = Some l →
  evaluate_payup_risk u (of_cents a) (Some used) st = (Ok d, st') →
  blocked d = false → used + a ≤ lim_payup l.
Proof.
  intros [_ HB] Hl E Hb. unfold evaluate_payup_risk in E. inv_bind E.
  unfold load_user, db_query in E0. subst B. unfold books in Hl. simpl in Hl.
  rewrite lookup_fmap in Hl. destruct (users (working st) !! u) as [row|]; simplify_eq/=.
  inv_bind E. unfold try_except in E0.
  match type of E0 with context [match ?c with _ => _ end] => destruct c as [[o|e] st2] eqn:Eg end.
  2:{ destruct (is_risk_state_error e); [|done]. unfold ret in E0. simplify_eq. unfold ret in E. by simplify_eq. }
  simplify_eq. inv_bind Eg. unfold ret in Eg. simplify_eq. unfold lift in E. simplify_eq.
  match goal with H : decide_payup_risk ?i = _ |- _ => apply decide_within_limit in H; [|done] end.
  unfold gather_risk_inputs in E0. repeat inv_bind E0. unfold ret, lift in *. simplify_eq.
  match goal with H : quantize_cents _ = Ok _ |- _ => apply quantize_of_cents in H; subst end.
  done.
Qed.

Lemma nb_evaluate t u a x : preserves (not_before t) (evaluate_payup_risk u a x).
Proof.
  unfold evaluate_payup_risk, gather_risk_inputs, _has_recent_payup_sensitive_event, load_user,
    authenticated_session_age_seconds, authenticated_session_risk_is_stable, is_signed_in, _now,
    _session_risk_context_changes, payup_amount_used_today. solve_pres.
Qed.

Lemma gate_passes s a risk auth st x st' :
  payup_risk_gate s a risk auth st = (Ok x, st') → st' = st ∧ blocked risk = false.
Proof.
  unfold payup_risk_gate. intros E. repeat case_match; try no_reject. by unfold ret in E; simplify_eq.
Qed.

Lemma payup_balance_passes s md m c l a st x st' :
  (if u_balance l <? a then
     band <- lift (_amount_audit_band (of_cents a)) ;;
     reject_payup (A:=unit) s (md band) m c else ret tt) st = (Ok x, st') →
  st' = st ∧ a ≤ u_balance l.
Proof.
  intros E. case_match eqn:El; [no_reject|]. unfold ret in E. simplify_eq.
  by split; [|apply Z.ltb_ge].
Qed.

Lemma balance_covers s p l a :
  returns (settled B) (_ensure_local_transfer_balance s p l a) (λ _ _, a ≤ u_balance l).
Proof.
  intros st x st' _ E. unfold _ensure_local_transfer_balance in E.
  case_match eqn:El; [no_reject|]. by apply Z.ltb_ge.
Qed.

(** ** Posting *)

(** The ledger entry [t] for [amount] from [s] to [r] has been posted, not
    before [t0]. *)
Record posted (t0 : Z) (B' : Books) (s r amount : Z) (payee : option Z) (ty ref : string)
    (t : Transaction) : Prop := {
  posted_books : B' = move_money B s r amount (next_id (bk_entries B)) t;
  posted_entry : transfer_entry s r amount t;
  posted_ref : tx_transaction_ref t = ref;
  posted_payee : tx_payee_id t = payee;
  posted_type : tx_transaction_type t = ty;
  posted_time : t0 ≤ tx_created_at t;
  posted_valid : transaction_integrity_status t = true
}.

Lemma books_adjust u delta d :
  books (adjust_balance u delta d)
  = mkBooks (alter (λ x, x + delta) u (bk_balances (books d))) (bk_limits (books d))
      (bk_entries (books d)) (bk_registration (books d)) (bk_topups (books d)).
Proof.
  unfold books, adjust_balance. simpl. f_equal; apply map_eq; intros i;
    rewrite !lookup_fmap, ?lookup_alter, ?lookup_fmap; case_decide; try done;
    subst i; by destruct (users d !! u).
Qed.

Lemma signed_transaction_spec ref s r p a rf ty c t :
  str_in ty ["local_transfer"; "payup"] = true →
  signed_transaction ref s r p a rf ty c = Ok t →
  transfer_entry s r a t ∧ tx_transaction_ref t = ref ∧ tx_payee_id t = p
  ∧ tx_transaction_type t = ty ∧ tx_created_at t = c ∧ transaction_integrity_status t = true.
Proof.
  intros Hty. unfold signed_transaction.
  destruct (sign_transaction_integrity _ _ _ _ _ _ _ _ _) as [[[[h k] al] v]|] eqn:E; [|done].
  simpl. intros [= <-]. apply sign_verifies in E.
  split; [by split | done].
Qed.

Lemma post_transfer_triple t0 s r p a rf ty :
  str_in ty ["local_transfer"; "payup"] = true →
  triple (λ st, settled B st ∧ not_before t0 st) (post_transfer s r p a rf ty)
    (λ out st, ∃ B' t, posted t0 B' s r a p ty out.1 t ∧ books_are B B' st)
    (λ _, durable B).
Proof.
  intros Hty st [[Hc Hw] Ht0].
  unfold post_transfer, fresh, now_utc, lift, db_write, modify, bind, ret.
  cbn -[signed_transaction adjust_balance add_transaction].
  destruct (signed_transaction _ _ _ _ _ _ _ _) as [t|e] eqn:E; [|done].
  apply signed_transaction_spec in E as (He & Hr & Hp & Ht & Hcr & Hv); [|done].
  cbn -[adjust_balance add_transaction]. eexists _, t. split.
  { split; try done. rewrite Hcr. unfold not_before in Ht0. lia. }
  split; [done|]. cbn -[adjust_balance add_transaction].
  assert (∀ d, books (add_transaction t d) = mkBooks (bk_balances (books d)) (bk_limits (books d))
    (<[next_id (bk_entries (books d)) := t]> (bk_entries (books d)))
    (bk_registration (books d)) (bk_topups (books d))) as -> by done.
  rewrite !books_adjust. unfold move_money. rewrite Hw. simpl. f_equal.
Qed.

(** A required success audit commits the pending books, or they are lost. *)
Definition recorded (B' : Books) (st : St) : Prop :=
  settled B' st ∧ db_ok (working st) = true.

Lemma commit_triple B' :
  triple (books_are B B') commit (λ _, recorded B') (λ _, durable B).
Proof.
  intros st [Hc Hw]. unfold commit. destruct (db_ok (working st)) eqn:E; [|done].
  by repeat split.
Qed.

Lemma audit_required_pending B' ty o u md :
  triple (books_are B B') (audit_event_required ty o u md)
    (λ _, books_are B B') (λ _, books_are B B').
Proof. apply triple_pres, pres_audit_event_required. by intros e c w [? ?]. Qed.

Lemma pending_durable B' e s : books_are B B' s → (λ _ : exn, durable B) e s.
Proof. by intros [? ?]. Qed.
Hint Resolve pending_durable : pres.

Lemma success_audit_triple B' u md ref acc :
  triple (books_are B B') (audit_outbound_transfer u "success" md ref acc)
    (λ _, recorded B') (λ _, durable B).
Proof.
  unfold audit_outbound_transfer, audit_banking_action.
  change (false || _requires_durable_audit "outbound_transfer" "success") with true.
  do 3 (apply triple_step; [apply pres_lift | by intros ? ? [? ?] | intros ?]).
  eapply triple_bind; [|intros; apply commit_triple].
  eapply triple_conseq; [apply audit_required_pending|done..|by intros ? ? [? ?]].
Qed.

Lemma rollback_raise_durable {A} (e : exn) (Q : A → St → Prop) :
  triple (durable B) (_ <- rollback ;; raise e) Q (λ _, durable B).
Proof. by intros st Hst. Qed.

Lemma local_success_triple B' s p a rf ref :
  triple (books_are B B') (_audit_local_transfer_success s p a rf ref)
    (λ _, recorded B') (λ _, durable B).
Proof.
  eapply triple_try; [|intros; apply rollback_raise_durable|done].
  do 2 (apply triple_step; [eauto using pres_lift, pres_db_query | by intros ? ? [? ?] | intros ?]).
  apply success_audit_triple.
Qed.

Lemma payup_success_triple B' s a rf ref risk :
  triple (books_are B B') (audit_payup_success s a rf ref risk)
    (λ _, recorded B') (λ _, durable B).
Proof.
  eapply triple_try; [|intros; apply rollback_raise_durable|done].
  apply triple_step; [apply pres_lift | by intros ? ? [? ?] | intros ?].
  apply success_audit_triple.
Qed.
End Prefix.

(** After the ledger commit boundary nothing can fail or undo the transfer. *)
Section Suffix.
Context `{Env} (B : Books).

Lemma recommit (B' : Books) :
  triple (recorded B') commit (λ _, recorded B') (λ _, durable B).
Proof. intros st [Hs Hok]. unfold commit. rewrite Hok. by destruct Hs. Qed.

Lemma notify_local_returns a b c d e f g h i st :
  ∃ st', notify_local_transfer a b c d e f g h i st = (Ok tt, st').
Proof.
  unfold notify_local_transfer.
  do 2 (match goal with |- context [bind (safe_send_notification ?c) _ ?s] =>
    destruct (safe_send_returns c s) as [? E]; rewrite (bind_Ok _ _ _ _ _ E); clear E end).
  apply safe_send_returns.
Qed.

Lemma notify_payup_returns a b c d e f g h st :
  ∃ st', notify_payup_transfer a b c d e f g h st = (Ok tt, st').
Proof.
  unfold notify_payup_transfer.
  do 2 (match goal with |- context [bind (safe_send_notification ?c) _ ?s] =>
    destruct (safe_send_returns c s) as [? E]; rewrite (bind_Ok _ _ _ _ _ E); clear E end).
  apply safe_send_returns.
Qed.

Lemma notify_triple B' (c : M St unit) :
  (∀ st, ∃ st', c st = (Ok tt, st')) → preserves (settled B') c →
  triple (settled B') c (λ _, settled B') (λ _, durable B).
Proof.
  intros Hok Hp st Hst. specialize (Hp st Hst). destruct (Hok st) as [st' E].
  by rewrite E in *.
Qed.

(** Commit again, notify, and return the reference. *)
Lemma finish_triple B' (c : M St unit) (ref : string) :
  (∀ st, ∃ st', c st = (Ok tt, st')) → preserves (settled B') c →
  triple (recorded B') (_ <- commit ;; _ <- c ;; ret ref)
    (λ r st, r = ref ∧ settled B' st) (λ _, durable B).
Proof.
  intros Hok Hp. eapply triple_bind; [apply recommit|intros ?].
  eapply triple_bind with (R := λ _, settled B'); [|intros ?; by apply triple_ret].
  eapply triple_conseq; [by apply notify_triple|by intros ? [? _]|done..].
Qed.
End Suffix.

(** ** The transfer operations *)

(** From books [B] the request posted one transfer and reached [B']. *)
Definition transferred `{Env} (B B' : Books) (s : Z) (payee : option Z) (ty ref : string) : Prop :=
  ∃ r amount bal l t0 t, s ≠ r ∧ bk_balances B !! s = Some bal ∧ is_Some (bk_balances B !! r)
    ∧ bk_limits B !! s = Some l
    ∧ MIN_TRANSACTION_AMOUNT ≤ amount ≤ MAX_TRANSACTION_AMOUNT ∧ amount ≤ bal
    ∧ spent_since ty s (sgt_day_start_utc t0) (bk_entries B) + amount ≤ limit_for ty l
    ∧ posted B t0 B' s r amount payee ty ref t.

Lemma transferred_step `{Env} B B' s payee ty ref :
  reconciled B → transferred B B' s payee ty ref → ledger_step B B'.
Proof.
  intros R (r & a & bal & l & t0 & t & Hne & Hs & Hr & Hl & Ha & Hle & Hlim & [-> He _ _ Ht Ht0 _]).
  apply (step_transfer B s r a bal l); try done.
  - unfold MIN_TRANSACTION_AMOUNT in Ha. lia.
  - apply next_id_fresh.
  - rewrite Ht. pose proof (spent_since_mono ty s _ _ _ (rec_amounts B R)
      (day_start_mono _ _ Ht0)). lia.
Qed.

#[export] Hint Resolve pres_reject_local pres_reject_payup pres_update_pending
  pres_update_payup_pending pres_recipient pres_cooldown pres_load_pending pres_local_amount
  pres_local_balance pres_local_limit pres_lock pres_outbound_allowed pres_load_payup
  pres_payup_amount pres_payup_recipient pres_payup_used pres_evaluate pres_gate
  pres_notify_local pres_notify_payup : pres.

(** Runs one step of a transfer under [settled B]; the fact [H] is what the
    step's return value satisfies. *)
Ltac settled_step := apply triple_step; [solve_pres | by intros ? ? [? ?] | ].
Ltac settled_fact H :=
  eapply triple_step_fact; [solve_pres | apply H | by intros ? ? [? ?] | ].

Section Operations.
Context `{Env} (B : Books).

Lemma local_transfer_triple s p tok :
  triple (settled B) (execute_local_transfer s p tok)
    (λ ref st, ∃ B', transferred B B' s (Some p) "local_transfer" ref ∧ settled B' st)
    (λ _, durable B).
Proof.
  unfold execute_local_transfer.
  settled_step; intros _. settled_fact @recipient_not_sender; intros rid Hrid.
  settled_step; intros now. settled_step; intros _. settled_step; intros [pid pending].
  settled_step; intros _. settled_fact @local_amount_range; intros amount Ha.
  settled_fact @lock_reads_books; intros [ls lr] (Hs & Hr & Hl).
  settled_fact @balance_covers; intros ? Hle.
  eapply triple_bind; [apply local_limit_triple|intros [used limit]].
  intros st [Hst (t0 & Hlim & Hnb)]. generalize (conj Hst Hnb). clear Hst Hnb. revert st.
  eapply (triple_bind (λ st, settled B st ∧ not_before t0 st));
    [by apply post_transfer_triple|intros [ref created]].
  intros st (B' & t & Hp & Hst). revert st Hst.
  apply triple_step; [apply pres_update_pending|by intros ? ? [? ?]|intros ?].
  eapply triple_bind; [apply local_success_triple|intros ?].
  eapply triple_conseq; [apply (finish_triple B)|done| |done].
  - intros. apply notify_local_returns.
  - eauto with pres.
  - intros r st [-> Hst]. exists B'. split; [|done].
    by eexists rid, amount, (u_balance ls), _, t0, t.
Qed.

(** The checks of PayUp between reading the usage and posting. *)
Lemma payup_checks_triple {A} s amount ls used auth md m c (k : PayupRiskDecision → M St A) Q l t0 :
  bk_limits B !! s = Some l →
  (∀ risk, used + amount ≤ lim_payup l → amount ≤ u_balance ls →
   triple (λ st, settled B st ∧ not_before t0 st) (k risk) Q (λ _, durable B)) →
  ∀ risk_k, (∀ risk, risk_k risk = (
    _ <- payup_risk_gate s amount risk auth ;;
    _ <- (if u_balance ls <? amount then
            band <- lift (_amount_audit_band (of_cents amount)) ;;
            reject_payup (A:=unit) s (md band) m c
          else ret tt) ;; k risk)) →
  triple (λ st, settled B st ∧ not_before t0 st)
    (risk <- evaluate_payup_risk s (of_cents amount) (Some used) ;; risk_k risk) Q (λ _, durable B).
Proof.
  intros Hl Hk risk_k Hr. eapply triple_bind with (R := λ risk st,
    (settled B st ∧ not_before t0 st) ∧ (blocked risk = false → used + amount ≤ lim_payup l)).
  - intros st [Hst Hnb]. pose proof (pres_evaluate B s (of_cents amount) (Some used) st Hst) as Hp.
    pose proof (nb_evaluate t0 s (of_cents amount) (Some used) st Hnb) as Hn.
    destruct (evaluate_payup_risk _ _ _ st) as [[risk|e] st'] eqn:E; [|by destruct Hp].
    split; [done|]. by apply (evaluate_within_limit B s amount used st risk st').
  - intros risk. apply triple_pure. intros Hlim. rewrite Hr.
    eapply triple_check; [solve_pres|apply gate_passes|by intros ? ? [? ?]|intros ? Hb].
    eapply triple_check; [solve_pres|apply payup_balance_passes|by intros ? ? [? ?]|].
    intros ? Hle. exact (Hk risk (Hlim Hb) Hle).
Qed.

Lemma payup_transfer_triple s tok auth :
  triple (settled B) (execute_payup_transfer s tok auth)
    (λ ref st, ∃ B', transferred B B' s None "payup" ref ∧ settled B' st)
    (λ _, durable B).
Proof.
  unfold execute_payup_transfer.
  settled_step; intros _. settled_step; intros row. settled_step; intros _.
  settled_step; intros [pid pending]. settled_fact @payup_amount_range; intros amount Ha.
  settled_fact @payup_recipient_not_sender; intros rid Hrid.
  settled_fact @lock_reads_books; intros [ls lr] (Hs & Hr & Hl).
  eapply triple_bind; [apply payup_used_triple|intros used].
  intros st [Hst (t0 & -> & Hnb)]. generalize (conj Hst Hnb). clear Hst Hnb. revert st.
  set (used := spent_since _ _ _ _).
  eapply (payup_checks_triple s amount ls used auth); [exact Hl| |intros risk; reflexivity].
  intros risk Hlim Hle. eapply triple_bind; [by apply post_transfer_triple|intros [ref created]].
  intros st (B' & t & Hp & Hst). revert st Hst.
  apply triple_step; [apply pres_update_payup_pending|by intros ? ? [? ?]|intros ?].
  eapply triple_bind; [apply payup_success_triple|intros ?].
  eapply triple_conseq; [apply (finish_triple B)|done| |done].
  - intros. apply notify_payup_returns.
  - eauto with pres.
  - intros r st [-> Hst]. exists B'. split; [|done].
    by eexists rid, amount, (u_balance ls), _, t0, t.
Qed.
End Operations.

(** ** Properties *)

(** C3: a local transfer is atomic and refines the ledger.  Whatever the clock, the audit writer, the
    mailer and the checks do, [execute_local_transfer] either raises and leaves the durable books
    as they were, or returns the reference of exactly one posted entry: a distinct sender and
    recipient, an amount within the per-transfer bounds, covered by the balance and within the
    daily limit, signed with a verifying integrity hash, both balances moved by that amount, and
    everything committed. *)
Theorem local_transfer_atomic `{Env} B s p tok st :
  settled B st → reconciled B →
  match execute_local_transfer s p tok st with
  | (Ok ref, st') => ∃ B', transferred B B' s (Some p) "local_transfer" ref
                           ∧ ledger_step B B' ∧ settled B' st'
  | (Raise _, st') => durable B st'
  end.
Proof.
  intros Hst R. pose proof (local_transfer_triple B s p tok st Hst) as Ht.
  destruct (execute_local_transfer _ _ _ _) as [[ref|e] st']; [|done].
  destruct Ht as (B' & Htr & Hs). eauto using transferred_step.
Qed.

(** C4: a PayUp transfer is atomic and refines the ledger, as [local_transfer_atomic]: in
    particular a decision of the risk engine that does not block keeps the projected usage
    within the PayUp daily limit. *)
Theorem payup_transfer_atomic `{Env} B s tok authorized st :
  settled B st → reconciled B →
  match execute_payup_transfer s tok authorized st with
  | (Ok ref, st') => ∃ B', transferred B B' s None "payup" ref
                           ∧ ledger_step B B' ∧ settled B' st'
  | (Raise _, st') => durable B st'
  end.
Proof.
  intros Hst R. pose proof (payup_transfer_triple B s tok authorized st Hst) as Ht.
  destruct (execute_payup_transfer _ _ _ _) as [[ref|e] st']; [|done].
  destruct Ht as (B' & Htr & Hs). eauto using transferred_step.
Qed.

Lemma frozen_not_allowed `{Env} u row action label st :
  users (working st) !! u = Some row →
  u_is_frozen row || bool_decide (is_Some (u_security_locked_at row)) = true →
  is_ok (_ensure_banking_action_allowed u action label st).1 = false.
Proof.
  intros Hu Hf. unfold _ensure_banking_action_allowed, load_user, db_query.
  unfold bind at 1. rewrite Hu. unfold try_except, lift, ensure_account_not_frozen. rewrite Hf.
  cbn -[audit_banking_action]. unfold bind.
  repeat (case_match; simplify_eq/=; try done).
Qed.

Lemma bind_fails {S A B} (c : M S A) (k : A → M S B) s :
  is_ok (c s).1 = false → is_ok (bind c k s).1 = false.
Proof. unfold bind. by destruct (c s) as [[a|e] s1]. Qed.

(** A frozen or security-locked account sends nothing.  Both transfer
    operations raise for it, and the durable books stay as they were. *)
Theorem frozen_account_cannot_send `{Env} B s row p tok authorized st :
  settled B st → users (working st) !! s = Some row →
  u_is_frozen row || bool_decide (is_Some (u_security_locked_at row)) = true →
  (∃ e st', execute_local_transfer s p tok st = (Raise e, st') ∧ durable B st')
  ∧ (∃ e st', execute_payup_transfer s tok authorized st = (Raise e, st') ∧ durable B st').
Proof.
  intros Hst Hu Hf. split.
  - pose proof (local_transfer_triple B s p tok st Hst) as Ht.
    assert (is_ok (execute_local_transfer s p tok st).1 = false) as Hn
      by (apply bind_fails; by eapply frozen_not_allowed).
    destruct (execute_local_transfer _ _ _ _) as [[?|e] st']; [done|]. by eexists _, _.
  - pose proof (payup_transfer_triple B s tok authorized st Hst) as Ht.
    assert (is_ok (execute_payup_transfer s tok authorized st).1 = false) as Hn
      by (apply bind_fails; by eapply frozen_not_allowed).
    destruct (execute_payup_transfer _ _ _ _) as [[?|e] st']; [done|]. by eexists _, _.
Qed.

(** The sample books: two accounts opened with their welcome credit. *)
Definition sample_limits : Limits := mkLimits 50000 50000.
Lemma sample_sound : sound (books Sample.sample_db).
Proof.
  assert (books Sample.sample_db = mkBooks (<[1 := 10000]> (<[2 := 10000]> ∅))
    (<[1 := sample_limits]> (<[2 := sample_limits]> ∅)) ∅
    (<[1 := Sample.credit "c1" 1]> (<[2 := Sample.credit "c2" 2]> ∅)) ∅) as ->.
  { unfold books. simpl. by rewrite !fmap_insert, !fmap_empty. }
  apply (sound_step (mkBooks (<[2 := 10000]> ∅) (<[2 := sample_limits]> ∅) ∅
    (<[2 := Sample.credit "c2" 2]> ∅) ∅)); [apply (sound_step empty_books _ sound_empty)|].
  - by refine (step_open empty_books 2 sample_limits 2 (Sample.credit "c2" 2) _ _ _ _ _).
  - by refine (step_open _ 1 sample_limits 1 (Sample.credit "c1" 1) _ _ _ _ _).
Qed.

#[local] Existing Instance Sample.sample_env.

Lemma local_transfer_witness :
  (execute_local_transfer 1 7 "tok" Sample.sample_state).1 = Ok "uuid-2"
  ∧ ∃ B', transferred (books Sample.sample_db) B' 1 (Some 7) "local_transfer" "uuid-2".
Proof.
  assert ((execute_local_transfer 1 7 "tok" Sample.sample_state).1 = Ok "uuid-2") as E
    by (vm_compute; reflexivity).
  split; [exact E|].
  pose proof (local_transfer_atomic (books Sample.sample_db) 1 7 "tok" Sample.sample_state
    (conj eq_refl eq_refl) (proj1 sample_sound)) as Ht.
  destruct (execute_local_transfer 1 7 "tok" Sample.sample_state) as [[ref|e] st'];
    simpl in E; [|discriminate].
  injection E as ->. destruct Ht as (B' & Ht & _). exists B'. exact Ht.
Defined.

Lemma payup_transfer_witness :
  (execute_payup_transfer 1 "tok" true Sample.sample_state).1 = Ok "uuid-4"
  ∧ ∃ B', transferred (books Sample.sample_db) B' 1 None "payup" "uuid-4".
Proof.
  assert ((execute_payup_transfer 1 "tok" true Sample.sample_state).1 = Ok "uuid-4") as E
    by (vm_compute; reflexivity).
  split; [exact E|].
  pose proof (payup_transfer_atomic (books Sample.sample_db) 1 "tok" true Sample.sample_state
    (conj eq_refl eq_refl) (proj1 sample_sound)) as Ht.
  destruct (execute_payup_transfer 1 "tok" true Sample.sample_state) as [[ref|e] st'];
    simpl in E; [|discriminate].
  injection E as ->. destruct Ht as (B' & Ht & _). exists B'. exact Ht.
Defined.

(** Alice's account has been frozen. *)
Definition frozen_db : Db := upd_users (alter (set_u_is_frozen true) 1) Sample.sample_db.
Definition frozen_state : St := set_committed frozen_db (set_working frozen_db Sample.sample_state).

Lemma frozen_witness :
  (∃ e st', execute_local_transfer 1 7 "tok" frozen_state = (Raise e, st')
            ∧ durable (books frozen_db) st')
  ∧ (∃ e st', execute_payup_transfer 1 "tok" true frozen_state = (Raise e, st')
              ∧ durable (books frozen_db) st').
Proof.
  apply (frozen_account_cannot_send (books frozen_db) 1 (set_u_is_frozen true Sample.alice)).
  - split; reflexivity.
  - reflexivity.
  - reflexivity.
Defined.
End TransferSafety.
