(* ===== verification/TransferTokens.v ===== *)
(** * Confirmation tokens are used once

    A completed transfer leaves its pending row consumed; with the row
    consumed, presenting the token again is refused. *)

From S2P Require Import Prelude PyStr PyDecimal TimeModel Schema Runtime Sample Canonical Integrity.
From S2P Require Import AuditLog SessionRisk BankingPolicy Notifications LedgerSpec Transfers.
From S2P Require Import TransferSafety.
Open Scope string_scope.
Open Scope Z_scope.

Module TransferTokens.
Import SessionHmac Audit Ledger SessionRisk Policy Notifications LedgerSpec Transfers TransferSafety.

(** A property of the session's view that survives every normal return. *)
Definition keeps (P : Db → Prop) {A} (c : M St A) : Prop :=
  triple (λ st, P (working st)) c (λ _ st, P (working st)) (λ _ _, True).

Section Keeps.
Context `{Env} (P : Db → Prop).

Lemma keeps_bind {A B} (c : M St A) (k : A → M St B) :
  keeps P c → (∀ a, keeps P (k a)) → keeps P (bind c k).
Proof. intros Hc Hk. eapply triple_bind; [exact Hc|exact Hk]. Qed.
Lemma keeps_ret {A} (a : A) : keeps P (ret a).
Proof. by intros st Hst. Qed.
Lemma keeps_lift {A} (r : res A) : keeps P (lift r).
Proof. intros st Hst. by destruct r. Qed.
Lemma keeps_query {A} (f : Db → res A) : keeps P (db_query f).
Proof. intros st Hst. unfold db_query. by destruct (f (working st)). Qed.
Lemma keeps_get {A} (f : Db → A) : keeps P (db_get f).
Proof. by intros st Hst. Qed.
Lemma keeps_now : keeps P now_utc.
Proof. by intros st Hst. Qed.
Lemma keeps_fresh {A} (f : nat → A) : keeps P (fresh f).
Proof. by intros st Hst. Qed.
Lemma keeps_write f : (∀ d, P d → P (f d)) → keeps P (db_write f).
Proof. intros Hf st Hst. by apply Hf. Qed.
Lemma keeps_commit : keeps P commit.
Proof. intros st Hst. unfold commit. destruct (db_ok (working st)); [exact Hst|exact I]. Qed.
Lemma keeps_never {A} (c : M St A) : (∀ st a st', c st ≠ (Ok a, st')) → keeps P c.
Proof.
  intros Hn st _. destruct (c st) as [[a|e] st'] eqn:E; [by apply Hn in E|done].
Qed.
Lemma keeps_try {A} (c : M St A) sel h :
  keeps P c → (∀ e st a st', h e st ≠ (Ok a, st')) → keeps P (try_except c sel h).
Proof.
  intros Hc Hh st Hst. specialize (Hc st Hst). unfold try_except.
  destruct (c st) as [[a|e] st']; [done|]. destruct (sel e); [|done]. 
  destruct (h e st') as [[a|e'] st''] eqn:E; [by apply Hh in E|done].
Qed.
Lemma keeps_audit_required ty o u md :
  (∀ e d, P d → P (append_event e d)) → keeps P (audit_event_required ty o u md).
Proof.
  intros Ha st Hst. destruct (audit_event_required ty o u md st) as [r st'] eqn:E.
  apply audit_event_required_cases in E as [_ [[-> (e & _ & Hw)]|[[e ->] _]]]; [|done].
  rewrite Hw. by apply Ha.
Qed.
End Keeps.
#[export] Hint Resolve keeps_ret keeps_lift keeps_query keeps_get keeps_now keeps_fresh keeps_commit
  : pres.

Ltac keeps_step :=
  match goal with
  | |- keeps _ (bind _ _) => apply keeps_bind; [|intros ?]
  | |- keeps _ (if ?b then _ else _) => destruct b
  | |- keeps _ (match ?x with _ => _ end) => destruct x
  | |- keeps _ _ => solve [eauto with pres]
  end.

(** Properties the posting of a transfer does not touch. *)
Class row_blind (P : Db → Prop) : Prop := {
  rb_append e d : P d → P (append_event e d);
  rb_adjust u a d : P d → P (adjust_balance u a d);
  rb_entry t d : P d → P (add_transaction t d)
}.

Section Posting.
Context `{Env} (P : Db → Prop) `{!row_blind P}.

Lemma keeps_post s r p a rf ty : keeps P (post_transfer s r p a rf ty).
Proof using All.
  unfold post_transfer. repeat keeps_step; apply keeps_write; intros d; first [apply rb_adjust|apply rb_entry].
Qed.
Lemma keeps_success_audit u md ref acc : keeps P (audit_outbound_transfer u "success" md ref acc).
Proof using All.
  unfold audit_outbound_transfer, audit_banking_action.
  change (false || _requires_durable_audit "outbound_transfer" "success") with true.
  repeat keeps_step. apply keeps_audit_required. intros. by apply rb_append.
Qed.
Lemma keeps_local_success s p a rf ref : keeps P (_audit_local_transfer_success s p a rf ref).
Proof using All.
  apply keeps_try; [|by intros e st x st' E; repeat inv_bind E].
  unfold load_payee. repeat keeps_step. apply keeps_success_audit.
Qed.
Lemma keeps_payup_success s a rf ref risk : keeps P (audit_payup_success s a rf ref risk).
Proof using All.
  apply keeps_try; [|by intros e st x st' E; repeat inv_bind E].
  repeat keeps_step. apply keeps_success_audit.
Qed.
Lemma keeps_local_amount s p : keeps P (_local_transfer_amount s p).
Proof.
  unfold _local_transfer_amount. cbv zeta.
  repeat keeps_step; apply keeps_never; intros; apply reject_local_never.
Qed.
Lemma keeps_local_balance s p l a : keeps P (_ensure_local_transfer_balance s p l a).
Proof.
  unfold _ensure_local_transfer_balance, load_payee.
  repeat keeps_step; apply keeps_never; intros; apply reject_local_never.
Qed.
Lemma keeps_local_limit s p l a : keeps P (_ensure_local_transfer_daily_limit s p l a).
Proof.
  unfold _ensure_local_transfer_daily_limit, local_transfer_amount_used_today, load_payee.
  repeat keeps_step; apply keeps_never; intros; apply reject_local_never.
Qed.
Lemma keeps_lock a b : keeps P (_lock_transfer_participants a b).
Proof. apply keeps_query. Qed.

(** The second commit makes the session's view durable; notifications do not
    disturb it. *)
Lemma finish_keeps (c : M St unit) (ref : string) :
  (∀ st, ∃ st', c st = (Ok tt, st')) → preserves (on_db (λ x w, P x ∧ P w)) c →
  keeps P (_ <- commit ;; _ <- c ;; ret ref).
Proof.
  intros Hc Hp st Hst. unfold bind at 1, commit. destruct (db_ok (working st)); [|done].
  destruct (Hc (set_committed (working st) st)) as [st' E]. rewrite (bind_Ok _ _ _ _ _ E).
  specialize (Hp (set_committed (working st) st) (conj Hst Hst)). rewrite E in Hp. by destruct Hp.
Qed.

Lemma row_audit_blind : audit_blind (λ c w, P c ∧ P w).
Proof using All. split; intros * [? ?]; try done. split; [done|by apply rb_append]. Qed.
End Posting.
#[export] Hint Resolve keeps_post keeps_local_success keeps_payup_success keeps_local_amount
  keeps_local_balance keeps_local_limit keeps_lock : pres.
#[export] Hint Extern 0 (row_blind _) => apply _ : pres.
#[export] Existing Instance row_audit_blind.

(** ** Local transfers *)

(** The pending transfer of a token has been consumed. *)
Definition consumed_local (pid : Z) (verifier : string) (d : Db) : Prop :=
  ∃ p, pending_transfers d !! pid = Some p ∧ pt_token p = verifier ∧ is_Some (pt_consumed_at p).
#[export] Instance consumed_local_blind pid v : row_blind (consumed_local pid v).
Proof. by split. Qed.

Section Local.
Context `{Env}.

Lemma pending_for_spec v s p r : pending_for v s p r = true → pt_token r = v ∧ pt_consumed_at r = None.
Proof. unfold pending_for, consumable. rewrite !andb_true_iff, !bool_decide_eq_true. tauto. Qed.

Lemma load_pending_spec s p tok now st pid r st' :
  _load_pending_local_transfer s p tok now st = (Ok (pid, r), st') →
  ∃ v, local_transfer_token_verifier tok = Ok v
    ∧ pending_transfers (working st') !! pid = Some r ∧ pt_token r = v.
Proof.
  unfold _load_pending_local_transfer. intros E. inv_bind E. unfold lift in E0. simplify_eq.
  inv_bind E. unfold db_query in E0. simplify_eq. destruct a0 as [[i q]|]; [|by apply reject_local_never in E].
  case_match; [by apply reject_local_never in E|]. unfold ret in E. simplify_eq.
  match goal with Hq : one_or_none _ _ = _ |- _ => apply one_or_none_Some in Hq as [Hr Hs] end.
  apply pending_for_spec in Hs as [Hs _]. by eexists.
Qed.

Lemma keeps_mark pid v ref :
  keeps (consumed_local pid v) (update_pending pid (set_pt_consumed_transaction_ref ref)).
Proof.
  apply keeps_write. intros d (q & Hq & Hqt & Hqc). eexists. simpl. by rewrite lookup_alter_eq, Hq.
Qed.

Lemma local_consumes s p tok st ref st' :
  execute_local_transfer s p tok st = (Ok ref, st') →
  ∃ v pid, local_transfer_token_verifier tok = Ok v ∧ consumed_local pid v (working st').
Proof.
  unfold execute_local_transfer. intros E. do 5 inv_bind E. destruct a3 as [pid r].
  match goal with El : _load_pending_local_transfer _ _ _ _ _ = _ |- _ =>
    apply load_pending_spec in El as (v & Hv & Hr & Ht) end.
  exists v, pid. split; [done|]. inv_bind E.
  match goal with Eu : update_pending _ _ _ = _ |- _ =>
    unfold update_pending, db_write, modify in Eu; injection Eu as _ <- end.
  subst v. cbv zeta in E.
  match type of E with ?c ?s1 = _ => assert (keeps (consumed_local pid (pt_token r)) c) as Hk end.
  { apply keeps_bind; [eauto with pres|intros amount].
    apply keeps_bind; [eauto with pres|intros [ls lr]].
    apply keeps_bind; [eauto with pres|intros _].
    apply keeps_bind; [eauto with pres|intros [used limit]].
    apply keeps_bind; [eauto with pres|intros [ref' created]].
    apply keeps_bind; [apply keeps_mark|intros ?].
    apply keeps_bind; [eauto with pres|intros ?].
    apply finish_keeps; [intros; apply notify_local_returns|].
    unfold notify_local_transfer. solve_pres; apply pres_safe; solve_pres. }
  match type of E with ?c ?s1 = _ => specialize (Hk s1) end. rewrite E in Hk. apply Hk.
  eexists. simpl. by rewrite lookup_alter_eq, Hr.
Qed.

Lemma keeps_allowed P u a l : keeps P (_ensure_banking_action_allowed u a l).
Proof.
  unfold _ensure_banking_action_allowed, load_user. repeat keeps_step.
  apply keeps_try; [eauto with pres|]. by intros e st x st' E; repeat inv_bind E.
Qed.
Lemma keeps_recipient P s p : keeps P (_local_transfer_recipient s p).
Proof.
  unfold _local_transfer_recipient, load_payee.
  repeat keeps_step; apply keeps_never; intros; apply reject_local_never.
Qed.
Lemma keeps_cooldown P s p n : keeps P (_ensure_payee_cooldown_elapsed s p n).
Proof.
  unfold _ensure_payee_cooldown_elapsed, load_payee.
  repeat keeps_step; apply keeps_never; intros; apply reject_local_never.
Qed.

Lemma load_consumed s p tok now v pid st :
  local_transfer_token_verifier tok = Ok v →
  unique_on (λ p, Some (pt_token p)) (pending_transfers (working st)) = true →
  consumed_local pid v (working st) →
  is_ok (_load_pending_local_transfer s p tok now st).1 = false.
Proof.
  intros Hv Hu (q & Hq & Hqt & [t Hqc]). unfold _load_pending_local_transfer.
  erewrite bind_Ok by (unfold lift; by rewrite Hv).
  assert (one_or_none (pending_for v s p) (pending_transfers (working st)) = Ok None) as Hn.
  { eapply (one_or_none_excluded _ _ _ pid q v Hu); [|done|by rewrite Hqt|].
    - by intros w [-> _]%pending_for_spec.
    - apply not_true_is_false. intros [_ ?]%pending_for_spec. congruence. }
  erewrite bind_Ok by (unfold db_query; by rewrite Hn). cbn beta iota.
  destruct (_reject_local_transfer _ _ _ _ _ st) as [[x|e] st'] eqn:E; [|done].
  by apply reject_local_never in E.
Qed.

Lemma consumed_refused s p tok v pid st :
  local_transfer_token_verifier tok = Ok v → db_ok (working st) = true →
  consumed_local pid v (working st) → is_ok (execute_local_transfer s p tok st).1 = false.
Proof.
  intros Hv Hok%db_ok_pending Hc.
  set (P d := pending_transfers d = pending_transfers (working st)).
  assert (keeps P (_ <- ensure_outbound_transfer_allowed s ;;
    recipient_id <- _local_transfer_recipient s p ;; now <- now_utc ;;
    _ <- _ensure_payee_cooldown_elapsed s p now ;; ret (recipient_id, now))) as Hk.
  { repeat first [apply keeps_allowed | apply keeps_recipient | apply keeps_cooldown | keeps_step]. }
  specialize (Hk st eq_refl).
  unfold execute_local_transfer. unfold bind at 1 in Hk. unfold bind at 1.
  destruct (ensure_outbound_transfer_allowed s st) as [[x1|e] s1]; [|done].
  unfold bind at 1 in Hk. unfold bind at 1.
  destruct (_local_transfer_recipient s p s1) as [[r|e] s2]; [|done].
  unfold bind at 1 in Hk. unfold bind at 1. destruct (now_utc s2) as [[now|e] s3]; [|done].
  unfold bind at 1 in Hk. unfold bind at 1.
  destruct (_ensure_payee_cooldown_elapsed s p now s3) as [[x4|e] s4]; [|done].
  unfold P in Hk. cbn in Hk. apply bind_fails. apply (load_consumed _ _ _ _ v pid);
    unfold consumed_local; by rewrite ?Hk.
Qed.

(** A confirmation token pays once.  After [execute_local_transfer]
    returned, as long as consumed rows stay consumed and the constraints hold,
    the same token (whoever presents it, for whatever payee) is refused: the
    call raises and the durable books stay as they were. *)
Theorem local_token_single_use s p s' p' tok st ref st1 st2 :
  execute_local_transfer s p tok st = (Ok ref, st1) →
  (∀ pid v, consumed_local pid v (working st1) → consumed_local pid v (working st2)) →
  db_ok (working st2) = true → working st2 = committed st2 →
  ∃ e st3, execute_local_transfer s' p' tok st2 = (Raise e, st3)
    ∧ durable (books (committed st2)) st3.
Proof.
  intros (v & pid & Hv & Hc)%local_consumes Hkept Hok Hrest.
  pose proof (consumed_refused s' p' tok v pid st2 Hv Hok (Hkept _ _ Hc)) as Hn.
  pose proof (local_transfer_triple (books (committed st2)) s' p' tok st2) as Ht.
  destruct (execute_local_transfer s' p' tok st2) as [[x|e] st3]; [done|].
  exists e, st3. split; [done|]. apply Ht. by split; rewrite ?Hrest.
Qed.
End Local.

(** ** PayUp *)

Definition consumed_payup (pid : Z) (verifier : string) (d : Db) : Prop :=
  ∃ p, payup_pending_transfers d !! pid = Some p ∧ pp_token p = verifier
       ∧ is_Some (pp_consumed_at p).
#[export] Instance consumed_payup_blind pid v : row_blind (consumed_payup pid v).
Proof. by split. Qed.

Section Payup.
Context `{Env}.

Lemma keeps_pres (P : Db → Prop) {A} (c : M St A) :
  preserves (on_db (λ _ w, P w)) c → keeps P c.
Proof. intros Hp st Hst. specialize (Hp st Hst). by destruct (c st) as [[a|e] st']. Qed.

Lemma keeps_evaluate P u a x : keeps P (evaluate_payup_risk u a x).
Proof.
  apply keeps_pres. unfold evaluate_payup_risk, gather_risk_inputs, payup_amount_used_today,
    _has_recent_payup_sensitive_event, load_user. solve_pres.
Qed.
Lemma keeps_payup_amount P s p : keeps P (_validate_payup_amount s p).
Proof.
  unfold _validate_payup_amount. cbv zeta.
  repeat keeps_step; apply keeps_never; intros; apply reject_payup_never.
Qed.
Lemma keeps_payup_recipient P s r : keeps P (_validate_payup_recipient s r).
Proof.
  unfold _validate_payup_recipient.
  repeat keeps_step; apply keeps_never; intros; apply reject_payup_never.
Qed.
Lemma keeps_gate P s a r b : keeps P (payup_risk_gate s a r b).
Proof.
  unfold payup_risk_gate. repeat keeps_step; apply keeps_never; intros; apply reject_payup_never.
Qed.
Lemma keeps_used P u : keeps P (payup_amount_used_today u).
Proof. unfold payup_amount_used_today. repeat keeps_step. Qed.
Hint Resolve keeps_evaluate keeps_payup_amount keeps_payup_recipient keeps_gate keeps_used : pres.

Lemma consumable_spec v s (p : PayupPendingTransfer) :
  consumable pp_token pp_user_id pp_consumed_at v s p = true →
  pp_token p = v ∧ pp_consumed_at p = None.
Proof. unfold consumable. rewrite !andb_true_iff, !bool_decide_eq_true. tauto. Qed.

Lemma load_payup_spec s tok st pid r st' :
  _load_and_lock_payup_pending_transfer s tok st = (Ok (pid, r), st') →
  ∃ v, payup_transfer_token_verifier tok = Ok v ∧ consumed_payup pid v (working st').
Proof.
  unfold _load_and_lock_payup_pending_transfer. intros E. inv_bind E. unfold lift in E0. simplify_eq.
  exists a. split; [done|]. inv_bind E. unfold db_query in E0. simplify_eq.
  destruct a0 as [[i q]|]; [|by apply reject_payup_never in E].
  match goal with Hq : one_or_none _ _ = _ |- _ => apply one_or_none_Some in Hq as [Hr Hs] end.
  apply consumable_spec in Hs as [Hs _]. inv_bind E. unfold now_utc in E0. simplify_eq.
  case_match; [by apply reject_payup_never in E|]. inv_bind E.
  unfold update_payup_pending, db_write, modify in E0. unfold ret in E. simplify_eq.
  eexists. simpl. rewrite lookup_alter_eq, Hr. by split_and!.
Qed.

Lemma keeps_payup_mark pid v ref :
  keeps (consumed_payup pid v) (update_payup_pending pid (set_pp_consumed_transaction_ref ref)).
Proof.
  apply keeps_write. intros d (q & Hq & Hqt & Hqc). eexists. simpl. by rewrite lookup_alter_eq, Hq.
Qed.

Lemma payup_consumes s tok auth st ref st' :
  execute_payup_transfer s tok auth st = (Ok ref, st') →
  ∃ v pid, payup_transfer_token_verifier tok = Ok v ∧ consumed_payup pid v (working st').
Proof.
  unfold execute_payup_transfer. intros E. do 4 inv_bind E. destruct a2 as [pid r].
  match goal with El : _load_and_lock_payup_pending_transfer _ _ _ = _ |- _ =>
    apply load_payup_spec in El as (v & Hv & Hc) end.
  exists v, pid. split; [done|].
  match type of E with ?c ?s1 = _ => assert (keeps (consumed_payup pid v) c) as Hk end.
  { apply keeps_bind; [eauto with pres|intros amount].
    apply keeps_bind; [eauto with pres|intros rid].
    apply keeps_bind; [eauto with pres|intros [ls lr]].
    do 3 (apply keeps_bind; [eauto with pres|intros ?]).
    apply keeps_bind; [|intros _].
    { repeat keeps_step. apply keeps_never; intros; apply reject_payup_never. }
    apply keeps_bind; [eauto with pres|intros [ref' created]].
    apply keeps_bind; [apply keeps_payup_mark|intros ?].
    apply keeps_bind; [eauto with pres|intros ?].
    apply finish_keeps; [intros; apply notify_payup_returns|].
    unfold notify_payup_transfer. solve_pres; apply pres_safe; solve_pres. }
  match type of E with ?c ?s1 = _ => specialize (Hk s1) end. rewrite E in Hk. by apply Hk.
Qed.

Lemma load_payup_consumed s tok v pid st :
  payup_transfer_token_verifier tok = Ok v →
  unique_on (λ p, Some (pp_token p)) (payup_pending_transfers (working st)) = true →
  consumed_payup pid v (working st) →
  is_ok (_load_and_lock_payup_pending_transfer s tok st).1 = false.
Proof.
  intros Hv Hu (q & Hq & Hqt & [t Hqc]). unfold _load_and_lock_payup_pending_transfer.
  erewrite bind_Ok by (unfold lift; by rewrite Hv).
  assert (one_or_none (consumable pp_token pp_user_id pp_consumed_at v s)
    (payup_pending_transfers (working st)) = Ok None) as Hn.
  { eapply (one_or_none_excluded _ _ _ pid q v Hu); [|done|by rewrite Hqt|].
    - by intros w [-> _]%consumable_spec.
    - apply not_true_is_false. intros [_ ?]%consumable_spec. congruence. }
  erewrite bind_Ok by (unfold db_query; by rewrite Hn). cbn beta iota.
  destruct (reject_payup _ _ _ _ st) as [[x|e] st'] eqn:E; [|done].
  by apply reject_payup_never in E.
Qed.

Lemma payup_consumed_refused s tok auth v pid st :
  payup_transfer_token_verifier tok = Ok v → db_ok (working st) = true →
  consumed_payup pid v (working st) → is_ok (execute_payup_transfer s tok auth st).1 = false.
Proof.
  intros Hv Hok%db_ok_payup_pending Hc.
  set (P d := payup_pending_transfers d = payup_pending_transfers (working st)).
  unfold execute_payup_transfer. unfold bind at 1.
  pose proof (keeps_allowed P s "outbound_transfer" "outbound transfers" st eq_refl) as Hk.
  fold (ensure_outbound_transfer_allowed s) in Hk.
  destruct (ensure_outbound_transfer_allowed s st) as [[x1|e] s1]; [|done].
  unfold bind at 1, load_user, db_query. destruct (users (working s1) !! s) as [row|]; [|done].
  destruct (_payup_sender_has_nickname row); cbn [negb].
  2:{ apply bind_fails. destruct (reject_payup _ _ _ _ s1) as [[x|e] s2] eqn:E; [|done].
      by apply reject_payup_never in E. }
  rewrite bind_ret_l. apply bind_fails. unfold P in Hk. apply (load_payup_consumed _ _ v pid); [done| |];
    unfold consumed_payup; by rewrite ?Hk.
Qed.

(** A PayUp confirmation token pays once, as for local transfers, whatever
    the step-up flag of the second attempt. *)
Theorem payup_token_single_use s s' tok auth auth' st ref st1 st2 :
  execute_payup_transfer s tok auth st = (Ok ref, st1) →
  (∀ pid v, consumed_payup pid v (working st1) → consumed_payup pid v (working st2)) →
  db_ok (working st2) = true → working st2 = committed st2 →
  ∃ e st3, execute_payup_transfer s' tok auth' st2 = (Raise e, st3)
    ∧ durable (books (committed st2)) st3.
Proof.
  intros (v & pid & Hv & Hc)%payup_consumes Hkept Hok Hrest.
  pose proof (payup_consumed_refused s' tok auth' v pid st2 Hv Hok (Hkept _ _ Hc)) as Hn.
  pose proof (payup_transfer_triple (books (committed st2)) s' tok auth' st2) as Ht.
  destruct (execute_payup_transfer s' tok auth' st2) as [[x|e] st3]; [done|].
  exists e, st3. split; [done|]. apply Ht. by split; rewrite ?Hrest.
Qed.
End Payup.

(** ** Witnesses *)

#[local] Existing Instance Sample.sample_env.

Lemma local_token_witness :
  ∃ e st3, execute_local_transfer 1 7 "tok" (execute_local_transfer 1 7 "tok" Sample.sample_state).2
    = (Raise e, st3)
  ∧ durable (books (committed (execute_local_transfer 1 7 "tok" Sample.sample_state).2)) st3.
Proof.
  apply (local_token_single_use 1 7 1 7 "tok" Sample.sample_state "uuid-2"
    (execute_local_transfer 1 7 "tok" Sample.sample_state).2).
  - vm_compute. reflexivity.
  - intros pid v Hc. exact Hc.
  - vm_compute. reflexivity.
  - vm_compute. reflexivity.
Defined.

Lemma payup_token_witness :
  ∃ e st3, execute_payup_transfer 1 "tok" true
    (execute_payup_transfer 1 "tok" true Sample.sample_state).2 = (Raise e, st3)
  ∧ durable (books (committed (execute_payup_transfer 1 "tok" true Sample.sample_state).2)) st3.
Proof.
  apply (payup_token_single_use 1 1 "tok" true true Sample.sample_state "uuid-4"
    (execute_payup_transfer 1 "tok" true Sample.sample_state).2).
  - vm_compute. reflexivity.
  - intros pid v Hc. exact Hc.
  - vm_compute. reflexivity.
  - vm_compute. reflexivity.
Defined.
End TransferTokens.
