(* ===== verification/Registration.v ===== *)
(** * Opening an account ([register_user] of [app/auth/services.py])

    The submitted details are checked, an unused account number is drawn, the
    row is stored, the welcome credit signed and posted, and the verified address
    consumed.  An account comes into being with its credit or not at all, and
    only for an address verified in this session. *)

From S2P Require Import Prelude PyStr PyDecimal TimeModel Schema Runtime Sample Canonical Integrity.
From S2P Require Import AuditLog SessionRisk BankingPolicy Notifications LedgerSpec Transfers.
From S2P Require Import TransferSafety Passwords PasswordHistory Identity RegistrationOtp.
Open Scope string_scope.
Open Scope Z_scope.

Module Registration.
Import Audit Ledger Policy Notifications LedgerSpec Transfers TransferSafety.
Import Passwords PasswordHistory Identity RegistrationOtp.

(** 100.00. *)
Definition REGISTRATION_WELCOME_CREDIT_AMOUNT : Z := 10000.
Definition REGISTRATION_DETAILS_ERROR : string :=
  "Registration could not be completed with those details".

(** The [User] of a new customer, with the column defaults of the model. *)
Definition new_customer (username email canonical_email password_hash full_name phone_number
    account_number : string) (created_at updated_at : Z) : User :=
  mkUser (strip username) email (Some canonical_email) password_hash "customer" "active"
    (strip full_name) (Some (strip phone_number)) None (Some account_number) None None created_at false
    None None None None false None None 0 PAYUP_DAILY_LIMIT_DEFAULT true true
    LOCAL_TRANSFER_DAILY_LIMIT_DEFAULT false 0 None None created_at updated_at None.

Definition add_user (u : User) (d : Db) : Db := upd_users (insert (next_id (users d)) u) d.
Definition add_registration_credit (c : CreditLedgerRow) (d : Db) : Db :=
  upd_registration_credits (insert (next_id (registration_credits d)) c) d.

(** [data]: the validated registration form. *)
Record RegistrationData : Type := mkRegistrationData {
  rd_email : option string;
  rd_username : string;
  rd_password : string;
  rd_confirm_password : string;
  rd_full_name : string;
  rd_phone_number : string
}.

(** [except RuntimeError]: [AuditWriteError] is a subclass. *)
Definition is_registration_failure (e : exn) : bool :=
  match e with IntegrityError | RuntimeError _ | AuditWriteError _ => true | _ => false end.

Section Registration.
Context `{Env}.

(** ** Details in use *)

(** [_normalize(value)]. *)
Definition _normalize (value : string) : string := casefold (strip value).

Definition taken (P : User → bool) : M St bool :=
  found <- db_query (λ d, one_or_none P (users d)) ;;
  ret (bool_decide (is_Some (found : option (Z * User)))).
Definition _username_taken (username : string) : M St bool :=
  taken (λ u, bool_decide (casefold (u_username u) = _normalize username)).
Definition _phone_number_taken (phone_number : string) : M St bool :=
  taken (λ u, bool_decide (u_phone_number u = Some (strip phone_number))).
Definition _email_taken (canonical_email : string) : M St bool :=
  taken (λ u, bool_decide (u_registration_email_canonical u = Some canonical_email)).

(** ** Account numbers *)

(** ["".join(str(secrets.randbelow(10)) for _ in range(n))]. *)
Fixpoint random_digits (n : nat) : M St string :=
  match n with
  | O => ret ""
  | S n => digit <- fresh (λ i, randbelow i 10) ;; rest <- random_digits n ;; ret (pretty digit +:+ rest)
  end.

Fixpoint draw_account_number (draws : nat) : M St string :=
  match draws with
  | O => raise (AuthError "Could not generate a unique account number" 500 None)
  | S draws =>
      candidate <- random_digits 12 ;;
      used <- taken (λ u, bool_decide (u_account_number u = Some candidate)) ;;
      if (used : bool) then draw_account_number draws else ret candidate
  end.
Definition _generate_account_number : M St string := draw_account_number 10.

Definition signed_registration_credit (credit_ref : string) (user_id created_at : Z)
    : res CreditLedgerRow :=
  rbind (sign_registration_credit_integrity credit_ref user_id REGISTRATION_WELCOME_CREDIT_AMOUNT
           "completed" created_at)
    (λ '(credit_hash, key_id, algorithm, version),
       Ok (mkCreditLedgerRow credit_ref credit_hash (Some key_id) (Some algorithm) (Some version)
             user_id REGISTRATION_WELCOME_CREDIT_AMOUNT "completed" created_at)).

Definition _apply_registration_welcome_credit (user_id : Z) : M St unit :=
  existing_credit <- db_get (λ d, rows_where (λ c, cr_user_id c =? user_id)
                                    (registration_credits d)) ;;
  match existing_credit with
  | _ :: _ => ret tt
  | [] =>
      credit_ref <- fresh uuid4 ;;
      created_at <- now_utc ;;
      credit <- lift (signed_registration_credit credit_ref user_id created_at) ;;
      _ <- db_write (adjust_balance user_id REGISTRATION_WELCOME_CREDIT_AMOUNT) ;;
      _ <- db_write (add_registration_credit credit) ;;
      reference <- lift (audit_reference "registration_credit" credit_ref) ;;
      audit_event_required "registration_credit" "success" (Some user_id)
        [("credit_type", JStr "welcome"); ("amount", JStr "fixed_sgd_100");
         ("credit_ref", jopt_str reference)]
  end.

(** The handlers of [register_user] around the write. *)
Definition registration_failed (e : exn) : M St unit :=
  _ <- rollback ;;
  match e with
  | IntegrityError =>
      _ <- audit_event "registration" "failure" None [("reason", JStr "integrity_error")] ;;
      raise (AuthError REGISTRATION_DETAILS_ERROR 400 None)
  | _ =>
      _ <- audit_event "registration" "failure" None
             [("reason", JStr "welcome_credit_unavailable")] ;;
      raise (AuthError "Registration could not be completed right now. Please try again later."
               503 None)
  end.

(** [register_user] from [db.session.add(user)] on; returns the user's id. *)
Definition complete_registration (user : User) (normalized_email : string)
    (password_policy_warnings : list string) : M St Z :=
  user_id <- db_get (λ d, next_id (users d)) ;;
  _ <- db_write (add_user user) ;;
  _ <- try_except
    (_ <- flush ;;
     _ <- _apply_registration_welcome_credit user_id ;;
     commit)
    is_registration_failure registration_failed ;;
  _ <- consume_verified_registration_email normalized_email ;;
  _ <- audit_event "registration" "success" (Some user_id)
         [("password_screening",
           JStr (match password_policy_warnings with
                 | [] => "local_and_live"
                 | _ => "local_only_fallback"
                 end))] ;;
  ret user_id.

(** A refused registration: audited, then reported. *)
Definition refuse_registration {A} (reason message : string) : M St A :=
  _ <- audit_event "registration" "failure" None [("reason", JStr reason)] ;;
  raise (AuthError message 400 None).

Definition is_otp_error (e : exn) : bool :=
  match e with RegistrationOtpError _ _ _ => true | _ => false end.
Definition is_policy_error (e : exn) : bool :=
  match e with PasswordPolicyError _ => true | _ => false end.

(** The address the session has verified, as an [AuthError] when there is none. *)
Definition verified_email (data : RegistrationData) : M St string :=
  try_except
    (if nonempty (default "" (rd_email data))
     then require_verified_registration_email (default "" (rd_email data))
     else require_current_verified_registration_email)
    is_otp_error
    (λ e, match e with
          | RegistrationOtpError message status _ => raise (AuthError message status None)
          | _ => raise e
          end).

Definition screened_password (password : string) : M St (list string) :=
  try_except (validate_password_policy password) is_policy_error
    (λ e, match e with
          | PasswordPolicyError message => refuse_registration "password_policy" message
          | _ => raise e
          end).

Definition register_user (data : RegistrationData) : M St (Z * list string) :=
  normalized_email <- verified_email data ;;
  canonical_email <- lift (canonicalize_customer_email normalized_email) ;;
  _ <- guard (negb (bool_decide (rd_password data = rd_confirm_password data)))
         (refuse_registration "password_mismatch" "Passwords must match") ;;
  password_policy_warnings <- screened_password (rd_password data) ;;
  username_taken <- _username_taken (rd_username data) ;;
  _ <- guard username_taken (refuse_registration "duplicate_username" REGISTRATION_DETAILS_ERROR) ;;
  phone_taken <- _phone_number_taken (rd_phone_number data) ;;
  _ <- guard phone_taken (refuse_registration "duplicate_phone" REGISTRATION_DETAILS_ERROR) ;;
  email_taken <- _email_taken canonical_email ;;
  _ <- guard email_taken (refuse_registration "duplicate_email" REGISTRATION_DETAILS_ERROR) ;;
  password_hash <- hash_password (rd_password data) ;;
  account_number <- _generate_account_number ;;
  created_at <- now_utc ;;
  updated_at <- now_utc ;;
  user <- mark_password_changed None
            (new_customer (rd_username data) normalized_email canonical_email password_hash
               (rd_full_name data) (rd_phone_number data) account_number created_at updated_at) ;;
  user_id <- complete_registration user normalized_email password_policy_warnings ;;
  ret (user_id, password_policy_warnings).
End Registration.

(** ** From the submitted form *)

(** The session [st] verified the address [e] at most five minutes before now,
    and the customer policy admits it. *)
Definition recently_verified `{Env} (st : St) (e : string) : Prop :=
  (∃ v, session st !! REGISTRATION_OTP_VERIFIED_EMAIL_KEY = Some v ∧ truthy v = true
     ∧ normalize_registration_email (py_str v) = e)
  ∧ customer_email_policy_violation e = Ok None
  ∧ ∃ at_value verified_at now, session st !! REGISTRATION_OTP_VERIFIED_AT_KEY = at_value
     ∧ (if otruthy at_value then py_int at_value else Ok 0) = Ok verified_at
     ∧ clock st / US_SECOND ≤ now ∧ now - verified_at ≤ REGISTRATION_OTP_TTL_SECONDS.

Section Form.
Context `{Env}.

Lemma current_verified_inv st e s :
  current_verified_registration_email st = (Ok (Some e), s) → recently_verified st e.
Proof.
  unfold current_verified_registration_email. intros E. inv_bind E.
  unfold session_str, session_get, gets, bind, ret in E0. injection E0 as <- <-.
  apply bind_inv_Ok in E as (at_value & s1 & E1 & E). injection E1 as <- <-.
  apply bind_inv_Ok in E as (verified_at & s1 & E1 & E). unfold lift in E1. injection E1 as E1 <-.
  destruct (session st !! REGISTRATION_OTP_VERIFIED_EMAIL_KEY) as [v|] eqn:Ev; [|done].
  destruct (truthy v) eqn:Et; [|done]. destruct (nonempty _); [|done]. cbn [negb] in E.
  apply bind_inv_Ok in E as (violation & s1 & E2 & E). unfold lift in E2. injection E2 as E2 <-.
  destruct violation as [reason|]; [done|].
  apply bind_inv_Ok in E as (stale & s1 & E3 & E).
  apply bind_inv_Ok in E3 as (now & s2 & E4 & E3). unfold ret in E3. injection E3 as <- <-.
  unfold time_seconds, now_utc, bind, ret in E4. injection E4 as <- <-. 
  destruct (REGISTRATION_OTP_TTL_SECONDS <? _) eqn:El; [done|].
  unfold ret in E. injection E as <- <-. split; [by exists v|]. split; [done|].
  exists (session st !! REGISTRATION_OTP_VERIFIED_AT_KEY), verified_at,
    ((clock st + Z.of_N (tick (effects st))) / US_SECOND). split_and!; [done|done| |].
  - apply Z.div_le_mono; [done|]. lia.
  - apply Z.ltb_ge in El. exact El.
Qed.

Lemma verified_email_inv data st e s :
  verified_email data st = (Ok e, s) → recently_verified st e.
Proof.
  unfold verified_email, try_except. intros E.
  assert ((if nonempty (default "" (rd_email data))
     then require_verified_registration_email (default "" (rd_email data))
     else require_current_verified_registration_email) st = (Ok e, s)) as E1.
  { match goal with |- ?c st = _ => destruct (c st) as [[x|x] t] end; [done|]. by destruct x. }
  clear E. destruct (nonempty _).
  - unfold require_verified_registration_email in E1. inv_bind E1.
    assert (s0 = st) as ->.
    { unfold require_registration_email, try_except, lift in E.
      destruct (require_customer_email _) as [x|x]; [congruence|]. destruct (is_identity_error x); [|done].
      do 2 (apply bind_inv_Ok in E as (? & ? & _ & E)). done. }
    inv_bind E1. case_bool_decide; [|do 2 (apply bind_inv_Ok in E1 as (? & ? & _ & E1)); done].
    unfold ret in E1. simplify_eq. by eapply current_verified_inv.
  - unfold require_current_verified_registration_email in E1. inv_bind E1.
    destruct a as [x|]; [|apply bind_inv_Ok in E1 as (? & ? & _ & E1); done].
    unfold ret in E1. simplify_eq. by eapply current_verified_inv.
Qed.
Definition user_limits (u : User) : Limits :=
  mkLimits (u_local_transfer_daily_limit u) (u_payup_daily_limit u).

(** The row of a new customer with the address [e]. *)
Definition fresh_customer (e : string) (u : User) : Prop :=
  u_email u = e ∧ (∃ canonical, canonicalize_customer_email e = Ok canonical
    ∧ u_registration_email_canonical u = Some canonical)
  ∧ u_account_type u = "customer" ∧ u_account_status u = "active"
  ∧ u_balance u = 0 ∧ user_limits u = mkLimits LOCAL_TRANSFER_DAILY_LIMIT_DEFAULT PAYUP_DAILY_LIMIT_DEFAULT.
End Form.

(** ** What the form leaves alone *)

(** The checks of the form touch no table but the audit log and the breakers. *)
Section Frame.
Context `{Env} (P : Db → Db → Prop) `{!audit_blind P}.
Hypothesis breakers : ∀ f c w, P c w → P c (upd_security_circuit_breakers f w).

Lemma pres_consume_email e : preserves (on_db P) (consume_verified_registration_email e).
Proof.
  unfold consume_verified_registration_email, _clear_registration_session_state,
    _clear_registration_progress_state, session_str. solve_pres.
Qed.
Lemma pres_current_verified : preserves (on_db P) current_verified_registration_email.
Proof.
  unfold current_verified_registration_email, _clear_registration_session_state,
    _clear_registration_progress_state, session_str. solve_pres.
Qed.
Lemma pres_registration_email e a o m : preserves (on_db P) (require_registration_email e a o m).
Proof. unfold require_registration_email. solve_pres. Qed.
Hint Resolve pres_current_verified pres_registration_email : pres.
Lemma pres_verified_email data : preserves (on_db P) (verified_email data).
Proof.
  unfold verified_email, require_verified_registration_email,
    require_current_verified_registration_email. solve_pres.
Qed.

Lemma pres_breaker f : preserves (on_db P) (db_write (upd_security_circuit_breakers f)).
Proof. apply pres_db_write, breakers. Qed.
Hint Resolve pres_breaker : pres.
Lemma pres_policy p : preserves (on_db P) (validate_password_policy p).
Proof.
  unfold validate_password_policy, live_check, _is_password_pwned_by_hibp, _hibp_circuit_is_open,
    _record_hibp_failure, _clear_hibp_failures, _hibp_breaker, put_breaker. cbv zeta. solve_pres.
Qed.
Lemma pres_refuse {A} r m : preserves (on_db P) (refuse_registration (A:=A) r m).
Proof. unfold refuse_registration. solve_pres. Qed.
Hint Resolve pres_policy pres_refuse : pres.
Lemma pres_screened p : preserves (on_db P) (screened_password p).
Proof. unfold screened_password. solve_pres. Qed.
Lemma pres_taken f : preserves (on_db P) (taken f).
Proof. unfold taken. solve_pres. Qed.
Lemma pres_hash p : preserves (on_db P) (hash_password p).
Proof. unfold hash_password. solve_pres. Qed.
Hint Resolve pres_screened pres_taken pres_hash : pres.
Lemma pres_random_digits n : preserves (on_db P) (random_digits n).
Proof. induction n; simpl; solve_pres. Qed.
Hint Resolve pres_random_digits : pres.
Lemma pres_draw n : preserves (on_db P) (draw_account_number n).
Proof. induction n; simpl; solve_pres. Qed.
Lemma pres_mark_changed t u : preserves (on_db P) (mark_password_changed t u).
Proof. unfold mark_password_changed. solve_pres. Qed.
Hint Resolve pres_draw pres_mark_changed : pres.

(** The form ends in the write, for an address the session verified. *)
Lemma form_triple data st0 (Q : User → Z → St → Prop) (X : User → St → Prop) :
  on_db P st0 →
  (∀ e u w, fresh_customer e u → triple (on_db P) (complete_registration u e w) (Q u) (λ _, X u)) →
  triple (λ s, s = st0) (register_user data)
    (λ r st, ∃ e u, recently_verified st0 e ∧ fresh_customer e u ∧ Q u r.1 st)
    (λ _ st, on_db P st ∨ ∃ e u, recently_verified st0 e ∧ fresh_customer e u ∧ X u st).
Proof.
  intros Hst Hwrite. unfold register_user.
  eapply triple_bind with (R := λ e s, on_db P s ∧ recently_verified st0 e).
  { intros s ->. pose proof (pres_verified_email data st0 Hst) as Hp.
    destruct (verified_email data st0) as [[e|e] s'] eqn:E; [|left; by apply Hp].
    split; [done|]. by eapply verified_email_inv. }
  intros e. apply triple_pure. intros Hv.
  eapply triple_bind with (R := λ canonical s, on_db P s ∧ canonicalize_customer_email e = Ok canonical).
  { intros s Hs. unfold lift.
    destruct (canonicalize_customer_email e) as [x|x]; [exact (conj Hs eq_refl)|left; exact Hs]. }
  intros canonical. apply triple_pure. intros Hcanonical.
  do 12 (apply triple_step; [solve_pres|by left|intros ?]).
  eapply triple_bind with (R := λ u s, on_db P s ∧ fresh_customer e u).
  { intros s Hs. split; [exact Hs|]. split; [reflexivity|].
    split; [exists canonical; exact (conj Hcanonical eq_refl)|]. by repeat split. }
  intros u. apply triple_pure. intros Hf.
  eapply triple_bind with (R := Q u).
  { eapply triple_conseq; [by apply Hwrite|done|done|]. intros ? s Hx. right. eauto. }
  intros uid. apply triple_ret. eauto.
Qed.
End Frame.

(** ** Refinement *)

Section Safety.
Context `{Env} (B : Books).

(** The books with the row stored, before the credit. *)
Definition stored (u : User) : Books :=
  mkBooks (<[next_id (bk_balances B) := u_balance u]> (bk_balances B))
    (<[next_id (bk_balances B) := user_limits u]> (bk_limits B)) (bk_entries B)
    (bk_registration B) (bk_topups B).

(** The books with the account opened under the credit [c]. *)
Definition opened_books (u : User) (c : CreditLedgerRow) : Books :=
  mkBooks (<[cr_user_id c := cr_amount c]> (bk_balances B))
    (<[cr_user_id c := user_limits u]> (bk_limits B)) (bk_entries B)
    (<[next_id (bk_registration B) := c]> (bk_registration B)) (bk_topups B).

(** The welcome credit of account [uid], signed. *)
Record welcome (uid : Z) (c : CreditLedgerRow) : Prop := {
  wl_user : cr_user_id c = uid;
  wl_amount : cr_amount c = REGISTRATION_WELCOME_CREDIT_AMOUNT;
  wl_valid : registration_credit_integrity_status c = true
}.

Lemma next_id_fmap {V W} (f : V → W) (t : gmap Z V) : next_id (f <$> t) = next_id t.
Proof. unfold next_id. by rewrite map_to_list_fmap, <- list_fmap_compose. Qed.

Lemma books_add_user u d : books d = B → books (add_user u d) = stored u.
Proof.
  intros HB. unfold stored. rewrite <- HB. change (bk_balances (books d)) with (u_balance <$> users d).
  rewrite next_id_fmap. unfold books, add_user. cbn -[next_id]. by rewrite !fmap_insert.
Qed.

Lemma books_add_registration_credit c d :
  books (add_registration_credit c d) = mkBooks (bk_balances (books d)) (bk_limits (books d))
    (bk_entries (books d)) (<[next_id (bk_registration (books d)) := c]> (bk_registration (books d)))
    (bk_topups (books d)).
Proof. done. Qed.

Lemma signed_credit_welcome ref uid t c :
  signed_registration_credit ref uid t = Ok c → welcome uid c.
Proof.
  unfold signed_registration_credit, sign_registration_credit_integrity.
  destruct (_sign_credit_integrity _ _ _ _ _ _) as [[[[h k] al] v]|] eqn:E; [|done].
  simpl. intros [= <-]. split; [done|done|]. by apply sign_credit_verifies.
Qed.

Lemma no_credit_yet st :
  reconciled B → bk_registration (books (working st)) = bk_registration B →
  rows_where (λ c, cr_user_id c =? next_id (bk_balances B)) (registration_credits (working st)) = [].
Proof.
  intros R Hb. destruct (rows_where _ _) as [|[i c] l] eqn:E; [done|]. exfalso.
  assert ((i, c) ∈ rows_where (λ c, cr_user_id c =? next_id (bk_balances B))
    (registration_credits (working st))) as [Hi Hu%Z.eqb_eq]%rows_where_spec by (rewrite E; left).
  change (registration_credits (working st)) with (bk_registration (books (working st))) in Hi.
  rewrite Hb in Hi. destruct (rec_known_registration B R i c Hi) as [x Hx].
  rewrite Hu, next_id_fresh in Hx. done.
Qed.

Lemma welcome_credit_triple u :
  reconciled B → u_balance u = 0 →
  triple (books_are B (stored u)) (_apply_registration_welcome_credit (next_id (bk_balances B)))
    (λ _ st, ∃ c, welcome (next_id (bk_balances B)) c ∧ books_are B (opened_books u c) st)
    (λ _, durable B).
Proof.
  intros R H0. set (uid := next_id (bk_balances B)). unfold _apply_registration_welcome_credit.
  eapply triple_bind with (R := λ rows st, books_are B (stored u) st ∧ rows = []).
  { intros st [Hc Hw]. split; [done|]. apply no_credit_yet; [done|]. by rewrite Hw. }
  intros rows. apply triple_pure. intros ->.
  apply triple_step; [apply pres_fresh|by intros ? ? [? ?]|intros ref].
  apply triple_step; [apply pres_now|by intros ? ? [? ?]|intros t].
  eapply triple_bind with (R := λ c st, books_are B (stored u) st ∧ welcome uid c).
  { intros st Hs. unfold lift. destruct (signed_registration_credit _ _ _) as [c|e] eqn:Es.
    - split; [done|]. by eapply signed_credit_welcome.
    - by destruct Hs. }
  intros c. apply triple_pure. intros Es.
  eapply (triple_bind (books_are B (stored u)) _ _ (λ _, books_are B
    (mkBooks (<[uid := cr_amount c]> (bk_balances B)) (<[uid := user_limits u]> (bk_limits B))
       (bk_entries B) (bk_registration B) (bk_topups B)))).
  { intros st [Hc Hw]. split; [done|]. etransitivity; [apply books_adjust|]. rewrite Hw. simpl.
    f_equal. rewrite alter_insert_eq, H0. by rewrite (wl_amount _ _ Es). }
  intros _. eapply triple_bind with (R := λ _, books_are B (opened_books u c)).
  { intros st [Hc Hw]. split; [done|]. etransitivity; [apply books_add_registration_credit|].
    unfold opened_books. by rewrite Hw, (wl_user _ _ Es). }
  intros _. apply triple_step; [apply pres_lift|by intros ? ? [? ?]|intros reference].
  eapply triple_conseq; [apply audit_required_pending|done|by eauto|by intros ? ? [? ?]].
Qed.

Lemma failed_triple e (Q : unit → St → Prop) :
  triple (durable B) (registration_failed e) Q (λ _, durable B).
Proof.
  unfold registration_failed. eapply triple_bind with (R := λ _, settled B); [by intros st Hst|].
  intros _. destruct e; (apply triple_step; [solve_pres|by intros ? ? [? ?]|intros _];
    apply triple_raise; by intros ? [? ?]).
Qed.

(** The account [uid] has been opened for [u] with its welcome credit. *)
Definition account_opened (u : User) (uid : Z) (st : St) : Prop :=
  ∃ c, welcome uid c ∧ uid = next_id (bk_balances B) ∧ settled (opened_books u c) st.

Lemma registration_triple u email w :
  reconciled B → u_balance u = 0 →
  triple (settled B) (complete_registration u email w)
    (λ uid, account_opened u uid)
    (λ _ st, durable B st ∨ account_opened u (next_id (bk_balances B)) st).
Proof.
  intros R H0. unfold complete_registration.
  eapply triple_bind with (R := λ uid st, settled B st ∧ uid = next_id (bk_balances B)).
  { intros st [Hc Hw]. split; [done|]. rewrite <- Hw.
    change (bk_balances (books (working st))) with (u_balance <$> users (working st)).
    by rewrite next_id_fmap. }
  intros uid. apply triple_pure. intros ->. set (uid := next_id (bk_balances B)).
  eapply triple_bind with (R := λ _, books_are B (stored u)).
  { intros st [Hc Hw]. split; [done|]. by apply books_add_user. }
  intros _. eapply triple_bind with (R := λ _, account_opened u uid).
  - eapply triple_try with (X' := λ _, durable B); [|intros e|by left].
    + apply triple_step; [apply pres_flush|by intros ? ? [? ?]|intros _].
      eapply triple_bind; [by apply welcome_credit_triple|intros x0].
      intros st (c & Hwl & Hst). pose proof (commit_triple B (opened_books u c) st Hst) as Hcm.
      destruct (commit st) as [[x|e] st']; [|done]. exists c. by destruct Hcm.
    + eapply triple_conseq; [apply (failed_triple e (λ _ _, False))|done|done|by left].
  - intros _ st (c & Hwl & Hu & Hst). revert st Hst.
    apply triple_step; [apply pres_consume_email|right; by exists c|intros _].
    apply triple_step; [eauto with pres|right; by exists c|intros _].
    apply triple_ret. intros st Hst. by exists c.
Qed.

Lemma opened_step u uid st :
  limits_ok (user_limits u) = true → account_opened u uid st →
  ∃ B', ledger_step B B' ∧ settled B' st.
Proof.
  intros Hl (c & [Hu Ha Hv] & -> & Hs). exists (opened_books u c). split; [|done].
  unfold opened_books. rewrite Hu.
  pose proof (next_id_fresh (bk_balances B)) as Hf.
  pose proof (next_id_fresh (bk_registration B)) as Hg.
  assert (0 ≤ cr_amount c) as Hp by (rewrite Ha; unfold REGISTRATION_WELCOME_CREDIT_AMOUNT; lia).
  exact (step_open B _ (user_limits u) _ c Hf Hg Hu Hp Hl).
Qed.

Lemma register_triple data st0 :
  reconciled B → settled B st0 →
  triple (λ s, s = st0) (register_user data)
    (λ r st, ∃ e u, recently_verified st0 e ∧ fresh_customer e u ∧ account_opened u r.1 st)
    (λ _ st, durable B st ∨ ∃ e u, recently_verified st0 e ∧ fresh_customer e u
       ∧ account_opened u (next_id (bk_balances B)) st).
Proof.
  intros R Hst. eapply triple_conseq.
  - apply (form_triple (λ c w, books c = B ∧ books w = B)); [by intros f c w [? ?]|exact Hst|].
    intros e u w Hf. apply registration_triple; [done|apply Hf].
  - done.
  - done.
  - intros _ s [[? _]|(e & u & Hv & Hf & [Hd|Ho])]; [by left|by left|right; eauto].
Qed.
End Safety.

(** ** The stored row *)

(** Durably and for the request, the customers are [U]. *)
Definition people (U : gmap Z User) (c w : Db) : Prop := users c = U ∧ users w = U.
#[export] Instance people_blind U : audit_blind (people U).
Proof. by split; intros * [? ?]. Qed.

Section Row.
Context `{Env} (U : gmap Z User) (u : User).

(** The row of [u], at whatever balance, is added under the next key. *)
Definition joined (c w : Db) : Prop :=
  users c = U ∧ ∃ b, users w = <[next_id U := set_u_balance b u]> U.
Definition joined_durably (st : St) : Prop :=
  ∃ b, on_db (people (<[next_id U := set_u_balance b u]> U)) st.

Lemma joined_required t o v m : preserves (on_db joined) (audit_event_required t o v m).
Proof. apply pres_audit_event_required. by intros e c w [? ?]. Qed.
Lemma joined_credit : preserves (on_db joined) (_apply_registration_welcome_credit (next_id U)).
Proof.
  unfold _apply_registration_welcome_credit. solve_pres; try apply joined_required; apply pres_db_write.
  intros c w [Hc [b Hw]]. split; [done|]. exists (b + REGISTRATION_WELCOME_CREDIT_AMOUNT). cbn.
  by rewrite Hw, alter_insert_eq.
Qed.

Lemma completion_triple e w :
  triple (on_db (people U)) (complete_registration u e w)
    (λ uid st, uid = next_id U ∧ joined_durably st)
    (λ _ st, users (committed st) = U ∨ joined_durably st).
Proof.
  unfold complete_registration.
  eapply triple_bind with (R := λ uid st, on_db (people U) st ∧ uid = next_id U).
  { intros st [Hc Hw]. split; [done|]. by rewrite <- Hw. }
  intros uid. apply triple_pure. intros ->.
  eapply triple_bind with (R := λ _, on_db joined).
  { intros st [Hc Hw]. split; [done|]. exists (u_balance u). cbn. rewrite Hw. by destruct u. }
  intros _. eapply triple_bind with (R := λ _, joined_durably).
  - eapply triple_try with (X' := λ _ st, users (committed st) = U); [|intros x|by left].
    + apply triple_step; [apply pres_flush|by intros ? ? [? ?]|intros _].
      apply triple_step; [apply joined_credit|by intros ? ? [? ?]|intros _].
      intros st [Hc [b Hw]]. unfold commit. destruct (db_ok (working st)); [|done]. by exists b.
    + unfold registration_failed.
      eapply triple_bind with (R := λ _, on_db (people U)); [by intros st Hst|intros _].
      destruct x; (apply triple_step; [solve_pres|left; by destruct H0|intros _];
        apply triple_raise; intros st [? ?]; by left).
  - intros _ st [b Hst]. revert st Hst.
    apply triple_step; [by apply pres_consume_email|right; by exists b|intros _].
    apply triple_step; [eauto with pres|right; by exists b|intros _].
    apply triple_ret. intros st Hst. split; [done|by exists b].
Qed.
End Row.

(** The stored row of a customer who registered [e]: the default limits and the
    welcome credit. *)
Record registered `{Env} (e : string) (row : User) : Prop := {
  rg_email : u_email row = e;
  rg_canonical : ∃ canonical, canonicalize_customer_email e = Ok canonical
    ∧ u_registration_email_canonical row = Some canonical;
  rg_kind : u_account_type row = "customer" ∧ u_account_status row = "active";
  rg_balance : u_balance row = REGISTRATION_WELCOME_CREDIT_AMOUNT;
  rg_limits : user_limits row = mkLimits LOCAL_TRANSFER_DAILY_LIMIT_DEFAULT PAYUP_DAILY_LIMIT_DEFAULT
}.

Lemma joined_twice (U : gmap Z User) row V (f : User → V) : f <$> <[next_id U := row]> U ≠ f <$> U.
Proof.
  intros E. apply (f_equal (lookup (next_id U))) in E. rewrite !lookup_fmap, lookup_insert_eq, next_id_fresh in E.
  done.
Qed.

(** What the books say of the new account is what its row says. *)
Lemma opened_registered `{Env} B d e u uid b st :
  B = books d → fresh_customer e u → account_opened B u uid st →
  users (committed st) = <[uid := set_u_balance b u]> (users d) → registered e (set_u_balance b u).
Proof.
  intros -> (He & Hc & Ht & Ha & _ & Hl) (c & [Hu Hm _] & _ & [Hb _]) Hus.
  assert (u_balance <$> users (committed st) = <[uid := cr_amount c]> (u_balance <$> users d)) as Hbal
    by (rewrite <- Hu; exact (f_equal bk_balances Hb)).
  rewrite Hus in Hbal. apply (f_equal (lookup uid)) in Hbal.
  rewrite lookup_fmap, !lookup_insert_eq in Hbal. injection Hbal as ->. by split.
Qed.

(** The ledger and the customers move together. *)
Lemma register_both `{Env} data st :
  working st = committed st → reconciled (books (committed st)) →
  let U := users (committed st) in let B := books (committed st) in
  triple (λ s, s = st) (register_user data)
    (λ r s, ∃ e u, recently_verified st e ∧ fresh_customer e u
       ∧ account_opened B u r.1 s ∧ r.1 = next_id U ∧ joined_durably U u s)
    (λ _ s, on_db (λ c w, (books c = B ∧ books w = B) ∧ people U c w) s
       ∨ ∃ e u, recently_verified st e ∧ fresh_customer e u
         ∧ (durable B s ∨ account_opened B u (next_id (bk_balances B)) s)
         ∧ (users (committed s) = U ∨ joined_durably U u s)).
Proof.
  intros Hw R U B. assert (audit_blind (λ c w, (books c = B ∧ books w = B) ∧ people U c w))
    by (by split; intros * [[? ?] [? ?]]).
  apply (form_triple (λ c w, (books c = B ∧ books w = B) ∧ people U c w)
    ltac:(by intros f c w [[? ?] [? ?]]) data st
    (λ u uid s, account_opened B u uid s ∧ uid = next_id U ∧ joined_durably U u s)
    (λ u s, (durable B s ∨ account_opened B u (next_id (bk_balances B)) s)
            ∧ (users (committed s) = U ∨ joined_durably U u s))).
  - unfold on_db, people. by rewrite Hw.
  - intros e u w Hf s [Hb Hp].
    pose proof (registration_triple B u e w R (proj1 (proj2 (proj2 (proj2 (proj2 Hf))))) s Hb).
    pose proof (completion_triple U u e w s Hp). by destruct (complete_registration u e w s) as [[uid|x] s'].
Qed.

(** C35: An account is opened for a verified address, with its welcome credit, or
    not at all.  From a database whose books are reconciled, a registration either
    leaves the durable customers and books unchanged, or commits exactly one new
    row, an active customer account under an address this session verified at most
    five minutes earlier, and exactly one opening step: its balance is the signed,
    verifying welcome credit of 100.00, its daily limits are the defaults.  An
    error after the commit (its audit record) leaves the account opened. *)
Theorem registration_atomic `{Env} data st :
  working st = committed st → reconciled (books (committed st)) →
  let U := users (committed st) in let B := books (committed st) in
  let opened uid st' := ∃ e row c B', recently_verified st e
    ∧ users (committed st') = <[uid := row]> U ∧ uid = next_id U ∧ registered e row
    ∧ welcome uid c ∧ registration_credits (committed st')
                      = <[next_id (registration_credits (committed st)) := c]> (registration_credits (committed st))
    ∧ ledger_step B B' ∧ settled B' st' in
  match register_user data st with
  | (Ok (uid, _), st') => opened uid st'
  | (Raise _, st') => users (committed st') = U ∧ durable B st' ∨ opened (next_id U) st'
  end.
Proof.
  intros Hw R U B opened.
  assert (next_id (bk_balances B) = next_id U) as Hid by apply next_id_fmap.
  assert (∀ e u uid st', recently_verified st e → fresh_customer e u → account_opened B u uid st' →
    joined_durably U u st' → opened uid st') as Hopen.
  { intros e u uid st' Hv Hf Ho [b [Hc _]]. pose proof Ho as (c & Hwl & -> & [Hb _]).
    destruct (opened_step B u (next_id (bk_balances B)) st') as (B' & Hs & Hst); [|exact Ho|].
    { destruct Hf as (_ & _ & _ & _ & _ & Hl). by rewrite Hl. }
    rewrite Hid in *. exists e, (set_u_balance b u), c, B'. split_and!; try done.
    - by eapply (opened_registered B (committed st)).
    - exact (f_equal bk_registration Hb). }
  pose proof (register_both data st Hw R st eq_refl) as Ht. fold U B in Ht.
  destruct (register_user data st) as [[[uid w]|x] st'].
  - destruct Ht as (e & u & Hv & Hf & Ho & Hi & Hj). cbn in Ho, Hi. subst uid. by eapply Hopen.
  - destruct Ht as [[[Hb _] [Hp _]]|(e & u & Hv & Hf & [Hd|Ho] & Hu)]; [by left| |].
    + left. split; [|done]. destruct Hu as [Hu|[b [Hc _]]]; [done|]. exfalso.
      apply (f_equal bk_balances) in Hd. change (u_balance <$> users (committed st') = u_balance <$> U) in Hd.
      rewrite Hc in Hd. by apply joined_twice in Hd.
    + right. rewrite <- Hid. eapply Hopen; [done..|]. destruct Hu as [Hu|Hj]; [exfalso|done].
      destruct Ho as (c & [Hcu _ _] & _ & [Hb _]). apply (f_equal bk_balances) in Hb.
      change (u_balance <$> users (committed st') = <[cr_user_id c := cr_amount c]> (bk_balances B)) in Hb.
      rewrite Hu, Hcu in Hb. change (bk_balances B) with (u_balance <$> U) in Hb.
      apply (f_equal (lookup (next_id (bk_balances B)))) in Hb. rewrite lookup_insert_eq in Hb.
      rewrite lookup_fmap, Hid, next_id_fresh in Hb. done.
Qed.

(** ** Account numbers are found within ten draws *)

Section AccountNumbers.
Context `{Env}.

(** The digits drawn from the [i]-th effect on. *)
Definition digits_from (n i : nat) : string :=
  foldr (λ k rest, pretty (randbelow k 10) +:+ rest) "" (seq i n).
Definition number_free (d : Db) (candidate : string) : bool :=
  bool_decide (Forall (λ u, u_account_number u ≠ Some candidate) (map_to_list (users d)).*2).

Lemma random_digits_eq n s :
  random_digits n s = (Ok (digits_from n (effects s)), Nat.iter n next_effect s).
Proof.
  revert s. induction n as [|n IH]; intros s; simpl; [done|].
  erewrite bind_Ok by reflexivity. erewrite bind_Ok by apply IH. unfold ret. f_equal.
  rewrite <- Nat.iter_succ. by rewrite Nat.iter_succ_r.
Qed.

Lemma iter_working n s : working (Nat.iter n next_effect s) = working s
  ∧ effects (Nat.iter n next_effect s) = (effects s + n)%nat.
Proof. induction n as [|n [IH1 IH2]]; simpl; [split; [done|lia]|]. split; [done|]. rewrite IH2. lia. Qed.

Lemma taken_number c s :
  db_ok (working s) = true →
  taken (λ u, bool_decide (u_account_number u = Some c)) s = (Ok (negb (number_free (working s) c)), s).
Proof.
  intros Hok. unfold taken, bind, db_query, ret, number_free.
  destruct (bool_decide_reflect (Forall (λ u, u_account_number u ≠ Some c) (map_to_list (users (working s))).*2))
    as [Hf|Hf].
  - assert (one_or_none (λ u, bool_decide (u_account_number u = Some c)) (users (working s)) = Ok None) as ->;
      [|done].
    unfold one_or_none. destruct (rows_where _ _) as [|[id u] l] eqn:E; [done|]. exfalso.
    assert ((id, u) ∈ rows_where (λ u, bool_decide (u_account_number u = Some c)) (users (working s)))
      as [Hu Hc%bool_decide_eq_true]%rows_where_spec by (rewrite E; left).
    rewrite Forall_forall in Hf. apply (Hf u); [|done]. apply list_elem_of_fmap. exists (id, u).
    split; [done|]. by apply elem_of_map_to_list.
  - apply not_Forall_Exists in Hf; [|apply _]. apply Exists_exists in Hf as (u & Hu & Hc).
    apply list_elem_of_fmap in Hu as ([id u'] & Hu' & Hin). simpl in Hu'. subst u'.
    apply elem_of_map_to_list in Hin. apply dec_stable in Hc.
    erewrite (one_or_none_unique u_account_number); [done|by apply db_ok_account_numbers| |done|].
    + by intros w Hw%bool_decide_eq_true.
    + by apply bool_decide_eq_true.
Qed.

Lemma draw_eq n s :
  db_ok (working s) = true →
  let candidates := (λ k, digits_from 12 (effects s + 12 * k)) <$> seq 0 n in
  match List.find (number_free (working s)) candidates with
  | Some c => ∃ k, (k ≤ n)%nat ∧ draw_account_number n s = (Ok c, Nat.iter (12 * k) next_effect s)
  | None => draw_account_number n s
      = (Raise (AuthError "Could not generate a unique account number" 500 None),
         Nat.iter (12 * n) next_effect s)
  end.
Proof.
  revert s. induction n as [|n IH]; intros s Hok; [done|]. cbv zeta.
  rewrite <- cons_seq, fmap_cons. cbn [List.find]. rewrite Nat.mul_0_r, Nat.add_0_r.
  cbn [draw_account_number]. erewrite bind_Ok by apply random_digits_eq.
  destruct (iter_working 12 s) as [Hw He].
  set (s1 := Nat.iter 12 next_effect s) in *.
  erewrite bind_Ok by (apply taken_number; by rewrite Hw). rewrite Hw.
  destruct (number_free (working s) (digits_from 12 (effects s))).
  { exists 1%nat. split; [lia|]. done. }
  cbn [negb]. specialize (IH s1). cbv zeta in IH. rewrite Hw, He in IH. specialize (IH Hok).
  assert ((λ k, digits_from 12 (effects s + 12 * k)) <$> seq 1 n
    = (λ k, digits_from 12 (effects s + 12 + 12 * k)) <$> seq 0 n) as ->.
  { rewrite <- seq_shift, <- list_fmap_compose. apply list_fmap_ext. intros _ k _. simpl. f_equal. lia. }
  destruct (List.find _ _) as [c|].
  - destruct IH as (k & Hk & E). exists (S k). split; [lia|]. rewrite E. f_equal. unfold s1.
    rewrite <- Nat.iter_add. f_equal. lia.
  - rewrite IH. f_equal. unfold s1. rewrite <- Nat.iter_add. f_equal. lia.
Qed.

Lemma digits_format n i :
  (∀ k, 0 ≤ randbelow k 10 < 10) →
  slen (digits_from n i) = n ∧ forallb is_digit (chars (digits_from n i)) = true.
Proof.
  intros Hb. revert i. induction n as [|n IH]; intros i; [done|]. unfold digits_from. simpl.
  fold (digits_from n (S i)). destruct (IH (S i)) as [Hl Hd]. rewrite chars_app, forallb_app, Hd.
  assert (slen (pretty (randbelow i 10)) = 1%nat ∧ forallb is_digit (chars (pretty (randbelow i 10))) = true)
    as [Hl1 Hd1].
  { generalize (Hb i). generalize (randbelow i 10). intros z Hz.
    assert (z ∈ seqZ 0 10) as Hin by (apply elem_of_seqZ; lia). clear Hz. revert z Hin.
    apply Forall_forall. repeat constructor. }
  split; [|by rewrite Hd1]. rewrite <- length_chars, chars_app, length_app, !length_chars. lia.
Qed.
End AccountNumbers.

(** Drawing an account number ends within ten draws.  The candidates are the
    ten numbers the random source would give; the first one no account uses is
    returned, twelve digits long, after at most 120 random digits; when all ten
    are taken the registration is refused with status 500. *)
Theorem account_number_in_ten_draws `{Env} s :
  db_ok (working s) = true →
  let candidates := (λ k, digits_from 12 (effects s + 12 * k)) <$> seq 0 10 in
  match List.find (number_free (working s)) candidates with
  | Some c => (∃ k, (k ≤ 10)%nat ∧ _generate_account_number s = (Ok c, Nat.iter (12 * k) next_effect s))
      ∧ ((∀ k, 0 ≤ randbelow k 10 < 10) → account_number_format c = true)
  | None => _generate_account_number s
      = (Raise (AuthError "Could not generate a unique account number" 500 None),
         Nat.iter 120 next_effect s)
  end.
Proof.
  intros Hok candidates. pose proof (draw_eq 10 s Hok) as Hd. cbv zeta in Hd. fold candidates in Hd.
  destruct (List.find (number_free (working s)) candidates) as [c|] eqn:E; [|exact Hd].
  split; [exact Hd|]. intros Hb. apply find_some in E as [Hin _].
  apply list_elem_of_In, list_elem_of_fmap in Hin as (k & -> & _).
  destruct (digits_format 12 (effects s + 12 * k) Hb) as [Hl Hf].
  unfold account_number_format. by rewrite Hl, Hf.
Qed.

(** ** Witness: carol registers *)

#[local] Existing Instance Sample.sample_env.

Definition carol_data : RegistrationData :=
  mkRegistrationData (Some "carol@example.com") "carol" "correct horse" "correct horse" "Carol"
    "93333333".
Definition carol_state : St :=
  set_session (<[REGISTRATION_OTP_VERIFIED_EMAIL_KEY := JStr "carol@example.com"]>
    (<[REGISTRATION_OTP_VERIFIED_AT_KEY := JInt (Sample.noon / US_SECOND)]> ∅)) Sample.sample_state.
Definition carol_run := register_user carol_data carol_state.

Lemma account_number_witness :
  ∃ k, (k ≤ 10)%nat
    ∧ _generate_account_number Sample.sample_state
      = (Ok "012345678901", Nat.iter (12 * k) next_effect Sample.sample_state).
Proof.
  pose proof (account_number_in_ten_draws Sample.sample_state) as T.
  assert (List.find (number_free (working Sample.sample_state))
    ((λ k, digits_from 12 (effects Sample.sample_state + 12 * k)) <$> seq 0 10)
    = Some "012345678901") as E by (vm_compute; reflexivity).
  cbv zeta in T. rewrite E in T. apply T. vm_compute. reflexivity.
Defined.

Lemma registration_witness :
  carol_run.1 = Ok (3, [])
  ∧ ∃ e row, recently_verified carol_state e ∧ users (committed carol_run.2) !! 3 = Some row ∧ registered e row.
Proof.
  assert (carol_run.1 = Ok (3, [])) as E by (vm_compute; reflexivity).
  split; [exact E|].
  pose proof (registration_atomic carol_data carol_state eq_refl (proj1 sample_sound)) as Ht.
  cbv zeta in Ht. fold carol_run in Ht. destruct carol_run as [[[uid w]|e] st']; [|discriminate E].
  injection E as -> ->. destruct Ht as (e & row & c & B' & Hv & Hrow & _ & Hr & _). exists e, row.
  split; [exact Hv|]. split; [|exact Hr]. cbn [snd]. rewrite Hrow. apply lookup_insert_eq.
Defined.
End Registration.
