(* ===== verification/SignIn.v ===== *)
(** * Sign-in ([app/auth/services.py])

    Primary authentication by password, and the second factor that completes
    it.  A customer with an authenticator is only pending after the password;
    the session becomes theirs when a TOTP code or a recovery code is accepted.

    [_dummy_password_hash] caches its value in the application configuration;
    a later request finds it there, in its own [config]. *)

From S2P Require Import Prelude PyStr TimeModel Schema Runtime Sample Canonical Integrity AuditLog MfaCrypto.
From S2P Require Import Passwords SessionRisk BankingPolicy Notifications Sessions SessionStore RateLimits.
From S2P Require Import Mfa RecoveryCodes LoginFrame RegistrationOtp Registration.
From Stdlib Require Import Ascii.
Open Scope string_scope.
Open Scope Z_scope.

Module SignIn.
Import SessionHmac Audit MfaCrypto Passwords SessionRisk Policy Notifications Sessions SessionStore.
Import RateLimits Mfa RecoveryCodes LoginFrame Registration.

Definition GENERIC_LOGIN_ERROR : string := "Invalid username or password".
Definition ACCOUNT_AUTH_UNAVAILABLE_ERROR : string := "Authentication unavailable for this account".
Definition PASSWORD_BOOTSTRAP_AUTH_CONTEXT : string := "password_bootstrap".
Definition MFA_AUTH_CONTEXT : string := "password+mfa_bootstrap".

Record PublicUser : Type := mkPublicUser {
  pu_id : Z; pu_username : string; pu_email : string; pu_account_type : string;
  pu_mfa_enabled : bool; pu_is_frozen : bool
}.
Definition _public_user (user_id : Z) (user : User) : PublicUser :=
  mkPublicUser user_id (u_username user) (u_email user) (u_account_type user) (u_mfa_enabled user)
    (u_is_frozen user).

(** What [authenticate_primary] answers. *)
Inductive PrimaryOutcome : Type :=
  | MfaRequired
  | MfaSetupRequired (session_ref : string) (user : PublicUser).

Record LoginOutcome : Type := mkLoginOutcome {
  lo_session_ref : string; lo_user : PublicUser; lo_recovery_codes_remaining : Z;
  lo_recovery_codes_low : bool
}.

Definition set_user (user_id : Z) (f : User → User) : Db → Db := upd_users (alter f user_id).

Section SignIn.
Context `{Env}.

Definition _client_ip : string := str_or request_remote_addr "unknown".
Definition _auth_principal (identifier : string) : string := _client_ip +:+ ":" +:+ _normalize identifier.
Definition _customer_mfa_failure_principal (user_id : Z) : string := _client_ip +:+ ":" +:+ pretty user_id.

Definition _dummy_password_hash : M St string :=
  iterations <- lift (config_item "PASSWORD_PBKDF2_ITERATIONS") ;;
  pepper <- lift (config_item "PASSWORD_PEPPER_B64") ;;
  let config_fingerprint := sha256_hex (py_str iterations +:+ ":" +:+ py_str pepper) in
  let cached := config "_DUMMY_PASSWORD_HASH" in
  let cached_fingerprint := match config "_DUMMY_PASSWORD_HASH_CONFIG" with
                            | Some v => py_str v | None => "None" end in
  match cached with
  | Some v => if truthy v && bool_decide (cached_fingerprint = config_fingerprint) then ret (py_str v)
              else hash_password "not-a-real-sitbank-password"
  | None => hash_password "not-a-real-sitbank-password"
  end.

Definition _find_user_by_identifier (identifier : string) : M St (option (Z * User)) :=
  let normalized := _normalize identifier in
  db_query (λ d, one_or_none (λ u, bool_decide (casefold (u_username u) = normalized)
                                   || bool_decide (casefold (u_email u) = normalized)) (users d)).

(** ** The password *)

Definition _customer_password_matches (user : option (Z * User)) (password : string) : M St bool :=
  safe <- lift (is_password_raw_length_safe password) ;;
  if negb (safe : bool) then ret false
  else
    candidate_hash <- match user with
                      | Some (_, u) => ret (u_password_hash u)
                      | None => _dummy_password_hash
                      end ;;
    lift (verify_password password candidate_hash).

Definition is_customer (u : User) : bool := bool_decide (u_account_type u = "customer").

Definition _validate_customer_primary_credentials (user : option (Z * User))
    (identifier password principal : string) : M St (Z * User) :=
  matches <- _customer_password_matches user password ;;
  let other_identity := match user with Some (_, u) => negb (is_customer u) | None => false end in
  let failure_reason := if other_identity then "not_customer_identity" else "invalid_credentials" in
  match user with
  | Some kv => if (matches : bool) && negb other_identity then ret kv else
      principal_ref <- lift (principal_reference identifier) ;;
      _ <- audit_event "login" "failure" (Some kv.1)
             [("known_user", JBool true); ("reason", JStr failure_reason);
              ("principal_ref", jopt_str principal_ref)] ;;
      _ <- record_failure "login" principal None ;;
      _ <- (if is_customer kv.2 then
              _ <- db_write (set_user kv.1 (λ u, set_u_failed_login_count (u_failed_login_count u + 1) u)) ;;
              _record_user_security_failure kv.1 "password" "password_failed_attempts"
            else ret tt) ;;
      raise (AuthError GENERIC_LOGIN_ERROR 401 None)
  | None =>
      principal_ref <- lift (principal_reference identifier) ;;
      _ <- audit_event "login" "failure" None
             [("known_user", JBool false); ("reason", JStr failure_reason);
              ("principal_ref", jopt_str principal_ref)] ;;
      _ <- record_failure "login" principal None ;;
      raise (AuthError GENERIC_LOGIN_ERROR 401 None)
  end.

Definition automatic_lock_reasons : list string := ["password_failed_attempts"; "mfa_failed_attempts"].

(** The refusal an account's state calls for, if any: message, status, reason. *)
Definition account_state_refusal (user : User) : option (string * Z * string) :=
  let locked := bool_decide (is_Some (u_security_locked_at user)) in
  if locked && str_in (or_empty (u_security_lock_reason user)) automatic_lock_reasons
  then Some (GENERIC_LOGIN_ERROR, 401, or_empty (u_security_lock_reason user))
  else if u_is_frozen user
  then Some (ACCOUNT_AUTH_UNAVAILABLE_ERROR, 403, str_or (u_security_lock_reason user) "account_frozen")
  else if locked
  then Some (GENERIC_LOGIN_ERROR, 401, str_or (u_security_lock_reason user) "account_unavailable")
  else None.

Definition _enforce_customer_login_account_state (user_id : Z) : M St unit :=
  user <- load_user user_id ;;
  match account_state_refusal user with
  | None => ret tt
  | Some (message, status_code, reason) =>
      _ <- audit_event "login" "blocked" (Some user_id) [("reason", JStr reason)] ;;
      raise (AuthError message status_code None)
  end.

Definition ensure_account_can_authenticate (user_id : Z) : M St unit :=
  user <- load_user user_id ;;
  if u_is_frozen user || bool_decide (is_Some (u_security_locked_at user)) then
    _ <- audit_event "login" "blocked" (Some user_id)
           [("reason", JStr (str_or (u_security_lock_reason user) "account_frozen"))] ;;
    raise (AuthError ACCOUNT_AUTH_UNAVAILABLE_ERROR 403 None)
  else ret tt.

Definition authenticate_primary (identifier password : string) : M St PrimaryOutcome :=
  let principal := _auth_principal identifier in
  found <- _find_user_by_identifier identifier ;;
  _ <- _enforce_auth_backoff "login" principal ;;
  let* (user_id, user) := _validate_customer_primary_credentials found identifier password principal in
  _ <- _enforce_customer_login_account_state user_id ;;
  rehash <- lift (password_hash_needs_rehash (u_password_hash user)) ;;
  _ <- (if (rehash : bool) then
          hash <- hash_password password ;;
          db_write (set_user user_id (set_u_password_hash hash))
        else ret tt) ;;
  _ <- commit ;;
  if u_mfa_enabled user then
    _ <- clear_failures "customer_mfa_login" (_customer_mfa_failure_principal user_id) ;;
    _ <- begin_password_authenticated_session user_id ;;
    _ <- audit_event "login_password" "success" (Some user_id) [("mfa_required", JBool true)] ;;
    ret MfaRequired
  else
    session_id <- establish_authenticated_session user_id false PASSWORD_BOOTSTRAP_AUTH_CONTEXT ;;
    now <- now_utc ;;
    _ <- db_write (set_user user_id (λ u, set_u_last_login_at (Some now) (set_u_failed_login_count 0 u))) ;;
    _ <- commit ;;
    _ <- clear_failures "login" principal ;;
    _ <- _clear_user_security_failures user_id "password" ;;
    _ <- _audit_event "login" "success" (Some user_id) [("mfa_required", JBool false)]
           (Some session_id) false ;;
    session_ref <- lift (public_session_reference (Some session_id)) ;;
    user <- load_user user_id ;;
    ret (MfaSetupRequired session_ref (_public_user user_id user)).

(** ** The second factor *)

Definition is_durable_limit (e : exn) : bool :=
  match e with DurableRateLimitExceeded _ => true | _ => false end.
Definition limit_retry (e : exn) : Z := match e with DurableRateLimitExceeded n => n | _ => 0 end.

Definition _enforce_customer_mfa_failure_limit (user_id : Z) (principal : string) (failure_limit : Z)
    (audit_block : bool) : M St unit :=
  try_except (enforce_durable_failure_limit "customer_mfa_login" principal failure_limit)
    is_durable_limit
    (λ e, _ <- (if audit_block then
                  audit_event "mfa_login_verify" "blocked" (Some user_id)
                    [("reason", JStr "wrong_code_threshold_exceeded");
                     ("retry_after", JInt (limit_retry e))]
                else ret tt) ;;
          raise (AuthError GENERIC_MFA_ERROR 429 (Some (limit_retry e)))).

Definition _record_customer_mfa_login_failure (user_id : Z) (reason event_type : string) : M St unit :=
  let principal := _customer_mfa_failure_principal user_id in
  failure_limit <- lift (config_int "CUSTOMER_MFA_FAILURE_LIMIT") ;;
  failure_window_seconds <- lift (config_int "CUSTOMER_MFA_FAILURE_WINDOW_SECONDS") ;;
  attempts <- record_failure "customer_mfa_login" principal (Some failure_window_seconds) ;;
  let exceeded := failure_limit <? attempts in
  _ <- audit_event event_type (if exceeded then "blocked" else "failure") (Some user_id)
         [("reason", JStr (if exceeded then "wrong_code_threshold_exceeded" else reason));
          ("failure_count", JInt attempts)] ;;
  _ <- _record_user_security_failure user_id "mfa" "mfa_failed_attempts" ;;
  if exceeded then _enforce_customer_mfa_failure_limit user_id principal failure_limit false
  else ret tt.

Definition _send_mfa_recovery_code_used_notification (user_id : Z) : M St unit :=
  try_except (send_recovery_code_used_notification user_id) any_exn
    (λ _, audit_event "recovery_code_notification" "failure" (Some user_id)
            [("reason", JStr "email_delivery_failed")]).

Definition refuse_code {A} : M St A := raise (AuthError GENERIC_MFA_ERROR 401 None).

Definition _verify_pending_login_authentication_code (user_id : Z) (code : string) : M St string :=
  if _is_totp_code code then
    outcome <- _verify_totp_for_user_outcome user_id code "mfa_login" None false ;;
    match outcome with
    | TOTP_VERIFICATION_VALID => ret "totp"
    | TOTP_VERIFICATION_REPLAY =>
        _ <- audit_event "mfa_login_verify" "failure" (Some user_id) [("reason", JStr "totp_replay")] ;;
        refuse_code
    | TOTP_VERIFICATION_INVALID =>
        _ <- _record_customer_mfa_login_failure user_id "invalid_totp" "mfa_login_verify" ;;
        refuse_code
    end
  else
    consumed <- consume_recovery_code user_id code RECOVERY_CODE_PURPOSE_TOTP false ;;
    if negb (consumed : bool) then
      _ <- _record_customer_mfa_login_failure user_id "invalid_recovery_code" "mfa_recovery_code_verify" ;;
      refuse_code
    else
      _ <- _clear_user_security_failures user_id "mfa" ;;
      remaining <- unused_recovery_code_count user_id RECOVERY_CODE_PURPOSE_TOTP ;;
      _ <- audit_event_required "mfa_recovery_code_verify" "success" (Some user_id)
             [("remaining_codes", JInt remaining)] ;;
      _ <- commit ;;
      _ <- _send_mfa_recovery_code_used_notification user_id ;;
      ret "recovery_code".

Definition no_challenge {A} : M St A := raise (AuthError "No pending MFA challenge" 401 None).

Definition complete_pending_mfa (code : string) : M St LoginOutcome :=
  pending <- session_get "pending_mfa_user_id" ;;
  if negb (otruthy pending) then no_challenge
  else
    user_id <- lift (py_int pending) ;;
    found <- db_get (λ d, users d !! user_id) ;;
    _ <- match found with
         | Some u => if u_mfa_enabled u then ret tt else
             _ <- audit_event "mfa_login_verify" "failure" (Some user_id) [] ;; no_challenge
         | None => _ <- audit_event "mfa_login_verify" "failure" (Some user_id) [] ;; no_challenge
         end ;;
    _ <- ensure_account_can_authenticate user_id ;;
    let principal := _customer_mfa_failure_principal user_id in
    failure_limit <- lift (config_int "CUSTOMER_MFA_FAILURE_LIMIT") ;;
    _ <- _enforce_customer_mfa_failure_limit user_id principal failure_limit true ;;
    factor <- _verify_pending_login_authentication_code user_id code ;;
    now <- now_utc ;;
    _ <- db_write (set_user user_id (λ u, set_u_failed_login_count 0 (set_u_last_login_at (Some now) u))) ;;
    _ <- commit ;;
    _ <- clear_failures "customer_mfa_login" principal ;;
    user <- load_user user_id ;;
    _ <- clear_failures "login" (_auth_principal (u_username user)) ;;
    _ <- clear_failures "login" (_auth_principal (u_email user)) ;;
    _ <- _clear_user_security_failures user_id "password" ;;
    _ <- _clear_user_security_failures user_id "mfa" ;;
    recovery_codes_remaining <- unused_recovery_code_count user_id RECOVERY_CODE_PURPOSE_TOTP ;;
    session_id <- establish_authenticated_session user_id true MFA_AUTH_CONTEXT ;;
    _ <- _audit_event "mfa_login_verify" "success" (Some user_id) [("factor", JStr factor)]
           (Some session_id) false ;;
    session_ref <- lift (public_session_reference (Some session_id)) ;;
    user <- load_user user_id ;;
    ret (mkLoginOutcome session_ref (_public_user user_id user) recovery_codes_remaining
           (recovery_codes_remaining <=? RECOVERY_CODE_LOW_THRESHOLD)).
End SignIn.

(** ** What it takes to change who is signed in *)

Section Factors.
Context `{Env}.

(** The password is the one stored for a customer whose account is neither
    frozen nor locked. *)
Definition password_accepted (d : Db) (u : Z) (row : User) (password : string) : Prop :=
  users d !! u = Some row ∧ verify_password password (u_password_hash row) = Ok true
  ∧ is_customer row = true ∧ account_state_refusal row = None.

(** The code is accepted for the user's stored authenticator secret, or is one of
    the user's open recovery codes. *)
Definition factor_accepted_for (scope : string) (d : Db) (u : Z) (code : string) : Prop :=
  (∃ s0 secret s1 s2 step, users (working s0) = users d
     ∧ _mfa_secret_for_user u s0 = (Ok secret, s1) ∧ accepted u secret code scope s1 s2 step)
  ∨ ∃ hmac id r, _recovery_code_hmac u RECOVERY_CODE_PURPOSE_TOTP code = Ok hmac
      ∧ recovery_codes d !! id = Some r ∧ redeemable u RECOVERY_CODE_PURPOSE_TOTP hmac r = true.
Definition factor_accepted := factor_accepted_for "mfa_login".

Lemma begin_login u s : login_is (pending_for_user u) (begin_password_authenticated_session u s).2.
Proof.
  unfold begin_password_authenticated_session, _now. do 7 (erewrite bind_Ok by reflexivity).
  apply (keeps_login rotate_session_id); [intros; apply sk_rotate|]. done.
Qed.

Lemma establish_login u b context s :
  login_is (signed_in u context) (establish_authenticated_session u b context s).2.
Proof.
  unfold establish_authenticated_session, utc_now_iso, _now. do 9 (erewrite bind_Ok by reflexivity).
  destruct b; [erewrite (bind_Ok (_ <- session_put _ _ ;; _)) by reflexivity
              |erewrite (bind_Ok (ret tt)) by reflexivity];
  match goal with |- login_is ?v (?c ?st).2 =>
    apply (keeps_login c (λ k w Hk, ltac:(solve_pres)) v st) end; done.
Qed.

Ltac keep := apply keeps_login; intros ???; solve_pres.

(** The session is unchanged, and so are the users. *)
Definition unmoved (v : Login) (U : gmap Z User) (s : St) : Prop :=
  login_is v s ∧ users (committed s) = U ∧ users (working s) = U.

Definition users_are (U : gmap Z User) (c w : Db) : Prop := users c = U ∧ users w = U.
#[local] Instance users_are_blind U : audit_blind (users_are U).
Proof. split; by intros * [? ?]. Qed.

Lemma unmoved_pres {A} (c : M St A) v U :
  (∀ k w, k ∈ login_keys → preserves (session_key k w) c) → preserves (on_db (users_are U)) c →
  preserves (unmoved v U) c.
Proof.
  intros Hl Hu. apply pres_and; [by apply keeps_login|exact Hu].
Qed.

Lemma backoff_users U sc p : preserves (on_db (users_are U)) (_enforce_auth_backoff sc p).
Proof.
  unfold _enforce_auth_backoff. apply pres_try.
  - apply pres_backoff; [apply _|]. by intros f c w [? ?].
  - solve_pres.
Qed.

Lemma dummy_users U : preserves (on_db (users_are U)) _dummy_password_hash.
Proof. unfold _dummy_password_hash, hash_password. cbv zeta. solve_pres. Qed.
Lemma sk_dummy k v : preserves (session_key k v) _dummy_password_hash.
Proof. unfold _dummy_password_hash. cbv zeta. solve_pres. Qed.
Hint Resolve dummy_users sk_dummy : pres.

(** Checking the password returns the user it was checked for. *)
Lemma validate_triple v U found identifier password principal :
  triple (unmoved v U) (_validate_customer_primary_credentials found identifier password principal)
    (λ kv s, unmoved v U s ∧ (found = Some kv ∧ is_customer kv.2 = true
       ∧ verify_password password (u_password_hash kv.2) = Ok true))
    (λ _, login_is v).
Proof.
  unfold _validate_customer_primary_credentials.
  eapply triple_bind with (R := λ ok s, unmoved v U s
    ∧ (∀ kv, found = Some kv → ok = true → verify_password password (u_password_hash kv.2) = Ok true)).
  - apply triple_fact; [| |by intros ? ? [? _]].
    + apply unmoved_pres; [intros ???|]; unfold _customer_password_matches; solve_pres.
    + intros s ok s' _ E [u row] -> ->. unfold _customer_password_matches in E. inv_bind E.
      destruct (negb a); [unfold ret in E; by simplify_eq|]. inv_bind E.
      unfold ret in E1. injection E1 as <- <-. unfold lift in E. by injection E.
  - intros ok. apply triple_pure. intros Hok. cbv zeta.
    destruct found as [[u row]|]; simpl.
    + destruct (ok && negb (negb (is_customer row))) eqn:Eb.
      * apply andb_true_iff in Eb as [-> Eb]. rewrite negb_involutive in Eb.
        apply triple_ret. intros s Hs. split; [done|]. split_and!; [done|done|]. by apply (Hok (u, row)).
      * apply triple_raises; [solve_raises|keep|by intros ? [? _]].
    + apply triple_raises; [solve_raises|keep|by intros ? [? _]].
Qed.

Lemma state_triple v U u :
  triple (unmoved v U) (_enforce_customer_login_account_state u)
    (λ _ s, unmoved v U s ∧ ∀ row, U !! u = Some row → account_state_refusal row = None)
    (λ _, login_is v).
Proof.
  apply triple_fact; [| |by intros ? ? [? _]].
  - apply unmoved_pres; [intros ???|]; unfold _enforce_customer_login_account_state; solve_pres.
  - intros s x s' (_ & _ & Hw) E row Hrow. unfold _enforce_customer_login_account_state in E. inv_bind E.
    unfold load_user, db_query in E0. rewrite Hw, Hrow in E0. injection E0 as <- <-.
    by destruct (account_state_refusal row) as [[[m c] r]|]; [inv_bind E|].
Qed.

(** After the password, the session is the caller's old one, or pending for the
    user whose password it was, or, for a user without an authenticator, signed
    in to set one up. *)
Definition after_password (password : string) (s0 s : St) : Prop :=
  ∃ u row, password_accepted (working s0) u row password
    ∧ login_is (if u_mfa_enabled row then pending_for_user u
                else signed_in u PASSWORD_BOOTSTRAP_AUTH_CONTEXT) s.

Lemma primary_triple identifier password s0 :
  users (working s0) = users (committed s0) →
  triple (λ s, s = s0) (authenticate_primary identifier password)
    (λ _, after_password password s0)
    (λ _ s, login_is (login_of (session s0)) s ∨ after_password password s0 s).
Proof.
  intros Hclean. set (v := login_of (session s0)). set (U := users (working s0)).
  unfold authenticate_primary. cbv zeta.
  eapply triple_bind with (R := λ found s, unmoved v U s
    ∧ ∀ kv, found = Some kv → U !! kv.1 = Some kv.2).
  { intros s ->. unfold _find_user_by_identifier, db_query. destruct (one_or_none _ _) as [o|e] eqn:Eo.
    - split; [by split_and!; rewrite <- ?Hclean|]. intros [u row] ->. by apply one_or_none_Some in Eo as [? _].
    - by left. }
  intros found. apply triple_pure. intros Hfound.
  apply triple_step; [|intros ? ? [? _]; by left|intros _].
  { apply unmoved_pres; [intros ???; solve_pres|apply backoff_users]. }
  eapply triple_bind; [eapply triple_conseq; [apply validate_triple|done|done|by left]|].
  intros [u row]. apply triple_pure. intros (-> & Hcust & Hpw). specialize (Hfound _ eq_refl). simpl in *.
  eapply triple_bind; [eapply triple_conseq; [apply state_triple|done|done|by left]|].
  intros []. apply triple_pure. intros Hstate. specialize (Hstate row Hfound).
  assert (password_accepted (working s0) u row password) as Hacc by done.
  eapply (triple_conseq _ (login_is v)); [|by intros ? [? _]|intros ? ? Hx; exact Hx|intros ? ? Hx; exact Hx].
  do 3 (apply triple_step; [keep|by left|intros ?]).
  assert (∀ s, login_is (if u_mfa_enabled row then pending_for_user u
    else signed_in u PASSWORD_BOOTSTRAP_AUTH_CONTEXT) s → after_password password s0 s) as Hafter
    by (intros s Hs; by exists u, row).
  destruct (u_mfa_enabled row).
  - apply triple_step; [keep|by left|intros _].
    eapply triple_bind with (R := λ _, login_is (pending_for_user u)).
    { intros s _. pose proof (begin_login u s) as Hb. destruct (begin_password_authenticated_session u s)
        as [[[]|e] s']; [exact Hb|right; by apply Hafter]. }
    intros _. apply triple_step; [keep|right; by apply Hafter|intros _].
    apply triple_ret. exact Hafter.
  - eapply triple_bind with (R := λ _, login_is (signed_in u PASSWORD_BOOTSTRAP_AUTH_CONTEXT)).
    { intros s _. pose proof (establish_login u false PASSWORD_BOOTSTRAP_AUTH_CONTEXT s) as Hb.
      destruct (establish_authenticated_session _ _ _ s) as [[sid|e] s']; [exact Hb|right; by apply Hafter]. }
    intros sid. do 8 (apply triple_step; [keep|right; by apply Hafter|intros ?]).
    apply triple_ret. exact Hafter.
Qed.

(** The session and the data the factors are checked against are unchanged. *)
Definition same_factors (v : Login) (d : Db) (s : St) : Prop :=
  login_is v s ∧ users (working s) = users d ∧ recovery_codes (working s) = recovery_codes d.

Lemma factors_pres {A} (c : M St A) v d :
  (∀ k w, k ∈ login_keys → preserves (session_key k w) c) →
  preserves (on_db (λ _ w, users w = users d ∧ recovery_codes w = recovery_codes d)) c →
  preserves (same_factors v d) c.
Proof. intros Hl Hu. apply pres_and; [by apply keeps_login|exact Hu]. Qed.

Lemma limit_check_triple v d u principal n b :
  triple (same_factors v d) (_enforce_customer_mfa_failure_limit u principal n b)
    (λ _, same_factors v d) (λ _, login_is v).
Proof.
  intros s Hs.
  assert (preserves (same_factors v d) (enforce_durable_failure_limit "customer_mfa_login" principal n)) as Hp.
  { apply factors_pres; [intros ???; solve_pres|]. unfold enforce_durable_failure_limit, _load_counter.
    solve_pres. }
  assert (preserves (login_is v) (_enforce_customer_mfa_failure_limit u principal n b)) as Hl.
  { unfold _enforce_customer_mfa_failure_limit. keep. }
  specialize (Hl s (proj1 Hs)).
  destruct (_enforce_customer_mfa_failure_limit u principal n b s) as [[[]|e] s'] eqn:E; [|exact Hl].
  apply try_raises_inv in E; [|intros e; solve_raises]. specialize (Hp s Hs). by rewrite E in Hp.
Qed.

Lemma totp_factor scope u code tf s s1 :
  _verify_totp_for_user_outcome u code scope None tf s = (Ok TOTP_VERIFICATION_VALID, s1) →
  factor_accepted_for scope (working s) u code.
Proof.
  unfold _verify_totp_for_user_outcome. intros E. inv_bind E.
  apply valid_accepted in E as (step & Hacc). left. by exists s, a, s0, s1, step.
Qed.

Lemma recovery_factor scope u code s s1 :
  consume_recovery_code u code RECOVERY_CODE_PURPOSE_TOTP false s = (Ok true, s1) →
  factor_accepted_for scope (working s) u code.
Proof.
  unfold consume_recovery_code. intros E. inv_bind E. unfold lift in E0. injection E0 as Hh <-.
  inv_bind E. unfold db_query in E0. injection E0 as Ho <-. destruct a0 as [[id r]|].
  - apply one_or_none_Some in Ho as [Hr Hred]. right. by exists a, id, r.
  - inv_bind E. unfold ret in E. by simplify_eq.
Qed.

Lemma login_code_triple v d u code :
  triple (same_factors v d) (_verify_pending_login_authentication_code u code)
    (λ _ s, login_is v s ∧ factor_accepted d u code) (λ _, login_is v).
Proof.
  intros s Hs. assert (preserves (login_is v) (_verify_pending_login_authentication_code u code)) as Hl.
  { unfold _verify_pending_login_authentication_code, _record_customer_mfa_login_failure,
      _enforce_customer_mfa_failure_limit, _send_mfa_recovery_code_used_notification, refuse_code.
    cbv zeta. keep. }
  specialize (Hl s (proj1 Hs)). destruct Hs as (_ & Hu & Hr).
  destruct (_verify_pending_login_authentication_code u code s) as [[f|e] s'] eqn:E; [|exact Hl].
  split; [exact Hl|]. unfold _verify_pending_login_authentication_code, refuse_code in E.
  destruct (_is_totp_code code).
  - inv_bind E. destruct a; [|by inv_bind E..]. apply totp_factor in E0.
    destruct E0 as [(s2 & x)|(h & id & r & x)]; [left|right; exists h, id, r; by rewrite <- Hr].
    exists s2. by rewrite <- Hu.
  - inv_bind E. destruct a; cbn [negb] in E; [|by inv_bind E]. apply (recovery_factor "mfa_login") in E0.
    destruct E0 as [(s2 & x)|(h & id & r & x)]; [left|right; exists h, id, r; by rewrite <- Hr].
    exists s2. by rewrite <- Hu.
Qed.

(** After the second factor: signed in as the user whose factor was pending. *)
Definition after_factor (code : string) (s0 s : St) : Prop :=
  ∃ u, otruthy (session s0 !! "pending_mfa_user_id") = true
    ∧ py_int (session s0 !! "pending_mfa_user_id") = Ok u
    ∧ factor_accepted (working s0) u code ∧ login_is (signed_in u MFA_AUTH_CONTEXT) s.

Lemma second_factor_triple code s0 :
  triple (λ s, s = s0) (complete_pending_mfa code) (λ _, after_factor code s0)
    (λ _ s, login_is (login_of (session s0)) s ∨ after_factor code s0 s).
Proof.
  set (v := login_of (session s0)). unfold complete_pending_mfa, no_challenge.
  eapply triple_bind with (R := λ pending s, same_factors v (working s0) s
    ∧ pending = session s0 !! "pending_mfa_user_id"); [by intros s ->|].
  intros pending. apply triple_pure. intros ->. destruct (otruthy _) eqn:Ht; [|by intros s [? _]; left].
  simpl. eapply triple_bind with (R := λ u s, same_factors v (working s0) s
    ∧ py_int (session s0 !! "pending_mfa_user_id") = Ok u).
  { intros s Hs. unfold lift. destruct (py_int _); [done|left; by apply Hs]. }
  intros u. apply triple_pure. intros Hu.
  apply triple_step; [by intros s Hs|by intros ? ? [? _]; left|intros found].
  eapply triple_bind with (R := λ _, same_factors v (working s0)).
  { assert (∀ Q, triple (same_factors v (working s0))
      (_ <- audit_event "mfa_login_verify" "failure" (Some u) [] ;;
       raise (A:=unit) (AuthError "No pending MFA challenge" 401 None)) Q
      (λ _ s, login_is v s ∨ after_factor code s0 s)) as Hno.
    { intros Q. eapply triple_conseq; [apply (triple_raises _ (login_is v))|done|intros ? ? Hx; exact Hx|by left];
        [solve_raises|keep|by intros ? [? _]]. }
    destruct found as [row|]; [destruct (u_mfa_enabled row)|]; [by apply triple_ret|apply Hno..]. }
  intros _. eapply triple_bind with (R := λ _, same_factors v (working s0)).
  { unfold ensure_account_can_authenticate.
    apply triple_step; [by intros s Hs|by intros ? ? [? _]; left|intros row].
    destruct (_ || _); [|by apply triple_ret].
    eapply triple_conseq; [apply (triple_raises _ (login_is v))|done|intros ? ? Hx; exact Hx|by left];
      [solve_raises|keep|by intros ? [? _]]. }
  intros _. cbv zeta. apply triple_step; [by intros s Hs|by intros ? ? [? _]; left|intros n].
  eapply triple_bind; [eapply triple_conseq; [apply limit_check_triple|done|done|by left]|intros []].
  eapply triple_bind; [eapply triple_conseq; [apply login_code_triple|done|done|by left]|intros factor].
  apply triple_pure. intros Hfactor.
  do 10 (apply triple_step; [keep|by left|intros ?]).
  assert (∀ s, login_is (signed_in u MFA_AUTH_CONTEXT) s → after_factor code s0 s) as Hafter
    by (intros s Hs; by exists u).
  eapply triple_bind with (R := λ _, login_is (signed_in u MFA_AUTH_CONTEXT)).
  { intros s _. pose proof (establish_login u true MFA_AUTH_CONTEXT s) as Hb.
    destruct (establish_authenticated_session _ _ _ s) as [[sid|e] s']; [exact Hb|right; by apply Hafter]. }
  intros sid. do 3 (apply triple_step; [keep|right; by apply Hafter|intros ?]).
  apply triple_ret. exact Hafter.
Qed.
End Factors.
End SignIn.
