(* ===== verification/Account.v ===== *)
(** * Account security ([app/auth/services.py])

    What a signed-in customer does to the account itself: setting up and
    replacing the authenticator, renewing the recovery codes, changing the
    password, freezing the account, and ending sessions. *)

From S2P Require Import Prelude PyStr Base64 TimeModel Schema Runtime Sample Canonical Integrity AuditLog.
From S2P Require Import MfaCrypto Passwords PasswordHistory SessionRisk BankingPolicy Notifications Sessions.
From S2P Require Import SessionStore RateLimits Mfa RecoveryCodes LoginFrame RegistrationOtp Registration SignIn.
From Stdlib Require Import Ascii.
Open Scope string_scope.
Open Scope Z_scope.

Module Account.
Import SessionHmac Audit MfaCrypto Passwords PasswordHistory SessionRisk Policy Notifications Sessions.
Import SessionStore RateLimits Mfa RecoveryCodes LoginFrame Registration SignIn TimeDisplay.

Definition MFA_NOT_ENABLED_ERROR : string := "MFA is not enabled".
Definition MFA_REPLACEMENT_NONCE_KEY : string := "mfa_replacement_secret_nonce".
Definition MFA_REPLACEMENT_CIPHERTEXT_KEY : string := "mfa_replacement_secret_ciphertext".
Definition MFA_REPLACEMENT_STARTED_AT_KEY : string := "mfa_replacement_started_at".

Record MfaSetup : Type := mkMfaSetup {
  ms_issuer : string; ms_manual_entry_secret : string; ms_otpauth_uri : string;
  ms_qr_code_data_uri : string
}.

(** What a successful enrolment answers with. *)
Record MfaVerified : Type := mkMfaVerified {
  mv_session_ref : string; mv_recovery_codes : list string; mv_revoked_other_sessions : Z
}.

Definition is_reuse_error (e : exn) : bool := match e with PasswordReuseError _ => true | _ => false end.
Definition reuse_reason (e : exn) : string := match e with PasswordReuseError r => r | _ => "" end.
Definition policy_message (e : exn) : string := match e with PasswordPolicyError m => m | _ => "" end.
Definition is_unreadable_secret (e : exn) : bool :=
  match e with InvalidTag => true | _ => is_value_error e end.

Definition set_secret (nonce ciphertext : option string) (u : User) : User :=
  set_u_mfa_secret_ciphertext ciphertext (set_u_mfa_secret_nonce nonce u).
Definition set_pending (started_at : option Z) (session_hash : option string) (u : User) : User :=
  set_u_mfa_pending_session_hash session_hash (set_u_mfa_pending_started_at started_at u).
Definition screening (warnings : list string) : jval :=
  JStr (if bool_decide (warnings = []) then "local_and_live" else "local_only_fallback").

(** [base64.b64decode(value.encode("ascii"), validate=True)]. *)
Definition b64decode_text (value : string) : res string :=
  match (if is_ascii value then b64decode true value else None) with
  | Some bytes => Ok bytes
  | None => Raise (ValueError "invalid base64")
  end.

Section Account.
Context `{Env}.

Definition qr_data_uri (data : string) : string := "data:image/png;base64," +:+ b64encode (qr_png data).

(** ** Notifications *)

Definition _current_device_summary : string :=
  if has_request_context then summarize_user_agent user_agent_text else "unknown device".

Definition account_change_body (item action_label outcome when_label : string) : string :=
  if bool_decide (outcome = "success") then
    lines [EMAIL_GREETING; "";
           "This is to confirm that your " +:+ item +:+ " was successfully "
             +:+ (if bool_decide (item = "password") then "changed" else "updated") +:+ " on "
             +:+ when_label +:+ " via " +:+ _current_device_summary +:+ ".";
           "If you made this change, no further action is required. If you did "
             +:+ "not authorise this change, please log in immediately to review your "
             +:+ "account activity and contact us without delay to secure your account.";
           ""; EMAIL_CLOSING; ""; EMAIL_SIGN_OFF]
  else
    lines [EMAIL_GREETING; "";
           "We detected an unsuccessful attempt to " +:+ action_label +:+ " your " +:+ item
             +:+ " on " +:+ when_label +:+ " via " +:+ _current_device_summary +:+ ".";
           "If this was you, please try again. If you did not attempt this "
             +:+ "change, please log in immediately to review your account activity "
             +:+ "and consider changing your password and/or MFA settings as a " +:+ "precaution.";
           ""; EMAIL_CLOSING; ""; EMAIL_SIGN_OFF].

(** A message whose failure is audited and swallowed. *)
Definition send_quietly (user_id : Z) (subject text event_type : string) : M St unit :=
  delivered <- try_except
    (user <- load_user user_id ;; _ <- send_security_email (u_email user) subject text ;; ret true)
    any_exn (λ _, ret false) ;;
  if (delivered : bool) then audit_event event_type "queued" (Some user_id) []
  else audit_event event_type "failure" (Some user_id) [("reason", JStr "email_delivery_failed")].

Definition _send_account_change_notification (user_id : Z) (item outcome : string) : M St unit :=
  when <- now_utc ;;
  let when_label := sgt_date (Some (Naive when)) +:+ " at " +:+ sgt_time (Some (Naive when)) in
  let outcome := if bool_decide (outcome = "success") then "success" else "failure" in
  let action_label := if bool_decide (item = "password") then "change" else "update" in
  let event_type := if bool_decide (item = "password") then "password_change_notification"
                    else "profile_update_notification" in
  send_quietly user_id
    ("SITBank " +:+ item +:+ " " +:+ action_label
       +:+ (if bool_decide (outcome = "success") then " successful" else " unsuccessful"))
    (account_change_body item action_label outcome when_label) event_type.

Definition _send_account_freeze_notification (user_id : Z) : M St unit :=
  send_quietly user_id "SITBank account frozen"
    ("Your SITBank account was frozen from an authenticated session. "
       +:+ "If you did not request this, contact SITBank support through the approved recovery path.")
    "account_freeze_notification".

(** ** Setting up the authenticator *)

Definition _mfa_setup_payload (user_id : Z) (secret : string) : M St MfaSetup :=
  user <- load_user user_id ;;
  issuer <- lift (config_item "MFA_ISSUER_NAME") ;;
  let uri := provisioning_uri secret (u_email user) (py_str issuer) in
  ret (mkMfaSetup (py_str issuer) secret uri (qr_data_uri uri)).

Definition _mfa_setup_session_hash : M St string :=
  sid <- current_session_id ;;
  lift (active_hmac_hex ("mfa-setup-session:" +:+ default "None" sid) 64).

Definition refuse_account {A} (user_id : Z) (event reason message : string) (status : Z) : M St A :=
  _ <- audit_event event "failure" (Some user_id) [("reason", JStr reason)] ;;
  raise (AuthError message status None).

Definition generate_mfa_setup (user_id : Z) : M St MfaSetup :=
  user <- load_user user_id ;;
  _ <- lift (ensure_account_not_frozen user "MFA setup") ;;
  _ <- guard (u_mfa_enabled user)
         (refuse_account user_id "mfa_setup_generate" "already_enabled" "MFA is already enabled" 409) ;;
  _ <- (if has_enrolled_mfa_method user then
          recent <- has_recent_fresh_mfa ;;
          guard (negb recent) (refuse_account user_id "mfa_setup_generate" "fresh_mfa_required"
            "Recent MFA verification is required before adding another MFA method" 403)
        else ret tt) ;;
  secret <- fresh random_base32 ;;
  let* (nonce, ciphertext) := encrypt_mfa_secret secret user_id None in
  started_at <- now_utc ;;
  session_hash <- _mfa_setup_session_hash ;;
  _ <- db_write (set_user user_id (λ u, set_pending (Some started_at) (Some session_hash)
         (set_u_mfa_enabled false (set_secret (Some nonce) (Some ciphertext) u)))) ;;
  _ <- commit ;;
  _ <- audit_event "mfa_setup_generate" "success" (Some user_id) [] ;;
  _mfa_setup_payload user_id secret.

(** Is the pending secret recent, and of this session?  If not it is dropped. *)
Definition _require_active_pending_mfa_setup (user_id : Z) (raise_error : bool) : M St bool :=
  user <- load_user user_id ;;
  let binding := or_empty (u_mfa_pending_session_hash user) in
  active <- match u_mfa_pending_started_at user with
            | Some started_at =>
                if negb (nonempty binding) then ret false
                else
                  now <- now_utc ;;
                  if now - started_at <? 0 then ret false
                  else
                    limit <- lift (config_int "PENDING_MFA_MAX_AGE_SECONDS") ;;
                    if limit * US_SECOND <? now - started_at then ret false
                    else
                      session_hash <- _mfa_setup_session_hash ;;
                      ret (bool_decide (binding = session_hash))
            | None => ret false
            end ;;
  if (active : bool) then ret true
  else
    _ <- guard (bool_decide (is_Some (u_mfa_pending_started_at user)) || nonempty binding
                || nonempty (or_empty (u_mfa_secret_nonce user))
                || nonempty (or_empty (u_mfa_secret_ciphertext user)))
           (_ <- db_write (set_user user_id (λ u, set_pending None None (set_secret None None u))) ;;
            _ <- commit ;;
            audit_event "mfa_setup_pending" "expired" (Some user_id) []) ;;
    if raise_error then raise (AuthError "MFA setup expired. Start again." 401 None) else ret false.

Definition pending_mfa_setup (user_id : Z) : M St unit :=
  user <- load_user user_id ;;
  if u_mfa_enabled user || negb (nonempty (or_empty (u_mfa_secret_nonce user)))
     || negb (nonempty (or_empty (u_mfa_secret_ciphertext user))) then ret tt
  else _ <- _require_active_pending_mfa_setup user_id false ;; ret tt.

(** Answers a code that was not accepted. *)
Definition require_valid (user_id : Z) (action : string) (outcome : TotpVerificationOutcome) : M St unit :=
  match outcome with
  | TOTP_VERIFICATION_REPLAY => _handle_mfa_verification_replay user_id action
  | TOTP_VERIFICATION_INVALID => _handle_mfa_verification_failure user_id action
  | TOTP_VERIFICATION_VALID => ret tt
  end.

Definition renew_codes (user_id : Z) : M St (list string) :=
  generate_recovery_codes_for_user user_id RECOVERY_CODE_COUNT RECOVERY_CODE_PURPOSE_TOTP false false.

Definition verify_mfa_setup (user_id : Z) (code : string) : M St MfaVerified :=
  _ <- _require_active_pending_mfa_setup user_id true ;;
  outcome <- _verify_totp_for_user_outcome user_id code "mfa_setup" None true ;;
  _ <- require_valid user_id "mfa_setup_verify" outcome ;;
  _ <- db_write (set_user user_id (λ u, set_pending None None (set_u_mfa_enabled true u))) ;;
  recovery_codes <- renew_codes user_id ;;
  session_id <- rotate_authenticated_session_after_mfa user_id ;;
  _ <- _audit_event "mfa_setup_verify" "success" (Some user_id)
         [("recovery_code_count", JInt (Z.of_nat (length recovery_codes)))] (Some session_id) true ;;
  _ <- commit ;;
  session_ref <- lift (public_session_reference (Some session_id)) ;;
  ret (mkMfaVerified session_ref recovery_codes 0).

(** ** Replacing it *)

Definition _clear_pending_mfa_replacement : M St unit :=
  _ <- session_pop MFA_REPLACEMENT_NONCE_KEY ;;
  _ <- session_pop MFA_REPLACEMENT_CIPHERTEXT_KEY ;;
  _ <- session_pop MFA_REPLACEMENT_STARTED_AT_KEY ;;
  ret tt.

Definition refuse_without_mfa (user : User) (user_id : Z) (event : string) : M St unit :=
  guard (negb (u_mfa_enabled user))
    (refuse_account user_id event "mfa_not_enabled" MFA_NOT_ENABLED_ERROR 403).

Definition generate_mfa_replacement (user_id : Z) (code : option string) : M St MfaSetup :=
  user <- load_user user_id ;;
  _ <- lift (ensure_account_not_frozen user "MFA replacement") ;;
  _ <- refuse_without_mfa user user_id "mfa_replace_start" ;;
  _ <- verify_high_risk_authorization user_id code "mfa_replace_start" true ;;
  secret <- fresh random_base32 ;;
  let* (nonce, ciphertext) := encrypt_mfa_secret secret user_id None in
  _ <- session_put MFA_REPLACEMENT_NONCE_KEY (JStr (b64encode nonce)) ;;
  _ <- session_put MFA_REPLACEMENT_CIPHERTEXT_KEY (JStr (b64encode ciphertext)) ;;
  started_at <- time_seconds ;;
  _ <- session_put MFA_REPLACEMENT_STARTED_AT_KEY (JInt started_at) ;;
  _ <- audit_event "mfa_replace_start" "success" (Some user_id) [] ;;
  _mfa_setup_payload user_id secret.

(** The replacement secret kept in the session, while it is fresh. *)
Definition _pending_mfa_replacement_secret (user_id : Z) : M St (option string) :=
  nonce <- session_get MFA_REPLACEMENT_NONCE_KEY ;;
  ciphertext <- session_get MFA_REPLACEMENT_CIPHERTEXT_KEY ;;
  started_at <- session_get MFA_REPLACEMENT_STARTED_AT_KEY ;;
  if negb (otruthy nonce) || negb (otruthy ciphertext) || negb (otruthy started_at) then ret None
  else
    let drop := _ <- _clear_pending_mfa_replacement ;; ret None in
    now <- time_seconds ;;
    match py_int started_at with
    | Raise _ => drop
    | Ok started =>
        expired <- (if now - started <? 0 then ret true
                    else limit <- lift (config_number "PENDING_MFA_MAX_AGE_SECONDS") ;;
                         ret (limit <? now - started)) ;;
        if (expired : bool) then drop
        else
          try_except
            (n <- lift (b64decode_text (py_str (default JNull nonce))) ;;
             c <- lift (b64decode_text (py_str (default JNull ciphertext))) ;;
             secret <- decrypt_mfa_secret n c user_id ;;
             ret (Some secret))
            is_unreadable_secret (λ _, drop)
    end.

Definition pending_mfa_replacement (user_id : Z) : M St unit :=
  user <- load_user user_id ;;
  if negb (u_mfa_enabled user) then ret tt
  else _ <- _pending_mfa_replacement_secret user_id ;; ret tt.

(** [session[key]]. *)
Definition session_item (key : string) : M St jval :=
  v <- session_get key ;;
  match v with Some v => ret v | None => raise (KeyError key) end.

Definition verify_mfa_replacement (user_id : Z) (code : string) : M St MfaVerified :=
  user <- load_user user_id ;;
  _ <- lift (ensure_account_not_frozen user "MFA replacement") ;;
  _ <- refuse_without_mfa user user_id "mfa_replace_verify" ;;
  pending <- _pending_mfa_replacement_secret user_id ;;
  match pending with
  | None => refuse_account user_id "mfa_replace_verify" "missing_pending_secret"
              "No pending MFA replacement" 401
  | Some secret =>
      outcome <- _verify_totp_secret_for_user_outcome user_id secret code "mfa_replace_verify" None true ;;
      _ <- require_valid user_id "mfa_replace_verify" outcome ;;
      n <- session_item MFA_REPLACEMENT_NONCE_KEY ;;
      nonce <- lift (b64decode_text (py_str n)) ;;
      c <- session_item MFA_REPLACEMENT_CIPHERTEXT_KEY ;;
      ciphertext <- lift (b64decode_text (py_str c)) ;;
      _ <- db_write (set_user user_id (λ u,
             set_u_mfa_enabled true (set_secret (Some nonce) (Some ciphertext) u))) ;;
      recovery_codes <- renew_codes user_id ;;
      _ <- _clear_pending_mfa_replacement ;;
      session_id <- rotate_authenticated_session_after_mfa user_id ;;
      revoked <- revoke_other_sessions user_id "revoked" ;;
      _ <- _audit_event "mfa_replace_verify" "success" (Some user_id)
             [("revoked_other_sessions", JInt revoked);
              ("recovery_code_count", JInt (Z.of_nat (length recovery_codes)))]
             (Some session_id) true ;;
      _ <- commit ;;
      session_ref <- lift (public_session_reference (Some session_id)) ;;
      ret (mkMfaVerified session_ref recovery_codes revoked)
  end.

Definition regenerate_totp_recovery_codes (user_id : Z) (code : option string) : M St (list string) :=
  user <- load_user user_id ;;
  _ <- lift (ensure_account_not_frozen user "recovery code regeneration") ;;
  _ <- refuse_without_mfa user user_id "recovery_codes_regenerate" ;;
  _ <- verify_high_risk_authorization user_id code "recovery_codes_regenerate" true ;;
  recovery_codes <- renew_codes user_id ;;
  _ <- audit_event_required "recovery_codes_regenerate" "success" (Some user_id)
         [("recovery_code_count", JInt (Z.of_nat (length recovery_codes)))] ;;
  _ <- commit ;;
  ret recovery_codes.

(** ** Freezing *)

Definition freeze_own_account (user_id : Z) (code : string) : M St (string * Z) :=
  user <- load_user user_id ;;
  _ <- lift (ensure_account_not_frozen user "account freeze") ;;
  _ <- verify_high_risk_authorization user_id (Some code) "account_freeze" false ;;
  _ <- db_write (set_user user_id (set_u_is_frozen true)) ;;
  session_id <- rotate_authenticated_session_after_mfa user_id ;;
  revoked <- revoke_other_sessions user_id "revoked" ;;
  _ <- try_except
         (_audit_event "account_freeze" "success" (Some user_id)
            [("revoked_other_sessions", JInt revoked)] (Some session_id) true)
         is_audit_write_error (λ e, _ <- rollback ;; raise e) ;;
  _ <- commit ;;
  _ <- _send_account_freeze_notification user_id ;;
  session_ref <- lift (public_session_reference (Some session_id)) ;;
  ret (session_ref, revoked).

(** ** The password *)

Definition notify_failure (user_id : Z) : M St unit :=
  _send_account_change_notification user_id "password" "failure".

Definition change_password (user_id : Z) (current_password new_password confirm_new_password : string)
    (code : option string) : M St (Z * list string) :=
  user <- load_user user_id ;;
  _ <- lift (ensure_account_not_frozen user "password change") ;;
  let refuse {A} (reason message : string) (status : Z) (penalty : M St unit) : M St A :=
    _ <- audit_event "password_change" "failure" (Some user_id) [("reason", JStr reason)] ;;
    _ <- penalty ;;
    _ <- notify_failure user_id ;;
    raise (AuthError message status None) in
  _ <- guard (negb (bool_decide (new_password = confirm_new_password)))
         (refuse "password_mismatch" "Passwords must match" 400 (ret tt)) ;;
  current_ok <- lift (verify_password current_password (u_password_hash user)) ;;
  _ <- guard (negb current_ok)
         (refuse "invalid_current_password" "Current password is invalid" 401
            (_record_user_security_failure user_id "password_change" "password_change_failed_attempts")) ;;
  _ <- try_except (assert_password_not_reused user_id new_password) is_reuse_error
         (λ e, refuse (reuse_reason e) "New password must not match your current or recent passwords"
                 400 (ret tt)) ;;
  warnings <- try_except (validate_password_policy new_password) is_policy_error
                (λ e, refuse "password_policy" (policy_message e) 400 (ret tt)) ;;
  _ <- try_except (verify_high_risk_authorization user_id code "password_change" false) is_auth_error
         (λ e, _ <- notify_failure user_id ;; raise e) ;;
  _ <- replace_user_password user_id new_password None true ;;
  _ <- db_write (set_user user_id (set_u_failed_login_count 0)) ;;
  revoked <- revoke_all_sessions user_id "password_change" None ;;
  session_id <- current_session_id ;;
  _ <- _audit_event "password_change" "success" (Some user_id)
         [("revoked_sessions", JInt revoked); ("revoked_other_sessions", JInt (Z.max 0 (revoked - 1)));
          ("password_screening", screening warnings); ("forced_change_cleared", JBool true)]
         session_id true ;;
  _ <- commit ;;
  _ <- _send_account_change_notification user_id "password" "success" ;;
  _ <- session_clear ;;
  user <- load_user user_id ;;
  _ <- clear_failures "login" (_auth_principal (u_username user)) ;;
  _ <- clear_failures "login" (_auth_principal (u_email user)) ;;
  _ <- _clear_user_security_failures user_id "password_change" ;;
  ret (revoked, warnings).

(** ** Ending sessions *)

Definition logout_current_session : M St unit :=
  a <- session_get "user_id" ;;
  b <- session_get "pending_mfa_user_id" ;;
  let user_id := if otruthy a then a else b in
  session_id <- current_session_id ;;
  _ <- revoke_current_session "logout" ;;
  uid <- (if otruthy user_id then z <- lift (py_int user_id) ;; ret (Some z) else ret None) ;;
  _audit_event "logout" "success" uid [] session_id false.

Definition active_sessions_for_user (user_id : Z) : M St (list SessionView) := list_active_sessions user_id.
Definition past_sessions_for_user (user_id : Z) : M St (list SessionView) := list_past_sessions user_id None.

Definition terminate_session_for_user (user_id : Z) (session_reference : string) : M St unit :=
  resolved <- resolve_session_reference_for_user user_id session_reference ;;
  match resolved with
  | None => refuse_account user_id "session_terminate" "not_owned_or_not_found" "Session not found" 404
  | Some resolved_session_id =>
      _ <- revoke_session resolved_session_id (Some user_id) "terminated" ;;
      _ <- _audit_event "session_terminate" "success" (Some user_id) [] (Some resolved_session_id) false ;;
      signed_in <- session_get "user_id" ;;
      sid <- gets session_sid ;;
      if match signed_in with Some (JInt z) => z =? user_id | _ => false end
         && bool_decide (sid = Some resolved_session_id)
      then session_clear else ret tt
  end.

Definition terminate_other_sessions_for_user (user_id : Z) : M St Z :=
  revoked <- revoke_other_sessions user_id "revoked" ;;
  _ <- audit_event "session_revoke_others" "success" (Some user_id)
         [("revoked_other_sessions", JInt revoked)] ;;
  ret revoked.

Definition verify_fresh_mfa_for_action (user_id : Z) (code : option string) (action : string)
    (rotate_session_on_success : bool) : M St unit :=
  user <- load_user user_id ;;
  _ <- guard (negb (u_mfa_enabled user))
         (refuse_account user_id action "mfa_not_enabled" "MFA is required for this action" 403) ;;
  _ <- guard (negb (nonempty (or_empty code)))
         (refuse_account user_id action "missing_mfa_code" GENERIC_MFA_ERROR 401) ;;
  outcome <- _verify_totp_for_user_outcome user_id (or_empty code) action None true ;;
  _ <- require_valid user_id action outcome ;;
  signed_in <- session_get "user_id" ;;
  _ <- guard (rotate_session_on_success
              && match signed_in with Some (JInt z) => z =? user_id | _ => false end)
         (_ <- rotate_authenticated_session_after_mfa user_id ;; ret tt) ;;
  audit_event action "mfa_success" (Some user_id) [].
End Account.

(** ** A changed password takes over *)

Definition users_and_sessions (U : gmap Z User) (T : gmap Z ServerSideSession) (c w : Db) : Prop :=
  users c = U ∧ users w = U ∧ server_side_sessions c = T ∧ server_side_sessions w = T.
#[export] Instance users_and_sessions_blind U T : audit_blind (users_and_sessions U T).
Proof. split; by intros * (? & ? & ? & ?). Qed.

Section PasswordChange.
Context `{Env}.

Lemma unchanged_counters U T f c w :
  users_and_sessions U T c w → users_and_sessions U T c (upd_auth_attempt_counters f w).
Proof. by intros (? & ? & ? & ?). Qed.

Lemma keeps_clear_failures U T sc p : preserves (on_db (users_and_sessions U T)) (clear_failures sc p).
Proof. apply pres_clear_failures; [apply _|apply unchanged_counters]. Qed.
Lemma keeps_clear_security U T u sc :
  preserves (on_db (users_and_sessions U T)) (_clear_user_security_failures u sc).
Proof.
  unfold _clear_user_security_failures. solve_pres.
Qed.
Lemma keeps_notification U T u i o :
  preserves (on_db (users_and_sessions U T)) (_send_account_change_notification u i o).
Proof. unfold _send_account_change_notification, send_quietly. cbv zeta. solve_pres. Qed.

Hint Resolve keeps_clear_failures keeps_clear_security keeps_notification : pres.

(** What happens after the commit leaves users and sessions as committed. *)
Lemma after_commit U T u (s s' : St) (x y : Z * list string) :
  (_ <- _send_account_change_notification u "password" "success" ;;
   _ <- session_clear ;;
   user <- load_user u ;;
   _ <- clear_failures "login" (_auth_principal (u_username user)) ;;
   _ <- clear_failures "login" (_auth_principal (u_email user)) ;;
   _ <- _clear_user_security_failures u "password_change" ;;
   ret x) s = (Ok y, s') →
  on_db (users_and_sessions U T) s → on_db (users_and_sessions U T) s' ∧ session s' = ∅ ∧ clock s ≤ clock s'.
Proof.
  intros E Hs. split; [|split].
  - match type of E with ?c s = _ => assert (preserves (on_db (users_and_sessions U T)) c) as Hp end.
    { solve_pres. }
    specialize (Hp s Hs). by rewrite E in Hp.
  - inv_bind E. inv_bind E. injection E1 as _ <-.
    match type of E with ?c ?s1 = _ => assert (preserves (λ t, session t = ∅) c) as Hp end.
    { repeat (apply pres_bind; [|intros ?]); auto using pres_ret;
        unfold clear_failures, _load_counter, _clear_user_security_failures, load_user; solve_pres;
        intros t Ht; try exact Ht; unfold commit, flush; by case_match. }
    match type of E with ?c ?s1 = _ => specialize (Hp s1 eq_refl) end. by rewrite E in Hp.
  - match type of E with ?c s = _ => assert (preserves (not_before (clock s)) c) as Hp end.
    { unfold _send_account_change_notification, send_quietly, send_security_email, _deliver_to_outbox,
        _deliver_smtp, clear_failures, _load_counter, _clear_user_security_failures, load_user. cbv zeta.
      solve_pres; by intros t Ht. }
    specialize (Hp s (Z.le_refl _)). by rewrite E in Hp.
Qed.

(** A required audit record, then the commit. *)
Lemma recorded_commit ty u md sid s1 x s2 y s3 :
  _audit_event ty "success" u md sid true s1 = (Ok x, s2) → commit s2 = (Ok y, s3) →
  on_db (users_and_sessions (users (working s1)) (server_side_sessions (working s1))) s3
  ∧ clock s1 ≤ clock s3 ∧ session s3 = session s1.
Proof.
  intros Ea Ec. assert (clock s1 ≤ clock s2 ∧ session s2 = session s1) as [Hc Hs].
  { assert (preserves (λ t, clock s1 ≤ clock t ∧ session t = session s1)
      (_audit_event ty "success" u md sid true)) as Hp.
    { apply pres_and; unfold _audit_event; solve_pres; intros t Ht; simpl; try exact Ht; lia. }
    specialize (Hp s1 (conj (Z.le_refl _) eq_refl)). by rewrite Ea in Hp. }
  apply required_write_cases in Ea as [_ [[_ (e & _ & Hw)]|[[e ?] _]]]; [|done].
  unfold commit in Ec. destruct (db_ok _); [|done]. injection Ec as _ <-. simpl.
  unfold on_db, users_and_sessions. simpl. rewrite Hw. done.
Qed.

Lemma revoke_keeps_users u reason s n s' :
  revoke_all_sessions u reason None s = (Ok n, s') →
  users (working s') = users (working s) ∧ session s' = session s.
Proof.
  intros E. assert (preserves (λ t, users (working t) = users (working s) ∧ session t = session s)
    (revoke_all_sessions u reason None)) as Hp.
  { apply pres_and; unfold revoke_all_sessions, _active_session_records, _expire_stale_sessions, end_each,
      _end_session_record; solve_pres; by intros t. }
  specialize (Hp s (conj eq_refl eq_refl)). by rewrite E in Hp.
Qed.

(** Replacing the password of a stored user. *)
Lemma replaced_password u new t s x s' :
  replace_user_password u new t true s = (Ok x, s') →
  ∃ row', users (working s') !! u = Some row' ∧ verify_password new (u_password_hash row') = Ok true
    ∧ u_force_password_change row' = false.
Proof.
  intros E. destruct x. destruct (users (working s) !! u) as [row|] eqn:Hu.
  - destruct (replace_user_password_inv _ _ _ _ _ _ _ Hu E) as (now & hash & s1 & s2 & Hh & _ & Hrow & _).
    exists (changed_user hash now true row). split; [exact Hrow|]. split; [|done].
    by apply (hash_password_verifies new s1 hash s2).
  - exfalso. unfold replace_user_password in E. inv_bind E. inv_bind E.
    assert (working s0 = working s) as Hw.
    { destruct t; unfold ret, now_utc in E0; by simplify_eq. }
    unfold load_user, db_query in E1. by rewrite Hw, Hu in E1.
Qed.
End PasswordChange.

(** C34: A changed password takes over.  When a password change succeeds, the
    customer had given the current password, the new password matches neither the
    current nor a remembered hash, the durable hash is one the new password
    verifies against, any forced change is cleared, no active session
    of the customer is left for this component, now or later, and the browser's
    own session is emptied. *)
Theorem password_change_takes_over `{Env} u old new confirm code s r s' row :
  users (working s) !! u = Some row →
  change_password u old new confirm code s = (Ok r, s') →
  new = confirm ∧ verify_password old (u_password_hash row) = Ok true ∧ session s' = ∅
  ∧ Forall (λ hash, verify_password new hash = Ok false)
      (firstn (S (Z.to_nat _retention_count)) (recent_hashes u (working s)))
  ∧ (∃ row', users (committed s') !! u = Some row' ∧ verify_password new (u_password_hash row') = Ok true
       ∧ u_force_password_change row' = false)
  ∧ ∀ id x now, server_side_sessions (committed s') !! id = Some x → clock s' ≤ now →
      is_active _session_component u now x = false.
Proof.
  intros Hu E. unfold change_password in E. cbv zeta in E.
  inv_bind E. unfold load_user, db_query in E0. rewrite Hu in E0. injection E0 as <- <-.
  inv_bind E. unfold lift in E0. injection E0 as _ <-.
  inv_bind E. apply guard_raises_inv in E0 as [Hm ->]; [|solve_raises].
  apply negb_false_iff, bool_decide_eq_true in Hm as <-.
  inv_bind E. unfold lift in E0. injection E0 as Hold <-.
  inv_bind E. apply guard_raises_inv in E0 as [Hok ->]; [|solve_raises].
  apply negb_false_iff in Hok as ->.
  inv_bind E. apply try_raises_inv in E0; [|intros e; solve_raises].
  match type of E0 with _ = (Ok ?x, _) => destruct x end.
  pose proof (not_reused_state _ _ _ _ _ E0) as ->. rewrite (not_reused_iff _ _ _ _ Hu) in E0.
  rename E0 into Hnew. do 2 inv_bind E. inv_bind E. apply replaced_password in E2 as (row' & Hrow & Hpw & Hforce).
  inv_bind E. injection E2 as _ <-. inv_bind E. rename E2 into Er. inv_bind E. injection E2 as <- <-.
  inv_bind E. rename E2 into Ea. inv_bind E. rename E2 into Ec.
  destruct (recorded_commit _ _ _ _ _ _ _ _ _ Ea Ec) as (Hdb & Hclk & _).
  destruct (revoke_keeps_users _ _ _ _ _ Er) as [Hus _].
  destruct (after_commit _ _ _ _ _ _ _ E Hdb) as (Hdb' & Hsession & Hclk').
  unfold on_db, users_and_sessions in Hdb'. destruct Hdb' as (Huc & _ & Hsc & _).
  split_and!; try done.
  - rewrite Huc, Hus. exists (set_u_failed_login_count 0 row'). cbn [working set_working].
    unfold set_user. cbn [users upd_users]. rewrite lookup_alter_eq, Hrow. done.
  - intros id x now Hx Hnow. rewrite Hsc in Hx.
    eapply (revoke_all_none _ _ _ _ _ Er id x now Hx). lia.
Qed.

(** ** Witness: alice changes her password *)

Definition alice_with_password : Db :=
  set_user 1 (set_u_password_hash Passwords.sample_hash_text) Sample.sample_db.
Definition before_change : St :=
  set_committed alice_with_password (set_working alice_with_password Sample.sample_state).
Definition password_run := @change_password Sample.sample_env 1 "correct horse" "battery staple"
  "battery staple" (Some Mfa.sample_code) before_change.

Lemma password_change_witness :
  password_run.1 = Ok (1, [])
  ∧ ∃ row', users (committed password_run.2) !! 1 = Some row'
      ∧ @verify_password Sample.sample_env "battery staple" (u_password_hash row') = Ok true.
Proof.
  assert (password_run.1 = Ok (1, [])) as E by (vm_compute; reflexivity). split; [exact E|].
  assert (password_run = (Ok (1, []), password_run.2)) as E2
    by (rewrite <- E; apply surjective_pairing).
  destruct (@password_change_takes_over Sample.sample_env 1 "correct horse" "battery staple"
    "battery staple" (Some Mfa.sample_code) before_change (1, []) password_run.2
    (set_u_password_hash Passwords.sample_hash_text Sample.alice)) as (_ & _ & _ & _ & (row' & Hr & Hv & _) & _);
    [reflexivity|exact E2|]. exists row'. exact (conj Hr Hv).
Defined.
End Account.
