(* ===== verification/Profile.v ===== *)
(** * Profile changes ([app/auth/services.py])

    Changing the e-mail address or the phone number.  A new address must prove
    itself: a code is sent to it, and only its HMAC, bound to the user, the
    session and the address, is kept in the session. *)

From S2P Require Import Prelude PyStr Base64 TimeModel Schema Runtime Sample Canonical Integrity AuditLog.
From S2P Require Import Identity SessionRisk BankingPolicy Notifications Sessions SessionStore RateLimits.
From S2P Require Import Mfa RecoveryCodes LoginFrame RegistrationOtp Registration SignIn Account.
From Stdlib Require Import Ascii.
Open Scope string_scope.
Open Scope Z_scope.

Module Profile.
Import SessionHmac Audit Identity SessionRisk Policy Notifications Sessions SessionStore RateLimits Mfa.
Import RecoveryCodes LoginFrame RegistrationOtp Registration SignIn Account.

Definition PROFILE_UPDATE_ERROR : string := "Profile could not be updated with those details".
Definition PROFILE_EMAIL_PENDING_EMAIL_KEY : string := "profile_email_pending_email".
Definition PROFILE_EMAIL_PENDING_PHONE_HMAC_KEY : string := "profile_email_pending_phone_hmac".
Definition PROFILE_EMAIL_PENDING_CODE_HMAC_KEY : string := "profile_email_pending_code_hmac".
Definition PROFILE_EMAIL_PENDING_EXPIRES_AT_KEY : string := "profile_email_pending_expires_at".
Definition PROFILE_EMAIL_CHANGE_EXPIRED_MESSAGE : string :=
  "Email verification expired. Request a new code.".

(** [re.fullmatch(r"^[89][0-9]{7}$", text)]. *)
Definition phone_format (text : string) : bool :=
  match chars text with
  | c :: rest => str_in (of_chars [c]) ["8"; "9"] && (length rest =? 7)%nat && forallb is_digit rest
  | [] => false
  end.

(** What [update_profile_details] answers. *)
Inductive ProfileOutcome : Type :=
  | ProfileUnchanged
  | EmailVerificationPending (pending_email : string)
  | ProfileUpdated.

(** A pending change of address, as the session keeps it. *)
Record PendingEmailChange : Type := mkPendingEmailChange {
  pc_email : string; pc_phone_hmac : string; pc_code_hmac : string
}.

Definition _profile_updated_fields (email_changed phone_changed : bool) : string :=
  if email_changed && phone_changed then "profile_email_phone"
  else if email_changed then "profile_email"
  else if phone_changed then "profile_phone" else "profile_details".

Section Profile.
Context `{Env}.

Definition sid_text : M St string := sid <- current_session_id ;; ret (default "None" sid).

Definition _profile_email_code_hmac (user_id : Z) (email code : string) : M St string :=
  sid <- sid_text ;;
  lift (active_hmac_hex ("profile-email-change:" +:+ pretty user_id +:+ ":" +:+ sid +:+ ":"
                           +:+ _normalize email +:+ ":" +:+ code) 64).

Definition _profile_phone_hmac (user_id : Z) (phone_number : string) : M St string :=
  sid <- sid_text ;;
  lift (active_hmac_hex ("profile-phone-change:" +:+ pretty user_id +:+ ":" +:+ sid +:+ ":"
                           +:+ strip phone_number) 64).

Definition _clear_pending_profile_email_change : M St unit :=
  _ <- session_pop PROFILE_EMAIL_PENDING_EMAIL_KEY ;;
  _ <- session_pop PROFILE_EMAIL_PENDING_PHONE_HMAC_KEY ;;
  _ <- session_pop PROFILE_EMAIL_PENDING_CODE_HMAC_KEY ;;
  _ <- session_pop PROFILE_EMAIL_PENDING_EXPIRES_AT_KEY ;;
  ret tt.

(** ** The submitted values *)

Definition _profile_update_values (user_id : Z) (email phone_number : string)
    : M St (string * string * bool * bool) :=
  user <- load_user user_id ;;
  let submitted_email := casefold (strip email) in
  let normalized_phone := strip phone_number in
  _ <- guard (negb (phone_format normalized_phone))
         (_ <- audit_event "profile_update" "blocked" (Some user_id) [("reason", JStr "invalid_phone")] ;;
          raise (AuthError PROFILE_UPDATE_ERROR 400 None)) ;;
  let email_changed := negb (bool_decide (submitted_email = _normalize (u_email user))) in
  let phone_changed := negb (bool_decide (normalized_phone = or_empty (u_phone_number user))) in
  if negb email_changed then ret (submitted_email, normalized_phone, false, phone_changed)
  else
    normalized_email <- try_except (lift (require_customer_email email)) is_identity_error
      (λ e, _ <- audit_event "profile_update" "blocked" (Some user_id)
                   [("reason", JStr (identity_reason e))] ;;
            raise (AuthError PROFILE_UPDATE_ERROR 400 None)) ;;
    ret (normalized_email, normalized_phone, true, phone_changed).

Definition _ensure_step_up_preference_enrolled (user_id : Z) (preference : string) : M St unit :=
  user <- load_user user_id ;;
  guard (bool_decide (preference = "totp") && negb (u_mfa_enabled user))
    (refuse_account user_id "profile_update" "preferred_mfa_unavailable"
       "Choose an enrolled verification method" 400).

(** Users other than [user_id] with this canonical address or this phone. *)
Definition _reject_duplicate_profile_identifiers (user_id : Z) (normalized_email normalized_phone : string)
    : M St unit :=
  canonical_email <- lift (canonicalize_customer_email normalized_email) ;;
  duplicate <- db_query (λ d, one_or_none
    (λ u, bool_decide (u_registration_email_canonical u = Some canonical_email)
          || bool_decide (u_phone_number u = Some normalized_phone)) (delete user_id (users d))) ;;
  guard (bool_decide (is_Some (duplicate : option (Z * User))))
    (refuse_account user_id "profile_update" "duplicate_identifier" PROFILE_UPDATE_ERROR 400).

(** ** The challenge *)

Definition challenge_body (verification_code : string) : string :=
  "Use this SITBank profile email verification code:" +:+ newline +:+ newline
    +:+ verification_code +:+ newline +:+ newline
    +:+ "This code expires in 5 minutes. If you did not request it, ignore this email.".

Definition _create_profile_email_change_challenge (user_id : Z) (email phone_number : string) : M St unit :=
  n <- fresh (λ i, randbelow i 1000000) ;;
  let verification_code := pad 6 n in
  now <- time_seconds ;;
  ttl <- lift (config_int "PROFILE_EMAIL_CHANGE_TTL_SECONDS") ;;
  _ <- _clear_pending_profile_email_change ;;
  _ <- session_put PROFILE_EMAIL_PENDING_EMAIL_KEY (JStr email) ;;
  phone_hmac <- _profile_phone_hmac user_id phone_number ;;
  _ <- session_put PROFILE_EMAIL_PENDING_PHONE_HMAC_KEY (JStr phone_hmac) ;;
  code_hmac <- _profile_email_code_hmac user_id email verification_code ;;
  _ <- session_put PROFILE_EMAIL_PENDING_CODE_HMAC_KEY (JStr code_hmac) ;;
  _ <- session_put PROFILE_EMAIL_PENDING_EXPIRES_AT_KEY (JInt (now + ttl)) ;;
  _ <- try_except
         (send_security_email email "SITBank profile email verification code"
            (challenge_body verification_code))
         any_exn
         (λ _, _ <- _clear_pending_profile_email_change ;;
               _ <- audit_event "profile_email_change" "failure" (Some user_id)
                      [("reason", JStr "email_delivery_failed")] ;;
               raise (AuthError "Could not send verification code. Please try again later." 503 None)) ;;
  email_ref <- lift (audit_reference "profile_email" email) ;;
  audit_event "profile_email_change" "requested" (Some user_id) [("email_ref", jopt_str email_ref)].

(** [str(session.get(key) or "")]. *)
Definition session_text (key : string) : M St string :=
  v <- session_get key ;; ret (if otruthy v then py_str (default JNull v) else "").

Definition _pending_profile_email_change (user_id : Z) : M St (option PendingEmailChange) :=
  email <- session_text PROFILE_EMAIL_PENDING_EMAIL_KEY ;;
  phone_hmac <- session_text PROFILE_EMAIL_PENDING_PHONE_HMAC_KEY ;;
  code_hmac <- session_text PROFILE_EMAIL_PENDING_CODE_HMAC_KEY ;;
  stored <- session_get PROFILE_EMAIL_PENDING_EXPIRES_AT_KEY ;;
  let expires_at := if otruthy stored then match py_int stored with Ok z => z | Raise _ => 0 end else 0 in
  let missing := negb (nonempty email) || negb (nonempty phone_hmac) || negb (nonempty code_hmac) in
  usable <- (if missing then ret false else now <- time_seconds ;; ret (now <? expires_at)) ;;
  if (usable : bool) then ret (Some (mkPendingEmailChange email phone_hmac code_hmac))
  else
    _ <- guard (nonempty email || nonempty phone_hmac || nonempty code_hmac || negb (expires_at =? 0))
           (_ <- _clear_pending_profile_email_change ;;
            audit_event "profile_email_change" "expired" (Some user_id) []) ;;
    ret None.

Definition pending_profile_email_change : M St (option PendingEmailChange) :=
  user_id <- session_get "user_id" ;;
  if negb (otruthy user_id) then ret None
  else
    uid <- lift (py_int user_id) ;;
    user <- db_get (λ d, users d !! uid) ;;
    match user with
    | Some _ => _pending_profile_email_change uid
    | None => ret None
    end.

Definition _reject_profile_email_change {A} (user_id : Z) (reason message : string) (notify : bool) : M St A :=
  _ <- guard notify (_send_account_change_notification user_id "personal details" "failure") ;;
  _ <- audit_event "profile_email_change" "failure" (Some user_id) [("reason", JStr reason)] ;;
  raise (AuthError message 400 None).

Definition _validate_profile_email_change_code (user_id : Z)
    (normalized_email normalized_phone email_verification_code : string) : M St unit :=
  pending <- _pending_profile_email_change user_id ;;
  match pending with
  | None => _reject_profile_email_change user_id "missing_or_expired_challenge"
              PROFILE_EMAIL_CHANGE_EXPIRED_MESSAGE false
  | Some pending_change =>
      _ <- guard (negb (bool_decide (pc_email pending_change = normalized_email)))
             (_reject_profile_email_change user_id "superseded_challenge"
                PROFILE_EMAIL_CHANGE_EXPIRED_MESSAGE false) ;;
      phone_hmac <- _profile_phone_hmac user_id normalized_phone ;;
      _ <- guard (negb (bool_decide (pc_phone_hmac pending_change = phone_hmac)))
             (_reject_profile_email_change user_id "superseded_challenge"
                PROFILE_EMAIL_CHANGE_EXPIRED_MESSAGE false) ;;
      submitted_hmac <- _profile_email_code_hmac user_id normalized_email (strip email_verification_code) ;;
      guard (negb (bool_decide (pc_code_hmac pending_change = submitted_hmac)))
        (_reject_profile_email_change user_id "invalid_verification_code"
           "Email verification code is invalid or expired" true)
  end.

(** ** The change *)

(** A step-up whose failure is reported to the customer. *)
Definition step_up_or_notify (user_id : Z) (code : option string) (action : string) : M St unit :=
  try_except (verify_high_risk_authorization user_id code action true) is_auth_error
    (λ e, _ <- _send_account_change_notification user_id "personal details" "failure" ;; raise e).

Definition _handle_profile_email_change (user_id : Z) (normalized_email normalized_phone : string)
    (code email_verification_code : option string) : M St (option ProfileOutcome) :=
  if negb (nonempty (or_empty email_verification_code)) then
    _ <- step_up_or_notify user_id code "profile_email_change_request" ;;
    _ <- _create_profile_email_change_challenge user_id normalized_email normalized_phone ;;
    ret (Some (EmailVerificationPending normalized_email))
  else
    _ <- _validate_profile_email_change_code user_id normalized_email normalized_phone
           (or_empty email_verification_code) ;;
    _ <- step_up_or_notify user_id code "profile_email_change_commit" ;;
    ret None.

Definition set_profile (email canonical : option string) (phone : option string) (u : User) : User :=
  let u := match email with
           | Some e => set_u_registration_email_canonical canonical (set_u_email e u)
           | None => u
           end in
  match phone with Some p => set_u_phone_number (Some p) u | None => u end.

Definition _commit_profile_update (user_id : Z) (normalized_email normalized_phone : string)
    (email_changed phone_changed : bool) : M St ProfileOutcome :=
  canonical <- (if email_changed then c <- lift (canonicalize_customer_email normalized_email) ;; ret (Some c)
                else ret None) ;;
  _ <- db_write (set_user user_id (set_profile (if email_changed then Some normalized_email else None)
         canonical (if phone_changed then Some normalized_phone else None))) ;;
  _ <- try_except
         (_ <- audit_event_required "profile_update" "success" (Some user_id)
                 [("updated_fields", JStr (_profile_updated_fields email_changed phone_changed))] ;;
          commit)
         (λ e, is_integrity_error e || is_audit_write_error e)
         (λ e, _ <- rollback ;;
               if is_audit_write_error e then raise e
               else
                 _ <- audit_event "profile_update" "failure" (Some user_id)
                        [("reason", JStr "integrity_error")] ;;
                 _ <- _send_account_change_notification user_id "personal details" "failure" ;;
                 raise (AuthError PROFILE_UPDATE_ERROR 400 None)) ;;
  _ <- _send_account_change_notification user_id "personal details" "success" ;;
  _ <- guard email_changed _clear_pending_profile_email_change ;;
  ret ProfileUpdated.

Definition update_profile_details (user_id : Z) (email phone_number : string)
    (code email_verification_code : option string) : M St ProfileOutcome :=
  values <- _profile_update_values user_id email phone_number ;;
  let '(normalized_email, normalized_phone, email_changed, phone_changed) := values in
  if negb email_changed && negb phone_changed then ret ProfileUnchanged
  else
    user <- load_user user_id ;;
    _ <- lift (ensure_account_not_frozen user "profile update") ;;
    _ <- _ensure_step_up_preference_enrolled user_id "totp" ;;
    _ <- _reject_duplicate_profile_identifiers user_id normalized_email normalized_phone ;;
    pending_result <- (if (email_changed : bool) then
        _handle_profile_email_change user_id normalized_email normalized_phone code email_verification_code
      else _ <- step_up_or_notify user_id code "profile_update" ;; ret None) ;;
    match pending_result with
    | Some outcome => ret outcome
    | None => _commit_profile_update user_id normalized_email normalized_phone email_changed phone_changed
    end.
End Profile.
End Profile.
