(* ===== verification/PasswordReset.v ===== *)
(** * Password reset ([app/auth/password_reset.py])

    A customer who forgot the password asks for a link; the mailed token is
    exchanged once for a reset transaction kept in the database and named by
    the browser session; the second factor is verified inside the transaction;
    then the password is replaced, every session revoked and every open token
    closed.

    A transaction is the dict the code passes around ([ResetTransaction]);
    helpers that update the shared dict return the updated one.  Its list of
    methods is always a list of strings. *)

From S2P Require Import Prelude PyStr TimeModel Schema Runtime Sample Canonical Integrity AuditLog.
From S2P Require Import Passwords PasswordHistory SessionRisk BankingPolicy Notifications Sessions.
From S2P Require Import SessionStore RateLimits Mfa RecoveryCodes LoginFrame RegistrationOtp Registration SignIn Account.
From Stdlib Require Import Ascii.
Open Scope string_scope.
Open Scope Z_scope.

Module PasswordReset.
Import SessionHmac Audit Passwords PasswordHistory SessionRisk Policy Notifications Sessions.
Import SessionStore RateLimits Mfa RecoveryCodes LoginFrame Registration SignIn Account TimeDisplay.

Definition GENERIC_FORGOT_PASSWORD_MESSAGE : string :=
  "If an account is linked to that email, a reset link has been sent. Check your inbox.".
Definition GENERIC_RESET_ERROR : string :=
  "That reset link is no longer valid. Please request a new one from the login page.".
Definition RESET_TRANSACTION_EXPIRED_ERROR : string := "Password reset transaction expired".
Definition RESET_TRANSACTION_SESSION_KEY : string := "password_reset_transaction_id".
Definition GENERIC_AUTHENTICATION_CODE_ERROR : string := "Invalid authentication code.".
Definition GENERIC_VERIFICATION_METHOD_ERROR : string := "Invalid verification method.".
Definition RESET_MFA_TOTP : string := "totp".
Definition RESET_MFA_RECOVERY_CODE : string := "recovery_code".
Definition RESET_MFA_NONE : string := "none".
Definition RESET_MFA_METHODS : list string := [RESET_MFA_TOTP; RESET_MFA_RECOVERY_CODE].
Definition RESET_MFA_METHOD_ALIASES : list (string * string) :=
  [("authenticator", RESET_MFA_TOTP); (RESET_MFA_TOTP, RESET_MFA_TOTP);
   ("recovery", RESET_MFA_RECOVERY_CODE); (RESET_MFA_RECOVERY_CODE, RESET_MFA_RECOVERY_CODE)].

Record ResetTransaction : Type := mkResetTransaction {
  rt_transaction_id : string; rt_token_id : Z; rt_user_id : Z; rt_purpose : string;
  rt_mfa_required : string; rt_available_mfa_methods : list string;
  rt_preferred_mfa_method : option string; rt_default_mfa_method : option string;
  rt_mfa_verified : bool; rt_recovery_code_verified : bool; rt_no_mfa_user : bool;
  rt_failure_count : Z; rt_last_failure_reason : option string; rt_mfa_verified_at : option Z;
  rt_created_at : Z; rt_expires_at : option Z
}.

(** [_public_transaction]: what the client is told. *)
Record PublicTransaction : Type := mkPublicTransaction {
  pub_mfa_required : string; pub_available_mfa_methods : list string;
  pub_preferred_mfa_method : option string; pub_default_mfa_method : option string;
  pub_mfa_verified : bool; pub_recovery_code_verified : bool; pub_no_mfa_user : bool;
  pub_expires_in : Z
}.

(** The assignments [transaction[...] = ...] the code makes. *)
Definition with_methods (methods : list string) (t : ResetTransaction) : ResetTransaction :=
  mkResetTransaction (rt_transaction_id t) (rt_token_id t) (rt_user_id t) (rt_purpose t)
    (rt_mfa_required t) methods (rt_preferred_mfa_method t) (rt_default_mfa_method t)
    (rt_mfa_verified t) (rt_recovery_code_verified t) (rt_no_mfa_user t) (rt_failure_count t)
    (rt_last_failure_reason t) (rt_mfa_verified_at t) (rt_created_at t) (rt_expires_at t).
Definition with_method (selected : string) (verified recovery : bool) (t : ResetTransaction)
    : ResetTransaction :=
  mkResetTransaction (rt_transaction_id t) (rt_token_id t) (rt_user_id t) (rt_purpose t)
    selected (rt_available_mfa_methods t) (rt_preferred_mfa_method t) (rt_default_mfa_method t)
    verified recovery (rt_no_mfa_user t) (rt_failure_count t)
    (rt_last_failure_reason t) (rt_mfa_verified_at t) (rt_created_at t) (rt_expires_at t).
Definition with_failure (count : Z) (reason : string) (t : ResetTransaction) : ResetTransaction :=
  mkResetTransaction (rt_transaction_id t) (rt_token_id t) (rt_user_id t) (rt_purpose t)
    (rt_mfa_required t) (rt_available_mfa_methods t) (rt_preferred_mfa_method t)
    (rt_default_mfa_method t) (rt_mfa_verified t) (rt_recovery_code_verified t) (rt_no_mfa_user t)
    count (Some reason) (rt_mfa_verified_at t) (rt_created_at t) (rt_expires_at t).
Definition with_verified (recovery : bool) (at_ : Z) (t : ResetTransaction) : ResetTransaction :=
  mkResetTransaction (rt_transaction_id t) (rt_token_id t) (rt_user_id t) (rt_purpose t)
    (rt_mfa_required t) (rt_available_mfa_methods t) (rt_preferred_mfa_method t)
    (rt_default_mfa_method t) true recovery (rt_no_mfa_user t) (rt_failure_count t)
    (rt_last_failure_reason t) (Some at_) (rt_created_at t) (rt_expires_at t).

(** ** Pure helpers *)

(** [urllib.parse.quote(text, safe="")]. *)
Definition unreserved (c : ascii) : bool :=
  is_alnum c || bool_decide (c ∈ chars "_.-~").
Definition percent (c : ascii) : list ascii :=
  let n := code c in ["%"%char; upper_char (hex_digit (n / 16)); upper_char (hex_digit (n mod 16))].
Definition url_quote (text : string) : string :=
  of_chars (flat_map (λ c, if unreserved c then [c] else percent c) (chars text)).

(** [text.rstrip("/")]. *)
Definition rstrip_slash (text : string) : string :=
  of_chars (rev (drop_while (λ c, bool_decide (c = "/"%char)) (rev (chars text)))).

(** [strftime("%Y-%m-%d %H:%M UTC")]. *)
Definition utc_minutes (t : Z) : string :=
  iso_date t +:+ " " +:+ pad 2 (hour_of t) +:+ ":" +:+ pad 2 (minute_of t) +:+ " UTC".

Definition _account_reset_blocked (user : User) : bool :=
  u_is_frozen user || bool_decide (is_Some (u_security_locked_at user)).

Definition admin_names : list string := ["admin"; "administrator"; "root"; "superuser"].

Definition _is_admin_like_user (user : User) : bool :=
  if negb (bool_decide (u_account_type user = "customer")) then true
  else
    let username := casefold (strip (u_username user)) in
    let email := casefold (strip (u_email user)) in
    let '(local, _, domain) := partition_at "@"%char email in
    str_in username admin_names || str_in local admin_names || startswith "admin." domain.

Definition _split_reset_token (raw_token : string) : res (string * string) :=
  let '(selector, separator, verifier) := partition_at "."%char raw_token in
  if negb separator || negb (nonempty selector) || negb (nonempty verifier)
     || (64 <? slen selector)%nat || (128 <? slen verifier)%nat
  then Raise (AuthError GENERIC_RESET_ERROR 401 None)
  else Ok (selector, verifier).

Definition _reset_method_alias (value : string) : option string :=
  assoc (casefold (strip value)) RESET_MFA_METHOD_ALIASES.
Definition _normalize_reset_mfa_method (value : string) : res string :=
  match assoc (casefold (strip value)) RESET_MFA_METHOD_ALIASES with
  | Some method => if str_in method RESET_MFA_METHODS then Ok method
                   else Raise (AuthError GENERIC_VERIFICATION_METHOD_ERROR 400 None)
  | None => Raise (AuthError GENERIC_VERIFICATION_METHOD_ERROR 400 None)
  end.
Definition _public_reset_mfa_method (value : option string) : option string :=
  match _reset_method_alias (or_empty value) with
  | Some method => if str_in method RESET_MFA_METHODS then Some method else None
  | None => None
  end.
Definition _available_reset_mfa_methods_from_transaction (t : ResetTransaction) : list string :=
  foldl (λ methods raw_method,
    match _public_reset_mfa_method (Some raw_method) with
    | Some method => if str_in method methods then methods else (methods ++ [method])%list
    | None => methods
    end) [] (rt_available_mfa_methods t).
Definition _fallback_reset_mfa_method (available_methods : list string) : string :=
  if str_in RESET_MFA_TOTP available_methods then RESET_MFA_TOTP else RESET_MFA_NONE.

(** [_store_transaction]: the columns written for a transaction. *)
Definition record_of (t : ResetTransaction) (lookup_hash : string) (now expires_at created_at : Z)
    : PasswordResetTransaction :=
  mkPasswordResetTransaction lookup_hash (rt_token_id t) (rt_user_id t)
    (str_or (Some (rt_purpose t)) "password_reset") (str_or (Some (rt_mfa_required t)) RESET_MFA_NONE)
    (rt_available_mfa_methods t) (rt_preferred_mfa_method t) (rt_default_mfa_method t)
    (rt_mfa_verified t) (rt_recovery_code_verified t) (rt_no_mfa_user t) (rt_failure_count t)
    (rt_last_failure_reason t) (rt_mfa_verified_at t) expires_at None created_at now.

Definition _transaction_from_record (r : PasswordResetTransaction) (transaction_id : string)
    : ResetTransaction :=
  mkResetTransaction transaction_id (prx_token_id r) (prx_user_id r) (prx_purpose r)
    (prx_mfa_required r) (prx_available_mfa_methods r) (prx_preferred_mfa_method r)
    (prx_default_mfa_method r) (prx_mfa_verified r) (prx_recovery_code_verified r)
    (prx_no_mfa_user r) (prx_failure_count r) (prx_last_failure_reason r) (prx_mfa_verified_at r)
    (prx_created_at r / US_SECOND) (Some (prx_expires_at r / US_SECOND)).

Definition use_token (now : Z) (user_id : Z) (r : PasswordResetToken) : PasswordResetToken :=
  if (prt_user_id r =? user_id) && bool_decide (prt_used_at r = None)
  then set_prt_used_at (Some now) r else r.

Section PasswordReset.
Context `{Env}.

Definition _user_agent : string :=
  str_take 256 (if nonempty request_user_agent then request_user_agent else "unknown").
Definition _base_url : res string :=
  rbind (config_item "PASSWORD_RESET_BASE_URL") (λ v, Ok (rstrip_slash (py_str v))).
Definition _token_hmac (verifier : string) : res string :=
  active_hmac_hex ("password-reset-token:" +:+ verifier) 64.
Definition _transaction_lookup_hash (transaction_id : string) : res string :=
  active_hmac_hex ("password-reset-transaction:" +:+ transaction_id) 64.

Definition _find_customer_user (identifier : string) : M St (option (Z * User)) :=
  let normalized := _normalize identifier in
  if negb (nonempty normalized) then ret None
  else db_query (λ d, one_or_none (λ u,
         (bool_decide (casefold (u_username u) = normalized) || bool_decide (casefold (u_email u) = normalized))
         && bool_decide (u_account_type u = "customer")) (users d)).

Definition _token_by_selector (selector : string) : M St (option (Z * PasswordResetToken)) :=
  db_query (λ d, one_or_none (λ r, bool_decide (prt_selector r = selector)) (password_reset_tokens d)).

Definition _consume_public_recovery_limit (scope principal : string) (limit window_seconds : Z) : M St unit :=
  try_except
    (_ <- consume_durable_rate_limit scope (_client_ip +:+ ":" +:+ principal) limit window_seconds ;; ret tt)
    is_durable_limit
    (λ e, _ <- audit_event scope "blocked" None [("reason", JStr "durable_rate_limit")] ;;
          raise (AuthError "Too many attempts. Please try again later." 429 (Some (limit_retry e)))).

Definition _enforce_reset_backoff (scope principal : string) : M St unit :=
  try_except (apply_exponential_backoff scope principal) is_backoff
    (λ e, match e with
          | AuthBackoffRequired retry_after =>
              _ <- audit_event "auth_backoff" "blocked" None
                     [("scope", JStr scope); ("retry_after", JInt retry_after)] ;;
              raise (AuthError "Too many attempts. Please try again later." 429 (Some retry_after))
          | _ => raise e
          end).

(** ** Asking for a link *)

Definition _create_reset_token (user_id : Z) : M St (string * Z) :=
  selector <- fresh token_urlsafe ;;
  verifier <- fresh token_urlsafe ;;
  now <- now_utc ;;
  ttl <- lift (config_int "PASSWORD_RESET_TOKEN_TTL_SECONDS") ;;
  let expires_at := now + ttl * US_SECOND in
  verifier_hmac <- lift (_token_hmac verifier) ;;
  created_at <- now_utc ;;
  _ <- db_write (upd_password_reset_tokens (λ t, <[next_id t := mkPasswordResetToken selector
         verifier_hmac user_id "password_reset" created_at expires_at None None _client_ip _user_agent]> t)) ;;
  token_ref <- lift (audit_reference "password_reset_selector" selector) ;;
  _ <- audit_event_required "password_reset_token_created" "success" (Some user_id)
         [("token_ref", jopt_str token_ref)] ;;
  _ <- commit ;;
  base <- lift _base_url ;;
  ret (base +:+ "/reset-password?token=" +:+ url_quote (selector +:+ "." +:+ verifier), expires_at).

Definition _send_password_reset_email (user_id : Z) (reset_url : string) (expires_at : Z) : M St unit :=
  user <- load_user user_id ;;
  send_security_email (u_email user) "SITBank password reset"
    ("Use this SITBank password reset link to continue your account recovery:"
       +:+ newline +:+ newline +:+ reset_url +:+ newline +:+ newline
       +:+ "This link expires at " +:+ utc_minutes expires_at +:+ ". "
       +:+ "If you did not request it, ignore this email and keep your MFA enrolled.").

(** The answer is [GENERIC_FORGOT_PASSWORD_MESSAGE] in every case. *)
Definition request_password_reset (identifier : string) : M St unit :=
  let normalized := _normalize identifier in
  _ <- _consume_public_recovery_limit "password_reset_request" normalized 5 (15 * 60) ;;
  user <- _find_customer_user normalized ;;
  principal_ref <- lift (principal_reference identifier) ;;
  _ <- audit_event "password_reset_requested" "success" (fst <$> user)
         [("principal_ref", jopt_str principal_ref)] ;;
  if negb (match config "PASSWORD_RESET_ENABLED" with Some v => truthy v | None => true end) then
    audit_event "password_reset_failed" "blocked" (fst <$> user) [("reason", JStr "password_reset_disabled")]
  else
    match user with
    | None => ret tt
    | Some (user_id, row) =>
        if _is_admin_like_user row then
          audit_event "password_reset_failed" "blocked" (Some user_id) [("reason", JStr "admin_out_of_scope")]
        else if _account_reset_blocked row then ret tt
        else
          let* (reset_url, expires_at) := _create_reset_token user_id in
          try_except (_send_password_reset_email user_id reset_url expires_at) any_exn
            (λ _, audit_event "password_reset_failed" "failure" (Some user_id)
                    [("reason", JStr "email_delivery_failed")])
    end.

(** ** The reset transaction *)

Definition _transaction_record (transaction_id : string) : M St (option (Z * PasswordResetTransaction)) :=
  lookup_hash <- lift (_transaction_lookup_hash transaction_id) ;;
  db_query (λ d, one_or_none (λ r, bool_decide (prx_transaction_lookup_hash r = lookup_hash))
                   (password_reset_transactions d)).

Definition _delete_transaction_id (transaction_id : string) : M St unit :=
  record <- _transaction_record transaction_id ;;
  match record with
  | Some (id, _) => _ <- db_write (upd_password_reset_transactions (delete id)) ;; commit
  | None => ret tt
  end.

Definition reset_transaction_id : M St string :=
  v <- session_get RESET_TRANSACTION_SESSION_KEY ;;
  ret (match v with Some x => if truthy x then py_str x else "" | None => "" end).

Definition clear_current_reset_transaction : M St unit :=
  tx_id <- reset_transaction_id ;;
  _ <- guard (nonempty tx_id) (_delete_transaction_id tx_id) ;;
  _ <- session_pop RESET_TRANSACTION_SESSION_KEY ;;
  ret tt.

Definition _store_transaction (t : ResetTransaction) : M St unit :=
  ttl <- lift (config_int "PASSWORD_RESET_TRANSACTION_TTL_SECONDS") ;;
  now <- now_utc ;;
  lookup_hash <- lift (_transaction_lookup_hash (rt_transaction_id t)) ;;
  record <- _transaction_record (rt_transaction_id t) ;;
  let expires_at := now + ttl * US_SECOND in
  _ <- match record with
       | Some (id, r) =>
           db_write (upd_password_reset_transactions
             (<[id := record_of t lookup_hash now expires_at (prx_created_at r)]>))
       | None =>
           created_at <- now_utc ;;
           db_write (upd_password_reset_transactions (λ tbl,
             <[next_id tbl := record_of t lookup_hash now expires_at created_at]> tbl))
       end ;;
  commit.

Definition _load_transaction (transaction_id : string) : M St ResetTransaction :=
  record <- _transaction_record transaction_id ;;
  match record with
  | None =>
      _ <- clear_current_reset_transaction ;;
      raise (AuthError RESET_TRANSACTION_EXPIRED_ERROR 401 None)
  | Some (_, r) =>
      let expired := _ <- _delete_transaction_id transaction_id ;;
                     raise (AuthError RESET_TRANSACTION_EXPIRED_ERROR 401 None) in
      if negb (bool_decide (prx_purpose r = "password_reset")) || bool_decide (is_Some (prx_used_at r))
      then expired
      else
        now <- now_utc ;;
        if prx_expires_at r <=? now then expired
        else ret (_transaction_from_record r transaction_id)
  end.

Definition _load_current_transaction : M St ResetTransaction :=
  transaction_id <- reset_transaction_id ;;
  if negb (nonempty transaction_id)
  then raise (AuthError "No active password reset transaction" 401 None)
  else _load_transaction transaction_id.

Definition _clear_reset_transaction (t : ResetTransaction) : M St unit :=
  guard (nonempty (rt_transaction_id t)) (_delete_transaction_id (rt_transaction_id t)).

Definition _record_transaction_failure (t : ResetTransaction) (reason : string) : M St unit :=
  let t := with_failure (rt_failure_count t + 1) reason t in
  if 5 <=? rt_failure_count t then
    _ <- _clear_reset_transaction t ;;
    _ <- session_pop RESET_TRANSACTION_SESSION_KEY ;;
    raise (AuthError RESET_TRANSACTION_EXPIRED_ERROR 401 None)
  else _store_transaction t.

Definition _transaction_user (t : ResetTransaction) : M St Z :=
  found <- db_get (λ d, users d !! rt_user_id t) ;;
  let expired := _ <- _clear_reset_transaction t ;;
                 raise (AuthError RESET_TRANSACTION_EXPIRED_ERROR 401 None) in
  match found with
  | None => expired
  | Some user => if _is_admin_like_user user || _account_reset_blocked user then expired
                 else ret (rt_user_id t)
  end.

Definition _available_reset_mfa_methods_for_user (user_id : Z) : M St (list string) :=
  user <- load_user user_id ;;
  if u_mfa_enabled user then
    remaining <- unused_recovery_code_count user_id RECOVERY_CODE_PURPOSE_TOTP ;;
    ret (RESET_MFA_TOTP :: (if 0 <? remaining then [RESET_MFA_RECOVERY_CODE] else []))
  else ret [].

(** [_reset_mfa_policy]: available, preferred and default method. *)
Definition _reset_mfa_policy (user_id : Z) : M St (list string * option string * string) :=
  available_methods <- _available_reset_mfa_methods_for_user user_id ;;
  let preferred_method := if str_in RESET_MFA_TOTP available_methods then Some RESET_MFA_TOTP else None in
  ret (available_methods, preferred_method, _fallback_reset_mfa_method available_methods).

Definition _create_reset_transaction (user_id token_id : Z) : M St ResetTransaction :=
  let* (available_methods, preferred_method, mfa_required) := _reset_mfa_policy user_id in
  transaction_id <- fresh token_urlsafe ;;
  created_at <- time_seconds ;;
  let no_mfa := bool_decide (mfa_required = RESET_MFA_NONE) in
  let t := mkResetTransaction transaction_id token_id user_id "password_reset" mfa_required
             available_methods preferred_method (Some mfa_required) no_mfa false no_mfa 0 None None
             created_at None in
  _ <- _store_transaction t ;;
  ret t.

Definition _transaction_expires_in (t : ResetTransaction) : M St Z :=
  match rt_expires_at t with
  | Some expires_at => now <- time_seconds ;; ret (Z.max 0 (expires_at - now))
  | None => lift (config_int "PASSWORD_RESET_TRANSACTION_TTL_SECONDS")
  end.

Definition _public_transaction (t : ResetTransaction) : M St PublicTransaction :=
  expires_in <- _transaction_expires_in t ;;
  ret (mkPublicTransaction (rt_mfa_required t) (_available_reset_mfa_methods_from_transaction t)
         (_public_reset_mfa_method (rt_preferred_mfa_method t))
         (_public_reset_mfa_method (rt_default_mfa_method t)) (rt_mfa_verified t)
         (rt_recovery_code_verified t) (rt_no_mfa_user t) expires_in).

(** ** Exchanging the mailed token *)

Definition token_refused (token : PasswordResetToken) (now : Z) (verifier : string) (user : option User)
    : res bool :=
  match user with
  | None => Ok true
  | Some user =>
      if negb (bool_decide (prt_purpose token = "password_reset"))
         || bool_decide (is_Some (prt_used_at token)) || bool_decide (is_Some (prt_exchanged_at token))
         || (prt_expires_at token <=? now) then Ok true
      else rbind (_token_hmac verifier) (λ expected,
        Ok (negb (bool_decide (prt_verifier_hmac token = expected))
            || _is_admin_like_user user || _account_reset_blocked user))
  end.

Definition _token_failure_reason (token : PasswordResetToken) (now : Z) (verifier : string)
    (user : option User) : res string :=
  if bool_decide (is_Some (prt_used_at token)) || bool_decide (is_Some (prt_exchanged_at token))
  then Ok "reused"
  else if prt_expires_at token <=? now then Ok "expired"
  else match user with
       | None => Ok "missing_user"
       | Some user =>
           if _is_admin_like_user user then Ok "admin_out_of_scope"
           else if _account_reset_blocked user then Ok "account_unavailable"
           else rbind (_token_hmac verifier) (λ expected,
             Ok (if negb (bool_decide (prt_verifier_hmac token = expected)) then "invalid_verifier"
                 else "invalid"))
       end.

Definition exchange_reset_token (raw_token : string) : M St PublicTransaction :=
  let* (selector, verifier) := lift (_split_reset_token raw_token) in
  found <- _token_by_selector selector ;;
  match found with
  | None =>
      _ <- audit_event "password_reset_failed" "failure" None [("reason", JStr "invalid_selector")] ;;
      raise (AuthError GENERIC_RESET_ERROR 401 None)
  | Some (token_id, token) =>
      now <- now_utc ;;
      user <- db_get (λ d, users d !! prt_user_id token) ;;
      let user_id := prt_user_id token in
      let uid := (λ _, user_id) <$> user in
      refused <- lift (token_refused token now verifier user) ;;
      if (refused : bool) then
        reason <- lift (_token_failure_reason token now verifier user) ;;
        _ <- (if bool_decide (reason = "reused")
              then audit_event "password_reset_token_reused" "failure" uid []
              else if bool_decide (reason = "expired")
              then audit_event "password_reset_token_expired" "expired" uid []
              else audit_event "password_reset_failed" "failure" uid [("reason", JStr reason)]) ;;
        raise (AuthError GENERIC_RESET_ERROR 401 None)
      else
        _ <- db_write (upd_password_reset_tokens (alter (set_prt_exchanged_at (Some now)) token_id)) ;;
        _ <- commit ;;
        token_ref <- lift (audit_reference "password_reset_selector" selector) ;;
        _ <- audit_event "password_reset_token_validated" "success" uid [("token_ref", jopt_str token_ref)] ;;
        t <- _create_reset_transaction user_id token_id ;;
        _ <- session_clear ;;
        _ <- session_put "_permanent" (JBool true) ;;
        _ <- session_put RESET_TRANSACTION_SESSION_KEY (JStr (rt_transaction_id t)) ;;
        seconds <- time_seconds ;;
        _ <- session_put "last_activity_at" (JInt seconds) ;;
        _ <- rotate_session_id ;;
        token_ref <- lift (audit_reference "password_reset_selector" selector) ;;
        transaction_ref <- lift (audit_reference "password_reset_transaction" (rt_transaction_id t)) ;;
        _ <- audit_event "password_reset_token_exchanged" "success" uid
               [("token_ref", jopt_str token_ref); ("transaction_ref", jopt_str transaction_ref)] ;;
        _ <- audit_event "password_reset_transaction_created" "success" uid
               [("mfa_required", JStr (rt_mfa_required t))] ;;
        _ <- guard (negb (bool_decide (rt_mfa_required t = "none")))
               (audit_event "password_reset_mfa_required" "required" uid
                  [("factor", JStr (rt_mfa_required t))]) ;;
        _public_transaction t
  end.

Definition current_reset_transaction : M St PublicTransaction :=
  t <- _load_current_transaction ;; _public_transaction t.

(** ** The second factor *)

Definition select_reset_mfa_method (method : string) : M St PublicTransaction :=
  t <- _load_current_transaction ;;
  user_id <- _transaction_user t ;;
  selected <- lift (_normalize_reset_mfa_method method) ;;
  available_methods <- _available_reset_mfa_methods_for_user user_id ;;
  let refuse {A} (reason : string) : M St A :=
    _ <- audit_event "password_reset_mfa_failed" "failure" (Some user_id)
           [("reason", JStr reason); ("requested_factor", JStr selected)] ;;
    raise (AuthError GENERIC_VERIFICATION_METHOD_ERROR 400 None) in
  if negb (str_in selected available_methods) then
    _ <- _store_transaction (with_methods available_methods t) ;;
    refuse "unavailable_factor"
  else
    let current_method := str_or (Some (rt_mfa_required t)) RESET_MFA_NONE in
    let changed := negb (bool_decide (current_method = selected)) in
    if rt_mfa_verified t && changed then refuse "already_verified"
    else
      let t := with_methods available_methods t in
      let t := if changed then with_method selected false false t
               else with_method selected (rt_mfa_verified t) (rt_recovery_code_verified t) t in
      _ <- _store_transaction t ;;
      _ <- audit_event "password_reset_mfa_method_selected" "success" (Some user_id)
             [("factor", JStr selected)] ;;
      _public_transaction t.

Definition _require_selected_reset_mfa_method (t : ResetTransaction) (user_id : Z)
    (required_method submitted_factor error_message : string) : M St ResetTransaction :=
  selected <- lift (_normalize_reset_mfa_method required_method) ;;
  available_methods <- _available_reset_mfa_methods_for_user user_id ;;
  let t := with_methods available_methods t in
  if negb (str_in selected available_methods) || negb (bool_decide (rt_mfa_required t = selected)) then
    _ <- _store_transaction t ;;
    _ <- audit_event "password_reset_mfa_failed" "failure" (Some user_id)
           [("reason", JStr "wrong_factor"); ("submitted_factor", JStr submitted_factor);
            ("required_factor", JStr (rt_mfa_required t))] ;;
    raise (AuthError error_message 400 None)
  else ret t.

Definition refuse_factor {A} (user_id : Z) (metadata : list (string * jval)) : M St A :=
  _ <- audit_event "password_reset_mfa_failed" "failure" (Some user_id) metadata ;;
  raise (AuthError GENERIC_AUTHENTICATION_CODE_ERROR 401 None).

Definition _send_recovery_code_used_notification (user_id : Z) : M St unit :=
  try_except (send_recovery_code_used_notification user_id) any_exn
    (λ _, audit_event "recovery_code_notification" "failure" (Some user_id)
            [("reason", JStr "email_delivery_failed")]).

(** The check of the code itself. *)
Definition check_reset_code (t : ResetTransaction) (user_id : Z) (code required_method : string)
    : M St unit :=
  if bool_decide (required_method = RESET_MFA_TOTP) then
    if negb (_is_totp_code code) then
      _ <- _record_transaction_failure t "totp_failed" ;; refuse_factor user_id [("factor", JStr "totp")]
    else
      outcome <- _verify_totp_for_user_outcome user_id code "password_reset_mfa" None true ;;
      match outcome with
      | TOTP_VERIFICATION_REPLAY =>
          refuse_factor user_id [("factor", JStr "totp"); ("reason", JStr "totp_replay")]
      | TOTP_VERIFICATION_INVALID =>
          _ <- _record_transaction_failure t "totp_failed" ;; refuse_factor user_id [("factor", JStr "totp")]
      | TOTP_VERIFICATION_VALID => ret tt
      end
  else
    _ <- _enforce_reset_backoff "password_reset_recovery_code" (rt_transaction_id t) ;;
    consumed <- consume_recovery_code user_id code RECOVERY_CODE_PURPOSE_TOTP false ;;
    if negb (consumed : bool) then
      _ <- record_failure "password_reset_recovery_code" (rt_transaction_id t) None ;;
      _ <- _record_transaction_failure t "recovery_code_failed" ;;
      refuse_factor user_id [("factor", JStr "recovery_code")]
    else clear_failures "password_reset_recovery_code" (rt_transaction_id t).

Definition _verify_reset_authentication_code (code required_method : string) : M St PublicTransaction :=
  t <- _load_current_transaction ;;
  user_id <- _transaction_user t ;;
  t <- _require_selected_reset_mfa_method t user_id required_method required_method
         GENERIC_AUTHENTICATION_CODE_ERROR ;;
  _ <- check_reset_code t user_id code required_method ;;
  let recovery := negb (bool_decide (required_method = RESET_MFA_TOTP)) in
  let factor := if recovery then "recovery_code" else "totp" in
  _ <- audit_event_required "password_reset_mfa_verified" "success" (Some user_id)
         [("factor", JStr factor)] ;;
  _ <- commit ;;
  _ <- guard recovery (_send_recovery_code_used_notification user_id) ;;
  verified_at <- time_seconds ;;
  let t := with_verified (recovery || rt_recovery_code_verified t) verified_at t in
  _ <- _store_transaction t ;;
  _public_transaction t.

Definition verify_reset_totp (code : string) : M St PublicTransaction :=
  _verify_reset_authentication_code code RESET_MFA_TOTP.
Definition verify_reset_recovery_code (code : string) : M St PublicTransaction :=
  _verify_reset_authentication_code code RESET_MFA_RECOVERY_CODE.

Definition reset_transaction_user_and_id (required_method : option string) : M St (Z * string) :=
  t <- _load_current_transaction ;;
  user_id <- _transaction_user t ;;
  _ <- match required_method with
       | Some method =>
           _ <- _require_selected_reset_mfa_method t user_id method method
                  GENERIC_AUTHENTICATION_CODE_ERROR ;; ret tt
       | None => ret tt
       end ;;
  ret (user_id, rt_transaction_id t).

(** ** The new password *)

Definition _send_password_reset_notification (user_id : Z) : M St unit :=
  user <- load_user user_id ;;
  send_security_email (u_email user) "SITBank password reset completed"
    (lines [EMAIL_GREETING; "";
            "Your password has been reset successfully. You can now use your new "
              +:+ "password to sign into your e-banking.";
            "If you made this change, no further action is required. If you did not "
              +:+ "attempt this change, please log in immediately to review your account "
              +:+ "activity and consider changing your password and/or MFA settings as a "
              +:+ "precaution.";
            ""; EMAIL_CLOSING; ""; EMAIL_SIGN_OFF]).

Definition complete_password_reset (new_password confirm_new_password : string) : M St (Z * list string) :=
  t <- _load_current_transaction ;;
  user_id <- _transaction_user t ;;
  let refuse {A} (reason message : string) (status : Z) : M St A :=
    _ <- audit_event "password_reset_failed" "failure" (Some user_id) [("reason", JStr reason)] ;;
    raise (AuthError message status None) in
  _ <- guard (negb (bool_decide (rt_mfa_required t = "none")) && negb (rt_mfa_verified t))
         (refuse "missing_mfa" "MFA verification is required before resetting the password" 403) ;;
  _ <- guard (negb (bool_decide (new_password = confirm_new_password)))
         (refuse "password_mismatch" "Passwords must match" 400) ;;
  _ <- try_except (assert_password_not_reused user_id new_password) is_reuse_error
         (λ e, refuse (reuse_reason e) "New password must not match your current or recent passwords" 400) ;;
  warnings <- try_except (validate_password_policy new_password) is_policy_error
                (λ e, refuse "password_policy" (policy_message e) 400) ;;
  now <- now_utc ;;
  _ <- replace_user_password user_id new_password None true ;;
  _ <- db_write (set_user user_id (set_u_failed_login_count 0)) ;;
  _ <- db_write (upd_password_reset_tokens (fmap (use_token now user_id))) ;;
  revoked <- revoke_all_sessions user_id "password_reset" None ;;
  _ <- audit_event_required "password_reset_completed" "success" (Some user_id)
         [("revoked_sessions", JInt revoked); ("mfa_required", JStr (rt_mfa_required t));
          ("recovery_code_used", JBool (rt_recovery_code_verified t));
          ("password_screening", screening warnings)] ;;
  _ <- commit ;;
  _ <- _clear_reset_transaction t ;;
  _ <- session_clear ;;
  user <- load_user user_id ;;
  _ <- clear_failures "login" (_auth_principal (u_username user)) ;;
  _ <- clear_failures "login" (_auth_principal (u_email user)) ;;
  _ <- try_except (_send_password_reset_notification user_id) any_exn
         (λ _, audit_event "password_reset_notification" "failure" (Some user_id)
                 [("reason", JStr "email_delivery_failed")]) ;;
  ret (revoked, warnings).
End PasswordReset.
End PasswordReset.
