(* ===== verification/ResetSafety.v ===== *)
(** * What it takes to reset a password

    The histories of reset transactions: any requests of any browsers to the
    reset service, in any environments, with anything happening to the rest of
    the database in between.  A password is replaced only after the mailed token
    of that customer was presented, and after a second factor of the customer
    unless the account had no authenticator when the token was presented. *)

From S2P Require Import Prelude PyStr TimeModel Schema Runtime Sample Canonical Integrity AuditLog.
From S2P Require Import Passwords PasswordHistory SessionRisk BankingPolicy Notifications Sessions.
From S2P Require Import SessionStore RateLimits Mfa RecoveryCodes LoginFrame RegistrationOtp Registration SignIn Account.
From S2P Require Import MfaCrypto PasswordReset.
Open Scope string_scope.
Open Scope Z_scope.

Module ResetSafety.
Import SessionHmac Audit Passwords PasswordHistory SessionRisk Policy Notifications Sessions.
Import SessionStore RateLimits Mfa MfaCrypto RecoveryCodes LoginFrame Registration SignIn Account PasswordReset.

Inductive ResetRequest : Type :=
  | RequestReset (identifier : string)
  | Exchange (raw_token : string)
  | ViewTransaction
  | SelectMethod (method : string)
  | VerifyTotp (code : string)
  | VerifyRecovery (code : string)
  | CompleteReset (new_password confirm_new_password : string).

Definition ignoring {A} (c : M St A) : M St unit := _ <- c ;; ret tt.

Definition reset_act `{Env} (r : ResetRequest) : M St unit :=
  match r with
  | RequestReset identifier => request_password_reset identifier
  | Exchange raw_token => ignoring (exchange_reset_token raw_token)
  | ViewTransaction => ignoring current_reset_transaction
  | SelectMethod method => ignoring (select_reset_mfa_method method)
  | VerifyTotp code => ignoring (verify_reset_totp code)
  | VerifyRecovery code => ignoring (verify_reset_recovery_code code)
  | CompleteReset a b => ignoring (complete_password_reset a b)
  end.

Record ResetServed : Type := mkResetServed { rs_env : Env; rs_request : ResetRequest; rs_start : St }.

Definition transactions_after (x : ResetServed) : gmap Z PasswordResetTransaction :=
  password_reset_transactions (committed (@reset_act (rs_env x) (rs_request x) (rs_start x)).2).

(** [resets T served]: the table of reset transactions is [T] after the requests
    [served]; rows may also be cleaned up. *)
Inductive resets : gmap Z PasswordResetTransaction → list ResetServed → Prop :=
  | resets_none : resets ∅ []
  | resets_cleanup T T' served : resets T served → T' ⊆ T → resets T' served
  | resets_request x served :
      resets (password_reset_transactions (committed (rs_start x))) served →
      working (rs_start x) = committed (rs_start x) →
      resets (transactions_after x) (served ++ [x]).

(** [x] presented an unused, unexpired token that was mailed to [u], whose row
    was [row]. *)
Definition presented_link (u : Z) (row : User) (x : ResetServed) : Prop :=
  match rs_request x with
  | Exchange raw_token =>
      ∃ selector verifier id token,
        _split_reset_token raw_token = Ok (selector, verifier)
        ∧ password_reset_tokens (committed (rs_start x)) !! id = Some token
        ∧ prt_selector token = selector ∧ prt_user_id token = u
        ∧ @_token_hmac (rs_env x) verifier = Ok (prt_verifier_hmac token)
        ∧ prt_used_at token = None ∧ prt_exchanged_at token = None
        ∧ clock (rs_start x) < prt_expires_at token
        ∧ users (committed (rs_start x)) !! u = Some row
        ∧ _is_admin_like_user row = false ∧ _account_reset_blocked row = false
  | _ => False
  end.

Definition presented_reset_factor (u : Z) (x : ResetServed) : Prop :=
  match rs_request x with
  | VerifyTotp code | VerifyRecovery code =>
      @factor_accepted_for (rs_env x) "password_reset_mfa" (committed (rs_start x)) u code
  | _ => False
  end.

(** What a customer [u] has shown; [mfa] tells whether the account had an
    authenticator when the token was presented. *)
Definition link_shown (u : Z) (mfa : bool) (served : list ResetServed) : Prop :=
  ∃ x row, x ∈ served ∧ presented_link u row x ∧ u_mfa_enabled row = mfa.
Definition factor_shown (u : Z) (served : list ResetServed) : Prop :=
  ∃ x, x ∈ served ∧ presented_reset_factor u x.

(** A transaction is backed by what was shown. *)
Definition backed (served : list ResetServed) (u : Z) (mfa_required : string) (mfa_verified : bool) : Prop :=
  ∃ mfa, link_shown u mfa served
    ∧ (mfa = true → str_in mfa_required ["none"; ""] = false ∧ (mfa_verified = true → factor_shown u served)).

Definition row_backed (served : list ResetServed) (r : PasswordResetTransaction) : Prop :=
  backed served (prx_user_id r) (prx_mfa_required r) (prx_mfa_verified r).
Definition dict_backed (served : list ResetServed) (t : ResetTransaction) : Prop :=
  backed served (rt_user_id t) (rt_mfa_required t) (rt_mfa_verified t).

Definition table_backed (served : list ResetServed) (c w : Db) : Prop :=
  map_Forall (λ _, row_backed served) (password_reset_transactions c)
  ∧ map_Forall (λ _, row_backed served) (password_reset_transactions w).

#[export] Instance table_backed_blind served : security_blind (table_backed served).
Proof. split; [split|..]; by intros * [? ?]. Qed.

Section Frame.
Context `{Env} (served : list ResetServed).
Notation keeps := (preserves (on_db (table_backed served))).

(** Writes to other tables. *)
Lemma other_table f :
  (∀ d, password_reset_transactions (f d) = password_reset_transactions d) → keeps (db_write f).
Proof. intros Hf. apply pres_db_write. intros c w [Hc Hw]. split; [done|]. by rewrite Hf. Qed.
Hint Extern 2 (keeps (db_write _)) => apply other_table; reflexivity : pres.

Lemma keeps_recovery_limit sc p l w : keeps (_consume_public_recovery_limit sc p l w).
Proof.
  unfold _consume_public_recovery_limit. solve_pres.
  apply pres_consume; [apply _|]. intros. by apply sb_counters.
Qed.
Lemma keeps_create_token u : keeps (_create_reset_token u).
Proof. unfold _create_reset_token. solve_pres. Qed.
Hint Resolve keeps_recovery_limit keeps_create_token : pres.
Lemma keeps_request i : keeps (request_password_reset i).
Proof. unfold request_password_reset, _find_customer_user, _send_password_reset_email. cbv zeta. solve_pres. Qed.
Lemma keeps_record id : keeps (_transaction_record id).
Proof. unfold _transaction_record. solve_pres. Qed.
Lemma keeps_drop id : keeps (db_write (upd_password_reset_transactions (delete id))).
Proof. apply pres_db_write. intros c w [Hc Hw]. split; [done|]. simpl. by apply map_Forall_delete. Qed.
Hint Resolve keeps_request keeps_record keeps_drop : pres.
Lemma keeps_delete id : keeps (_delete_transaction_id id).
Proof. unfold _delete_transaction_id. solve_pres. Qed.
Hint Resolve keeps_delete : pres.
Lemma keeps_clear t : keeps (_clear_reset_transaction t).
Proof. unfold _clear_reset_transaction. solve_pres. Qed.
Lemma keeps_tx_id : keeps reset_transaction_id.
Proof. unfold reset_transaction_id. solve_pres. Qed.
Hint Resolve keeps_clear keeps_tx_id : pres.
Lemma keeps_clear_current : keeps clear_current_reset_transaction.
Proof. unfold clear_current_reset_transaction. solve_pres. Qed.
Hint Resolve keeps_clear_current : pres.
Lemma keeps_load : keeps _load_current_transaction.
Proof. unfold _load_current_transaction, _load_transaction. cbv zeta. solve_pres. Qed.
Lemma keeps_user t : keeps (_transaction_user t).
Proof. unfold _transaction_user. cbv zeta. solve_pres. Qed.
Lemma keeps_public t : keeps (_public_transaction t).
Proof. unfold _public_transaction, _transaction_expires_in. solve_pres. Qed.
Lemma keeps_methods u : keeps (_available_reset_mfa_methods_for_user u).
Proof. unfold _available_reset_mfa_methods_for_user, unused_recovery_code_count. solve_pres. Qed.
Lemma keeps_backoff sc p : keeps (_enforce_reset_backoff sc p).
Proof. unfold _enforce_reset_backoff. solve_pres. Qed.
Lemma keeps_consume_code u c p b : keeps (consume_recovery_code u c p b).
Proof. unfold consume_recovery_code. solve_pres. Qed.
Lemma keeps_rotate_id : keeps rotate_session_id.
Proof. unfold rotate_session_id, _end_session_id, _session_record_for_sid, _session_record_for_lookup_hash,
  _end_session_record, put_session. solve_pres. Qed.

(** *** The transaction itself *)

Lemma required_or_none m : str_in (str_or (Some m) RESET_MFA_NONE) ["none"; ""] = str_in m ["none"; ""].
Proof.
  unfold str_or, nonempty, RESET_MFA_NONE. case_bool_decide as E; [by rewrite E|done].
Qed.

Lemma record_backed t h now e c : dict_backed served t → row_backed served (record_of t h now e c).
Proof.
  intros (mfa & Hl & Hm). exists mfa. split; [done|]. intros Hmfa. destruct (Hm Hmfa) as [Hr Hv].
  split; [|done]. cbn [prx_mfa_required record_of]. by rewrite required_or_none.
Qed.

Lemma keeps_put f :
  (∀ tbl, map_Forall (λ _, row_backed served) tbl → map_Forall (λ _, row_backed served) (f tbl)) →
  keeps (db_write (upd_password_reset_transactions f)).
Proof. intros Hf. apply pres_db_write. intros c w [Hc Hw]. split; [done|]. by apply Hf. Qed.

Hint Resolve keeps_load keeps_user keeps_public keeps_methods keeps_backoff keeps_consume_code
  keeps_rotate_id : pres.

Lemma keeps_store t : dict_backed served t → keeps (_store_transaction t).
Proof.
  intros Ht. unfold _store_transaction. solve_pres;
    apply keeps_put; intros tbl Htbl; (apply map_Forall_insert_2; [by apply record_backed|done]).
Qed.

Lemma keeps_failure t reason : dict_backed served t → keeps (_record_transaction_failure t reason).
Proof.
  intros Ht. unfold _record_transaction_failure. cbv zeta. solve_pres. apply keeps_store, Ht.
Qed.

(** Loading reads a stored row and changes nothing. *)
Lemma load_current_ok s t s' :
  _load_current_transaction s = (Ok t, s') →
  working s' = working s ∧ committed s' = committed s
  ∧ ∃ id r tid, password_reset_transactions (working s) !! id = Some r ∧ t = _transaction_from_record r tid.
Proof.
  unfold _load_current_transaction, reset_transaction_id. intros E. inv_bind E. inv_bind E0.
  unfold session_get, gets in E1. injection E1 as <- <-. unfold ret in E0. injection E0 as <- <-.
  destruct (negb _); [done|]. unfold _load_transaction, _transaction_record in E.
  inv_bind E. inv_bind E0. unfold lift in E1. injection E1 as _ <-.
  unfold db_query in E0. injection E0 as Ho <-. destruct a as [[id r]|]; [|by inv_bind E].
  apply one_or_none_Some in Ho as [Hr _]. cbv zeta in E. destruct (_ || _); [by inv_bind E|].
  inv_bind E. unfold now_utc in E0. injection E0 as <- <-. destruct (_ <=? _); [by inv_bind E|].
  unfold ret in E. injection E as <- <-. simpl. split_and!; [done..|]. eauto.
Qed.

Lemma load_backed s t s' :
  on_db (table_backed served) s → _load_current_transaction s = (Ok t, s') → dict_backed served t.
Proof. intros [_ Hw] (_ & _ & id & r & tid & Hr & ->)%load_current_ok. exact (Hw id r Hr). Qed.

Lemma transaction_user_ok t s u s' : _transaction_user t s = (Ok u, s') → s' = s ∧ u = rt_user_id t.
Proof.
  unfold _transaction_user. intros E. inv_bind E. unfold db_get, gets in E0. injection E0 as <- <-.
  cbv zeta in E. destruct (users _ !! _); [|by inv_bind E]. destruct (_ || _); [by inv_bind E|].
  unfold ret in E. by simplify_eq.
Qed.

Lemma methods_ok u s l s' : _available_reset_mfa_methods_for_user u s = (Ok l, s') → s' = s.
Proof.
  unfold _available_reset_mfa_methods_for_user, load_user, unused_recovery_code_count. intros E.
  inv_bind E. unfold db_query in E0. injection E0 as _ <-. destruct (u_mfa_enabled _).
  - inv_bind E. unfold db_get, gets in E0. injection E0 as <- <-. unfold ret in E. by simplify_eq.
  - unfold ret in E. by simplify_eq.
Qed.

Lemma require_selected_ok t u m f e s t' s' :
  _require_selected_reset_mfa_method t u m f e s = (Ok t', s') →
  s' = s ∧ ∃ methods, t' = with_methods methods t.
Proof.
  unfold _require_selected_reset_mfa_method. intros E. inv_bind E. unfold lift in E0. injection E0 as _ <-.
  inv_bind E. apply methods_ok in E0 as ->. cbv zeta in E. destruct (_ || _).
  - by repeat inv_bind E.
  - unfold ret in E. simplify_eq. eauto.
Qed.

Lemma keeps_require t u m f e :
  dict_backed served t → keeps (_require_selected_reset_mfa_method t u m f e).
Proof. intros Ht. unfold _require_selected_reset_mfa_method. cbv zeta. solve_pres. apply keeps_store, Ht. Qed.

Lemma keeps_refuse_factor {A} u md : keeps (refuse_factor (A:=A) u md).
Proof. unfold refuse_factor. solve_pres. Qed.
Hint Resolve keeps_refuse_factor : pres.

Lemma keeps_check t u code m : dict_backed served t → keeps (check_reset_code t u code m).
Proof.
  intros Ht. unfold check_reset_code, _verify_totp_for_user_outcome, _mfa_secret_for_user.
  solve_pres; apply keeps_failure, Ht.
Qed.

Lemma backoff_ok sc p s s' :
  _enforce_reset_backoff sc p s = (Ok tt, s') →
  users (working s') = users (working s) ∧ recovery_codes (working s') = recovery_codes (working s).
Proof.
  intros E. apply try_raises_inv in E; [|intros e; destruct e; solve_raises].
  assert (preserves (on_db (λ _ w, users w = users (working s) ∧ recovery_codes w = recovery_codes (working s)))
    (apply_exponential_backoff sc p)) as Hp.
  { unfold apply_exponential_backoff, _load_counter. cbv zeta. solve_pres. }
  specialize (Hp s (conj eq_refl eq_refl)). by rewrite E in Hp.
Qed.

Lemma factor_moves d d' u code :
  users d' = users d → recovery_codes d' = recovery_codes d →
  factor_accepted_for "password_reset_mfa" d' u code → factor_accepted_for "password_reset_mfa" d u code.
Proof. intros Hu Hr. unfold factor_accepted_for. by rewrite Hu, Hr. Qed.

(** A code that passes is a second factor of the customer. *)
Lemma check_accepts t u code m s s' :
  check_reset_code t u code m s = (Ok tt, s') →
  factor_accepted_for "password_reset_mfa" (working s) u code.
Proof.
  unfold check_reset_code, refuse_factor. intros E. destruct (bool_decide _).
  - destruct (negb _); [by repeat inv_bind E|]. inv_bind E.
    destruct a; [by eapply totp_factor|by repeat inv_bind E..].
  - inv_bind E. destruct a. apply backoff_ok in E0 as [Hu Hr]. inv_bind E.
    destruct a; cbn [negb] in E; [|by repeat inv_bind E].
    apply (recovery_factor "password_reset_mfa") in E0. by eapply factor_moves.
Qed.

(** *** The requests *)

Lemma keeps_view : keeps current_reset_transaction.
Proof. unfold current_reset_transaction. solve_pres. Qed.

Lemma pres_lift_bind {A B} (r : res A) (k : A → M St B) :
  (∀ a, r = Ok a → keeps (k a)) → keeps (bind (lift r) k).
Proof. intros Hk s Hs. unfold bind, lift. destruct r; [by apply Hk|done]. Qed.

Lemma normalized_method m selected :
  _normalize_reset_mfa_method m = Ok selected → str_in selected ["none"; ""] = false.
Proof.
  unfold _normalize_reset_mfa_method. destruct (assoc _ _) as [x|]; [|done].
  destruct (str_in x RESET_MFA_METHODS) eqn:E; [|done]. intros [= <-]. unfold str_in in *.
  apply bool_decide_eq_true in E. unfold RESET_MFA_METHODS in E. apply bool_decide_eq_false.
  set_solver.
Qed.

(** Calls that run in the loaded transaction. *)
Lemma keeps_in_transaction {A} (k : ResetTransaction → M St A) :
  (∀ t, dict_backed served t → keeps (k t)) → keeps (t <- _load_current_transaction ;; k t).
Proof.
  intros Hk s Hs. unfold bind.
  pose proof (keeps_load s Hs) as Hs1. destruct (_load_current_transaction s) as [[t|e] s1] eqn:E; [|exact Hs1].
  apply Hk; [exact (load_backed _ _ _ Hs E)|done].
Qed.

Lemma keeps_select method : keeps (select_reset_mfa_method method).
Proof.
  apply keeps_in_transaction. intros t Ht. apply pres_bind; [auto with pres|intros u].
  apply pres_lift_bind. intros selected Hsel%normalized_method. apply pres_bind; [auto with pres|intros methods].
  cbv zeta. destruct (negb (str_in _ _)); [solve_pres; apply keeps_store, Ht|].
  destruct (rt_mfa_verified t && _) eqn:Hv; [solve_pres|].
  apply pres_bind; [|intros ?; solve_pres]. apply keeps_store.
  destruct Ht as (mfa & Hl & Hm). exists mfa. split.
  - by destruct (negb _).
  - intros Hmfa. destruct (Hm Hmfa) as [_ Hf]. by destruct (negb _).
Qed.

(** The code of [x], a request that submits one. *)
Lemma keeps_verify x code m :
  x ∈ served → working (rs_start x) = committed (rs_start x) →
  (∀ u, factor_accepted_for "password_reset_mfa" (committed (rs_start x)) u code →
        presented_reset_factor u x) →
  on_db (table_backed served) (rs_start x) →
  on_db (table_backed served) (_verify_reset_authentication_code code m (rs_start x)).2.
Proof.
  intros Hx Hclean Hp Hs. unfold _verify_reset_authentication_code. set (s := rs_start x) in *.
  unfold bind at 1. pose proof (keeps_load s Hs) as Hs1.
  destruct (_load_current_transaction s) as [[t|e] s1] eqn:E1; [|exact Hs1].
  pose proof (load_backed _ _ _ Hs E1) as Ht. apply load_current_ok in E1 as (Hw1 & _ & _).
  unfold bind at 1. pose proof (keeps_user t s1 Hs1) as Hs2.
  destruct (_transaction_user t s1) as [[u|e] s2] eqn:E2; [|exact Hs2].
  apply transaction_user_ok in E2 as [-> ->]. unfold bind at 1.
  pose proof (keeps_require t (rt_user_id t) m m GENERIC_AUTHENTICATION_CODE_ERROR Ht s1 Hs1) as Hs3.
  destruct (_require_selected_reset_mfa_method _ _ _ _ _ s1) as [[t'|e] s3] eqn:E3; [|exact Hs3].
  apply require_selected_ok in E3 as [-> (methods & ->)]. unfold bind at 1.
  pose proof (keeps_check (with_methods methods t) (rt_user_id t) code m Ht s1 Hs1) as Hs4.
  destruct (check_reset_code _ _ _ _ s1) as [[[]|e] s4] eqn:E4; [|exact Hs4].
  apply check_accepts in E4. rewrite Hw1, Hclean in E4. specialize (Hp _ E4). cbv zeta.
  assert (∀ b at_, dict_backed served (with_verified b at_ (with_methods methods t))) as Hd.
  { intros b at_. destruct Ht as (mfa & Hl & Hm). exists mfa. split; [done|]. intros Hmfa.
    destruct (Hm Hmfa) as [Hr _]. split; [done|]. intros _. by exists x. }
  match goal with |- on_db _ (?c s4).2 => assert (keeps c) as Hk end.
  { unfold _send_recovery_code_used_notification, send_recovery_code_used_notification.
    solve_pres; by apply keeps_store. }
  by apply Hk.
Qed.

(** The token a customer may exchange. *)
Lemma token_accepted token now verifier user :
  token_refused token now verifier user = Ok false →
  ∃ row, user = Some row ∧ _token_hmac verifier = Ok (prt_verifier_hmac token)
    ∧ prt_used_at token = None ∧ prt_exchanged_at token = None ∧ now < prt_expires_at token
    ∧ _is_admin_like_user row = false ∧ _account_reset_blocked row = false.
Proof.
  unfold token_refused. destruct user as [row|]; [|done]. destruct (_ || _) eqn:E; [done|].
  apply orb_false_iff in E as [[[_ Hu]%orb_false_iff Hx]%orb_false_iff He].
  destruct (_token_hmac verifier) as [h|]; simpl; [|done].
  intros Hr. injection Hr as Hr. apply orb_false_iff in Hr as [[Hh Ha]%orb_false_iff Hb].
  apply negb_false_iff, bool_decide_eq_true in Hh as <-. exists row. split_and!; try done.
  - apply bool_decide_eq_false in Hu. by apply eq_None_not_Some.
  - apply bool_decide_eq_false in Hx. by apply eq_None_not_Some.
  - by apply Z.leb_gt.
Qed.

(** A new transaction asks for a factor exactly when there is an authenticator. *)
Lemma policy_default u row s ms p d s' :
  users (working s) !! u = Some row → _reset_mfa_policy u s = (Ok (ms, p, d), s') →
  s' = s ∧ d = if u_mfa_enabled row then RESET_MFA_TOTP else RESET_MFA_NONE.
Proof.
  intros Hu. unfold _reset_mfa_policy. intros E. inv_bind E.
  pose proof (methods_ok _ _ _ _ E0) as ->. unfold ret in E. injection E as _ _ <- <-. split; [done|].
  unfold _available_reset_mfa_methods_for_user, load_user in E0. inv_bind E0. unfold db_query in E.
  rewrite Hu in E. injection E as <- <-. destruct (u_mfa_enabled row).
  - inv_bind E0. unfold ret in E0. by simplify_eq.
  - unfold ret in E0. by simplify_eq.
Qed.

Lemma keeps_create u token_id row s :
  link_shown u (u_mfa_enabled row) served → users (working s) !! u = Some row →
  on_db (table_backed served) s → on_db (table_backed served) (_create_reset_transaction u token_id s).2.
Proof.
  intros Hl Hu Hs. unfold _create_reset_transaction. unfold bind at 1.
  assert (keeps (_reset_mfa_policy u)) as Hp by (unfold _reset_mfa_policy; solve_pres).
  specialize (Hp s Hs). destruct (_reset_mfa_policy u s) as [[[[ms p] d]|e] s1] eqn:E; [|exact Hp].
  apply (policy_default u row) in E as [-> Hd]; [|done]. revert s Hs Hu Hp.
  match goal with |- ∀ s, _ → _ → _ → _ (?c s).2 => assert (keeps c) as Hk end.
  { cbv zeta. solve_pres. apply keeps_store. exists (u_mfa_enabled row). split; [done|]. intros Hm.
    simpl. by rewrite Hd, Hm. }
  intros s Hs _ _. by apply Hk.
Qed.

Lemma then_keeps {A B} (I J : St → Prop) (c : M St A) (k : A → M St B) :
  preserves I c → (∀ s, I s → J s) → (∀ a s, I s → J (k a s).2) → ∀ s, I s → J (bind c k s).2.
Proof.
  intros Hc HJ Hk s Hs. unfold bind. specialize (Hc s Hs). destruct (c s) as [[a|e] s1]; auto.
Qed.

(** The durable and the pending users, next to the table. *)
Definition with_users (U : gmap Z User) (c w : Db) : Prop :=
  table_backed served c w ∧ users c = U ∧ users w = U.
#[local] Instance with_users_blind U : audit_blind (with_users U).
Proof.
  split.
  - intros c w (Ht & ? & ?). split; [by eapply blind_rollback|done].
  - intros c w (Ht & ? & ?). split; [by eapply blind_commit|done].
  - intros e c w (Ht & ? & ?). split; [by apply blind_append|done].
Qed.

Lemma keeps_exchange x raw_token :
  x ∈ served → rs_env x = H → rs_request x = Exchange raw_token →
  working (rs_start x) = committed (rs_start x) →
  on_db (table_backed served) (rs_start x) →
  on_db (table_backed served) (exchange_reset_token raw_token (rs_start x)).2.
Proof.
  intros Hx HE Hreq Hclean Hs. unfold exchange_reset_token. set (s := rs_start x) in *.
  unfold bind at 1, lift. destruct (_split_reset_token raw_token) as [[selector verifier]|] eqn:Esplit; [|done].
  unfold bind at 1, _token_by_selector, db_query.
  destruct (one_or_none _ _) as [[[id token]|]|] eqn:Eo; [| |done].
  2:{ match goal with |- on_db _ (?c s).2 => assert (keeps c) as Hk by solve_pres end. by apply Hk. }
  apply one_or_none_Some in Eo as [Htok Hsel]. apply bool_decide_eq_true in Hsel.
  unfold bind at 1, now_utc. set (now := clock s + _). set (s1 := next_effect (set_clock now s)).
  unfold bind at 1, db_get, gets. change (working s1) with (working s). unfold bind at 1, lift.
  destruct (token_refused _ _ _ _) as [[]|] eqn:Er; [| |done].
  { match goal with |- on_db _ (?c s1).2 => assert (keeps c) as Hk by solve_pres end. by apply Hk. }
  apply token_accepted in Er as (row & Hrow & Hh & Hused & Hexch & Hexp & Hadm & Hblk).
  set (u := prt_user_id token) in *.
  assert (link_shown u (u_mfa_enabled row) served) as Hlink.
  { exists x, row. split; [done|]. split; [|done]. unfold presented_link. rewrite Hreq, HE. fold s.
    exists selector, verifier, id, token. rewrite <- Hclean. split_and!; try done. lia. }
  cbv zeta. rewrite Hrow. simpl fmap.
  assert (on_db (with_users (users (working s))) s1) as Hs1.
  { split; [exact Hs|]. simpl. by rewrite Hclean. }
  revert Hs1. generalize s1. clear -Hlink Hrow.
  pose proof (λ t (Ht : on_db (with_users (users (working s))) t), proj1 Ht) as Hweak.
  apply then_keeps; [|done|intros _].
  { apply pres_db_write. by intros c w ([? ?] & ? & ?). }
  apply then_keeps; [auto with pres|done|intros _].
  apply then_keeps; [by intros ? ?|done|intros ref].
  apply then_keeps; [auto with pres|done|intros _]. intros t Ht. unfold bind at 1.
  pose proof (keeps_create u id row t Hlink) as Hc. destruct Ht as (Ht & _ & Hu).
  specialize (Hc ltac:(by rewrite Hu) Ht).
  destruct (_create_reset_transaction u id t) as [[d|e] t1]; [|exact Hc].
  match goal with |- on_db _ (?c t1).2 => assert (keeps c) as Hk end; [|by apply Hk].
  solve_pres; by intros ? ?.
Qed.

Lemma keeps_policy p : keeps (validate_password_policy p).
Proof.
  unfold validate_password_policy, live_check, _is_password_pwned_by_hibp, _hibp_circuit_is_open,
    _record_hibp_failure, _clear_hibp_failures, _hibp_breaker, put_breaker. cbv zeta. solve_pres.
Qed.
Lemma keeps_refuse_match p l : keeps (refuse_match p l).
Proof. induction l as [|[? ?] l IH]; simpl; solve_pres. Qed.
Hint Resolve keeps_refuse_match : pres.
Lemma keeps_reused u p : keeps (assert_password_not_reused u p).
Proof. unfold assert_password_not_reused, _history_entries. solve_pres. Qed.
Lemma keeps_replace u p t b : keeps (replace_user_password u p t b).
Proof. unfold replace_user_password, hash_password, _prune_password_history. solve_pres. Qed.
Hint Resolve keeps_policy keeps_reused keeps_replace : pres.
Lemma keeps_complete a b : keeps (complete_password_reset a b).
Proof.
  apply keeps_in_transaction. intros t Ht. cbv zeta. unfold _send_password_reset_notification. solve_pres.
Qed.
End Frame.

(** *** What a completed reset does *)

Definition others_kept (U : gmap Z User) (u : Z) (c w : Db) : Prop :=
  ∀ v, v ≠ u → users c !! v = U !! v ∧ users w !! v = U !! v.
#[local] Instance others_kept_blind U u : audit_blind (others_kept U u).
Proof.
  split.
  - intros c w Hp v Hv. by destruct (Hp v Hv).
  - intros c w Hp v Hv. by destruct (Hp v Hv).
  - intros e c w Hp v Hv. by apply Hp.
Qed.

Section Completion.
Context `{Env}.

Lemma others_write U u f :
  (∀ d v, v ≠ u → users (f d) !! v = users d !! v) → preserves (on_db (others_kept U u)) (db_write f).
Proof.
  intros Hf. apply pres_db_write. intros c w Hp v Hv. destruct (Hp v Hv) as [Hc Hw].
  split; [done|]. by rewrite Hf.
Qed.
Hint Extern 2 (preserves (on_db (others_kept _ _)) (db_write _)) =>
  apply others_write; intros ? ? ?; try reflexivity; simpl; by rewrite lookup_alter_ne : pres.

Lemma others_refuse_match U u p l : preserves (on_db (others_kept U u)) (refuse_match p l).
Proof. induction l as [|[? ?] l IH]; simpl; solve_pres. Qed.
Hint Resolve others_refuse_match : pres.

Lemma others_revoke U u v reason c : preserves (on_db (others_kept U u)) (revoke_all_sessions v reason c).
Proof. apply pres_revoke_all. intros f d w Hp x Hx. by apply Hp. Qed.
Lemma others_clear U u sc p : preserves (on_db (others_kept U u)) (clear_failures sc p).
Proof. apply pres_clear_failures; [apply _|]. intros f c w Hp x Hx. by apply Hp. Qed.
Hint Resolve others_revoke others_clear : pres.

Lemma users_after_commit U T t u x (s s' : St) (y : Z * list string) :
  (_ <- _clear_reset_transaction t ;;
   _ <- session_clear ;;
   user <- load_user u ;;
   _ <- clear_failures "login" (_auth_principal (u_username user)) ;;
   _ <- clear_failures "login" (_auth_principal (u_email user)) ;;
   _ <- try_except (_send_password_reset_notification u) any_exn
          (λ _, audit_event "password_reset_notification" "failure" (Some u)
                  [("reason", JStr "email_delivery_failed")]) ;;
   ret x) s = (Ok y, s') →
  on_db (users_and_sessions U T) s → on_db (users_and_sessions U T) s' ∧ clock s ≤ clock s'.
Proof.
  intros E Hs. split.
  - match type of E with ?c s = _ => assert (preserves (on_db (users_and_sessions U T)) c) as Hp end.
    { unfold _clear_reset_transaction, _delete_transaction_id, _transaction_record,
        _send_password_reset_notification. solve_pres.
      all: first [apply pres_clear_failures; [apply _|apply unchanged_counters]
                 |apply pres_db_write; by intros ? ? (? & ? & ? & ?)]. }
    specialize (Hp s Hs). by rewrite E in Hp.
  - match type of E with ?c s = _ => assert (preserves (not_before (clock s)) c) as Hp end.
    { unfold _clear_reset_transaction, _delete_transaction_id, _transaction_record,
        _send_password_reset_notification, send_security_email, _deliver_to_outbox,
        _deliver_smtp, clear_failures, _load_counter, load_user. cbv zeta.
      solve_pres; by intros z Hz. }
    specialize (Hp s (Z.le_refl _)). by rewrite E in Hp.
Qed.

Lemma complete_effect a b s r s' :
  complete_password_reset a b s = (Ok r, s') →
  ∃ id rec row', password_reset_transactions (working s) !! id = Some rec
    ∧ (prx_mfa_required rec = "none" ∨ prx_mfa_verified rec = true)
    ∧ users (committed s') !! prx_user_id rec = Some row' ∧ verify_password a (u_password_hash row') = Ok true
    ∧ (∀ id x now, server_side_sessions (committed s') !! id = Some x → clock s' ≤ now →
         is_active _session_component (prx_user_id rec) now x = false)
    ∧ (working s = committed s → ∀ v, v ≠ prx_user_id rec →
         users (committed s') !! v = users (committed s) !! v).
Proof.
  unfold complete_password_reset. intros E. inv_bind E.
  apply load_current_ok in E0 as (Hw & Hc & id & rec & tid & Hrec & ->).
  exists id, rec. inv_bind E. pose proof (transaction_user_ok _ _ _ _ E0) as [-> ->]. clear E0.
  set (t := _transaction_from_record rec tid) in *. change (rt_user_id t) with (prx_user_id rec) in *.
  cbv zeta in E.
  assert (working s = committed s → ∀ v, v ≠ prx_user_id rec →
    users (committed s') !! v = users (committed s) !! v) as Hothers.
  { intros Hclean. match type of E with ?c s0 = _ =>
      assert (preserves (on_db (others_kept (users (committed s)) (prx_user_id rec))) c) as Hp end.
    { unfold assert_password_not_reused, _history_entries, validate_password_policy, live_check,
        _is_password_pwned_by_hibp, _hibp_circuit_is_open, _record_hibp_failure, _clear_hibp_failures,
        _hibp_breaker, put_breaker, replace_user_password, hash_password, _prune_password_history,
        _clear_reset_transaction, _delete_transaction_id, _transaction_record,
        _send_password_reset_notification. cbv zeta. solve_pres. }
    specialize (Hp s0). rewrite E in Hp. intros v Hv.
    destruct (Hp ltac:(intros x _; rewrite Hw, Hc, Hclean; done) v Hv) as [Hv' _]. exact Hv'. }
  inv_bind E. apply guard_raises_inv in E0 as [Hm ->]; [|solve_raises].
  inv_bind E. apply guard_raises_inv in E0 as [_ ->]; [|solve_raises].
  do 3 inv_bind E. inv_bind E. apply replaced_password in E3 as (row' & Hrow & Hpw & _).
  inv_bind E. injection E3 as _ <-. inv_bind E. injection E3 as _ <-. inv_bind E. rename E3 into Er.
  inv_bind E. rename E3 into Ea. inv_bind E. rename E3 into Ec.
  destruct (recorded_commit _ _ _ _ _ _ _ _ _ Ea Ec) as (Hdb & Hclk & _).
  destruct (revoke_keeps_users _ _ _ _ _ Er) as [Hus _].
  apply users_after_commit with (1 := E) in Hdb as [Hdb' Hclk'].
  unfold on_db, users_and_sessions in Hdb'. destruct Hdb' as (Huc & _ & Hsc & _).
  exists (set_u_failed_login_count 0 row'). split_and!; try done.
  - apply andb_false_iff in Hm as [Hm|Hm]; apply negb_false_iff in Hm; [left|right; exact Hm].
    by apply bool_decide_eq_true in Hm.
  - rewrite Huc, Hus.
    cbn [working set_working users upd_password_reset_tokens set_user upd_users].
    rewrite lookup_alter_eq, Hrow. done.
  - intros i x now Hx Hnow. rewrite Hsc in Hx. eapply (revoke_all_none _ _ _ _ _ Er i x now Hx). lia.
Qed.
End Completion.

(** *** Histories *)

Lemma backed_later served x u m v : backed served u m v → backed (served ++ [x]) u m v.
Proof.
  intros (mfa & (y & row & Hy & Hp) & Hm). exists mfa. split; [exists y, row; set_solver|].
  intros Hmfa. destruct (Hm Hmfa) as [Hr Hf]. split; [done|]. intros Hv.
  destruct (Hf Hv) as (z & Hz & Hzp). exists z. set_solver.
Qed.

Lemma request_keeps x served :
  x ∈ served → working (rs_start x) = committed (rs_start x) →
  on_db (table_backed served) (rs_start x) →
  on_db (table_backed served) (@reset_act (rs_env x) (rs_request x) (rs_start x)).2.
Proof.
  intros Hx Hclean Hs.
  assert (∀ A (c : M St A), on_db (table_backed served) (c (rs_start x)).2 →
    on_db (table_backed served) (ignoring c (rs_start x)).2) as Hig.
  { intros A c Hc. unfold ignoring, bind. by destruct (c (rs_start x)) as [[a|e] s1]. }
  destruct x as [E r s]; simpl in *. destruct r; simpl; try apply Hig.
  - by apply keeps_request.
  - by eapply (@keeps_exchange E served (mkResetServed E (Exchange raw_token) s)).
  - by apply keeps_view.
  - by apply keeps_select.
  - by eapply (@keeps_verify E served (mkResetServed E (VerifyTotp code) s)).
  - by eapply (@keeps_verify E served (mkResetServed E (VerifyRecovery code) s)).
  - by apply keeps_complete.
Qed.

Lemma resets_backed T served : resets T served → map_Forall (λ _, row_backed served) T.
Proof.
  induction 1 as [|T T' served _ IH Hsub|x served _ IH Hclean].
  - apply map_Forall_empty.
  - intros id r Hr. eapply IH, lookup_weaken; eauto.
  - assert (map_Forall (λ _, row_backed (served ++ [x])) (password_reset_transactions (committed (rs_start x))))
      as IH' by (eapply map_Forall_impl; [exact IH|intros; by apply backed_later]).
    apply (request_keeps x (served ++ [x])); [set_solver|done|]. split; [done|by rewrite Hclean].
Qed.
End ResetSafety.
Import ResetSafety Passwords Sessions PasswordReset.

(** C6: A password is reset only with the mailed link and the second factor.
    Whatever requests reached the reset service before, from whatever browsers
    and in whatever environments, when a reset completes, it is for a customer
    [u] whose unused, unexpired mailed token was presented earlier, and a second
    factor of [u] was accepted as well, unless the account had no authenticator
    when the token was presented.  Then the new password is the one that verifies
    for [u], nobody else's account changed, and no session of [u] is left. *)
Theorem reset_needs_link_and_factor served E a b s r s' :
  resets (password_reset_transactions (committed s)) served → working s = committed s →
  @complete_password_reset E a b s = (Ok r, s') →
  ∃ u row', (link_shown u false served ∨ link_shown u true served ∧ factor_shown u served)
    ∧ users (committed s') !! u = Some row' ∧ verify_password a (u_password_hash row') = Ok true
    ∧ (∀ v, v ≠ u → users (committed s') !! v = users (committed s) !! v)
    ∧ ∀ id x now, server_side_sessions (committed s') !! id = Some x → clock s' ≤ now →
        is_active _session_component u now x = false.
Proof.
  intros Hh Hclean (id & rec & row' & Hrec & Hm & Hu & Hv & Hs & Ho)%complete_effect.
  rewrite Hclean in Hrec. apply resets_backed in Hh. destruct (Hh id rec Hrec) as ([] & Hl & Hf).
  - exists (prx_user_id rec), row'. split_and!; auto. right. split; [done|].
    destruct (Hf eq_refl) as [Hr Hfac]. destruct Hm as [Hm|Hm]; [by rewrite Hm in Hr|by apply Hfac].
  - exists (prx_user_id rec), row'. split_and!; auto.
Qed.

(** ** Witness: alice resets her password *)

Definition serve_reset (r : ResetRequest) (s : St) : St :=
  let s' := (@reset_act Sample.sample_env r s).2 in set_working (committed s') s'.
Definition reset_start : St := mkSt Sample.sample_db Sample.sample_db Sample.noon 0 ∅ (Some "sid-0") [] ∅ ∅.
Definition ask : ResetRequest := RequestReset "alice".
Definition open_link : ResetRequest := Exchange "token-4.token-5".
Definition give_code : ResetRequest := VerifyTotp Mfa.sample_code.
Definition asked : St := serve_reset ask reset_start.
Definition opened_link : St := serve_reset open_link asked.
Definition gave_code : St := serve_reset give_code opened_link.
Definition alice_reset : list ResetServed :=
  [mkResetServed Sample.sample_env ask reset_start; mkResetServed Sample.sample_env open_link asked;
   mkResetServed Sample.sample_env give_code opened_link].
Definition reset_run := @complete_password_reset Sample.sample_env "battery staple horse"
  "battery staple horse" gave_code.

Lemma next_reset r s served :
  resets (password_reset_transactions (committed s)) served → working s = committed s →
  resets (password_reset_transactions (committed (serve_reset r s)))
    (served ++ [mkResetServed Sample.sample_env r s]).
Proof. intros Hs Hc. exact (resets_request (mkResetServed Sample.sample_env r s) served Hs Hc). Qed.

Lemma serve_clean r s : working (serve_reset r s) = committed (serve_reset r s).
Proof. done. Qed.

Lemma reset_witness :
  is_ok reset_run.1 = true
  ∧ ∃ u, link_shown u false alice_reset ∨ link_shown u true alice_reset ∧ factor_shown u alice_reset.
Proof.
  split; [vm_compute; reflexivity|].
  destruct reset_run as [[r|e] s'] eqn:E.
  - assert (resets (password_reset_transactions (committed gave_code)) alice_reset) as Hh.
    { unfold gave_code, opened_link, asked.
      pose proof (next_reset ask reset_start [] resets_none eq_refl) as H1.
      pose proof (next_reset open_link _ _ H1 (serve_clean _ _)) as H2.
      exact (next_reset give_code _ _ H2 (serve_clean _ _)). }
    destruct (reset_needs_link_and_factor alice_reset Sample.sample_env "battery staple horse"
      "battery staple horse" gave_code r s' Hh (serve_clean _ _) E) as (u & row & Hs & _).
    exists u. exact Hs.
  - exfalso. assert (is_ok reset_run.1 = true) as Hok by (vm_compute; reflexivity).
    rewrite E in Hok. discriminate Hok.
Defined.
