(* ===== verification/ManualRecovery.v ===== *)
(** * Manual account recovery ([app/auth/password_reset.py])

    A customer who lost the second factor asks for a manual review; staff moves
    the request through its states; completing an approved request removes the
    authenticator and ends every session.  [request_manual_recovery] and the
    functions behind the administration portal's decisions. *)

From S2P Require Import Prelude PyStr TimeModel Schema Runtime Sample Canonical Integrity AuditLog.
From S2P Require Import SessionRisk BankingPolicy Notifications Sessions RateLimits Mfa RecoveryCodes.
From S2P Require Import Registration SignIn Account PasswordReset.
Open Scope string_scope.
Open Scope Z_scope.

Module ManualRecovery.
Import SessionHmac Audit SessionRisk Policy Notifications Sessions RateLimits Mfa Registration SignIn.
Import Account PasswordReset.

Definition GENERIC_MANUAL_RECOVERY_MESSAGE : string :=
  "If we can locate that account, your recovery request has been submitted.".
Definition MANUAL_RECOVERY_STATUS_PENDING : string := "pending".
Definition MANUAL_RECOVERY_STATUS_UNDER_REVIEW : string := "under_review".
Definition MANUAL_RECOVERY_STATUS_APPROVED : string := "approved".
Definition MANUAL_RECOVERY_STATUS_DENIED : string := "denied".
Definition MANUAL_RECOVERY_STATUS_EXPIRED : string := "expired".
Definition MANUAL_RECOVERY_STATUS_CANCELLED : string := "cancelled".
Definition MANUAL_RECOVERY_STATUS_COMPLETED : string := "completed".
Definition MANUAL_RECOVERY_STATUSES : list string :=
  [MANUAL_RECOVERY_STATUS_PENDING; MANUAL_RECOVERY_STATUS_UNDER_REVIEW; MANUAL_RECOVERY_STATUS_APPROVED;
   MANUAL_RECOVERY_STATUS_DENIED; MANUAL_RECOVERY_STATUS_EXPIRED; MANUAL_RECOVERY_STATUS_CANCELLED;
   MANUAL_RECOVERY_STATUS_COMPLETED].
Definition MANUAL_RECOVERY_ACTIVE_STATUSES : list string :=
  [MANUAL_RECOVERY_STATUS_PENDING; MANUAL_RECOVERY_STATUS_UNDER_REVIEW; MANUAL_RECOVERY_STATUS_APPROVED].
Definition MANUAL_RECOVERY_ALLOWED_TRANSITIONS (old : string) : list string :=
  if bool_decide (old = MANUAL_RECOVERY_STATUS_PENDING) then
    [MANUAL_RECOVERY_STATUS_UNDER_REVIEW; MANUAL_RECOVERY_STATUS_DENIED; MANUAL_RECOVERY_STATUS_EXPIRED;
     MANUAL_RECOVERY_STATUS_CANCELLED]
  else if bool_decide (old = MANUAL_RECOVERY_STATUS_UNDER_REVIEW) then
    [MANUAL_RECOVERY_STATUS_APPROVED; MANUAL_RECOVERY_STATUS_DENIED; MANUAL_RECOVERY_STATUS_EXPIRED;
     MANUAL_RECOVERY_STATUS_CANCELLED]
  else if bool_decide (old = MANUAL_RECOVERY_STATUS_APPROVED) then
    [MANUAL_RECOVERY_STATUS_COMPLETED; MANUAL_RECOVERY_STATUS_EXPIRED; MANUAL_RECOVERY_STATUS_CANCELLED]
  else [].

(** What staff is shown. *)
Record PublicRecovery : Type := mkPublicRecovery {
  pr_id : Z; pr_status : string; pr_expires_at : string; pr_request_count : Z; pr_completed : bool
}.

(** [_set_manual_recovery_status]. *)
Definition _set_manual_recovery_status (status : string) (now : Z) (r : ManualRecoveryRequest)
    : ManualRecoveryRequest :=
  mkManualRecoveryRequest (mr_identifier_ref r) (mr_user_id r) (mr_reason r) status (mr_requested_ip r)
    (mr_requested_user_agent r) (mr_request_count r) (mr_created_at r) now (mr_last_submitted_at r)
    (mr_expires_at r) now
    (if bool_decide (status = MANUAL_RECOVERY_STATUS_COMPLETED) then Some now else mr_completed_at r).

(** The update of a request that is submitted again. *)
Definition resubmitted (ip agent : string) (now : Z) (reason : option string) (r : ManualRecoveryRequest)
    : ManualRecoveryRequest :=
  mkManualRecoveryRequest (mr_identifier_ref r) (mr_user_id r) reason (mr_status r) ip agent
    ((if mr_request_count r =? 0 then 1 else mr_request_count r) + 1) (mr_created_at r) now now
    (mr_expires_at r) (mr_status_changed_at r) (mr_completed_at r).

Definition update_recovery (id : Z) (f : ManualRecoveryRequest → ManualRecoveryRequest) : M St unit :=
  db_write (upd_manual_recovery_requests (alter f id)).

Definition is_active_request (r : ManualRecoveryRequest) : bool :=
  str_in (mr_status r) MANUAL_RECOVERY_ACTIVE_STATUSES.
Definition expires_first (x y : Z * ManualRecoveryRequest) : bool :=
  (mr_expires_at x.2 <? mr_expires_at y.2)
  || (mr_expires_at x.2 =? mr_expires_at y.2) && (x.1 <=? y.1).
Definition newest_request (x y : Z * ManualRecoveryRequest) : bool :=
  (mr_created_at y.2 <? mr_created_at x.2)
  || (mr_created_at x.2 =? mr_created_at y.2) && (y.1 <=? x.1).

(** [_utc_iso(value)] of this module: an offset, no [Z]. *)
Definition recovery_iso (t : Z) : string := iso_auto t +:+ "+00:00".

Definition without_authenticator (u : User) : User :=
  set_pending None None (set_secret None None (set_u_mfa_enabled false u)).

Section ManualRecovery.
Context `{Env}.

Definition _manual_recovery_request_ref (id : Z) : res (option string) :=
  audit_reference "manual_recovery_request" (if id =? 0 then "" else pretty id).

Definition _public_manual_recovery_request (id : Z) (r : ManualRecoveryRequest) : PublicRecovery :=
  mkPublicRecovery id (mr_status r) (recovery_iso (mr_expires_at r)) (mr_request_count r)
    (bool_decide (is_Some (mr_completed_at r))).

Definition _audit_manual_recovery_transition (id : Z) (user_id : option Z) (previous_status new_status : string)
    (outcome : string) (reason : option string) (required : bool) : M St unit :=
  request_ref <- lift (_manual_recovery_request_ref id) ;;
  let metadata := [("request_ref", jopt_str request_ref); ("previous_status", JStr previous_status);
                   ("new_status", JStr new_status); ("reason", jopt_str reason)] in
  let expired := bool_decide (new_status = MANUAL_RECOVERY_STATUS_EXPIRED)
                 && bool_decide (outcome = "success") in
  let event_type := if expired then "manual_recovery_expired" else "manual_recovery_status_changed" in
  let outcome := if expired then "expired" else outcome in
  if has_request_context then
    if required then audit_event_required event_type outcome user_id metadata
    else audit_event event_type outcome user_id metadata
  else if required then
    _ <- audit_system_event_in_transaction_required event_type outcome user_id metadata ;; ret tt
  else audit_system_event event_type outcome user_id metadata.

Definition expire_manual_recovery_requests (now : option Z) (identifier_ref : option string)
    (limit : option Z) : M St Z :=
  current_time <- match now with Some t => ret t | None => now_utc end ;;
  found <- db_get (λ d, sort_by expires_first (rows_where (λ r,
             is_active_request r && (mr_expires_at r <=? current_time)
             && match identifier_ref with
                | Some ref => bool_decide (mr_identifier_ref r = ref)
                | None => true
                end) (manual_recovery_requests d))) ;;
  let expired_records := match limit with
                         | Some n => firstn (Z.to_nat (Z.max 1 n)) found
                         | None => found
                         end in
  _ <- mapM_ (λ '(id, _), update_recovery id
                (_set_manual_recovery_status MANUAL_RECOVERY_STATUS_EXPIRED current_time)) expired_records ;;
  _ <- guard (negb (bool_decide (length expired_records = 0%nat)))
         (_ <- mapM_ (λ '(id, r), _audit_manual_recovery_transition id (mr_user_id r) (mr_status r)
                        MANUAL_RECOVERY_STATUS_EXPIRED "success" (Some "ttl_expired") true)
                 expired_records ;;
          commit) ;;
  ret (Z.of_nat (length expired_records)).

Definition _active_manual_recovery_request (identifier_ref : string) (now : Z)
    : M St (option (Z * ManualRecoveryRequest)) :=
  db_get (λ d, head (sort_by newest_request (rows_where (λ r,
    bool_decide (mr_identifier_ref r = identifier_ref) && is_active_request r
    && (now <? mr_expires_at r)) (manual_recovery_requests d)))).

Definition _manual_recovery_expires_at (now : Z) : res Z :=
  rbind (config_int "MANUAL_RECOVERY_REQUEST_TTL_SECONDS") (λ ttl, Ok (now + ttl * US_SECOND)).

Definition _normalize_manual_recovery_status (status : string) : res string :=
  let normalized := casefold (strip status) in
  if str_in normalized MANUAL_RECOVERY_STATUSES then Ok normalized
  else Raise (AuthError "Invalid manual recovery status" 400 None).

(** ** Notifications and the support ticket *)

Definition mail_or_audit (user_id : Z) (subject text : string) : M St unit :=
  try_except (user <- load_user user_id ;; send_security_email (u_email user) subject text) any_exn
    (λ _, audit_event "manual_recovery_notification" "failure" (Some user_id)
            [("reason", JStr "email_delivery_failed")]).

Definition _send_manual_recovery_requested_notification (user_id expires_at : Z) : M St unit :=
  mail_or_audit user_id "SITBank manual recovery requested"
    ("A manual SITBank account recovery review was requested for your account. "
       +:+ "This request expires at " +:+ utc_minutes expires_at +:+ ". "
       +:+ "If you did not request it, contact support immediately. "
       +:+ "This message does not contain account recovery secrets.").

Definition _send_manual_recovery_completed_notification (user_id : Z) : M St unit :=
  mail_or_audit user_id "SITBank manual recovery completed"
    ("Manual SITBank account recovery was completed for your account. "
       +:+ "Your existing MFA methods were reset and you must re-enroll MFA before normal account use. "
       +:+ "If this was not you, contact support immediately.").

Definition _create_account_recovery_support_ticket (user_id : Z) (reason : option string) : M St unit :=
  try_except
    (created_at <- now_utc ;;
     let description := str_or reason
       "Customer requested manual account recovery review. No reason was provided." in
     _ <- db_write (upd_support_tickets (λ t, <[next_id t := mkSupportTicket user_id "account_recovery"
            "Account recovery requested" description "open" None None created_at created_at None]> t)) ;;
     commit)
    any_exn (λ _, rollback).

(** ** Asking for a review *)

Definition reason_fields (clean_reason : option string) : list (string * jval) :=
  [("reason_present", JBool (bool_decide (is_Some clean_reason)));
   ("reason_length", JInt (match clean_reason with Some r => Z.of_nat (slen r) | None => 0 end))].

Definition request_manual_recovery (identifier : string) (reason : option string) : M St unit :=
  _ <- _consume_public_recovery_limit "manual_recovery_request" (_normalize identifier) 3 (60 * 60) ;;
  now <- now_utc ;;
  user <- _find_customer_user identifier ;;
  let text := str_take 1000 (strip (or_empty reason)) in
  let clean_reason := if nonempty text then Some text else None in
  principal_ref <- lift (principal_reference identifier) ;;
  identifier_ref <- match principal_ref with
                    | Some ref => if nonempty ref then ret ref
                                  else lift (active_hmac_hex ("manual-recovery:" +:+ _normalize identifier) 32)
                    | None => lift (active_hmac_hex ("manual-recovery:" +:+ _normalize identifier) 32)
                    end ;;
  let linked_user := match user with
                     | Some (id, u) => if _is_admin_like_user u then None else Some id
                     | None => None
                     end in
  _ <- expire_manual_recovery_requests (Some now) (Some identifier_ref) None ;;
  existing <- _active_manual_recovery_request identifier_ref now ;;
  match existing with
  | Some (id, r) =>
      _ <- update_recovery id (resubmitted _client_ip _user_agent now clean_reason) ;;
      request_ref <- lift (_manual_recovery_request_ref id) ;;
      _ <- audit_event_required "manual_recovery_requested" "deduped" linked_user
             ([("principal_ref", JStr identifier_ref); ("request_ref", jopt_str request_ref);
               ("status", JStr (mr_status r))] ++ reason_fields clean_reason) ;;
      commit
  | None =>
      expires_at <- lift (_manual_recovery_expires_at now) ;;
      id <- db_get (λ d, next_id (manual_recovery_requests d)) ;;
      _ <- db_write (upd_manual_recovery_requests (<[id := mkManualRecoveryRequest identifier_ref linked_user
             clean_reason MANUAL_RECOVERY_STATUS_PENDING _client_ip _user_agent 1 now now now expires_at now None]>)) ;;
      _ <- flush ;;
      request_ref <- lift (_manual_recovery_request_ref id) ;;
      _ <- audit_event_required "manual_recovery_requested" "pending" linked_user
             ([("principal_ref", JStr identifier_ref); ("request_ref", jopt_str request_ref);
               ("expires_at", JStr (recovery_iso expires_at))] ++ reason_fields clean_reason) ;;
      _ <- commit ;;
      match linked_user with
      | Some user_id =>
          _ <- _send_manual_recovery_requested_notification user_id expires_at ;;
          _create_account_recovery_support_ticket user_id clean_reason
      | None => ret tt
      end
  end.

(** ** Deciding *)

Definition _manual_recovery_request_or_error (request_id : Z) : M St ManualRecoveryRequest :=
  found <- db_get (λ d, manual_recovery_requests d !! request_id) ;;
  match found with
  | Some r => ret r
  | None => raise (AuthError "Manual recovery request not found" 404 None)
  end.

(** [_expire_manual_recovery_if_stale]. *)
Definition _expire_manual_recovery_if_stale (request_id : Z) (r : ManualRecoveryRequest) (now : Z)
    : M St bool :=
  if negb (is_active_request r) then ret false
  else if now <? mr_expires_at r then ret false
  else _ <- update_recovery request_id (_set_manual_recovery_status MANUAL_RECOVERY_STATUS_EXPIRED now) ;;
       ret true.

(** Closing a stale request before a decision. *)
Definition close_if_stale (request_id : Z) (r : ManualRecoveryRequest) (now : Z) (reason : string) : M St unit :=
  stale <- _expire_manual_recovery_if_stale request_id r now ;;
  guard (stale : bool)
    (_ <- _audit_manual_recovery_transition request_id (mr_user_id r) (mr_status r)
            MANUAL_RECOVERY_STATUS_EXPIRED "success" (Some reason) true ;;
     _ <- commit ;;
     raise (AuthError "Manual recovery request is expired" 409 None)).

Definition transition_manual_recovery_request (request_id : Z) (new_status : string) (reason : option string)
    : M St PublicRecovery :=
  r <- _manual_recovery_request_or_error request_id ;;
  now <- now_utc ;;
  _ <- close_if_stale request_id r now "expired_before_transition" ;;
  normalized_status <- lift (_normalize_manual_recovery_status new_status) ;;
  let old_status := mr_status r in
  if bool_decide (normalized_status = old_status) then ret (_public_manual_recovery_request request_id r)
  else if negb (str_in normalized_status (MANUAL_RECOVERY_ALLOWED_TRANSITIONS old_status)) then
    _ <- _audit_manual_recovery_transition request_id (mr_user_id r) old_status normalized_status
           "failure" (Some "invalid_transition") false ;;
    raise (AuthError "Invalid manual recovery status transition" 409 None)
  else
    _ <- update_recovery request_id (_set_manual_recovery_status normalized_status now) ;;
    _ <- _audit_manual_recovery_transition request_id (mr_user_id r) old_status normalized_status
           "success" reason true ;;
    _ <- commit ;;
    ret (_public_manual_recovery_request request_id (_set_manual_recovery_status normalized_status now r)).

Definition complete_manual_recovery_request (request_id : Z) (reason : option string)
    : M St (PublicRecovery * Z) :=
  r <- _manual_recovery_request_or_error request_id ;;
  now <- now_utc ;;
  _ <- close_if_stale request_id r now "expired_before_completion" ;;
  let refuse {A} (why message : string) : M St A :=
    _ <- _audit_manual_recovery_transition request_id (mr_user_id r) (mr_status r)
           MANUAL_RECOVERY_STATUS_COMPLETED "failure" (Some why) false ;;
    raise (AuthError message 409 None) in
  _ <- guard (negb (bool_decide (mr_status r = MANUAL_RECOVERY_STATUS_APPROVED)))
         (refuse "completion_requires_approval" "Manual recovery request must be approved before completion") ;;
  user <- db_get (λ d, match mr_user_id r with
                       | Some u => if u =? 0 then None else (λ row, (u, row)) <$> users d !! u
                       | None => None
                       end) ;;
  match user with
  | None => refuse "completion_user_unavailable" "Manual recovery request cannot be completed"
  | Some (user_id, row) =>
      if _is_admin_like_user row || _account_reset_blocked row
      then refuse "completion_user_unavailable" "Manual recovery request cannot be completed"
      else
        _ <- db_write (set_user user_id without_authenticator) ;;
        revoked_sessions <- revoke_all_sessions user_id "manual_recovery" (Some "customer") ;;
        _ <- update_recovery request_id (_set_manual_recovery_status MANUAL_RECOVERY_STATUS_COMPLETED now) ;;
        request_ref <- lift (_manual_recovery_request_ref request_id) ;;
        let metadata := [("request_ref", jopt_str request_ref); ("previous_status", JStr (mr_status r));
                         ("new_status", JStr MANUAL_RECOVERY_STATUS_COMPLETED); ("reason", jopt_str reason);
                         ("revoked_sessions", JInt revoked_sessions);
                         ("mfa_reenrollment_required", JBool true)] in
        _ <- (if has_request_context then
                _ <- audit_event_required "manual_recovery_completed" "success" (Some user_id) metadata ;;
                commit
              else
                _ <- commit ;;
                audit_system_event "manual_recovery_completed" "success" (Some user_id) metadata) ;;
        _ <- _send_manual_recovery_completed_notification user_id ;;
        ret (_public_manual_recovery_request request_id
               (_set_manual_recovery_status MANUAL_RECOVERY_STATUS_COMPLETED now r), revoked_sessions)
  end.
End ManualRecovery.
End ManualRecovery.
Import ManualRecovery SessionHmac Audit SessionRisk Policy Notifications Sessions RateLimits Mfa.
Import Registration SignIn Account PasswordReset.

(** ** Histories of requests for review *)

Module RecoverySafety.

#[local] Hint Constants Opaque : pres.

Inductive RecoveryCall : Type :=
  | Submit (identifier : string) (reason : option string)
  | Decide (request_id : Z) (new_status : string) (reason : option string)
  | Finish (request_id : Z) (reason : option string)
  | ExpireStale (limit : option Z).

Definition recovery_act `{Env} (r : RecoveryCall) : M St unit :=
  match r with
  | Submit identifier reason => request_manual_recovery identifier reason
  | Decide id status reason => _ <- transition_manual_recovery_request id status reason ;; ret tt
  | Finish id reason => _ <- complete_manual_recovery_request id reason ;; ret tt
  | ExpireStale limit => _ <- expire_manual_recovery_requests None None limit ;; ret tt
  end.

Record RecoveryServed : Type := mkRecoveryServed { ms_env : Env; ms_call : RecoveryCall; ms_start : St }.

(** [recoveries T served]: the table of requests after the calls [served].  In
    between rows may be cleaned up, or closed as expired by the portal's checks. *)
Inductive recoveries : gmap Z ManualRecoveryRequest → list RecoveryServed → Prop :=
  | recoveries_none : recoveries ∅ []
  | recoveries_cleanup T T' served :
      recoveries T served →
      (∀ id r', T' !! id = Some r' → T !! id = Some r' ∨ mr_status r' = MANUAL_RECOVERY_STATUS_EXPIRED) →
      recoveries T' served
  | recoveries_call x served :
      recoveries (manual_recovery_requests (committed (ms_start x))) served →
      working (ms_start x) = committed (ms_start x) →
      recoveries (manual_recovery_requests (committed (@recovery_act (ms_env x) (ms_call x) (ms_start x)).2))
        (served ++ [x]).

Definition decided (id : Z) (status : string) (x : RecoveryServed) : Prop :=
  match ms_call x with
  | Decide id' new_status _ => id' = id ∧ _normalize_manual_recovery_status new_status = Ok status
  | _ => False
  end.

(** Staff took the request under review; and, after that, approved it. *)
Definition reviewed (id : Z) (served : list RecoveryServed) : Prop :=
  ∃ i x, served !! i = Some x ∧ decided id MANUAL_RECOVERY_STATUS_UNDER_REVIEW x.
Definition reviewed_and_approved (id : Z) (served : list RecoveryServed) : Prop :=
  ∃ i j x y, (i < j)%nat ∧ served !! i = Some x ∧ decided id MANUAL_RECOVERY_STATUS_UNDER_REVIEW x
    ∧ served !! j = Some y ∧ decided id MANUAL_RECOVERY_STATUS_APPROVED y.

Definition row_reviewed (served : list RecoveryServed) (id : Z) (r : ManualRecoveryRequest) : Prop :=
  (mr_status r = MANUAL_RECOVERY_STATUS_UNDER_REVIEW → reviewed id served)
  ∧ (mr_status r = MANUAL_RECOVERY_STATUS_APPROVED → reviewed_and_approved id served).

Definition table_reviewed (served : list RecoveryServed) (c w : Db) : Prop :=
  map_Forall (row_reviewed served) (manual_recovery_requests c)
  ∧ map_Forall (row_reviewed served) (manual_recovery_requests w).

#[export] Instance table_reviewed_blind served : security_blind (table_reviewed served).
Proof. split; [split|..]; by intros * [? ?]. Qed.

Lemma reviewed_later id served x : reviewed id served → reviewed id (served ++ [x]).
Proof. intros (i & y & Hi & Hy). exists i, y. split; [by apply lookup_app_l_Some|done]. Qed.
Lemma approved_later id served x :
  reviewed_and_approved id served → reviewed_and_approved id (served ++ [x]).
Proof.
  intros (i & j & y & z & Hij & Hi & Hy & Hj & Hz). exists i, j, y, z.
  split_and!; try done; by apply lookup_app_l_Some.
Qed.
Lemma row_later served x id r : row_reviewed served id r → row_reviewed (served ++ [x]) id r.
Proof. intros [Hu Ha]. split; [|]; intros E; [by apply reviewed_later, Hu|by apply approved_later, Ha]. Qed.

Section Frame.
Context `{Env} (served : list RecoveryServed).
Notation keeps := (preserves (on_db (table_reviewed served))).

Lemma keeps_update id f :
  (∀ r, row_reviewed served id r → row_reviewed served id (f r)) → keeps (update_recovery id f).
Proof.
  intros Hf. apply pres_db_write. intros c w [Hc Hw]. split; [done|]. intros i r. simpl.
  rewrite lookup_alter_Some. intros [(-> & r0 & Hr0 & ->)|[_ Hr]]; [by apply Hf, Hw|by apply Hw].
Qed.

(** Closing a request asks for nothing. *)
Lemma keeps_close id status now :
  status ≠ MANUAL_RECOVERY_STATUS_UNDER_REVIEW → status ≠ MANUAL_RECOVERY_STATUS_APPROVED →
  keeps (update_recovery id (_set_manual_recovery_status status now)).
Proof. intros Hu Ha. apply keeps_update. intros r _. by split. Qed.

Lemma keeps_audit_transition id u a b o r q : keeps (_audit_manual_recovery_transition id u a b o r q).
Proof.
  unfold _audit_manual_recovery_transition, audit_system_event_in_transaction_required, audit_system_event.
  cbv zeta. solve_pres; apply pres_system_write;
    first [apply blind_rollback|apply blind_commit|intros; by apply blind_append].
Qed.
Hint Resolve keeps_audit_transition : pres.

Lemma keeps_expire n i l : keeps (expire_manual_recovery_requests n i l).
Proof. unfold expire_manual_recovery_requests. cbv zeta. solve_pres. by apply keeps_close. Qed.

Lemma keeps_other_tables f :
  (∀ d, manual_recovery_requests (f d) = manual_recovery_requests d) → keeps (db_write f).
Proof. intros Hf. apply pres_db_write. intros c w [Hc Hw]. split; [done|]. by rewrite Hf. Qed.
Hint Extern 2 (keeps (db_write _)) => apply keeps_other_tables; reflexivity : pres.

Lemma keeps_public_limit sc p l w : keeps (_consume_public_recovery_limit sc p l w).
Proof.
  unfold _consume_public_recovery_limit. solve_pres.
  apply pres_consume; [apply _|]. intros. by apply sb_counters.
Qed.
Lemma keeps_mail u s t : keeps (mail_or_audit u s t).
Proof. unfold mail_or_audit. solve_pres. Qed.
Lemma keeps_ticket u r : keeps (_create_account_recovery_support_ticket u r).
Proof. unfold _create_account_recovery_support_ticket. cbv zeta. solve_pres. Qed.
Hint Resolve keeps_expire keeps_public_limit keeps_mail keeps_ticket : pres.

Lemma keeps_submit identifier reason : keeps (request_manual_recovery identifier reason).
Proof.
  unfold request_manual_recovery, _find_customer_user, _active_manual_recovery_request,
    _send_manual_recovery_requested_notification. cbv zeta. solve_pres.
  - apply keeps_update. intros r Hr. exact Hr.
  - apply pres_db_write. intros c w [Hc Hw]. split; [done|]. simpl.
    apply map_Forall_insert_2; [by split|done].
Qed.

Lemma keeps_close_if_stale id r now why : keeps (close_if_stale id r now why).
Proof.
  unfold close_if_stale, _expire_manual_recovery_if_stale. solve_pres. by apply keeps_close.
Qed.
Hint Resolve keeps_close_if_stale : pres.

Lemma keeps_finish id reason : keeps (complete_manual_recovery_request id reason).
Proof.
  unfold complete_manual_recovery_request, _manual_recovery_request_or_error,
    _send_manual_recovery_completed_notification, audit_system_event. cbv zeta. solve_pres.
  - by apply keeps_close.
  - apply pres_system_write; first [apply blind_rollback|apply blind_commit|intros; by apply blind_append].
Qed.

Lemma close_if_stale_ok id r now why s s' : close_if_stale id r now why s = (Ok tt, s') → s' = s.
Proof.
  unfold close_if_stale. intros E. inv_bind E. unfold _expire_manual_recovery_if_stale in E0.
  assert (a = false → s0 = s) as Hs.
  { intros ->. destruct (negb _); [unfold ret in E0; by simplify_eq|].
    destruct (_ <? _); [unfold ret in E0; by simplify_eq|]. by inv_bind E0. }
  destruct a; simpl in E; [by repeat inv_bind E|]. unfold ret in E. simplify_eq. by apply Hs.
Qed.

Lemma keeps_after_load id {A} (k : ManualRecoveryRequest → M St A) (I J : St → Prop) s :
  I s → (∀ s, I s → J s) → (∀ r, manual_recovery_requests (working s) !! id = Some r → J (k r s).2) →
  J ((r <- _manual_recovery_request_or_error id ;; k r) s).2.
Proof.
  intros Hs HJ Hk. unfold _manual_recovery_request_or_error, bind at 1. unfold bind at 1, db_get, gets.
  destruct (manual_recovery_requests (working s) !! id) as [r|] eqn:E; simpl; [by apply Hk|by apply HJ].
Qed.
End Frame.

Lemma table_later served x s : on_db (table_reviewed served) s → on_db (table_reviewed (served ++ [x])) s.
Proof.
  intros [Hc Hw]. split; eapply map_Forall_impl; try done; intros i r Hr; by apply row_later.
Qed.

(** A decision of [x] on a request of the table. *)
Lemma decision_backed served x id old status now r :
  decided id status x → row_reviewed served id r → mr_status r = old →
  str_in status (MANUAL_RECOVERY_ALLOWED_TRANSITIONS old) = true →
  ∀ r', row_reviewed (served ++ [x]) id (_set_manual_recovery_status status now r').
Proof.
  intros Hd [Hu Ha] Hold Hallowed r'. apply bool_decide_eq_true in Hallowed.
  unfold MANUAL_RECOVERY_ALLOWED_TRANSITIONS in Hallowed. subst old. split; simpl; intros ->.
  - exists (length served), x. split; [by rewrite lookup_app_r, Nat.sub_diag|done].
  - case_bool_decide; [set_solver|]. case_bool_decide as Eu.
    + destruct (Hu Eu) as (i & y & Hi & Hy). exists i, (length served), y, x.
      split; [by apply lookup_lt_Some in Hi|]. split_and!; try done; [by apply lookup_app_l_Some|].
      by rewrite lookup_app_r, Nat.sub_diag.
    + case_bool_decide; set_solver.
Qed.

Lemma keeps_decide `{Env} served x id status reason s :
  (∀ st, _normalize_manual_recovery_status status = Ok st → decided id st x) →
  on_db (table_reviewed served) s →
  on_db (table_reviewed (served ++ [x])) (transition_manual_recovery_request id status reason s).2.
Proof.
  intros Hx Hs. unfold transition_manual_recovery_request.
  apply (keeps_after_load id _ (on_db (table_reviewed served))); [done|apply table_later|].
  intros r Hr. pose proof (proj2 Hs id r Hr) as Hrow.
  set (late := table_reviewed (served ++ [x])).
  assert (on_db late s) as Hl by by apply table_later.
  unfold bind at 1, now_utc. set (now := clock s + _). set (s1 := next_effect (set_clock now s)).
  unfold bind at 1. pose proof (keeps_close_if_stale (served ++ [x]) id r now "expired_before_transition" s1 Hl) as H1.
  destruct (close_if_stale _ _ _ _ s1) as [[[]|e] s2] eqn:E1; [|exact H1]. apply close_if_stale_ok in E1 as ->.
  unfold bind at 1, lift. destruct (_normalize_manual_recovery_status status) as [st|] eqn:En; [|done].
  cbv zeta. specialize (Hx st eq_refl).
  match goal with |- on_db _ (?c s1).2 => assert (preserves (on_db late) c) as Hk end; [|by apply Hk].
  destruct (bool_decide _); [solve_pres|]. destruct (str_in st _) eqn:Ea; simpl.
  - apply pres_bind; [|intros ?; solve_pres; apply keeps_audit_transition].
    apply keeps_update. intros r' _. eapply decision_backed; eauto.
  - solve_pres. apply keeps_audit_transition.
Qed.

Lemma call_keeps x served :
  on_db (table_reviewed served) (ms_start x) →
  on_db (table_reviewed (served ++ [x])) (@recovery_act (ms_env x) (ms_call x) (ms_start x)).2.
Proof.
  intros Hs. pose proof (table_later served x _ Hs) as Hl. destruct x as [E r s]; simpl in *.
  assert (∀ A (c : M St A) P, on_db P (c s).2 → on_db P ((_ <- c ;; ret tt) s).2) as Hig.
  { intros A c P Hc. unfold bind. by destruct (c s) as [[a|e] s1]. }
  destruct r; simpl; try apply Hig.
  - by apply keeps_submit.
  - apply keeps_decide; [|done]. intros st Hst. by split.
  - by apply keeps_finish.
  - by apply keeps_expire.
Qed.

Lemma recoveries_reviewed T served : recoveries T served → map_Forall (row_reviewed served) T.
Proof.
  induction 1 as [|T T' served _ IH Hsub|x served _ IH Hclean].
  - apply map_Forall_empty.
  - intros id r Hr. destruct (Hsub id r Hr) as [Hr'|He]; [by apply (IH id)|].
    split; intros E; rewrite He in E; discriminate E.
  - apply (call_keeps x served). split; [done|by rewrite Hclean].
Qed.

(** *** What a completed recovery does *)

(** Users, session records and requests as given. *)
Definition recovery_data (U : gmap Z User) (T : gmap Z ServerSideSession)
    (R : gmap Z ManualRecoveryRequest) (c w : Db) : Prop :=
  users_and_sessions U T c w ∧ manual_recovery_requests c = R ∧ manual_recovery_requests w = R.
#[export] Instance recovery_data_blind U T R : audit_blind (recovery_data U T R).
Proof. split; by intros * ((? & ? & ? & ?) & ? & ?). Qed.

Section Completion.
Context `{Env}.

(** The required record and the commit, or the commit and the system record. *)
Lemma recorded_completion ty u md s s' :
  (if has_request_context then _ <- audit_event_required ty "success" u md ;; commit
   else _ <- commit ;; audit_system_event ty "success" u md) s = (Ok tt, s') →
  on_db (recovery_data (users (working s)) (server_side_sessions (working s))
           (manual_recovery_requests (working s))) s' ∧ clock s ≤ clock s'.
Proof.
  intros E. set (P := recovery_data _ _ _). split.
  - destruct has_request_context.
    + inv_bind E. apply audit_event_required_cases in E0 as [_ [[_ (e & _ & Hw)]|[[? ?] _]]]; [|done].
      unfold commit in E. destruct (db_ok _); [|done]. injection E as <-. unfold on_db, P. simpl. by rewrite Hw.
    + inv_bind E. unfold commit in E0. destruct (db_ok _); [|done]. injection E0 as _ <-.
      assert (preserves (on_db P) (audit_system_event ty "success" u md)) as Hp.
      { unfold audit_system_event. solve_pres.
        apply pres_system_write; first [apply blind_rollback|apply blind_commit|intros; by apply blind_append]. }
      specialize (Hp (set_committed (working s) s)). rewrite E in Hp. by apply Hp.
  - match type of E with ?c s = _ => assert (preserves (not_before (clock s)) c) as Hp end.
    { destruct has_request_context; unfold audit_system_event, _write_system_audit_event; solve_pres. }
    specialize (Hp s (Z.le_refl _)). by rewrite E in Hp.
Qed.

Lemma finish_effect id reason s p s' :
  complete_manual_recovery_request id reason s = (Ok p, s') →
  ∃ r u row', manual_recovery_requests (working s) !! id = Some r
    ∧ mr_status r = MANUAL_RECOVERY_STATUS_APPROVED ∧ clock s < mr_expires_at r ∧ mr_user_id r = Some u
    ∧ users (committed s') !! u = Some row' ∧ u_mfa_enabled row' = false
    ∧ u_mfa_secret_ciphertext row' = None ∧ u_mfa_secret_nonce row' = None
    ∧ (mr_status <$> manual_recovery_requests (committed s') !! id) = Some MANUAL_RECOVERY_STATUS_COMPLETED
    ∧ ∀ i x now, server_side_sessions (committed s') !! i = Some x → clock s' ≤ now →
        is_active "customer" u now x = false.
Proof.
  unfold complete_manual_recovery_request, _manual_recovery_request_or_error. intros E. inv_bind E.
  inv_bind E0. unfold db_get, gets in E1. injection E1 as <- <-.
  destruct (manual_recovery_requests (working s) !! id) as [r|] eqn:Hr; [|done].
  unfold ret in E0. injection E0 as <- <-. exists r. inv_bind E. injection E0 as <- <-.
  set (now := clock s + _) in *. set (s1 := next_effect (set_clock now s)) in *.
  inv_bind E. destruct a. assert (now < mr_expires_at r ∨ is_active_request r = false) as Hexp.
  { unfold close_if_stale, _expire_manual_recovery_if_stale in E0. inv_bind E0.
    destruct (is_active_request r) eqn:Eact; [left|by right]. simpl in E1.
    destruct (now <? mr_expires_at r) eqn:El; [by apply Z.ltb_lt|]. inv_bind E1.
    unfold ret in E1. injection E1 as <- <-. simpl in E0. by repeat inv_bind E0. }
  apply close_if_stale_ok in E0 as ->. cbv zeta in E.
  inv_bind E. apply guard_raises_inv in E0 as [Hst ->]; [|solve_raises].
  apply negb_false_iff, bool_decide_eq_true in Hst.
  assert (clock s < mr_expires_at r) as Hlive.
  { destruct Hexp as [Hexp|Hexp]; [lia|]. unfold is_active_request in Hexp. by rewrite Hst in Hexp. }
  inv_bind E. unfold db_get, gets in E0. injection E0 as Hu <-.
  destruct a0 as [[u row]|]; [|by repeat inv_bind E].
  assert (mr_user_id r = Some u ∧ users (working s) !! u = Some row) as [Huid Hrow].
  { destruct (mr_user_id r) as [z|]; [|done]. destruct (z =? 0); [done|].
    change (working s1) with (working s) in Hu.
    destruct (users (working s) !! z) eqn:Ez; simplify_eq/=. done. }
  destruct (_ || _); [by repeat inv_bind E|]. inv_bind E. injection E0 as _ <-.
  inv_bind E. rename E0 into Er. pose proof (revoke_component_none _ _ _ _ _ _ Er) as Hnone.
  assert (users (working s0) = users (set_user u without_authenticator (working s))
    ∧ manual_recovery_requests (working s0) = manual_recovery_requests (working s)) as [Hus Hreq].
  { assert (preserves (on_db (λ _ w, users w = users (set_user u without_authenticator (working s))
      ∧ manual_recovery_requests w = manual_recovery_requests (working s)))
      (revoke_all_sessions u "manual_recovery" (Some "customer"))) as Hp.
    { unfold revoke_all_sessions, _active_session_records, _expire_stale_sessions, end_each,
        _end_session_record. solve_pres; by intros t Ht. }
    match type of Er with _ ?st = _ => specialize (Hp st) end. rewrite Er in Hp. by apply Hp. }
  inv_bind E. injection E0 as _ <-. inv_bind E. unfold lift in E0. injection E0 as _ <-.
  inv_bind E. match type of E0 with _ = (Ok ?v, _) => destruct v end.
  apply recorded_completion in E0 as [Hdb Hclk]. simpl in Hdb, Hclk.
  match type of Hdb with on_db (recovery_data ?U ?T ?R) _ =>
    assert (preserves (on_db (recovery_data U T R)) (_send_manual_recovery_completed_notification u)) as Hp
  end.
  { unfold _send_manual_recovery_completed_notification, mail_or_audit. solve_pres. }
  assert (preserves (not_before (clock s2)) (_send_manual_recovery_completed_notification u)) as Hp2.
  { unfold _send_manual_recovery_completed_notification, mail_or_audit, send_security_email,
      _deliver_to_outbox, _deliver_smtp, load_user. cbv zeta. solve_pres; by intros z Hz. }
  inv_bind E. specialize (Hp s2 Hdb). specialize (Hp2 s2 (Z.le_refl _)). rewrite E0 in Hp, Hp2.
  unfold ret in E. injection E as _ <-. unfold not_before in Hp2. cbn [snd] in Hp, Hp2.
  destruct Hp as ((Huc & _ & Hsc & _) & Hrc & _).
  exists u, (without_authenticator row). split_and!; try done.
  - rewrite Huc, Hus. unfold set_user. simpl. by rewrite lookup_alter_eq, Hrow.
  - rewrite Hrc, Hreq, lookup_alter_eq, Hr. done.
  - intros i x t Hx Ht. rewrite Hsc in Hx. apply (Hnone i x t Hx). lia.
Qed.
End Completion.
End RecoverySafety.
Import RecoverySafety.

(** C7: An authenticator is removed by manual recovery only after staff reviewed
    and approved the request.  Along any history of submissions, decisions,
    completions and expiries, when a completion succeeds, staff had earlier taken
    that request under review and later approved it, and it has not expired; the
    account it names is without its authenticator, no customer session of it is
    left, and the request is closed as completed, all durably. *)
Theorem recovery_needs_review served E id reason s p s' :
  recoveries (manual_recovery_requests (committed s)) served → working s = committed s →
  @complete_manual_recovery_request E id reason s = (Ok p, s') →
  reviewed_and_approved id served
  ∧ ∃ r u row', manual_recovery_requests (committed s) !! id = Some r ∧ mr_user_id r = Some u
      ∧ clock s < mr_expires_at r
      ∧ users (committed s') !! u = Some row' ∧ u_mfa_enabled row' = false
      ∧ u_mfa_secret_ciphertext row' = None ∧ u_mfa_secret_nonce row' = None
      ∧ (mr_status <$> manual_recovery_requests (committed s') !! id) = Some MANUAL_RECOVERY_STATUS_COMPLETED
      ∧ ∀ i x now, server_side_sessions (committed s') !! i = Some x → clock s' ≤ now →
          is_active "customer" u now x = false.
Proof.
  intros Hh Hclean (r & u & row' & Hr & Hst & Hlive & Hu & Hrest)%finish_effect.
  rewrite Hclean in Hr. apply recoveries_reviewed in Hh. split; [by apply (Hh id r Hr)|].
  exists r, u, row'. tauto.
Qed.

(** ** Witness: alice's request is reviewed, approved and completed *)

Definition serve_recovery (r : RecoveryCall) (s : St) : St :=
  let s' := (@recovery_act Sample.sample_env r s).2 in set_working (committed s') s'.
Definition recovery_start : St :=
  mkSt Sample.sample_db Sample.sample_db Sample.noon 0 ∅ (Some "sid-0") [] ∅ ∅.
Definition submit_alice : RecoveryCall := Submit "alice" (Some "lost phone").
Definition take_up : RecoveryCall := Decide 1 "under_review" None.
Definition approve : RecoveryCall := Decide 1 " Approved" (Some "id checked").
Definition submitted : St := serve_recovery submit_alice recovery_start.
Definition taken_up : St := serve_recovery take_up submitted.
Definition approved_state : St := serve_recovery approve taken_up.
Definition alice_recovery : list RecoveryServed :=
  [mkRecoveryServed Sample.sample_env submit_alice recovery_start;
   mkRecoveryServed Sample.sample_env take_up submitted;
   mkRecoveryServed Sample.sample_env approve taken_up].
Definition recovery_run :=
  @complete_manual_recovery_request Sample.sample_env 1 None approved_state.

Lemma next_recovery r s served :
  recoveries (manual_recovery_requests (committed s)) served → working s = committed s →
  recoveries (manual_recovery_requests (committed (serve_recovery r s)))
    (served ++ [mkRecoveryServed Sample.sample_env r s]).
Proof. intros Hs Hc. exact (recoveries_call (mkRecoveryServed Sample.sample_env r s) served Hs Hc). Qed.

Lemma serve_recovery_clean r s : working (serve_recovery r s) = committed (serve_recovery r s).
Proof. done. Qed.

Lemma recovery_review_witness :
  is_ok recovery_run.1 = true ∧ reviewed_and_approved 1 alice_recovery.
Proof.
  split; [vm_compute; reflexivity|].
  destruct recovery_run as [[r|e] s'] eqn:E.
  - assert (recoveries (manual_recovery_requests (committed approved_state)) alice_recovery) as Hh.
    { unfold approved_state, taken_up, submitted.
      pose proof (next_recovery submit_alice recovery_start [] recoveries_none eq_refl) as H1.
      pose proof (next_recovery take_up _ _ H1 (serve_recovery_clean _ _)) as H2.
      exact (next_recovery approve _ _ H2 (serve_recovery_clean _ _)). }
    exact (proj1 (recovery_needs_review alice_recovery Sample.sample_env 1 None approved_state r s' Hh
      (serve_recovery_clean _ _) E)).
  - exfalso. assert (is_ok recovery_run.1 = true) as Hok by (vm_compute; reflexivity).
    rewrite E in Hok. discriminate Hok.
Defined.
