(* ===== verification/AdminAccess.v ===== *)
(** * Staff access ([app/admin/services.py], [app/admin/separation.py])

    Who counts as active staff, as an administrator and as a root administrator;
    the sessions the portal's views require; the rule that nobody acts on their
    own customer account; signing in to the portal; changing one's own password
    and authenticator. *)

From S2P Require Import Prelude PyStr TimeModel Schema Runtime Sample Canonical Integrity AuditLog MfaCrypto.
From S2P Require Import Passwords PasswordHistory Identity SessionRisk BankingPolicy Notifications Sessions.
From S2P Require Import SessionStore RateLimits Mfa RecoveryCodes LoginFrame Registration SignIn Account.
From Stdlib Require Import Ascii.
Open Scope string_scope.
Open Scope Z_scope.

Module AdminAccess.
Import SessionHmac Audit MfaCrypto Passwords PasswordHistory Identity SessionRisk Policy Notifications.
Import Sessions SessionStore RateLimits Mfa LoginFrame Registration SignIn Account TimeDisplay.

Definition ACCOUNT_CUSTOMER : string := "customer".
Definition ACCOUNT_STAFF : string := "staff".
Definition ACCOUNT_ADMIN : string := "admin".
Definition ACCOUNT_ROOT_ADMIN : string := "root_admin".
Definition STAFF_ACCOUNT_TYPES : list string := [ACCOUNT_STAFF; ACCOUNT_ADMIN; ACCOUNT_ROOT_ADMIN].
Definition INVITABLE_ROLES : list string := [ACCOUNT_STAFF; ACCOUNT_ADMIN].
Definition ROLE_HIERARCHY : list (string * Z) :=
  [(ACCOUNT_CUSTOMER, 0); (ACCOUNT_STAFF, 10); (ACCOUNT_ADMIN, 20); (ACCOUNT_ROOT_ADMIN, 30)].
Definition ADMIN_ACCOUNT_MANAGED_TYPES : list string := [ACCOUNT_STAFF; ACCOUNT_ADMIN].
Definition AUTOMATIC_CUSTOMER_LOCK_REASONS : list string :=
  ["password_failed_attempts"; "mfa_failed_attempts"].
Definition STAFF_FRAUD_FREEZE_REASON : string := "staff_fraud_freeze".
Definition ROOT_ADMIN_REVIEWABLE_LOCK_REASONS : list string :=
  AUTOMATIC_CUSTOMER_LOCK_REASONS ++ [STAFF_FRAUD_FREEZE_REASON].
Definition GENERIC_ADMIN_LOGIN_ERROR : string := "Invalid workplace email, password, or authentication code".
Definition FRESH_MFA_REQUIRED_ERROR : string := "Fresh MFA verification is required".
Definition INVALID_WORKPLACE_EMAIL_ERROR : string := "Invalid workplace email".
Definition ADMIN_AUTH_BACKOFF_ERROR : string := "Too many attempts. Please try again later.".
Definition ADMIN_MFA_CHANGE_SECRET_KEY : string := "admin_mfa_change_secret".
Definition ADMIN_MFA_CHANGE_STARTED_KEY : string := "admin_mfa_change_started_at".
Definition ADMIN_MFA_CHANGE_USER_KEY : string := "admin_mfa_change_user_id".
Definition ADMIN_MFA_CHANGE_TTL_SECONDS : Z := 600.

(** A dictionary the portal answers with. *)
Definition dict : Type := list (string * jval).

(** [user.account_type or ACCOUNT_CUSTOMER]. *)
Definition account_type_of (user : User) : string :=
  if nonempty (u_account_type user) then u_account_type user else ACCOUNT_CUSTOMER.

Definition is_customer_user (user : option User) : bool :=
  match user with Some u => bool_decide (account_type_of u = ACCOUNT_CUSTOMER) | None => false end.
Definition is_staff_user (user : option User) : bool :=
  match user with Some u => str_in (account_type_of u) STAFF_ACCOUNT_TYPES | None => false end.
Definition is_plain_staff_user (user : option User) : bool :=
  match user with Some u => bool_decide (account_type_of u = ACCOUNT_STAFF) | None => false end.

Definition role_rank (role : string) : Z :=
  default (-1) (assoc (casefold (strip (if nonempty role then role else ACCOUNT_CUSTOMER))) ROLE_HIERARCHY).

Definition role_label (role : string) : string :=
  default "Unknown" (assoc (casefold (strip role))
    [(ACCOUNT_ROOT_ADMIN, "Root admin"); (ACCOUNT_ADMIN, "Admin"); (ACCOUNT_STAFF, "Bank staff");
     (ACCOUNT_CUSTOMER, "Normal user")]).

(** [_normalize_email] of this module. *)
Definition _normalize_email (email : string) : res string :=
  let text := strip email in
  if has_char 0 text || has_char 13 text || has_char 10 text || (255 <? Z.of_nat (slen text))
  then Raise (AuthError "Invalid email" 400 None)
  else
    let '(local, separator, domain) := partition_at "@" text in
    Ok (if separator then local +:+ "@" +:+ casefold (strip domain) else text).

(** [_utc_iso] and [_utc_display] of a stored instant. *)
Definition _utc_iso (value : Z) : string := utc_iso (Some (Aware value 0)).
Definition _utc_display (value : Z) : string := sgt_datetime (Some (Aware value 0)).
Definition iso_or_null (value : option Z) : jval :=
  match value with Some t => JStr (_utc_iso t) | None => JNull end.
Definition display_or_null (value : option Z) : jval :=
  match value with Some t => JStr (_utc_display t) | None => JNull end.

Definition public_admin_user (user_id : Z) (user : User) : dict :=
  [("id", JInt user_id); ("email", JStr (u_email user)); ("account_type", JStr (u_account_type user));
   ("account_status", JStr (u_account_status user)); ("mfa_enabled", JBool (u_mfa_enabled user));
   ("workplace_email_verified", JBool (bool_decide (is_Some (u_workplace_email_verified_at user))))].

Section AdminAccess.
Context `{Env}.

Definition _workplace_domains : res (list string) := admin_allowed_email_domains.
Definition _root_admin_emails : res (list string) := root_admin_emails.

Definition is_active_staff_user (user : option User) : res bool :=
  match user with
  | Some u =>
      if is_staff_user user && bool_decide (u_account_status u = "active") && u_mfa_enabled u
      then is_admin_workplace_email (u_email u) else Ok false
  | None => Ok false
  end.

Definition is_root_admin (user : option User) : res bool :=
  match user with
  | Some u =>
      if negb (bool_decide (u_account_type u = ACCOUNT_ROOT_ADMIN)) then Ok false
      else
        rbind (is_admin_workplace_email (u_email u)) (λ workplace,
          if (workplace : bool) then
            rbind (_normalize_email (u_email u)) (λ email,
              rbind _root_admin_emails (λ emails, Ok (str_in (casefold email) emails)))
          else Ok false)
  | None => Ok false
  end.

Definition _is_active_root_admin (user : option User) : res bool :=
  rbind (is_root_admin user) (λ root, if (root : bool) then is_active_staff_user user else Ok false).

(** [db.session.get(User, user_id)]. *)
Definition find_user (user_id : Z) : M St (option User) := db_get (λ d, users d !! user_id).

(** [audit_reference(namespace, id)] of a number. *)
Definition id_reference (namespace : string) (id : Z) : res (option string) :=
  audit_reference namespace (if id =? 0 then "" else pretty id).
(** The same as an entry of an event's metadata. *)
Definition ref_entry (key namespace : string) (id : Z) : M St (string * jval) :=
  r <- lift (id_reference namespace id) ;; ret (key, jopt_str r).

Definition refuse {A} (actor : option Z) (event outcome : string) (metadata : dict) (message : string)
    (status : Z) : M St A :=
  _ <- audit_event event outcome actor metadata ;;
  raise (AuthError message status None).

(** ** Sessions the views require *)

Definition require_staff_session : M St Z :=
  v <- session_get "user_id" ;;
  if negb (otruthy v) then raise (AuthError "Authentication required" 401 None)
  else
    user_id <- lift (py_int v) ;;
    user <- find_user user_id ;;
    active <- lift (is_active_staff_user user) ;;
    if (active : bool) then ret user_id
    else refuse (if bool_decide (is_Some user) then Some user_id else None) "admin_access_denied" "blocked"
           [("reason", JStr "not_active_staff")] "Forbidden" 403.

Definition require_plain_staff_session : M St Z :=
  user_id <- require_staff_session ;;
  user <- find_user user_id ;;
  if is_plain_staff_user user then ret user_id
  else refuse (Some user_id) "dispute_queue_access" "blocked"
         [("reason", JStr "admin_or_root_admin_excluded")] "Forbidden" 403.

Definition require_root_admin_session : M St Z :=
  user_id <- require_staff_session ;;
  user <- find_user user_id ;;
  root <- lift (is_root_admin user) ;;
  if (root : bool) then ret user_id
  else refuse (Some user_id) "staff_invite_authorization" "blocked" [("reason", JStr "not_root_admin")]
         "Forbidden" 403.

Definition require_admin_session : M St Z :=
  user_id <- require_staff_session ;;
  user <- load_user user_id ;;
  if role_rank (u_account_type user) <? role_rank ACCOUNT_ADMIN
  then refuse (Some user_id) "admin_role_authorization" "blocked" [("reason", JStr "admin_role_required")]
         "Forbidden" 403
  else ret user_id.

Definition _require_plain_staff (actor : Z) (event_type : string) : M St unit :=
  user <- load_user actor ;;
  if is_plain_staff_user (Some user) then ret tt
  else refuse (Some actor) event_type "blocked" [("reason", JStr "admin_or_root_admin_excluded")]
         "Forbidden" 403.

Definition _require_active_root_admin (actor : Z) (event_type : string) : M St unit :=
  user <- load_user actor ;;
  root <- lift (_is_active_root_admin (Some user)) ;;
  if (root : bool) then ret tt
  else refuse (Some actor) event_type "blocked" [("reason", JStr "not_active_root_admin")] "Forbidden" 403.

(** [not totp_code or not _verify_totp_for_user(actor, totp_code, scope)], negated. *)
Definition verify_admin_totp_step_up (actor : Z) (totp_code : option string) (scope : string) : M St bool :=
  if nonempty (or_empty totp_code) then _verify_totp_for_user actor (or_empty totp_code) scope None true
  else ret false.

(** A step-up, or the refusal of the caller. *)
Definition step_up_or (actor : Z) (totp_code : option string) (scope : string) (refusal : M St unit)
    : M St unit :=
  verified <- verify_admin_totp_step_up actor totp_code scope ;;
  if (verified : bool) then ret tt else refusal.

Definition _require_manual_recovery_reason (reason event_type : string) (actor : Z) : M St string :=
  let text := strip reason in
  if negb (nonempty text) then
    refuse (Some actor) event_type "failure" [("reason", JStr "missing_reason")] "Reason is required" 400
  else if 512 <? Z.of_nat (slen text) then
    refuse (Some actor) event_type "failure" [("reason", JStr "reason_too_long")] "Reason is too long" 400
  else ret text.

(** ** Separation of duties *)

Definition _normalized_email (value : option string) : string := casefold (strip (or_empty value)).

Definition _has_active_identity_link (staff_user_id customer_user_id : Z) : M St bool :=
  found <- db_query (λ d, one_or_none (λ l,
             (il_staff_user_id l =? staff_user_id) && (il_customer_user_id l =? customer_user_id)
             && negb (bool_decide (is_Some (il_revoked_at l)))) (person_identity_links d)) ;;
  ret (match found with Some (id, _) => negb (id =? 0) | None => false end).

Definition _block {A} (actor target : Z) (action_type reason : string) : M St A :=
  target_ref <- ref_entry "target_customer_ref" "customer_user" target ;;
  let metadata := [("action_type", JStr (str_take 80 (if nonempty action_type then action_type
                                                      else "privileged_customer_action")));
                   ("reason", JStr reason); target_ref] in
  _ <- (if has_request_context
        then audit_event "staff_self_customer_action_blocked" "blocked" (Some actor) metadata
        else audit_system_event "staff_self_customer_action_blocked" "blocked" (Some actor) metadata) ;;
  raise (AuthError "This privileged action is not permitted for that customer account" 403 None).

Definition assert_not_self_customer_action (actor target : Z) (action_type : string) : M St unit :=
  staff <- load_user actor ;;
  customer <- load_user target ;;
  _ <- guard (negb (str_in (u_account_type staff) STAFF_ACCOUNT_TYPES))
         (_block actor target action_type "actor_not_staff") ;;
  _ <- guard (negb (bool_decide (u_account_type customer = ACCOUNT_CUSTOMER)))
         (_block actor target action_type "target_not_customer") ;;
  is_linked <- _has_active_identity_link actor target ;;
  _ <- guard is_linked (_block actor target action_type "explicit_identity_link") ;;
  let actor_emails := [_normalized_email (Some (u_email staff)); _normalized_email (u_staff_personal_email staff)] in
  let target_email := _normalized_email (Some (u_email customer)) in
  guard (nonempty target_email && str_in target_email actor_emails)
    (_block actor target action_type "verified_email_overlap").

(** ** Signing in to the portal *)

Definition _contains_alias_separator (local : string) : res bool :=
  let separators : res (list string) :=
    match config "STAFF_INVITE_ALIAS_SEPARATORS" with
    | Some v =>
        if negb (truthy v) then Ok ["+"]
        else match v with
             | JStr s => Ok ((λ c, of_chars [c]) <$> chars s)
             | JList items => mapR (λ i, match i with JStr s => Ok s | _ => Raise TypeError end) items
             | _ => Raise TypeError
             end
    | None => Ok ["+"]
    end in
  rbind separators (λ seps, Ok (existsb (λ sep, nonempty sep && str_contains sep local) seps)).

Definition is_identity_error (e : exn) : bool := match e with IdentityPolicyError _ => true | _ => false end.

Definition normalize_workplace_email (email : string) : res string :=
  match require_admin_workplace_email email with
  | Ok normalized =>
      rbind (_contains_alias_separator (partition_at "@" normalized).1.1) (λ alias,
        if (alias : bool) then Raise (AuthError INVALID_WORKPLACE_EMAIL_ERROR 400 None) else Ok normalized)
  | Raise e => if is_identity_error e then Raise (AuthError INVALID_WORKPLACE_EMAIL_ERROR 400 None) else Raise e
  end.

(** [_auth_principal] and [_enforce_auth_backoff] of this module. *)
Definition _auth_principal (identifier : string) : res string :=
  rbind (_normalize_email identifier) (λ email, Ok (str_or request_remote_addr "unknown" +:+ ":" +:+ casefold email)).
Definition _admin_mfa_failure_principal (user_id : Z) : string :=
  casefold (strip (str_or request_remote_addr "unknown")) +:+ ":staff-user:" +:+ pretty user_id.
Definition backoff_seconds (e : exn) : Z := match e with AuthBackoffRequired n => n | _ => 0 end.
Definition _enforce_auth_backoff (scope principal : string) : M St unit :=
  try_except (apply_exponential_backoff scope principal) is_backoff
    (λ e, _ <- audit_event "auth_backoff" "blocked" None
                 [("scope", JStr scope); ("retry_after", JInt (backoff_seconds e))] ;;
          raise (AuthError ADMIN_AUTH_BACKOFF_ERROR 429 (Some (backoff_seconds e)))).

Definition _normalize_admin_login_email (workplace_email password : string) : M St string :=
  try_except (lift (normalize_workplace_email workplace_email)) is_auth_error
    (λ _, normalized_email <- lift (_normalize_email workplace_email) ;;
          principal <- lift (_auth_principal normalized_email) ;;
          _ <- _enforce_auth_backoff "admin_login" principal ;;
          safe <- lift (is_password_raw_length_safe password) ;;
          _ <- (if (safe : bool) then
                  hash <- _dummy_password_hash ;; _ <- lift (verify_password password hash) ;; ret tt
                else ret tt) ;;
          principal_ref <- lift (principal_reference normalized_email) ;;
          _ <- audit_event "admin_login" "failure" None
                 [("known_user", JBool false); ("reason", JStr "invalid_workplace_email");
                  ("principal_ref", jopt_str principal_ref)] ;;
          _ <- record_failure "admin_login" principal None ;;
          raise (AuthError GENERIC_ADMIN_LOGIN_ERROR 401 None)).

Definition _staff_user_by_workplace_email (email : string) : M St (option (Z * User)) :=
  db_query (λ d, one_or_none (λ u, bool_decide (casefold (u_email u) = casefold email)
                                   && str_in (u_account_type u) STAFF_ACCOUNT_TYPES) (users d)).

Definition _admin_password_matches (user : option (Z * User)) (password : string) : M St bool :=
  safe <- lift (is_password_raw_length_safe password) ;;
  if negb (safe : bool) then ret false
  else
    candidate_hash <- match user with
                      | Some (_, u) => ret (u_password_hash u)
                      | None => _dummy_password_hash
                      end ;;
    lift (verify_password password candidate_hash).

(** [user is None or not password_ok or not is_active_staff_user(user) or not
    user.workplace_email_verified_at], negated. *)
Definition eligible_staff (user : option (Z * User)) (password_ok : bool) : res bool :=
  match user with
  | Some (_, u) =>
      if password_ok then
        rbind (is_active_staff_user (Some u)) (λ active,
          Ok (active && bool_decide (is_Some (u_workplace_email_verified_at u))))
      else Ok false
  | None => Ok false
  end.

Definition refuse_admin_login {A} (user : option (Z * User)) (password_ok : bool)
    (normalized_email principal : string) : M St A :=
  principal_ref <- lift (principal_reference normalized_email) ;;
  _ <- audit_event "admin_login" "failure" (fst <$> user)
         [("known_user", JBool (bool_decide (is_Some user)));
          ("reason", JStr "invalid_credentials_or_ineligible_staff");
          ("principal_ref", jopt_str principal_ref)] ;;
  _ <- record_failure "admin_login" principal None ;;
  _ <- match user with
       | Some (user_id, _) =>
           if password_ok then ret tt
           else
             _ <- db_write (set_user user_id (λ u, set_u_failed_login_count (u_failed_login_count u + 1) u)) ;;
             _record_user_security_failure user_id "password" "password_failed_attempts"
       | None => ret tt
       end ;;
  raise (AuthError GENERIC_ADMIN_LOGIN_ERROR 401 None).

Definition authenticate_admin_primary (workplace_email password : string) : M St unit :=
  normalized_email <- _normalize_admin_login_email workplace_email password ;;
  principal <- lift (_auth_principal normalized_email) ;;
  _ <- _enforce_auth_backoff "admin_login" principal ;;
  user <- _staff_user_by_workplace_email normalized_email ;;
  password_ok <- _admin_password_matches user password ;;
  eligible <- lift (eligible_staff user password_ok) ;;
  match user with
  | Some (user_id, _) =>
      if negb (eligible : bool) then refuse_admin_login user password_ok normalized_email principal
      else
        row <- load_user user_id ;;
        if u_is_frozen row || bool_decide (is_Some (u_security_locked_at row)) then
          refuse (Some user_id) "admin_login" "blocked"
            [("reason", JStr (str_or (u_security_lock_reason row) "locked"))] GENERIC_ADMIN_LOGIN_ERROR 401
        else
          rehash <- lift (password_hash_needs_rehash (u_password_hash row)) ;;
          _ <- (if (rehash : bool) then
                  hash <- hash_password password ;;
                  db_write (set_user user_id (set_u_password_hash hash))
                else ret tt) ;;
          _ <- commit ;;
          _ <- clear_failures "admin_mfa_login" (_admin_mfa_failure_principal user_id) ;;
          _ <- begin_password_authenticated_session user_id ;;
          audit_event "admin_login_password" "success" (Some user_id) [("mfa_required", JBool true)]
  | None => refuse_admin_login user password_ok normalized_email principal
  end.

Definition admin_limit_error {A} (e : exn) : M St A :=
  raise (AuthError GENERIC_ADMIN_LOGIN_ERROR 429 (Some (limit_retry e))).

Definition refuse_admin_code {A} : M St A := raise (AuthError GENERIC_ADMIN_LOGIN_ERROR 401 None).

Definition admin_wrong_code {A} (user_id : Z) (principal : string) (failure_limit window : Z) : M St A :=
  attempts <- record_failure "admin_mfa_login" principal (Some window) ;;
  let exceeded := failure_limit <? attempts in
  _ <- audit_event "admin_mfa_login" (if exceeded then "blocked" else "failure") (Some user_id)
         [("reason", JStr (if exceeded then "wrong_code_threshold_exceeded" else "invalid_totp"));
          ("failure_count", JInt attempts)] ;;
  _ <- guard exceeded
         (try_except (enforce_durable_failure_limit "admin_mfa_login" principal failure_limit)
            is_durable_limit admin_limit_error) ;;
  refuse_admin_code.

Definition complete_admin_mfa_login (totp_code : string) : M St (string * dict) :=
  pending <- session_get "pending_mfa_user_id" ;;
  if negb (otruthy pending) then no_challenge
  else
    user_id <- lift (py_int pending) ;;
    user <- find_user user_id ;;
    active <- lift (is_active_staff_user user) ;;
    _ <- guard (negb active)
           (_ <- audit_event "admin_mfa_login" "failure" (Some user_id) [("reason", JStr "not_active_staff")] ;;
            no_challenge) ;;
    let principal := _admin_mfa_failure_principal user_id in
    failure_limit <- lift (config_int "ADMIN_MFA_FAILURE_LIMIT") ;;
    window <- lift (config_int "ADMIN_MFA_FAILURE_WINDOW_SECONDS") ;;
    _ <- try_except (enforce_durable_failure_limit "admin_mfa_login" principal failure_limit) is_durable_limit
           (λ e, _ <- audit_event "admin_mfa_login" "blocked" (Some user_id)
                        [("reason", JStr "wrong_code_threshold_exceeded");
                         ("retry_after", JInt (limit_retry e))] ;;
                 admin_limit_error e) ;;
    outcome <- _verify_totp_for_user_outcome user_id totp_code "admin_mfa_login" None false ;;
    _ <- match outcome with
         | TOTP_VERIFICATION_VALID => ret tt
         | TOTP_VERIFICATION_REPLAY =>
             _ <- audit_event "admin_mfa_login" "failure" (Some user_id) [("reason", JStr "totp_replay")] ;;
             refuse_admin_code
         | TOTP_VERIFICATION_INVALID => admin_wrong_code user_id principal failure_limit window
         end ;;
    _ <- clear_failures "admin_mfa_login" principal ;;
    now <- now_utc ;;
    _ <- db_write (set_user user_id (λ u, set_u_last_login_at (Some now) (set_u_failed_login_count 0 u))) ;;
    _ <- commit ;;
    row <- load_user user_id ;;
    login_principal <- lift (_auth_principal (u_email row)) ;;
    _ <- clear_failures "admin_login" login_principal ;;
    _ <- _clear_user_security_failures user_id "password" ;;
    session_id <- establish_authenticated_session user_id true "admin_password+totp" ;;
    _ <- _audit_event "admin_mfa_login" "success" (Some user_id) [] (Some session_id) false ;;
    session_ref <- lift (public_session_reference (Some session_id)) ;;
    row <- load_user user_id ;;
    ret (session_ref, public_admin_user user_id row).

Definition logout_admin_session : M St unit :=
  a <- session_get "user_id" ;;
  b <- session_get "pending_mfa_user_id" ;;
  let v := if otruthy a then a else b in
  _ <- revoke_current_session "logout" ;;
  user_id <- (if otruthy v then z <- lift (py_int v) ;; ret (Some z) else ret None) ;;
  audit_event "admin_logout" "success" user_id [].

(** ** One's own password and authenticator *)

Definition change_own_password (actor : Z) (current_password new_password confirm_new_password : string)
    (totp_code : option string) : M St Z :=
  let failed {A} (reason message : string) (status : Z) : M St A :=
    refuse (Some actor) "admin_password_change" "failure" [("reason", JStr reason)] message status in
  _ <- guard (negb (bool_decide (new_password = confirm_new_password)))
         (failed "password_mismatch" "Passwords must match" 400) ;;
  user <- load_user actor ;;
  current_ok <- lift (verify_password current_password (u_password_hash user)) ;;
  _ <- guard (negb current_ok)
         (_ <- audit_event "admin_password_change" "failure" (Some actor)
                 [("reason", JStr "invalid_current_password")] ;;
          _ <- _record_user_security_failure actor "password_change" "password_change_failed_attempts" ;;
          raise (AuthError "Current password is invalid" 401 None)) ;;
  _ <- try_except (assert_password_not_reused actor new_password) is_reuse_error
         (λ e, failed (reuse_reason e) "New password must not match your current or recent passwords" 400) ;;
  _ <- try_except (_ <- validate_password_policy new_password ;; ret tt) is_policy_error
         (λ e, failed "password_policy" (policy_message e) 400) ;;
  _ <- step_up_or actor totp_code "admin_password_change"
         (failed "invalid_totp_step_up" FRESH_MFA_REQUIRED_ERROR 403) ;;
  _ <- replace_user_password actor new_password None true ;;
  _ <- db_write (set_user actor (set_u_failed_login_count 0)) ;;
  revoked <- revoke_all_sessions actor "admin_password_change" (Some "admin") ;;
  _ <- _clear_user_security_failures actor "password_change" ;;
  user <- load_user actor ;;
  _ <- audit_event_required "admin_password_change" "success" (Some actor)
         [("revoked_sessions", JInt revoked); ("actor_role", JStr (u_account_type user))] ;;
  _ <- commit ;;
  ret revoked.

Definition _clear_pending_mfa_change : M St unit :=
  _ <- session_pop ADMIN_MFA_CHANGE_SECRET_KEY ;;
  _ <- session_pop ADMIN_MFA_CHANGE_STARTED_KEY ;;
  _ <- session_pop ADMIN_MFA_CHANGE_USER_KEY ;;
  ret tt.

Definition _pending_mfa_change_secret (actor : Z) : M St (option string) :=
  owner <- session_get ADMIN_MFA_CHANGE_USER_KEY ;;
  if negb (match owner with Some (JInt z) => z =? actor | _ => false end) then ret None
  else
    started <- session_get ADMIN_MFA_CHANGE_STARTED_KEY ;;
    started_at <- lift (if otruthy started then py_int started else Ok 0) ;;
    now <- (if started_at =? 0 then ret 0 else time_seconds) ;;
    if (started_at =? 0) || (ADMIN_MFA_CHANGE_TTL_SECONDS <? now - started_at) then
      _ <- _clear_pending_mfa_change ;; ret None
    else
      secret <- session_get ADMIN_MFA_CHANGE_SECRET_KEY ;;
      ret (match secret with Some v => if truthy v then Some (py_str v) else None | None => None end).

Definition start_own_mfa_change (actor : Z) (totp_code : option string) : M St MfaSetup :=
  _ <- step_up_or actor totp_code "admin_mfa_change_start"
         (refuse (Some actor) "admin_mfa_change" "failure" [("reason", JStr "invalid_totp_step_up")]
            FRESH_MFA_REQUIRED_ERROR 403) ;;
  secret <- fresh random_base32 ;;
  _ <- session_put ADMIN_MFA_CHANGE_SECRET_KEY (JStr secret) ;;
  started_at <- time_seconds ;;
  _ <- session_put ADMIN_MFA_CHANGE_STARTED_KEY (JInt started_at) ;;
  _ <- session_put ADMIN_MFA_CHANGE_USER_KEY (JInt actor) ;;
  _ <- audit_event "admin_mfa_change" "started" (Some actor) [] ;;
  _mfa_setup_payload actor secret.

Definition confirm_own_mfa_change (actor : Z) (totp_code : option string) : M St Z :=
  let failed {A} (reason message : string) (status : Z) : M St A :=
    refuse (Some actor) "admin_mfa_change" "failure" [("reason", JStr reason)] message status in
  pending <- _pending_mfa_change_secret actor ;;
  match pending with
  | None => failed "no_pending_reset" "Start a new authenticator reset before confirming" 409
  | Some secret =>
      if negb (nonempty secret)
      then failed "no_pending_reset" "Start a new authenticator reset before confirming" 409
      else
        outcome <- _verify_totp_secret_for_user_outcome actor secret (or_empty totp_code)
                     "admin_mfa_change_confirm" None true ;;
        _ <- match outcome with
             | TOTP_VERIFICATION_VALID => ret tt
             | TOTP_VERIFICATION_REPLAY => failed "totp_replay" "Authentication code already used" 401
             | TOTP_VERIFICATION_INVALID => failed "invalid_totp" "Invalid authentication code" 401
             end ;;
        let* (nonce, ciphertext) := encrypt_mfa_secret secret actor None in
        _ <- db_write (set_user actor (λ u, set_u_mfa_enabled true (set_secret (Some nonce) (Some ciphertext) u))) ;;
        _ <- _clear_pending_mfa_change ;;
        revoked <- revoke_all_sessions actor "admin_mfa_change" (Some "admin") ;;
        user <- load_user actor ;;
        _ <- audit_event_required "admin_mfa_change" "success" (Some actor)
               [("revoked_sessions", JInt revoked); ("actor_role", JStr (u_account_type user))] ;;
        _ <- commit ;;
        ret revoked
  end.

End AdminAccess.
End AdminAccess.
