(* ===== verification/AdminActions.v ===== *)
(** * Maker and checker ([app/admin/services.py])

    High-risk operations of root administrators are requested by one of them and
    executed when another approves: staff account lifecycle, decisions on manual
    recovery, and clearing a customer's security lock.  The request row is signed;
    it expires, is rejected, cancelled, or executed. *)

From S2P Require Import Prelude PyStr TimeModel Schema Runtime Sample Canonical Integrity AuditLog MfaCrypto.
From S2P Require Import Identity SessionRisk BankingPolicy Notifications Sessions RateLimits Mfa SignIn Account.
From S2P Require Import PasswordReset ManualRecovery AdminAccess.
From Stdlib Require Import Ascii.
Open Scope string_scope.
Open Scope Z_scope.

Module AdminActions.
Import SessionHmac Audit Identity SessionRisk Policy Notifications Sessions RateLimits Mfa SignIn Account.
Import PasswordReset ManualRecovery AdminAccess.

Definition MANUAL_RECOVERY_ADMIN_TRANSITION_STATUSES : list string :=
  [MANUAL_RECOVERY_STATUS_UNDER_REVIEW; MANUAL_RECOVERY_STATUS_APPROVED; MANUAL_RECOVERY_STATUS_DENIED].
Definition ADMIN_ACTION_REQUEST_TTL_SECONDS : Z := 24 * 60 * 60.
Definition ADMIN_ACTION_PENDING_STATUS : string := "pending".
Definition STAFF_ACTION_OPERATION_TYPES : list (string * string) :=
  [("deactivate", "staff_deactivate"); ("reactivate", "staff_reactivate");
   ("reset_activation", "staff_reset_activation")].
Definition MANUAL_RECOVERY_STATUS_OPERATION_TYPES : list (string * string) :=
  [(MANUAL_RECOVERY_STATUS_APPROVED, "manual_recovery_approve");
   (MANUAL_RECOVERY_STATUS_DENIED, "manual_recovery_deny")].
Definition ADMIN_ACTION_OPERATION_LABELS : list (string * string) :=
  [("staff_deactivate", "Deactivate staff account"); ("staff_reactivate", "Reactivate staff account");
   ("staff_reset_activation", "Reset staff activation"); ("manual_recovery_approve", "Approve manual recovery");
   ("manual_recovery_deny", "Deny manual recovery"); ("manual_recovery_complete", "Complete manual recovery");
   ("customer_security_unlock", "Unlock customer security lock")].
Definition ADMIN_ACTION_EXECUTION_REASON : string := "maker_checker_approved".
Definition ADMIN_ACTION_APPROVAL_REQUIRED_MESSAGE : string := "Admin action approval required".

Definition update_action (id : Z) (f : AdminActionRequest → AdminActionRequest) : M St unit :=
  db_write (upd_admin_action_requests (alter f id)).

(** [safe[key] = value]. *)
Fixpoint put_entry (k v : string) (entries : list (string * string)) : list (string * string) :=
  match entries with
  | [] => [(k, v)]
  | (k', v') :: rest => if bool_decide (k = k') then (k', v) :: rest else (k', v') :: put_entry k v rest
  end.

Definition _safe_admin_action_payload (payload : list (string * string)) : list (string * string) :=
  foldl (λ safe '(key, value),
    let key_text := strip key in
    if negb (str_in key_text ["action"; "status"; "lock_reason"; "locked_at"]) then safe
    else
      let value_text := casefold (strip value) in
      if nonempty value_text then put_entry key_text value_text safe else safe) [] payload.

Definition payload_json (payload : list (string * string)) : jval :=
  JObj ((λ '(k, v), (k, JStr v)) <$> payload).

(** [_datetime_hmac_value]. *)
Definition _datetime_hmac_value (value : Z) : string := iso_auto value +:+ "+00:00".

(** What a request's signature covers. *)
Definition action_json (id : Z) (r : AdminActionRequest) : jval :=
  JObj [("id", JInt id); ("operation_type", JStr (ar_operation_type r));
        ("target_type", JStr (ar_target_type r)); ("target_id", JStr (ar_target_id r));
        ("operation_payload", payload_json (_safe_admin_action_payload (ar_operation_payload r)));
        ("requester_id", JInt (ar_requester_id r)); ("requester_role", JStr (ar_requester_role r));
        ("reason_present", JBool (ar_reason_present r)); ("reason_length", JInt (ar_reason_length r));
        ("created_at", JStr (_datetime_hmac_value (ar_created_at r)));
        ("expires_at", JStr (_datetime_hmac_value (ar_expires_at r)))].

Definition _admin_action_operation_label (operation_type : string) : string :=
  let operation := strip operation_type in
  default (match chars (of_chars ((λ c, if bool_decide (c = "_"%char) then " "%char else c) <$> chars operation)) with
           | c :: rest => of_chars (upper_char c :: (lower_char <$> rest))
           | [] => ""
           end) (assoc operation ADMIN_ACTION_OPERATION_LABELS).

(** [text.isdigit()]. *)
Definition all_digits (text : string) : bool :=
  nonempty text && forallb is_digit (chars text).

Definition newest_action (x y : Z * AdminActionRequest) : bool :=
  (ar_created_at y.2 <? ar_created_at x.2)
  || (ar_created_at x.2 =? ar_created_at y.2) && (y.1 <=? x.1).

(** [except (SQLAlchemyError, RuntimeError, TypeError, ValueError)]. *)
Definition is_execution_error (e : exn) : bool :=
  match e with
  | IntegrityError | MultipleResultsFound | NoResultFound | RuntimeError _ | AuditWriteError _
  | LivePasswordCheckUnavailable _ | AuthBackoffRequired _ | DurableRateLimitExceeded _ | TypeError => true
  | _ => is_value_error e
  end.

Section AdminActions.
Context `{Env}.

Definition _admin_action_request_hmac (id : Z) (r : AdminActionRequest) : res string :=
  active_hmac_hex ("admin-action-request:" +:+ json_dumps (action_json id r)) 64.

Definition _admin_action_target_ref (r : AdminActionRequest) : res (option string) :=
  audit_reference (ar_target_type r) (ar_target_id r).

Definition action_ref (id : Z) : M St (string * jval) := ref_entry "request_ref" "admin_action_request" id.

(** ** What the portal shows of a request *)

Definition user_label (user_id : Z) (user : User) : string :=
  if nonempty (u_username user) then u_username user
  else if nonempty (u_full_name user) then u_full_name user
  else "User " +:+ pretty user_id.

Definition _admin_action_user_summary (user : option User) (user_id : Z) : res string :=
  match user with
  | Some u =>
      let email := if nonempty (u_email u) then u_email u else "no workplace email" in
      Ok (user_label user_id u +:+ " (" +:+ role_label (u_account_type u) +:+ ", " +:+ email +:+ ")")
  | None =>
      if user_id =? 0 then Ok "Unknown admin user"
      else rbind (id_reference "admin_user" user_id) (λ ref, Ok (or_empty ref))
  end.

Definition _admin_action_user_target_summary (target_id : Z) (include_role : bool) : M St (option string) :=
  target <- find_user target_id ;;
  ret (match target with
       | None => None
       | Some t =>
           Some (if include_role
                 then user_label target_id t +:+ " (" +:+ role_label (u_account_type t) +:+ ", " +:+ u_email t +:+ ")"
                 else user_label target_id t +:+ " (customer)")
       end).

Definition _admin_action_manual_recovery_target_summary (target_id : Z) : M St (option string) :=
  found <- db_get (λ d, manual_recovery_requests d !! target_id) ;;
  match found with
  | None => ret None
  | Some r =>
      customer <- match mr_user_id r with
                  | Some u => if u =? 0 then ret None else find_user u
                  | None => ret None
                  end ;;
      let customer_label := match customer with Some c => " for " +:+ u_username c | None => "" end in
      ret (Some ("Manual recovery request #" +:+ pretty target_id +:+ customer_label
                   +:+ " (" +:+ mr_status r +:+ ")"))
  end.

Definition _admin_action_known_target_summary (target_type : string) (target_id : Z) : M St (option string) :=
  if bool_decide (target_type = "staff_user") then _admin_action_user_target_summary target_id true
  else if bool_decide (target_type = "customer_user") then _admin_action_user_target_summary target_id false
  else if bool_decide (target_type = "manual_recovery_request")
  then _admin_action_manual_recovery_target_summary target_id
  else ret None.

Definition _admin_action_target_summary (r : AdminActionRequest) : M St string :=
  summary <- (if all_digits (ar_target_id r) then
                target_id <- lift (py_int (Some (JStr (ar_target_id r)))) ;;
                _admin_action_known_target_summary (ar_target_type r) target_id
              else ret None) ;;
  match summary with
  | Some text => if nonempty text then ret text else
      ref <- lift (_admin_action_target_ref r) ;; ret (str_or ref "Unknown target")
  | None => ref <- lift (_admin_action_target_ref r) ;; ret (str_or ref "Unknown target")
  end.

Definition approver_entries (r : AdminActionRequest) : M St (jval * jval) :=
  match ar_approver_id r with
  | Some a =>
      if a =? 0 then ret (JNull, JNull)
      else
        ref <- lift (id_reference "admin_user" a) ;;
        approver <- find_user a ;;
        summary <- lift (_admin_action_user_summary approver a) ;;
        ret (jopt_str ref, JStr summary)
  | None => ret (JNull, JNull)
  end.

Definition public_admin_action_request (id : Z) : M St dict :=
  r <- db_query (λ d, match admin_action_requests d !! id with Some r => Ok r | None => Raise NoResultFound end) ;;
  target_ref <- lift (_admin_action_target_ref r) ;;
  target_summary <- _admin_action_target_summary r ;;
  requester_ref <- lift (id_reference "admin_user" (ar_requester_id r)) ;;
  requester <- find_user (ar_requester_id r) ;;
  requester_summary <- lift (_admin_action_user_summary requester (ar_requester_id r)) ;;
  let* (approver_ref, approver_summary) := approver_entries r in
  ret [("id", JInt id); ("operation_type", JStr (ar_operation_type r));
       ("operation_label", JStr (_admin_action_operation_label (ar_operation_type r)));
       ("target_type", JStr (ar_target_type r)); ("target_ref", jopt_str target_ref);
       ("target_summary", JStr target_summary);
       ("payload", payload_json (_safe_admin_action_payload (ar_operation_payload r)));
       ("requester_ref", jopt_str requester_ref); ("requester_summary", JStr requester_summary);
       ("requester_role", JStr (ar_requester_role r)); ("approver_ref", approver_ref);
       ("approver_summary", approver_summary); ("status", JStr (ar_status r));
       ("reason_present", JBool (ar_reason_present r)); ("reason_length", JInt (ar_reason_length r));
       ("created_at", iso_or_null (Some (ar_created_at r)));
       ("created_at_display", display_or_null (Some (ar_created_at r)));
       ("expires_at", iso_or_null (Some (ar_expires_at r)));
       ("expires_at_display", display_or_null (Some (ar_expires_at r)));
       ("decided_at", iso_or_null (ar_decided_at r)); ("decided_at_display", display_or_null (ar_decided_at r));
       ("executed_at", iso_or_null (ar_executed_at r)); ("executed_at_display", display_or_null (ar_executed_at r))].

(** ** Requesting *)

Definition new_action (operation_type target_type target_id : string) (payload : list (string * string))
    (requester_id : Z) (requester_role reason : string) (now : Z) : AdminActionRequest :=
  mkAdminActionRequest operation_type target_type target_id (_safe_admin_action_payload payload) requester_id
    requester_role None ADMIN_ACTION_PENDING_STATUS (nonempty reason) (Z.of_nat (slen reason)) "pending" now now
    (now + ADMIN_ACTION_REQUEST_TTL_SECONDS * US_SECOND) None None.

Definition _create_admin_action_request (actor : Z) (operation_type target_type target_id : string)
    (operation_payload : list (string * string)) (reason : option string) : M St Z :=
  _ <- _require_active_root_admin actor "admin_action_request_create" ;;
  now <- now_utc ;;
  let reason_text := strip (or_empty reason) in
  user <- load_user actor ;;
  let record := new_action operation_type target_type target_id operation_payload actor
                  (u_account_type user) reason_text now in
  id <- db_get (λ d, next_id (admin_action_requests d)) ;;
  _ <- db_write (upd_admin_action_requests (<[id := record]>)) ;;
  _ <- flush ;;
  signature <- lift (_admin_action_request_hmac id record) ;;
  _ <- update_action id (set_ar_metadata_hmac signature) ;;
  request_ref <- action_ref id ;;
  target_ref <- lift (_admin_action_target_ref record) ;;
  _ <- audit_event_required "admin_action_request_created" "success" (Some actor)
         [request_ref; ("operation_type", JStr operation_type); ("target_type", JStr target_type);
          ("target_ref", jopt_str target_ref); ("reason_present", JBool (nonempty reason_text));
          ("reason_length", JInt (Z.of_nat (slen reason_text)))] ;;
  _ <- commit ;;
  ret id.

(** The answer to a maker. *)
Definition approval_required (id : Z) : M St dict :=
  request <- public_admin_action_request id ;;
  ret [("message", JStr ADMIN_ACTION_APPROVAL_REQUIRED_MESSAGE); ("request", JObj request)].

(** *** Staff accounts *)

Definition _validate_staff_account_lifecycle_request (actor target_user_id : Z) (action : string)
    : M St string :=
  user <- load_user actor ;;
  root <- lift (is_root_admin (Some user)) ;;
  _ <- guard (negb root)
         (refuse (Some actor) "staff_account_lifecycle" "blocked" [("reason", JStr "not_root_admin")] "Forbidden" 403) ;;
  let normalized_action := casefold (strip action) in
  _ <- guard (negb (bool_decide (is_Some (assoc normalized_action STAFF_ACTION_OPERATION_TYPES))))
         (refuse (Some actor) "staff_account_lifecycle" "failure" [("reason", JStr "invalid_action")]
            "Invalid staff account action" 400) ;;
  target <- find_user target_user_id ;;
  _ <- guard (bool_decide (is_Some target) && (target_user_id =? actor))
         (refuse (Some actor) "staff_account_lifecycle" "blocked"
            [("reason", JStr "self_management_denied"); ("action", JStr normalized_action)] "Forbidden" 403) ;;
  _ <- guard (match target with
              | Some t => negb (str_in (u_account_type t) ADMIN_ACCOUNT_MANAGED_TYPES)
              | None => true
              end)
         (refuse (Some actor) "staff_account_lifecycle" "blocked"
            [("reason", JStr "target_not_manageable"); ("action", JStr normalized_action)]
            "Staff account not found" 404) ;;
  ret normalized_action.

Definition transition_staff_account_as_root_admin (actor target_user_id : Z) (action : string)
    (totp_code : option string) : M St dict :=
  normalized_action <- _validate_staff_account_lifecycle_request actor target_user_id action ;;
  _ <- step_up_or actor totp_code ("staff_account_" +:+ normalized_action)
         (target_ref <- ref_entry "target_staff_ref" "staff_user" target_user_id ;;
          refuse (Some actor) "staff_account_lifecycle" "failure"
            [("reason", JStr "invalid_totp_step_up"); ("action", JStr normalized_action); target_ref]
            FRESH_MFA_REQUIRED_ERROR 403) ;;
  id <- _create_admin_action_request actor (or_empty (assoc normalized_action STAFF_ACTION_OPERATION_TYPES))
          "staff_user" (pretty target_user_id) [("action", normalized_action)] None ;;
  approval_required id.

(** [public_staff_account(user, actor)]. *)
Definition public_staff_account (user_id : Z) (user : User) (actor : Z) : M St dict :=
  acting <- load_user actor ;;
  root <- lift (is_root_admin (Some acting)) ;;
  let managed := root && str_in (u_account_type user) ADMIN_ACCOUNT_MANAGED_TYPES
                 && negb (user_id =? actor) in
  ret [("id", JInt user_id); ("name", JStr (u_full_name user)); ("workplace_email", JStr (u_email user));
       ("role", JStr (u_account_type user)); ("role_label", JStr (role_label (u_account_type user)));
       ("account_status", JStr (u_account_status user)); ("totp_enrolled", JBool (u_mfa_enabled user));
       ("workplace_email_verified", JBool (bool_decide (is_Some (u_workplace_email_verified_at user))));
       ("created_at", JStr (_utc_iso (u_created_at user)));
       ("created_at_display", JStr (_utc_display (u_created_at user)));
       ("last_login_at", iso_or_null (u_last_login_at user));
       ("last_login_at_display", display_or_null (u_last_login_at user));
       ("can_manage", JBool managed);
       ("can_resend_setup", JBool (managed && bool_decide (u_account_status user = "setup_pending")))].

(** The account as a reset of its activation leaves it. *)
Definition activation_reset (u : User) : User :=
  set_u_workplace_email_verified_at None (set_pending None None (set_secret None None
    (set_u_mfa_enabled false (set_u_account_status "setup_pending" u)))).

Definition _execute_staff_account_lifecycle (actor target_user_id : Z) (action : string) : M St dict :=
  normalized_action <- _validate_staff_account_lifecycle_request actor target_user_id action ;;
  let* (event_type, revoked_sessions) :=
    (if bool_decide (normalized_action = "deactivate") then
       _ <- db_write (set_user target_user_id (set_u_account_status "revoked")) ;;
       revoked <- revoke_all_sessions target_user_id "revoked" None ;;
       ret ("staff_account_deactivated", revoked)
     else if bool_decide (normalized_action = "reactivate") then
       target <- load_user target_user_id ;;
       _ <- guard (negb (u_mfa_enabled target) || negb (bool_decide (is_Some (u_workplace_email_verified_at target))))
              (target_ref <- ref_entry "target_staff_ref" "staff_user" target_user_id ;;
               refuse (Some actor) "staff_account_reactivated" "blocked"
                 [("reason", JStr "activation_prerequisites_missing"); target_ref]
                 "Staff account activation requirements are incomplete" 409) ;;
       _ <- db_write (set_user target_user_id (set_u_account_status "active")) ;;
       ret ("staff_account_reactivated", 0)
     else
       _ <- db_write (set_user target_user_id activation_reset) ;;
       revoked <- revoke_all_sessions target_user_id "revoked" None ;;
       ret ("staff_activation_reset", revoked)) in
  target <- load_user target_user_id ;;
  target_ref <- ref_entry "target_staff_ref" "staff_user" target_user_id ;;
  _ <- audit_event_required event_type "success" (Some actor)
         [target_ref; ("target_role", JStr (u_account_type target));
          ("target_status", JStr (u_account_status target)); ("revoked_sessions", JInt revoked_sessions)] ;;
  account <- public_staff_account target_user_id target actor ;;
  ret [("message", JStr "Staff account updated"); ("account", JObj account)].

(** *** Manual recovery *)

Definition _assert_not_self_manual_recovery_action (actor request_id : Z) (action_type : string) : M St unit :=
  found <- db_get (λ d, manual_recovery_requests d !! request_id) ;;
  match found with
  | Some r =>
      match mr_user_id r with
      | Some user_id =>
          target_customer <- find_user user_id ;;
          match target_customer with
          | Some _ => assert_not_self_customer_action actor user_id action_type
          | None => ret tt
          end
      | None => ret tt
      end
  | None => ret tt
  end.

(** [request_record.status = "expired"; request_record.status_changed_at = now]. *)
Definition mark_expired (now : Z) (r : ManualRecoveryRequest) : ManualRecoveryRequest :=
  mkManualRecoveryRequest (mr_identifier_ref r) (mr_user_id r) (mr_reason r) "expired" (mr_requested_ip r)
    (mr_requested_user_agent r) (mr_request_count r) (mr_created_at r) (mr_updated_at r)
    (mr_last_submitted_at r) (mr_expires_at r) now (mr_completed_at r).

(** The part the two validations share: the request exists and has not expired. *)
Definition live_recovery_request (actor request_id : Z) (event : string) : M St ManualRecoveryRequest :=
  found <- db_get (λ d, manual_recovery_requests d !! request_id) ;;
  match found with
  | None => refuse (Some actor) event "blocked" [("reason", JStr "request_not_found")]
              "Manual recovery request not found" 404
  | Some r =>
      now <- now_utc ;;
      if mr_expires_at r <=? now then
        changed_at <- now_utc ;;
        _ <- update_recovery request_id (mark_expired changed_at) ;;
        request_ref <- ref_entry "request_ref" "manual_recovery_request" request_id ;;
        _ <- audit_event event "blocked" (Some actor) [("reason", JStr "request_expired"); request_ref] ;;
        _ <- commit ;;
        raise (AuthError "Manual recovery request is expired" 409 None)
      else ret r
  end.

Definition _validate_manual_recovery_transition_request (actor request_id : Z) (status : string) : M St unit :=
  r <- live_recovery_request actor request_id "manual_recovery_admin_transition" ;;
  let allowed := if bool_decide (mr_status r = "pending") then [MANUAL_RECOVERY_STATUS_DENIED]
                 else if bool_decide (mr_status r = MANUAL_RECOVERY_STATUS_UNDER_REVIEW)
                 then [MANUAL_RECOVERY_STATUS_APPROVED; MANUAL_RECOVERY_STATUS_DENIED]
                 else [] in
  guard (negb (str_in status allowed))
    (request_ref <- ref_entry "request_ref" "manual_recovery_request" request_id ;;
     refuse (Some actor) "manual_recovery_admin_transition" "failure"
       [("reason", JStr "invalid_transition"); request_ref] "Invalid manual recovery status transition" 409).

Definition _validate_manual_recovery_completion_request (actor request_id : Z) : M St unit :=
  r <- live_recovery_request actor request_id "manual_recovery_admin_complete" ;;
  guard (negb (bool_decide (mr_status r = MANUAL_RECOVERY_STATUS_APPROVED)))
    (request_ref <- ref_entry "request_ref" "manual_recovery_request" request_id ;;
     refuse (Some actor) "manual_recovery_admin_complete" "failure"
       [("reason", JStr "completion_requires_approval"); request_ref]
       "Manual recovery request must be approved before completion" 409).

Definition recovery_dict (p : PublicRecovery) : dict :=
  [("id", JInt (pr_id p)); ("status", JStr (pr_status p)); ("expires_at", JStr (pr_expires_at p));
   ("request_count", JInt (pr_request_count p)); ("completed", JBool (pr_completed p))].

Definition require_root (actor : Z) (event : string) : M St unit :=
  user <- load_user actor ;;
  root <- lift (is_root_admin (Some user)) ;;
  guard (negb root) (refuse (Some actor) event "blocked" [("reason", JStr "not_root_admin")] "Forbidden" 403).

Definition transition_manual_recovery_request_as_admin (actor request_id : Z) (status reason : string)
    (totp_code : option string) : M St dict :=
  let event := "manual_recovery_admin_transition" in
  _ <- require_root actor event ;;
  let normalized_status := casefold (strip status) in
  _ <- guard (negb (str_in normalized_status MANUAL_RECOVERY_ADMIN_TRANSITION_STATUSES))
         (refuse (Some actor) event "failure" [("reason", JStr "invalid_status")] "Invalid manual recovery status" 400) ;;
  clean_reason <- _require_manual_recovery_reason reason event actor ;;
  _ <- step_up_or actor totp_code ("manual_recovery_transition_" +:+ normalized_status)
         (refuse (Some actor) event "failure" [("reason", JStr "invalid_totp_step_up")] FRESH_MFA_REQUIRED_ERROR 403) ;;
  _ <- _assert_not_self_manual_recovery_action actor request_id "manual_recovery_transition" ;;
  match assoc normalized_status MANUAL_RECOVERY_STATUS_OPERATION_TYPES with
  | Some operation_type =>
      _ <- _validate_manual_recovery_transition_request actor request_id normalized_status ;;
      id <- _create_admin_action_request actor operation_type "manual_recovery_request" (pretty request_id)
              [("status", normalized_status)] (Some clean_reason) ;;
      approval_required id
  | None =>
      result <- transition_manual_recovery_request request_id normalized_status (Some clean_reason) ;;
      request_ref <- ref_entry "request_ref" "manual_recovery_request" request_id ;;
      _ <- audit_event event "success" (Some actor)
             [request_ref; ("new_status", JStr (pr_status result)); ("reason_recorded", JBool true)] ;;
      ret [("message", JStr "Manual recovery request updated"); ("request", JObj (recovery_dict result))]
  end.

Definition complete_manual_recovery_request_as_admin (actor request_id : Z) (reason : string)
    (totp_code : option string) : M St dict :=
  let event := "manual_recovery_admin_complete" in
  _ <- require_root actor event ;;
  clean_reason <- _require_manual_recovery_reason reason event actor ;;
  _ <- step_up_or actor totp_code "manual_recovery_complete"
         (refuse (Some actor) event "failure" [("reason", JStr "invalid_totp_step_up")] FRESH_MFA_REQUIRED_ERROR 403) ;;
  _ <- _assert_not_self_manual_recovery_action actor request_id "manual_recovery_complete" ;;
  _ <- _validate_manual_recovery_completion_request actor request_id ;;
  id <- _create_admin_action_request actor "manual_recovery_complete" "manual_recovery_request"
          (pretty request_id) [("action", "complete")] (Some clean_reason) ;;
  approval_required id.

(** *** Customer security locks *)

Definition _locked_customer_for_update (target_user_id actor : Z) (event_type : string) : M St User :=
  target <- find_user target_user_id ;;
  let valid := match target with
               | Some t => bool_decide (u_account_type t = ACCOUNT_CUSTOMER) && u_is_frozen t
                           && bool_decide (is_Some (u_security_locked_at t))
                           && match u_security_lock_reason t with
                              | Some reason => str_in reason ROOT_ADMIN_REVIEWABLE_LOCK_REASONS
                              | None => false
                              end
               | None => false
               end in
  match target with
  | Some t => if valid then ret t else
      target_ref <- ref_entry "target_customer_ref" "customer_user" target_user_id ;;
      refuse (Some actor) event_type "blocked" [("reason", JStr "target_not_eligible"); target_ref]
        "Customer security lock is not eligible for unlock" 409
  | None =>
      target_ref <- ref_entry "target_customer_ref" "customer_user" target_user_id ;;
      refuse (Some actor) event_type "blocked" [("reason", JStr "target_not_eligible"); target_ref]
        "Customer security lock is not eligible for unlock" 409
  end.

(** [_utc_iso(target.security_locked_at)]. *)
Definition locked_at_text (t : User) : string :=
  match u_security_locked_at t with Some at_ => _utc_iso at_ | None => "" end.

Definition _assert_not_self_customer_action (actor target : Z) (action_type : string) : M St unit :=
  assert_not_self_customer_action actor target action_type.

Definition request_customer_security_unlock (actor target_user_id : Z) (reason : string)
    (totp_code : option string) : M St dict :=
  let event := "customer_security_unlock_request" in
  _ <- _require_active_root_admin actor event ;;
  clean_reason <- _require_manual_recovery_reason reason event actor ;;
  target <- _locked_customer_for_update target_user_id actor event ;;
  _ <- _assert_not_self_customer_action actor target_user_id "customer_security_unlock" ;;
  _ <- step_up_or actor totp_code event
         (target_ref <- ref_entry "target_customer_ref" "customer_user" target_user_id ;;
          refuse (Some actor) event "failure" [("reason", JStr "invalid_totp_step_up"); target_ref]
            FRESH_MFA_REQUIRED_ERROR 403) ;;
  id <- _create_admin_action_request actor "customer_security_unlock" "customer_user" (pretty target_user_id)
          [("action", "unlock"); ("lock_reason", default "None" (u_security_lock_reason target));
           ("locked_at", locked_at_text target)] (Some clean_reason) ;;
  request_ref <- action_ref id ;;
  target_ref <- ref_entry "target_customer_ref" "customer_user" target_user_id ;;
  user <- load_user actor ;;
  _ <- audit_event "customer_security_unlock_requested" "success" (Some actor)
         [request_ref; target_ref; ("previous_lock_reason", jopt_str (u_security_lock_reason target));
          ("actor_role", JStr (u_account_type user)); ("reason_present", JBool true);
          ("reason_length", JInt (Z.of_nat (slen clean_reason)))] ;;
  approval_required id.

(** ** Executing *)

Definition entry (key : string) (r : AdminActionRequest) : string :=
  or_empty (assoc key (ar_operation_payload r)).
(** [int(request_record.target_id)]. *)
Definition target_of (r : AdminActionRequest) : res Z := py_int (Some (JStr (ar_target_id r))).

Definition _execute_staff_admin_action_request (actor : Z) (r : AdminActionRequest) : M St dict :=
  target_id <- lift (target_of r) ;;
  _execute_staff_account_lifecycle actor target_id (entry "action" r).

Definition _execute_manual_recovery_transition_admin_action_request (actor id : Z) (r : AdminActionRequest)
    : M St dict :=
  target_id <- lift (target_of r) ;;
  _ <- _assert_not_self_manual_recovery_action actor target_id "manual_recovery_transition" ;;
  result <- transition_manual_recovery_request target_id (entry "status" r) (Some ADMIN_ACTION_EXECUTION_REASON) ;;
  recovery_ref <- lift (audit_reference "manual_recovery_request" (ar_target_id r)) ;;
  maker_checker_ref <- ref_entry "maker_checker_request_ref" "admin_action_request" id ;;
  _ <- audit_event "manual_recovery_admin_transition" "success" (Some actor)
         [("request_ref", jopt_str recovery_ref); ("new_status", JStr (pr_status result));
          ("reason_recorded", JBool true); maker_checker_ref] ;;
  ret [("message", JStr "Manual recovery request updated"); ("request", JObj (recovery_dict result))].

Definition _execute_manual_recovery_complete_admin_action_request (actor id : Z) (r : AdminActionRequest)
    : M St dict :=
  target_id <- lift (target_of r) ;;
  _ <- _assert_not_self_manual_recovery_action actor target_id "manual_recovery_complete" ;;
  let* (result, revoked_sessions) :=
    complete_manual_recovery_request target_id (Some ADMIN_ACTION_EXECUTION_REASON) in
  recovery_ref <- lift (audit_reference "manual_recovery_request" (ar_target_id r)) ;;
  maker_checker_ref <- ref_entry "maker_checker_request_ref" "admin_action_request" id ;;
  _ <- audit_event "manual_recovery_admin_complete" "success" (Some actor)
         [("request_ref", jopt_str recovery_ref); maker_checker_ref; ("mfa_reenrollment_required", JBool true);
          ("revoked_sessions", JInt revoked_sessions)] ;;
  ret [("message", JStr "Manual recovery request completed");
       ("request", JObj (recovery_dict result ++ [("mfa_reenrollment_required", JBool true);
                                                  ("revoked_sessions", JInt revoked_sessions)]))].

(** The account with its lock cleared. *)
Definition unlocked (u : User) : User :=
  set_u_failed_login_count 0 (set_u_security_lock_reason None (set_u_security_locked_at None
    (set_u_is_frozen false u))).

Definition security_counter (user_id : Z) (c : AuthAttemptCounter) : bool :=
  bool_decide (ac_user_id c = Some user_id)
  && str_in (ac_scope c) ["user_security:password"; "user_security:mfa"].

Definition _execute_customer_security_unlock_admin_action_request (actor id : Z) (r : AdminActionRequest)
    : M St (dict * Z) :=
  target_id <- lift (target_of r) ;;
  target <- _locked_customer_for_update target_id actor "customer_security_unlock_execute" ;;
  _ <- _assert_not_self_customer_action actor target_id "customer_security_unlock" ;;
  let current_reason := casefold (or_empty (u_security_lock_reason target)) in
  let current_locked_at := casefold (locked_at_text target) in
  _ <- guard (negb (bool_decide (current_reason = entry "lock_reason" r)
                    && bool_decide (current_locked_at = entry "locked_at" r)))
         (request_ref <- action_ref id ;;
          target_ref <- ref_entry "target_customer_ref" "customer_user" target_id ;;
          refuse (Some actor) "customer_security_unlock_execute" "blocked"
            [("reason", JStr "stale_lock_state"); request_ref; target_ref]
            "Customer security lock state changed" 409) ;;
  relevant_counters <- db_get (λ d, rows_where (security_counter target_id) (auth_attempt_counters d)) ;;
  _ <- mapM_ (λ '(counter_id, _), db_write (drop_counter counter_id)) relevant_counters ;;
  _ <- db_write (set_user target_id unlocked) ;;
  revoked_sessions <- revoke_all_sessions target_id "security_unlock" (Some "customer") ;;
  request_ref <- action_ref id ;;
  target_ref <- ref_entry "target_customer_ref" "customer_user" target_id ;;
  user <- load_user actor ;;
  _ <- audit_event_required "customer_security_unlock_completed" "success" (Some actor)
         [request_ref; target_ref; ("previous_lock_reason", JStr (default "None" (u_security_lock_reason target)));
          ("actor_role", JStr (u_account_type user)); ("revoked_sessions", JInt revoked_sessions);
          ("cleared_user_security_counters", JInt (Z.of_nat (length relevant_counters)))] ;;
  customer_ref <- ref_entry "customer_ref" "customer_user" target_id ;;
  ret ([("message", JStr "Customer security lock cleared"); customer_ref;
        ("revoked_sessions", JInt revoked_sessions)], target_id).

(** The result, and the customer to notify once the execution is committed. *)
Definition _execute_admin_action_request (actor id : Z) (r : AdminActionRequest) : M St (dict * option Z) :=
  let operation := ar_operation_type r in
  if str_in operation (snd <$> STAFF_ACTION_OPERATION_TYPES) then
    result <- _execute_staff_admin_action_request actor r ;; ret (result, None)
  else if str_in operation ["manual_recovery_approve"; "manual_recovery_deny"] then
    result <- _execute_manual_recovery_transition_admin_action_request actor id r ;; ret (result, None)
  else if bool_decide (operation = "manual_recovery_complete") then
    result <- _execute_manual_recovery_complete_admin_action_request actor id r ;; ret (result, None)
  else if bool_decide (operation = "customer_security_unlock") then
    let* (result, customer) := _execute_customer_security_unlock_admin_action_request actor id r in
    ret (result, Some customer)
  else raise (AuthError "Admin action request cannot be executed" 409 None).

Definition _mark_admin_action_request_execution_failed (actor id : Z) (reason error_type : string) : M St unit :=
  r <- db_query (λ d, match admin_action_requests d !! id with Some r => Ok r | None => Raise NoResultFound end) ;;
  decided_at <- match ar_decided_at r with Some t => ret t | None => now_utc end ;;
  _ <- update_action id (λ r, set_ar_decided_at (Some decided_at)
         (set_ar_status "execution_failed" (set_ar_approver_id (Some actor) r))) ;;
  request_ref <- action_ref id ;;
  _ <- audit_event_required "admin_action_request_execute" "failure" (Some actor)
         [("reason", JStr reason); ("error_type", JStr (str_take 80 error_type)); request_ref;
          ("operation_type", JStr (ar_operation_type r))] ;;
  commit.

(** ** Deciding *)

Definition _admin_action_request_or_error (request_id : Z) : M St AdminActionRequest :=
  found <- db_get (λ d, admin_action_requests d !! request_id) ;;
  match found with
  | Some r => ret r
  | None => raise (AuthError "Admin action request not found" 404 None)
  end.

Definition close_action (status : string) (now : Z) (r : AdminActionRequest) : AdminActionRequest :=
  set_ar_decided_at (Some now) (set_ar_status status r).

Definition audit_expired_action (actor id : Z) (r : AdminActionRequest) : M St unit :=
  request_ref <- action_ref id ;;
  audit_event_required "admin_action_request_expired" "success" (Some actor)
    [request_ref; ("operation_type", JStr (ar_operation_type r))].

Definition _expire_admin_action_request_if_stale (id : Z) (r : AdminActionRequest) (actor : Z) : M St unit :=
  if negb (bool_decide (ar_status r = ADMIN_ACTION_PENDING_STATUS)) then ret tt
  else
    now <- now_utc ;;
    if now <? ar_expires_at r then ret tt
    else
      decided_at <- now_utc ;;
      _ <- update_action id (close_action "expired" decided_at) ;;
      _ <- audit_expired_action actor id r ;;
      _ <- commit ;;
      raise (AuthError "Admin action request is expired" 409 None).

Definition _expire_stale_admin_action_requests (actor : Z) : M St unit :=
  now <- now_utc ;;
  stale <- db_get (λ d, rows_where (λ r, bool_decide (ar_status r = ADMIN_ACTION_PENDING_STATUS)
                                         && (ar_expires_at r <=? now)) (admin_action_requests d)) ;;
  _ <- mapM_ (λ '(id, r), _ <- update_action id (close_action "expired" now) ;; audit_expired_action actor id r)
         stale ;;
  guard (negb (bool_decide (length stale = 0%nat))) commit.

Definition _pending_admin_action_request_or_error (request_id actor : Z) : M St AdminActionRequest :=
  r <- _admin_action_request_or_error request_id ;;
  _ <- _expire_admin_action_request_if_stale request_id r actor ;;
  _ <- guard (negb (bool_decide (ar_status r = ADMIN_ACTION_PENDING_STATUS)))
         (request_ref <- action_ref request_id ;;
          refuse (Some actor) "admin_action_request_state" "blocked"
            [("reason", JStr "not_pending"); request_ref; ("status", JStr (ar_status r))]
            "Admin action request is not pending" 409) ;;
  ret r.

Definition _assert_admin_action_request_hmac_valid (id : Z) (r : AdminActionRequest) (actor : Z) : M St unit :=
  expected <- lift (_admin_action_request_hmac id r) ;;
  guard (negb (bool_decide (ar_metadata_hmac r = expected)))
    (request_ref <- action_ref id ;;
     refuse (Some actor) "admin_action_request_integrity" "failure" [request_ref]
       "Admin action request integrity check failed" 409).

Definition _assert_requester_still_eligible (id : Z) (r : AdminActionRequest) (actor : Z) : M St unit :=
  requester <- find_user (ar_requester_id r) ;;
  eligible <- lift (_is_active_root_admin requester) ;;
  guard (negb eligible)
    (request_ref <- action_ref id ;;
     refuse (Some actor) "admin_action_request_approve" "blocked"
       [("reason", JStr "requester_ineligible"); request_ref] "Admin action requester is no longer eligible" 409).

(** The refusals of approval, rejection and cancellation. *)
Definition refuse_decision {A} (actor id : Z) (event outcome reason message : string) : M St A :=
  request_ref <- action_ref id ;;
  refuse (Some actor) event outcome [("reason", JStr reason); request_ref] message 403.

Definition _send_customer_security_unlock_notification (user_id : Z) : M St unit :=
  user <- find_user user_id ;;
  match user with
  | Some u =>
      if bool_decide (u_account_type u = ACCOUNT_CUSTOMER) then
        sent <- try_except
          (_ <- send_security_email (u_email u) "SITBank account security lock cleared"
             ("Your SITBank account security lock was cleared after an approved "
                +:+ "support review. Existing sessions were revoked. You may retry normal "
                +:+ "login or password reset; authenticator MFA and all rate limits still apply. "
                +:+ "If you did not request help, contact support immediately.") ;;
           ret true) any_exn
          (λ _, _ <- audit_event "customer_security_unlock_notification" "failure" (Some user_id)
                       [("reason", JStr "email_delivery_failed")] ;;
                ret false) ;;
        guard sent (audit_event "customer_security_unlock_notification" "queued" (Some user_id) [])
      else
        target_ref <- ref_entry "target_customer_ref" "customer_user" user_id ;;
        audit_event "customer_security_unlock_notification" "failure" None
          [("reason", JStr "customer_unavailable"); target_ref]
  | None =>
      target_ref <- ref_entry "target_customer_ref" "customer_user" user_id ;;
      audit_event "customer_security_unlock_notification" "failure" None
        [("reason", JStr "customer_unavailable"); target_ref]
  end.

Definition approve_admin_action_request_as_root_admin (actor request_id : Z) (totp_code : option string)
    : M St dict :=
  let event := "admin_action_request_approve" in
  _ <- _require_active_root_admin actor event ;;
  r <- _pending_admin_action_request_or_error request_id actor ;;
  _ <- _assert_admin_action_request_hmac_valid request_id r actor ;;
  _ <- _assert_requester_still_eligible request_id r actor ;;
  _ <- guard (ar_requester_id r =? actor)
         (refuse_decision actor request_id event "blocked" "self_approval_denied"
            "Requester cannot approve their own admin action request") ;;
  _ <- step_up_or actor totp_code ("admin_action_approve_" +:+ ar_operation_type r)
         (refuse_decision actor request_id event "failure" "invalid_totp_step_up" FRESH_MFA_REQUIRED_ERROR) ;;
  let* (result, notification_user_id) :=
    try_except (_execute_admin_action_request actor request_id r) is_execution_error
      (λ e, _ <- rollback ;;
            _ <- _admin_action_request_or_error request_id ;;
            _ <- _mark_admin_action_request_execution_failed actor request_id "execution_error" (exn_class e) ;;
            raise (AuthError "Admin action request execution failed" 409 None)) in
  decided_at <- now_utc ;;
  _ <- update_action request_id (λ r, set_ar_executed_at (Some decided_at)
         (close_action "executed" decided_at (set_ar_approver_id (Some actor) r))) ;;
  request_ref <- action_ref request_id ;;
  target_ref <- lift (_admin_action_target_ref r) ;;
  requester_ref <- ref_entry "requester_ref" "admin_user" (ar_requester_id r) ;;
  _ <- audit_event_required "admin_action_request_executed" "success" (Some actor)
         [request_ref; ("operation_type", JStr (ar_operation_type r)); ("target_type", JStr (ar_target_type r));
          ("target_ref", jopt_str target_ref); requester_ref] ;;
  _ <- commit ;;
  _ <- match notification_user_id with
       | Some user_id => _send_customer_security_unlock_notification user_id
       | None => ret tt
       end ;;
  request <- public_admin_action_request request_id ;;
  ret [("message", JStr "Admin action request approved and executed"); ("request", JObj request);
       ("result", JObj result)].

Definition reject_admin_action_request_as_root_admin (actor request_id : Z) (totp_code : option string)
    : M St dict :=
  let event := "admin_action_request_reject" in
  _ <- _require_active_root_admin actor event ;;
  r <- _pending_admin_action_request_or_error request_id actor ;;
  _ <- _assert_admin_action_request_hmac_valid request_id r actor ;;
  _ <- guard (ar_requester_id r =? actor)
         (refuse_decision actor request_id event "blocked" "self_rejection_denied"
            "Requester cannot reject their own admin action request") ;;
  _ <- step_up_or actor totp_code ("admin_action_reject_" +:+ ar_operation_type r)
         (refuse_decision actor request_id event "failure" "invalid_totp_step_up" FRESH_MFA_REQUIRED_ERROR) ;;
  decided_at <- now_utc ;;
  _ <- update_action request_id (λ r, close_action "rejected" decided_at (set_ar_approver_id (Some actor) r)) ;;
  request_ref <- action_ref request_id ;;
  _ <- audit_event_required "admin_action_request_rejected" "success" (Some actor)
         [request_ref; ("operation_type", JStr (ar_operation_type r))] ;;
  _ <- commit ;;
  _ <- guard (bool_decide (ar_operation_type r = "customer_security_unlock"))
         (target_ref <- lift (_admin_action_target_ref r) ;;
          user <- load_user actor ;;
          audit_event "customer_security_unlock_denied" "blocked" (Some actor)
            [request_ref; ("target_customer_ref", jopt_str target_ref);
             ("actor_role", JStr (u_account_type user))]) ;;
  request <- public_admin_action_request request_id ;;
  ret [("message", JStr "Admin action request rejected"); ("request", JObj request)].

Definition cancel_admin_action_request_as_root_admin (actor request_id : Z) (totp_code : option string)
    : M St dict :=
  let event := "admin_action_request_cancel" in
  _ <- _require_active_root_admin actor event ;;
  r <- _pending_admin_action_request_or_error request_id actor ;;
  _ <- _assert_admin_action_request_hmac_valid request_id r actor ;;
  _ <- guard (negb (ar_requester_id r =? actor))
         (refuse_decision actor request_id event "blocked" "not_requester"
            "Only the requester can cancel this admin action request") ;;
  _ <- step_up_or actor totp_code ("admin_action_cancel_" +:+ ar_operation_type r)
         (refuse_decision actor request_id event "failure" "invalid_totp_step_up" FRESH_MFA_REQUIRED_ERROR) ;;
  decided_at <- now_utc ;;
  _ <- update_action request_id (close_action "cancelled" decided_at) ;;
  request_ref <- action_ref request_id ;;
  _ <- audit_event_required "admin_action_request_cancelled" "success" (Some actor)
         [request_ref; ("operation_type", JStr (ar_operation_type r))] ;;
  _ <- commit ;;
  request <- public_admin_action_request request_id ;;
  ret [("message", JStr "Admin action request cancelled"); ("request", JObj request)].

(** ** Reviewing the queue *)

Fixpoint mapM_dicts {A} (f : A → M St dict) (l : list A) : M St (list dict) :=
  match l with
  | [] => ret []
  | x :: l' => y <- f x ;; ys <- mapM_dicts f l' ;; ret (y :: ys)
  end.

Definition admin_action_requests_for_admin (actor : Z) : M St (list dict) :=
  _ <- _require_active_root_admin actor "admin_action_request_review" ;;
  _ <- _expire_stale_admin_action_requests actor ;;
  requests <- db_get (λ d, sort_by newest_action (map_to_list (admin_action_requests d))) ;;
  _ <- audit_event "admin_action_request_review" "success" (Some actor) [] ;;
  mapM_dicts (λ '(id, _), public_admin_action_request id) requests.

Definition admin_action_request_detail_for_admin (actor request_id : Z) : M St dict :=
  _ <- _require_active_root_admin actor "admin_action_request_detail" ;;
  r <- _admin_action_request_or_error request_id ;;
  _ <- _expire_admin_action_request_if_stale request_id r actor ;;
  request_ref <- action_ref request_id ;;
  _ <- audit_event "admin_action_request_detail" "success" (Some actor) [request_ref] ;;
  public_admin_action_request request_id.

End AdminActions.
End AdminActions.
