(* ===== verification/AdminSafety.v ===== *)
(** * Four eyes

    The histories of admin-action requests: any calls of any administrators to
    the portal, in any environments.  No single administrator changes anybody
    else's account: a call that does so is an approval, by an active root
    administrator with an accepted code, of a pending and unexpired request that
    another root administrator made earlier with an accepted code. *)

From S2P Require Import Prelude PyStr TimeModel Schema Runtime Sample Canonical Integrity AuditLog MfaCrypto.
From S2P Require Import Identity SessionRisk BankingPolicy Notifications Sessions RateLimits Mfa SignIn Account.
From S2P Require Import PasswordReset ManualRecovery AdminAccess AdminActions.
Open Scope string_scope.
Open Scope Z_scope.

Module AdminSafety.
Import SessionHmac Audit MfaCrypto Identity SessionRisk Policy Notifications Sessions RateLimits Mfa SignIn Account.
Import PasswordReset ManualRecovery AdminAccess AdminActions.

#[local] Hint Constants Opaque : pres.

Inductive AdminCall : Type :=
  | AskLifecycle (target : Z) (action : string) (code : option string)
  | AskDecision (request_id : Z) (status reason : string) (code : option string)
  | AskCompletion (request_id : Z) (reason : string) (code : option string)
  | AskUnlock (target : Z) (reason : string) (code : option string)
  | Approve (id : Z) (code : option string)
  | Reject (id : Z) (code : option string)
  | Cancel (id : Z) (code : option string)
  | ViewQueue
  | ViewRequest (id : Z).

Definition admin_act `{Env} (actor : Z) (r : AdminCall) : M St unit :=
  match r with
  | AskLifecycle target action code => _ <- transition_staff_account_as_root_admin actor target action code ;; ret tt
  | AskDecision id status reason code =>
      _ <- transition_manual_recovery_request_as_admin actor id status reason code ;; ret tt
  | AskCompletion id reason code => _ <- complete_manual_recovery_request_as_admin actor id reason code ;; ret tt
  | AskUnlock target reason code => _ <- request_customer_security_unlock actor target reason code ;; ret tt
  | Approve id code => _ <- approve_admin_action_request_as_root_admin actor id code ;; ret tt
  | Reject id code => _ <- reject_admin_action_request_as_root_admin actor id code ;; ret tt
  | Cancel id code => _ <- cancel_admin_action_request_as_root_admin actor id code ;; ret tt
  | ViewQueue => _ <- admin_action_requests_for_admin actor ;; ret tt
  | ViewRequest id => _ <- admin_action_request_detail_for_admin actor id ;; ret tt
  end.

Record AdminServed : Type := mkAdminServed { as_env : Env; as_actor : Z; as_call : AdminCall; as_start : St }.

Definition after_call (x : AdminServed) : St := (@admin_act (as_env x) (as_actor x) (as_call x) (as_start x)).2.

(** [actions T served]: the table of requests after the calls [served]. *)
Inductive actions : gmap Z AdminActionRequest → list AdminServed → Prop :=
  | actions_none : actions ∅ []
  | actions_cleanup T T' served : actions T served → T' ⊆ T → actions T' served
  | actions_call x served :
      actions (admin_action_requests (committed (as_start x))) served →
      working (as_start x) = committed (as_start x) →
      actions (admin_action_requests (committed (after_call x))) (served ++ [x]).

(** What a call asks for: the code and its scope, and the operation. *)
Record Ask : Type := mkAsk {
  ak_code : option string; ak_scope : string; ak_operation : string; ak_target_type : string;
  ak_target_id : string; ak_payload : list (string * string)
}.

Definition asks (call : AdminCall) (d : Db) : option Ask :=
  match call with
  | AskLifecycle target action code =>
      let a := casefold (strip action) in
      Some (mkAsk code ("staff_account_" +:+ a) (or_empty (assoc a STAFF_ACTION_OPERATION_TYPES)) "staff_user"
              (pretty target) [("action", a)])
  | AskDecision id status _ code =>
      let st := casefold (strip status) in
      (λ op, mkAsk code ("manual_recovery_transition_" +:+ st) op "manual_recovery_request" (pretty id)
               [("status", st)]) <$> assoc st MANUAL_RECOVERY_STATUS_OPERATION_TYPES
  | AskCompletion id _ code =>
      Some (mkAsk code "manual_recovery_complete" "manual_recovery_complete" "manual_recovery_request" (pretty id)
              [("action", "complete")])
  | AskUnlock target _ code =>
      (λ t, mkAsk code "customer_security_unlock_request" "customer_security_unlock" "customer_user" (pretty target)
              [("action", "unlock"); ("lock_reason", default "None" (u_security_lock_reason t));
               ("locked_at", locked_at_text t)]) <$> users d !! target
  | _ => None
  end.

Section Accepted.
Context `{Env}.
(** The code is accepted for the authenticator secret stored for [u]. *)
Definition code_accepted (scope : string) (d : Db) (u : Z) (code : option string) : Prop :=
  ∃ s0 secret s1 s2 step, users (working s0) = users d
    ∧ _mfa_secret_for_user u s0 = (Ok secret, s1) ∧ accepted u secret (or_empty code) scope s1 s2 step.
Definition root_of (d : Db) (u : Z) : Prop := _is_active_root_admin (users d !! u) = Ok true.
End Accepted.

(** [r] is the request [x] made: by an active root administrator, with a code
    accepted for it. *)
Definition requested (x : AdminServed) (r : AdminActionRequest) : Prop :=
  let d := committed (as_start x) in
  ∃ ask, asks (as_call x) d = Some ask
    ∧ @code_accepted (as_env x) (ak_scope ask) d (as_actor x) (ak_code ask)
    ∧ @root_of (as_env x) d (as_actor x)
    ∧ ar_requester_id r = as_actor x ∧ ar_operation_type r = ak_operation ask
    ∧ ar_target_type r = ak_target_type ask ∧ ar_target_id r = ak_target_id ask
    ∧ ar_operation_payload r = _safe_admin_action_payload (ak_payload ask).

Definition row_backed (served : list AdminServed) (r : AdminActionRequest) : Prop :=
  ∃ x, x ∈ served ∧ requested x r.
Definition table_backed (served : list AdminServed) (c w : Db) : Prop :=
  map_Forall (λ _, row_backed served) (admin_action_requests c)
  ∧ map_Forall (λ _, row_backed served) (admin_action_requests w).

#[export] Instance table_backed_blind served : security_blind (table_backed served).
Proof. split; [split|..]; by intros * [? ?]. Qed.

(** ** What reviewing and validating leave alone *)

Class portal_blind (P : Db → Db → Prop) : Prop := {
  pb_audit :: audit_blind P;
  pb_recovery f c w : P c w → P c (upd_manual_recovery_requests f w)
}.
#[export] Hint Extern 0 (portal_blind _) => apply _ : pres.

Section Portal.
Context `{Env} (P : Db → Db → Prop) `{!portal_blind P}.
Notation keeps := (preserves (on_db P)).

Lemma portal_recovery id f : keeps (update_recovery id f).
Proof using All. apply pres_db_write. intros c w. apply pb_recovery. Qed.
Lemma portal_ref k n i : keeps (ref_entry k n i).
Proof using All. unfold ref_entry. solve_pres. Qed.
Lemma portal_action_ref i : keeps (action_ref i).
Proof using All. apply portal_ref. Qed.
Lemma portal_refuse {A} a e o m t st : keeps (refuse (A:=A) a e o m t st).
Proof using All. unfold refuse. solve_pres. Qed.
Hint Resolve portal_recovery portal_ref portal_action_ref portal_refuse : pres.
Lemma portal_system ty o u m : keeps (audit_system_event ty o u m).
Proof using All.
  unfold audit_system_event. solve_pres;
    apply pres_system_write; first [apply blind_rollback|apply blind_commit|intros; by apply blind_append].
Qed.
Lemma portal_system_required ty o u m : keeps (audit_system_event_in_transaction_required ty o u m).
Proof using All.
  unfold audit_system_event_in_transaction_required. solve_pres.
  apply pres_system_write; first [apply blind_rollback|apply blind_commit|intros; by apply blind_append].
Qed.
Hint Resolve portal_system portal_system_required : pres.
Lemma portal_require_root a e : keeps (_require_active_root_admin a e).
Proof using All. unfold _require_active_root_admin. solve_pres. Qed.
Lemma portal_root a e : keeps (require_root a e).
Proof using All. unfold require_root. solve_pres. Qed.
Lemma portal_reason r e a : keeps (_require_manual_recovery_reason r e a).
Proof using All. unfold _require_manual_recovery_reason. cbv zeta. solve_pres. Qed.
Lemma portal_block {A} a t ac r : keeps (_block (A:=A) a t ac r).
Proof using All. unfold _block. cbv zeta. solve_pres. Qed.
Hint Resolve portal_require_root portal_root portal_reason portal_block : pres.
Lemma portal_not_self a t ac : keeps (assert_not_self_customer_action a t ac).
Proof using All. unfold assert_not_self_customer_action, _has_active_identity_link. cbv zeta. solve_pres. Qed.
Hint Resolve portal_not_self : pres.
Lemma portal_not_self_recovery a t ac : keeps (_assert_not_self_manual_recovery_action a t ac).
Proof using All. unfold _assert_not_self_manual_recovery_action, find_user. solve_pres. Qed.
Lemma portal_transition id u a b o r q : keeps (_audit_manual_recovery_transition id u a b o r q).
Proof using All. unfold _audit_manual_recovery_transition. cbv zeta. solve_pres. Qed.
Hint Resolve portal_not_self_recovery portal_transition : pres.
Lemma portal_recovery_transition id st r : keeps (transition_manual_recovery_request id st r).
Proof using All.
  unfold transition_manual_recovery_request, _manual_recovery_request_or_error, close_if_stale,
    _expire_manual_recovery_if_stale. cbv zeta. solve_pres.
Qed.
Lemma portal_live a id e : keeps (live_recovery_request a id e).
Proof using All. unfold live_recovery_request. solve_pres. Qed.
Hint Resolve portal_recovery_transition portal_live : pres.
Lemma portal_validate_transition a id st : keeps (_validate_manual_recovery_transition_request a id st).
Proof using All. unfold _validate_manual_recovery_transition_request. cbv zeta. solve_pres. Qed.
Lemma portal_validate_completion a id : keeps (_validate_manual_recovery_completion_request a id).
Proof using All. unfold _validate_manual_recovery_completion_request. solve_pres. Qed.
Lemma portal_validate_staff a t ac : keeps (_validate_staff_account_lifecycle_request a t ac).
Proof using All. unfold _validate_staff_account_lifecycle_request, find_user. cbv zeta. solve_pres. Qed.
Lemma portal_locked t a e : keeps (_locked_customer_for_update t a e).
Proof using All. unfold _locked_customer_for_update, find_user. cbv zeta. solve_pres. Qed.
Lemma portal_user_target t b : keeps (_admin_action_user_target_summary t b).
Proof using All. unfold _admin_action_user_target_summary, find_user. solve_pres. Qed.
Lemma portal_recovery_target t : keeps (_admin_action_manual_recovery_target_summary t).
Proof using All. unfold _admin_action_manual_recovery_target_summary, find_user. solve_pres. Qed.
Hint Resolve portal_user_target portal_recovery_target : pres.
Lemma portal_public id : keeps (public_admin_action_request id).
Proof using All.
  unfold public_admin_action_request, _admin_action_target_summary, _admin_action_known_target_summary,
    approver_entries, find_user. solve_pres.
Qed.
Hint Resolve portal_public : pres.
Lemma portal_answer id : keeps (approval_required id).
Proof using All. unfold approval_required. solve_pres. Qed.
Lemma portal_staff_account u r a : keeps (public_staff_account u r a).
Proof using All. unfold public_staff_account. cbv zeta. solve_pres. Qed.
Lemma portal_refuse_decision {A} a id e o r m : keeps (refuse_decision (A:=A) a id e o r m).
Proof using All. unfold refuse_decision. solve_pres. Qed.
Lemma portal_signature id r a : keeps (_assert_admin_action_request_hmac_valid id r a).
Proof using All. unfold _assert_admin_action_request_hmac_valid. solve_pres. Qed.
Lemma portal_eligible id r a : keeps (_assert_requester_still_eligible id r a).
Proof using All. unfold _assert_requester_still_eligible, find_user. solve_pres. Qed.
Lemma portal_expired a id r : keeps (audit_expired_action a id r).
Proof using All. unfold audit_expired_action. solve_pres. Qed.
Lemma portal_notify u : keeps (_send_customer_security_unlock_notification u).
Proof using All. unfold _send_customer_security_unlock_notification, find_user. solve_pres. Qed.
Lemma portal_dicts {A} (f : A → M St dict) l : (∀ x, keeps (f x)) → keeps (mapM_dicts f l).
Proof using All. intros Hf. induction l as [|x l IH]; simpl; solve_pres. Qed.
End Portal.
#[export] Hint Resolve portal_recovery portal_ref portal_action_ref portal_refuse portal_system portal_system_required
  portal_require_root portal_root portal_reason portal_block portal_not_self portal_not_self_recovery
  portal_transition portal_recovery_transition portal_live portal_validate_transition
  portal_validate_completion portal_validate_staff portal_locked portal_user_target portal_recovery_target
  portal_public portal_answer portal_staff_account portal_refuse_decision portal_signature portal_eligible
  portal_expired portal_notify : pres.

#[export] Instance table_backed_portal served : portal_blind (table_backed served).
Proof. split; [apply _|]. by intros * [? ?]. Qed.

(** ** What keeps the table backed *)

Section Frame.
Context `{Env} (served : list AdminServed).
Notation keeps := (preserves (on_db (table_backed served))).

Lemma other_rows f :
  (∀ d, admin_action_requests (f d) = admin_action_requests d) → keeps (db_write f).
Proof. intros Hf. apply pres_db_write. intros c w [Hc Hw]. split; [done|]. by rewrite Hf. Qed.
Hint Extern 2 (keeps (db_write _)) => apply other_rows; reflexivity : pres.

Lemma backed_update id f : (∀ r x, requested x r → requested x (f r)) → keeps (update_action id f).
Proof.
  intros Hf. apply pres_db_write. intros c w [Hc Hw]. split; [done|]. intros i r. simpl.
  rewrite lookup_alter_Some. intros [(-> & r0 & Hr0 & ->)|[_ Hr]]; [|by apply (Hw i)].
  destruct (Hw _ _ Hr0) as (x & Hx & Hreq). exists x. split; [done|by apply Hf].
Qed.
Hint Extern 1 (keeps (update_action _ _)) => apply backed_update; by intros ? ? : pres.

Lemma backed_step_up a c sc r : keeps r → keeps (step_up_or a c sc r).
Proof.
  intros Hr. unfold step_up_or, verify_admin_totp_step_up, _verify_totp_for_user, _verify_totp_for_user_outcome,
    _mfa_secret_for_user. solve_pres.
Qed.
Hint Resolve backed_step_up : pres.
Lemma backed_recovery_complete id r : keeps (complete_manual_recovery_request id r).
Proof.
  unfold complete_manual_recovery_request, _manual_recovery_request_or_error, close_if_stale,
    _expire_manual_recovery_if_stale, _send_manual_recovery_completed_notification,
    mail_or_audit. cbv zeta. solve_pres.
Qed.
Hint Resolve backed_recovery_complete : pres.

Lemma backed_execute a id r : keeps (_execute_admin_action_request a id r).
Proof.
  unfold _execute_admin_action_request, _execute_staff_admin_action_request, _execute_staff_account_lifecycle,
    _execute_manual_recovery_transition_admin_action_request, _execute_manual_recovery_complete_admin_action_request,
    _execute_customer_security_unlock_admin_action_request, _assert_not_self_customer_action.
  cbv zeta. solve_pres.
Qed.
Lemma backed_failed a id r e : keeps (_mark_admin_action_request_execution_failed a id r e).
Proof. unfold _mark_admin_action_request_execution_failed. solve_pres. Qed.
Hint Resolve backed_execute backed_failed : pres.
Lemma backed_expire_if_stale id r a : keeps (_expire_admin_action_request_if_stale id r a).
Proof. unfold _expire_admin_action_request_if_stale. solve_pres. Qed.
Lemma backed_expire_stale a : keeps (_expire_stale_admin_action_requests a).
Proof. unfold _expire_stale_admin_action_requests. solve_pres. Qed.
Hint Resolve backed_expire_if_stale backed_expire_stale : pres.
Lemma backed_pending id a : keeps (_pending_admin_action_request_or_error id a).
Proof. unfold _pending_admin_action_request_or_error, _admin_action_request_or_error. solve_pres. Qed.
Hint Resolve backed_pending : pres.

Lemma backed_approve a id c : keeps (approve_admin_action_request_as_root_admin a id c).
Proof. unfold approve_admin_action_request_as_root_admin, _admin_action_request_or_error. cbv zeta. solve_pres. Qed.
Lemma backed_reject a id c : keeps (reject_admin_action_request_as_root_admin a id c).
Proof. unfold reject_admin_action_request_as_root_admin. cbv zeta. solve_pres. Qed.
Lemma backed_cancel a id c : keeps (cancel_admin_action_request_as_root_admin a id c).
Proof. unfold cancel_admin_action_request_as_root_admin. cbv zeta. solve_pres. Qed.
Lemma backed_queue a : keeps (admin_action_requests_for_admin a).
Proof. unfold admin_action_requests_for_admin. solve_pres. apply portal_dicts; [apply _|]. intros []. solve_pres. Qed.
Lemma backed_detail a id : keeps (admin_action_request_detail_for_admin a id).
Proof. unfold admin_action_request_detail_for_admin, _admin_action_request_or_error. solve_pres. Qed.
End Frame.

(** ** An accepted step-up *)

Definition same_users (U : gmap Z User) (c w : Db) : Prop := users c = U ∧ users w = U.
#[local] Instance same_users_blind U : audit_blind (same_users U).
Proof. split; by intros * [? ?]. Qed.

Section StepUp.
Context `{Env} (U : gmap Z User).
Notation keeps := (preserves (on_db (same_users U))).

Lemma users_other f : (∀ d, users (f d) = users d) → keeps (db_write f).
Proof. intros Hf. apply pres_db_write. intros c w [Hc Hw]. split; [done|]. by rewrite Hf. Qed.
Hint Extern 2 (keeps (db_write _)) => apply users_other; reflexivity : pres.

Lemma users_secret u : keeps (_mfa_secret_for_user u).
Proof.
  unfold _mfa_secret_for_user, decrypt_mfa_secret, _decrypt_envelope, _unwrap_dek, _kek, _audit_mfa_crypto.
  cbv zeta. solve_pres.
Qed.
Lemma users_clear sc p : keeps (clear_failures sc p).
Proof. unfold clear_failures, _load_counter. solve_pres. Qed.
Lemma users_clear_security u sc : keeps (_clear_user_security_failures u sc).
Proof. unfold _clear_user_security_failures. solve_pres. Qed.
Hint Resolve users_clear users_clear_security pres_mark_fresh : pres.

(** The failures are recorded only when the code is refused. *)
Lemma users_verify u secret code sc w s s' :
  _verify_totp_secret_for_user_outcome u secret code sc w true s = (Ok TOTP_VERIFICATION_VALID, s') →
  on_db (same_users U) s → on_db (same_users U) s'.
Proof.
  unfold _verify_totp_secret_for_user_outcome. intros E Hs.
  destruct (negb _); [inv_bind E; unfold ret in E; by simplify_eq|].
  inv_bind E. assert (on_db (same_users U) s0) as Hs0.
  { unfold track in E0. inv_bind E0. unfold ret in E0. injection E0 as <- <-.
    apply try_raises_inv in E1; [|intros; solve_raises]. unfold _enforce_auth_backoff in E1.
    apply try_raises_inv in E1; [|intros e; destruct e; solve_raises].
    assert (keeps (apply_exponential_backoff sc (pretty u))) as Hp
      by (unfold apply_exponential_backoff, _load_counter; solve_pres).
    specialize (Hp s Hs). by rewrite E1 in Hp. }
  inv_bind E. injection E1 as <- <-. inv_bind E. unfold lift in E1. injection E1 as _ <-.
  destruct (_accepted_totp_step _ _ _ _) as [step|]; [|inv_bind E; unfold ret in E; by simplify_eq].
  cbv zeta in E. revert E. set (s2 := next_effect _). assert (on_db (same_users U) s2) as Hs2 by exact Hs0.
  generalize dependent s2. intros s2 Hs2 E.
  match type of E with ?c s2 = _ => assert (keeps c) as Hp end.
  { unfold track. solve_pres. }
  specialize (Hp s2 Hs2). by rewrite E in Hp.
Qed.

Lemma step_up_inv a code sc refusal s s' :
  raises refusal → step_up_or a code sc refusal s = (Ok tt, s') →
  ∃ secret s1 s2, _mfa_secret_for_user a s = (Ok secret, s1)
    ∧ _verify_totp_secret_for_user_outcome a secret (or_empty code) sc None true s1
      = (Ok TOTP_VERIFICATION_VALID, s2) ∧ s2 = s'.
Proof.
  intros Hr E. unfold step_up_or in E. inv_bind E. destruct a0; [|by apply Hr in E].
  unfold ret in E. injection E as <-. unfold verify_admin_totp_step_up in E0.
  destruct (nonempty _); [|done]. unfold _verify_totp_for_user in E0. inv_bind E0.
  unfold ret in E0. injection E0 as Ho <-. apply bool_decide_eq_true in Ho as ->.
  unfold _verify_totp_for_user_outcome in E. inv_bind E. by exists a0, s0, s1.
Qed.

Lemma step_up_ok a code sc refusal s s' :
  raises refusal → step_up_or a code sc refusal s = (Ok tt, s') → on_db (same_users U) s →
  on_db (same_users U) s' ∧ code_accepted sc (working s) a code.
Proof.
  intros Hr (secret & s1 & s2 & Hsec & Hv & ->)%step_up_inv Hs; [|done].
  pose proof (users_secret a s Hs) as Hs1. rewrite Hsec in Hs1. split; [by eapply users_verify|].
  apply valid_accepted in Hv as (step & Hacc). by exists s, secret, s1, s', step.
Qed.
End StepUp.

(** ** Asking *)

Lemma then_ok {A B} (J : St → Prop) (c : M St A) (k : A → M St B) s :
  J (c s).2 → (∀ a s1, c s = (Ok a, s1) → J s1 → J (k a s1).2) → J (bind c k s).2.
Proof. intros Hc Hk. unfold bind. destruct (c s) as [[a|e] s1] eqn:E; [by apply Hk|done]. Qed.

Lemma actions_later served x s : on_db (table_backed served) s → on_db (table_backed (served ++ [x])) s.
Proof.
  intros [Hc Hw]. split; eapply map_Forall_impl; try done; intros i r (y & Hy & Hr); exists y; set_solver.
Qed.

Lemma refuse_raises {A} `{Env} a e o m t st : raises (refuse (A:=A) a e o m t st).
Proof. unfold refuse. solve_raises. Qed.

Lemma require_root_ok `{Env} a e s s' :
  _require_active_root_admin a e s = (Ok tt, s') → s' = s ∧ root_of (working s) a.
Proof.
  unfold _require_active_root_admin. intros E. inv_bind E. unfold load_user, db_query in E0.
  destruct (users (working s) !! a) as [row|] eqn:Er; [|done]. injection E0 as <- <-.
  inv_bind E. unfold lift in E0. injection E0 as Ha <-. destruct a0.
  - unfold ret in E. injection E as <-. split; [done|]. unfold root_of. by rewrite Er.
  - by apply refuse_raises in E.
Qed.

Section Asking.
Context `{Env} (served : list AdminServed) (x : AdminServed).
Notation J := (on_db (table_backed served)).

(** A row is added for a root administrator whose code was accepted. *)
Lemma backed_create ask reason s :
  as_env x = H → x ∈ served → asks (as_call x) (committed (as_start x)) = Some ask →
  code_accepted (ak_scope ask) (committed (as_start x)) (as_actor x) (ak_code ask) →
  on_db (same_users (users (committed (as_start x)))) s → J s →
  J (_create_admin_action_request (as_actor x) (ak_operation ask) (ak_target_type ask) (ak_target_id ask)
       (ak_payload ask) reason s).2.
Proof.
  intros HE Hx Hask Hcode [_ Hu] Hs. unfold _create_admin_action_request. cbv zeta.
  apply then_ok; [by apply (portal_require_root (table_backed served))|]. intros [] s1 E1 Hs1.
  apply require_root_ok in E1 as [-> Hroot]. assert (root_of (committed (as_start x)) (as_actor x)) as Hroot'
    by (unfold root_of in *; by rewrite <- Hu).
  match goal with |- J (?c s).2 => assert (preserves J c) as Hk end; [|by apply Hk].
  unfold action_ref. solve_pres; [|apply backed_update; by intros ? ?].
  apply pres_db_write. intros c w [Hc Hw]. split; [done|]. simpl. apply map_Forall_insert_2; [|done].
  exists x. split; [done|]. exists ask. rewrite HE. done.
Qed.

(** The table is backed and nobody's account has changed. *)
Definition asking (c w : Db) : Prop :=
  table_backed served c w ∧ same_users (users (committed (as_start x))) c w.
#[local] Instance asking_portal : portal_blind asking.
Proof.
  split; [split|]; intros *.
  - intros [? ?]. split; [by eapply blind_rollback|by eapply blind_rollback].
  - intros [? ?]. split; [by eapply blind_commit|by eapply blind_commit].
  - intros [? ?]. split; [by apply blind_append|by apply blind_append].
  - intros [[? ?] [? ?]]. by split.
Qed.

Lemma then_asking {A B} (c : M St A) (k : A → M St B) :
  preserves (on_db asking) c → (∀ a s, on_db asking s → J (k a s).2) →
  ∀ s, on_db asking s → J (bind c k s).2.
Proof.
  intros Hc Hk s Hs. unfold bind. specialize (Hc s Hs). destruct (c s) as [[a|e] s1]; [by apply Hk|exact (proj1 Hc)].
Qed.

Lemma then_step_up {B} code scope refusal (k : M St B) :
  raises refusal → preserves J refusal →
  (∀ s, on_db asking s → code_accepted scope (committed (as_start x)) (as_actor x) code → J (k s).2) →
  ∀ s, on_db asking s → J ((_ <- step_up_or (as_actor x) code scope refusal ;; k) s).2.
Proof.
  intros Hr Hp Hk s Hs. apply then_ok; [apply backed_step_up; [done|exact (proj1 Hs)]|].
  intros [] s1 E Hs1. pose proof (step_up_ok _ _ _ _ _ _ _ Hr E (proj2 Hs)) as [Hu Hc].
  apply Hk; [by split|]. destruct Hs as [_ [_ Hw]]. destruct Hc as (s0 & rest). exists s0. by rewrite <- Hw.
Qed.

Lemma then_create {B} ask reason (k : Z → M St B) s :
  as_env x = H → x ∈ served → asks (as_call x) (committed (as_start x)) = Some ask →
  code_accepted (ak_scope ask) (committed (as_start x)) (as_actor x) (ak_code ask) →
  (∀ id, preserves J (k id)) → on_db asking s →
  J ((id <- _create_admin_action_request (as_actor x) (ak_operation ask) (ak_target_type ask) (ak_target_id ask)
       (ak_payload ask) reason ;; k id) s).2.
Proof.
  intros HE Hx Hask Hcode Hk [Hs Hu]. apply then_ok; [by apply backed_create|]. intros id s1 _ Hs1. by apply Hk.
Qed.

Ltac ask_step := apply then_asking; [solve_pres|intros ?].

Hypothesis HE : as_env x = H.
Hypothesis Hx : x ∈ served.

Lemma ask_lifecycle target action code s :
  as_call x = AskLifecycle target action code → on_db asking s →
  J (transition_staff_account_as_root_admin (as_actor x) target action code s).2.
Proof using HE Hx.
  intros Hc. revert s. unfold transition_staff_account_as_root_admin.
  assert (∀ s n s', _validate_staff_account_lifecycle_request (as_actor x) target action s = (Ok n, s') →
    n = casefold (strip action)) as Hn.
  { unfold _validate_staff_account_lifecycle_request. cbv zeta. intros s n s' E. repeat inv_bind E.
    unfold ret in E. by simplify_eq. }
  intros s Hs. pose proof (portal_validate_staff asking (as_actor x) target action s Hs) as Hv.
  unfold bind at 1. destruct (_validate_staff_account_lifecycle_request _ _ _ s) as [[n|e] s1] eqn:E;
    [|exact (proj1 Hv)]. apply Hn in E as ->. revert s1 Hv. apply then_step_up; [unfold refuse; solve_raises|solve_pres|].
  intros s1 Hs1 Hcode. eapply (then_create (mkAsk _ _ _ _ _ _)); try done; [by rewrite Hc|].
  intros id. apply (portal_answer (table_backed served)).
Qed.

Lemma ask_decision id status reason code s :
  as_call x = AskDecision id status reason code → on_db asking s →
  J (transition_manual_recovery_request_as_admin (as_actor x) id status reason code s).2.
Proof using HE Hx.
  intros Hc. revert s. unfold transition_manual_recovery_request_as_admin. cbv zeta. do 2 ask_step. ask_step.
  apply then_step_up; [unfold refuse; solve_raises|solve_pres|]. intros s1 Hs1 Hcode. revert s1 Hs1. ask_step.
  destruct (assoc _ MANUAL_RECOVERY_STATUS_OPERATION_TYPES) as [op|] eqn:Eop.
  - apply then_asking; [apply (portal_validate_transition asking)|intros ?]. intros s1 Hs1. eapply (then_create (mkAsk _ _ _ _ _ _)); try done.
    + rewrite Hc. cbn [asks]. cbv zeta. by rewrite Eop.
    + intros i. apply (portal_answer (table_backed served)).
  - intros s1 [Hs1 _]. match goal with |- J (?c s1).2 => assert (preserves J c) as Hk by solve_pres end.
    by apply Hk.
Qed.

Lemma ask_completion id reason code s :
  as_call x = AskCompletion id reason code → on_db asking s →
  J (complete_manual_recovery_request_as_admin (as_actor x) id reason code s).2.
Proof using HE Hx.
  intros Hc. revert s. unfold complete_manual_recovery_request_as_admin. cbv zeta. do 2 ask_step.
  apply then_step_up; [unfold refuse; solve_raises|solve_pres|]. intros s1 Hs1 Hcode. revert s1 Hs1. do 2 ask_step.
  intros s1 Hs1. eapply (then_create (mkAsk _ _ _ _ _ _)); try done; [by rewrite Hc|].
  intros i. apply (portal_answer (table_backed served)).
Qed.

Lemma ask_unlock target reason code s :
  as_call x = AskUnlock target reason code → on_db asking s →
  J (request_customer_security_unlock (as_actor x) target reason code s).2.
Proof using HE Hx.
  intros Hc. revert s. unfold request_customer_security_unlock, _assert_not_self_customer_action. cbv zeta. do 2 ask_step.
  intros s Hs. pose proof (portal_locked asking target (as_actor x) "customer_security_unlock_request" s Hs) as Hl.
  unfold bind at 1.
  destruct (_locked_customer_for_update target _ _ s) as [[t|e] s1] eqn:E; [|exact (proj1 Hl)].
  assert (users (committed (as_start x)) !! target = Some t) as Ht.
  { unfold _locked_customer_for_update, find_user, refuse in E. inv_bind E. unfold db_get, gets in E0.
    injection E0 as <- <-. destruct Hs as [_ [_ Hw]]. rewrite <- Hw. cbv zeta in E.
    destruct (users (working s) !! target) as [t'|]; [|by repeat inv_bind E].
    destruct (_ && _); [unfold ret in E; by simplify_eq|by repeat inv_bind E]. }
  revert s1 E Hl. intros s1 _ Hl. revert s1 Hl. ask_step. apply then_step_up; [unfold refuse; solve_raises|solve_pres|].
  intros s1 Hs1 Hcode. eapply (then_create (mkAsk _ _ _ _ _ _)); try done.
  - rewrite Hc. simpl. by rewrite Ht.
  - intros i. unfold action_ref. solve_pres.
Qed.
End Asking.

(** *** Histories *)

Lemma admin_call_keeps x served :
  on_db (table_backed served) (as_start x) → working (as_start x) = committed (as_start x) →
  on_db (table_backed (served ++ [x])) (after_call x).
Proof.
  intros Hs Hclean. pose proof (actions_later served x _ Hs) as Hl. unfold after_call.
  assert (x ∈ (served ++ [x])%list) as Hx by set_solver.
  assert (on_db (asking (served ++ [x]) x) (as_start x)) as Ha by (split; [done|by split; [|rewrite Hclean]]).
  assert (∀ A (c : M St A) P, on_db P (c (as_start x)).2 → on_db P ((_ <- c ;; ret tt) (as_start x)).2) as Hig.
  { intros A c P Hc. unfold bind. by destruct (c (as_start x)) as [[a|e] s1]. }
  destruct (as_call x) eqn:Ec; simpl; apply Hig.
  - by apply ask_lifecycle.
  - by apply ask_decision.
  - by apply ask_completion.
  - by apply ask_unlock.
  - by apply backed_approve.
  - by apply backed_reject.
  - by apply backed_cancel.
  - by apply backed_queue.
  - by apply backed_detail.
Qed.

Lemma actions_backed T served : actions T served → map_Forall (λ _, row_backed served) T.
Proof.
  induction 1 as [|T T' served _ IH Hsub|x served _ IH Hclean].
  - apply map_Forall_empty.
  - intros id r Hr. eapply IH, lookup_weaken; eauto.
  - apply (admin_call_keeps x served); [|done]. split; [done|by rewrite Hclean].
Qed.

(** ** What one administrator can change *)

Definition only_self (U : gmap Z User) (a : Z) (c w : Db) : Prop :=
  ∀ v, v ≠ a → users c !! v = U !! v ∧ users w !! v = U !! v.
#[local] Instance only_self_portal U a : portal_blind (only_self U a).
Proof.
  split; [split|]; intros *; intros Hp v Hv; destruct (Hp v Hv); by split.
Qed.

Section OnlySelf.
Context `{Env} (U : gmap Z User) (a : Z).
Notation keeps := (preserves (on_db (only_self U a))).

Lemma self_write f : (∀ d v, v ≠ a → users (f d) !! v = users d !! v) → keeps (db_write f).
Proof.
  intros Hf. apply pres_db_write. intros c w Hp v Hv. destruct (Hp v Hv). split; [done|]. by rewrite Hf.
Qed.
Hint Extern 2 (keeps (db_write _)) =>
  apply self_write; intros ? ? ?; simpl; rewrite ?lookup_alter_ne by done; reflexivity : pres.
Hint Extern 2 (keeps (update_action _ _)) => apply self_write; by intros ? ? ? : pres.
Hint Resolve pres_mark_fresh : pres.

Lemma self_clear sc p : keeps (clear_failures sc p).
Proof. unfold clear_failures, _load_counter. solve_pres. Qed.
Lemma self_clear_security sc : keeps (_clear_user_security_failures a sc).
Proof. unfold _clear_user_security_failures. solve_pres. Qed.
Lemma self_backoff sc p : keeps (Mfa._enforce_auth_backoff sc p).
Proof. unfold Mfa._enforce_auth_backoff, apply_exponential_backoff, _load_counter. cbv zeta. solve_pres. Qed.
Lemma self_record sc p w : keeps (record_failure sc p w).
Proof. apply pres_record_failure; [apply _|]. intros f c w' Hp v Hv. by apply Hp. Qed.
Lemma self_revoke u r c : keeps (revoke_all_sessions u r c).
Proof. apply pres_revoke_all. intros f c' w Hp v Hv. by apply Hp. Qed.
Hint Resolve self_clear self_clear_security self_backoff self_record self_revoke : pres.
Lemma self_security_failure sc r : keeps (_record_user_security_failure a sc r).
Proof. unfold _record_user_security_failure, open_security_counter, _lock_user_account. cbv zeta. solve_pres. Qed.
Lemma self_secret : keeps (_mfa_secret_for_user a).
Proof.
  unfold _mfa_secret_for_user, decrypt_mfa_secret, _decrypt_envelope, _unwrap_dek, _kek, _audit_mfa_crypto.
  cbv zeta. solve_pres.
Qed.
Hint Resolve self_security_failure self_secret : pres.
Lemma self_step_up c sc r : keeps r → keeps (step_up_or a c sc r).
Proof.
  intros Hr. unfold step_up_or, verify_admin_totp_step_up, _verify_totp_for_user, _verify_totp_for_user_outcome,
    _verify_totp_secret_for_user_outcome, track. cbv zeta. solve_pres.
Qed.
Hint Extern 1 (keeps (step_up_or _ _ _ _)) => apply self_step_up; solve_pres : pres.
Lemma self_create op tt_ ti p r : keeps (_create_admin_action_request a op tt_ ti p r).
Proof. unfold _create_admin_action_request. cbv zeta. solve_pres. Qed.
Lemma self_expire_if_stale id r b : keeps (_expire_admin_action_request_if_stale id r b).
Proof. unfold _expire_admin_action_request_if_stale. solve_pres. Qed.
Lemma self_expire_stale b : keeps (_expire_stale_admin_action_requests b).
Proof. unfold _expire_stale_admin_action_requests. solve_pres. Qed.
Hint Resolve self_create self_expire_if_stale self_expire_stale : pres.
Lemma self_pending id b : keeps (_pending_admin_action_request_or_error id b).
Proof. unfold _pending_admin_action_request_or_error, _admin_action_request_or_error. solve_pres. Qed.
Hint Resolve self_pending : pres.

(** Every call but an approval. *)
Lemma self_call r : (∀ id c, r ≠ Approve id c) → keeps (admin_act a r).
Proof.
  intros Hr. destruct r; simpl; [..|by destruct (Hr id code)| | | |];
    unfold transition_staff_account_as_root_admin, transition_manual_recovery_request_as_admin,
      complete_manual_recovery_request_as_admin, request_customer_security_unlock,
      _assert_not_self_customer_action,
      reject_admin_action_request_as_root_admin, cancel_admin_action_request_as_root_admin,
      admin_action_requests_for_admin, admin_action_request_detail_for_admin, _admin_action_request_or_error;
    cbv zeta; solve_pres.
  apply portal_dicts; [apply _|]. intros []. solve_pres.
Qed.

(** *** Approving *)

Lemma pending_ok id s r s' :
  _pending_admin_action_request_or_error id a s = (Ok r, s') →
  admin_action_requests (working s) !! id = Some r ∧ ar_status r = ADMIN_ACTION_PENDING_STATUS
  ∧ clock s < ar_expires_at r ∧ working s' = working s ∧ committed s' = committed s.
Proof.
  unfold _pending_admin_action_request_or_error, _admin_action_request_or_error. intros E. inv_bind E.
  inv_bind E0. unfold db_get, gets in E1. injection E1 as <- <-.
  destruct (admin_action_requests (working s) !! id) as [r'|]; [|done]. unfold ret in E0. injection E0 as <- <-.
  inv_bind E. inv_bind E. unfold ret in E. injection E as <- <-. split; [done|].
  apply guard_raises_inv in E1 as [Hp ->]; [|unfold refuse; solve_raises].
  apply negb_false_iff, bool_decide_eq_true in Hp. split; [done|].
  unfold _expire_admin_action_request_if_stale in E0. rewrite Hp in E0. simpl in E0.
  inv_bind E0. injection E as <- <-. destruct (_ <? _) eqn:El; [|by repeat inv_bind E0].
  unfold ret in E0. injection E0 as _ <-. apply Z.ltb_lt in El. split; [lia|done].
Qed.

Lemma signature_ok id r b s s' :
  _assert_admin_action_request_hmac_valid id r b s = (Ok tt, s') →
  s' = s ∧ _admin_action_request_hmac id r = Ok (ar_metadata_hmac r).
Proof.
  unfold _assert_admin_action_request_hmac_valid. intros E. inv_bind E. unfold lift in E0. injection E0 as Eh <-.
  apply guard_raises_inv in E as [Hb ->]; [|unfold refuse; solve_raises].
  apply negb_false_iff, bool_decide_eq_true in Hb as ->. done.
Qed.

Lemma eligible_ok id r b s s' :
  _assert_requester_still_eligible id r b s = (Ok tt, s') → s' = s ∧ root_of (working s) (ar_requester_id r).
Proof.
  unfold _assert_requester_still_eligible, find_user. intros E. inv_bind E. unfold db_get, gets in E0.
  injection E0 as <- <-. inv_bind E. unfold lift in E0. injection E0 as Ee <-.
  apply guard_raises_inv in E as [Hb ->]; [|unfold refuse; solve_raises].
  apply negb_false_iff in Hb as ->. done.
Qed.

(** What the checker has to show. *)
Definition checked (id : Z) (code : option string) (s : St) (r : AdminActionRequest) : Prop :=
  admin_action_requests (working s) !! id = Some r ∧ ar_status r = ADMIN_ACTION_PENDING_STATUS
  ∧ clock s < ar_expires_at r ∧ _admin_action_request_hmac id r = Ok (ar_metadata_hmac r)
  ∧ ar_requester_id r ≠ a ∧ root_of (working s) a ∧ root_of (working s) (ar_requester_id r)
  ∧ code_accepted ("admin_action_approve_" +:+ ar_operation_type r) (working s) a code.

Lemma then_either {A B} (K : St → Prop) (F : Prop) (c : M St A) (k : A → M St B) s :
  K (c s).2 → (∀ v s1, c s = (Ok v, s1) → K s1 → K (k v s1).2 ∨ F) → K (bind c k s).2 ∨ F.
Proof. intros Hc Hk. unfold bind. destruct (c s) as [[v|e] s1] eqn:E; [by apply Hk|by left]. Qed.

Lemma approve_checked id code s :
  on_db (only_self U a) s →
  on_db (only_self U a) (approve_admin_action_request_as_root_admin a id code s).2
  ∨ ∃ r, checked id code s r.
Proof.
  intros Hs. unfold approve_admin_action_request_as_root_admin. cbv zeta.
  apply then_either; [by apply (portal_require_root (only_self U a))|].
  intros [] s1 [-> Hroot]%require_root_ok _.
  apply then_either; [by apply self_pending|]. intros r s1 (Hr & Hst & Hexp & Hw & Hc)%pending_ok Hs1.
  apply then_either; [by apply (portal_signature (only_self U a))|]. intros [] s2 [-> Hsig]%signature_ok _.
  apply then_either; [by apply (portal_eligible (only_self U a))|]. intros [] s2 [-> Helig]%eligible_ok _.
  apply then_either.
  { match goal with |- on_db _ (?c s1).2 => assert (keeps c) as Hk by solve_pres end. by apply Hk. }
  intros [] s2 E _. apply guard_raises_inv in E as [Hne ->];
    [|unfold refuse_decision, refuse; solve_raises]. apply Z.eqb_neq in Hne.
  apply then_either.
  { match goal with |- on_db _ (?c s1).2 => assert (keeps c) as Hk by solve_pres end. by apply Hk. }
  intros [] s2 E _. right. exists r.
  apply step_up_inv in E as (secret & t1 & t2 & Hsec & Hv & _); [|unfold refuse_decision, refuse; solve_raises].
  apply valid_accepted in Hv as (step & Hacc). rewrite Hw in Helig. split_and!; try done.
  exists s1, secret, t1, t2, step. by rewrite Hw.
Qed.
End OnlySelf.
End AdminSafety.
Import AdminSafety Audit AdminAccess AdminActions.

(** C8: No administrator changes another account alone.  Along any history of
    calls to the portal, whatever a call of an administrator does and however it
    ends, either every other user's row is durably as it was, or the call is the
    approval of a signed, pending and unexpired request that a different
    administrator made earlier in the history, for that operation, target and
    payload, as an active root administrator and with an accepted authenticator
    code; the requester still is an active root administrator, and the approver
    is one whose own code was accepted for this approval. *)
Theorem four_eyes served x :
  actions (admin_action_requests (committed (as_start x))) served →
  working (as_start x) = committed (as_start x) →
  (∀ v, v ≠ as_actor x →
     users (committed (after_call x)) !! v = users (committed (as_start x)) !! v)
  ∨ ∃ id code r y, as_call x = Approve id code ∧ @checked (as_env x) (as_actor x) id code (as_start x) r
      ∧ y ∈ served ∧ requested y r ∧ as_actor y ≠ as_actor x.
Proof.
  intros Hh Hclean. apply actions_backed in Hh. set (s := as_start x) in *.
  assert (on_db (only_self (users (committed s)) (as_actor x)) s) as Hs
    by (intros v _; by rewrite Hclean).
  assert ((∃ id code, as_call x = Approve id code) ∨ ∀ id code, as_call x ≠ Approve id code)
    as [(id & code & Hc)|Hc] by (destruct (as_call x); naive_solver).
  - pose proof (@approve_checked (as_env x) _ _ id code s Hs) as [Hk|(r & Hr)].
    + left. unfold after_call. rewrite Hc. intros v Hv. simpl. fold s. unfold bind.
      destruct (approve_admin_action_request_as_root_admin _ _ _ s) as [[d|e] s']; by apply Hk.
    + right. pose proof Hr as (Hrow & _ & _ & _ & Hne & _). rewrite Hclean in Hrow.
      destruct (Hh id r Hrow) as (y & Hy & Hreq). exists id, code, r, y. split_and!; try done.
      destruct Hreq as (ask & _ & _ & _ & Ha & _). by rewrite <- Ha.
  - left. intros v Hv. apply (@self_call (as_env x) _ _ (as_call x)); [done|exact Hs|done].
Qed.

(** ** Witness: ruth asks to deactivate sam, rita approves *)

Definition serve_admin (actor : Z) (r : AdminCall) (s : St) : St :=
  let s' := (@admin_act Sample.sample_env actor r s).2 in set_working (committed s') s'.
Definition portal_start : St :=
  mkSt Sample.portal_db Sample.portal_db Sample.noon 0 ∅ (Some "sid-0") [] ∅ ∅.
Definition code_at (s : St) : option string := Some (@totp_at Sample.sample_env "SECRET" (clock s / US_SECOND)).
Definition ask_sam : AdminCall := AskLifecycle 5 " Deactivate" (code_at portal_start).
Definition asked_sam : St := serve_admin 3 ask_sam portal_start.
Definition deactivation : AdminServed :=
  mkAdminServed Sample.sample_env 4 (Approve 1 (code_at asked_sam)) asked_sam.

Lemma next_action actor r s served :
  actions (admin_action_requests (committed s)) served → working s = committed s →
  actions (admin_action_requests (committed (serve_admin actor r s)))
    (served ++ [mkAdminServed Sample.sample_env actor r s]).
Proof. intros Hs Hc. exact (actions_call (mkAdminServed Sample.sample_env actor r s) served Hs Hc). Qed.

Lemma four_eyes_witness :
  (u_account_status <$> users (committed (after_call deactivation)) !! 5) = Some "revoked"
  ∧ ∃ id code r y, as_call deactivation = Approve id code
      ∧ y ∈ [mkAdminServed Sample.sample_env 3 ask_sam portal_start] ∧ requested y r ∧ as_actor y ≠ 4.
Proof.
  assert ((u_account_status <$> users (committed (after_call deactivation)) !! 5) = Some "revoked") as Hdone
    by (vm_compute; reflexivity).
  split; [exact Hdone|].
  destruct (four_eyes [mkAdminServed Sample.sample_env 3 ask_sam portal_start] deactivation
    (next_action 3 ask_sam portal_start [] actions_none eq_refl) eq_refl) as [Hsame|(id & code & r & y & H1 & _ & H2 & H3 & H4)].
  - exfalso. assert (5 ≠ as_actor deactivation) as Hne by (intros E; discriminate E).
    assert ((u_account_status <$> users (committed (as_start deactivation)) !! 5) = Some "active") as Hwas
      by (vm_compute; reflexivity).
    discriminate (eq_trans (eq_sym Hdone) (eq_trans (f_equal (fmap u_account_status) (Hsame 5 Hne)) Hwas)).
  - exists id, code, r, y. exact (conj H1 (conj H2 (conj H3 H4))).
Defined.
