(* ===== verification/StaffInvites.v ===== *)
(** * Staff invites ([app/admin/services.py])

    A root administrator invites a workplace address; whoever holds the mailed
    link sets a password and an authenticator up, and the account becomes active
    once an authenticator code and a code mailed to the workplace address are
    presented in the browser session that started the acceptance.

    A row is changed in place and read again where the code goes on using the
    object.  [delete_user] is what [session.delete(user)] does when it is flushed:
    the object mapper clears or deletes the rows that refer to the user.  On
    PostgreSQL a trigger of the audit table, which the migrations install there
    only, refuses every update. *)

From S2P Require Import Prelude PyStr TimeModel Schema Runtime Sample Canonical Integrity AuditLog MfaCrypto.
From S2P Require Import Turnstile Passwords PasswordHistory SessionRisk BankingPolicy Notifications Sessions.
From S2P Require Import RateLimits Mfa Registration SignIn Account Profile AdminAccess.
From Stdlib Require Import Ascii.
Open Scope string_scope.
Open Scope Z_scope.

Module StaffInvites.
Import SessionHmac Audit MfaCrypto Passwords PasswordHistory SessionRisk Policy Notifications Sessions.
Import RateLimits Mfa Registration SignIn Account Profile AdminAccess.

Definition ACTIVE_INVITE_STATUSES : list string := ["pending"; "totp_pending"].
Definition INVITE_DELIVERY_STATUSES : list string := ["unconfirmed"; "queued"; "failed"].
Definition INVITE_FRESH_MFA_REQUIRED_ERROR : string :=
  "Fresh MFA verification is required. Wait for a new authenticator code " +:+ "before retrying this invite action.".
Definition INVITE_CREATE_ERROR : string := "Invite could not be created".
Definition INVITE_ACCEPTANCE_ERROR : string := "Invite acceptance failed".
Definition INVITE_TURNSTILE_ERROR : string := "Complete the security challenge before starting setup.".
Definition INVITE_DUPLICATE_IDENTITY_ERROR : string :=
  "Staff identity details could not be accepted. Ask a root admin to review the invite.".
Definition INVITE_WORKPLACE_DELIVERY_ERROR : string :=
  "Setup could not send the workplace verification code. Ask a root admin to reissue the invite or retry later.".
Definition FORBIDDEN_STAFF_INVITE_ACCEPTANCE_FIELDS : list string :=
  ["role"; "workplace_email"; "email"; "account_type"; "customer_user_id"; "is_admin"].
Definition STAFF_INVITE_NOT_FOUND_ERROR : string := "Invite not found".
Definition GENERIC_INVITE_ERROR : string := "Invite link is invalid or expired".
Definition GENERIC_WORKPLACE_VERIFICATION_ERROR : string := "Workplace verification failed".
Definition INVITE_INVALID_AUTHENTICATION_CODE_ERROR : string := "Invalid authentication code.".
Definition INVITE_ACCEPTANCE_SESSION_KEY : string := "staff_invite_acceptance_session".
Definition STAFF_INVITE_MAX_ACCEPTANCE_STARTS : Z := 3.
Definition STAFF_INVITE_MAX_VERIFY_ATTEMPTS : Z := 5.

(** ** Formats *)

(** [STAFF_USERNAME_RE], [FULL_NAME_RE] and the token pattern. *)
Definition username_char (c : ascii) : bool := is_alnum c || bool_decide (c ∈ chars "_.-").
Definition staff_username_format (text : string) : bool :=
  (3 <=? slen text)%nat && (slen text <=? 64)%nat && forallb username_char (chars text).
Definition full_name_format (text : string) : bool :=
  (1 <=? slen text)%nat && (slen text <=? 120)%nat
  && forallb (λ c, negb ((code c <? 32) || (code c =? 127) || bool_decide (c ∈ chars "<>"))) (chars text).
Definition token_format (text : string) : bool :=
  (32 <=? slen text)%nat && (slen text <=? 256)%nat && forallb (λ c, is_alnum c || bool_decide (c ∈ chars "_-")) (chars text).

Definition validate_full_name (full_name : string) : res string :=
  let text := strip full_name in
  if full_name_format text then Ok text else Raise (AuthError "Invalid full name" 400 None).
Definition validate_phone_number (phone_number : string) : res string :=
  let text := strip phone_number in
  if phone_format text then Ok text else Raise (AuthError "Invalid phone number" 400 None).

(** The exception's status code and its delay. *)
Definition exn_status (e : exn) : Z :=
  match e with AuthError _ status _ | FrozenAccountError _ status => status | _ => 0 end.
Definition exn_retry (e : exn) : option Z := match e with AuthError _ _ retry_after => retry_after | _ => None end.
Definition is_turnstile_error (e : exn) : bool := match e with TurnstileError _ => true | _ => false end.

(** The name taken from the part of the address before [@]. *)
Definition username_base (workplace_email : string) : string :=
  let local := (partition_at "@" workplace_email).1.1 in
  let dotted := (λ c, if username_char c then c else "."%char) <$> chars local in
  let is_dot c := bool_decide (c = "."%char) in
  let stripped := rev (drop_while is_dot (rev (drop_while is_dot dotted))) in
  let normalized := str_take 48 (of_chars stripped) in
  let base := "staff." +:+ (if nonempty normalized then normalized else "staff") in
  if (slen base <? 3)%nat then "staff.user" else base.
Definition suffixed (base : string) (suffix : Z) : string := str_take 56 base +:+ "." +:+ pad 2 suffix.

(** ** Rows *)

Definition _invite_acceptance_is_locked (invite : StaffInvite) : bool :=
  bool_decide (is_Some (si_acceptance_locked_at invite)) || bool_decide (is_Some (si_acceptance_verify_locked_at invite)).

Definition new_invite (token_hash workplace_email role : string) (created_by : Z) (setup_user : option Z)
    (now expires_at : Z) : StaffInvite :=
  mkStaffInvite token_hash workplace_email role "pending" "unconfirmed" created_by setup_user None None now expires_at
    None None None None None 0 None None None None None 0 None.

Definition clear_acceptance (i : StaffInvite) : StaffInvite :=
  set_si_acceptance_session_hash None (set_si_acceptance_started_at None (set_si_acceptance_start_count 0
    (set_si_acceptance_locked_at None (set_si_acceptance_verify_count 0 (set_si_acceptance_verify_locked_at None
      (set_si_workplace_verification_code_hmac None (set_si_workplace_verification_sent_at None
        (set_si_workplace_verification_expires_at None (set_si_workplace_verified_at None i))))))))).

(** A staff account in setup, with the column defaults of the model. *)
Definition new_staff_user (username email password_hash role full_name phone : string) (created_at updated_at : Z)
    : User :=
  mkUser username email None password_hash role "setup_pending" full_name (Some phone) None None None None created_at
    false None None None None false None None 0 PAYUP_DAILY_LIMIT_DEFAULT true true
    LOCAL_TRANSFER_DAILY_LIMIT_DEFAULT false 0 None None created_at updated_at None.

Definition public_invite (invite_id : Z) (invite : StaffInvite) : dict :=
  let delivery := casefold (strip (si_delivery_status invite)) in
  let locked_at := match si_acceptance_locked_at invite with
                   | Some t => Some t
                   | None => si_acceptance_verify_locked_at invite
                   end in
  [("id", JInt invite_id); ("workplace_email", JStr (si_workplace_email_normalized invite));
   ("role", JStr (si_role invite)); ("status", JStr (si_status invite));
   ("delivery_status", JStr (if str_in delivery INVITE_DELIVERY_STATUSES then delivery else "unconfirmed"));
   ("created_at", JStr (_utc_iso (si_created_at invite)));
   ("created_at_display", JStr (_utc_display (si_created_at invite)));
   ("expires_at", JStr (_utc_iso (si_expires_at invite)));
   ("expires_at_display", JStr (_utc_display (si_expires_at invite)));
   ("used_at", iso_or_null (si_used_at invite)); ("used_at_display", display_or_null (si_used_at invite));
   ("revoked_at", iso_or_null (si_revoked_at invite)); ("revoked_at_display", display_or_null (si_revoked_at invite));
   ("acceptance_start_count", JInt (si_acceptance_start_count invite));
   ("acceptance_verify_count", JInt (si_acceptance_verify_count invite));
   ("acceptance_locked", JBool (_invite_acceptance_is_locked invite));
   ("acceptance_locked_at", iso_or_null locked_at); ("acceptance_locked_at_display", display_or_null locked_at)].

Definition newest_invite (x y : Z * StaffInvite) : bool :=
  (si_created_at y.2 <? si_created_at x.2) || (si_created_at x.2 =? si_created_at y.2) && (y.1 <=? x.1).

(** *** Deleting a user *)

Definition any_row {V} (P : V → bool) (t : gmap Z V) : bool := negb (bool_decide (rows_where P t = [])).

(** Rows that must name a user, or that the mapper does not clear. *)
Definition still_referenced (id : Z) (d : Db) : bool :=
  any_row (λ r, prt_user_id r =? id) (password_reset_tokens d)
  || any_row (λ r, rc_user_id r =? id) (recovery_codes d)
  || any_row (λ r, ar_requester_id r =? id) (admin_action_requests d)
  || any_row (λ r, tr_user_id r =? id) (totp_replay_records d)
  || any_row (λ r, si_created_by_user_id r =? id) (staff_invites d)
  || any_row (λ r, (il_staff_user_id r =? id) || (il_customer_user_id r =? id)
                   || bool_decide (il_created_by_user_id r = Some id)) (person_identity_links d)
  || any_row (λ r, prx_user_id r =? id) (password_reset_transactions d)
  || any_row (λ r, (tx_sender_id r =? id) || (tx_recipient_id r =? id)) (transactions d)
  || any_row (λ r, cr_user_id r =? id) (registration_credits d)
  || any_row (λ r, cr_user_id r =? id) (topup_credits d)
  || any_row (λ r, tu_user_id r =? id) (topup_approval_requests d)
  || any_row (λ r, td_reporter_id r =? id) (transaction_disputes d)
  || any_row (λ r, st_user_id r =? id) (support_tickets d)
  || any_row (λ r, pt_user_id r =? id) (pending_transfers d)
  || any_row (λ r, (pp_user_id r =? id) || (pp_recipient_user_id r =? id)) (payup_pending_transfers d)
  || any_row (λ r, kd_user_id r =? id) (known_devices d).

Definition unless_user (id : Z) (o : option Z) : option Z := if bool_decide (o = Some id) then None else o.
Definition drop_rows {V} (P : V → bool) (t : gmap Z V) : gmap Z V := filter (λ kv, P kv.2 = false) t.

Definition forget_user (id : Z) (e : SecurityAuditEvent) : SecurityAuditEvent :=
  mkSecurityAuditEvent (ev_id e) (ev_event_type e) (ev_outcome e) (unless_user id (ev_user_id e)) (ev_ip_address e)
    (ev_user_agent e) (ev_correlation_id e) (ev_session_ref e) (ev_event_metadata e) (ev_previous_event_hash e)
    (ev_event_hash e) (ev_hash_algorithm e) (ev_created_at e).

Definition remove_user (id : Z) (d : Db) : Db :=
  upd_security_audit_events (fmap (forget_user id))
  (upd_users (delete id)
  (upd_password_history (drop_rows (λ r, ph_user_id r =? id))
  (upd_payees (drop_rows (λ r, py_user_id r =? id))
  (upd_public_transaction_idempotency (drop_rows (λ r, pi_user_id r =? id))
  (upd_manual_recovery_requests (fmap (λ r, set_mr_user_id (unless_user id (mr_user_id r)) r))
  (upd_admin_action_requests (fmap (λ r, set_ar_approver_id (unless_user id (ar_approver_id r)) r))
  (upd_server_side_sessions (fmap (λ r, set_ss_user_id (unless_user id (ss_user_id r)) r))
  (upd_auth_attempt_counters (fmap (λ r, set_ac_user_id (unless_user id (ac_user_id r)) r))
  (upd_staff_invites (fmap (λ r, set_si_setup_user_id (unless_user id (si_setup_user_id r))
     (set_si_used_by_user_id (unless_user id (si_used_by_user_id r))
       (set_si_revoked_by_user_id (unless_user id (si_revoked_by_user_id r)) r))))
  (upd_transaction_disputes (fmap (λ r, set_td_resolver_id (unless_user id (td_resolver_id r)) r))
  (upd_support_tickets (fmap (λ r, set_st_resolved_by_user_id (unless_user id (st_resolved_by_user_id r)) r))
   d))))))))))).

Definition names_user (id : Z) (d : Db) : bool :=
  existsb (λ e, bool_decide (ev_user_id e = Some id)) (security_audit_events d).

Section StaffInvites.
Context `{Env}.

Definition load_invite (invite_id : Z) : M St StaffInvite :=
  db_query (λ d, match staff_invites d !! invite_id with Some i => Ok i | None => Raise NoResultFound end).
Definition find_invite (invite_id : Z) : M St (option StaffInvite) := db_get (λ d, staff_invites d !! invite_id).
Definition update_invite (invite_id : Z) (f : StaffInvite → StaffInvite) : M St unit :=
  db_write (upd_staff_invites (alter f invite_id)).

Definition delete_user (id : Z) : M St unit :=
  _ <- db_query (λ d, if postgresql && names_user id d then Raise ProgrammingError
                      else if still_referenced id d then Raise IntegrityError
                      else Ok tt) ;;
  db_write (remove_user id).

Definition _invite_audit_metadata (invite_id : Z) : M St dict :=
  i <- load_invite invite_id ;;
  invite_ref <- ref_entry "invite_ref" "staff_invite" invite_id ;;
  email_ref <- lift (audit_reference "staff_workplace_email" (si_workplace_email_normalized i)) ;;
  ret [invite_ref; ("workplace_email_ref", jopt_str email_ref); ("target_role", JStr (si_role i));
       ("status", JStr (si_status i))].

(** An audited refusal about an invite. *)
Definition refuse_invite {A} (actor : option Z) (invite_id : Z) (event reason message : string) (status : Z) : M St A :=
  metadata <- _invite_audit_metadata invite_id ;;
  refuse actor event "blocked" (metadata ++ [("reason", JStr reason)])%list message status.

Definition invite_token_hash (token : string) : res string :=
  let token_text := strip token in
  if token_format token_text then active_hmac_hex ("staff-invite-token:" +:+ token_text) 64
  else Raise (AuthError GENERIC_INVITE_ERROR 401 None).

(** ** Creating and managing *)

Definition _require_staff_invite_step_up (actor : Z) (totp_code : option string) (scope event_type : string)
    : M St unit :=
  if negb (nonempty (or_empty totp_code)) then
    refuse (Some actor) event_type "failure" [("reason", JStr "missing_totp_step_up")]
      INVITE_FRESH_MFA_REQUIRED_ERROR 403
  else
    valid <- try_except (_verify_totp_for_user actor (or_empty totp_code) scope None true) is_auth_error
      (λ e, _ <- audit_event event_type "blocked" (Some actor)
                   [("reason", JStr "totp_backoff");
                    ("retry_after", match exn_retry e with Some n => JInt n | None => JNull end)] ;;
            raise (AuthError INVITE_FRESH_MFA_REQUIRED_ERROR (exn_status e) (exn_retry e))) ;;
    guard (negb valid)
      (refuse (Some actor) event_type "failure" [("reason", JStr "invalid_totp_step_up")]
         INVITE_FRESH_MFA_REQUIRED_ERROR 403).

(** [if not is_root_admin(actor)], with or without an audit event. *)
Definition root_admin_or (actor : Z) (refusal : M St unit) : M St unit :=
  user <- find_user actor ;;
  root <- lift (is_root_admin user) ;;
  guard (negb root) refusal.

Definition _reject_root_admin_allowlist_invite_target (workplace_email : string) (actor : Z) (event_type : string)
    : M St unit :=
  emails <- lift _root_admin_emails ;;
  guard (str_in (casefold workplace_email) emails)
    (email_ref <- lift (audit_reference "staff_workplace_email" workplace_email) ;;
     refuse (Some actor) event_type "blocked"
       [("reason", JStr "root_admin_allowlist_target"); ("workplace_email_ref", jopt_str email_ref)]
       INVITE_CREATE_ERROR 400).

Definition _reject_existing_staff_identity (workplace_email : string) : M St unit :=
  existing <- db_query (λ d, one_or_none (λ u, bool_decide (casefold (u_email u) = casefold workplace_email)
                                               && str_in (u_account_type u) STAFF_ACCOUNT_TYPES) (users d)) ;;
  guard (bool_decide (is_Some existing)) (raise (AuthError INVITE_CREATE_ERROR 400 None)).

Definition is_open_invite (now : Z) (i : StaffInvite) : bool :=
  str_in (si_status i) ACTIVE_INVITE_STATUSES && bool_decide (si_revoked_at i = None)
  && bool_decide (si_used_at i = None) && (now <? si_expires_at i).
Definition _reject_active_invite (workplace_email : string) : M St unit :=
  now <- now_utc ;;
  existing <- db_query (λ d, one_or_none (λ i, is_open_invite now i
      && bool_decide (casefold (si_workplace_email_normalized i) = casefold workplace_email)) (staff_invites d)) ;;
  guard (bool_decide (is_Some existing)) (raise (AuthError INVITE_CREATE_ERROR 400 None)).

Definition _send_invite_email (invite_id : Z) (invite_url : string) : M St unit :=
  i <- load_invite invite_id ;;
  send_security_email (si_workplace_email_normalized i) "SITBank staff access invite"
    ("You have been invited to set up separate SITBank staff access." +:+ newline +:+ newline
       +:+ "Open this link to continue: " +:+ invite_url +:+ newline +:+ newline
       +:+ "This invite expires in 24 hours. You will set your own password and "
       +:+ "must enroll an authenticator app before staff access is activated. "
       +:+ "This staff identity is separate from any customer banking account.").

Definition _deliver_fresh_invite_email (invite_id actor : Z) (token : string) : M St unit :=
  let invite_url := url_for_token "admin.invite_accept_info" token in
  _ <- try_except (_send_invite_email invite_id invite_url) any_exn
    (λ _, now <- now_utc ;;
          _ <- update_invite invite_id (λ i, set_si_status "revoked" (set_si_delivery_status "failed"
                 (set_si_revoked_at (Some now) (set_si_revoked_by_user_id (Some actor) i)))) ;;
          metadata <- _invite_audit_metadata invite_id ;;
          _ <- audit_event "staff_invite_email" "failure" (Some actor)
                 (metadata ++ [("reason", JStr "email_delivery_failed")])%list ;;
          _ <- commit ;;
          raise (AuthError "Invite could not be sent" 503 None)) ;;
  _ <- update_invite invite_id (set_si_delivery_status "queued") ;;
  metadata <- _invite_audit_metadata invite_id ;;
  _ <- audit_event "staff_invite_email" "queued" (Some actor) metadata ;;
  commit.

(** The row of a new invite, recorded and committed; its id and token. *)
Definition store_invite (actor : Z) (workplace_email role : string) (setup_user : option Z)
    (success_event failure_event : string) (extra : dict) : M St (Z * string) :=
  token <- fresh token_urlsafe ;;
  now <- now_utc ;;
  token_hash <- lift (invite_token_hash token) ;;
  ttl <- lift (config_int "STAFF_INVITE_TTL_SECONDS") ;;
  invite_id <- db_get (λ d, next_id (staff_invites d)) ;;
  _ <- db_write (upd_staff_invites (<[invite_id := new_invite token_hash workplace_email role actor setup_user now
         (now + ttl * US_SECOND)]>)) ;;
  _ <- try_except
    (_ <- flush ;;
     metadata <- _invite_audit_metadata invite_id ;;
     _ <- audit_event_required success_event "success" (Some actor) (metadata ++ extra)%list ;;
     commit) is_integrity_error
    (λ _, _ <- rollback ;;
          refuse (Some actor) failure_event "failure" [("reason", JStr "integrity_error")] INVITE_CREATE_ERROR 400) ;;
  ret (invite_id, token).

(** [normalize_workplace_email], audited when the address is refused. *)
Definition invited_address (workplace_email : string) (actor : Z) (event : string) : M St string :=
  try_except (lift (normalize_workplace_email workplace_email)) is_auth_error
    (λ e, _ <- audit_event event "blocked" (Some actor) [("reason", JStr "email_policy")] ;; raise e).

Definition invite_answer (message : string) (invite_id : Z) : M St dict :=
  i <- load_invite invite_id ;;
  ret [("message", JStr message); ("invite", JObj (public_invite invite_id i))].

Definition create_staff_invite (actor : Z) (workplace_email role : string) (totp_code : option string) : M St dict :=
  let event := "staff_invite_create" in
  _ <- root_admin_or actor (refuse (Some actor) event "blocked" [("reason", JStr "not_root_admin")] "Forbidden" 403) ;;
  normalized_workplace <- invited_address workplace_email actor event ;;
  let normalized_role := casefold (strip role) in
  _ <- guard (negb (str_in normalized_role INVITABLE_ROLES))
         (refuse (Some actor) event "failure" [("reason", JStr "invalid_role")] "Invalid invite role" 400) ;;
  _ <- guard (bool_decide (normalized_role = ACCOUNT_ROOT_ADMIN)) (raise (AuthError "Invalid invite role" 400 None)) ;;
  _ <- _require_staff_invite_step_up actor totp_code event event ;;
  _ <- _reject_root_admin_allowlist_invite_target normalized_workplace actor event ;;
  _ <- _reject_existing_staff_identity normalized_workplace ;;
  _ <- _reject_active_invite normalized_workplace ;;
  created <- store_invite actor normalized_workplace normalized_role None "staff_invite_created" event [] ;;
  _ <- _deliver_fresh_invite_email created.1 actor created.2 ;;
  invite_answer "Invite created" created.1.

Definition resend_staff_setup_invite (actor target_user_id : Z) (totp_code : option string) : M St dict :=
  let event := "staff_invite_resend" in
  _ <- root_admin_or actor (refuse (Some actor) event "blocked" [("reason", JStr "not_root_admin")] "Forbidden" 403) ;;
  found <- find_user target_user_id ;;
  _ <- guard (bool_decide (is_Some found) && (target_user_id =? actor))
         (refuse (Some actor) event "blocked" [("reason", JStr "self_management_denied")] "Forbidden" 403) ;;
  let not_resendable {A} : M St A :=
    refuse (Some actor) event "blocked" [("reason", JStr "target_not_resendable")] "Staff account not found" 404 in
  target <- match found with
            | Some u => if str_in (u_account_type u) ADMIN_ACCOUNT_MANAGED_TYPES
                           && bool_decide (u_account_status u = "setup_pending") then ret u
                        else not_resendable
            | None => not_resendable
            end ;;
  normalized_workplace <- invited_address (u_email target) actor event ;;
  _ <- _require_staff_invite_step_up actor totp_code event event ;;
  _ <- _reject_root_admin_allowlist_invite_target normalized_workplace actor event ;;
  _ <- _reject_active_invite normalized_workplace ;;
  target_ref <- ref_entry "target_staff_ref" "staff_user" target_user_id ;;
  created <- store_invite actor normalized_workplace (u_account_type target) (Some target_user_id)
               "staff_invite_resent" event [target_ref] ;;
  _ <- _deliver_fresh_invite_email created.1 actor created.2 ;;
  invite_answer "Setup invite resent" created.1.

Definition public_invites_for_root_admin : M St (list dict) :=
  db_get (λ d, (λ '(id, i), public_invite id i) <$> sort_by newest_invite (map_to_list (staff_invites d))).

(** The guards shared by what a root administrator does with an open invite. *)
Definition open_invite_for_root_admin (actor invite_id : Z) (totp_code : option string) (scope event_type : string)
    : M St unit :=
  _ <- root_admin_or actor (raise (AuthError "Forbidden" 403 None)) ;;
  _ <- _require_staff_invite_step_up actor totp_code scope event_type ;;
  found <- find_invite invite_id ;;
  guard (negb (match found with Some i => str_in (si_status i) ACTIVE_INVITE_STATUSES | None => false end))
    (raise (AuthError STAFF_INVITE_NOT_FOUND_ERROR 404 None)).

Definition revoke_staff_invite (actor invite_id : Z) (totp_code : option string) : M St dict :=
  _ <- open_invite_for_root_admin actor invite_id totp_code "staff_invite_revoke" "staff_invite_revoked" ;;
  now <- now_utc ;;
  _ <- update_invite invite_id (λ i, set_si_status "revoked" (set_si_revoked_at (Some now)
         (set_si_revoked_by_user_id (Some actor) i))) ;;
  metadata <- _invite_audit_metadata invite_id ;;
  _ <- audit_event_required "staff_invite_revoked" "success" (Some actor) metadata ;;
  _ <- commit ;;
  invite_answer "Invite revoked" invite_id.

Definition _clear_invite_acceptance_state (invite_id : Z) : M St unit :=
  _ <- update_invite invite_id clear_acceptance ;;
  _ <- session_pop INVITE_ACCEPTANCE_SESSION_KEY ;;
  ret tt.

(** [db.session.get(User, invite.setup_user_id) if invite.setup_user_id else None]. *)
Definition setup_user_of (i : StaffInvite) : M St (option (Z * User)) :=
  match si_setup_user_id i with
  | Some id => if id =? 0 then ret None else u <- find_user id ;; ret (pair id <$> u)
  | None => ret None
  end.

(** Returns the setup user the session will delete at the next flush. *)
Definition _reset_active_invite_acceptance_for_root_action (invite_id actor : Z) (event_type : string)
    : M St (option Z) :=
  i <- load_invite invite_id ;;
  setup_user <- setup_user_of i ;;
  deleted <- match setup_user with
    | Some (id, u) =>
        _ <- guard (negb (bool_decide (u_account_status u = "setup_pending"))
                    || negb (bool_decide (casefold (u_email u) = casefold (si_workplace_email_normalized i))))
               (refuse_invite (Some actor) invite_id event_type "setup_user_not_resettable" GENERIC_INVITE_ERROR 409) ;;
        _ <- update_invite invite_id (set_si_setup_user_id None) ;;
        _ <- flush ;;
        ret (Some id)
    | None => ret None
    end ;;
  _ <- _clear_invite_acceptance_state invite_id ;;
  ret deleted.
Definition flush_deleted (deleted : option Z) : M St unit :=
  match deleted with Some id => delete_user id | None => ret tt end.

Definition reissue_staff_invite (actor invite_id : Z) (totp_code : option string) : M St dict :=
  let event := "staff_invite_reissued" in
  _ <- open_invite_for_root_admin actor invite_id totp_code "staff_invite_reissue" event ;;
  deleted <- _reset_active_invite_acceptance_for_root_action invite_id actor event ;;
  token <- fresh token_urlsafe ;;
  now <- now_utc ;;
  token_hash <- lift (invite_token_hash token) ;;
  ttl <- lift (config_int "STAFF_INVITE_TTL_SECONDS") ;;
  _ <- update_invite invite_id (λ i, set_si_token_hash token_hash (set_si_status "pending"
         (set_si_delivery_status "unconfirmed" (set_si_expires_at (now + ttl * US_SECOND)
           (set_si_last_attempt_at (Some now) (set_si_revoked_at None (set_si_revoked_by_user_id None i))))))) ;;
  _ <- flush_deleted deleted ;;
  _ <- flush ;;
  let invite_url := url_for_token "admin.invite_accept_info" token in
  _ <- try_except (_send_invite_email invite_id invite_url) any_exn
    (λ _, metadata <- _invite_audit_metadata invite_id ;;
          _ <- rollback ;;
          _ <- update_invite invite_id (set_si_delivery_status "failed") ;;
          _ <- audit_event "staff_invite_email" "failure" (Some actor)
                 (metadata ++ [("reason", JStr "email_delivery_failed")])%list ;;
          _ <- commit ;;
          raise (AuthError "Invite could not be sent" 503 None)) ;;
  _ <- update_invite invite_id (set_si_delivery_status "queued") ;;
  metadata <- _invite_audit_metadata invite_id ;;
  _ <- audit_event_required event "success" (Some actor) metadata ;;
  _ <- audit_event "staff_invite_email" "queued" (Some actor) metadata ;;
  _ <- commit ;;
  invite_answer "Invite reissued" invite_id.

Definition reset_staff_invite_acceptance (actor invite_id : Z) (totp_code : option string) : M St dict :=
  let event := "staff_invite_accept_reset" in
  _ <- open_invite_for_root_admin actor invite_id totp_code event event ;;
  deleted <- _reset_active_invite_acceptance_for_root_action invite_id actor event ;;
  now <- now_utc ;;
  _ <- update_invite invite_id (λ i, set_si_status "pending" (set_si_last_attempt_at (Some now) i)) ;;
  metadata <- _invite_audit_metadata invite_id ;;
  _ <- audit_event_required event "success" (Some actor) metadata ;;
  _ <- flush_deleted deleted ;;
  _ <- commit ;;
  invite_answer "Invite acceptance reset" invite_id.

(** ** Accepting *)

Definition _consume_invite_probe_limit (token : string) : M St unit :=
  try_except
    (_ <- consume_durable_rate_limit "staff_invite_probe" (str_or request_remote_addr "unknown" +:+ ":" +:+ token)
            10 (15 * 60) ;;
     ret tt) is_durable_limit
    (λ e, _ <- audit_event "staff_invite_accept" "blocked" None [("reason", JStr "durable_rate_limit")] ;;
          raise (AuthError "Too many attempts. Please try again later." 429 (Some (limit_retry e)))).

Definition _audit_invalid_invite_attempt (reason : string) (enabled : bool) : M St unit :=
  guard enabled (audit_event "staff_invite_invalid_attempt" "failure" None [("reason", JStr reason)]).

Definition invalid_invite {A} (reason : string) (audit_failures : bool) : M St A :=
  _ <- _audit_invalid_invite_attempt reason audit_failures ;;
  raise (AuthError GENERIC_INVITE_ERROR 401 None).

Definition _active_invite_by_token (token : string) (audit_failures : bool) : M St Z :=
  token_hash <- try_except (lift (invite_token_hash token)) is_auth_error
    (λ e, _ <- _audit_invalid_invite_attempt "malformed_token" audit_failures ;; raise e) ;;
  found <- db_query (λ d, one_or_none (λ i, bool_decide (si_token_hash i = token_hash)) (staff_invites d)) ;;
  now <- now_utc ;;
  match found with
  | None => invalid_invite "missing" audit_failures
  | Some (invite_id, invite) =>
      _ <- update_invite invite_id (set_si_last_attempt_at (Some now)) ;;
      if si_expires_at invite <=? now then
        _ <- update_invite invite_id (set_si_status "expired") ;;
        _ <- commit ;;
        metadata <- _invite_audit_metadata invite_id ;;
        _ <- audit_event "staff_invite_expired" "expired" None metadata ;;
        raise (AuthError GENERIC_INVITE_ERROR 401 None)
      else if bool_decide (is_Some (si_revoked_at invite)) || bool_decide (si_status invite = "revoked")
      then invalid_invite "revoked" audit_failures
      else if bool_decide (is_Some (si_used_at invite)) || bool_decide (si_status invite = "accepted")
      then invalid_invite "used" audit_failures
      else if negb (str_in (si_status invite) ACTIVE_INVITE_STATUSES)
      then raise (AuthError GENERIC_INVITE_ERROR 401 None)
      else ret invite_id
  end.

Definition _ensure_invite_identity_policy (invite_id : Z) (event_type : string) : M St unit :=
  i <- load_invite invite_id ;;
  _ <- try_except (lift (normalize_workplace_email (si_workplace_email_normalized i))) is_auth_error
         (λ _, refuse_invite None invite_id event_type "email_policy" GENERIC_INVITE_ERROR 401) ;;
  ret tt.

Definition _ensure_not_locked (invite_id : Z) (event message : string) (status : Z) : M St unit :=
  i <- load_invite invite_id ;;
  guard (_invite_acceptance_is_locked i) (refuse_invite None invite_id event "acceptance_locked" message status).

Definition invite_info (token : string) : M St dict :=
  _ <- _consume_invite_probe_limit token ;;
  invite_id <- _active_invite_by_token token true ;;
  _ <- _ensure_invite_identity_policy invite_id "staff_invite_info" ;;
  _ <- _ensure_not_locked invite_id "staff_invite_info" GENERIC_INVITE_ERROR 401 ;;
  ret [("message", JStr "Invite can be accepted")].

Definition _reject_forged_invite_fields (request_fields : list string) : M St unit :=
  let submitted_fields := strip <$> request_fields in
  let forged := sort_by str_leb (List.filter (λ f, str_in f submitted_fields) FORBIDDEN_STAFF_INVITE_ACCEPTANCE_FIELDS) in
  guard (negb (bool_decide (forged = [])))
    (refuse None "staff_invite_accept" "failure"
       [("reason", JStr "forged_fields"); ("fields", JList (JStr <$> forged))] "Invalid request" 400).

Definition _staff_invite_mfa_binding (invite_id : Z) : res string :=
  active_hmac_hex ("staff-invite-mfa:" +:+ pretty invite_id) 64.

Definition _invite_acceptance_session_hash (invite_id : Z) (create : bool) : M St string :=
  stored <- session_get INVITE_ACCEPTANCE_SESSION_KEY ;;
  raw_value <- match stored with
    | Some (JStr raw) => if (32 <=? slen raw)%nat then ret (Some raw) else ret None
    | _ => ret None
    end ;;
  let binding raw := lift (active_hmac_hex ("staff-invite-acceptance-session:" +:+ pretty invite_id +:+ ":" +:+ raw) 64) in
  match raw_value with
  | Some raw => binding raw
  | None =>
      if negb create then ret ""
      else
        raw <- fresh token_urlsafe ;;
        _ <- session_put INVITE_ACCEPTANCE_SESSION_KEY (JStr raw) ;;
        _ <- session_put "_permanent" (JBool true) ;;
        binding raw
  end.

Definition _ensure_invite_acceptance_session (invite_id : Z) (session_hash : string) : M St unit :=
  i <- load_invite invite_id ;;
  let bound := or_empty (si_acceptance_session_hash i) in
  _ <- guard (negb (nonempty bound))
         (refuse_invite None invite_id "staff_invite_accept" "session_binding_missing" GENERIC_INVITE_ERROR 401) ;;
  guard (negb (nonempty session_hash) || negb (bool_decide (bound = session_hash)))
    (refuse_invite None invite_id "staff_invite_accept" "session_mismatch" GENERIC_INVITE_ERROR 401).

Definition _ensure_invite_acceptance_can_start (invite_id : Z) (session_hash : string) : M St unit :=
  _ <- _ensure_not_locked invite_id "staff_invite_accept" INVITE_ACCEPTANCE_ERROR 429 ;;
  i <- load_invite invite_id ;;
  _ <- guard (nonempty (or_empty (si_acceptance_session_hash i)))
         (_ensure_invite_acceptance_session invite_id session_hash) ;;
  guard (STAFF_INVITE_MAX_ACCEPTANCE_STARTS <=? si_acceptance_start_count i)
    (now <- now_utc ;;
     _ <- update_invite invite_id (set_si_acceptance_locked_at (Some now)) ;;
     metadata <- _invite_audit_metadata invite_id ;;
     _ <- audit_event "staff_invite_accept" "blocked" None (metadata ++ [("reason", JStr "restart_limit")])%list ;;
     _ <- commit ;;
     raise (AuthError INVITE_ACCEPTANCE_ERROR 429 None)).

(** A detail of the form that is refused. *)
Definition refuse_detail {A} (reason : string) (e : exn) : M St A :=
  _ <- audit_event "staff_invite_accept" "failure" None [("reason", JStr reason)] ;; raise e.

Definition _validate_invite_acceptance_start_details (full_name phone_number password confirm_password : string)
    : M St (string * string) :=
  name <- try_except (lift (validate_full_name full_name)) is_auth_error (refuse_detail "invalid_full_name") ;;
  phone <- try_except (lift (validate_phone_number phone_number)) is_auth_error (refuse_detail "invalid_phone") ;;
  _ <- guard (negb (bool_decide (password = confirm_password)))
         (refuse_detail "password_mismatch" (AuthError "Passwords must match" 400 None)) ;;
  _ <- try_except (validate_password_policy password) is_policy_error
         (λ e, refuse_detail "password_policy" (AuthError (policy_message e) 400 None)) ;;
  ret (name, phone).

Definition _reject_duplicate_staff_signup (workplace_email phone_number : string) : M St unit :=
  existing <- db_query (λ d, one_or_none (λ u, bool_decide (casefold (u_email u) = casefold workplace_email)
                                               || bool_decide (u_phone_number u = Some phone_number)) (users d)) ;;
  guard (bool_decide (is_Some existing)) (raise (AuthError INVITE_ACCEPTANCE_ERROR 400 None)).

Definition username_used (candidate : string) (d : Db) : res bool :=
  rbind (one_or_none (λ u, bool_decide (casefold (u_username u) = casefold candidate)) (users d))
    (λ found, Ok (bool_decide (is_Some found))).

(** The first candidate that no account has: [None] when the fuel runs out. *)
Fixpoint free_username (fuel : nat) (base candidate : string) (suffix : Z) (d : Db) : res (option string) :=
  rbind (username_used candidate d) (λ used,
    if (used : bool) then
      match fuel with
      | O => Ok None
      | S fuel => free_username fuel base (suffixed base (suffix + 1)) (suffix + 1) d
      end
    else Ok (Some candidate)).

(** The loop ends within as many rounds as there are accounts. *)
Definition _staff_username (workplace_email : string) : M St string :=
  let base := username_base workplace_email in
  found <- db_query (λ d, free_username (size (users d)) base (str_take 64 base) 0 d) ;;
  let candidate := or_empty found in
  if staff_username_format candidate then ret candidate
  else token <- fresh urandom_hex ;; ret ("staff." +:+ token).

Definition _workplace_code_hmac (invite : StaffInvite) (code : string) : res string :=
  active_hmac_hex ("staff-workplace-verification:" +:+ si_token_hash invite +:+ ":"
    +:+ si_workplace_email_normalized invite +:+ ":" +:+ code) 64.

Definition _send_workplace_verification (invite_id : Z) : M St unit :=
  number <- fresh (λ n, randbelow n 1000000) ;;
  let code := pad 6 number in
  now <- now_utc ;;
  i <- load_invite invite_id ;;
  code_hmac <- lift (_workplace_code_hmac i code) ;;
  ttl <- lift (config_int "STAFF_WORKPLACE_VERIFICATION_TTL_SECONDS") ;;
  _ <- update_invite invite_id (λ i, set_si_workplace_verification_code_hmac (Some code_hmac)
         (set_si_workplace_verification_sent_at (Some now)
           (set_si_workplace_verification_expires_at (Some (now + ttl * US_SECOND)) i))) ;;
  send_security_email (si_workplace_email_normalized i) "SITBank workplace email verification code"
    ("Use this code to verify your SITBank workplace email for staff access:" +:+ newline +:+ newline +:+ code
       +:+ newline +:+ newline +:+ "This code expires shortly. Staff access is separate from customer banking access.").

Definition _verify_workplace_code (invite_id : Z) (code : string) : M St bool :=
  let code_text := strip code in
  i <- load_invite invite_id ;;
  if negb (six_digits code_text) then ret false
  else
    match si_workplace_verification_code_hmac i, si_workplace_verification_expires_at i with
    | Some expected, Some expires_at =>
        if negb (nonempty expected) then ret false
        else
          now <- now_utc ;;
          if expires_at <=? now then ret false
          else
            submitted <- lift (_workplace_code_hmac i code_text) ;;
            ret (bool_decide (expected = submitted))
    | _, _ => ret false
    end.

Definition _clear_failed_invite_acceptance_start (invite_id : Z) (setup_user_id : option Z) : M St unit :=
  match setup_user_id with
  | None => ret tt
  | Some created =>
      found <- find_invite invite_id ;;
      match found with
      | None => ret tt
      | Some i =>
          deleted <- (if bool_decide (si_setup_user_id i = Some created) then
                        setup_user <- find_user created ;;
                        _ <- update_invite invite_id (set_si_setup_user_id None) ;;
                        ret (match setup_user with
                             | Some u => if bool_decide (u_account_status u = "setup_pending") then Some created else None
                             | None => None
                             end)
                      else ret None) ;;
          _ <- update_invite invite_id (set_si_status "pending") ;;
          _ <- _clear_invite_acceptance_state invite_id ;;
          _ <- flush_deleted deleted ;;
          flush
      end
  end.

(** The setup account of the acceptance and, when it is new, its id again. *)
Definition setup_account (invite_id : Z) (session_hash name phone password : string) : M St (Z * option Z) :=
  i <- load_invite invite_id ;;
  existing <- setup_user_of i ;;
  match existing with
  | None =>
      _ <- try_except (_reject_duplicate_staff_signup (si_workplace_email_normalized i) phone) is_auth_error
             (λ e, refuse_detail "duplicate_identity" (AuthError INVITE_DUPLICATE_IDENTITY_ERROR (exn_status e) None)) ;;
      username <- _staff_username (si_workplace_email_normalized i) ;;
      password_hash <- hash_password password ;;
      changed_at <- now_utc ;;
      created_at <- now_utc ;;
      updated_at <- now_utc ;;
      user_id <- db_get (λ d, next_id (users d)) ;;
      _ <- db_write (upd_users (<[user_id := set_u_password_changed_at changed_at
             (new_staff_user username (si_workplace_email_normalized i) password_hash (si_role i) name phone
                created_at updated_at)]>)) ;;
      _ <- flush ;;
      _ <- update_invite invite_id (set_si_setup_user_id (Some user_id)) ;;
      ret (user_id, Some user_id)
  | Some (user_id, u) =>
      _ <- guard (nonempty (or_empty (si_acceptance_session_hash i)))
             (_ensure_invite_acceptance_session invite_id session_hash) ;;
      _ <- guard (negb (bool_decide (u_account_status u = "setup_pending"))
                  || negb (bool_decide (u_account_type u = si_role i)))
             (raise (AuthError GENERIC_INVITE_ERROR 401 None)) ;;
      _ <- db_write (set_user user_id (λ u, set_u_phone_number (Some phone) (set_u_full_name name u))) ;;
      _ <- replace_user_password user_id password None true ;;
      _ <- db_write (set_user user_id (set_u_staff_personal_email None)) ;;
      ret (user_id, None)
  end.

Definition start_invite_acceptance (token full_name phone_number password confirm_password : string)
    (turnstile_token : option string) (request_fields : list string) : M St (StaffInvite * MfaSetup) :=
  _ <- _consume_invite_probe_limit token ;;
  _ <- _reject_forged_invite_fields request_fields ;;
  _ <- try_except (Turnstile.require_turnstile "admin_invite_accept" turnstile_token) is_turnstile_error
         (λ _, refuse None "staff_invite_accept" "failure" [("reason", JStr "turnstile_failed")]
                 INVITE_TURNSTILE_ERROR 400) ;;
  invite_id <- _active_invite_by_token token true ;;
  _ <- _ensure_invite_identity_policy invite_id "staff_invite_accept" ;;
  session_hash <- _invite_acceptance_session_hash invite_id true ;;
  _ <- _ensure_invite_acceptance_can_start invite_id session_hash ;;
  details <- _validate_invite_acceptance_start_details full_name phone_number password confirm_password ;;
  account <- setup_account invite_id session_hash details.1 details.2 password ;;
  let user_id := account.1 in
  secret <- fresh random_base32 ;;
  sealed <- encrypt_mfa_secret secret user_id None ;;
  started_at <- now_utc ;;
  binding <- lift (_staff_invite_mfa_binding invite_id) ;;
  _ <- db_write (set_user user_id (λ u, set_pending (Some started_at) (Some binding) (set_u_mfa_enabled false
         (set_secret (Some sealed.1) (Some sealed.2) u)))) ;;
  attempt_at <- now_utc ;;
  acceptance_at <- now_utc ;;
  _ <- update_invite invite_id (λ i, set_si_status "totp_pending" (set_si_last_attempt_at (Some attempt_at)
         (set_si_acceptance_session_hash (Some session_hash) (set_si_acceptance_started_at (Some acceptance_at)
           (set_si_acceptance_start_count (si_acceptance_start_count i + 1) i))))) ;;
  _ <- try_except
    (_ <- _send_workplace_verification invite_id ;;
     metadata <- _invite_audit_metadata invite_id ;;
     _ <- audit_event_required "staff_workplace_verification_sent" "queued" (Some user_id) metadata ;;
     _ <- audit_event_required "staff_invite_accept_started" "success" (Some user_id) metadata ;;
     commit) any_exn
    (λ _, _ <- rollback ;;
          _ <- _clear_failed_invite_acceptance_start invite_id account.2 ;;
          _ <- audit_event "staff_workplace_verification_sent" "failure" None
                 [("reason", JStr "email_delivery_failed")] ;;
          _ <- audit_event "staff_invite_accept" "failure" None
                 [("reason", JStr "workplace_email_delivery_failed")] ;;
          raise (AuthError INVITE_WORKPLACE_DELIVERY_ERROR 503 None)) ;;
  i <- load_invite invite_id ;;
  setup <- _mfa_setup_payload user_id secret ;;
  ret (i, setup).

Definition _staff_invite_mfa_setup_is_active (user : User) (invite_id : Z) : M St bool :=
  match u_mfa_pending_started_at user with
  | None => ret false
  | Some started_at =>
      now <- now_utc ;;
      let age := now - started_at in
      expected_binding <- lift (_staff_invite_mfa_binding invite_id) ;;
      if 0 <=? age then
        max_age <- lift (config_int "PENDING_MFA_MAX_AGE_SECONDS") ;;
        ret ((age <=? max_age * US_SECOND)
             && bool_decide (or_empty (u_mfa_pending_session_hash user) = expected_binding))
      else ret false
  end.

(** Counts the failure; the one that reaches the limit locks the acceptance. *)
Definition _record_invite_acceptance_verify_failure (invite_id user_id : Z) (reason : string) : M St unit :=
  _ <- update_invite invite_id (λ i, set_si_acceptance_verify_count (si_acceptance_verify_count i + 1) i) ;;
  metadata <- _invite_audit_metadata invite_id ;;
  i <- load_invite invite_id ;;
  let count := si_acceptance_verify_count i in
  let metadata := (metadata ++ [("reason", JStr reason); ("failure_count", JInt count)])%list in
  _ <- guard (STAFF_INVITE_MAX_VERIFY_ATTEMPTS <=? count)
         (now <- now_utc ;;
          _ <- update_invite invite_id (set_si_acceptance_verify_locked_at (Some now)) ;;
          _ <- audit_event "staff_invite_accept_verify" "locked" (Some user_id) metadata ;;
          _ <- commit ;;
          raise (AuthError GENERIC_INVITE_ERROR 429 None)) ;;
  let event_type := if bool_decide (reason = "invalid_workplace_code") then "staff_workplace_verification"
                    else "staff_totp_setup" in
  _ <- audit_event event_type "failure" (Some user_id) metadata ;;
  commit.

(** A wrong code: counted, then refused. *)
Definition refuse_verification (invite_id user_id : Z) (reason message : string) : M St unit :=
  _ <- _record_invite_acceptance_verify_failure invite_id user_id reason ;;
  raise (AuthError message 401 None).

(** The account and the invite as the activation leaves them. *)
Definition activated (now : Z) (u : User) : User :=
  set_u_workplace_email_verified_at (Some now) (set_u_account_status "active"
    (set_pending None None (set_u_mfa_enabled true u))).
Definition used_invite (user_id now : Z) (i : StaffInvite) : StaffInvite :=
  set_si_workplace_verified_at (Some now) (set_si_used_by_user_id (Some user_id)
    (set_si_used_at (Some now) (set_si_status "accepted" i))).

Definition verify_invite_acceptance (token totp_code workplace_verification_code : string)
    (request_fields : list string) : M St dict :=
  _ <- _consume_invite_probe_limit token ;;
  _ <- _reject_forged_invite_fields request_fields ;;
  invite_id <- _active_invite_by_token token true ;;
  _ <- _ensure_invite_identity_policy invite_id "staff_invite_accept" ;;
  _ <- _ensure_not_locked invite_id "staff_invite_accept" INVITE_ACCEPTANCE_ERROR 429 ;;
  session_hash <- _invite_acceptance_session_hash invite_id false ;;
  _ <- _ensure_invite_acceptance_session invite_id session_hash ;;
  i <- load_invite invite_id ;;
  found <- setup_user_of i ;;
  user <- match found with
          | Some (id, u) =>
              if bool_decide (u_account_status u = "setup_pending") && bool_decide (u_account_type u = si_role i)
              then ret (id, u)
              else refuse None "staff_invite_accept" "failure" [("reason", JStr "setup_missing")] GENERIC_INVITE_ERROR 401
          | None => refuse None "staff_invite_accept" "failure" [("reason", JStr "setup_missing")] GENERIC_INVITE_ERROR 401
          end ;;
  let user_id := user.1 in
  active <- _staff_invite_mfa_setup_is_active user.2 invite_id ;;
  _ <- guard (negb active)
         (_ <- db_write (set_user user_id (λ u, set_pending None None (set_secret None None u))) ;;
          _ <- update_invite invite_id (set_si_status "pending") ;;
          _ <- commit ;;
          _ <- audit_event "staff_totp_setup" "expired" (Some user_id) [] ;;
          raise (AuthError GENERIC_INVITE_ERROR 401 None)) ;;
  _ <- guard (negb (six_digits totp_code))
         (refuse_verification invite_id user_id "invalid_totp_format" INVITE_INVALID_AUTHENTICATION_CODE_ERROR) ;;
  totp_outcome <- _verify_totp_for_user_outcome user_id totp_code "staff_totp_setup" None true ;;
  _ <- guard (bool_decide (totp_outcome = TOTP_VERIFICATION_REPLAY))
         (refuse (Some user_id) "staff_totp_setup" "failure" [("reason", JStr "totp_replay")]
            INVITE_INVALID_AUTHENTICATION_CODE_ERROR 401) ;;
  _ <- guard (negb (bool_decide (totp_outcome = TOTP_VERIFICATION_VALID)))
         (refuse_verification invite_id user_id "invalid_totp" INVITE_INVALID_AUTHENTICATION_CODE_ERROR) ;;
  workplace_ok <- _verify_workplace_code invite_id workplace_verification_code ;;
  _ <- guard (negb workplace_ok)
         (refuse_verification invite_id user_id "invalid_workplace_code" GENERIC_WORKPLACE_VERIFICATION_ERROR) ;;
  now <- now_utc ;;
  _ <- _clear_invite_acceptance_state invite_id ;;
  _ <- db_write (set_user user_id (activated now)) ;;
  _ <- update_invite invite_id (used_invite user_id now) ;;
  metadata <- _invite_audit_metadata invite_id ;;
  _ <- audit_event_required "staff_totp_setup" "success" (Some user_id) [("method", JStr "totp")] ;;
  _ <- audit_event_required "staff_workplace_verification" "success" (Some user_id) metadata ;;
  _ <- audit_event_required "staff_account_activated" "success" (Some user_id) metadata ;;
  _ <- commit ;;
  u <- load_user user_id ;;
  ret [("message", JStr "Staff account activated"); ("user", JObj (public_admin_user user_id u))].
End StaffInvites.
End StaffInvites.
