(* ===== verification/StaffUsernames.v ===== *)
(** * Names for new staff ([_staff_username])

    The search for a free name ends within one round per account, because the
    numbered candidates are pairwise different. *)

From S2P Require Import Prelude PyStr TimeModel Schema Runtime Sample Canonical Integrity AuditLog MfaCrypto StaffInvites.
Open Scope string_scope.
Open Scope Z_scope.

Module StaffUsernames.
Import StaffInvites.

(** ** Case folding *)

Lemma casefold_chars s : chars (casefold s) = lower_char <$> chars s.
Proof. unfold casefold. by rewrite chars_of_chars. Qed.
Lemma lower_digit c : is_digit c = true → lower_char c = c.
Proof.
  unfold is_digit, lower_char, is_upper, code. intros [H1 H2]%andb_prop. apply Z.leb_le in H1, H2.
  destruct (65 <=? _) eqn:E; [|done]. apply Z.leb_le in E. lia.
Qed.
Lemma casefold_pad w z : 0 ≤ z → casefold (pad w z) = pad w z.
Proof.
  intros Hz. apply chars_inj. rewrite casefold_chars. pose proof (pad_digits w z Hz) as Hd.
  induction Hd as [|c l Hc _ IH]; [done|]. by rewrite fmap_cons, IH, lower_digit.
Qed.

Lemma suffixed_inj base x y : 0 ≤ x → 0 ≤ y → casefold (suffixed base x) = casefold (suffixed base y) → x = y.
Proof.
  intros Hx Hy E. unfold suffixed in E. rewrite !casefold_app, !casefold_pad in E by done.
  apply (f_equal chars) in E. rewrite !chars_app in E. apply app_inv_head in E.
  apply app_inv_head, chars_inj in E. by apply (pad_inj 2).
Qed.

Lemma length_casefold s : length (chars (casefold s)) = length (chars s).
Proof. by rewrite casefold_chars, length_fmap. Qed.

(** A name of at most 56 characters is shorter than its numbered variants. *)
Lemma suffixed_longer base x :
  (length (chars base) ≤ 56)%nat → casefold (suffixed base x) ≠ casefold (str_take 64 base).
Proof.
  intros Hl E. apply (f_equal (λ s, length (chars s))) in E. rewrite !length_casefold in E.
  unfold suffixed, str_take in E. rewrite !chars_app, !length_app, !chars_of_chars, !length_take in E. change (length (chars ".")) with 1%nat in E. lia.
Qed.

Lemma username_base_short e : (length (chars (username_base e)) ≤ 56)%nat.
Proof.
  unfold username_base. cbv zeta. destruct (_ <? _)%nat; [simpl; lia|]. rewrite chars_app, length_app.
  destruct (nonempty _); [|simpl; lia]. unfold str_take. rewrite chars_of_chars, length_take. change (length (chars "staff.")) with 6%nat. lia.
Qed.

(** ** The search *)

Definition has_name (d : Db) (candidate : string) : Prop :=
  ∃ v u, users d !! v = Some u ∧ casefold (u_username u) = casefold candidate.

Lemma db_ok_usernames d : db_ok d = true → unique_on (λ u, Some (casefold (u_username u))) (users d) = true.
Proof. by_constraints. Qed.

Lemma username_used_spec d c :
  db_ok d = true → (username_used c d = Ok true ∧ has_name d c) ∨ (username_used c d = Ok false ∧ ¬ has_name d c).
Proof.
  intros Hd%db_ok_usernames. unfold username_used.
  destruct (rows_where (λ u, bool_decide (casefold (u_username u) = casefold c)) (users d)) as [|[v u] l] eqn:E.
  - right. unfold one_or_none. rewrite E. split; [done|]. intros (v & u & Hu & Hn).
    assert ((v, u) ∈ rows_where (λ u, bool_decide (casefold (u_username u) = casefold c)) (users d)) as Hin
      by (apply rows_where_spec; split; [done|by apply bool_decide_eq_true]).
    rewrite E in Hin. by apply not_elem_of_nil in Hin.
  - left. assert ((v, u) ∈ rows_where (λ u, bool_decide (casefold (u_username u) = casefold c)) (users d))
      as [Hu Hn]%rows_where_spec by (rewrite E; left).
    rewrite (one_or_none_unique (λ u, Some (casefold (u_username u))) _ _ v u (casefold c)); try done.
    + split; [done|]. exists v, u. split; [done|by apply bool_decide_eq_true in Hn].
    + intros w Hw%bool_decide_eq_true. by rewrite Hw.
Qed.

(** The candidates a search with this fuel looks at after the first. *)
Fixpoint numbered (fuel : nat) (base : string) (suffix : Z) : list string :=
  match fuel with
  | O => []
  | S fuel => suffixed base (suffix + 1) :: numbered fuel base (suffix + 1)
  end.

Lemma free_username_spec fuel base c suffix d :
  db_ok d = true →
  (∃ c', free_username fuel base c suffix d = Ok (Some c') ∧ ¬ has_name d c')
  ∨ (free_username fuel base c suffix d = Ok None ∧ Forall (has_name d) (c :: numbered fuel base suffix)).
Proof.
  intros Hd. revert c suffix. induction fuel as [|fuel IH]; intros c suffix; simpl;
    destruct (username_used_spec d c Hd) as [[-> Hn]|[-> Hn]]; simpl; try (left; by exists c).
  - right. split; [done|]. by repeat constructor.
  - destruct (IH (suffixed base (suffix + 1)) (suffix + 1)) as [(c' & -> & Hc)|[-> Hall]]; [left; by exists c'|].
    right. split; [done|]. by constructor.
Qed.

Lemma length_numbered fuel base suffix : length (numbered fuel base suffix) = fuel.
Proof. revert suffix. induction fuel as [|fuel IH]; intros suffix; simpl; [done|]. by rewrite IH. Qed.
Lemma elem_numbered c fuel base suffix :
  c ∈ numbered fuel base suffix → ∃ k, suffix < k ∧ c = suffixed base k.
Proof.
  revert suffix. induction fuel as [|fuel IH]; intros suffix; simpl; [by intros ?%not_elem_of_nil|].
  intros [->|Hc]%elem_of_cons; [exists (suffix + 1); split; [lia|done]|].
  apply IH in Hc as (k & Hk & ->). exists k. split; [lia|done].
Qed.
Lemma numbered_nodup fuel base suffix : 0 ≤ suffix → NoDup (casefold <$> numbered fuel base suffix).
Proof.
  revert suffix. induction fuel as [|fuel IH]; intros suffix Hs; simpl; constructor; [|apply IH; lia].
  intros (c & E & Hc)%list_elem_of_fmap. apply elem_numbered in Hc as (k & Hk & ->).
  apply suffixed_inj in E; lia.
Qed.

Lemma too_many_names d l :
  Forall (has_name d) l → NoDup (casefold <$> l) → (length l ≤ size (users d))%nat.
Proof.
  intros Hall Hnd.
  assert (casefold <$> l ⊆+ (λ vu : Z * User, casefold (u_username vu.2)) <$> map_to_list (users d)) as Hsub.
  { apply NoDup_submseteq; [done|]. intros x (c & -> & Hc)%list_elem_of_fmap.
    rewrite Forall_forall in Hall. destruct (Hall c Hc) as (v & u & Hu & <-).
    apply list_elem_of_fmap. exists (v, u). split; [done|]. by apply elem_of_map_to_list. }
  apply submseteq_length in Hsub. rewrite !length_fmap in Hsub. by rewrite length_map_to_list in Hsub.
Qed.
End StaffUsernames.
Import StaffUsernames StaffInvites.

(** C40: The search for a free staff name ends: within as many rounds as there are
    accounts it finds a name that no account has, whatever the case. *)
Theorem staff_username_terminates d workplace_email :
  db_ok d = true →
  let base := username_base workplace_email in
  ∃ candidate, free_username (size (users d)) base (str_take 64 base) 0 d = Ok (Some candidate)
    ∧ ¬ has_name d candidate.
Proof.
  intros Hd base. destruct (free_username_spec (size (users d)) base (str_take 64 base) 0 d Hd)
    as [(c & -> & Hc)|[_ Hall]].
  - by exists c.
  - exfalso. apply too_many_names in Hall; [simpl in Hall; rewrite length_numbered in Hall; lia|].
    simpl. constructor; [|by apply numbered_nodup]. intros (c & E & Hc)%list_elem_of_fmap.
    apply elem_numbered in Hc as (k & _ & ->). symmetry in E. revert E. apply suffixed_longer, username_base_short.
Qed.

Lemma staff_username_witness :
  free_username (size (users Sample.portal_db)) "sam" "sam" 0 Sample.portal_db = Ok (Some "sam.01")
  ∧ ∃ candidate, free_username (size (users Sample.portal_db)) (username_base "sam@bank.example")
      (str_take 64 (username_base "sam@bank.example")) 0 Sample.portal_db = Ok (Some candidate).
Proof.
  split; [vm_compute; reflexivity|].
  destruct (staff_username_terminates Sample.portal_db "sam@bank.example" eq_refl) as (c & Hc & _).
  exists c. exact Hc.
Defined.
