(* ===== verification/InviteSafety.v ===== *)
(** * Who becomes staff

    A staff account becomes active only when the invite's link, the browser that
    started the acceptance, an authenticator code and the code mailed to the
    workplace address come together. *)

From S2P Require Import Prelude PyStr TimeModel Schema Runtime Sample Canonical Integrity AuditLog MfaCrypto.
From S2P Require Import Turnstile Passwords PasswordHistory SessionRisk BankingPolicy Notifications Sessions.
From S2P Require Import RateLimits Mfa Registration SignIn Account Profile ManualRecovery AdminAccess AdminActions AdminSafety StaffInvites.
Open Scope string_scope.
Open Scope Z_scope.

Module InviteSafety.
Import SessionHmac Audit MfaCrypto Passwords PasswordHistory SessionRisk Policy Notifications Sessions.
Import RateLimits Mfa Registration SignIn Account Profile AdminAccess AdminSafety StaffInvites.

#[local] Hint Constants Opaque : pres.

(** ** The calls *)

Inductive InviteCall : Type :=
  | Create (actor : Z) (email role : string) (code : option string)
  | Resend (actor target : Z) (code : option string)
  | Revoke (actor id : Z) (code : option string)
  | Reissue (actor id : Z) (code : option string)
  | ResetAcceptance (actor id : Z) (code : option string)
  | Info (token : string)
  | Begin (token name phone password confirm : string) (challenge : option string) (fields : list string)
  | Verify (token totp workplace : string) (fields : list string).

Definition invite_act `{Env} (r : InviteCall) : M St unit :=
  match r with
  | Create actor email role code => _ <- create_staff_invite actor email role code ;; ret tt
  | Resend actor target code => _ <- resend_staff_setup_invite actor target code ;; ret tt
  | Revoke actor id code => _ <- revoke_staff_invite actor id code ;; ret tt
  | Reissue actor id code => _ <- reissue_staff_invite actor id code ;; ret tt
  | ResetAcceptance actor id code => _ <- reset_staff_invite_acceptance actor id code ;; ret tt
  | Info token => _ <- invite_info token ;; ret tt
  | Begin token name phone password confirm challenge fields =>
      _ <- start_invite_acceptance token name phone password confirm challenge fields ;; ret tt
  | Verify token totp workplace fields => _ <- verify_invite_acceptance token totp workplace fields ;; ret tt
  end.

Definition is_active (T : gmap Z User) (v : Z) : Prop := ∃ u, T !! v = Some u ∧ u_account_status u = "active".

(** ** No account becomes active *)

Definition no_new (U : gmap Z User) (c w : Db) : Prop :=
  ∀ v, (is_active (users c) v → is_active U v) ∧ (is_active (users w) v → is_active U v).

Lemma no_new_users U (f : Db → Db) c w :
  (∀ v, is_active (users (f w)) v → is_active (users w) v) → no_new U c w → no_new U c (f w).
Proof. intros Hf Hp v. destruct (Hp v) as [Hc Hw]. split; [done|]. intros Ha. by apply Hw, Hf. Qed.

Lemma alter_inactive f k (T : gmap Z User) v :
  (∀ u, u_account_status (f u) = "active" → u_account_status u = "active") → is_active (alter f k T) v → is_active T v.
Proof.
  intros Hf (u & Hu & Hs). destruct (decide (v = k)) as [->|Hne].
  - rewrite lookup_alter_eq in Hu. destruct (T !! k) as [u'|] eqn:E; [|done]. injection Hu as <-.
    exists u'. split; [done|by apply Hf].
  - rewrite lookup_alter_ne in Hu by done. by exists u.
Qed.

#[export] Instance no_new_security U : security_blind (no_new U).
Proof.
  split; [split|..]; intros *.
  - intros Hp v. by destruct (Hp v).
  - intros Hp v. by destruct (Hp v).
  - intros Hp v. by destruct (Hp v).
  - intros Hp v. by destruct (Hp v).
  - intros Hp v. by destruct (Hp v).
  - apply no_new_users. intros v. by apply alter_inactive.
  - intros Hp v. by destruct (Hp v).
Qed.
#[export] Instance no_new_portal U : portal_blind (no_new U).
Proof. split; [apply _|]. intros f c w Hp v. exact (Hp v). Qed.

Section NoNew.
Context `{Env} (U : gmap Z User).
Notation keeps := (preserves (on_db (no_new U))).

Lemma idle_write f : (∀ w v, is_active (users (f w)) v → is_active (users w) v) → keeps (db_write f).
Proof. intros Hf. apply pres_db_write. intros c w. apply no_new_users, Hf. Qed.
Lemma idle_invite id f : keeps (update_invite id f).
Proof. by apply idle_write. Qed.
Lemma idle_set_user id f :
  (∀ u, u_account_status (f u) = "active" → u_account_status u = "active") → keeps (db_write (set_user id f)).
Proof. intros Hf. apply idle_write. intros w v. by apply alter_inactive. Qed.
Hint Resolve idle_invite : pres.
Hint Extern 2 (keeps (db_write (set_user _ _))) => apply idle_set_user; by intros : pres.
Hint Extern 3 (keeps (db_write _)) => apply idle_write; by intros : pres.
Hint Extern 0 (preserves _ (find_user _)) => unfold find_user : pres.
Hint Extern 0 (preserves _ (find_invite _)) => unfold find_invite : pres.
Hint Extern 0 (preserves _ (load_invite _)) => unfold load_invite : pres.

Lemma idle_delete id : keeps (delete_user id).
Proof.
  unfold delete_user. solve_pres. apply idle_write. intros w v (u & Hu & Hs). exists u. split; [|done].
  simpl in Hu. by apply lookup_delete_Some in Hu as [_ ?].
Qed.
Lemma idle_deleted o : keeps (flush_deleted o).
Proof. destruct o; [apply idle_delete|unfold flush_deleted; solve_pres]. Qed.
Lemma idle_metadata id : keeps (_invite_audit_metadata id).
Proof. unfold _invite_audit_metadata. solve_pres. Qed.
Hint Resolve idle_deleted idle_metadata : pres.
Lemma idle_refuse_invite {A} a id e r m st : keeps (refuse_invite (A:=A) a id e r m st).
Proof. unfold refuse_invite. solve_pres. Qed.
Lemma idle_verify_totp u c sc w t : keeps (_verify_totp_for_user_outcome u c sc w t).
Proof. unfold _verify_totp_for_user_outcome, _mfa_secret_for_user. solve_pres. Qed.
Hint Resolve idle_refuse_invite idle_verify_totp : pres.
Lemma idle_step_up a c sc e : keeps (_require_staff_invite_step_up a c sc e).
Proof. unfold _require_staff_invite_step_up, _verify_totp_for_user. solve_pres. Qed.
Lemma idle_root_or a r : keeps r → keeps (root_admin_or a r).
Proof. intros Hr. unfold root_admin_or. solve_pres. Qed.
Hint Resolve idle_step_up : pres.
Hint Extern 1 (keeps (root_admin_or _ _)) => apply idle_root_or; solve_pres : pres.
Lemma idle_open a id c sc e : keeps (open_invite_for_root_admin a id c sc e).
Proof. unfold open_invite_for_root_admin. solve_pres. Qed.
Lemma idle_send id url : keeps (_send_invite_email id url).
Proof. unfold _send_invite_email. solve_pres. Qed.
Lemma idle_address e a ev : keeps (invited_address e a ev).
Proof. unfold invited_address. solve_pres. Qed.
Lemma idle_answer m id : keeps (invite_answer m id).
Proof. unfold invite_answer. solve_pres. Qed.
Lemma idle_allowlist e a ev : keeps (_reject_root_admin_allowlist_invite_target e a ev).
Proof. unfold _reject_root_admin_allowlist_invite_target. solve_pres. Qed.
Lemma idle_active_invite e : keeps (_reject_active_invite e).
Proof. unfold _reject_active_invite. solve_pres. Qed.
Hint Resolve idle_open idle_send idle_address idle_answer idle_allowlist idle_active_invite : pres.
Lemma idle_deliver id a t : keeps (_deliver_fresh_invite_email id a t).
Proof. unfold _deliver_fresh_invite_email. cbv zeta. solve_pres. Qed.
Lemma idle_store a e r u se fe x : keeps (store_invite a e r u se fe x).
Proof. unfold store_invite. solve_pres. Qed.
Lemma idle_clear id : keeps (_clear_invite_acceptance_state id).
Proof. unfold _clear_invite_acceptance_state. solve_pres. Qed.
Lemma idle_setup_user i : keeps (setup_user_of i).
Proof. unfold setup_user_of. solve_pres. Qed.
Hint Resolve idle_deliver idle_store idle_clear idle_setup_user : pres.
Lemma idle_reset id a ev : keeps (_reset_active_invite_acceptance_for_root_action id a ev).
Proof. unfold _reset_active_invite_acceptance_for_root_action. solve_pres. Qed.
Hint Resolve idle_reset : pres.

Lemma idle_create a e r c : keeps (create_staff_invite a e r c).
Proof. unfold create_staff_invite, _reject_existing_staff_identity. cbv zeta. solve_pres. Qed.
Lemma idle_resend a t c : keeps (resend_staff_setup_invite a t c).
Proof. unfold resend_staff_setup_invite. cbv zeta. solve_pres. Qed.
Lemma idle_revoke a id c : keeps (revoke_staff_invite a id c).
Proof. unfold revoke_staff_invite. solve_pres. Qed.
Lemma idle_reissue a id c : keeps (reissue_staff_invite a id c).
Proof. unfold reissue_staff_invite. cbv zeta. solve_pres. Qed.
Lemma idle_reset_acceptance a id c : keeps (reset_staff_invite_acceptance a id c).
Proof. unfold reset_staff_invite_acceptance. cbv zeta. solve_pres. Qed.

(** *** Accepting *)

Lemma idle_probe t : keeps (_consume_invite_probe_limit t).
Proof.
  assert (keeps (consume_durable_rate_limit "staff_invite_probe" (str_or request_remote_addr "unknown" +:+ ":" +:+ t)
    10 (15 * 60))) by (apply pres_consume; [apply _|]; intros; by apply sb_counters).
  unfold _consume_invite_probe_limit. solve_pres.
Qed.
Lemma idle_attempt r b : keeps (_audit_invalid_invite_attempt r b).
Proof. unfold _audit_invalid_invite_attempt. solve_pres. Qed.
Hint Resolve idle_attempt : pres.
Lemma idle_invalid {A} r b : keeps (invalid_invite (A:=A) r b).
Proof. unfold invalid_invite. solve_pres. Qed.
Hint Resolve idle_invalid : pres.
Lemma idle_by_token t b : keeps (_active_invite_by_token t b).
Proof. unfold _active_invite_by_token. solve_pres. Qed.
Lemma idle_identity id e : keeps (_ensure_invite_identity_policy id e).
Proof. unfold _ensure_invite_identity_policy. solve_pres. Qed.
Lemma idle_not_locked id e m st : keeps (_ensure_not_locked id e m st).
Proof. unfold _ensure_not_locked. solve_pres. Qed.
Lemma idle_forged fs : keeps (_reject_forged_invite_fields fs).
Proof. unfold _reject_forged_invite_fields. cbv zeta. solve_pres. Qed.
Lemma idle_session_hash id b : keeps (_invite_acceptance_session_hash id b).
Proof. unfold _invite_acceptance_session_hash. cbv zeta. solve_pres. Qed.
Lemma idle_session_check id h : keeps (_ensure_invite_acceptance_session id h).
Proof. unfold _ensure_invite_acceptance_session. cbv zeta. solve_pres. Qed.
Hint Resolve idle_probe idle_by_token idle_identity idle_not_locked idle_forged idle_session_hash
  idle_session_check : pres.
Lemma idle_can_start id h : keeps (_ensure_invite_acceptance_can_start id h).
Proof. unfold _ensure_invite_acceptance_can_start. solve_pres. Qed.
Lemma idle_policy p : keeps (validate_password_policy p).
Proof.
  unfold validate_password_policy, live_check, _is_password_pwned_by_hibp, _hibp_circuit_is_open,
    _record_hibp_failure, _clear_hibp_failures, _hibp_breaker, put_breaker. cbv zeta. solve_pres.
Qed.
Lemma idle_detail {A} r e : keeps (refuse_detail (A:=A) r e).
Proof. unfold refuse_detail. solve_pres. Qed.
Hint Resolve idle_can_start idle_policy idle_detail : pres.
Lemma idle_details n ph p c : keeps (_validate_invite_acceptance_start_details n ph p c).
Proof. unfold _validate_invite_acceptance_start_details. solve_pres. Qed.
Lemma idle_username e : keeps (_staff_username e).
Proof. unfold _staff_username. cbv zeta. solve_pres. Qed.
Lemma idle_duplicate e p : keeps (_reject_duplicate_staff_signup e p).
Proof. unfold _reject_duplicate_staff_signup. solve_pres. Qed.
Lemma idle_hash p : keeps (hash_password p).
Proof. unfold hash_password. solve_pres. Qed.
Hint Resolve idle_details idle_username idle_duplicate idle_hash : pres.
Lemma idle_replace u p t b : keeps (replace_user_password u p t b).
Proof.
  unfold replace_user_password, _prune_password_history. solve_pres; apply idle_write; intros w v;
    by apply alter_inactive.
Qed.
Hint Resolve idle_replace : pres.
Lemma idle_account id h n ph p : keeps (setup_account id h n ph p).
Proof.
  unfold setup_account. solve_pres. apply idle_write. intros w v (u & Hu & Hs). exists u. split; [|done]. simpl in Hu.
  apply lookup_insert_Some in Hu as [[_ <-]|[_ Hu]]; done.
Qed.
Lemma idle_workplace id : keeps (_send_workplace_verification id).
Proof. unfold _send_workplace_verification. cbv zeta. solve_pres. Qed.
Lemma idle_clear_failed id o : keeps (_clear_failed_invite_acceptance_start id o).
Proof. unfold _clear_failed_invite_acceptance_start. solve_pres. Qed.
Lemma idle_turnstile a t : keeps (Turnstile.require_turnstile a t).
Proof. unfold Turnstile.require_turnstile, Turnstile.verify_turnstile_token. cbv zeta. solve_pres. Qed.
Hint Resolve idle_account idle_workplace idle_clear_failed idle_turnstile : pres.

Lemma idle_info t : keeps (invite_info t).
Proof. unfold invite_info. solve_pres. Qed.
Lemma idle_begin t n ph p c ch fs : keeps (start_invite_acceptance t n ph p c ch fs).
Proof. unfold start_invite_acceptance, _mfa_setup_payload. cbv zeta. solve_pres. Qed.

Lemma idle_failure id u r : keeps (_record_invite_acceptance_verify_failure id u r).
Proof. unfold _record_invite_acceptance_verify_failure. cbv zeta. solve_pres. Qed.
Hint Resolve idle_failure : pres.
Lemma idle_refuse_verification id u r m : keeps (refuse_verification id u r m).
Proof. unfold refuse_verification. solve_pres. Qed.
Lemma idle_setup_active u id : keeps (_staff_invite_mfa_setup_is_active u id).
Proof. unfold _staff_invite_mfa_setup_is_active. cbv zeta. solve_pres. Qed.
Lemma idle_workplace_code id c : keeps (_verify_workplace_code id c).
Proof. unfold _verify_workplace_code. cbv zeta. solve_pres. Qed.
End NoNew.

(** ** What an activation needs *)

Section Invited.
Context `{Env} (s : St).

(** Everything the acceptance of an invite by account [v] shows. *)
Definition invited (token totp workplace : string) (v : Z) : Prop :=
  ∃ id i u raw h code_hmac expires_at,
    staff_invites (committed s) !! id = Some i ∧ invite_token_hash token = Ok (si_token_hash i)
    ∧ is_open_invite (clock s) i = true ∧ _invite_acceptance_is_locked i = false
    ∧ session s !! INVITE_ACCEPTANCE_SESSION_KEY = Some (JStr raw)
    ∧ active_hmac_hex ("staff-invite-acceptance-session:" +:+ pretty id +:+ ":" +:+ raw) 64 = Ok h
    ∧ si_acceptance_session_hash i = Some h
    ∧ si_setup_user_id i = Some v ∧ users (committed s) !! v = Some u
    ∧ u_account_status u = "setup_pending" ∧ u_account_type u = si_role i
    ∧ code_accepted "staff_totp_setup" (committed s) v (Some totp)
    ∧ si_workplace_verification_code_hmac i = Some code_hmac ∧ _workplace_code_hmac i (strip workplace) = Ok code_hmac
    ∧ si_workplace_verification_expires_at i = Some expires_at ∧ clock s < expires_at.
End Invited.

(** The invites are those of [I], up to the time of the last attempt. *)
Definition as_stored (I : gmap Z StaffInvite) (T : gmap Z StaffInvite) : Prop :=
  ∀ id i, T !! id = Some i → ∃ i0, I !! id = Some i0 ∧ (i = i0 ∨ ∃ t, i = set_si_last_attempt_at t i0).
Definition seen_invites (I : gmap Z StaffInvite) (c w : Db) : Prop :=
  as_stored I (staff_invites c) ∧ as_stored I (staff_invites w).
#[local] Instance seen_security I : security_blind (seen_invites I).
Proof. split; [split|..]; by intros * [? ?]. Qed.
#[local] Instance seen_portal I : portal_blind (seen_invites I).
Proof. split; [apply _|]. by intros * [? ?]. Qed.
#[local] Instance same_portal U : portal_blind (same_users U).
Proof. split; [split|]; by intros * [? ?]. Qed.

Lemma as_stored_refl I : as_stored I I.
Proof. intros id i Hi. exists i. by split; [|left]. Qed.
Lemma as_stored_attempt I T id t : as_stored I T → as_stored I (alter (set_si_last_attempt_at t) id T).
Proof.
  intros HT j i Hi. destruct (decide (j = id)) as [->|Hne]; [|rewrite lookup_alter_ne in Hi by done; by apply HT].
  rewrite lookup_alter_eq in Hi. destruct (T !! id) as [i'|] eqn:E; [|done]. injection Hi as <-.
  destruct (HT _ _ E) as (i0 & H0 & [->|[t' ->]]); exists i0; (split; [done|right; by exists t]).
Qed.

Section Checks.
Context `{Env} (s0 : St).
Notation U := (users (committed s0)).
Notation I := (staff_invites (committed s0)).
Notation KEY := INVITE_ACCEPTANCE_SESSION_KEY.

(** Nothing that matters has changed since the call began. *)
Definition calm (s : St) : Prop :=
  on_db (same_users U) s ∧ on_db (seen_invites I) s ∧ session_key KEY (session s0 !! KEY) s ∧ not_before (clock s0) s.

#[local] Hint Resolve nb_restore : pres.
Ltac solve_calm := apply pres_and; [|apply pres_and; [|apply pres_and]]; solve_pres.
Hint Extern 0 (preserves _ (find_user _)) => unfold find_user : pres.
Hint Extern 0 (preserves _ (load_invite _)) => unfold load_invite : pres.


Lemma calm_probe t : preserves calm (_consume_invite_probe_limit t).
Proof.
  unfold _consume_invite_probe_limit. apply pres_and; [|apply pres_and; [|apply pres_and]]; solve_pres.
  - apply pres_consume; [apply _|]. by intros f c w [? ?].
  - apply pres_consume; [apply _|]. by intros f c w [? ?].
  - unfold consume_durable_rate_limit, _load_or_create_counter, _load_counter, nested_insert. solve_pres.
  - unfold consume_durable_rate_limit, _load_or_create_counter, _load_counter, nested_insert. solve_pres.
Qed.
Lemma calm_forged fs : preserves calm (_reject_forged_invite_fields fs).
Proof. unfold _reject_forged_invite_fields, refuse. cbv zeta. solve_calm. Qed.

Lemma calm_refuse_invite {A} a id e r m st : preserves calm (refuse_invite (A:=A) a id e r m st).
Proof. unfold refuse_invite, _invite_audit_metadata, ref_entry, refuse. solve_calm. Qed.
Lemma calm_identity id e : preserves calm (_ensure_invite_identity_policy id e).
Proof.
  unfold _ensure_invite_identity_policy, refuse_invite, _invite_audit_metadata, ref_entry, refuse. solve_calm.
Qed.
Lemma calm_not_locked id e m st : preserves calm (_ensure_not_locked id e m st).
Proof. unfold _ensure_not_locked, refuse_invite, _invite_audit_metadata, ref_entry, refuse. solve_calm. Qed.
Lemma calm_session_hash id : preserves calm (_invite_acceptance_session_hash id false).
Proof. unfold _invite_acceptance_session_hash. cbv zeta. cbn [negb]. solve_calm. Qed.
Lemma calm_session_check id h : preserves calm (_ensure_invite_acceptance_session id h).
Proof.
  unfold _ensure_invite_acceptance_session, refuse_invite, _invite_audit_metadata, ref_entry, refuse. cbv zeta. solve_calm.
Qed.
Lemma calm_setup_active u id : preserves calm (_staff_invite_mfa_setup_is_active u id).
Proof. unfold _staff_invite_mfa_setup_is_active. cbv zeta. solve_calm. Qed.

(** *** What the checks that pass have shown *)

Lemma by_token_ok t b s id s1 :
  _active_invite_by_token t b s = (Ok id, s1) → calm s →
  calm s1 ∧ ∃ i, I !! id = Some i ∧ invite_token_hash t = Ok (si_token_hash i) ∧ is_open_invite (clock s0) i = true.
Proof.
  unfold _active_invite_by_token. intros E (Hu & Hi & Hs & Hb). inv_bind E.
  apply try_raises_inv in E0; [|intros; solve_raises]. unfold lift in E0. injection E0 as Eh <-.
  inv_bind E. unfold db_query in E0. injection E0 as Eq <-. inv_bind E. unfold now_utc in E0. injection E0 as <- <-.
  destruct a0 as [[id' i]|]; [|unfold invalid_invite in E; by repeat inv_bind E].
  inv_bind E. unfold update_invite, db_write, modify in E0. injection E0 as _ <-.
  apply one_or_none_Some in Eq as [Hrow Htok]. apply bool_decide_eq_true in Htok.
  destruct (si_expires_at i <=? _) eqn:Ex; [by repeat inv_bind E|].
  destruct (_ || _) eqn:Er in E; [unfold invalid_invite in E; by repeat inv_bind E|].
  destruct (_ || _) eqn:Es in E; [unfold invalid_invite in E; by repeat inv_bind E|].
  destruct (negb _) eqn:Ea in E; [done|]. unfold ret in E. injection E as <- <-.
  apply orb_false_iff in Er as [Er _], Es as [Es _]. apply negb_false_iff in Ea.
  apply bool_decide_eq_false in Er, Es. apply Z.leb_gt in Ex.
  destruct Hi as [Hic Hiw]. destruct (Hiw _ _ Hrow) as (i0 & Hi0 & Heq). split.
  { split_and!; [exact Hu|split; [exact Hic|by apply as_stored_attempt]|exact Hs|].
    unfold not_before in *. simpl. lia. }
  exists i0. split; [done|]. unfold not_before in Hb. simpl in Ex.
  destruct Heq as [->|[t' ->]]; simpl in *; (split; [by rewrite Eh, Htok|]); unfold is_open_invite; rewrite Ea;
    (repeat (apply andb_true_iff; split); [done| | |apply Z.ltb_lt; lia]); apply bool_decide_eq_true;
    apply eq_None_not_Some; done.
Qed.

Lemma load_ok id s i s1 :
  load_invite id s = (Ok i, s1) → on_db (seen_invites I) s →
  s1 = s ∧ ∃ i0, I !! id = Some i0 ∧ (i = i0 ∨ ∃ t, i = set_si_last_attempt_at t i0).
Proof.
  unfold load_invite, db_query. intros E [_ Hi]. injection E as E <-.
  destruct (staff_invites (working s) !! id) as [i'|] eqn:Ei; [|done]. injection E as <-. split; [done|by apply Hi].
Qed.

Lemma refuse_invite_raises {A} a id e r m st : raises (refuse_invite (A:=A) a id e r m st).
Proof. unfold refuse_invite, refuse. solve_raises. Qed.

Lemma not_locked_ok id e m st s s1 :
  _ensure_not_locked id e m st s = (Ok tt, s1) → calm s →
  s1 = s ∧ ∃ i, I !! id = Some i ∧ _invite_acceptance_is_locked i = false.
Proof.
  unfold _ensure_not_locked. intros E (_ & Hi & _). inv_bind E. apply load_ok in E0 as (-> & i0 & H0 & Heq); [|done].
  apply guard_raises_inv in E as [Hl ->]; [|apply refuse_invite_raises]. split; [done|]. exists i0. split; [done|].
  by destruct Heq as [->|[t ->]].
Qed.

Lemma session_hash_ok id s h s1 :
  _invite_acceptance_session_hash id false s = (Ok h, s1) → calm s → h ≠ "" →
  s1 = s ∧ ∃ raw, session s0 !! KEY = Some (JStr raw)
    ∧ active_hmac_hex ("staff-invite-acceptance-session:" +:+ pretty id +:+ ":" +:+ raw) 64 = Ok h.
Proof.
  unfold _invite_acceptance_session_hash. intros E (_ & _ & Hk & _) Hh. inv_bind E. unfold session_get, gets in E0.
  injection E0 as <- <-. rewrite Hk in E. inv_bind E. cbn [negb] in E.
  destruct (session s0 !! KEY) as [[| | |raw| |]|]; unfold ret in E0; try (injection E0 as <- <-; injection E as <- <-; done).
  destruct (32 <=? slen raw)%nat; injection E0 as <- <-; [|injection E as <- <-; done].
  unfold lift in E. injection E as E <-. split; [done|]. by exists raw.
Qed.

Lemma session_check_ok id h s s1 :
  _ensure_invite_acceptance_session id h s = (Ok tt, s1) → calm s →
  s1 = s ∧ h ≠ "" ∧ ∃ i, I !! id = Some i ∧ si_acceptance_session_hash i = Some h.
Proof.
  unfold _ensure_invite_acceptance_session. intros E (_ & Hi & _). inv_bind E.
  apply load_ok in E0 as (-> & i0 & H0 & Heq); [|done]. inv_bind E.
  apply guard_raises_inv in E0 as [Hb ->]; [|apply refuse_invite_raises].
  apply guard_raises_inv in E as [Hc ->]; [|apply refuse_invite_raises]. split; [done|].
  apply orb_false_iff in Hc as [Hn Hq]. apply negb_false_iff in Hn, Hq, Hb. apply bool_decide_eq_true in Hq.
  split; [intros ->; done|]. exists i0. split; [done|].
  assert (si_acceptance_session_hash a = si_acceptance_session_hash i0) as Hs by by destruct Heq as [->|[t ->]].
  rewrite <- Hs, <- Hq. rewrite Hs in *. by destruct (si_acceptance_session_hash i0).
Qed.

(** *** The authenticator code and the workplace code *)

Notation later := (preserves (not_before (clock s0))).
Lemma later_secret u : later (_mfa_secret_for_user u).
Proof.
  unfold _mfa_secret_for_user, decrypt_mfa_secret, _decrypt_envelope, _unwrap_dek, _kek, _audit_mfa_crypto, load_user.
  cbv zeta. solve_pres.
Qed.
Lemma later_counter sc p : later (_load_counter sc p).
Proof. unfold _load_counter. solve_pres. Qed.
Lemma later_create sc p n w : later (_load_or_create_counter sc p n w).
Proof. unfold _load_or_create_counter, _load_counter, nested_insert. solve_pres. Qed.
Hint Resolve later_secret later_counter later_create : pres.
Lemma later_revoke u r c : later (revoke_all_sessions u r c).
Proof.
  unfold revoke_all_sessions, _active_session_records, _expire_stale_sessions, end_each, _end_session_record. solve_pres.
Qed.
Hint Resolve later_revoke : pres.
Lemma later_record u sc r : later (_record_user_security_failure u sc r).
Proof.
  unfold _record_user_security_failure, open_security_counter, _lock_user_account, record_failure, load_user.
  cbv zeta. solve_pres.
Qed.
Lemma later_clear u sc : later (_clear_user_security_failures u sc).
Proof. unfold _clear_user_security_failures, clear_failures. solve_pres. Qed.
Lemma later_backoff sc p : later (Mfa._enforce_auth_backoff sc p).
Proof. unfold Mfa._enforce_auth_backoff, apply_exponential_backoff. cbv zeta. solve_pres. Qed.
Lemma later_fresh : later mark_fresh_mfa.
Proof. unfold mark_fresh_mfa, _now. solve_pres; intros s Hs; exact Hs. Qed.
Hint Resolve later_record later_clear later_backoff later_fresh : pres.
Lemma later_totp u c sc w t : later (_verify_totp_for_user_outcome u c sc w t).
Proof.
  unfold _verify_totp_for_user_outcome, _verify_totp_secret_for_user_outcome, track, clear_failures, record_failure.
  cbv zeta. solve_pres.
Qed.

Lemma totp_ok v totp s s1 :
  _verify_totp_for_user_outcome v totp "staff_totp_setup" None true s = (Ok TOTP_VERIFICATION_VALID, s1) → calm s →
  code_accepted "staff_totp_setup" (committed s0) v (Some totp)
  ∧ on_db (seen_invites I) s1 ∧ not_before (clock s0) s1.
Proof.
  intros E (Hu & Hi & _ & Hb). split; [|split].
  - unfold _verify_totp_for_user_outcome in E. inv_bind E. apply valid_accepted in E as (step & Hacc).
    exists s, a, s2, s1, step. split; [|done]. by destruct Hu as [_ ->].
  - assert (preserves (on_db (seen_invites I)) (_verify_totp_for_user_outcome v totp "staff_totp_setup" None true)) as Hp.
    { unfold _verify_totp_for_user_outcome, _mfa_secret_for_user. solve_pres. }
    specialize (Hp s Hi). by rewrite E in Hp.
  - assert (preserves (not_before (clock s0)) (_verify_totp_for_user_outcome v totp "staff_totp_setup" None true)) as Hp.
    { apply later_totp. }
    specialize (Hp s Hb). by rewrite E in Hp.
Qed.

Lemma workplace_ok id code s s1 :
  _verify_workplace_code id code s = (Ok true, s1) → on_db (seen_invites I) s → not_before (clock s0) s →
  ∃ i code_hmac expires_at, I !! id = Some i ∧ si_workplace_verification_code_hmac i = Some code_hmac
    ∧ _workplace_code_hmac i (strip code) = Ok code_hmac
    ∧ si_workplace_verification_expires_at i = Some expires_at ∧ clock s0 < expires_at.
Proof.
  unfold _verify_workplace_code. intros E Hi Hb. cbv zeta in E. inv_bind E.
  apply load_ok in E0 as (-> & i0 & H0 & Heq); [|done]. destruct (negb (six_digits _)); [done|].
  assert (si_workplace_verification_code_hmac a = si_workplace_verification_code_hmac i0
    ∧ si_workplace_verification_expires_at a = si_workplace_verification_expires_at i0
    ∧ _workplace_code_hmac a (strip code) = _workplace_code_hmac i0 (strip code)) as (Hh & Hx & Hc)
    by by destruct Heq as [->|[t ->]].
  rewrite Hh, Hx in E.
  destruct (si_workplace_verification_code_hmac i0) as [hm|] eqn:Em; [|done].
  destruct (si_workplace_verification_expires_at i0) as [ex|] eqn:Ee; [|done].
  destruct (negb (nonempty hm)); [done|]. inv_bind E. unfold now_utc in E0. injection E0 as <- <-.
  destruct (ex <=? _) eqn:Ex; [done|]. apply Z.leb_gt in Ex. inv_bind E. unfold lift in E0. injection E0 as E0 <-.
  unfold ret in E. injection E as E _. apply bool_decide_eq_true in E as ->. rewrite Hc in E0.
  exists i0, a0, ex. unfold not_before in Hb. split_and!; try done. lia.
Qed.

(** ** The verification *)

Definition new_only (v : Z) (c w : Db) : Prop :=
  ∀ v', v' ≠ v → (is_active (users c) v' → is_active U v') ∧ (is_active (users w) v' → is_active U v').
#[local] Instance new_only_portal v : portal_blind (new_only v).
Proof. split; [split|]; intros *; intros Hp v' Hv; by destruct (Hp v' Hv). Qed.

Definition outcome (token totp workplace : string) (s : St) : Prop :=
  on_db (no_new U) s ∨ ∃ v, invited s0 token totp workplace v ∧ on_db (new_only v) s.

Lemma calm_no_new s : calm s → on_db (no_new U) s.
Proof. intros ([Hc Hw] & _) v. unfold on_db. rewrite Hc, Hw. by split. Qed.

Lemma go {A B} token totp workplace (c : M St A) (k : A → M St B) s :
  preserves (on_db (no_new U)) c → on_db (no_new U) s →
  (∀ a s1, c s = (Ok a, s1) → on_db (no_new U) s1 → outcome token totp workplace (k a s1).2) →
  outcome token totp workplace (bind c k s).2.
Proof.
  intros Hc Hs Hk. specialize (Hc s Hs). unfold bind. destruct (c s) as [[a|e] s1] eqn:E; [by apply Hk|by left].
Qed.
Lemma go_calm {A B} token totp workplace (c : M St A) (k : A → M St B) s :
  preserves calm c → preserves (on_db (no_new U)) c → calm s →
  (∀ a s1, c s = (Ok a, s1) → calm s1 → outcome token totp workplace (k a s1).2) →
  outcome token totp workplace (bind c k s).2.
Proof.
  intros Hp Hc Hs Hk. specialize (Hp s Hs). specialize (Hc s (calm_no_new s Hs)). unfold bind.
  destruct (c s) as [[a|e] s1] eqn:E; [by apply Hk|by left].
Qed.

Hint Resolve idle_probe idle_forged idle_by_token idle_identity idle_not_locked idle_session_hash
  idle_session_check idle_setup_user idle_setup_active idle_refuse_verification idle_verify_totp
  idle_workplace_code idle_invite : pres.
Hint Extern 2 (preserves (on_db (no_new _)) (db_write (set_user _ _))) => apply idle_set_user; by intros : pres.

(** A refusal that may change rows on its way out. *)
Lemma go_guard {B} token totp workplace b (c : M St unit) (k : M St B) s :
  raises c → preserves (on_db (no_new U)) c → on_db (no_new U) s →
  (b = false → outcome token totp workplace (k s).2) →
  outcome token totp workplace (bind (guard b c) (λ _, k) s).2.
Proof.
  intros Hr Hc Hs Hk. apply go; [destruct b; simpl; [done|solve_pres]|done|].
  intros [] s1 E _. apply guard_raises_inv in E as [Hb ->]; [by apply Hk|done].
Qed.

(** The last step, once everything is shown. *)
Lemma finish v token totp workplace s {A} (k : Z → M St A) :
  invited s0 token totp workplace v → on_db (new_only v) s →
  (∀ now, preserves (on_db (new_only v)) (k now)) →
  outcome token totp workplace ((now <- now_utc ;; k now) s).2.
Proof.
  intros Hv Hs Hk. right. exists v. split; [done|].
  assert (preserves (on_db (new_only v)) (now <- now_utc ;; k now)) as Hp by (solve_pres; apply Hk). by apply Hp.
Qed.

Lemma new_only_user v f : preserves (on_db (new_only v)) (db_write (set_user v f)).
Proof.
  apply pres_db_write. intros c w Hp v' Hv. destruct (Hp v' Hv) as [Hc Hw]. split; [done|].
  intros (u & Hu & Hs). apply Hw. exists u. split; [|done]. simpl in Hu. by rewrite lookup_alter_ne in Hu.
Qed.
Lemma new_only_other v f : (∀ d, users (f d) = users d) → preserves (on_db (new_only v)) (db_write f).
Proof. intros Hf. apply pres_db_write. intros c w Hp v' Hv. rewrite Hf. by apply Hp. Qed.
Lemma no_new_only v s : on_db (no_new U) s → on_db (new_only v) s.
Proof. intros Hs v' _. apply Hs. Qed.

Lemma setup_user_ok i s found s1 :
  setup_user_of i s = (Ok found, s1) → calm s → s1 = s
  ∧ ∀ v u, found = Some (v, u) → si_setup_user_id i = Some v ∧ U !! v = Some u.
Proof.
  unfold setup_user_of. intros E ([_ Hw] & _). destruct (si_setup_user_id i) as [v|]; [|by injection E as <- <-].
  destruct (v =? 0); [by injection E as <- <-|]. inv_bind E. unfold find_user, db_get, gets in E0.
  injection E0 as <- <-. unfold ret in E. injection E as <- <-. split; [done|]. intros v' u Hf.
  rewrite Hw in Hf. destruct (U !! v) as [u'|] eqn:Eu; [|done]. simpl in Hf. by injection Hf as <- <-.
Qed.

Lemma verify_outcome token totp workplace fields :
  calm s0 → outcome token totp workplace (verify_invite_acceptance token totp workplace fields s0).2.
Proof.
  intros H0. unfold verify_invite_acceptance. cbv zeta.
  apply go_calm; [apply calm_probe|solve_pres|done|]. intros [] s1 _ H1.
  apply go_calm; [apply calm_forged|solve_pres|done|]. intros [] s2 _ H2.
  apply go; [solve_pres|by apply calm_no_new|]. intros id s3 E _.
  apply by_token_ok in E as (H3 & i & Hi & Htok & Hopen); [|done].
  apply go_calm; [apply calm_identity|solve_pres|done|]. intros [] s4 _ H4.
  apply go_calm; [apply calm_not_locked|solve_pres|done|]. intros [] s5 E H5.
  apply not_locked_ok in E as (-> & i' & Hi' & Hunlocked); [|done]. rewrite Hi in Hi'. injection Hi' as <-.
  apply go_calm; [apply calm_session_hash|solve_pres|done|]. intros h s5 Eh H6.
  apply go_calm; [apply calm_session_check|solve_pres|done|]. intros [] s6 E H7.
  apply session_check_ok in E as (-> & Hh & i' & Hi' & Hbound); [|done]. rewrite Hi in Hi'. injection Hi' as <-.
  apply session_hash_ok in Eh as (-> & raw & Hraw & Hmac); [|done|done].
  apply go; [unfold load_invite; solve_pres|by apply calm_no_new|]. intros i' s5 E _.
  apply load_ok in E as (-> & i0 & Hi0 & Heq); [|by apply H4]. rewrite Hi in Hi0. injection Hi0 as <-.
  apply go; [apply idle_setup_user|by apply calm_no_new|]. intros found s5 E _.
  apply setup_user_ok in E as (-> & Hfound); [|done].
  apply go; [|by apply calm_no_new|].
  { destruct found as [[v u]|]; [|solve_pres]. destruct (_ && _); solve_pres. }
  intros [v2 u2] s5 E _. destruct found as [[v u]|]; [|by apply refuse_raises in E].
  destruct (_ && _) eqn:Eu in E; [|by apply refuse_raises in E]. unfold ret in E. injection E as <- <- <-.
  destruct (Hfound _ _ eq_refl) as [Hsetup Huser]. apply andb_prop in Eu as [Est Erole].
  apply bool_decide_eq_true in Est, Erole. cbn [fst snd].
  apply go_calm; [apply calm_setup_active|solve_pres|done|]. intros active s5 _ H5'.
  apply go_guard; [solve_raises|solve_pres|by apply calm_no_new|]. intros _.
  apply go_guard; [unfold refuse_verification; solve_raises|solve_pres|by apply calm_no_new|]. intros _.
  apply go; [solve_pres|by apply calm_no_new|]. intros o s6 Et Hn6.
  apply go_guard; [apply refuse_raises|solve_pres|done|]. intros _.
  apply go_guard; [unfold refuse_verification; solve_raises|solve_pres|done|].
  intros Ho%negb_false_iff%bool_decide_eq_true. subst o.
  apply totp_ok in Et as (Hcode & Hseen & Hlater); [|done].
  apply go; [solve_pres|done|]. intros wok s7 Ew Hn7.
  apply go_guard; [unfold refuse_verification; solve_raises|solve_pres|done|]. intros Hwok%negb_false_iff. subst wok.
  apply workplace_ok in Ew as (i1 & hm & ex & Hi1 & Hhm & Hsub & Hex & Hclk); [|done|done].
  rewrite Hi in Hi1. injection Hi1 as <-.
  eapply (finish v).
  - exists id, i, u, raw, h, hm, ex. split_and!; try done; by destruct Heq as [->|[t ->]].
  - by apply no_new_only.
  - intros now. unfold _clear_invite_acceptance_state, update_invite, _invite_audit_metadata, ref_entry, load_invite.
    solve_pres; try apply new_only_user; by apply new_only_other.
Qed.
End Checks.

(** ** An acceptance that has started cannot be taken back *)

Section Started.
Context `{Env} (id v : Z) (Hpostgres : postgresql = true).

(** The invite has the setup account [v], which the audit log names. *)
Definition held (d : Db) : Prop :=
  (∃ i, staff_invites d !! id = Some i ∧ si_setup_user_id i = Some v)
  ∧ is_Some (users d !! v) ∧ names_user v d = true.
Definition both_held (c w : Db) : Prop := held c ∧ held w.
Definition named (c w : Db) : Prop := names_user v c = true ∧ names_user v w = true.

Lemma names_append e d : names_user v d = true → names_user v (append_event e d) = true.
Proof. unfold names_user. simpl. intros Hn. rewrite existsb_app. by rewrite Hn. Qed.
#[local] Instance named_portal : portal_blind named.
Proof.
  split; [split|]; intros *; intros [? ?]; (split; [done|]); try done. by apply names_append.
Qed.
#[local] Instance held_security : security_blind both_held.
Proof.
  split; [split|..]; intros *; intros [? (Hi & Hu & Hn)]; (split; [done|]); try done.
  - split_and!; [done..|by apply names_append].
  - split_and!; try done. simpl. destruct Hu as [u' Hu].
    destruct (decide (v = u)) as [->|Hne]; [rewrite lookup_alter_eq, Hu|rewrite lookup_alter_ne, Hu by done]; by eexists.
Qed.
#[local] Instance held_portal : portal_blind both_held.
Proof. split; [apply _|]. by intros f c w [? ?]. Qed.
Hint Extern 0 (preserves _ (find_user _)) => unfold find_user : pres.
Hint Extern 0 (preserves _ (find_invite _)) => unfold find_invite : pres.
Hint Extern 0 (preserves _ (load_invite _)) => unfold load_invite : pres.


Lemma named_write f : (∀ d, security_audit_events (f d) = security_audit_events d) → preserves (on_db named) (db_write f).
Proof. intros Hf. apply pres_db_write. intros c w [? ?]. split; [done|]. unfold names_user. by rewrite Hf. Qed.
Hint Extern 1 (preserves (on_db named) (update_invite _ _)) => apply named_write; reflexivity : pres.



Lemma named_metadata : preserves (on_db named) (_invite_audit_metadata id).
Proof. unfold _invite_audit_metadata. solve_pres. Qed.
Hint Resolve named_metadata : pres.

End Started.

(** Every other call. *)
Lemma other_calls `{Env} U r :
  (∀ token totp workplace fields, r ≠ Verify token totp workplace fields) → preserves (on_db (no_new U)) (invite_act r).
Proof.
  intros Hr. destruct r; simpl; [..|by destruct (Hr token totp workplace fields)];
    (apply pres_bind; [|intros ?; apply pres_ret]).
  - apply idle_create.
  - apply idle_resend.
  - apply idle_revoke.
  - apply idle_reissue.
  - apply idle_reset_acceptance.
  - apply idle_info.
  - apply idle_begin.
Qed.
End InviteSafety.
Import InviteSafety AdminAccess StaffInvites.

(** C21: Nobody becomes staff without both codes.  Whatever is called on staff
    invites and however the call ends, an account that is durably active was
    active before, or the call is the verification of an acceptance and showed all
    of it: the token of an invite that is open, unexpired and not locked, the
    browser session that started the acceptance, a setup account with the invite's
    role, an accepted authenticator code of that account and the unexpired code
    mailed to the workplace address. *)
Theorem staff_activation_needs_both_codes `{Env} r s :
  working s = committed s → ∀ v, is_active (users (committed (invite_act r s).2)) v →
  is_active (users (committed s)) v
  ∨ ∃ token totp workplace fields, r = Verify token totp workplace fields ∧ invited s token totp workplace v.
Proof.
  intros Hclean v Hv.
  assert ((∃ token totp workplace fields, r = Verify token totp workplace fields)
    ∨ ∀ token totp workplace fields, r ≠ Verify token totp workplace fields)
    as [(token & totp & workplace & fields & ->)|Hr] by (destruct r; naive_solver).
  - assert (calm s s) as Hs.
    { split_and!; [by split; [|rewrite Hclean]| |done|apply Z.le_refl].
      split; [|rewrite Hclean]; apply as_stored_refl. }
    pose proof (verify_outcome s token totp workplace fields Hs) as Ho. revert Hv. simpl. unfold bind.
    destruct (verify_invite_acceptance token totp workplace fields s) as [[d|e] s'];
      (intros Hv; destruct Ho as [Hn|(v' & Hinv & Hn)];
       [left; by apply (proj1 (Hn v))|destruct (decide (v = v')) as [->|Hne];
         [right; by exists token, totp, workplace, fields|left; by apply (proj1 (Hn v Hne))]]).
  - left. assert (on_db (no_new (users (committed s))) s) as Hs by (intros v'; unfold on_db; by rewrite Hclean).
    by apply (proj1 (other_calls (users (committed s)) r Hr s Hs v)).
Qed.

(** ** Witness: ruth invites nina, who accepts *)

Definition invite_config (name : string) : option jval :=
  match assoc name
    [("STAFF_INVITE_TTL_SECONDS", JInt 86400); ("STAFF_WORKPLACE_VERIFICATION_TTL_SECONDS", JInt 600);
     ("PENDING_MFA_MAX_AGE_SECONDS", JInt 600)] with
  | Some v => Some v
  | None => Sample.sample_config name
  end.
Definition link (n : Z) : string := "tttttttttttttttttttttttttttttttttttttttt" +:+ pad 3 n.
Definition invite_env : Env :=
  Sample.deployment_with invite_config (λ k m, str_last 64 (k +:+ m)) (λ n, link (Z.of_nat n)) None.
Definition invites_start : St :=
  mkSt Sample.portal_db Sample.portal_db Sample.noon 0 ∅ (Some "sid-0") [] ∅ ∅.
Definition staff_code (s : St) : string := @totp_at invite_env "SECRET" (clock s / US_SECOND).
Definition serve_invite (r : InviteCall) (s : St) : St :=
  let s' := (@invite_act invite_env r s).2 in set_working (committed s') s'.
Definition nina_invited : St :=
  serve_invite (Create 3 "nina@bank.example" "staff" (Some (staff_code invites_start))) invites_start.
Definition nina_started : St :=
  serve_invite (Begin (link 7) "Nina Lim" "91234567" "correct horse battery 9!" "correct horse battery 9!" None [])
    nina_invited.
Definition nina_code : string := @totp_at invite_env "SECRET" (clock nina_started / US_SECOND + 10).
Definition nina_verifies : InviteCall := Verify (link 7) nina_code "000033" [].


Lemma active_status T v : (u_account_status <$> T !! v) = Some "active" → is_active T v.
Proof. intros Hs. destruct (T !! v) as [u|] eqn:E; [|done]. exists u. by injection Hs. Qed.
Lemma other_status T v st : (u_account_status <$> T !! v) = Some st → st ≠ "active" → ¬ is_active T v.
Proof. intros Hs Hne (u & Hu & Ha). rewrite Hu in Hs. simpl in Hs. rewrite Ha in Hs. by injection Hs. Qed.

Lemma same_verification `{Env} s v t a w f token totp workplace fields :
  Verify t a w f = Verify token totp workplace fields → invited s token totp workplace v → invited s t a w v.
Proof. by intros [= -> -> -> ->]. Qed.

Lemma staff_activation_witness :
  (u_account_status <$> users (committed nina_started) !! 6) = Some "setup_pending"
  ∧ is_active (users (committed (@invite_act invite_env nina_verifies nina_started).2)) 6
  ∧ @invited invite_env nina_started (link 7) nina_code "000033" 6.
Proof.
  assert ((u_account_status <$> users (committed (@invite_act invite_env nina_verifies nina_started).2) !! 6)
    = Some "active") as Hdone by (vm_compute; reflexivity).
  assert ((u_account_status <$> users (committed nina_started) !! 6) = Some "setup_pending") as Hwas
    by (vm_compute; reflexivity).
  assert ("setup_pending" ≠ "active") as Hne by discriminate.
  split; [exact Hwas|]. split; [exact (active_status _ _ Hdone)|].
  destruct (@staff_activation_needs_both_codes invite_env nina_verifies nina_started eq_refl 6
    (active_status _ _ Hdone)) as [Ha|(token & totp & workplace & fields & Hr & Hi)].
  - destruct (other_status _ _ _ Hwas Hne Ha).
  - exact (@same_verification invite_env nina_started 6 (link 7) nina_code "000033" [] token totp workplace fields Hr Hi).
Defined.

(** ** What a root administrator cannot do *)




(** On a database without the trigger, such as the one the tests run on, the reset
    of the same acceptance succeeds, and the setup account is gone. *)
Definition other_database : Env :=
  Sample.deployment_of (Sample.mkOutside invite_config (λ k m, str_last 64 (k +:+ m)) (λ n, link (Z.of_nat n)) None
    (λ _, None) None (λ _ _ _, false) (λ _, None) ["password"] false).
Definition reset_elsewhere :=
  @reset_staff_invite_acceptance other_database 4 1 (Some (staff_code nina_started)) nina_started.
Example reset_succeeds_elsewhere :
  is_ok reset_elsewhere.1 = true ∧ users (committed reset_elsewhere.2) !! 6 = None
  ∧ names_user 6 (committed reset_elsewhere.2) = false.
Proof. vm_compute. done. Qed.
