(* ===== verification/StaffWork.v ===== *)
(** * Staff work ([app/admin/services.py], [app/web/routes.py])

    Customers report issues with their transactions and ask for support; plain
    staff reviews the reports and tickets, freezes accounts under suspicion and
    lifts freezes customers placed themselves. *)

From S2P Require Import Prelude PyStr TimeModel Schema Runtime Sample Canonical Integrity AuditLog MfaCrypto.
From S2P Require Import SessionRisk BankingPolicy Notifications Sessions RateLimits Mfa SignIn Account.
From S2P Require Import ManualRecovery AdminAccess AdminActions.
Open Scope string_scope.
Open Scope Z_scope.

Module StaffWork.
Import SessionHmac Audit SessionRisk Policy Notifications Sessions RateLimits Mfa SignIn Account.
Import AdminAccess AdminActions.

Definition DISPUTE_STATUS_TRANSITIONS (status : string) : list string :=
  if bool_decide (status = "open") then ["under_review"; "resolved"; "rejected"]
  else if bool_decide (status = "under_review") then ["resolved"; "rejected"]
  else [].
Definition SUPPORT_TICKET_STATUS_TRANSITIONS (status : string) : list string :=
  if bool_decide (status = "open") then ["in_review"; "resolved"; "closed"]
  else if bool_decide (status = "in_review") then ["resolved"; "closed"]
  else [].

(** The rows as the status change leaves them. *)
Definition decide_dispute (status : string) (resolver : Z) (note : option string) (decided_at : option Z)
    (t : TransactionDispute) : TransactionDispute :=
  mkTransactionDispute (td_transaction_id t) (td_reporter_id t) (td_issue_type t) (td_reason t) status
    (Some resolver) note (td_created_at t) (td_updated_at t) decided_at.
Definition decide_ticket (status : string) (resolver : Z) (note : option string) (resolved_at : option Z)
    (t : SupportTicket) : SupportTicket :=
  mkSupportTicket (st_user_id t) (st_category t) (st_subject t) (st_description t) status
    (Some resolver) note (st_created_at t) (st_updated_at t) resolved_at.

Definition newest_dispute (x y : Z * TransactionDispute) : bool :=
  (td_created_at y.2 <? td_created_at x.2)
  || (td_created_at x.2 =? td_created_at y.2) && (y.1 <=? x.1).
Definition newest_ticket (x y : Z * SupportTicket) : bool :=
  (st_created_at y.2 <? st_created_at x.2)
  || (st_created_at x.2 =? st_created_at y.2) && (y.1 <=? x.1).

(** [note_text or None]. *)
Definition note_of (resolution_note : option string) : option string :=
  let note_text := strip (or_empty resolution_note) in
  if nonempty note_text then Some note_text else None.

Section StaffWork.
Context `{Env}.

(** ** Customers *)

Definition owns (user_id : Z) (t : Transaction) : bool :=
  (tx_sender_id t =? user_id) || (tx_recipient_id t =? user_id).

Definition _owned_transaction_or_404 (user_id transaction_id : Z) : M St Transaction :=
  found <- db_get (λ d, transactions d !! transaction_id) ;;
  match found with
  | Some t => if owns user_id t then ret t else raise NotFound
  | None => raise NotFound
  end.

Definition _open_dispute_for_transaction (transaction_id : Z) : M St (option (Z * TransactionDispute)) :=
  db_query (λ d, one_or_none (λ t, (td_transaction_id t =? transaction_id)
                                   && str_in (td_status t) DISPUTE_OPEN_STATUSES) (transaction_disputes d)).

(** What a page answers with. *)
Inductive ReportOutcome : Type :=
  | FormInvalid
  | AlreadyOpen
  | TooManyReports
  | Reported.

Definition report_insert (user_id transaction_id : Z) (issue_type reason : string) : M St unit :=
  created_at <- now_utc ;;
  updated_at <- now_utc ;;
  id <- db_get (λ d, next_id (transaction_disputes d)) ;;
  _ <- db_write (upd_transaction_disputes (<[id := mkTransactionDispute transaction_id user_id issue_type
         (strip reason) "open" None None created_at updated_at None]>)) ;;
  flush.

Definition transaction_dispute_create (user_id transaction_id : Z) (form : option (string * string))
    : M St ReportOutcome :=
  txn <- _owned_transaction_or_404 user_id transaction_id ;;
  match form with
  | None => ret FormInvalid
  | Some (issue_type, reason) =>
      open_dispute <- _open_dispute_for_transaction transaction_id ;;
      if bool_decide (is_Some open_dispute) then ret AlreadyOpen
      else
        limited <- try_except
          (_ <- consume_durable_rate_limit "transaction_dispute_create" ("user:" +:+ pretty user_id) 5 (24 * 60 * 60) ;;
           ret false) is_durable_limit
          (λ e, _ <- audit_event "transaction_dispute_create" "blocked" (Some user_id)
                       [("reason", JStr "durable_rate_limit"); ("retry_after", JInt (limit_retry e))] ;;
                ret true) ;;
        if (limited : bool) then ret TooManyReports
        else
          try_except
            (_ <- report_insert user_id transaction_id issue_type reason ;;
             transaction_ref <- lift (audit_reference "transaction" (tx_transaction_ref txn)) ;;
             _ <- audit_event_required "transaction_dispute_create" "success" (Some user_id)
                    [("transaction_ref", jopt_str transaction_ref); ("issue_type", JStr issue_type);
                     ("reason_length", JInt (Z.of_nat (slen (strip reason))))] ;;
             _ <- commit ;;
             ret Reported)
            (λ e, is_integrity_error e || is_audit_write_error e)
            (λ e, _ <- rollback ;;
                  if is_integrity_error e then ret AlreadyOpen else raise e)
  end.

Definition my_disputes (user_id : Z) : M St (list (Z * TransactionDispute)) :=
  db_get (λ d, sort_by newest_dispute (rows_where (λ t, td_reporter_id t =? user_id) (transaction_disputes d))).

Definition ticket_insert (user_id : Z) (category subject description : string) : M St unit :=
  created_at <- now_utc ;;
  updated_at <- now_utc ;;
  id <- db_get (λ d, next_id (support_tickets d)) ;;
  _ <- db_write (upd_support_tickets (<[id := mkSupportTicket user_id category (strip subject) (strip description)
         "open" None None created_at updated_at None]>)) ;;
  flush.

Definition support_contact_submit (user_id : Z) (form : option (string * string * string)) : M St ReportOutcome :=
  match form with
  | None => ret FormInvalid
  | Some (category, subject, description) =>
      limited <- try_except
        (_ <- consume_durable_rate_limit "support_ticket_create" ("user:" +:+ pretty user_id) 5 (24 * 60 * 60) ;;
         ret false) is_durable_limit
        (λ e, _ <- audit_event "support_ticket_create" "blocked" (Some user_id)
                     [("reason", JStr "durable_rate_limit"); ("retry_after", JInt (limit_retry e))] ;;
              ret true) ;;
      if (limited : bool) then ret TooManyReports
      else
        try_except
          (_ <- ticket_insert user_id category subject description ;;
           _ <- audit_event_required "support_ticket_create" "success" (Some user_id)
                  [("category", JStr category); ("subject_length", JInt (Z.of_nat (slen (strip subject))));
                   ("description_length", JInt (Z.of_nat (slen (strip description))))] ;;
           _ <- commit ;;
           ret Reported)
          is_audit_write_error (λ e, _ <- rollback ;; raise e)
  end.

(** ** Issue reports *)

Definition _transaction_dispute_or_404 (dispute_id : Z) : M St TransactionDispute :=
  found <- db_get (λ d, transaction_disputes d !! dispute_id) ;;
  match found with
  | Some t => ret t
  | None => raise (AuthError "Not found" 404 None)
  end.

Definition ref_or_null (namespace : string) (id : option Z) : res jval :=
  match id with
  | Some i => if i =? 0 then Ok JNull else rbind (id_reference namespace i) (λ r, Ok (jopt_str r))
  | None => Ok JNull
  end.

Definition public_transaction_dispute (dispute_id : Z) : M St dict :=
  t <- db_query (λ d, match transaction_disputes d !! dispute_id with Some t => Ok t | None => Raise NoResultFound end) ;;
  transaction <- db_get (λ d, transactions d !! td_transaction_id t) ;;
  reporter <- find_user (td_reporter_id t) ;;
  reporter_ref <- lift (id_reference "customer_user" (td_reporter_id t)) ;;
  resolver_ref <- lift (ref_or_null "staff_user" (td_resolver_id t)) ;;
  ret [("id", JInt dispute_id); ("transaction_id", JInt (td_transaction_id t));
       ("transaction_ref", jopt_str (tx_transaction_ref <$> transaction)); ("reporter_ref", jopt_str reporter_ref);
       ("reporter_username", jopt_str (u_username <$> reporter)); ("issue_type", JStr (td_issue_type t));
       ("reason", JStr (td_reason t)); ("status", JStr (td_status t)); ("resolver_ref", resolver_ref);
       ("resolution_note", jopt_str (td_resolution_note t)); ("created_at", iso_or_null (Some (td_created_at t)));
       ("created_at_display", display_or_null (Some (td_created_at t)));
       ("decided_at", iso_or_null (td_decided_at t)); ("decided_at_display", display_or_null (td_decided_at t))].

(** A read that is recorded, or does not happen. *)
Definition recorded_read (event_type : string) (actor : Z) (metadata : dict) : M St unit :=
  try_except (_ <- audit_event_required event_type "success" (Some actor) metadata ;; commit)
    is_audit_write_error (λ e, _ <- rollback ;; raise e).

Definition disputes_for_staff (actor : Z) : M St (list dict) :=
  _ <- _require_plain_staff actor "dispute_queue_review" ;;
  disputes <- db_get (λ d, sort_by newest_dispute (map_to_list (transaction_disputes d))) ;;
  _ <- recorded_read "dispute_queue_review" actor [] ;;
  mapM_dicts (λ '(id, _), public_transaction_dispute id) disputes.

Definition dispute_detail_for_staff (actor dispute_id : Z) : M St dict :=
  _ <- _require_plain_staff actor "dispute_detail_view" ;;
  _ <- _transaction_dispute_or_404 dispute_id ;;
  _ <- (dispute_ref <- ref_entry "dispute_ref" "transaction_dispute" dispute_id ;;
        recorded_read "dispute_detail_view" actor [dispute_ref]) ;;
  public_transaction_dispute dispute_id.

Definition refuse_transition {A} (actor : Z) (event reason ref_key ref_namespace : string) (id : Z)
    (from_status to_status message : string) : M St A :=
  ref <- ref_entry ref_key ref_namespace id ;;
  refuse (Some actor) event "blocked"
    [("reason", JStr reason); ref; ("from_status", JStr from_status); ("to_status", JStr to_status)] message 409.

(** The recorded status change, or nothing. *)
Definition record_transition (actor : Z) (event ref_key ref_namespace : string) (id : Z)
    (from_status to_status : string) : M St unit :=
  try_except
    (ref <- ref_entry ref_key ref_namespace id ;;
     _ <- audit_event_required event "success" (Some actor)
            [ref; ("from_status", JStr from_status); ("to_status", JStr to_status)] ;;
     commit)
    is_audit_write_error (λ e, _ <- rollback ;; raise e).

Definition transition_dispute_status_for_staff (actor dispute_id : Z) (new_status : string)
    (resolution_note : option string) : M St dict :=
  let event := "transaction_dispute_status_change" in
  _ <- _require_plain_staff actor event ;;
  dispute <- _transaction_dispute_or_404 dispute_id ;;
  let from_status := td_status dispute in
  _ <- guard (negb (str_in new_status (DISPUTE_STATUS_TRANSITIONS from_status)))
         (refuse_transition actor event "illegal_transition" "dispute_ref" "transaction_dispute" dispute_id
            from_status new_status "Invalid status transition") ;;
  decided_at <- (if str_in new_status ["resolved"; "rejected"] then now <- now_utc ;; ret (Some now)
                 else ret (td_decided_at dispute)) ;;
  let change := decide_dispute new_status actor (note_of resolution_note) decided_at in
  (* the UPDATE applies while the status is the one that was read *)
  rowcount <- db_get (λ d, match transaction_disputes d !! dispute_id with
                           | Some t => if bool_decide (td_status t = from_status) then 1 else 0
                           | None => 0
                           end) ;;
  _ <- guard (negb (rowcount =? 1))
         (_ <- rollback ;;
          refuse_transition actor event "stale_transition" "dispute_ref" "transaction_dispute" dispute_id
            from_status new_status "Dispute was already updated by another reviewer") ;;
  _ <- db_write (upd_transaction_disputes (alter change dispute_id)) ;;
  _ <- record_transition actor event "dispute_ref" "transaction_dispute" dispute_id from_status new_status ;;
  public_transaction_dispute dispute_id.

(** ** Support tickets *)

Definition _support_ticket_or_404 (ticket_id : Z) : M St SupportTicket :=
  found <- db_get (λ d, support_tickets d !! ticket_id) ;;
  match found with
  | Some t => ret t
  | None => raise (AuthError "Not found" 404 None)
  end.

Definition public_support_ticket (ticket_id : Z) (include_detail : bool) : M St dict :=
  t <- db_query (λ d, match support_tickets d !! ticket_id with Some t => Ok t | None => Raise NoResultFound end) ;;
  reporter <- find_user (st_user_id t) ;;
  reporter_ref <- lift (id_reference "customer_user" (st_user_id t)) ;;
  resolved_by_ref <- lift (ref_or_null "staff_user" (st_resolved_by_user_id t)) ;;
  ret ([("id", JInt ticket_id); ("reporter_ref", jopt_str reporter_ref);
        ("reporter_username", jopt_str (u_username <$> reporter)); ("category", JStr (st_category t));
        ("subject", JStr (st_subject t)); ("status", JStr (st_status t)); ("resolved_by_ref", resolved_by_ref);
        ("created_at", iso_or_null (Some (st_created_at t)));
        ("created_at_display", display_or_null (Some (st_created_at t)));
        ("resolved_at", iso_or_null (st_resolved_at t)); ("resolved_at_display", display_or_null (st_resolved_at t))]
       ++ if include_detail then [("description", JStr (st_description t));
                                  ("resolution_note", jopt_str (st_resolution_note t))] else [])%list.

Definition support_tickets_for_staff (actor : Z) : M St (list dict) :=
  _ <- _require_plain_staff actor "support_ticket_queue_review" ;;
  tickets <- db_get (λ d, sort_by newest_ticket (map_to_list (support_tickets d))) ;;
  _ <- recorded_read "support_ticket_queue_review" actor [] ;;
  mapM_dicts (λ '(id, _), public_support_ticket id false) tickets.

Definition support_ticket_detail_for_staff (actor ticket_id : Z) : M St dict :=
  _ <- _require_plain_staff actor "support_ticket_detail_view" ;;
  _ <- _support_ticket_or_404 ticket_id ;;
  _ <- (ticket_ref <- ref_entry "ticket_ref" "support_ticket" ticket_id ;;
        recorded_read "support_ticket_detail_view" actor [ticket_ref]) ;;
  public_support_ticket ticket_id true.

Definition transition_support_ticket_status_for_staff (actor ticket_id : Z) (new_status : string)
    (resolution_note : option string) : M St dict :=
  let event := "support_ticket_status_change" in
  _ <- _require_plain_staff actor event ;;
  ticket <- _support_ticket_or_404 ticket_id ;;
  let from_status := st_status ticket in
  _ <- guard (negb (str_in new_status (SUPPORT_TICKET_STATUS_TRANSITIONS from_status)))
         (refuse_transition actor event "illegal_transition" "ticket_ref" "support_ticket" ticket_id
            from_status new_status "Invalid status transition") ;;
  resolved_at <- (if str_in new_status ["resolved"; "closed"] then now <- now_utc ;; ret (Some now)
                  else ret (st_resolved_at ticket)) ;;
  let change := decide_ticket new_status actor (note_of resolution_note) resolved_at in
  rowcount <- db_get (λ d, match support_tickets d !! ticket_id with
                           | Some t => if bool_decide (st_status t = from_status) then 1 else 0
                           | None => 0
                           end) ;;
  _ <- guard (negb (rowcount =? 1))
         (_ <- rollback ;;
          refuse_transition actor event "stale_transition" "ticket_ref" "support_ticket" ticket_id
            from_status new_status "Support ticket was already updated by another reviewer") ;;
  _ <- db_write (upd_support_tickets (alter change ticket_id)) ;;
  _ <- record_transition actor event "ticket_ref" "support_ticket" ticket_id from_status new_status ;;
  public_support_ticket ticket_id true.

(** ** Freezing and unfreezing customers *)

Definition customer_entry (customer_id : Z) (customer : User) : M St dict :=
  customer_ref <- ref_entry "customer_ref" "customer_user" customer_id ;;
  ret [("id", JInt customer_id); customer_ref; ("username", JStr (u_username customer))].

Definition _is_voluntary_customer_self_freeze (user : option User) : bool :=
  match user with
  | Some u => bool_decide (u_account_type u = ACCOUNT_CUSTOMER) && u_is_frozen u
              && negb (bool_decide (is_Some (u_security_lock_reason u)))
  | None => false
  end.

Definition self_frozen_customers_for_staff (actor : Z) : M St (list dict) :=
  _ <- _require_plain_staff actor "customer_self_freeze_review" ;;
  customers <- db_get (λ d, sort_by (λ x y, x.1 <=? y.1)
                 (rows_where (λ u, _is_voluntary_customer_self_freeze (Some u)) (users d))) ;;
  _ <- audit_event "customer_self_freeze_review" "success" (Some actor) [] ;;
  mapM_dicts (λ '(id, u), customer_entry id u) customers.

Definition target_not_eligible {A} (target_user_id actor : Z) (event_type message : string) : M St A :=
  target_ref <- ref_entry "target_customer_ref" "customer_user" target_user_id ;;
  refuse (Some actor) event_type "blocked" [("reason", JStr "target_not_eligible"); target_ref] message 409.

Definition _self_frozen_customer_for_update (target_user_id actor : Z) (event_type : string) : M St unit :=
  target <- find_user target_user_id ;;
  if _is_voluntary_customer_self_freeze target then ret tt
  else target_not_eligible target_user_id actor event_type
         "Customer account is not eligible for this unfreeze action".

(** The refusal of a step-up on a customer's account. *)
Definition refuse_customer_step_up (actor target_user_id : Z) (event : string) : M St unit :=
  target_ref <- ref_entry "target_customer_ref" "customer_user" target_user_id ;;
  refuse (Some actor) event "failure" [("reason", JStr "invalid_totp_step_up"); target_ref]
    FRESH_MFA_REQUIRED_ERROR 403.

Definition unfreeze_customer_as_staff (actor target_user_id : Z) (reason : string) (totp_code : option string)
    : M St dict :=
  let event := "customer_self_freeze_unlock" in
  _ <- _require_plain_staff actor event ;;
  clean_reason <- _require_manual_recovery_reason reason event actor ;;
  _ <- _self_frozen_customer_for_update target_user_id actor event ;;
  _ <- _assert_not_self_customer_action actor target_user_id event ;;
  _ <- step_up_or actor totp_code event (refuse_customer_step_up actor target_user_id event) ;;
  _ <- db_write (set_user target_user_id (set_u_is_frozen false)) ;;
  revoked_sessions <- revoke_all_sessions target_user_id event (Some "customer") ;;
  target_ref <- ref_entry "target_customer_ref" "customer_user" target_user_id ;;
  user <- load_user actor ;;
  _ <- audit_event_required event "success" (Some actor)
         [target_ref; ("actor_role", JStr (u_account_type user)); ("revoked_sessions", JInt revoked_sessions);
          ("reason", JStr clean_reason)] ;;
  _ <- commit ;;
  customer_ref <- ref_entry "customer_ref" "customer_user" target_user_id ;;
  ret [("message", JStr "Customer account unfrozen"); customer_ref; ("revoked_sessions", JInt revoked_sessions)].

Definition customer_lookup_for_staff_freeze (actor : Z) (identifier : string) : M St (option dict) :=
  _ <- _require_plain_staff actor "customer_freeze_lookup" ;;
  let normalized := casefold (strip identifier) in
  if negb (nonempty normalized) then ret None
  else
    target <- db_query (λ d, one_or_none (λ u,
                (bool_decide (casefold (u_username u) = normalized) || bool_decide (casefold (u_email u) = normalized))
                && bool_decide (u_account_type u = ACCOUNT_CUSTOMER) && negb (u_is_frozen u)
                && bool_decide (u_account_status u = "active")) (users d)) ;;
    _ <- audit_event "customer_freeze_lookup" (if bool_decide (is_Some target) then "success" else "not_found")
           (Some actor) [] ;;
    match target with
    | Some (id, u) => entry <- customer_entry id u ;; ret (Some entry)
    | None => ret None
    end.

Definition _active_customer_for_freeze_update (target_user_id actor : Z) (event_type : string) : M St unit :=
  target <- find_user target_user_id ;;
  if match target with
     | Some u => bool_decide (u_account_type u = ACCOUNT_CUSTOMER) && negb (u_is_frozen u)
                 && bool_decide (u_account_status u = "active")
     | None => false
     end then ret tt
  else target_not_eligible target_user_id actor event_type
         "Customer account is not eligible for this freeze action".

Definition _send_staff_freeze_notification (customer_id : Z) : M St unit :=
  sent <- try_except
    (customer <- load_user customer_id ;;
     _ <- send_security_email (u_email customer) "SITBank account frozen by staff"
       ("SITBank staff froze your account as part of a security review, for example a "
          +:+ "suspected fraudulent transaction or a compromised account. Contact SITBank "
          +:+ "support through the approved recovery path to review and resolve this.") ;;
     ret true) any_exn
    (λ _, _ <- audit_event "staff_freeze_notification" "failure" (Some customer_id)
                 [("reason", JStr "email_delivery_failed")] ;;
          ret false) ;;
  guard sent (audit_event "staff_freeze_notification" "queued" (Some customer_id) []).

(** The account as a freeze by staff leaves it. *)
Definition staff_frozen (now : Z) (u : User) : User :=
  set_u_security_locked_at (Some now) (set_u_security_lock_reason (Some STAFF_FRAUD_FREEZE_REASON)
    (set_u_is_frozen true u)).

Definition freeze_customer_as_staff (actor target_user_id : Z) (reason : string) (totp_code : option string)
    : M St dict :=
  let event := "customer_freeze_as_staff" in
  _ <- _require_plain_staff actor event ;;
  clean_reason <- _require_manual_recovery_reason reason event actor ;;
  _ <- _active_customer_for_freeze_update target_user_id actor event ;;
  _ <- _assert_not_self_customer_action actor target_user_id event ;;
  _ <- step_up_or actor totp_code event (refuse_customer_step_up actor target_user_id event) ;;
  now <- now_utc ;;
  _ <- db_write (set_user target_user_id (staff_frozen now)) ;;
  revoked_sessions <- revoke_all_sessions target_user_id event (Some "customer") ;;
  _ <- try_except
         (target_ref <- ref_entry "target_customer_ref" "customer_user" target_user_id ;;
          user <- load_user actor ;;
          audit_event_required event "success" (Some actor)
            [target_ref; ("actor_role", JStr (u_account_type user)); ("revoked_sessions", JInt revoked_sessions);
             ("reason", JStr clean_reason)])
         is_audit_write_error (λ e, _ <- rollback ;; raise e) ;;
  _ <- commit ;;
  _ <- _send_staff_freeze_notification target_user_id ;;
  customer_ref <- ref_entry "customer_ref" "customer_user" target_user_id ;;
  ret [("message", JStr "Customer account frozen"); customer_ref; ("revoked_sessions", JInt revoked_sessions)].

End StaffWork.
End StaffWork.
