(* ===== verification/StaffSafety.v ===== *)
(** * What staff work can and cannot do

    Reports and tickets move through their states one recorded step at a time,
    and nothing is read or decided without a record.  Staff never lifts a lock:
    the accounts it unfreezes are those their owners froze. *)

From S2P Require Import Prelude PyStr TimeModel Schema Runtime Sample Canonical Integrity AuditLog MfaCrypto.
From S2P Require Import SessionRisk BankingPolicy Notifications Sessions RateLimits Mfa SignIn Account.
From S2P Require Import ManualRecovery AdminAccess AdminActions AdminSafety StaffWork.
Open Scope string_scope.
Open Scope Z_scope.

Module StaffSafety.
Import SessionHmac Audit MfaCrypto SessionRisk Policy Notifications Sessions RateLimits Mfa SignIn Account.
Import AdminAccess AdminActions AdminSafety StaffWork.

#[local] Hint Constants Opaque : pres.
#[local] Hint Extern 0 (preserves _ (find_user _)) => unfold find_user : pres.

(** ** The calls *)

Inductive ReviewCall : Type :=
  | Report (transaction_id : Z) (form : option (string * string))
  | Contact (form : option (string * string * string))
  | ReadDisputes
  | ReadDispute (id : Z)
  | DecideDispute (id : Z) (status : string) (note : option string)
  | ReadTickets
  | ReadTicket (id : Z)
  | DecideTicket (id : Z) (status : string) (note : option string).

Definition succeeded {A} (c : M St A) : M St bool := _ <- c ;; ret true.
Definition reported (c : M St ReportOutcome) : M St bool :=
  o <- c ;; ret (match o with Reported => true | _ => false end).

(** Runs a call; the answer tells whether it did what was asked. *)
Definition review_act `{Env} (actor : Z) (r : ReviewCall) : M St bool :=
  match r with
  | Report id form => reported (transaction_dispute_create actor id form)
  | Contact form => reported (support_contact_submit actor form)
  | ReadDisputes => succeeded (disputes_for_staff actor)
  | ReadDispute id => succeeded (dispute_detail_for_staff actor id)
  | DecideDispute id status note => succeeded (transition_dispute_status_for_staff actor id status note)
  | ReadTickets => succeeded (support_tickets_for_staff actor)
  | ReadTicket id => succeeded (support_ticket_detail_for_staff actor id)
  | DecideTicket id status note => succeeded (transition_support_ticket_status_for_staff actor id status note)
  end.

Definition event_of (r : ReviewCall) : string :=
  match r with
  | Report _ _ => "transaction_dispute_create"
  | Contact _ => "support_ticket_create"
  | ReadDisputes => "dispute_queue_review"
  | ReadDispute _ => "dispute_detail_view"
  | DecideDispute _ _ _ => "transaction_dispute_status_change"
  | ReadTickets => "support_ticket_queue_review"
  | ReadTicket _ => "support_ticket_detail_view"
  | DecideTicket _ _ _ => "support_ticket_status_change"
  end.

(** ** The lifecycle *)

Definition by_staff (d : Db) (actor : Z) : Prop := is_plain_staff_user (users d !! actor) = true.

Inductive dispute_step (d : Db) (actor : Z) (T : gmap Z TransactionDispute)
    : gmap Z TransactionDispute → Prop :=
  | dispute_reported id t txn issue reason created updated :
      T !! id = None → transactions d !! t = Some txn → owns actor txn = true →
      (∀ j x, T !! j = Some x → td_transaction_id x = t → str_in (td_status x) DISPUTE_OPEN_STATUSES = false) →
      dispute_step d actor T
        (<[id := mkTransactionDispute t actor issue reason "open" None None created updated None]> T)
  | dispute_decided id x status note at_ :
      by_staff d actor → T !! id = Some x → str_in status (DISPUTE_STATUS_TRANSITIONS (td_status x)) = true →
      dispute_step d actor T (<[id := decide_dispute status actor note at_ x]> T).

Inductive ticket_step (d : Db) (actor : Z) (T : gmap Z SupportTicket) : gmap Z SupportTicket → Prop :=
  | ticket_opened id category subject description created updated :
      T !! id = None →
      ticket_step d actor T
        (<[id := mkSupportTicket actor category subject description "open" None None created updated None]> T)
  | ticket_decided id x status note at_ :
      by_staff d actor → T !! id = Some x → str_in status (SUPPORT_TICKET_STATUS_TRANSITIONS (st_status x)) = true →
      ticket_step d actor T (<[id := decide_ticket status actor note at_ x]> T).

(** The log [L'] holds a new record of the call. *)
Definition recorded (r : ReviewCall) (actor : Z) (L L' : list SecurityAuditEvent) : Prop :=
  ∃ n e, L' !! n = Some e ∧ (length L ≤ n)%nat ∧ names_event (event_of r) "success" (Some actor) e.

(** ** Frames *)

Section Review.
Context `{Env} (d : Db) (actor : Z) (r : ReviewCall).
Notation T := (transaction_disputes d).
Notation K := (support_tickets d).
Notation L := (security_audit_events d).

(** The tables of reviews are [T'] and [K']; the log has only grown. *)
Definition review_tables (T' : gmap Z TransactionDispute) (K' : gmap Z SupportTicket) (c w : Db) : Prop :=
  (transaction_disputes c = T' ∧ support_tickets c = K' ∧ L `prefix_of` security_audit_events c)
  ∧ (transaction_disputes w = T' ∧ support_tickets w = K' ∧ L `prefix_of` security_audit_events w).
#[local] Instance review_portal T' K' : portal_blind (review_tables T' K').
Proof.
  split; [split|]; unfold review_tables; intros *; [by intros [? ?]..| |].
  - intros [? (? & ? & ?)]. split; [done|]. simpl. split_and!; try done. by apply prefix_app_r.
  - by intros [? ?].
Qed.

(** The same, with the record made. *)
Definition reviewed (T' : gmap Z TransactionDispute) (K' : gmap Z SupportTicket) (c w : Db) : Prop :=
  (transaction_disputes c = T' ∧ support_tickets c = K' ∧ recorded r actor L (security_audit_events c))
  ∧ (transaction_disputes w = T' ∧ support_tickets w = K' ∧ recorded r actor L (security_audit_events w)).
#[local] Instance reviewed_portal T' K' : portal_blind (reviewed T' K').
Proof.
  split; [split|]; unfold reviewed; intros *; [by intros [? ?]..| |].
  - intros [? (? & ? & n & e' & Hn & Hl & He)]. split; [done|]. simpl. split_and!; try done.
    exists n, e'. split_and!; try done. by apply lookup_app_l_Some.
  - by intros [? ?].
Qed.

Definition untouched (s : St) : Prop :=
  transaction_disputes (committed s) = T ∧ support_tickets (committed s) = K.
Definition moved (T' : gmap Z TransactionDispute) (K' : gmap Z SupportTicket) : Prop :=
  (T' = T ∧ K' = K) ∨ (dispute_step d actor T T' ∧ K' = K) ∨ (T' = T ∧ ticket_step d actor K K').
Definition acted (s : St) : Prop := ∃ T' K', on_db (reviewed T' K') s ∧ moved T' K'.
Notation X := (λ (_ : exn) s, untouched s ∨ acted s).
Notation start := (λ s, committed s = d ∧ working s = d).
Notation rest := (on_db (review_tables T K)).

Lemma rest_start s : start s → rest s.
Proof. by intros [Hc Hw]; unfold on_db, review_tables; rewrite Hc, Hw. Qed.
Lemma rest_untouched s : rest s → untouched s.
Proof. by intros [(? & ? & _) _]. Qed.
Lemma rest_X (e : exn) s : rest s → untouched s ∨ acted s.
Proof. intros Hs. left. by apply rest_untouched. Qed.

(** Pending changes of the tables. *)
Definition pend (T' : gmap Z TransactionDispute) (K' : gmap Z SupportTicket) (s : St) : Prop :=
  (transaction_disputes (committed s) = T ∧ support_tickets (committed s) = K
   ∧ L `prefix_of` security_audit_events (committed s))
  ∧ (transaction_disputes (working s) = T' ∧ support_tickets (working s) = K'
     ∧ L `prefix_of` security_audit_events (working s)).
Lemma pend_untouched T' K' s : pend T' K' s → untouched s.
Proof. by intros [(? & ? & _) _]. Qed.
Lemma rest_pend s : rest s → pend T K s.
Proof. by intros [? ?]. Qed.

Lemma audit_commit T' K' md :
  triple (pend T' K') (_ <- audit_event_required (event_of r) "success" (Some actor) md ;; commit)
    (λ _, on_db (reviewed T' K')) (λ _, pend T' K').
Proof.
  intros s [Hc Hw]. unfold bind.
  destruct (audit_event_required _ _ _ _ s) as [[[]|e] s1] eqn:E.
  - apply required_event in E as [Ec (ev & Hev & Ew)]. unfold commit. rewrite Ew.
    destruct Hw as (Hd & Hk & Hl). destruct (db_ok _); simpl.
    + split; simpl; rewrite ?Ew; split_and!; try done; exists (length (security_audit_events (working s))), ev;
        (split_and!; [unfold append_event; simpl; by rewrite lookup_app_r, Nat.sub_diag by done|by apply prefix_length|done]).
    + split; rewrite ?Ec, ?Ew; [done|]. split_and!; try done. by apply prefix_app_r.
  - apply audit_event_required_cases in E as [Ec [[? _]|[_ Ew]]]; [done|]. split; by rewrite ?Ec, ?Ew.
Qed.

(** The recording block of staff's calls. *)
Lemma record_block {A} T' K' (c : M St A) md :
  (∀ v s1 s2, c s1 = (Ok v, s2) → s2 = s1) → (∀ s, (c s).2 = s) →
  triple (pend T' K')
    (try_except (v <- c ;; _ <- audit_event_required (event_of r) "success" (Some actor) (md v) ;; commit)
       is_audit_write_error (λ e, _ <- rollback ;; raise e))
    (λ _, on_db (reviewed T' K')) X.
Proof.
  intros _ Hc. apply triple_try with (X' := λ _, pend T' K').
  - eapply triple_bind with (R := λ _, pend T' K'); [|intros v; apply audit_commit].
    intros s Hs. specialize (Hc s). destruct (c s) as [[v|e] s1]; simpl in Hc; by subst.
  - intros e. intros s Hs. left. exact (pend_untouched T' K' s Hs).
  - intros e s Hs. left. by eapply pend_untouched.
Qed.

Lemma after_staff_check {B} ev (k : M St B) Q :
  (by_staff d actor → triple rest k Q X) →
  triple start (_ <- _require_plain_staff actor ev ;; k) Q X.
Proof.
  intros Hk s Hs. pose proof (rest_start s Hs) as Hr. unfold bind.
  assert (preserves rest (_require_plain_staff actor ev)) as Hp by (unfold _require_plain_staff; solve_pres).
  specialize (Hp s Hr). destruct (_require_plain_staff actor ev s) as [[[]|e] s1] eqn:E; [|exact (rest_X e s1 Hp)].
  assert (by_staff d actor) as Hst.
  { unfold _require_plain_staff, load_user in E. inv_bind E. unfold db_query in E0. destruct Hs as [_ Hw].
    rewrite Hw in E0. unfold by_staff. destruct (users d !! actor) as [u|]; [|done]. injection E0 as <- <-.
    destruct (is_plain_staff_user (Some u)); [done|]. by apply refuse_raises in E. }
  by apply (Hk Hst s1).
Qed.

Lemma ref_same k n i s : (ref_entry k n i s).2 = s.
Proof. unfold ref_entry, bind, lift. by destruct (id_reference n i). Qed.

Lemma read_recorded md :
  triple rest (recorded_read (event_of r) actor md) (λ _, on_db (reviewed T K)) X.
Proof.
  eapply triple_conseq; [apply (record_block T K (ret tt) (λ _, md)); [by intros ? ? ? [= <- <-]|done]
    |apply rest_pend|done|done].
Qed.

Lemma answer {B} T' K' (c : M St B) :
  moved T' K' → preserves (on_db (reviewed T' K')) c →
  triple (on_db (reviewed T' K')) (succeeded c) (λ b s, if b then acted s else untouched s ∨ acted s) X.
Proof.
  intros Hm Hp. unfold succeeded. eapply triple_bind with (R := λ _, on_db (reviewed T' K')).
  - eapply triple_conseq; [by apply triple_pres|done|done|]. intros e s Hs. right. by exists T', K'.
  - intros _ s Hs. simpl. by exists T', K'.
Qed.

Lemma succeeded_bind {A B} (c : M St A) (k : A → M St B) s :
  succeeded (bind c k) s = (v <- c ;; succeeded (k v)) s.
Proof. apply bind_assoc. Qed.

Lemma guard_step {B} b (c : M St unit) (k : M St B) Q :
  raises c → preserves rest c → (b = false → triple rest k Q X) → triple rest (_ <- guard b c ;; k) Q X.
Proof.
  intros Hr Hp Hk s Hs. unfold bind. specialize (Hp s Hs). destruct b; simpl.
  - specialize (Hr s). destruct (c s) as [[u|e] s1]; [by destruct (Hr u s1)|exact (rest_X e s1 Hp)].
  - by apply Hk.
Qed.

Lemma triple_succeeded {A B} P (c : M St A) (k : A → M St B) Q :
  triple P (v <- c ;; succeeded (k v)) Q X → triple P (succeeded (bind c k)) Q X.
Proof. intros Hs s Hp. rewrite succeeded_bind. by apply Hs. Qed.
End Review.

(** ** Staff's calls *)

Definition answered (d : Db) (actor : Z) (r : ReviewCall) (b : bool) (s : St) : Prop :=
  if b then acted d actor r s else untouched d s ∨ acted d actor r s.
Definition review_ok `{Env} (d : Db) (actor : Z) (r : ReviewCall) : Prop :=
  triple (λ s, committed s = d ∧ working s = d) (review_act actor r) (answered d actor r)
    (λ _ s, untouched d s ∨ acted d actor r s).

#[local] Existing Instance review_portal.
#[local] Existing Instance reviewed_portal.

Section Calls.
Context `{Env} (d : Db) (actor : Z).
Notation T := (transaction_disputes d).
Notation K := (support_tickets d).
Notation rest := (on_db (review_tables d T K)).

Lemma pres_public_dispute P `{!portal_blind P} id : preserves (on_db P) (public_transaction_dispute id).
Proof. unfold public_transaction_dispute. solve_pres. Qed.
Lemma pres_public_ticket P `{!portal_blind P} id b : preserves (on_db P) (public_support_ticket id b).
Proof. unfold public_support_ticket. solve_pres. Qed.
Lemma pres_refuse_transition {A} P `{!portal_blind P} e rs k n id f t m :
  preserves (on_db P) (refuse_transition (A:=A) actor e rs k n id f t m).
Proof. unfold refuse_transition. solve_pres. Qed.
Hint Resolve pres_public_dispute pres_public_ticket pres_refuse_transition : pres.

Lemma not_moved : moved d actor T K.
Proof. by left. Qed.

Lemma read_disputes_ok : review_ok d actor ReadDisputes.
Proof.
  unfold review_ok. simpl. unfold disputes_for_staff. apply triple_succeeded, after_staff_check. intros Hst.
  apply triple_succeeded, triple_step; [solve_pres|apply rest_X|]. intros l.
  apply triple_succeeded. eapply triple_bind; [apply (read_recorded d actor ReadDisputes [])|]. intros u.
  apply answer; [exact not_moved|]. apply portal_dicts; [apply _|]. intros []. solve_pres.
Qed.
Lemma read_tickets_ok : review_ok d actor ReadTickets.
Proof.
  unfold review_ok. simpl. unfold support_tickets_for_staff. apply triple_succeeded, after_staff_check. intros Hst.
  apply triple_succeeded, triple_step; [solve_pres|apply rest_X|]. intros l.
  apply triple_succeeded. eapply triple_bind; [apply (read_recorded d actor ReadTickets [])|]. intros u.
  apply answer; [exact not_moved|]. apply portal_dicts; [apply _|]. intros []. solve_pres.
Qed.

Lemma read_dispute_ok id : review_ok d actor (ReadDispute id).
Proof.
  unfold review_ok. simpl. unfold dispute_detail_for_staff. apply triple_succeeded, after_staff_check. intros Hst.
  apply triple_succeeded, triple_step; [unfold _transaction_dispute_or_404; solve_pres|apply rest_X|]. intros x.
  apply triple_succeeded. eapply triple_bind.
  - apply triple_step; [solve_pres|apply rest_X|]. intros ref. apply (read_recorded d actor (ReadDispute id) [ref]).
  - intros u. apply answer; [exact not_moved|]. solve_pres.
Qed.
Lemma read_ticket_ok id : review_ok d actor (ReadTicket id).
Proof.
  unfold review_ok. simpl. unfold support_ticket_detail_for_staff. apply triple_succeeded, after_staff_check. intros Hst.
  apply triple_succeeded, triple_step; [unfold _support_ticket_or_404; solve_pres|apply rest_X|]. intros x.
  apply triple_succeeded. eapply triple_bind.
  - apply triple_step; [solve_pres|apply rest_X|]. intros ref. apply (read_recorded d actor (ReadTicket id) [ref]).
  - intros u. apply answer; [exact not_moved|]. solve_pres.
Qed.

(** *** Decisions *)

Lemma dispute_found r id :
  triple rest (_transaction_dispute_or_404 id) (λ x s, rest s ∧ T !! id = Some x)
    (λ _ s, untouched d s ∨ acted d actor r s).
Proof.
  intros s Hs. unfold _transaction_dispute_or_404, db_get, gets, bind.
  pose proof Hs as [_ (Ht & _ & _)]. rewrite Ht.
  destruct (T !! id) as [x|] eqn:E; simpl; [by split|left; by apply rest_untouched].
Qed.
Lemma ticket_found r id :
  triple rest (_support_ticket_or_404 id) (λ x s, rest s ∧ K !! id = Some x)
    (λ _ s, untouched d s ∨ acted d actor r s).
Proof.
  intros s Hs. unfold _support_ticket_or_404, db_get, gets, bind.
  pose proof Hs as [_ (_ & Ht & _)]. rewrite Ht.
  destruct (K !! id) as [x|] eqn:E; simpl; [by split|left; by apply rest_untouched].
Qed.

Lemma dispute_written r id x f :
  T !! id = Some x →
  triple rest (db_write (upd_transaction_disputes (alter f id))) (λ _, pend d (<[id := f x]> T) K)
    (λ _ s, untouched d s ∨ acted d actor r s).
Proof.
  intros Hx s [Hc (Ht & Hk & Hl)]. simpl. split; [done|]. simpl. rewrite Ht. split_and!; try done.
  apply map_eq. intros j. destruct (decide (j = id)) as [->|Hj].
  - by rewrite lookup_alter_eq, lookup_insert_eq, Hx.
  - by rewrite lookup_alter_ne, lookup_insert_ne.
Qed.
Lemma ticket_written r id x f :
  K !! id = Some x →
  triple rest (db_write (upd_support_tickets (alter f id))) (λ _, pend d T (<[id := f x]> K))
    (λ _ s, untouched d s ∨ acted d actor r s).
Proof.
  intros Hx s [Hc (Ht & Hk & Hl)]. simpl. split; [done|]. simpl. rewrite Hk. split_and!; try done.
  apply map_eq. intros j. destruct (decide (j = id)) as [->|Hj].
  - by rewrite lookup_alter_eq, lookup_insert_eq, Hx.
  - by rewrite lookup_alter_ne, lookup_insert_ne.
Qed.

Lemma transition_recorded r T' K' k n id f t :
  triple (pend d T' K') (record_transition actor (event_of r) k n id f t)
    (λ _, on_db (reviewed d actor r T' K')) (λ _ s, untouched d s ∨ acted d actor r s).
Proof. apply record_block; [|apply ref_same]. intros v s1 s2 E. pose proof (ref_same k n id s1) as Hr. by rewrite E in Hr. Qed.

Lemma refuse_transition_raises {A} e rs k n id f t m : raises (refuse_transition (A:=A) actor e rs k n id f t m).
Proof. unfold refuse_transition, refuse. solve_raises. Qed.
Hint Resolve refuse_transition_raises : core.

Lemma decide_dispute_ok id st note : review_ok d actor (DecideDispute id st note).
Proof.
  unfold review_ok. simpl. unfold transition_dispute_status_for_staff. cbv zeta.
  apply triple_succeeded, after_staff_check. intros Hst. apply triple_succeeded.
  eapply triple_bind; [apply dispute_found|]. intros x. apply triple_pure. intros Hx.
  apply triple_succeeded, guard_step; [done|solve_pres|]. intros Hok%negb_false_iff.
  apply triple_succeeded, triple_step; [solve_pres|apply rest_X|]. intros at_.
  apply triple_succeeded, triple_step; [solve_pres|apply rest_X|]. intros n.
  apply triple_succeeded, guard_step; [solve_raises|solve_pres|]. intros _.
  apply triple_succeeded. eapply triple_bind; [by eapply dispute_written|]. intros u.
  apply triple_succeeded. eapply triple_bind; [apply (transition_recorded (DecideDispute id st note))|]. intros u'.
  apply answer; [|solve_pres]. right. left. split; [|done]. by eapply dispute_decided.
Qed.
Lemma decide_ticket_ok id st note : review_ok d actor (DecideTicket id st note).
Proof.
  unfold review_ok. simpl. unfold transition_support_ticket_status_for_staff. cbv zeta.
  apply triple_succeeded, after_staff_check. intros Hst. apply triple_succeeded.
  eapply triple_bind; [apply ticket_found|]. intros x. apply triple_pure. intros Hx.
  apply triple_succeeded, guard_step; [done|solve_pres|]. intros Hok%negb_false_iff.
  apply triple_succeeded, triple_step; [solve_pres|apply rest_X|]. intros at_.
  apply triple_succeeded, triple_step; [solve_pres|apply rest_X|]. intros n.
  apply triple_succeeded, guard_step; [solve_raises|solve_pres|]. intros _.
  apply triple_succeeded. eapply triple_bind; [by eapply ticket_written|]. intros u.
  apply triple_succeeded. eapply triple_bind; [apply (transition_recorded (DecideTicket id st note))|]. intros u'.
  apply answer; [|solve_pres]. right. right. split; [done|]. by eapply ticket_decided.
Qed.

(** *** Customers' calls *)

Lemma triple_reported {A} P (c : M St A) (k : A → M St ReportOutcome) Q X :
  triple P (v <- c ;; reported (k v)) Q X → triple P (reported (bind c k)) Q X.
Proof. intros Hs s Hp. unfold reported. rewrite bind_assoc. by apply Hs. Qed.

Lemma not_reported (P : St → Prop) r o X :
  o ≠ Reported → (∀ s, P s → rest s) → triple P (reported (ret o)) (answered d actor r) X.
Proof.
  intros Ho HP s Hs. unfold reported, bind, ret. destruct o; try done; simpl; left; apply rest_untouched, HP, Hs.
Qed.

Lemma open_dispute_none id s s' :
  _open_dispute_for_transaction id s = (Ok None, s') → rest s →
  ∀ j x, T !! j = Some x → td_transaction_id x = id → str_in (td_status x) DISPUTE_OPEN_STATUSES = false.
Proof.
  unfold _open_dispute_for_transaction, db_query. intros E [_ (Ht & _ & _)] j x Hx Hid.
  injection E as E _. rewrite Ht in E. eapply one_or_none_None in E; [|exact Hx].
  by rewrite Hid, Z.eqb_refl in E.
Qed.

(** What is written and not yet committed is a new row. *)
Definition new_report (t : Z) (s : St) : Prop :=
  ∃ id issue reason created updated, T !! id = None
    ∧ pend d (<[id := mkTransactionDispute t actor issue reason "open" None None created updated None]> T) K s.
Definition new_ticket (s : St) : Prop :=
  ∃ id category subject description created updated, K !! id = None
    ∧ pend d T (<[id := mkSupportTicket actor category subject description "open" None None created updated None]> K) s.
Definition pending_any (s : St) : Prop := ∃ T' K', pend d T' K' s.

Lemma pending_rollback s : pending_any s → rest (set_working (committed s) s).
Proof. intros (T' & K' & Hc & _). by split. Qed.
Lemma pending_untouched s : pending_any s → untouched d s.
Proof. intros (T' & K' & Hc). by eapply pend_untouched. Qed.


Lemma fresh_dispute : triple rest (db_get (λ d, next_id (transaction_disputes d)))
  (λ id s, rest s ∧ T !! id = None) (λ _, pending_any).
Proof. intros s Hs. split; [done|]. destruct Hs as [_ (<- & _)]. apply next_id_fresh. Qed.
Lemma fresh_ticket : triple rest (db_get (λ d, next_id (support_tickets d)))
  (λ id s, rest s ∧ K !! id = None) (λ _, pending_any).
Proof. intros s Hs. split; [done|]. destruct Hs as [_ (_ & <- & _)]. apply next_id_fresh. Qed.
Lemma rest_pending (e : exn) s : rest s → pending_any s.
Proof. intros Hs. by exists T, K. Qed.
Lemma flush_triple (P : St → Prop) : (∀ s, P s → pending_any s) → triple P flush (λ _, P) (λ _, pending_any).
Proof. intros HP s Hs. unfold flush. destruct (db_ok (working s)); [done|by apply HP]. Qed.

Lemma report_inserted t issue reason :
  triple rest (report_insert actor t issue reason) (λ _, new_report t) (λ _, pending_any).
Proof.
  unfold report_insert. do 2 (apply triple_step; [solve_pres|exact rest_pending|intros ?]).
  eapply triple_bind; [apply fresh_dispute|]. intros id. apply triple_pure. intros Hid.
  eapply triple_bind with (R := λ _, new_report t).
  - intros s [Hc (Ht & Hk & Hl)]. unfold db_write, modify. exists id, issue, (strip reason), a, a0. split; [done|].
    split; [done|]. simpl. by rewrite Ht.
  - intros _. apply flush_triple. intros s (i & ? & ? & ? & ? & _ & Hp). by eexists _, _.
Qed.
Lemma ticket_inserted category subject description :
  triple rest (ticket_insert actor category subject description) (λ _, new_ticket) (λ _, pending_any).
Proof.
  unfold ticket_insert. do 2 (apply triple_step; [solve_pres|exact rest_pending|intros ?]).
  eapply triple_bind; [apply fresh_ticket|]. intros id. apply triple_pure. intros Hid.
  eapply triple_bind with (R := λ _, new_ticket).
  - intros s [Hc (Ht & Hk & Hl)]. unfold db_write, modify.
    exists id, category, (strip subject), (strip description), a, a0. split; [done|].
    split; [done|]. simpl. by rewrite Hk.
  - intros _. apply flush_triple. intros s (i & ? & ? & ? & ? & ? & _ & Hp). by eexists _, _.
Qed.

(** The new row commits with its record, or not at all. *)
Definition outcome (r : ReviewCall) (o : ReportOutcome) (s : St) : Prop :=
  (o = Reported ∧ acted d actor r s) ∨ (o ≠ Reported ∧ untouched d s).

Lemma new_row_commits r (new : St → Prop) md :
  (∀ s, new s → ∃ T' K', moved d actor T' K' ∧ pend d T' K' s) →
  triple new (_ <- audit_event_required (event_of r) "success" (Some actor) md ;; _ <- commit ;; ret Reported)
    (outcome r) (λ _, pending_any).
Proof.
  intros Hnew s Hs. apply Hnew in Hs as (T' & K' & Hm & Hp). rewrite <- bind_assoc.
  pose proof (audit_commit d actor r T' K' md s Hp) as Hc. revert Hc.
  set (c := (_ <- audit_event_required (event_of r) "success" (Some actor) md ;; commit)). intros Hc. unfold bind.
  destruct (c s) as [[[]|e] s1]; [|by exists T', K']. left. split; [done|]. by exists T', K'.
Qed.

Lemma outcome_answered (P : St → Prop) r (c : M St ReportOutcome) :
  triple P c (outcome r) (λ _ s, untouched d s ∨ acted d actor r s) →
  triple P (reported c) (answered d actor r) (λ _ s, untouched d s ∨ acted d actor r s).
Proof.
  intros Hc. eapply triple_bind; [exact Hc|]. intros o s [[-> Ha]|[Ho Hu]]; [exact Ha|].
  destruct o; try done; by left.
Qed.

Lemma turned_away (P : St → Prop) r o :
  o ≠ Reported → (∀ s, P s → untouched d s) →
  triple P (ret o) (outcome r) (λ _ s, untouched d s ∨ acted d actor r s).
Proof. intros Ho HP s Hs. right. split; [done|by apply HP]. Qed.

Lemma roll_back r (sel : exn → bool) e :
  triple pending_any (_ <- rollback ;; if sel e then ret AlreadyOpen else raise e) (outcome r)
    (λ _ s, untouched d s ∨ acted d actor r s).
Proof.
  intros s Hs%pending_rollback. unfold bind, rollback, modify. apply rest_untouched in Hs.
  destruct (sel e); [right; by split|by left].
Qed.

Lemma rest_consume sc p l w : preserves rest (consume_durable_rate_limit sc p l w).
Proof. apply pres_consume; [apply _|]. intros f c w' Hp. exact Hp. Qed.
Hint Resolve rest_consume : pres.

Lemma contact_ok form : review_ok d actor (Contact form).
Proof.
  unfold review_ok. simpl. eapply triple_conseq with (P' := rest);
    [apply outcome_answered|intros s; apply rest_start|done|done].
  unfold support_contact_submit. destruct form as [[[category subject] description]|];
    [|apply turned_away; [done|apply rest_untouched]].
  apply triple_step; [solve_pres|apply rest_X|]. intros [];
    [apply turned_away; [done|apply rest_untouched]|].
  apply triple_try with (X' := λ _, pending_any); [|intros e; apply (roll_back _ (λ _, false))|
    intros e s Hs; left; by apply pending_untouched].
  eapply triple_bind; [apply ticket_inserted|]. intros u. apply (new_row_commits (Contact _)).
  intros s (id & ? & ? & ? & ? & ? & Hid & Hp). eexists _, _. split; [|exact Hp].
  right. right. split; [done|]. by constructor.
Qed.

Lemma owned_ok id s t s' :
  _owned_transaction_or_404 actor id s = (Ok t, s') →
  s' = s ∧ transactions (working s) !! id = Some t ∧ owns actor t = true.
Proof.
  unfold _owned_transaction_or_404. intros E. inv_bind E. unfold db_get, gets in E0. injection E0 as <- <-.
  destruct (transactions (working s) !! id) as [t'|]; [|done]. destruct (owns actor t') eqn:Eo; [|done].
  unfold ret in E. by injection E as <- <-.
Qed.


Lemma report_tail t txn issue reason :
  transactions d !! t = Some txn → owns actor txn = true →
  (∀ j x, T !! j = Some x → td_transaction_id x = t → str_in (td_status x) DISPUTE_OPEN_STATUSES = false) →
  triple (new_report t)
    (transaction_ref <- lift (audit_reference "transaction" (tx_transaction_ref txn)) ;;
     _ <- audit_event_required "transaction_dispute_create" "success" (Some actor)
            [("transaction_ref", jopt_str transaction_ref); ("issue_type", JStr issue);
             ("reason_length", JInt (Z.of_nat (slen (strip reason))))] ;;
     _ <- commit ;;
     ret Reported)
    (outcome (Report t (Some (issue, reason)))) (λ _, pending_any).
Proof.
  intros Htx Hown Hnone.
  assert (∀ s, new_report t s → ∃ T' K', moved d actor T' K' ∧ pend d T' K' s) as Hnew.
  { intros s (id & ? & ? & ? & ? & Hid & Hp). eexists _, _. split; [|exact Hp].
    right. left. split; [|done]. by eapply dispute_reported. }
  eapply triple_bind with (R := λ _, new_report t).
  - intros s Hs. unfold lift. destruct (audit_reference _ _); [done|].
    destruct (Hnew s Hs) as (T' & K' & _ & Hp). by exists T', K'.
  - intros ref. by apply (new_row_commits (Report t (Some (issue, reason)))).
Qed.

Lemma report_ok t form : review_ok d actor (Report t form).
Proof.
  unfold review_ok. simpl. apply outcome_answered. intros s Hs. unfold transaction_dispute_create.
  pose proof (rest_start d s Hs) as Hr. destruct Hs as [_ Hw].
  assert (preserves rest (_owned_transaction_or_404 actor t)) as Hp
    by (unfold _owned_transaction_or_404; solve_pres).
  specialize (Hp s Hr). unfold bind at 1. destruct (_owned_transaction_or_404 actor t s) as [[txn|e] s1] eqn:E;
    [|by apply rest_X]. apply owned_ok in E as (-> & Htx & Hown). rewrite Hw in Htx.
  destruct form as [[issue reason]|]; [|by apply (turned_away rest); [|apply rest_untouched|]].
  assert (preserves rest (_open_dispute_for_transaction t)) as Ho
    by (unfold _open_dispute_for_transaction; solve_pres).
  specialize (Ho s Hr). unfold bind at 1. destruct (_open_dispute_for_transaction t s) as [[o|e] s1] eqn:E; [|by apply rest_X].
  destruct o as [x|]; [by apply (turned_away rest); [|apply rest_untouched|]|].
  pose proof (open_dispute_none t s s1 E Hr) as Hnone. clear E Hr Hw Hp. simpl. revert s1 Ho.
  apply triple_step; [solve_pres|apply rest_X|]. intros [];
    [apply turned_away; [done|apply rest_untouched]|].
  apply triple_try with (X' := λ _, pending_any); [|intros e; apply (roll_back _ is_integrity_error)|
    intros e s' Hs; left; by apply pending_untouched].
  eapply triple_bind; [apply report_inserted|]. intros u. by apply (report_tail t txn).
Qed.

Lemma review_call_ok r : review_ok d actor r.
Proof.
  destruct r; [apply report_ok|apply contact_ok|apply read_disputes_ok|apply read_dispute_ok|apply decide_dispute_ok
    |apply read_tickets_ok|apply read_ticket_ok|apply decide_ticket_ok].
Qed.
End Calls.

(** ** Freezes *)

Inductive FreezeCall : Type :=
  | ListFrozen
  | Unfreeze (target : Z) (reason : string) (code : option string)
  | LookUp (identifier : string)
  | Freeze (target : Z) (reason : string) (code : option string).

Definition freeze_act `{Env} (actor : Z) (r : FreezeCall) : M St unit :=
  match r with
  | ListFrozen => _ <- self_frozen_customers_for_staff actor ;; ret tt
  | Unfreeze target reason code => _ <- unfreeze_customer_as_staff actor target reason code ;; ret tt
  | LookUp identifier => _ <- customer_lookup_for_staff_freeze actor identifier ;; ret tt
  | Freeze target reason code => _ <- freeze_customer_as_staff actor target reason code ;; ret tt
  end.

(** What a call does to a customer's account: it lifts a freeze that has no
    reason recorded with it, or places one with a reason. *)
Inductive freeze_step : FreezeCall → string → option string → Z → User → User → Prop :=
  | freeze_lifted v reason code u :
      u_account_type u = ACCOUNT_CUSTOMER → u_is_frozen u = true → u_security_lock_reason u = None →
      freeze_step (Unfreeze v reason code) "customer_self_freeze_unlock" code v u (set_u_is_frozen false u)
  | freeze_placed v reason code u now :
      u_account_type u = ACCOUNT_CUSTOMER → u_is_frozen u = false → u_account_status u = "active" →
      freeze_step (Freeze v reason code) "customer_freeze_as_staff" code v u (staff_frozen now u).

Definition log_has (event : string) (actor : Z) (L L' : list SecurityAuditEvent) : Prop :=
  ∃ n e, L' !! n = Some e ∧ (length L ≤ n)%nat ∧ names_event event "success" (Some actor) e.

#[local] Existing Instance only_self_portal.

Section Freezes.
Context `{Env} (d : Db) (actor : Z) (r : FreezeCall).
Notation U := (users d).
Notation L := (security_audit_events d).

Definition calm (c w : Db) : Prop :=
  same_users U c w ∧ L `prefix_of` security_audit_events c ∧ L `prefix_of` security_audit_events w.
#[local] Instance calm_portal : portal_blind calm.
Proof.
  split; [split|]; unfold calm, same_users; intros *; intros ([? ?] & ? & ?); split_and!; try done.
  simpl. by apply prefix_app_r.
Qed.

(** The durable users: others are as they were, but for one recorded step. *)
Definition durable_step (v : Z) (s : St) : Prop :=
  ∃ ev code u u', U !! v = Some u ∧ users (committed s) !! v = Some u' ∧ freeze_step r ev code v u u'
    ∧ by_staff d actor ∧ code_accepted ev d actor code ∧ log_has ev actor L (security_audit_events (committed s)).
Definition fine (s : St) : Prop :=
  ∀ v, v ≠ actor → users (committed s) !! v = U !! v ∨ durable_step v s.

Lemma self_fine s : on_db (only_self U actor) s → fine s.
Proof. intros Hs v Hv. left. by apply Hs. Qed.
Lemma calm_self s : on_db calm s → on_db (only_self U actor) s.
Proof. intros [[Hc Hw] _] v Hv. unfold on_db in *. by rewrite Hc, Hw. Qed.
Lemma calm_fine s : on_db calm s → fine s.
Proof. intros Hs. by apply self_fine, calm_self. Qed.

(** The account is changed, and not yet recorded. *)
Definition changing (f : User → User) (t : Z) (c w : Db) : Prop :=
  (users c = U ∧ L `prefix_of` security_audit_events c)
  ∧ (users w = alter f t U ∧ L `prefix_of` security_audit_events w).
(** The account is changed, and the change recorded. *)
Definition changed (f : User → User) (t : Z) (ev : string) (c w : Db) : Prop :=
  (users c = alter f t U ∧ log_has ev actor L (security_audit_events c))
  ∧ (users w = alter f t U ∧ log_has ev actor L (security_audit_events w)).
#[local] Instance changed_portal f t ev : portal_blind (changed f t ev).
Proof.
  split; [split|]; unfold changed; intros *; [by intros [? ?]..| |].
  - intros [? (? & n & e' & Hn & Hl & He)]. split; [done|]. simpl. split; [done|].
    exists n, e'. split_and!; try done. by apply lookup_app_l_Some.
  - by intros [? ?].
Qed.

Lemma changing_revoke f t u rs c : preserves (on_db (changing f t)) (revoke_all_sessions u rs c).
Proof.
  unfold revoke_all_sessions, _active_session_records, _expire_stale_sessions, end_each, _end_session_record.
  solve_pres; apply pres_db_write; by intros.
Qed.
Lemma changing_fine f t s : on_db (changing f t) s → fine s.
Proof. intros [[Hc _] _] v _. left. unfold on_db in *. by rewrite Hc. Qed.


(** *** The checks *)

Lemma calm_staff ev : triple (on_db calm) (_require_plain_staff actor ev)
  (λ _ s, on_db calm s ∧ by_staff d actor) (λ _, fine).
Proof.
  intros s Hs. assert (preserves (on_db calm) (_require_plain_staff actor ev)) as Hp
    by (unfold _require_plain_staff; solve_pres). specialize (Hp s Hs).
  destruct (_require_plain_staff actor ev s) as [[[]|e] s1] eqn:E; [|by apply calm_fine]. split; [done|].
  unfold _require_plain_staff, load_user in E. inv_bind E. unfold db_query in E0. destruct Hs as [[_ Hw] _].
  rewrite Hw in E0. unfold by_staff. destruct (U !! actor) as [u|]; [|done]. injection E0 as <- <-.
  destruct (is_plain_staff_user (Some u)); [done|]. by apply refuse_raises in E.
Qed.

Lemma calm_target (test : option User → bool) t ev msg :
  triple (on_db calm)
    (target <- find_user t ;; if test target then ret tt else target_not_eligible t actor ev msg)
    (λ _ s, on_db calm s ∧ test (U !! t) = true) (λ _, fine).
Proof.
  intros s Hs. assert (preserves (on_db calm) (target <- find_user t ;;
    if test target then ret tt else target_not_eligible t actor ev msg)) as Hp
    by (unfold target_not_eligible; solve_pres). specialize (Hp s Hs). revert Hp.
  unfold bind, find_user, db_get, gets. pose proof Hs as [[_ ->] _].
  destruct (test (U !! t)); [done|]. intros Hp.
  destruct (target_not_eligible (A:=()) t actor ev msg s) as [[[]|e] s1] eqn:E; [|by apply calm_fine].
  revert E. unfold target_not_eligible, refuse. intros E. repeat inv_bind E. done.
Qed.

Lemma log_step_up c sc ref :
  preserves (on_db (λ c w, L `prefix_of` security_audit_events c ∧ L `prefix_of` security_audit_events w)) ref →
  preserves (on_db (λ c w, L `prefix_of` security_audit_events c ∧ L `prefix_of` security_audit_events w))
    (step_up_or actor c sc ref).
Proof.
  intros Hr. assert (security_blind (λ c w, L `prefix_of` security_audit_events c ∧ L `prefix_of` security_audit_events w)).
  { split; [split|..]; intros *; intros [? ?]; split; try done. simpl. by apply prefix_app_r. }
  unfold step_up_or, verify_admin_totp_step_up, _verify_totp_for_user, _verify_totp_for_user_outcome,
    _mfa_secret_for_user. solve_pres.
Qed.

Lemma refuse_step_up_raises t ev : raises (refuse_customer_step_up actor t ev).
Proof. unfold refuse_customer_step_up, refuse. solve_raises. Qed.

Lemma calm_step_up t ev code :
  triple (on_db calm) (step_up_or actor code ev (refuse_customer_step_up actor t ev))
    (λ _ s, on_db calm s ∧ code_accepted ev d actor code) (λ _, fine).
Proof.
  intros s Hs. pose proof (self_step_up U actor code ev (refuse_customer_step_up actor t ev)) as Hself.
  assert (preserves (on_db (only_self U actor)) (refuse_customer_step_up actor t ev)) as Hk
    by (unfold refuse_customer_step_up; solve_pres).
  specialize (Hself Hk s (calm_self s Hs)). pose proof Hs as (Hu & Hl).
  assert (portal_blind (λ c w, L `prefix_of` security_audit_events c ∧ L `prefix_of` security_audit_events w)) as Hb.
  { split; [split|]; intros *; intros [? ?]; split; try done. simpl. by apply prefix_app_r. }
  pose proof (log_step_up code ev (refuse_customer_step_up actor t ev)) as Hlog.
  assert (on_db (λ c w, L `prefix_of` security_audit_events c ∧ L `prefix_of` security_audit_events w)
    (step_up_or actor code ev (refuse_customer_step_up actor t ev) s).2) as Hl'
    by (apply Hlog; [unfold refuse_customer_step_up; solve_pres|done]).
  destruct (step_up_or _ _ _ _ s) as [[[]|e] s1] eqn:E; [|by apply self_fine].
  apply (step_up_ok U) in E as [Hu1 (s0 & secret & t1 & t2 & st & Hw0 & Hsec & Hacc)];
    [|apply refuse_step_up_raises|done]. split; [by split|].
  exists s0, secret, t1, t2, st. split_and!; try done. rewrite Hw0. by destruct Hu.
Qed.

(** *** The change and its record *)

Lemma change_written f t :
  triple (on_db calm) (db_write (set_user t f)) (λ _, on_db (changing f t)) (λ _, fine).
Proof. intros s ([Hc Hw] & Hl & Hl'). split; [done|]. split; [|done]. simpl. by rewrite Hw. Qed.

Definition noted (f : User → User) (t : Z) (ev : string) (c w : Db) : Prop :=
  users c = U ∧ users w = alter f t U ∧ log_has ev actor L (security_audit_events w).

Lemma change_noted f t ev md :
  triple (on_db (changing f t)) (audit_event_required ev "success" (Some actor) md)
    (λ _, on_db (noted f t ev)) (λ _, fine).
Proof.
  intros s Hs. destruct (audit_event_required _ _ _ _ s) as [[[]|e] s1] eqn:E.
  - apply required_event in E as [Ec (x & Hx & Ew)]. destruct Hs as [[Hc _] [Hw Hl]].
    unfold on_db, noted. rewrite Ec, Ew. split_and!; try done.
    exists (length (security_audit_events (working s))), x. split_and!; try done; [|by apply prefix_length].
    simpl. by rewrite lookup_app_r, Nat.sub_diag by done.
  - apply audit_event_required_cases in E as [Ec _]. apply (changing_fine f t) in Hs. intros v Hv. rewrite Ec.
    destruct (Hs v Hv) as [|Hd]; [by left|]. right. unfold durable_step. by rewrite Ec.
Qed.
Lemma change_committed f t ev : triple (on_db (noted f t ev)) commit (λ _, on_db (changed f t ev)) (λ _, fine).
Proof.
  intros s (Hc & Hw & Hl). unfold commit. destruct (db_ok _); [by split|]. intros v Hv. left. by rewrite Hc.
Qed.

Lemma changed_fine f t ev code s :
  by_staff d actor → code_accepted ev d actor code →
  (∀ u, U !! t = Some u → freeze_step r ev code t u (f u)) → is_Some (U !! t) →
  on_db (changed f t ev) s → fine s.
Proof.
  intros Hst Hcode Hf [u Hu] [[Hc Hl] _] v Hv. unfold on_db, fine. rewrite Hc.
  destruct (decide (v = t)) as [->|Hne]; [right|left; by rewrite lookup_alter_ne].
  exists ev, code, u, (f u). rewrite Hc, lookup_alter_eq, Hu. split_and!; try done. by apply Hf.
Qed.

(** What follows the change. *)
Lemma after_change {B} f t ev code (k : M St B) :
  by_staff d actor → code_accepted ev d actor code →
  (∀ u, U !! t = Some u → freeze_step r ev code t u (f u)) → is_Some (U !! t) →
  preserves (on_db (changed f t ev)) k → triple (on_db (changed f t ev)) k (λ _, fine) (λ _, fine).
Proof.
  intros Hst Hcode Hf Hu Hk. eapply triple_conseq; [by apply triple_pres|done|..];
    intros ? s Hs; by eapply changed_fine.
Qed.
End Freezes.

#[local] Existing Instance calm_portal.
#[local] Existing Instance changed_portal.

Section FreezeCalls.
Context `{Env} (d : Db) (actor : Z).

Definition freeze_ok (r : FreezeCall) : Prop :=
  triple (on_db (calm d)) (freeze_act actor r) (λ _, fine d actor r) (λ _, fine d actor r).
Lemma calm_ok {A} r (c : M St A) :
  preserves (on_db (calm d)) c → triple (on_db (calm d)) c (λ _, fine d actor r) (λ _, fine d actor r).
Proof. intros Hc. eapply triple_conseq; [by apply triple_pres|done|..]; intros ? s; apply calm_fine. Qed.

Lemma pres_staff_check P `{!portal_blind P} ev : preserves (on_db P) (_require_plain_staff actor ev).
Proof. unfold _require_plain_staff. solve_pres. Qed.
Lemma pres_customer_entry P `{!portal_blind P} id u : preserves (on_db P) (customer_entry id u).
Proof. unfold customer_entry. solve_pres. Qed.
Lemma pres_freeze_notification P `{!portal_blind P} id : preserves (on_db P) (_send_staff_freeze_notification id).
Proof. unfold _send_staff_freeze_notification. solve_pres. Qed.
Hint Resolve pres_staff_check pres_customer_entry pres_freeze_notification : pres.

Lemma list_frozen_ok : freeze_ok ListFrozen.
Proof.
  apply calm_ok. simpl. unfold self_frozen_customers_for_staff. solve_pres.
  apply portal_dicts; [apply _|]. intros []. solve_pres.
Qed.
Lemma look_up_ok identifier : freeze_ok (LookUp identifier).
Proof. apply calm_ok. simpl. unfold customer_lookup_for_staff_freeze. cbv zeta. solve_pres. Qed.

(** The steps up to the change. *)
Definition may_freeze (target : option User) : bool :=
  match target with
  | Some u => bool_decide (u_account_type u = ACCOUNT_CUSTOMER) && negb (u_is_frozen u)
              && bool_decide (u_account_status u = "active")
  | None => false
  end.
Ltac before_change test :=
  eapply triple_bind; [apply calm_staff|]; intros ?; apply triple_pure; intros Hst;
  apply triple_step; [solve_pres|intros ? s; apply calm_fine|]; intros clean;
  eapply triple_bind; [apply (calm_target _ _ _ test)|]; intros ?; apply triple_pure; intros Ht;
  apply triple_step; [unfold _assert_not_self_customer_action; solve_pres|intros ? s; apply calm_fine|]; intros ?;
  eapply triple_bind; [apply calm_step_up|]; intros ?; apply triple_pure; intros Hcode.

Lemma unfreeze_ok t reason code : freeze_ok (Unfreeze t reason code).
Proof.
  eapply triple_bind with (R := λ _, fine d actor (Unfreeze t reason code)); [|intros ?; by apply triple_ret].
  unfold unfreeze_customer_as_staff, _self_frozen_customer_for_update. cbv zeta. before_change _is_voluntary_customer_self_freeze.
  eapply triple_bind; [apply change_written|]. intros ?.
  apply triple_step; [apply changing_revoke|intros ? s; apply changing_fine|]. intros n.
  do 2 (apply triple_step; [unfold ref_entry; solve_pres|intros ? s; apply changing_fine|]; intros ?).
  eapply triple_bind; [apply change_noted|]. intros ?.
  eapply triple_bind; [apply change_committed|]. intros ?.
  apply (after_change _ _ _ _ _ _ code); try done; [|by destruct (users d !! t)|solve_pres].
  intros u Hu. rewrite Hu in Ht. apply andb_prop in Ht as [[Hc Hz]%andb_prop Hn].
  apply bool_decide_eq_true in Hc. apply negb_true_iff, bool_decide_eq_false in Hn. constructor; try done.
  by destruct (u_security_lock_reason u); [destruct Hn|].
Qed.

Lemma freeze_call_ok t reason code : freeze_ok (Freeze t reason code).
Proof.
  eapply triple_bind with (R := λ _, fine d actor (Freeze t reason code)); [|intros ?; by apply triple_ret].
  unfold freeze_customer_as_staff, _active_customer_for_freeze_update. cbv zeta. before_change may_freeze.
  apply triple_step; [solve_pres|intros ? s; apply calm_fine|]. intros now.
  eapply triple_bind; [apply change_written|]. intros ?.
  apply triple_step; [apply changing_revoke|intros ? s; apply changing_fine|]. intros n.
  eapply triple_bind.
  { apply triple_try with (X' := λ _, fine d actor (Freeze t reason code)); [|intros e|done].
    - do 2 (apply triple_step; [unfold ref_entry; solve_pres|intros ? s; apply changing_fine|]; intros ?).
      apply change_noted.
    - intros s Hs. exact Hs. }
  intros ?. eapply triple_bind; [apply change_committed|]. intros ?.
  apply (after_change _ _ _ _ _ _ code); try done; [|by destruct (users d !! t)|solve_pres].
  intros u Hu. rewrite Hu in Ht. apply andb_prop in Ht as [[Hc Hz]%andb_prop Hn].
  apply bool_decide_eq_true in Hc, Hn. apply negb_true_iff in Hz. by constructor.
Qed.

Lemma freeze_act_ok r : freeze_ok r.
Proof. destruct r; [apply list_frozen_ok|apply unfreeze_ok|apply look_up_ok|apply freeze_call_ok]. Qed.
End FreezeCalls.
End StaffSafety.
Import StaffSafety Audit AdminAccess AdminActions AdminSafety StaffWork.

(** C20: Reports and tickets move one recorded step at a time.  Whatever call a
    customer or a member of staff makes on them, and however it ends, the durable
    tables of reports and tickets are as they were, or exactly one row is new or
    decided: a customer's open report on a transaction of the customer with no open
    report, a customer's open ticket, or a decision by plain staff along the
    allowed transitions; and then the log durably holds a new record of the call.
    A call that answers, reading included, is always recorded. *)
Theorem reviews_are_recorded `{Env} actor r s :
  working s = committed s →
  let d := committed s in
  let d' := committed (review_act actor r s).2 in
  let made := recorded r actor (security_audit_events d) (security_audit_events d') in
  ((review_act actor r s).1 = Ok true → made)
  ∧ ((transaction_disputes d' = transaction_disputes d ∧ support_tickets d' = support_tickets d)
     ∨ made ∧ (dispute_step d actor (transaction_disputes d) (transaction_disputes d')
               ∧ support_tickets d' = support_tickets d
               ∨ transaction_disputes d' = transaction_disputes d
                 ∧ ticket_step d actor (support_tickets d) (support_tickets d'))).
Proof.
  intros Hclean d d' made. subst d' made.
  assert (acted d actor r (review_act actor r s).2 → recorded r actor (security_audit_events d)
      (security_audit_events (committed (review_act actor r s).2))
    ∧ moved d actor (transaction_disputes (committed (review_act actor r s).2))
        (support_tickets (committed (review_act actor r s).2))) as Hacted.
  { intros (T' & K' & [(Ht & Hk & Hrec) _] & Hm). unfold on_db in *. by rewrite Ht, Hk. }
  pose proof (review_call_ok d actor r s (conj eq_refl Hclean)) as Hok.
  destruct (review_act actor r s) as [[b|e] s']; simpl in *.
  - assert (untouched d s' ∨ acted d actor r s') as Hor by (destruct b; [by right|done]).
    split; [intros [= ->]; by apply Hacted|]. destruct Hor as [?|[Hrec [?|?]]%Hacted]; [by left|by left|by right].
  - split; [done|]. destruct Hok as [?|[Hrec [?|?]]%Hacted]; [by left|by left|by right].
Qed.

(** C22: Staff never lifts a lock, and freezes only in the open.  Whatever staff
    does with freezes and however the call ends, every account but the staff
    member's own is durably as it was, or the call froze an active customer,
    recording the reason for it, or lifted a customer's freeze that carries no
    reason; by plain staff, with an accepted authenticator code, and with a new
    record of it in the durable log. *)
Theorem staff_freezes_are_narrow `{Env} actor r s :
  working s = committed s → ∀ v, v ≠ actor →
  users (committed (freeze_act actor r s).2) !! v = users (committed s) !! v
  ∨ durable_step (committed s) actor r v (freeze_act actor r s).2.
Proof.
  intros Hclean. assert (on_db (calm (committed s)) s) as Hs by (unfold on_db, calm, same_users; by rewrite Hclean).
  pose proof (freeze_act_ok (committed s) actor r s Hs) as Hok.
  by destruct (freeze_act actor r s) as [[u|e] s'].
Qed.

(** ** Witnesses: alice reports a transfer, sam resolves the report and freezes alice *)

Definition work_start : St :=
  let d := upd_transactions (<[1 := mkTransaction "ref-1" "hash" (Some "k1") (Some "hmac-sha256") (Some 1) 1 2 None 2500 "rent" "completed"
    "payup" Sample.noon]>) Sample.portal_db in
  mkSt d d Sample.noon 0 ∅ (Some "sid-0") [] ∅ ∅.
Definition served_review (actor : Z) (r : ReviewCall) (s : St) : St :=
  let s' := (@review_act Sample.sample_env actor r s).2 in set_working (committed s') s'.
Definition complaint : ReviewCall := Report 1 (Some ("unauthorized_transaction", " Not mine ")).
Definition reported_once : St := served_review 1 complaint work_start.
Definition verdict : ReviewCall := DecideDispute 1 "resolved" (Some "Refund agreed").

Lemma reviews_witness :
  (td_status <$> transaction_disputes (committed (@review_act Sample.sample_env 5 verdict reported_once).2) !! 1)
    = Some "resolved"
  ∧ recorded verdict 5 (security_audit_events (committed reported_once))
      (security_audit_events (committed (@review_act Sample.sample_env 5 verdict reported_once).2)).
Proof.
  split; [vm_compute; reflexivity|].
  assert ((@review_act Sample.sample_env 5 verdict reported_once).1 = Ok true) as Hok by (vm_compute; reflexivity).
  exact (proj1 (@reviews_are_recorded Sample.sample_env 5 verdict reported_once eq_refl) Hok).
Defined.

Definition freeze_alice : FreezeCall := Freeze 1 "Suspicious transfer pattern" (code_at work_start).

Lemma staff_freezes_witness :
  (u_is_frozen <$> users (committed (@freeze_act Sample.sample_env 5 freeze_alice work_start).2) !! 1) = Some true
  ∧ durable_step (H := Sample.sample_env) (committed work_start) 5 freeze_alice 1
      (@freeze_act Sample.sample_env 5 freeze_alice work_start).2.
Proof.
  assert ((u_is_frozen <$> users (committed (@freeze_act Sample.sample_env 5 freeze_alice work_start).2) !! 1)
    = Some true) as Hdone by (vm_compute; reflexivity).
  split; [exact Hdone|].
  assert (1 ≠ 5) as Hne by (intros E; discriminate E).
  destruct (@staff_freezes_are_narrow Sample.sample_env 5 freeze_alice work_start eq_refl 1 Hne) as [Hsame|Hd];
    [exfalso|exact Hd].
  assert ((u_is_frozen <$> users (committed work_start) !! 1) = Some false) as Hwas by (vm_compute; reflexivity).
  discriminate (eq_trans (eq_sym Hdone) (eq_trans (f_equal (fmap u_is_frozen) Hsame) Hwas)).
Defined.
