(* ===== verification/Browser.v ===== *)
(** * One browser, many requests

    The requests a browser sends to the authentication services, one after the
    other, each behind the session hook and each in its own environment.  The
    session data is carried from one request to the next (or lost); the database
    may change arbitrarily in between.  However the requests are chosen, the
    session names a signed-in user only after that user's password was accepted
    and, unless the session is only good for setting up an authenticator, the
    second factor as well. *)

From S2P Require Import Prelude PyStr TimeModel Schema Runtime Sample Canonical Integrity AuditLog MfaCrypto.
From S2P Require Import Passwords PasswordHistory Identity SessionRisk BankingPolicy Notifications Sessions.
From S2P Require Import SessionStore RateLimits Mfa RecoveryCodes LoginFrame RegistrationOtp Registration.
From S2P Require Import SignIn Account Profile.
Open Scope string_scope.
Open Scope Z_scope.

Module Browser.
Import Audit MfaCrypto Passwords PasswordHistory SessionRisk Policy Notifications Sessions SessionStore.
Import RateLimits Mfa RecoveryCodes LoginFrame RegistrationOtp Registration SignIn Account Profile.

Inductive BrowserRequest : Type :=
  | LogIn (identifier password : string)
  | SubmitCode (code : string)
  | LogOut
  | StartMfaSetup (user_id : Z)
  | ShowMfaSetup (user_id : Z)
  | VerifyMfaSetup (user_id : Z) (code : string)
  | StartReplacement (user_id : Z) (code : option string)
  | ShowReplacement (user_id : Z)
  | VerifyReplacement (user_id : Z) (code : string)
  | RenewCodes (user_id : Z) (code : option string)
  | Freeze (user_id : Z) (code : string)
  | ChangePassword (user_id : Z) (current new confirm : string) (code : option string)
  | UpdateProfile (user_id : Z) (email phone : string) (code verification : option string)
  | ShowProfile
  | TerminateSession (user_id : Z) (reference : string)
  | TerminateOthers (user_id : Z)
  | FreshMfa (user_id : Z) (code : option string) (action : string).

Definition ignore {A} (c : M St A) : M St unit := _ <- c ;; ret tt.

Definition act `{Env} (r : BrowserRequest) : M St unit :=
  match r with
  | LogIn identifier password => ignore (authenticate_primary identifier password)
  | SubmitCode code => ignore (complete_pending_mfa code)
  | LogOut => logout_current_session
  | StartMfaSetup u => ignore (generate_mfa_setup u)
  | ShowMfaSetup u => pending_mfa_setup u
  | VerifyMfaSetup u code => ignore (verify_mfa_setup u code)
  | StartReplacement u code => ignore (generate_mfa_replacement u code)
  | ShowReplacement u => pending_mfa_replacement u
  | VerifyReplacement u code => ignore (verify_mfa_replacement u code)
  | RenewCodes u code => ignore (regenerate_totp_recovery_codes u code)
  | Freeze u code => ignore (freeze_own_account u code)
  | ChangePassword u old new confirm code => ignore (change_password u old new confirm code)
  | UpdateProfile u email phone code verification =>
      ignore (update_profile_details u email phone code verification)
  | ShowProfile => ignore pending_profile_email_change
  | TerminateSession u reference => terminate_session_for_user u reference
  | TerminateOthers u => ignore (terminate_other_sessions_for_user u)
  | FreshMfa u code action => verify_fresh_mfa_for_action u code action true
  end.

(** A request behind the hook. *)
Definition browse `{Env} (r : BrowserRequest) : M St unit :=
  answer <- _enforce_session_activity ;;
  match answer with Proceed => act r | _ => ret tt end.

(** A request that was served: its environment, what was asked, and the state it
    started from. *)
Record Served : Type := mkServed { sv_env : Env; sv_request : BrowserRequest; sv_start : St }.

Inductive browser : gmap string jval → list Served → Prop :=
  | browser_new : browser ∅ []
  | browser_lost m served : browser m served → browser ∅ served
  | browser_serve (E : Env) r st served :
      browser (session st) served → working st = committed st →
      browser (session (browse r st).2) (served ++ [mkServed E r st]).

(** ** Requests that keep the user, or sign out *)

Definition login_or_nobody (v : Login) (s : St) : Prop := login_is v s ∨ login_is nobody s.

Lemma keeps_or_clears {A} (c : M St A) v :
  (∀ k w, k ∈ login_keys → preserves (session_key k w) c) → preserves (login_or_nobody v) c.
Proof.
  intros Hc s [Hs|Hs]; [left; by apply (keeps_login c Hc v)|right; by apply (keeps_login c Hc nobody)].
Qed.
Lemma clear_nobody v : preserves (login_or_nobody v) session_clear.
Proof. intros s _. by right. Qed.
Hint Resolve clear_nobody : pres.
Hint Extern 3 (preserves (login_or_nobody _) _) =>
  apply keeps_or_clears; intros ???; solve [eauto with pres] : pres.

Section Keep.
Context `{Env} (v : Login).
Notation settles := (preserves (login_or_nobody v)).

Lemma settle_revoke reason : settles (revoke_current_session reason).
Proof.
  unfold revoke_current_session, revoke_session, _session_row_from_identifier,
    _session_record_for_lookup_hash. cbv zeta. solve_pres.
Qed.
Hint Resolve settle_revoke : pres.

Lemma settle_touch : settles _touch_session_risk_context.
Proof.
  apply keeps_or_clears. intros k w Hk. apply sk_touch_risk; by apply other_key.
Qed.
Lemma settle_store b : settles (_store_current_session_risk_context b).
Proof.
  apply keeps_or_clears. intros k w Hk. apply sk_store_risk; by apply other_key.
Qed.
Hint Resolve settle_touch settle_store : pres.

Lemma settle_context : settles enforce_authenticated_session_context.
Proof.
  unfold enforce_authenticated_session_context, is_signed_in, _session_risk_context_changes,
    _session_user_id, _mark_session_risk_reauthentication_required. cbv zeta. solve_pres.
Qed.
Lemma settle_update : settles update_session_activity.
Proof. apply keeps_or_clears. intros k w Hk. apply sk_update_activity. Qed.
Hint Resolve settle_context settle_update : pres.
Lemma settle_hook : settles _enforce_session_activity.
Proof.
  unfold _enforce_session_activity, unless_refused, _revoked_session_response_if_required,
    _pending_mfa_expiry_response, _absolute_lifetime_expiry_response, lifetime_expired, flash, _now.
  cbv zeta. solve_pres.
Qed.

(** *** The account services *)

Lemma settle_notify u i o : settles (_send_account_change_notification u i o).
Proof. unfold _send_account_change_notification, send_quietly. cbv zeta. solve_pres. Qed.
Hint Resolve settle_notify : pres.
Lemma settle_require_valid u a o : settles (require_valid u a o).
Proof.
  unfold require_valid, _handle_mfa_verification_replay, _handle_mfa_verification_failure. solve_pres.
Qed.
Lemma settle_renew u : settles (renew_codes u).
Proof. unfold renew_codes. solve_pres. Qed.
Lemma settle_setup_hash : settles _mfa_setup_session_hash.
Proof. unfold _mfa_setup_session_hash. solve_pres. Qed.
Hint Resolve settle_require_valid settle_renew settle_setup_hash : pres.
Lemma settle_refuse {A} u e r m c : settles (refuse_account (A:=A) u e r m c).
Proof. unfold refuse_account. solve_pres. Qed.
Lemma settle_payload u secret : settles (_mfa_setup_payload u secret).
Proof. unfold _mfa_setup_payload. cbv zeta. solve_pres. Qed.
Hint Resolve settle_refuse settle_payload : pres.
Lemma settle_active_pending u b : settles (_require_active_pending_mfa_setup u b).
Proof. unfold _require_active_pending_mfa_setup. cbv zeta. solve_pres. Qed.
Lemma settle_clear_replacement : settles _clear_pending_mfa_replacement.
Proof. unfold _clear_pending_mfa_replacement. solve_pres. Qed.
Hint Resolve settle_active_pending settle_clear_replacement : pres.
Lemma settle_pending_replacement u : settles (_pending_mfa_replacement_secret u).
Proof. unfold _pending_mfa_replacement_secret. cbv zeta. solve_pres. Qed.
Lemma settle_recent : settles has_recent_fresh_mfa.
Proof. unfold has_recent_fresh_mfa, _now. solve_pres. Qed.
Hint Resolve settle_pending_replacement settle_recent : pres.

Lemma settle_account r :
  match r with LogIn _ _ | SubmitCode _ | UpdateProfile _ _ _ _ _ | ShowProfile => True | _ => settles (act r) end.
Proof.
  destruct r; try exact I; unfold act, ignore.
  - unfold logout_current_session. cbv zeta. solve_pres.
  - unfold generate_mfa_setup. cbv zeta. solve_pres.
  - unfold pending_mfa_setup. solve_pres.
  - unfold verify_mfa_setup. solve_pres.
  - unfold generate_mfa_replacement, refuse_without_mfa. solve_pres.
  - unfold pending_mfa_replacement. solve_pres.
  - unfold verify_mfa_replacement, refuse_without_mfa, session_item. solve_pres.
  - unfold regenerate_totp_recovery_codes, refuse_without_mfa. solve_pres.
  - unfold freeze_own_account, _send_account_freeze_notification, send_quietly. solve_pres.
  - unfold change_password, notify_failure. cbv zeta. solve_pres.
  - unfold terminate_session_for_user, resolve_session_reference_for_user, revoke_session,
      _session_row_from_identifier, _session_record_for_lookup_hash. solve_pres.
  - unfold terminate_other_sessions_for_user. solve_pres.
  - unfold verify_fresh_mfa_for_action. solve_pres.
Qed.

(** *** The profile *)

Lemma settle_clear_profile : settles _clear_pending_profile_email_change.
Proof. unfold _clear_pending_profile_email_change. solve_pres. Qed.
Hint Resolve settle_clear_profile : pres.
Lemma settle_pending_profile u : settles (_pending_profile_email_change u).
Proof. unfold _pending_profile_email_change, session_text. cbv zeta. solve_pres. Qed.
Hint Resolve settle_pending_profile : pres.
Lemma settle_step_up u c a : settles (step_up_or_notify u c a).
Proof. unfold step_up_or_notify. solve_pres. Qed.
Hint Resolve settle_step_up : pres.
Lemma settle_email_change u e p c ev : settles (_handle_profile_email_change u e p c ev).
Proof.
  unfold _handle_profile_email_change, _create_profile_email_change_challenge,
    _validate_profile_email_change_code, _reject_profile_email_change,
    _profile_email_code_hmac, _profile_phone_hmac, sid_text. cbv zeta. solve_pres.
Qed.
Lemma settle_commit u e p ec pc : settles (_commit_profile_update u e p ec pc).
Proof. unfold _commit_profile_update. solve_pres. Qed.
Hint Resolve settle_email_change settle_commit : pres.
Lemma settle_profile u e p c ev : settles (update_profile_details u e p c ev).
Proof.
  unfold update_profile_details, _profile_update_values, _ensure_step_up_preference_enrolled,
    _reject_duplicate_profile_identifiers. cbv zeta. solve_pres.
Qed.
Lemma settle_show_profile : settles pending_profile_email_change.
Proof. unfold pending_profile_email_change. solve_pres. Qed.
Hint Resolve settle_profile settle_show_profile : pres.

Lemma settle_act r : match r with LogIn _ _ | SubmitCode _ => True | _ => settles (act r) end.
Proof.
  pose proof (settle_account r) as Hr. destruct r; try exact Hr; unfold act, ignore; solve_pres.
Qed.
End Keep.

(** ** The hook leaves users and recovery codes alone *)

Definition factor_data (d c w : Db) : Prop :=
  users c = users d ∧ users w = users d ∧ recovery_codes c = recovery_codes d
  ∧ recovery_codes w = recovery_codes d.
#[local] Instance factor_data_blind d : audit_blind (factor_data d).
Proof. split; by intros * (? & ? & ? & ?). Qed.

Section HookData.
Context `{Env} (d : Db).
Notation keeps := (preserves (on_db (factor_data d))).

Lemma data_put_session id r : keeps (db_write (put_session id r)).
Proof. apply pres_db_write. by intros c w (? & ? & ? & ?). Qed.
Lemma data_set_session f : keeps (modify (λ s, set_session (f s) s)).
Proof. by intros s. Qed.
Hint Resolve data_put_session : pres.
Lemma data_end_record id r reason now : keeps (_end_session_record id r reason now).
Proof. unfold _end_session_record. solve_pres. Qed.
Hint Resolve data_end_record pres_record_for_sid pres_current_record : pres.
Lemma data_revoke reason : keeps (revoke_current_session reason).
Proof.
  unfold revoke_current_session, revoke_session, _session_row_from_identifier,
    _session_record_for_lookup_hash. cbv zeta. solve_pres.
Qed.
Lemma data_store b : keeps (_store_current_session_risk_context b).
Proof.
  unfold _store_current_session_risk_context, current_session_risk_fingerprint,
    _current_session_risk_message, _current_session_risk_context, _now. solve_pres.
Qed.
Hint Resolve data_revoke data_store : pres.
Lemma data_context : keeps enforce_authenticated_session_context.
Proof.
  unfold enforce_authenticated_session_context, is_signed_in, _session_risk_context_changes,
    _session_user_id, _mark_session_risk_reauthentication_required, _touch_session_risk_context, _now.
  cbv zeta. solve_pres.
Qed.
Lemma data_rotate : keeps rotate_session_id.
Proof. unfold rotate_session_id, _end_session_id. solve_pres. Qed.
Hint Resolve data_context data_rotate : pres.
Lemma data_hook : keeps _enforce_session_activity.
Proof.
  unfold _enforce_session_activity, unless_refused, _revoked_session_response_if_required,
    _pending_mfa_expiry_response, _absolute_lifetime_expiry_response, lifetime_expired, flash, _now,
    update_session_activity. cbv zeta. solve_pres.
Qed.
End HookData.

(** ** Evidence *)

(** [r] presented the password of [u], whose row was [row], and [r] a second
    factor of [u]. *)
Definition presented_password (u : Z) (row : User) (r : Served) : Prop :=
  match sv_request r with
  | LogIn _ password => @password_accepted (sv_env r) (committed (sv_start r)) u row password
  | _ => False
  end.
Definition presented_factor (u : Z) (r : Served) : Prop :=
  match sv_request r with
  | SubmitCode code => @factor_accepted (sv_env r) (committed (sv_start r)) u code
  | _ => False
  end.

(** The password of [u] was accepted at some point; [mfa] tells whether the
    account had an authenticator then. *)
Definition password_shown (u : Z) (mfa : bool) (served : list Served) : Prop :=
  ∃ i r row, served !! i = Some r ∧ presented_password u row r ∧ u_mfa_enabled row = mfa.
(** First the password, then the second factor. *)
Definition both_shown (u : Z) (served : list Served) : Prop :=
  ∃ i j r r' row, (i < j)%nat ∧ served !! i = Some r ∧ presented_password u row r
    ∧ served !! j = Some r' ∧ presented_factor u r'.

Definition earned (v : Login) (served : list Served) : Prop :=
  v = nobody
  ∨ (∃ u, v = pending_for_user u ∧ password_shown u true served)
  ∨ (∃ u, v = signed_in u PASSWORD_BOOTSTRAP_AUTH_CONTEXT ∧ password_shown u false served)
  ∨ (∃ u, v = signed_in u MFA_AUTH_CONTEXT ∧ both_shown u served).

Lemma password_later u b served r : password_shown u b served → password_shown u b (served ++ [r]).
Proof. intros (i & x & row & Hi & Hx). exists i, x, row. split; [by apply lookup_app_l_Some|done]. Qed.
Lemma both_later u served r : both_shown u served → both_shown u (served ++ [r]).
Proof.
  intros (i & j & x & y & row & Hij & Hi & Hx & Hj & Hy). exists i, j, x, y, row.
  split_and!; try done; by apply lookup_app_l_Some.
Qed.
Lemma earned_later v served r : earned v served → earned v (served ++ [r]).
Proof.
  intros [-> |[(u & -> & Hp)|[(u & -> & Hp)|(u & -> & Hb)]]]; [by left|..].
  - right; left. eauto using password_later.
  - do 2 right; left. eauto using password_later.
  - do 3 right. eauto using both_later.
Qed.

(** *** One request *)

Section Step.
Context (E : Env) (r : BrowserRequest) (st : St) (served : list Served).
Notation after := (served ++ [mkServed E r st])%list.

Lemma last_served : after !! length served = Some (mkServed E r st).
Proof. by rewrite lookup_app_r, Nat.sub_diag. Qed.

Lemma login_earned identifier password s1 s' :
  r = LogIn identifier password → users (working s1) = users (committed st) →
  after_password password s1 s' → earned (login_of (session s')) after.
Proof.
  intros Hr Hu (u & row & (Hrow & Hpw) & Hl). unfold login_is in Hl. rewrite Hl.
  assert (password_shown u (u_mfa_enabled row) after) as Hshown.
  { exists (length served), (mkServed E r st), row. split; [apply last_served|]. split; [|done].
    unfold presented_password. simpl. rewrite Hr. split; [by rewrite <- Hu|done]. }
  destruct (u_mfa_enabled row); [right; left; eauto|do 2 right; left; eauto].
Qed.

Lemma factor_earned code s1 s' :
  r = SubmitCode code → users (working s1) = users (committed st) →
  recovery_codes (working s1) = recovery_codes (committed st) →
  earned (login_of (session s1)) served → after_factor code s1 s' →
  earned (login_of (session s')) after.
Proof.
  intros Hr Hu Hc He (u & Ht & Hp & Hf & Hl). unfold login_is in Hl. rewrite Hl. do 3 right.
  exists u. split; [done|].
  assert (password_shown u true served) as (i & x & row & Hi & Hx & _).
  { destruct He as [Hn|[(u0 & Hn & Hs)|[(u0 & Hn & _)|(u0 & Hn & _)]]];
      unfold login_of in Hn; injection Hn as _ Hn _; rewrite Hn in Ht, Hp; try done.
    simpl in Hp. by injection Hp as ->. }
  exists i, (length served), x, (mkServed E r st), row. split; [by apply lookup_lt_Some in Hi|].
  split; [by apply lookup_app_l_Some|]. split; [done|]. split; [apply last_served|].
  unfold presented_factor. simpl. rewrite Hr. unfold factor_accepted, factor_accepted_for. by rewrite <- Hu, <- Hc.
Qed.

Lemma settled_earned s' :
  earned (login_of (session st)) served → login_or_nobody (login_of (session st)) s' →
  earned (login_of (session s')) after.
Proof.
  intros He [Hl|Hl]; unfold login_is in Hl; rewrite Hl; [by apply earned_later|by left].
Qed.

Lemma request_cases v :
  (∃ i p, r = LogIn i p) ∨ (∃ code, r = SubmitCode code) ∨ preserves (login_or_nobody v) (act r).
Proof. pose proof (settle_act v r). destruct r; eauto. Qed.

Lemma browse_earned :
  working st = committed st → earned (login_of (session st)) served →
  earned (login_of (session (browse r st).2)) after.
Proof.
  intros Hclean He. unfold browse, bind.
  pose proof (settle_hook (login_of (session st)) st (or_introl eq_refl)) as Hl1.
  assert (on_db (factor_data (committed st)) (_enforce_session_activity st).2) as (_ & Hu & _ & Hc)
    by (apply data_hook; unfold on_db, factor_data; by rewrite Hclean).
  assert (users (working (_enforce_session_activity st).2) = users (committed (_enforce_session_activity st).2))
    as Hsame.
  { assert (on_db (factor_data (committed st)) (_enforce_session_activity st).2) as (-> & -> & _)
      by (apply data_hook; unfold on_db, factor_data; by rewrite Hclean). done. }
  destruct (_enforce_session_activity st) as [[answer|e] s1]; simpl in *; [|by apply settled_earned].
  destruct answer; try (by apply settled_earned).
  assert (earned (login_of (session s1)) served) as He1.
  { destruct Hl1 as [Hl|Hl]; unfold login_is in Hl; rewrite Hl; [done|by left]. }
  assert (earned (login_of (session s1)) after) as He2 by by apply earned_later.
  destruct (request_cases (login_of (session st))) as [(i & p & Hr)|[(code & Hr)|Hs]].
  - pose proof (primary_triple i p s1 Hsame s1 eq_refl) as Ht. rewrite Hr at 1. unfold act, ignore, bind.
    destruct (authenticate_primary i p s1) as [[o|e] s2]; simpl in *; [by eapply login_earned|].
    destruct Ht as [Hl|Ha]; [unfold login_is in Hl; by rewrite Hl|by eapply login_earned].
  - pose proof (second_factor_triple code s1 s1 eq_refl) as Ht. rewrite Hr at 1. unfold act, ignore, bind.
    destruct (complete_pending_mfa code s1) as [[o|e] s2]; simpl in *; [by eapply factor_earned|].
    destruct Ht as [Hl|Ha]; [unfold login_is in Hl; by rewrite Hl|by eapply factor_earned].
  - apply settled_earned; [done|exact (Hs s1 Hl1)].
Qed.
End Step.

(** C5: Nobody is signed in without both factors.  Whatever requests a browser
    sends to the authentication services, in whatever environments and whatever
    happens to the database between them, when its session names a signed-in
    user, an earlier request presented the password stored for that user's active
    customer account, and either a later one presented that user's second factor
    (a TOTP code for the stored secret, or an open recovery code), or the account
    had no authenticator and the session is the bootstrap one that sets one up. *)
Theorem signed_in_after_both_factors m served u :
  browser m served → m !! "user_id" = Some (JInt u) →
  (m !! "auth_context" = Some (JStr MFA_AUTH_CONTEXT) ∧ both_shown u served)
  ∨ (m !! "auth_context" = Some (JStr PASSWORD_BOOTSTRAP_AUTH_CONTEXT) ∧ password_shown u false served).
Proof.
  intros Hb Hu. assert (earned (login_of m) served) as He.
  { clear Hu. induction Hb as [|m served Hb IH|E r st served Hb IH Hclean]; [by left|by left|].
    by apply browse_earned. }
  unfold earned, login_of, nobody, pending_for_user, signed_in in He. rewrite Hu in He.
  destruct He as [Hn|[(u0 & Hn & _)|[(u0 & Hn & Hs)|(u0 & Hn & Hs)]]]; simplify_eq; auto.
Qed.

(** ** Witness: alice logs in with her password and an authenticator code *)

Definition alice_db : Db :=
  set_user 1 (set_u_password_hash Passwords.sample_hash_text) Sample.sample_db.
Definition login_start : St := mkSt alice_db alice_db Sample.noon 0 ∅ (Some "sid-0") [] ∅ ∅.
Definition login_request : BrowserRequest := LogIn "Alice " "correct horse".
Definition login_run := @browse Sample.sample_env login_request login_start.
Definition code_start : St := set_working (committed login_run.2) login_run.2.
Definition code_request : BrowserRequest := SubmitCode Mfa.sample_code.
Definition code_run := @browse Sample.sample_env code_request code_start.
Definition alice_requests : list Served :=
  [mkServed Sample.sample_env login_request login_start; mkServed Sample.sample_env code_request code_start].

(** A request after another one. *)
Lemma next_request st served E r :
  browser (session st) served →
  let st' := set_working (committed st) st in
  browser (session (@browse E r st').2) (served ++ [mkServed E r st']).
Proof. intros Hb st'. by apply (browser_serve E r st'). Qed.

Lemma signed_in_witness : login_of (session code_run.2) = signed_in 1 MFA_AUTH_CONTEXT ∧ both_shown 1 alice_requests.
Proof.
  assert (login_of (session code_run.2) = signed_in 1 MFA_AUTH_CONTEXT) as E by (vm_compute; reflexivity).
  split; [exact E|].
  assert (browser (session login_run.2) [mkServed Sample.sample_env login_request login_start]) as H1
    by exact (browser_serve Sample.sample_env login_request login_start [] browser_new eq_refl).
  pose proof (next_request _ _ Sample.sample_env code_request H1) as Hb.
  assert (session code_run.2 !! "user_id" = Some (JInt 1)) as Hu by exact (f_equal (λ v : Login, v.1.1) E).
  assert (session code_run.2 !! "auth_context" = Some (JStr MFA_AUTH_CONTEXT)) as Hc
    by exact (f_equal (λ v : Login, v.2) E).
  destruct (signed_in_after_both_factors (session code_run.2) alice_requests 1 Hb Hu) as [[_ Hs]|[Hd _]];
    [exact Hs|]. rewrite Hc in Hd. discriminate Hd.
Defined.
End Browser.
