(* ===== verification/TopUp.v ===== *)
(** * Top-ups ([app/banking/services.py], [app/banking/topup_tokens.py],
      [app/banking/routes.py])

    A signed-in customer asks for an amount and gets a QR token; whoever scans
    it confirms with the customer's authenticator code, and the account is
    credited.  A route's answer is the page it renders and its status code. *)

From S2P Require Import Prelude PyStr PyDecimal TimeModel Schema Runtime Sample Canonical Integrity.
From S2P Require Import AuditLog SessionRisk BankingPolicy Notifications Sessions RateLimits Mfa.
From S2P Require Import Transfers.
From Stdlib Require Import Ascii.
Open Scope string_scope.
Open Scope Z_scope.

Module TopUp.
Import SessionHmac Audit Ledger Policy Notifications Mfa Transfers.

Definition _TOPUP_APPROVAL_MAX_FAILURES : Z := 5.

(** [topup_approve.html] with its [valid] and [approved] flags, and the status. *)
Record Page : Type := mkPage { pg_valid : bool; pg_approved : bool; pg_status : Z }.

Definition parse_topup_amount (raw : string) : res Z :=
  match rbind (decimal_of_str raw) quantize_cents with
  | Raise InvalidOperation => Raise (AuthError "Enter a valid amount." 400 None)
  | Raise e => Raise e
  | Ok amount =>
      rbind (dec_lt amount (of_cents MIN_TRANSACTION_AMOUNT)) (λ low,
      rbind (if (low : bool) then Ok true
             else dec_gt amount (of_cents MAX_TRANSACTION_AMOUNT)) (λ out,
      if (out : bool) then Raise (AuthError "Top-up amount is out of the allowed range." 400 None)
      else Ok (cents amount)))
  end.

Definition add_topup_credit (c : CreditLedgerRow) : Db → Db :=
  upd_topup_credits (λ t, <[next_id t := c]> t).
Definition add_topup_request (r : TopUpApprovalRequest) : Db → Db :=
  upd_topup_approval_requests (λ t, <[next_id t := r]> t).

Definition _topup_owner_is_eligible (user : option User) : bool :=
  match user with
  | Some u => bool_decide (u_account_type u = "customer") && bool_decide (u_account_status u = "active")
              && negb (u_is_frozen u) && negb (nonempty (or_empty (u_security_lock_reason u)))
  | None => false
  end.

Section TopUp.
Context `{Env}.

Definition update_request (id : Z) (f : TopUpApprovalRequest → TopUpApprovalRequest) : M St unit :=
  db_write (upd_topup_approval_requests (alter f id)).

(** ** Tokens *)

Definition _topup_token_hmac (verifier : string) : res string :=
  active_hmac_hex ("topup-approval-token:" +:+ verifier) 64.

Definition generate_topup_token (user_id amount : Z) : M St (string * string) :=
  selector <- fresh token_urlsafe ;;
  verifier <- fresh token_urlsafe ;;
  now <- now_utc ;;
  ttl_seconds <- lift (config_int "TOPUP_APPROVAL_TTL_SECONDS") ;;
  verifier_hmac <- lift (_topup_token_hmac verifier) ;;
  _ <- db_write (add_topup_request (mkTopUpApprovalRequest selector verifier_hmac user_id amount
         "pending" 0 (now + ttl_seconds * US_SECOND) None None now)) ;;
  _ <- commit ;;
  ret (selector +:+ "." +:+ verifier, selector).

Definition _topup_request_by_selector (selector : string)
    : M St (option (Z * TopUpApprovalRequest)) :=
  db_query (λ d, one_or_none (λ r, bool_decide (tu_selector r = selector))
                   (topup_approval_requests d)).

(** The row afterwards. *)
Definition _lazily_expire (id : Z) (r : TopUpApprovalRequest) : M St TopUpApprovalRequest :=
  if bool_decide (tu_status r = "pending") then
    now <- now_utc ;;
    if tu_expires_at r <=? now then
      _ <- update_request id (set_tu_status "expired") ;;
      _ <- commit ;;
      ret (set_tu_status "expired" r)
    else ret r
  else ret r.

Definition load_topup_request_for_approval (raw_token : string)
    : M St (option (Z * TopUpApprovalRequest)) :=
  match partition_char "."%char (chars raw_token) with
  | None => ret None
  | Some (a, b) =>
      let selector := of_chars a in
      let verifier := of_chars b in
      if negb (nonempty selector) || negb (nonempty verifier) || (64 <? slen selector)%nat
         || (128 <? slen verifier)%nat then ret None
      else
        found <- _topup_request_by_selector selector ;;
        match found with
        | None => ret None
        | Some (id, r) =>
            hmac <- lift (_topup_token_hmac verifier) ;;
            if negb (bool_decide (tu_verifier_hmac r = hmac)) then ret None
            else
              r <- _lazily_expire id r ;;
              if bool_decide (tu_status r = "pending") then ret (Some (id, r)) else ret None
        end
  end.

Definition load_topup_request_for_owner (selector : string) (user_id : Z)
    : M St (option (Z * TopUpApprovalRequest)) :=
  found <- _topup_request_by_selector selector ;;
  match found with
  | None => ret None
  | Some (id, r) =>
      if negb (tu_user_id r =? user_id) then ret None
      else r <- _lazily_expire id r ;; ret (Some (id, r))
  end.

(** ** Crediting *)

Definition signed_topup_credit (credit_ref : string) (user_id amount created_at : Z)
    : res CreditLedgerRow :=
  rbind (sign_topup_credit_integrity credit_ref user_id amount "completed" created_at)
    (λ '(credit_hash, key_id, algorithm, version),
       Ok (mkCreditLedgerRow credit_ref credit_hash (Some key_id) (Some algorithm) (Some version)
             user_id amount "completed" created_at)).

(** Returns the credit's reference and time. *)
Definition credit_account_topup (user_id amount : Z) : M St (string * Z) :=
  locked_user <- load_user user_id ;;
  _ <- lift (ensure_account_not_frozen locked_user "account top-up") ;;
  credit_ref <- fresh uuid4 ;;
  created_at <- now_utc ;;
  credit <- lift (signed_topup_credit credit_ref user_id amount created_at) ;;
  txn <- lift (signed_transaction credit_ref user_id user_id None amount "" "topup" created_at) ;;
  _ <- db_write (adjust_balance user_id amount) ;;
  _ <- db_write (add_topup_credit credit) ;;
  _ <- db_write (add_transaction txn) ;;
  band <- lift (_amount_audit_band (of_cents amount)) ;;
  reference <- lift (audit_reference "topup_credit" credit_ref) ;;
  _ <- audit_event_required "account_topup" "success" (Some user_id)
         [("amount_band", JStr band); ("credit_ref", jopt_str reference)] ;;
  ret (credit_ref, created_at).

(** ** Routes *)

(** [topup_submit]: the form's amount, or [None] when it does not validate.
    Returns the page's status, with the token when one was issued. *)
Definition topup_submit (user_id : Z) (form : option string) : M St (Z * option string) :=
  match form with
  | None => ret (400, None)
  | Some raw =>
      match parse_topup_amount raw with
      | Raise (AuthError _ status _) => ret (status, None)
      | Raise e => raise e
      | Ok amount =>
          let* (raw_token, _) := generate_topup_token user_id amount in
          ret (200, Some raw_token)
      end
  end.

(** The transaction that completes an approval, and its failure handlers. *)
Definition complete_topup (user_id id : Z) (r : TopUpApprovalRequest) : M St (Page + string * Z) :=
  try_except
    (_ <- audit_event_required "account_topup_approval" "mfa_success" (Some user_id) [] ;;
     let* (credit_ref, created_at) := credit_account_topup user_id (tu_amount r) in
     _ <- update_request id (set_tu_status "completed") ;;
     now <- now_utc ;;
     _ <- update_request id (set_tu_approved_at (Some now)) ;;
     _ <- update_request id (set_tu_credit_ref (Some credit_ref)) ;;
     _ <- commit ;;
     ret (inr (credit_ref, created_at)))
    any_exn
    (λ e, _ <- rollback ;;
          match e with
          | AuthError _ status _ | FrozenAccountError _ status =>
              _ <- update_request id (set_tu_status "failed") ;;
              _ <- commit ;;
              ret (inl (mkPage false false status))
          | AuditWriteError _ => ret (inl (mkPage true false 503))
          | _ => ret (inl (mkPage true false 500))
          end).

(** A wrong code: count it, and close the request at the limit. *)
Definition reject_topup_code (user_id id : Z) (r : TopUpApprovalRequest) : M St Page :=
  let failure_count := tu_failure_count r + 1 in
  _ <- update_request id (set_tu_failure_count failure_count) ;;
  if _TOPUP_APPROVAL_MAX_FAILURES <=? failure_count then
    _ <- update_request id (set_tu_status "failed") ;;
    _ <- commit ;;
    _ <- audit_event "account_topup_approval" "locked" (Some user_id) [] ;;
    ret (mkPage false false 401)
  else
    _ <- commit ;;
    _ <- audit_event "account_topup_approval" "failure" (Some user_id)
           [("failure_count", JInt failure_count)] ;;
    ret (mkPage true false 401).

(** [topup_approve_submit]: [form] is the entered code, or [None] when the
    form does not validate.  The user is the owner of the row as reloaded: the
    same as of the row first loaded, since nobody changes an owner in between. *)
Definition topup_approve_submit (token : string) (form : option string) : M St Page :=
  found <- load_topup_request_for_approval token ;;
  match found with
  | None => ret (mkPage false false 404)
  | Some (id, r) =>
      match form with
      | None => ret (mkPage true false 400)
      | Some code =>
          user <- db_get (λ d, users d !! tu_user_id r) ;;
          if negb (_topup_owner_is_eligible user) then
            _ <- update_request id (set_tu_status "failed") ;;
            _ <- audit_event "account_topup_approval" "blocked"
                   (match user with Some _ => Some (tu_user_id r) | None => None end)
                   [("reason", JStr "owner_ineligible")] ;;
            _ <- commit ;;
            ret (mkPage false false 403)
          else
            verified <- try_except
              (v <- verify_totp_code_for_user (tu_user_id r) code "account_topup_approval" ;;
               ret (inr v))
              is_auth_error
              (λ e, match e with
                    | AuthError _ status _ | FrozenAccountError _ status =>
                        ret (inl (mkPage true false status))
                    | _ => raise e
                    end) ;;
            match verified with
            | inl page => ret page
            | inr false => reject_topup_code (tu_user_id r) id r
            | inr true =>
                again <- load_topup_request_for_approval token ;;
                match again with
                | None => ret (mkPage false false 404)
                | Some (id, r) =>
                    done <- complete_topup (tu_user_id r) id r ;;
                    match done with
                    | inl page => ret page
                    | inr (credit_ref, created_at) =>
                        _ <- send_topup_deposit_notification (tu_user_id r) (tu_amount r) credit_ref
                               (Some created_at) ;;
                        ret (mkPage true true 200)
                    end
                end
            end
      end
  end.

Definition topup_status (user_id : Z) (selector : string) : M St (Z * option string) :=
  found <- load_topup_request_for_owner selector user_id ;;
  match found with
  | None => ret (404, None)
  | Some (_, r) => ret (200, Some (tu_status r))
  end.

Definition topup_approve (token : string) : M St Page :=
  found <- load_topup_request_for_approval token ;;
  match found with
  | None => ret (mkPage false false 404)
  | Some _ => ret (mkPage true false 200)
  end.
End TopUp.
End TopUp.
