(* ===== verification/TopUpSafety.v ===== *)
(** * Top-ups refine the abstract ledger

    Approving a top-up either leaves the durable books alone or performs one
    [step_topup]; a request is honoured at most once. *)

From S2P Require Import Prelude PyStr PyDecimal TimeModel Schema Runtime Sample Canonical Integrity.
From S2P Require Import AuditLog SessionRisk BankingPolicy Notifications Sessions RateLimits Mfa.
From S2P Require Import LedgerSpec Transfers TransferSafety TopUp.
From Stdlib Require Import Ascii.
Open Scope string_scope.
Open Scope Z_scope.

Module TopUpSafety.
Import SessionHmac Audit Ledger Policy Notifications Mfa LedgerSpec Transfers TransferSafety TopUp.

Lemma books_lock now r u d : books (upd_users (alter (lock_user now r) u) d) = books d.
Proof.
  unfold books. simpl. f_equal; apply map_eq; intros i; rewrite !lookup_fmap, lookup_alter;
    case_decide; try done; subst i; by destruct (users d !! u).
Qed.

#[export] Instance books_security_blind B : security_blind (λ c w, books c = B ∧ books w = B).
Proof. split; [apply _|..]; intros * [? ?]; split; try done. by rewrite books_lock. Qed.

(** From books [B] the approval credited [amount] to [u] and reached [B']. *)
Record credited `{Env} (B B' : Books) (u amount : Z) (ref : string) (t : Transaction)
    (c : CreditLedgerRow) : Prop := {
  crd_books : B' = mkBooks (alter (λ x, x + amount) u (bk_balances B)) (bk_limits B)
    (<[next_id (bk_entries B) := t]> (bk_entries B)) (bk_registration B)
    (<[next_id (bk_topups B) := c]> (bk_topups B));
  crd_known : is_Some (bk_balances B !! u);
  crd_entry : (tx_sender_id t, tx_recipient_id t, tx_amount t, tx_transaction_type t,
               tx_transaction_ref t) = (u, u, amount, "topup", ref);
  crd_time : tx_status t = "completed" ∧ tx_created_at t = cr_created_at c;
  crd_credit : (cr_user_id c, cr_amount c, cr_credit_ref c) = (u, amount, ref);
  crd_entry_valid : transaction_integrity_status t = true;
  crd_credit_valid : topup_credit_integrity_status c = true
}.

Definition topped_up `{Env} (B B' : Books) (u amount : Z) (ref : string) : Prop :=
  MIN_TRANSACTION_AMOUNT ≤ amount ≤ MAX_TRANSACTION_AMOUNT
  ∧ ∃ t c, credited B B' u amount ref t c.

Lemma topped_up_step `{Env} B B' u amount ref : topped_up B B' u amount ref → ledger_step B B'.
Proof.
  intros [Ha (t & c & [-> Hu Ht [Hst Htm] Hc _ _])]. injection Ht as Hs Hr Hta Hty _.
  injection Hc as Hcu Hca _. unfold MIN_TRANSACTION_AMOUNT in Ha.
  apply (step_topup B u amount (next_id (bk_entries B)) (next_id (bk_topups B)) t c);
    try done; try lia; try apply next_id_fresh.
  unfold is_transfer. rewrite Hty. apply andb_false_r.
Qed.

Lemma pres_deposit_notice `{Env} B u a ref t :
  preserves (settled B) (send_topup_deposit_notification u a ref t).
Proof. apply pres_safe. solve_pres. Qed.

Section Safety.
Context `{Env} (B : Books).

Lemma pres_update_request B' id f : preserves (books_are B B') (update_request id f).
Proof. by apply pres_db_write. Qed.
Hint Resolve pres_update_request : pres.

Lemma pres_lazily_expire id r : preserves (settled B) (_lazily_expire id r).
Proof. unfold _lazily_expire. solve_pres. Qed.
Hint Resolve pres_lazily_expire : pres.
Lemma pres_load_request tok : preserves (settled B) (load_topup_request_for_approval tok).
Proof. unfold load_topup_request_for_approval, _topup_request_by_selector. solve_pres. Qed.
Lemma pres_reject_code u id r : preserves (settled B) (reject_topup_code u id r).
Proof. unfold reject_topup_code. solve_pres. Qed.
Lemma reject_not_approved u id r st page st' :
  reject_topup_code u id r st = (Ok page, st') → pg_approved page = false.
Proof. unfold reject_topup_code. intros E. inv_bind E. case_match; repeat inv_bind E; by unfold ret in E; simplify_eq. Qed.

Lemma signed_credit_spec ref u a t c :
  signed_topup_credit ref u a t = Ok c →
  (cr_user_id c, cr_amount c, cr_credit_ref c) = (u, a, ref) ∧ cr_created_at c = t
  ∧ topup_credit_integrity_status c = true.
Proof.
  unfold signed_topup_credit, sign_topup_credit_integrity.
  destruct (_sign_credit_integrity _ _ _ _ _ _) as [[[[h k] al] v]|] eqn:E; [|done].
  simpl. intros [= <-]. split_and!; [done|done|]. by apply sign_credit_verifies.
Qed.

Lemma signed_topup_txn_spec ref u a c t :
  signed_transaction ref u u None a "" "topup" c = Ok t →
  (tx_sender_id t, tx_recipient_id t, tx_amount t, tx_transaction_type t, tx_transaction_ref t)
  = (u, u, a, "topup", ref) ∧ (tx_status t = "completed" ∧ tx_created_at t = c)
  ∧ transaction_integrity_status t = true.
Proof.
  unfold signed_transaction.
  destruct (sign_transaction_integrity _ _ _ _ _ _ _ _ _) as [[[[h k] al] v]|] eqn:E; [|done].
  simpl. intros [= <-]. split_and!; [done|done|done|]. by apply sign_verifies.
Qed.

Lemma books_add_credit c d :
  books (add_topup_credit c d) = mkBooks (bk_balances (books d)) (bk_limits (books d))
    (bk_entries (books d)) (bk_registration (books d))
    (<[next_id (bk_topups (books d)) := c]> (bk_topups (books d))).
Proof. done. Qed.

Lemma books_add_entry t d :
  books (add_transaction t d) = mkBooks (bk_balances (books d)) (bk_limits (books d))
    (<[next_id (bk_entries (books d)) := t]> (bk_entries (books d)))
    (bk_registration (books d)) (bk_topups (books d)).
Proof. done. Qed.

Lemma load_user_known u st row st' :
  settled B st → load_user u st = (Ok row, st') → is_Some (bk_balances B !! u).
Proof.
  intros [_ <-] E. unfold load_user, db_query in E. simpl. rewrite lookup_fmap.
  destruct (users (working st) !! u); [by eexists|done].
Qed.

Lemma credit_triple u a :
  triple (settled B) (credit_account_topup u a)
    (λ out st, ∃ B' t c, credited B B' u a out.1 t c ∧ books_are B B' st) (λ _, durable B).
Proof.
  unfold credit_account_topup.
  eapply triple_step_fact with (F := λ _, is_Some (bk_balances B !! u));
    [solve_pres|intros st row st' Hst E; by eapply load_user_known|by intros ? ? [? ?]|].
  intros row Hu. apply triple_step; [solve_pres|by intros ? ? [? ?]|intros _].
  do 2 (apply triple_step; [solve_pres|by intros ? ? [? ?]|intros ?]).
  intros st [Hc Hw]. unfold bind at 1, lift at 1.
  destruct (signed_topup_credit _ _ _ _) as [c|e] eqn:Ec; [|done].
  unfold bind at 1, lift at 1. destruct (signed_transaction _ _ _ _ _ _ _ _) as [t|e] eqn:Et; [|done].
  apply signed_credit_spec in Ec as (Hcr & Hct & Hcv).
  apply signed_topup_txn_spec in Et as (Htx & [Hts Htt] & Htv).
  do 3 (erewrite bind_Ok by reflexivity). cbn beta.
  set (st1 := set_working _ _).
  pose (B' := mkBooks (alter (λ x, x + a) u (bk_balances B)) (bk_limits B)
    (<[next_id (bk_entries B) := t]> (bk_entries B)) (bk_registration B)
    (<[next_id (bk_topups B) := c]> (bk_topups B))).
  assert (books_are B B' st1) as Hst1.
  { split; [done|]. unfold st1. simpl working.
    rewrite books_add_entry, books_add_credit, books_adjust, Hw. done. }
  clearbody st1. revert st1 Hst1.
  do 2 (apply triple_step; [apply pres_lift|by intros ? ? [? ?]|intros ?]).
  eapply triple_bind with (R := λ _, books_are B B').
  { eapply triple_conseq; [apply audit_required_pending|done..|by intros ? ? [? ?]]. }
  intros _. apply triple_ret. intros st2 Hst2. exists B', t, c.
  split; [|done]. split; try done. by rewrite Htt, Hct.
Qed.

(** A commit of a credited account: the database has checked the amount. *)
Lemma credit_commit_triple B' u a ref t c :
  credited B B' u a ref t c →
  triple (books_are B B') commit (λ _ st, topped_up B B' u a ref ∧ settled B' st) (λ _, durable B).
Proof.
  intros Hcr st [Hc Hw]. unfold commit. destruct (db_ok (working st)) eqn:Hok; [|done].
  split; [|done]. split; [|by exists t, c].
  assert (topup_credits (working st) !! next_id (bk_topups B) = Some c) as Hrow.
  { change (topup_credits (working st)) with (bk_topups (books (working st))).
    rewrite Hw, (crd_books _ _ _ _ _ _ _ Hcr). apply lookup_insert_eq. }
  eapply all_rows_lookup in Hrow; [|by apply db_ok_topups].
  unfold topup_credit_ok, between in Hrow. rewrite !andb_true_iff, !Z.leb_le in Hrow.
  pose proof (crd_credit _ _ _ _ _ _ _ Hcr) as E. injection E as _ Ea _.
  rewrite Ea in Hrow. tauto.
Qed.

Lemma complete_triple u id r :
  triple (settled B) (complete_topup u id r)
    (λ out st, match out with
               | inl page => pg_approved page = false ∧ settled B st
               | inr (ref, _) => ∃ B', topped_up B B' u (tu_amount r) ref ∧ settled B' st
               end) (λ _, durable B).
Proof.
  unfold complete_topup. eapply triple_try with (X' := λ _, durable B); [| |done].
  - apply triple_step; [solve_pres|by intros ? ? [? ?]|intros _].
    eapply triple_bind; [apply credit_triple|intros [ref created]].
    intros st (B' & t & c & Hcr & Hst). revert st Hst.
    do 4 (apply triple_step; [eauto with pres|by intros ? ? [? ?]|intros ?]).
    eapply triple_bind; [by apply (credit_commit_triple B' u (tu_amount r) ref t c)|intros ?].
    apply triple_ret. intros st [Hup Hst]. eauto.
  - intros e. eapply triple_bind with (R := λ _, settled B); [by intros st Hst|intros _].
    destruct e; try (apply triple_ret; by intros st Hst).
    all: apply triple_step; [eauto with pres|by intros ? ? [? ?]|intros ?];
      apply triple_step; [solve_pres|by intros ? ? [? ?]|intros ?];
      apply triple_ret; by intros st Hst.
Qed.
End Safety.

(** ** The request a token names *)

Definition selector_of (token : string) : option string :=
  (λ ab, of_chars ab.1) <$> partition_char "."%char (chars token).

(** [r] is stored under [id], durably and in the session's view. *)
Definition request_row (id : Z) (r : TopUpApprovalRequest) (c w : Db) : Prop :=
  topup_approval_requests c !! id = Some r ∧ topup_approval_requests w !! id = Some r.
#[export] Instance request_row_blind id r : audit_blind (request_row id r).
Proof. by split; intros * [? ?]. Qed.

Section Requests.
Context `{Env}.

Definition pending_row (id : Z) (r : TopUpApprovalRequest) (w : Db) : Prop :=
  topup_approval_requests w !! id = Some r.

Lemma load_request_spec token st id r st' :
  load_topup_request_for_approval token st = (Ok (Some (id, r)), st') →
  pending_row id r (working st') ∧ tu_status r = "pending" ∧ selector_of token = Some (tu_selector r).
Proof.
  unfold load_topup_request_for_approval, selector_of. intros E.
  destruct (partition_char _ _) as [[a b]|]; [|done]. cbv zeta in E.
  destruct (_ || _); [done|]. inv_bind E. unfold _topup_request_by_selector, db_query in E0.
  simplify_eq. destruct a0 as [[id' r']|]; [|done].
  match goal with Hq : one_or_none _ _ = _ |- _ =>
    apply one_or_none_Some in Hq as [Hr Hs%bool_decide_eq_true] end. inv_bind E. unfold lift in E0. simplify_eq.
  destruct (negb _); [done|]. inv_bind E. case_bool_decide as Hp; [|done]. unfold ret in E. simplify_eq.
  simpl. rewrite <- Hs. unfold _lazily_expire in E0. case_bool_decide.
  - inv_bind E0. unfold now_utc in E. simplify_eq. case_match; [by repeat inv_bind E0; unfold ret in E0; simplify_eq|].
    unfold ret in E0. by simplify_eq.
  - unfold ret in E0. by simplify_eq.
Qed.

Definition completed_request (ref : string) (now : Z) (r : TopUpApprovalRequest)
    : TopUpApprovalRequest :=
  set_tu_credit_ref (Some ref) (set_tu_approved_at (Some now) (set_tu_status "completed" r)).

Lemma complete_marks u id r s ref t s' :
  complete_topup u id r s = (Ok (inr (ref, t)), s') → pending_row id r (working s) →
  ∃ now, on_db (request_row id (completed_request ref now r)) s'.
Proof.
  unfold complete_topup, try_except. intros E Hr.
  match type of E with context [match ?c with _ => _ end] => destruct c as [[o|e] s1] eqn:Eb end.
  2:{ exfalso. cbn [any_exn] in E. inv_bind E. destruct e; repeat inv_bind E; unfold ret in E; by simplify_eq. }
  simplify_eq. inv_bind Eb.
  assert (preserves (on_db (λ _, pending_row id r))
    (audit_event_required "account_topup_approval" "mfa_success" (Some u) [])) as Hp1
    by (apply pres_audit_event_required; done).
  specialize (Hp1 s Hr). rewrite E in Hp1. cbn [snd] in Hp1. clear E. inv_bind Eb. destruct a0 as [ref' t'].
  assert (preserves (on_db (λ _, pending_row id r)) (credit_account_topup u (tu_amount r))) as Hp2.
  { unfold credit_account_topup, load_user. solve_pres; try by apply pres_db_write.
    by apply pres_audit_event_required. }
  specialize (Hp2 _ Hp1). rewrite E in Hp2. clear E. unfold on_db in Hp2. simpl in Hp2.
  inv_bind Eb. unfold update_request, db_write, modify in E. simplify_eq.
  inv_bind Eb. unfold now_utc in E. simplify_eq.
  do 2 (inv_bind Eb; unfold update_request, db_write, modify in E; simplify_eq).
  inv_bind Eb. unfold commit in E. case_match; [|done]. unfold ret in Eb. simplify_eq.
  eexists. split; simpl; by rewrite !lookup_alter_eq, Hp2.
Qed.
End Requests.

(** ** Approval *)

Section Approval.
Context `{Env} (B : Books).
Hint Resolve pres_update_request pres_load_request pres_reject_code : pres.

(** The approval credited the owner of the request the token names, with the
    amount of the request, which is now completed under that credit. *)
Definition honoured (token : string) (B' : Books) (st : St) : Prop :=
  ∃ id r ref now, selector_of token = Some (tu_selector r)
    ∧ topped_up B B' (tu_user_id r) (tu_amount r) ref
    ∧ on_db (request_row id (completed_request ref now r)) st ∧ settled B' st.

Lemma finish_approval token id r st :
  settled B st → pending_row id r (working st) → selector_of token = Some (tu_selector r) →
  match (done <- complete_topup (tu_user_id r) id r ;;
         match done with
         | inl page => ret page
         | inr (credit_ref, created_at) =>
             _ <- send_topup_deposit_notification (tu_user_id r) (tu_amount r) credit_ref
                    (Some created_at) ;;
             ret (mkPage true true 200)
         end) st with
  | (Ok page, st') => if pg_approved page then ∃ B', honoured token B' st' else settled B st'
  | (Raise _, st') => durable B st'
  end.
Proof.
  intros Hst Hr Hsel. pose proof (complete_triple B (tu_user_id r) id r st Hst) as Hc.
  destruct (complete_topup (tu_user_id r) id r st) as [[[page|[ref t]]|e] s1] eqn:E;
    [| |by rewrite (bind_Raise _ _ _ _ _ E)].
  { rewrite (bind_Ok _ _ _ _ _ E). destruct Hc as [Hp Hs]. simpl. by rewrite Hp. }
  destruct (complete_marks _ _ _ _ _ _ _ E Hr) as [now Hrow]. destruct Hc as (B' & Hup & Hs).
  rewrite (bind_Ok _ _ _ _ _ E). cbv iota beta.
  destruct (safe_send_returns (send_transfer_notification (tu_user_id r) "deposit" "success"
    TOPUP_CHANNEL (mkDetails (Some (tu_amount r)) (Some ref) None None None None None
      (Some t))) s1) as [s2 E2].
  fold (send_topup_deposit_notification (tu_user_id r) (tu_amount r) ref (Some t)) in E2.
  rewrite (bind_Ok _ _ _ _ _ E2). simpl. exists B', id, r, ref, now. split_and!; [done|done| |].
  - assert (preserves (on_db (request_row id (completed_request ref now r)))
      (send_topup_deposit_notification (tu_user_id r) (tu_amount r) ref (Some t))) as Hp
      by (apply pres_safe; solve_pres).
    specialize (Hp s1 Hrow). by rewrite E2 in Hp.
  - pose proof (pres_deposit_notice B' (tu_user_id r) (tu_amount r) ref (Some t) s1 Hs) as Hp.
    by rewrite E2 in Hp.
Qed.

Lemma approve_triple token form :
  triple (settled B) (topup_approve_submit token form)
    (λ page st, if pg_approved page then ∃ B', honoured token B' st else settled B st)
    (λ _, durable B).
Proof.
  unfold topup_approve_submit.
  apply triple_step; [solve_pres|by intros ? ? [? ?]|intros [[id r]|]]; [|by apply triple_ret].
  destruct form as [code|]; [|by apply triple_ret].
  apply triple_step; [solve_pres|by intros ? ? [? ?]|intros user].
  destruct (negb _).
  { do 3 (apply triple_step; [solve_pres|by intros ? ? [? ?]|intros _]). by apply triple_ret. }
  eapply triple_bind with (R := λ v st, settled B st
    ∧ match v with inl page => pg_approved page = false | inr _ => True end).
  { intros st Hst. unfold try_except, bind.
    pose proof (pres_verify_code _ (tu_user_id r) code "account_topup_approval" st Hst) as Hp.
    destruct (verify_totp_code_for_user _ _ _ st) as [[v|e] st']; [by split|].
    destruct e; by destruct Hp. }
  intros [page|[|]]; apply triple_pure; intros Hpage.
  - apply triple_ret. by rewrite Hpage.
  - intros st Hst. pose proof (pres_load_request B token st Hst) as Hp.
    destruct (load_topup_request_for_approval token st) as [[[[id' r']|]|e] s1] eqn:El.
    + rewrite (bind_Ok _ _ _ _ _ El). apply load_request_spec in El as (Hr & _ & Hsel).
      by apply finish_approval.
    + by rewrite (bind_Ok _ _ _ _ _ El).
    + rewrite (bind_Raise _ _ _ _ _ El). by destruct Hp.
  - intros st Hst. pose proof (pres_reject_code B (tu_user_id r) id r st Hst) as Hp.
    pose proof (reject_not_approved (tu_user_id r) id r st) as Hn.
    destruct (reject_topup_code _ _ _ st) as [[page|e] st']; [by rewrite (Hn page st')|by destruct Hp].
Qed.

(** C13: Approving a top-up is atomic and refines the ledger.  Whatever the
    token, the form, the clock, the audit writer and the mailer do,
    [topup_approve_submit] raises with the durable books unchanged, answers
    without approval with the books unchanged, or approves: then exactly one
    top-up step has been committed, for the owner and the amount of the request
    the token names, with verifying signatures on the ledger entry and the
    credit, and the durable request is completed under that credit. *)
Theorem topup_approval_atomic token form st :
  settled B st →
  match topup_approve_submit token form st with
  | (Ok page, st') =>
      if pg_approved page then ∃ B', honoured token B' st' ∧ ledger_step B B' else settled B st'
  | (Raise _, st') => durable B st'
  end.
Proof.
  intros Hst. pose proof (approve_triple token form st Hst) as Ht.
  destruct (topup_approve_submit token form st) as [[page|e] st']; [|done].
  destruct (pg_approved page); [|done]. destruct Ht as [B' Hh]. exists B'. split; [done|].
  destruct Hh as (id & r & ref & now & _ & Hup & _). by eapply topped_up_step.
Qed.
End Approval.

Section SingleUse.
Context `{Env}.

(** Closed requests stay closed. *)
Definition closed_requests_kept (s1 s2 : St) : Prop := ∀ id r,
  topup_approval_requests (committed s1) !! id = Some r → tu_status r ≠ "pending" →
  ∃ r', topup_approval_requests (working s2) !! id = Some r' ∧ tu_selector r' = tu_selector r
        ∧ tu_status r' ≠ "pending".

Lemma load_closed key token id r s :
  _active_key = Ok key → db_ok (working s) = true → selector_of token = Some (tu_selector r) →
  topup_approval_requests (working s) !! id = Some r → tu_status r ≠ "pending" →
  load_topup_request_for_approval token s = (Ok None, s).
Proof.
  intros Hk Hok Hsel Hr Hst. unfold load_topup_request_for_approval. unfold selector_of in Hsel.
  destruct (partition_char _ _) as [[a b]|]; [|done]. simpl in Hsel. injection Hsel as Hsel.
  cbv zeta. destruct (_ || _); [done|]. rewrite Hsel.
  assert (one_or_none (λ x, bool_decide (tu_selector x = tu_selector r))
    (topup_approval_requests (working s)) = Ok (Some (id, r))) as Hone.
  { eapply (one_or_none_unique _ _ _ id r (tu_selector r)); [by apply db_ok_requests| |done|].
    - intros w Hw%bool_decide_eq_true. cbn. by rewrite Hw.
    - by apply bool_decide_eq_true. }
  erewrite bind_Ok by (unfold _topup_request_by_selector, db_query; by rewrite Hone).
  cbn beta iota. unfold _topup_token_hmac, active_hmac_hex. rewrite Hk. cbn [rbind].
  erewrite bind_Ok by reflexivity. destruct (negb _); [done|].
  unfold _lazily_expire. rewrite bool_decide_eq_false_2 by done.
  erewrite bind_Ok by reflexivity. by rewrite bool_decide_eq_false_2.
Qed.

(** An approval token works once.  After an approval, as long as closed
    requests stay closed and the constraints hold, presenting the same token
    again (with any code) is answered 404 and changes nothing. *)
Theorem topup_token_single_use key token form form' s page s1 s2 :
  _active_key = Ok key → working s = committed s →
  topup_approve_submit token form s = (Ok page, s1) → pg_approved page = true →
  closed_requests_kept s1 s2 → db_ok (working s2) = true →
  topup_approve_submit token form' s2 = (Ok (mkPage false false 404), s2).
Proof.
  intros Hk Hrest E Hp Hkept Hok.
  pose proof (approve_triple (books (committed s)) token form s) as Ht. rewrite E, Hp in Ht.
  destruct Ht as (B' & id & r & ref & now & Hsel & _ & [Hrow _] & _); [by split; rewrite ?Hrest|].
  destruct (Hkept _ _ Hrow) as (r' & Hr' & Hs' & Hst'); [discriminate|].
  assert (load_topup_request_for_approval token s2 = (Ok None, s2)) as El.
  { apply (load_closed key token id r'); try done. by rewrite Hs'. }
  unfold topup_approve_submit. by rewrite (bind_Ok _ _ _ _ _ El).
Qed.
End SingleUse.

(** ** Witnesses: alice tops up 50.00 from another device *)

#[local] Existing Instance Sample.sample_env.

Definition topup_state : St :=
  let d := upd_topup_approval_requests (λ _, {[ 5 := mkTopUpApprovalRequest "sel"
             (match _topup_token_hmac "ver" with Ok h => h | Raise _ => "" end) 1 5000 "pending" 0
             (Sample.noon + 300 * US_SECOND) None None Sample.noon ]}) Sample.sample_db in
  set_committed d (set_working d Sample.sample_state).
Definition approval := topup_approve_submit "sel.ver" (Some sample_code) topup_state.

Lemma topup_approval_witness :
  approval.1 = Ok (mkPage true true 200)
  ∧ ∃ B', honoured (books (committed topup_state)) "sel.ver" B' approval.2
          ∧ ledger_step (books (committed topup_state)) B'.
Proof.
  assert (approval.1 = Ok (mkPage true true 200)) as E by (vm_compute; reflexivity).
  split; [exact E|].
  pose proof (topup_approval_atomic (books (committed topup_state)) "sel.ver" (Some sample_code)
    topup_state (conj eq_refl eq_refl)) as Ht.
  fold approval in Ht. destruct approval as [[page|e] st']; [|discriminate].
  injection E as ->. exact Ht.
Defined.

Lemma topup_single_use_witness :
  topup_approve_submit "sel.ver" (Some "000000") approval.2
  = (Ok (mkPage false false 404), approval.2).
Proof.
  apply (topup_token_single_use (Sample.key32 "s"%char) "sel.ver" (Some sample_code)
    (Some "000000") topup_state (mkPage true true 200) approval.2).
  - reflexivity.
  - reflexivity.
  - vm_compute. reflexivity.
  - reflexivity.
  - intros id r Hr Hs. exists r. split; [|split; [reflexivity|exact Hs]].
    revert Hr. vm_compute. intros Hr. exact Hr.
  - vm_compute. reflexivity.
Defined.
End TopUpSafety.
