(* ===== verification/Settings.v ===== *)
(** * Payees and daily limits ([app/banking/routes.py])

    Removing a payee and changing the daily transfer limits, behind the
    authenticator step-up; and what they do to the ledger. *)

From S2P Require Import Prelude PyStr PyDecimal TimeModel Schema Runtime Sample Canonical Integrity.
From S2P Require Import AuditLog SessionRisk BankingPolicy Notifications Sessions RateLimits Mfa.
From S2P Require Import LedgerSpec Transfers TransferSafety TopUpSafety.
Open Scope string_scope.
Open Scope Z_scope.

Module Settings.
Import SessionHmac Audit Ledger SessionRisk Policy Notifications Mfa LedgerSpec TransferSafety TopUpSafety.

(** The fields of [TransferLimitsForm]. *)
Record LimitsForm : Type := mkLimitsForm {
  lf_payup_limit : string;
  lf_payup_limit_custom : option string;
  lf_local_transfer_limit : string;
  lf_local_transfer_limit_custom : option string;
  lf_totp_code : option string
}.

(** What a settings page answers: a redirect once the change is made, or the
    form again with a status. *)
Inductive Answer : Type := Changed | Refused (status : Z).

(** [db.session.delete(payee)]: the payee's transactions lose their payee. *)
Definition delete_payee (payee_id : Z) (d : Db) : Db :=
  upd_transactions (fmap (unlink_payee payee_id)) (upd_payees (delete payee_id) d).

Definition set_limits (payup local : Z) (u : User) : User :=
  set_u_local_transfer_daily_limit local (set_u_payup_daily_limit payup u).

Section Settings.
Context `{Env}.

(** Returns [inr] the status of the answer when the step-up was refused. *)
Definition step_up (user_id : Z) (code : option string) (action : string) : M St (unit + Z) :=
  try_except (_ <- verify_high_risk_authorization user_id code action true ;; ret (inl tt))
    is_auth_error
    (λ e, match e with
          | AuthError _ status _ | FrozenAccountError _ status => ret (inr status)
          | _ => raise e
          end).

(** [payees_remove_submit]: [form] is the entered code, or [None] when the
    form does not validate. *)
Definition payees_remove_submit (user_id payee_id : Z) (form : option (option string)) : M St Answer :=
  payee <- db_query (λ d, match payees d !! payee_id with
                          | Some p => if py_user_id p =? user_id then Ok p else Raise NotFound
                          | None => Raise NotFound
                          end) ;;
  match form with
  | None => ret (Refused 400)
  | Some code =>
      authorized <- step_up user_id code "payee_remove" ;;
      match authorized with
      | inr status => ret (Refused status)
      | inl _ =>
          _ <- try_except
            (_ <- db_write (delete_payee payee_id) ;;
             ref <- lift (audit_reference "payee_account" (py_account_number payee)) ;;
             _ <- audit_event_required "payee_remove" "success" (Some user_id)
                    [("payee_account_ref", jopt_str ref);
                     ("nickname_present", JBool (nonempty (py_nickname payee)));
                     ("nickname_length", JInt (Z.of_nat (slen (py_nickname payee))))] ;;
             commit)
            is_audit_write_error
            (λ e, _ <- rollback ;; raise e) ;;
          ret Changed
      end
  end.

(** A refused change: tell the customer, answer with the status. *)
Definition limits_refused (user_id status : Z) : M St Answer :=
  _ <- send_transfer_limit_change_notification user_id "failure" None None None None None ;;
  ret (Refused status).

Definition apply_limits (user_id payup_limit local_transfer_limit : Z) : M St Answer :=
  previous <- load_user user_id ;;
  _ <- db_write (upd_users (alter (set_limits payup_limit local_transfer_limit) user_id)) ;;
  _ <- commit ;;
  _ <- audit_event "transfer_limits_change" "success" (Some user_id)
         [("payup_daily_limit", JStr (fixed2 payup_limit));
          ("local_transfer_daily_limit", JStr (fixed2 local_transfer_limit))] ;;
  changed_at <- now_utc ;;
  _ <- send_transfer_limit_change_notification user_id "success" (Some payup_limit)
         (Some local_transfer_limit) (Some (u_payup_daily_limit previous))
         (Some (u_local_transfer_daily_limit previous)) (Some changed_at) ;;
  ret Changed.

Definition chosen_limits (f : LimitsForm) : res (Z * Z) :=
  rbind (resolve_transfer_limit_choice (lf_payup_limit f) (lf_payup_limit_custom f)) (λ payup,
    rbind (resolve_local_transfer_limit_choice (lf_local_transfer_limit f)
             (lf_local_transfer_limit_custom f)) (λ local, Ok (payup, local))).

Definition transfer_limits_submit (user_id : Z) (form : option LimitsForm) : M St Answer :=
  match form with
  | None => limits_refused user_id 400
  | Some f =>
      match chosen_limits f with
      | Raise (AuthError _ status _) => limits_refused user_id status
      | Raise e => raise e
      | Ok (payup_limit, local_transfer_limit) =>
          authorized <- step_up user_id (lf_totp_code f) "transfer_limits_change" ;;
          match authorized with
          | inr status => limits_refused user_id status
          | inl _ => apply_limits user_id payup_limit local_transfer_limit
          end
      end
  end.
End Settings.

(** ** Refinement *)

Section Safety.
Context `{Env} (B : Books).

Lemma books_delete_payee p d :
  books (delete_payee p d) = mkBooks (bk_balances (books d)) (bk_limits (books d))
    (unlink_payee p <$> bk_entries (books d)) (bk_registration (books d)) (bk_topups (books d)).
Proof. done. Qed.

Lemma pres_step_up u c a : preserves (settled B) (step_up u c a).
Proof. unfold step_up. solve_pres. Qed.

Lemma step_up_triple u c a :
  triple (settled B) (step_up u c a) (λ _, settled B) (λ _, durable B).
Proof.
  eapply triple_conseq; [apply triple_pres, pres_step_up|done..|by intros ? ? [? ?]].
Qed.

Definition unlinked (p : Z) : Books :=
  mkBooks (bk_balances B) (bk_limits B) (unlink_payee p <$> bk_entries B)
    (bk_registration B) (bk_topups B).

Definition with_limits (u : Z) (l : Limits) : Books :=
  mkBooks (bk_balances B) (alter (λ _, l) u (bk_limits B)) (bk_entries B)
    (bk_registration B) (bk_topups B).

Lemma delete_payee_triple p k :
  (∀ a : unit, triple (books_are B (unlinked p)) (k a) (λ _, settled (unlinked p)) (λ _, durable B)) →
  triple (settled B) (bind (db_write (delete_payee p)) k) (λ _ : unit, settled (unlinked p))
    (λ _, durable B).
Proof.
  intros Hk. eapply triple_bind; [|exact Hk]. intros st [Hc Hw]. split; [done|]. cbn [working].
  unfold unlinked. rewrite <- Hw. apply books_delete_payee.
Qed.

Lemma remove_triple u p form :
  triple (settled B) (payees_remove_submit u p form)
    (λ out st, match out with Changed => settled (unlinked p) st | Refused _ => settled B st end)
    (λ _, durable B).
Proof.
  unfold payees_remove_submit. apply triple_step; [solve_pres|by intros ? ? [? ?]|intros payee].
  destruct form as [code|]; [|by apply triple_ret].
  eapply triple_bind; [apply step_up_triple|intros [[]|status]]; [|by apply triple_ret].
  eapply triple_bind with (R := λ _, settled (unlinked p)); [|by intros []; apply triple_ret].
  eapply triple_try with (X' := λ _, durable B); [| |done].
  - apply delete_payee_triple. intros _.
    apply triple_step; [solve_pres|by intros ? ? [? ?]|intros ref].
    eapply triple_bind; [eapply triple_conseq; [apply audit_required_pending|done..|];
      by intros ? ? [? ?]|intros ?].
    eapply triple_conseq; [apply commit_triple|done|by intros ? ? [? ?]|done].
  - intros e. apply rollback_raise_durable.
Qed.

(** ** Limits *)

Lemma books_set_limits u payup local d :
  books (upd_users (alter (set_limits payup local) u) d)
  = mkBooks (bk_balances (books d)) (alter (λ _, mkLimits local payup) u (bk_limits (books d)))
      (bk_entries (books d)) (bk_registration (books d)) (bk_topups (books d)).
Proof.
  unfold books. simpl. f_equal; apply map_eq; intros i;
    rewrite ?lookup_alter, !lookup_fmap, lookup_alter; case_decide; try done;
    subst i; by destruct (users d !! u).
Qed.

(** Either nothing has happened yet, or the limits have been changed to [l]. *)
Definition old_or_new (u : Z) (l : Limits) (st : St) : Prop :=
  durable B st ∨ settled (with_limits u l) st.

Lemma apply_limits_triple u payup local :
  triple (settled B) (apply_limits u payup local)
    (λ out st, out = Changed ∧ settled (with_limits u (mkLimits local payup)) st)
    (λ _, old_or_new u (mkLimits local payup)).
Proof.
  set (l := mkLimits local payup). unfold apply_limits.
  apply triple_step; [solve_pres|by intros ? ? [? ?]; left|intros previous].
  eapply triple_bind with (R := λ _, books_are B (with_limits u l)).
  { intros st [Hc Hw]. split; [done|]. cbn [working]. unfold with_limits. rewrite <- Hw.
    apply books_set_limits. }
  intros _. eapply triple_bind with (R := λ _, settled (with_limits u l)).
  { eapply triple_conseq; [apply commit_triple|done|by intros ? ? [? ?]|by left]. }
  intros _. do 3 (apply triple_step; [solve_pres|by right|intros ?]). by apply triple_ret.
Qed.

Lemma refused_triple u status :
  triple (settled B) (limits_refused u status)
    (λ out st, out = Refused status ∧ settled B st) (λ _, durable B).
Proof.
  unfold limits_refused. apply triple_step; [solve_pres|by intros ? ? [? ?]|intros _].
  by apply triple_ret.
Qed.

Lemma submit_limits_triple u form :
  triple (settled B) (transfer_limits_submit u form)
    (λ out st, match out with
               | Changed => ∃ f payup local, form = Some f ∧ chosen_limits f = Ok (payup, local)
                              ∧ settled (with_limits u (mkLimits local payup)) st
               | Refused _ => settled B st
               end)
    (λ _ st, durable B st ∨ ∃ f payup local, form = Some f ∧ chosen_limits f = Ok (payup, local)
                              ∧ settled (with_limits u (mkLimits local payup)) st).
Proof.
  assert (∀ status Q, (∀ st, settled B st → Q (Refused status) st) →
    triple (settled B) (limits_refused u status) Q
      (λ _ st, durable B st ∨ ∃ f payup local, form = Some f ∧ chosen_limits f = Ok (payup, local)
                              ∧ settled (with_limits u (mkLimits local payup)) st)) as Href.
  { intros status Q HQ. eapply triple_conseq; [apply refused_triple|done| |by left].
    intros a st [-> Hst]. auto. }
  unfold transfer_limits_submit. destruct form as [f|]; [|by apply Href].
  destruct (chosen_limits f) as [[payup local]|e] eqn:Ef.
  2:{ destruct e; try (apply triple_raise; intros ? [? ?]; by left). by apply Href. }
  eapply triple_bind; [eapply triple_conseq; [apply step_up_triple|done..|by left]|].
  intros [[]|status]; [|by apply Href].
  eapply triple_conseq; [apply apply_limits_triple|done| |].
  - intros a st [-> Hst]. by exists f, payup, local.
  - intros e st [Hd|Hs]; [by left|right]. by exists f, payup, local.
Qed.
End Safety.

(** ** The limits a customer can choose *)

Lemma custom_limit_bounds v lo hi x :
  _resolve_custom_daily_limit v lo hi = Ok x → lo ≤ x ≤ hi.
Proof.
  unfold _resolve_custom_daily_limit, rbind. intros E. repeat case_match; simplify_eq;
    repeat match goal with H : (_ <? _) = false |- _ => apply Z.ltb_ge in H end; lia.
Qed.

Lemma choice_bounds c v presets lo hi x :
  Forall (λ p, match rbind (decimal_of_str p) (λ d, rbind (quantize_cents d) (λ q, Ok (cents q))) with
               | Ok y => lo ≤ y ≤ hi | Raise _ => True end) presets →
  _resolve_daily_limit_choice c v presets lo hi = Ok x → lo ≤ x ≤ hi.
Proof.
  intros Hp. unfold _resolve_daily_limit_choice. cbv zeta. case_match eqn:Ec.
  - intros E. rewrite Forall_forall in Hp. specialize (Hp (strip c)). rewrite E in Hp. apply Hp.
    by apply bool_decide_eq_true in Ec.
  - case_bool_decide; [apply custom_limit_bounds|done].
Qed.

Lemma chosen_limits_ok f payup local :
  chosen_limits f = Ok (payup, local) → limits_ok (mkLimits local payup) = true.
Proof.
  unfold chosen_limits, rbind. intros E. repeat case_match; simplify_eq.
  match goal with H : resolve_transfer_limit_choice _ _ = _ |- _ =>
    apply choice_bounds in H; [|by repeat constructor] end.
  match goal with H : resolve_local_transfer_limit_choice _ _ = _ |- _ =>
    apply choice_bounds in H; [|by repeat constructor] end.
  unfold limits_ok, between. simpl. rewrite !andb_true_iff, !Z.leb_le. done.
Qed.

(** ** Properties *)

Section Properties.
Context `{Env}.

(** Changing the daily limits is safe.  The limits a customer can choose
    (preset or custom, any text) lie within the bank's bounds; without a valid
    step-up nothing changes; a change is committed as a whole, for that customer
    only, and is one limit step of the ledger, also when a later notification
    fails. *)
Theorem limit_change_refines B u form st :
  settled B st →
  match transfer_limits_submit u form st with
  | (Ok Changed, st') => ∃ f payup local, form = Some f ∧ chosen_limits f = Ok (payup, local)
      ∧ ledger_step B (with_limits B u (mkLimits local payup))
      ∧ settled (with_limits B u (mkLimits local payup)) st'
  | (Ok (Refused _), st') => settled B st'
  | (Raise _, st') => durable B st' ∨ ∃ B', ledger_step B B' ∧ settled B' st'
  end.
Proof.
  intros Hst. pose proof (submit_limits_triple B u form st Hst) as Ht.
  destruct (transfer_limits_submit u form st) as [[[|status]|e] st']; [|done|].
  - destruct Ht as (f & payup & local & -> & Hf & Hs). exists f, payup, local. split_and!; try done.
    apply step_limits. by eapply chosen_limits_ok.
  - destruct Ht as [Hd|(f & payup & local & -> & Hf & Hs)]; [by left|right].
    eexists. split; [|exact Hs]. apply step_limits. by eapply chosen_limits_ok.
Qed.

(** Removing a payee is atomic and moves no money: an error leaves the
    durable books as they were, a refusal changes nothing, and success is one
    unlink step of the ledger, every balance, amount, party and limit kept. *)
Theorem payee_removal_refines B u p form st :
  settled B st →
  match payees_remove_submit u p form st with
  | (Ok Changed, st') => settled (unlinked B p) st' ∧ ledger_step B (unlinked B p)
  | (Ok (Refused _), st') => settled B st'
  | (Raise _, st') => durable B st'
  end.
Proof.
  intros Hst. pose proof (remove_triple B u p form st Hst) as Ht.
  destruct (payees_remove_submit u p form st) as [[[|status]|e] st']; try done.
  split; [done|apply step_unlink].
Qed.

(** C36: Removing a payee voids the signatures of its transfers.  The payee is
    part of the signed payload, so unless the HMAC collides every ledger entry
    that named the removed payee and verified before no longer verifies after
    the removal has been committed. *)
Theorem payee_removal_voids_signatures u p form st st' id t :
  working st = committed st →
  payees_remove_submit u p form st = (Ok Changed, st') →
  transactions (committed st) !! id = Some t → tx_payee_id t = Some p →
  transaction_integrity_status t = true →
  hmac_separates [signed_message t; signed_message (unlink_payee p t)] →
  0 ≤ tx_amount t → 0 ≤ tx_created_at t →
  ∃ t', transactions (committed st') !! id = Some t' ∧ tx_transaction_ref t' = tx_transaction_ref t
        ∧ transaction_integrity_status t' = false.
Proof.
  intros Hrest E Hid Hp Hv Hsep Ha Hc.
  pose proof (remove_triple (books (committed st)) u p form st) as Ht. rewrite E in Ht.
  destruct Ht as [Hb _]; [by split; rewrite ?Hrest|].
  assert (unlink_payee p t = set_tx_payee_id None t) as Hu
    by (unfold unlink_payee; by rewrite bool_decide_eq_true_2).
  exists (unlink_payee p t). split_and!; [|by rewrite Hu|].
  - change (bk_entries (books (committed st')) !! id = Some (unlink_payee p t)).
    rewrite Hb. simpl. by rewrite lookup_fmap, Hid.
  - apply not_true_is_false. intros Hv'.
    pose proof (valid_rows_agree t (unlink_payee p t) Hsep Hv Hv') as Hag.
    rewrite Hu in Hag. unfold signed_fields in Hag. simpl in Hag. rewrite Hp in Hag.
    by specialize (Hag eq_refl eq_refl Ha Ha Hc Hc).
Qed.
End Properties.

(** ** Witnesses *)

#[local] Existing Instance Sample.sample_env.

Definition sample_form : LimitsForm :=
  mkLimitsForm "1000" None "custom" (Some "750.50") (Some sample_code).
Definition limits_run := transfer_limits_submit 1 (Some sample_form) Sample.sample_state.

Lemma limits_witness :
  limits_run.1 = Ok Changed
  ∧ settled (with_limits (books Sample.sample_db) 1 (mkLimits 75050 100000)) limits_run.2.
Proof.
  assert (limits_run.1 = Ok Changed) as E by (vm_compute; reflexivity).
  split; [exact E|].
  pose proof (limit_change_refines (books Sample.sample_db) 1 (Some sample_form)
    Sample.sample_state (conj eq_refl eq_refl)) as Ht.
  fold limits_run in Ht. destruct limits_run as [[[|status]|e] st']; [|discriminate E..].
  destruct Ht as (f & payup & local & Hf & Hl & _ & Hs). injection Hf as <-.
  vm_compute in Hl. injection Hl as <- <-. exact Hs.
Defined.

(** Alice's transfer to her payee has been executed, its confirmation row
    cleaned up. *)
Definition paid_db : Db :=
  upd_pending_transfers (λ _, ∅)
    (committed (Transfers.execute_local_transfer 1 7 "tok" Sample.sample_state).2).
Definition paid_state : St := set_committed paid_db (set_working paid_db Sample.sample_state).
Definition paid_row : Transaction :=
  match transactions (committed paid_state) !! 1 with
  | Some t => t
  | None => sample_row
  end.
Definition removal_run := payees_remove_submit 1 7 (Some (Some sample_code)) paid_state.

Lemma removal_witness :
  removal_run.1 = Ok Changed
  ∧ settled (unlinked (books paid_db) 7) removal_run.2.
Proof.
  assert (removal_run.1 = Ok Changed) as E by (vm_compute; reflexivity).
  split; [exact E|].
  pose proof (payee_removal_refines (books paid_db) 1 7 (Some (Some sample_code))
    paid_state (conj eq_refl eq_refl)) as Ht.
  fold removal_run in Ht. destruct removal_run as [[[|status]|e] st']; [|discriminate E..].
  exact (proj1 Ht).
Defined.

Lemma voids_witness :
  transaction_integrity_status paid_row = true
  ∧ ∃ t', transactions (committed removal_run.2) !! 1 = Some t'
          ∧ tx_transaction_ref t' = tx_transaction_ref paid_row
          ∧ transaction_integrity_status t' = false.
Proof.
  split; [vm_compute; reflexivity|].
  apply (payee_removal_voids_signatures 1 7 (Some (Some sample_code)) paid_state removal_run.2 1
    paid_row).
  - reflexivity.
  - vm_compute. reflexivity.
  - vm_compute. reflexivity.
  - vm_compute. reflexivity.
  - vm_compute. reflexivity.
  - intros k m m' _ _. apply Sample.sample_hmac_collision_free.
  - vm_compute. discriminate.
  - vm_compute. discriminate.
Defined.
End Settings.
