(* ===== verification/Statement.v ===== *)
(** * Monthly statements ([app/banking/services.py], [app/banking/routes.py])

    Opening and closing balances derived from the live balance by replaying
    the account's ledger entries, the statement page and the CSV export. *)

From S2P Require Import Prelude PyStr PyDecimal TimeModel Calendar Schema Runtime Sample Canonical.
From S2P Require Import Integrity AuditLog SessionRisk BankingPolicy Notifications LedgerSpec.
From S2P Require Import Mfa Transfers TransferSafety TopUp TopUpSafety.
From Stdlib Require Import Ascii.
Open Scope string_scope.
Open Scope Z_scope.

Module Statement.
Import Audit Policy Notifications LedgerSpec TransferSafety.

Record Statement : Type := mkStatement {
  sm_period_start : Z;
  sm_period_end : Z;
  sm_opening_balance : Z;
  sm_closing_balance : Z;
  sm_transactions : list (Z * Transaction)
}.

(** ** Balances *)

(** [or_(sender_id == user.id, recipient_id == user.id)]. *)
Definition involves (user_id : Z) (t : Transaction) : bool :=
  (tx_sender_id t =? user_id) || (tx_recipient_id t =? user_id).
Definition is_completed (t : Transaction) : bool := bool_decide (tx_status t = "completed").
Definition signed_amount (user_id : Z) (t : Transaction) : Z :=
  if tx_sender_id t =? user_id then - tx_amount t else tx_amount t.
Definition since (start : option Z) (t : Transaction) : bool :=
  match start with Some s => s <=? tx_created_at t | None => true end.
Definition before (end_ : option Z) (t : Transaction) : bool :=
  match end_ with Some e => tx_created_at t <? e | None => true end.

Definition _signed_net_amount (user_id : Z) (start end_ : option Z) (d : Db) : Z :=
  foldl (λ net row, net + signed_amount user_id row.2) 0
    (rows_where (λ t, involves user_id t && is_completed t && since start t && before end_ t)
       (transactions d)).

(** [ORDER BY created_at ASC, id ASC]. *)
Definition oldest_first (x y : Z * Transaction) : bool :=
  (tx_created_at x.2 <? tx_created_at y.2)
  || ((tx_created_at x.2 =? tx_created_at y.2) && (x.1 <=? y.1)).

Definition period_transactions (user_id start end_ : Z) (d : Db) : list (Z * Transaction) :=
  sort_by oldest_first
    (rows_where (λ t, involves user_id t && since (Some start) t && before (Some end_) t)
       (transactions d)).

Definition net_within (user_id : Z) (rows : list (Z * Transaction)) : Z :=
  foldl (λ net row, if is_completed row.2 then net + signed_amount user_id row.2 else net) 0 rows.

Definition build_statement (user_id : Z) (user : User) (start end_ : Z) (d : Db) : Statement :=
  let closing_balance := u_balance user - _signed_net_amount user_id (Some end_) None d in
  let rows := period_transactions user_id start end_ d in
  mkStatement start end_ (closing_balance - net_within user_id rows) closing_balance rows.

Section Statement.
Context `{Env}.

Definition statement_for_period (user_id year month : Z) : M St Statement :=
  if (month <? 1) || (12 <? month) then raise (AuthError "Enter a valid month." 400 None)
  else
    let* (period_start_utc, period_end_utc) := lift (sgt_month_bounds_utc year month) in
    now <- now_utc ;;
    if now <? period_start_utc
    then raise (AuthError "Cannot generate a statement for a future period." 400 None)
    else
      user <- load_user user_id ;;
      if period_end_utc <=? u_created_at user
      then raise (AuthError "This account did not exist yet during the requested period." 400 None)
      else db_get (build_statement user_id user period_start_utc period_end_utc).
End Statement.

(** ** The page *)

Definition _bounded_int (value : option string) (default minimum maximum : Z) : Z :=
  let parsed := match py_int (JStr <$> value) with
                | Ok z => z
                | Raise _ => default
                end in
  Z.min (Z.max parsed minimum) maximum.

Definition _MIN_STATEMENT_YEAR : Z := 2000.

Definition _adjacent_period (year month delta : Z) : Z * Z :=
  let zero_based := (year * 12 + (month - 1)) + delta in
  (zero_based / 12, zero_based mod 12 + 1).

(** [a < b] on tuples. *)
Definition period_lt (a b : Z * Z) : bool :=
  (a.1 <? b.1) || ((a.1 =? b.1) && (a.2 <? b.2)).

Record StatementPage : Type := mkStatementPage {
  sp_statement : option Statement;
  sp_period : Z * Z;
  sp_prev : Z * Z;
  sp_next : Z * Z;
  sp_has_prev_period : bool;
  sp_has_next_period : bool
}.

Section Pages.
Context `{Env}.

(** The Singapore year and month of the clock. *)
Definition current_period : M St (Z * Z) :=
  now <- now_utc ;;
  let '(y, m, _) := date_of (now + SGT_OFFSET) in ret (y, m).

(** [year] and [month] are the query arguments. *)
Definition _requested_statement_period (year month : option string) : M St (Z * Z) :=
  let* (now_year, now_month) := current_period in
  ret (_bounded_int year now_year _MIN_STATEMENT_YEAR now_year,
       _bounded_int month now_month 1 12).

Definition statement (user_id : Z) (year_arg month_arg : option string) : M St StatementPage :=
  let* (year, month) := _requested_statement_period year_arg month_arg in
  data <- try_except (s <- statement_for_period user_id year month ;; ret (Some s))
            is_auth_error (λ _, ret None) ;;
  current <- current_period ;;
  ret (mkStatementPage data (year, month) (_adjacent_period year month (-1))
         (_adjacent_period year month 1)
         (period_lt (_MIN_STATEMENT_YEAR, 1) (year, month))
         (period_lt (year, month) current)).
End Pages.

(** ** The CSV export *)

Definition _CSV_FORMULA_TRIGGER_CHARS : list ascii := ["="; "+"; "-"; "@"]%char.
(** [\x00-\x20\x7f]. *)
Definition csv_neutral (c : ascii) : bool := (code c <=? 32) || (code c =? 127).
Definition starts_formula (text : list ascii) : bool :=
  match drop_while csv_neutral text with
  | c :: _ => bool_decide (c ∈ _CSV_FORMULA_TRIGGER_CHARS)
  | [] => false
  end.

Definition _csv_safe (value : string) : string :=
  if starts_formula (chars value) then "'" +:+ value else value.

Definition _payup_nickname_value (user : option User) : string :=
  let nickname := strip (or_empty (user ≫= u_payup_nickname)) in
  if (slen nickname <? 2)%nat || (128 <? slen nickname)%nat then ""
  else if existsb (λ c, (code c <? 32) || (code c =? 127)) (chars nickname) then ""
  else nickname.

Definition _statement_counterparty_name (d : Db) (t : Transaction) (user_id : Z) : string :=
  let is_sender := tx_sender_id t =? user_id in
  let counterparty := users d !! (if is_sender then tx_recipient_id t else tx_sender_id t) in
  if bool_decide (tx_transaction_type t = "payup") then
    match counterparty with
    | None => if is_sender then "PayUp recipient" else "PayUp sender"
    | Some u =>
        let nickname := _payup_nickname_value (Some u) in
        if nonempty nickname then nickname
        else if is_sender then
          if nonempty (or_empty (u_phone_number u)) then or_empty (u_phone_number u)
          else "PayUp recipient"
        else "PayUp sender"
    end
  else
    match counterparty with
    | None => ""
    | Some u => if nonempty (u_full_name u) then u_full_name u else u_username u
    end.

(** [strftime("%Y-%m-%d %H:%M")] in Singapore time. *)
Definition csv_time (t : Z) : string :=
  let wall := t + SGT_OFFSET in
  let '(y, m, d) := date_of wall in
  pretty y +:+ "-" +:+ pad 2 m +:+ "-" +:+ pad 2 d +:+ " " +:+ pad 2 (hour_of wall) +:+ ":"
    +:+ pad 2 (minute_of wall).

Definition CSV_HEADER : list string :=
  ["Date"; "Type"; "Counterparty"; "Reference"; "Amount (SGD)"; "Status"].

Definition csv_row (d : Db) (user_id : Z) (t : Transaction) : list string :=
  [csv_time (tx_created_at t);
   if bool_decide (tx_transaction_type t = "payup") then "PayUp" else "Local Transfer";
   _csv_safe (_statement_counterparty_name d t user_id);
   _csv_safe (tx_reference t);
   (if tx_sender_id t =? user_id then "-" else "") +:+ fixed2 (tx_amount t);
   tx_status t].

Section Download.
Context `{Env}.

(** The rows handed to [csv.writer] and the file name, or [None] for the
    redirect. *)
Definition statement_download (user_id : Z) (year_arg month_arg : option string)
    : M St (option (list (list string) * string)) :=
  let* (year, month) := _requested_statement_period year_arg month_arg in
  data <- try_except (s <- statement_for_period user_id year month ;; ret (Some s))
            is_auth_error (λ _, ret None) ;;
  match data with
  | None => ret None
  | Some s =>
      rows <- db_get (λ d, CSV_HEADER :: ((λ row, csv_row d user_id row.2) <$> sm_transactions s)) ;;
      let period := pad 4 year +:+ "-" +:+ pad 2 month in
      _ <- try_except
        (reference <- lift (audit_reference "statement_period" period) ;;
         _ <- audit_event_required "statement_export" "success" (Some user_id)
                [("period_ref", jopt_str reference)] ;;
         commit)
        is_audit_write_error (λ e, _ <- rollback ;; raise e) ;;
      ret (Some (rows, "sitbank-statement-" +:+ period +:+ ".csv"))
  end.
End Download.

(** ** Sums over the ledger *)

Lemma sumZ_cons x l : sumZ (x :: l) = x + sumZ l.
Proof. done. Qed.

Lemma sumZ_filter {A} (f : A → Z) (P : A → bool) (l : list A) :
  sumZ (f <$> filter (λ x, P x = true) l) = sumZ ((λ x, if P x then f x else 0) <$> l).
Proof.
  induction l as [|x l IH]; [done|]. rewrite filter_cons. case_decide as E.
  - by rewrite !fmap_cons, E, !sumZ_cons, IH.
  - apply not_true_is_false in E. rewrite fmap_cons, E. exact IH.
Qed.

Lemma sum_rows_where {V} (f : V → Z) (P : V → bool) (t : gmap Z V) :
  sumZ ((λ row, f row.2) <$> rows_where P t) = sum_table (λ v, if P v then f v else 0) t.
Proof.
  unfold rows_where. rewrite (sumZ_filter (λ row, f row.2) (λ row, P row.2)).
  unfold sum_table. by rewrite <- list_fmap_compose.
Qed.

Lemma foldl_sumZ {A} (f : A → Z) l a : foldl (λ net x, net + f x) a l = a + sumZ (f <$> l).
Proof.
  revert a. induction l as [|x l IH]; intros a; [by rewrite Z.add_0_r|].
  rewrite fmap_cons, sumZ_cons. cbn [foldl]. rewrite IH. lia.
Qed.

Lemma sum_table_add {V} (f g : V → Z) t :
  sum_table f t + sum_table g t = sum_table (λ v, f v + g v) t.
Proof.
  induction t as [|k v t Hk IH] using map_ind; [by rewrite !sum_table_empty|].
  rewrite !sum_table_insert_None by done. lia.
Qed.

Lemma signed_net_sum u start e d :
  _signed_net_amount u start e d
  = sum_table (λ t, if involves u t && is_completed t && since start t && before e t
                    then signed_amount u t else 0) (transactions d).
Proof.
  unfold _signed_net_amount. rewrite (foldl_sumZ (λ row, signed_amount u row.2)).
  by rewrite sum_rows_where.
Qed.

Lemma net_within_sum u s e d :
  net_within u (period_transactions u s e d) = _signed_net_amount u (Some s) (Some e) d.
Proof.
  rewrite signed_net_sum. unfold net_within.
  assert (∀ l a, foldl (λ net row, if is_completed row.2 then net + signed_amount u row.2 else net) a l
    = a + sumZ ((λ row : Z * Transaction, if is_completed row.2 then signed_amount u row.2 else 0) <$> l))
    as ->.
  { induction l as [|x l IH]; intros a; [by rewrite Z.add_0_r|].
    rewrite fmap_cons, sumZ_cons. cbn [foldl]. rewrite IH. destruct (is_completed _); lia. }
  unfold period_transactions. rewrite sort_by_perm.
  rewrite (sum_rows_where (λ t, if is_completed t then signed_amount u t else 0)).
  rewrite Z.add_0_l. apply sum_table_ext. intros t.
  by destruct (involves u t), (is_completed t), (since (Some s) t), (before (Some e) t).
Qed.

(** A split of the entries from [s] on at a later instant [e]. *)
Lemma signed_net_split u s e d :
  s ≤ e →
  _signed_net_amount u (Some s) None d
  = _signed_net_amount u (Some s) (Some e) d + _signed_net_amount u (Some e) None d.
Proof.
  intros Hse. rewrite !signed_net_sum, sum_table_add. apply sum_table_ext. intros t.
  unfold since, before. destruct (involves u t && is_completed t); simpl; [|done].
  destruct (Z.leb_spec s (tx_created_at t)), (Z.ltb_spec (tx_created_at t) e),
    (Z.leb_spec e (tx_created_at t)); simpl; lia.
Qed.

Lemma adjacent_next y m : 1 ≤ m ≤ 12 → _adjacent_period y m 1 = next_month y m.
Proof.
  intros Hm. unfold _adjacent_period, next_month. replace (y * 12 + (m - 1) + 1) with (m + y * 12) by lia.
  rewrite Z.div_add, Z.mod_add by lia. destruct (Z.eqb_spec m 12) as [->|].
  - change (12 / 12) with 1. change (12 mod 12) with 0. f_equal; lia.
  - rewrite Z.div_small, Z.mod_small by lia. f_equal; lia.
Qed.

(** ** What a statement reports *)

(** What an account held before the instant [t0], by the ledger. *)
Definition balance_at (b : Books) (u t0 : Z) : Z :=
  sum_table (λ c, credited_to u c - credited_since u t0 c) (bk_registration b)
  + sum_table (λ c, credited_to u c - credited_since u t0 c) (bk_topups b)
  + sum_table (λ t, if tx_created_at t <? t0 then received_by u t - sent_by u t else 0)
      (bk_entries b).

Lemma sum_table_ext_in {V} (f g : V → Z) t :
  (∀ k v, t !! k = Some v → f v = g v) → sum_table f t = sum_table g t.
Proof.
  intros Hfg. apply Z.le_antisymm; apply sum_table_le; intros k v Hk; by rewrite (Hfg k v Hk).
Qed.

Lemma sum_table_sub {V} (f g : V → Z) t :
  sum_table f t - sum_table g t = sum_table (λ v, f v - g v) t.
Proof.
  induction t as [|k v t Hk IH] using map_ind; [by rewrite !sum_table_empty|].
  rewrite !sum_table_insert_None by done. lia.
Qed.

(** An entry counts with its ledger sign, except that a top-up counts as a
    debit. *)
Lemma entry_sign u t0 t :
  (if is_transfer t then tx_recipient_id t ≠ tx_sender_id t
   else tx_status t = "completed" ∧ tx_recipient_id t = tx_sender_id t) →
  (if involves u t && is_completed t && since (Some t0) t && before None t
   then signed_amount u t else 0)
  = (received_by u t - sent_by u t)
    - (if tx_created_at t <? t0 then received_by u t - sent_by u t else 0) - topped_since u t0 t.
Proof.
  unfold involves, is_completed, since, before, signed_amount, received_by, sent_by, topped_since.
  destruct (is_transfer t) eqn:Et; [intros Hne|intros [Hs Hr]].
  - unfold is_transfer in Et. apply andb_true_iff in Et as [Hc _]. rewrite Hc. simpl.
    destruct (Z.eqb_spec (tx_sender_id t) u), (Z.eqb_spec (tx_recipient_id t) u); simplify_eq; simpl;
      destruct (Z.leb_spec t0 (tx_created_at t)), (Z.ltb_spec (tx_created_at t) t0); simpl; try lia.
  - rewrite Hr, bool_decide_eq_true_2 by done. simpl.
    destruct (tx_sender_id t =? u); simpl;
      destruct (Z.leb_spec t0 (tx_created_at t)), (Z.ltb_spec (tx_created_at t) t0); simpl; lia.
Qed.

(** The live balance rolled back to [t0]. *)
Lemma rolled_back_balance d u row t0 :
  reconciled (books d) → users d !! u = Some row →
  u_balance row - _signed_net_amount u (Some t0) None d
  = balance_at (books d) u t0 + sum_table (credited_since u t0) (registration_credits d)
    + 2 * sum_table (credited_since u t0) (topup_credits d).
Proof.
  intros R Hu.
  assert (bk_balances (books d) !! u = Some (u_balance row)) as Hb
    by (simpl; by rewrite lookup_fmap, Hu).
  rewrite (rec_balance _ R u _ Hb), signed_net_sum.
  rewrite (sum_table_ext_in _ (λ t, (received_by u t - sent_by u t)
    - (if tx_created_at t <? t0 then received_by u t - sent_by u t else 0) - topped_since u t0 t))
    by (intros i t Hi; apply entry_sign; exact (rec_parties _ R i t Hi)).
  rewrite <- !sum_table_sub. pose proof (rec_topup_entries _ R u t0) as Ht. simpl in Ht.
  unfold ledger_balance, balance_at. simpl. rewrite <- !sum_table_sub. lia.
Qed.

Lemma statement_inv `{Env} u y m st s st' :
  statement_for_period u y m st = (Ok s, st') →
  1 ≤ m ≤ 12 ∧ working st' = working st ∧ ∃ start e row,
    sgt_month_bounds_utc y m = Ok (start, e) ∧ users (working st) !! u = Some row
    ∧ s = build_statement u row start e (working st).
Proof.
  unfold statement_for_period. destruct (_ || _) eqn:Hm; [done|].
  apply orb_false_iff in Hm as [H1%Z.ltb_ge H2%Z.ltb_ge]. intros E. inv_bind E.
  destruct a as [start e]. unfold lift in E0. simplify_eq. inv_bind E.
  match goal with Hn : now_utc _ = _ |- _ => unfold now_utc in Hn; simplify_eq end. destruct (_ <? start); [done|]. inv_bind E.
  match goal with Hl : load_user _ _ = _ |- _ => unfold load_user, db_query in Hl; simpl in Hl end.
  match goal with Hl : context [users ?w !! u] |- _ =>
    destruct (users w !! u) as [row|] eqn:Hu; [|done] end. simplify_eq.
  destruct (e <=? _); [done|]. unfold db_get, gets in E. simplify_eq.
  split; [lia|]. split; [done|]. by eexists _, _, _.
Qed.

(** ** Properties *)

(** Consecutive statements fit together.  The statement of the month that
    [_adjacent_period] names next starts where this one ends, and opens with the
    balance this one closes with; a statement's closing balance is its opening
    balance plus its completed entries, all of which are listed. *)
Theorem statements_chain `{Env} u y m st s st1 s' st2 :
  statement_for_period u y m st = (Ok s, st1) →
  statement_for_period u (_adjacent_period y m 1).1 (_adjacent_period y m 1).2 st1 = (Ok s', st2) →
  sm_period_start s < sm_period_end s ∧ sm_period_start s' = sm_period_end s
  ∧ sm_opening_balance s' = sm_closing_balance s
  ∧ sm_closing_balance s = sm_opening_balance s + net_within u (sm_transactions s).
Proof.
  intros (Hm & Hw & a & e & row & Eb & Hu & ->)%statement_inv
    (Hm' & _ & a' & e' & row' & Eb' & Hu' & ->)%statement_inv.
  rewrite adjacent_next in Eb', Hm' by done. rewrite Hw in Hu'. rewrite Hu in Hu'. simplify_eq.
  pose proof (month_positive _ _ _ _ Hm Eb). pose proof (month_positive _ _ _ _ Hm' Eb').
  pose proof (months_tile _ _ _ _ _ _ Hm Eb Eb') as ->.
  unfold build_statement. cbn [sm_period_start sm_period_end sm_opening_balance sm_closing_balance
    sm_transactions]. rewrite Hw, net_within_sum.
  rewrite (signed_net_split u e e') by lia. lia.
Qed.

Lemma oldest_first_total x y : oldest_first x y = false → oldest_first y x = true.
Proof.
  unfold oldest_first. rewrite orb_false_iff, orb_true_iff, andb_false_iff, andb_true_iff.
  rewrite !Z.ltb_lt, !Z.ltb_ge, !Z.eqb_eq, !Z.eqb_neq, !Z.leb_le, !Z.leb_gt. lia.
Qed.
Lemma oldest_first_trans x y z :
  oldest_first x y = true → oldest_first y z = true → oldest_first x z = true.
Proof.
  unfold oldest_first. rewrite !orb_true_iff, !andb_true_iff.
  rewrite !Z.ltb_lt, !Z.eqb_eq, !Z.leb_le. lia.
Qed.

(** A statement lists exactly the account's entries of the period, each
    once, in order of time and then of id. *)
Theorem statement_lists_period `{Env} u y m st s st1 :
  statement_for_period u y m st = (Ok s, st1) →
  (∀ id t, (id, t) ∈ sm_transactions s ↔
     transactions (working st) !! id = Some t ∧ involves u t = true
     ∧ sm_period_start s ≤ tx_created_at t < sm_period_end s)
  ∧ NoDup (sm_transactions s)
  ∧ StronglySorted (λ a b, oldest_first a b = true) (sm_transactions s).
Proof.
  intros (_ & _ & a & e & row & _ & _ & ->)%statement_inv. simpl. unfold period_transactions.
  split_and!.
  - intros id t. rewrite sort_by_perm, rows_where_spec, !andb_true_iff. simpl.
    rewrite Z.leb_le, Z.ltb_lt. tauto.
  - rewrite sort_by_perm. apply NoDup_filter, NoDup_map_to_list.
  - apply sort_by_sorted; [apply oldest_first_total|apply oldest_first_trans].
Qed.

(** C37: What the balances of a statement are.  On reconciled books, the closing
    balance is what the account held by the ledger at the end of the period,
    plus any registration credit since, plus twice the top-ups since: a top-up
    is an entry from the account to itself, which the statement counts as a
    debit although it was a credit.  The same holds of the opening balance at
    the start of the period.  Without later credits both are exact. *)
Theorem statement_balances `{Env} u y m st s st1 :
  statement_for_period u y m st = (Ok s, st1) → reconciled (books (working st)) →
  let d := working st in
  let since t := sum_table (credited_since u t) (registration_credits d)
                 + 2 * sum_table (credited_since u t) (topup_credits d) in
  sm_closing_balance s = balance_at (books d) u (sm_period_end s) + since (sm_period_end s)
  ∧ sm_opening_balance s = balance_at (books d) u (sm_period_start s) + since (sm_period_start s).
Proof.
  intros (Hm & Hw & a & e & row & Eb & Hu & ->)%statement_inv R. cbv zeta.
  pose proof (month_positive _ _ _ _ Hm Eb).
  unfold build_statement. cbn [sm_period_start sm_period_end sm_opening_balance sm_closing_balance].
  rewrite net_within_sum. pose proof (signed_net_split u a e (working st)).
  pose proof (rolled_back_balance (working st) u row e R Hu).
  pose proof (rolled_back_balance (working st) u row a R Hu). lia.
Qed.

(** What a spreadsheet reads as a formula: a trigger character, possibly behind
    white space and control characters. *)
Definition reads_as_formula (text : list ascii) : Prop :=
  ∃ blank c rest, text = (blank ++ c :: rest)%list
    ∧ Forall (λ b, 0 ≤ code b ≤ 32 ∨ code b = 127) blank ∧ c ∈ _CSV_FORMULA_TRIGGER_CHARS.

Lemma code_nonneg c : 0 ≤ code c.
Proof. apply Zle_0_nat. Qed.

Lemma neutral_spec c : csv_neutral c = true ↔ 0 ≤ code c ≤ 32 ∨ code c = 127.
Proof.
  unfold csv_neutral. rewrite orb_true_iff, Z.leb_le, Z.eqb_eq. pose proof (code_nonneg c). lia.
Qed.

Lemma trigger_not_neutral c : c ∈ _CSV_FORMULA_TRIGGER_CHARS → csv_neutral c = false.
Proof.
  unfold _CSV_FORMULA_TRIGGER_CHARS. rewrite !elem_of_cons, elem_of_nil.
  by intros [->|[->|[->|[->|[]]]]].
Qed.

Lemma starts_formula_spec text : starts_formula text = true ↔ reads_as_formula text.
Proof.
  unfold starts_formula. split.
  - induction text as [|c text IH]; simpl; [done|]. destruct (csv_neutral c) eqn:Hn.
    + intros (blank & t & rest & -> & Hb & Ht)%IH. exists (c :: blank), t, rest.
      split_and!; try done. constructor; [by apply neutral_spec|done].
    + intros Hc%bool_decide_eq_true. by exists [], c, text.
  - intros (blank & c & rest & -> & Hb & Hc). induction Hb as [|b blank Hn _ IH]; simpl.
    + rewrite trigger_not_neutral by done. by apply bool_decide_eq_true.
    + apply neutral_spec in Hn. by rewrite Hn.
Qed.

(** Exported cells cannot start a formula.  Whatever the value, the cell
    [_csv_safe] produces does not begin, after any leading white space and
    control characters, with a character a spreadsheet reads as a formula; a
    value that is already safe is not changed, and no value is lost. *)
Theorem csv_cells_inert value :
  ~ reads_as_formula (chars (_csv_safe value))
  ∧ (_csv_safe value = value ∨ reads_as_formula (chars value) ∧ _csv_safe value = "'" +:+ value).
Proof.
  rewrite <- !starts_formula_spec. unfold _csv_safe.
  destruct (starts_formula (chars value)) eqn:E; [|by rewrite E; auto].
  split; [|by right]. by change (chars ("'" +:+ value)) with ("'"%char :: chars value).
Qed.

(** ** Witnesses: alice topped up 50.00 on 1 March 2026 *)

#[local] Existing Instance Sample.sample_env.

Definition topped_state : St := TopUpSafety.approval.2.
Definition february := statement_for_period 1 2026 2 topped_state.
Definition march := statement_for_period 1 2026 3 february.2.

Lemma topped_reconciled : reconciled (books (working topped_state)).
Proof.
  pose proof (TopUpSafety.approve_triple (books Sample.sample_db) "sel.ver" (Some Mfa.sample_code)
    TopUpSafety.topup_state (conj eq_refl eq_refl)) as Ht.
  assert (TopUpSafety.approval.1 = Ok (TopUp.mkPage true true 200)) as E by (vm_compute; reflexivity).
  unfold topped_state. fold TopUpSafety.approval in Ht.
  destruct TopUpSafety.approval as [[page|e] st']; [|discriminate E]. injection E as ->.
  destruct Ht as (B' & id & q & ref & now & _ & Hup & _ & [_ Hw]). simpl. rewrite Hw.
  eapply reconciled_step; [exact (proj1 sample_sound)|by eapply TopUpSafety.topped_up_step].
Qed.

(** The reported closing balance of February is 200.00, of an account that
    held 100.00. *)
Lemma balances_witness :
  match february with
  | (Ok s, _) => sm_closing_balance s = 20000
      ∧ sm_closing_balance s = balance_at (books (working topped_state)) 1 (sm_period_end s)
          + (0 + 2 * sum_table (credited_since 1 (sm_period_end s))
                       (topup_credits (working topped_state)))
  | _ => False
  end.
Proof.
  pose proof (λ s st', statement_balances 1 2026 2 topped_state s st') as Hb.
  assert (match february with
          | (Ok s, _) => sm_closing_balance s = 20000
              ∧ sum_table (credited_since 1 (sm_period_end s))
                  (registration_credits (working topped_state)) = 0
          | _ => False end) as Hf by (vm_compute; split; reflexivity).
  fold february in Hb. destruct february as [[s|e] st']; [|exact Hf].
  destruct Hf as [Hc H0]. split; [exact Hc|].
  rewrite <- H0. exact (proj1 (Hb s st' eq_refl topped_reconciled)).
Defined.

Lemma chain_witness :
  match february, march with
  | (Ok s, _), (Ok s', _) => sm_opening_balance s' = sm_closing_balance s
  | _, _ => False
  end.
Proof.
  pose proof (λ s st1 s' st2, statements_chain 1 2026 2 topped_state s st1 s' st2) as Hc.
  assert (is_ok february.1 = true ∧ is_ok march.1 = true) as [H1 H2]
    by (vm_compute; split; reflexivity).
  unfold march in *. fold february in Hc. destruct february as [[s|e] st1]; [|discriminate H1].
  specialize (Hc s st1). change (Ok s, st1).2 with st1 in *.
  assert (_adjacent_period 2026 2 1 = (2026, 3)) as Ea by reflexivity. rewrite Ea in Hc.
  change (2026, 3).1 with 2026 in Hc. change (2026, 3).2 with 3 in Hc.
  destruct (statement_for_period 1 2026 3 st1) as [[s'|e] st2]; [|discriminate H2].
  exact (proj1 (proj2 (proj2 (Hc s' st2 eq_refl eq_refl)))).
Defined.

Lemma lists_witness :
  match march with
  | (Ok s, _) => (map fst (sm_transactions s)) = [1] ∧ NoDup (sm_transactions s)
  | _ => False
  end.
Proof.
  assert (match march with (Ok s, _) => (map fst (sm_transactions s)) = [1] | _ => False end) as Hm
    by (vm_compute; reflexivity).
  pose proof (λ s st', statement_lists_period 1 2026 3 february.2 s st') as Hl. fold march in Hl.
  destruct march as [[s|e] st']; [|exact Hm].
  exact (conj Hm (proj1 (proj2 (Hl s st' eq_refl)))).
Defined.
End Statement.
