(* ===== verification/Guards.v ===== *)
(** * View guards ([app/__init__.py], [app/web/routes.py])

    The current-user loader and the decorators in front of the banking views:
    who reaches a view, and on whose behalf it runs. *)

From S2P Require Import Prelude PyStr TimeModel Schema Runtime Sample Canonical Integrity AuditLog.
From S2P Require Import SessionRisk BankingPolicy Notifications Sessions Mfa LedgerSpec.
From S2P Require Import TransferSafety TopUp TopUpSafety Settings Statement.
Open Scope string_scope.
Open Scope Z_scope.

Module Guards.
Import Audit Policy Notifications Mfa LedgerSpec TransferSafety TopUp TopUpSafety Settings Statement.

Definition ACCOUNT_CUSTOMER : string := "customer".
Definition is_customer_user (user : User) : bool :=
  bool_decide ((if nonempty (u_account_type user) then u_account_type user else ACCOUNT_CUSTOMER)
               = ACCOUNT_CUSTOMER).

(** What a guarded view answers: the view's own answer, or a redirect to the
    login page or the dashboard. *)
Inductive Gate (A : Type) : Type := Passed (a : A) | ToLogin | ToDashboard.
Arguments Passed {A} a.
Arguments ToLogin {A}.
Arguments ToDashboard {A}.

Section Guards.
Context `{Env}.

(** [g.current_user], with its id.  The database driver refuses an id that is
    not a number. *)
Definition load_current_user : M St (option (Z * User)) :=
  user_id <- session_get "user_id" ;;
  match user_id with
  | None | Some JNull => ret None
  | Some (JInt id) => db_get (λ d, (λ u, (id, u)) <$> users d !! id)
  | Some _ => raise TypeError
  end.

Definition web_login_required {A} (current_user : option (Z * User)) (view : M St (Gate A))
    : M St (Gate A) :=
  user_id <- session_get "user_id" ;;
  match current_user with
  | Some (_, user) =>
      if negb (match user_id with Some v => truthy v | None => false end) then ret ToLogin
      else if negb (is_customer_user user) then _ <- session_clear ;; ret ToLogin
      else view
  | None => ret ToLogin
  end.

Definition web_not_frozen_required {A} (current_user : option (Z * User)) (view : M St (Gate A))
    : M St (Gate A) :=
  match current_user with
  | Some (_, user) =>
      if u_is_frozen user || bool_decide (is_Some (u_security_locked_at user))
      then ret ToDashboard else view
  | None => view
  end.

(** A view behind [@web_login_required] and [@web_not_frozen_required]; it
    runs as [g.current_user]. *)
Definition guarded {A} (view : Z → M St A) : M St (Gate A) :=
  current_user <- load_current_user ;;
  web_login_required current_user
    (web_not_frozen_required current_user
       (match current_user with
        | Some (user_id, _) => a <- view user_id ;; ret (Passed a)
        | None => ret ToLogin
        end)).

(** The guarded banking views. *)
Definition topup_submit_view (form : option string) := guarded (λ u, topup_submit u form).
Definition payees_remove_view (payee_id : Z) (form : option (option string)) :=
  guarded (λ u, payees_remove_submit u payee_id form).
Definition transfer_limits_view (form : option LimitsForm) :=
  guarded (λ u, transfer_limits_submit u form).
Definition statement_download_view (year month : option string) :=
  guarded (λ u, statement_download u year month).
End Guards.

(** ** Who reaches a view *)

Section Admission.
Context `{Env}.

(** [uid] is signed in in [st], an ordinary customer who is not frozen. *)
Definition admitted_user (uid : Z) (st : St) : Prop :=
  session st !! "user_id" = Some (JInt uid) ∧ ∃ row, users (working st) !! uid = Some row
  ∧ u_account_type row ∈ [""; ACCOUNT_CUSTOMER]
  ∧ u_is_frozen row = false ∧ u_security_locked_at row = None.

(** The view did not run: a redirect or an error, the database untouched, the
    session kept or cleared. *)
Definition turned_away {A} (out : res (Gate A)) (st st' : St) : Prop :=
  (out = Ok ToLogin ∨ out = Ok ToDashboard ∨ out = Raise TypeError)
  ∧ committed st' = committed st ∧ working st' = working st
  ∧ (session st' = session st ∨ session st' = ∅).

Lemma customer_type row :
  is_customer_user row = true → u_account_type row ∈ [""; ACCOUNT_CUSTOMER].
Proof.
  unfold is_customer_user. rewrite bool_decide_eq_true.
  destruct (u_account_type row) as [|c t]; simpl; [set_solver|]. intros ->. set_solver.
Qed.

Lemma load_current st :
  (∃ id row, session st !! "user_id" = Some (JInt id) ∧ users (working st) !! id = Some row
     ∧ load_current_user st = (Ok (Some (id, row)), st))
  ∨ load_current_user st = (Ok None, st) ∨ load_current_user st = (Raise TypeError, st).
Proof.
  unfold load_current_user. erewrite (bind_Ok (session_get "user_id")) by reflexivity.
  destruct (session st !! "user_id") as [[| |id| | |]|]; try (right; by auto).
  unfold db_get, gets. destruct (users (working st) !! id) as [row|] eqn:Hu; [|right; by auto].
  left. by exists id, row.
Qed.

Lemma guarded_cases {A} (view : Z → M St A) st :
  (∃ uid, admitted_user uid st ∧ guarded view st = (a <- view uid ;; ret (Passed a)) st)
  ∨ turned_away (guarded view st).1 st (guarded view st).2.
Proof.
  unfold guarded. destruct (load_current st) as [(id & row & Hv & Hu & E)|[E|E]].
  2:{ right. rewrite (bind_Ok _ _ _ _ _ E). split_and!; auto. }
  2:{ right. rewrite (bind_Raise _ _ _ _ _ E). split_and!; auto. }
  rewrite (bind_Ok _ _ _ _ _ E). unfold web_login_required.
  erewrite (bind_Ok (session_get "user_id")) by reflexivity. rewrite Hv. cbv beta iota.
  destruct (negb (truthy (JInt id))); [right; split_and!; auto|].
  destruct (is_customer_user row) eqn:Hc; [|right; split_and!; auto]. cbv beta iota delta [negb].
  unfold web_not_frozen_required. destruct (u_is_frozen row) eqn:Hf;
    [right; split_and!; auto|].
  case_bool_decide as Hl; [right; split_and!; auto|].
  left. exists id. split; [|done]. split; [done|]. exists row.
  split_and!; try done; [by apply customer_type|by apply eq_None_not_Some].
Qed.

(** Only an ordinary, unfrozen customer reaches a banking view, and only as
    themselves.  Whatever the session and the view, either the view runs with
    the id of the signed-in user, whose stored row is a customer that is neither
    frozen nor security-locked, or the answer is a redirect (or the driver's
    refusal) and the database is untouched. *)
Theorem guarded_views_admit {A} (view : Z → M St A) st :
  (∃ uid, admitted_user uid st ∧ guarded view st = (a <- view uid ;; ret (Passed a)) st)
  ∨ turned_away (guarded view st).1 st (guarded view st).2.
Proof. apply guarded_cases. Qed.

(** A payee is removed only by its owner.  If the removal view reports the
    change, the session's user is an admitted customer and the payee was one of
    theirs. *)
Theorem payee_removed_by_owner payee_id form st st' :
  payees_remove_view payee_id form st = (Ok (Passed Changed), st') →
  ∃ uid payee, admitted_user uid st ∧ payees (working st) !! payee_id = Some payee
    ∧ py_user_id payee = uid.
Proof.
  unfold payees_remove_view. intros E.
  destruct (guarded_cases (λ u, payees_remove_submit u payee_id form) st) as [(uid & Ha & Eg)|Ht].
  - rewrite Eg in E. inv_bind E. unfold payees_remove_submit in E0. inv_bind E0.
    unfold db_query in E1. destruct (payees (working st) !! payee_id) as [p|] eqn:Hp; [|done].
    destruct (Z.eqb_spec (py_user_id p) uid); [|done]. by exists uid, p.
  - rewrite E in Ht. destruct Ht as [[?|[?|?]] _]; done.
Qed.
End Admission.

#[local] Existing Instance Sample.sample_env.

Lemma owner_witness :
  (payees_remove_view 7 (Some (Some sample_code)) Settings.paid_state).1 = Ok (Passed Changed)
  ∧ ∃ uid payee, admitted_user uid Settings.paid_state
      ∧ payees (working Settings.paid_state) !! 7 = Some payee ∧ py_user_id payee = uid.
Proof.
  assert ((payees_remove_view 7 (Some (Some sample_code)) Settings.paid_state).1
    = Ok (Passed Changed)) as E by (vm_compute; reflexivity).
  split; [exact E|].
  apply (payee_removed_by_owner 7 (Some (Some sample_code)) Settings.paid_state
    (payees_remove_view 7 (Some (Some sample_code)) Settings.paid_state).2).
  rewrite <- E. apply surjective_pairing.
Defined.
End Guards.
