(* ===== verification/ConfigRules.v ===== *)
(** * The rules of a configuration ([config.py])

    The checks that do not depend on where a value comes from: which domains and
    addresses may appear, who may be a root administrator, and the bounds of the
    security settings.  A rule answers with its failures, or raises
    [RuntimeError].  A set of strings is a list. *)

From S2P Require Import Prelude PyStr TimeModel Schema Runtime Turnstile.
From Stdlib Require Import Ascii.
Open Scope string_scope.
Open Scope Z_scope.

Module ConfigRules.
Import Turnstile.

Definition MIN_PRODUCTION_PAYEE_COOLDOWN_SECONDS : Z := 12 * 60 * 60.
Definition MAX_PAYEE_COOLDOWN_SECONDS : Z := 30 * 24 * 60 * 60.
Definition MIN_PRODUCTION_PASSWORD_LENGTH : Z := 15.
Definition MAX_SESSION_ABSOLUTE_LIFETIME_SECONDS : Z := 30 * 24 * 60 * 60.
Definition STAGING_ROOT_ADMIN_EMAIL_COUNT : Z := 2.
Definition PRODUCTION_ROOT_ADMIN_EMAIL_COUNT : Z := 3.
Definition ROOT_ADMIN_EMAIL_COUNT : Z := PRODUCTION_ROOT_ADMIN_EMAIL_COUNT.
Definition PERSONAL_EMAIL_DOMAINS : list string :=
  ["gmail.com"; "outlook.com"; "hotmail.com"; "yahoo.com"; "icloud.com"; "proton.me"; "protonmail.com"].
Definition DEFAULT_ROOT_ADMIN_EMAILS : list string :=
  (λ index, "root" +:+ index +:+ "@sit.singaporetech.edu.sg") <$> ["1"; "2"; "3"].
Definition ROOT_ADMIN_PLACEHOLDER_LOCAL_PARTS : list string :=
  ["admin"; "demo"; "example"; "placeholder"; "root"; "root-admin"; "root_admin"; "rootadmin"; "test"].
Definition ROOT_ADMIN_NUMERIC_PLACEHOLDER_PREFIXES : list string :=
  ["admin"; "changeme"; "demo"; "example"; "placeholder"; "replaceme"; "root"; "rootadmin"; "test"].
Definition PLACEHOLDER_TOKENS : list string :=
  ["changeme"; "change_me"; "example"; "fake"; "placeholder"; "replace_me"; "test"; "test-secret"].

Definition _looks_placeholder (value : string) : bool :=
  let normalized := casefold (strip value) in
  str_in normalized PLACEHOLDER_TOKENS || str_contains "replace_me" normalized.

(** ** Domains and addresses *)

Definition config_alnum (c : ascii) : bool := is_digit c || is_lower c.
Definition config_label (l : list ascii) : bool :=
  match l, last l with
  | c :: _, Some d =>
      config_alnum c && config_alnum d && (length l <=? 63)%nat
      && forallb (λ c, config_alnum c || bool_decide (c = "-"%char)) l
  | _, _ => false
  end.
(** Labels of at most 63 characters, at least two of them, the last of at least
    two characters. *)
Definition CONFIG_DOMAIN_RE (text : string) : bool :=
  (slen text <=? 253)%nat
  && match rev (split_on "."%char (chars text)) with
     | top :: label :: labels =>
         config_label top && (2 <=? length top)%nat && forallb config_label (label :: labels)
     | _ => false
     end.

Definition email_text_char (c : ascii) : bool :=
  let n := code c in (32 <=? n) && negb (n =? 127) && negb (bool_decide (c = "@"%char)).
Definition CONFIG_EMAIL_RE (text : string) : bool :=
  (slen text <=? 255)%nat
  && match partition_char "@"%char (chars text) with
     | Some (local, domain) =>
         (1 <=? length local)%nat && (length local <=? 128)%nat && forallb email_text_char local
         && (1 <=? length domain)%nat && forallb email_text_char domain
     | None => false
     end.

Definition _valid_config_domain (domain : string) (reject_personal : bool) : bool :=
  let normalized := casefold (strip domain) in
  if negb (nonempty normalized) || _looks_placeholder normalized then false
  else if str_in normalized ["example.com"; "example.test"; "localhost"] then false
  else if endswith "." normalized || str_contains "*" normalized || str_contains "@" normalized
          || str_contains "/" normalized then false
  else if reject_personal && str_in normalized PERSONAL_EMAIL_DOMAINS then false
  else CONFIG_DOMAIN_RE normalized.

Definition has_line_or_nul (text : string) : bool :=
  existsb (λ c, let n := code c in (n =? 0) || (n =? 13) || (n =? 10)) (chars text).

Definition _valid_config_email (value : string) : bool :=
  let normalized := casefold (strip value) in
  if negb (nonempty normalized) || _looks_placeholder normalized then false
  else if has_line_or_nul normalized then false
  else
    let '(local, separator, domain) := partition_at "@"%char normalized in
    if negb separator || negb (nonempty local) || negb (_valid_config_domain domain true) then false
    else CONFIG_EMAIL_RE normalized.

(** The letters before the digits a name ends with, when it is of that form. *)
Definition ROOT_ADMIN_NUMERIC_PLACEHOLDER_RE (text : string) : option (list ascii) :=
  let l := chars text in
  let prefix := rev (drop_while is_digit (rev l)) in
  match prefix with
  | c :: rest =>
      if is_lower c && forallb (λ c, is_lower c || str_in (String c "") ["_"; "-"]) rest
         && (length prefix <? length l)%nat
      then Some prefix else None
  | [] => None
  end.

Definition _root_admin_email_has_placeholder_identity (value : string) : bool :=
  let normalized := casefold (strip value) in
  let '(local, separator, domain) := partition_at "@"%char normalized in
  if negb separator then true
  else if _looks_placeholder local || _looks_placeholder domain then true
  else if str_in local ROOT_ADMIN_PLACEHOLDER_LOCAL_PARTS then true
  else if match ROOT_ADMIN_NUMERIC_PLACEHOLDER_RE local with
          | Some prefix =>
              str_in (of_chars (List.filter (λ c, negb (str_in (String c "") ["_"; "-"])) prefix))
                ROOT_ADMIN_NUMERIC_PLACEHOLDER_PREFIXES
          | None => false
          end then true
  else if existsb (λ token, str_contains token local)
            ["placeholder"; "example"; "demo"; "changeme"; "replace"] then true
  else str_in domain ["example.com"; "example.test"].

(** ** Root administrators *)

(** [str(item or "")]. *)
Definition item_text (v : jval) : string := if truthy v then py_str v else "".
(** Iterating over a value: characters of a string, keys of a dict. *)
Definition iterate (v : jval) : res (list jval) :=
  match v with
  | JList l => Ok l
  | JStr s => Ok ((λ c, JStr (String c "")) <$> chars s)
  | JObj kvs => Ok ((λ kv, JStr kv.1) <$> kvs)
  | JNull | JBool _ | JInt _ => Raise TypeError
  end.
(** [value or ()]. *)
Definition or_nothing (v : option jval) : jval :=
  match v with Some v => if truthy v then v else JList [] | None => JList [] end.

Definition count_message (required_count : Z) : string :=
  "ROOT_ADMIN_EMAILS must configure exactly " +:+ pretty required_count +:+ " root administrators".

Definition _normalized_root_admin_email_values (values : jval) (required_count : Z)
    : option (list string) * list string :=
  match values with
  | JList l => (Some ((λ v, casefold (strip (item_text v))) <$> l), [])
  | _ => (None, [count_message required_count])
  end.

Definition _email_domain (value : string) : string :=
  let '(_, separator, domain) := partition_at "@"%char (strip value) in
  if (separator : bool) then casefold domain else "".
Definition _all_email_domains_allowed (emails allowed_domains : list string) : bool :=
  forallb (λ item, _valid_config_email item && str_in (_email_domain item) allowed_domains) emails.

(** [[message] if b else []]. *)
Definition fails_if (b : bool) (message : string) : list string := if b then [message] else [].

Definition _root_admin_email_shape_failures (emails allowed : list string) (required_count : Z)
    (allow_builtin_default : bool) : list string :=
  (fails_if (existsb (λ item, negb (nonempty item)) emails) "ROOT_ADMIN_EMAILS must not contain empty entries"
   ++ fails_if (negb (Z.of_nat (length emails) =? required_count)) (count_message required_count)
   ++ fails_if (negb (bool_decide (NoDup emails)))
        "ROOT_ADMIN_EMAILS must not contain duplicate email addresses"
   ++ fails_if (existsb (λ item, negb (_valid_config_email item)) emails
                || negb (_all_email_domains_allowed emails allowed))
        "ROOT_ADMIN_EMAILS must use approved admin workplace domains"
   ++ fails_if (negb allow_builtin_default
                && existsb _root_admin_email_has_placeholder_identity emails)
        "ROOT_ADMIN_EMAILS must not contain placeholder, demo, or example identities")%list.

(** [frozenset(emails) == DEFAULT_ROOT_ADMIN_EMAILS]. *)
Definition are_default_emails (emails : list string) : bool :=
  forallb (λ e, str_in e DEFAULT_ROOT_ADMIN_EMAILS) emails
  && forallb (λ e, str_in e emails) DEFAULT_ROOT_ADMIN_EMAILS.

Definition root_admin_email_allowlist_failures (values allowed_domains : jval) (reject_default : bool)
    (required_count : Z) : res (list string) :=
  match _normalized_root_admin_email_values values required_count with
  | (None, failures) => Ok failures
  | (Some emails, failures) =>
      rbind (iterate (or_nothing (Some allowed_domains))) (λ items,
        let allowed := (λ v, casefold (strip (item_text v))) <$> items in
        Ok (failures
            ++ _root_admin_email_shape_failures emails allowed required_count
                 (negb reject_default && are_default_emails emails)
            ++ fails_if (reject_default && are_default_emails emails)
                 "ROOT_ADMIN_EMAILS must be explicitly configured for production/admin runtime")%list)
  end.

Definition _required_root_admin_email_count (deployment_target : string) : Z :=
  if bool_decide (casefold (strip deployment_target) = "staging") then STAGING_ROOT_ADMIN_EMAIL_COUNT
  else PRODUCTION_ROOT_ADMIN_EMAIL_COUNT.

(** ** Bounds *)

Definition _production_like (app_env deployment_target : string) : bool :=
  bool_decide (casefold (strip app_env) = "production")
  || str_in (casefold (strip deployment_target)) ["staging"; "production"].

Definition check (b : bool) (message : string) : res unit :=
  if b then Ok tt else Raise (RuntimeError message).

(** [int(value)], with [TypeError] and [ValueError] reported as a message. *)
Definition as_int (value : option jval) (message : string) : res Z :=
  match py_int value with Ok z => Ok z | Raise _ => Raise (RuntimeError message) end.

Definition _validate_smtp_transport_config (app_env deployment_target email_backend : string)
    (smtp_use_tls : bool) : res unit :=
  if negb (bool_decide (email_backend = "smtp")) then Ok tt
  else check (negb (_production_like app_env deployment_target && negb smtp_use_tls))
         "SMTP_USE_TLS=true is required for staging and production SMTP".

Definition single_session (name : string) (value : option jval) : res unit :=
  rbind (as_int value (name +:+ " must be an integer")) (λ parsed,
    check (parsed =? 1) (name +:+ " must be 1")).
Definition _validate_active_session_limit_config (customer_limit admin_limit : option jval) : res unit :=
  rbind (single_session "CUSTOMER_MAX_ACTIVE_SESSIONS" customer_limit) (λ _,
    single_session "ADMIN_MAX_ACTIVE_SESSIONS" admin_limit).

Definition _validate_password_history_config (enabled retention_count : option jval) : res unit :=
  rbind (check (is_true enabled) "PASSWORD_HISTORY_ENABLED must be true") (λ _,
  rbind (as_int retention_count "PASSWORD_HISTORY_RETENTION_COUNT must be an integer") (λ retention,
    check (3 <=? retention) "PASSWORD_HISTORY_RETENTION_COUNT must be at least 3")).

Definition _validate_turnstile_verify_url (app_env deployment_target verify_url : string) : res string :=
  let value := strip verify_url in
  rbind (urlsplit value) (λ parsed,
  rbind (check (bool_decide (us_scheme parsed = "https") && nonempty (default "" (us_hostname parsed)))
           "TURNSTILE_VERIFY_URL must be an HTTPS URL") (λ _,
  rbind (check (negb (nonempty (default "" (us_username parsed)) || nonempty (default "" (us_password parsed))
                      || nonempty (us_query parsed) || nonempty (us_fragment parsed)))
           "TURNSTILE_VERIFY_URL must not include credentials, query, or fragment") (λ _,
  rbind (check (negb (_production_like app_env deployment_target
                      && negb (bool_decide (value = OFFICIAL_TURNSTILE_VERIFY_URL))))
           "TURNSTILE_VERIFY_URL must use the official Cloudflare Siteverify endpoint") (λ _,
    Ok value)))).

Definition within (low high z : Z) : bool := (low <=? z) && (z <=? high).

Definition _validate_password_length_config (app_env : string) (minimum_length maximum_chars : option jval)
    : res unit :=
  rbind (as_int minimum_length "PASSWORD_MIN_LENGTH must be an integer") (λ minimum,
  rbind (as_int maximum_chars "PASSWORD_MAX_CHARS must be an integer") (λ maximum,
  rbind (check (within 1 1024 minimum) "PASSWORD_MIN_LENGTH must be between 1 and 1024") (λ _,
  rbind (check (within 64 1024 maximum) "PASSWORD_MAX_CHARS must be between 64 and 1024") (λ _,
  rbind (check (minimum <=? maximum) "PASSWORD_MAX_CHARS must be at least PASSWORD_MIN_LENGTH") (λ _,
  check (negb (bool_decide (casefold (strip app_env) = "production")
               && (minimum <? MIN_PRODUCTION_PASSWORD_LENGTH)))
    ("PASSWORD_MIN_LENGTH must be at least " +:+ pretty MIN_PRODUCTION_PASSWORD_LENGTH
     +:+ " in production")))))).

Definition _validate_payee_cooldown_config (app_env : string)
    (cooldown_seconds min_production_seconds : option jval) : res unit :=
  rbind (as_int cooldown_seconds "PAYEE_COOLDOWN_SECONDS must be an integer") (λ cooldown,
  rbind (as_int min_production_seconds "MIN_PRODUCTION_PAYEE_COOLDOWN_SECONDS must be an integer") (λ minimum,
  rbind (check (within 1 MAX_PAYEE_COOLDOWN_SECONDS cooldown)
           ("PAYEE_COOLDOWN_SECONDS must be between 1 and " +:+ pretty MAX_PAYEE_COOLDOWN_SECONDS
            +:+ " seconds")) (λ _,
  rbind (check (within 1 MAX_PAYEE_COOLDOWN_SECONDS minimum)
           ("MIN_PRODUCTION_PAYEE_COOLDOWN_SECONDS must be between 1 and "
            +:+ pretty MAX_PAYEE_COOLDOWN_SECONDS +:+ " seconds")) (λ _,
  check (negb (bool_decide (casefold (strip app_env) = "production") && (cooldown <? minimum)))
    ("PAYEE_COOLDOWN_SECONDS must be at least " +:+ pretty minimum +:+ " seconds in production"))))).

Definition _validate_session_absolute_lifetime_config (customer_lifetime_seconds admin_lifetime_seconds
    customer_pending_mfa_seconds admin_pending_mfa_seconds : option jval) : res unit :=
  let bounds_message :=
    "between 1 and " +:+ pretty MAX_SESSION_ABSOLUTE_LIFETIME_SECONDS +:+ " seconds" in
  rbind (as_int customer_lifetime_seconds
           "CUSTOMER_SESSION_ABSOLUTE_LIFETIME_SECONDS must be an integer") (λ customer_lifetime,
  rbind (as_int admin_lifetime_seconds
           "ADMIN_SESSION_ABSOLUTE_LIFETIME_SECONDS must be an integer") (λ admin_lifetime,
  rbind (as_int customer_pending_mfa_seconds
           "PENDING_MFA_MAX_AGE_SECONDS values must be integers") (λ customer_pending_mfa,
  rbind (as_int admin_pending_mfa_seconds
           "PENDING_MFA_MAX_AGE_SECONDS values must be integers") (λ admin_pending_mfa,
  rbind (check (within 1 MAX_SESSION_ABSOLUTE_LIFETIME_SECONDS customer_lifetime)
           ("CUSTOMER_SESSION_ABSOLUTE_LIFETIME_SECONDS must be " +:+ bounds_message)) (λ _,
  rbind (check (within 1 MAX_SESSION_ABSOLUTE_LIFETIME_SECONDS admin_lifetime)
           ("ADMIN_SESSION_ABSOLUTE_LIFETIME_SECONDS must be " +:+ bounds_message)) (λ _,
  rbind (check (customer_pending_mfa <? customer_lifetime)
           ("CUSTOMER_SESSION_ABSOLUTE_LIFETIME_SECONDS must be greater than "
            +:+ "PENDING_MFA_MAX_AGE_SECONDS")) (λ _,
  rbind (check (admin_pending_mfa <? admin_lifetime)
           ("ADMIN_SESSION_ABSOLUTE_LIFETIME_SECONDS must be greater than "
            +:+ "ADMIN_PENDING_MFA_MAX_AGE_SECONDS")) (λ _,
  check (admin_lifetime <=? customer_lifetime)
    ("ADMIN_SESSION_ABSOLUTE_LIFETIME_SECONDS must be less than or equal to "
     +:+ "CUSTOMER_SESSION_ABSOLUTE_LIFETIME_SECONDS"))))))))).
End ConfigRules.
