(* ===== verification/CloudflareAccess.v ===== *)
(** * The staging gate ([app/security/cloudflare_access.py])

    A staging deployment may require the assertion its identity proxy signs: a
    JSON Web Token whose key the proxy publishes.  The settings are read once;
    the signing keys are kept in the process for a while ([jwks_cache]); a hook
    verifies the assertion of every request, except a readiness probe from the
    machine itself.  Times are in microseconds.  The endpoint's answers, the RSA
    primitives and the monotonic clock are parameters. *)

From S2P Require Import Prelude PyStr Base64 TimeModel Canonical Schema Json Runtime Turnstile.
From S2P Require Import Integrity AuditLog IpAddress Sample.
From Stdlib Require Import Ascii.
Open Scope string_scope.
Open Scope Z_scope.

Module CloudflareAccess.
Import Audit Turnstile IpAddress.

Definition _MAX_ASSERTION_LENGTH : Z := 16 * 1024.
Definition _MAX_JWKS_BYTES : Z := 256 * 1024.

Abbreviation Key := (Z * Z)%type.
Abbreviation Keys := (list (string * Key)).

Record CloudflareAccessSettings : Type := mkSettings {
  required : bool; audience : string; issuer : string; jwks_url : string;
  jwks_cache_ttl_seconds : Z
}.

Definition configuration_error (message : string) : exn := CloudflareAccessConfigurationError message.
(** The default reason is ["malformed_assertion"]. *)
Definition malformed (message : string) : exn :=
  CloudflareAccessVerificationError message "malformed_assertion".
Definition is_verification_error (e : exn) : bool :=
  match e with CloudflareAccessVerificationError _ _ => true | _ => false end.

(** ** Patterns *)

Definition urlsafe_char (c : ascii) : bool := is_alnum c || str_in (String c "") ["_"; "-"].
Definition _AUDIENCE_PATTERN (text : string) : bool :=
  (16 <=? slen text)%nat && (slen text <=? 128)%nat && forallb urlsafe_char (chars text).
Definition _BASE64URL_PATTERN (text : string) : bool :=
  nonempty text && forallb urlsafe_char (chars text).

(** One label of a host name: letters, digits and inner hyphens. *)
Definition host_label (l : list ascii) : bool :=
  match l, last l with
  | c :: _, Some d =>
      is_alnum c && is_alnum d && (length l <=? 63)%nat
      && forallb (λ c, is_alnum c || bool_decide (c = "-"%char)) l
  | _, _ => false
  end.
Definition _TEAM_DOMAIN_PATTERN (text : string) : bool :=
  (slen text <=? 253)%nat
  && match rev (split_on "."%char (chars text)) with
     | com :: zone :: first :: labels =>
         bool_decide (casefold (of_chars com) = "com")
         && bool_decide (casefold (of_chars zone) = "cloudflareaccess")
         && forallb host_label (first :: labels)
     | _ => false
     end.

(** ** Settings *)

(** [text.rstrip(c)]. *)
Definition rstrip_char (c : ascii) (text : string) : string :=
  of_chars (rev (drop_while (λ d, bool_decide (d = c)) (rev (chars text)))).

Section Settings.
Context `{Env}.

Definition _required_bool (name : string) : res bool :=
  match config name with
  | None => Ok false
  | Some (JBool value) => Ok value
  | Some _ => Raise (configuration_error (name +:+ " must be a boolean"))
  end.

Definition _team_domain (value : string) : res string :=
  let domain := rstrip_char "."%char (casefold (strip value)) in
  let domain := match strip_prefix "https://" domain with
                | Some rest => rstrip_char "/"%char rest
                | None => domain
                end in
  if _TEAM_DOMAIN_PATTERN domain then Ok domain
  else Raise (configuration_error ("STAGING_CLOUDFLARE_ACCESS_TEAM_DOMAIN must be a "
                                   +:+ "*.cloudflareaccess.com hostname")).

Definition configured_cache_ttl : res Z :=
  match config_int_default "STAGING_CLOUDFLARE_ACCESS_JWKS_CACHE_TTL_SECONDS" 300 with
  | Ok cache_ttl => Ok cache_ttl
  | Raise _ => Raise (configuration_error
      "STAGING_CLOUDFLARE_ACCESS_JWKS_CACHE_TTL_SECONDS must be an integer")
  end.

Definition cloudflare_access_settings (app_mode : string) : res CloudflareAccessSettings :=
  rbind (_required_bool "STAGING_CLOUDFLARE_ACCESS_JWT_REQUIRED") (λ is_required,
  if negb (bool_decide (app_mode = "customer")) || negb is_required
  then Ok (mkSettings false "" "" "" 0) else
  let target := casefold (strip (config_str_or_empty "DEPLOYMENT_TARGET")) in
  if negb (bool_decide (target = "staging")) then
    Raise (configuration_error "Cloudflare Access JWT enforcement is permitted only for staging") else
  let aud := strip (config_str_or_empty "STAGING_CLOUDFLARE_ACCESS_AUD") in
  if negb (_AUDIENCE_PATTERN aud) then
    Raise (configuration_error "STAGING_CLOUDFLARE_ACCESS_AUD is missing or invalid") else
  rbind (_team_domain (config_str_or_empty "STAGING_CLOUDFLARE_ACCESS_TEAM_DOMAIN")) (λ domain,
  rbind configured_cache_ttl (λ cache_ttl,
  if (cache_ttl <? 60) || (3600 <? cache_ttl) then
    Raise (configuration_error ("STAGING_CLOUDFLARE_ACCESS_JWKS_CACHE_TTL_SECONDS must be between "
                                +:+ "60 and 3600"))
  else
    let iss := "https://" +:+ domain in
    Ok (mkSettings true aud iss (iss +:+ "/cdn-cgi/access/certs") cache_ttl)))).

Definition validate_cloudflare_access_config (app_mode : string) : res unit :=
  rbind (cloudflare_access_settings app_mode) (λ _, Ok tt).
End Settings.

(** ** Decoding *)

Definition _decode_base64url (segment label : string) : res string :=
  if negb (nonempty segment) || negb (_BASE64URL_PATTERN segment)
  then Raise (malformed ("Invalid JWT " +:+ label))
  else match urlsafe_b64decode (of_chars (restore_pad (chars segment))) with
       | Some raw => Ok raw
       | None => Raise (malformed ("Invalid JWT " +:+ label))
       end.

(** [json.loads] of bytes; text that is not ASCII is not represented and refused. *)
Definition json_loads_bytes (raw : string) : option jval :=
  if is_ascii raw then json_loads raw else None.

Definition _decode_json_segment (segment label : string) : res (list (string * jval)) :=
  rbind (_decode_base64url segment label) (λ raw,
    match json_loads_bytes raw with
    | Some (JObj kvs) => Ok kvs
    | _ => Raise (malformed ("Invalid JWT " +:+ label))
    end).

(** [int.from_bytes(raw, "big")]. *)
Definition int_from_bytes (raw : string) : Z := foldl (λ n c, 256 * n + code c) 0 (chars raw).

Definition _integer_from_base64url (value : option jval) (label : string) : res Z :=
  match value with
  | Some (JStr text) =>
      rbind (_decode_base64url text ("JWKS " +:+ label)) (λ raw,
        if negb (nonempty raw) then Raise (malformed ("Invalid JWKS " +:+ label))
        else Ok (int_from_bytes raw))
  | _ => Raise (malformed ("Invalid JWKS " +:+ label))
  end.

(** ** Signing keys *)

(** [value in {None, text}]: a list or a dict cannot be hashed. *)
Definition none_or (text : string) (value : option jval) : res bool :=
  match value with
  | None | Some JNull => Ok true
  | Some (JStr s) => Ok (bool_decide (s = text))
  | Some (JBool _) | Some (JInt _) => Ok false
  | Some (JList _) | Some (JObj _) => Raise TypeError
  end.

(** A key identifier: a non-empty string of at most 128 characters. *)
Definition key_identifier (value : option jval) : option string :=
  match value with
  | Some (JStr kid) => if nonempty kid && (slen kid <=? 128)%nat then Some kid else None
  | _ => None
  end.

(** [keys[kid] = key]. *)
Fixpoint put_key (kid : string) (key : Key) (keys : Keys) : Keys :=
  match keys with
  | [] => [(kid, key)]
  | (k, v) :: rest => if bool_decide (k = kid) then (k, key) :: rest else (k, v) :: put_key kid key rest
  end.

Definition jwks_parse_failed (message : string) : exn :=
  CloudflareAccessVerificationError message "jwks_parse_failed".

Section Verifier.
Context `{Env}.

(** The numbers of an item, when they make a usable key. *)
Definition public_key (item : list (string * jval)) : res (option Key) :=
  match rbind (_integer_from_base64url (obj_get "e" item) "exponent") (λ exponent,
        rbind (_integer_from_base64url (obj_get "n" item) "modulus") (λ modulus,
        match rsa_key_size exponent modulus with
        | Some key_size => Ok ((exponent, modulus), key_size)
        | None => Raise (ValueError "Invalid RSA public numbers")
        end)) with
  | Ok (key, key_size) => Ok (if key_size <? 2048 then None else Some key)
  | Raise e => match e with TypeError => Ok None | _ => if is_value_error e then Ok None else Raise e end
  end.

(** The entry an item of the document adds, if any. *)
Definition signing_key (item : jval) : res (option (string * Key)) :=
  match item with
  | JObj kvs =>
      match key_identifier (obj_get "kid" kvs) with
      | None => Ok None
      | Some kid =>
          if negb (is_text "RSA" (obj_get "kty" kvs)) then Ok None else
          rbind (none_or "RS256" (obj_get "alg" kvs)) (λ alg,
          if negb alg then Ok None else
          rbind (none_or "sig" (obj_get "use" kvs)) (λ use,
          if negb use then Ok None else
          rbind (public_key kvs) (λ key, Ok ((λ k, (kid, k)) <$> key))))
      end
  | _ => Ok None
  end.

Fixpoint collect_keys (items : list jval) (keys : Keys) : res Keys :=
  match items with
  | [] => Ok keys
  | item :: rest =>
      rbind (signing_key item) (λ found,
        collect_keys rest (match found with Some (kid, key) => put_key kid key keys | None => keys end))
  end.

Definition _parse_jwks (document : list (string * jval)) : res Keys :=
  match obj_get "keys" document with
  | Some (JList items) =>
      rbind (collect_keys items []) (λ keys,
        if bool_decide (keys = [])
        then Raise (jwks_parse_failed "Cloudflare Access JWKS contains no usable signing keys")
        else Ok keys)
  | _ => Raise (jwks_parse_failed "Invalid Cloudflare Access JWKS")
  end.

(** What the endpoint answered, decoded. *)
Definition jwks_document (answer : option string) : res (list (string * jval)) :=
  match answer with
  | None => Raise (CloudflareAccessVerificationError "Cloudflare Access signing keys are unavailable"
                     "jwks_fetch_failed")
  | Some raw =>
      if _MAX_JWKS_BYTES <? Z.of_nat (slen raw)
      then Raise (jwks_parse_failed "Cloudflare Access signing-key response is too large")
      else match json_loads_bytes raw with
           | Some (JObj document) => Ok document
           | _ => Raise (jwks_parse_failed "Cloudflare Access signing-key response is invalid")
           end
  end.

Definition _fetch_jwks_document (url : string) : M St (list (string * jval)) :=
  answer <- fresh (λ n, jwks_response n url) ;; lift (jwks_document answer).

(** The keys are fetched and kept until the time to live has passed. *)
Definition refresh_keys (settings : CloudflareAccessSettings) (now : Z) : M St Keys :=
  document <- _fetch_jwks_document (jwks_url settings) ;;
  keys <- lift (_parse_jwks document) ;;
  _ <- modify (λ s, set_jwks_cache
         (<[jwks_url settings := (now + jwks_cache_ttl_seconds settings * US_SECOND, keys)]> (jwks_cache s)) s) ;;
  ret keys.

Definition _signing_keys (settings : CloudflareAccessSettings) (force_refresh : bool) : M St Keys :=
  now <- fresh monotonic ;;
  cached <- gets (λ s, jwks_cache s !! jwks_url settings) ;;
  match cached with
  | Some (expires, keys) =>
      if negb force_refresh && (now <? expires) then ret keys else refresh_keys settings now
  | None => refresh_keys settings now
  end.

(** ** Verification *)

(** [float(value)], in microseconds: an integer too large for a double raises. *)
Definition _numeric_date (claims : list (string * jval)) (name : string) : res Z :=
  match obj_get name claims with
  | Some (JInt value) =>
      if 2 ^ 1024 - 2 ^ 970 <=? Z.abs value then Raise OverflowError else Ok (value * US_SECOND)
  | _ => Raise (malformed ("Invalid JWT " +:+ name +:+ " claim"))
  end.

Definition _audience_matches (value : option jval) (expected : string) : bool :=
  match value with
  | Some (JStr text) => bool_decide (text = expected)
  | Some (JList items) =>
      forallb (λ v, match v with JStr _ => true | _ => false end) items
      && existsb (λ v, is_text expected (Some v)) items
  | _ => false
  end.

(** The key the token names: a second look asks the endpoint again. *)
Definition find_key (settings : CloudflareAccessSettings) (kid : string) : M St Key :=
  keys <- _signing_keys settings false ;;
  match assoc kid keys with
  | Some key => ret key
  | None =>
      keys <- _signing_keys settings true ;;
      match assoc kid keys with
      | Some key => ret key
      | None => raise (CloudflareAccessVerificationError "Unknown JWT signing key" "unknown_signing_key")
      end
  end.

(** The claims of a token whose signature is good: who issued it for whom, and
    whether the time is within its validity. *)
Definition check_parties (settings : CloudflareAccessSettings) (claims : list (string * jval)) : res unit :=
  if negb (is_text (issuer settings) (obj_get "iss" claims))
  then Raise (CloudflareAccessVerificationError "Invalid JWT issuer" "wrong_issuer")
  else if negb (_audience_matches (obj_get "aud" claims) (audience settings))
  then Raise (CloudflareAccessVerificationError "Invalid JWT audience" "wrong_audience")
  else Ok tt.
Definition check_validity (claims : list (string * jval)) (current_time : Z) : res unit :=
  rbind (_numeric_date claims "exp") (λ exp,
  if exp <=? current_time then Raise (CloudflareAccessVerificationError "Expired Access assertion" "expired")
  else match obj_get "nbf" claims with
       | None => Ok tt
       | Some _ => rbind (_numeric_date claims "nbf") (λ nbf,
           if current_time <? nbf
           then Raise (CloudflareAccessVerificationError "Access assertion is not yet valid" "not_yet_valid")
           else Ok tt)
       end).

Definition verify_segments (settings : CloudflareAccessSettings)
    (encoded_header encoded_claims encoded_signature : string) : M St (list (string * jval)) :=
  header <- lift (_decode_json_segment encoded_header "header") ;;
  if negb (is_text "RS256" (obj_get "alg" header)) then raise (malformed "Unsupported JWT algorithm") else
  match key_identifier (obj_get "kid" header) with
  | None => raise (malformed "Invalid JWT key identifier")
  | Some kid =>
      key <- find_key settings kid ;;
      signature <- lift (_decode_base64url encoded_signature "signature") ;;
      if negb (rsa_verify key signature (encoded_header +:+ "." +:+ encoded_claims))
      then raise (CloudflareAccessVerificationError "Invalid Access assertion signature" "invalid_signature")
      else
        claims <- lift (_decode_json_segment encoded_claims "claims") ;;
        _ <- lift (check_parties settings claims) ;;
        current_time <- now_utc ;;
        _ <- lift (check_validity claims current_time) ;;
        ret claims
  end.

Definition verify (settings : CloudflareAccessSettings) (assertion : string)
    : M St (list (string * jval)) :=
  if negb (nonempty assertion) || (_MAX_ASSERTION_LENGTH <? Z.of_nat (slen assertion))
     || existsb is_space (chars assertion)
  then raise (malformed "Invalid Access assertion")
  else match split_on "."%char (chars assertion) with
       | [encoded_header; encoded_claims; encoded_signature] =>
           verify_segments settings (of_chars encoded_header) (of_chars encoded_claims)
             (of_chars encoded_signature)
       | _ => raise (malformed "Invalid Access assertion")
       end.

(** ** The hook *)

Definition is_loopback (address : Address) : bool :=
  match address with
  | IPv4 octets => match octets with o :: _ => o =? 127 | [] => false end
  | IPv6 hextets => bool_decide (hextets = [0; 0; 0; 0; 0; 0; 0; 1])
  end.

Definition _loopback_readiness_request : bool :=
  bool_decide (request_path = "/health/ready")
  && match ip_address (default "" request_remote_addr) with
     | Some address => is_loopback address
     | None => false
     end.

Definition _jwks_cache_contains (url : string) : M St bool :=
  gets (λ s, bool_decide (is_Some (jwks_cache s !! url))).

Definition _audit_access_denial (settings : CloudflareAccessSettings) (reason : string) : M St unit :=
  available <- _jwks_cache_contains (jwks_url settings) ;;
  audit_event "cloudflare_access_assertion_validation" "blocked" None
    [("reason", JStr reason); ("validator", JStr "cloudflare_access_jwt");
     ("validation_required", JBool true); ("audience_configured", JBool (nonempty (audience settings)));
     ("issuer_configured", JBool (nonempty (issuer settings)));
     ("jwks_cache_available", JBool available)].

(** [None]: the application has no such hook. *)
Definition register_cloudflare_access_guard : res (option CloudflareAccessSettings) :=
  let app_mode := casefold (strip (config_str_or_empty "APP_MODE")) in
  rbind (cloudflare_access_settings app_mode) (λ settings,
    Ok (if required settings then Some settings else None)).

(** The value is that of [g.cloudflare_access_verified]. *)
Definition require_cloudflare_access_assertion (settings : CloudflareAccessSettings) : M St bool :=
  if _loopback_readiness_request then ret false else
  let assertion := default "" (request_header "Cf-Access-Jwt-Assertion") in
  if negb (nonempty assertion) then
    _ <- _audit_access_denial settings "missing_assertion" ;; raise Forbidden
  else
    _ <- try_except (_ <- verify settings assertion ;; ret tt) is_verification_error
           (λ e, _ <- _audit_access_denial settings
                        (match e with CloudflareAccessVerificationError _ reason => reason | _ => "" end) ;;
                 raise Forbidden) ;;
    ret true.
End Verifier.

(** ** The host behind the settings *)

(** [".".join(text.split("."))]. *)
Lemma split_join l : of_chars l = join "." (of_chars <$> split_on "."%char l).
Proof.
  induction l as [|d l IH]; [done|]. cbn [split_on]. case_bool_decide as Hd.
  - subst d. cbn [of_chars]. rewrite IH. by destruct (split_on "." l) as [|q qs] eqn:El;
      [destruct l; cbn in El; [|case_bool_decide; [|case_match]]|].
  - cbn [of_chars]. rewrite IH. destruct (split_on "." l) as [|q [|q' qs]]; done.
Qed.
Lemma join_app sep a b : a ≠ [] → b ≠ [] → join sep (a ++ b)%list = join sep a +:+ sep +:+ join sep b.
Proof.
  intros Ha Hb. induction a as [|p [|q a] IH]; [done|by destruct b|].
  change (join sep ((p :: q :: a) ++ b)%list) with (p +:+ sep +:+ join sep ((q :: a) ++ b)%list).
  rewrite IH by done. change (join sep (p :: q :: a)) with (p +:+ sep +:+ join sep (q :: a)).
  by rewrite !str_app_assoc.
Qed.
(** A host under the proxy's domain, spelled with host name characters only. *)
Definition team_host (domain : string) : Prop :=
  (∃ sub, sub ≠ "" ∧ casefold domain = casefold sub +:+ ".cloudflareaccess.com")
  ∧ ∀ c, c ∈ chars domain → is_alnum c = true ∨ c = "-"%char ∨ c = "."%char.

Lemma host_label_inv l : host_label l = true →
  l ≠ [] ∧ ∀ c, c ∈ l → is_alnum c = true ∨ c = "-"%char.
Proof.
  destruct l as [|c l]; [done|]. unfold host_label. destruct (last _); [|done].
  intros [_ Hf]%andb_prop. split; [done|]. intros d Hd. rewrite forallb_forall in Hf.
  apply list_elem_of_In, Hf, orb_prop in Hd as [?|?%bool_decide_eq_true]; auto.
Qed.
Lemma join_chars (Q : ascii → Prop) ps : Q "."%char → (∀ p c, p ∈ ps → c ∈ p → Q c) →
  ∀ c, c ∈ chars (join "." (of_chars <$> ps)) → Q c.
Proof.
  intros Hdot. induction ps as [|p [|q ps] IH]; intros Hp c; cbn [fmap list_fmap join]; [by intros ?%elem_of_nil|..].
  - rewrite chars_of_chars. apply Hp. set_solver.
  - rewrite !chars_app, chars_of_chars, !elem_of_app. cbn [chars].
    intros [Hc|[Hc|Hc]]; [by eapply Hp; [left|]|set_solver|].
    eapply IH; [|exact Hc]. intros p' c' Hp' Hc'. eapply Hp; [right; exact Hp'|done].
Qed.
Lemma casefold_word l w c : casefold (of_chars l) = w → forallb is_lower (chars w) = true → c ∈ l → is_alnum c = true.
Proof.
  intros <- Hw Hc. unfold casefold in Hw. rewrite !chars_of_chars, forallb_forall in Hw.
  assert (is_lower (lower_char c) = true) as Hl by (apply Hw, list_elem_of_In, list_elem_of_fmap; eauto).
  revert Hl. by destruct c as [[] [] [] [] [] [] [] []].
Qed.
Lemma team_domain_host text : _TEAM_DOMAIN_PATTERN text = true → team_host text.
Proof.
  unfold _TEAM_DOMAIN_PATTERN. intros [_ Hp]%andb_prop.
  destruct (rev (split_on _ _)) as [|com [|zone [|first labels]]] eqn:Er; try done.
  apply andb_prop in Hp as [[Hc Hz]%andb_prop Hl]. apply bool_decide_eq_true in Hc, Hz.
  apply (f_equal (@rev _)) in Er. rewrite rev_involutive in Er. cbn [rev] in Er. rewrite <- !app_assoc in Er.
  cbn [app] in Er. rewrite forallb_forall in Hl.
  assert (∀ p, p ∈ (rev labels ++ [first])%list → host_label p = true) as Hlab.
  { intros p Hp. apply Hl, list_elem_of_In. rewrite elem_of_app, list_elem_of_In, <- in_rev, <- list_elem_of_In in Hp. set_solver. }
  pose proof (split_join (chars text)) as Ej. rewrite of_chars_chars, Er in Ej. split.
  - exists (join "." (of_chars <$> (rev labels ++ [first])%list)). split.
    + intros Hn. destruct (host_label_inv first (Hlab first ltac:(set_solver))) as [Hf _].
      rewrite fmap_app in Hn. destruct first as [|c first]; [done|].
      destruct (of_chars <$> rev labels) as [|q qs]; [done|].
      rewrite join_app in Hn by done. destruct (join "." (q :: qs)); done.
    + rewrite Ej. change (first :: [zone; com]) with ([first] ++ [zone; com])%list.
      rewrite app_assoc, fmap_app, join_app, !casefold_app; [|by destruct (rev labels)|done].
      cbn [fmap list_fmap join]. by rewrite !casefold_app, Hc, Hz.
  - rewrite Ej. apply join_chars; [auto|]. intros p c Hp Hcp.
    assert (p ∈ (rev labels ++ [first])%list ∨ p = zone ∨ p = com) as [Hq|[->| ->]] by set_solver.
    + destruct (host_label_inv p (Hlab p Hq)) as [_ H']. destruct (H' c Hcp); auto.
    + left. by apply (casefold_word zone "cloudflareaccess").
    + left. by apply (casefold_word com "com").
Qed.

(** What the settings of an active gate are like. *)
Record scoped `{Env} (settings : CloudflareAccessSettings) : Prop := {
  sc_target : casefold (strip (config_str_or_empty "DEPLOYMENT_TARGET")) = "staging";
  sc_audience : _AUDIENCE_PATTERN (audience settings) = true;
  sc_host : ∃ domain, team_host domain ∧ issuer settings = "https://" +:+ domain
    ∧ jwks_url settings = "https://" +:+ domain +:+ "/cdn-cgi/access/certs";
  sc_ttl : 60 ≤ jwks_cache_ttl_seconds settings ≤ 3600
}.
Lemma registered_scoped `{Env} settings :
  register_cloudflare_access_guard = Ok (Some settings) → scoped settings.
Proof.
  unfold register_cloudflare_access_guard, cloudflare_access_settings.
  destruct (_required_bool _) as [b|]; [|done]. cbn [rbind].
  destruct (negb (bool_decide _) || _); [done|]. cbv zeta.
  destruct (bool_decide_reflect (casefold (strip (config_str_or_empty "DEPLOYMENT_TARGET")) = "staging"))
    as [Ht|]; [|done]. cbn [negb].
  destruct (_AUDIENCE_PATTERN _) eqn:Ea; [|done]. cbn [negb].
  unfold _team_domain. destruct (_TEAM_DOMAIN_PATTERN _) eqn:Ed; [|done]. cbn [rbind].
  destruct configured_cache_ttl as [ttl|]; [|done]. cbn [rbind].
  destruct (_ || _) eqn:Eb; [done|]. apply orb_false_iff in Eb as [?%Z.ltb_ge ?%Z.ltb_ge].
  cbn. intros [= <-]. split; [done|done| |done]. eexists. split; [by apply team_domain_host|].
  cbn. by rewrite ?str_app_assoc.
Qed.

(** ** The key cache *)

(** The cache satisfies [P]. *)
Definition cached (P : gmap string (Z * Keys) → Prop) (s : St) : Prop := P (jwks_cache s).

Section CacheInvariants.
Context `{Env} (P : gmap string (Z * Keys) → Prop).
Lemma ck_now : preserves (cached P) now_utc.
Proof. by intros s. Qed.
Lemma ck_fresh {A} (f : nat → A) : preserves (cached P) (fresh f).
Proof. by intros s. Qed.
Lemma ck_db_get {A} (f : Db → A) : preserves (cached P) (db_get f).
Proof. by intros s. Qed.
Lemma ck_db_write f : preserves (cached P) (db_write f).
Proof. by intros s. Qed.
Lemma ck_commit : preserves (cached P) commit.
Proof. intros s Hs. unfold commit. by case_match. Qed.
Lemma ck_flush : preserves (cached P) flush.
Proof. intros s Hs. unfold flush. by case_match. Qed.
Lemma ck_rollback : preserves (cached P) rollback.
Proof. by intros s. Qed.
#[local] Hint Resolve ck_now ck_fresh ck_db_get ck_db_write ck_commit ck_flush ck_rollback : pres.

Lemma ck_denial settings reason : preserves (cached P) (_audit_access_denial settings reason).
Proof. unfold _audit_access_denial, _jwks_cache_contains, audit_event, _audit_event. solve_pres. Qed.
End CacheInvariants.
#[local] Hint Resolve ck_now ck_fresh ck_denial : pres.

(** ** Where the keys come from *)

(** A request to the guarded application. *)
Record Request : Type := mkRequest { rq_env : Env; rq_state : St }.
Definition checked (settings : CloudflareAccessSettings) (r : Request) : res bool * St :=
  @require_cloudflare_access_assertion (rq_env r) settings (rq_state r).

(** The requests a process serves, from its start, and the cache they leave. *)
Inductive served (settings : CloudflareAccessSettings) : list Request → gmap string (Z * Keys) → Prop :=
  | served_none : served settings [] ∅
  | served_next h r :
      served settings h (jwks_cache (rq_state r)) →
      served settings (h ++ [r]) (jwks_cache (checked settings r).2).

(** Some request fetched these keys from the configured address; they may be used
    until [expires]. *)
Definition fetched (settings : CloudflareAccessSettings) (h : list Request) (keys : Keys) (expires : Z)
    : Prop :=
  ∃ r n m body document, r ∈ h
    ∧ @jwks_response (rq_env r) n (jwks_url settings) = Some body
    ∧ jwks_document (Some body) = Ok document ∧ @_parse_jwks (rq_env r) document = Ok keys
    ∧ expires = @monotonic (rq_env r) m + jwks_cache_ttl_seconds settings * US_SECOND.

Definition provenance (settings : CloudflareAccessSettings) (h : list Request)
    (cache : gmap string (Z * Keys)) : Prop :=
  ∀ url expires keys, cache !! url = Some (expires, keys) → fetched settings h keys expires.
Lemma provenance_more settings h h' cache :
  h ⊆ h' → provenance settings h cache → provenance settings h' cache.
Proof. intros Hh Hp url t keys E. destruct (Hp _ _ _ E) as (r & n & m & b & d & Hr & ?). exists r, n, m, b, d. eauto. Qed.

(** Every key of a parsed document is large enough. *)
Lemma assoc_put_key kid key keys k v :
  assoc k (put_key kid key keys) = Some v → v = key ∨ assoc k keys = Some v.
Proof.
  induction keys as [|[k' v'] keys IH]; cbn; [case_bool_decide; naive_solver|].
  destruct (bool_decide_reflect (k' = kid)) as [->|]; cbn; case_bool_decide; naive_solver.
Qed.
Lemma public_key_strong `{Env} item key :
  public_key item = Ok (Some key) → ∃ bits, rsa_key_size key.1 key.2 = Some bits ∧ 2048 ≤ bits.
Proof.
  unfold public_key. destruct (_integer_from_base64url (obj_get "e" item) _) as [e|x]; cbn [rbind];
    [|destruct x; cbn; try done; by destruct (is_value_error _)].
  destruct (_integer_from_base64url (obj_get "n" item) _) as [n|x]; cbn [rbind];
    [|destruct x; cbn; try done; by destruct (is_value_error _)].
  destruct (rsa_key_size e n) as [bits|] eqn:Eb; cbn; [|done].
  destruct (Z.ltb_spec bits 2048); [done|]. intros [= <-]. by exists bits.
Qed.
Lemma signing_key_strong `{Env} item kid key :
  signing_key item = Ok (Some (kid, key)) → ∃ bits, rsa_key_size key.1 key.2 = Some bits ∧ 2048 ≤ bits.
Proof.
  unfold signing_key. destruct item; try done. destruct (key_identifier _); [|done].
  destruct (negb _); [done|]. destruct (none_or _ _) as [[]|]; try done. cbn [rbind negb].
  destruct (none_or _ _) as [[]|]; try done. cbn [rbind negb].
  destruct (public_key _) as [[k|]|] eqn:Ek; try done. cbn. intros [= -> ->]. by eapply public_key_strong.
Qed.
Lemma parsed_strong `{Env} document keys kid key :
  _parse_jwks document = Ok keys → assoc kid keys = Some key →
  ∃ bits, rsa_key_size key.1 key.2 = Some bits ∧ 2048 ≤ bits.
Proof.
  unfold _parse_jwks. destruct (obj_get "keys" document) as [[| | | |items|]|]; try done.
  destruct (collect_keys items []) as [found|] eqn:Ec; [|done]. cbn [rbind].
  case_bool_decide as Hne; [done|]. intros [= ->]. clear Hne. revert keys Ec.
  enough (∀ acc keys, collect_keys items acc = Ok keys → assoc kid keys = Some key →
    assoc kid acc = Some key ∨ ∃ bits, rsa_key_size key.1 key.2 = Some bits ∧ 2048 ≤ bits) as Hc
    by (intros keys Ek Ea; by destruct (Hc _ _ Ek Ea)).
  induction items as [|item items IH]; intros acc keys; cbn; [by intros [= ->]; left|].
  destruct (signing_key item) as [[[k v]|]|] eqn:Es; [| |done]; cbn [rbind]; intros Ek Ea;
    [|by eapply IH].
  destruct (IH _ _ Ek Ea) as [[->|]%assoc_put_key|]; [|by left|by right]. right. by eapply signing_key_strong.
Qed.

Section Step.
Context `{E : Env} (settings : CloudflareAccessSettings) (h : list Request).
Context (Hnow : ∃ s, mkRequest E s ∈ h) (Httl : 0 < jwks_cache_ttl_seconds settings).
Notation known := (cached (provenance settings h)).

(** Keys that may be used at some reading of the clock of this request. *)
Definition current (keys : Keys) : Prop :=
  ∃ expires n, fetched settings h keys expires ∧ monotonic n < expires.

Lemma refresh_known n : triple known (refresh_keys settings (monotonic n))
  (λ keys s, known s ∧ current keys) (λ _, known).
Proof.
  intros s Hs. unfold refresh_keys, _fetch_jwks_document, bind, fresh, lift, modify, ret.
  destruct (jwks_document _) as [document|e] eqn:Ed; [|exact Hs].
  destruct (_parse_jwks document) as [keys|e] eqn:Ep; [|exact Hs].
  destruct Hnow as [s0 H0]. destruct (jwks_response _ _) as [body|] eqn:Eb; [|done].
  assert (fetched settings h keys (monotonic n + jwks_cache_ttl_seconds settings * US_SECOND)) as Hf
    by (eexists _, _, n, body, document; split_and!; [exact H0|exact Eb|done..]).
  split.
  - intros url t keys'. cbn. destruct (decide (url = jwks_url settings)) as [->|Hne].
    + rewrite lookup_insert_eq. by intros [= <- <-].
    + rewrite lookup_insert_ne by done. apply Hs.
  - eexists _, n. split; [exact Hf|]. unfold US_SECOND. lia.
Qed.

Lemma keys_known force : triple known (_signing_keys settings force)
  (λ keys s, known s ∧ current keys) (λ _, known).
Proof.
  intros s Hs. unfold _signing_keys, bind at 1, fresh, bind, gets. cbn [jwks_cache next_effect].
  change (jwks_cache (next_effect s)) with (jwks_cache s).
  destruct (jwks_cache s !! jwks_url settings) as [[expires keys]|] eqn:Ec; [|by apply refresh_known].
  destruct (negb force && _) eqn:Eb; [|by apply refresh_known].
  apply andb_prop in Eb as [_ Hlt%Z.ltb_lt]. split; [exact Hs|].
  exists expires, (effects s). split; [by eapply Hs|done].
Qed.

(** The configured address listed the key under that name to a request of this
    process, less than the time to live ago; it has at least 2048 bits. *)
Definition published (kid : string) (key : Key) : Prop :=
  ∃ r n m m' body document keys bits, r ∈ h
    ∧ @jwks_response (rq_env r) n (jwks_url settings) = Some body
    ∧ jwks_document (Some body) = Ok document ∧ @_parse_jwks (rq_env r) document = Ok keys
    ∧ assoc kid keys = Some key
    ∧ monotonic m' < @monotonic (rq_env r) m + jwks_cache_ttl_seconds settings * US_SECOND
    ∧ @rsa_key_size (rq_env r) key.1 key.2 = Some bits ∧ 2048 ≤ bits.
Lemma current_published keys kid key : current keys → assoc kid keys = Some key → published kid key.
Proof.
  intros (expires & m' & (r & n & m & body & document & Hr & Eb & Ed & Ep & ->) & Hlt) Ea.
  destruct (parsed_strong _ _ _ _ Ep Ea) as (bits & ? & ?).
  exists r, n, m, m', body, document, keys, bits. split_and!; done.
Qed.

Lemma find_key_known kid : triple known (find_key settings kid)
  (λ key s, known s ∧ published kid key) (λ _, known).
Proof.
  unfold find_key. eapply triple_bind; [apply keys_known|]. intros keys. apply triple_pure. intros Hk.
  destruct (assoc kid keys) as [key|] eqn:Ea.
  { apply triple_ret. intros s Hs. split; [done|by eapply current_published]. }
  eapply triple_bind; [apply keys_known|]. intros keys'. apply triple_pure. intros Hk'.
  destruct (assoc kid keys') as [key|] eqn:Ea'; [|by apply triple_raise].
  apply triple_ret. intros s Hs. split; [done|by eapply current_published].
Qed.

(** A token of three segments that checks at time [now]. *)
Record valid_token (eh ec es : string) (now : Z) (claims : list (string * jval)) : Prop := {
  vt_signed : ∃ header kid key signature,
    _decode_json_segment eh "header" = Ok header ∧ is_text "RS256" (obj_get "alg" header) = true
    ∧ obj_get "kid" header = Some (JStr kid) ∧ published kid key
    ∧ _decode_base64url es "signature" = Ok signature
    ∧ rsa_verify key signature (eh +:+ "." +:+ ec) = true;
  vt_claims : _decode_json_segment ec "claims" = Ok claims;
  vt_issuer : obj_get "iss" claims = Some (JStr (issuer settings));
  vt_audience : _audience_matches (obj_get "aud" claims) (audience settings) = true;
  vt_expires : ∃ exp, obj_get "exp" claims = Some (JInt exp) ∧ now < exp * US_SECOND;
  vt_begun : ∀ v, obj_get "nbf" claims = Some v → ∃ nbf, v = JInt nbf ∧ nbf * US_SECOND ≤ now
}.

Lemma is_text_inv text v : is_text text v = true → v = Some (JStr text).
Proof.
  destruct v as [[| | |s| |]|]; try done. cbn. intros Hs%bool_decide_eq_true. by subst s.
Qed.
Lemma numeric_date_inv claims name t :
  _numeric_date claims name = Ok t → ∃ z, obj_get name claims = Some (JInt z) ∧ t = z * US_SECOND.
Proof.
  unfold _numeric_date. destruct (obj_get name claims) as [[]|]; try done.
  destruct (_ <=? _); [done|]. intros [= <-]. by eexists.
Qed.
Lemma validity_inv claims now : check_validity claims now = Ok tt →
  (∃ exp, obj_get "exp" claims = Some (JInt exp) ∧ now < exp * US_SECOND)
  ∧ ∀ v, obj_get "nbf" claims = Some v → ∃ nbf, v = JInt nbf ∧ nbf * US_SECOND ≤ now.
Proof.
  unfold check_validity. destruct (_numeric_date claims "exp") as [t|] eqn:Ee; [|done]. cbn [rbind].
  apply numeric_date_inv in Ee as (exp & Hexp & ->). destruct (Z.leb_spec (exp * US_SECOND) now); [done|].
  intros Hn. split; [by exists exp|]. intros v Hv. rewrite Hv in Hn.
  destruct (_numeric_date claims "nbf") as [t|] eqn:Eb; [|done]. cbn [rbind] in Hn.
  apply numeric_date_inv in Eb as (nbf & Hnbf & ->). destruct (Z.ltb_spec now (nbf * US_SECOND)); [done|].
  exists nbf. split; [congruence|done].
Qed.
Lemma key_identifier_inv v kid : key_identifier v = Some kid → v = Some (JStr kid).
Proof. destruct v as [[| | |s| |]|]; try done. cbn. destruct (_ && _); [|done]. by intros [= ->]. Qed.
Lemma parties_inv claims : check_parties settings claims = Ok tt →
  obj_get "iss" claims = Some (JStr (issuer settings))
  ∧ _audience_matches (obj_get "aud" claims) (audience settings) = true.
Proof.
  unfold check_parties. destruct (is_text _ _) eqn:Ei; [|done]. destruct (_audience_matches _ _); [|done].
  intros _. split; [by apply is_text_inv|done].
Qed.

Lemma segments_known eh ec es : triple known (verify_segments settings eh ec es)
  (λ claims s, known s ∧ valid_token eh ec es (clock s) claims) (λ _, known).
Proof.
  unfold verify_segments. intros s Hs. unfold bind at 1, lift at 1.
  destruct (_decode_json_segment eh "header") as [header|e] eqn:Eh; [|exact Hs].
  destruct (is_text "RS256" _) eqn:Ealg; [|exact Hs].
  destruct (key_identifier _) as [kid|] eqn:Ekid; [|exact Hs]. apply key_identifier_inv in Ekid.
  revert s Hs. refine (triple_bind known (find_key settings kid) _ (λ key s, known s ∧ published kid key)
    (λ claims s, known s ∧ valid_token eh ec es (clock s) claims) (λ _, known) (find_key_known kid) _).
  intros key. apply triple_pure. intros Hkey s Hs.
  unfold bind at 1, lift at 1.
  destruct (_decode_base64url es "signature") as [signature|e] eqn:Es; [|exact Hs].
  destruct (rsa_verify key signature _) eqn:Ev; [|exact Hs]. cbn [negb].
  unfold bind at 1, lift at 1. destruct (_decode_json_segment ec "claims") as [claims|e] eqn:Ec; [|exact Hs].
  unfold bind at 1, lift at 1. destruct (check_parties settings claims) as [[]|e] eqn:Ep; [|exact Hs].
  unfold bind, now_utc, lift. cbv beta iota zeta. set (now := clock s + _).
  destruct (check_validity claims now) as [[]|e] eqn:Et; [|exact Hs]. split; [exact Hs|].
  apply parties_inv in Ep as [Hi Ha]. apply validity_inv in Et as [Hx Hn].
  split; [by exists header, kid, key, signature|done..].
Qed.

Lemma split_three l a b c :
  split_on "."%char l = [a; b; c] → of_chars l = of_chars a +:+ "." +:+ of_chars b +:+ "." +:+ of_chars c.
Proof. intros Es. by rewrite (split_join l), Es. Qed.

(** The token of the request. *)
Definition presented (now : Z) : Prop :=
  ∃ eh ec es claims, request_header "Cf-Access-Jwt-Assertion" = Some (eh +:+ "." +:+ ec +:+ "." +:+ es)
    ∧ valid_token eh ec es now claims.

Lemma verify_known assertion : triple known (verify settings assertion)
  (λ _ s, known s ∧ ∃ eh ec es claims, assertion = eh +:+ "." +:+ ec +:+ "." +:+ es
     ∧ valid_token eh ec es (clock s) claims) (λ _, known).
Proof.
  unfold verify. destruct (_ || _ || _); [by apply triple_raise|].
  destruct (split_on _ _) as [|a [|b [|c [|]]]] eqn:Es; try by apply triple_raise.
  eapply triple_conseq; [apply segments_known|done| |done]. intros claims s [Hs Hv]. split; [done|].
  exists (of_chars a), (of_chars b), (of_chars c), claims. split; [|done].
  by rewrite <- (of_chars_chars assertion), (split_three _ _ _ _ Es).
Qed.

Lemma hook_known : triple known (require_cloudflare_access_assertion settings)
  (λ verified s, known s ∧ if (verified : bool) then presented (clock s)
                           else _loopback_readiness_request = true) (λ _, known).
Proof.
  unfold require_cloudflare_access_assertion.
  destruct _loopback_readiness_request; [by apply triple_ret|].
  destruct (request_header "Cf-Access-Jwt-Assertion") as [assertion|] eqn:Eh; cbn [default from_option id].
  2:{ apply (triple_raises _ (cached (provenance settings h))); [|solve_pres|done].
      apply raises_bind. intros ?. apply raises_raise. }
  destruct (nonempty assertion); cbn [negb].
  2:{ apply (triple_raises _ (cached (provenance settings h))); [|solve_pres|done].
      apply raises_bind. intros ?. apply raises_raise. }
  eapply triple_bind; [|intros u; apply triple_ret; intros s Hs; exact Hs].
  eapply triple_try with (X' := λ _, known); [| |done].
  - eapply triple_bind; [apply verify_known|]. intros claims. apply triple_ret.
    intros s (Hs & eh & ec & es & cl & -> & Hv). split; [done|]. by exists eh, ec, es, cl.
  - intros e. apply (triple_raises _ known); [|solve_pres|done].
    apply raises_bind. intros ?. apply raises_raise.
Qed.
End Step.

(** Every cached key set was fetched by a request of the process. *)
Lemma served_provenance settings h cache :
  0 < jwks_cache_ttl_seconds settings → served settings h cache → provenance settings h cache.
Proof.
  intros Httl. induction 1 as [|h r _ IH]; [by intros url t keys|].
  assert (∃ s, mkRequest (rq_env r) s ∈ (h ++ [r])%list) as Hn
    by (exists (rq_state r); destruct r; set_solver).
  pose proof (@hook_known (rq_env r) settings (h ++ [r]) Hn Httl (rq_state r)) as Hh.
  unfold checked. destruct (require_cloudflare_access_assertion settings (rq_state r)) as [[v|e] s'];
    [apply Hh|apply Hh]; (eapply provenance_more; [|exact IH]; set_solver).
Qed.

(** C11: the staging gate lets nobody in without an assertion of the identity proxy.
    When the gate is configured, whatever requests the process served before, the
    hook lets a request through only as a readiness probe from the machine itself,
    or with a token in three parts that is signed with RS256 by a key of at least
    2048 bits, which the configured host under cloudflareaccess.com listed less
    than the time to live ago; issued by that host for this audience, and within
    its validity when the hook looked at the clock. *)
Theorem gate_needs_an_assertion settings h r verified s' :
  @register_cloudflare_access_guard (rq_env r) = Ok (Some settings) →
  served settings h (jwks_cache (rq_state r)) →
  checked settings r = (Ok verified, s') →
  @scoped (rq_env r) settings
  ∧ if (verified : bool) then @presented (rq_env r) settings (h ++ [r]) (clock s')
    else @_loopback_readiness_request (rq_env r) = true.
Proof.
  intros Hr Hs Hc. apply registered_scoped in Hr as Hsc. split; [done|].
  assert (0 < jwks_cache_ttl_seconds settings) as Httl by (destruct Hsc; lia).
  assert (∃ s, mkRequest (rq_env r) s ∈ (h ++ [r])%list) as Hn
    by (exists (rq_state r); destruct r; set_solver).
  pose proof (@hook_known (rq_env r) settings (h ++ [r]) Hn Httl (rq_state r)) as Hh.
  unfold checked in Hc. rewrite Hc in Hh. apply Hh.
  eapply provenance_more; [|by apply served_provenance]. set_solver.
Qed.
End CloudflareAccess.
