(* ===== verification/AccessTokens.v ===== *)
(** * Tokens the staging gate accepts

    A token the identity proxy builds (JSON header and claims and the signature,
    each in unpadded URL-safe Base64, joined by dots) is accepted, and the gate
    reads back its claims; and an example of a gate that does. *)

From S2P Require Import Prelude PyStr Base64 TimeModel Canonical Schema Json Runtime Turnstile Sample.
From S2P Require Import Passwords CloudflareAccess.
From Stdlib Require Import Ascii.
Open Scope string_scope.
Open Scope Z_scope.

Module AccessTokens.
Import CloudflareAccess Turnstile.

(** ** JSON texts are ASCII *)

Lemma ascii_app a b : is_ascii (a +:+ b) = is_ascii a && is_ascii b.
Proof. unfold is_ascii. rewrite chars_app. apply forallb_app. Qed.
Lemma ascii_join sep ps :
  is_ascii sep = true → Forall (λ p, is_ascii p = true) ps → is_ascii (join sep ps) = true.
Proof.
  intros Hs. induction 1 as [|p ps Hp Hps IH]; [done|]. destruct ps as [|q ps]; [done|].
  change (is_ascii (p +:+ sep +:+ join sep (q :: ps)) = true). by rewrite !ascii_app, Hp, Hs, IH.
Qed.
Lemma ascii_json_string s : is_ascii (json_string s) = true.
Proof.
  unfold json_string, is_ascii. rewrite chars_of_chars. cbn [app forallb]. rewrite forallb_app.
  assert (forallb (λ c, code c <? 128) (json_chars (chars s)) = true) as ->; [|done].
  induction (chars s) as [|c l IH]; [done|]. cbn [json_chars]. rewrite forallb_app, IH, andb_true_r.
  by destruct c as [[] [] [] [] [] [] [] []].
Qed.
Lemma ascii_pretty (z : Z) : is_ascii (pretty z) = true.
Proof.
  unfold is_ascii. apply forallb_forall. intros c Hc%list_elem_of_In.
  destruct (proj1 (Forall_forall _ _) (pretty_Z_chars z) c Hc) as [Hd| ->]; [|done].
  revert Hd. by destruct c as [[] [] [] [] [] [] [] []].
Qed.
Lemma elem_of_sort_kvs (l : list (string * string)) kv : kv ∈ sort_kvs l → kv ∈ l.
Proof.
  assert (∀ x l, kv ∈ insert_kv x l → kv = x ∨ kv ∈ l) as Hi.
  { intros x. induction l0 as [|y l0 IH]; cbn; [set_solver|]. destruct (str_leb _ _); set_solver. }
  induction l as [|x l IH]; cbn; [done|]. intros [->|?]%Hi; set_solver.
Qed.
Lemma ascii_dumps v : is_ascii (json_dumps v) = true.
Proof.
  induction v as [|[]| | |l IH|kvs IH] using jval_nested_ind; try done.
  - apply ascii_pretty.
  - apply ascii_json_string.
  - cbn [json_dumps]. rewrite !ascii_app. apply andb_true_intro. split; [done|].
    apply andb_true_intro. split; [|done]. apply ascii_join; [done|]. by apply Forall_fmap.
  - cbn [json_dumps]. rewrite !ascii_app. apply andb_true_intro. split; [done|].
    apply andb_true_intro. split; [|done]. apply ascii_join; [done|]. apply Forall_fmap, Forall_forall. intros kv Hkv%elem_of_sort_kvs.
    apply list_elem_of_fmap in Hkv as ([k v] & -> & Hin).
    change (is_ascii (json_string k +:+ ":" +:+ json_dumps v) = true). rewrite !ascii_app, ascii_json_string.
    apply andb_true_intro. split; [done|]. apply andb_true_intro. split; [done|].
    by apply (proj1 (Forall_forall _ _) IH (k, v)).
Qed.

(** ** Segments read back *)

Abbreviation unpadded := Passwords._b64encode.

Lemma unpadded_char raw (P : ascii → bool) :
  forallb (λ n, P (b64_char "-" "_" (Z.of_nat n))) (seq 0 64) = true → forallb P (chars (unpadded raw)) = true.
Proof.
  intros HP. unfold unpadded. rewrite chars_of_chars. apply forallb_forall. intros c Hc%list_elem_of_In.
  apply (b64_data_forall P HP). by apply (proj1 (Forall_forall _ _) (urlsafe_unpadded_data raw)).
Qed.
Lemma unpadded_nonempty raw : raw ≠ "" → nonempty (unpadded raw) = true.
Proof.
  intros Hr. unfold nonempty. destruct (bool_decide_reflect (unpadded raw = "")) as [He|]; [|done].
  pose proof (urlsafe_unpadded_roundtrip raw) as E. unfold unpadded in He.
  apply (f_equal chars) in He. rewrite chars_of_chars in He. rewrite He in E. by injection E.
Qed.
Lemma decode_unpadded raw label : raw ≠ "" → _decode_base64url (unpadded raw) label = Ok raw.
Proof.
  intros Hr. unfold _decode_base64url, _BASE64URL_PATTERN. rewrite unpadded_nonempty by done.
  rewrite unpadded_char by (by vm_compute). cbn [andb negb orb]. unfold unpadded.
  by rewrite chars_of_chars, urlsafe_unpadded_roundtrip.
Qed.
Lemma dumps_nonempty v : json_dumps v ≠ "".
Proof. destruct (dumps_head v "") as (c & s & E & _). rewrite str_app_nil_r in E. by rewrite E. Qed.
Lemma decode_segment kvs label : canonical (JObj kvs) = true → distinct_keys (JObj kvs) = true →
  _decode_json_segment (unpadded (json_dumps (JObj kvs))) label = Ok kvs.
Proof.
  intros Hc Hd. unfold _decode_json_segment. rewrite decode_unpadded by apply dumps_nonempty. cbn [rbind].
  unfold json_loads_bytes. by rewrite ascii_dumps, json_loads_dumps.
Qed.

(** The token over a header, claims and a signature. *)
Definition signing_input (header claims : list (string * jval)) : string :=
  unpadded (json_dumps (JObj header)) +:+ "." +:+ unpadded (json_dumps (JObj claims)).
Definition token (header claims : list (string * jval)) (signature : string) : string :=
  signing_input header claims +:+ "." +:+ unpadded signature.

Lemma no_dot raw : "."%char ∉ chars (unpadded raw).
Proof.
  apply not_in_chars. apply (unpadded_char raw (λ d, negb (Ascii.eqb d "."))). by vm_compute.
Qed.
Lemma split_token header claims signature :
  split_on "."%char (chars (token header claims signature))
  = [chars (unpadded (json_dumps (JObj header))); chars (unpadded (json_dumps (JObj claims)));
     chars (unpadded signature)].
Proof.
  unfold token, signing_input. rewrite !str_app_assoc, !chars_app. cbn [chars app].
  by rewrite !split_on_app, split_on_none by apply no_dot.
Qed.
Lemma token_no_space header claims signature :
  existsb is_space (chars (token header claims signature)) = false.
Proof.
  assert (∀ raw, existsb is_space (chars (unpadded raw)) = false) as Hu.
  { intros raw. pose proof (unpadded_char raw (λ c, negb (is_space c)) ltac:(by vm_compute)) as Hf.
    induction (chars (unpadded raw)) as [|c l IH]; [done|]. cbn in *.
    apply andb_prop in Hf as [->%negb_true_iff Hf]. by apply IH. }
  unfold token, signing_input. by rewrite !chars_app, !existsb_app, !Hu.
Qed.

Lemma key_identifier_same v kid : key_identifier v = Some kid → key_identifier (Some (JStr kid)) = Some kid.
Proof. by destruct v as [[| | |s| |]|]; cbn; try done; destruct (_ && _) eqn:E; [intros [= <-]; rewrite E|]. Qed.

Section Acceptance.
Context `{Env} (settings : CloudflareAccessSettings) (s : St).
(** The proxy's keys are in the cache and may still be used. *)
Context (expires : Z) (keys : Keys) (kid : string) (key : Key).
Context (Hcached : jwks_cache s !! jwks_url settings = Some (expires, keys)).
Context (Hcurrent : monotonic (effects s) < expires) (Hkey : assoc kid keys = Some key).

Lemma cached_key : find_key settings kid s = (Ok key, next_effect s).
Proof.
  unfold find_key, _signing_keys, bind, fresh, gets. change (jwks_cache (next_effect s)) with (jwks_cache s).
  rewrite Hcached. cbn [negb andb]. rewrite (proj2 (Z.ltb_lt _ _) Hcurrent). unfold ret. by rewrite Hkey.
Qed.

(** The claims of a token for this deployment, at time [now]. *)
Record proxy_claims (claims : list (string * jval)) (now : Z) : Prop := {
  pc_issuer : obj_get "iss" claims = Some (JStr (issuer settings));
  pc_audience : _audience_matches (obj_get "aud" claims) (audience settings) = true;
  pc_expires : ∃ exp, obj_get "exp" claims = Some (JInt exp) ∧ 0 ≤ exp < 2 ^ 64 ∧ now < exp * US_SECOND;
  pc_begun : obj_get "nbf" claims = None
    ∨ ∃ nbf, obj_get "nbf" claims = Some (JInt nbf) ∧ 0 ≤ nbf < 2 ^ 64 ∧ nbf * US_SECOND ≤ now
}.

Lemma numeric_date_of claims name z :
  obj_get name claims = Some (JInt z) → 0 ≤ z < 2 ^ 64 → _numeric_date claims name = Ok (z * US_SECOND).
Proof.
  intros E Hz. unfold _numeric_date. rewrite E.
  assert (2 ^ 64 < 2 ^ 1024 - 2 ^ 970) by (by vm_compute).
  by rewrite (proj2 (Z.leb_gt _ _)) by (rewrite Z.abs_eq by lia; lia).
Qed.
Lemma claims_check claims now : proxy_claims claims now →
  check_parties settings claims = Ok tt ∧ check_validity claims now = Ok tt.
Proof.
  intros [Hi Ha (exp & He & Hb & Hn) Hbf]. split.
  - unfold check_parties. rewrite Hi, Ha. cbn [is_text]. by rewrite bool_decide_eq_true_2.
  - unfold check_validity. rewrite (numeric_date_of _ _ exp) by done. cbn [rbind].
    rewrite (proj2 (Z.leb_gt _ _)) by done. destruct Hbf as [->|(nbf & Eb & Hr & Hle)]; [done|].
    rewrite Eb, (numeric_date_of _ _ nbf) by done. cbn [rbind]. by rewrite (proj2 (Z.ltb_ge _ _)).
Qed.

Lemma token_verified header claims signature :
  canonical (JObj header) = true → distinct_keys (JObj header) = true →
  canonical (JObj claims) = true → distinct_keys (JObj claims) = true →
  obj_get "alg" header = Some (JStr "RS256") → key_identifier (obj_get "kid" header) = Some kid →
  signature ≠ "" → rsa_verify key signature (signing_input header claims) = true →
  Z.of_nat (slen (token header claims signature)) ≤ _MAX_ASSERTION_LENGTH →
  let now := clock s + Z.of_N (tick (S (effects s))) in
  proxy_claims claims now →
  verify settings (token header claims signature) s
  = (Ok claims, next_effect (set_clock now (next_effect s))).
Proof.
  intros Hch Hdh Hcc Hdc Halg Hkid Hsig Hv Hlen now Hc. unfold verify.
  assert (nonempty (token header claims signature) = true) as ->.
  { unfold token, signing_input. pose proof (unpadded_nonempty _ (dumps_nonempty (JObj header))) as Hne.
    rewrite !str_app_assoc. by destruct (unpadded (json_dumps (JObj header))). }
  rewrite (proj2 (Z.ltb_ge _ _) Hlen), token_no_space. cbn [negb orb]. rewrite split_token, !of_chars_chars.
  unfold verify_segments. rewrite decode_segment by done. unfold bind at 1, lift at 1.
  rewrite Halg, Hkid. cbn [is_text]. rewrite bool_decide_eq_true_2 by done. cbn [negb].
  rewrite (bind_Ok _ _ _ _ _ cached_key). rewrite decode_unpadded by done. unfold bind at 1, lift at 1.
  unfold signing_input in Hv. rewrite Hv. cbn [negb]. rewrite decode_segment by done.
  unfold bind at 1, lift at 1. destruct (claims_check _ _ Hc) as [-> Ht].
  unfold bind at 1, lift at 1. unfold bind, now_utc, lift. cbv beta iota zeta.
  change (clock (next_effect s) + Z.of_N (tick (effects (next_effect s)))) with now. by rewrite Ht.
Qed.
End Acceptance.

(** C30: the staging gate accepts what the identity proxy issues.  Take any header
    and claims with sorted distinct names, signed with RS256 under a key identifier
    whose key the gate holds and may still use, issued by the configured host for
    this audience, not expired and already valid at the gate's clock, and no longer
    than the gate reads: the token built from them passes, and what the gate reads
    out of it is exactly those claims. *)
Theorem proxy_tokens_are_accepted `{Env} settings s expires keys kid key header claims signature :
  jwks_cache s !! jwks_url settings = Some (expires, keys) → monotonic (effects s) < expires →
  assoc kid keys = Some key →
  canonical (JObj header) = true → distinct_keys (JObj header) = true →
  canonical (JObj claims) = true → distinct_keys (JObj claims) = true →
  obj_get "alg" header = Some (JStr "RS256") → key_identifier (obj_get "kid" header) = Some kid →
  signature ≠ "" → rsa_verify key signature (signing_input header claims) = true →
  Z.of_nat (slen (token header claims signature)) ≤ _MAX_ASSERTION_LENGTH →
  proxy_claims settings claims (clock s + Z.of_N (tick (S (effects s)))) →
  (verify settings (token header claims signature) s).1 = Ok claims.
Proof.
  intros. rewrite (token_verified settings s expires keys kid key); done.
Qed.

(** ** A staging gate *)

Definition staging_config (name : string) : option jval :=
  match assoc name
    [("STAGING_CLOUDFLARE_ACCESS_JWT_REQUIRED", JBool true); ("DEPLOYMENT_TARGET", JStr "Staging");
     ("STAGING_CLOUDFLARE_ACCESS_AUD", JStr "audience-0123456789");
     ("STAGING_CLOUDFLARE_ACCESS_TEAM_DOMAIN", JStr "https://Team.cloudflareaccess.com/")] with
  | Some v => Some v
  | None => Sample.sample_config name
  end.
Definition gate_settings : CloudflareAccessSettings :=
  mkSettings true "audience-0123456789" "https://team.cloudflareaccess.com"
    "https://team.cloudflareaccess.com/cdn-cgi/access/certs" 300.
(** The endpoint lists the key (65537, 200) as ["k1"]. *)
Definition gate_jwks : string :=
  json_dumps (JObj [("keys", JList [JObj [("alg", JStr "RS256"); ("e", JStr "AQAB"); ("kid", JStr "k1");
                                          ("kty", JStr "RSA"); ("n", JStr "yA"); ("use", JStr "sig")]])]).
Definition gate_header : list (string * jval) := [("alg", JStr "RS256"); ("kid", JStr "k1")].
Definition gate_claims : list (string * jval) :=
  [("aud", JList [JStr "audience-0123456789"]); ("exp", JInt (Sample.noon / US_SECOND + 60));
   ("iss", JStr "https://team.cloudflareaccess.com"); ("nbf", JInt (Sample.noon / US_SECOND - 60))].
Definition gate_token : string := token gate_header gate_claims "signature".
Definition gate_env : Env :=
  Sample.deployment_of (Sample.mkOutside staging_config (λ k m, k +:+ m)
    (λ n, "token-" +:+ pretty (N.of_nat n)) None (λ _, None) (Some gate_jwks)
    (λ key signature _, bool_decide (key = (65537, 200) ∧ signature = "signature"))
    (λ name, if bool_decide (name = "Cf-Access-Jwt-Assertion") then Some gate_token else None) ["password"] true).
Definition gate_request : Request := mkRequest gate_env Sample.sample_state.

Lemma gate_needs_an_assertion_witness :
  (checked gate_settings gate_request).1 = Ok true
  ∧ @scoped gate_env gate_settings
  ∧ @presented gate_env gate_settings [gate_request] (clock (checked gate_settings gate_request).2).
Proof.
  assert ((checked gate_settings gate_request).1 = Ok true) as Ec by (vm_compute; reflexivity).
  split; [exact Ec|].
  exact (gate_needs_an_assertion gate_settings [] gate_request true (checked gate_settings gate_request).2
    ltac:(vm_compute; reflexivity) (served_none gate_settings)
    (eq_trans (surjective_pairing _) (f_equal (λ x, (x, (checked gate_settings gate_request).2)) Ec))).
Defined.

Definition warm_state : St :=
  set_jwks_cache {[ jwks_url gate_settings := (1000000, [("k1", (65537, 200))]) ]} Sample.sample_state.
Lemma proxy_tokens_are_accepted_witness :
  (@verify gate_env gate_settings gate_token warm_state).1 = Ok gate_claims.
Proof.
  apply (@proxy_tokens_are_accepted gate_env gate_settings warm_state 1000000 [("k1", (65537, 200))] "k1"
    (65537, 200) gate_header gate_claims "signature"); try (vm_compute; reflexivity); [done|..].
  - vm_compute. discriminate.
  - split; [vm_compute; reflexivity|vm_compute; reflexivity| |right].
    + exists (Sample.noon / US_SECOND + 60). split_and!; vm_compute; (reflexivity || discriminate).
    + exists (Sample.noon / US_SECOND - 60). split_and!; vm_compute; (reflexivity || discriminate).
Defined.
End AccessTokens.
