(* ===== verification/Alerts.v ===== *)
(** * Security alerts: detection ([app/security/alerts.py])

    An alert is a dict, here a JSON object.  [evaluate_security_alerts] reads the
    audit events of the last fifteen minutes and turns them into alerts: some
    events alert at once, others when one source causes many of them within a
    window.  A [Counter] is an association list in insertion order. *)

From S2P Require Import Prelude PyStr TimeModel Schema Runtime Sample AuditLog.
From Stdlib Require Import Ascii.
Open Scope string_scope.
Open Scope Z_scope.

Module Alerts.
Import Sensitive Audit.

Definition IMMEDIATE_ALERT_EVENT_TYPES : list (string * string) :=
  [("security_audit_write_failed", "security_audit_write_failed");
   ("account_lock", "account_lock");
   ("audit_chain_verification_failed", "audit_chain_verification_failed");
   ("audit_anchor_mismatch", "audit_anchor_mismatch");
   ("audit_append_only_protection_failed", "audit_append_only_protection_failed");
   ("runtime_db_privilege_verification_failed", "runtime_db_privilege_verification_failed");
   ("password_reset_token_reused", "password_reset_token_reused");
   ("manual_recovery_requested", "manual_recovery_requested");
   ("account_freeze", "account_freeze")].
Definition TRANSACTION_EVENT_TYPES : list string :=
  ["banking_outbound_transfer"; "banking_scheduled_transfer_execution";
   "banking_transaction_authorization"].
Definition PASSWORD_RESET_EVENT_TYPES : list string :=
  ["password_reset_requested"; "password_reset_failed"; "password_reset_mfa_failed";
   "password_reset_token_reused"; "manual_recovery_requested"].
Definition ALERT_SEVERITY_RANK : list (string * Z) :=
  [("low", 10); ("medium", 20); ("high", 30); ("critical", 40)].

Notation alert := (list (string * jval)).

(** ** Text *)

Definition credential_prefix (lowered : string) : bool :=
  existsb (λ p, startswith p lowered) ["bearer "; "basic "; "token "].

Definition _safe_text (value : option jval) (limit : nat) : string :=
  match value with
  | None | Some JNull => ""
  | Some v =>
      let compact := _clean_audit_text (py_text v) limit in
      if credential_prefix (casefold compact) then REDACTED_VALUE else compact
  end.
Notation safe_str text limit := (_safe_text (Some (JStr text)) limit).

Definition _safe_ref (value : option jval) : option string :=
  let text := _safe_text value 64 in
  if nonempty text
     && forallb (λ c, is_alnum c || str_in (String c "") ["-"; "_"; ":"]) (chars text)
  then Some text else None.

Definition _safe_secret_text (value : string) : option string :=
  let text := strip value in if nonempty text then Some text else None.

(** [value or default] for a text that may be missing. *)
Definition or_else (o : option string) (d : string) : string :=
  match o with Some t => if nonempty t then t else d | None => d end.
Definition text_or (t d : string) : string := if nonempty t then t else d.

(** ** Alerts *)

Definition extra_value (v : jval) : jval :=
  match v with JInt z => JInt z | _ => JStr (_safe_text (Some v) 120) end.

Definition _alert (alert_type : string) (current_time : Z) (severity : string)
    (count window_seconds : Z) (source : string) (extra : list (string * jval)) : alert :=
  foldl (λ acc kv,
      match kv.2 with
      | JNull => acc
      | v => obj_set (safe_str kv.1 48) (extra_value v) acc
      end)
    [("alert_type", JStr (safe_str alert_type 80));
     ("severity", JStr (safe_str severity 24));
     ("count", JInt count);
     ("window_seconds", JInt window_seconds);
     ("source", JStr (safe_str source 160));
     ("generated_at", JStr (_utc_iso current_time))] extra.

Definition _event_source (event : SecurityAuditEvent) : string :=
  match _safe_ref (obj_get "principal_ref" (ev_event_metadata event)) with
  | Some principal_ref => "principal_ref:" +:+ principal_ref
  | None =>
      match _safe_ref (JStr <$> ev_session_ref event) with
      | Some session_ref => "session_ref:" +:+ session_ref
      | None => if nonempty (ev_ip_address event)
                then "ip:" +:+ safe_str (ev_ip_address event) 64 else "unknown"
      end
  end.

(** ** Counters *)

Fixpoint bump (k : string) (counts : list (string * Z)) : list (string * Z) :=
  match counts with
  | [] => [(k, 1)]
  | (k', n) :: rest => if bool_decide (k = k') then (k', n + 1) :: rest else (k', n) :: bump k rest
  end.

(** One pass over the events: [key] tells what an event counts towards. *)
Definition tally (key : SecurityAuditEvent → option string) (events : list SecurityAuditEvent)
    : list (string * Z) :=
  foldl (λ counts e, match key e with Some k => bump k counts | None => counts end) [] events.

(** An alert for every count that reaches the threshold. *)
Definition bursts (alert_type : string) (current_time : Z) (severity : string) (threshold window : Z)
    (source_of : string → string) (counts : list (string * Z)) : list alert :=
  omap (λ kn : string * Z, if threshold <=? kn.2
        then Some (_alert alert_type current_time severity kn.2 window (source_of kn.1) []) else None)
    counts.

(** ** The detectors *)

Definition MINUTE : Z := 60 * US_SECOND.

Definition immediate_alert_type (event : SecurityAuditEvent) : option string :=
  match assoc (ev_event_type event) IMMEDIATE_ALERT_EVENT_TYPES with
  | Some t => Some t
  | None => if bool_decide (ev_event_type event = "session_integrity")
               && bool_decide (ev_outcome event = "failure")
            then Some "session_integrity_failure" else None
  end.

Definition _add_immediate_alerts (alerts : list alert) (events : list SecurityAuditEvent)
    (current_time : Z) : list alert :=
  (alerts ++ omap (λ event, match immediate_alert_type event with
     | Some alert_type => Some (_alert alert_type current_time "critical" 1 (15 * 60)
         (_event_source event)
         [("event_id", JInt (ev_id event)); ("event_type", JStr (ev_event_type event));
          ("outcome", JStr (ev_outcome event))])
     | None => None
     end) events)%list.

Definition _is_recent_login_failure (event : SecurityAuditEvent) (window_start : Z) : bool :=
  (window_start <=? ev_created_at event) && bool_decide (ev_event_type event = "login")
  && bool_decide (ev_outcome event = "failure").

Definition principal_key (window_start : Z) (event : SecurityAuditEvent) : option string :=
  if _is_recent_login_failure event window_start
  then _safe_ref (obj_get "principal_ref" (ev_event_metadata event)) else None.
Definition ip_key (window_start : Z) (event : SecurityAuditEvent) : option string :=
  if _is_recent_login_failure event window_start && nonempty (ev_ip_address event)
  then Some (safe_str (ev_ip_address event) 64) else None.

Definition _append_login_failure_bursts (alerts : list alert) (counts : list (string * Z))
    (source_prefix : string) (current_time : Z) : list alert :=
  (alerts ++ bursts "login_failure_burst" current_time "high" 10 (5 * 60)
               (λ source, source_prefix +:+ ":" +:+ source) counts)%list.

Definition _add_login_failure_alerts (alerts : list alert) (events : list SecurityAuditEvent)
    (current_time : Z) : list alert :=
  let window_start := current_time - 5 * MINUTE in
  let by_principal := tally (principal_key window_start) events in
  let by_ip := tally (ip_key window_start) events in
  _append_login_failure_bursts
    (_append_login_failure_bursts alerts by_principal "principal_ref" current_time)
    by_ip "ip" current_time.

Definition backoff_key (window_start : Z) (event : SecurityAuditEvent) : option string :=
  if ev_created_at event <? window_start then None
  else if str_in (ev_event_type event) ["auth_backoff"; "rate_limit"]
  then Some (_event_source event) else None.

Definition _add_auth_backoff_alerts (alerts : list alert) (events : list SecurityAuditEvent)
    (current_time : Z) : list alert :=
  (alerts ++ bursts "auth_backoff_or_rate_limit_burst" current_time "high" 5 (10 * 60) id
               (tally (backoff_key (current_time - 10 * MINUTE)) events))%list.

Definition reset_event (window_start : Z) (event : SecurityAuditEvent) : bool :=
  negb (ev_created_at event <? window_start)
  && str_in (ev_event_type event) PASSWORD_RESET_EVENT_TYPES.
Definition reset_request_key (window_start : Z) (event : SecurityAuditEvent) : option string :=
  if reset_event window_start event
     && str_in (ev_event_type event) ["password_reset_requested"; "manual_recovery_requested"]
  then Some (_event_source event) else None.
Definition reset_failure_key (window_start : Z) (event : SecurityAuditEvent) : option string :=
  if reset_event window_start event && str_in (ev_outcome event) ["failure"; "blocked"; "expired"]
  then Some (_event_source event) else None.

Definition _add_password_reset_alerts (alerts : list alert) (events : list SecurityAuditEvent)
    (current_time : Z) : list alert :=
  let window_start := current_time - 10 * MINUTE in
  (alerts
   ++ bursts "password_reset_request_burst" current_time "high" 5 (10 * 60) id
        (tally (reset_request_key window_start) events)
   ++ bursts "password_reset_failure_burst" current_time "high" 3 (10 * 60) id
        (tally (reset_failure_key window_start) events))%list.

Definition _is_transaction_failure (event : SecurityAuditEvent) : bool :=
  str_in (ev_event_type event) TRANSACTION_EVENT_TYPES
  && str_in (ev_outcome event) ["failure"; "blocked"; "denied"; "expired"].

Definition first_ref (metadata : list (string * jval)) (names : list string) : option string :=
  head (omap (λ name, _safe_ref (obj_get name metadata)) names).

Definition _transaction_group (event : SecurityAuditEvent) : string :=
  let transaction_ref :=
    match first_ref (ev_event_metadata event)
            ["transaction_ref"; "idempotency_key_ref"; "payee_account_ref"] with
    | Some r => r
    | None => "missing_ref"
    end in
  let user_ref := match ev_user_id event with
                  | Some u => "user:" +:+ pretty u
                  | None => "user:unknown"
                  end in
  safe_str (user_ref +:+ ":transaction_ref:" +:+ transaction_ref) 160.

Definition recent_transaction_failure (window_start : Z) (event : SecurityAuditEvent) : bool :=
  negb (ev_created_at event <? window_start) && _is_transaction_failure event.
Definition transaction_key (window_start : Z) (event : SecurityAuditEvent) : option string :=
  if recent_transaction_failure window_start event then Some (_transaction_group event) else None.

Definition _add_transaction_failure_alerts (alerts : list alert) (events : list SecurityAuditEvent)
    (current_time : Z) : list alert :=
  let window_start := current_time - 15 * MINUTE in
  let global_count := Z.of_nat (length (List.filter (recent_transaction_failure window_start) events)) in
  (alerts
   ++ bursts "transaction_failure_burst" current_time "high" 3 (15 * 60) id
        (tally (transaction_key window_start) events)
   ++ (if 10 <=? global_count
       then [_alert "transaction_failure_global_burst" current_time "critical" global_count
               (15 * 60) "global" []]
       else []))%list.

(** [(item["alert_type"], str(item.get("source", "")))], compared as tuples. *)
Definition alert_key (a : alert) : string * string :=
  (match obj_get "alert_type" a with Some v => py_text v | None => "" end,
   match obj_get "source" a with Some v => py_text v | None => "" end).
Definition alert_before (x y : alert) : bool :=
  let '(t, s) := alert_key x in
  let '(t', s') := alert_key y in
  if bool_decide (t = t') then str_leb s s' else str_leb t t'.
Definition sort_alerts (l : list alert) : list alert := sort_by alert_before l.

Definition _recent_events (since : Z) (d : Db) : list SecurityAuditEvent :=
  List.filter (λ e, since <=? ev_created_at e) (security_audit_events d).

(** What the events say at [current_time]. *)
Definition alerts_of (events : list SecurityAuditEvent) (current_time : Z) : list alert :=
  let alerts := _add_immediate_alerts [] events current_time in
  let alerts := _add_login_failure_alerts alerts events current_time in
  let alerts := _add_auth_backoff_alerts alerts events current_time in
  let alerts := _add_password_reset_alerts alerts events current_time in
  let alerts := _add_transaction_failure_alerts alerts events current_time in
  sort_alerts alerts.

Definition evaluate_security_alerts `{Env} (now : option Z) : M St (list alert) :=
  current_time <- match now with Some t => ret t | None => now_utc end ;;
  events <- db_get (_recent_events (current_time - 15 * MINUTE)) ;;
  ret (alerts_of events current_time).

Definition severity_rank (a : alert) : Z :=
  default 0 (assoc (casefold (match obj_get "severity" a with
                              | Some v => py_text v
                              | None => "low"
                              end)) ALERT_SEVERITY_RANK).

Definition _filter_alerts_by_min_severity (alerts : list alert) (min_severity : string)
    : res (list alert) :=
  match assoc min_severity ALERT_SEVERITY_RANK with
  | None => Raise (KeyError min_severity)
  | Some minimum => Ok (List.filter (λ a, minimum <=? severity_rank a) alerts)
  end.

(** ** Counting *)

(** How many of the events count towards [k]. *)
Definition occurrences (key : SecurityAuditEvent → option string) (k : string)
    (events : list SecurityAuditEvent) : Z :=
  Z.of_nat (length (List.filter (λ e, bool_decide (key e = Some k)) events)).

Lemma occurrences_snoc key k events e :
  occurrences key k (events ++ [e])
  = occurrences key k events + (if bool_decide (key e = Some k) then 1 else 0).
Proof.
  unfold occurrences. rewrite List.filter_app, length_app. simpl.
  case_bool_decide; simpl; lia.
Qed.

Lemma assoc_bump j k counts :
  assoc j (bump k counts)
  = if bool_decide (j = k) then Some (default 0 (assoc k counts) + 1) else assoc j counts.
Proof.
  induction counts as [|[i m] counts IH]; simpl; [by repeat case_bool_decide|].
  destruct (decide (k = i)) as [->|Hk].
  - rewrite (bool_decide_eq_true_2 (i = i)) by done. simpl. by case_bool_decide.
  - rewrite (bool_decide_eq_false_2 (k = i)) by done. simpl. rewrite IH.
    repeat case_bool_decide; congruence.
Qed.

Lemma bump_elem j k counts : j ∈ (bump k counts).*1 → j = k ∨ j ∈ counts.*1.
Proof.
  induction counts as [|[i m] counts IH]; simpl; [set_solver|].
  case_bool_decide; simpl; rewrite !elem_of_cons; [tauto|]. intros [?|?%IH]; tauto.
Qed.

Lemma bump_keys k counts : NoDup counts.*1 → NoDup (bump k counts).*1.
Proof.
  induction counts as [|[i m] counts IH]; simpl; intros Hnd; [apply NoDup_singleton|].
  case_bool_decide as Hi; [done|]. simpl. apply NoDup_cons in Hnd as [Hn Hnd].
  apply NoDup_cons. split; [|by apply IH]. by intros [->|?]%bump_elem.
Qed.

Lemma assoc_elem (counts : list (string * Z)) k n :
  NoDup counts.*1 → (k, n) ∈ counts ↔ assoc k counts = Some n.
Proof.
  induction counts as [|[i m] counts IH]; simpl; intros Hnd; [split; [by intros ?%not_elem_of_nil|done]|].
  apply NoDup_cons in Hnd as [Hi Hnd]. rewrite elem_of_cons, (IH Hnd).
  case_bool_decide as Hk.
  - subst i. split; [intros [[= ->]|E]; [done|]|intros [= ->]; by left].
    exfalso. apply Hi. apply list_elem_of_fmap. exists (k, n). by rewrite (IH Hnd).
  - split; [intros [[= ? ?]|?]; [congruence|done]|by right].
Qed.

Lemma tally_assoc key events :
  NoDup (tally key events).*1 ∧
  ∀ k, assoc k (tally key events)
    = if bool_decide (occurrences key k events = 0) then None else Some (occurrences key k events).
Proof.
  induction events as [|e events [IHn IHs]] using rev_ind; [by split; [constructor|]|].
  unfold tally in *. rewrite foldl_app. simpl.
  set (c := foldl _ [] events) in *. clearbody c.
  destruct (key e) as [i|] eqn:Ek.
  2:{ split; [done|]. intros k. rewrite IHs, occurrences_snoc, Ek. simpl. by rewrite Z.add_0_r. }
  split; [by apply bump_keys|]. intros k. rewrite assoc_bump, !IHs, occurrences_snoc, Ek.
  assert (0 ≤ occurrences key k events) by (unfold occurrences; lia).
  repeat case_bool_decide; simplify_eq/=; rewrite ?Z.add_0_r in *; done || (f_equal; lia) || lia.
Qed.

Lemma tally_spec key events k n :
  (k, n) ∈ tally key events ↔ n = occurrences key k events ∧ 1 ≤ n.
Proof.
  destruct (tally_assoc key events) as [Hn Ha]. rewrite assoc_elem by done. rewrite Ha.
  assert (0 ≤ occurrences key k events) by (unfold occurrences; lia).
  case_bool_decide; split; [done|lia|intros [= <-]; lia|intros [-> _]; done].
Qed.

Lemma bursts_spec ty t sev threshold window f key events a :
  1 ≤ threshold →
  a ∈ bursts ty t sev threshold window f (tally key events) ↔
  ∃ k, threshold ≤ occurrences key k events
       ∧ a = _alert ty t sev (occurrences key k events) window (f k) [].
Proof.
  intros Ht. unfold bursts. rewrite list_elem_of_omap. split.
  - intros ([k n] & Hin & Ha). apply tally_spec in Hin as [-> _]. simpl in Ha.
    destruct (Z.leb_spec threshold (occurrences key k events)); [|done]. exists k. by simplify_eq.
  - intros (k & Hk & ->). exists (k, occurrences key k events). split.
    + apply tally_spec. split; [done|lia].
    + simpl. by rewrite (proj2 (Z.leb_le _ _) Hk).
Qed.

(** ** What warrants an alert *)

(** The kinds of burst: what is counted, from how many on, within how long. *)
Inductive Burst : Type :=
  | LoginByPrincipal | LoginByAddress | Backoff | ResetRequests | ResetFailures | Transactions.

Definition burst_type (b : Burst) : string :=
  match b with
  | LoginByPrincipal | LoginByAddress => "login_failure_burst"
  | Backoff => "auth_backoff_or_rate_limit_burst"
  | ResetRequests => "password_reset_request_burst"
  | ResetFailures => "password_reset_failure_burst"
  | Transactions => "transaction_failure_burst"
  end.
Definition burst_threshold (b : Burst) : Z :=
  match b with
  | LoginByPrincipal | LoginByAddress => 10
  | Backoff | ResetRequests => 5
  | ResetFailures | Transactions => 3
  end.
Definition burst_minutes (b : Burst) : Z :=
  match b with
  | LoginByPrincipal | LoginByAddress => 5
  | Backoff | ResetRequests | ResetFailures => 10
  | Transactions => 15
  end.
(** The source an event within the window counts towards. *)
Definition burst_key (b : Burst) (since : Z) : SecurityAuditEvent → option string :=
  match b with
  | LoginByPrincipal => principal_key since
  | LoginByAddress => ip_key since
  | Backoff => backoff_key since
  | ResetRequests => reset_request_key since
  | ResetFailures => reset_failure_key since
  | Transactions => transaction_key since
  end.
Definition burst_source (b : Burst) (k : string) : string :=
  match b with
  | LoginByPrincipal => "principal_ref:" +:+ k
  | LoginByAddress => "ip:" +:+ k
  | _ => k
  end.

(** The alerts a log warrants at [t]. *)
Inductive warranted (log : list SecurityAuditEvent) (t : Z) : alert → Prop :=
  | warranted_event e ty :
      e ∈ log → t - 15 * MINUTE ≤ ev_created_at e → immediate_alert_type e = Some ty →
      warranted log t (_alert ty t "critical" 1 (15 * 60) (_event_source e)
        [("event_id", JInt (ev_id e)); ("event_type", JStr (ev_event_type e));
         ("outcome", JStr (ev_outcome e))])
  | warranted_burst b k :
      let n := occurrences (burst_key b (t - burst_minutes b * MINUTE)) k log in
      burst_threshold b ≤ n →
      warranted log t (_alert (burst_type b) t "high" n (burst_minutes b * 60) (burst_source b k) [])
  | warranted_global :
      let n := Z.of_nat (length (List.filter (recent_transaction_failure (t - 15 * MINUTE)) log)) in
      10 ≤ n →
      warranted log t (_alert "transaction_failure_global_burst" t "critical" n (15 * 60) "global" []).

Lemma burst_key_recent b since e k : burst_key b since e = Some k → since ≤ ev_created_at e.
Proof.
  destruct b; simpl; unfold principal_key, ip_key, _is_recent_login_failure, backoff_key,
    reset_request_key, reset_failure_key, reset_event, transaction_key, recent_transaction_failure;
    repeat case_match; try done; intros _;
    rewrite ?andb_true_iff, ?negb_true_iff, ?Z.ltb_ge, ?Z.leb_le in *; lia || tauto.
Qed.

Lemma filter_recent (P : SecurityAuditEvent → bool) since log d :
  security_audit_events d = log → (∀ e, P e = true → since ≤ ev_created_at e) →
  List.filter P (_recent_events since d) = List.filter P log.
Proof.
  intros <- HP. unfold _recent_events. induction (security_audit_events d) as [|e l IH]; [done|].
  simpl. destruct (Z.leb_spec since (ev_created_at e)); simpl; rewrite IH; [done|].
  destruct (P e) eqn:E; [|done]. apply HP in E. lia.
Qed.

(** The detectors, in the order the alerts are collected. *)
Lemma alerts_of_spec events t a :
  a ∈ alerts_of events t ↔
  (∃ e ty, e ∈ events ∧ immediate_alert_type e = Some ty
     ∧ a = _alert ty t "critical" 1 (15 * 60) (_event_source e)
        [("event_id", JInt (ev_id e)); ("event_type", JStr (ev_event_type e));
         ("outcome", JStr (ev_outcome e))])
  ∨ (∃ b k, let n := occurrences (burst_key b (t - burst_minutes b * MINUTE)) k events in
       burst_threshold b ≤ n
       ∧ a = _alert (burst_type b) t "high" n (burst_minutes b * 60) (burst_source b k) [])
  ∨ (let n := Z.of_nat (length (List.filter (recent_transaction_failure (t - 15 * MINUTE)) events)) in
     10 ≤ n ∧ a = _alert "transaction_failure_global_burst" t "critical" n (15 * 60) "global" []).
Proof.
  unfold alerts_of, sort_alerts. rewrite sort_by_perm.
  unfold _add_transaction_failure_alerts, _add_password_reset_alerts, _add_auth_backoff_alerts,
    _add_login_failure_alerts, _append_login_failure_bursts, _add_immediate_alerts.
  rewrite app_nil_l, !elem_of_app, !bursts_spec by lia. rewrite list_elem_of_omap.
  set (n := Z.of_nat _).
  assert (a ∈ (if 10 <=? n then [_alert "transaction_failure_global_burst" t "critical" n (15 * 60)
      "global" []] else []) ↔ 10 ≤ n ∧ a = _alert "transaction_failure_global_burst" t "critical" n
        (15 * 60) "global" []) as ->.
  { destruct (Z.leb_spec 10 n); rewrite ?list_elem_of_singleton; [tauto|].
    split; [by intros ?%not_elem_of_nil|lia]. }
  split.
  - intros [[[[[(e & He & Hty)|H]|H]|H]|[H|H]]|[H|H]];
      [left|right; left|right; left|right; left|right; left|right; left|right; left|by right; right].
    + destruct (immediate_alert_type e) as [ty|] eqn:Et; [|done]. injection Hty as <-. eauto.
    + by exists LoginByPrincipal.
    + by exists LoginByAddress.
    + by exists Backoff.
    + by exists ResetRequests.
    + by exists ResetFailures.
    + by exists Transactions.
  - intros [(e & ty & He & Hty & ->)|[([] & H)|H]]; try tauto.
    do 5 left. exists e. by rewrite Hty.
Qed.

(** C15: detection is exact.  Whatever the audit log holds, the evaluation at [t]
    reports an alert if and only if the log warrants it: an event of an alerting
    kind within fifteen minutes, a source that reached the threshold of a burst
    within that burst's window, or ten failed transactions overall, each with the
    exact count; it changes nothing. *)
Theorem alerts_are_exact `{Env} t s :
  ∃ alerts, evaluate_security_alerts (Some t) s = (Ok alerts, s) ∧
    ∀ a, a ∈ alerts ↔ warranted (security_audit_events (working s)) t a.
Proof.
  eexists. split; [reflexivity|]. intros a. rewrite alerts_of_spec.
  set (log := security_audit_events (working s)).
  assert (∀ b k, occurrences (burst_key b (t - burst_minutes b * MINUTE)) k
      (_recent_events (t - 15 * MINUTE) (working s))
    = occurrences (burst_key b (t - burst_minutes b * MINUTE)) k log) as Hocc.
  { intros b k. unfold occurrences. rewrite (filter_recent _ _ log) by
      (done || (intros e He%bool_decide_eq_true%burst_key_recent; destruct b; simpl in He; unfold MINUTE, US_SECOND in *; lia)).
    done. }
  rewrite (filter_recent _ _ log); [|done|].
  2:{ intros e. unfold recent_transaction_failure. rewrite andb_true_iff, negb_true_iff, Z.ltb_ge. tauto. }
  split.
  - intros [(e & ty & He & Hty & ->)|[(b & k & Hn & ->)|[Hn ->]]].
    + apply list_elem_of_In, filter_In in He as [He Hr%Z.leb_le].
      eapply warranted_event; [by apply list_elem_of_In|done|done].
    + rewrite Hocc in *. by apply warranted_burst.
    + by apply warranted_global.
  - intros [e ty He Hr Hty|b k n Hn|n Hn].
    + left. exists e, ty. split; [|done]. apply list_elem_of_In, filter_In.
      split; [by apply list_elem_of_In|by apply Z.leb_le].
    + right; left. exists b, k. by rewrite Hocc.
    + by right; right.
Qed.
End Alerts.
