(* ===== verification/AlertDelivery.v ===== *)
(** * Security alerts: delivery, deduplication and database integrity
    ([app/security/alerts.py])

    The webhook body is built from sanitised alerts; [security_alert_dedupe]
    suppresses repeats; the alert state file keeps the row counts the audit and
    user tables had, and a table that shrinks raises an alert.  Dicts are JSON
    objects, [Path]s are their texts, [float]s are decimals (binary rounding
    aside).  The functions are modelled as the application calls them, with its
    configuration and without an [environ] argument. *)

From S2P Require Import Prelude PyStr PyDecimal TimeModel Schema Json Runtime Sample Turnstile.
From S2P Require Import Integrity AuditLog AuditChain Notifications Alerts.
From Stdlib Require Import Ascii.
Open Scope string_scope.
Open Scope Z_scope.

Module AlertDelivery.
Import SessionHmac Sensitive Audit AuditChain Notifications Turnstile Alerts.
Notation alert := (list (string * jval)).

Definition DISCORD_EMBED_FIELD_LIMIT : nat := 10.
Definition DISCORD_DISPLAY_TIMEZONE : Z := 8 * 3600 * US_SECOND.
Definition DISCORD_DISPLAY_TIMEZONE_LABEL : string := "UTC+8".
Definition DATABASE_INTEGRITY_STATE_VERSION : Z := 1.
Definition DATABASE_INTEGRITY_TABLES : list string := ["security_audit_events"; "users"].
Definition DELIVERY_SAFE_KEYS : list string :=
  ["alert_type"; "anchor_error_count"; "correlation_id"; "count"; "display_timestamp";
   "event_count"; "event_id"; "event_type"; "generated_at"; "latest_event_id"; "message"; "outcome";
   "public_session_ref"; "safe_user_id"; "safe_user_identifier"; "session_ref"; "severity"; "source";
   "summary"; "table"; "timestamp"; "user_id"; "user_ref"; "window_seconds"; "current_count";
   "current_max_id"; "previous_count"; "previous_max_id"].
Definition DELIVERY_SENSITIVE_KEY_PARTS : list string :=
  ["access_token"; "api_key"; "apikey"; "assertion"; "authenticator_data"; "authorization"; "bearer";
   "challenge"; "client_data"; "cookie"; "credential"; "csrf"; "database_url"; "hmac"; "kek";
   "mfa_secret"; "passwd"; "password"; "postgres_url"; "postgresql_url"; "private_key"; "redis_url";
   "refresh_token"; "recovery_code"; "secret"; "session"; "session_id"; "sid"; "signature";
   "smtp_password"; "smtp_url"; "smtp_username"; "set_cookie"; "set-cookie"; "token"; "totp";
   "webhook"].

(** ** Sanitising *)

Definition hyphens_to_underscores (s : string) : string :=
  of_chars ((λ c, if bool_decide (c = "-"%char) then "_"%char else c) <$> chars s).

Definition _is_sensitive_delivery_key (key_lower : string) : bool :=
  let normalized := hyphens_to_underscores key_lower in
  if str_in normalized DELIVERY_SAFE_KEYS then false
  else existsb (λ part, str_contains part normalized) DELIVERY_SENSITIVE_KEY_PARTS.

(** [DELIVERY_PRIVATE_KEY_RE.search(text)]. *)
Definition private_key_marker (lowered : string) : bool :=
  existsb (λ p, str_contains p lowered)
    ["begin private key"; "begin rsa private key"; "begin ec private key";
     "begin openssh private key"].

(** [UUID_TEXT_RE.fullmatch]. *)
Definition uuid_text (text : string) : bool :=
  match split_on "-"%char (chars text) with
  | [a; b; c; d; e] =>
      bool_decide (((λ l : list ascii, length l) <$> [a; b; c; d; e]) = [8; 4; 4; 4; 12]%nat)
      && forallb (forallb (λ ch, is_digit ch || is_hex_char (lower_char ch))) [a; b; c; d; e]
  | _ => false
  end.

(** [DELIVERY_LONG_TOKEN_RE.fullmatch]. *)
Definition delivery_long_token (text : string) : bool :=
  let l := chars text in
  (40 <=? length l)%nat && forallb token_char l
  && existsb (λ c, is_upper c || is_lower c) l && existsb is_digit l.

Definition _looks_like_sensitive_delivery_value (text : string) : bool :=
  let lowered := casefold text in
  if negb (nonempty text) then false
  else if bool_decide (lowered = REDACTED_VALUE) then true
  else if credential_prefix lowered then true
  else if private_key_marker lowered then true
  else if uuid_text (strip text) then false
  else delivery_long_token (strip text).

Definition sanitize_delivery_text (raw_text : string) : jval :=
  if contains_sensitive_url raw_text then JStr REDACTED_VALUE
  else
    let text := safe_str raw_text 512 in
    if _looks_like_sensitive_delivery_value text then JStr REDACTED_VALUE else JStr text.

Definition delivery_key (key : string) : string := text_or (safe_str key 80) "field".

Fixpoint _sanitize_delivery_value (value : jval) (key_lower : string) (depth : nat) : jval :=
  match value with
  | JNull | JBool _ | JInt _ => value
  | JStr s => sanitize_delivery_text s
  | JObj kvs =>
      if (depth <? 4)%nat then
        JObj (foldl (λ acc kv, obj_set kv.1 kv.2 acc) []
          (firstn 25 ((λ kv,
             let nested_key_text := delivery_key kv.1 in
             let nested_key_lower := casefold nested_key_text in
             (nested_key_text,
              if _is_sensitive_delivery_key nested_key_lower then JStr REDACTED_VALUE
              else _sanitize_delivery_value kv.2 nested_key_lower (S depth))) <$> kvs)))
      else sanitize_delivery_text (py_text value)
  | JList l =>
      if (depth <? 4)%nat then
        JList (firstn 25 ((λ item, _sanitize_delivery_value item key_lower (S depth)) <$> l))
      else sanitize_delivery_text (py_text value)
  end.

Definition _sanitize_alert_for_delivery (a : alert) : alert :=
  foldl (λ acc kv,
    let key_text := delivery_key kv.1 in
    let key_lower := casefold key_text in
    obj_set key_text
      (if _is_sensitive_delivery_key key_lower then JStr REDACTED_VALUE
       else _sanitize_delivery_value kv.2 key_lower 0) acc) [] a.

(** ** The webhook body *)

(** [int(value or 0)], [TypeError] and [ValueError] giving 0. *)
Definition _state_int (value : option jval) : Z :=
  match value with
  | Some v => if truthy v then match py_int (Some v) with Ok z => z | Raise _ => 0 end else 0
  | None => 0
  end.
Definition _state_optional_int (value : option jval) : option Z :=
  match value with
  | None | Some JNull => None
  | Some v => match py_int (Some v) with Ok z => Some z | Raise _ => None end
  end.

Definition _format_window_seconds (value : option jval) : string :=
  let seconds := _state_int value in
  if seconds <=? 0 then "immediate"
  else if seconds mod 60 =? 0 then pretty (seconds / 60) +:+ " minute(s)"
  else pretty seconds +:+ " second(s)".

Definition _discord_embed_color (alerts : list alert) : Z :=
  let highest := foldr Z.max 0 (severity_rank <$> alerts) in
  if 40 <=? highest then 0xD92D20
  else if 30 <=? highest then 0xDC6803
  else if 20 <=? highest then 0xF79009
  else 0x1570EF.

Definition _discord_alert_field (a : alert) : jval :=
  let severity := text_or (upper (_safe_text (obj_get "severity" a) 24)) "UNKNOWN" in
  let alert_type := text_or (_safe_text (obj_get "alert_type" a) 80) "security_alert" in
  let source := text_or (_safe_text (obj_get "source" a) 160) "unknown" in
  let count := text_or (_safe_text (obj_get "count" a) 12) "1" in
  let window := _format_window_seconds (obj_get "window_seconds" a) in
  JObj [("name", JStr (str_take 256 (severity +:+ " | " +:+ alert_type)));
        ("value", JStr (str_take 1024 ("Source: " +:+ source +:+ newline +:+ "Count: " +:+ count
                                         +:+ newline +:+ "Window: " +:+ window)));
        ("inline", JBool false)].

Section Delivery.
Context `{Env}.

(** [value.replace("Z", "+00:00")]. *)
Definition plus_utc (value : string) : string :=
  of_chars (mjoin ((λ c, if bool_decide (c = "Z"%char) then chars "+00:00" else [c]) <$> chars value)).
Definition _parse_utc_iso (value : string) : res Z :=
  match datetime_fromisoformat (plus_utc value) with
  | Some t => Ok t
  | None => Raise (ValueError "Invalid isoformat string")
  end.

Definition _discord_alert_summary (alerts : list alert) (generated_at : string) : res string :=
  rbind (_parse_utc_iso generated_at) (λ t,
    let wall := t + DISCORD_DISPLAY_TIMEZONE in
    Ok (pretty (Z.of_nat (length alerts)) +:+ " active alert(s)." +:+ newline
        +:+ "Date: " +:+ iso_date wall +:+ newline
        +:+ "Time: " +:+ pad 2 (hour_of wall) +:+ ":" +:+ pad 2 (minute_of wall) +:+ ":"
        +:+ pad 2 (second_of wall) +:+ "." +:+ pad 6 (micro_of wall) +:+ newline
        +:+ "Timezone: " +:+ DISCORD_DISPLAY_TIMEZONE_LABEL)).

Definition _discord_alert_payload (alerts : list alert) (generated_at : string) : res jval :=
  let displayed_alerts := firstn DISCORD_EMBED_FIELD_LIMIT alerts in
  let omitted := Z.of_nat (length alerts) - Z.of_nat (length displayed_alerts) in
  rbind (_discord_alert_summary alerts generated_at) (λ summary,
  let fields := ((_discord_alert_field <$> displayed_alerts)
    ++ (if 0 <? omitted
        then [JObj [("name", JStr "Additional alerts");
                    ("value", JStr (pretty omitted
                       +:+ " more alert(s) omitted from this Discord summary."));
                    ("inline", JBool false)]]
        else []))%list in
  Ok (JObj
    [("content", JStr ("SITBank security alerts: " +:+ pretty (Z.of_nat (length alerts)) +:+ " active"));
     ("embeds", JList [JObj
        [("title", JStr "SITBank Security Alerts"); ("description", JStr summary);
         ("color", JInt (_discord_embed_color alerts)); ("timestamp", JStr generated_at);
         ("fields", JList fields); ("footer", JObj [("text", JStr "Audit monitoring")])]]);
     ("allowed_mentions", JObj [("parse", JList [])])])).

Definition _alert_webhook_body (alerts : list alert) (provider : string) : M St string :=
  now <- now_utc ;;
  let generated_at := _utc_iso now in
  let safe_alerts := _sanitize_alert_for_delivery <$> alerts in
  payload <- lift (if bool_decide (provider = "discord")
    then _discord_alert_payload safe_alerts generated_at
    else Ok (JObj [("message", JStr "security_alerts"); ("generated_at", JStr generated_at);
                   ("alerts", JList (JObj <$> safe_alerts))])) ;;
  ret (json_dumps payload).

(** ** Files *)

Definition file_step (path : string) : M St unit :=
  fault <- fresh (λ n, file_fault n path) ;;
  match fault with Some name => raise (OSError name) | None => ret tt end.
Definition file_exists (path : string) : M St bool :=
  gets (λ s, bool_decide (is_Some (files s !! path)) || pf_special (path_facts path)).
Definition read_text (path : string) : M St string :=
  _ <- file_step path ;;
  content <- gets (λ s, files s !! path) ;;
  match content with Some text => ret text | None => raise (OSError "FileNotFoundError") end.
Definition write_text (path text : string) : M St unit :=
  _ <- file_step path ;;
  modify (λ s, set_files (<[path := text]> (files s)) s).
(** [Path.replace]. *)
Definition move_file (path target : string) : M St unit :=
  _ <- file_step path ;;
  content <- gets (λ s, files s !! path) ;;
  match content with
  | Some text => modify (λ s, set_files (<[target := text]> (delete path (files s))) s)
  | None => raise (OSError "FileNotFoundError")
  end.

Definition is_os_error (e : exn) : bool := match e with OSError _ => true | _ => false end.
Definition is_alert_configuration_error (e : exn) : bool :=
  match e with AlertConfigurationError _ => true | _ => false end.

Definition parent_of (path : string) : string :=
  of_chars (rev (tail (drop_while (λ c, negb (bool_decide (c = "/"%char))) (rev (chars path))))).
Definition name_of (path : string) : string :=
  of_chars (List.last (split_on "/"%char (chars path)) []).
Definition with_name (path name : string) : string := parent_of path +:+ "/" +:+ name.

(** ** Configuration *)

Record AlertConfig : Type := mkAlertConfig {
  cfg_enabled : bool;
  cfg_webhook_configured : bool;
  cfg_min_severity : string;
  cfg_timeout_seconds : pydec;
  cfg_dedupe_ttl_seconds : Z
}.

Definition alert_error (message : string) : exn := AlertConfigurationError message.

Definition _read_webhook_url_file (file_path : string) : M St (option string) :=
  try_except (text <- read_text file_path ;; ret (_safe_secret_text text)) is_os_error
    (λ e, raise (alert_error ("SECURITY_ALERT_WEBHOOK_URL_FILE is not readable: " +:+ exn_class e))).

Definition configured_alert_webhook_url : M St (option string) :=
  if otruthy (config "SECURITY_ALERT_WEBHOOK_URL")
  then ret (_safe_secret_text (config_str_or_empty "SECURITY_ALERT_WEBHOOK_URL"))
  else
    let file_path := strip (config_str_or_empty "SECURITY_ALERT_WEBHOOK_URL_FILE") in
    if nonempty file_path then _read_webhook_url_file file_path else ret None.

Definition _configured_alert_enabled : bool := otruthy (config "SECURITY_ALERT_ENABLED").

Definition _configured_alert_min_severity : res string :=
  let value := casefold (strip (match config "SECURITY_ALERT_MIN_SEVERITY" with
                                | Some v => py_str v
                                | None => "high"
                                end)) in
  if bool_decide (is_Some (assoc value ALERT_SEVERITY_RANK)) then Ok value
  else Raise (alert_error "SECURITY_ALERT_MIN_SEVERITY is invalid").

(** [float(value)]. *)
Definition py_float (value : jval) : res pydec :=
  match value with
  | JInt z => Ok (DFin z 0)
  | JBool b => Ok (DFin (if b then 1 else 0) 0)
  | JStr text => match decimal_of_str text with Ok d => Ok d | Raise _ => Raise (ValueError "float") end
  | JNull | JList _ | JObj _ => Raise TypeError
  end.
(** Comparisons of floats: a NaN compares false. *)
Definition float_lt (a b : pydec) : bool := match dec_lt a b with Ok r => r | Raise _ => false end.

Definition _configured_alert_timeout_seconds : res pydec :=
  match (match config "SECURITY_ALERT_TIMEOUT_SECONDS" with
         | Some v => py_float v
         | None => Ok (DFin 50 (-1))
         end) with
  | Raise _ => Raise (alert_error "SECURITY_ALERT_TIMEOUT_SECONDS must be numeric")
  | Ok value =>
      if float_lt value (DFin 1 0) || float_lt (DFin 30 0) value
      then Raise (alert_error "SECURITY_ALERT_TIMEOUT_SECONDS must be between 1 and 30")
      else Ok value
  end.

Definition _configured_alert_dedupe_ttl_seconds : res Z :=
  match config_int_default "SECURITY_ALERT_DEDUPE_TTL_SECONDS" 300 with
  | Raise _ => Raise (alert_error "SECURITY_ALERT_DEDUPE_TTL_SECONDS must be an integer")
  | Ok value =>
      if (value <? 60) || (86400 <? value)
      then Raise (alert_error "SECURITY_ALERT_DEDUPE_TTL_SECONDS must be between 60 and 86400")
      else Ok value
  end.

Definition _validated_webhook_url (url : string) : res string :=
  rbind (urlsplit url) (λ parsed,
    if negb (bool_decide (us_scheme parsed = "https")) || negb (nonempty (us_netloc parsed))
    then Raise (alert_error "SECURITY_ALERT_WEBHOOK_URL must be an HTTPS URL")
    else Ok url).

Definition _webhook_provider (url : string) : res string :=
  rbind (urlsplit url) (λ parsed,
    let host := casefold (default "" (us_hostname parsed)) in
    Ok (if str_in host ["discord.com"; "discordapp.com"] && startswith "/api/webhooks/" (us_path parsed)
        then "discord" else "generic")).

Definition validate_security_alert_config (require_delivery : bool) : M St AlertConfig :=
  let enabled := _configured_alert_enabled in
  min_severity <- lift _configured_alert_min_severity ;;
  timeout_seconds <- lift _configured_alert_timeout_seconds ;;
  dedupe_ttl_seconds <- lift _configured_alert_dedupe_ttl_seconds ;;
  webhook_url <- configured_alert_webhook_url ;;
  if require_delivery && negb enabled
  then raise (alert_error "SECURITY_ALERT_ENABLED must be true in production")
  else
    _ <- (if enabled || require_delivery then
            match webhook_url with
            | None => raise (alert_error
                "SECURITY_ALERT_WEBHOOK_URL_FILE is required when security alerting is enabled")
            | Some url => _ <- lift (_validated_webhook_url url) ;; ret tt
            end
          else ret tt) ;;
    ret (mkAlertConfig enabled (bool_decide (is_Some webhook_url)) min_severity timeout_seconds
           dedupe_ttl_seconds).

(** ** Delivery *)

Definition not_configured : alert := [("attempted", JBool false); ("configured", JBool false)].
Definition delivery_error (attempted : bool) (name : string) : alert :=
  [("attempted", JBool attempted); ("configured", JBool true); ("delivered", JBool false);
   ("error_type", JStr (safe_str name 80))].

(** [webhook_url] is the argument that overrides the configuration; the time-out
    bounds the request of the oracle. *)
Definition deliver_security_alerts (alerts : list alert) (webhook_url : option string)
    (timeout_seconds : option pydec) : M St alert :=
  match alerts with
  | [] => ret not_configured
  | _ =>
    configured <- try_except
      (url <- match webhook_url with Some u => ret (Some u) | None => configured_alert_webhook_url end ;;
       ret (inr url))
      is_alert_configuration_error (λ e, ret (inl (delivery_error false (exn_class e)))) ;;
    match configured with
    | inl failure => ret failure
    | inr None => ret not_configured
    | inr (Some url) =>
        if negb (nonempty url) then ret not_configured else
        checked <- try_except (u <- lift (_validated_webhook_url url) ;; ret (inr u))
          is_alert_configuration_error (λ e, ret (inl (delivery_error false (exn_class e)))) ;;
        match checked with
        | inl failure => ret failure
        | inr url =>
            provider <- lift (_webhook_provider url) ;;
            body <- _alert_webhook_body alerts provider ;;
            _ <- match timeout_seconds with
                 | Some t => ret t
                 | None => lift _configured_alert_timeout_seconds
                 end ;;
            response <- fresh (λ n, webhook_response n url body) ;;
            ret (match response with
                 | inl name => (delivery_error true name ++ [("provider", JStr provider)])%list
                 | inr status_code =>
                     [("attempted", JBool true); ("configured", JBool true);
                      ("delivered", JBool ((200 <=? status_code) && (status_code <? 300)));
                      ("provider", JStr provider); ("status_code", JInt status_code)]
                 end)
        end
    end
  end.

(** ** Deduplication *)

Definition _alert_dedupe_key (a : alert) : res string :=
  rbind (match obj_get "window_seconds" a with
         | Some v => if truthy v then py_int (Some v) else Ok 0
         | None => Ok 0
         end) (λ window,
    Ok (json_dumps (JObj
      [("alert_type", JStr (_safe_text (obj_get "alert_type" a) 80));
       ("severity", JStr (_safe_text (obj_get "severity" a) 24));
       ("source", JStr (_safe_text (obj_get "source" a) 160));
       ("window_seconds", JInt window)]))).

Definition _alert_dedupe_key_hash (a : alert) : res string :=
  rbind (_alert_dedupe_key a) (λ key, active_hmac_hex key 64).

Definition record_for (key_hash : string) (r : SecurityAlertDedupe) : bool :=
  bool_decide (ad_dedupe_key_hash r = key_hash).

(** The repeat is counted. *)
Definition seen_again (now : Z) (r : SecurityAlertDedupe) : SecurityAlertDedupe :=
  mkSecurityAlertDedupe (ad_dedupe_key_hash r) (ad_event_type r) (ad_first_seen_at r) now
    (ad_expires_at r) ((if ad_count r =? 0 then 1 else ad_count r) + 1).

Definition fresh_record (key_hash : string) (a : alert) (now ttl_seconds : Z) : SecurityAlertDedupe :=
  mkSecurityAlertDedupe key_hash (text_or (_safe_text (obj_get "alert_type" a) 80) "security_alert")
    now now (now + ttl_seconds * US_SECOND) 1.

(** One alert of the loop: it is suppressed, or recorded and delivered. *)
Definition dedupe_one (now ttl_seconds : Z) (a : alert) : M St bool :=
  key_hash <- lift (_alert_dedupe_key_hash a) ;;
  record <- db_query (λ d, one_or_none (record_for key_hash) (security_alert_dedupe d)) ;;
  match record with
  | Some (id, r) =>
      if now <? ad_expires_at r then
        _ <- db_write (upd_security_alert_dedupe (insert id (seen_again now r))) ;; ret false
      else
        _ <- db_write (upd_security_alert_dedupe (insert id (fresh_record key_hash a now ttl_seconds))) ;;
        ret true
  | None =>
      _ <- db_write (upd_security_alert_dedupe
             (λ t, <[next_id t := fresh_record key_hash a now ttl_seconds]> t)) ;;
      ret true
  end.

Fixpoint dedupe_loop (now ttl_seconds : Z) (alerts : list alert) : M St (list alert * Z) :=
  match alerts with
  | [] => ret ([], 0)
  | a :: rest =>
      deliver <- dedupe_one now ttl_seconds a ;;
      result <- dedupe_loop now ttl_seconds rest ;;
      ret (if (deliver : bool) then (a :: result.1, result.2) else (result.1, result.2 + 1))
  end.

Definition dedupe_status (enabled : bool) (ttl_seconds suppressed : Z) : alert :=
  [("enabled", JBool enabled); ("ttl_seconds", JInt ttl_seconds); ("suppressed", JInt suppressed)].

Definition _dedupe_alerts (alerts : list alert) (ttl_seconds : Z) : M St (list alert * alert) :=
  current_time <- now_utc ;;
  result <- dedupe_loop current_time ttl_seconds alerts ;;
  _ <- try_except commit any_exn
         (λ _, _ <- rollback ;; raise (alert_error "DB security alert dedupe failed")) ;;
  ret (result.1, dedupe_status true ttl_seconds result.2).

End Delivery.
End AlertDelivery.
