(* ===== verification/AlertReport.v ===== *)
(** * Security alerts: database integrity and the report
    ([app/security/alerts.py], [app/security/audit.py])

    The report verifies the audit chain against its anchor, compares the row
    counts of the monitored tables with the stored baseline, evaluates the audit
    events, filters by severity, suppresses repeats and delivers.  The baseline
    only moves when nothing regressed; an operator may replace it after the chain
    and the anchor verified. *)

From S2P Require Import Prelude PyStr PyDecimal TimeModel Schema Json Runtime Sample.
From S2P Require Import Integrity AuditLog AuditChain Notifications Alerts AlertDelivery.
From Stdlib Require Import Ascii.
Open Scope string_scope.
Open Scope Z_scope.

Module AlertReport.
Import SessionHmac Audit AuditChain Notifications Alerts AlertDelivery.
Notation alert := (list (string * jval)).

Section Report.
Context `{Env}.

Definition configured_path (name : string) : option string :=
  let text := strip (config_str_or_empty name) in if nonempty text then Some text else None.
Definition _configured_audit_anchor_path : option string := configured_path "SECURITY_AUDIT_ANCHOR_PATH".
Definition _configured_alert_state_path : option string := configured_path "SECURITY_ALERT_STATE_PATH".

(** ** The audit chain *)

Definition _load_audit_anchor (anchor_path : string) : M St (list (string * jval)) :=
  text <- try_except (read_text anchor_path) is_os_error
    (λ e, raise (alert_error ("SECURITY_AUDIT_ANCHOR_PATH is not readable: " +:+ exn_class e))) ;;
  match json_loads text with
  | None => raise (alert_error "SECURITY_AUDIT_ANCHOR_PATH is not readable: JSONDecodeError")
  | Some (JObj anchor) => ret anchor
  | Some _ => raise (alert_error "SECURITY_AUDIT_ANCHOR_PATH must contain a JSON object")
  end.

Definition jopt_bool (o : option bool) : jval := match o with Some b => JBool b | None => JNull end.

Definition _audit_chain_status (result : Verification) (anchor_configured : bool) : alert :=
  [("checked", JBool true);
   ("valid", JBool (vr_valid result));
   ("anchor_configured", JBool anchor_configured);
   ("anchor_validated", jopt_bool (vr_anchor_validated result));
   ("anchor_status", JStr (vr_anchor_status result));
   ("anchor_stale", JBool (vr_anchor_stale result));
   ("anchor_event_id", jopt_int (vr_anchor_event_id result));
   ("events_since_anchor", jopt_int (vr_events_since_anchor result));
   ("anchor_refresh_required", JBool (vr_anchor_refresh_required result));
   ("event_count", JInt (vr_event_count result));
   ("latest_event_id", jopt_int (vr_latest_event_id result));
   ("error_count", JInt (Z.of_nat (length (vr_errors result))));
   ("anchor_error_count", JInt (Z.of_nat (length (vr_anchor_errors result))))].

Definition failed_status (anchor_configured : bool) (anchor_validated : jval) (error : string) : alert :=
  [("checked", JBool false); ("valid", JBool false); ("anchor_configured", JBool anchor_configured);
   ("anchor_validated", anchor_validated); ("error_type", JStr error)].

Definition chain_alert (result : Verification) (current_time : Z) : alert :=
  let anchor_error_count := Z.of_nat (length (vr_anchor_errors result)) in
  let anchored := 0 <? anchor_error_count in
  _alert (if anchored then "audit_anchor_mismatch" else "audit_chain_verification_failed")
    current_time "critical" (Z.max 1 (Z.of_nat (length (vr_errors result)))) 0
    (if anchored then "audit_anchor" else "audit_hash_chain")
    [("latest_event_id", jopt_int (vr_latest_event_id result));
     ("event_count", JInt (vr_event_count result)); ("anchor_error_count", JInt anchor_error_count)].

Definition verify_with (anchor : option (list (string * jval))) (anchor_configured : bool)
    (current_time : Z) : M St (list alert * alert) :=
  result <- try_except
    (v <- db_get (λ d, verify_audit_hash_chain anchor (security_audit_events d)) ;; ret (inr v))
    any_exn (λ e, ret (inl e)) ;;
  match result with
  | inl e =>
      ret ([_alert "audit_chain_verification_failed" current_time "critical" 1 0 "audit_hash_chain"
              [("error_type", JStr (exn_class e))]],
           failed_status anchor_configured JNull (exn_class e))
  | inr result =>
      let status := _audit_chain_status result anchor_configured in
      if vr_valid result then ret ([], status) else ret ([chain_alert result current_time], status)
  end.

Definition _audit_chain_verification_alerts (current_time : Z) : M St (list alert * alert) :=
  match _configured_audit_anchor_path with
  | None => verify_with None false current_time
  | Some anchor_path =>
      anchor <- try_except (a <- _load_audit_anchor anchor_path ;; ret (inr a))
        is_alert_configuration_error (λ e, ret (inl e)) ;;
      match anchor with
      | inl e =>
          ret ([_alert "audit_anchor_mismatch" current_time "critical" 1 0 "audit_anchor"
                  [("error_type", JStr (exn_class e)); ("reason", JStr "anchor_unavailable")]],
               failed_status true (JBool false) (exn_class e))
      | inr a => verify_with (Some a) true current_time
      end
  end.

(** ** Row counts of the monitored tables *)

Definition max_of (ids : list Z) : option Z :=
  match ids with [] => None | _ => Some (foldr Z.max (hd 0 ids) ids) end.

Definition table_ids (table_name : string) (d : Db) : list Z :=
  if bool_decide (table_name = "users") then (map_to_list (users d)).*1
  else ev_id <$> security_audit_events d.

Definition table_metrics (ids : list Z) : jval :=
  JObj [("count", JInt (Z.of_nat (length ids))); ("max_id", jopt_int (max_of ids))].

Definition snapshot_tables (d : Db) : list (string * jval) :=
  (λ table_name, (table_name, table_metrics (table_ids table_name d))) <$> DATABASE_INTEGRITY_TABLES.

Definition _database_integrity_snapshot (current_time : Z) (d : Db) : list (string * jval) :=
  [("generated_at", JStr (_utc_iso current_time));
   ("message", JStr "security_alert_database_integrity_state");
   ("tables", JObj (snapshot_tables d));
   ("version", JInt DATABASE_INTEGRITY_STATE_VERSION)].

Definition _load_database_integrity_state (state_path : string) : M St (option (list (string * jval))) :=
  raw <- try_except (t <- read_text state_path ;; ret (Some t)) is_os_error
    (λ e, if bool_decide (exn_class e = "FileNotFoundError") then ret None
          else raise (alert_error ("SECURITY_ALERT_STATE_PATH is not readable: " +:+ exn_class e))) ;;
  match raw with
  | None => ret None
  | Some raw_state =>
      match json_loads raw_state with
      | None => raise (alert_error "SECURITY_ALERT_STATE_PATH must contain JSON")
      | Some (JObj state) =>
          match obj_get "tables" state with
          | Some (JObj _) => ret (Some state)
          | _ => raise (alert_error "SECURITY_ALERT_STATE_PATH is missing table metrics")
          end
      | Some _ => raise (alert_error "SECURITY_ALERT_STATE_PATH must contain a JSON object")
      end
  end.

Definition _validate_security_state_path (state_path : string) : M St unit :=
  exists_ <- file_exists state_path ;;
  if negb (startswith "/" state_path)
  then raise (alert_error "SECURITY_ALERT_STATE_PATH must be an absolute path")
  else if pf_symlink (path_facts state_path)
  then raise (alert_error "SECURITY_ALERT_STATE_PATH must not be a symlink")
  else if exists_ && pf_special (path_facts state_path)
  then raise (alert_error "SECURITY_ALERT_STATE_PATH must identify a regular file")
  else if pf_parent_unsafe (path_facts state_path)
  then raise (alert_error "SECURITY_ALERT_STATE_PATH parent directory is unsafe")
  else ret tt.

Definition temporary_path (state_path : string) : string :=
  with_name state_path ("." +:+ name_of state_path +:+ ".tmp-" +:+ pretty getpid).

(** The state is written beside the file and moved over it. *)
Definition _write_database_integrity_state (state_path : string) (state : list (string * jval))
    : M St unit :=
  _ <- _validate_security_state_path state_path ;;
  let temporary := temporary_path state_path in
  try_except
    (_ <- file_step (parent_of state_path) ;;
     _ <- write_text temporary (json_dumps (JObj state) +:+ newline) ;;
     _ <- file_step temporary ;;
     _ <- move_file temporary state_path ;;
     file_step state_path)
    is_os_error
    (λ e, raise (alert_error ("SECURITY_ALERT_STATE_PATH is not writable: " +:+ exn_class e))).

(** The metrics of a table in a state, if they are there. *)
Definition metrics_of (tables : list (string * jval)) (table_name : string)
    : option (list (string * jval)) :=
  match obj_get table_name tables with Some (JObj m) => Some m | _ => None end.

Definition regressed (previous current : list (string * jval)) : bool :=
  let previous_count := _state_int (obj_get "count" previous) in
  let current_count := _state_int (obj_get "count" current) in
  let count_regressed := (0 <? previous_count) && (current_count <? previous_count) in
  let id_regressed :=
    match _state_optional_int (obj_get "max_id" previous) with
    | None => false
    | Some previous_max_id =>
        (0 <? previous_max_id)
        && match _state_optional_int (obj_get "max_id" current) with
           | None => true
           | Some current_max_id => current_max_id <? previous_max_id
           end
    end in
  count_regressed || id_regressed.

Definition regression_alert (table_name : string) (previous current : list (string * jval))
    (current_time : Z) : alert :=
  _alert "database_table_regression" current_time "critical" 1 0 ("table:" +:+ table_name)
    [("table", JStr table_name);
     ("previous_count", JInt (_state_int (obj_get "count" previous)));
     ("current_count", JInt (_state_int (obj_get "count" current)));
     ("previous_max_id", JInt (default 0 (_state_optional_int (obj_get "max_id" previous))));
     ("current_max_id", JInt (default 0 (_state_optional_int (obj_get "max_id" current))));
     ("reason", JStr "row_count_or_identity_rewind")].

Definition _database_integrity_regression_alerts (previous_state : option (list (string * jval)))
    (current_state : list (string * jval)) (current_time : Z) : res (list alert) :=
  match previous_state with
  | None => Ok []
  | Some previous_state =>
      match obj_get "tables" previous_state, obj_get "tables" current_state with
      | Some (JObj previous_tables), Some (JObj current_tables) =>
          Ok (omap (λ table_name,
                match metrics_of previous_tables table_name, metrics_of current_tables table_name with
                | Some previous, Some current =>
                    if regressed previous current
                    then Some (regression_alert table_name previous current current_time) else None
                | _, _ => None
                end) DATABASE_INTEGRITY_TABLES)
      | _, _ => Raise (alert_error "database integrity state is malformed")
      end
  end.

Definition configured_status : alert :=
  [("checked", JBool false); ("configured", JBool true); ("state_path_configured", JBool true)].

Definition unavailable_alert (current_time : Z) (e : exn) : list alert * alert :=
  ([_alert "database_integrity_state_unavailable" current_time "critical" 1 0
      "database_integrity_state" [("error_type", JStr (exn_class e))]],
   (configured_status ++ [("error_type", JStr (exn_class e))])%list).

Definition check_failed_alert (current_time : Z) (e : exn) : list alert * alert :=
  ([_alert "database_integrity_check_failed" current_time "critical" 1 0
      "database_integrity" [("error_type", JStr (exn_class e))]],
   (configured_status ++ [("error_type", JStr (exn_class e))])%list).

Definition checked_status (previous_state : option (list (string * jval))) (alerts : list alert)
    (d : Db) : alert :=
  [("checked", JBool true); ("configured", JBool true);
   ("baseline_available", JBool (bool_decide (is_Some previous_state)));
   ("valid", JBool (match alerts with [] => true | _ => false end));
   ("table_count", JInt (Z.of_nat (length (snapshot_tables d))));
   ("tables", JObj (snapshot_tables d))].

Definition _database_integrity_alerts (current_time : Z) (update_state : bool)
    : M St (list alert * alert) :=
  match _configured_alert_state_path with
  | None => ret ([], [("checked", JBool false); ("configured", JBool false)])
  | Some state_path =>
      d <- db_get id ;;
      let current_state := _database_integrity_snapshot current_time d in
      loaded <- try_except
        (previous_state <- _load_database_integrity_state state_path ;; ret (inr previous_state))
        any_exn
        (λ e, ret (inl (if is_alert_configuration_error e then unavailable_alert current_time e
                        else check_failed_alert current_time e))) ;;
      match loaded with
      | inl failure => ret failure
      | inr previous_state =>
          alerts <- lift (_database_integrity_regression_alerts previous_state current_state
                            current_time) ;;
          let status := checked_status previous_state alerts d in
          match alerts, update_state with
          | [], true =>
              try_except
                (_ <- _write_database_integrity_state state_path current_state ;; ret (alerts, status))
                is_alert_configuration_error (λ e, ret (unavailable_alert current_time e))
          | _, _ => ret (alerts, status)
          end
      end
  end.

(** ** The report *)

Definition _database_table_metrics (tables : list (string * jval)) (table_name : string)
    : option Z * option Z :=
  match metrics_of tables table_name with
  | None => (None, None)
  | Some metrics => (_state_optional_int (obj_get "count" metrics),
                     _state_optional_int (obj_get "max_id" metrics))
  end.

Definition _current_observability_environment : string :=
  _safe_text (Some (match config "APP_ENV" with
                    | Some v => if truthy v then v else JStr "unknown"
                    | None => JStr "unknown"
                    end)) 40.

Definition get_or_null (k : string) (a : alert) : jval := default JNull (obj_get k a).

Definition _security_report_observability_fields (alerts : list alert)
    (audit_chain_status database_integrity_status : alert) : alert :=
  let tables := match obj_get "tables" database_integrity_status with Some (JObj t) => t | _ => [] end in
  let audit_table := _database_table_metrics tables "security_audit_events" in
  let users_table := _database_table_metrics tables "users" in
  let alerting := match alerts with [] => false | _ => true end in
  [("event", JStr "security_alert_report");
   ("environment", JStr _current_observability_environment);
   ("service", JStr "sitbank-security-alerts");
   ("result", JStr (if alerting then "active_alerts" else "success"));
   ("status", JStr (if alerting then "alerting" else "healthy"));
   ("audit_chain_valid", get_or_null "valid" audit_chain_status);
   ("audit_chain_anchor_status", JStr (_safe_text (obj_get "anchor_status" audit_chain_status) 80));
   ("audit_chain_anchor_refresh_required",
     JBool (otruthy (obj_get "anchor_refresh_required" audit_chain_status)));
   ("audit_chain_anchor_stale", JBool (otruthy (obj_get "anchor_stale" audit_chain_status)));
   ("audit_chain_error_count", JInt (_state_int (obj_get "error_count" audit_chain_status)));
   ("database_integrity_valid", get_or_null "valid" database_integrity_status);
   ("database_integrity_security_audit_events_count", jopt_int audit_table.1);
   ("database_integrity_security_audit_events_max_id", jopt_int audit_table.2);
   ("database_integrity_users_count", jopt_int users_table.1);
   ("database_integrity_users_max_id", jopt_int users_table.2)].

(** What is delivered: the alerts left after deduplication, the deduplication
    and the delivery status. *)
Definition deliver_report (deliver : bool) (alerts : list alert) (cfg : AlertConfig)
    : M St (list alert * alert * alert) :=
  let delivery := [("attempted", JBool false); ("configured", JBool (cfg_webhook_configured cfg));
                   ("enabled", JBool (cfg_enabled cfg))] in
  let dedupe := dedupe_status false (cfg_dedupe_ttl_seconds cfg) 0 in
  if deliver && (match alerts with [] => false | _ => true end) && cfg_enabled cfg then
    deduped <- try_except
      (r <- _dedupe_alerts alerts (cfg_dedupe_ttl_seconds cfg) ;; ret (inr r))
      is_alert_configuration_error (λ e, ret (inl e)) ;;
    match deduped with
    | inl e =>
        ret (alerts, dedupe,
          [("attempted", JBool false); ("configured", JBool true); ("enabled", JBool true);
           ("delivered", JBool false); ("error_type", JStr (safe_str (exn_class e) 80))])
    | inr ([], dedupe) =>
        ret ([], dedupe,
          [("attempted", JBool false); ("configured", JBool (cfg_webhook_configured cfg));
           ("enabled", JBool true); ("delivered", JBool true); ("deduped", JBool true)])
    | inr (deliverable, dedupe) =>
        delivery <- deliver_security_alerts deliverable None (Some (cfg_timeout_seconds cfg)) ;;
        ret (deliverable, dedupe, obj_set "enabled" (JBool true) delivery)
    end
  else ret (alerts, dedupe, delivery).

Definition build_security_alert_report (deliver : bool) (now : option Z) : M St alert :=
  current_time <- match now with Some t => ret t | None => now_utc end ;;
  cfg <- validate_security_alert_config false ;;
  chain <- _audit_chain_verification_alerts current_time ;;
  integrity <- _database_integrity_alerts current_time deliver ;;
  evaluated <- evaluate_security_alerts (Some current_time) ;;
  filtered <- lift (_filter_alerts_by_min_severity (evaluated ++ chain.1 ++ integrity.1)
                      (cfg_min_severity cfg)) ;;
  let alerts := sort_alerts filtered in
  delivered <- deliver_report deliver alerts cfg ;;
  let '(deliverable, dedupe, delivery) := delivered in
  ret (foldl (λ acc kv, obj_set kv.1 kv.2 acc)
    [("message", JStr "security_alert_report");
     ("generated_at", JStr (_utc_iso current_time));
     ("alert_count", JInt (Z.of_nat (length alerts)));
     ("deliverable_alert_count", JInt (Z.of_nat (length deliverable)));
     ("alerts", JList (JObj <$> alerts));
     ("audit_chain", JObj chain.2);
     ("database_integrity", JObj integrity.2);
     ("dedupe", JObj dedupe);
     ("delivery", JObj delivery)]
    (_security_report_observability_fields alerts chain.2 integrity.2)).

(** ** Replacing the baseline *)

Definition validate_existing_audit_anchor_path (path : string) : M St unit :=
  content <- gets (λ s, files s !! path) ;;
  if negb (startswith "/" path)
  then raise (RuntimeError "Configured audit anchor path must be absolute")
  else if pf_symlink (path_facts path) || negb (bool_decide (is_Some content))
  then raise (RuntimeError "Configured audit anchor must be a regular non-symlink file")
  else if pf_parent_unsafe (path_facts path)
  then raise (RuntimeError "Configured audit anchor parent directory is unsafe")
  else if pf_shared (path_facts path)
  then raise (RuntimeError "Configured audit anchor permissions must be owner-only")
  else ret tt.

(** [strftime("%Y%m%dT%H%M%S%fZ")]. *)
Definition compact_time (t : Z) : string :=
  let '(y, m, d) := date_of t in
  pad 4 y +:+ pad 2 m +:+ pad 2 d +:+ "T" +:+ pad 2 (hour_of t) +:+ pad 2 (minute_of t)
  +:+ pad 2 (second_of t) +:+ pad 6 (micro_of t) +:+ "Z".

Record Rebaseline : Type := mkRebaseline {
  rb_generated_at : string;
  rb_tables : list (string * jval);
  rb_backup_name : option string;
  rb_reason_ref : option string;
  rb_reason_length : Z;
  rb_audit_anchor_status : string
}.

Definition back_up_state (state_path : string) (current_time : Z) : M St (option string) :=
  exists_ <- file_exists state_path ;;
  if (exists_ : bool) then
    let backup_path := with_name state_path (name_of state_path +:+ ".backup-" +:+ compact_time current_time) in
    _ <- try_except (_ <- move_file state_path backup_path ;; file_step backup_path) is_os_error
           (λ e, raise (alert_error ("SECURITY_ALERT_STATE_PATH backup failed: " +:+ exn_class e))) ;;
    ret (Some backup_path)
  else ret None.

Definition restore_state (state_path : string) (backup_path : option string) : M St unit :=
  match backup_path with
  | None => ret tt
  | Some backup_path =>
      backed <- file_exists backup_path ;;
      present <- file_exists state_path ;;
      guard (backed && negb present) (move_file backup_path state_path)
  end.

Definition rebaseline_database_integrity_state (intentional_reset : bool) (reason : string)
    (now : option Z) : M St Rebaseline :=
  if negb intentional_reset
  then raise (alert_error "Rebaseline requires explicit --intentional-reset acknowledgement") else
  let normalized_reason := safe_str reason 240 in
  if negb (nonempty normalized_reason)
  then raise (alert_error "Rebaseline requires a non-empty --reason") else
  match _configured_alert_state_path, _configured_audit_anchor_path with
  | None, _ => raise (alert_error "SECURITY_ALERT_STATE_PATH is required")
  | _, None => raise (alert_error "SECURITY_AUDIT_ANCHOR_PATH is required")
  | Some state_path, Some anchor_path =>
      _ <- _validate_security_state_path state_path ;;
      _ <- validate_existing_audit_anchor_path anchor_path ;;
      anchor <- _load_audit_anchor anchor_path ;;
      verification <- db_get (λ d, verify_audit_hash_chain (Some anchor) (security_audit_events d)) ;;
      if negb (vr_valid verification)
         || negb (str_in (vr_anchor_status verification) ["validated"; "stale"])
      then raise (alert_error "Rebaseline refused because audit chain or anchor validation failed")
      else
        reason_ref <- lift (audit_reference "security_alert_state_rebaseline_reason" normalized_reason) ;;
        let audit_metadata :=
          [("intentional_reset", JBool true); ("reason_ref", jopt_str reason_ref);
           ("reason_length", JInt (Z.of_nat (slen normalized_reason)));
           ("audit_anchor_status", JStr (vr_anchor_status verification))] in
        _ <- audit_system_event_required "security_alert_state_rebaseline" "started" None audit_metadata ;;
        current_time <- match now with Some t => ret t | None => now_utc end ;;
        d <- db_get id ;;
        let current_state := _database_integrity_snapshot current_time d in
        backup_path <- back_up_state state_path current_time ;;
        _ <- try_except (_write_database_integrity_state state_path current_state) any_exn
          (λ e, _ <- restore_state state_path backup_path ;;
                _ <- audit_system_event "security_alert_state_rebaseline" "failed" None
                       (audit_metadata ++ [("error_type", JStr (exn_class e))])%list ;;
                raise e) ;;
        _ <- audit_system_event_required "security_alert_state_rebaseline" "completed" None
               (audit_metadata
                ++ [("backup_created", JBool (bool_decide (is_Some backup_path)));
                    ("table_count", JInt (Z.of_nat (length (snapshot_tables d))))])%list ;;
        ret (mkRebaseline (_utc_iso current_time) (snapshot_tables d) (name_of <$> backup_path)
               reason_ref (Z.of_nat (slen normalized_reason)) (vr_anchor_status verification))
  end.

End Report.
End AlertReport.
