(* ===== verification/AlertSafety.v ===== *)
(** * Properties of alert delivery and of the integrity baseline

    Nothing that looks like a secret leaves in a webhook body; deduplication
    delivers exactly the alerts whose key is not on record as seen; a monitored
    table that shrinks is reported until an operator replaces the baseline. *)

From S2P Require Import Prelude PyStr PyDecimal TimeModel Schema Canonical Json Runtime Sample.
From S2P Require Import Integrity AuditLog AuditChain Notifications Alerts AlertDelivery AlertReport.
From Stdlib Require Import Ascii.
Open Scope string_scope.
Open Scope Z_scope.

Module AlertSafety.
Import SessionHmac Sensitive Audit AuditChain Alerts AlertDelivery AlertReport.
Notation alert := (list (string * jval)).

(** ** Sanitised values *)

(** A text that may leave: the redaction mark, or short and not like a secret. *)
Definition text_ok (s : string) : bool :=
  bool_decide (s = REDACTED_VALUE)
  || ((slen s <=? 512)%nat && negb (_looks_like_sensitive_delivery_value s)).

Definition redacted (v : jval) : bool :=
  match v with JStr s => bool_decide (s = REDACTED_VALUE) | _ => false end.

(** The name of an entry: not empty, and at most 80 characters. *)
Definition name_ok (k : string) : bool := (1 <=? slen k)%nat && (slen k <=? 80)%nat.

(** Every text may leave, and sensitive entries are redacted, at any depth. *)
Fixpoint value_ok (v : jval) : bool :=
  match v with
  | JNull | JBool _ | JInt _ => true
  | JStr s => text_ok s
  | JList l => (length l <=? 25)%nat && forallb value_ok l
  | JObj kvs => forallb (λ kv, name_ok kv.1 && if _is_sensitive_delivery_key (casefold kv.1) then redacted kv.2
                                               else value_ok kv.2) kvs
  end.
Definition entry_ok (kv : string * jval) : bool :=
  name_ok kv.1 && if _is_sensitive_delivery_key (casefold kv.1) then redacted kv.2 else value_ok kv.2.

Lemma slen_of_chars l : slen (of_chars l) = length l.
Proof. by rewrite <- length_chars, chars_of_chars. Qed.

Lemma safe_str_short text limit : (10 ≤ limit)%nat → (slen (safe_str text limit) ≤ limit)%nat.
Proof.
  intros Hl. unfold _safe_text. case_match; [exact Hl|].
  unfold _clean_audit_text, str_take. rewrite slen_of_chars, length_take. lia.
Qed.

Lemma delivery_key_ok k : name_ok (delivery_key k) = true.
Proof.
  unfold delivery_key, text_or, name_ok. pose proof (safe_str_short k 80) as Hs.
  destruct (safe_str k 80) as [|c t]; [done|]. cbn [nonempty]. apply andb_true_iff. split; [done|].
  apply Nat.leb_le. apply Hs. lia.
Qed.

Lemma sanitize_text_ok raw : value_ok (sanitize_delivery_text raw) = true.
Proof.
  unfold sanitize_delivery_text. destruct (contains_sensitive_url raw); [done|].
  set (text := safe_str raw 512). destruct (_looks_like_sensitive_delivery_value text) eqn:E; [done|].
  cbn [value_ok]. unfold text_ok. rewrite E.
  apply orb_true_iff. right. apply andb_true_iff. split; [|done].
  apply Nat.leb_le. apply safe_str_short. lia.
Qed.

Lemma entries_set k v kvs :
  entry_ok (k, v) = true → forallb entry_ok kvs = true → forallb entry_ok (obj_set k v kvs) = true.
Proof.
  intros Hv. induction kvs as [|[k' v'] kvs IH]; cbn [obj_set forallb]; [by rewrite Hv|].
  intros [Hk Hl]%andb_true_iff. case_bool_decide as E; cbn [forallb].
  - subst k'. by rewrite Hv, Hl.
  - by rewrite Hk, IH.
Qed.

Lemma entries_fold (l acc : list (string * jval)) :
  forallb entry_ok l = true → forallb entry_ok acc = true →
  forallb entry_ok (foldl (λ acc kv, obj_set kv.1 kv.2 acc) acc l) = true.
Proof.
  revert acc. induction l as [|[k v] l IH]; intros acc; [done|]. cbn [forallb foldl fst snd].
  intros [Hk Hl]%andb_true_iff Ha. apply IH; [done|]. by apply entries_set.
Qed.

Lemma forallb_take {A} (f : A → bool) n l : forallb f l = true → forallb f (take n l) = true.
Proof.
  rewrite !forallb_forall. intros Hl x Hx. apply Hl.
  rewrite <- (take_drop n l). apply in_or_app. by left.
Qed.

(** A key as it is sent, and the value it carries. *)
Definition sent_entry (depth : nat) (kv : string * jval) : string * jval :=
  (delivery_key kv.1,
   if _is_sensitive_delivery_key (casefold (delivery_key kv.1)) then JStr REDACTED_VALUE
   else _sanitize_delivery_value kv.2 (casefold (delivery_key kv.1)) depth).

Lemma sent_entry_ok depth kv :
  (∀ key, value_ok (_sanitize_delivery_value kv.2 key depth) = true) →
  entry_ok (sent_entry depth kv) = true.
Proof.
  intros Hv. unfold entry_ok, sent_entry. cbn [fst snd]. rewrite delivery_key_ok.
  destruct (_is_sensitive_delivery_key _); [done|apply Hv].
Qed.

Lemma sanitize_value_ok v : ∀ key depth, value_ok (_sanitize_delivery_value v key depth) = true.
Proof.
  induction v as [|b|z|s|l IHl|kvs IHk] using jval_nested_ind; intros key depth; try done.
  - apply sanitize_text_ok.
  - cbn [_sanitize_delivery_value]. destruct (depth <? 4)%nat; [|apply sanitize_text_ok].
    cbn [value_ok]. apply andb_true_iff. split.
    + apply Nat.leb_le. rewrite length_take. lia.
    + apply forallb_take, forallb_forall. intros x Hx%list_elem_of_In.
      apply list_elem_of_fmap in Hx as (y & -> & Hy). rewrite Forall_forall in IHl. by apply IHl.
  - cbn [_sanitize_delivery_value]. destruct (depth <? 4)%nat; [|apply sanitize_text_ok].
    change (forallb entry_ok (foldl (λ acc kv, obj_set kv.1 kv.2 acc) []
      (take 25 (sent_entry (S depth) <$> kvs))) = true).
    apply entries_fold; [|done]. apply forallb_take, forallb_forall. intros x Hx%list_elem_of_In.
    apply list_elem_of_fmap in Hx as (y & -> & Hy). apply sent_entry_ok. intros key'.
    rewrite Forall_forall in IHk. by apply IHk.
Qed.

Lemma sanitize_alert_ok a : value_ok (JObj (_sanitize_alert_for_delivery a)) = true.
Proof.
  change (forallb entry_ok (_sanitize_alert_for_delivery a) = true).
  unfold _sanitize_alert_for_delivery.
  assert (∀ acc, forallb entry_ok acc = true → forallb entry_ok (foldl (λ acc kv,
    obj_set (sent_entry 0 kv).1 (sent_entry 0 kv).2 acc) acc a) = true) as Hf; [|by apply Hf].
  induction a as [|kv a IH]; intros acc Ha; [done|]. cbn [foldl]. apply IH.
  apply entries_set; [|done]. rewrite <- surjective_pairing. apply sent_entry_ok.
  intros key. apply sanitize_value_ok.
Qed.

(** ** What arrives *)

(** An entry that needs no cleaning: a number, a truth value or a text that is
    short and does not look like a secret, under a name that is short and does not
    announce one. *)
Definition harmless_text (s : string) : bool :=
  negb (contains_sensitive_url s) && bool_decide (safe_str s 512 = s)
  && negb (_looks_like_sensitive_delivery_value s).
Definition harmless (kv : string * jval) : bool :=
  bool_decide (delivery_key kv.1 = kv.1) && negb (_is_sensitive_delivery_key (casefold kv.1))
  && match kv.2 with
     | JNull | JBool _ | JInt _ => true
     | JStr s => harmless_text s
     | JList _ | JObj _ => false
     end.

(** [v] reports [a]: an entry for each name, those that need no cleaning as they
    were. *)
Definition reports (a : alert) (v : jval) : Prop :=
  ∃ kvs, v = JObj kvs
    ∧ (∀ k, is_Some (obj_get k kvs) ↔ k ∈ delivery_key <$> a.*1)
    ∧ (NoDup (delivery_key <$> a.*1) → ∀ kv, kv ∈ a → harmless kv = true → obj_get kv.1 kvs = Some kv.2).

Lemma obj_get_set_case k k' v kvs :
  obj_get k (obj_set k' v kvs) = if bool_decide (k = k') then Some v else obj_get k kvs.
Proof.
  induction kvs as [|[k0 v0] kvs IH]; cbn [obj_set obj_get]; [done|].
  destruct (decide (k' = k0)) as [->|Hne].
  - rewrite bool_decide_eq_true_2 by done. cbn [obj_get]. by destruct (bool_decide (k = k0)).
  - rewrite bool_decide_eq_false_2 by done. cbn [obj_get]. rewrite IH.
    destruct (decide (k = k0)) as [->|]; [|by rewrite !(bool_decide_eq_false_2 (k = k0)) by done].
    rewrite !(bool_decide_eq_true_2 (k0 = k0)) by done. by rewrite bool_decide_eq_false_2.
Qed.

Lemma harmless_sent kv : harmless kv = true → sent_entry 0 kv = kv.
Proof.
  destruct kv as [k v]. unfold harmless, sent_entry. cbn [fst snd]. rewrite !andb_true_iff.
  intros [[->%bool_decide_eq_true Hk%negb_true_iff] Hv]. rewrite Hk. f_equal.
  destruct v as [| | |s| |]; try done. cbn [_sanitize_delivery_value]. unfold sanitize_delivery_text.
  unfold harmless_text in Hv. rewrite !andb_true_iff in Hv.
  destruct Hv as [[->%negb_true_iff ->%bool_decide_eq_true] ->%negb_true_iff]. done.
Qed.

Lemma sanitized_reports a : reports a (JObj (_sanitize_alert_for_delivery a)).
Proof.
  eexists. split; [done|].
  change (_sanitize_alert_for_delivery a)
    with (foldl (λ acc kv, obj_set (sent_entry 0 kv).1 (sent_entry 0 kv).2 acc) [] a).
  induction a as [|kv a [IHk IHv]] using rev_ind.
  { split; [|by intros _ kv ?%not_elem_of_nil]. intros k. cbn. split; [by intros []|by intros ?%not_elem_of_nil]. }
  rewrite foldl_app, !fmap_app. cbn [foldl fmap list_fmap]. split.
  - intros k. rewrite obj_get_set_case, elem_of_app, list_elem_of_singleton, <- IHk. cbn [fst sent_entry].
    destruct (decide (k = delivery_key kv.1)) as [E|E].
    + rewrite bool_decide_eq_true_2 by exact E. split; [intros _; right; exact E|intros _; by eexists].
    + rewrite bool_decide_eq_false_2 by exact E. split; [by left|intros [Hs|Hs]; [exact Hs|by destruct E]].
  - intros [Hnd [Hfresh _]]%NoDup_app kv' Hin Hh. rewrite obj_get_set_case.
    apply elem_of_app in Hin as [Hin|Hin]; [|apply list_elem_of_singleton in Hin as ->].
    + rewrite bool_decide_eq_false_2; [by apply IHv|]. intros E. apply (Hfresh kv'.1).
      * apply list_elem_of_fmap. exists kv'.1. split; [|by apply list_elem_of_fmap_2].
        unfold harmless in Hh. rewrite !andb_true_iff in Hh. destruct Hh as [[Hk%bool_decide_eq_true _] _]. by symmetry.
      * apply list_elem_of_singleton. exact E.
    + rewrite (harmless_sent _ Hh). by rewrite bool_decide_eq_true_2.
Qed.

(** C31: a webhook body reports the alerts and no secret.  The body of a generic
    webhook has one object per alert, in their order, with an entry for each name
    of the alert and every entry that needs no cleaning as it was (when no two names
    of the alert are shortened to the same one).  In it, names are cut to 80
    characters; every entry whose name announces a secret is redacted; and every
    text value, at any depth, is the redaction mark or at most 512 characters that
    do not look like a credential, a private key or a long token. *)
Theorem webhook_bodies_are_clean `{Env} alerts provider s body s' :
  provider ≠ "discord" → _alert_webhook_body alerts provider s = (Ok body, s') →
  ∃ generated_at safe,
    body = json_dumps (JObj [("message", JStr "security_alerts");
                             ("generated_at", JStr generated_at); ("alerts", JList safe)])
    ∧ Forall2 reports alerts safe ∧ forallb value_ok safe = true.
Proof.
  intros Hp. unfold _alert_webhook_body. rewrite bool_decide_eq_false_2 by done.
  intros E. inv_bind E. inv_bind E. unfold lift in *. simplify_eq. injection E as <- _.
  eexists _, _. split; [reflexivity|]. rewrite <- list_fmap_compose. split.
  - apply Forall2_fmap_r, Forall_Forall2_diag, Forall_true. exact sanitized_reports.
  - apply forallb_forall. intros x Hx%list_elem_of_In.
    apply list_elem_of_fmap in Hx as (x' & -> & _). apply sanitize_alert_ok.
Qed.

(** ** Deduplication *)

(** [k] is on record as seen, and the record has not expired. *)
Definition live (now : Z) (d : Db) (k : string) : bool :=
  existsb (λ r, record_for k r && (now <? ad_expires_at r))
    (map_to_list (security_alert_dedupe d)).*2.

Lemma live_spec now d k :
  live now d k = true ↔ ∃ id r, security_alert_dedupe d !! id = Some r
    ∧ ad_dedupe_key_hash r = k ∧ now < ad_expires_at r.
Proof.
  unfold live. rewrite existsb_exists. unfold record_for. split.
  - intros (r & Hr%list_elem_of_In & [Hk Hx]%andb_true_iff).
    apply list_elem_of_fmap in Hr as ([id r'] & -> & Hr%elem_of_map_to_list).
    apply bool_decide_eq_true in Hk. apply Z.ltb_lt in Hx. eauto.
  - intros (id & r & Hr & Hk & Hx). exists r. split.
    + apply list_elem_of_In, list_elem_of_fmap. exists (id, r). split; [done|].
      by apply elem_of_map_to_list.
    + rewrite bool_decide_eq_true_2 by done. by apply Z.ltb_lt.
Qed.

(** The reference: an alert passes when its key is not live, and makes it live. *)
Fixpoint pick (is_live : string → bool) (l : list (string * alert)) : list alert :=
  match l with
  | [] => []
  | (k, a) :: rest =>
      if is_live k then pick is_live rest
      else a :: pick (λ j, bool_decide (j = k) || is_live j) rest
  end.

Lemma pick_ext f g l : (∀ k, f k = g k) → pick f l = pick g l.
Proof.
  revert f g. induction l as [|[k a] l IH]; intros f g Hfg; simpl; [done|].
  rewrite <- Hfg. destruct (f k); [by apply IH|]. f_equal. apply IH. intros j. by rewrite Hfg.
Qed.

(** Adding a record for [k], or replacing the one there was. *)
Lemma live_insert now d id r k j :
  ad_dedupe_key_hash r = k → now < ad_expires_at r →
  (∀ r0, security_alert_dedupe d !! id = Some r0 → ad_dedupe_key_hash r0 = k) →
  live now (upd_security_alert_dedupe (insert id r) d) j = bool_decide (j = k) || live now d j.
Proof.
  intros Hk Hx Hold. apply eq_iff_eq_true. rewrite orb_true_iff, !live_spec, bool_decide_eq_true.
  cbn [security_alert_dedupe upd_security_alert_dedupe]. split.
  - intros (i & r' & Hi & Hj & Hr'). apply lookup_insert_Some in Hi as [[-> ->]|[Hne Hi]]; [left|right]; [congruence|eauto].
  - intros [->|(i & r' & Hi & Hj & Hr')]; [exists id, r; by rewrite lookup_insert_eq|].
    destruct (decide (i = id)) as [->|Hne].
    + exists id, r. rewrite lookup_insert_eq. split_and!; [done| |done].
      rewrite Hk, <- (Hold _ Hi). done.
    + exists i, r'. by rewrite lookup_insert_ne.
Qed.

Section Dedupe.
Context `{Env} (now ttl : Z).
Hypothesis ttl_positive : 0 < ttl.

Lemma dedupe_one_spec a s b s' :
  dedupe_one now ttl a s = (Ok b, s') →
  committed s' = committed s ∧
  ∃ k, _alert_dedupe_key_hash a = Ok k ∧ b = negb (live now (working s) k)
    ∧ ∀ j, live now (working s') j = bool_decide (j = k) || live now (working s) j.
Proof.
  assert (now < now + ttl * US_SECOND) as Hn by (unfold US_SECOND; lia).
  unfold dedupe_one. intros E. inv_bind E. unfold lift in E0. injection E0 as Ek <-. rename a0 into k.
  inv_bind E. unfold db_query in E0. injection E0 as Eq <-.
  destruct a0 as [[id r]|].
  - apply one_or_none_Some in Eq as Hr. destruct Hr as [Hr Hk%bool_decide_eq_true].
    assert (live now (working s) k = (now <? ad_expires_at r)) as Hl.
    { apply eq_iff_eq_true. rewrite live_spec, Z.ltb_lt. split; [|eauto 6].
      intros (j & w & Hj & Hw & Hx).
      by rewrite <- (one_or_none_only _ _ _ _ _ _ Eq Hj (proj2 (bool_decide_eq_true _) Hw)). }
    destruct (Z.ltb_spec now (ad_expires_at r)); inv_bind E; unfold db_write, modify in E0;
      injection E0 as _ <-; injection E as <- <-; (split; [done|]); exists k; rewrite Hl;
      (split_and!; [done|done|]); intros j; cbn [working set_working];
      apply live_insert; try done; intros r0 Hr0; simplify_eq; done.
  - assert (live now (working s) k = false) as Hl.
    { apply not_true_iff_false. rewrite live_spec. intros (j & w & Hj & Hw & _).
      pose proof (one_or_none_None _ _ _ _ Eq Hj) as Hf. unfold record_for in Hf.
      by rewrite bool_decide_eq_true_2 in Hf. }
    inv_bind E. unfold db_write, modify in E0. injection E0 as _ <-. injection E as <- <-.
    split; [done|]. exists k. rewrite Hl. split_and!; [done|done|].
    intros j. cbn [working set_working]. rewrite <- (live_insert now (working s)
      (next_id (security_alert_dedupe (working s))) (fresh_record k a now ttl) k j); [done..|].
    intros r0. by rewrite next_id_fresh.
Qed.

Lemma dedupe_loop_spec alerts : ∀ s r s',
  dedupe_loop now ttl alerts s = (Ok r, s') →
  committed s' = committed s ∧
  ∃ keys, mapR _alert_dedupe_key_hash alerts = Ok keys
    ∧ r.1 = pick (live now (working s)) (zip keys alerts)
    ∧ Z.of_nat (length r.1) + r.2 = Z.of_nat (length alerts)
    ∧ ∀ j, live now (working s') j = bool_decide (j ∈ keys) || live now (working s) j.
Proof.
  induction alerts as [|a alerts IH]; intros s r s' E; simpl in E.
  { injection E as <- <-. split; [done|]. by exists []. }
  inv_bind E. inv_bind E. injection E as <- <-.
  apply dedupe_one_spec in E0 as (Hc & k & Hk & -> & Hl).
  apply IH in E1 as (Hc' & keys & Hks & Hr & Hlen & Hl').
  split; [congruence|]. exists (k :: keys). split; [by cbn; rewrite Hk; cbn; rewrite Hks|].
  cbn [zip zip_with pick]. destruct (live now (working s) k) eqn:Elk; cbn [negb fst snd]; split_and!.
  - rewrite Hr. apply pick_ext. intros j. rewrite Hl. case_bool_decide; [subst; by rewrite Elk|done].
  - simpl length. lia.
  - intros j. rewrite Hl', Hl. destruct (decide (j = k)) as [->|Hne].
    + rewrite (bool_decide_eq_true_2 (k ∈ k :: keys)) by set_solver. by rewrite Elk, !orb_true_r.
    + rewrite (bool_decide_eq_false_2 (j = k)) by done. cbn [orb]. f_equal. apply bool_decide_ext. set_solver.
  - f_equal. rewrite Hr. apply pick_ext. intros j. by rewrite Hl.
  - simpl length. lia.
  - intros j. rewrite Hl', Hl. rewrite orb_assoc. f_equal.
    rewrite <- bool_decide_or. apply bool_decide_ext. set_solver.
Qed.

(** The loop moves neither the clock nor the durable rows. *)
Definition untouched (t : Z) (d : Db) (s : St) : Prop := clock s = t ∧ committed s = d.

Lemma dedupe_untouched t d alerts : preserves (untouched t d) (dedupe_loop now ttl alerts).
Proof.
  assert (∀ f, preserves (untouched t d) (db_write f)) as Hw by (by intros f s Hs).
  assert (∀ A (f : Db → res A), preserves (untouched t d) (db_query f)) as Hq by (by intros A f s Hs).
  assert (∀ a, preserves (untouched t d) (dedupe_one now ttl a)) as Hone.
  { intros a. unfold dedupe_one. apply pres_bind; [apply pres_lift|]. intros k.
    apply pres_bind; [apply Hq|]. intros [[id r]|]; [apply pres_if|];
      (apply pres_bind; [apply Hw|]; intros []; apply pres_ret). }
  induction alerts as [|a alerts IH]; [apply pres_ret|]. cbn [dedupe_loop].
  apply pres_bind; [apply Hone|]. intros b. apply pres_bind; [apply IH|]. intros r. apply pres_ret.
Qed.
End Dedupe.

(** C18: deduplication delivers exactly the first alert of every key that is not on
    record as seen.  In a report at the time the call reads from the clock, an
    alert passes when its key has no unexpired record and no alert before it in the
    report has the same key, the others are counted as suppressed; afterwards
    exactly the keys of the report and those seen before are on record, durably.
    A call that fails leaves the records as they were. *)
Theorem dedupe_is_exact `{Env} alerts ttl s :
  0 < ttl →
  let '(r, s') := _dedupe_alerts alerts ttl s in
  match r with
  | Ok (delivered, status) =>
      ∃ keys suppressed, mapR _alert_dedupe_key_hash alerts = Ok keys
        ∧ delivered = pick (live (clock s') (working s)) (zip keys alerts)
        ∧ status = dedupe_status true ttl suppressed
        ∧ Z.of_nat (length delivered) + suppressed = Z.of_nat (length alerts)
        ∧ ∀ k, live (clock s') (committed s') k
                 = bool_decide (k ∈ keys) || live (clock s') (working s) k
  | Raise _ => committed s' = committed s
  end.
Proof.
  intros Httl. unfold _dedupe_alerts, bind at 1, now_utc.
  set (t := clock s + _). set (s0 := next_effect (set_clock t s)).
  assert (untouched t (committed s) s0) as Hs0 by done.
  pose proof (dedupe_untouched t ttl t (committed s) alerts s0 Hs0) as Hu.
  unfold bind at 1. destruct (dedupe_loop t ttl alerts s0) as [[r|e] s1] eqn:El; [|apply Hu].
  apply (dedupe_loop_spec t ttl Httl) in El as (_ & keys & Hk & Hr & Hlen & Hl).
  destruct Hu as [Hclock Hcommitted]. cbn [snd] in Hclock, Hcommitted.
  unfold bind, try_except, commit. destruct (db_ok (working s1)); [|exact Hcommitted].
  cbn. rewrite Hclock. by exists keys, r.2.
Qed.
(** ** The integrity baseline *)

(** Rows are gone, or the highest identifier went back. *)
Definition shrunk (before after : list Z) : bool :=
  (length after <? length before)%nat
  || match max_of before with
     | None => false
     | Some m => (0 <? m) && match max_of after with Some m' => m' <? m | None => true end
     end.

(** The monitored tables that shrank between two states of the database. *)
Definition shrunken (before after : Db) : list string :=
  List.filter (λ table_name, shrunk (table_ids table_name before) (table_ids table_name after))
    DATABASE_INTEGRITY_TABLES.

Definition metrics (ids : list Z) : list (string * jval) :=
  [("count", JInt (Z.of_nat (length ids))); ("max_id", jopt_int (max_of ids))].

(** The baseline file as it is written. *)
Definition baseline (t : Z) (d : Db) : string :=
  json_dumps (JObj (_database_integrity_snapshot t d)) +:+ newline.

Definition reported (current_time : Z) (before after : Db) (table_name : string) : alert :=
  regression_alert table_name (metrics (table_ids table_name before))
    (metrics (table_ids table_name after)) current_time.

Lemma state_int_nat n : _state_int (Some (JInt (Z.of_nat n))) = Z.of_nat n.
Proof. by destruct n. Qed.
Lemma state_optional_int_opt o : _state_optional_int (Some (jopt_int o)) = o.
Proof. by destruct o. Qed.

Lemma regressed_metrics before after :
  regressed (metrics before) (metrics after) = shrunk before after.
Proof.
  assert (∀ l, obj_get "count" (metrics l) = Some (JInt (Z.of_nat (length l)))) as Hcount by done.
  assert (∀ l, obj_get "max_id" (metrics l) = Some (jopt_int (max_of l))) as Hmax by done.
  unfold regressed, shrunk. rewrite !Hcount, !Hmax, !state_int_nat, !state_optional_int_opt. f_equal.
  destruct (Z.ltb_spec (Z.of_nat (length after)) (Z.of_nat (length before)));
    destruct (Nat.ltb_spec (length after) (length before)); lia.
Qed.

Lemma baseline_loads t d :
  json_loads (baseline t d) = Some (JObj (_database_integrity_snapshot t d)).
Proof.
  assert (∀ l, canonical (table_metrics l) = true ∧ distinct_keys (table_metrics l) = true) as Hm.
  { intros l. unfold table_metrics. by destruct (max_of l). }
  unfold baseline. apply json_loads_file; [| |done]; unfold _database_integrity_snapshot, snapshot_tables,
    DATABASE_INTEGRITY_TABLES; cbn [fmap list_fmap canonical distinct_keys forallb snd];
    rewrite ?(proj1 (Hm _)), ?(proj2 (Hm _)); reflexivity.
Qed.

Lemma regression_alerts_spec current_time t0 d0 d :
  _database_integrity_regression_alerts (Some (_database_integrity_snapshot t0 d0))
    (_database_integrity_snapshot current_time d) current_time
  = Ok (reported current_time d0 d <$> shrunken d0 d).
Proof.
  unfold _database_integrity_regression_alerts.
  change (obj_get "tables" (_database_integrity_snapshot ?t ?d)) with (Some (JObj (snapshot_tables d))).
  cbv iota. f_equal. unfold shrunken, DATABASE_INTEGRITY_TABLES. cbn [omap list_omap List.filter].
  change (metrics_of (snapshot_tables ?d) "users") with (Some (metrics (table_ids "users" d))).
  change (metrics_of (snapshot_tables ?d) "security_audit_events")
    with (Some (metrics (table_ids "security_audit_events" d))).
  cbv iota. rewrite !regressed_metrics. by do 2 destruct (shrunk _ _).
Qed.

(** Where the baseline file may be written. *)
Definition usable (path : string) `{Env} : bool :=
  startswith "/" path
  && negb (pf_symlink (path_facts path) || pf_special (path_facts path)
           || pf_parent_unsafe (path_facts path)).

Section Baseline.
Context `{Env} (no_faults : ∀ n path, file_fault n path = None).

Lemma file_step_ok path s : file_step path s = (Ok tt, next_effect s).
Proof. unfold file_step, bind, fresh. by rewrite no_faults. Qed.

Lemma load_baseline path t d s :
  files s !! path = Some (baseline t d) →
  _load_database_integrity_state path s = (Ok (Some (_database_integrity_snapshot t d)), next_effect s).
Proof.
  intros Hp. unfold _load_database_integrity_state, read_text, bind, try_except.
  rewrite file_step_ok. cbn [gets]. unfold gets. cbn [files next_effect]. rewrite Hp. cbn.
  by rewrite baseline_loads.
Qed.

Lemma write_baseline path t d s :
  usable path = true →
  ∃ s', _write_database_integrity_state path (_database_integrity_snapshot t d) s = (Ok tt, s')
    ∧ files s' !! path = Some (baseline t d)
    ∧ working s' = working s ∧ committed s' = committed s.
Proof.
  unfold usable. rewrite !negb_orb. intros [Ha [[Hl Hs]%andb_true_iff Hu]%andb_true_iff]%andb_true_iff.
  apply negb_true_iff in Hl, Hs, Hu.
  unfold _write_database_integrity_state, _validate_security_state_path, file_exists.
  unfold bind, gets. rewrite Ha, Hl, Hs, Hu, !andb_false_r. cbn [negb ret].
  unfold try_except, write_text, move_file, bind, modify, gets, ret. rewrite !file_step_ok.
  cbn [files next_effect set_files]. rewrite lookup_insert_eq. cbn [files next_effect set_files].
  rewrite ?file_step_ok. eexists. split; [reflexivity|]. cbn. by rewrite lookup_insert_eq.
Qed.
End Baseline.

(** C19: a monitored table that shrinks is reported until it has grown back or the
    baseline is replaced.  With the baseline of database [d0] on file and no file
    faults, a check raises one regression alert for each monitored table that has
    fewer rows or a lower highest identifier than in [d0], and no other; while
    there is one the baseline stays, and otherwise an updating check replaces it
    with the row counts of today.  The database is not changed. *)
Theorem shrinking_is_reported `{Env} path t0 d0 current_time update s :
  (∀ n p, file_fault n p = None) → _configured_alert_state_path = Some path →
  usable path = true → files s !! path = Some (baseline t0 d0) →
  let lost := shrunken d0 (working s) in
  ∃ status s',
    _database_integrity_alerts current_time update s
      = (Ok (reported current_time d0 (working s) <$> lost, status), s')
    ∧ obj_get "valid" status = Some (JBool (bool_decide (lost = [])))
    ∧ files s' !! path = Some (if update && bool_decide (lost = [])
                               then baseline current_time (working s) else baseline t0 d0)
    ∧ working s' = working s ∧ committed s' = committed s.
Proof.
  intros Hf Hc Hu Hb lost. unfold _database_integrity_alerts. rewrite Hc.
  unfold db_get, gets, bind at 1. unfold bind at 1, try_except at 1, bind at 1.
  rewrite (load_baseline Hf _ _ _ _ Hb). cbn [ret]. unfold ret at 1, bind at 1, lift.
  rewrite regression_alerts_spec. cbn [id]. fold lost. destruct lost as [|table_name lost'].
  - destruct update; [|eexists _, _; split; [reflexivity|by split_and!]].
    destruct (write_baseline Hf path current_time (working s) (next_effect s) Hu)
      as (s' & Hw & Hb' & Hdb). cbn [fmap list_fmap]. unfold try_except, bind. cbn [id].
    rewrite Hw. eexists _, _. split; [reflexivity|].
    split; [reflexivity|]. split; [exact Hb'|exact Hdb].
  - rewrite bool_decide_eq_false_2, andb_false_r by done. eexists _, _. split; [reflexivity|].
    by split_and!.
Qed.

(** ** Instances *)

Definition alert_env : Env :=
  Sample.deployment_with
    (λ name, if bool_decide (name = "SECURITY_ALERT_STATE_PATH") then Some (JStr "/var/lib/alerts.json")
             else Sample.sample_config name)
    (λ k m, k +:+ m) (λ _, "token") None.

Definition login_alert : alert :=
  _alert "failed_login_spike" Sample.noon "high" 12 300 "ip:203.0.113.7"
    [("session_id", JStr "sid-1"); ("detail", JStr "bearer abcdefgh")].
Definition lock_alert : alert := _alert "account_lock" Sample.noon "medium" 1 0 "user:7" [].

Lemma webhook_bodies_are_clean_witness :
  let run := @_alert_webhook_body alert_env [login_alert] "generic" Sample.sample_state in
  ∃ body, run.1 = Ok body ∧ ∃ generated_at kvs,
    body = json_dumps (JObj [("message", JStr "security_alerts");
                             ("generated_at", JStr generated_at); ("alerts", JList [JObj kvs])])
    ∧ obj_get "source" kvs = Some (JStr "ip:203.0.113.7") ∧ value_ok (JObj kvs) = true.
Proof.
  intros run. destruct run.1 as [body|e] eqn:E; [|vm_compute in E; discriminate E].
  exists body. split; [reflexivity|].
  destruct (@webhook_bodies_are_clean alert_env [login_alert] "generic" Sample.sample_state body run.2)
    as (t & safe & Hb & Hr & Hv).
  - discriminate.
  - exact (eq_trans (surjective_pairing run) (f_equal (λ r, (r, run.2)) E)).
  - apply Forall2_cons_inv_l in Hr as (v & l & (kvs & -> & _ & Hk) & Hl & ->).
    apply Forall2_nil_inv_l in Hl as ->. exists t, kvs. split; [exact Hb|]. split.
    + apply (Hk ltac:(apply (bool_decide_unpack _); vm_compute; exact I) ("source", JStr "ip:203.0.113.7")).
      * apply (list_elem_of_lookup_2 _ 4). vm_compute. reflexivity.
      * vm_compute. reflexivity.
    + apply andb_true_iff in Hv as [Hv _]. exact Hv.
Defined.

(** The repeat within the report is suppressed. *)
Lemma dedupe_is_exact_witness :
  let run := @_dedupe_alerts alert_env [login_alert; lock_alert; login_alert] 300 Sample.sample_state in
  run.1 = Ok ([login_alert; lock_alert], dedupe_status true 300 1)
  ∧ ∃ keys, length keys = 3%nat ∧ ∀ k, live (clock run.2) (committed run.2) k
      = bool_decide (k ∈ keys) || live (clock run.2) (working Sample.sample_state) k.
Proof.
  intros run.
  assert (run.1 = Ok ([login_alert; lock_alert], dedupe_status true 300 1)) as E
    by (vm_compute; reflexivity).
  split; [exact E|].
  pose proof (@dedupe_is_exact alert_env [login_alert; lock_alert; login_alert] 300
    Sample.sample_state eq_refl) as Hd. fold run in Hd.
  rewrite (surjective_pairing run) in Hd. rewrite E in Hd.
  destruct Hd as (keys & suppressed & Hk & _ & _ & _ & Hl). exists keys. split; [|exact Hl].
  assert (match mapR (@_alert_dedupe_key_hash alert_env) [login_alert; lock_alert; login_alert] with
          | Ok l => length l = 3%nat | Raise _ => False end) as Hn by (vm_compute; reflexivity).
  rewrite Hk in Hn. exact Hn.
Defined.

(** One of the two customers is gone. *)
Definition fewer_users : Db := upd_users (delete 2) Sample.sample_db.

Lemma shrinking_is_reported_witness :
  let s := set_files {["/var/lib/alerts.json" := baseline Sample.noon Sample.sample_db]}
             (set_working fewer_users Sample.sample_state) in
  shrunken Sample.sample_db fewer_users = ["users"]
  ∧ ∃ status s', @_database_integrity_alerts alert_env (Sample.noon + 60) true s
      = (Ok ([reported (Sample.noon + 60) Sample.sample_db fewer_users "users"], status), s')
    ∧ files s' !! "/var/lib/alerts.json" = Some (baseline Sample.noon Sample.sample_db).
Proof.
  intros s.
  assert (shrunken Sample.sample_db fewer_users = ["users"]) as Hs by (vm_compute; reflexivity).
  split; [exact Hs|].
  destruct (@shrinking_is_reported alert_env "/var/lib/alerts.json" Sample.noon Sample.sample_db
    (Sample.noon + 60) true s) as (status & s' & Hr & _ & Hf & _ & _).
  - reflexivity.
  - vm_compute. reflexivity.
  - vm_compute. reflexivity.
  - apply lookup_singleton_eq.
  - change (working s) with fewer_users in Hr, Hf. rewrite Hs in Hr, Hf. exists status, s'.
    split; [exact Hr|exact Hf].
Defined.

End AlertSafety.
