(* ===== verification/ProductionGuard.v ===== *)
(** * The production guard ([app/security/production_guard.py])

    Before a production process serves requests it validates its configuration,
    its database role and its routes, and refuses to start with a list of
    failures; the readiness probes and an operator command run the same
    validation.  A check adds failures and details to the result.  What the
    process finds around it (the registered endpoints, whether a statement fails
    at the database, the privileges of its role) is a parameter. *)

From S2P Require Import Prelude PyStr PyDecimal TimeModel Schema Json Runtime Turnstile Passwords.
From S2P Require Import Identity Integrity SessionPayload AuditLog CloudflareAccess.
From S2P Require Import Alerts AlertDelivery ConfigRules.
From Stdlib Require Import Ascii.
Open Scope string_scope.
Open Scope Z_scope.

Module ProductionGuard.
Import SessionPayload Turnstile Passwords Identity Ledger SessionHmac Audit CloudflareAccess AlertDelivery ConfigRules.

(** ** Results *)

Record ProductionReadinessResult : Type := mkResult {
  failures : list string;
  details : list (string * jval)
}.
Definition ready (r : ProductionReadinessResult) : bool := bool_decide (failures r = []).

Definition failing (l : list string) : ProductionReadinessResult := mkResult l [].
Definition noting (name : string) (v : jval) : ProductionReadinessResult := mkResult [] [(name, v)].
Definition both (a b : ProductionReadinessResult) : ProductionReadinessResult :=
  mkResult (failures a ++ failures b) (details a ++ details b).

(** The privileges the runtime role reports. *)
Record Privileges : Type := mkPrivileges {
  database_create : bool; schema_create : bool; owns_schema_object : bool;
  audit_update : bool; audit_delete : bool; audit_truncate : bool
}.
(** What surrounds the process: the endpoints of [app.url_map], the class of the
    exception a check of the database meets, the privileges (or the class of the
    exception), [app.testing]. *)
Record Site : Type := mkSite {
  endpoints : list string;
  probe : string → option string;
  privileges : string + Privileges;
  testing : bool
}.

Definition PRIVILEGED_ACCOUNT_TYPES : list string := ["staff"; "admin"; "root_admin"].
Definition TURNSTILE_ACTION_FLAGS_BY_APP_MODE : list (string * list string) :=
  [("customer", ["TURNSTILE_CUSTOMER_LOGIN_ENABLED"; "TURNSTILE_CUSTOMER_REGISTER_OTP_ENABLED";
                 "TURNSTILE_CUSTOMER_REGISTER_ENABLED"; "TURNSTILE_CUSTOMER_PASSWORD_RESET_ENABLED";
                 "TURNSTILE_CUSTOMER_MANUAL_RECOVERY_ENABLED"]);
   ("admin", ["TURNSTILE_ADMIN_LOGIN_ENABLED"; "TURNSTILE_ADMIN_INVITE_ACCEPT_ENABLED"])].

(** [str(exc)]. *)
Definition exn_text (e : exn) : string :=
  match e with RuntimeError message | ValueError message => message | _ => "" end.
Definition _failure (label : string) (e : exn) : ProductionReadinessResult :=
  failing [label +:+ " failed (" +:+ exn_class e +:+ ")"].

(** [value is True], and [value is False]. *)
Definition is_false (v : option jval) : bool := match v with Some (JBool b) => negb b | _ => false end.

Section Guard.
Context `{Env} (site : Site).

Definition combine (c1 c2 : M St ProductionReadinessResult) : M St ProductionReadinessResult :=
  a <- c1 ;; b <- c2 ;; ret (both a b).
Definition in_order (l : list (M St ProductionReadinessResult)) : M St ProductionReadinessResult :=
  foldr combine (ret (failing [])) l.
Definition plain (r : ProductionReadinessResult) : M St ProductionReadinessResult := ret r.

(** [try: c except Exception as exc: ... else: ...]. *)
Definition checking {A} (c : M St A) (bad : exn → ProductionReadinessResult)
    (good : A → ProductionReadinessResult) : M St ProductionReadinessResult :=
  try_except (a <- c ;; ret (good a)) any_exn (λ e, ret (bad e)).
Definition silent {A} (_ : A) : ProductionReadinessResult := failing [].

Definition is_production_app : bool :=
  bool_decide (casefold (strip (config_str_or_empty "APP_ENV")) = "production").

(** [_int_config]: [None] for what is not an integer. *)
Definition _int_config (key : string) : option Z :=
  match py_int (config key) with Ok z => Some z | Raise _ => None end.

(** ** Mode and routes *)

Definition _validate_admin_mode_and_routes : M St ProductionReadinessResult :=
  root_admin_failures <- lift (root_admin_email_allowlist_failures
    (or_nothing (config "ROOT_ADMIN_EMAILS")) (or_nothing (config "ADMIN_ALLOWED_EMAIL_DOMAINS")) true
    (_required_root_admin_email_count (config_str_or_empty "DEPLOYMENT_TARGET"))) ;;
  ret (failing
    (fails_if (negb (is_true (config "ADMIN_AUTH_ENABLED"))) "Admin authentication must be enabled"
     ++ fails_if (negb (is_text "__Host-sitbank_admin_session" (config "SESSION_COOKIE_NAME")))
          "Admin session cookie name must be isolated"
     ++ fails_if (negb (startswith "admin-" (config_str_or_empty "SESSION_KEY_PREFIX")))
          "Admin session key prefix must be isolated"
     ++ fails_if (negb (startswith "ospbank:admin:" (config_str_or_empty "AUTH_FAILURE_KEY_PREFIX")))
          "Admin auth security-state prefix must be isolated"
     ++ fails_if (negb (startswith "ospbank:admin:" (config_str_or_empty "RATELIMIT_KEY_PREFIX")))
          "Admin rate-limit key prefix must be isolated"
     ++ root_admin_failures
     ++ fails_if (existsb (λ endpoint, existsb (λ p, startswith p endpoint)
                                         ["auth."; "web."; "banking."; "main."]) (endpoints site))
          "Admin runtime must not register customer routes")%list).

Definition _validate_customer_mode_and_routes : ProductionReadinessResult :=
  failing
    (fails_if (negb (is_false (config "ADMIN_AUTH_ENABLED")))
       "Customer runtime must not enable admin authentication"
     ++ fails_if (is_text "__Host-sitbank_admin_session" (config "SESSION_COOKIE_NAME"))
          "Customer session cookie name must not collide with admin"
     ++ fails_if (startswith "admin-" (config_str_or_empty "SESSION_KEY_PREFIX"))
          "Customer session key prefix must not use the admin namespace"
     ++ fails_if (existsb (startswith "admin.") (endpoints site))
          "Customer runtime must not register admin routes")%list.

Definition _validate_mode_and_route_isolation (requested_mode : string) : M St ProductionReadinessResult :=
  let configured_mode := casefold (strip (config_str_or_empty "APP_MODE")) in
  if negb (str_in requested_mode ["customer"; "admin"])
  then plain (failing ["Runtime app mode is invalid"])
  else combine
    (plain (failing (fails_if (negb (bool_decide (configured_mode = requested_mode)))
                       "APP_MODE does not match the runtime app mode")))
    (if bool_decide (requested_mode = "admin") then _validate_admin_mode_and_routes
     else plain _validate_customer_mode_and_routes).

(** ** The database *)

(** The pending work of the session is dropped. *)
Definition _database_failure (label class_name : string) : M St ProductionReadinessResult :=
  _ <- rollback ;; ret (failing [label +:+ " failed (" +:+ class_name +:+ ")"]).

Definition table_labels (app_mode : string) : list string :=
  (["users table"; "server_side_sessions table"; "auth_attempt_counters table";
    "totp_replay_records table"; "password_reset_tokens table"; "password_reset_transactions table";
    "password_history table"; "security_alert_dedupe table"; "security_circuit_breakers table";
    "security_audit_events table"]
   ++ if bool_decide (app_mode = "admin") then ["staff_invites table"; "admin_action_requests table"]
      else [])%list.
Fixpoint check_tables (labels : list string) : M St ProductionReadinessResult :=
  match labels with
  | [] => ret (failing [])
  | label :: rest =>
      match probe site label with
      | Some class_name => _database_failure (label +:+ " access check") class_name
      | None => check_tables rest
      end
  end.
Definition _validate_database_connectivity_and_tables (app_mode : string) : M St ProductionReadinessResult :=
  match probe site "SELECT 1" with
  | Some class_name => _database_failure "PostgreSQL connectivity check" class_name
  | None => check_tables (table_labels app_mode)
  end.

Definition noncompliant_accounts (d : Db) : res Z :=
  rbind (mapR (λ ku : Z * User, is_privileged_workplace_email (u_email ku.2))
           (rows_where (λ u, str_in (u_account_type u) PRIVILEGED_ACCOUNT_TYPES) (users d))) (λ compliant,
    Ok (Z.of_nat (length (List.filter negb compliant)))).
Definition _record_privileged_email_compliance (app_mode : string) : M St ProductionReadinessResult :=
  if negb (bool_decide (app_mode = "admin")) then plain (failing []) else
  match probe site "privileged emails" with
  | Some class_name => _database_failure "privileged email compliance report" class_name
  | None =>
      count <- db_query noncompliant_accounts ;;
      ret (noting "privileged_email_noncompliant_accounts" (JInt count))
  end.

Definition _validate_runtime_database_privileges : M St ProductionReadinessResult :=
  if testing site then plain (failing [])
  else if negb postgresql then plain (failing ["Runtime database must use PostgreSQL"])
  else match privileges site with
       | inl class_name => _database_failure "Runtime database privilege check" class_name
       | inr p => plain (failing
           (fails_if (database_create p || schema_create p || owns_schema_object p)
              "Runtime DB role must not be able to mutate schema objects"
            ++ fails_if (audit_update p || audit_delete p || audit_truncate p)
                 "Runtime DB role must not mutate security audit events")%list)
       end.

(** ** Passwords and mail *)

Definition _validate_password_length_policy : M St ProductionReadinessResult :=
  checking (lift (_validate_password_length_config (config_str_or_empty "APP_ENV")
                    (config "PASSWORD_MIN_LENGTH") (config "PASSWORD_MAX_CHARS")))
    (λ e, failing ["Password length configuration check failed: " +:+ exn_text e])
    (λ _, match py_int (config "PASSWORD_MIN_LENGTH") with
          | Ok minimum => both (noting "password_min_length" (JInt minimum))
              (failing (fails_if (minimum <? MIN_PRODUCTION_PASSWORD_LENGTH)
                 ("PASSWORD_MIN_LENGTH must be at least " +:+ pretty MIN_PRODUCTION_PASSWORD_LENGTH
                  +:+ " in production")))
          | Raise _ => failing []
          end).
Definition _validate_password_policy : M St ProductionReadinessResult :=
  in_order
    [_validate_password_length_policy;
     checking (lift (_validate_password_history_config (config "PASSWORD_HISTORY_ENABLED")
                       (config "PASSWORD_HISTORY_RETENTION_COUNT")))
       (λ e, failing ["Password history configuration check failed: " +:+ exn_text e])
       (λ _, match py_int (config "PASSWORD_HISTORY_RETENTION_COUNT") with
             | Ok count => noting "password_history_retention_count" (JInt count)
             | Raise _ => failing []
             end);
     checking (lift validate_common_password_dictionary) (_failure "Common password dictionary check")
       (λ entries, both (noting "common_password_dictionary_entries" (JInt entries))
          (failing (fails_if (entries <? 100000)
             "Common password dictionary must contain at least 100000 entries")));
     checking (lift validate_password_hash_config) (_failure "Password hash configuration check") silent].

Definition _validate_email_transport_policy : M St ProductionReadinessResult :=
  checking (lift (_validate_smtp_transport_config (config_str_or_empty "APP_ENV")
                    (config_str_or_empty "DEPLOYMENT_TARGET")
                    (config_str_or_empty "PASSWORD_RESET_EMAIL_BACKEND") (otruthy (config "SMTP_USE_TLS"))))
    (λ e, failing ["SMTP transport configuration check failed: " +:+ exn_text e]) silent.

(** ** Sessions and second factors *)

Definition session_limits : jval :=
  let limit name := match config_int_default name 1 with Ok z => JInt z | Raise _ => JNull end in
  JObj [("customer", limit "CUSTOMER_MAX_ACTIVE_SESSIONS"); ("admin", limit "ADMIN_MAX_ACTIVE_SESSIONS")].
Definition _validate_session_policy (app_mode : string) : M St ProductionReadinessResult :=
  in_order
    [plain (failing (fails_if (negb (is_text "database" (config "SESSION_TYPE")))
                       "SESSION_TYPE must remain database-backed"
                     ++ fails_if (negb (SESSION_PAYLOAD_FORMAT_VERSION =? 2))
                          "Database session payload integrity format is unsupported")%list);
     checking (lift validate_session_hmac_config) (_failure "Session HMAC configuration check")
       (λ n, noting "session_hmac_key_count" (JInt n));
     plain (failing
       (fails_if (match session_lookup_hmac_key with Some key => negb (slen key =? 32)%nat | None => true end)
          "SESSION_LOOKUP_HMAC_KEY must be configured as 32 bytes"
        ++ fails_if (negb (is_true (config "SESSION_COOKIE_SECURE"))) "SESSION_COOKIE_SECURE must be enabled"
        ++ fails_if (negb (is_true (config "SESSION_COOKIE_HTTPONLY")))
             "SESSION_COOKIE_HTTPONLY must be enabled"
        ++ fails_if (negb (is_text "Strict" (config "SESSION_COOKIE_SAMESITE")))
             "SESSION_COOKIE_SAMESITE must be Strict"
        ++ fails_if (bool_decide (app_mode = "customer")
                     && negb (is_text "__Host-sitbank_session" (config "SESSION_COOKIE_NAME")))
             "Customer session cookie name must be isolated")%list);
     checking (lift (_validate_active_session_limit_config (config "CUSTOMER_MAX_ACTIVE_SESSIONS")
                       (config "ADMIN_MAX_ACTIVE_SESSIONS")))
       (λ e, failing ["Active session limit configuration check failed: " +:+ exn_text e])
       (λ _, noting "max_active_sessions" session_limits)].

(** [key in keys]: a list or a dict cannot be hashed. *)
Definition identifies (active_id : option jval) (keys : list (string * string)) : res bool :=
  match active_id with
  | Some (JStr s) => Ok (bool_decide (is_Some (assoc s keys)))
  | Some (JList _) | Some (JObj _) => Raise TypeError
  | _ => Ok false
  end.
Definition _validate_mfa_policy : M St ProductionReadinessResult :=
  keys <- match mfa_kek_keys with
          | [] => ret (failing ["MFA_KEK_KEYS_JSON must configure at least one MFA KEK"])
          | _ =>
              found <- lift (identifies (config "MFA_KEK_ACTIVE_ID") mfa_kek_keys) ;;
              ret (if (found : bool) then noting "mfa_kek_count" (JInt (Z.of_nat (length mfa_kek_keys)))
                   else failing ["MFA_KEK_ACTIVE_ID must identify a configured MFA KEK"])
          end ;;
  ret (both keys (failing
    (fails_if (match _int_config "TOTP_LOGIN_VALID_WINDOW" with
               | Some window => negb ((window =? 0) || (window =? 1))
               | None => true
               end) "TOTP_LOGIN_VALID_WINDOW must be 0 or 1"
     ++ fails_if (match _int_config "TOTP_HIGH_RISK_VALID_WINDOW" with
                  | Some window => negb (window =? 0)
                  | None => true
                  end) "TOTP_HIGH_RISK_VALID_WINDOW must be 0"
     ++ fails_if (match _int_config "FRESH_MFA_SECONDS" with
                  | Some seconds => (seconds <? 60) || (15 * 60 <? seconds)
                  | None => true
                  end) "FRESH_MFA_SECONDS must be between 60 and 900")%list)).

Definition _validate_alert_and_audit_policy : M St ProductionReadinessResult :=
  in_order
    [checking (validate_security_alert_config true) (_failure "Security alert configuration check")
       (λ c, noting "security_alerting"
          (JObj [("enabled", JBool (cfg_enabled c)); ("min_severity", JStr (cfg_min_severity c));
                 ("dedupe_ttl_seconds", JInt (cfg_dedupe_ttl_seconds c))]));
     checking (lift validate_audit_integrity_config) (_failure "Audit integrity configuration check")
       (λ n, noting "audit_hmac_key_length" (JInt n));
     checking (lift validate_transaction_integrity_config)
       (_failure "Transaction ledger HMAC configuration check")
       (λ n, noting "transaction_ledger_hmac_key_count" (JInt n))].

(** ** The edge *)

Definition _validate_password_hash_strength : ProductionReadinessResult :=
  failing (fails_if (match _int_config "PASSWORD_PBKDF2_ITERATIONS" with
                     | Some iterations => iterations <? 600000
                     | None => true
                     end) "PASSWORD_PBKDF2_ITERATIONS must be 600000 or higher").
Definition _validate_runtime_boundary_settings : ProductionReadinessResult :=
  failing
    (fails_if (negb is_production_app) "APP_ENV must be production"
     ++ fails_if (otruthy (config "SQLALCHEMY_MIGRATION_DATABASE_URI"))
          "DATABASE_MIGRATION_URL must not be configured for the runtime app"
     ++ fails_if (slen (config_str_or_empty "WTF_CSRF_SECRET_KEY") <? 32)%nat
          "WTF_CSRF_SECRET_KEY must be at least 32 characters"
     ++ fails_if (match _int_config "TRUSTED_PROXY_COUNT" with Some n => negb (n =? 1) | None => true end)
          "TRUSTED_PROXY_COUNT must be 1 for the single Nginx proxy boundary")%list.
Definition _validate_request_security_settings : ProductionReadinessResult :=
  failing
    (fails_if (negb (is_true (config "WTF_CSRF_ENABLED"))) "WTF_CSRF_ENABLED must be enabled"
     ++ fails_if (negb (is_true (config "WTF_CSRF_CHECK_DEFAULT"))) "WTF_CSRF_CHECK_DEFAULT must be enabled"
     ++ fails_if (negb (is_true (config "TALISMAN_FORCE_HTTPS"))) "TALISMAN_FORCE_HTTPS must be enabled")%list.
Definition _validate_rate_limit_storage_policy : ProductionReadinessResult :=
  failing (fails_if (negb (startswith "memory://" (config_str_or_empty "RATELIMIT_STORAGE_URI")))
    ("Flask-Limiter storage must remain non-authoritative; "
     +:+ "DB-backed auth counters enforce security limits")).
Definition _validate_cloudflare_access_policy : M St ProductionReadinessResult :=
  checking (lift (validate_cloudflare_access_config (config_str_or_empty "APP_MODE")))
    (_failure "Cloudflare Access assertion configuration check") silent.

Definition _validate_turnstile_action_flags : ProductionReadinessResult :=
  let app_mode := casefold (strip (config_str_or_empty "APP_MODE")) in
  failing (flat_map (λ flag, fails_if (negb (is_true (config flag))) (flag +:+ " must be true"))
    (default [] (assoc app_mode TURNSTILE_ACTION_FLAGS_BY_APP_MODE))).
Definition _validate_turnstile_policy : M St ProductionReadinessResult :=
  in_order
    [checking (lift (_validate_turnstile_verify_url (config_str_or_empty "APP_ENV")
                       (config_str_or_empty "DEPLOYMENT_TARGET") (config_str_or_empty "TURNSTILE_VERIFY_URL")))
       (λ e, failing ["Turnstile verifier configuration check failed: " +:+ exn_text e]) silent;
     plain (failing
       (fails_if (negb (is_true (config "TURNSTILE_ENABLED")))
          "TURNSTILE_ENABLED must be true for production-like runtimes"
        ++ fails_if (negb (is_true (config "TURNSTILE_FAIL_CLOSED_IN_PRODUCTION")))
             "TURNSTILE_FAIL_CLOSED_IN_PRODUCTION must be true"
        ++ fails_if (is_true (config "TURNSTILE_ALLOW_TEST_ACTION")
                     && negb (bool_decide (casefold (strip (config_str_or_empty "DEPLOYMENT_TARGET")) = "smoke")))
             "TURNSTILE_ALLOW_TEST_ACTION must be false outside smoke"
        ++ fails_if (negb (nonempty (strip (config_str_or_empty "TURNSTILE_SITE_KEY"))))
             "TURNSTILE_SITE_KEY must be configured"
        ++ fails_if (negb (nonempty (strip (config_str_or_empty "TURNSTILE_SECRET_KEY"))))
             "TURNSTILE_SECRET_KEY must be configured")%list);
     plain _validate_turnstile_action_flags].

(** [frozenset(str(value or "").strip().casefold() ... if ...)]. *)
Definition domain_set (name : string) : res (list string) :=
  rbind (iterate (or_nothing (config name))) (λ items,
    Ok (List.filter nonempty ((λ v, casefold (strip (item_text v))) <$> items))).
(** [frozenset(values)]: the strings among them. *)
Definition hashed_strings (items : list jval) : res (list string) :=
  rbind (mapR (λ v, match v with
                    | JStr s => Ok [s]
                    | JList _ | JObj _ => Raise TypeError
                    | _ => Ok []
                    end) items) (λ l, Ok (concat l)).
Definition _validate_registration_identity_policy : M St ProductionReadinessResult :=
  plus_domains <- lift (domain_set "CUSTOMER_EMAIL_PLUS_ALIAS_DOMAINS") ;;
  dot_domains <- lift (domain_set "CUSTOMER_EMAIL_DOT_INSENSITIVE_DOMAINS") ;;
  temp_domains <- lift (domain_set "CUSTOMER_TEMP_EMAIL_DOMAINS") ;;
  workplace_domains <- lift (rbind (iterate (or_nothing (config "ADMIN_ALLOWED_EMAIL_DOMAINS")))
                               hashed_strings) ;;
  ret (failing
    (fails_if (bool_decide (plus_domains = [])) "CUSTOMER_EMAIL_PLUS_ALIAS_DOMAINS must be configured"
     ++ fails_if (bool_decide (dot_domains = []) || negb (forallb (λ d, str_in d plus_domains) dot_domains))
          ("CUSTOMER_EMAIL_DOT_INSENSITIVE_DOMAINS must be a non-empty subset "
           +:+ "of CUSTOMER_EMAIL_PLUS_ALIAS_DOMAINS")
     ++ fails_if (bool_decide (temp_domains = [])) "CUSTOMER_TEMP_EMAIL_DOMAINS must be configured"
     ++ fails_if (existsb (λ d, str_in d workplace_domains) temp_domains)
          "CUSTOMER_TEMP_EMAIL_DOMAINS must not include workplace domains")%list).

Definition _validate_edge_policy : M St ProductionReadinessResult :=
  in_order
    [plain _validate_password_hash_strength; plain _validate_runtime_boundary_settings;
     plain _validate_request_security_settings; plain _validate_rate_limit_storage_policy;
     _validate_cloudflare_access_policy; _validate_turnstile_policy;
     _validate_registration_identity_policy].

Definition _validate_lifetime_policy : M St ProductionReadinessResult :=
  in_order
    [checking (lift (_validate_payee_cooldown_config (config_str_or_empty "APP_ENV")
                       (config "PAYEE_COOLDOWN_SECONDS")
                       (match config "MIN_PRODUCTION_PAYEE_COOLDOWN_SECONDS" with
                        | Some v => Some v
                        | None => Some (JInt MIN_PRODUCTION_PAYEE_COOLDOWN_SECONDS)
                        end)))
       (λ e, failing ["Payee cooldown configuration check failed: " +:+ exn_text e]) silent;
     checking (lift (_validate_session_absolute_lifetime_config
                       (config "CUSTOMER_SESSION_ABSOLUTE_LIFETIME_SECONDS")
                       (config "ADMIN_SESSION_ABSOLUTE_LIFETIME_SECONDS")
                       (config "CUSTOMER_PENDING_MFA_MAX_AGE_SECONDS")
                       (config "ADMIN_PENDING_MFA_MAX_AGE_SECONDS")))
       (λ e, failing ["Session absolute lifetime configuration check failed: " +:+ exn_text e]) silent].

(** ** The guard *)

Definition validate_production_security_prerequisites (app_mode : string)
    : M St ProductionReadinessResult :=
  let requested_mode := casefold (strip app_mode) in
  in_order
    [_validate_mode_and_route_isolation requested_mode;
     _validate_database_connectivity_and_tables requested_mode;
     _validate_password_policy; _validate_email_transport_policy;
     _validate_session_policy requested_mode; _validate_mfa_policy;
     _validate_alert_and_audit_policy; _validate_edge_policy; _validate_lifetime_policy;
     _validate_runtime_database_privileges; _record_privileged_email_compliance requested_mode].

Definition enforce_production_startup_guard (app_mode : string) : M St unit :=
  if negb is_production_app then ret tt else
  result <- validate_production_security_prerequisites app_mode ;;
  if ready result then ret tt
  else raise (ProductionStartupSecurityError
    ("Production startup security guard failed: " +:+ join "; " (failures result)
     +:+ ". Run flask production-check for details.")).

(** The readiness probe of either application: the JSON answer and its status. *)
Definition health_ready (app_mode : string) : M St (list (string * jval) * Z) :=
  let mode := if bool_decide (app_mode = "admin") then [("app_mode", JStr "admin")] else [] in
  let available := ((("status", JStr "ready") :: mode), 200) in
  let unavailable := ((("status", JStr "unavailable") :: mode), 503) in
  if is_production_app then
    result <- validate_production_security_prerequisites app_mode ;;
    ret (if ready result then available else unavailable)
  else match probe site "SELECT 1" with
       | None => ret available
       | Some _ => _ <- rollback ;; ret unavailable
       end.

(** The operator's command: the details it prints, by name, the failures it
    reports, and whether it exits with success. *)
Definition production_check : M St (list (string * jval) * list string * bool) :=
  let configured := config_str_or_empty "APP_MODE" in
  result <- validate_production_security_prerequisites (if nonempty configured then configured else "customer") ;;
  ret (sort_by (λ a b, str_leb a.1 b.1) (details result), failures result, ready result).
End Guard.
End ProductionGuard.
