(* ===== verification/ProductionSafety.v ===== *)
(** * What a production process that started has been checked for

    The production guard lets a process start only when every check passed; this
    file says what that means for the settings the rest of the program reads, and
    that the challenges of such a process are those of the official service. *)

From S2P Require Import Prelude PyStr Base64 PyDecimal TimeModel Schema Json Runtime Turnstile Passwords.
From S2P Require Import Identity Integrity SessionPayload AuditLog CloudflareAccess.
From S2P Require Import Alerts AlertDelivery ConfigRules ProductionGuard Sample.
From Stdlib Require Import Ascii.
Open Scope string_scope.
Open Scope Z_scope.

Module ProductionSafety.
Import SessionPayload Turnstile Passwords Identity Ledger SessionHmac Audit CloudflareAccess AlertDelivery.
Import ConfigRules ProductionGuard.

(** ** A check that passes *)

(** The check ran to its end without a failure. *)
Definition passes (c : M St ProductionReadinessResult) : Prop :=
  ∃ s r s', c s = (Ok r, s') ∧ failures r = [].

Lemma passes_plain r : passes (plain r) → failures r = [].
Proof. intros (s & r' & s' & E & Hf). by injection E as -> _. Qed.
Lemma passes_combine a b : passes (combine a b) → passes a ∧ passes b.
Proof.
  intros (s & r & s' & E & Hf). unfold combine in E. do 2 inv_bind E. injection E as <- <-.
  cbn in Hf. apply app_eq_nil in Hf as [? ?]. split; by eexists _, _, _.
Qed.
Lemma passes_in_order l : passes (in_order l) → Forall passes l.
Proof.
  induction l as [|c l IH]; [constructor|]. intros [Hc Hl]%passes_combine. constructor; auto.
Qed.
Lemma passes_checking {A} (c : M St A) bad good :
  passes (checking c bad good) → (∀ e, failures (bad e) ≠ []) →
  ∃ s a s', c s = (Ok a, s') ∧ failures (good a) = [].
Proof.
  intros (s & r & s' & E & Hf) Hbad. unfold checking, try_except in E. unfold bind in E.
  destruct (c s) as [[a|e] s1] eqn:Ec; cbn in E; injection E as <- <-; [by exists s, a, s1|].
  by destruct (Hbad e).
Qed.
(** The same for a check of the configuration. *)
Lemma passes_lifted {A} (c : res A) bad good :
  passes (checking (lift c) bad good) → (∀ e, failures (bad e) ≠ []) →
  ∃ a, c = Ok a ∧ failures (good a) = [].
Proof. intros Hp Hb. destruct (passes_checking _ _ _ Hp Hb) as (s & a & s' & [= -> _] & Hf). by exists a. Qed.
Lemma no_failure b message : fails_if b message = [] → b = false.
Proof. by destruct b. Qed.

(** Splits a list of failures that is empty. *)
Ltac split_failures H :=
  lazymatch type of H with
  | ([] ++ ?l)%list = [] => change (l = []) in H; split_failures H
  | (_ ++ _)%list = [] =>
      let H1 := fresh "Hf" in let H2 := fresh "Hf" in
      apply app_eq_nil in H as [H1 H2]; split_failures H1; split_failures H2
  | fails_if _ _ = [] => apply no_failure in H; rewrite ?negb_false_iff in H
  | _ => idtac
  end.
Ltac passed H := unfold failing in H; cbn [failures both noting] in H; split_failures H.

Lemma check_Ok b message u : check b message = Ok u → b = true.
Proof. by destruct b. Qed.
Lemma as_int_Ok v message z : as_int v message = Ok z → py_int v = Ok z.
Proof. unfold as_int. destruct (py_int v); [by intros [= ->]|done]. Qed.
(** Walks through a rule that did not raise. *)
Ltac rule H :=
  repeat match type of H with
  | rbind (as_int _ _) _ = Ok _ =>
      let E := fresh "Ei" in destruct (as_int _ _) eqn:E in H; [|done]; apply as_int_Ok in E; cbn [rbind] in H
  | rbind (check _ _) _ = Ok _ =>
      let E := fresh "Ec" in destruct (check _ _) eqn:E in H; [|done]; apply check_Ok in E; cbn [rbind] in H
  | check _ _ = Ok _ => apply check_Ok in H
  end.

Lemma existsb_none {A} (f : A → bool) l x : existsb f l = false → x ∈ l → f x = false.
Proof.
  intros Hf Hx. destruct (f x) eqn:E; [|done].
  assert (existsb f l = true) as Ht; [|congruence]. apply existsb_exists. exists x.
  split; [by apply list_elem_of_In|done].
Qed.

Section Hardened.
Context `{Env} (site : Site).

(** ** Passwords *)

Record strong_passwords : Prop := {
  sp_length : ∃ n, py_int (config "PASSWORD_MIN_LENGTH") = Ok n ∧ 15 ≤ n;
  sp_history : is_true (config "PASSWORD_HISTORY_ENABLED") = true
    ∧ ∃ n, py_int (config "PASSWORD_HISTORY_RETENTION_COUNT") = Ok n ∧ 3 ≤ n;
  sp_dictionary : ∃ passwords, common_passwords = Ok passwords ∧ 100000 ≤ Z.of_nat (length passwords);
  sp_pepper : ∃ pepper, _password_pepper = Ok pepper ∧ slen pepper = 32%nat;
  sp_iterations : ∃ n, py_int (config "PASSWORD_PBKDF2_ITERATIONS") = Ok n ∧ 600000 ≤ n
}.

Lemma password_policy_strong :
  passes _validate_password_policy → passes (plain _validate_password_hash_strength) → strong_passwords.
Proof.
  intros Hp Hs. apply passes_in_order in Hp. rewrite !Forall_cons in Hp. destruct Hp as (H1 & H2 & H3 & H4 & _).
  apply passes_plain in Hs. unfold _validate_password_hash_strength in Hs. passed Hs.
  unfold _validate_password_length_policy in H1. apply passes_lifted in H1 as (? & E1 & F1); [|done].
  apply passes_lifted in H2 as (? & E2 & _); [|done]. apply passes_lifted in H3 as (entries & E3 & F3); [|done].
  apply passes_lifted in H4 as (? & E4 & _); [|done]. split.
  - unfold _validate_password_length_config in E1. rule E1. rewrite Ei in F1. passed F1.
    eexists. split; [exact Ei|]. apply Z.ltb_ge in F1. exact F1.
  - unfold _validate_password_history_config in E2. rule E2. split; [done|]. eexists. split; [exact Ei|].
    by apply Z.leb_le.
  - unfold validate_common_password_dictionary in E3. destruct common_passwords as [l|]; [|done].
    injection E3 as <-. passed F3. exists l. split; [done|]. by apply Z.ltb_ge.
  - unfold validate_password_hash_config in E4. destruct _password_pepper as [pepper|] eqn:Ep; [|done].
    exists pepper. split; [done|]. unfold _password_pepper in Ep. destruct (negb _); [done|].
    destruct (negb _); [done|]. destruct (b64decode _ _) as [d|]; [|done].
    destruct (Nat.eqb_spec (slen d) 32); [|done]. by injection Ep as <-.
  - unfold _int_config in Hs. destruct (py_int (config "PASSWORD_PBKDF2_ITERATIONS")) as [n|]; [|done].
    exists n. split; [done|]. by apply Z.ltb_ge.
Qed.

(** ** Modes and keys *)

(** The root administrators: as many as required, distinct, at workplace domains,
    and none of them a placeholder. *)
Definition named_root_admins : Prop :=
  ∃ values emails, or_nothing (config "ROOT_ADMIN_EMAILS") = JList values
    ∧ emails = (λ v, casefold (strip (item_text v))) <$> values
    ∧ Z.of_nat (length emails)
      = _required_root_admin_email_count (config_str_or_empty "DEPLOYMENT_TARGET")
    ∧ NoDup emails
    ∧ (∀ e, e ∈ emails → _valid_config_email e = true
        ∧ _root_admin_email_has_placeholder_identity e = false)
    ∧ are_default_emails emails = false.

Lemma allowlist_passes allowed count :
  root_admin_email_allowlist_failures (or_nothing (config "ROOT_ADMIN_EMAILS")) allowed true count = Ok [] →
  ∃ values emails, or_nothing (config "ROOT_ADMIN_EMAILS") = JList values
    ∧ emails = (λ v, casefold (strip (item_text v))) <$> values
    ∧ Z.of_nat (length emails) = count ∧ NoDup emails
    ∧ (∀ e, e ∈ emails → _valid_config_email e = true
        ∧ _root_admin_email_has_placeholder_identity e = false)
    ∧ are_default_emails emails = false.
Proof.
  unfold root_admin_email_allowlist_failures. destruct (or_nothing _) as [| | | |values|]; cbn; try done.
  destruct (iterate _) as [items|]; [|done]. cbn [rbind]. set (emails := _ <$> values).
  intros E. injection E as E. unfold _root_admin_email_shape_failures in E. split_failures E.
  eexists _, emails. split; [done|]. split; [done|]. cbn [negb andb] in *.
  repeat match goal with
  | Hb : existsb _ emails || _ = false |- _ => apply orb_false_iff in Hb as [? _]
  | Hb : (_ =? _) = true |- _ => apply Z.eqb_eq in Hb
  | Hb : bool_decide _ = true |- _ => apply bool_decide_eq_true in Hb
  end.
  split_and!; try done. intros e He.
  split; [apply negb_false_iff; by eapply (existsb_none (λ item, negb (_valid_config_email item)))|].
  by eapply existsb_none.
Qed.

(** Each application serves only its own routes, under its own cookie and keys. *)
Record isolated (mode : string) : Prop := {
  is_mode : casefold (strip (config_str_or_empty "APP_MODE")) = mode;
  is_customer : mode = "customer" →
    config "SESSION_COOKIE_NAME" = Some (JStr "__Host-sitbank_session")
    ∧ config "ADMIN_AUTH_ENABLED" = Some (JBool false)
    ∧ startswith "admin-" (config_str_or_empty "SESSION_KEY_PREFIX") = false
    ∧ ∀ endpoint, endpoint ∈ endpoints site → startswith "admin." endpoint = false;
  is_admin : mode = "admin" →
    config "SESSION_COOKIE_NAME" = Some (JStr "__Host-sitbank_admin_session")
    ∧ config "ADMIN_AUTH_ENABLED" = Some (JBool true)
    ∧ startswith "admin-" (config_str_or_empty "SESSION_KEY_PREFIX") = true
    ∧ named_root_admins
    ∧ ∀ endpoint p, endpoint ∈ endpoints site → p ∈ ["auth."; "web."; "banking."; "main."] →
        startswith p endpoint = false
}.

Lemma is_text_Some text v : is_text text v = true → v = Some (JStr text).
Proof. destruct v as [[| | |t| |]|]; try done. cbn. intros Ht%bool_decide_eq_true. by subst t. Qed.
Lemma is_true_Some v : is_true v = true → v = Some (JBool true).
Proof. by destruct v as [[|[]| | | |]|]. Qed.
Lemma is_false_Some v : is_false v = true → v = Some (JBool false).
Proof. by destruct v as [[|[]| | | |]|]. Qed.

Lemma mode_isolated mode :
  passes (_validate_mode_and_route_isolation site mode) → passes (_validate_session_policy mode) →
  str_in mode ["customer"; "admin"] = true ∧ isolated mode.
Proof.
  intros Hm Hs. unfold _validate_mode_and_route_isolation in Hm.
  destruct (str_in mode _) eqn:Em; [|by apply passes_plain in Hm]. split; [done|].
  apply passes_combine in Hm as [H1%passes_plain H2]. passed H1. apply bool_decide_eq_true in H1.
  apply passes_in_order in Hs. rewrite !Forall_cons in Hs. destruct Hs as (_ & _ & H3%passes_plain & _).
  passed H3. split; [done| |].
  - intros ->. rewrite bool_decide_eq_false_2 in H2 by done. apply passes_plain in H2.
    unfold _validate_customer_mode_and_routes in H2. passed H2.
    match goal with Hc : bool_decide ("customer" = "customer") && _ = false |- _ =>
      rewrite bool_decide_eq_true_2 in Hc by done; apply negb_false_iff, is_text_Some in Hc end.
    split_and!; [done|by apply is_false_Some|done|]. intros endpoint He. by eapply existsb_none in He.
  - intros ->. rewrite bool_decide_eq_true_2 in H2 by done.
    destruct H2 as (s & r & s' & E & Ff). unfold _validate_admin_mode_and_routes in E. inv_bind E.
    unfold lift in E0. injection E0 as Ea <-. injection E as <- <-. passed Ff.
    match goal with Hn : a = [] |- _ => rewrite Hn in Ea end.
    split_and!; [by apply is_text_Some|by apply is_true_Some|done|by eapply allowlist_passes|].
    intros endpoint p He Hp.
    match goal with Hx : existsb _ (endpoints site) = false |- _ =>
      exact (existsb_none (λ p, startswith p endpoint) ["auth."; "web."; "banking."; "main."] p
               (existsb_none _ _ _ Hx He) Hp) end.
Qed.

(** Keys of 32 bytes, and the active ones among them. *)
Definition keyring_ok (active_key_id : string) (keys : list (string * string)) : Prop :=
  is_Some (assoc active_key_id keys) ∧ ∀ kv, kv ∈ keys → nonempty (strip kv.1) = true ∧ slen kv.2 = 32%nat.
Record keyed : Prop := {
  ke_session : keyring_ok (config_str_or_empty "SESSION_HMAC_ACTIVE_KEY_ID") session_hmac_keys;
  ke_ledger : ∃ keys, ledger_hmac_keys = Some keys
    ∧ keyring_ok (config_str_or_empty "TRANSACTION_LEDGER_HMAC_ACTIVE_KEY_ID") keys;
  ke_lookup : ∃ key, session_lookup_hmac_key = Some key ∧ slen key = 32%nat;
  ke_audit : (32 ≤ slen (config_str_or_empty "SECURITY_AUDIT_HMAC_KEY"))%nat;
  ke_mfa : ∃ id, config "MFA_KEK_ACTIVE_ID" = Some (JStr id) ∧ is_Some (assoc id mfa_kek_keys)
}.

Lemma keyring_forallb active keys :
  negb (bool_decide (is_Some (assoc active keys))) = false →
  forallb (λ kv : string * string, nonempty (strip kv.1) && (slen kv.2 =? 32)%nat) keys = true →
  keyring_ok active keys.
Proof.
  intros Ha%negb_false_iff%bool_decide_eq_true Hf. split; [done|]. intros kv Hkv. rewrite forallb_forall in Hf.
  apply list_elem_of_In, Hf, andb_prop in Hkv as [? ?%Nat.eqb_eq]. done.
Qed.

Lemma keys_configured mode :
  passes (_validate_session_policy mode) → passes _validate_alert_and_audit_policy →
  passes _validate_mfa_policy → keyed.
Proof.
  intros Hs Ha (s & r & s' & Em & Fm). apply passes_in_order in Hs, Ha. rewrite !Forall_cons in Hs, Ha.
  destruct Hs as (_ & Hs & Hl%passes_plain & _). destruct Ha as (_ & Ha & Ht & _). passed Hl.
  apply passes_lifted in Hs as (? & Es & _); [|done]. apply passes_lifted in Ha as (? & Ea & _); [|done].
  apply passes_lifted in Ht as (? & Et & _); [|done]. split.
  - unfold validate_session_hmac_config in Es. destruct session_hmac_keys as [|kv l]; [done|].
    destruct (negb (bool_decide _)) eqn:En in Es; [done|]. destruct (forallb _ _) eqn:Ef in Es; [|done].
    by apply keyring_forallb.
  - unfold validate_transaction_integrity_config, _validated_keyring in Et.
    destruct ledger_hmac_keys as [[|kv l]|]; [done| |done]. eexists. split; [done|].
    destruct (negb (bool_decide _)) eqn:En in Et; [done|]. destruct (forallb _ _) eqn:Ef in Et; [|done].
    by apply keyring_forallb.
  - destruct session_lookup_hmac_key as [key|]; [|done]. exists key. split; [done|].
    by apply Nat.eqb_eq, negb_false_iff.
  - unfold validate_audit_integrity_config, _audit_hmac_key_bytes in Ea.
    destruct (Nat.ltb_spec (slen (config_str_or_empty "SECURITY_AUDIT_HMAC_KEY")) AUDIT_HMAC_KEY_MIN_LENGTH);
      [done|]. done.
  - unfold _validate_mfa_policy in Em. inv_bind Em. injection Em as <- <-. cbn [both failures] in Fm.
    apply app_eq_nil in Fm as [Fa _]. destruct mfa_kek_keys as [|kv l]; [by injection E as <- _|].
    inv_bind E. unfold lift in E0. injection E0 as Ei <-. unfold identifies in Ei.
    destruct (config "MFA_KEK_ACTIVE_ID") as [[| | |id| |]|]; try done;
      injection Ei as <-; try (by injection E as <- _).
    exists id. split; [done|]. case_bool_decide; [done|]. by injection E as <- _.
Qed.

(** ** The boundary *)

Record web_boundary : Prop := {
  wb_cookies : config "SESSION_COOKIE_SECURE" = Some (JBool true)
    ∧ config "SESSION_COOKIE_HTTPONLY" = Some (JBool true)
    ∧ config "SESSION_COOKIE_SAMESITE" = Some (JStr "Strict");
  wb_csrf : config "WTF_CSRF_ENABLED" = Some (JBool true)
    ∧ config "WTF_CSRF_CHECK_DEFAULT" = Some (JBool true)
    ∧ (32 ≤ slen (config_str_or_empty "WTF_CSRF_SECRET_KEY"))%nat;
  wb_https : config "TALISMAN_FORCE_HTTPS" = Some (JBool true);
  wb_proxy : py_int (config "TRUSTED_PROXY_COUNT") = Ok 1;
  wb_mail : config_str_or_empty "PASSWORD_RESET_EMAIL_BACKEND" = "smtp" → otruthy (config "SMTP_USE_TLS") = true
}.

Lemma boundary mode :
  is_production_app = true →
  passes (_validate_session_policy mode) → passes (plain _validate_runtime_boundary_settings) →
  passes (plain _validate_request_security_settings) → passes _validate_email_transport_policy → web_boundary.
Proof.
  intros Hp Hs Hb%passes_plain Hr%passes_plain Hm. apply passes_in_order in Hs. rewrite !Forall_cons in Hs.
  destruct Hs as (_ & _ & Hs%passes_plain & _). unfold _validate_runtime_boundary_settings in Hb.
  unfold _validate_request_security_settings in Hr. passed Hs. passed Hb. passed Hr.
  apply passes_lifted in Hm as (? & Em & _); [|done].
  split; [split_and!|split_and!| | |]; try (by apply is_true_Some); try (by apply is_text_Some).
  - by apply Nat.ltb_ge.
  - unfold _int_config in *. destruct (py_int (config "TRUSTED_PROXY_COUNT")) as [n|]; [|done].
    f_equal. by apply Z.eqb_eq, negb_false_iff.
  - intros Eb. unfold _validate_smtp_transport_config in Em. rewrite bool_decide_eq_true_2 in Em by done.
    cbn [negb] in Em. apply check_Ok in Em. unfold ConfigRules._production_like in Em.
    unfold is_production_app in Hp. rewrite Hp in Em. cbn in Em. by destruct (otruthy (config "SMTP_USE_TLS")).
Qed.

(** ** Second factors, sessions and waiting times *)

Record strict_factors : Prop := {
  sf_high_risk : py_int (config "TOTP_HIGH_RISK_VALID_WINDOW") = Ok 0;
  sf_login : ∃ n, py_int (config "TOTP_LOGIN_VALID_WINDOW") = Ok n ∧ 0 ≤ n ≤ 1;
  sf_fresh : ∃ n, py_int (config "FRESH_MFA_SECONDS") = Ok n ∧ 60 ≤ n ≤ 900;
  sf_one_session : py_int (config "CUSTOMER_MAX_ACTIVE_SESSIONS") = Ok 1
    ∧ py_int (config "ADMIN_MAX_ACTIVE_SESSIONS") = Ok 1;
  sf_lifetimes : ∃ customer admin customer_pending admin_pending,
    py_int (config "CUSTOMER_SESSION_ABSOLUTE_LIFETIME_SECONDS") = Ok customer
    ∧ py_int (config "ADMIN_SESSION_ABSOLUTE_LIFETIME_SECONDS") = Ok admin
    ∧ py_int (config "CUSTOMER_PENDING_MFA_MAX_AGE_SECONDS") = Ok customer_pending
    ∧ py_int (config "ADMIN_PENDING_MFA_MAX_AGE_SECONDS") = Ok admin_pending
    ∧ customer_pending < customer ≤ 30 * 24 * 60 * 60 ∧ admin_pending < admin ≤ customer;
  sf_cooldown : ∃ n minimum, py_int (config "PAYEE_COOLDOWN_SECONDS") = Ok n
    ∧ py_int (match config "MIN_PRODUCTION_PAYEE_COOLDOWN_SECONDS" with
              | Some v => Some v
              | None => Some (JInt MIN_PRODUCTION_PAYEE_COOLDOWN_SECONDS)
              end) = Ok minimum ∧ minimum ≤ n
}.

Lemma factors mode :
  is_production_app = true →
  passes _validate_mfa_policy → passes (_validate_session_policy mode) → passes _validate_lifetime_policy →
  strict_factors.
Proof.
  intros Hp (s & r & s' & Em & Fm) Hs Hl. apply passes_in_order in Hs, Hl. rewrite !Forall_cons in Hs. rewrite !Forall_cons in Hl.
  destruct Hs as (_ & _ & _ & Hs & _). destruct Hl as (Hc & Hl & _).
  apply passes_lifted in Hs as (? & Es & _); [|done]. apply passes_lifted in Hc as (? & Ec & _); [|done].
  apply passes_lifted in Hl as (? & El & _); [|done].
  unfold _validate_mfa_policy in Em. inv_bind Em. injection Em as <- <-. cbn [both failures] in Fm.
  apply app_eq_nil in Fm as [_ Fm]. passed Fm. unfold _int_config in *.
  unfold _validate_active_session_limit_config, single_session in Es.
  destruct (as_int (config "CUSTOMER_MAX_ACTIVE_SESSIONS") _) eqn:E1 in Es; [|done]. cbn [rbind] in Es.
  destruct (check (a0 =? 1) _) eqn:E2 in Es; [|done]. cbn [rbind] in Es. rule Es.
  apply as_int_Ok in E1. apply check_Ok, Z.eqb_eq in E2. apply Z.eqb_eq in Es. subst.
  split.
  - destruct (py_int (config "TOTP_HIGH_RISK_VALID_WINDOW")) as [n|]; [|done].
    f_equal. by apply Z.eqb_eq, negb_false_iff.
  - destruct (py_int (config "TOTP_LOGIN_VALID_WINDOW")) as [n|]; [|done]. exists n. split; [done|].
    match goal with Hw : negb ((n =? 0) || (n =? 1)) = false |- _ =>
      apply negb_false_iff, orb_prop in Hw as [?%Z.eqb_eq|?%Z.eqb_eq]; lia end.
  - destruct (py_int (config "FRESH_MFA_SECONDS")) as [n|]; [|done]. exists n. split; [done|].
    match goal with Hw : (n <? 60) || _ = false |- _ =>
      apply orb_false_iff in Hw as [?%Z.ltb_ge ?%Z.ltb_ge]; lia end.
  - done.
  - unfold _validate_session_absolute_lifetime_config in El. rule El. eexists _, _, _, _.
    split_and!; [eassumption..|by apply Z.ltb_lt| |by apply Z.ltb_lt|by apply Z.leb_le].
    match goal with Hw : within 1 MAX_SESSION_ABSOLUTE_LIFETIME_SECONDS ?x = true |- ?x ≤ _ =>
      apply andb_prop in Hw as [_ ?%Z.leb_le]; done end.
  - unfold _validate_payee_cooldown_config in Ec. rule Ec. eexists _, _. split_and!; [eassumption..|].
    unfold is_production_app in Hp. rewrite Hp in Ec. cbn [andb] in Ec.
    by apply negb_true_iff, Z.ltb_ge in Ec.
Qed.

(** ** Challenges *)

Record challenged (mode : string) : Prop := {
  ch_on : config "TURNSTILE_ENABLED" = Some (JBool true);
  ch_fail_closed : config "TURNSTILE_FAIL_CLOSED_IN_PRODUCTION" = Some (JBool true);
  ch_url : strip (config_str_or_empty "TURNSTILE_VERIFY_URL") = OFFICIAL_TURNSTILE_VERIFY_URL;
  ch_secret : nonempty (strip (config_str_or_empty "TURNSTILE_SECRET_KEY")) = true;
  ch_flags : ∀ flag, flag ∈ default [] (assoc mode TURNSTILE_ACTION_FLAGS_BY_APP_MODE) →
    config flag = Some (JBool true)
}.
Lemma flat_map_nil {A B} (f : A → list B) l x : flat_map f l = [] → x ∈ l → f x = [].
Proof.
  induction l as [|y l IH]; cbn; [by intros _ ?%elem_of_nil|]. intros [Hy Hl]%app_eq_nil [->|Hx]%elem_of_cons; auto.
Qed.
Lemma challenges : is_production_app = true → passes _validate_turnstile_policy →
  challenged (casefold (strip (config_str_or_empty "APP_MODE"))).
Proof.
  intros Hp Ht. apply passes_in_order in Ht. rewrite !Forall_cons in Ht.
  destruct Ht as (Hu & Hs%passes_plain & Hf0%passes_plain & _). passed Hs.
  apply passes_lifted in Hu as (url & Eu & _); [|done]. split; try (by apply is_true_Some); [|done|].
  - unfold _validate_turnstile_verify_url in Eu. destruct (urlsplit _) as [parsed|]; [|done]. cbn [rbind] in Eu.
    rule Eu. unfold ConfigRules._production_like in *. unfold is_production_app in Hp.
    match goal with Hw : negb (_ && _) = true |- _ => rewrite Hp in Hw; cbn in Hw;
      apply negb_true_iff, negb_false_iff, bool_decide_eq_true in Hw; exact Hw end.
  - intros flag Hin. unfold _validate_turnstile_action_flags in Hf0. cbn [failures failing] in Hf0.
    apply (flat_map_nil _ _ flag) in Hf0; [|done]. by apply no_failure, negb_false_iff, is_true_Some in Hf0.
Qed.

(** ** The database role *)

(** The role can neither change the schema nor rewrite the audit log. *)
Definition confined : Prop :=
  testing site = false → postgresql = true ∧ ∃ p, privileges site = inr p
    ∧ database_create p = false ∧ schema_create p = false ∧ owns_schema_object p = false
    ∧ audit_update p = false ∧ audit_delete p = false ∧ audit_truncate p = false.
Lemma role_confined : passes (_validate_runtime_database_privileges site) → confined.
Proof.
  unfold _validate_runtime_database_privileges. intros Hp Ht. rewrite Ht in Hp.
  destruct postgresql; [|by apply passes_plain in Hp]. cbn [negb] in Hp. split; [done|].
  destruct (privileges site) as [c|p].
  { destruct Hp as (s & r & s' & E & Hf). unfold _database_failure in E. inv_bind E. by injection E as <- _. }
  apply passes_plain in Hp. passed Hp. rewrite !orb_false_iff in *. exists p. naive_solver.
Qed.

(** ** A process that started *)

Record hardened (mode : string) : Prop := {
  hd_mode : str_in mode ["customer"; "admin"] = true ∧ isolated mode;
  hd_passwords : strong_passwords;
  hd_keys : keyed;
  hd_boundary : web_boundary;
  hd_factors : strict_factors;
  hd_challenges : challenged mode;
  hd_role : confined;
  hd_alerts : otruthy (config "SECURITY_ALERT_ENABLED") = true
}.

Lemma alerts_on : passes _validate_alert_and_audit_policy → otruthy (config "SECURITY_ALERT_ENABLED") = true.
Proof.
  intros Ha. apply passes_in_order in Ha. rewrite !Forall_cons in Ha. destruct Ha as (Ha & _).
  apply passes_checking in Ha as (s & c & s' & E & _); [|done]. unfold validate_security_alert_config in E.
  do 4 inv_bind E. unfold _configured_alert_enabled in E. by destruct (otruthy (config "SECURITY_ALERT_ENABLED")).
Qed.

Lemma started_hardened app_mode st st' :
  is_production_app = true → enforce_production_startup_guard site app_mode st = (Ok tt, st') →
  hardened (casefold (strip app_mode)).
Proof.
  intros Hp E. unfold enforce_production_startup_guard in E. rewrite Hp in E. cbn [negb] in E. inv_bind E.
  unfold ready in E. case_bool_decide as Hf; [|done].
  assert (passes (validate_production_security_prerequisites site app_mode)) as Hv by by eexists _, _, _.
  apply passes_in_order in Hv. rewrite !Forall_cons in Hv.
  destruct Hv as (H1 & _ & H3 & H4 & H5 & H6 & H7 & H8 & H9 & H10 & _).
  apply passes_in_order in H8. rewrite !Forall_cons in H8. destruct H8 as (G1 & G2 & G3 & _ & _ & G6 & _).
  destruct (mode_isolated _ H1 H5) as [Hm Hi]. split.
  - done.
  - by apply password_policy_strong.
  - by eapply keys_configured.
  - by eapply boundary.
  - by eapply factors.
  - destruct Hi as [<- _ _]. by apply challenges.
  - by apply role_confined.
  - by apply alerts_on.
Qed.

Lemma production_is_like : is_production_app = true → Turnstile._production_like = true.
Proof. unfold is_production_app, Turnstile._production_like. by intros ->. Qed.

(** ** Starting *)

(** The check runs to its end without a failure and leaves the state alone. *)
Definition clean (s : St) (c : M St ProductionReadinessResult) : Prop :=
  ∃ r, c s = (Ok r, s) ∧ failures r = [].
Lemma clean_in_order s l : Forall (clean s) l → clean s (in_order l).
Proof.
  induction 1 as [|c l (a & Ea & Fa) _ (b & Eb & Fb)]; [by eexists|]. exists (both a b). split.
  - cbn [in_order foldr]. unfold combine. rewrite (bind_Ok _ _ _ _ _ Ea). by rewrite (bind_Ok _ _ _ _ _ Eb).
  - cbn. by rewrite Fa, Fb.
Qed.
Lemma clean_lifted {A} s (c : res A) bad good a :
  c = Ok a → failures (good a) = [] → clean s (checking (lift c) bad good).
Proof. intros -> Hf. by exists (good a). Qed.
Lemma clean_starts app_mode s :
  is_production_app = true → clean s (validate_production_security_prerequisites site app_mode) →
  enforce_production_startup_guard site app_mode s = (Ok tt, s).
Proof.
  intros Hp (r & E & Hf). unfold enforce_production_startup_guard. rewrite Hp. cbn [negb].
  rewrite (bind_Ok _ _ _ _ _ E). unfold ready. by rewrite bool_decide_eq_true_2.
Qed.

(** A dictionary of distinct numbers is loaded as it is. *)
Lemma lower_int_char c : int_char c → lower_char c = c.
Proof.
  intros [Hd| ->]; [|done]. unfold lower_char. destruct (is_upper c) eqn:Eu; [|done].
  unfold is_digit in Hd. unfold is_upper in Eu. lia.
Qed.
Lemma casefold_pretty (z : Z) : casefold (pretty z) = pretty z.
Proof.
  unfold casefold. rewrite <- (of_chars_chars (pretty z)) at 2. f_equal.
  rewrite <- (list_fmap_id (chars (pretty z))) at 2. apply list_fmap_ext. intros i c Hc.
  apply lower_int_char. eapply Forall_lookup_1; [apply pretty_Z_chars|done].
Qed.
Lemma pretty_Z_nonempty (z : Z) : pretty z ≠ "".
Proof.
  destruct z as [|p|p]; [done| |done]. change (pretty (Npos p) ≠ "").
  destruct (pretty_N_head (Npos p)) as (c & l & E & _). intros Hn. by rewrite Hn in E.
Qed.
Lemma pretty_Z_line (z : Z) : nonempty (strip (pretty z)) && negb (startswith "#" (pretty z)) = true.
Proof.
  rewrite strip_pretty. pose proof (pretty_Z_chars z) as Hz. pose proof (pretty_Z_nonempty z) as Hn.
  destruct (pretty z) as [|c l]; [done|]. apply Forall_cons in Hz as [Hc _].
  destruct (startswith "#" (String c l)) eqn:E; [|done]. exfalso.
  unfold startswith in E. apply bool_decide_eq_true in E. cbn [String.prefix] in E.
  destruct (ascii_dec "#" c) as [<-|]; [|done]. destruct Hc as [Hc|Hc]; vm_compute in Hc; discriminate.
Qed.
Lemma filter_all {A} (f : A → bool) l : Forall (λ x, f x = true) l → List.filter f l = l.
Proof. induction 1 as [|x l Hx _ IH]; [done|]. cbn. by rewrite Hx, IH. Qed.
Lemma remove_dups_id (l : list string) : NoDup l → remove_dups l = l.
Proof.
  induction 1 as [|x l Hx _ IH]; [done|]. cbn [remove_dups]. destruct (decide_rel _ x l) as [Hin|]; [done|].
  by rewrite IH.
Qed.
Lemma numbers_are_loaded path (l : list Z) minimum :
  common_password_lines path = Some (pretty <$> l) → NoDup l → (∀ text, nfc text = text) →
  config_int "COMMON_PASSWORDS_MIN_ENTRIES" = Ok minimum → minimum ≤ Z.of_nat (length l) →
  _load_common_passwords path = Ok (pretty <$> l).
Proof.
  intros E Hl Hn Em Hm. unfold _load_common_passwords. rewrite E, Em. cbn [rbind].
  rewrite (filter_all _ (pretty <$> l))
    by (apply Forall_fmap, Forall_true; exact pretty_Z_line).
  rewrite <- list_fmap_compose. rewrite (list_fmap_ext _ pretty l).
  2:{ intros i z _. cbn. unfold _normalize_password. by rewrite Hn, strip_pretty, casefold_pretty. }
  rewrite remove_dups_id by (apply (NoDup_fmap_2 pretty); exact Hl).
  rewrite length_fmap. by rewrite (proj2 (Z.ltb_ge _ _)) by done.
Qed.
End Hardened.
End ProductionSafety.
Import Turnstile ProductionGuard ProductionSafety.

(** C12: A production process that its startup guard lets start is hardened: it
    serves one application, with that application's routes, cookie and (for the
    portal) a complete list of root administrators; passwords are long, peppered,
    stretched and checked against at least 100000 known ones and a history; every
    signing key is configured; cookies, CSRF protection, transport and proxy are
    strict; a step-up window is zero and sessions are single and bounded; alerts
    are on; the database role can neither change the schema nor rewrite the audit
    log.  And no form of such a process that asks for a challenge is let through
    without a confirmation by the official service. *)
Theorem production_start_is_hardened `{Env} site app_mode st st' :
  is_production_app = true →
  enforce_production_startup_guard site app_mode st = (Ok tt, st') →
  hardened site (casefold (strip app_mode))
  ∧ ∀ action token s s', require_turnstile action token s = (Ok tt, s') →
      confirmed (effects s) (match token with Some t => Some t | None => turnstile_token_from_request end) action
      ∧ s' = next_effect s.
Proof.
  intros Hp E. assert (hardened site (casefold (strip app_mode))) as Hh by by eapply started_hardened.
  split; [done|]. intros action token s s'. apply required_is_confirmed; [by apply production_is_like|].
  destruct Hh as [_ _ _ _ _ [_ Hc _ _ _] _ _]. by rewrite Hc.
Qed.

(** ** Witness: a customer process starts *)

Definition customer_settings (name : string) : option jval :=
  match assoc name
    [("SESSION_COOKIE_NAME", JStr "__Host-sitbank_session"); ("ADMIN_AUTH_ENABLED", JBool false);
     ("SESSION_KEY_PREFIX", JStr "session:"); ("SESSION_TYPE", JStr "database");
     ("PASSWORD_MIN_LENGTH", JInt 15); ("PASSWORD_MAX_CHARS", JInt 128);
     ("PASSWORD_HISTORY_ENABLED", JBool true); ("PASSWORD_HISTORY_RETENTION_COUNT", JInt 5);
     ("PASSWORD_PBKDF2_ITERATIONS", JInt 600000);
     ("COMMON_PASSWORDS_MIN_ENTRIES", JInt 100000); ("DEPLOYMENT_TARGET", JStr "production");
     ("PASSWORD_RESET_EMAIL_BACKEND", JStr "smtp"); ("SMTP_USE_TLS", JBool true);
     ("SESSION_COOKIE_SECURE", JBool true); ("SESSION_COOKIE_HTTPONLY", JBool true);
     ("SESSION_COOKIE_SAMESITE", JStr "Strict");
     ("CUSTOMER_MAX_ACTIVE_SESSIONS", JInt 1); ("ADMIN_MAX_ACTIVE_SESSIONS", JInt 1);
     ("TOTP_LOGIN_VALID_WINDOW", JInt 1); ("TOTP_HIGH_RISK_VALID_WINDOW", JInt 0);
     ("SECURITY_ALERT_ENABLED", JBool true); ("SECURITY_ALERT_WEBHOOK_URL", JStr "https://alerts.example/hook");
     ("WTF_CSRF_SECRET_KEY", JStr (Sample.key32 "w"%char)); ("TRUSTED_PROXY_COUNT", JInt 1);
     ("WTF_CSRF_ENABLED", JBool true); ("WTF_CSRF_CHECK_DEFAULT", JBool true);
     ("TALISMAN_FORCE_HTTPS", JBool true); ("RATELIMIT_STORAGE_URI", JStr "memory://");
     ("TURNSTILE_FAIL_CLOSED_IN_PRODUCTION", JBool true);
     ("TURNSTILE_CUSTOMER_REGISTER_OTP_ENABLED", JBool true); ("TURNSTILE_CUSTOMER_REGISTER_ENABLED", JBool true);
     ("TURNSTILE_CUSTOMER_PASSWORD_RESET_ENABLED", JBool true);
     ("TURNSTILE_CUSTOMER_MANUAL_RECOVERY_ENABLED", JBool true);
     ("CUSTOMER_EMAIL_PLUS_ALIAS_DOMAINS", JList [JStr "gmail.com"]);
     ("CUSTOMER_EMAIL_DOT_INSENSITIVE_DOMAINS", JList [JStr "gmail.com"]);
     ("CUSTOMER_TEMP_EMAIL_DOMAINS", JList [JStr "mailinator.com"]);
     ("ADMIN_ALLOWED_EMAIL_DOMAINS", JList [JStr "bank.example"]);
     ("PAYEE_COOLDOWN_SECONDS", JInt 43200);
     ("CUSTOMER_SESSION_ABSOLUTE_LIFETIME_SECONDS", JInt 43200);
     ("ADMIN_SESSION_ABSOLUTE_LIFETIME_SECONDS", JInt 28800);
     ("CUSTOMER_PENDING_MFA_MAX_AGE_SECONDS", JInt 300); ("ADMIN_PENDING_MFA_MAX_AGE_SECONDS", JInt 300)] with
  | Some v => Some v
  | None => production_config name
  end.
Definition customer_site : Site :=
  mkSite ["auth.login"; "web.dashboard"; "banking.transfer"; "main.health_ready"] (λ _, None)
    (inr (mkPrivileges false false false false false false)) false.
(** The process, whose dictionary holds the numbers below [n]. *)
Definition customer_process (n : Z) : Env :=
  Sample.deployment_of (Sample.mkOutside customer_settings (λ k m, k +:+ m) (λ _, "token") (Some confirmation)
    (λ _, None) None (λ _ _ _, false) (λ _, None) (pretty <$> seqZ 0 n) true).

Lemma dictionary_is_clean n s :
  100000 ≤ n →
  clean s (checking (lift (@Passwords.validate_common_password_dictionary (customer_process n)))
    (_failure "Common password dictionary check")
    (λ entries, both (noting "common_password_dictionary_entries" (JInt entries))
       (failing (ConfigRules.fails_if (entries <? 100000)
          "Common password dictionary must contain at least 100000 entries")))).
Proof.
  intros Hn. apply (clean_lifted s _ _ _ n).
  - unfold Passwords.validate_common_password_dictionary, Passwords.common_passwords.
    change (@config_item (customer_process n) "COMMON_PASSWORDS_PATH") with (Ok (JStr "common.txt")). cbn [rbind].
    rewrite (numbers_are_loaded _ (seqZ 0 n) 100000); [|done|apply NoDup_seqZ|done|vm_compute; reflexivity|].
    + cbn [rbind]. rewrite length_fmap, length_seqZ. f_equal. lia.
    + rewrite length_seqZ. lia.
  - cbn [failures both noting failing]. by rewrite (proj2 (Z.ltb_ge _ _)) by done.
Qed.
Lemma customer_process_is_clean n :
  100000 ≤ n →
  clean Sample.sample_state
    (@validate_production_security_prerequisites (customer_process n) customer_site "customer").
Proof.
  intros Hn. apply clean_in_order. repeat (apply Forall_cons; split); [..|by apply Forall_nil].
  3:{ apply clean_in_order. repeat (apply Forall_cons; split); [..|by apply Forall_nil].
      3: by apply dictionary_is_clean.
      all: eexists; split; vm_compute; reflexivity. }
  all: eexists; split; vm_compute; reflexivity.
Qed.

Lemma customer_is_production n : @is_production_app (customer_process n) = true.
Proof. vm_compute. reflexivity. Qed.
Lemma customer_process_starts n :
  100000 ≤ n →
  @enforce_production_startup_guard (customer_process n) customer_site "customer" Sample.sample_state
  = (Ok tt, Sample.sample_state).
Proof. intros Hn. apply clean_starts; [apply customer_is_production|by apply customer_process_is_clean]. Qed.

Lemma production_start_is_hardened_witness :
  @is_production_app (customer_process 100000) = true
  ∧ @hardened (customer_process 100000) customer_site (casefold (strip "customer")).
Proof.
  split; [apply customer_is_production|].
  exact (proj1 (@production_start_is_hardened (customer_process 100000) customer_site "customer"
    Sample.sample_state Sample.sample_state (customer_is_production 100000)
    (customer_process_starts 100000 (Z.le_refl 100000)))).
Defined.
