(* ===== verification/BankingViews.v ===== *)
(** * Payees and transfers as the customer drives them
    ([app/banking/routes.py], [app/banking/forms.py])

    Adding a payee takes a form with a step-up and a confirmation; a local
    transfer takes a form with a step-up, which stores a pending transfer, and a
    confirmation, which executes it; PayUp takes a phone lookup, an amount and a
    confirmation that asks for a step-up when the risk engine does.  A view
    answers with a rendered template and its context or with a redirect.  A form
    is its submitted fields and whether its CSRF token was good. *)

From S2P Require Import Prelude PyStr PyDecimal TimeModel Schema Runtime Integrity AuditLog.
From S2P Require Import SessionRisk BankingPolicy Notifications Sessions SessionStore RateLimits.
From S2P Require Import Mfa SignIn Profile Transfers Idempotency Guards Statement.
From Stdlib Require Import Ascii.
Open Scope string_scope.
Open Scope Z_scope.

Module BankingViews.
Import SessionHmac Audit SessionRisk Policy Notifications SessionStore RateLimits Mfa Profile.
Import SignIn Transfers Idempotency Guards.

Definition _PENDING_PAYEE_TTL : Z := 300.
Definition _PENDING_TRANSFER_TTL : Z := 300.
Definition _PAYUP_PENDING_RECIPIENT_TTL : Z := 300.
Definition _PAYUP_PENDING_TRANSFER_TTL : Z := 300.
Definition _PAYUP_LOOKUP_FAILURE_LIMIT : Z := 5.
Definition _PAYUP_LOOKUP_FAILURE_WINDOW_SECONDS : Z := 60 * 60.
Definition _REQUEST_EXPIRED_MESSAGE : string := "Request expired. Please start again.".
Definition _NO_PENDING_TRANSFER_MESSAGE : string := "No pending transfer. Please start again.".
Definition _DUPLICATE_PAYEE_MESSAGE : string := "This payee is already in your list.".
Definition _NO_PENDING_PAYEE_MESSAGE : string := "No pending payee. Please start again.".
Definition _NO_PENDING_PAYUP_RECIPIENT_MESSAGE : string :=
  "No pending PayUp request. Please start again.".
Definition _INVALID_PHONE_MESSAGE : string := "Invalid phone number.".
Definition _PAYEES_ENDPOINT : string := "banking.payees".
Definition _PAYEES_ADD_ENDPOINT : string := "banking.payees_add".
Definition _PAYUP_ENDPOINT : string := "banking.payup".
Definition _PAYUP_NICKNAME_ENDPOINT : string := "banking.payup_nickname".
Definition _TRANSFER_TEMPLATE : string := "transfer.html".
Definition _ADD_PAYEE_TEMPLATE : string := "add_payee.html".
Definition _PAYUP_TEMPLATE : string := "payup.html".
Definition _PAYUP_NICKNAME_TEMPLATE : string := "payup_nickname.html".
Definition _PAYUP_AMOUNT_TEMPLATE : string := "payup_amount.html".
Definition _PAYUP_CONFIRM_TEMPLATE : string := "payup_confirm.html".

(** ** Forms *)

(** [Regexp("^...$")]: [re.match], whose dollar also allows one final newline. *)
Definition matches_line (p : list ascii → bool) (text : string) : bool :=
  let l := chars text in
  p l || match rev l with
         | c :: rest => bool_decide (c = ascii_of_nat 10) && p (rev rest)
         | [] => false
         end.

Definition ACCOUNT_NUMBER_RE (l : list ascii) : bool := (length l =? 12)%nat && forallb is_digit l.
Definition _ACCOUNT_RE (text : string) : bool := ACCOUNT_NUMBER_RE (chars text).
Definition NICKNAME_RE (l : list ascii) : bool :=
  (1 <=? length l)%nat && (length l <=? 64)%nat
  && forallb (λ c, is_alnum c || str_in (String c "") [" "; "'"; "-"]) l.
Definition AMOUNT_RE (l : list ascii) : bool :=
  match split_on "."%char l with
  | [whole] => (1 <=? length whole)%nat && forallb is_digit whole
  | [whole; fraction] =>
      (1 <=? length whole)%nat && forallb is_digit whole
      && (1 <=? length fraction)%nat && (length fraction <=? 2)%nat && forallb is_digit fraction
  | _ => false
  end.
Definition REFERENCE_RE (l : list ascii) : bool :=
  (length l <=? 128)%nat
  && forallb (λ c, is_alnum c || str_in (String c "") [" "; "'"; "-"; "."; ","; "/"]) l.
Definition TOTP_RE (l : list ascii) : bool := (length l =? 6)%nat && forallb is_digit l.
Definition PHONE_RE (l : list ascii) : bool := phone_format (of_chars l).

(** A field with [InputRequired()] and further validators. *)
Definition required_field (p : string → bool) (data : option string) : bool :=
  match data with Some text => nonempty text && p text | None => false end.
(** A field with [Optional()] and further validators: blank input passes. *)
Definition optional_field (p : string → bool) (data : option string) : bool :=
  match data with Some text => negb (nonempty (strip text)) || p text | None => true end.

Definition _totp_code_field (required : bool) (data : option string) : bool :=
  (if required then required_field else optional_field) (matches_line TOTP_RE) data.
Definition _amount_field : option string → bool :=
  required_field (λ text, (slen text <=? 13)%nat && matches_line AMOUNT_RE text).
Definition _reference_field : option string → bool :=
  optional_field (λ text, (slen text <=? 128)%nat && matches_line REFERENCE_RE text).

Record AddPayeeForm : Type := mkAddPayeeForm {
  ap_nickname : option string; ap_account_number : option string; ap_totp_code : option string
}.
Definition valid_add_payee (f : AddPayeeForm) : bool :=
  required_field (λ text, (1 <=? slen text)%nat && (slen text <=? 64)%nat
                          && matches_line NICKNAME_RE text) (ap_nickname f)
  && required_field (matches_line ACCOUNT_NUMBER_RE) (ap_account_number f)
  && _totp_code_field true (ap_totp_code f).

Definition PayupPhoneForm (phone_number : option string) : bool :=
  required_field (matches_line PHONE_RE) phone_number.

Definition PAYUP_NICKNAME_MAX_LENGTH : nat := 128.
(** [None]: a [ValidationError]. *)
Definition _payup_nickname (value : option string) : option string :=
  let nickname := strip (or_empty value) in
  if (slen nickname <? 2)%nat || (PAYUP_NICKNAME_MAX_LENGTH <? slen nickname)%nat then None
  else if existsb (λ c, (code c <? 32) || (code c =? 127)) (chars nickname) then None
  else Some nickname.
(** The nickname [validate_nickname] leaves in a valid form. *)
Definition PayupNicknameForm (nickname : option string) : option string :=
  if required_field (λ text, (2 <=? slen text)%nat && (slen text <=? PAYUP_NICKNAME_MAX_LENGTH)%nat)
       nickname
  then _payup_nickname nickname else None.

Record PayupAmountForm : Type := mkPayupAmountForm {
  pa_amount : option string; pa_reference : option string
}.
Definition valid_payup_amount (f : PayupAmountForm) : bool :=
  _amount_field (pa_amount f) && _reference_field (pa_reference f).

Record TransferForm : Type := mkTransferForm {
  tf_amount : option string; tf_reference : option string; tf_totp_code : option string
}.
Definition valid_transfer (f : TransferForm) : bool :=
  _amount_field (tf_amount f) && _reference_field (tf_reference f) && _totp_code_field true (tf_totp_code f).

(** [(form.reference.data or "").strip()[:128]]. *)
Definition reference_text (data : option string) : string := str_take 128 (strip (or_empty data)).

(** ** Answers *)

Inductive Page : Type :=
  | Rendered (template : string) (context : list (string * jval)) (status : Z)
  | RedirectTo (endpoint : string).

(** ** Helpers *)

(** [seconds] in microseconds. *)
Definition _format_cooldown_remaining (remaining : Z) : string :=
  let total_seconds := Z.max 0 (- ((- remaining) / US_SECOND)) in
  let days := total_seconds / (24 * 60 * 60) in
  let remainder := total_seconds mod (24 * 60 * 60) in
  let hours := remainder / (60 * 60) in
  let remainder := remainder mod (60 * 60) in
  let minutes := remainder / 60 in
  let secs := remainder mod 60 in
  if negb (days =? 0) then pretty days +:+ "d " +:+ pretty hours +:+ "h"
  else if negb (hours =? 0) then pretty hours +:+ "h " +:+ pretty minutes +:+ "m"
  else if negb (minutes =? 0) then pretty minutes +:+ "m " +:+ pretty secs +:+ "s"
  else pretty secs +:+ "s".

Definition _payup_nickname_ready (user : User) : bool :=
  nonempty (Statement._payup_nickname_value (Some user)).

Definition _account_ending (account_number : option string) : string :=
  let account := or_empty account_number in
  if (4 <=? slen account)%nat then str_last 4 account else account.

Definition _payup_recipient_display (recipient : User) : list (string * jval) :=
  let recipient_nickname := Statement._payup_nickname_value (Some recipient) in
  let recipient_phone := or_empty (u_phone_number recipient) in
  [("recipient_label", JStr (if nonempty recipient_nickname then recipient_nickname else recipient_phone));
   ("recipient_nickname", JStr recipient_nickname); ("recipient_phone", JStr recipient_phone)].

(** A [Numeric(12, 5)] column: five decimals, rounded half away from zero. *)
Definition numeric5 (d : pydec) : Z :=
  match d with
  | DFin c e =>
      if -5 <=? e then c * 10 ^ (e + 5)
      else let m := 10 ^ (-5 - e) in Z.sgn c * ((2 * Z.abs c + m) / (2 * m))
  | _ => 0
  end.

Section Views.
Context `{Env}.

(** [except AuthError as exc]: its message and its status. *)
Definition attempt {A} (c : M St A) : M St (A + (string * Z)) :=
  try_except (a <- c ;; ret (inl a)) is_auth_error
    (λ e, match e with
          | AuthError message status _ | FrozenAccountError message status => ret (inr (message, status))
          | _ => raise e
          end).

Definition render (template : string) (context : list (string * jval)) (status : Z) : M St Page :=
  ret (Rendered template context status).
Definition refuse_with (message : string) (template : string) (context : list (string * jval))
    (status : Z) : M St Page :=
  _ <- flash message "error" ;; render template context status.
Definition send_back (message category endpoint : string) : M St Page :=
  _ <- flash message category ;; ret (RedirectTo endpoint).

(** A blueprint hook in front of every banking view. *)
Definition enforce_banking_mfa_onboarding (current_user : option (Z * User)) : M St (option Page) :=
  match current_user with
  | Some (_, user) =>
      if negb (has_enrolled_mfa_method user) then
        page <- send_back "Set up an authenticator app before using banking features." "warning"
                  "web.mfa_setup" ;;
        ret (Some page)
      else ret None
  | None => ret None
  end.

(** [current_app.config.get(name, default)] where a number is compared with it. *)
Definition config_number_default (name : string) (default : Z) : res Z :=
  match config name with Some _ => config_number name | None => Ok default end.
Definition payee_cooldown_seconds : res Z := config_number_default "PAYEE_COOLDOWN_SECONDS" 60.

(** [None]: the payee is active; otherwise the remaining time and its end. *)
Definition _cooldown_status (payee : Payee) (cooldown_seconds : Z) : M St (option (string * Z)) :=
  now <- now_utc ;;
  let elapsed := now - py_created_at payee in
  if cooldown_seconds * US_SECOND <=? elapsed then ret None
  else
    let remaining := cooldown_seconds * US_SECOND - elapsed in
    ret (Some (_format_cooldown_remaining remaining,
               py_created_at payee + cooldown_seconds * US_SECOND)).

Definition cooldown_entries (status : option (string * Z)) : list (string * jval) :=
  match status with
  | None => [("status", JStr "active"); ("remaining", JNull); ("expires_at", JNull);
             ("available_at", JNull)]
  | Some (remaining, expires_at) =>
      [("status", JStr "cooldown"); ("remaining", JStr remaining);
       ("expires_at", JStr (iso_auto expires_at +:+ "+00:00"));
       ("available_at", JStr (TimeDisplay.sgt_datetime (Some (Aware expires_at 0))))]
  end.

(** [Payee.query.filter_by(id=payee_id, user_id=g.current_user.id).first_or_404()]. *)
Definition own_payee (user_id payee_id : Z) : M St Payee :=
  db_query (λ d, match payees d !! payee_id with
                 | Some p => if py_user_id p =? user_id then Ok p else Raise NotFound
                 | None => Raise NotFound
                 end).

(** [datetime.now(timezone.utc) + timedelta(seconds=ttl)], printed. *)
Definition iso_in (ttl : Z) : M St string :=
  now <- now_utc ;; ret (iso_auto (now + ttl * US_SECOND) +:+ "+00:00").

(** [pending[key]] for a session entry, and [datetime.fromisoformat] of one. *)
Definition entry (pending : jval) (key : string) : res jval :=
  match pending with
  | JObj kvs => match obj_get key kvs with Some v => Ok v | None => Raise (KeyError key) end
  | _ => Raise TypeError
  end.
Definition entry_text (pending : jval) (key : string) : res string :=
  rbind (entry pending key) (λ v, Ok (py_str v)).
Definition from_iso (v : jval) : res Z :=
  match v with
  | JStr text => match datetime_fromisoformat text with
                 | Some t => Ok t
                 | None => Raise (ValueError "Invalid isoformat string")
                 end
  | _ => Raise TypeError
  end.

(** ** Payees *)

Definition payee_first (x y : Z * Payee) : bool := py_created_at x.2 <=? py_created_at y.2.

Fixpoint payee_rows (cooldown_seconds : Z) (l : list (Z * Payee)) : M St (list jval) :=
  match l with
  | [] => ret []
  | (id, p) :: rest =>
      status <- _cooldown_status p cooldown_seconds ;;
      rows <- payee_rows cooldown_seconds rest ;;
      ret (JObj (("payee", JInt id) :: cooldown_entries status) :: rows)
  end.

Definition payees_page (user_id : Z) : M St Page :=
  cooldown_seconds <- lift payee_cooldown_seconds ;;
  mine <- db_get (λ d, sort_by payee_first
            (rows_where (λ p, py_user_id p =? user_id) (payees d))) ;;
  rows <- payee_rows cooldown_seconds mine ;;
  render "payees.html" [("payee_rows", JList rows)] 200.

Definition payees_add : M St Page := render _ADD_PAYEE_TEMPLATE [] 200.

Definition lookup_failed : string := "Could not add that payee. Check the details and try again.".

(** The account does not exist: the failure is counted and recorded. *)
Definition payee_lookup_failure (user_id : Z) (account_number : string) : M St Page :=
  counted <- try_except
    (n <- consume_durable_rate_limit "payee_lookup_failure" ("user:" +:+ pretty user_id) 5 (60 * 60) ;;
     ret (inl n))
    is_durable_limit (λ e, ret (inr (limit_retry e))) ;;
  match counted with
  | inr retry_after =>
      _ <- audit_event "payee_lookup" "blocked" (Some user_id)
             [("reason", JStr "durable_rate_limit"); ("retry_after", JInt retry_after)] ;;
      refuse_with lookup_failed _ADD_PAYEE_TEMPLATE [] 429
  | inl failed_count =>
      ref <- lift (audit_reference "payee_account" account_number) ;;
      _ <- audit_event "payee_lookup" "failure" (Some user_id)
             [("reason", JStr "recipient_not_found"); ("account_ref", jopt_str ref);
              ("failed_lookup_count", JInt failed_count)] ;;
      refuse_with lookup_failed _ADD_PAYEE_TEMPLATE [] 400
  end.

Definition account_holder (account_number : string) (d : Db) : option (Z * User) :=
  first_where (λ u, bool_decide (u_account_number u = Some account_number)) (users d).
Definition existing_payee (user_id : Z) (account_number : string) (d : Db) : option (Z * Payee) :=
  first_where (λ p, (py_user_id p =? user_id) && bool_decide (py_account_number p = account_number))
    (payees d).

Definition payees_add_submit (user_id : Z) (csrf : bool) (form : AddPayeeForm) : M St Page :=
  if negb (csrf && valid_add_payee form) then render _ADD_PAYEE_TEMPLATE [] 400 else
  let nickname := str_take 64 (strip (or_empty (ap_nickname form))) in
  let account_number := strip (or_empty (ap_account_number form)) in
  user <- load_user user_id ;;
  if negb (_ACCOUNT_RE account_number)
  then refuse_with "Invalid account number format." _ADD_PAYEE_TEMPLATE [] 400
  else if bool_decide (Some account_number = u_account_number user)
  then refuse_with "You cannot add your own account as a payee." _ADD_PAYEE_TEMPLATE [] 400
  else
  authorized <- attempt (verify_high_risk_authorization user_id (ap_totp_code form) "payee_add" true) ;;
  match authorized with
  | inr (message, status) => refuse_with message _ADD_PAYEE_TEMPLATE [] status
  | inl _ =>
      recipient <- db_get (account_holder account_number) ;;
      match recipient with
      | None => payee_lookup_failure user_id account_number
      | Some (_, recipient) =>
          existing <- db_get (existing_payee user_id account_number) ;;
          match existing with
          | Some _ => refuse_with _DUPLICATE_PAYEE_MESSAGE _ADD_PAYEE_TEMPLATE [] 400
          | None =>
              authorized_at <- iso_in 0 ;;
              expires_at <- iso_in _PENDING_PAYEE_TTL ;;
              _ <- session_put "pending_payee"
                     (JObj [("nickname", JStr nickname); ("account_number", JStr account_number);
                            ("recipient_name", JStr (u_full_name recipient));
                            ("authorization_action", JStr "payee_add");
                            ("authorized_at", JStr authorized_at); ("expires_at", JStr expires_at)]) ;;
              _ <- safe_send_notification
                     (send_payee_add_processing_notification user_id nickname account_number) ;;
              ret (RedirectTo "banking.payees_confirm")
          end
      end
  end.

Definition notify_payee_result (user_id : Z) (pending : jval) (outcome : string) : M St unit :=
  nickname <- lift (entry_text pending "nickname") ;;
  account_number <- lift (entry_text pending "account_number") ;;
  safe_send_notification (send_payee_add_result_notification user_id nickname account_number outcome).

(** Whether the pending payee's time is over. *)
Definition pending_expired (pending : jval) : M St bool :=
  now <- now_utc ;;
  expires_at <- lift (rbind (entry pending "expires_at") from_iso) ;;
  ret (expires_at <? now).

Definition payees_confirm (user_id : Z) : M St Page :=
  stored <- session_get "pending_payee" ;;
  if negb (otruthy stored) then send_back _NO_PENDING_PAYEE_MESSAGE "warning" _PAYEES_ADD_ENDPOINT else
  let pending := default JNull stored in
  expired <- pending_expired pending ;;
  if (expired : bool) then
    _ <- session_pop "pending_payee" ;;
    _ <- notify_payee_result user_id pending "expired" ;;
    send_back _REQUEST_EXPIRED_MESSAGE "warning" _PAYEES_ADD_ENDPOINT
  else render "confirm_payee.html" [("pending", pending)] 200.

(** The row, its audit record, both committed; otherwise neither. *)
Definition insert_payee (user_id : Z) (nickname account_number recipient_name : string)
    : M St (option Page) :=
  try_except
    (created_at <- now_utc ;;
     _ <- db_write (upd_payees (λ t,
            <[next_id t := mkPayee user_id nickname account_number recipient_name created_at]> t)) ;;
     _ <- flush ;;
     ref <- lift (audit_reference "payee_account" account_number) ;;
     _ <- audit_event_required "payee_add" "success" (Some user_id)
            [("payee_account_ref", jopt_str ref)] ;;
     _ <- commit ;;
     ret None)
    (λ e, is_integrity_error e || is_audit_write_error e)
    (λ e, _ <- rollback ;;
          if is_integrity_error e
          then page <- send_back _DUPLICATE_PAYEE_MESSAGE "error" _PAYEES_ENDPOINT ;; ret (Some page)
          else raise e).

Definition names_action (action : string) (v : option jval) : bool :=
  match v with Some (JStr text) => bool_decide (text = action) | _ => false end.

(** The request is checked again, since things may have changed, and stored. *)
Definition add_requested_payee (user_id : Z) (pending : jval) : M St Page :=
  account_number <- lift (entry_text pending "account_number") ;;
  user <- load_user user_id ;;
  if bool_decide (Some account_number = u_account_number user)
  then send_back "Cannot add your own account." "error" _PAYEES_ADD_ENDPOINT else
  recipient <- db_get (account_holder account_number) ;;
  match recipient with
  | None => send_back "Account no longer found. Please start again." "error" _PAYEES_ADD_ENDPOINT
  | Some (_, recipient) =>
      existing <- db_get (existing_payee user_id account_number) ;;
      match existing with
      | Some _ => send_back _DUPLICATE_PAYEE_MESSAGE "error" _PAYEES_ENDPOINT
      | None =>
          nickname <- lift (entry_text pending "nickname") ;;
          refused <- insert_payee user_id nickname account_number (u_full_name recipient) ;;
          match refused with
          | Some page => ret page
          | None =>
              _ <- notify_payee_result user_id pending "success" ;;
              cooldown_seconds <- lift payee_cooldown_seconds ;;
              send_back ("Payee added. Transfers available in "
                         +:+ _format_cooldown_remaining (cooldown_seconds * US_SECOND) +:+ ".")
                "success" _PAYEES_ENDPOINT
          end
      end
  end.

Definition payees_confirm_submit (user_id : Z) (csrf : bool) : M St Page :=
  stored <- session_pop "pending_payee" ;;
  if negb (otruthy stored) then send_back _NO_PENDING_PAYEE_MESSAGE "warning" _PAYEES_ADD_ENDPOINT else
  let pending := default JNull stored in
  expired <- pending_expired pending ;;
  if (expired : bool) then
    _ <- notify_payee_result user_id pending "expired" ;;
    send_back _REQUEST_EXPIRED_MESSAGE "warning" _PAYEES_ADD_ENDPOINT
  else
  let get key := match pending with JObj kvs => obj_get key kvs | _ => None end in
  if negb (names_action "payee_add" (get "authorization_action"))
     || negb (otruthy (get "authorized_at"))
  then send_back "Payee authorization expired. Please start again." "warning" _PAYEES_ADD_ENDPOINT
  else if negb csrf then
    _ <- session_put "pending_payee" pending ;;
    render "confirm_payee.html" [("pending", pending)] 400
  else add_requested_payee user_id pending.

Definition payees_cancel (user_id : Z) (csrf : bool) : M St Page :=
  stored <- session_get "pending_payee" ;;
  if negb (otruthy stored) then send_back _NO_PENDING_PAYEE_MESSAGE "warning" _PAYEES_ADD_ENDPOINT else
  if negb csrf
  then send_back "Could not process that request. Please try again." "error" "banking.payees_confirm"
  else
    _ <- session_pop "pending_payee" ;;
    _ <- notify_payee_result user_id (default JNull stored) "cancelled" ;;
    send_back "Payee request canceled." "info" _PAYEES_ADD_ENDPOINT.

Definition payees_remove (user_id payee_id : Z) : M St Page :=
  _ <- own_payee user_id payee_id ;;
  render "remove_payee.html" [("payee", JInt payee_id)] 200.

(** ** Local transfers *)

(** [max(Decimal("0.00"), limit - used)], in cents. *)
Definition remaining_local (user_id : Z) (user : User) : M St Z :=
  used <- local_transfer_amount_used_today user_id ;;
  ret (Z.max 0 (u_local_transfer_daily_limit user - used)).

(** What the amount pages show. *)
Definition amount_context (shown : list (string * jval)) (daily_limit remaining : Z)
    : list (string * jval) :=
  (shown ++ [("daily_limit", JStr (fixed2 daily_limit)); ("remaining", JStr (fixed2 remaining))])%list.

Definition transfer (user_id payee_id : Z) : M St Page :=
  payee <- own_payee user_id payee_id ;;
  cooldown_seconds <- lift payee_cooldown_seconds ;;
  status <- _cooldown_status payee cooldown_seconds ;;
  match status with
  | Some (remaining, _) =>
      send_back ("This payee is still in cooldown. Available in " +:+ remaining +:+ ".") "warning"
        _PAYEES_ENDPOINT
  | None =>
      user <- load_user user_id ;;
      remaining <- remaining_local user_id user ;;
      render _TRANSFER_TEMPLATE
        (amount_context [("payee", JInt payee_id)] (u_local_transfer_daily_limit user) remaining) 200
  end.

(** The submitted amount, or the message that refuses it. *)
Definition submitted_amount (text remaining_message : string) (remaining : Z) : M St (pydec + string) :=
  match decimal_of_str (strip text) with
  | Raise _ => ret (inr "Invalid amount.")
  | Ok amount =>
      too_small <- lift (dec_lt amount MIN_TRANSACTION_AMOUNT) ;;
      too_large <- (if (too_small : bool) then ret true
                    else lift (dec_gt amount MAX_TRANSACTION_AMOUNT)) ;;
      if (too_large : bool) then
        ret (inr ("Amount must be between SGD " +:+ dec_str MIN_TRANSACTION_AMOUNT +:+ " and SGD "
                  +:+ dec_str MAX_TRANSACTION_AMOUNT +:+ "."))
      else
        over <- lift (dec_gt amount (of_cents remaining)) ;;
        if (over : bool)
        then ret (inr (remaining_message +:+ " Remaining today: SGD " +:+ fixed2 remaining +:+ "."))
        else ret (inl amount)
  end.

Definition add_pending_transfer (p : PendingTransfer) (d : Db) : Db :=
  upd_pending_transfers (λ t, <[next_id t := p]> t) d.

(** The pending transfer is stored; the session keeps its token. *)
Definition store_transfer (user_id payee_id : Z) (amount : pydec) (reference : string) : M St Page :=
  token <- fresh urandom_hex ;;
  verifier <- lift (local_transfer_token_verifier token) ;;
  now <- now_utc ;;
  created_at <- now_utc ;;
  _ <- db_write (add_pending_transfer
         (mkPendingTransfer verifier (numeric5 amount) reference
            (now + _PENDING_TRANSFER_TTL * US_SECOND) None None created_at user_id payee_id)) ;;
  _ <- commit ;;
  _ <- session_put "pending_transfer_token" (JStr token) ;;
  ret (RedirectTo "banking.transfer_confirm").

Definition transfer_submit (user_id payee_id : Z) (csrf : bool) (form : TransferForm) : M St Page :=
  payee <- own_payee user_id payee_id ;;
  cooldown_seconds <- lift payee_cooldown_seconds ;;
  status <- _cooldown_status payee cooldown_seconds ;;
  match status with
  | Some _ => send_back "Payee is still in cooldown." "error" _PAYEES_ENDPOINT
  | None =>
      user <- load_user user_id ;;
      remaining <- remaining_local user_id user ;;
      let context :=
        amount_context [("payee", JInt payee_id)] (u_local_transfer_daily_limit user) remaining in
      if negb (csrf && valid_transfer form) then render _TRANSFER_TEMPLATE context 400 else
      entered <- submitted_amount (or_empty (tf_amount form))
        "This transfer would exceed your daily Local Transfer limit." remaining ;;
      match entered with
      | inr message => refuse_with message _TRANSFER_TEMPLATE context 400
      | inl amount =>
          authorized <- attempt (verify_high_risk_authorization user_id (tf_totp_code form)
                                   "transfer" true) ;;
          match authorized with
          | inr (message, status) => refuse_with message _TRANSFER_TEMPLATE context status
          | inl _ => store_transfer user_id payee_id amount (reference_text (tf_reference form))
          end
      end
  end.

Definition transfer_confirm (user_id payee_id : Z) : M St Page :=
  stored <- session_get "pending_transfer_token" ;;
  if negb (otruthy stored) then send_back _NO_PENDING_TRANSFER_MESSAGE "warning" _PAYEES_ENDPOINT else
  verifier <- lift (local_transfer_token_verifier (py_str (default JNull stored))) ;;
  found <- db_get (λ d, first_where (pending_for verifier user_id payee_id) (pending_transfers d)) ;;
  match found with
  | None =>
      _ <- session_pop "pending_transfer_token" ;;
      send_back _NO_PENDING_TRANSFER_MESSAGE "warning" _PAYEES_ENDPOINT
  | Some (_, pending_tfr) =>
      now <- now_utc ;;
      if pt_expires_at pending_tfr <? now then
        _ <- session_pop "pending_transfer_token" ;;
        send_back _REQUEST_EXPIRED_MESSAGE "warning" _PAYEES_ENDPOINT
      else
        payee <- load_payee (pt_payee_id pending_tfr) ;;
        render "confirm_transfer.html"
          [("payee_id", JInt payee_id); ("recipient_name", JStr (py_recipient_name payee));
           ("payee_account_number", JStr (py_account_number payee));
           ("amount", JStr (dec_str (DFin (pt_amount pending_tfr) (-5))));
           ("reference", JStr (pt_reference pending_tfr))] 200
  end.

(** [txn_ref[:8].upper()]. *)
Definition short_reference (txn_ref : string) : string := upper (str_take 8 txn_ref).

Definition transfer_confirm_submit (user_id payee_id : Z) (csrf : bool) : M St Page :=
  stored <- session_pop "pending_transfer_token" ;;
  if negb (otruthy stored) then send_back _NO_PENDING_TRANSFER_MESSAGE "warning" _PAYEES_ENDPOINT else
  if negb csrf
  then send_back "Request validation failed. Please start again." "error" _PAYEES_ENDPOINT else
  _ <- own_payee user_id payee_id ;;
  executed <- attempt (execute_local_transfer user_id payee_id (py_str (default JNull stored))) ;;
  match executed with
  | inr (message, _) => send_back message "error" _PAYEES_ENDPOINT
  | inl txn_ref =>
      shown <- db_query (λ d, one_or_none
        (λ p, bool_decide (pt_consumed_transaction_ref p = Some txn_ref)) (pending_transfers d)) ;;
      payee <- load_payee payee_id ;;
      let amount_display :=
        match shown with
        | Some (_, p) => if pt_amount p =? 0 then "" else dec_str (DFin (pt_amount p) (-5))
        | None => ""
        end in
      send_back ("Transfer of SGD " +:+ amount_display +:+ " to " +:+ py_recipient_name payee
                 +:+ " is complete. Ref: " +:+ short_reference txn_ref) "success" _PAYEES_ENDPOINT
  end.

(** ** PayUp *)

Definition payup_principal (user_id : Z) : string := "user:" +:+ pretty user_id.

Definition _record_failed_payup_lookup (user_id : Z) (reason phone_number : string) : M St unit :=
  counted <- try_except
    (n <- consume_durable_rate_limit "payup_lookup_failure" (payup_principal user_id)
            _PAYUP_LOOKUP_FAILURE_LIMIT _PAYUP_LOOKUP_FAILURE_WINDOW_SECONDS ;;
     ret (inl n))
    is_durable_limit (λ e, ret (inr (limit_retry e))) ;;
  match counted with
  | inr retry_after =>
      _ <- audit_event "payup_lookup" "blocked" (Some user_id)
             [("reason", JStr "durable_rate_limit"); ("retry_after", JInt retry_after)] ;;
      raise (AuthError _INVALID_PHONE_MESSAGE 429 (Some retry_after))
  | inl failure_count =>
      ref <- lift (audit_reference "payup_phone" phone_number) ;;
      audit_event "payup_lookup" "failure" (Some user_id)
        [("reason", JStr reason); ("phone_ref", jopt_str ref); ("failure_count", JInt failure_count)]
  end.

Definition consume_dimension (user_id window_seconds : Z) (phase phone_number : string)
    (dimension principal : string) (limit : Z) : M St unit :=
  counted <- try_except
    (_ <- consume_durable_rate_limit ("payup_" +:+ phase +:+ "_" +:+ dimension) principal limit
            window_seconds ;;
     ret None)
    is_durable_limit (λ e, ret (Some (limit_retry e))) ;;
  match counted with
  | None => ret tt
  | Some retry_after =>
      ref <- lift (audit_reference "payup_phone" phone_number) ;;
      _ <- audit_event "payup_rate_limit" "blocked" (Some user_id)
             [("dimension", JStr dimension); ("phase", JStr phase);
              ("retry_after", JInt retry_after); ("phone_ref", jopt_str ref)] ;;
      raise (AuthError "PayUp request could not be authorized." 429 (Some retry_after))
  end.

Definition _consume_payup_attempt_limits (user_id : Z) (phone_number phase : string) : M St unit :=
  if negb (str_in phase ["lookup"; "confirm"])
  then raise (AuthError "PayUp request could not be authorized." 403 None) else
  sid <- current_session_id ;;
  match sid with
  | None => raise (AuthError "Session verification required. Please sign in again." 401 None)
  | Some session_identifier =>
      if negb (nonempty session_identifier)
      then raise (AuthError "Session verification required. Please sign in again." 401 None) else
      window_seconds <- lift (config_int "PAYUP_RATE_LIMIT_WINDOW_SECONDS") ;;
      account <- lift (config_int "PAYUP_RATE_LIMIT_ACCOUNT") ;;
      session_limit <- lift (config_int "PAYUP_RATE_LIMIT_SESSION") ;;
      ip <- lift (config_int "PAYUP_RATE_LIMIT_IP") ;;
      recipient <- lift (config_int "PAYUP_RATE_LIMIT_RECIPIENT") ;;
      let consume := consume_dimension user_id window_seconds phase phone_number in
      let address := or_empty request_remote_addr in
      _ <- consume "account" (payup_principal user_id) account ;;
      _ <- consume "session" session_identifier session_limit ;;
      _ <- consume "ip" (if nonempty address then address else "unknown") ip ;;
      consume "recipient" phone_number recipient
  end.

Definition _payup_recipient_is_available (user_id recipient_id : Z) (recipient : User) : bool :=
  negb (recipient_id =? user_id) && bool_decide (u_account_status recipient = "active")
  && negb (u_is_frozen recipient) && nonempty (or_empty (u_phone_number recipient)).

(** The recipient row of a pending PayUp, while it may be paid. *)
Definition available_recipient (user_id recipient_id : Z) : M St (option User) :=
  found <- db_get (λ d, users d !! recipient_id) ;;
  ret (match found with
       | Some recipient =>
           if _payup_recipient_is_available user_id recipient_id recipient then Some recipient else None
       | None => None
       end).

Definition _pending_payup_recipient (user_id : Z) (pending : option jval) : M St (option (Z * User)) :=
  match pending with
  | Some (JObj kvs) =>
      match py_int (obj_get "recipient_user_id" kvs),
            (v ← obj_get "expires_at" kvs; datetime_fromisoformat (py_str v)) with
      | Ok recipient_id, Some expires_at =>
          now <- now_utc ;;
          if expires_at <? now then ret None
          else
            recipient <- available_recipient user_id recipient_id ;;
            ret ((λ u, (recipient_id, u)) <$> recipient)
      | _, _ => ret None
      end
  | _ => ret None
  end.

Definition _payup_nickname_required_response : M St Page :=
  _ <- session_pop "pending_payup_recipient" ;;
  _ <- session_pop "pending_payup_token" ;;
  send_back "Set your PayUp display nickname before sending by phone number." "warning"
    _PAYUP_NICKNAME_ENDPOINT.

(** A view that needs the sender's nickname. *)
Definition with_nickname (user_id : Z) (view : User → M St Page) : M St Page :=
  user <- load_user user_id ;;
  if negb (_payup_nickname_ready user) then _payup_nickname_required_response else view user.

Definition payup_nickname (user_id : Z) : M St Page :=
  user <- load_user user_id ;;
  render _PAYUP_NICKNAME_TEMPLATE [("nickname", JStr (Statement._payup_nickname_value (Some user)))] 200.

Definition payup_nickname_submit (user_id : Z) (csrf : bool) (form : option string) : M St Page :=
  match (if csrf then PayupNicknameForm form else None) with
  | None => render _PAYUP_NICKNAME_TEMPLATE [] 400
  | Some nickname =>
      _ <- db_write (upd_users (alter (set_u_payup_nickname (Some nickname)) user_id)) ;;
      _ <- try_except
        (_ <- audit_event_required "payup_nickname_update" "success" (Some user_id)
                [("nickname_present", JBool (nonempty nickname));
                 ("nickname_length", JInt (Z.of_nat (slen nickname)))] ;;
         commit)
        is_audit_write_error (λ e, _ <- rollback ;; raise e) ;;
      send_back "PayUp nickname saved." "success" _PAYUP_ENDPOINT
  end.

Definition payup (user_id : Z) : M St Page :=
  with_nickname user_id (λ _, render _PAYUP_TEMPLATE [] 200).

Definition phone_owner (phone_number : string) (d : Db) : option (Z * User) :=
  first_where (λ u, bool_decide (u_phone_number u = Some phone_number)) (users d).

(** The user with that number may not be paid. *)
Definition unpayable (user_id : Z) (found : option (Z * User)) : bool :=
  match found with
  | None => true
  | Some (recipient_id, recipient) =>
      (recipient_id =? user_id) || negb (bool_decide (u_account_status recipient = "active"))
      || u_is_frozen recipient
  end.

Definition payup_submit (user_id : Z) (csrf : bool) (form : option string) : M St Page :=
  with_nickname user_id (λ _,
  if negb (csrf && PayupPhoneForm form) then render _PAYUP_TEMPLATE [] 400 else
  let phone_number := strip (or_empty form) in
  limited <- attempt (_consume_payup_attempt_limits user_id phone_number "lookup") ;;
  match limited with
  | inr (message, status) => refuse_with message _PAYUP_TEMPLATE [] status
  | inl _ =>
      ref <- lift (audit_reference "payup_phone" phone_number) ;;
      _ <- audit_event "payup_lookup" "attempted" (Some user_id) [("phone_ref", jopt_str ref)] ;;
      found <- db_get (phone_owner phone_number) ;;
      if unpayable user_id found then
        recorded <- attempt (_record_failed_payup_lookup user_id "recipient_unavailable" phone_number) ;;
        match recorded with
        | inr (message, status) => refuse_with message _PAYUP_TEMPLATE [] status
        | inl _ => refuse_with _INVALID_PHONE_MESSAGE _PAYUP_TEMPLATE [] 400
        end
      else
        _ <- audit_event "payup_lookup" "success" (Some user_id) [("phone_ref", jopt_str ref)] ;;
        expires_at <- iso_in _PAYUP_PENDING_RECIPIENT_TTL ;;
        _ <- session_put "pending_payup_recipient"
               (JObj [("recipient_user_id", JInt (match found with Some (id, _) => id | None => 0 end));
                      ("expires_at", JStr expires_at)]) ;;
        ret (RedirectTo "banking.payup_amount")
  end).

Definition remaining_payup (user_id : Z) (user : User) : M St Z :=
  used <- payup_amount_used_today user_id ;;
  ret (Z.max 0 (u_payup_daily_limit user - used)).

(** Reads the pending recipient of the session, or sends the customer back. *)
Definition with_recipient (user_id : Z) (view : Z → User → M St Page) : M St Page :=
  pending <- session_get "pending_payup_recipient" ;;
  recipient <- _pending_payup_recipient user_id pending ;;
  match recipient with
  | None =>
      _ <- session_pop "pending_payup_recipient" ;;
      send_back _NO_PENDING_PAYUP_RECIPIENT_MESSAGE "warning" _PAYUP_ENDPOINT
  | Some (recipient_id, recipient) => view recipient_id recipient
  end.

Definition payup_amount (user_id : Z) : M St Page :=
  with_nickname user_id (λ user, with_recipient user_id (λ _ recipient,
    remaining <- remaining_payup user_id user ;;
    render _PAYUP_AMOUNT_TEMPLATE
      (amount_context (_payup_recipient_display recipient) (u_payup_daily_limit user) remaining) 200)).

Definition add_payup_pending (p : PayupPendingTransfer) (d : Db) : Db :=
  upd_payup_pending_transfers (λ t, <[next_id t := p]> t) d.

Definition store_payup (user_id recipient_id : Z) (amount : pydec) (reference : string) : M St Page :=
  token <- fresh urandom_hex ;;
  verifier <- lift (payup_transfer_token_verifier token) ;;
  now <- now_utc ;;
  created_at <- now_utc ;;
  _ <- db_write (add_payup_pending
         (mkPayupPendingTransfer verifier (numeric5 amount) reference
            (now + _PAYUP_PENDING_TRANSFER_TTL * US_SECOND) None None created_at user_id recipient_id)) ;;
  _ <- commit ;;
  _ <- session_pop "pending_payup_recipient" ;;
  _ <- session_put "pending_payup_token" (JStr token) ;;
  ret (RedirectTo "banking.payup_confirm").

Definition payup_amount_submit (user_id : Z) (csrf : bool) (form : PayupAmountForm) : M St Page :=
  with_nickname user_id (λ user, with_recipient user_id (λ recipient_id recipient,
    remaining <- remaining_payup user_id user ;;
    let context :=
      amount_context (_payup_recipient_display recipient) (u_payup_daily_limit user) remaining in
    if negb (csrf && valid_payup_amount form) then render _PAYUP_AMOUNT_TEMPLATE context 400 else
    entered <- submitted_amount (or_empty (pa_amount form))
      "This transfer would exceed your daily PayUp limit." remaining ;;
    match entered with
    | inr message => refuse_with message _PAYUP_AMOUNT_TEMPLATE context 400
    | inl amount =>
        uncovered <- lift (dec_gt amount (of_cents (u_balance user))) ;;
        if (uncovered : bool)
        then refuse_with "Insufficient balance for this transfer." _PAYUP_AMOUNT_TEMPLATE context 400
        else store_payup user_id recipient_id amount (reference_text (pa_reference form))
    end)).

Definition _payup_confirmation_display (user recipient : User) (pending_tfr : PayupPendingTransfer)
    (amount : pydec) (requires_step_up : bool) : res (list (string * jval)) :=
  rbind (quantize_cents amount) (λ quantized,
    Ok ([("amount", JStr (dec_str quantized)); ("reference", JStr (pp_reference pending_tfr));
         ("requires_step_up", JBool requires_step_up);
         ("sender_account_ending", JStr (_account_ending (u_account_number user)));
         ("sender_nickname", JStr (Statement._payup_nickname_value (Some user)))]
        ++ _payup_recipient_display recipient)%list).

Definition payup_pending_for (verifier : string) (user_id : Z) : PayupPendingTransfer → bool :=
  consumable pp_token pp_user_id pp_consumed_at verifier user_id.
Definition find_payup_pending (verifier : string) (user_id : Z) (d : Db)
    : option (Z * PayupPendingTransfer) :=
  first_where (payup_pending_for verifier user_id) (payup_pending_transfers d).

Definition blocked_recipient (user_id : Z) : M St Page :=
  _ <- audit_event "payup_transfer" "blocked" (Some user_id)
         [("reason", JStr "recipient_unavailable")] ;;
  send_back "PayUp could not authorize this transfer." "error" _PAYUP_ENDPOINT.

Definition risk_reasons (risk : PayupRiskDecision) : string * jval :=
  ("risk_reasons", JList (JStr <$> reasons risk)).

Definition payup_confirm (user_id : Z) : M St Page :=
  with_nickname user_id (λ user,
  stored <- session_get "pending_payup_token" ;;
  if negb (otruthy stored) then send_back _NO_PENDING_TRANSFER_MESSAGE "warning" _PAYUP_ENDPOINT else
  verifier <- lift (payup_transfer_token_verifier (py_str (default JNull stored))) ;;
  found <- db_get (find_payup_pending verifier user_id) ;;
  match found with
  | None =>
      _ <- session_pop "pending_payup_token" ;;
      send_back _NO_PENDING_TRANSFER_MESSAGE "warning" _PAYUP_ENDPOINT
  | Some (_, pending_tfr) =>
      now <- now_utc ;;
      if pp_expires_at pending_tfr <? now then
        _ <- session_pop "pending_payup_token" ;;
        send_back _REQUEST_EXPIRED_MESSAGE "warning" _PAYUP_ENDPOINT
      else
      available <- available_recipient user_id (pp_recipient_user_id pending_tfr) ;;
      match available with
      | None => _ <- session_pop "pending_payup_token" ;; blocked_recipient user_id
      | Some recipient =>
          let amount := DFin (pp_amount pending_tfr) (-5) in
          risk <- evaluate_payup_risk user_id amount None ;;
          if blocked risk then
            _ <- session_pop "pending_payup_token" ;;
            _ <- audit_event "payup_transfer" "blocked" (Some user_id) [risk_reasons risk] ;;
            send_back ("PayUp could not authorize this transfer. "
                       +:+ "Please sign in again or contact support.") "error" _PAYUP_ENDPOINT
          else
            context <- lift (_payup_confirmation_display user recipient pending_tfr amount
                               (requires_step_up risk)) ;;
            render _PAYUP_CONFIRM_TEMPLATE context 200
      end
  end).

(** The step-up of a PayUp confirmation: [inl] whether it was used, or the page
    that asks again. *)
Definition payup_step_up (user_id : Z) (user recipient : User) (pending_tfr : PayupPendingTransfer)
    (token : jval) (risk : PayupRiskDecision) (totp_code : option string) : M St (bool + Page) :=
  if negb (requires_step_up risk) then ret (inl false) else
  _ <- audit_event "payup_mfa_challenge" "required" (Some user_id) [risk_reasons risk] ;;
  challenged <- attempt
    (_ <- verify_high_risk_authorization user_id totp_code "payup_transfer" true ;;
     audit_event "payup_mfa_challenge" "completed" (Some user_id) [risk_reasons risk]) ;;
  match challenged with
  | inl _ => ret (inl true)
  | inr (message, status) =>
      _ <- audit_event "payup_mfa_challenge" "failure" (Some user_id)
             [("reason", JStr "invalid_or_missing_step_up")] ;;
      _ <- flash message "error" ;;
      _ <- session_put "pending_payup_token" token ;;
      context <- lift (_payup_confirmation_display user recipient pending_tfr
                         (DFin (pp_amount pending_tfr) (-5)) true) ;;
      ret (inr (Rendered _PAYUP_CONFIRM_TEMPLATE context status))
  end.

(** The transfer itself and what the customer is told. *)
Definition run_payup (user_id : Z) (pending_tfr : PayupPendingTransfer) (recipient_phone : string)
    (token : jval) (authorized : bool) : M St Page :=
  executed <- attempt (execute_payup_transfer user_id (py_str token) authorized) ;;
  match executed with
  | inr (message, status) =>
      _ <- audit_event "payup_transfer"
             (if existsb (Z.eqb status) [401; 403; 409; 429] then "blocked" else "failure")
             (Some user_id) [("reason", JStr "execution_policy")] ;;
      _ <- send_transfer_notification user_id "withdrawal" "failure" "PayUp" no_details ;;
      send_back message "error" _PAYUP_ENDPOINT
  | inl txn_ref =>
      recipient <- load_user (pp_recipient_user_id pending_tfr) ;;
      let nickname := Statement._payup_nickname_value (Some recipient) in
      ref <- lift (audit_reference "transaction_reference" txn_ref) ;;
      _ <- audit_event "payup_transfer" "success" (Some user_id)
             [("step_up_used", JBool authorized); ("transaction_ref", jopt_str ref)] ;;
      shown <- lift (quantize_cents (DFin (pp_amount pending_tfr) (-5))) ;;
      send_back ("Transfer of SGD " +:+ dec_str shown +:+ " to "
                 +:+ (if nonempty nickname then nickname else recipient_phone)
                 +:+ " is complete. Ref: " +:+ short_reference txn_ref) "success" "web.dashboard"
  end.

(** The confirmation once its pending transfer is found. *)
Definition confirm_payup (user_id : Z) (user recipient : User) (pending_tfr : PayupPendingTransfer)
    (token : jval) (totp_code : option string) : M St Page :=
  let recipient_phone := or_empty (u_phone_number recipient) in
  limited <- attempt (_consume_payup_attempt_limits user_id recipient_phone "confirm") ;;
  match limited with
  | inr (message, _) =>
      _ <- audit_event "payup_transfer" "blocked" (Some user_id) [("reason", JStr "rate_limit")] ;;
      send_back message "error" _PAYUP_ENDPOINT
  | inl _ =>
      risk <- evaluate_payup_risk user_id (DFin (pp_amount pending_tfr) (-5)) None ;;
      ref <- lift (audit_reference "payup_phone" recipient_phone) ;;
      _ <- audit_event "payup_transfer" "attempted" (Some user_id)
             [("risk_decision", JStr (decision risk)); risk_reasons risk; ("phone_ref", jopt_str ref)] ;;
      stepped_up <- payup_step_up user_id user recipient pending_tfr token risk totp_code ;;
      match stepped_up with
      | inr page => ret page
      | inl authorized => run_payup user_id pending_tfr recipient_phone token authorized
      end
  end.

Definition payup_confirm_submit (user_id : Z) (csrf : bool) (totp_code : option string) : M St Page :=
  with_nickname user_id (λ user,
  stored <- session_pop "pending_payup_token" ;;
  if negb (otruthy stored) then send_back _NO_PENDING_TRANSFER_MESSAGE "warning" _PAYUP_ENDPOINT else
  if negb (csrf && _totp_code_field false totp_code)
  then send_back "Request validation failed. Please start again." "error" _PAYUP_ENDPOINT else
  let token := default JNull stored in
  verifier <- lift (payup_transfer_token_verifier (py_str token)) ;;
  found <- db_get (find_payup_pending verifier user_id) ;;
  match found with
  | None => send_back _NO_PENDING_TRANSFER_MESSAGE "warning" _PAYUP_ENDPOINT
  | Some (_, pending_tfr) =>
      available <- available_recipient user_id (pp_recipient_user_id pending_tfr) ;;
      match available with
      | None => blocked_recipient user_id
      | Some recipient => confirm_payup user_id user recipient pending_tfr token totp_code
      end
  end).

(** ** The views behind the hook and the guards *)

Inductive Visit : Type :=
  | PayeesPage | PayeesAdd | PayeesAddSubmit (csrf : bool) (form : AddPayeeForm)
  | PayeesConfirm | PayeesConfirmSubmit (csrf : bool) | PayeesCancel (csrf : bool)
  | PayeesRemove (payee_id : Z)
  | TransferPage (payee_id : Z) | TransferSubmit (payee_id : Z) (csrf : bool) (form : TransferForm)
  | TransferConfirm (payee_id : Z) | TransferConfirmSubmit (payee_id : Z) (csrf : bool)
  | PayupNickname | PayupNicknameSubmit (csrf : bool) (form : option string)
  | PayupPage | PayupSubmit (csrf : bool) (form : option string)
  | PayupAmount | PayupAmountSubmit (csrf : bool) (form : PayupAmountForm)
  | PayupConfirm | PayupConfirmSubmit (csrf : bool) (totp_code : option string).

Definition view (v : Visit) (user_id : Z) : M St Page :=
  match v with
  | PayeesPage => payees_page user_id
  | PayeesAdd => payees_add
  | PayeesAddSubmit csrf form => payees_add_submit user_id csrf form
  | PayeesConfirm => payees_confirm user_id
  | PayeesConfirmSubmit csrf => payees_confirm_submit user_id csrf
  | PayeesCancel csrf => payees_cancel user_id csrf
  | PayeesRemove payee_id => payees_remove user_id payee_id
  | TransferPage payee_id => transfer user_id payee_id
  | TransferSubmit payee_id csrf form => transfer_submit user_id payee_id csrf form
  | TransferConfirm payee_id => transfer_confirm user_id payee_id
  | TransferConfirmSubmit payee_id csrf => transfer_confirm_submit user_id payee_id csrf
  | PayupNickname => payup_nickname user_id
  | PayupNicknameSubmit csrf form => payup_nickname_submit user_id csrf form
  | PayupPage => payup user_id
  | PayupSubmit csrf form => payup_submit user_id csrf form
  | PayupAmount => payup_amount user_id
  | PayupAmountSubmit csrf form => payup_amount_submit user_id csrf form
  | PayupConfirm => payup_confirm user_id
  | PayupConfirmSubmit csrf totp_code => payup_confirm_submit user_id csrf totp_code
  end.

(** [None]: a page of the guards instead of the view's. *)
Definition visit (v : Visit) : M St (option Page) :=
  current_user <- load_current_user ;;
  onboarding <- enforce_banking_mfa_onboarding current_user ;;
  match onboarding with
  | Some page => ret (Some page)
  | None =>
      answer <- guarded (view v) ;;
      ret (match answer with Passed page => Some page | _ => None end)
  end.
End Views.
End BankingViews.
