(* ===== verification/TransferJourney.v ===== *)
(** * A local transfer needs the step-up that stored it

    Along any visits of the banking views, by any customers from any browsers,
    the local transfers that reach the ledger are matched, one to one, by
    submissions that passed the authenticator step-up for the same customer,
    payee and amount. *)

From S2P Require Import Prelude PyStr PyDecimal TimeModel Schema Canonical Json Runtime Sample.
From S2P Require Import Integrity AuditLog SessionRisk BankingPolicy Notifications Sessions.
From S2P Require Import SessionStore RateLimits Mfa LedgerSpec Transfers TransferSafety Guards.
From S2P Require Import Idempotency BankingViews.
From Stdlib Require Import Ascii.
Open Scope string_scope.
Open Scope Z_scope.

Module TransferJourney.
Import Audit Ledger SessionRisk Policy Notifications SessionStore Mfa Transfers TransferSafety Guards.
Import RateLimits BankingViews.

(** ** Amounts *)

Lemma digits_val_lower l : ∀ acc v, digits_val acc l = Some v → acc * 10 ^ Z.of_nat (length l) ≤ v.
Proof.
  induction l as [|c l IH]; intros acc v; cbn [digits_val length].
  { intros [= <-]. lia. }
  destruct (is_digit c) eqn:Ec; [|done]. intros Hv%IH. unfold is_digit in Ec.
  apply andb_true_iff in Ec as [H1%Z.leb_le _]. rewrite Nat2Z.inj_succ, Z.pow_succ_r by lia.
  pose proof (Z.pow_pos_nonneg 10 (Z.of_nat (length l))). nia.
Qed.

Lemma ndigits_lower c : c ≠ 0 → 10 ^ (ndigits c - 1) ≤ Z.abs c.
Proof.
  intros Hc. unfold ndigits. rewrite <- (Z2N.id (Z.abs c)) by lia.
  set (n := Z.to_N (Z.abs c)). assert (n ≠ 0%N) as Hn by lia.
  assert (pretty (Z.of_N n) = pretty n) as -> by (by destruct n).
  destruct (pretty_N_head n) as (d & l & El & Hd & Hz).
  pose proof (digits_val_pretty_N n) as Hv. rewrite <- length_chars, El. rewrite El in Hv.
  cbn [digits_val length] in *. rewrite Hd in Hv.
  assert (d ≠ "0"%char) as Hd0.
  { intros ->. rewrite (Hz eq_refl) in Hv. apply Hn, N2Z.inj. by injection Hv. }
  assert (1 ≤ code d - 48) as H1.
  { unfold is_digit in Hd. apply andb_true_iff in Hd as [H1%Z.leb_le _].
    destruct (Z.eq_dec (code d) 48) as [E48|]; [|lia]. destruct Hd0.
    rewrite <- (ascii_nat_embedding d). unfold code in E48. by replace (nat_of_ascii d) with 48%nat by lia. }
  apply digits_val_lower in Hv. rewrite Nat2Z.inj_succ.
  replace (Z.succ (Z.of_nat (length l)) - 1) with (Z.of_nat (length l)) by lia.
  pose proof (Z.pow_pos_nonneg 10 (Z.of_nat (length l))). nia.
Qed.

(** Rounding to the precision leaves a coefficient of at least 27 digits. *)
Lemma dec_fix_large c e :
  28 < ndigits c → ∃ c' e', dec_fix (DFin c e) = DFin c' e' ∧ e + 1 ≤ e'
    ∧ (0 < c → 10 ^ 26 ≤ c') ∧ (c < 0 → c' < 0).
Proof.
  intros Hd. assert (c ≠ 0) as Hc by (intros ->; by vm_compute in Hd).
  pose proof (ndigits_lower c Hc) as Hl. unfold dec_fix, dec_prec.
  destruct (Z.leb_spec (ndigits c - 28) 0); [lia|]. set (k := ndigits c - 28) in *.
  replace (ndigits c - 1) with (27 + k) in Hl by lia. rewrite Z.pow_add_r in Hl by lia.
  set (m := 10 ^ k) in *. assert (0 < m) by (apply Z.pow_pos_nonneg; lia).
  assert (c / m ≤ round_half_even c k ≤ c / m + 1) as Hr.
  { unfold round_half_even. fold m. repeat case_match; lia. }
  assert (0 < c → 10 ^ 27 ≤ c / m) as Hp by (intros; apply Z.div_le_lower_bound; lia).
  assert (c < 0 → c / m ≤ - 10 ^ 27) as Hn.
  { intros. apply Z.div_le_upper_bound; lia. }
  destruct (Z.ltb_spec 28 (ndigits (round_half_even c k))); eexists _, _;
    (split; [reflexivity|]); split_and!; try lia.
  - intros. apply Z.div_le_lower_bound; lia.
  - intros. apply Z.div_lt_upper_bound; lia.
Qed.

(** What [_local_transfer_amount] returns is the stored amount, in cents. *)
Lemma normalized_cents c c' e' q :
  normalize (DFin c (-5)) = DFin c' e' → -2 ≤ e' → quantize_cents (DFin c' e') = Ok q →
  1 ≤ cents q ≤ 5000000 → c = 1000 * cents q.
Proof.
  unfold normalize. intros Hn He Hq Hr.
  assert (c' ≠ 0 → cents q = c' * 10 ^ (e' + 2)) as Hcents.
  { intros Hc. unfold quantize_cents in Hq. rewrite (proj2 (Z.eqb_neq c' 0) Hc) in Hq.
    destruct (dec_prec <? e' + ndigits c' - 1 + 2 + 1); [done|].
    rewrite (proj2 (Z.leb_le (-2) e') He) in Hq. destruct (dec_prec <? _); [done|]. by injection Hq as <-. }
  assert (c' ≠ 0) as Hc'.
  { intros ->. cbn in Hq. injection Hq as <-. cbn in Hr. lia. }
  specialize (Hcents Hc').
  destruct (Z.leb_spec (ndigits c) 28) as [Hd|Hd].
  - unfold dec_fix, dec_prec in Hn. rewrite (proj2 (Z.leb_le (ndigits c - 28) 0)) in Hn by lia.
    destruct (Z.eqb_spec c 0); [by simplify_eq|].
    destruct (strip_zeros 28 c (-5)) as [c1 e1] eqn:Es. injection Hn as -> ->.
    apply strip_zeros_value in Es as [_ ->]. rewrite Hcents.
    replace (e' - -5) with (3 + (e' + 2)) by lia. rewrite Z.pow_add_r by lia. change (10 ^ 3) with 1000. ring.
  - exfalso. destruct (dec_fix_large c (-5) Hd) as (c1 & e1 & E & He1 & Hpos & Hneg).
    rewrite E in Hn. destruct (Z.eqb_spec c1 0); [by simplify_eq|].
    destruct (strip_zeros 28 c1 e1) as [c2 e2] eqn:Es. injection Hn as -> ->.
    apply strip_zeros_value in Es as [Hle ->].
    assert (c ≠ 0) by (intros ->; by vm_compute in Hd).
    assert (10 ^ (e' - e1) ≤ 100 * 10 ^ (e' + 2)) as Hpow.
    { change 100 with (10 ^ 2). rewrite <- Z.pow_add_r by lia. apply Z.pow_le_mono_r; lia. }
    pose proof (Z.pow_pos_nonneg 10 (e' - e1)). pose proof (Z.pow_pos_nonneg 10 (e' + 2)).
    destruct (Z.lt_trichotomy c 0) as [Hc|[?|Hc]]; [|done|].
    + specialize (Hneg Hc). assert (c' < 0) by nia. nia.
    + specialize (Hpos Hc). assert (0 < c') by nia. assert (c' * 10 ^ (e' - e1) ≤ 100 * cents q) by nia.
      change (10 ^ 26) with 100000000000000000000000000 in Hpos. lia.
Qed.

(** ** What is open and what is posted *)

(** Customer, payee and amount (in 1/100000 SGD) of a local transfer. *)
Notation Order := (Z * Z * Z)%type.

Definition order_of (p : PendingTransfer) : option Order :=
  if bool_decide (pt_consumed_at p = None) then Some (pt_user_id p, pt_payee_id p, pt_amount p) else None.
Definition open_transfers (d : Db) : list Order :=
  omap order_of (map_to_list (pending_transfers d)).*2.

Definition posting_of (t : Transaction) : option Order :=
  match tx_payee_id t with
  | Some p => if bool_decide (tx_transaction_type t = "local_transfer")
              then Some (tx_sender_id t, p, 1000 * tx_amount t) else None
  | None => None
  end.
Definition posted_transfers (d : Db) : list Order :=
  omap posting_of (map_to_list (transactions d)).*2.

(** Every order the database knows of. *)
Definition orders (d : Db) : list Order := (posted_transfers d ++ open_transfers d)%list.

(** [omap] over the values of a table, when a row is added or replaced. *)
Section Tables.
Context {V : Type} (f : V → option Order).
Definition over (t : gmap Z V) : list Order := omap f (map_to_list t).*2.
Definition one (v : V) : list Order := match f v with Some x => [x] | None => [] end.

Lemma over_insert t i v : t !! i = None → over (<[i := v]> t) ≡ₚ (one v ++ over t)%list.
Proof.
  intros Hi. unfold over, one. rewrite map_to_list_insert by done. cbn. by destruct (f v).
Qed.
Lemma over_row t i v : t !! i = Some v → over t ≡ₚ (one v ++ over (delete i t))%list.
Proof.
  intros Hi. rewrite <- (insert_id t i v Hi) at 1. rewrite <- insert_delete_eq.
  apply over_insert, lookup_delete_eq.
Qed.
Lemma over_alter t i v g : t !! i = Some v → over (alter g i t) ≡ₚ (one (g v) ++ over (delete i t))%list.
Proof.
  intros Hi. assert (alter g i t = <[i := g v]> (delete i t)) as ->.
  { rewrite insert_delete_eq. apply map_eq. intros j. destruct (decide (j = i)) as [->|Hj].
    - by rewrite lookup_alter_eq, lookup_insert_eq, Hi.
    - by rewrite lookup_alter_ne, lookup_insert_ne. }
  apply over_insert, lookup_delete_eq.
Qed.
Lemma over_alter_same t i g : (∀ v, f (g v) = f v) → over (alter g i t) ≡ₚ over t.
Proof.
  intros Hg. destruct (t !! i) as [v|] eqn:Hi.
  - rewrite (over_alter t i v g Hi), (over_row t i v Hi). unfold one. by rewrite Hg.
  - by rewrite (alter_id g t i) by (intros ? Hv; congruence).
Qed.
End Tables.

Lemma orders_add_transaction t d :
  orders (add_transaction t d) ≡ₚ (one posting_of t ++ orders d)%list.
Proof.
  unfold orders. rewrite app_assoc. apply Permutation_app; [|done].
  exact (over_insert posting_of (transactions d) _ t (next_id_fresh _)).
Qed.
Lemma orders_add_pending p d :
  orders (add_pending_transfer p d) ≡ₚ (one order_of p ++ orders d)%list.
Proof.
  unfold orders. rewrite (Permutation_app_comm (one order_of p)), <- app_assoc.
  apply Permutation_app; [done|]. rewrite (Permutation_app_comm (open_transfers d)).
  exact (over_insert order_of (pending_transfers d) _ p (next_id_fresh _)).
Qed.
(** Consuming a pending transfer takes its order off the list. *)
Lemma orders_consume pid p now d :
  pending_transfers d !! pid = Some p → pt_consumed_at p = None →
  (pt_user_id p, pt_payee_id p, pt_amount p)
    :: orders (upd_pending_transfers (alter (set_pt_consumed_at (Some now)) pid) d) ≡ₚ orders d.
Proof.
  intros Hp Hc. unfold orders. rewrite Permutation_middle. apply Permutation_app; [done|].
  pose proof (over_row order_of _ pid p Hp) as Hr.
  pose proof (over_alter order_of _ pid p (set_pt_consumed_at (Some now)) Hp) as Ha.
  unfold one, order_of in Hr. rewrite bool_decide_eq_true_2 in Hr by done.
  etrans; [apply perm_skip, Ha|]. symmetry. exact Hr.
Qed.
Lemma orders_mark pid ref d :
  orders (upd_pending_transfers (alter (set_pt_consumed_transaction_ref ref) pid) d) ≡ₚ orders d.
Proof. unfold orders. apply Permutation_app; [done|]. by apply (over_alter_same order_of). Qed.

(** ** Bounded by a list of orders *)

Definition bounded (L : list Order) (c w : Db) : Prop := orders c ⊆+ L ∧ orders w ⊆+ L.

#[export] Instance bounded_blind L : security_blind (bounded L).
Proof. split; [split|..]; by intros * [? ?]. Qed.

Lemma bounded_mono L L' c w : L ⊆+ L' → bounded L c w → bounded L' c w.
Proof. intros HL [? ?]. split; by etrans. Qed.

(** Invariants that everything but a posting, a payee and a pending local
    transfer leaves alone, and those that a payee leaves alone too. *)
Class pages_blind (P : Db → Db → Prop) : Prop := {
  pb_security :: security_blind P;
  pb_payup f c w : P c w → P c (upd_payup_pending_transfers f w);
  pb_nickname n u c w : P c w → P c (upd_users (alter (set_u_payup_nickname n) u) w)
}.
Class payees_blind (P : Db → Db → Prop) : Prop :=
  pb_payees f c w : P c w → P c (upd_payees f w).
#[export] Hint Extern 0 (pages_blind _) => apply _ : pres.
#[export] Instance bounded_pages L : pages_blind (bounded L).
Proof. split; [apply _|..]; by intros * [? ?]. Qed.
#[export] Instance bounded_payees L : payees_blind (bounded L).
Proof. by intros f c w [? ?]. Qed.

#[local] Hint Constants Opaque : pres.

(** ** The steps of a transfer other than its posting *)

Section Checks.
Context `{Env} (P : Db → Db → Prop) `{!pages_blind P}.
Notation keeps := (preserves (on_db P)).

Lemma bound_reject_local {A} s m c md p : keeps (_reject_local_transfer (A:=A) s m c md p).
Proof. unfold _reject_local_transfer, audit_outbound_transfer. solve_pres. Qed.
Lemma bound_reject_payup {A} s md m c : keeps (reject_payup (A:=A) s md m c).
Proof. unfold reject_payup, audit_outbound_transfer. solve_pres. Qed.
Hint Resolve bound_reject_local bound_reject_payup : pres.

Lemma bound_recipient s p : keeps (_local_transfer_recipient s p).
Proof. unfold _local_transfer_recipient. solve_pres. Qed.
Lemma bound_cooldown s p n : keeps (_ensure_payee_cooldown_elapsed s p n).
Proof. unfold _ensure_payee_cooldown_elapsed. solve_pres. Qed.
Lemma bound_load_pending s p t n : keeps (_load_pending_local_transfer s p t n).
Proof. unfold _load_pending_local_transfer. solve_pres. Qed.
Lemma bound_local_amount s p : keeps (_local_transfer_amount s p).
Proof. unfold _local_transfer_amount. solve_pres. Qed.
Lemma bound_local_balance s p l a : keeps (_ensure_local_transfer_balance s p l a).
Proof. unfold _ensure_local_transfer_balance. solve_pres. Qed.
Lemma bound_local_used u : keeps (local_transfer_amount_used_today u).
Proof. unfold local_transfer_amount_used_today. solve_pres. Qed.
Lemma bound_payup_used u : keeps (payup_amount_used_today u).
Proof. unfold payup_amount_used_today. solve_pres. Qed.
Hint Resolve bound_local_used bound_payup_used : pres.
Lemma bound_local_limit s p l a : keeps (_ensure_local_transfer_daily_limit s p l a).
Proof. unfold _ensure_local_transfer_daily_limit. solve_pres. Qed.
Lemma bound_lock a b : keeps (_lock_transfer_participants a b).
Proof. apply pres_db_query. Qed.
Lemma bound_allowed u : keeps (ensure_outbound_transfer_allowed u).
Proof. unfold ensure_outbound_transfer_allowed. solve_pres. Qed.
Lemma bound_update_payup pid f : keeps (update_payup_pending pid f).
Proof. apply pres_db_write. intros c w Hw. by apply pb_payup. Qed.
Hint Resolve bound_recipient bound_cooldown bound_load_pending bound_local_amount bound_local_balance
  bound_local_limit bound_lock bound_allowed bound_update_payup : pres.
Lemma bound_load_payup s t : keeps (_load_and_lock_payup_pending_transfer s t).
Proof. unfold _load_and_lock_payup_pending_transfer. solve_pres. Qed.
Lemma bound_payup_amount s p : keeps (_validate_payup_amount s p).
Proof. unfold _validate_payup_amount. solve_pres. Qed.
Lemma bound_payup_recipient s r : keeps (_validate_payup_recipient s r).
Proof. unfold _validate_payup_recipient. solve_pres. Qed.
Lemma bound_evaluate u a x : keeps (evaluate_payup_risk u a x).
Proof.
  unfold evaluate_payup_risk, gather_risk_inputs, _has_recent_payup_sensitive_event. solve_pres.
Qed.
Lemma bound_gate s a r b : keeps (payup_risk_gate s a r b).
Proof. unfold payup_risk_gate. solve_pres. Qed.
Lemma bound_notify_local a b c d e f g h i : keeps (notify_local_transfer a b c d e f g h i).
Proof. unfold notify_local_transfer. solve_pres; apply pres_safe; solve_pres. Qed.
Lemma bound_notify_payup a b c d e f g h : keeps (notify_payup_transfer a b c d e f g h).
Proof. unfold notify_payup_transfer. solve_pres; apply pres_safe; solve_pres. Qed.
Lemma bound_local_success s p a rf ref : keeps (_audit_local_transfer_success s p a rf ref).
Proof. unfold _audit_local_transfer_success, audit_outbound_transfer. solve_pres. Qed.
Lemma bound_payup_success s a rf ref risk : keeps (audit_payup_success s a rf ref risk).
Proof. unfold audit_payup_success, audit_outbound_transfer. solve_pres. Qed.
Hint Resolve bound_load_payup bound_payup_amount bound_payup_recipient bound_evaluate bound_gate
  bound_notify_local bound_notify_payup bound_local_success bound_payup_success : pres.

(** A PayUp transfer keeps what its posting keeps. *)
Lemma bound_execute_payup s tok authorized :
  (∀ s r a rf, keeps (post_transfer s r None a rf "payup")) →
  keeps (execute_payup_transfer s tok authorized).
Proof. intros Hpost. unfold execute_payup_transfer. solve_pres. Qed.
End Checks.
#[export] Hint Resolve bound_reject_local bound_reject_payup bound_recipient bound_cooldown
  bound_load_pending bound_local_amount bound_local_used bound_payup_used bound_local_balance
  bound_local_limit bound_lock bound_allowed bound_update_payup bound_load_payup bound_payup_amount
  bound_payup_recipient bound_evaluate bound_gate bound_notify_local bound_notify_payup
  bound_local_success bound_payup_success : pres.

Section Frame.
Context `{Env} (L : list Order).
Notation keeps := (preserves (on_db (bounded L))).

Lemma bound_mark pid ref : keeps (update_pending pid (set_pt_consumed_transaction_ref ref)).
Proof. apply pres_db_write. intros c w [Hc Hw]. split; [done|]. by rewrite orders_mark. Qed.
Hint Resolve bound_mark : pres.

(** A PayUp posting is no local transfer. *)
Lemma bound_post_payup s r a rf : keeps (post_transfer s r None a rf "payup").
Proof.
  unfold post_transfer. apply pres_bind; [solve_pres|intros ref].
  apply pres_bind; [solve_pres|intros created]. intros st [Hc Hw]. unfold bind at 1, lift.
  destruct (signed_transaction ref s r None a rf "payup" created) as [txn|e] eqn:Et; [|by split].
  assert (one posting_of txn = []) as Hone.
  { unfold signed_transaction in Et. destruct (sign_transaction_integrity _ _ _ _ _ _ _ _ _)
      as [[[[h k] al] v]|]; [|done]. cbn in Et. by injection Et as <-. }
  split; [exact Hc|]. cbn. change (orders (add_transaction txn (working st)) ⊆+ L).
  by rewrite orders_add_transaction, Hone.
Qed.

Lemma bound_payup s tok authorized : keeps (execute_payup_transfer s tok authorized).
Proof. apply bound_execute_payup; [apply _|]. intros. apply bound_post_payup. Qed.

(** ** Local transfers *)

(** Room for one more order in the session's view. *)
Definition slack (x : Order) (c w : Db) : Prop := orders c ⊆+ L ∧ x :: orders w ⊆+ L.

Lemma slack_bounded x c w : slack x c w → bounded L c w.
Proof. intros [Hc Hw]. split; [done|]. etrans; [|exact Hw]. by apply submseteq_cons. Qed.

(** A check that returns leaves the databases alone. *)
Definition only_checks {A} (c : M St A) (F : A → Prop) : Prop := ∀ st a st',
  c st = (Ok a, st') → working st' = working st ∧ committed st' = committed st ∧ F a.

Lemma slack_check {A B} x (c : M St A) (k : A → M St B) F Q :
  keeps c → only_checks c F →
  (∀ a, F a → triple (on_db (slack x)) (k a) Q (λ _, on_db (bounded L))) →
  triple (on_db (slack x)) (bind c k) Q (λ _, on_db (bounded L)).
Proof.
  intros Hc Hr Hk st Hst. unfold bind. specialize (Hr st). specialize (Hc st (slack_bounded x _ _ Hst)).
  destruct (c st) as [[a|e] st']; [|exact Hc]. destruct (Hr a st' eq_refl) as (Ew & Ec & HF).
  apply (Hk a HF). unfold on_db. by rewrite Ew, Ec.
Qed.

Lemma amount_checks s p : only_checks (_local_transfer_amount s p) (λ a, pt_amount p = 1000 * a).
Proof.
  intros st a st'. unfold _local_transfer_amount. cbv zeta.
  destruct (normalize (DFin (pt_amount p) (-5))) as [c e| |] eqn:En; cbn [is_finite exponent negb orb].
  2-3: intros E; inv_bind E; by apply reject_local_never in E.
  destruct (Z.ltb_spec e (-2)) as [He|He]; [intros E; inv_bind E; by apply reject_local_never in E|].
  intros E. inv_bind E. unfold lift in E0. injection E0 as Eq <-.
  destruct ((cents a0 <? _) || _) eqn:Er; [inv_bind E; by apply reject_local_never in E|].
  injection E as <- <-. apply orb_false_iff in Er as [H1%Z.ltb_ge H2%Z.ltb_ge].
  split_and!; [done|done|]. eapply normalized_cents; [done|done|done|]. split; [exact H1|exact H2].
Qed.
Lemma balance_checks s p l a : only_checks (_ensure_local_transfer_balance s p l a) (λ _, True).
Proof.
  intros st x st'. unfold _ensure_local_transfer_balance. case_match; [|by intros [= _ <-]].
  intros E. repeat inv_bind E. by apply reject_local_never in E.
Qed.
Lemma limit_checks s p l a : only_checks (_ensure_local_transfer_daily_limit s p l a) (λ _, True).
Proof.
  intros st x st'. unfold _ensure_local_transfer_daily_limit. cbv zeta. intros E. inv_bind E.
  unfold local_transfer_amount_used_today in E0. inv_bind E0. unfold now_utc in E1. injection E1 as _ <-.
  unfold db_get, gets in E0. injection E0 as _ <-.
  case_match; [repeat inv_bind E; by apply reject_local_never in E|]. by injection E as _ <-.
Qed.
Lemma lock_checks a b : only_checks (_lock_transfer_participants a b) (λ _, True).
Proof. intros st x st' E. unfold _lock_transfer_participants, db_query in E. by injection E as _ <-. Qed.

Lemma load_pending_finds s p tok now :
  triple (on_db (bounded L)) (_load_pending_local_transfer s p tok now)
    (λ r st, on_db (bounded L) st ∧ pending_transfers (working st) !! r.1 = Some r.2
             ∧ pt_consumed_at r.2 = None ∧ pt_user_id r.2 = s ∧ pt_payee_id r.2 = p)
    (λ _, on_db (bounded L)).
Proof.
  intros st Hst. pose proof (bound_load_pending _ s p tok now st Hst) as Hk.
  destruct (_load_pending_local_transfer s p tok now st) as [[[pid r]|e] st'] eqn:E; [|exact Hk].
  split; [exact Hk|]. unfold _load_pending_local_transfer in E. inv_bind E. unfold lift in E0.
  injection E0 as _ <-. inv_bind E. unfold db_query in E0. injection E0 as Eq <-.
  destruct a0 as [[i q]|]; [|by apply reject_local_never in E].
  case_match; [by apply reject_local_never in E|]. unfold ret in E. simplify_eq.
  apply one_or_none_Some in Eq as [Hr Hs]. cbn [fst snd]. split; [exact Hr|].
  unfold pending_for, consumable in Hs. rewrite !andb_true_iff, !bool_decide_eq_true, !Z.eqb_eq in Hs.
  tauto.
Qed.

Lemma post_local s r p a rf :
  triple (on_db (slack (s, p, 1000 * a))) (post_transfer s r (Some p) a rf "local_transfer")
    (λ _, on_db (bounded L)) (λ _, on_db (bounded L)).
Proof.
  intros st Hst. unfold post_transfer, fresh, now_utc, bind, lift, ret.
  match goal with |- context [signed_transaction ?r ?x ?y ?z ?a ?b ?c ?t] =>
    destruct (signed_transaction r x y z a b c t) as [txn|e] eqn:Et end;
    [|exact (slack_bounded _ _ _ Hst)].
  assert (one posting_of txn = [(s, p, 1000 * a)]) as Hone.
  { unfold signed_transaction in Et. destruct (sign_transaction_integrity _ _ _ _ _ _ _ _ _)
      as [[[[h k] al] v]|]; [|done]. cbn in Et. by injection Et as <-. }
  destruct Hst as [Hc Hw]. split; [exact Hc|]. cbn.
  change (orders (add_transaction txn (working st)) ⊆+ L). by rewrite orders_add_transaction, Hone.
Qed.

Lemma local_triple s p tok :
  triple (on_db (bounded L)) (execute_local_transfer s p tok) (λ _, on_db (bounded L))
    (λ _, on_db (bounded L)).
Proof.
  unfold execute_local_transfer. apply triple_step; [auto with pres|done|intros _].
  apply triple_step; [auto with pres|done|intros recipient_id].
  apply triple_step; [apply pres_now|done|intros now].
  apply triple_step; [auto with pres|done|intros _].
  eapply triple_bind; [apply load_pending_finds|intros [pid pending]]. cbn [fst snd].
  eapply triple_bind with (R := λ _, on_db (slack (s, p, pt_amount pending))).
  { intros st ([Hc Hw] & Hp & Hn & Hu & Hpay). split; [exact Hc|]. cbn.
    rewrite <- Hu, <- Hpay. by rewrite orders_consume. }
  intros _. eapply slack_check; [auto with pres|apply amount_checks|intros amount Ha].
  eapply slack_check; [auto with pres|apply lock_checks|intros [locked_sender ?] _].
  eapply slack_check; [auto with pres|apply balance_checks|intros _ _].
  eapply slack_check; [auto with pres|apply limit_checks|intros [used limit] _].
  rewrite Ha. eapply triple_bind; [apply post_local|intros [ref created]].
  apply triple_pres. solve_pres.
Qed.

Lemma bound_local s p tok : keeps (execute_local_transfer s p tok).
Proof.
  intros st Hst. pose proof (local_triple s p tok st Hst) as Ht.
  by destruct (execute_local_transfer s p tok st) as [[?|?] ?].
Qed.
End Frame.

(** ** The views *)

Section Pages.
Context `{Env} (P : Db → Db → Prop) `{!pages_blind P}.
Notation keeps := (preserves (on_db P)).

Lemma page_flash m c : keeps (flash m c).
Proof. unfold flash. solve_pres. Qed.
Lemma page_attempt {A} (c : M St A) : keeps c → keeps (attempt c).
Proof. intros Hc. unfold attempt. solve_pres. Qed.
Lemma page_render t c s : keeps (render t c s).
Proof. apply pres_ret. Qed.
Hint Resolve page_flash page_attempt page_render : pres.
Lemma page_refuse m t c s : keeps (refuse_with m t c s).
Proof. unfold refuse_with. solve_pres. Qed.
Lemma page_back m c e : keeps (send_back m c e).
Proof. unfold send_back. solve_pres. Qed.
Lemma page_cooldown_status p s : keeps (_cooldown_status p s).
Proof. unfold _cooldown_status. solve_pres. Qed.
Lemma page_own u p : keeps (own_payee u p).
Proof. apply pres_db_query. Qed.
Lemma page_iso ttl : keeps (iso_in ttl).
Proof. unfold iso_in. solve_pres. Qed.
Lemma page_notify_result u p o : keeps (notify_payee_result u p o).
Proof. unfold notify_payee_result. solve_pres. Qed.
Lemma page_expired p : keeps (pending_expired p).
Proof. unfold pending_expired. solve_pres. Qed.
Lemma page_consume sc p l w : keeps (consume_durable_rate_limit sc p l w).
Proof. apply pres_consume; [apply _|apply sb_counters]. Qed.
Hint Resolve page_refuse page_back page_cooldown_status page_own page_iso page_notify_result
  page_expired page_consume : pres.
Lemma page_lookup_failure u a : keeps (payee_lookup_failure u a).
Proof. unfold payee_lookup_failure. solve_pres. Qed.
Hint Resolve page_lookup_failure : pres.

Lemma page_rows s l : keeps (payee_rows s l).
Proof. induction l as [|[id p] l IH]; cbn [payee_rows]; solve_pres. Qed.
Hint Resolve page_rows : pres.
Lemma page_payees_page u : keeps (payees_page u).
Proof. unfold payees_page. solve_pres. Qed.
Lemma page_add_submit u csrf form : keeps (payees_add_submit u csrf form).
Proof. unfold payees_add_submit. cbv zeta. solve_pres. Qed.
Lemma page_confirm u : keeps (payees_confirm u).
Proof. unfold payees_confirm. cbv zeta. solve_pres. Qed.
Lemma page_cancel u csrf : keeps (payees_cancel u csrf).
Proof. unfold payees_cancel. solve_pres. Qed.

(** A payee is stored. *)
Section Payees.
Context `{!payees_blind P}.
Lemma page_add_payee f : keeps (db_write (upd_payees f)).
Proof using All. apply pres_db_write, pb_payees. Qed.
Hint Resolve page_add_payee : pres.
Lemma page_insert u n a r : keeps (insert_payee u n a r).
Proof using All. unfold insert_payee. solve_pres. Qed.
Hint Resolve page_insert : pres.
Lemma page_confirm_submit u csrf : keeps (payees_confirm_submit u csrf).
Proof using All. unfold payees_confirm_submit, add_requested_payee. cbv zeta. solve_pres. Qed.
End Payees.

(** Local transfer pages. *)
Lemma page_used_local u : keeps (local_transfer_amount_used_today u).
Proof. unfold local_transfer_amount_used_today. solve_pres. Qed.
Lemma page_used_payup u : keeps (payup_amount_used_today u).
Proof. unfold payup_amount_used_today. solve_pres. Qed.
Hint Resolve page_used_local page_used_payup : pres.
Lemma page_remaining u r : keeps (remaining_local u r).
Proof. unfold remaining_local. solve_pres. Qed.
Hint Resolve page_remaining : pres.
Lemma page_transfer u p : keeps (transfer u p).
Proof. unfold transfer. solve_pres. Qed.
Lemma page_transfer_confirm u p : keeps (transfer_confirm u p).
Proof. unfold transfer_confirm. solve_pres. Qed.
Lemma page_amount t m r : keeps (submitted_amount t m r).
Proof. unfold submitted_amount. solve_pres. Qed.
Lemma page_transfer_confirm_submit u p csrf :
  (∀ tok, keeps (execute_local_transfer u p tok)) → keeps (transfer_confirm_submit u p csrf).
Proof. intros Hx. unfold transfer_confirm_submit. cbv zeta. solve_pres. Qed.
Hint Resolve page_amount : pres.

(** PayUp pages. *)
Lemma page_record_lookup u r p : keeps (_record_failed_payup_lookup u r p).
Proof. unfold _record_failed_payup_lookup. solve_pres. Qed.
Lemma page_dimension u w ph p d pr l : keeps (consume_dimension u w ph p d pr l).
Proof. unfold consume_dimension. solve_pres. Qed.
Hint Resolve page_record_lookup page_dimension : pres.
Lemma page_limits u p ph : keeps (_consume_payup_attempt_limits u p ph).
Proof. unfold _consume_payup_attempt_limits. cbv zeta. solve_pres. Qed.
Lemma page_available u r : keeps (available_recipient u r).
Proof. unfold available_recipient. solve_pres. Qed.
Hint Resolve page_limits page_available : pres.
Lemma page_pending_recipient u v : keeps (_pending_payup_recipient u v).
Proof. unfold _pending_payup_recipient. solve_pres. Qed.
Hint Resolve page_pending_recipient : pres.
Lemma page_with_nickname u view : (∀ r, keeps (view r)) → keeps (with_nickname u view).
Proof. intros Hv. unfold with_nickname, _payup_nickname_required_response. solve_pres. Qed.
Lemma page_with_recipient u view : (∀ i r, keeps (view i r)) → keeps (with_recipient u view).
Proof. intros Hv. unfold with_recipient. solve_pres. Qed.
Lemma page_set_nickname n u : keeps (db_write (upd_users (alter (set_u_payup_nickname n) u))).
Proof. apply pres_db_write, pb_nickname. Qed.
Hint Resolve page_set_nickname : pres.
Lemma page_nickname u : keeps (payup_nickname u).
Proof. unfold payup_nickname. solve_pres. Qed.
Lemma page_nickname_submit u csrf f : keeps (payup_nickname_submit u csrf f).
Proof. unfold payup_nickname_submit. solve_pres. Qed.
Lemma page_payup_page u : keeps (payup u).
Proof. apply page_with_nickname. intros r. apply page_render. Qed.
Lemma page_payup_submit u csrf f : keeps (payup_submit u csrf f).
Proof. apply page_with_nickname. intros r. cbv zeta. solve_pres. Qed.
Lemma page_remaining_payup u r : keeps (remaining_payup u r).
Proof. unfold remaining_payup. solve_pres. Qed.
Hint Resolve page_remaining_payup : pres.
Lemma page_payup_amount_page u : keeps (payup_amount u).
Proof. apply page_with_nickname. intros r. apply page_with_recipient. intros i rr. solve_pres. Qed.
Lemma page_add_payup p : keeps (db_write (add_payup_pending p)).
Proof. apply pres_db_write. intros c w Hw. by apply pb_payup. Qed.
Hint Resolve page_add_payup : pres.
Lemma page_store_payup u r a rf : keeps (store_payup u r a rf).
Proof. unfold store_payup. solve_pres. Qed.
Hint Resolve page_store_payup : pres.
Lemma page_amount_submit u csrf f : keeps (payup_amount_submit u csrf f).
Proof.
  apply page_with_nickname. intros r. apply page_with_recipient. intros i rr. cbv zeta. solve_pres.
Qed.
Lemma page_risk u a x : keeps (evaluate_payup_risk u a x).
Proof.
  unfold evaluate_payup_risk, gather_risk_inputs, _has_recent_payup_sensitive_event. solve_pres.
Qed.
Lemma page_blocked u : keeps (blocked_recipient u).
Proof. unfold blocked_recipient. solve_pres. Qed.
Hint Resolve page_risk page_blocked : pres.
Lemma page_payup_confirm u : keeps (payup_confirm u).
Proof. apply page_with_nickname. intros r. cbv zeta. solve_pres. Qed.
Lemma page_step_up u r rr p t risk code : keeps (payup_step_up u r rr p t risk code).
Proof. unfold payup_step_up. solve_pres. apply page_attempt. solve_pres. Qed.
Hint Resolve page_step_up : pres.

Section PayupConfirmation.
Context (page_execution : ∀ u tok authorized, keeps (execute_payup_transfer u tok authorized)).
Lemma page_run u p ph tok authorized : keeps (run_payup u p ph tok authorized).
Proof using All. unfold run_payup. cbv zeta. solve_pres. Qed.
Hint Resolve page_run : pres.
Lemma page_confirm_payup u r rr p t code : keeps (confirm_payup u r rr p t code).
Proof using All. unfold confirm_payup. cbv zeta. solve_pres. Qed.
Hint Resolve page_confirm_payup : pres.
Lemma page_payup_confirm_submit u csrf code : keeps (payup_confirm_submit u csrf code).
Proof using All. apply page_with_nickname. intros r. cbv zeta. solve_pres. Qed.
End PayupConfirmation.
End Pages.
#[export] Hint Resolve page_flash page_attempt page_render page_refuse page_back page_cooldown_status
  page_own page_remaining page_amount : pres.

(** ** Submitting a transfer *)

Definition CONFIRM : Page := RedirectTo "banking.transfer_confirm".

(** The order a submission asks for. *)
Definition order_submitted (user_id payee_id : Z) (form : TransferForm) : option Order :=
  match decimal_of_str (strip (or_empty (tf_amount form))) with
  | Ok amount => Some (user_id, payee_id, numeric5 amount)
  | Raise _ => None
  end.

Section Submission.
Context `{Env} (L : list Order).
Notation keeps := (preserves (on_db (bounded L))).

Lemma store_triple u p amount rf :
  triple (on_db (bounded L)) (store_transfer u p amount rf)
    (λ page st, page = CONFIRM ∧ on_db (bounded (L ++ [(u, p, numeric5 amount)])) st)
    (λ _ st, orders (committed st) ⊆+ L).
Proof.
  unfold store_transfer. do 4 (apply triple_step; [solve_pres|by intros ? ? [? ?]|intros ?]).
  intros st [Hc Hw]. unfold bind at 1, db_write, modify. unfold bind at 1, commit.
  destruct (db_ok _); [|exact Hc]. cbn. split; [done|].
  match goal with |- on_db (bounded ?L') _ => assert (orders (add_pending_transfer
    (mkPendingTransfer a0 (numeric5 amount) rf (a1 + _PENDING_TRANSFER_TTL * US_SECOND) None None a2 u p)
    (working st)) ⊆+ L') as Ho end; [|by split].
  rewrite orders_add_pending. cbn. rewrite (Permutation_app_comm L). cbn. by apply submseteq_skip.
Qed.

Lemma submit_triple u p csrf form :
  triple (on_db (bounded L)) (transfer_submit u p csrf form)
    (λ page st, on_db (bounded L) st
       ∨ page = CONFIRM ∧ ∃ x, order_submitted u p form = Some x ∧ on_db (bounded (L ++ [x])) st)
    (λ _ st, orders (committed st) ⊆+ L).
Proof.
  assert (∀ e st, on_db (bounded L) st → (λ (_ : exn) st, orders (committed st) ⊆+ L) e st) as HX
    by (by intros e st [? ?]).
  assert (∀ A (c : M St A), keeps c → triple (on_db (bounded L)) c (λ _, on_db (bounded L))
    (λ _ st, orders (committed st) ⊆+ L)) as Hplain.
  { intros A c Hc. eapply triple_conseq; [by apply triple_pres|done|done|exact HX]. }
  unfold transfer_submit. do 3 (apply triple_step; [solve_pres|exact HX|intros ?]).
  destruct a1 as [[remaining_text until]|].
  { eapply triple_conseq; [apply Hplain; solve_pres|done|by left|done]. }
  do 2 (apply triple_step; [solve_pres|exact HX|intros ?]). cbv zeta.
  destruct (negb _).
  { eapply triple_conseq; [apply Hplain; solve_pres|done|by left|done]. }
  apply (triple_step_fact _ _ _ (λ r, match r with
    | inl amount => decimal_of_str (strip (or_empty (tf_amount form))) = Ok amount
    | inr _ => True end)); [solve_pres| |exact HX|].
  { intros st [amount|] st' _; [|done]. unfold submitted_amount.
    destruct (decimal_of_str _) as [d|]; [|done]. intros E. do 2 inv_bind E.
    case_match; [done|]. inv_bind E. case_match; unfold ret in E; by simplify_eq. }
  intros [amount|message] Hamount.
  2:{ eapply triple_conseq; [apply Hplain; solve_pres|done|by left|done]. }
  apply triple_step; [solve_pres|exact HX|intros [[]|[message status]]].
  2:{ eapply triple_conseq; [apply Hplain; solve_pres|done|by left|done]. }
  eapply triple_conseq; [apply store_triple|done| |done].
  intros page st [-> Hst]. right. split; [done|]. eexists. split; [|exact Hst].
  unfold order_submitted. by rewrite Hamount.
Qed.

(** The call verified a code of [u] for a transfer, in the session and on the
    database of [st]. *)
Definition stepped_up (u : Z) (code : option string) (st : St) : Prop :=
  ∃ s1 s2, verify_high_risk_authorization u code "transfer" true s1 = (Ok tt, s2)
    ∧ session s1 = session st ∧ working s1 = working st ∧ committed s1 = committed st.

(** A read that returns leaves the session and the databases alone. *)
Definition reads {A} (c : M St A) : Prop := ∀ st a st', c st = (Ok a, st') →
  session st' = session st ∧ working st' = working st ∧ committed st' = committed st.

Lemma reads_bind {A B} (c : M St A) (k : A → M St B) : reads c → (∀ a, reads (k a)) → reads (bind c k).
Proof.
  intros Hc Hk st b st'' E. inv_bind E. apply Hc in E0 as (H1 & H2 & H3).
  apply Hk in E as (H4 & H5 & H6). split_and!; congruence.
Qed.
Lemma reads_if {A} (b : bool) (c c' : M St A) : reads c → reads c' → reads (if b then c else c').
Proof. by destruct b. Qed.
Lemma reads_ret {A} (a : A) : reads (ret a).
Proof. by intros st x st' [= _ <-]. Qed.
Lemma reads_lift {A} (r : res A) : reads (lift r).
Proof. intros st x st' E. unfold lift in E. by injection E as _ <-. Qed.
Lemma reads_query {A} (f : Db → res A) : reads (db_query f).
Proof. intros st x st' E. unfold db_query in E. by injection E as _ <-. Qed.
Lemma reads_get {A} (f : Db → A) : reads (db_get f).
Proof. by intros st x st' [= _ <-]. Qed.
Lemma reads_now : reads now_utc.
Proof. by intros st x st' [= _ <-]. Qed.
Hint Resolve reads_ret reads_lift reads_query reads_get reads_now : pres.
Ltac solve_reads :=
  repeat match goal with
  | |- reads (bind _ _) => apply reads_bind; [|intros ?]
  | |- reads (if _ then _ else _) => apply reads_if
  | |- reads (match ?x with _ => _ end) => destruct x
  | |- reads _ => solve [auto with pres]
  end.

Lemma attempt_inl {A} (c : M St A) st a st' : attempt c st = (Ok (inl a), st') → c st = (Ok a, st').
Proof.
  unfold attempt, try_except, bind. destruct (c st) as [[x|e] s1]; [by intros [= -> ->]|].
  destruct e; cbn; intros E; try done; by destruct (_ : exn → bool).
Qed.

Lemma submit_steps_up u p csrf form st st' :
  transfer_submit u p csrf form st = (Ok CONFIRM, st') → stepped_up u (tf_totp_code form) st.
Proof.
  unfold transfer_submit. intros E. inv_bind E.
  assert (reads (own_payee u p)) as Hr by apply reads_query. apply Hr in E0 as Hs. clear Hr E0.
  inv_bind E. apply reads_lift in E0 as Hs1. clear E0. inv_bind E.
  assert (reads (_cooldown_status a a0)) as Hr by (unfold _cooldown_status; cbv zeta; solve_reads).
  apply Hr in E0 as Hs2. clear Hr E0. destruct a1 as [x|]; [by repeat inv_bind E|].
  inv_bind E. apply reads_query in E0 as Hs3. clear E0. inv_bind E.
  assert (reads (remaining_local u a1)) as Hr.
  { unfold remaining_local, local_transfer_amount_used_today. solve_reads. }
  apply Hr in E0 as Hs4. clear Hr E0. cbv zeta in E. destruct (negb _); [done|].
  inv_bind E. match type of E0 with submitted_amount ?t ?m ?r _ = _ =>
    assert (reads (submitted_amount t m r)) as Hr
      by (unfold submitted_amount; solve_reads) end.
  apply Hr in E0 as Hs5. clear Hr E0. destruct a3 as [amount|message]; [|by repeat inv_bind E].
  inv_bind E. destruct a3 as [[]|[message status]]; [|by repeat inv_bind E].
  apply attempt_inl in E0. eexists _, _. split; [exact E0|]. destruct_and!. split_and!; congruence.
Qed.
End Submission.

(** ** Visits *)

Section Visits.
Context `{Env} (L : list Order).

(** What a view other than a submission does to the orders. *)
Lemma view_keeps v u :
  match v with TransferSubmit _ _ _ => True | _ => preserves (on_db (bounded L)) (view v u) end.
Proof.
  destruct v; cbn [view].
  - apply page_payees_page; try apply _.
  - apply pres_ret.
  - apply page_add_submit; try apply _.
  - apply page_confirm; try apply _.
  - apply page_confirm_submit; try apply _.
  - apply page_cancel; try apply _.
  - unfold payees_remove. apply pres_bind; [apply page_own|intros ?; apply page_render].
  - apply page_transfer; try apply _.
  - exact I.
  - apply page_transfer_confirm; try apply _.
  - apply page_transfer_confirm_submit, bound_local.
  - apply page_nickname; try apply _.
  - apply page_nickname_submit; try apply _.
  - apply page_payup_page; try apply _.
  - apply page_payup_submit; try apply _.
  - apply page_payup_amount_page; try apply _.
  - apply page_amount_submit; try apply _.
  - apply page_payup_confirm; try apply _.
  - apply page_payup_confirm_submit; [apply _|intros; apply bound_payup].
Qed.

(** The session is kept but for the flashed messages, or cleared. *)
Definition left_alone (st st' : St) : Prop :=
  (∀ k, k ≠ "_flashes" → session st' !! k = session st !! k) ∨ session st' = ∅.
Lemma left_alone_or_cleared st st' :
  session st' = session st ∨ session st' = ∅ → left_alone st st'.
Proof. intros [E|E]; [left; by rewrite E|by right]. Qed.

(** A visit is a run of the view as the signed-in customer, or touches neither the
    database nor more of the session than its messages. *)
Lemma visit_cases v st :
  (∃ uid, admitted_user uid st
     ∧ visit v st = (page <- view v uid ;; ret (Some page)) st)
  ∨ committed (visit v st).2 = committed st ∧ (visit v st).1 ≠ Ok (Some CONFIRM)
    ∧ left_alone st (visit v st).2.
Proof.
  unfold visit. destruct (load_current st) as [(id & row & Hv & Hu & E)|[E|E]].
  - rewrite (bind_Ok _ _ _ _ _ E). unfold enforce_banking_mfa_onboarding.
    destruct (negb (has_enrolled_mfa_method row)).
    { right. split_and!; [done|done|]. left. intros k Hk. cbn. by rewrite lookup_insert_ne. }
    rewrite (bind_Ok _ _ _ _ _ (eq_refl (ret None st))).
    destruct (guarded_cases (view v) st) as [(uid & Hadm & Eg)|(Hout & Hc & _ & Hs')].
    + left. exists uid. split; [done|]. unfold bind at 1. rewrite Eg. unfold bind, ret.
      by destruct (view v uid st) as [[page|e] st'].
    + right. unfold bind. destruct (guarded (view v) st) as [[[page| |]|e] st'];
        cbn in *; (split; [exact Hc|]); (split; [naive_solver|by apply left_alone_or_cleared]).
  - right. rewrite (bind_Ok _ _ _ _ _ E). cbn [enforce_banking_mfa_onboarding].
    rewrite (bind_Ok _ _ _ _ _ (eq_refl (ret None st))).
    destruct (guarded_cases (view v) st) as [(uid & (Hs & row & Hrow & _) & _)|(Hout & Hc & _ & Hs')].
    + unfold load_current_user in E. rewrite (bind_Ok _ _ _ _ _ (eq_refl (session_get "user_id" st))), Hs in E.
      unfold db_get, gets in E. by rewrite Hrow in E.
    + unfold bind. destruct (guarded (view v) st) as [[[page| |]|e] st'];
        cbn in *; (split; [exact Hc|]); (split; [naive_solver|by apply left_alone_or_cleared]).
  - right. rewrite (bind_Raise _ _ _ _ _ E). split_and!; [done|done|]. by left.
Qed.

Lemma plain_visit v u st :
  preserves (on_db (bounded L)) (view v u) → visit v st = (page <- view v u ;; ret (Some page)) st →
  on_db (bounded L) st → orders (committed (visit v st).2) ⊆+ L.
Proof.
  intros Hk Ev Hst. specialize (Hk st Hst). rewrite Ev. unfold bind.
  destruct (view v u st) as [[page|e] st']; apply Hk.
Qed.
End Visits.

(** A visit as it was served: its environment, its state before, the request. *)
Record Served : Type := mkServed { sv_env : Env; sv_before : St; sv_visit : Visit }.
Definition served (sv : Served) : res (option Page) * St :=
  @visit (sv_env sv) (sv_visit sv) (sv_before sv).

(** The order a served visit authorised: a submission that was sent on to its
    confirmation. *)
Definition granted (sv : Served) : option Order :=
  match sv_visit sv, session (sv_before sv) !! "user_id", (served sv).1 with
  | TransferSubmit payee_id _ form, Some (JInt u), Ok (Some (RedirectTo e)) =>
      if bool_decide (e = "banking.transfer_confirm") then order_submitted u payee_id form else None
  | _, _, _ => None
  end.

(** Visits one after the other, each from the durable database, in any
    environment, session and clock. *)
Inductive history (d : Db) : list Served → Db → Prop :=
  | history_start : history d [] d
  | history_visit h d1 sv :
      history d h d1 → committed (sv_before sv) = d1 → working (sv_before sv) = d1 →
      history d (h ++ [sv]) (committed (served sv).2).

Lemma visit_orders sv L :
  on_db (bounded L) (sv_before sv) →
  orders (committed (served sv).2) ⊆+ (L ++ option_list (granted sv))%list.
Proof.
  destruct sv as [E st v]. unfold served, granted. cbn [sv_env sv_before sv_visit]. intros Hst.
  assert (∀ k, L ⊆+ (L ++ k)%list) as Hmono by (intros k; by apply submseteq_inserts_r).
  destruct (visit_cases v st) as [(uid & Hadm & Ev)|[Hc _]]; [|by rewrite Hc; etrans; [apply Hst|]].
  pose proof (view_keeps L v uid) as Hk. destruct v as [| | | | | | | |payee_id csrf form| | | | | | | | | |].
  1-8, 10-19: etrans; [by eapply plain_visit|apply Hmono].
  pose proof (submit_triple L uid payee_id csrf form st Hst) as Ht.
  unfold served. cbn [sv_env sv_before sv_visit]. rewrite Ev. cbn [view]. unfold bind, ret.
  destruct (transfer_submit uid payee_id csrf form st) as [[page|e] st']; cbn [fst snd].
  2:{ etrans; [apply Ht|apply Hmono]. }
  destruct Ht as [Hb|[-> (x & Hx & Hb)]]; [etrans; [apply Hb|apply Hmono]|].
  destruct Hadm as [-> _]. cbn. rewrite Hx. apply Hb.
Qed.

Lemma history_orders d h d' :
  history d h d' → orders d' ⊆+ (orders d ++ omap granted h)%list.
Proof.
  induction 1 as [|h d1 sv Hh IH Hc Hw]; [by rewrite app_nil_r|].
  assert (on_db (bounded (orders d ++ omap granted h)) (sv_before sv)) as Hb
    by (split; congruence).
  rewrite omap_app, app_assoc. etrans; [exact (visit_orders sv _ Hb)|]. cbn. by destruct (granted sv).
Qed.

Lemma granted_steps_up sv x :
  granted sv = Some x → ∃ csrf form, sv_visit sv = TransferSubmit x.1.2 csrf form
    ∧ @stepped_up (sv_env sv) x.1.1 (tf_totp_code form) (sv_before sv).
Proof.
  destruct sv as [E st v]. unfold granted, served. cbn [sv_env sv_before sv_visit]. intros Hg.
  destruct v as [| | | | | | | |payee_id csrf form| | | | | | | | | |]; try done.
  destruct (session st !! "user_id") as [[| |u| | |]|] eqn:Hs; try done.
  destruct (visit (TransferSubmit payee_id csrf form) st).1 as [[[|e]|]|] eqn:Ea; try done.
  case_bool_decide as He; [|done]. subst e. change (RedirectTo _) with CONFIRM in Ea.
  destruct (visit_cases (TransferSubmit payee_id csrf form) st) as [(uid & Hadm & Ev)|(_ & Hn & _)]; [|done].
  destruct Hadm as [Hu _]. rewrite Hs in Hu. injection Hu as <-. rewrite Ev in Ea.
  unfold order_submitted in Hg. destruct (decimal_of_str _) as [amount|]; [|done]. injection Hg as <-.
  exists csrf, form. split; [done|]. cbn [fst snd]. cbn [view] in Ea. unfold bind, ret in Ea.
  destruct (transfer_submit u payee_id csrf form st) as [[page|]st'] eqn:Et; [|done].
  cbn in Ea. injection Ea as ->. by eapply submit_steps_up.
Qed.

(** C2: every local transfer was stepped up, and no step-up pays twice.  After any
    visits of the banking views, by any customers in any sessions and
    environments, the local transfers on the ledger are those that were there,
    plus at most one for each pending transfer that was open and for each
    submission sent on to its confirmation, of the same customer, payee and
    amount; and each such submission verified an authenticator code of that
    customer for a transfer, in that session. *)
Theorem transfers_were_stepped_up d h d' :
  history d h d' →
  posted_transfers d' ⊆+ (posted_transfers d ++ open_transfers d ++ omap granted h)%list
  ∧ ∀ sv x, sv ∈ h → granted sv = Some x →
      ∃ csrf form, sv_visit sv = TransferSubmit x.1.2 csrf form
        ∧ @stepped_up (sv_env sv) x.1.1 (tf_totp_code form) (sv_before sv).
Proof.
  intros Hh. split.
  - apply history_orders in Hh. unfold orders in Hh. rewrite <- app_assoc in Hh.
    etrans; [|exact Hh]. by apply submseteq_inserts_r.
  - intros sv x _. apply granted_steps_up.
Qed.

(** A submission and its confirmation. *)
Definition first_visit : Served :=
  mkServed Sample.sample_env Sample.sample_state
    (TransferSubmit 7 true (mkTransferForm (Some "10.50") (Some "rent")
       (Some (pad 6 (Sample.noon / US_SECOND / 30 mod 1000000))))).

(** The next visit of the same browser. *)
Definition following (E : Env) (sv : Served) (v : Visit) : Served :=
  let st := (served sv).2 in mkServed E (set_working (committed st) st) v.
Lemma history_following d h sv E v :
  history d h (committed (served sv).2) →
  history d (h ++ [following E sv v]) (committed (served (following E sv v)).2).
Proof. intros Hh. by eapply history_visit. Qed.

Definition second_visit : Served :=
  following Sample.sample_env first_visit (TransferConfirmSubmit 7 true).
Lemma stepped_up_witness :
  let d' := committed (served second_visit).2 in
  posted_transfers d' = [(1, 7, 1050000)]
  ∧ omap granted [first_visit; second_visit] = [(1, 7, 1050000)]
  ∧ posted_transfers d' ⊆+ (posted_transfers Sample.sample_db ++ open_transfers Sample.sample_db
                            ++ omap granted [first_visit; second_visit])%list.
Proof.
  intros d'. split; [vm_compute; reflexivity|]. split; [vm_compute; reflexivity|].
  apply (transfers_were_stepped_up Sample.sample_db [first_visit; second_visit] d').
  apply (history_following _ [first_visit] first_visit).
  by apply (history_visit _ [] Sample.sample_db first_visit (history_start _)).
Defined.
End TransferJourney.
