(* ===== verification/PayeeFrame.v ===== *)
(** * What the banking views leave alone

    The payee table, which only a confirmation and a removal change, and the two
    session entries that link a confirmation to its submission: the signed-in
    user and the payee request that waits. *)

From S2P Require Import Prelude PyStr PyDecimal TimeModel Schema Runtime Integrity AuditLog.
From S2P Require Import SessionRisk BankingPolicy Notifications Sessions SessionStore RateLimits Mfa.
From S2P Require Import LoginFrame Transfers Idempotency Settings Guards BankingViews TransferJourney.
Open Scope string_scope.
Open Scope Z_scope.

Module PayeeFrame.
Import Audit SessionRisk Policy Notifications SessionStore RateLimits Mfa LoginFrame Transfers Settings.
Import Guards BankingViews TransferJourney.

(** ** The payee table *)

Definition payees_kept (T : gmap Z Payee) (c w : Db) : Prop := payees c = T ∧ payees w = T.
#[export] Instance payees_kept_security T : security_blind (payees_kept T).
Proof. split; [split|..]; by intros * [? ?]. Qed.
#[export] Instance payees_kept_pages T : pages_blind (payees_kept T).
Proof. split; [apply _|..]; by intros * [? ?]. Qed.

#[local] Hint Constants Opaque : pres.

Section Table.
Context `{Env} (T : gmap Z Payee).
Notation keeps := (preserves (on_db (payees_kept T))).

Lemma table_post s r p a rf ty : keeps (post_transfer s r p a rf ty).
Proof.
  unfold post_transfer. do 3 (apply pres_bind; [solve_pres|intros ?]).
  do 3 (apply pres_bind; [apply pres_db_write; by intros c w [? ?]|intros ?]). apply pres_ret.
Qed.
Lemma table_update pid f : keeps (update_pending pid f).
Proof. apply pres_db_write. by intros c w [? ?]. Qed.
Lemma table_pending p : keeps (db_write (add_pending_transfer p)).
Proof. apply pres_db_write. by intros c w [? ?]. Qed.
Hint Resolve table_post table_update table_pending : pres.
Lemma table_local s p tok : keeps (execute_local_transfer s p tok).
Proof. unfold execute_local_transfer. solve_pres. Qed.
Lemma table_payup s tok authorized : keeps (execute_payup_transfer s tok authorized).
Proof. apply bound_execute_payup; [apply _|]. intros. apply table_post. Qed.
Lemma table_submit u p csrf form : keeps (transfer_submit u p csrf form).
Proof. unfold transfer_submit, store_transfer. cbv zeta. solve_pres. Qed.

(** Only a confirmation changes the payees. *)
Lemma view_keeps_payees v u :
  match v with PayeesConfirmSubmit _ => True | _ => keeps (view v u) end.
Proof.
  destruct v; cbn [view].
  - apply page_payees_page; try apply _.
  - apply pres_ret.
  - apply page_add_submit; try apply _.
  - apply page_confirm; try apply _.
  - exact I.
  - apply page_cancel; try apply _.
  - unfold payees_remove. apply pres_bind; [apply page_own|intros ?; apply page_render].
  - apply page_transfer; try apply _.
  - apply table_submit.
  - apply page_transfer_confirm; try apply _.
  - apply page_transfer_confirm_submit, table_local.
  - apply page_nickname; try apply _.
  - apply page_nickname_submit; try apply _.
  - apply page_payup_page; try apply _.
  - apply page_payup_submit; try apply _.
  - apply page_payup_amount_page; try apply _.
  - apply page_amount_submit; try apply _.
  - apply page_payup_confirm; try apply _.
  - apply page_payup_confirm_submit; [apply _|intros; apply table_payup].
Qed.
End Table.

(** ** The session *)

Section Dict.
Context `{Env} (k : string) (v : option jval) (Hk : k ∈ login_keys).
Notation keeps := (preserves (session_key k v)).

Lemma dict_flash m c : keeps (flash m c).
Proof. unfold flash. solve_pres. Qed.
Lemma dict_attempt {A} (c : M St A) : keeps c → keeps (attempt c).
Proof. intros Hc. unfold attempt. solve_pres. Qed.
Lemma dict_email c : keeps c → keeps (safe_send_notification c).
Proof. intros Hc. apply pres_try; [exact Hc|intros e; apply pres_ret]. Qed.
Hint Resolve dict_flash dict_attempt : pres.
Lemma dict_refuse m t c s : keeps (refuse_with m t c s).
Proof. unfold refuse_with, render. solve_pres. Qed.
Lemma dict_back m c e : keeps (send_back m c e).
Proof. unfold send_back. solve_pres. Qed.
Lemma dict_render t c s : keeps (render t c s).
Proof. apply pres_ret. Qed.
Lemma dict_status p s : keeps (_cooldown_status p s).
Proof. unfold _cooldown_status. solve_pres. Qed.
Lemma dict_iso ttl : keeps (iso_in ttl).
Proof. unfold iso_in. solve_pres. Qed.
Lemma dict_own u p : keeps (own_payee u p).
Proof. apply sk_db_query. Qed.
Lemma dict_consume sc p l w : keeps (consume_durable_rate_limit sc p l w).
Proof. unfold consume_durable_rate_limit. solve_pres. Qed.
Lemma dict_result u p o : keeps (notify_payee_result u p o).
Proof.
  unfold notify_payee_result. do 2 (apply pres_bind; [solve_pres|intros ?]). apply dict_email.
  unfold send_payee_add_result_notification, _send_banking_email. solve_pres.
Qed.
Lemma dict_processing u n a :
  keeps (safe_send_notification (send_payee_add_processing_notification u n a)).
Proof.
  apply dict_email. unfold send_payee_add_processing_notification, _send_banking_email. solve_pres.
Qed.
Hint Resolve dict_refuse dict_back dict_render dict_status dict_iso dict_own dict_consume
  dict_result : pres.
Lemma dict_lookup_failure u a : keeps (payee_lookup_failure u a).
Proof. unfold payee_lookup_failure. solve_pres. Qed.
Lemma dict_rows s l : keeps (payee_rows s l).
Proof. induction l as [|[id p] l IH]; cbn [payee_rows]; solve_pres. Qed.
Lemma dict_payees_page u : keeps (payees_page u).
Proof. pose proof dict_rows. unfold payees_page. solve_pres. Qed.
Lemma dict_expired p : keeps (pending_expired p).
Proof. unfold pending_expired. solve_pres. Qed.
Lemma dict_insert u n a r : keeps (insert_payee u n a r).
Proof. unfold insert_payee. solve_pres. Qed.
Hint Resolve dict_lookup_failure dict_rows dict_expired dict_insert : pres.
Lemma dict_add_requested u p : keeps (add_requested_payee u p).
Proof. unfold add_requested_payee. solve_pres. Qed.

(** Transfers. *)
Lemma dict_audit_transfer a b c d e : keeps (audit_outbound_transfer a b c d e).
Proof. unfold audit_outbound_transfer, audit_banking_action. cbv zeta. solve_pres. Qed.
Lemma dict_notification u d r c t : keeps (send_transfer_notification u d r c t).
Proof. unfold send_transfer_notification, _send_banking_email. cbv zeta. solve_pres. Qed.
Lemma dict_payee p : keeps (load_payee p).
Proof. apply sk_db_query. Qed.
Lemma dict_warning u c a b l : keeps (maybe_send_daily_limit_warning u c a b l).
Proof. unfold maybe_send_daily_limit_warning, _send_banking_email. cbv zeta. solve_pres. Qed.
Hint Resolve dict_audit_transfer dict_notification dict_payee dict_warning : pres.
Lemma dict_reject_local {A} s m c md p : keeps (_reject_local_transfer (A:=A) s m c md p).
Proof. unfold _reject_local_transfer. solve_pres. Qed.
Lemma dict_reject_payup {A} s md m c : keeps (reject_payup (A:=A) s md m c).
Proof. unfold reject_payup. solve_pres. Qed.
Lemma dict_local_used u : keeps (local_transfer_amount_used_today u).
Proof. unfold local_transfer_amount_used_today. solve_pres. Qed.
Lemma dict_payup_used u : keeps (payup_amount_used_today u).
Proof. unfold payup_amount_used_today. solve_pres. Qed.
Lemma dict_post s r p a rf ty : keeps (post_transfer s r p a rf ty).
Proof. unfold post_transfer. solve_pres. Qed.
Hint Resolve dict_reject_local dict_reject_payup dict_local_used dict_payup_used dict_post : pres.
Lemma dict_allowed u : keeps (ensure_outbound_transfer_allowed u).
Proof. unfold ensure_outbound_transfer_allowed, _ensure_banking_action_allowed, audit_banking_action. cbv zeta. solve_pres. Qed.
Lemma dict_notify_local a b c d e f g h i : keeps (notify_local_transfer a b c d e f g h i).
Proof.
  unfold notify_local_transfer. solve_pres; apply dict_email; solve_pres.
Qed.
Lemma dict_notify_payup a b c d e f g h : keeps (notify_payup_transfer a b c d e f g h).
Proof.
  unfold notify_payup_transfer. solve_pres; apply dict_email; solve_pres.
Qed.
Hint Resolve dict_allowed dict_notify_local dict_notify_payup : pres.
Lemma dict_local s p tok : keeps (execute_local_transfer s p tok).
Proof.
  unfold execute_local_transfer, _local_transfer_recipient, _ensure_payee_cooldown_elapsed,
    _load_pending_local_transfer, _local_transfer_amount, _lock_transfer_participants,
    _ensure_local_transfer_balance, _ensure_local_transfer_daily_limit, update_pending,
    _audit_local_transfer_success. cbv zeta. solve_pres.
Qed.
Lemma dict_risk u a x : keeps (evaluate_payup_risk u a x).
Proof.
  unfold evaluate_payup_risk, gather_risk_inputs, _has_recent_payup_sensitive_event,
    authenticated_session_age_seconds, authenticated_session_risk_is_stable,
    is_signed_in, _session_risk_context_changes,
    _current_session_risk_context, _now. cbv zeta. solve_pres.
Qed.
Hint Resolve dict_local dict_risk : pres.
Lemma dict_payup s tok authorized : keeps (execute_payup_transfer s tok authorized).
Proof.
  unfold execute_payup_transfer, _load_and_lock_payup_pending_transfer, _validate_payup_amount,
    _validate_payup_recipient, payup_risk_gate, update_payup_pending, audit_payup_success,
    _lock_transfer_participants. cbv zeta. solve_pres.
Qed.
Hint Resolve dict_payup : pres.
Lemma dict_amount t m r : keeps (submitted_amount t m r).
Proof. unfold submitted_amount. solve_pres. Qed.
Lemma dict_remaining u r : keeps (remaining_local u r).
Proof. unfold remaining_local. solve_pres. Qed.
Hint Resolve dict_amount dict_remaining : pres.
Lemma dict_transfer u p : keeps (transfer u p).
Proof. unfold transfer. solve_pres. Qed.
Lemma dict_transfer_submit u p csrf form : keeps (transfer_submit u p csrf form).
Proof using Hk. unfold transfer_submit, store_transfer. cbv zeta. solve_pres. Qed.
Lemma dict_transfer_confirm u p : keeps (transfer_confirm u p).
Proof using Hk. unfold transfer_confirm. solve_pres. Qed.
Lemma dict_transfer_confirm_submit u p csrf : keeps (transfer_confirm_submit u p csrf).
Proof using Hk. unfold transfer_confirm_submit. cbv zeta. solve_pres. Qed.

(** PayUp. *)
Lemma dict_record_lookup u r p : keeps (_record_failed_payup_lookup u r p).
Proof. unfold _record_failed_payup_lookup. solve_pres. Qed.
Lemma dict_dimension u w ph p d pr l : keeps (consume_dimension u w ph p d pr l).
Proof. unfold consume_dimension. solve_pres. Qed.
Hint Resolve dict_record_lookup dict_dimension : pres.
Lemma dict_limits u p ph : keeps (_consume_payup_attempt_limits u p ph).
Proof. unfold _consume_payup_attempt_limits. cbv zeta. solve_pres. Qed.
Lemma dict_available u r : keeps (available_recipient u r).
Proof. unfold available_recipient. solve_pres. Qed.
Hint Resolve dict_limits dict_available : pres.
Lemma dict_recipient u p : keeps (_pending_payup_recipient u p).
Proof. unfold _pending_payup_recipient. solve_pres. Qed.
Hint Resolve dict_recipient : pres.
Lemma dict_with_nickname u view : (∀ r, keeps (view r)) → keeps (with_nickname u view).
Proof using Hk. intros Hv. unfold with_nickname, _payup_nickname_required_response. solve_pres. Qed.
Lemma dict_with_recipient u view : (∀ i r, keeps (view i r)) → keeps (with_recipient u view).
Proof using Hk. intros Hv. unfold with_recipient. solve_pres. Qed.
Lemma dict_nickname u : keeps (payup_nickname u).
Proof. unfold payup_nickname. solve_pres. Qed.
Lemma dict_nickname_submit u csrf f : keeps (payup_nickname_submit u csrf f).
Proof. unfold payup_nickname_submit. solve_pres. Qed.
Lemma dict_payup_page u : keeps (BankingViews.payup u).
Proof using Hk. apply dict_with_nickname. intros r. apply dict_render. Qed.
Lemma dict_payup_submit u csrf f : keeps (payup_submit u csrf f).
Proof using Hk. apply dict_with_nickname. intros r. cbv zeta. solve_pres. Qed.
Lemma dict_remaining_payup u r : keeps (remaining_payup u r).
Proof. unfold remaining_payup. solve_pres. Qed.
Hint Resolve dict_remaining_payup : pres.
Lemma dict_payup_amount u : keeps (payup_amount u).
Proof using Hk.
  apply dict_with_nickname. intros r. apply dict_with_recipient. intros i rr. solve_pres.
Qed.
Lemma dict_amount_submit u csrf f : keeps (payup_amount_submit u csrf f).
Proof using Hk.
  apply dict_with_nickname. intros r. apply dict_with_recipient. intros i rr. unfold store_payup.
  cbv zeta. solve_pres.
Qed.
Lemma dict_blocked u : keeps (blocked_recipient u).
Proof. unfold blocked_recipient. solve_pres. Qed.
Hint Resolve dict_blocked : pres.
Lemma dict_payup_confirm u : keeps (payup_confirm u).
Proof using Hk. apply dict_with_nickname. intros r. cbv zeta. solve_pres. Qed.
Lemma dict_step_up u r rr p t risk code : keeps (payup_step_up u r rr p t risk code).
Proof using Hk. unfold payup_step_up. solve_pres. apply dict_attempt. solve_pres. Qed.
Lemma dict_run u p ph tok authorized : keeps (run_payup u p ph tok authorized).
Proof using Hk.
  unfold run_payup. cbv zeta. solve_pres.
Qed.
Hint Resolve dict_step_up dict_run : pres.
Lemma dict_payup_confirm_submit u csrf code : keeps (payup_confirm_submit u csrf code).
Proof using Hk. apply dict_with_nickname. intros r. unfold confirm_payup. cbv zeta. solve_pres. Qed.

(** Removal. *)
Lemma dict_remove u p form : keeps (payees_remove_submit u p form).
Proof using Hk. unfold payees_remove_submit, step_up. solve_pres. Qed.
End Dict.

(** ** Who is signed in, and the payee request that waits *)

Definition Kept : Type := option jval * option jval.
Definition kept (m : gmap string jval) : Kept := (m !! "user_id", m !! "pending_payee").

(** Both entries are as in [m], or the request is gone. *)
Definition carried (m : gmap string jval) (st : St) : Prop :=
  kept (session st) = kept m ∨ session st !! "pending_payee" = None.

Lemma kept_frame {A} (c : M St A) st :
  (∀ k v, k ∈ login_keys → preserves (session_key k v) c) → kept (session (c st).2) = kept (session st).
Proof. intros Hc. unfold kept. f_equal; apply Hc; (set_solver || done). Qed.
Lemma keeps_carried {A} (c : M St A) m :
  (∀ k v, k ∈ login_keys → preserves (session_key k v) c) → preserves (carried m) c.
Proof.
  intros Hc st Hst. unfold carried. rewrite kept_frame by done.
  rewrite (Hc "pending_payee" (session st !! "pending_payee")) by (set_solver || done). exact Hst.
Qed.

Section Carry.
Context `{Env} (m : gmap string jval).
Notation keeps := (preserves (carried m)).

Lemma carry_pop : keeps (session_pop "pending_payee").
Proof. intros st _. right. apply lookup_delete_eq. Qed.

Lemma carry_confirm u : keeps (payees_confirm u).
Proof.
  unfold payees_confirm. cbv zeta. apply pres_bind; [apply keeps_carried; intros; apply sk_session_get|intros stored].
  apply pres_if; [apply keeps_carried; intros; by apply dict_back|].
  apply pres_bind; [apply keeps_carried; intros; by apply dict_expired|intros expired].
  apply pres_if; [|apply keeps_carried; intros; by apply dict_render].
  apply pres_bind; [apply carry_pop|intros _].
  apply pres_bind; [apply keeps_carried; intros; by apply dict_result|intros _].
  apply keeps_carried; intros; by apply dict_back.
Qed.
Lemma carry_cancel u csrf : keeps (payees_cancel u csrf).
Proof.
  unfold payees_cancel. apply pres_bind; [apply keeps_carried; intros; apply sk_session_get|intros stored].
  do 2 (apply pres_if; [apply keeps_carried; intros; by apply dict_back|]).
  apply pres_bind; [apply carry_pop|intros _].
  apply pres_bind; [apply keeps_carried; intros; by apply dict_result|intros _].
  apply keeps_carried; intros; by apply dict_back.
Qed.

(** A refused confirmation puts the request back as it was. *)
Lemma carry_confirm_submit u csrf : keeps (payees_confirm_submit u csrf).
Proof.
  intros st Hst. unfold payees_confirm_submit.
  rewrite (bind_Ok _ _ _ _ _ (eq_refl (session_pop "pending_payee" st))).
  set (s1 := set_session _ st). assert (carried m s1) as H1 by exact (carry_pop st Hst).
  destruct (session st !! "pending_payee") as [pending|] eqn:Ep.
  2:{ apply (keeps_carried (send_back _ _ _)); [intros; by apply dict_back|exact H1]. }
  assert (m !! "user_id" = session st !! "user_id" ∧ m !! "pending_payee" = Some pending) as [Eu Em].
  { destruct Hst as [E|E]; [by injection E; intros; split; congruence|congruence]. }
  assert (session s1 !! "user_id" = m !! "user_id") as Hu
    by (rewrite Eu; by apply lookup_delete_ne).
  cbn [default from_option id].
  assert (preserves (λ s, carried m s ∧ session s !! "user_id" = m !! "user_id")
    (session_put "pending_payee" pending)) as Hput.
  { intros s [_ Hs]. split; [left|]; unfold kept; cbn; rewrite lookup_insert_ne by done; [|done].
    rewrite lookup_insert_eq. congruence. }
  assert (∀ A (c : M St A), (∀ k v, k ∈ login_keys → preserves (session_key k v) c) →
    preserves (λ s, carried m s ∧ session s !! "user_id" = m !! "user_id") c) as Hframe.
  { intros A c Hc. apply pres_and; [by apply keeps_carried|]. apply Hc. set_solver. }
  match goal with |- carried m (?c s1).2 =>
    cut (preserves (λ s, carried m s ∧ session s !! "user_id" = m !! "user_id") c);
      [by intros Hall; apply (Hall s1)|] end.
  apply pres_if; [apply Hframe; intros; by apply dict_back|].
  apply pres_bind; [apply Hframe; intros; by apply dict_expired|intros expired].
  apply pres_if.
  { apply pres_bind; [apply Hframe; intros; by apply dict_result|intros _].
    apply Hframe; intros; by apply dict_back. }
  apply pres_if; [apply Hframe; intros; by apply dict_back|].
  apply pres_if; [|apply Hframe; intros; by apply dict_add_requested].
  apply pres_bind; [exact Hput|intros _]. apply Hframe; intros; by apply dict_render.
Qed.

(** Every view but the submission of a payee carries the entries over. *)
Lemma view_carries v u :
  match v with PayeesAddSubmit _ _ => True | _ => keeps (view v u) end.
Proof.
  destruct v; cbn [view]; try exact I.
  3: apply carry_confirm. 3: apply carry_confirm_submit. 3: apply carry_cancel.
  all: apply keeps_carried; intros k x Hk.
  - by apply dict_payees_page.
  - by apply dict_render.
  - apply pres_bind; [by apply dict_own|intros _; by apply dict_render].
  - by apply dict_transfer.
  - by apply dict_transfer_submit.
  - by apply dict_transfer_confirm.
  - by apply dict_transfer_confirm_submit.
  - by apply dict_nickname.
  - by apply dict_nickname_submit.
  - by apply dict_payup_page.
  - by apply dict_payup_submit.
  - by apply dict_payup_amount.
  - by apply dict_amount_submit.
  - by apply dict_payup_confirm.
  - by apply dict_payup_confirm_submit.
Qed.

Lemma left_alone_carried st st' : left_alone st st' → carried (session st) st'.
Proof.
  intros [Hl|E]; [left; unfold kept; by rewrite !Hl|right; rewrite E; apply lookup_empty].
Qed.
End Carry.
End PayeeFrame.
