(* ===== verification/PayeeVetting.v ===== *)
(** * Payees are vetted before they are stored

    Along any requests to the banking views and to the removal of a payee, from
    any browsers, a payee row is stored only by the confirmation of a request that
    an earlier submission of the same customer, in the same browser, left in the
    session after verifying an authenticator code; and it disappears only when its
    owner removes it.  The submission and the confirmation are linked by two
    session entries, the signed-in user and the pending payee.  The other requests
    of a browser (its dashboard, signing in or out, ...) appear only through them:
    they leave both entries, or there is no pending payee, as after a sign-in or a
    sign-out, which clear the session. *)

From S2P Require Import Prelude PyStr PyDecimal TimeModel Schema Canonical Json Runtime Sample.
From S2P Require Import Integrity AuditLog SessionRisk BankingPolicy Notifications Sessions.
From S2P Require Import SessionStore RateLimits Mfa Transfers Idempotency BankingViews.
From S2P Require Import LoginFrame Settings Guards TransferJourney PayeeFrame.
From stdpp Require Import functions.
Open Scope string_scope.
Open Scope Z_scope.

Module PayeeVetting.
Import Audit Policy Notifications SessionStore Mfa LoginFrame Settings Guards BankingViews TransferJourney.
Import PayeeFrame.

(** The payee table, and who holds which account. *)
Definition payees_are (T : gmap Z Payee) (U : gmap Z User) (c w : Db) : Prop :=
  payees c = T ∧ payees w = T ∧ users c = U ∧ users w = U.
#[export] Instance payees_are_blind T U : audit_blind (payees_are T U).
Proof. by split; intros * (? & ? & ? & ?). Qed.

(** [row] is the payee of the pending request in the session of [st]. *)
Record requested `{Env} (u : Z) (st : St) (kvs : list (string * jval)) (row : Payee) : Prop := {
  rq_session : session st !! "pending_payee" = Some (JObj kvs);
  rq_stepped_up : obj_get "authorization_action" kvs = Some (JStr "payee_add");
  rq_in_time : ∃ text t, obj_get "expires_at" kvs = Some (JStr text)
    ∧ datetime_fromisoformat text = Some t ∧ clock st ≤ t;
  rq_user : py_user_id row = u;
  rq_account : entry_text (JObj kvs) "account_number" = Ok (py_account_number row);
  rq_nickname : entry_text (JObj kvs) "nickname" = Ok (py_nickname row)
}.

(** [row] names the holder of an account that is not the customer's own and not
    yet a payee. *)
Record vetted_row (d : Db) (row : Payee) : Prop := {
  wf_other : ∃ user, users d !! py_user_id row = Some user
    ∧ u_account_number user ≠ Some (py_account_number row);
  wf_holder : ∃ id holder, users d !! id = Some holder
    ∧ u_account_number holder = Some (py_account_number row)
    ∧ py_recipient_name row = u_full_name holder;
  wf_new : ∀ id p, payees d !! id = Some p → py_user_id p = py_user_id row →
    py_account_number p ≠ py_account_number row
}.

(** The session's view is ahead by the new row. *)
Definition added (T : gmap Z Payee) (U : gmap Z User) (T' : gmap Z Payee) (c w : Db) : Prop :=
  payees c = T ∧ users c = U ∧ payees w = T' ∧ users w = U.

Section Vetting.
Context `{Env} (T : gmap Z Payee) (U : gmap Z User).

(** The row is durable with its audit record, or nothing is. *)
Lemma insert_triple u n a r :
  triple (on_db (payees_are T U)) (insert_payee u n a r)
    (λ out st, match out with
       | None => ∃ t, on_db (payees_are (<[next_id T := mkPayee u n a r t]> T) U) st
       | Some _ => on_db (payees_are T U) st
       end)
    (λ _ st, payees (committed st) = T).
Proof.
  unfold insert_payee.
  apply triple_try with (X' := λ _ st, payees (committed st) = T ∧ users (committed st) = U).
  2:{ intros e st [HT HU]. unfold bind at 1, rollback, modify.
      assert (on_db (payees_are T U) (set_working (committed st) st)) as Hr by done.
      destruct (Idempotency.is_integrity_error e); [|exact HT].
      unfold bind. pose proof (page_back (payees_are T U) _DUPLICATE_PAYEE_MESSAGE "error"
        _PAYEES_ENDPOINT _ Hr) as Hb.
      destruct (send_back _ _ _ _) as [[page|e'] st']; [exact Hb|apply Hb]. }
  2:{ by intros e st [? _]. }
  set (row := λ t, mkPayee u n a r t). set (T' := λ t, <[next_id T := row t]> T).
  eapply triple_bind with (R := λ t, on_db (payees_are T U)); [by intros st Hst|intros t].
  eapply triple_bind with (R := λ _, on_db (added T U (T' t))).
  { intros st (HcT & HwT & HcU & HwU). split_and!; cbn; [done..| |done]. by rewrite HwT. }
  intros _. eapply triple_bind with (R := λ _, on_db (added T U (T' t))).
  { intros st Hst. unfold flush. destruct (db_ok _); [exact Hst|]. by destruct Hst as (? & ? & _). }
  intros _. eapply triple_bind with (R := λ _, on_db (added T U (T' t))).
  { intros st Hst. unfold lift. destruct (audit_reference _ _); [exact Hst|]. by destruct Hst as (? & ? & _). }
  intros ref. eapply triple_bind with (R := λ _, on_db (added T U (T' t))).
  { intros st (HcT & HcU & HwT & HwU). destruct (audit_event_required _ _ _ _ st) as [res st'] eqn:E.
    apply audit_event_required_cases in E as [Hc [[-> (e & _ & Hw)]|[[e ->] _]]].
    - unfold on_db. rewrite Hc, Hw. done.
    - by rewrite Hc. }
  intros _. intros st (HcT & HcU & HwT & HwU). unfold bind, commit.
  destruct (db_ok _); [|done]. exists t. done.
Qed.

Lemma existing_none u a d id p :
  existing_payee u a d = None → payees d !! id = Some p → py_user_id p = u → py_account_number p ≠ a.
Proof.
  intros He Hp Hu Ha. pose proof (first_where_None _ _ _ _ He Hp) as Hf. cbn in Hf.
  rewrite Hu, Ha, Z.eqb_refl, bool_decide_eq_true_2 in Hf by done. done.
Qed.

(** The part of the confirmation that follows the checks of the request. *)
Lemma store_vetted u (account nickname : string) st0 user holder_id holder (k : M St Page) :
  payees (committed st0) = T → payees (working st0) = T → users (committed st0) = U →
  users (working st0) = U → users (working st0) !! u = Some user →
  u_account_number user ≠ Some account → account_holder account (working st0) = Some (holder_id, holder) →
  existing_payee u account (working st0) = None →
  (∀ T', preserves (on_db (payees_are T' U)) k) →
  payees (committed ((refused <- insert_payee u nickname account (u_full_name holder) ;;
    match refused with Some page => ret page | None => k end) st0).2) = T
  ∨ ∃ row, py_user_id row = u ∧ py_account_number row = account ∧ py_nickname row = nickname
      ∧ vetted_row (working st0) row
      ∧ payees (committed ((refused <- insert_payee u nickname account (u_full_name holder) ;;
          match refused with Some page => ret page | None => k end) st0).2) = <[next_id T := row]> T.
Proof.
  intros HcT HwT HcU HwU Huser Hown Hholder Hnew Hk.
  pose proof (insert_triple u nickname account (u_full_name holder) st0
    (conj HcT (conj HwT (conj HcU HwU)))) as Ht. unfold bind.
  destruct (insert_payee _ _ _ _ st0) as [[[page|]|e] st1]; [left; apply Ht| |by left].
  right. destruct Ht as [t Ht]. exists (mkPayee u nickname account (u_full_name holder) t).
  split_and!; [done..| |].
  - apply first_where_Some in Hholder as [Hh Ha%bool_decide_eq_true]. split; cbn.
    + by exists user.
    + by exists holder_id, holder.
    + intros id p Hp Hu. by eapply existing_none.
  - exact (proj1 (Hk _ st1 Ht)).
Qed.
End Vetting.

Lemma result_stays `{Env} T U u p o : preserves (on_db (payees_are T U)) (notify_payee_result u p o).
Proof. unfold notify_payee_result. solve_pres. Qed.

Section Confirmation.
Context `{Env} (T : gmap Z Payee) (U : gmap Z User).

Lemma stays {A} (c : M St A) st :
  preserves (on_db (payees_are T U)) c → on_db (payees_are T U) st → payees (committed (c st).2) = T.
Proof. intros Hc Hst. exact (proj1 (Hc st Hst)). Qed.

(** The checks and the insertion, once the request is found good. *)
Lemma add_requested u pending st :
  on_db (payees_are T U) st → working st = committed st →
  payees (committed (add_requested_payee u pending st).2) = T
  ∨ ∃ row, py_user_id row = u ∧ entry_text pending "account_number" = Ok (py_account_number row)
      ∧ entry_text pending "nickname" = Ok (py_nickname row) ∧ vetted_row (committed st) row
      ∧ payees (committed (add_requested_payee u pending st).2) = <[next_id T := row]> T.
Proof.
  intros Hst Hw. unfold add_requested_payee.
  destruct (entry_text pending "account_number") as [account|e]; [|left; apply Hst].
  rewrite (bind_Ok (lift (Ok account)) _ st account st eq_refl).
  destruct (users (working st) !! u) as [user|] eqn:Hu.
  2:{ left. unfold bind, load_user, db_query. rewrite Hu. apply Hst. }
  assert (load_user u st = (Ok user, st)) as El by (unfold load_user, db_query; by rewrite Hu).
  rewrite (bind_Ok _ _ _ _ _ El).
  case_bool_decide as Hown; [left; by eapply stays; [apply page_back|]|].
  rewrite (bind_Ok _ _ _ _ _ (eq_refl (db_get (account_holder account) st))).
  destruct (account_holder account (working st)) as [[hid holder]|] eqn:Hh;
    [|left; by eapply stays; [apply page_back|]].
  rewrite (bind_Ok _ _ _ _ _ (eq_refl (db_get (existing_payee u account) st))).
  destruct (existing_payee u account (working st)) as [|] eqn:Hx;
    [left; by eapply stays; [apply page_back|]|].
  destruct (entry_text pending "nickname") as [nickname|e]; [|left; apply Hst].
  rewrite (bind_Ok (lift (Ok nickname)) _ st nickname st eq_refl).
  destruct Hst as (HcT & HwT & HcU & HwU).
  match goal with |- context [match _ with Some page => ret page | None => ?k end] =>
    assert (∀ T', preserves (on_db (payees_are T' U)) k) as Hk
      by (intros T'; apply pres_bind; [apply result_stays|intros _];
          apply pres_bind; [apply pres_lift|intros ?]; apply page_back);
    destruct (store_vetted T U u account nickname st user hid holder k HcT HwT HcU HwU Hu
      (not_eq_sym Hown) Hh Hx Hk) as [?|(row & ? & ? & ? & ? & ?)]; [by left|] end.
  right. exists row. rewrite <- Hw. split_and!; congruence.
Qed.
End Confirmation.

(** ** Submissions *)

(** The customer's code was accepted for [action] at [st]. *)
Definition code_accepted `{Env} (u : Z) (code : option string) (action : string) (st : St) : Prop :=
  ∃ st', verify_high_risk_authorization u code action true st = (Ok tt, st').

(** [kvs] is the request of the submitted [form], made with a good code. *)
Record asks `{Env} (u : Z) (form : AddPayeeForm) (st : St) (kvs : list (string * jval)) : Prop := {
  as_stepped_up : code_accepted u (ap_totp_code form) "payee_add" st;
  as_account : entry_text (JObj kvs) "account_number" = Ok (strip (or_empty (ap_account_number form)));
  as_nickname : entry_text (JObj kvs) "nickname" = Ok (str_take 64 (strip (or_empty (ap_nickname form))))
}.

(** A submission carries the session over, or leaves the request it stepped up
    for. *)
Lemma submission_asks `{Env} u csrf form st :
  let st' := (payees_add_submit u csrf form st).2 in
  carried (session st) st'
  ∨ ∃ kvs, kept (session st') = (session st !! "user_id", Some (JObj kvs)) ∧ asks u form st kvs.
Proof.
  cbv zeta. unfold payees_add_submit. assert (carried (session st) st) as Hst by by left.
  assert (∀ A (c : M St A) s, (∀ k v, k ∈ login_keys → preserves (session_key k v) c) →
    carried (session st) s → carried (session st) (c s).2) as Hf
    by (intros A c s Hc Hs; exact (keeps_carried c _ Hc s Hs)).
  destruct (negb _); [by left|]. cbv zeta.
  destruct (users (working st) !! u) as [user|] eqn:Hu.
  2:{ left. unfold bind, load_user, db_query. by rewrite Hu. }
  assert (load_user u st = (Ok user, st)) as El by (unfold load_user, db_query; by rewrite Hu).
  rewrite (bind_Ok _ _ _ _ _ El).
  destruct (negb _); [left; apply Hf; [intros; by apply dict_refuse|done]|].
  case_bool_decide; [left; apply Hf; [intros; by apply dict_refuse|done]|].
  set (step := attempt _). assert (kept (session (step st).2) = kept (session st)) as Hs.
  { apply kept_frame. intros k v Hk. by apply dict_attempt, sk_high_risk. }
  assert (carried (session st) (step st).2) as Hs1 by by left.
  destruct (step st) as [[[[]|[message status]]|e] s1] eqn:Ea; cbn [snd] in Hs, Hs1.
  2:{ left. rewrite (bind_Ok _ _ _ _ _ Ea). apply Hf; [intros; by apply dict_refuse|done]. }
  2:{ left. by rewrite (bind_Raise _ _ _ _ _ Ea). }
  rewrite (bind_Ok _ _ _ _ _ Ea). apply attempt_inl in Ea.
  rewrite (bind_Ok _ _ _ _ _ (eq_refl (db_get (account_holder _) s1))).
  destruct (account_holder _ _) as [[hid holder]|];
    [|left; apply Hf; [intros; by apply dict_lookup_failure|done]].
  rewrite (bind_Ok _ _ _ _ _ (eq_refl (db_get (existing_payee _ _) s1))).
  destruct (existing_payee _ _ _) as [|]; [left; apply Hf; [intros; by apply dict_refuse|done]|].
  right. unfold iso_in. cbn.
  match goal with |- context [session ((bind ?c ?k) ?s2).2] =>
    set (s3 := s2); assert (kept (session ((bind c k) s3).2) = kept (session s3)) as -> end.
  { apply kept_frame. intros k v Hk. apply pres_bind; [by apply dict_processing|intros; apply pres_ret]. }
  eexists. split; [|split; [by exists s1|..]].
  { unfold kept, s3. cbn. rewrite lookup_insert_eq, lookup_insert_ne by done.
    injection Hs as -> _. reflexivity. }
  all: reflexivity.
Qed.
Lemma confirmation_stores_request `{Env} u csrf st :
  working st = committed st →
  let st' := (payees_confirm_submit u csrf st).2 in
  payees (committed st') = payees (committed st)
  ∨ csrf = true ∧ ∃ kvs row, requested u st kvs row ∧ vetted_row (committed st) row
      ∧ payees (committed st') = <[next_id (payees (committed st)) := row]> (payees (committed st)).
Proof.
  intros Hw. cbv zeta. unfold payees_confirm_submit.
  rewrite (bind_Ok _ _ _ _ _ (eq_refl (session_pop "pending_payee" st))).
  set (s1 := set_session _ st).
  assert (on_db (payees_are (payees (committed st)) (users (committed st))) s1) as H1
    by (unfold on_db, payees_are; cbn; by rewrite Hw).
  destruct (negb (otruthy _)) eqn:Et; [left; by eapply stays; [apply page_back|]|].
  destruct (session st !! "pending_payee") as [pending|] eqn:Ep; [|done]. cbn [default from_option id].
  set (t := clock s1 + Z.of_N (tick (effects s1))). set (s2 := next_effect (set_clock t s1)).
  assert (on_db (payees_are (payees (committed st)) (users (committed st))) s2) as H2 by exact H1.
  destruct (rbind (entry pending "expires_at") from_iso) as [expires_at|e] eqn:Ee.
  2:{ assert (pending_expired pending s1 = (Raise e, s2)) as Ex
        by (unfold pending_expired, bind, lift; by rewrite Ee).
      left. rewrite (bind_Raise _ _ _ _ _ Ex). apply H2. }
  assert (pending_expired pending s1 = (Ok (expires_at <? t), s2)) as Ex
    by (unfold pending_expired, bind, lift; by rewrite Ee).
  rewrite (bind_Ok _ _ _ _ _ Ex). destruct (Z.ltb_spec expires_at t) as [|Hle].
  { left. eapply stays; [|exact H2]. apply pres_bind; [apply result_stays|intros _; apply page_back]. }
  destruct pending as [| | | | |kvs]; try done.
  destruct (negb (names_action _ _) || _) eqn:Ea; [left; by eapply stays; [apply page_back|]|].
  apply orb_false_iff in Ea as [Ea%negb_false_iff _].
  destruct csrf; cbn [negb].
  2:{ left. eapply stays; [|exact H2]. apply pres_bind; [apply pres_session_put|intros _].
      apply page_render. }
  destruct (add_requested _ _ u (JObj kvs) s2 H2) as [|(row & Hu & Ha & Hn & Hf & Hrow)];
    [exact Hw|by left|]. right. split; [done|]. exists kvs, row. split; [|done].
  split; [done| | |done|done|done].
  + unfold names_action in Ea. destruct (obj_get _ kvs) as [[| | |text| |]|]; try done.
    apply bool_decide_eq_true in Ea. by subst text.
  + cbn [entry] in Ee. destruct (obj_get "expires_at" kvs) as [[| | |text| |]|]; try done.
    cbn in Ee. destruct (datetime_fromisoformat text) as [t'|] eqn:Ei; [|done]. injection Ee as ->.
    exists text, expires_at. split_and!; [done..|]. unfold t in Hle. cbn in Hle. lia.
Qed.

(** ** Removals *)

Lemma delete_triple `{Env} (T : gmap Z Payee) u p md :
  triple (on_db (payees_kept T))
    (try_except
       (_ <- db_write (delete_payee p) ;;
        ref <- lift (audit_reference "payee_account" md.1) ;;
        _ <- audit_event_required "payee_remove" "success" (Some u) (md.2 ref) ;;
        commit)
       is_audit_write_error (λ e, _ <- rollback ;; raise e))
    (λ _ st, payees (committed st) = delete p T) (λ _ st, payees (committed st) = T).
Proof.
  apply triple_try with (X' := λ _ st, payees (committed st) = T); [|by intros e st Hst..].
  set (J := λ st, payees (committed st) = T ∧ payees (working st) = delete p T).
  eapply triple_bind with (R := λ _, J).
  { intros st [Hc Hw]. split; [done|]. cbn. by rewrite Hw. }
  intros _. eapply triple_bind with (R := λ _, J).
  { intros st Hst. unfold lift. destruct (audit_reference _ _); [exact Hst|apply Hst]. }
  intros ref. eapply triple_bind with (R := λ _, J).
  { intros st [HcT HwT]. destruct (audit_event_required _ _ _ _ st) as [res st'] eqn:E.
    apply audit_event_required_cases in E as [Hc [[-> (e & _ & Hw)]|[[e ->] _]]].
    - unfold J. rewrite Hc, Hw. done.
    - by rewrite Hc. }
  intros _ st [HcT HwT]. unfold commit. by destruct (db_ok _).
Qed.

Lemma removal_cases `{Env} u p form st :
  working st = committed st →
  let st' := (payees_remove_submit u p form st).2 in
  payees (committed st') = payees (committed st)
  ∨ ∃ code row, form = Some code ∧ payees (committed st) !! p = Some row ∧ py_user_id row = u
      ∧ code_accepted u code "payee_remove" st
      ∧ payees (committed st') = delete p (payees (committed st)).
Proof.
  intros Hw. cbv zeta. unfold payees_remove_submit.
  destruct (payees (working st) !! p) as [row|] eqn:Hp.
  2:{ left. unfold bind, db_query. by rewrite Hp. }
  destruct (Z.eqb_spec (py_user_id row) u) as [Hu|Hu].
  2:{ left. unfold bind, db_query. rewrite Hp. by destruct (Z.eqb_spec (py_user_id row) u). }
  erewrite (bind_Ok (db_query _) _ st row st)
    by (unfold db_query; rewrite Hp; by destruct (Z.eqb_spec (py_user_id row) u)).
  destruct form as [code|]; [|by left].
  set (T := payees (committed st)). assert (on_db (payees_kept T) st) as Hst by (split; unfold T; congruence).
  assert (preserves (on_db (payees_kept T)) (step_up u code "payee_remove")) as Hs
    by (unfold step_up; solve_pres).
  specialize (Hs st Hst). destruct (step_up u code "payee_remove" st) as [[[[]|status]|e] s1] eqn:Es.
  2:{ left. rewrite (bind_Ok _ _ _ _ _ Es). apply Hs. }
  2:{ left. rewrite (bind_Raise _ _ _ _ _ Es). apply Hs. }
  rewrite (bind_Ok _ _ _ _ _ Es).
  pose proof (delete_triple T u p (py_account_number row, λ ref,
    [("payee_account_ref", jopt_str ref); ("nickname_present", JBool (nonempty (py_nickname row)));
     ("nickname_length", JInt (Z.of_nat (slen (py_nickname row))))]) s1 Hs) as Ht.
  cbn [fst snd] in Ht. destruct (try_except _ _ _ s1) as [[[]|e] s2] eqn:Ed.
  2:{ left. by rewrite (bind_Raise _ _ _ _ _ Ed). }
  rewrite (bind_Ok _ _ _ _ _ Ed). right. exists code, row. split_and!; [done|unfold T; congruence|done| |exact Ht].
  unfold step_up, try_except, bind in Es. unfold code_accepted.
  destruct (verify_high_risk_authorization u code "payee_remove" true st) as [[[]|e] s']; [by exists s'|].
  exfalso. destruct e; unfold ret, raise in Es; cbn in Es; try discriminate.
Qed.
(** ** Requests, one after the other *)

Inductive Request : Type :=
  | Visiting (v : Visit)
  | Removing (payee_id : Z) (form : option (option string)).

(** A request as it was served: its browser, its environment, the state before. *)
Record Call : Type := mkCall {
  cl_browser : nat; cl_env : Env; cl_before : St; cl_request : Request
}.
Definition after (c : Call) : St :=
  match cl_request c with
  | Visiting v => (@visit (cl_env c) v (cl_before c)).2
  | Removing payee_id form => (@payees_remove_view (cl_env c) payee_id form (cl_before c)).2
  end.
Definition caller (c : Call) : option jval := session (cl_before c) !! "user_id".

(** The call asked for [row]: a submission of its owner, with an accepted code,
    which left the request [kvs] in the session. *)
Definition asked (c : Call) (row : Payee) (kvs : list (string * jval)) : Prop := ∃ csrf form,
  cl_request c = Visiting (PayeesAddSubmit csrf form)
  ∧ caller c = Some (JInt (py_user_id row))
  ∧ @code_accepted (cl_env c) (py_user_id row) (ap_totp_code form) "payee_add" (cl_before c)
  ∧ py_account_number row = strip (or_empty (ap_account_number form))
  ∧ py_nickname row = str_take 64 (strip (or_empty (ap_nickname form)))
  ∧ session (after c) !! "pending_payee" = Some (JObj kvs).

(** The call stored [row] as payee [id]: a confirmation of the request [kvs] by
    its owner, in time, of a row that is vetted. *)
Definition confirmed (c : Call) (id : Z) (row : Payee) (kvs : list (string * jval)) : Prop :=
  cl_request c = Visiting (PayeesConfirmSubmit true)
  ∧ caller c = Some (JInt (py_user_id row))
  ∧ @requested (cl_env c) (py_user_id row) (cl_before c) kvs row
  ∧ vetted_row (committed (cl_before c)) row
  ∧ payees (committed (after c)) = <[id := row]> (payees (committed (cl_before c)))
  ∧ payees (committed (cl_before c)) !! id = None.

(** The call removed payee [id], which was [row]: its owner did, with an accepted
    code. *)
Definition removed (c : Call) (id : Z) (row : Payee) : Prop := ∃ code,
  cl_request c = Removing id (Some code)
  ∧ caller c = Some (JInt (py_user_id row))
  ∧ @code_accepted (cl_env c) (py_user_id row) code "payee_remove" (cl_before c)
  ∧ payees (committed (cl_before c)) !! id = Some row
  ∧ payees (committed (after c)) = delete id (payees (committed (cl_before c))).

(** Each call is served from the durable database, in any environment, and its
    session has the user and the payee request that the browser's previous call
    left, or no request.  No browser starts with one. *)
Inductive history (d : Db) : list Call → (nat → Kept) → Db → Prop :=
  | history_start : history d [] (λ _, (None, None)) d
  | history_call h k d1 c :
      history d h k d1 → committed (cl_before c) = d1 → working (cl_before c) = d1 →
      kept (session (cl_before c)) = k (cl_browser c)
        ∨ session (cl_before c) !! "pending_payee" = None →
      history d (h ++ [c]) (<[cl_browser c := kept (session (after c))]> k) (committed (after c)).

(** A call keeps the payees, confirms one, or removes one. *)
Lemma call_payees c :
  working (cl_before c) = committed (cl_before c) →
  payees (committed (after c)) = payees (committed (cl_before c))
  ∨ (∃ id row kvs, confirmed c id row kvs) ∨ (∃ id row, removed c id row).
Proof.
  destruct c as [b E st [v|p form]]; unfold confirmed, removed, caller, after;
    cbn [cl_request cl_env cl_before]; intros Hw.
  - destruct (visit_cases v st) as [(uid & [Hu _] & Ev)|(Hc & _)]; [|left; by rewrite Hc].
    rewrite Ev. assert (∀ st', (page <- view v uid ;; ret (Some page)) st' =
      (match (view v uid st').1 with Ok page => Ok (Some page) | Raise e => Raise e end, (view v uid st').2))
      as Eb by (intros st'; unfold bind, ret; by destruct (view v uid st') as [[]]).
    rewrite Eb. cbn [snd]. pose proof (view_keeps_payees (payees (committed st)) v uid) as Hk.
    destruct v as [| | | |csrf| | | | | | | | | | | | | |].
    1-4, 6-19: left; apply (Hk st); split; [done|by rewrite Hw].
    cbn [view]. destruct (confirmation_stores_request uid csrf st Hw) as [?|(-> & kvs & row & Hr & Hv & Hp)];
      [by left|]. right; left. exists (next_id (payees (committed st))), row, kvs.
    destruct (rq_user _ _ _ _ Hr). split_and!; [done..|apply next_id_fresh].
  - destruct (guarded_cases (λ u, Settings.payees_remove_submit u p form) st)
      as [(uid & [Hu _] & Ev)|(_ & Hc & _)]; [|left; unfold payees_remove_view; by rewrite Hc].
    unfold payees_remove_view. rewrite Ev. unfold bind, ret.
    destruct (removal_cases uid p form st Hw) as [Hk|(code & row & -> & Hp & Ho & Hcode & Hd)].
    + left. by destruct (Settings.payees_remove_submit uid p form st) as [[]].
    + right; right. exists p, row, code. rewrite Ho. split_and!; [done..|].
      by destruct (Settings.payees_remove_submit uid p (Some code) st) as [[]].
Qed.
(** [c] left the request [kvs] of the customer [u]. *)
Definition left_request (c : Call) (u : Z) (kvs : list (string * jval)) : Prop := ∃ csrf form,
  cl_request c = Visiting (PayeesAddSubmit csrf form) ∧ caller c = Some (JInt u)
  ∧ @asks (cl_env c) u form (cl_before c) kvs
  ∧ session (after c) !! "pending_payee" = Some (JObj kvs).

(** A call carries its session over, or leaves a request it stepped up for. *)
Lemma call_session c :
  carried (session (cl_before c)) (after c)
  ∨ ∃ u kvs, left_request c u kvs ∧ kept (session (after c)) = (Some (JInt u), Some (JObj kvs)).
Proof.
  destruct c as [b E st [v|p form]]; unfold left_request, caller, after;
    cbn [cl_request cl_env cl_before].
  - destruct (visit_cases v st) as [(uid & [Hu _] & Ev)|(_ & _ & Hl)];
      [|left; by apply left_alone_carried].
    assert ((visit v st).2 = (view v uid st).2) as ->
      by (rewrite Ev; unfold bind, ret; by destruct (view v uid st) as [[]]).
    pose proof (view_carries (session st) v uid) as Hk.
    destruct v as [| |csrf form| | | | | | | | | | | | | | | |].
    1-2, 4-19: left; apply (Hk st); by left.
    destruct (submission_asks uid csrf form st) as [?|(kvs & Ek & Ha)]; [by left|]. right.
    cbn [view]. exists uid, kvs. split; [|by rewrite Ek, Hu].
    exists csrf, form. split_and!; [done..|]. by injection Ek.
  - left. destruct (guarded_cases (λ u, Settings.payees_remove_submit u p form) st)
      as [(uid & [Hu _] & Ev)|(_ & _ & _ & Hl)];
      [|by apply left_alone_carried, left_alone_or_cleared].
    assert ((payees_remove_view p form st).2 = (Settings.payees_remove_submit uid p form st).2) as ->.
    { unfold payees_remove_view. rewrite Ev. unfold bind, ret.
      by destruct (Settings.payees_remove_submit uid p form st) as [[]]. }
    apply (keeps_carried (Settings.payees_remove_submit uid p form));
      [intros; by apply dict_remove|by left].
Qed.

(** What a browser's session holds was left there by one of its calls. *)
Definition traced (h : list Call) (b : nat) (x : Kept) : Prop := ∀ pending,
  x.2 = Some pending → ∃ c u kvs, c ∈ h ∧ cl_browser c = b ∧ left_request c u kvs
    ∧ x = (Some (JInt u), Some (JObj kvs)).

Lemma traced_more h h' b x : traced h b x → traced (h ++ h') b x.
Proof. intros Ht pending (c & u & kvs & Hc & ?)%Ht. exists c, u, kvs. split; [set_solver|done]. Qed.

Lemma traced_before h (k : nat → Kept) c :
  (∀ b, traced h b (k b)) →
  kept (session (cl_before c)) = k (cl_browser c) ∨ session (cl_before c) !! "pending_payee" = None →
  traced h (cl_browser c) (kept (session (cl_before c))).
Proof. intros Hk [E|E]; [rewrite E; apply Hk|]. intros pending Hp. cbn in Hp. congruence. Qed.

Lemma history_traced d h k d' : history d h k d' → ∀ b, traced h b (k b).
Proof.
  induction 1 as [|h k d1 c Hh IH Hc Hw Hk]; intros b; [by intros ? ?|].
  destruct (decide (b = cl_browser c)) as [->|Hb].
  2:{ rewrite fn_lookup_insert_ne by done. apply traced_more, IH. }
  rewrite fn_lookup_insert. destruct (call_session c) as [[E|E]|(u & kvs & Hl & E)]; rewrite ?E.
  - by apply traced_more, (traced_before h k).
  - intros pending Hp. cbn in Hp. congruence.
  - intros pending _. exists c, u, kvs. split_and!; [set_solver|done..].
Qed.

(** A confirmed request was asked for by an earlier call of the same browser. *)
Lemma confirmed_was_asked h c id row kvs :
  traced h (cl_browser c) (kept (session (cl_before c))) → confirmed c id row kvs →
  ∃ h1 c1 h2, h = (h1 ++ c1 :: h2)%list ∧ cl_browser c1 = cl_browser c ∧ asked c1 row kvs.
Proof.
  intros Ht (_ & Hu & Hr & _). destruct (Ht (JObj kvs)) as (c1 & u & kvs' & Hin & Hb & Hl & E).
  { exact (rq_session _ _ _ _ Hr). }
  unfold kept in E. rewrite (rq_session _ _ _ _ Hr) in E. injection E as Eu <-.
  unfold caller in Hu. rewrite Hu in Eu. injection Eu as <-.
  apply list_elem_of_split in Hin as (h1 & h2 & ->). exists h1, c1, h2. split_and!; [done..|].
  destruct Hl as (csrf & form & Hreq & Hcall & Ha & Hp). exists csrf, form.
  pose proof (as_account _ _ _ _ Ha) as Eacc. pose proof (as_nickname _ _ _ _ Ha) as Enick.
  rewrite (rq_account _ _ _ _ Hr) in Eacc. rewrite (rq_nickname _ _ _ _ Hr) in Enick.
  injection Eacc as ->. injection Enick as ->. split_and!; try done. apply Ha.
Qed.
(** [row] was stored as payee [id] by a confirmation, after the submission of the
    same browser that asked for it. *)
Definition asked_and_confirmed (h : list Call) (id : Z) (row : Payee) : Prop :=
  ∃ h1 asking h2 confirming h3 kvs, h = (h1 ++ asking :: h2 ++ confirming :: h3)%list
    ∧ cl_browser asking = cl_browser confirming
    ∧ asked asking row kvs ∧ confirmed confirming id row kvs.

Lemma asked_more h h' id row : asked_and_confirmed h id row → asked_and_confirmed (h ++ h') id row.
Proof.
  intros (h1 & c1 & h2 & c2 & h3 & kvs & -> & Hr). exists h1, c1, h2, c2, (h3 ++ h')%list, kvs.
  split; [|done]. by rewrite <- app_assoc; cbn; rewrite <- app_assoc.
Qed.

Lemma history_stored d h k d' :
  history d h k d' → ∀ id row, payees d' !! id = Some row →
  payees d !! id = Some row ∨ asked_and_confirmed h id row.
Proof.
  induction 1 as [|h k d1 c Hh IH Hc Hw Hk]; intros id row Hrow; [by left|].
  assert (payees d1 !! id = Some row → payees d !! id = Some row ∨ asked_and_confirmed (h ++ [c]) id row)
    as Hold by (intros [?|?]%IH; [by left|right; by apply asked_more]).
  destruct (call_payees c) as [E|[(id' & row' & kvs & Hf)|(id' & row' & code & _ & _ & _ & _ & E)]];
    [by rewrite Hc, Hw| | |].
  - rewrite E, Hc in Hrow. auto.
  - pose proof Hf as (_ & _ & _ & _ & E & _). rewrite E, Hc in Hrow.
    apply lookup_insert_Some in Hrow as [[<- <-]|[_ Hrow]]; [|auto]. right.
    pose proof (traced_before h k c (history_traced d h k d1 Hh) Hk) as Ht.
    destruct (confirmed_was_asked h c id' row' kvs Ht Hf) as (h1 & c1 & h2 & -> & Hb & Ha).
    exists h1, c1, h2, c, [], kvs. split_and!; [by rewrite <- app_assoc|done..].
  - rewrite E, Hc in Hrow. apply lookup_delete_Some in Hrow as [_ Hrow]. auto.
Qed.

Lemma history_removed d h k d' :
  history d h k d' → ∀ id row, payees d !! id = Some row →
  payees d' !! id = Some row ∨ ∃ c, c ∈ h ∧ removed c id row.
Proof.
  induction 1 as [|h k d1 c Hh IH Hc Hw Hk]; intros id row Hrow; [by left|].
  destruct (IH id row Hrow) as [Hd1|(c' & Hin & Hr)]; [|right; exists c'; set_solver].
  destruct (call_payees c) as [E|[(id' & row' & kvs & Hf)|(id' & row' & Hr)]];
    [by rewrite Hc, Hw| | |].
  - left. by rewrite E, Hc.
  - left. destruct Hf as (_ & _ & _ & _ & E & Hnew). rewrite E, Hc. rewrite Hc in Hnew.
    rewrite lookup_insert_ne; [done|congruence].
  - pose proof Hr as (code & _ & _ & _ & Hp & E). rewrite Hc in Hp.
    destruct (decide (id' = id)) as [->|Hne].
    + right. exists c. split; [set_solver|]. rewrite Hp in Hd1. by injection Hd1 as <-.
    + left. by rewrite E, Hc, lookup_delete_ne.
Qed.

(** C9: a payee is stored only after a step-up, and removed only by its owner.
    After any requests to the banking views and to the removal of a payee, from
    any browsers, each payee of the database was there at the start under its id,
    or was stored by a confirmation of its owner after a submission, earlier and
    in the same browser, in which the owner's authenticator code was accepted for
    adding that account under that nickname; the confirmed request is the one that
    submission left in the session, was not expired, and names an account that was
    neither the owner's own nor a payee of theirs already, under the name of its
    holder.  And each payee that was there is still there unchanged, or its owner
    removed it with an accepted code. *)
Theorem payees_are_vetted d h k d' :
  history d h k d' →
  (∀ id row, payees d' !! id = Some row →
     payees d !! id = Some row ∨ asked_and_confirmed h id row)
  ∧ ∀ id row, payees d !! id = Some row →
      payees d' !! id = Some row ∨ ∃ c, c ∈ h ∧ removed c id row.
Proof. intros Hh. split; [by eapply history_stored|by eapply history_removed]. Qed.

(** Reads the one timestamp of the example. *)
Definition expiry : string := iso_auto (Sample.noon + 315 * US_SECOND) +:+ "+00:00".
Definition vetting_env : Env :=
  Sample.deployment_of (Sample.mkOutside Sample.sample_config (λ k m, k +:+ m)
    (λ n, "token-" +:+ pretty (N.of_nat n)) None
    (λ text, if bool_decide (text = expiry) then Some (Sample.noon + 315 * US_SECOND) else None)
    None (λ _ _ _, false) (λ _, None) ["password"] true).

(** Bob asks for Alice's account and confirms it. *)
Definition bobs_session : gmap string jval := <["user_id" := JInt 2]> Sample.sample_session.
Definition bobs_code : option string :=
  Some (pad 6 (Sample.noon / US_SECOND / 30 mod 1000000)).
Definition bob_asks : Call :=
  mkCall 1 vetting_env (set_session bobs_session Sample.sample_state)
    (Visiting (PayeesAddSubmit true
       (mkAddPayeeForm (Some " Alice ") (Some "111111111111") bobs_code))).
(** The next request of the same browser. *)
Definition next_call (c : Call) (r : Request) : Call :=
  let st := after c in mkCall (cl_browser c) (cl_env c) (set_working (committed st) st) r.
Lemma history_next d h k c r :
  history d h (<[cl_browser c := kept (session (after c))]> k) (committed (after c)) →
  ∃ k', history d (h ++ [next_call c r]) k' (committed (after (next_call c r))).
Proof.
  intros Hh. eexists. eapply history_call; [exact Hh|done|done|left]. cbn. by rewrite fn_lookup_insert.
Qed.
Definition bob_confirms : Call := next_call bob_asks (Visiting (PayeesConfirmSubmit true)).

Lemma payees_are_vetted_witness :
  let d' := committed (after bob_confirms) in
  (payees d' !! 8 = Some (mkPayee 2 "Alice" "111111111111" "alice" (Sample.noon + 18 * US_SECOND)))
  ∧ payees Sample.sample_db !! 8 = None
  ∧ asked_and_confirmed [bob_asks; bob_confirms] 8
      (mkPayee 2 "Alice" "111111111111" "alice" (Sample.noon + 18 * US_SECOND)).
Proof.
  intros d'. assert (payees d' !! 8 = Some (mkPayee 2 "Alice" "111111111111" "alice"
    (Sample.noon + 18 * US_SECOND))) as Hrow by (vm_compute; reflexivity).
  split; [exact Hrow|]. split; [vm_compute; reflexivity|].
  assert (∃ k', history Sample.sample_db [bob_asks; bob_confirms] k' d') as [k' Hh].
  { apply (history_next _ [bob_asks] (λ _, (None, None)) bob_asks).
    apply (history_call _ [] _ Sample.sample_db bob_asks (history_start _)); [reflexivity|reflexivity|].
    right. vm_compute. reflexivity. }
  destruct (proj1 (payees_are_vetted Sample.sample_db [bob_asks; bob_confirms] k' d' Hh) 8 _ Hrow)
    as [Hd|?]; [|assumption]. exfalso.
  assert (payees Sample.sample_db !! 8 = None) as E by (vm_compute; reflexivity). congruence.
Defined.
End PayeeVetting.
