(* ===== verification/System.v ===== *)
(** * The bank as a whole

    A run of the bank is a sequence of requests, each served from the durable
    database by one of the modelled operations, in its own environment (clock,
    keys, random values, audit and mail failures, client) and with its own
    signed-in session.  Whatever the requests and their outcomes, the durable
    books follow the moves of the abstract ledger and stay sound. *)

From S2P Require Import Prelude PyStr PyDecimal TimeModel Schema Runtime Sample Canonical Integrity.
From S2P Require Import AuditLog SessionRisk BankingPolicy Notifications Sessions RateLimits Mfa.
From S2P Require Import RecoveryCodes LedgerSpec Transfers TransferSafety Registration TopUp.
From S2P Require Import TopUpSafety Settings Statement Guards.
From Stdlib Require Import Relations.
Open Scope string_scope.
Open Scope Z_scope.

Module System.
Import Audit Policy Notifications Sessions Mfa RecoveryCodes LedgerSpec Transfers TransferSafety.
Import Registration TopUp TopUpSafety Settings Statement Guards.

Inductive Request : Type :=
  | LocalTransfer (sender payee_id : Z) (token : string)
  | PayupTransfer (sender : Z) (token : string) (authorized : bool)
  | TopUpSubmit (form : option string)
  | TopUpApprove (token : string) (form : option string)
  | TopUpStatus (user_id : Z) (selector : string)
  | RemovePayee (payee_id : Z) (form : option (option string))
  | ChangeLimits (form : option LimitsForm)
  | Register (data : RegistrationData)
  | DownloadStatement (year month : option string)
  | StepUp (user_id : Z) (code : option string) (action : string)
  | RegenerateCodes (user_id count : Z) (purpose : string) (do_commit audit : bool)
  | RedeemCode (user_id : Z) (code purpose : string) (do_commit : bool)
  | RevokeSessions (user_id : Z) (reason : string) (component : option string).

Definition forget {A} (c : M St A) : M St unit := _ <- c ;; ret tt.

Definition handle `{Env} (r : Request) : M St unit :=
  match r with
  | LocalTransfer s p tok => forget (execute_local_transfer s p tok)
  | PayupTransfer s tok auth => forget (execute_payup_transfer s tok auth)
  | TopUpSubmit form => forget (topup_submit_view form)
  | TopUpApprove tok form => forget (topup_approve_submit tok form)
  | TopUpStatus u sel => forget (topup_status u sel)
  | RemovePayee p form => forget (payees_remove_view p form)
  | ChangeLimits form => forget (transfer_limits_view form)
  | Register data => forget (register_user data)
  | DownloadStatement y m => forget (statement_download_view y m)
  | StepUp u code action => forget (verify_high_risk_authorization u code action true)
  | RegenerateCodes u n purpose c a => forget (generate_recovery_codes_for_user u n purpose c a)
  | RedeemCode u code purpose c => forget (consume_recovery_code u code purpose c)
  | RevokeSessions u reason comp => forget (revoke_all_sessions u reason comp)
  end.

(** One request: the session starts from the durable database, and what it
    did not commit is gone when the request ends. *)
Inductive bank_step (d : Db) : Db → Prop :=
  | bank_serve (E : Env) (r : Request) (st : St) :
      committed st = d → working st = d → bank_step d (committed (@handle E r st).2).

Definition bank_run : Db → Db → Prop := clos_refl_trans_1n Db bank_step.

(** ** Requests that do not touch the books *)

Section Frame.
Context `{Env} (B : Books).

Lemma pres_new_codes n : preserves (settled B) (new_codes n).
Proof. induction n as [|n IH]; simpl; unfold _new_recovery_code; solve_pres. Qed.
Lemma pres_store_code u p c : preserves (settled B) (store_code u p c).
Proof. unfold store_code. solve_pres. Qed.
Hint Resolve pres_new_codes pres_store_code : pres.
Lemma pres_regenerate u n p c a : preserves (settled B) (generate_recovery_codes_for_user u n p c a).
Proof. unfold generate_recovery_codes_for_user. solve_pres. Qed.
Lemma pres_redeem u code p c : preserves (settled B) (consume_recovery_code u code p c).
Proof. unfold consume_recovery_code. solve_pres. Qed.
Lemma pres_topup_submit u form : preserves (settled B) (topup_submit u form).
Proof. unfold topup_submit, generate_topup_token. solve_pres. Qed.
Lemma pres_topup_status u sel : preserves (settled B) (topup_status u sel).
Proof.
  unfold topup_status, load_topup_request_for_owner, _topup_request_by_selector.
  solve_pres. apply pres_lazily_expire.
Qed.
Lemma pres_statement u y m : preserves (settled B) (statement_download u y m).
Proof.
  unfold statement_download, _requested_statement_period, current_period, statement_for_period.
  solve_pres.
Qed.

(** The durable books are as before, or one move further. *)
Definition moved (st : St) : Prop := ∃ B', (B' = B ∨ ledger_step B B') ∧ durable B' st.
Definition one_move {A} (c : M St A) : Prop := ∀ st, settled B st → moved (c st).2.

Lemma moved_not st : durable B st → moved st.
Proof. intros Hd. exists B. auto. Qed.
Lemma moved_step B' st : ledger_step B B' → settled B' st → moved st.
Proof. intros Hs [Hd _]. exists B'. auto. Qed.

Lemma one_move_forget {A} (c : M St A) : one_move c → one_move (forget c).
Proof.
  intros Hc st Hst. specialize (Hc st Hst). unfold forget, bind.
  by destruct (c st) as [[a|e] s'].
Qed.
Lemma one_move_frame {A} (c : M St A) : preserves (settled B) c → one_move c.
Proof. intros Hc st Hst. apply moved_not. by destruct (Hc st Hst). Qed.
Lemma one_move_triple {A} (c : M St A) Q X :
  triple (settled B) c Q X → (∀ a st, Q a st → moved st) → (∀ e st, X e st → moved st) →
  one_move c.
Proof.
  intros Ht HQ HX st Hst. specialize (Ht st Hst). destruct (c st) as [[a|e] st']; eauto.
Qed.
Lemma one_move_guarded {A} (view : Z → M St A) :
  (∀ u, one_move (view u)) → one_move (guarded view).
Proof.
  intros Hv st Hst. destruct (guarded_cases view st) as [(uid & _ & E)|(_ & Hc & _)].
  - rewrite E. specialize (Hv uid st Hst). unfold bind. by destruct (view uid st) as [[a|e] s'].
  - apply moved_not. unfold durable. rewrite Hc. by destruct Hst.
Qed.
Hint Resolve moved_not moved_step settled_durable : core.

Lemma one_move_register data : reconciled B → one_move (register_user data).
Proof.
  intros R st Hst. pose proof (register_triple B data st R Hst st eq_refl) as Ht.
  destruct (register_user data st) as [[r|x] st']; [|destruct Ht as [Hd|Ht]; [by apply moved_not|]];
    destruct Ht as (e & u & _ & (_ & _ & _ & _ & _ & Hl) & Ho);
    (eapply opened_step in Ho as (B' & Hs & Hb); [eauto|by rewrite Hl]).
Qed.

Lemma handle_one_move r : reconciled B → one_move (handle r).
Proof.
  intros R. destruct r; simpl; apply one_move_forget.
  - eapply one_move_triple; [apply local_transfer_triple| |eauto].
    intros ref st (B' & Htr & Hs). eauto using transferred_step.
  - eapply one_move_triple; [apply payup_transfer_triple| |eauto].
    intros ref st (B' & Htr & Hs). eauto using transferred_step.
  - apply one_move_guarded. intros u. apply one_move_frame, pres_topup_submit.
  - eapply one_move_triple; [apply approve_triple| |eauto]. intros page st Hp. cbn beta in Hp.
    destruct (pg_approved page); [|eauto].
    destruct Hp as (B' & id & q & ref & now & _ & Hup & _ & Hs). eauto using topped_up_step.
  - apply one_move_frame, pres_topup_status.
  - apply one_move_guarded. intros u. eapply one_move_triple; [apply remove_triple| |eauto].
    intros [|status] st Hs; [|eauto]. eapply moved_step; [apply step_unlink|exact Hs].
  - apply one_move_guarded. intros u.
    eapply one_move_triple; [apply submit_limits_triple|intros [|status] st Hx|intros e st [Hd|Hx]];
      [|eauto|eauto|].
    all: destruct Hx as (f & payup & local & _ & Hf & Hs); eapply moved_step; [|exact Hs];
      apply step_limits; by eapply chosen_limits_ok.
  - by apply one_move_register.
  - apply one_move_guarded. intros u. apply one_move_frame, pres_statement.
  - apply one_move_frame, pres_high_risk, _.
  - apply one_move_frame, pres_regenerate.
  - apply one_move_frame, pres_redeem.
  - apply one_move_frame, pres_revoke_all_sb, _.
Qed.
End Frame.

Lemma bank_step_refines d d' :
  reconciled (books d) → bank_step d d' → books d' = books d ∨ ledger_step (books d) (books d').
Proof.
  intros R [E r st Hc Hw]. assert (settled (books d) st) as Hst by (by split; f_equal).
  by destruct (handle_one_move (books d) r R st Hst) as (B' & [->|Hs] & Hd); [left|right; rewrite Hd].
Qed.

Lemma bank_run_refines d d' :
  bank_run d d' → sound (books d) → ledger_steps (books d) (books d') ∧ sound (books d').
Proof.
  induction 1 as [|d1 d2 d3 Hstep _ IH]; intros Hs; [split; [constructor|done]|].
  destruct (bank_step_refines _ _ (proj1 Hs) Hstep) as [Eb|Hl].
  - rewrite Eb in IH. auto.
  - destruct IH as [Hsteps Hs3]; [by eapply sound_step|]. split; [by econstructor|done].
Qed.

(** C1: The bank never loses or creates money.  Along any run of the bank, from
    a database whose books are sound, the durable books move only by steps of
    the abstract ledger; afterwards every balance is not negative and equals what
    the ledger says (credits and transfers received, less transfers sent), and
    the balances add up to the credits granted. *)
Theorem bank_conserves_money d d' :
  bank_run d d' → sound (books d) →
  ledger_steps (books d) (books d')
  ∧ (∀ uid row, users d' !! uid = Some row →
       0 ≤ u_balance row ∧ u_balance row = ledger_balance (books d') uid)
  ∧ total_balance (books d') = total_credits (books d').
Proof.
  intros Hrun Hs. destruct (bank_run_refines d d' Hrun Hs) as [Hl [R C]].
  split; [done|]. split; [|apply R]. intros uid row Hu.
  assert (bk_balances (books d') !! uid = Some (u_balance row)) as Hb
    by (simpl; by rewrite lookup_fmap, Hu).
  split; [by eapply rec_nonneg|by apply rec_balance].
Qed.

(** C26: The daily cap holds along every run: from a database whose books are
    sound, after any requests, no customer has sent more than 10,000.00 through
    one channel in one Singapore day, and everyone's limits are within the
    bank's bounds. *)
Theorem bank_caps_daily_spend d d' ty uid t :
  bank_run d d' → sound (books d) → str_in ty ["local_transfer"; "payup"] = true →
  spent_in_day ty uid (sgt_day_start_utc t) (transactions d') ≤ DAILY_CAP
  ∧ (∀ row, users d' !! uid = Some row → limits_ok (user_limits row) = true).
Proof.
  intros Hrun Hs Hty. destruct (bank_run_refines d d' Hrun Hs) as [_ [R C]].
  split; [exact (C ty uid t Hty)|]. intros row Hu. apply (rec_limits _ R uid). simpl.
  by rewrite lookup_fmap, Hu.
Qed.

(** ** Witnesses: a transfer, then a limit change, then a registration *)

Definition serve_from (st : St) (r : Request) (d : Db) : Db :=
  committed (@handle Sample.sample_env r (set_committed d (set_working d st))).2.
Definition serve_on : Request → Db → Db := serve_from Sample.sample_state.
Definition after_transfer : Db := serve_on (LocalTransfer 1 7 "tok") Sample.sample_db.
Definition after_limits : Db :=
  serve_on (ChangeLimits (Some Settings.sample_form)) after_transfer.
Definition after_registration : Db :=
  serve_from Registration.carol_state (Register Registration.carol_data) after_limits.

Lemma sample_run : bank_run Sample.sample_db after_registration.
Proof.
  assert (∀ st r d, bank_step d (serve_from st r d)) as Hstep
    by (intros st r d; apply (bank_serve d Sample.sample_env r); reflexivity).
  do 3 (eapply Relation_Operators.rt1n_trans; [apply Hstep|]). apply rt1n_refl.
Qed.

Lemma conserves_witness :
  (u_balance <$> users after_registration !! 1, u_balance <$> users after_registration !! 2,
   u_balance <$> users after_registration !! 3) = (Some 7500, Some 12500, Some 10000)
  ∧ total_balance (books after_registration) = total_credits (books after_registration).
Proof.
  split; [vm_compute; reflexivity|].
  exact (proj2 (proj2 (bank_conserves_money _ _ sample_run sample_sound))).
Defined.

Lemma caps_witness :
  spent_in_day "local_transfer" 1 (sgt_day_start_utc Sample.noon) (transactions after_registration)
  = 2500
  ∧ spent_in_day "local_transfer" 1 (sgt_day_start_utc Sample.noon)
      (transactions after_registration) ≤ DAILY_CAP.
Proof.
  split; [vm_compute; reflexivity|].
  exact (proj1 (bank_caps_daily_spend _ _ "local_transfer" 1 Sample.noon sample_run sample_sound
    eq_refl)).
Defined.
End System.
